(* ===== verification/_CoqProject ===== *)
-Q . S2P
Prelude.v
PyStr.v
Regex.v
Json.v
Network.v
Errors.v
Schemas.v
StateMachine.v
Jobs.v
AuditTrail.v
Repository.v
Queue.v
Service.v
Scripts.v
Effects.v
Listing.v
World.v
ClientIp.v
RateLimit.v
StreamTickets.v
Metrics.v
Utf8.v
Urls.v
Auth.v
AuthFacts.v
Guest.v
GuestFacts.v
Paths.v
Resolver.v
Placement.v
Applications.v
Certificates.v
Unattend.v
InventoryRefs.v
VCenter.v
VSphere.v
VMwareTools.v
VMwareToolsFacts.v
MockVSphere.v
MockGuest.v
AnswerIso.v
Conflict.v
GuestScripts.v
StageSupport.v
StagesVm.v
VSphereFacts.v
StagesGuest.v
StagesApps.v
Pipeline.v
PipelineFacts.v
Commits.v
SampleWorld.v
VCenterSim.v
RequestBody.v
Catalog.v
CatalogFacts.v
Credentials.v
Settings.v
Bootstrap.v
CertificateAdmin.v
VCenterAdmin.v
Preflight.v
PreflightFacts.v
PreflightStage.v
Execution.v
MockWorld.v
Engine.v
JobApi.v
Monitoring.v
LogLines.v
EventStream.v
LogViews.v
AuditLog.v
Inbox.v
ProvisioningApi.v
Api.v
Responses.v
Migrations.v
DatabaseRoles.v
WorkerLoop.v
