(* ===== verification/Prelude.v ===== *)
(** * InfraOps: a verification library for the provisioning platform

    InfraOps takes a request for a Windows server, checks it, queues it as a
    job, and has a worker create and configure the virtual machine stage by
    stage through vCenter and VMware Tools.  This library models the Python
    backend under [src/backend/app] and proves what makes it correct.  File
    names below are relative to that directory.

    ** The parts and how they meet

    A request of a user passes the HTTP interface ([api/v1/*]), which
    authorizes it by its route.  A submission
    ([services/provisioning/service.py]) passes the request schema and the
    preflight validation and becomes a row of the job table.  Workers
    ([workers/engine.py]) claim rows, run the pipeline ([workers/pipeline.py])
    over the table of stage handlers ([workers/stages.py]), send heartbeats and
    write the outcome.  Users follow, retry and cancel jobs while workers run;
    the reaper takes jobs back from workers that went silent.  Administrators
    keep the catalogs, connections, credentials and settings the stages read.
    Stages act on vCenter, on the guest, on secrets and on catalog tables
    through interfaces.

    - Base.  [Prelude]: result type, record updates, list lemmas, hints.
      [PyStr]: [str] methods.  [Utf8], [Urls]: decoding and URLs as the
      standard library does them.  [Regex]: patterns, decided by derivatives.
      [Json]: [json.loads] and [json.dumps].  [Listing]: ordered, paginated
      queries.  [Network]: IPv4 arithmetic and
      [services/network/validation.py].  [Errors]: [core/errors.py].
    - Requests and jobs.  [Schemas], [RequestBody]: [schemas/provisioning.py],
      the rules and the JSON documents.  [StateMachine]:
      [workers/state_machine.py].  [Jobs]: [models/jobs.py].
      [AuditTrail]: [audit/recorder.py], the redaction of [core/logging.py],
      [services/notifications.py].  [Repository], [Queue]:
      [repositories/jobs.py] on one job and on the table.  [Service]:
      [services/provisioning/service.py], and the transition system of the
      table ([queue_step]).
    - Effects.  [Effects]: the state of a run and its monad.  [World]: the
      interfaces as classes, the settings overlay of
      [services/settings_store.py].
    - Access.  [Auth], [AuthFacts]: [auth/*], [core/security.py] and the session
      endpoints of [api/v1/auth.py].  [ClientIp], [RateLimit],
      [StreamTickets], [Metrics]: the modules of [core/] and [auth/] of the
      same names.
    - Services.  [Scripts], [Guest]: [services/guest/scripts.py], [base.py].
      [Paths], [Resolver], [Applications]: [services/applications/*].
      [Certificates]: [services/certificates/*].  [Placement], [Preflight]:
      [services/provisioning/*].  [Unattend], [AnswerIso]:
      [services/windows_unattend.py], [windows_media.py].  [Conflict]:
      [services/network/conflict.py].
    - vCenter and guests.  [InventoryRefs]: [services/vmware/inventory_refs.py].
      [VCenter]: what the adapter reads and calls, as a class.  [VSphere],
      [VSphereFacts]: [services/vmware/vsphere.py], an instance of
      [VMwareService].  [VMwareTools], [VMwareToolsFacts]:
      [services/guest/vmware_tools.py], an instance of [GuestOperations].
      [GuestFacts]: what every such instance makes of scripts and secrets.
      [VCenterSim]: a simulated vCenter that satisfies the laws, for the
      witnesses.  [MockVSphere], [MockGuest], [MockWorld]: the mock mode
      ([services/vmware/mock.py], [services/guest/mock.py]), an instance of
      [World] the whole pipeline evaluates on.
    - Stages and pipeline.  [GuestScripts], [StageSupport], [StagesVm],
      [StagesGuest], [StagesApps]: [workers/stages.py] in the order of the
      file.  [Pipeline]: [workers/pipeline.py].  [Engine], [WorkerLoop]:
      [workers/engine.py], [workers/context.py], one job and the main loop.
    - Theorems on whole runs.  [PipelineFacts] (any handlers that respect the
      bookkeeping), [Commits] (every committed row), [Execution] (the real
      handlers), [PreflightFacts], [PreflightStage].  [SampleWorld] is a
      concrete world for witnesses and runs.
    - Administration.  [Catalog], [CatalogFacts]: [api/v1/admin_applications.py].
      [CertificateAdmin], [VCenterAdmin]: the endpoints of the same names, with
      discovery and the TLS policy of connections.  [Credentials]: [secrets/*]
      and their endpoints.  [Settings]: [api/v1/admin_platform.py].
      [Bootstrap]: [bootstrap.py] and the checks of [core/config.py].
    - What users see.  [JobApi], [EventStream], [ProvisioningApi]:
      [api/v1/provisioning.py].  [LogViews], [AuditLog], [Inbox],
      [Monitoring]: [api/v1/logs.py], [audit.py], [notifications.py],
      [dashboard.py] and [health.py].  [LogLines]: the formatters of
      [core/logging.py], and facts on JSON text.
    - The site.  [Api]: every endpoint that changes state behind its
      authorization, over one record of all tables.  [Responses]: exception
      handlers, middleware, status codes, the session cookie.  [Migrations],
      [DatabaseRoles]: [migrations/versions/*] and [db/roles.py].

    Every operation of the source is a definition of the same name where Rocq
    allows it.  State is explicit: a job is a record with its list of steps,
    the table a list of jobs, a run the record [Run].  A handler is a term of
    the monad [M]; [call] is an await of a collaborator, at which a pending
    timeout, cancellation or shutdown may strike, before or after the effect.
    Theorems about stages, pipeline and worker hold for every instance of
    [World]: collaborators may answer anything and fail anywhere.

    ** What the theorems show

    - Runs: a run settles in the right final status ([execute_settles]),
      resumes without repeating finished work ([execute_resumes]), starts
      stages in order ([execute_in_order]); a stage that waits ends by its own
      deadline ([stages_end_themselves]).
    - Refinement: [Service.queue_step] is the abstract behaviour of the table;
      [worker_refines_queue] shows that all the worker commits are its steps,
      interleaved with those of others, as long as these leave the row of its
      job alone.  [reservations_exclusive] (no two active jobs share a name, an
      address or a key) holds under stale reads, [job_lifecycle] for requests
      that decide on the current row ([cancel_race] is one that does not);
      [worker_leaves_no_orphan] is its progress part.  Claims and idempotent
      submission: [claim_due_jobs_spec], [claims_disjoint],
      [idempotent_submission].  The main loop never holds more than its slots
      ([worker_holds_what_it_runs]) and ends after a stop
      ([stopped_worker_ends]).
    - The site: any requests in any order keep every table consistent
      ([site_stays_consistent]), change nothing without an account that may,
      and leave a trail ([api_accountable], commit by commit: a retry and a
      cancellation commit the job first); the status of an answer tells
      whether the request went through ([status_tells_outcome]).
    - Validation: exact descriptions of what is admitted ([ipv4_config_spec],
      [mask_to_prefix_spec], [path_within_roots_spec]), the stored request
      reads back as the validated one ([stored_request_reads_back]), schema and
      preflight agree, and the preflight changes nothing and reports every
      failure as a blocking check ([preflight_reports]), with a verdict that,
      when all disks use one datastore, carries over to the job in an unchanged
      world ([ready_request_revalidates]).
    - Algorithms: installation order ([resolve_install_order_spec]), datastore
      choice, progress in binary64 ([compute_progress_exact]), timeline, retry.
    - Administration: the catalog stays installable, and a registered certificate
      is accepted by the script builders ([catalog_stays_installable],
      [registered_certificates_accepted]), the
      settings shown are those in force ([settings_in_force]), credentials
      resolve to what was entered under every key rotation
      ([created_credential_resolves], [key_rotation_preserves]), a first start
      leaves an administrator ([bootstrap_administers]).
    - vCenter and guest: the creation stage over the real adapter touches no
      other machine and never adopts one ([stage_create_vm_owns]); disks are
      added once and on free units ([add_data_disks_once]); [detach_leaves],
      [one_adapter]; the runner of a program the guest adapter reports on has
      ended, unless vCenter refused the termination ([tools_runner_ends]), and
      a script leaves no secret behind except where an upload or a deletion
      failed ([run_powershell_leaves_no_secret]).
    - Access: rotation and revocation of sessions ([rotated_token_is_dead]),
      authorization by the current account ([authorization_follows_account]),
      client addresses ([client_ip_unspoofable]), rate limits
      ([rate_limit_exact]), single-use tickets ([consume_once]), redaction
      ([audit_details_redacted], [audit_details_shown]), quoting
      ([ps_quote_reads_back]), the session cookie ([refresh_cookie_guarded]),
      certificate verification ([tls_policy]).
    - Observers: the event stream loses nothing that publish/subscribe does not
      lose ([event_stream_no_gap]).
    - Upgrades: every database of the previous release can be upgraded and then
      run ([upgrade_0009_total], [upgrade_path]), the names and addresses of
      running jobs become reservations ([upgrade_0007_reserves]), and back
      ([downgrade_0009_total], [rollback_0007]).
    - Defects the models exhibit, each on a concrete run: [cancel_race],
      [late_cancel_completes], [early_cancel_audited_twice],
      [second_failure_keeps_media], [retry_forgets_rename],
      [preflight_blind_spots], [typographic_quote_escapes],
      [logout_misses_concurrent_rotation], [histogram_undercounts],
      [resumed_creation_keeps_boot_order], [concurrent_edits_make_cycle],
      [name_mistaken_for_cycle], [rename_takes_name],
      [failed_poll_leaves_process], [interrupted_start_leaves_process],
      [interrupted_upload_leaves_secret], [partial_timeouts_reset],
      [sha256_never_verified], [quoted_labels_collide],
      [screenshot_path_line_feed], [ip_check_without_inventory],
      [reclaimed_job_escapes], [no_grace_waits],
      [interrupted_between_stages].

    ** Conventions and bounds

    Strings are UTF-8 bytes; case mapping, character classes and lengths are
    those of Python on ASCII text.  JSON numbers are integers.  Times are
    microseconds, datastore sizes tenths of a gigabyte, both exact integers;
    the progress figure is computed in IEEE binary64.  A Python set is
    iterated in the order of first occurrence.  Random identifiers, clocks and
    library functions (JWT, scrypt, SHA-256, Fernet, X.509, pyVmomi, Redis,
    pydantic's conversions, SQL's [ILIKE]) are parameters; their laws are stated
    as classes and each has an instance.

    Polling loops run on fuel.  [POLL_FUEL] (5000) exceeds the number of polls
    any stage makes within its largest configurable timeout at its smallest
    interval, so that their deadlines end them before it is used up
    ([stages_end_themselves]).
    [search_fuel] is one more than the size of the catalog, and
    [resolve_install_order_spec] shows that it is never used up.  The waits of
    the adapters have as many polls as their time limit admits, and more change
    nothing: [polls_enough], [wait_for_tools_ends], [mock_wait_ends];
    [event_loop_ends] is the same for the event stream.  [TASK_POLLS]
    and [QUESTION_POLLS] bound the waiting for vCenter tasks, which the code
    leaves to the stage timeout.

    ** Not modelled

    The TypeScript frontend.  The start of the application: the FastAPI
    object, dependency injection, lifespan, CORS.  The SQLAlchemy session and
    the declarations of columns (rows are records, statements functions), and
    the migrations that only create or drop tables and columns.  A database
    that fails while a run or a request commits.  What PostgreSQL makes of the
    grants of the runtime role: [DatabaseRoles] has the statements only.  The
    set-up of the root logger; the socket of the metrics endpoint.  asyncio scheduling
    outside the cancellation model and the step relation of the worker loop.
    Of vCenter's objects only what the adapter reads; figures that are only
    displayed (load of hosts, usage in percent, sizes of images). *)

From Stdlib Require Import ZArith Lia Ascii String List Bool.
From stdpp Require Import base tactics list strings gmap fin_maps pretty sorting.

#[global] Set Default Goal Selector "!".

(** ** Scopes and notations of the library *)

Declare Scope infra_scope.
Delimit Scope infra_scope with infra.

(** Short names for the byte strings the models are written in. *)
#[global] Open Scope Z_scope.

(** ** Record updates

    [r <| f := v |>] is the record [r] with field [f] replaced.  The setter of
    a field is derived from the eta expansion of its record: abstracting the
    projection in [fun r => Mk (f1 r) ... (fn r)] and plugging the constant
    function in its place. *)

Class Eta (R : Type) := eta_expansion : R -> R.

Class Setter {R T : Type} (proj : R -> T) := put_field : T -> R -> R.

Ltac derive_setter :=
  lazymatch goal with
  | |- @Setter ?R ?T ?proj =>
      let inst := constr:(_ : Eta R) in
      let full := eval hnf in inst in
      let abs := eval pattern proj in full in
      lazymatch abs with
      | ?body _ =>
          let r := eval cbv beta in (fun v : T => body (fun _ : R => v)) in
          exact r
      end
  end.

#[export] Hint Extern 1 (Setter _) => derive_setter : typeclass_instances.

Arguments put_field {R T} proj {_} _ _ /.

Notation "r <| f := v |>" := (put_field f v r)
  (at level 1, left associativity, format "r  <| f  :=  v |>") : infra_scope.

#[global] Open Scope infra_scope.

(** ** Tactics and hints *)

Create HintDb infra.
Create HintDb clock.

(** Split every [match] and [if] of the goal or of a hypothesis. *)
Ltac case_all :=
  repeat match goal with
  | |- context [match ?x with _ => _ end] => destruct x eqn:?
  | H : context [match ?x with _ => _ end] |- _ => destruct x eqn:?
  end.

(** Boolean hypotheses to propositions. *)
Ltac bools :=
  repeat match goal with
  | H : (_ && _)%bool = true |- _ => apply andb_true_iff in H; destruct H
  | H : (_ || _)%bool = false |- _ => apply orb_false_iff in H; destruct H
  | H : negb _ = true |- _ => apply negb_true_iff in H
  | H : negb _ = false |- _ => apply negb_false_iff in H
  | H : bool_decide _ = true |- _ => apply bool_decide_eq_true in H
  | H : bool_decide _ = false |- _ => apply bool_decide_eq_false in H
  | H : (_ =? _)%Z = true |- _ => apply Z.eqb_eq in H
  | H : (_ =? _)%Z = false |- _ => apply Z.eqb_neq in H
  | H : (_ <=? _)%Z = true |- _ => apply Z.leb_le in H
  | H : (_ <=? _)%Z = false |- _ => apply Z.leb_gt in H
  | H : (_ <? _)%Z = true |- _ => apply Z.ltb_lt in H
  | H : (_ <? _)%Z = false |- _ => apply Z.ltb_ge in H
  end.

(** ** Fallible computations

    [Ok] carries a value, [Err] the error of the model at hand. *)

Inductive res (E A : Type) : Type :=
| Ok (a : A)
| Err (e : E).
Arguments Ok {E A} a.
Arguments Err {E A} e.

Definition res_bind {E A B} (m : res E A) (k : A -> res E B) : res E B :=
  match m with
  | Ok a => k a
  | Err e => Err e
  end.

Definition is_ok {E A} (m : res E A) : bool :=
  match m with Ok _ => true | Err _ => false end.

Notation "'let?' x ':=' m 'in' k" := (res_bind m (fun x => k))
  (at level 10, x binder, m at level 100, k at level 200) : infra_scope.

Lemma res_bind_ok {E A B} (m : res E A) (k : A -> res E B) (b : B) :
  res_bind m k = Ok b <-> exists a, m = Ok a /\ k a = Ok b.
Proof. destruct m; simpl; naive_solver. Qed.

(** ** JSON values

    Artifacts of a step, stored requests and settings are JSON documents. *)

Inductive json :=
| JNull
| JBool (b : bool)
| JNum (n : Z)
| JStr (s : string)
| JArr (l : list json)
| JObj (l : list (string * json)).

(** Python truth value of a decoded JSON value. *)
Definition truthy (v : json) : bool :=
  match v with
  | JNull => false
  | JBool b => b
  | JNum n => negb (n =? 0)
  | JStr s => negb (String.eqb s EmptyString)
  | JArr l => match l with [] => false | _ => true end
  | JObj l => match l with [] => false | _ => true end
  end.

(** [bool(d.get(k))] and [d.get(k)] of a dict. *)
Definition get_truthy (d : gmap string json) (k : string) : bool :=
  match d !! k with Some v => truthy v | None => false end.

(** A truthy string entry; [None] when it is absent, empty or no string. *)
Definition get_text (d : gmap string json) (k : string) : option string :=
  match d !! k with
  | Some (JStr EmptyString) => None
  | Some (JStr s) => Some s
  | _ => None
  end.

(** Dict update: [merged.update(extra)]. *)
Definition dict_update (d extra : gmap string json) : gmap string json := extra ∪ d.

Lemma dict_update_keep d extra k :
  extra !! k = None -> dict_update d extra !! k = d !! k.
Proof. intros H. unfold dict_update. by apply lookup_union_r. Qed.

Lemma dict_update_new d extra k v :
  extra !! k = Some v -> dict_update d extra !! k = Some v.
Proof. intros H. unfold dict_update. by apply lookup_union_Some_l. Qed.

(** ** Lists *)

(** [next((x for x in l if p(x)), None)] *)
Definition find_first {A} (p : A -> bool) (l : list A) : option A := List.find p l.

Lemma find_first_some {A} (p : A -> bool) l x :
  find_first p l = Some x -> In x l /\ p x = true.
Proof. apply List.find_some. Qed.

Lemma find_first_none {A} (p : A -> bool) l : find_first p l = None -> Forall (fun x => p x = false) l.
Proof. intros F. apply List.Forall_forall. intros x I. by apply (List.find_none p l F). Qed.

(** [sum(1 for x in l if p(x))] *)
Definition count {A} (p : A -> bool) (l : list A) : Z := Z.of_nat (List.length (List.filter p l)).

Lemma count_cons {A} (p : A -> bool) x l :
  count p (x :: l) = (if p x then 1 else 0) + count p l.
Proof. unfold count. simpl. destruct (p x); simpl List.length; lia. Qed.

Lemma count_bounds {A} (p : A -> bool) l : 0 <= count p l <= Z.of_nat (List.length l).
Proof.
  induction l as [|x l IH]; [by vm_compute|].
  rewrite count_cons. simpl List.length. destruct (p x); lia.
Qed.

(** Two disjoint predicates never count an element twice. *)
Lemma count_disjoint {A} (p q : A -> bool) l :
  (forall x, p x = true -> q x = false) ->
  count p l + count q l <= Z.of_nat (List.length l).
Proof.
  intros H. induction l as [|x l IH]; [by vm_compute|].
  rewrite !count_cons. simpl List.length.
  specialize (H x). destruct (p x); [rewrite H by done|]; [lia|].
  destruct (q x); lia.
Qed.

#[export] Hint Rewrite @length_map @length_app @length_rev : infra.

Lemma count_ext {A} (p q : A -> bool) l : (forall x, x ∈ l -> p x = q x) -> count p l = count q l.
Proof.
  induction l as [|x l IH]; intros H; [done|]. rewrite !count_cons, (H x) by by left.
  f_equal. apply IH. intros y Hy. apply H. by right.
Qed.

Lemma count_zero {A} (p : A -> bool) l : count p l = 0 -> forall x, x ∈ l -> p x = false.
Proof.
  induction l as [|y l IH]; intros H x Hx; [by apply elem_of_nil in Hx|].
  rewrite count_cons in H. pose proof (count_bounds p l). apply elem_of_cons in Hx as [->|Hx].
  - destruct (p y); [simpl in H; lia|done].
  - apply IH; [destruct (p y); simpl in H; lia|done].
Qed.

Lemma count_none {A} (p : A -> bool) l : (forall x, x ∈ l -> p x = false) -> count p l = 0.
Proof.
  induction l as [|y l IH]; intros H; [done|]. rewrite count_cons, (H y) by by left.
  rewrite IH; [done|]. intros x Hx. apply H. by right.
Qed.

(** One element leaves the predicate. *)
Lemma count_drop {A} `{EqDecision A} (p q : A -> bool) x l :
  NoDup l -> x ∈ l -> p x = true -> q x = false -> (forall y, y <> x -> p y = q y) -> count q l = count p l - 1.
Proof.
  induction l as [|y l IH]; intros ND Hx Px Qx E; [by apply elem_of_nil in Hx|].
  apply NoDup_cons in ND as [Ny ND]. rewrite !count_cons. apply elem_of_cons in Hx as [->|Hx].
  - rewrite Px, Qx. rewrite (count_ext q p); [simpl; lia|]. intros z Hz. symmetry. apply E. by intros ->.
  - rewrite (E y) by (by intros ->). rewrite IH; auto. lia.
Qed.

Lemma nodup_map_filter {A B} (f : A -> B) (p : A -> bool) l : NoDup (List.map f l) -> NoDup (List.map f (List.filter p l)).
Proof.
  induction l as [|x l IH]; intros ND; simpl; [constructor|]. apply NoDup_cons in ND as [Nx ND].
  destruct (p x); [|auto]. simpl. apply NoDup_cons. split; [|auto].
  intros (y & E & Hy)%list_elem_of_fmap. apply Nx, list_elem_of_fmap. exists y. split; [done|].
  by apply list_elem_of_In, filter_In in Hy as [Hy%list_elem_of_In _].
Qed.

Lemma nodup_snoc {A} (l : list A) x : NoDup l -> x ∉ l -> NoDup (l ++ [x]).
Proof. intros N I. apply NoDup_app. split_and!; [done| |apply NoDup_singleton]. intros y Iy ->%list_elem_of_singleton. done. Qed.

Lemma forall_filter {A} (P : A -> Prop) (p : A -> bool) l : Forall P l -> Forall P (List.filter p l).
Proof. rewrite !List.Forall_forall. intros F x [I _]%List.filter_In. by apply F. Qed.

Lemma nodup_map_inj {A B} (f : A -> B) l a b : NoDup (List.map f l) -> In a l -> In b l -> f a = f b -> a = b.
Proof.
  induction l as [|x l IH]; [done|]. cbn. intros [Nx N]%NoDup_cons Ha Hb E. rewrite list_elem_of_In, in_map_iff in Nx.
  destruct Ha as [->|Ha], Hb as [->|Hb]; [done|destruct Nx; by exists b|destruct Nx; by exists a|by apply IH].
Qed.

(** A key that updates keep or clear stays unique. *)
Lemma omap_map_nodup {A B} (key key' : A -> option B) (f : A -> A) l :
  (forall x, In x l -> key' (f x) = key x \/ key' (f x) = None) -> NoDup (omap key l) -> NoDup (omap key' (List.map f l)).
Proof.
  induction l as [|x l IH]; [constructor|]. cbn. intros K N.
  assert (Kl : forall y, In y l -> key' (f y) = key y \/ key' (f y) = None) by (intros; apply K; by right).
  assert (Sl : forall b, b ∈ omap key' (List.map f l) -> b ∈ omap key l).
  { intros b (y & I & E)%list_elem_of_omap. apply list_elem_of_In, in_map_iff in I as (z & <- & I).
    apply list_elem_of_omap. exists z. split; [by apply list_elem_of_In|]. destruct (Kl z I) as [<-|M]; [done|by rewrite M in E]. }
  destruct (K x (or_introl eq_refl)) as [E|E]; rewrite E.
  - destruct (key x) as [b|]; [|by apply IH]. apply NoDup_cons in N as [Nb N]. apply NoDup_cons. split; [|by apply IH].
    intros I. by apply Nb, Sl.
  - apply IH; [done|]. destruct (key x); [by apply NoDup_cons in N as [_ N]|done].
Qed.

Lemma existsb_map {A} (p : A -> bool) (f : A -> A) l : (forall x, In x l -> p (f x) = p x) -> existsb p (List.map f l) = existsb p l.
Proof.
  induction l as [|x l IH]; [done|]. intros E. cbn. rewrite E by by left. f_equal. apply IH. intros y I. apply E. by right.
Qed.

Lemma last_cons {A} (x : A) l d : List.last (x :: l) d = List.last l x.
Proof. revert x d. induction l as [|y l IH]; intros x d; [done|]. change (List.last (y :: l) d = List.last (y :: l) x). by rewrite !IH. Qed.

Lemma last_app {A} (l m : list A) d : List.last (l ++ m) d = List.last m (List.last l d).
Proof. revert d. induction l as [|x l IH]; intros d; [done|]. cbn [app]. by rewrite !last_cons. Qed.
