(* ===== verification/PyStr.v ===== *)
(** * Python string operations

    [str] methods the backend uses, over byte strings.  Case mapping and
    character classes follow Python on ASCII; a non-ASCII character is a run
    of bytes that no class contains, and lengths count bytes. *)

From Stdlib Require Import ZArith Lia Ascii String List Bool.
From stdpp Require Import base tactics list strings pretty.
From S2P Require Import Prelude.

Local Open Scope string_scope.

(** Characters the sources build strings with. *)
Definition char_of (n : nat) : ascii := ascii_of_nat n.
Definition DQ : string := String (char_of 34) "".
Definition SQ : string := "'".
Definition BS : string := String (char_of 92) "".
Definition NL : string := String (char_of 10) "".
Definition CRLF : string := String (char_of 13) NL.

(** ** Character classes *)

Definition in_range (lo hi : nat) (c : ascii) : bool :=
  let n := nat_of_ascii c in (lo <=? n)%nat && (n <=? hi)%nat.

Definition is_lower (c : ascii) : bool := in_range 97 122 c.
Definition is_upper (c : ascii) : bool := in_range 65 90 c.
Definition is_digit (c : ascii) : bool := in_range 48 57 c.
Definition is_alnum (c : ascii) : bool := is_lower c || is_upper c || is_digit c.
Definition is_hex (c : ascii) : bool := is_digit c || in_range 97 102 c || in_range 65 70 c.
(** [str.isspace] on ASCII: HT..CR, the separators FS..US and the blank. *)
Definition is_space (c : ascii) : bool := in_range 9 13 c || in_range 28 31 c || in_range 32 32 c.

Definition lower_char (c : ascii) : ascii :=
  if is_upper c then ascii_of_nat (nat_of_ascii c + 32) else c.
Definition upper_char (c : ascii) : ascii :=
  if is_lower c then ascii_of_nat (nat_of_ascii c - 32) else c.

(** ** Strings as lists *)

Definition chars (s : string) : list ascii := list_ascii_of_string s.
Definition text (l : list ascii) : string := string_of_list_ascii l.

Lemma text_chars s : text (chars s) = s.
Proof. apply string_of_list_ascii_of_string. Qed.

Lemma chars_text l : chars (text l) = l.
Proof. apply list_ascii_of_string_of_list_ascii. Qed.

Lemma chars_app s t : chars (s ++ t) = (chars s ++ chars t)%list.
Proof. induction s as [|c s IH]; simpl; [done|]. by rewrite IH. Qed.

Lemma text_app l k : text (l ++ k)%list = text l ++ text k.
Proof. induction l as [|c l IH]; simpl; [done|]. by rewrite IH. Qed.

Lemma chars_inj s t : chars s = chars t -> s = t.
Proof. intros H. rewrite <- (text_chars s), <- (text_chars t). by rewrite H. Qed.

Lemma str_app_assoc s t u : (s ++ t) ++ u = s ++ (t ++ u).
Proof. apply chars_inj. rewrite !chars_app. by rewrite app_assoc. Qed.

Lemma chars_length s : List.length (chars s) = String.length s.
Proof. induction s; simpl; congruence. Qed.

#[export] Hint Rewrite text_chars chars_text chars_app text_app : infra.

(** [len(s)] *)
Definition len (s : string) : Z := Z.of_nat (String.length s).

(** [s.lower()], [s.upper()]; [s.casefold()] agrees with [lower] on ASCII. *)
Definition lower (s : string) : string := text (List.map lower_char (chars s)).
Definition upper (s : string) : string := text (List.map upper_char (chars s)).
Definition casefold (s : string) : string := lower s.

(** [s.isdigit()] *)
Definition isdigit (s : string) : bool :=
  match s with "" => false | _ => forallb is_digit (chars s) end.

(** ** Stripping *)

Fixpoint drop_while {A} (p : A -> bool) (l : list A) : list A :=
  match l with
  | [] => []
  | x :: r => if p x then drop_while p r else l
  end.

Definition lstrip_by (p : ascii -> bool) (s : string) : string := text (drop_while p (chars s)).
Definition rstrip_by (p : ascii -> bool) (s : string) : string :=
  text (rev (drop_while p (rev (chars s)))).

(** [s.strip()] *)
Definition strip (s : string) : string := rstrip_by is_space (lstrip_by is_space s).
(** [s.rstrip(c)] for one character. *)
Definition rstrip_char (c : ascii) (s : string) : string := rstrip_by (Ascii.eqb c) s.

Lemma drop_while_head {A} (p : A -> bool) l :
  drop_while p l = [] \/ exists x r, drop_while p l = x :: r /\ p x = false.
Proof.
  induction l as [|x l IH]; simpl; [by left|].
  destruct (p x) eqn:E; [done|]. right. eauto.
Qed.

Lemma drop_while_suffix {A} (p : A -> bool) l :
  exists k, l = (k ++ drop_while p l)%list /\ forallb p k = true.
Proof.
  induction l as [|x l IH]; simpl; [by exists []|].
  destruct (p x) eqn:E; [|by exists []].
  destruct IH as (k & Hk & Hp). exists (x :: k). simpl. rewrite E, Hp. split; [congruence|done].
Qed.

Lemma drop_while_id {A} (p : A -> bool) l :
  (forall x r, l = x :: r -> p x = false) -> drop_while p l = l.
Proof. destruct l as [|x l]; simpl; [done|]. intros H. by rewrite (H x l). Qed.

Lemma rstrip_by_last p s c :
  rstrip_by p (s ++ String c "") =
  if p c then rstrip_by p s else s ++ String c "".
Proof.
  unfold rstrip_by. rewrite chars_app, rev_app_distr. simpl.
  destruct (p c); [done|]. simpl. rewrite rev_involutive.
  rewrite text_app, text_chars. done.
Qed.

Lemma rstrip_by_ends p s :
  rstrip_by p s = "" \/ exists t c, rstrip_by p s = t ++ String c "" /\ p c = false.
Proof.
  unfold rstrip_by. destruct (drop_while_head p (rev (chars s))) as [-> | (x & r & -> & Hp)].
  - by left.
  - right. exists (text (rev r)), x. simpl. rewrite text_app. done.
Qed.

Lemma rstrip_by_idemp p s : rstrip_by p (rstrip_by p s) = rstrip_by p s.
Proof.
  destruct (rstrip_by_ends p s) as [-> | (t & c & -> & Hp)]; [done|].
  rewrite rstrip_by_last. by rewrite Hp.
Qed.

Lemma strip_idemp s : strip (strip s) = strip s.
Proof.
  unfold strip at 1. replace (lstrip_by is_space (strip s)) with (strip s); [apply rstrip_by_idemp|].
  unfold strip, rstrip_by, lstrip_by. rewrite !chars_text.
  set (m := drop_while is_space (chars s)).
  destruct (drop_while_suffix is_space (rev m)) as (k & E & _). apply (f_equal (@rev ascii)) in E.
  rewrite rev_involutive, rev_app_distr in E.
  rewrite (drop_while_id _ (rev (drop_while is_space (rev m)))); [done|]. intros x r Ex. rewrite Ex in E. cbn in E.
  destruct (drop_while_head is_space (chars s)) as [D|(y & l & D & Hy)]; fold m in D; rewrite D in E; [done|].
  by injection E as ->.
Qed.

(** ** Searching *)

Fixpoint starts (p l : list ascii) : bool :=
  match p, l with
  | [], _ => true
  | a :: p', b :: l' => Ascii.eqb a b && starts p' l'
  | _ :: _, [] => false
  end.

Fixpoint occurs (p l : list ascii) : bool :=
  starts p l || match l with [] => false | _ :: r => occurs p r end.

(** [s.startswith(p)], [s.endswith(p)], [p in s] *)
Definition startswith (s p : string) : bool := starts (chars p) (chars s).
Definition endswith (s p : string) : bool := starts (rev (chars p)) (rev (chars s)).
Definition contains (s p : string) : bool := occurs (chars p) (chars s).

Lemma starts_spec p l : starts p l = true <-> exists r, l = (p ++ r)%list.
Proof.
  revert l. induction p as [|a p IH]; intros l; simpl.
  - naive_solver.
  - destruct l as [|b l]; [naive_solver|].
    rewrite andb_true_iff, Ascii.eqb_eq, IH. naive_solver.
Qed.

Lemma startswith_spec s p : startswith s p = true <-> exists r, s = p ++ r.
Proof.
  unfold startswith. rewrite starts_spec. split; intros [r H].
  - exists (text r). apply chars_inj. by rewrite chars_app, chars_text.
  - exists (chars r). by rewrite H, chars_app.
Qed.

Lemma occurs_spec p l : occurs p l = true <-> exists a b, l = (a ++ p ++ b)%list.
Proof.
  induction l as [|x l IH]; simpl.
  - rewrite orb_false_r, starts_spec. split.
    + intros [r H]. by exists [], r.
    + intros (a & b & H). destruct a; [|done]. by exists b.
  - rewrite orb_true_iff, starts_spec, IH. split.
    + intros [[r H] | (a & b & H)]; [by exists [], r|]. exists (x :: a), b. by rewrite H.
    + intros (a & b & H). destruct a as [|y a].
      * left. by exists b.
      * right. exists a, b. simpl in H. congruence.
Qed.

Lemma occurs_one c l : occurs [c] l = true <-> In c l.
Proof.
  rewrite occurs_spec. split.
  - intros (a & b & ->). rewrite in_app_iff. right. by left.
  - intros H. apply in_split in H as (a & b & ->). by exists a, b.
Qed.

Lemma contains_char s c : contains s (String c "") = false <-> ~ In c (chars s).
Proof.
  unfold contains. rewrite <- occurs_one. simpl. by rewrite not_true_iff_false.
Qed.

(** ** Splitting, joining, replacing *)

(** [s.split(c)] for a one-character separator: never empty. *)
Fixpoint split_chars (c : ascii) (l : list ascii) : list (list ascii) :=
  match l with
  | [] => [[]]
  | x :: r =>
      if Ascii.eqb x c then [] :: split_chars c r
      else match split_chars c r with
           | [] => [[x]]
           | h :: t => (x :: h) :: t
           end
  end.

Definition split_on (c : ascii) (s : string) : list string := List.map text (split_chars c (chars s)).

(** [sep.join(l)] *)
Fixpoint join (sep : string) (l : list string) : string :=
  match l with
  | [] => ""
  | [x] => x
  | x :: r => x ++ sep ++ join sep r
  end.

(** [s.replace(c, t)] for a one-character pattern. *)
Fixpoint replace_chars (c : ascii) (t l : list ascii) : list ascii :=
  match l with
  | [] => []
  | x :: r => if Ascii.eqb x c then (t ++ replace_chars c t r)%list else x :: replace_chars c t r
  end.

Definition replace_char (c : ascii) (t s : string) : string :=
  text (replace_chars c (chars t) (chars s)).

Lemma split_chars_nonempty c l : split_chars c l <> [].
Proof.
  destruct l as [|x l]; simpl; [done|].
  destruct (Ascii.eqb x c); [done|]. by destruct (split_chars c l).
Qed.

(** No piece of a split contains the separator. *)
Lemma split_chars_no_sep c l : Forall (fun p => ~ In c p) (split_chars c l).
Proof.
  induction l as [|x l IH]; simpl; [constructor; [by intros []|constructor]|].
  destruct (Ascii.eqb x c) eqn:E; [constructor; [by intros []|done]|].
  destruct (split_chars c l) as [|h t] eqn:S; [by destruct (split_chars_nonempty c l)|].
  apply Ascii.eqb_neq in E. inversion IH; subst.
  constructor; [|done]. simpl. intros [-> | H]; done.
Qed.

(** A piece without the separator stays whole in front of one. *)
Lemma split_chars_sep c p l :
  ~ In c p -> split_chars c (p ++ c :: l)%list = p :: split_chars c l.
Proof.
  induction p as [|x p IH]; intros H; simpl.
  - by rewrite Ascii.eqb_refl.
  - destruct (Ascii.eqb x c) eqn:E.
    + apply Ascii.eqb_eq in E. destruct H. by left.
    + rewrite IH; [done|]. intros Hin. apply H. by right.
Qed.

Lemma split_chars_app c l r : split_chars c (l ++ c :: r)%list = (split_chars c l ++ split_chars c r)%list.
Proof.
  induction l as [|x l IH]; cbn; [by rewrite Ascii.eqb_refl|].
  destruct (Ascii.eqb x c); [by rewrite IH|]. rewrite IH.
  destruct (split_chars c l) eqn:S; [by apply split_chars_nonempty in S|done].
Qed.

Lemma split_chars_whole c p : ~ In c p -> split_chars c p = [p].
Proof.
  induction p as [|x p IH]; intros H; simpl; [done|].
  destruct (Ascii.eqb x c) eqn:E.
  - apply Ascii.eqb_eq in E. destruct H. by left.
  - rewrite IH; [done|]. intros Hin. apply H. by right.
Qed.

(** [s.splitlines()]: the line boundaries of ASCII text; no final empty line. *)
Definition is_line_end (c : ascii) : bool := in_range 10 13 c || in_range 28 30 c.

Fixpoint lines_of (acc : list ascii) (pending : bool) (l : list ascii) : list (list ascii) :=
  match l with
  | [] => if pending then [rev acc] else []
  | x :: r =>
      if is_line_end x then
        match r with
        | y :: r' =>
            if Ascii.eqb x (char_of 13) && Ascii.eqb y (char_of 10)
            then rev acc :: lines_of [] false r'
            else rev acc :: lines_of [] false r
        | [] => [rev acc]
        end
      else lines_of (x :: acc) true r
  end.

Definition splitlines (s : string) : list string := List.map text (lines_of [] false (chars s)).

(** [s[:n]] and [s[-n:]] for a non-negative [n]; [s[-0:]] is all of [s]. *)
Definition take_str (n : nat) (s : string) : string := text (firstn n (chars s)).
Definition last_str (n : nat) (s : string) : string :=
  match n with
  | O => s
  | _ => text (skipn (List.length (chars s) - n) (chars s))
  end.

(** [str(n)] *)
Definition str_int (n : Z) : string := pretty n.

(** [f"{n:.0f}"] of an integral number of gigabytes. *)
Definition str_gb (n : Z) : string := pretty n.

Lemma take_str_length n s : (String.length (take_str n s) <= n)%nat.
Proof.
  unfold take_str. rewrite <- chars_length, chars_text. rewrite length_firstn. lia.
Qed.

Lemma lower_char_idemp c : lower_char (lower_char c) = lower_char c.
Proof. destruct c as [[] [] [] [] [] [] [] []]; reflexivity. Qed.

Lemma len_lower s : len (lower s) = len s.
Proof. unfold len, lower. by rewrite <- !chars_length, chars_text, length_map. Qed.

Lemma len_app s t : len (s ++ t) = (len s + len t)%Z.
Proof. unfold len. rewrite <- !chars_length, chars_app, length_app. lia. Qed.

Lemma lower_id s : Forall (fun c => is_upper c = false) (chars s) -> lower s = s.
Proof.
  intros H. unfold lower. transitivity (text (chars s)); [|apply text_chars]. f_equal.
  induction H as [|c l Hc _ IH]; simpl; [done|]. unfold lower_char at 1. by rewrite Hc, IH.
Qed.

Lemma lower_app s t : lower (s ++ t) = lower s ++ lower t.
Proof. unfold lower. by rewrite chars_app, map_app, text_app. Qed.

(** A string without blanks is its own [strip]. *)
Lemma drop_while_none {A} (p : A -> bool) l : Forall (fun x => p x = false) l -> drop_while p l = l.
Proof. intros H. apply drop_while_id. intros x r ->. by inversion H. Qed.

Lemma strip_no_space s : Forall (fun c => is_space c = false) (chars s) -> strip s = s.
Proof.
  intros H. unfold strip, rstrip_by, lstrip_by. rewrite (drop_while_none _ (chars s)), text_chars by exact H.
  rewrite drop_while_none, rev_involutive, text_chars; [reflexivity|].
  rewrite List.Forall_forall in *. intros c Hc. apply H. by apply in_rev.
Qed.

(** A string whose last character is kept is its own [rstrip]. *)
Lemma rstrip_by_keep p s t c : s = t ++ String c "" -> p c = false -> rstrip_by p s = s.
Proof. intros -> H. rewrite rstrip_by_last. by rewrite H. Qed.

Lemma upper_char_idemp c : upper_char (upper_char c) = upper_char c.
Proof. destruct c as [[] [] [] [] [] [] [] []]; reflexivity. Qed.

Lemma lower_idemp s : lower (lower s) = lower s.
Proof.
  unfold lower. rewrite chars_text, map_map. f_equal.
  apply map_ext. apply lower_char_idemp.
Qed.

Lemma upper_idemp s : upper (upper s) = upper s.
Proof.
  unfold upper. rewrite chars_text, map_map. f_equal.
  apply map_ext. apply upper_char_idemp.
Qed.

Lemma len_upper s : len (upper s) = len s.
Proof. unfold len, upper. by rewrite <- !chars_length, chars_text, length_map. Qed.


(** A boolean fact about characters, by evaluation at each of the 256. *)
Definition all_chars : list ascii := List.map ascii_of_nat (List.seq 0 256).

Lemma chars_forall (p : ascii -> bool) : forallb p all_chars = true -> forall c, p c = true.
Proof.
  intros H c. rewrite forallb_forall in H. apply H. unfold all_chars. apply in_map_iff.
  exists (nat_of_ascii c). split; [apply ascii_nat_embedding|].
  apply in_seq. pose proof (nat_ascii_bounded c). lia.
Qed.

Lemma chars_impl (p q : ascii -> bool) :
  forallb (fun c => implb (p c) (q c)) all_chars = true -> forall c, p c = true -> q c = true.
Proof. intros H c Hp. pose proof (chars_forall _ H c) as Hc. simpl in Hc. by rewrite Hp in Hc. Qed.

Example strip_example : strip "  a b " = "a b".
Proof. reflexivity. Qed.

Example split_example : split_on "." "10.0..1" = ["10"; "0"; ""; "1"].
Proof. reflexivity. Qed.

Example splitlines_example : splitlines ("a" ++ CRLF ++ "b" ++ NL ++ NL ++ "c" ++ NL) = ["a"; "b"; ""; "c"].
Proof. reflexivity. Qed.
