(* ===== verification/Regex.v ===== *)
(** * Regular expressions of the source

    The patterns the backend validates with, as terms of a small regular
    expression language.  [fullmatch] is Python's [re.fullmatch]; [match_end]
    is [re.match] on a pattern that ends in [$], which also accepts one final
    newline.  [matches] computes by derivatives and decides [lang]. *)

From Stdlib Require Import ZArith Lia Ascii String List Bool.
From stdpp Require Import base tactics list strings.
From S2P Require Import Prelude PyStr.

Local Open Scope string_scope.

Inductive regex : Type :=
| REmpty
| REps
| RChr (p : ascii -> bool)
| RSeq (a b : regex)
| RAlt (a b : regex)
| RStar (a : regex).

(** The language of a pattern. *)
Inductive lang : regex -> list ascii -> Prop :=
| LEps : lang REps []
| LChr p c : p c = true -> lang (RChr p) [c]
| LSeq a b s t : lang a s -> lang b t -> lang (RSeq a b) (s ++ t)%list
| LAltL a b s : lang a s -> lang (RAlt a b) s
| LAltR a b s : lang b s -> lang (RAlt a b) s
| LStar0 a : lang (RStar a) []
| LStarS a s t : lang a s -> lang (RStar a) t -> lang (RStar a) (s ++ t)%list.

#[export] Hint Constructors lang : infra.

(** ** The matcher *)

Fixpoint nullable (r : regex) : bool :=
  match r with
  | REmpty => false
  | REps => true
  | RChr _ => false
  | RSeq a b => nullable a && nullable b
  | RAlt a b => nullable a || nullable b
  | RStar _ => true
  end.

(** Constructors that drop the empty language, so derivatives stay small. *)
Definition seq_ (a b : regex) : regex :=
  match a, b with
  | REmpty, _ => REmpty
  | _, REmpty => REmpty
  | REps, _ => b
  | _, _ => RSeq a b
  end.

Definition alt_ (a b : regex) : regex :=
  match a, b with
  | REmpty, _ => b
  | _, REmpty => a
  | _, _ => RAlt a b
  end.

Fixpoint deriv (c : ascii) (r : regex) : regex :=
  match r with
  | REmpty => REmpty
  | REps => REmpty
  | RChr p => if p c then REps else REmpty
  | RSeq a b =>
      if nullable a then alt_ (seq_ (deriv c a) b) (deriv c b) else seq_ (deriv c a) b
  | RAlt a b => alt_ (deriv c a) (deriv c b)
  | RStar a => seq_ (deriv c a) (RStar a)
  end.

Fixpoint matches (r : regex) (s : list ascii) : bool :=
  match s with
  | [] => nullable r
  | c :: t => matches (deriv c r) t
  end.

(** [re.fullmatch(r, s) is not None] *)
Definition fullmatch (r : regex) (s : string) : bool := matches r (chars s).

(** [re.match(r + "$", s) is not None] *)
Definition match_end (r : regex) (s : string) : bool :=
  matches r (chars s)
  || match rev (chars s) with
     | c :: t => Ascii.eqb c (char_of 10) && matches r (rev t)
     | [] => false
     end.

(** ** Derived forms *)

Definition rstr (s : string) : regex :=
  fold_right (fun c r => RSeq (RChr (Ascii.eqb c)) r) REps (chars s).
Definition ropt (a : regex) : regex := RAlt a REps.
Definition rplus (a : regex) : regex := RSeq a (RStar a).
(** [a{n}] and [a{0,n}] *)
Fixpoint rtimes (n : nat) (a : regex) : regex :=
  match n with O => REps | S k => RSeq a (rtimes k a) end.
Fixpoint rupto (n : nat) (a : regex) : regex :=
  match n with O => REps | S k => ropt (RSeq a (rupto k a)) end.
(** [a{m,n}] *)
Definition rbetween (m n : nat) (a : regex) : regex := RSeq (rtimes m a) (rupto (n - m) a).

(** ** The matcher decides the language *)

Lemma nullable_lang r : nullable r = true <-> lang r [].
Proof.
  split.
  - induction r; simpl; intros H; bools; try discriminate; auto with infra.
    + change (@nil ascii) with (@nil ascii ++ [])%list. auto with infra.
    + apply orb_true_iff in H as [H|H]; auto with infra.
  - remember (@nil ascii) as s eqn:E. induction 1; simpl; try done.
    + apply app_eq_nil in E as [-> ->]. by rewrite IHlang1, IHlang2.
    + by rewrite IHlang.
    + rewrite IHlang by done. apply orb_true_r.
Qed.

Lemma lang_empty s : ~ lang REmpty s.
Proof. inversion 1. Qed.

Lemma lang_seq a b s :
  lang (RSeq a b) s <-> exists t u, s = (t ++ u)%list /\ lang a t /\ lang b u.
Proof. split; [inversion 1; subst; eauto|]. intros (t & u & -> & ? & ?). by constructor. Qed.

Lemma lang_alt a b s : lang (RAlt a b) s <-> lang a s \/ lang b s.
Proof. split; [inversion 1; subst; eauto|]. intros [|]; auto with infra. Qed.

Lemma lang_eps s : lang REps s <-> s = [].
Proof. split; [by inversion 1|]. intros ->. constructor. Qed.

Lemma seq_lang a b s : lang (seq_ a b) s <-> lang (RSeq a b) s.
Proof.
  assert (El : forall x, lang REmpty s <-> lang (RSeq REmpty x) s).
  { intros x. rewrite lang_seq. split; [by intros ?%lang_empty|].
    intros (t & u & _ & H & _). by apply lang_empty in H. }
  assert (Er : forall x, lang REmpty s <-> lang (RSeq x REmpty) s).
  { intros x. rewrite lang_seq. split; [by intros ?%lang_empty|].
    intros (t & u & _ & _ & H). by apply lang_empty in H. }
  assert (Ee : forall x, lang x s <-> lang (RSeq REps x) s).
  { intros x. rewrite lang_seq. split.
    - intros H. exists [], s. auto with infra.
    - intros (t & u & -> & ->%lang_eps & H). done. }
  destruct a, b; simpl; (done || apply El || apply Er || apply Ee).
Qed.

Lemma alt_lang a b s : lang (alt_ a b) s <-> lang (RAlt a b) s.
Proof.
  destruct a, b; simpl; rewrite ?lang_alt; try done;
    split; auto; intros [H|H]; auto; by apply lang_empty in H.
Qed.

(** A non-empty word of [RStar a] starts with a non-empty word of [a]. *)
Lemma lang_star_cons a c s :
  lang (RStar a) (c :: s) ->
  exists t u, s = (t ++ u)%list /\ lang a (c :: t) /\ lang (RStar a) u.
Proof.
  remember (RStar a) as r eqn:Er. remember (c :: s) as w eqn:Ew. intros H.
  revert c s Er Ew. induction H as [| | | | | | a' s' t' Ha IHa Hr IHr]; intros d v Er Ew; try done.
  injection Er as ->. destruct s' as [|x s']; simpl in Ew.
  - by apply IHr.
  - injection Ew as -> <-. by exists s', t'.
Qed.

Lemma deriv_lang r c s : lang (deriv c r) s <-> lang r (c :: s).
Proof.
  revert s. induction r as [| |p|a IHa b IHb|a IHa b IHb|a IHa]; intros s; simpl.
  - split; by inversion 1.
  - split; by inversion 1.
  - destruct (p c) eqn:E; split; inversion 1; subst; auto with infra. congruence.
  - assert (S : lang (seq_ (deriv c a) b) s <->
                exists t u, s = (t ++ u)%list /\ lang a (c :: t) /\ lang b u).
    { rewrite seq_lang, lang_seq. by setoid_rewrite IHa. }
    assert (D : lang (RSeq a b) (c :: s) <->
                lang (seq_ (deriv c a) b) s \/ (lang a [] /\ lang b (c :: s))).
    { rewrite S, lang_seq. split.
      - intros (t & u & E & Ht & Hu). destruct t as [|x t]; simpl in E.
        + right. subst. done.
        + injection E as -> ->. left. eauto.
      - intros [(t & u & -> & Ht & Hu) | [Ha Hb]].
        + exists (c :: t), u. done.
        + exists [], (c :: s). done. }
    rewrite D. destruct (nullable a) eqn:N.
    + rewrite alt_lang, lang_alt, IHb. apply nullable_lang in N. tauto.
    + assert (~ lang a []). { rewrite <- nullable_lang. by rewrite N. } tauto.
  - rewrite alt_lang, !lang_alt, IHa, IHb. done.
  - rewrite seq_lang, lang_seq. setoid_rewrite IHa. split.
    + intros (t & u & -> & Ht & Hu). by apply (LStarS a (c :: t) u).
    + intros H. apply lang_star_cons in H. naive_solver.
Qed.

Lemma matches_lang r s : matches r s = true <-> lang r s.
Proof.
  revert r. induction s as [|c s IH]; intros r; simpl.
  - apply nullable_lang.
  - by rewrite IH, deriv_lang.
Qed.

Lemma fullmatch_lang r s : fullmatch r s = true <-> lang r (chars s).
Proof. apply matches_lang. Qed.

(** ** Which characters a pattern admits *)

(** Every character class of [r] is included in [p]. *)
Fixpoint only (p : ascii -> Prop) (r : regex) : Prop :=
  match r with
  | REmpty | REps => True
  | RChr q => forall c, q c = true -> p c
  | RSeq a b | RAlt a b => only p a /\ only p b
  | RStar a => only p a
  end.

Lemma lang_only p r s : only p r -> lang r s -> Forall p s.
Proof.
  intros Ho Hl. revert Ho. induction Hl; simpl; intros Ho; try constructor;
    naive_solver auto using Forall_app_2.
Qed.

Lemma only_rstr p s : Forall p (chars s) -> only p (rstr s).
Proof.
  unfold rstr. induction (chars s) as [|c l IH]; simpl; [done|].
  intros H. inversion H; subst. split; [|auto]. intros x Hx. apply Ascii.eqb_eq in Hx. by subst.
Qed.

Lemma only_rupto p n a : only p a -> only p (rupto n a).
Proof. intros H. induction n; simpl; auto. Qed.

Lemma only_rtimes p n a : only p a -> only p (rtimes n a).
Proof. intros H. induction n; simpl; auto. Qed.

Lemma only_rbetween p m n a : only p a -> only p (rbetween m n a).
Proof. intros H. unfold rbetween. simpl. auto using only_rtimes, only_rupto. Qed.

#[export] Hint Resolve only_rstr only_rupto only_rtimes only_rbetween : infra.

Lemma lang_rtimes_length n q s : lang (rtimes n (RChr q)) s -> List.length s = n.
Proof.
  revert s. induction n as [|n IH]; simpl; intros s H.
  - apply lang_eps in H. by subst.
  - apply lang_seq in H as (t & u & -> & Ht & Hu). inversion Ht; subst. simpl. f_equal. auto.
Qed.

Lemma lang_rupto_length n q s : lang (rupto n (RChr q)) s -> (List.length s <= n)%nat.
Proof.
  revert s. induction n as [|n IH]; simpl; intros s H.
  - apply lang_eps in H. by subst.
  - apply lang_alt in H as [H|H]; [|apply lang_eps in H; subst; simpl; lia].
    apply lang_seq in H as (t & u & -> & Ht & Hu). inversion Ht; subst. simpl.
    apply IH in Hu. lia.
Qed.

(** ** Patterns closed under a character map *)

Fixpoint closed_under (f : ascii -> ascii) (r : regex) : Prop :=
  match r with
  | REmpty | REps => True
  | RChr q => forall c, q c = true -> q (f c) = true
  | RSeq a b | RAlt a b => closed_under f a /\ closed_under f b
  | RStar a => closed_under f a
  end.

Lemma lang_closed f r s : closed_under f r -> lang r s -> lang r (List.map f s).
Proof.
  intros Hc Hl. revert Hc. induction Hl; simpl; intros Hc; rewrite ?map_app;
    auto with infra; destruct Hc; auto with infra.
Qed.

Lemma closed_under_rupto f n a : closed_under f a -> closed_under f (rupto n a).
Proof. intros H. induction n; simpl; auto. Qed.

#[export] Hint Resolve closed_under_rupto : infra.

(** ** Words of simple shapes *)

Lemma lang_chr p s : lang (RChr p) s <-> exists c, s = [c] /\ p c = true.
Proof. split; [inversion 1; subst; eauto|]. intros (c & -> & H). by constructor. Qed.

Lemma lang_mono_rupto n a b s :
  (forall t, lang a t -> lang b t) -> lang (rupto n a) s -> lang (rupto n b) s.
Proof.
  intros H. revert s. induction n as [|n IH]; simpl; intros s; [done|].
  unfold ropt. rewrite !lang_alt, !lang_seq. intros [(t & u & -> & Ht & Hu)|Hs]; [left|by right].
  exists t, u. auto.
Qed.

Lemma lang_plus_last p s :
  lang (rplus (RChr p)) s -> exists t c, s = (t ++ [c])%list /\ p c = true.
Proof.
  unfold rplus. rewrite lang_seq. intros (t & u & -> & Ht & Hu).
  apply lang_chr in Ht as (c & -> & Hc).
  assert (F : Forall (fun c => p c = true) u) by (eapply lang_only; [|exact Hu]; simpl; auto).
  destruct u as [|d v _] using rev_ind.
  - by exists [], c.
  - apply Forall_app in F as [_ F]. inversion F; subst. by exists (c :: v), d.
Qed.
