(* ===== verification/Json.v ===== *)
(** * JSON text

    What the program uses of Python's [json]: [json.loads] of guest output and
    [json.dumps] of technical details.  Numbers are integers; a number with a
    fraction or an exponent has no value in [json] and is rejected here. *)

From Stdlib Require Import ZArith Lia Ascii String List Bool.
From stdpp Require Import base tactics list strings.
From S2P Require Import Prelude PyStr.

Local Open Scope string_scope.
Local Open Scope Z_scope.

(** ** Printing *)

Definition hex_char (n : Z) : ascii := ascii_of_nat (Z.to_nat (if n <? 10 then 48 + n else 87 + n)).
Definition hex4 (n : Z) : list ascii :=
  [hex_char (Z.shiftr n 12 mod 16); hex_char (Z.shiftr n 8 mod 16); hex_char (Z.shiftr n 4 mod 16); hex_char (n mod 16)].

Definition unicode_escape (n : Z) : list ascii := [char_of 92; "u"%char] ++ hex4 n.

(** A code point beyond the basic plane takes two surrogates. *)
Definition escape_point (n : Z) : list ascii :=
  if n <? 65536 then unicode_escape n
  else let m := n - 65536 in
       unicode_escape (55296 + Z.shiftr m 10) ++ unicode_escape (56320 + m mod 1024).

Definition ord (c : ascii) : Z := Z.of_nat (nat_of_ascii c).

Definition escape_ascii (c : ascii) : list ascii :=
  if Ascii.eqb c (char_of 34) then [char_of 92; c]
  else if Ascii.eqb c (char_of 92) then [c; c]
  else if Ascii.eqb c (char_of 10) then [char_of 92; "n"%char]
  else if Ascii.eqb c (char_of 13) then [char_of 92; "r"%char]
  else if Ascii.eqb c (char_of 9) then [char_of 92; "t"%char]
  else if Ascii.eqb c (char_of 12) then [char_of 92; "f"%char]
  else if Ascii.eqb c (char_of 8) then [char_of 92; "b"%char]
  else if in_range 32 126 c then [c] else unicode_escape (ord c).

(** The text is UTF-8: [need] continuation bytes complete the code point [acc]. *)
Fixpoint escape_json (need : nat) (acc : Z) (l : list ascii) : list ascii :=
  match l with
  | [] => []
  | c :: r =>
      let b := ord c in
      match need with
      | S O => escape_point (acc * 64 + b mod 64) ++ escape_json O 0 r
      | S n => escape_json n (acc * 64 + b mod 64) r
      | O => if b <? 128 then escape_ascii c ++ escape_json O 0 r
             else if b <? 224 then escape_json 1 (b mod 32) r
             else if b <? 240 then escape_json 2 (b mod 16) r
             else escape_json 3 (b mod 8) r
      end
  end.

Definition dump_string (s : string) : string := DQ ++ text (escape_json O 0 (chars s)) ++ DQ.

Fixpoint json_dumps (v : json) : string :=
  match v with
  | JNull => "null"
  | JBool b => if b then "true" else "false"
  | JNum n => str_int n
  | JStr s => dump_string s
  | JArr l => "[" ++ join ", " (List.map json_dumps l) ++ "]"
  | JObj l => "{" ++ join ", " (List.map (fun e => dump_string (fst e) ++ ": " ++ json_dumps (snd e)) l) ++ "}"
  end.

(** ** Parsing *)

Definition json_space (c : ascii) : bool := existsb (Ascii.eqb c) [" "%char; char_of 9; char_of 10; char_of 13].
Definition skip_space (l : list ascii) : list ascii := drop_while json_space l.

Definition hex_value (c : ascii) : option Z :=
  if is_digit c then Some (ord c - 48)
  else if in_range 97 102 c then Some (ord c - 87)
  else if in_range 65 70 c then Some (ord c - 55) else None.

Definition read_hex4 (l : list ascii) : option (Z * list ascii) :=
  match l with
  | a :: b :: c :: d :: r =>
      match hex_value a, hex_value b, hex_value c, hex_value d with
      | Some x, Some y, Some z, Some w => Some (((x * 16 + y) * 16 + z) * 16 + w, r)
      | _, _, _, _ => None
      end
  | _ => None
  end.

Definition chr (n : Z) : ascii := ascii_of_nat (Z.to_nat n).

Definition utf8 (n : Z) : list ascii :=
  if n <? 128 then [chr n]
  else if n <? 2048 then [chr (192 + n / 64); chr (128 + n mod 64)]
  else if n <? 65536 then [chr (224 + n / 4096); chr (128 + n / 64 mod 64); chr (128 + n mod 64)]
  else [chr (240 + n / 262144); chr (128 + n / 4096 mod 64); chr (128 + n / 64 mod 64); chr (128 + n mod 64)].

Definition simple_escape (c : ascii) : option ascii :=
  if existsb (Ascii.eqb c) [char_of 34; char_of 92; "/"%char] then Some c
  else if Ascii.eqb c "n" then Some (char_of 10)
  else if Ascii.eqb c "r" then Some (char_of 13)
  else if Ascii.eqb c "t" then Some (char_of 9)
  else if Ascii.eqb c "f" then Some (char_of 12)
  else if Ascii.eqb c "b" then Some (char_of 8)
  else None.

(** The rest of a string literal behind its opening quote. *)
Fixpoint read_string (fuel : nat) (acc l : list ascii) : option (list ascii * list ascii) :=
  match fuel with
  | O => None
  | S f =>
      match l with
      | [] => None
      | c :: r =>
          if Ascii.eqb c (char_of 34) then Some (acc, r)
          else if Ascii.eqb c (char_of 92) then
            match r with
            | e :: r1 =>
                if Ascii.eqb e "u" then
                  match read_hex4 r1 with
                  | None => None
                  | Some (n, r2) =>
                      if (55296 <=? n) && (n <? 56320) then
                        match r2 with
                        | b :: u :: r3 =>
                            if Ascii.eqb b (char_of 92) && Ascii.eqb u "u" then
                              match read_hex4 r3 with
                              | Some (m, r4) =>
                                  if (56320 <=? m) && (m <? 57344)
                                  then read_string f (acc ++ utf8 (65536 + (n - 55296) * 1024 + (m - 56320))) r4
                                  else read_string f (acc ++ utf8 n) r2
                              | None => None
                              end
                            else read_string f (acc ++ utf8 n) r2
                        | _ => read_string f (acc ++ utf8 n) r2
                        end
                      else read_string f (acc ++ utf8 n) r2
                  end
                else match simple_escape e with
                     | Some x => read_string f (acc ++ [x]) r1
                     | None => None
                     end
            | [] => None
            end
          else if in_range 0 31 c then None
          else read_string f (acc ++ [c]) r
      end
  end.

Fixpoint read_digits (acc : list ascii) (l : list ascii) : list ascii * list ascii :=
  match l with
  | c :: r => if is_digit c then read_digits (acc ++ [c]) r else (acc, l)
  | [] => (acc, [])
  end.

Definition digits_value (l : list ascii) : Z := fold_left (fun v c => 10 * v + (ord c - 48)) l 0.

(** An integer: no leading zero, no fraction, no exponent. *)
Definition read_number (l : list ascii) : option (Z * list ascii) :=
  let '(negative, l1) := match l with
                         | c :: r => if Ascii.eqb c "-" then (true, r) else (false, l)
                         | [] => (false, l)
                         end in
  let '(digits, rest) := read_digits [] l1 in
  let leading := match digits with c :: _ :: _ => Ascii.eqb c "0" | _ => false end in
  let fractional := match rest with c :: _ => existsb (Ascii.eqb c) ["."%char; "e"%char; "E"%char] | [] => false end in
  match digits with
  | [] => None
  | _ => if leading || fractional then None
         else Some ((if negative then - digits_value digits else digits_value digits), rest)
  end.

Definition read_word (w : string) (v : json) (l : list ascii) : option (json * list ascii) :=
  if starts (chars w) l then Some (v, skipn (String.length w) l) else None.

(** [d[k] = v] of a dict under construction: a later key replaces an earlier
    one in its place. *)
Fixpoint set_key (k : string) (v : json) (d : list (string * json)) : list (string * json) :=
  match d with
  | [] => [(k, v)]
  | (x, w) :: r => if String.eqb x k then (x, v) :: r else (x, w) :: set_key k v r
  end.

(** A value, the rest of an array, the rest of an object. *)
Fixpoint read_value (fuel : nat) (l : list ascii) : option (json * list ascii) :=
  match fuel with
  | O => None
  | S f =>
      match skip_space l with
      | [] => None
      | c :: r =>
          if Ascii.eqb c (char_of 34) then
            match read_string (S (List.length r)) [] r with
            | Some (s, rest) => Some (JStr (text s), rest)
            | None => None
            end
          else if Ascii.eqb c "[" then
            match skip_space r with
            | d :: r' => if Ascii.eqb d "]" then Some (JArr [], r') else read_items f [] r
            | [] => None
            end
          else if Ascii.eqb c "{" then
            match skip_space r with
            | d :: r' => if Ascii.eqb d "}" then Some (JObj [], r') else read_members f [] r
            | [] => None
            end
          else if Ascii.eqb c "t" then read_word "true" (JBool true) (c :: r)
          else if Ascii.eqb c "f" then read_word "false" (JBool false) (c :: r)
          else if Ascii.eqb c "n" then read_word "null" JNull (c :: r)
          else option_map (fun p => (JNum (fst p), snd p)) (read_number (c :: r))
      end
  end
with read_items (fuel : nat) (acc : list json) (l : list ascii) : option (json * list ascii) :=
  match fuel with
  | O => None
  | S f =>
      match read_value f l with
      | None => None
      | Some (v, r) =>
          match skip_space r with
          | c :: r' => if Ascii.eqb c "," then read_items f (acc ++ [v]) r'
                       else if Ascii.eqb c "]" then Some (JArr (acc ++ [v]), r') else None
          | [] => None
          end
      end
  end
with read_members (fuel : nat) (acc : list (string * json)) (l : list ascii) : option (json * list ascii) :=
  match fuel with
  | O => None
  | S f =>
      match skip_space l with
      | q :: r =>
          if negb (Ascii.eqb q (char_of 34)) then None
          else
            match read_string (S (List.length r)) [] r with
            | None => None
            | Some (k, r1) =>
                match skip_space r1 with
                | c :: r2 =>
                    if negb (Ascii.eqb c ":") then None
                    else
                      match read_value f r2 with
                      | None => None
                      | Some (v, r3) =>
                          match skip_space r3 with
                          | d :: r4 =>
                              if Ascii.eqb d "," then read_members f (set_key (text k) v acc) r4
                              else if Ascii.eqb d "}" then Some (JObj (set_key (text k) v acc), r4) else None
                          | [] => None
                          end
                      end
                | [] => None
                end
            end
      | [] => None
      end
  end.

(** [None] is the [JSONDecodeError]. *)
Definition json_loads (s : string) : option json :=
  match read_value (S (2 * String.length s)) (chars s) with
  | Some (v, rest) => match skip_space rest with [] => Some v | _ => None end
  | None => None
  end.

Definition example_identity : string :=
  text (List.map (fun c => if Ascii.eqb c "'" then char_of 34 else c)
          (chars "{'Name':'SRV-1','PartOfDomain':false, 'N': -12, 'L':[1,{},null]}")).

Example loads_identity :
  json_loads example_identity
  = Some (JObj [("Name", JStr "SRV-1"); ("PartOfDomain", JBool false); ("N", JNum (-12));
                ("L", JArr [JNum 1; JObj []; JNull])]).
Proof. vm_compute. reflexivity. Qed.

Example dumps_loads : json_loads (json_dumps (JObj [("a", JArr [JStr (DQ ++ BS ++ NL); JNum 7])]))
  = Some (JObj [("a", JArr [JStr (DQ ++ BS ++ NL); JNum 7])]).
Proof. vm_compute. reflexivity. Qed.
