(* ===== verification/Network.v ===== *)
(** * IPv4 addressing

    [app/services/network/validation.py] over the Standard Library's
    [ipaddress] module: an address is an integer below 2^32, written as four
    decimal octets without leading zeros. *)

From Stdlib Require Import ZArith Lia Ascii String List Bool.
From stdpp Require Import base tactics list strings pretty.
From S2P Require Import Prelude PyStr.

Local Open Scope string_scope.
Local Open Scope Z_scope.

(** ** [ipaddress.IPv4Address] *)

Definition dot : ascii := "."%char.

Definition digit_val (c : ascii) : Z := Z.of_nat (nat_of_ascii c) - 48.

Definition digits_val (l : list ascii) : Z := fold_left (fun v c => 10 * v + digit_val c) l 0.

(** One octet: one to three ASCII digits, no leading zero, at most 255. *)
Definition parse_octet (l : list ascii) : option Z :=
  if (List.length l =? 0)%nat || (3 <? List.length l)%nat then None
  else if negb (forallb is_digit l) then None
  else if match l with c :: _ :: _ => Ascii.eqb c "0"%char | _ => false end then None
  else if 255 <? digits_val l then None
  else Some (digits_val l).

(** [int(ipaddress.IPv4Address(s))]; [None] is [AddressValueError]. *)
Definition parse_ipv4 (s : string) : option Z :=
  match split_chars dot (chars s) with
  | [a; b; c; d] =>
      match parse_octet a, parse_octet b, parse_octet c, parse_octet d with
      | Some a, Some b, Some c, Some d => Some (((a * 256 + b) * 256 + c) * 256 + d)
      | _, _, _, _ => None
      end
  | _ => None
  end.

Definition octet_of (a k : Z) : Z := Z.shiftr a k mod 256.

(** [str(ipaddress.IPv4Address(a))] *)
Definition format_ipv4 (a : Z) : string :=
  join "." [str_int (octet_of a 24); str_int (octet_of a 16); str_int (octet_of a 8); str_int (octet_of a 0)].

Definition ALL_ONES : Z := 4294967295.

(** [ipaddress.ip_network((a, prefix), strict=False)] *)
Definition netmask (prefix : Z) : Z := Z.lxor ALL_ONES (Z.shiftr ALL_ONES prefix).
Definition hostmask (prefix : Z) : Z := Z.shiftr ALL_ONES prefix.
Definition network_address (a prefix : Z) : Z := Z.land a (netmask prefix).
Definition broadcast_address (a prefix : Z) : Z := Z.lor (network_address a prefix) (hostmask prefix).
Definition in_network (x a prefix : Z) : bool := Z.land x (netmask prefix) =? network_address a prefix.
Definition with_prefixlen (a prefix : Z) : string :=
  format_ipv4 (network_address a prefix) ++ "/" ++ str_int prefix.

(** ** Masks *)

(** [format(packed, "032b")], most significant bit first. *)
Definition bits32 (a : Z) : list bool := List.map (fun i => Z.testbit a (31 - Z.of_nat i)) (List.seq 0 32).

Definition ones (l : list bool) : nat := List.length (List.filter (fun b => b) l).

Definition is_contiguous_mask (subnet_mask : string) : bool :=
  match parse_ipv4 subnet_mask with
  | None => false
  | Some packed =>
      let binary := bits32 packed in
      bool_decide (binary = (repeat true (ones binary) ++ repeat false (32 - ones binary))%list)
  end.

Definition mask_to_prefix (subnet_mask : string) : option Z :=
  match parse_ipv4 subnet_mask with
  | None => None
  | Some packed => if is_contiguous_mask subnet_mask then Some (Z.of_nat (ones (bits32 packed))) else None
  end.

Definition prefix_to_mask (prefix : Z) : string := format_ipv4 (netmask prefix).

(** ** Static configuration *)

Record IpValidationIssue := MkIssue { field : string; message : string }.

Definition quoted (s : string) : string := SQ ++ s ++ SQ.

Definition network_issues (addr prefix : Z) (gw : option Z) : list IpValidationIssue :=
  (if addr =? network_address addr prefix
   then [MkIssue "address" "The address equals the network address."] else []) ++
  (if addr =? broadcast_address addr prefix
   then [MkIssue "address" "The address equals the broadcast address."] else []) ++
  match gw with
  | None => []
  | Some gw =>
      (if negb (in_network gw addr prefix)
       then [MkIssue "gateway" ("Gateway " ++ format_ipv4 gw ++ " is outside the "
                                ++ with_prefixlen addr prefix ++ " subnet.")]
       else if (gw =? network_address addr prefix) || (gw =? broadcast_address addr prefix)
       then [MkIssue "gateway" "Gateway cannot be the network or broadcast address."] else []) ++
      (if gw =? addr
       then [MkIssue "gateway" "Gateway must differ from the VM's own address."] else [])
  end.

Definition unusable_dns (a : Z) : bool := (a =? 0) || (a =? ALL_ONES).

(** The loop over the DNS servers; [seen] holds the addresses met so far
    (their canonical spelling identifies them). *)
Fixpoint dns_issues (index : Z) (seen : list Z) (dns_servers : list string) : list IpValidationIssue :=
  match dns_servers with
  | [] => []
  | dns :: rest =>
      let name := "dns_servers[" ++ str_int index ++ "]" in
      match parse_ipv4 (strip dns) with
      | None => MkIssue name (quoted dns ++ " is not a valid IPv4 address.")
                :: dns_issues (index + 1) seen rest
      | Some a =>
          (if unusable_dns a
           then [MkIssue name (quoted dns ++ " is not a usable DNS server address.")] else []) ++
          (if existsb (Z.eqb a) seen
           then [MkIssue name ("Duplicate DNS server " ++ quoted dns ++ ".")] else []) ++
          dns_issues (index + 1) (a :: seen) rest
      end
  end.

Definition prefix_ok (prefix : Z) : bool := (8 <=? prefix) && (prefix <=? 32).

Definition validate_static_ipv4 (address : string) (prefix : Z) (gateway : string)
    (dns_servers : list string) : list IpValidationIssue :=
  match parse_ipv4 (strip address) with
  | None => [MkIssue "address" (quoted address ++ " is not a valid IPv4 address.")]
  | Some addr =>
      let gw := parse_ipv4 (strip gateway) in
      (if prefix_ok prefix then []
       else [MkIssue "prefix" ("Prefix /" ++ str_int prefix ++ " is outside the supported 8–32 range.")]) ++
      (match gw with
       | Some _ => []
       | None => [MkIssue "gateway" (quoted gateway ++ " is not a valid IPv4 address.")]
       end) ++
      (if prefix_ok prefix then network_issues addr prefix gw else []) ++
      dns_issues 1 [] dns_servers
  end.

Definition describe_subnet (address : string) (prefix : Z) : string :=
  match parse_ipv4 address with
  | Some a => if (0 <=? prefix) && (prefix <=? 32) then with_prefixlen a prefix
              else address ++ "/" ++ str_int prefix
  | None => address ++ "/" ++ str_int prefix
  end.

(** ** Octets *)

Definition octets : list Z := List.map Z.of_nat (List.seq 0 256).

Lemma in_octets v : 0 <= v <= 255 <-> In v octets.
Proof.
  unfold octets. rewrite in_map_iff. split.
  - intros H. exists (Z.to_nat v). rewrite in_seq. lia.
  - intros (n & <- & H). rewrite in_seq in H. lia.
Qed.

Lemma octets_forall (p : Z -> bool) :
  forallb p octets = true -> forall v, 0 <= v <= 255 -> p v = true.
Proof. intros H v Hv. rewrite forallb_forall in H. apply H. by apply in_octets. Qed.

Lemma parse_octet_str v : 0 <= v <= 255 -> parse_octet (chars (str_int v)) = Some v.
Proof.
  intros H. apply (octets_forall (fun v => bool_decide (parse_octet (chars (str_int v)) = Some v))) in H.
  - by bools.
  - vm_compute. reflexivity.
Qed.

Lemma str_octet_no_dot v : 0 <= v <= 255 -> ~ In dot (chars (str_int v)).
Proof.
  intros H. apply (octets_forall (fun v => negb (existsb (Ascii.eqb dot) (chars (str_int v))))) in H.
  - intros Hin. bools. assert (existsb (Ascii.eqb dot) (chars (str_int v)) = true); [|congruence].
    apply existsb_exists. exists dot. by rewrite Ascii.eqb_refl.
  - vm_compute. reflexivity.
Qed.

Definition digit_chars : list ascii := ["0"; "1"; "2"; "3"; "4"; "5"; "6"; "7"; "8"; "9"]%char.

Lemma is_digit_in c : is_digit c = true -> In c digit_chars.
Proof. destruct c as [[] [] [] [] [] [] [] []]; vm_compute; try discriminate; tauto. Qed.

(** Every string the octet parser accepts is the decimal spelling. *)
Definition octet_canonical (l : list ascii) : bool :=
  match parse_octet l with
  | Some v => (0 <=? v) && (v <=? 255) && String.eqb (text l) (str_int v)
  | None => true
  end.

Lemma octet_canonical_all l :
  (List.length l <= 3)%nat -> forallb is_digit l = true -> octet_canonical l = true.
Proof.
  intros Hl Hd.
  assert (H1 : forallb (fun a => octet_canonical [a]) digit_chars = true) by (vm_compute; done).
  assert (H2 : forallb (fun a => forallb (fun b => octet_canonical [a; b]) digit_chars) digit_chars = true)
    by (vm_compute; done).
  assert (H3 : forallb (fun a => forallb (fun b => forallb (fun c => octet_canonical [a; b; c])
                 digit_chars) digit_chars) digit_chars = true) by (vm_compute; done).
  rewrite forallb_forall in H1, H2, H3.
  destruct l as [|a [|b [|c [|d l]]]]; simpl in Hl; [done|..|lia]; simpl in Hd; bools.
  - apply H1. by apply is_digit_in.
  - assert (F := H2 a (is_digit_in a ltac:(done))). rewrite forallb_forall in F.
    apply F. by apply is_digit_in.
  - assert (F := H3 a (is_digit_in a ltac:(done))). rewrite forallb_forall in F.
    assert (G := F b (is_digit_in b ltac:(done))). rewrite forallb_forall in G.
    apply G. by apply is_digit_in.
Qed.

Lemma parse_octet_canonical l v :
  parse_octet l = Some v -> 0 <= v <= 255 /\ l = chars (str_int v).
Proof.
  intros H. assert (C : octet_canonical l = true).
  { unfold parse_octet in H.
    destruct ((List.length l =? 0)%nat || (3 <? List.length l)%nat) eqn:L; [discriminate|].
    destruct (forallb is_digit l) eqn:D; [|discriminate]. bools.
    apply octet_canonical_all; [|done]. by apply Nat.ltb_ge. }
  unfold octet_canonical in C. rewrite H in C. bools.
  match goal with H : (_ =? _)%string = true |- _ => apply String.eqb_eq in H; rewrite <- H end.
  rewrite chars_text. split; [lia|done].
Qed.

(** ** Addresses *)

Definition addr_ok (a : Z) : Prop := 0 <= a < 4294967296.

Lemma octet_of_bounds a k : 0 <= octet_of a k <= 255.
Proof. unfold octet_of. pose proof (Z.mod_pos_bound (Z.shiftr a k) 256). lia. Qed.

Lemma octets_compose a : addr_ok a ->
  ((octet_of a 24 * 256 + octet_of a 16) * 256 + octet_of a 8) * 256 + octet_of a 0 = a.
Proof.
  intros H. unfold octet_of. rewrite !Z.shiftr_div_pow2 by lia.
  change (2 ^ 24) with (256 * (256 * 256)). change (2 ^ 16) with (256 * 256).
  change (2 ^ 8) with 256. change (2 ^ 0) with 1. unfold addr_ok in H.
  rewrite Z.div_1_r, <- !Z.div_div by lia.
  set (q1 := a / 256). set (q2 := q1 / 256). set (q3 := q2 / 256).
  pose proof (Z.div_mod a 256 ltac:(lia)). pose proof (Z.div_mod q1 256 ltac:(lia)).
  pose proof (Z.div_mod q2 256 ltac:(lia)).
  assert (q3 < 256). { unfold q3, q2, q1. rewrite !Z.div_div by lia. apply Z.div_lt_upper_bound; lia. }
  assert (0 <= q3). { unfold q3, q2, q1. repeat apply Z.div_pos; lia. }
  rewrite (Z.mod_small q3) by lia. lia.
Qed.

Lemma octet_of_compose a b c d :
  0 <= a <= 255 -> 0 <= b <= 255 -> 0 <= c <= 255 -> 0 <= d <= 255 ->
  let n := ((a * 256 + b) * 256 + c) * 256 + d in
  octet_of n 24 = a /\ octet_of n 16 = b /\ octet_of n 8 = c /\ octet_of n 0 = d.
Proof.
  intros Ha Hb Hc Hd n. unfold octet_of. rewrite !Z.shiftr_div_pow2 by lia.
  change (2 ^ 24) with (256 * (256 * 256)). change (2 ^ 16) with (256 * 256).
  change (2 ^ 8) with 256. change (2 ^ 0) with 1.
  rewrite Z.div_1_r, <- !Z.div_div by lia.
  assert (E1 : n / 256 = (a * 256 + b) * 256 + c).
  { unfold n. rewrite Z.div_add_l by lia. rewrite (Z.div_small d) by lia. lia. }
  assert (E2 : n / 256 / 256 = a * 256 + b).
  { rewrite E1, Z.div_add_l by lia. rewrite (Z.div_small c) by lia. lia. }
  assert (E3 : n / 256 / 256 / 256 = a).
  { rewrite E2, Z.div_add_l by lia. rewrite (Z.div_small b) by lia. lia. }
  rewrite E3, E2, E1. unfold n.
  rewrite (Z.add_comm _ d), (Z.add_comm _ c), (Z.add_comm _ b), !Z.mod_add by lia.
  rewrite !Z.mod_small by lia. done.
Qed.

Lemma chars_format a :
  chars (format_ipv4 a) =
  (chars (str_int (octet_of a 24)) ++ dot :: chars (str_int (octet_of a 16)) ++ dot ::
   chars (str_int (octet_of a 8)) ++ dot :: chars (str_int (octet_of a 0)))%list.
Proof.
  unfold format_ipv4. generalize (str_int (octet_of a 24)) (str_int (octet_of a 16))
    (str_int (octet_of a 8)) (str_int (octet_of a 0)). intros x y z w.
  simpl join. rewrite !chars_app. reflexivity.
Qed.

Lemma split_format a :
  split_chars dot (chars (format_ipv4 a)) =
  [chars (str_int (octet_of a 24)); chars (str_int (octet_of a 16));
   chars (str_int (octet_of a 8)); chars (str_int (octet_of a 0))].
Proof.
  rewrite chars_format, !split_chars_sep, split_chars_whole;
    auto using str_octet_no_dot, octet_of_bounds.
Qed.

Lemma parse_format a : addr_ok a -> parse_ipv4 (format_ipv4 a) = Some a.
Proof.
  intros H. unfold parse_ipv4. rewrite split_format.
  rewrite !parse_octet_str by apply octet_of_bounds. by rewrite octets_compose.
Qed.

(** Splitting loses nothing: the pieces joined by the separator are the input. *)
Lemma split_chars_four c l a b d e :
  split_chars c l = [a; b; d; e] -> l = (a ++ c :: b ++ c :: d ++ c :: e)%list.
Proof.
  assert (J : forall l p r, split_chars c l = p :: r ->
            match r with
            | [] => l = p
            | _ => exists t, l = (p ++ c :: t)%list /\ split_chars c t = r
            end).
  { clear. induction l as [|x l IH]; simpl; intros p r H.
    - by injection H as <- <-.
    - destruct (Ascii.eqb x c) eqn:E.
      + apply Ascii.eqb_eq in E. subst. injection H as <- <-.
        destruct (split_chars c l) eqn:S; [by destruct (split_chars_nonempty c l)|]. by exists l.
      + destruct (split_chars c l) as [|h t] eqn:S; [by destruct (split_chars_nonempty c l)|].
        injection H as <- <-. specialize (IH h t eq_refl). destruct t as [|y t].
        * by subst.
        * destruct IH as (u & -> & Hu). by exists u. }
  intros H. apply J in H as (t & -> & H). apply J in H as (u & -> & H).
  apply J in H as (v & -> & H). apply J in H as ->. done.
Qed.

(** The parser accepts exactly the canonical spellings of 32-bit addresses. *)
Lemma parse_ipv4_spec s a : parse_ipv4 s = Some a <-> addr_ok a /\ s = format_ipv4 a.
Proof.
  split; [|intros [H ->]; by apply parse_format].
  unfold parse_ipv4. intros H.
  destruct (split_chars dot (chars s)) as [|a1 [|b1 [|c1 [|d1 [|]]]]] eqn:S; try discriminate.
  destruct (parse_octet a1) as [a2|] eqn:Pa; [|discriminate].
  destruct (parse_octet b1) as [b2|] eqn:Pb; [|discriminate].
  destruct (parse_octet c1) as [c2|] eqn:Pc; [|discriminate].
  destruct (parse_octet d1) as [d2|] eqn:Pd; [|discriminate].
  apply parse_octet_canonical in Pa as [Ra ->], Pb as [Rb ->], Pc as [Rc ->], Pd as [Rd ->].
  injection H as <-. split; [unfold addr_ok; lia|].
  apply split_chars_four in S. apply chars_inj. rewrite chars_format, S.
  destruct (octet_of_compose a2 b2 c2 d2 Ra Rb Rc Rd) as (-> & -> & -> & ->). done.
Qed.

Lemma format_ipv4_inj a b : addr_ok a -> addr_ok b -> format_ipv4 a = format_ipv4 b -> a = b.
Proof.
  intros Ha Hb E. apply parse_format in Ha, Hb. rewrite E in Ha. congruence.
Qed.

(** ** Masks and prefixes *)

Lemma bits32_lookup a i : (i < 32)%nat -> bits32 a !! i = Some (Z.testbit a (31 - Z.of_nat i)).
Proof.
  intros H. unfold bits32. rewrite list_lookup_fmap.
  assert (L : List.seq 0 32 !! i = Some i) by by apply lookup_seq_lt.
  by rewrite L.
Qed.

Lemma addr_high_bits a n : addr_ok a -> 32 <= n -> Z.testbit a n = false.
Proof.
  intros Ha Hn. unfold addr_ok in Ha.
  destruct (Z.eq_dec a 0) as [->|]; [apply Z.bits_0|].
  apply Z.bits_above_log2; [lia|]. apply Z.log2_lt_pow2; [lia|].
  apply Z.lt_le_trans with (2 ^ 32); [change (2 ^ 32) with 4294967296; lia|]. apply Z.pow_le_mono_r; lia.
Qed.

Lemma bits32_inj a b : addr_ok a -> addr_ok b -> bits32 a = bits32 b -> a = b.
Proof.
  intros Ha Hb E. apply Z.bits_inj'. intros n Hn.
  destruct (Z.lt_ge_cases n 32) as [Hlt|Hge].
  - assert (F : bits32 a !! Z.to_nat (31 - n) = bits32 b !! Z.to_nat (31 - n)) by (by rewrite E).
    rewrite !bits32_lookup in F by lia.
    replace (31 - Z.of_nat (Z.to_nat (31 - n))) with n in F by lia. congruence.
  - by rewrite !addr_high_bits.
Qed.

(** The bits of a netmask are the prefix ones followed by zeros. *)
Definition mask_bits (k : nat) : list bool := (repeat true k ++ repeat false (32 - k))%list.

Lemma bits32_netmask k :
  (k <= 32)%nat -> addr_ok (netmask (Z.of_nat k)) /\ bits32 (netmask (Z.of_nat k)) = mask_bits k
                  /\ ones (mask_bits k) = k.
Proof.
  intros H.
  assert (F : forallb (fun k => let m := netmask (Z.of_nat k) in
                (0 <=? m) && (m <? 4294967296) && bool_decide (bits32 m = mask_bits k)
                && (ones (mask_bits k) =? k)%nat) (List.seq 0 33) = true) by (vm_compute; done).
  rewrite forallb_forall in F. specialize (F k). rewrite in_seq in F.
  specialize (F ltac:(lia)). simpl in F. bools. unfold addr_ok.
  match goal with H : (_ =? _)%nat = true |- _ => apply Nat.eqb_eq in H end. split_and!; auto with lia.
Qed.

Lemma ones_le a : (ones (bits32 a) <= 32)%nat.
Proof.
  unfold ones. etransitivity; [apply filter_length_le|].
  unfold bits32. by rewrite length_map, length_seq.
Qed.

(** What the two mask conversions agree on, for one address. *)
Lemma contiguous_bits a :
  addr_ok a -> bits32 a = mask_bits (ones (bits32 a)) -> a = netmask (Z.of_nat (ones (bits32 a))).
Proof.
  intros Ha B. pose proof (ones_le a) as L.
  destruct (bits32_netmask _ L) as (Hm & Hb & _).
  apply bits32_inj; [exact Ha|exact Hm|]. rewrite Hb. exact B.
Qed.

#[global] Opaque bits32 netmask str_int.

Lemma mask_to_prefix_some m a :
  parse_ipv4 m = Some a ->
  mask_to_prefix m =
  if bool_decide (bits32 a = mask_bits (ones (bits32 a))) then Some (Z.of_nat (ones (bits32 a))) else None.
Proof. intros P. unfold mask_to_prefix, is_contiguous_mask. rewrite P. reflexivity. Qed.

(** mask_to_prefix, prefix_to_mask: the two conversions are inverse to each
    other: a dotted-decimal string has prefix length [p] exactly when [p] lies
    in 0..32 and the string is the canonical spelling of the mask of [p];
    every other string, a non-contiguous mask included, is refused. *)
Theorem mask_to_prefix_spec m p :
  mask_to_prefix m = Some p <-> 0 <= p <= 32 /\ m = prefix_to_mask p.
Proof.
  split.
  - intros H. destruct (parse_ipv4 m) as [a|] eqn:P.
    + rewrite (mask_to_prefix_some m a P) in H.
      destruct (bool_decide _) eqn:B; [|discriminate H]. apply bool_decide_eq_true in B.
      injection H as <-. pose proof (ones_le a) as L.
      apply parse_ipv4_spec in P as [Ha E]. split; [lia|].
      unfold prefix_to_mask. rewrite <- (contiguous_bits a Ha B). exact E.
    + unfold mask_to_prefix in H. rewrite P in H. discriminate H.
  - intros [Hp ->]. rewrite <- (Z2Nat.id p) by lia.
    destruct (bits32_netmask (Z.to_nat p) ltac:(lia)) as (Hm & Hb & Ho).
    unfold prefix_to_mask. rewrite (mask_to_prefix_some _ _ (parse_format _ Hm)).
    rewrite Hb, Ho. rewrite bool_decide_eq_true_2 by reflexivity. reflexivity.
Qed.

(** ** Canonical spellings *)

Lemma str_octet_digits v : 0 <= v <= 255 -> forallb is_digit (chars (str_int v)) = true.
Proof.
  intros H. pose proof (parse_octet_str v H) as P. unfold parse_octet in P.
  destruct (_ || _); [discriminate P|]. by destruct (forallb is_digit _).
Qed.

Lemma digit_not_space c : is_digit c = true -> is_space c = false.
Proof. destruct c as [[] [] [] [] [] [] [] []]; vm_compute; congruence. Qed.

Lemma str_octet_no_space v : 0 <= v <= 255 -> Forall (fun c => is_space c = false) (chars (str_int v)).
Proof.
  intros H. apply str_octet_digits in H. rewrite forallb_forall in H.
  apply List.Forall_forall. intros c Hc. apply digit_not_space. by apply H.
Qed.

Lemma strip_format a : strip (format_ipv4 a) = format_ipv4 a.
Proof.
  apply strip_no_space. rewrite chars_format. pose proof (octet_of_bounds a) as B.
  repeat (apply Forall_app; split; [by apply str_octet_no_space|constructor; [reflexivity|]]).
  by apply str_octet_no_space.
Qed.

Lemma parse_ipv4_ok s a : parse_ipv4 s = Some a -> addr_ok a.
Proof. intros H. by apply parse_ipv4_spec in H as [H _]. Qed.

(** On /31 and /32 every address is the network or the broadcast address. *)
Lemma shift_small p : 31 <= p <= 32 -> hostmask p = 0 \/ hostmask p = 1.
Proof. intros H. assert (p = 31 \/ p = 32) as [->| ->] by lia; vm_compute; tauto. Qed.

#[local] Transparent netmask.

Lemma point_to_point a p :
  addr_ok a -> 31 <= p <= 32 -> a = network_address a p \/ a = broadcast_address a p.
Proof.
  intros Ha Hp. unfold network_address, broadcast_address, network_address, netmask, hostmask.
  assert (E : a = Z.land a ALL_ONES).
  { unfold ALL_ONES. change 4294967295 with (Z.ones 32). rewrite Z.land_ones by lia.
    change (2 ^ 32) with 4294967296. unfold addr_ok in Ha. by rewrite Z.mod_small. }
  assert (p = 31 \/ p = 32) as [->| ->] by lia.
  - change (Z.lxor ALL_ONES (Z.shiftr ALL_ONES 31)) with (Z.lxor ALL_ONES 1).
    change (Z.shiftr ALL_ONES 31) with 1.
    assert (D : Z.land a (Z.lxor ALL_ONES 1) = Z.land (Z.land a ALL_ONES) (Z.lnot 1)).
    { rewrite <- Z.land_assoc. f_equal. }
    rewrite D, <- E. destruct (Z.testbit a 0) eqn:T.
    + right. apply Z.bits_inj'. intros n Hn. rewrite Z.lor_spec, Z.land_spec, Z.lnot_spec by done.
      destruct (Z.eq_dec n 0) as [->|Hz]; [by rewrite T|].
      change 1 with (2 ^ 0). rewrite Z.pow2_bits_false by lia. by rewrite andb_true_r, orb_false_r.
    + left. apply Z.bits_inj'. intros n Hn. rewrite Z.land_spec, Z.lnot_spec by done.
      destruct (Z.eq_dec n 0) as [->|Hz]; [by rewrite T|].
      change 1 with (2 ^ 0). rewrite Z.pow2_bits_false by lia. by rewrite andb_true_r.
  - left. change (Z.lxor ALL_ONES (Z.shiftr ALL_ONES 32)) with ALL_ONES. exact E.
Qed.
#[global] Opaque netmask.
