(* ===== verification/Errors.v ===== *)
(** * Application errors

    [app/core/errors.py]: the deliberate errors of the API layer and
    [InfraOperationError], the failure of an infrastructure operation. *)

From Stdlib Require Import ZArith Lia Ascii String List Bool.
From stdpp Require Import base tactics list strings.
From S2P Require Import Prelude PyStr.

Local Open Scope string_scope.

(** The subclasses of [AppError]. *)
Inductive AppErrorKind :=
| AuthenticationError | AuthorizationError | NotFoundError | ConflictError
| DomainValidationError | RateLimitError | ServiceUnavailableError.

#[export] Instance AppErrorKind_eq_dec : EqDecision AppErrorKind.
Proof. solve_decision. Defined.

Definition status_code (k : AppErrorKind) : Z :=
  match k with
  | AuthenticationError => 401
  | AuthorizationError => 403
  | NotFoundError => 404
  | ConflictError => 409
  | DomainValidationError => 422
  | RateLimitError => 429
  | ServiceUnavailableError => 503
  end.

Definition code (k : AppErrorKind) : string :=
  match k with
  | AuthenticationError => "authentication_failed"
  | AuthorizationError => "permission_denied"
  | NotFoundError => "not_found"
  | ConflictError => "conflict"
  | DomainValidationError => "validation_failed"
  | RateLimitError => "rate_limited"
  | ServiceUnavailableError => "service_unavailable"
  end.

Record AppError := MkAppError {
  app_kind : AppErrorKind;
  app_message : string;
  app_details : list (string * json);
}.

Definition to_payload (e : AppError) : json :=
  JObj [("error", JObj [("code", JStr (code (app_kind e))); ("message", JStr (app_message e));
                        ("details", JObj (app_details e))])].

(** [InfraOperationError]; [question_pending] marks its subclass
    [VmQuestionPending]. *)
Record InfraError := MkInfraError {
  human_message : string;
  reason : string;
  recommended_action : string;
  technical_detail : string;
  err_retryable : bool;
  question_pending : bool;
}.

Definition infra_error (human reason action detail : string) (retry : bool) : InfraError :=
  MkInfraError human reason action detail retry false.

Definition summary (e : InfraError) : string := human_message e ++ " Reason: " ++ reason e.

(** The 502 body of an infrastructure failure: the technical detail stays out. *)
Definition infra_payload (e : InfraError) : json :=
  JObj [("error", JObj [("code", JStr "infrastructure_operation_failed");
                        ("message", JStr (human_message e));
                        ("details", JObj [("reason", JStr (reason e));
                                          ("recommended_action", JStr (recommended_action e));
                                          ("retryable", JBool (err_retryable e))])])].
