(* ===== verification/Schemas.v ===== *)
(** * The provisioning request

    [app/schemas/provisioning.py]: the request records and the validation
    that admits them.  The input of a validator is the decoded body, its
    fields already of their declared JSON types; the result is the normalised
    record or the message of the first failing check, in pydantic's order
    (fields before model validators, nested models first). *)

From Stdlib Require Import ZArith Lia Ascii String List Bool.
From stdpp Require Import base tactics list strings.
From S2P Require Import Prelude PyStr Regex Network.

Local Open Scope string_scope.
Local Open Scope Z_scope.

Inductive DiskProvisioning := THIN | THICK.
Inductive FirmwareType := BIOS | EFI.
Inductive IpMode := DHCP | STATIC.
Inductive AdapterType := VMXNET3 | E1000E.
Inductive IdentityPolicyVersion := V1 | V2.

#[export] Instance FirmwareType_eq_dec : EqDecision FirmwareType.
Proof. solve_decision. Defined.
#[export] Instance IpMode_eq_dec : EqDecision IpMode.
Proof. solve_decision. Defined.
#[export] Instance IdentityPolicyVersion_eq_dec : EqDecision IdentityPolicyVersion.
Proof. solve_decision. Defined.

Definition disk_provisioning_value (p : DiskProvisioning) : string :=
  match p with THIN => "thin" | THICK => "thick" end.
Definition firmware_value (f : FirmwareType) : string := match f with BIOS => "BIOS" | EFI => "EFI" end.
Definition ip_mode_value (m : IpMode) : string := match m with DHCP => "DHCP" | STATIC => "STATIC" end.
Definition adapter_value (a : AdapterType) : string :=
  match a with VMXNET3 => "VMXNET3" | E1000E => "E1000E" end.
Definition policy_value (v : IdentityPolicyVersion) : string := match v with V1 => "v1" | V2 => "v2" end.

(** ** Patterns *)

Definition alnum : regex := RChr is_alnum.
Definition is_c (c : ascii) : ascii -> bool := Ascii.eqb c.
Definition lower_alnum : regex := RChr (fun c => is_lower c || is_digit c).

(** An alphanumeric, optionally up to 61 of alphanumerics, hyphens and dots
    and a final alphanumeric. *)
Definition VM_NAME_PATTERN : regex :=
  RSeq alnum (ropt (RSeq (rupto 61 (RChr (fun c => is_alnum c || is_c "-" c || is_c "." c))) alnum)).

(** The same without the dots. *)
Definition WINDOWS_COMPUTER_NAME_PATTERN : regex :=
  RSeq alnum (ropt (RSeq (rupto 61 (RChr (fun c => is_alnum c || is_c "-" c))) alnum)).

(** Dotted labels of lower-case alphanumerics with inner hyphens, and a top
    level of at least two letters; the field is matched without the IGNORECASE
    flag, after it was lowered. *)
Definition DNS_DOMAIN_PATTERN : regex :=
  RSeq
    (rplus (RSeq lower_alnum
              (RSeq (ropt (RSeq (RStar (RChr (fun c => is_lower c || is_digit c || is_c "-" c))) lower_alnum))
                 (RChr (is_c ".")))))
    (RSeq (RChr is_lower) (rplus (RChr is_lower))).

(** Slash-separated segments of lower-case alphanumerics, underscores, dots and
    hyphens that each begin with an alphanumeric. *)
Definition secret_segment : regex :=
  RSeq lower_alnum
    (RStar (RChr (fun c => is_lower c || is_digit c || is_c "_" c || is_c "." c || is_c "-" c))).
Definition SECRET_REFERENCE_PATTERN : regex :=
  RSeq secret_segment (RStar (RSeq (RChr (is_c "/")) secret_segment)).

(** ** Records *)

Record VmSpec := MkVmSpec { vm_spec_name : string; description : string }.

Record ComputeSpec := MkComputeSpec {
  vcenter_id : string;
  compute_datacenter_id : string;
  cluster_id : string;
  host_id : option string;
  resource_pool_id : option string;
}.

Record DiskSpec := MkDiskSpec {
  size_gb : Z;
  provisioning : DiskProvisioning;
  disk_datastore_id : option string;
}.

Record HardwareSpec := MkHardwareSpec {
  cpu : Z;
  memory_mb : Z;
  firmware : FirmwareType;
  secure_boot : bool;
  disks : list DiskSpec;
}.

Record DomainJoinSpec := MkDomainJoinSpec {
  domain : string;
  ou : option string;
  join_secret_ref : string;
}.

Record GuestSpec := MkGuestSpec {
  iso_id : string;
  hostname : option string;
  timezone : option string;
  installation_locale : string;
  input_locale : string;
  windows_image_index : Z;
  credential_secret_ref : string;
  product_key_secret_ref : option string;
  domain_join : option DomainJoinSpec;
}.

#[export] Instance eta_guest : Eta GuestSpec := fun r =>
  MkGuestSpec (iso_id r) (hostname r) (timezone r) (installation_locale r) (input_locale r)
    (windows_image_index r) (credential_secret_ref r) (product_key_secret_ref r) (domain_join r).

Record Ipv4Config := MkIpv4 {
  address : string;
  prefix : Z;
  gateway : string;
  dns_servers : list string;
}.

Record NetworkSpec := MkNetworkSpec {
  network_id : string;
  adapter_type : AdapterType;
  mode : IpMode;
  ipv4 : option Ipv4Config;
}.

Record ProvisioningRequest := MkRequest {
  identity_policy_version : IdentityPolicyVersion;
  vm : VmSpec;
  compute : ComputeSpec;
  hardware : HardwareSpec;
  guest : GuestSpec;
  network : NetworkSpec;
  certificate_package_ids : list string;
  application_ids : list string;
}.

#[export] Instance eta_request : Eta ProvisioningRequest := fun r =>
  MkRequest (identity_policy_version r) (vm r) (compute r) (hardware r) (guest r) (network r)
    (certificate_package_ids r) (application_ids r).

(** ** Validation *)

(** A check that does not change its value. *)
Definition check (ok : bool) (message : string) : res string unit := if ok then Ok tt else Err message.

Definition within (lo hi n : Z) : bool := (lo <=? n) && (n <=? hi).
Definition sized (lo hi : Z) (s : string) : bool := within lo hi (len s).
Definition sized_opt (hi : Z) (s : option string) : bool :=
  match s with Some s => len s <=? hi | None => true end.

(** [_validate_ipv4(value, field)] *)
Definition _validate_ipv4 (value field : string) : res string string :=
  match parse_ipv4 (strip value) with
  | Some a => Ok (format_ipv4 a)
  | None => Err (field ++ ": " ++ quoted value ++ " is not a valid IPv4 address.")
  end.

(** The loop over the DNS servers: normalised, and no duplicate. *)
Fixpoint normalize_dns (seen : list string) (l : list string) : res string (list string) :=
  match l with
  | [] => Ok []
  | dns :: rest =>
      let? normalized := _validate_ipv4 dns "DNS server" in
      if bool_decide (normalized ∈ seen) then Err ("Duplicate DNS server: " ++ normalized)
      else let? r := normalize_dns (normalized :: seen) rest in Ok (normalized :: r)
  end.

(** The checks of [Ipv4Config._validate_addresses] on the two addresses. *)
Definition check_addresses (addr gw : Z) (gateway : string) (prefix : Z) : res string unit :=
  let? _ := check (negb (addr =? network_address addr prefix))
              "IP address equals the network address and cannot be assigned to a host." in
  let? _ := check (negb (addr =? broadcast_address addr prefix))
              "IP address equals the broadcast address and cannot be assigned to a host." in
  let? _ := check (in_network gw addr prefix)
              ("Default gateway " ++ gateway ++ " is outside the " ++ with_prefixlen addr prefix ++ " subnet.") in
  check (negb (gw =? addr)) "Default gateway must differ from the VM's own IP address.".

Definition validate_ipv4_config (c : Ipv4Config) : res string Ipv4Config :=
  let? _ := check (within 8 32 (prefix c)) "prefix" in
  let? _ := check (Z.of_nat (List.length (dns_servers c)) <=? 8) "dns_servers" in
  let? a := _validate_ipv4 (address c) "IP address" in
  let? g := _validate_ipv4 (gateway c) "Default gateway" in
  match parse_ipv4 a, parse_ipv4 g with
  | Some addr, Some gw =>
      let? _ := check_addresses addr gw g (prefix c) in
      let? dns := normalize_dns [] (dns_servers c) in
      Ok (MkIpv4 a (prefix c) g dns)
  | _, _ => Err "not an address"
  end.

(** [Ipv4Config.subnet_mask] *)
Definition subnet_mask (c : Ipv4Config) : string := prefix_to_mask (prefix c).

Definition validate_vm (v : VmSpec) : res string VmSpec :=
  let? _ := check (sized 2 64 (vm_spec_name v) && fullmatch VM_NAME_PATTERN (vm_spec_name v)) "vm.name" in
  let? _ := check (len (description v) <=? 500) "vm.description" in
  Ok v.

Definition validate_compute (c : ComputeSpec) : res string ComputeSpec :=
  let? _ := check (sized 1 120 (compute_datacenter_id c)) "compute.datacenter_id" in
  let? _ := check (sized 1 120 (cluster_id c)) "compute.cluster_id" in
  let? _ := check (sized_opt 120 (host_id c)) "compute.host_id" in
  let? _ := check (sized_opt 120 (resource_pool_id c)) "compute.resource_pool_id" in
  Ok c.

Definition disk_ok (d : DiskSpec) : bool := within 1 8000 (size_gb d) && sized_opt 120 (disk_datastore_id d).

Definition validate_hardware (h : HardwareSpec) : res string HardwareSpec :=
  let? _ := check (within 1 256 (cpu h)) "hardware.cpu" in
  let? _ := check (within 512 8388608 (memory_mb h)) "hardware.memory_mb" in
  let? _ := check (within 1 8 (Z.of_nat (List.length (disks h))) && forallb disk_ok (disks h)) "hardware.disks" in
  let? _ := check (negb (secure_boot h && negb (bool_decide (firmware h = EFI))))
              "secure_boot requires UEFI (EFI) firmware." in
  Ok h.

(** [value.strip().rstrip(".").lower()] *)
Definition _normalize_domain (value : string) : string := lower (rstrip_char "." (strip value)).

Definition validate_domain_join (j : DomainJoinSpec) : res string DomainJoinSpec :=
  let d := _normalize_domain (domain j) in
  let? _ := check (sized 3 255 d && fullmatch DNS_DOMAIN_PATTERN d) "guest.domain_join.domain" in
  let? _ := check (sized_opt 400 (ou j)) "guest.domain_join.ou" in
  let? _ := check (sized 2 150 (join_secret_ref j)) "guest.domain_join.credential_secret_ref" in
  Ok (MkDomainJoinSpec d (ou j) (join_secret_ref j)).

Definition pattern_opt (lo hi : Z) (r : regex) (s : option string) : bool :=
  match s with Some s => sized lo hi s && fullmatch r s | None => true end.

Definition validate_guest (g : GuestSpec) : res string GuestSpec :=
  let? _ := check (sized 1 2048 (iso_id g)) "guest.iso_id" in
  let? _ := check (pattern_opt 0 64 VM_NAME_PATTERN (hostname g)) "guest.hostname" in
  let? _ := check (sized_opt 100 (timezone g)) "guest.timezone" in
  let? _ := check (sized 2 35 (installation_locale g)) "guest.installation_locale" in
  let? _ := check (sized 2 100 (input_locale g)) "guest.input_locale" in
  let? _ := check (within 1 99 (windows_image_index g)) "guest.windows_image_index" in
  let? _ := check (sized 2 150 (credential_secret_ref g)) "guest.credential_secret_ref" in
  let? _ := check (pattern_opt 2 150 SECRET_REFERENCE_PATTERN (product_key_secret_ref g))
              "guest.product_key_secret_ref" in
  match domain_join g with
  | None => Ok g
  | Some j => let? j' := validate_domain_join j in Ok (g <| domain_join := Some j' |>)
  end.

Definition validate_network (n : NetworkSpec) : res string NetworkSpec :=
  let? _ := check (sized 1 120 (network_id n)) "network.network_id" in
  let? v4 := match ipv4 n with
             | None => Ok None
             | Some c => let? c' := validate_ipv4_config c in Ok (Some c')
             end in
  let? _ := check (negb (bool_decide (mode n = STATIC) && match v4 with None => true | Some _ => false end))
              "ipv4 configuration is required when mode is STATIC." in
  Ok (MkNetworkSpec (network_id n) (adapter_type n) (mode n) v4).

(** [a or b] on an optional string. *)
Definition or_else (s : option string) (d : string) : string :=
  match s with
  | Some "" | None => d
  | Some s => s
  end.

Definition short_name (r : ProvisioningRequest) : string :=
  match domain_join (guest r) with
  | Some _ =>
      match identity_policy_version r with
      | V1 => or_else (hostname (guest r)) (vm_spec_name (vm r))
      | V2 => vm_spec_name (vm r)
      end
  | None => or_else (hostname (guest r)) (vm_spec_name (vm r))
  end.

Definition name_ok (s : string) : bool := fullmatch WINDOWS_COMPUTER_NAME_PATTERN s && negb (isdigit s).

Definition labels_ok (d : string) : bool := forallb (fun l => len l <=? 63) (split_on "." d).

Definition identity_field (r : ProvisioningRequest) : string :=
  match domain_join (guest r), identity_policy_version r with
  | None, _ => "guest.hostname"
  | Some _, V1 => "guest.hostname"
  | Some _, V2 => "vm.name"
  end.

(** [ProvisioningRequest._validate_identity] *)
Definition _validate_identity (r : ProvisioningRequest) : res string ProvisioningRequest :=
  let v2 := bool_decide (identity_policy_version r = V2) in
  let name := short_name r in
  let? _ := check (negb (v2 && negb (fullmatch SECRET_REFERENCE_PATTERN (credential_secret_ref (guest r)))))
              "guest.credential_secret_ref must be a safe lowercase, slash-separated secret reference." in
  let? _ := check (negb (v2 && negb (name_ok name)))
              (identity_field r ++ " must be a valid Windows computer name "
               ++ "(letters, numbers and hyphens only; not all-numeric; maximum 63 characters).") in
  let? _ :=
    match domain_join (guest r) with
    | None => Ok tt
    | Some j =>
        let? _ := check (negb (v2 && negb (fullmatch SECRET_REFERENCE_PATTERN (join_secret_ref j))))
                    ("guest.domain_join.credential_secret_ref must be a safe lowercase, "
                     ++ "slash-separated secret reference.") in
        let? _ := check (negb (v2 && negb (labels_ok (domain j))))
                    "Each DNS domain label must not exceed 63 characters." in
        check (negb (v2 && (253 <? len (name ++ "." ++ domain j))))
          "The resulting domain-joined FQDN must not exceed 253 characters."
    end in
  match domain_join (guest r) with
  | Some _ => if v2 then Ok (r <| guest := (guest r) <| hostname := Some (upper name) |> |>) else Ok r
  | None => Ok (r <| guest := (guest r) <| hostname := Some (upper name) |> |>)
  end.

(** [ProvisioningRequest.model_validate] on a body of the right shape. *)
Definition validate_request (r : ProvisioningRequest) : res string ProvisioningRequest :=
  let? v := validate_vm (vm r) in
  let? c := validate_compute (compute r) in
  let? h := validate_hardware (hardware r) in
  let? g := validate_guest (guest r) in
  let? n := validate_network (network r) in
  let? _ := check (Z.of_nat (List.length (certificate_package_ids r)) <=? 20) "certificate_package_ids" in
  let? _ := check (Z.of_nat (List.length (application_ids r)) <=? 50) "application_ids" in
  _validate_identity (MkRequest (identity_policy_version r) v c h g n (certificate_package_ids r)
                        (application_ids r)).

(** ** Derived identity *)

Definition effective_computer_name (r : ProvisioningRequest) : string :=
  match domain_join (guest r) with
  | Some _ =>
      match identity_policy_version r with
      | V1 => upper (or_else (hostname (guest r)) (vm_spec_name (vm r)))
      | V2 => upper (vm_spec_name (vm r))
      end
  | None => upper (or_else (hostname (guest r)) (vm_spec_name (vm r)))
  end.

Definition effective_fqdn (r : ProvisioningRequest) : option string :=
  match domain_join (guest r) with
  | None => None
  | Some j => Some (lower (effective_computer_name r ++ "." ++ domain j))
  end.

Definition total_disk_gb (r : ProvisioningRequest) : Z :=
  fold_right (fun d n => size_gb d + n) 0 (disks (hardware r)).

Definition DESKTOP_EXPERIENCE_EDITIONS (index : Z) : option string :=
  if index =? 2 then Some "Standard (Desktop Experience)"
  else if index =? 4 then Some "Datacenter (Desktop Experience)"
  else None.

(** [ProvisioningSubmissionRequest]: v2 only, Desktop Experience only. *)
Definition validate_submission (r : ProvisioningRequest) : res string ProvisioningRequest :=
  let? _ := check (bool_decide (identity_policy_version r = V2)) "identity_policy_version" in
  let? r' := validate_request r in
  let? _ := check (match DESKTOP_EXPERIENCE_EDITIONS (windows_image_index (guest r')) with
                   | Some _ => true | None => false end)
              ("guest.windows_image_index must be 2 (Standard) or 4 (Datacenter): every server "
               ++ "is installed with the Desktop Experience.") in
  Ok r'.

(** ** Reports *)

Inductive CheckStatus := PASS | WARN | FAIL.

#[export] Instance CheckStatus_eq_dec : EqDecision CheckStatus.
Proof. solve_decision. Defined.

Record PreflightCheck := MkCheck {
  check_code : string;
  check_label : string;
  check_status : CheckStatus;
  check_detail : string;
  blocking : bool;
}.

Record PreflightReport := MkReport {
  ready : bool;
  checks : list PreflightCheck;
  report_summary : string;
}.

Inductive ConflictProviderStatus := NO_CONFLICT | CONFLICT_DETECTED | NOT_CONFIGURED | ERROR.

#[export] Instance ConflictProviderStatus_eq_dec : EqDecision ConflictProviderStatus.
Proof. solve_decision. Defined.

Record ProviderResult := MkProvider {
  provider : string;
  provider_status : ConflictProviderStatus;
  provider_detail : string;
}.

Record IpConflictReport := MkConflictReport {
  report_address : string;
  report_prefix : Z;
  providers : list ProviderResult;
  conflict_detected : bool;
  confidence_note : string;
}.

(** ** Static addressing *)

Lemma _validate_ipv4_ok v f s :
  _validate_ipv4 v f = Ok s <-> exists a, parse_ipv4 (strip v) = Some a /\ s = format_ipv4 a.
Proof.
  unfold _validate_ipv4. destruct (parse_ipv4 (strip v)) as [a|]; split.
  - intros [= <-]. by exists a.
  - by intros (b & [= ->] & ->).
  - discriminate.
  - by intros (b & H & _).
Qed.

Lemma parse_strip_format a : addr_ok a -> parse_ipv4 (strip (format_ipv4 a)) = Some a.
Proof. intros H. rewrite strip_format. by apply parse_format. Qed.

Lemma _validate_ipv4_format a f : addr_ok a -> _validate_ipv4 (format_ipv4 a) f = Ok (format_ipv4 a).
Proof. intros H. apply _validate_ipv4_ok. exists a. split; [by apply parse_strip_format|done]. Qed.

(** A spelling [ipaddress] prints. *)
Definition canonical (s : string) : Prop := exists a, addr_ok a /\ s = format_ipv4 a.

Lemma normalize_dns_sound seen l l' :
  normalize_dns seen l = Ok l' ->
  Forall canonical l' /\ NoDup l' /\ (forall s, s ∈ l' -> s ∉ seen) /\ List.length l' = List.length l.
Proof.
  revert seen l'. induction l as [|d l IH]; intros seen l'; simpl.
  - intros [= <-]. split_and!; [constructor|constructor|by intros ? ?%not_elem_of_nil|done].
  - destruct (_validate_ipv4 d "DNS server") as [n|] eqn:V; [|discriminate]. simpl.
    case_bool_decide as Hn; [discriminate|].
    destruct (normalize_dns (n :: seen) l) as [r|] eqn:R; [|discriminate]. simpl. intros [= <-].
    apply IH in R as (Hc & Hd & Hs & Hl). apply _validate_ipv4_ok in V as (a & Ha & ->).
    split_and!; [|constructor; [|done]| |simpl; congruence].
    + constructor; [|done]. exists a. split; [by eapply parse_ipv4_ok|done].
    + intros H. apply (Hs _ H). by left.
    + intros s Hin. apply elem_of_cons in Hin as [->|H]; [done|]. intros X. apply (Hs s H). by right.
Qed.

Lemma normalize_dns_complete seen l :
  Forall canonical l -> NoDup l -> (forall s, s ∈ l -> s ∉ seen) -> normalize_dns seen l = Ok l.
Proof.
  intros Hc. revert seen. induction Hc as [|s l (a & Ha & ->) Hc IH]; intros seen Hd Hs; [reflexivity|].
  apply NoDup_cons in Hd as [Hn Hd]. cbn [normalize_dns]. rewrite _validate_ipv4_format by done.
  cbn [res_bind]. rewrite bool_decide_eq_false_2 by (apply Hs; by left).
  rewrite IH; [done|done|]. intros s Hin X. apply elem_of_cons in X as [->|X]; [done|].
  apply (Hs s); [by right|done].
Qed.

Lemma check_ok b m : check b m = Ok tt <-> b = true.
Proof. unfold check. destruct b; naive_solver. Qed.

Lemma check_addresses_ok addr gw s p :
  check_addresses addr gw s p = Ok tt <->
  addr <> network_address addr p /\ addr <> broadcast_address addr p /\ in_network gw addr p = true /\ gw <> addr.
Proof.
  unfold check_addresses, check, res_bind.
  rewrite <- !Z.eqb_neq.
  destruct (addr =? network_address addr p), (addr =? broadcast_address addr p), (in_network gw addr p), (gw =? addr);
    simpl; naive_solver.
Qed.

(** The content of an accepted configuration. *)
Definition static_ok (c : Ipv4Config) (a g : Z) : Prop :=
  addr_ok a /\ addr_ok g /\ address c = format_ipv4 a /\ gateway c = format_ipv4 g
  /\ 8 <= prefix c <= 32
  /\ a <> network_address a (prefix c) /\ a <> broadcast_address a (prefix c)
  /\ in_network g a (prefix c) = true /\ g <> a
  /\ Forall canonical (dns_servers c) /\ NoDup (dns_servers c) /\ (List.length (dns_servers c) <= 8)%nat.

Lemma validate_ipv4_config_sound c c' :
  validate_ipv4_config c = Ok c' ->
  exists a g, static_ok c' a g /\ parse_ipv4 (strip (address c)) = Some a
    /\ parse_ipv4 (strip (gateway c)) = Some g /\ prefix c' = prefix c.
Proof.
  unfold validate_ipv4_config, check. intros H.
  destruct (within 8 32 (prefix c)) eqn:Hp; [|discriminate].
  destruct (Z.of_nat (List.length (dns_servers c)) <=? 8) eqn:Hl; [|discriminate]. cbn [res_bind] in H.
  destruct (_validate_ipv4 (address c) _) as [sa|] eqn:Va; [|discriminate].
  destruct (_validate_ipv4 (gateway c) _) as [sg|] eqn:Vg; [|discriminate]. cbn [res_bind] in H.
  apply _validate_ipv4_ok in Va as (a & Pa & ->), Vg as (g & Pg & ->).
  pose proof (parse_ipv4_ok _ _ Pa) as Ha. pose proof (parse_ipv4_ok _ _ Pg) as Hg.
  rewrite !parse_format in H by assumption.
  destruct (check_addresses a g _ _) as [[]|] eqn:C; [|discriminate].
  destruct (normalize_dns [] (dns_servers c)) as [l|] eqn:D; [|discriminate]. cbn [res_bind] in H.
  injection H as <-. apply check_addresses_ok in C. apply normalize_dns_sound in D as (Hc & Hd & _ & Hn).
  exists a, g. unfold static_ok, within in *. cbn [address gateway prefix dns_servers]. bools.
  split; [|tauto]. split_and!; try tauto; try lia.
Qed.

Lemma validate_ipv4_config_dns c c' : validate_ipv4_config c = Ok c' -> normalize_dns [] (dns_servers c) = Ok (dns_servers c').
Proof.
  unfold validate_ipv4_config. intros H.
  repeat match type of H with context [res_bind ?m _] => destruct m; [cbn [res_bind] in H|discriminate] end.
  repeat case_match; try discriminate. destruct (check_addresses _ _ _ _); [cbn [res_bind] in H|discriminate].
  destruct (normalize_dns [] _); [|discriminate]. by injection H as <-.
Qed.

Lemma validate_ipv4_config_fixed c a g : static_ok c a g -> validate_ipv4_config c = Ok c.
Proof.
  intros (Ha & Hg & Ea & Eg & Hp & H1 & H2 & H3 & H4 & Hc & Hd & Hl).
  unfold validate_ipv4_config, check, within. rewrite Ea, Eg, !_validate_ipv4_format by assumption.
  assert (E : (8 <=? prefix c) && (prefix c <=? 32) = true) by (apply andb_true_iff; rewrite !Z.leb_le; lia).
  rewrite E. assert (L : (Z.of_nat (List.length (dns_servers c)) <=? 8) = true) by (apply Z.leb_le; lia).
  rewrite L. cbn [res_bind]. rewrite !parse_format by assumption.
  assert (C : check_addresses a g (format_ipv4 g) (prefix c) = Ok tt) by by apply check_addresses_ok.
  rewrite C, normalize_dns_complete; [|done|done|by intros ? ? ?%not_elem_of_nil].
  cbn [res_bind]. rewrite <- Ea, <- Eg. by destruct c.
Qed.

(** *** Subnets in arithmetic *)

(** The number of addresses of a subnet. *)
Definition subnet_size (prefix : Z) : Z := 2 ^ (32 - prefix).

Lemma hostmask_ones p : 0 <= p <= 32 -> hostmask p = Z.ones (32 - p).
Proof.
  intros Hp. unfold hostmask. change ALL_ONES with (Z.ones 32). apply Z.bits_inj'. intros n Hn.
  rewrite Z.shiftr_spec by done. rewrite !Z.testbit_ones_nonneg by lia.
  destruct (Z.ltb_spec (n + p) 32), (Z.ltb_spec n (32 - p)); [done|lia|lia|done].
Qed.

Lemma network_address_arith a p : addr_ok a -> 0 <= p <= 32 ->
  network_address a p = subnet_size p * (a / subnet_size p).
Proof.
  intros [A0 A1] Hp. unfold subnet_size. change (network_address a p) with (Z.land a (Z.lxor ALL_ONES (hostmask p))).
  rewrite hostmask_ones by done.
  rewrite Z.mul_comm, <- Z.shiftr_div_pow2, <- Z.shiftl_mul_pow2 by lia. rewrite <- Z.ldiff_ones_r by lia.
  change ALL_ONES with (Z.ones 32). apply Z.bits_inj'. intros n Hn.
  rewrite Z.land_spec, Z.lxor_spec, Z.ldiff_spec, !Z.testbit_ones_nonneg by lia.
  destruct (Z.ltb_spec n 32); [by rewrite xorb_true_l|].
  destruct (Z.eq_dec a 0) as [->|Na]; [by rewrite Z.bits_0|].
  rewrite (Z.bits_above_log2 a n); [done|done|]. apply Z.lt_le_trans with 32; [|done].
  apply Z.log2_lt_pow2; lia.
Qed.

Lemma broadcast_address_arith a p : addr_ok a -> 0 <= p <= 32 ->
  broadcast_address a p = subnet_size p * (a / subnet_size p) + subnet_size p - 1.
Proof.
  intros A Hp. unfold broadcast_address. rewrite network_address_arith, hostmask_ones by done. unfold subnet_size.
  set (k := 32 - p). assert (0 <= k) by lia. rewrite (Z.mul_comm (2 ^ k)), <- Z.shiftl_mul_pow2 by done.
  assert (Z.land (Z.shiftl (a / 2 ^ k) k) (Z.ones k) = 0) as D.
  { rewrite Z.land_ones, Z.shiftl_mul_pow2 by done. apply Z.mod_mul. lia. }
  rewrite <- Z.lxor_lor, <- Z.add_nocarry_lxor by done. rewrite Z.ones_equiv. lia.
Qed.

(** What the four checks say of the addresses as numbers. *)
Lemma subnet_checks a g p : addr_ok a -> addr_ok g -> 8 <= p <= 32 ->
  (a <> network_address a p /\ a <> broadcast_address a p /\ in_network g a p = true)
  <-> 0 < a mod subnet_size p < subnet_size p - 1 /\ g / subnet_size p = a / subnet_size p.
Proof.
  intros A G Hp. rewrite broadcast_address_arith by (done || lia). unfold in_network. fold (network_address g p).
  rewrite !network_address_arith, Z.eqb_eq by (done || lia).
  assert (0 < subnet_size p) as N by (apply Z.pow_pos_nonneg; lia).
  pose proof (Z.div_mod a (subnet_size p) ltac:(lia)). pose proof (Z.mod_pos_bound a (subnet_size p) N).
  split; [intros (H1 & H2 & H3)|intros (H1 & H3)].
  - split; [lia|]. apply Z.mul_reg_l in H3; [done|lia].
  - rewrite H3. lia.
Qed.

(** The spelling [s], blanks around it aside, is the address [a]. *)
Definition spells (s : string) (a : Z) : Prop := parse_ipv4 (strip s) = Some a.

Lemma normalize_dns_spec l : forall seen l',
  normalize_dns seen l = Ok l' <->
  exists ds, Forall2 spells l ds /\ l' = List.map format_ipv4 ds /\ NoDup l' /\ forall s, s ∈ l' -> s ∉ seen.
Proof.
  induction l as [|d l IH]; intros seen l'; cbn [normalize_dns].
  - split; [intros [= <-]; exists []; split_and!; [constructor|done|constructor|by intros s ?%not_elem_of_nil]|].
    intros (ds & F & -> & _). by apply Forall2_nil_inv_l in F as ->.
  - split.
    + destruct (_validate_ipv4 d "DNS server") as [n|] eqn:V; [|discriminate]. cbn [res_bind].
      apply _validate_ipv4_ok in V as (a & Ha & ->). case_bool_decide as Hn; [discriminate|].
      destruct (normalize_dns (_ :: seen) l) as [r|] eqn:R; [|discriminate]. cbn [res_bind]. intros [= <-].
      apply IH in R as (ds & F & -> & N & S). exists (a :: ds).
      split_and!; [by constructor|done|constructor; [intros I; apply (S _ I); by left|done]|].
      intros s [->|I]%elem_of_cons; [done|]. intros X. apply (S s I). by right.
    + intros (ds & F & -> & N & S). apply Forall2_cons_inv_l in F as (a & ds' & Ha & F & ->). cbn in N, S.
      apply NoDup_cons in N as [Na N]. assert (_validate_ipv4 d "DNS server" = Ok (format_ipv4 a)) as ->
        by (apply _validate_ipv4_ok; eauto). cbn [res_bind].
      rewrite bool_decide_eq_false_2 by (apply S; by left).
      assert (normalize_dns (format_ipv4 a :: seen) l = Ok (List.map format_ipv4 ds')) as ->; [|done].
      apply IH. exists ds'. split_and!; [done|done|done|]. intros s I [->|X]%elem_of_cons; [done|].
      apply (S s); [by right|done].
Qed.

Lemma spelled_nodup l ds : Forall2 spells l ds -> NoDup (List.map format_ipv4 ds) <-> NoDup ds.
Proof.
  induction 1 as [|s a l ds E F IH]; cbn; [split; constructor|]. rewrite !NoDup_cons, IH.
  assert (format_ipv4 a ∈ List.map format_ipv4 ds <-> a ∈ ds) as ->; [|done].
  rewrite !list_elem_of_In. split; [|apply in_map]. intros (b & Eb & I)%in_map_iff.
  apply parse_ipv4_ok in E. apply format_ipv4_inj in Eb as ->; [done| |done].
  apply list_elem_of_In, list_elem_of_lookup in I as (i & I). destruct (Forall2_lookup_r _ _ _ _ _ F I) as (t & _ & Pt).
  by eapply parse_ipv4_ok.
Qed.

(** C20 (Ipv4Config): which static configurations are accepted, and as what.
    The fields must spell, up to blanks around them, a host [a], a gateway
    [g] and at most eight distinct DNS servers [ds]; the prefix must leave
    room for hosts (the field admits up to 32, but /31 and /32 are never
    accepted); the host must be neither the first nor the last address of its
    subnet, and the gateway another address of that subnet.  The result then
    is exactly the configuration as given, with the addresses in their
    canonical spelling and the servers in their order.  (That the gateway may
    be the network or the broadcast address is refused only by the preflight;
    see [schema_preflight_agreement].) *)
Theorem ipv4_config_spec c c' :
  validate_ipv4_config c = Ok c' <->
  exists a g ds,
    spells (address c) a /\ spells (gateway c) g /\ Forall2 spells (dns_servers c) ds
    /\ 8 <= prefix c <= 30
    /\ 0 < a mod subnet_size (prefix c) < subnet_size (prefix c) - 1
    /\ g / subnet_size (prefix c) = a / subnet_size (prefix c) /\ g <> a
    /\ NoDup ds /\ (List.length ds <= 8)%nat
    /\ c' = MkIpv4 (format_ipv4 a) (prefix c) (format_ipv4 g) (List.map format_ipv4 ds).
Proof.
  split.
  - intros H. pose proof H as D. apply validate_ipv4_config_sound in H as (a & g & Hs & Pa & Pg & Pp).
    apply validate_ipv4_config_dns in D. apply normalize_dns_spec in D as (ds & F & Ed & N & _).
    destruct Hs as (Ha & Hg & Ea & Eg & Hp & H1 & H2 & H3 & H4 & _ & _ & Hl).
    rewrite Ed, List.length_map in Hl. rewrite Ed, (spelled_nodup _ _ F) in N. rewrite <- Pp.
    assert (prefix c' <= 30) as Hp'.
    { destruct (Z.le_gt_cases (prefix c') 30) as [|Hgt]; [done|]. exfalso.
      destruct (point_to_point a (prefix c') Ha ltac:(lia)); done. }
    destruct (proj1 (subnet_checks a g _ Ha Hg Hp) (conj H1 (conj H2 H3))) as [S1 S2].
    exists a, g, ds. split_and!; try done; try lia. rewrite <- Ea, <- Eg, <- Ed. by destruct c'.
  - intros (a & g & ds & Pa & Pg & F & Hp & S1 & S2 & Ne & N & L & ->).
    pose proof (parse_ipv4_ok _ _ Pa) as Ha. pose proof (parse_ipv4_ok _ _ Pg) as Hg.
    destruct (proj2 (subnet_checks a g (prefix c) Ha Hg ltac:(lia)) (conj S1 S2)) as (H1 & H2 & H3).
    unfold validate_ipv4_config, check, within.
    assert ((8 <=? prefix c) && (prefix c <=? 32) = true) as -> by (apply andb_true_iff; rewrite !Z.leb_le; lia).
    assert ((Z.of_nat (List.length (dns_servers c)) <=? 8) = true) as ->
      by (apply Z.leb_le; apply Forall2_length in F; lia).
    unfold _validate_ipv4 at 1 2. unfold spells in Pa, Pg. rewrite Pa, Pg. cbn [res_bind]. rewrite !parse_format by done.
    assert (check_addresses a g (format_ipv4 g) (prefix c) = Ok tt) as -> by by apply check_addresses_ok.
    assert (normalize_dns [] (dns_servers c) = Ok (List.map format_ipv4 ds)) as ->; [|done].
    apply normalize_dns_spec. exists ds. split_and!; [done|done|by apply (spelled_nodup _ _ F)|by intros s _ ?%not_elem_of_nil].
Qed.

Definition dns_usable (s : string) : Prop := s <> format_ipv4 0 /\ s <> format_ipv4 ALL_ONES.

Lemma dns_issues_clean i seen l :
  Forall canonical l -> NoDup l -> (forall a, In a seen -> addr_ok a /\ format_ipv4 a ∉ l) ->
  dns_issues i seen l = [] <-> Forall dns_usable l.
Proof.
  intros Hc. revert i seen. induction Hc as [|s l (a & Ha & ->) Hc IH]; intros i seen Hd Hs; [done|].
  apply NoDup_cons in Hd as [Hn Hd]. cbn [dns_issues]. rewrite parse_strip_format by done.
  assert (E : existsb (Z.eqb a) seen = false).
  { apply not_true_is_false. intros T. apply existsb_exists in T as (b & Hb & T). bools. subst b.
    destruct (Hs a Hb) as [_ X]. apply X. by left. }
  rewrite E. rewrite Forall_cons. rewrite <- (IH (i + 1) (a :: seen)); [|done|].
  - assert (U : unusable_dns a = false <-> dns_usable (format_ipv4 a)).
    { unfold unusable_dns, dns_usable. rewrite orb_false_iff, !Z.eqb_neq.
      assert (A0 : addr_ok 0) by (unfold addr_ok; lia).
      assert (A1 : addr_ok ALL_ONES) by (unfold addr_ok, ALL_ONES; lia).
      split; intros [X Y]; split; intros Z0; try (by apply format_ipv4_inj in Z0);
        [apply X|apply Y]; by rewrite Z0. }
    rewrite <- U. destruct (unusable_dns a); simpl; naive_solver.
  - intros b [<-|Hb]; [done|]. destruct (Hs b Hb) as [Hbo X]. split; [done|]. intros Y. apply X. by right.
Qed.

(** [Ipv4Config against validate_static_ipv4]: the schema and the preflight
    helper disagree only where the helper is stricter.  A configuration the
    schema accepted raises no issue in [validate_static_ipv4] exactly when its
    gateway is not the network or broadcast address and no DNS server is
    0.0.0.0 or 255.255.255.255; the schema itself accepts all of these. *)
Theorem schema_preflight_agreement c c' :
  validate_ipv4_config c = Ok c' ->
  exists a g, address c' = format_ipv4 a /\ gateway c' = format_ipv4 g
  /\ (validate_static_ipv4 (address c') (prefix c') (gateway c') (dns_servers c') = []
      <-> g <> network_address a (prefix c') /\ g <> broadcast_address a (prefix c')
          /\ Forall dns_usable (dns_servers c')).
Proof.
  intros H. apply validate_ipv4_config_sound in H as (a & g & Hs & _). exists a, g.
  destruct Hs as (Ha & Hg & Ea & Eg & Hp & H1 & H2 & H3 & H4 & Hc & Hd & Hl).
  split; [done|]. split; [done|].
  unfold validate_static_ipv4. rewrite Ea, Eg, !parse_strip_format by assumption.
  assert (E : prefix_ok (prefix c') = true) by (unfold prefix_ok; apply andb_true_iff; rewrite !Z.leb_le; lia).
  rewrite E. rewrite <- (dns_issues_clean 1 [] (dns_servers c')); [|done|done|done].
  unfold network_issues. rewrite H3. apply Z.eqb_neq in H1, H2, H4. rewrite H1, H2, H4.
  rewrite <- !Z.eqb_neq. cbn [negb app].
  destruct (g =? network_address a (prefix c')), (g =? broadcast_address a (prefix c')); cbn [orb app];
    rewrite ?app_nil_r; naive_solver.
Qed.

Definition net_gateway : Ipv4Config := MkIpv4 "10.0.0.5" 24 " 10.0.0.0" ["255.255.255.255"].

Lemma schema_preflight_agreement_witness :
  exists c', validate_ipv4_config net_gateway = Ok c'
    /\ validate_static_ipv4 (address c') (prefix c') (gateway c') (dns_servers c') <> [].
Proof.
  exists (MkIpv4 "10.0.0.5" 24 "10.0.0.0" ["255.255.255.255"]).
  assert (H : validate_ipv4_config net_gateway = Ok (MkIpv4 "10.0.0.5" 24 "10.0.0.0" ["255.255.255.255"]))
    by (vm_compute; reflexivity).
  split; [exact H|]. destruct (schema_preflight_agreement _ _ H) as (a & g & _ & _ & _).
  vm_compute. discriminate.
Defined.

(** ** The request validators are idempotent *)

Lemma validate_vm_same v v' : validate_vm v = Ok v' ->
  v' = v /\ sized 2 64 (vm_spec_name v) = true /\ fullmatch VM_NAME_PATTERN (vm_spec_name v) = true.
Proof.
  unfold validate_vm, check. intros H.
  destruct (sized 2 64 _ && _) eqn:E; [|discriminate]. bools.
  destruct (_ <=? _); [|discriminate]. by injection H as <-.
Qed.

Ltac run_checks H :=
  repeat match type of H with
  | res_bind (check ?b _) _ = Ok _ =>
      let E := fresh "E" in destruct b eqn:E; [|discriminate H]; cbn [check res_bind] in H
  end.

Lemma validate_compute_same c c' : validate_compute c = Ok c' -> c' = c.
Proof. unfold validate_compute. intros H. run_checks H. by injection H as <-. Qed.

Lemma validate_hardware_same h h' : validate_hardware h = Ok h' -> h' = h.
Proof. unfold validate_hardware. intros H. run_checks H. by injection H as <-. Qed.

Definition plain (c : ascii) : bool := negb (is_space c) && negb (is_upper c).

Lemma dns_domain_shape s :
  lang DNS_DOMAIN_PATTERN s ->
  Forall (fun c => plain c = true) s /\ exists t c, s = (t ++ [c])%list /\ is_lower c = true.
Proof.
  intros H. split.
  - eapply lang_only; [|exact H]. simpl. split_and!; try done; apply chars_impl; vm_compute; reflexivity.
  - unfold DNS_DOMAIN_PATTERN in H. apply lang_seq in H as (t & u & -> & _ & H).
    apply lang_seq in H as (v & w & -> & _ & H). apply lang_plus_last in H as (x & c & -> & Hc).
    exists (t ++ v ++ x)%list, c. by rewrite !app_assoc.
Qed.

Lemma lower_not_dot : forall c, is_lower c = true -> Ascii.eqb "." c = false.
Proof.
  intros c H. apply negb_true_iff. revert c H. apply chars_impl. vm_compute. reflexivity.
Qed.

Lemma normalize_domain_id d : fullmatch DNS_DOMAIN_PATTERN d = true -> _normalize_domain d = d.
Proof.
  intros H. apply fullmatch_lang, dns_domain_shape in H as [Hp (t & c & Ht & Hc)].
  unfold _normalize_domain. rewrite strip_no_space.
  - unfold rstrip_char. rewrite (rstrip_by_keep _ d (text t) c).
    + apply lower_id. eapply Forall_impl; [exact Hp|]. intros x. unfold plain. simpl. intros X. by bools.
    + apply chars_inj. by rewrite chars_app, chars_text.
    + by apply lower_not_dot.
  - eapply Forall_impl; [exact Hp|]. intros x. unfold plain. simpl. intros X. by bools.
Qed.

Lemma validate_domain_join_idem j j' : validate_domain_join j = Ok j' -> validate_domain_join j' = Ok j'.
Proof.
  unfold validate_domain_join. intros H. run_checks H. injection H as <-.
  cbn [domain ou join_secret_ref]. assert (E' := E). apply andb_true_iff in E' as [_ M].
  rewrite (normalize_domain_id _ M). unfold check. rewrite E, E0, E1. reflexivity.
Qed.

Lemma validate_guest_sound g g' :
  validate_guest g = Ok g' ->
  (exists j, g' = g <| domain_join := j |>) /\ validate_guest g' = Ok g'
  /\ pattern_opt 0 64 VM_NAME_PATTERN (hostname g) = true.
Proof.
  unfold validate_guest at 1. intros H. run_checks H.
  destruct (domain_join g) as [j|] eqn:J.
  - destruct (validate_domain_join j) as [j'|] eqn:V; [|discriminate]. cbn [res_bind] in H.
    injection H as <-. split_and!; [by exists (Some j')| |done].
    unfold validate_guest, check, put_field. cbn.
    rewrite E, E0, E1, E2, E3, E4, E5, E6. cbn [res_bind].
    by rewrite (validate_domain_join_idem _ _ V).
  - injection H as <-. split_and!; [exists None; destruct g; simpl in *; congruence| |done].
    unfold validate_guest, check. rewrite E, E0, E1, E2, E3, E4, E5, E6, J. reflexivity.
Qed.

(** Replacing the hostname of a valid guest by a name of the right shape. *)
Lemma validate_guest_hostname g h :
  validate_guest g = Ok g -> pattern_opt 0 64 VM_NAME_PATTERN (Some h) = true ->
  validate_guest (g <| hostname := Some h |>) = Ok (g <| hostname := Some h |>).
Proof.
  intros H Hh. unfold validate_guest at 1 in H. run_checks H.
  unfold validate_guest, check, put_field. cbn [iso_id hostname timezone installation_locale input_locale
    windows_image_index credential_secret_ref product_key_secret_ref domain_join].
  rewrite E, Hh, E1, E2, E3, E4, E5, E6. cbn [res_bind].
  destruct (domain_join g) as [j|] eqn:J; [|done].
  destruct (validate_domain_join j) as [j'|]; [|discriminate]. cbn [res_bind] in *. injection H as H.
  apply (f_equal domain_join) in H. cbn in H. rewrite J in H. by injection H as ->.
Qed.

Lemma validate_network_idem n n' : validate_network n = Ok n' -> validate_network n' = Ok n'.
Proof.
  unfold validate_network at 1. intros H. run_checks H.
  destruct (ipv4 n) as [c|].
  - destruct (validate_ipv4_config c) as [c'|] eqn:V; [|discriminate]. cbn [res_bind] in H.
    run_checks H. injection H as <-. unfold validate_network, check. cbn [network_id ipv4 mode adapter_type].
    rewrite E. cbn [res_bind]. apply validate_ipv4_config_sound in V as (a & g & Hs & _).
    rewrite (validate_ipv4_config_fixed _ _ _ Hs). cbn [res_bind]. by rewrite E0.
  - cbn [res_bind] in H. run_checks H. injection H as <-. unfold validate_network, check.
    cbn [network_id ipv4 mode adapter_type]. rewrite E. cbn [res_bind]. by rewrite E0.
Qed.

(** ** Names *)

Lemma chars_upper s : chars (upper s) = List.map upper_char (chars s).
Proof. unfold upper. apply chars_text. Qed.

Lemma fullmatch_upper r s : closed_under upper_char r -> fullmatch r s = true -> fullmatch r (upper s) = true.
Proof. rewrite !fullmatch_lang, chars_upper. apply lang_closed. Qed.

Lemma vm_name_upper : closed_under upper_char VM_NAME_PATTERN.
Proof.
  simpl. split_and!; auto; try (apply closed_under_rupto; simpl); apply chars_impl; vm_compute; reflexivity.
Qed.

Lemma computer_name_upper : closed_under upper_char WINDOWS_COMPUTER_NAME_PATTERN.
Proof.
  simpl. split_and!; auto; try (apply closed_under_rupto; simpl); apply chars_impl; vm_compute; reflexivity.
Qed.

Lemma computer_name_is_vm_name s :
  fullmatch WINDOWS_COMPUTER_NAME_PATTERN s = true -> fullmatch VM_NAME_PATTERN s = true.
Proof.
  rewrite !fullmatch_lang. unfold WINDOWS_COMPUTER_NAME_PATTERN, VM_NAME_PATTERN, ropt.
  rewrite !lang_seq. intros (t & u & -> & Ht & Hu). exists t, u. split_and!; [done|done|].
  apply lang_alt in Hu as [Hu|Hu]; apply lang_alt; [left|by right].
  apply lang_seq in Hu as (v & w & -> & Hv & Hw). apply lang_seq. exists v, w. split_and!; [done| |done].
  eapply lang_mono_rupto; [|exact Hv]. intros x. rewrite !lang_chr. intros (c & -> & Hc).
  exists c. split; [done|]. by rewrite Hc.
Qed.

Lemma alnum_length s : lang alnum s -> List.length s = 1%nat.
Proof. intros (c & -> & _)%lang_chr. done. Qed.

Lemma computer_name_length s : fullmatch WINDOWS_COMPUTER_NAME_PATTERN s = true -> 1 <= len s <= 63.
Proof.
  rewrite fullmatch_lang. unfold WINDOWS_COMPUTER_NAME_PATTERN, ropt, len. rewrite <- chars_length.
  intros (t & u & -> & Ht & Hu)%lang_seq. apply alnum_length in Ht. rewrite length_app, Ht.
  apply lang_alt in Hu as [Hu|Hu]; [|apply lang_eps in Hu; subst; simpl; lia].
  apply lang_seq in Hu as (v & w & -> & Hv & Hw). apply alnum_length in Hw.
  apply lang_rupto_length in Hv. rewrite length_app, Hw. lia.
Qed.

Lemma is_digit_upper c : is_digit (upper_char c) = is_digit c.
Proof.
  apply Bool.eqb_prop. revert c.
  apply (chars_forall (fun x => Bool.eqb (is_digit (upper_char x)) (is_digit x))). vm_compute. reflexivity.
Qed.

Lemma isdigit_upper s : isdigit (upper s) = isdigit s.
Proof.
  destruct s as [|c s]; [done|]. unfold isdigit, upper. cbn [chars list_ascii_of_string List.map text string_of_list_ascii].
  fold (text (List.map upper_char (chars s))). cbn [chars list_ascii_of_string forallb].
  fold (chars (text (List.map upper_char (chars s)))). fold (chars s).
  rewrite chars_text, is_digit_upper. f_equal.
  induction (chars s) as [|x l IH]; simpl; [done|]. by rewrite is_digit_upper, IH.
Qed.

Lemma name_ok_upper s : name_ok s = true -> name_ok (upper s) = true.
Proof.
  unfold name_ok. intros H. bools. rewrite fullmatch_upper, isdigit_upper by (done || apply computer_name_upper).
  simpl. by apply negb_true_iff.
Qed.

Lemma upper_nonempty s d : 1 <= len s -> or_else (Some (upper s)) d = upper s.
Proof. intros H. destruct s as [|c s]; [by vm_compute in H|]. reflexivity. Qed.

(** ** The whole request *)

(** What [_validate_identity] writes. *)
Definition normalized_hostname (r : ProvisioningRequest) : option string :=
  match domain_join (guest r), identity_policy_version r with
  | Some _, V1 => hostname (guest r)
  | _, _ => Some (upper (short_name r))
  end.

Lemma _validate_identity_sound r r' :
  _validate_identity r = Ok r' ->
  r' = r <| guest := (guest r) <| hostname := normalized_hostname r |> |>
  /\ (identity_policy_version r = V2 ->
        fullmatch SECRET_REFERENCE_PATTERN (credential_secret_ref (guest r)) = true
        /\ name_ok (short_name r) = true
        /\ match domain_join (guest r) with
           | None => True
           | Some j => fullmatch SECRET_REFERENCE_PATTERN (join_secret_ref j) = true
                       /\ labels_ok (domain j) = true /\ len (short_name r ++ "." ++ domain j) <= 253
           end).
Proof.
  unfold _validate_identity, normalized_hostname, put_field.
  destruct r as [v vm c h [i hn tz l il w cr pk dj] n ce ap]. cbn. intros H.
  destruct v; cbn in H.
  - split; [|discriminate]. destruct dj as [j|]; cbn in H; by injection H as <-.
  - run_checks H. apply negb_true_iff, negb_false_iff in E, E0.
    destruct dj as [j|]; cbn in H; [|injection H as <-; done].
    destruct (check _ _) as [[]|] eqn:C1 in H; [|discriminate]. cbn [res_bind] in H.
    destruct (check _ _) as [[]|] eqn:C2 in H; [|discriminate]. cbn [res_bind] in H.
    destruct (check _ _) as [[]|] eqn:C3 in H; [|discriminate]. cbn [res_bind] in H.
    apply check_ok in C1, C2, C3. apply negb_true_iff in C1, C2, C3. apply negb_false_iff in C1, C2.
    bools. injection H as <-. split; [done|]. intros _. cbn in C3. apply Z.ltb_ge in C3.
    do 4 (split; [done|]). exact C3.
Qed.

Lemma short_name_sized r v' g' :
  validate_vm (vm r) = Ok v' -> validate_guest (guest r) = Ok g' ->
  1 <= len (short_name r) /\ pattern_opt 0 64 VM_NAME_PATTERN (Some (short_name r)) = true.
Proof.
  intros Hv Hg. apply validate_vm_same in Hv as (_ & Hs & Hm).
  apply validate_guest_sound in Hg as (_ & _ & Hh).
  assert (A : 1 <= len (vm_spec_name (vm r)) /\
              pattern_opt 0 64 VM_NAME_PATTERN (Some (vm_spec_name (vm r))) = true).
  { unfold pattern_opt, sized, within in *. bools. split; [lia|]. rewrite Hm.
    apply andb_true_iff. split; [|done]. apply andb_true_iff. rewrite !Z.leb_le. lia. }
  assert (B : forall h, or_else h (vm_spec_name (vm r)) = vm_spec_name (vm r) \/
                        (h = Some (or_else h (vm_spec_name (vm r))) /\ 1 <= len (or_else h (vm_spec_name (vm r))))).
  { intros [[|c s]|]; simpl; [by left| |by left]. right. split; [done|]. unfold len. simpl. lia. }
  unfold short_name. destruct (domain_join (guest r)); [destruct (identity_policy_version r)|]; try exact A.
  all: destruct (B (hostname (guest r))) as [->|[E L]]; [exact A|]; split; [exact L|]; by rewrite <- E.
Qed.

Lemma pattern_opt_upper s :
  pattern_opt 0 64 VM_NAME_PATTERN (Some s) = true -> pattern_opt 0 64 VM_NAME_PATTERN (Some (upper s)) = true.
Proof.
  unfold pattern_opt, sized. rewrite len_upper. intros H. apply andb_true_iff in H as [-> H].
  simpl. apply fullmatch_upper; [apply vm_name_upper|done].
Qed.

Definition identity_ok (r : ProvisioningRequest) : Prop :=
  identity_policy_version r = V2 ->
  fullmatch SECRET_REFERENCE_PATTERN (credential_secret_ref (guest r)) = true
  /\ name_ok (short_name r) = true
  /\ match domain_join (guest r) with
     | None => True
     | Some j => fullmatch SECRET_REFERENCE_PATTERN (join_secret_ref j) = true
                 /\ labels_ok (domain j) = true /\ len (short_name r ++ "." ++ domain j) <= 253
     end.

Lemma _validate_identity_complete r :
  identity_ok r -> _validate_identity r = Ok (r <| guest := (guest r) <| hostname := normalized_hostname r |> |>).
Proof.
  intros H. unfold _validate_identity, normalized_hostname, identity_ok, check in *.
  destruct (identity_policy_version r) eqn:V.
  - rewrite bool_decide_eq_false_2 by discriminate. cbn [andb negb res_bind].
    destruct (domain_join (guest r)) eqn:D; cbn [res_bind]; [|done].
    destruct r as [? ? ? ? [] ? ? ?]; reflexivity.
  - destruct (H eq_refl) as (H1 & H2 & H3). rewrite bool_decide_eq_true_2 by done.
    rewrite H1, H2. cbn [andb negb res_bind]. destruct (domain_join (guest r)) as [j|] eqn:D; [|done].
    destruct H3 as (H3 & H4 & H5). rewrite H3, H4. apply Z.ltb_ge in H5. by rewrite H5.
Qed.

(** The normalised hostname satisfies the identity checks again and is stable. *)
Lemma identity_stable r :
  1 <= len (short_name r) -> identity_ok r ->
  let r' := r <| guest := (guest r) <| hostname := normalized_hostname r |> |> in
  identity_ok r' /\ normalized_hostname r' = normalized_hostname r.
Proof.
  intros Hn Hi. cbn zeta. unfold identity_ok, normalized_hostname, short_name, put_field in *.
  cbn [identity_policy_version guest domain_join credential_secret_ref hostname vm] in *.
  destruct (domain_join (guest r)) as [j|] eqn:D; [|].
  - destruct (identity_policy_version r); [split; [discriminate|done]|]. done.
  - assert (E : forall o, 1 <= len o -> or_else (Some (upper o)) (vm_spec_name (vm r)) = upper o)
      by (intros; by apply upper_nonempty).
    rewrite E by done. split.
    + intros V. destruct (Hi V) as (H1 & H2 & _). split_and!; [done| |done]. by apply name_ok_upper.
    + rewrite upper_idemp. by destruct (identity_policy_version r).
Qed.

(** What the validator returns it accepts again as it is. *)
Lemma validate_request_stable r r' : validate_request r = Ok r' -> validate_request r' = Ok r'.
Proof.
  unfold validate_request. intros H.
  destruct (validate_vm (vm r)) as [v|] eqn:Hv; [|discriminate].
  destruct (validate_compute (compute r)) as [c|] eqn:Hc; [|discriminate].
  destruct (validate_hardware (hardware r)) as [h|] eqn:Hh; [|discriminate].
  destruct (validate_guest (guest r)) as [g|] eqn:Hg; [|discriminate].
  destruct (validate_network (network r)) as [n|] eqn:Hw; [|discriminate]. cbn [res_bind] in H.
  run_checks H.
  pose proof (validate_compute_same _ _ Hc) as ->. pose proof (validate_hardware_same _ _ Hh) as ->.
  pose proof (validate_vm_same _ _ Hv) as (-> & _).
  pose proof (validate_network_idem _ _ Hw) as Hw'.
  destruct (validate_guest_sound _ _ Hg) as (_ & Hg' & _).
  set (r1 := MkRequest _ _ _ _ g _ _ _) in H.
  assert (S1 := short_name_sized r1 _ _ Hv Hg'). destruct S1 as [Hl Hp].
  apply _validate_identity_sound in H as [-> Hi].
  destruct (identity_stable r1 Hl Hi) as [Hi' Hs].
  assert (Hg2 : validate_guest (g <| hostname := normalized_hostname r1 |>)
                = Ok (g <| hostname := normalized_hostname r1 |>)).
  { assert (U := validate_guest_hostname g _ Hg' (pattern_opt_upper _ Hp)).
    unfold normalized_hostname. destruct (domain_join (guest r1)); [|exact U].
    destruct (identity_policy_version r1); [|exact U].
    change (guest r1) with g. unfold put_field. destruct g; exact Hg'. }
  set (r2 := r1 <| guest := _ |>) in *.
  change (vm r2) with (vm r). change (compute r2) with (compute r). change (hardware r2) with (hardware r).
  change (guest r2) with (g <| hostname := normalized_hostname r1 |>). change (network r2) with n.
  change (certificate_package_ids r2) with (certificate_package_ids r).
  change (application_ids r2) with (application_ids r).
  rewrite Hv, Hc, Hh, Hg2, Hw'. cbn [res_bind]. rewrite E, E0. cbn [check res_bind].
  change (MkRequest _ _ _ _ _ _ _ _) with r2.
  rewrite _validate_identity_complete by done. f_equal. rewrite Hs. reflexivity.
Qed.

Definition sample_request : ProvisioningRequest :=
  MkRequest V2 (MkVmSpec "web-01" "") (MkComputeSpec "vc" "dc-1" "cl-1" None None)
    (MkHardwareSpec 2 4096 EFI false [MkDiskSpec 60 THIN None])
    (MkGuestSpec "iso:x" None None "en-US" "0409:00000409" 2 "guest-local-admin" None
       (Some (MkDomainJoinSpec " Corp.Example.COM." None "ad/join")))
    (MkNetworkSpec "net-1" VMXNET3 STATIC (Some (MkIpv4 " 10.0.0.5" 24 "10.0.0.1" ["10.0.0.2"]))) [] [].

Definition stored_request : ProvisioningRequest :=
  MkRequest V2 (MkVmSpec "web-01" "") (MkComputeSpec "vc" "dc-1" "cl-1" None None)
    (MkHardwareSpec 2 4096 EFI false [MkDiskSpec 60 THIN None])
    (MkGuestSpec "iso:x" (Some "WEB-01") None "en-US" "0409:00000409" 2 "guest-local-admin" None
       (Some (MkDomainJoinSpec "corp.example.com" None "ad/join")))
    (MkNetworkSpec "net-1" VMXNET3 STATIC (Some (MkIpv4 "10.0.0.5" 24 "10.0.0.1" ["10.0.0.2"]))) [] [].

Example sample_stored : validate_request sample_request = Ok stored_request.
Proof. vm_compute. reflexivity. Qed.

(** What no check of the request changes. *)
Lemma validate_request_keeps r r' :
  validate_request r = Ok r' ->
  compute r' = compute r /\ certificate_package_ids r' = certificate_package_ids r /\ application_ids r' = application_ids r.
Proof.
  unfold validate_request. intros H.
  destruct (validate_vm (vm r)) as [v|] eqn:Hv; [|discriminate].
  destruct (validate_compute (compute r)) as [c|] eqn:Hc; [|discriminate].
  destruct (validate_hardware (hardware r)) as [h|] eqn:Hh; [|discriminate].
  destruct (validate_guest (guest r)) as [g|] eqn:Hg; [|discriminate].
  destruct (validate_network (network r)) as [n|] eqn:Hw; [|discriminate]. cbn [res_bind] in H.
  run_checks H. apply _validate_identity_sound in H as [-> _]. by rewrite (validate_compute_same _ _ Hc).
Qed.

Lemma validate_submission_request r r' : validate_submission r = Ok r' -> validate_request r = Ok r'.
Proof.
  unfold validate_submission. intros H. destruct (check _ _); [|discriminate]. cbn [res_bind] in H.
  destruct (validate_request r) as [x|]; [|discriminate]. cbn [res_bind] in H. destruct (check _ _); [|discriminate]. exact H.
Qed.

Lemma validate_request_identity r r' :
  validate_request r = Ok r' ->
  identity_ok r' /\ 1 <= len (short_name r') /\ hostname (guest r') = normalized_hostname r'.
Proof.
  intros H. apply validate_request_stable in H. unfold validate_request in H.
  destruct (validate_vm (vm r')) as [v|] eqn:Hv; [|discriminate].
  destruct (validate_compute (compute r')) as [c|] eqn:Hc; [|discriminate].
  destruct (validate_hardware (hardware r')) as [h|] eqn:Hh; [|discriminate].
  destruct (validate_guest (guest r')) as [g|] eqn:Hg; [|discriminate].
  destruct (validate_network (network r')) as [n|] eqn:Hw; [|discriminate]. cbn [res_bind] in H.
  run_checks H. destruct (validate_guest_sound _ _ Hg) as (_ & Hg' & _).
  pose proof (validate_vm_same _ _ Hv) as (-> & _).
  set (r1 := MkRequest _ _ _ _ g _ _ _) in H.
  destruct (short_name_sized r1 _ _ Hv Hg') as [Hl _].
  apply _validate_identity_sound in H as [E' Hi].
  destruct (identity_stable r1 Hl Hi) as [Hi' Hs]. rewrite <- E' in Hi', Hs.
  split; [done|]. split; [|rewrite Hs, E'; reflexivity].
  destruct (short_name_sized r' _ _ Hv Hg) as [Hl' _]. done.
Qed.

Lemma effective_name_v2 r :
  identity_policy_version r = V2 -> effective_computer_name r = upper (short_name r).
Proof. intros V. unfold effective_computer_name, short_name. rewrite V. by destruct (domain_join (guest r)). Qed.

(** (ProvisioningRequest identity rules): every admitted v2 request has a
    usable Windows identity: its computer name is upper-case, of 1 to 63
    letters, digits and hyphens, not all digits; its credential references
    follow the safe grammar; and with a domain join the resulting FQDN fits
    the 253 characters of DNS. *)
Lemma admitted_identity r r' :
  validate_request r = Ok r' -> identity_policy_version r' = V2 ->
  let name := effective_computer_name r' in
  fullmatch WINDOWS_COMPUTER_NAME_PATTERN name = true /\ isdigit name = false /\ 1 <= len name <= 63
  /\ upper name = name
  /\ fullmatch SECRET_REFERENCE_PATTERN (credential_secret_ref (guest r')) = true
  /\ match domain_join (guest r') with
     | None => effective_fqdn r' = None
     | Some j => fullmatch SECRET_REFERENCE_PATTERN (join_secret_ref j) = true
                 /\ exists f, effective_fqdn r' = Some f /\ len f <= 253
     end.
Proof.
  intros H V. cbn zeta. destruct (validate_request_identity _ _ H) as (Hi & Hl & _).
  destruct (Hi V) as (H1 & H2 & H3). rewrite effective_name_v2 by done.
  pose proof (name_ok_upper _ H2) as H4. unfold name_ok in H4. apply andb_true_iff in H4 as [H4 H5].
  split; [done|]. split; [by apply negb_true_iff|]. split; [by apply computer_name_length|].
  split; [apply upper_idemp|]. split; [done|].
  unfold effective_fqdn. destruct (domain_join (guest r')) as [j|]; [|done].
  destruct H3 as (H6 & _ & H7). split; [done|]. eexists. split; [reflexivity|].
  rewrite effective_name_v2, len_lower by done. rewrite len_app, len_upper, <- len_app. done.
Qed.

Lemma admitted_identity_witness :
  effective_computer_name stored_request = "WEB-01" /\ 1 <= len (effective_computer_name stored_request) <= 63.
Proof.
  split; [reflexivity|]. apply (admitted_identity sample_request stored_request).
  - vm_compute. reflexivity.
  - reflexivity.
Defined.
