(* ===== verification/StateMachine.v ===== *)
(** * The stage registry

    [app/workers/state_machine.py]: the ordered stage list that drives
    execution, progress, resumption and the timeout defaults. *)

From Stdlib Require Import ZArith Lia Ascii String List Bool.
From stdpp Require Import base tactics list strings gmap.
From S2P Require Import Prelude PyStr.

Local Open Scope string_scope.
Local Open Scope Z_scope.

Record StageDefinition := MkStage {
  stage_key_of : string;
  stage_name : string;
  stage_retryable : bool;
  destructive : bool;
}.

(** [StageDefinition(key, name)] and [StageDefinition(key, name, destructive=True)] *)
Definition stage (key name : string) : StageDefinition := MkStage key name true false.
Definition destructive_stage (key name : string) : StageDefinition := MkStage key name true true.

Definition ORDERED_STAGES : list StageDefinition := [
  stage "validate_request" "Validate request";
  stage "connect_vcenter" "Connect to vCenter";
  stage "validate_infrastructure" "Validate infrastructure configuration";
  destructive_stage "create_vm" "Create virtual machine";
  stage "configure_hardware" "Configure hardware";
  stage "attach_network_adapter" "Attach network adapter";
  stage "prepare_unattended_install" "Prepare unattended Windows installation";
  stage "power_on" "Power on and start Windows Setup";
  stage "wait_for_guest_os" "Install Windows";
  stage "wait_for_tools" "Verify VMware Tools";
  stage "cleanup_unattended_media" "Remove installation media";
  destructive_stage "add_data_disks" "Add data disks";
  stage "initialize_data_disks" "Initialize data disks";
  stage "configure_guest_network" "Configure guest network";
  stage "validate_network" "Validate network connectivity";
  stage "configure_hostname" "Configure hostname";
  stage "join_domain" "Join domain";
  stage "reboot_guest" "Reboot guest";
  stage "wait_guest_ready" "Wait for guest availability";
  stage "install_root_certificates" "Install trusted root certificates";
  stage "install_intermediate_certificates" "Install intermediate certificates";
  stage "validate_certificates" "Verify certificates";
  stage "resolve_dependencies" "Resolve application dependencies";
  stage "install_applications" "Install applications";
  stage "validate_applications" "Validate application installations";
  stage "final_validation" "Final validation"
].

Definition STAGES_BY_KEY (key : string) : option StageDefinition :=
  find_first (fun s => String.eqb (stage_key_of s) key) ORDERED_STAGES.

Definition CONSOLE_STAGES : list string := ["power_on"; "wait_for_guest_os"; "wait_for_tools"].

(** Seconds. *)
Definition DEFAULT_STAGE_TIMEOUTS : list (string * Z) := [
  ("validate_request", 60);
  ("connect_vcenter", 120);
  ("validate_infrastructure", 300);
  ("create_vm", 1800);
  ("configure_hardware", 600);
  ("attach_network_adapter", 600);
  ("prepare_unattended_install", 600);
  ("power_on", 600);
  ("wait_for_guest_os", 21600);
  ("wait_for_tools", 900);
  ("cleanup_unattended_media", 1800);
  ("add_data_disks", 600);
  ("initialize_data_disks", 600);
  ("configure_guest_network", 300);
  ("validate_network", 300);
  ("configure_hostname", 300);
  ("join_domain", 600);
  ("reboot_guest", 600);
  ("wait_guest_ready", 600);
  ("install_root_certificates", 600);
  ("install_intermediate_certificates", 600);
  ("validate_certificates", 300);
  ("resolve_dependencies", 120);
  ("install_applications", 3600);
  ("validate_applications", 600);
  ("final_validation", 600)
].

Definition lookup_timeout (d : list (string * Z)) (key : string) : option Z :=
  option_map snd (find_first (fun e => String.eqb (fst e) key) d).

(** (key, display name, retryable) of every stage, for the creation of the step rows. *)
Definition stage_definitions : list (string * string * bool) :=
  List.map (fun s => (stage_key_of s, stage_name s, stage_retryable s)) ORDERED_STAGES.

Fixpoint index_from (i : Z) (key : string) (l : list StageDefinition) : Z :=
  match l with
  | [] => -1
  | s :: r => if String.eqb (stage_key_of s) key then i else index_from (i + 1) key r
  end.

Definition stage_index (key : string) : Z := index_from 0 key ORDERED_STAGES.

Definition is_destructive (key : string) : bool :=
  match STAGES_BY_KEY key with
  | Some s => destructive s
  | None => destructive (stage key key)
  end.

(** A falsy override is no override; [int()] of an integer is itself. *)
Definition stage_timeout (key : string) (timeouts_override : list (string * Z)) : Z :=
  match lookup_timeout timeouts_override key with
  | Some t => t
  | None => match lookup_timeout DEFAULT_STAGE_TIMEOUTS key with
            | Some t => t
            | None => 600
            end
  end.

(** ** The registry is well formed *)

Definition stage_keys : list string := List.map stage_key_of ORDERED_STAGES.

Lemma stage_keys_nodup : NoDup stage_keys.
Proof. apply (bool_decide_unpack _). vm_compute. exact I. Qed.

Lemma stages_by_key_in s : In s ORDERED_STAGES -> STAGES_BY_KEY (stage_key_of s) = Some s.
Proof. simpl. intros H. repeat destruct H as [<-|H]; try reflexivity. destruct H. Qed.

Lemma stages_by_key_some key s : STAGES_BY_KEY key = Some s -> In s ORDERED_STAGES /\ stage_key_of s = key.
Proof. intros H. apply find_first_some in H as [Hin Hk]. apply String.eqb_eq in Hk. done. Qed.

(** Every stage is retryable, so a failure's own flag decides. *)
Lemma stages_retryable s : In s ORDERED_STAGES -> stage_retryable s = true.
Proof. simpl. intros H. repeat destruct H as [<-|H]; try reflexivity. destruct H. Qed.

(** Every stage has a default timeout of its own. *)
Lemma stage_default_timeout s :
  In s ORDERED_STAGES -> exists t, lookup_timeout DEFAULT_STAGE_TIMEOUTS (stage_key_of s) = Some t /\ 60 <= t.
Proof.
  intros H.
  assert (F : forallb (fun s => match lookup_timeout DEFAULT_STAGE_TIMEOUTS (stage_key_of s) with
                                | Some t => 60 <=? t | None => false end) ORDERED_STAGES = true)
    by reflexivity.
  rewrite forallb_forall in F. specialize (F s H).
  destruct (lookup_timeout _ _) as [t|]; [|discriminate]. exists t. bools. done.
Qed.
