(* ===== verification/Jobs.v ===== *)
(** * Jobs and their steps

    [app/models/jobs.py]: the status enumerations and the rows of the tables
    [provisioning_jobs] and [provisioning_job_steps].  Datetimes count
    microseconds (the resolution of Python's [datetime]); identifiers are
    strings; a step's artifacts are a JSON object. *)

From Stdlib Require Import ZArith Lia Ascii String List Bool.
From stdpp Require Import base tactics list strings gmap.
From S2P Require Import Prelude PyStr.

Local Open Scope string_scope.
Local Open Scope Z_scope.

(** Microseconds in a second. *)
Definition SECOND : Z := 1000000.

(** ** Statuses *)

Inductive JobStatus :=
| QUEUED | RUNNING | COMPLETED | PARTIALLY_COMPLETED | FAILED | CANCELLED | INTERRUPTED.

Inductive StepStatus :=
| PENDING | STEP_RUNNING | SUCCEEDED | STEP_FAILED | SKIPPED | WARNING | NOT_APPLICABLE
| STEP_CANCELLED.

Inductive InfrastructureStatus := INFRA_PENDING | CREATING | INFRA_READY | INFRA_FAILED.

Inductive GuestOsStatus :=
| OS_UNKNOWN | NOT_PRESENT | INSTALLATION_REQUIRED | INSTALLATION_IN_PROGRESS | OS_READY | OS_ERROR.

Inductive VMwareToolsStatus :=
| TOOLS_UNKNOWN | NOT_APPLICABLE_YET | NOT_INSTALLED | INSTALLING | TOOLS_RUNNING | NOT_RUNNING
| OUTDATED | TOOLS_ERROR.

Inductive GuestProvisioningStatus :=
| GUEST_PENDING | WAITING_FOR_OS | WAITING_FOR_TOOLS | IN_PROGRESS | GUEST_COMPLETED
| NOT_REQUESTED | GUEST_FAILED.

#[export] Instance JobStatus_eq_dec : EqDecision JobStatus.
Proof. solve_decision. Defined.
#[export] Instance StepStatus_eq_dec : EqDecision StepStatus.
Proof. solve_decision. Defined.
#[export] Instance InfrastructureStatus_eq_dec : EqDecision InfrastructureStatus.
Proof. solve_decision. Defined.
#[export] Instance GuestOsStatus_eq_dec : EqDecision GuestOsStatus.
Proof. solve_decision. Defined.
#[export] Instance VMwareToolsStatus_eq_dec : EqDecision VMwareToolsStatus.
Proof. solve_decision. Defined.
#[export] Instance GuestProvisioningStatus_eq_dec : EqDecision GuestProvisioningStatus.
Proof. solve_decision. Defined.

(** The [value] of an enumeration member. *)
Definition job_status_value (s : JobStatus) : string :=
  match s with
  | QUEUED => "QUEUED" | RUNNING => "RUNNING" | COMPLETED => "COMPLETED"
  | PARTIALLY_COMPLETED => "PARTIALLY_COMPLETED" | FAILED => "FAILED"
  | CANCELLED => "CANCELLED" | INTERRUPTED => "INTERRUPTED"
  end.

Definition step_status_value (s : StepStatus) : string :=
  match s with
  | PENDING => "PENDING" | STEP_RUNNING => "RUNNING" | SUCCEEDED => "SUCCEEDED"
  | STEP_FAILED => "FAILED" | SKIPPED => "SKIPPED" | WARNING => "WARNING"
  | NOT_APPLICABLE => "NOT_APPLICABLE" | STEP_CANCELLED => "CANCELLED"
  end.

Definition tools_status_value (s : VMwareToolsStatus) : string :=
  match s with
  | TOOLS_UNKNOWN => "UNKNOWN" | NOT_APPLICABLE_YET => "NOT_APPLICABLE_YET"
  | NOT_INSTALLED => "NOT_INSTALLED" | INSTALLING => "INSTALLING" | TOOLS_RUNNING => "RUNNING"
  | NOT_RUNNING => "NOT_RUNNING" | OUTDATED => "OUTDATED" | TOOLS_ERROR => "ERROR"
  end.

Definition TERMINAL_JOB_STATUSES : list JobStatus := [COMPLETED; PARTIALLY_COMPLETED; FAILED; CANCELLED].
Definition ACTIVE_JOB_STATUSES : list JobStatus := [QUEUED; RUNNING; INTERRUPTED].
Definition IP_RESERVING_JOB_STATUSES : list JobStatus := ACTIVE_JOB_STATUSES.

Definition is_terminal (s : JobStatus) : bool := bool_decide (s ∈ TERMINAL_JOB_STATUSES).
Definition is_active (s : JobStatus) : bool := bool_decide (s ∈ ACTIVE_JOB_STATUSES).

(** A status is either terminal or holds the VM name, never both. *)
Lemma terminal_not_active s : is_terminal s = negb (is_active s).
Proof. by destruct s. Qed.

(** ** Rows *)

Record Step := MkStep {
  stage_key : string;
  step_name : string;
  sequence : Z;
  step_status : StepStatus;
  attempt : Z;
  retryable : bool;
  step_started_at : option Z;
  step_finished_at : option Z;
  output : option string;
  error_human : option string;
  error_technical : option string;
  artifacts : gmap string json;
}.

#[export] Instance eta_step : Eta Step := fun r =>
  MkStep (stage_key r) (step_name r) (sequence r) (step_status r) (attempt r) (retryable r)
    (step_started_at r) (step_finished_at r) (output r) (error_human r) (error_technical r)
    (artifacts r).

Record Job := MkJob {
  job_id : string;
  job_status : JobStatus;
  vm_name : string;
  datacenter_id : option string;
  datacenter_name : option string;
  requested_by_user_id : option string;
  current_stage : option string;
  progress : Z;
  infrastructure_status : InfrastructureStatus;
  guest_os_status : GuestOsStatus;
  vmware_tools_status : VMwareToolsStatus;
  guest_provisioning_status : GuestProvisioningStatus;
  error_summary : option string;
  error_detail : option string;
  cancel_requested : bool;
  queued_at : Z;
  started_at : option Z;
  finished_at : option Z;
  duration : option Z;
  idempotency_key : option string;
  request_fingerprint : option string;
  reserved_ipv4 : option string;
  worker_id : option string;
  heartbeat_at : option Z;
  updated_at : Z;
  steps : list Step;
}.

#[export] Instance eta_job : Eta Job := fun r =>
  MkJob (job_id r) (job_status r) (vm_name r) (datacenter_id r) (datacenter_name r)
    (requested_by_user_id r) (current_stage r) (progress r) (infrastructure_status r)
    (guest_os_status r) (vmware_tools_status r) (guest_provisioning_status r) (error_summary r)
    (error_detail r) (cancel_requested r) (queued_at r) (started_at r) (finished_at r) (duration r)
    (idempotency_key r) (request_fingerprint r) (reserved_ipv4 r) (worker_id r) (heartbeat_at r)
    (updated_at r) (steps r).

(** ** Access to the steps of a job *)

Definition key_is (k : string) (s : Step) : bool := String.eqb (stage_key s) k.

(** [ctx.steps_by_key.get(k)]; [UNIQUE (job_id, stage_key)] makes the first
    match the only one. *)
Definition step_of (j : Job) (k : string) : option Step := find_first (key_is k) (steps j).

(** Assignment to attributes of the step with key [k]. *)
Definition update_step (k : string) (f : Step -> Step) (j : Job) : Job :=
  j <| steps := List.map (fun s => if key_is k s then f s else s) (steps j) |>.

(** Statuses [execute] does not run again. *)
Definition is_done (s : StepStatus) : bool :=
  match s with
  | SUCCEEDED | SKIPPED | WARNING | NOT_APPLICABLE => true
  | _ => false
  end.

(** The part of a step that only the pipeline itself may change. *)
Definition skeleton_step (s : Step) : string * StepStatus * Z := (stage_key s, step_status s, attempt s).
Definition skeleton (j : Job) : list (string * StepStatus * Z) := List.map skeleton_step (steps j).

Definition step_keys (j : Job) : list string := List.map stage_key (steps j).

Lemma key_is_spec k s : key_is k s = true <-> stage_key s = k.
Proof. apply String.eqb_eq. Qed.

Lemma step_of_some j k s : step_of j k = Some s -> In s (steps j) /\ stage_key s = k.
Proof. intros H. apply find_first_some in H as [Hin Hk]. by apply key_is_spec in Hk. Qed.

(** Rows with distinct keys: lookup by key finds every member. *)
Lemma step_of_in j s : NoDup (step_keys j) -> In s (steps j) -> step_of j (stage_key s) = Some s.
Proof.
  unfold step_keys, step_of, find_first. induction (steps j) as [|x l IH]; simpl; [done|].
  intros Hn [<-|Hin].
  - unfold key_is. by rewrite String.eqb_refl.
  - inversion Hn; subst. unfold key_is at 1. destruct (String.eqb _ _) eqn:E; [|by apply IH].
    apply String.eqb_eq in E. exfalso. rewrite E in *.
    match goal with H : _ ∉ _ |- _ => apply H end.
    apply list_elem_of_In, in_map. done.
Qed.

Lemma update_step_keys k f j :
  (forall s, stage_key (f s) = stage_key s) -> step_keys (update_step k f j) = step_keys j.
Proof.
  intros Hf. unfold step_keys, update_step. simpl. rewrite map_map. apply map_ext.
  intros s. by destruct (key_is k s).
Qed.

Lemma update_step_skeleton k f j :
  (forall s, skeleton_step (f s) = skeleton_step s) -> skeleton (update_step k f j) = skeleton j.
Proof.
  intros Hf. unfold skeleton, update_step. simpl. rewrite map_map. apply map_ext.
  intros s. by destruct (key_is k s).
Qed.

Lemma step_of_update_eq j k f s :
  (forall s, stage_key (f s) = stage_key s) ->
  step_of j k = Some s -> step_of (update_step k f j) k = Some (f s).
Proof.
  intros Hf. unfold step_of, update_step, find_first. simpl.
  induction (steps j) as [|x l IH]; simpl; [done|].
  destruct (key_is k x) eqn:E; simpl.
  - intros [= ->]. unfold key_is in *. rewrite Hf, E. done.
  - by rewrite E.
Qed.

Lemma step_of_update_ne j k k' f :
  (forall s, stage_key (f s) = stage_key s) -> k <> k' ->
  step_of (update_step k f j) k' = step_of j k'.
Proof.
  intros Hf Hne. unfold step_of, update_step, find_first. simpl.
  induction (steps j) as [|x l IH]; simpl; [done|].
  destruct (key_is k x) eqn:E; simpl.
  - unfold key_is in *. rewrite Hf. apply String.eqb_eq in E. rewrite E.
    destruct (String.eqb k k') eqn:E'; [by apply String.eqb_eq in E'|]. apply IH.
  - destruct (key_is k' x); [done|apply IH].
Qed.

Lemma update_step_absent k f j : step_of j k = None -> update_step k f j = j.
Proof.
  intros H. unfold update_step.
  assert (E : List.map (fun s => if key_is k s then f s else s) (steps j) = steps j).
  { rewrite <- (map_id (steps j)) at 2. apply map_ext_in. intros s Hs.
    destruct (key_is k s) eqn:E; [|done].
    unfold step_of, find_first in H. by rewrite (List.find_none _ _ H s Hs) in E. }
  rewrite E. by destruct j.
Qed.

(** The status recorded for a key, through the skeleton. *)
Definition status_in (sk : list (string * StepStatus * Z)) (k : string) : option (StepStatus * Z) :=
  match List.find (fun e => String.eqb e.1.1 k) sk with
  | Some (_, st, n) => Some (st, n)
  | None => None
  end.

Lemma status_in_skeleton j k :
  status_in (skeleton j) k = option_map (fun s => (step_status s, attempt s)) (step_of j k).
Proof.
  unfold status_in, skeleton, step_of, find_first, key_is.
  induction (steps j) as [|x l IH]; simpl; [done|].
  destruct (String.eqb (stage_key x) k); done.
Qed.
