(* ===== verification/AuditTrail.v ===== *)
(** * The audit trail

    [app/audit/recorder.py] with the redaction of [app/core/logging.py], and
    the notifications of [app/services/notifications.py]. *)

From Stdlib Require Import ZArith Lia Ascii String List Bool.
From stdpp Require Import base tactics list strings gmap.
From S2P Require Import Prelude PyStr Jobs.

Local Open Scope string_scope.
Local Open Scope Z_scope.

(** ** Redaction *)

Definition _REDACTED_KEYS : list string :=
  ["password"; "secret"; "token"; "api_key"; "private_key"; "credential"; "authorization"].

Definition sensitive (key : string) : bool := existsb (fun marker => contains (lower key) marker) _REDACTED_KEYS.
Arguments sensitive : simpl never.

Fixpoint redact (value : json) : json :=
  match value with
  | JObj l => JObj (List.map (fun e => (fst e, if sensitive (fst e) then JStr "[REDACTED]" else redact (snd e))) l)
  | JArr l => JArr (List.map redact l)
  | v => v
  end.

(** No sensitive key, at any depth, maps to anything but the marker. *)
Fixpoint clean (value : json) : bool :=
  match value with
  | JObj l => forallb (fun e => if sensitive (fst e) then match snd e with JStr s => String.eqb s "[REDACTED]" | _ => false end
                                else clean (snd e)) l
  | JArr l => forallb clean l
  | _ => true
  end.

(** Induction on JSON documents through their lists. *)
Lemma json_ind' (P : json -> Prop) :
  P JNull -> (forall b, P (JBool b)) -> (forall n, P (JNum n)) -> (forall s, P (JStr s)) ->
  (forall l, Forall P l -> P (JArr l)) ->
  (forall l, Forall (fun e => P (snd e)) l -> P (JObj l)) ->
  forall v, P v.
Proof.
  intros Hn Hb Hz Hs Ha Ho. fix IH 1. intros [| | | |l|l]; [done|done|done|done| |].
  - apply Ha. induction l as [|x l IHl]; constructor; [apply IH|exact IHl].
  - apply Ho. induction l as [|[k x] l IHl]; constructor; [apply IH|exact IHl].
Qed.

Lemma redact_clean v : clean (redact v) = true.
Proof.
  induction v as [| | | |l IH|l IH] using json_ind'; simpl; try done.
  - induction IH as [|x l Hx _ IHl]; simpl; [done|]. by rewrite Hx.
  - induction IH as [|[k x] l Hx _ IHl]; simpl; [done|]. simpl in Hx.
    destruct (sensitive k) eqn:S; simpl; rewrite ?S, ?Hx; done.
Qed.

Lemma redact_id v : clean v = true -> redact v = v.
Proof.
  induction v as [| | | |l IH|l IH] using json_ind'; simpl; try done.
  - intros H. f_equal. induction IH as [|x l Hx _ IHl]; simpl in *; [done|].
    apply andb_true_iff in H as [H1 H2]. by rewrite Hx, IHl.
  - intros H. f_equal. induction IH as [|[k x] l Hx _ IHl]; simpl in *; [done|].
    apply andb_true_iff in H as [H1 H2]. rewrite IHl by done. f_equal. f_equal.
    destruct (sensitive k); [|by apply Hx]. destruct x; try done. apply String.eqb_eq in H1. by subst.
Qed.

(** ** Audit events *)

Record AuditEvent := MkAudit {
  action : string;
  username : option string;
  resource_type : option string;
  resource_name : option string;
  audit_job_id : option string;
  audit_datacenter_id : option string;
  audit_datacenter_name : option string;
  result : option string;
  details : json;
  detail_text : option string;
}.

(** The row [AuditRecorder.record] writes: names cut to the column, details redacted. *)
Definition audit_event (act : string) (user : option string) (rtype : string) (rname : option string)
    (job dc_id dc_name res : option string) (det : list (string * json)) (text : option string) : AuditEvent :=
  MkAudit act user (Some rtype)
    (match rname with Some "" | None => None | Some n => Some (take_str 255 n) end)
    job dc_id dc_name res (redact (JObj det)) text.

(** [AuditRecorder.record, redact]: whatever details a caller passes, the
    stored audit row holds no value under a key that names a password, token,
    secret, key or credential, at any depth of the document; details without
    such keys are stored as they are, and redacting again changes nothing. *)
Theorem audit_details_redacted act user rtype rname job dc_id dc_name res det text :
  let e := audit_event act user rtype rname job dc_id dc_name res det text in
  clean (details e) = true
  /\ redact (details e) = details e
  /\ (clean (JObj det) = true -> details e = JObj det).
Proof.
  cbn [audit_event details]. split_and!.
  - apply redact_clean.
  - apply redact_id, redact_clean.
  - apply redact_id.
Qed.

Lemma audit_details_redacted_witness :
  details (audit_event "X" None "t" None None None None None [("stage", JStr "join_domain")] None)
  = JObj [("stage", JStr "join_domain")].
Proof. apply (audit_details_redacted "X" None "t" None None None None None). vm_compute. reflexivity. Defined.

(** ** Notifications *)

Inductive NotificationKind := JOB_COMPLETED | JOB_FAILED.

Record Notification := MkNotification {
  user_id : string;
  notification_job_id : string;
  kind : NotificationKind;
  title : string;
  message : string;
}.

Definition _MAX_MESSAGE_CHARS : nat := 2000.

Definition completed_message (j : Job) (summary : gmap string json) (checks_passed : Z) : string * string :=
  let identity :=
    match get_text summary "fqdn", get_text summary "computer_name" with
    | Some f, _ => f
    | None, Some c => c
    | None, None => vm_name j
    end in
  let det := identity ++ match get_text summary "ip_address" with Some a => " · " ++ a | None => "" end in
  let checks := if checks_passed =? 0 then "" else " All " ++ str_int checks_passed ++ " final checks passed." in
  (vm_name j ++ " is ready", "Deployment finished and was verified: " ++ det ++ "." ++ checks).

Definition failed_message (j : Job) (stage_name reason : string) : string * string :=
  (vm_name j ++ " deployment failed", SQ ++ stage_name ++ SQ ++ " failed: " ++ reason).

Definition interrupted_message (j : Job) (reason : string) : string * string :=
  (vm_name j ++ " deployment was interrupted",
   reason ++ " Retry the job; stages that already finished are not repeated.").

(** Jobs without a requester notify nobody. *)
Definition notify_requester (j : Job) (k : NotificationKind) (tm : string * string) : list Notification :=
  match requested_by_user_id j with
  | None => []
  | Some u => [MkNotification u (job_id j) k (take_str 200 (fst tm)) (take_str _MAX_MESSAGE_CHARS (snd tm))]
  end.
