(* ===== verification/Repository.v ===== *)
(** * Job bookkeeping

    The operations of [app/repositories/jobs.py] on one job and its steps:
    creation of the step rows, retry, cancellation and the progress figure.
    The operations on the whole table are in Queue.v. *)

From Stdlib Require Import ZArith Lia Ascii String List Bool Sorted Permutation.
From Stdlib Require Import Floats.SpecFloat.
From stdpp Require Import base tactics list strings gmap.
From S2P Require Import Prelude PyStr StateMachine Jobs.

Local Open Scope string_scope.
Local Open Scope Z_scope.

(** ** Progress

    [int(((done + 0.5 * running) / len(actionable)) * 100)] in binary64
    arithmetic, rounded to nearest even after each operation. *)

Definition float_of_int (n : Z) : spec_float := binary_normalize 53 1024 n 0 false.
Definition fadd : spec_float -> spec_float -> spec_float := SFadd 53 1024.
Definition fmul : spec_float -> spec_float -> spec_float := SFmul 53 1024.
Definition fdiv : spec_float -> spec_float -> spec_float := SFdiv 53 1024.
Definition half : spec_float := S754_finite false 4503599627370496 (-53).

(** [int(f)] of a finite float: truncation towards zero. *)
Definition int_of_float (f : spec_float) : Z :=
  match f with
  | S754_finite neg m e =>
      let v := if 0 <=? e then Zpos m * 2 ^ e else Zpos m / 2 ^ (- e) in
      if neg then - v else v
  | _ => 0
  end.

Definition percent (done running total : Z) : Z :=
  int_of_float
    (fmul (fdiv (fadd (float_of_int done) (fmul half (float_of_int running))) (float_of_int total))
       (float_of_int 100)).

Definition is_actionable (s : Step) : bool :=
  match step_status s with SKIPPED | NOT_APPLICABLE => false | _ => true end.
Definition counts_done (s : Step) : bool :=
  match step_status s with SUCCEEDED | WARNING | STEP_CANCELLED => true | _ => false end.
Definition counts_running (s : Step) : bool :=
  match step_status s with STEP_RUNNING => true | _ => false end.

Definition compute_progress (job : Job) : Z :=
  let actionable := List.filter is_actionable (steps job) in
  match actionable with
  | [] => 0
  | _ =>
      let done := count counts_done actionable in
      let running := count counts_running actionable in
      Z.max 0 (Z.min 100 (percent done running (Z.of_nat (List.length actionable))))
  end.

(** ** Step rows *)

Definition new_step (d : string * string * bool) (seq : Z) : Step :=
  let '(key, name, retry) := d in
  MkStep key name seq PENDING 0 retry None None None None None ∅.

(** The loop of [ensure_steps]; [existing] is computed before it starts. *)
Fixpoint missing_steps (existing : list string) (seq : Z) (defs : list (string * string * bool)) : list Step :=
  match defs with
  | [] => []
  | d :: r =>
      if bool_decide (d.1.1 ∈ existing) then missing_steps existing (seq + 1) r
      else new_step d seq :: missing_steps existing (seq + 1) r
  end.

(** [list.sort(key=lambda step: step.sequence)]: a stable sort. *)
Fixpoint insert_step (x : Step) (l : list Step) : list Step :=
  match l with
  | [] => [x]
  | y :: r => if sequence x <=? sequence y then x :: l else y :: insert_step x r
  end.
Definition sort_steps (l : list Step) : list Step := fold_right insert_step [] l.

Definition ensure_steps (defs : list (string * string * bool)) (job : Job) : Job :=
  job <| steps := sort_steps (steps job ++ missing_steps (step_keys job) 0 defs)%list |>.

(** ** Retry and cancellation *)

Definition eligible_for_retry (st : JobStatus) (s : Step) : bool :=
  match step_status s with
  | STEP_FAILED | STEP_CANCELLED => true
  | STEP_RUNNING => bool_decide (st = INTERRUPTED)
  | _ => false
  end.

Definition should_reset (job : Job) (stage_keys : option (list string)) (s : Step) : bool :=
  eligible_for_retry (job_status job) s
  && match stage_keys with None => true | Some ks => bool_decide (stage_key s ∈ ks) end.

(** Returns the keys of the steps that were reset and the job. *)
Definition reset_for_retry (now : Z) (stage_keys : option (list string)) (job : Job) : list string * Job :=
  let reset := List.map stage_key (List.filter (should_reset job stage_keys) (steps job)) in
  let job1 := job <| steps := List.map (fun s => if should_reset job stage_keys s
                                                 then s <| step_status := PENDING |> else s) (steps job) |> in
  match reset with
  | [] => ([], job1)
  | _ =>
      let job2 := job1 <| job_status := QUEUED |> <| cancel_requested := false |>
                    <| worker_id := None |> <| heartbeat_at := None |> <| error_summary := None |>
                    <| error_detail := None |> <| finished_at := None |> <| duration := None |>
                    <| queued_at := now |> in
      (reset, job2 <| progress := compute_progress job2 |>)
  end.

Definition may_hold_unattended_media (job : Job) : bool :=
  let arts := match step_of job "prepare_unattended_install" with
              | Some p => artifacts p
              | None => ∅
              end in
  get_truthy arts "datastore_path"
  && negb (get_truthy arts "media_removed")
  && match step_of job "cleanup_unattended_media" with
     | None => true
     | Some c => negb (bool_decide (step_status c = SUCCEEDED))
     end.

Definition cancel_open_step (s : Step) : Step :=
  match step_status s with
  | PENDING | STEP_RUNNING => s <| step_status := STEP_CANCELLED |>
  | _ => s
  end.

Definition request_cancel (now : Z) (job : Job) : Job :=
  let job1 := job <| cancel_requested := true |> in
  if bool_decide (job_status job1 = QUEUED) || bool_decide (job_status job1 = INTERRUPTED) then
    job1 <| job_status := CANCELLED |> <| finished_at := Some now |>
      <| steps := List.map cancel_open_step (steps job1) |>
  else job1.

(** ** Progress: how far rounding can go *)

(** All the values a pipeline of at most 26 stages can show: never more than
    one below the exact floor, never above it, and 100 only at the end. *)
Definition percent_ok (d r n : Z) : bool :=
  let exact := (2 * d + r) * 100 / (2 * n) in
  let p := percent d r n in
  (exact - 1 <=? p) && (p <=? exact) && (0 <=? p) && (p <=? 100)
  && Bool.eqb (p =? 100) (d =? n).

Lemma percent_table :
  forallb (fun n => forallb (fun d => forallb (fun r => percent_ok (Z.of_nat d) (Z.of_nat r) (Z.of_nat n))
                      (List.seq 0 (n - d + 1))) (List.seq 0 (n + 1))) (List.seq 1 26) = true.
Proof. vm_compute. reflexivity. Qed.

Lemma percent_ok_bounded d r n :
  1 <= n <= 26 -> 0 <= d -> 0 <= r -> d + r <= n -> percent_ok d r n = true.
Proof.
  intros Hn Hd Hr Hs. pose proof percent_table as T.
  rewrite forallb_forall in T. specialize (T (Z.to_nat n)). rewrite in_seq in T.
  specialize (T ltac:(lia)). rewrite forallb_forall in T.
  specialize (T (Z.to_nat d)). rewrite in_seq in T. specialize (T ltac:(lia)).
  rewrite forallb_forall in T. specialize (T (Z.to_nat r)). rewrite in_seq in T.
  specialize (T ltac:(lia)). by rewrite !Z2Nat.id in T by lia.
Qed.

#[global] Opaque percent.

(** What [compute_progress] counts. *)
Lemma actionable_counts l :
  count counts_done l + count counts_running l <= Z.of_nat (List.length l).
Proof. apply count_disjoint. intros x. unfold counts_done, counts_running. by destruct (step_status x). Qed.

Lemma percent_bounds d r n :
  percent_ok d r n = true ->
  (2 * d + r) * 100 / (2 * n) - 1 <= percent d r n <= (2 * d + r) * 100 / (2 * n)
  /\ 0 <= percent d r n <= 100 /\ (percent d r n = 100 <-> d = n).
Proof.
  unfold percent_ok. intros H. apply andb_true_iff in H as [H B]. apply Bool.eqb_prop in B. bools.
  split_and!; try lia.
Qed.

Lemma compute_progress_nonempty job l :
  List.filter is_actionable (steps job) = l -> l <> [] ->
  compute_progress job =
  Z.max 0 (Z.min 100 (percent (count counts_done l) (count counts_running l) (Z.of_nat (List.length l)))).
Proof. intros <- H. unfold compute_progress. by destruct (List.filter is_actionable (steps job)). Qed.

(** C23 (JobRepository.compute_progress): for a job with up to 26 actionable
    steps the displayed percentage is the exact floor of
    100 (done + running/2) / actionable or, because of the binary64 rounding
    of the division, one below it; it lies in 0..100, and it is 100 exactly
    when every actionable step is done. *)
Theorem compute_progress_exact job :
  let actionable := List.filter is_actionable (steps job) in
  let n := Z.of_nat (List.length actionable) in
  let d := count counts_done actionable in
  let r := count counts_running actionable in
  let exact := (2 * d + r) * 100 / (2 * n) in
  1 <= n <= 26 ->
  exact - 1 <= compute_progress job <= exact
  /\ 0 <= compute_progress job <= 100
  /\ (compute_progress job = 100 <-> d = n).
Proof.
  cbn zeta. generalize (eq_refl (List.filter is_actionable (steps job))).
  generalize (List.filter is_actionable (steps job)) at 2 3 4 5 6 7 8 9 10 11 12. intros l E Hn.
  pose proof (count_bounds counts_done l). pose proof (count_bounds counts_running l).
  pose proof (actionable_counts l).
  destruct (percent_bounds _ _ _ (percent_ok_bounded (count counts_done l) (count counts_running l)
              (Z.of_nat (List.length l)) Hn ltac:(lia) ltac:(lia) ltac:(lia))) as (Hb & Hr & H100).
  rewrite (compute_progress_nonempty job l E) by (intros ->; simpl in Hn; lia).
  rewrite Z.min_r, Z.max_r by lia. done.
Qed.

(** 14 of 25 stages done and one running: 58% exactly, shown as 57%. *)
Definition rounding_job : Job :=
  let mk st k := MkStep k k 0 st 1 true None None None None None ∅ in
  MkJob "j" RUNNING "vm" None None None None 0 INFRA_PENDING OS_UNKNOWN TOOLS_UNKNOWN
    GUEST_PENDING None None false 0 None None None None None None None None 0
    (List.map (mk SUCCEEDED) (firstn 14 stage_keys)
     ++ mk STEP_RUNNING "reboot_guest" :: List.map (mk PENDING) (firstn 10 stage_keys))%list.

Lemma compute_progress_exact_witness :
  58 - 1 <= compute_progress rounding_job <= 58 /\ compute_progress rounding_job = 57.
Proof.
  split; [|vm_compute; reflexivity].
  apply (compute_progress_exact rounding_job). vm_compute. split; discriminate.
Defined.

(** ** Step rows: the timeline is complete, ordered and stable *)

Lemma insert_step_perm x l : insert_step x l ≡ₚ x :: l.
Proof.
  induction l as [|y l IH]; simpl; [done|].
  destruct (_ <=? _); [done|]. rewrite IH. constructor.
Qed.

Lemma sort_steps_perm l : sort_steps l ≡ₚ l.
Proof. induction l as [|x l IH]; simpl; [done|]. by rewrite insert_step_perm, IH. Qed.

Definition in_order (l : list Step) : Prop := StronglySorted (fun a b => sequence a <= sequence b) l.

Lemma insert_step_sorted x l : in_order l -> in_order (insert_step x l).
Proof.
  induction 1 as [|y l Hs IH Hy]; simpl; [repeat constructor|].
  destruct (sequence x <=? sequence y) eqn:E; bools.
  - constructor; [by constructor|]. constructor; [done|].
    eapply Forall_impl; [exact Hy|]. simpl. lia.
  - constructor; [done|]. rewrite insert_step_perm. constructor; [lia|done].
Qed.

Lemma sort_steps_sorted l : in_order (sort_steps l).
Proof. induction l; simpl; [constructor|]. by apply insert_step_sorted. Qed.

Lemma sort_steps_id l : in_order l -> sort_steps l = l.
Proof.
  induction 1 as [|x l Hs IH Hx]; simpl; [done|]. rewrite IH.
  destruct Hx as [|y l Hxy _]; simpl; [done|]. by apply Z.leb_le in Hxy as ->.
Qed.

Lemma missing_steps_keys ex seq defs :
  List.map stage_key (missing_steps ex seq defs) =
  List.filter (fun k => negb (bool_decide (k ∈ ex))) (List.map (fun d => d.1.1) defs).
Proof.
  revert seq. induction defs as [|[[k n] r] defs IH]; intros seq; simpl; [done|].
  destruct (bool_decide (k ∈ ex)); simpl; by rewrite IH.
Qed.

Lemma missing_steps_none ex seq defs :
  (forall d, In d defs -> d.1.1 ∈ ex) -> missing_steps ex seq defs = [].
Proof.
  revert seq. induction defs as [|d defs IH]; intros seq H; simpl; [done|].
  rewrite bool_decide_eq_true_2 by (apply H; by left). apply IH. intros e He. apply H. by right.
Qed.

Lemma missing_steps_pending ex seq defs s :
  In s (missing_steps ex seq defs) -> step_status s = PENDING /\ attempt s = 0.
Proof.
  revert seq. induction defs as [|[[k n] r] defs IH]; intros seq; simpl; [done|].
  destruct (bool_decide (k ∈ ex)); simpl; [apply IH|]. intros [<-|H]; [done|]. by eapply IH.
Qed.

Lemma ensure_steps_perm defs job :
  steps (ensure_steps defs job) ≡ₚ (steps job ++ missing_steps (step_keys job) 0 defs)%list.
Proof. apply sort_steps_perm. Qed.

Lemma ensure_steps_has_key defs job k :
  k ∈ step_keys (ensure_steps defs job) <-> k ∈ step_keys job \/ k ∈ List.map (fun d => d.1.1) defs.
Proof.
  unfold step_keys at 1. rewrite (Permutation_map stage_key (ensure_steps_perm defs job)).
  rewrite map_app, elem_of_app, missing_steps_keys. fold (step_keys job).
  rewrite !list_elem_of_In, filter_In, <- !list_elem_of_In, negb_true_iff, bool_decide_eq_false.
  destruct (decide (k ∈ step_keys job)); tauto.
Qed.

Lemma stage_definitions_keys : List.map (fun d => d.1.1) stage_definitions = stage_keys.
Proof. reflexivity. Qed.

(** [JobRepository.ensure_steps]: on a job whose rows have distinct stage
    keys it produces a timeline that has exactly one row for each of the 26
    stages and for each row that existed, in sequence order; existing rows are
    kept as they are, the new ones are PENDING with no attempt made, and a
    second call (a restart of the worker) changes nothing. *)
Theorem ensure_steps_complete job :
  NoDup (step_keys job) ->
  let job' := ensure_steps stage_definitions job in
  NoDup (step_keys job')
  /\ (forall k, k ∈ step_keys job' <-> k ∈ step_keys job \/ k ∈ stage_keys)
  /\ (forall s, In s (steps job) -> In s (steps job'))
  /\ (forall s, In s (steps job') -> In s (steps job) \/ (step_status s = PENDING /\ attempt s = 0))
  /\ in_order (steps job')
  /\ ensure_steps stage_definitions job' = job'.
Proof.
  intros Hn job'. pose proof (ensure_steps_perm stage_definitions job) as P. fold job' in P.
  assert (Hk : forall k, k ∈ step_keys job' <-> k ∈ step_keys job \/ k ∈ stage_keys).
  { intros k. unfold job'. by rewrite ensure_steps_has_key, stage_definitions_keys. }
  assert (Ho : in_order (steps job')) by apply sort_steps_sorted.
  split_and!; [|done| | |done|].
  - unfold step_keys. rewrite (Permutation_map stage_key P), map_app, missing_steps_keys.
    rewrite stage_definitions_keys. apply NoDup_app. split_and!; [done| |].
    + intros k Hin. rewrite list_elem_of_In, filter_In, negb_true_iff, bool_decide_eq_false.
      intros [_ H]. done.
    + apply NoDup_ListNoDup, List.NoDup_filter, NoDup_ListNoDup, stage_keys_nodup.
  - intros s Hs. rewrite <- list_elem_of_In, P, elem_of_app, list_elem_of_In. by left.
  - intros s. rewrite <- list_elem_of_In, P, elem_of_app, !list_elem_of_In.
    intros [H|H]; [by left|right]. by eapply missing_steps_pending.
  - unfold ensure_steps at 1. rewrite missing_steps_none.
    + rewrite app_nil_r, sort_steps_id by done. by destruct job'.
    + intros d Hd. apply Hk. right. rewrite <- stage_definitions_keys, list_elem_of_In. by apply (in_map (fun d => d.1.1)) in Hd.
Qed.

Lemma ensure_steps_complete_witness :
  step_keys (ensure_steps stage_definitions (rounding_job <| steps := [] |>)) = stage_keys
  /\ NoDup (step_keys (ensure_steps stage_definitions (rounding_job <| steps := [] |>))).
Proof.
  split; [vm_compute; reflexivity|].
  apply (ensure_steps_complete (rounding_job <| steps := [] |>)). constructor.
Defined.

(** ** Retry *)

(** The steps a retry is meant to run again. *)
Definition retry_selects (job : Job) (stage_keys : option (list string)) (s : Step) : Prop :=
  (step_status s = STEP_FAILED \/ step_status s = STEP_CANCELLED
   \/ (step_status s = STEP_RUNNING /\ job_status job = INTERRUPTED))
  /\ (forall ks, stage_keys = Some ks -> stage_key s ∈ ks).

Lemma should_reset_selects job ks s : should_reset job ks s = true <-> retry_selects job ks s.
Proof.
  unfold should_reset, eligible_for_retry, retry_selects. rewrite andb_true_iff.
  split.
  - intros [E K]. split; [|intros l ->; by apply bool_decide_eq_true in K].
    destruct (step_status s); try done; auto. right; right. by apply bool_decide_eq_true in E.
  - intros [E K]. split.
    + destruct E as [->|[->|[-> E]]]; try done. by apply bool_decide_eq_true.
    + destruct ks as [l|]; [|done]. apply bool_decide_eq_true. auto.
Qed.

(** (JobRepository.reset_for_retry): every step is either reset to PENDING
    (its key is reported) or kept as it was; only a FAILED or CANCELLED step,
    or the RUNNING step of an INTERRUPTED job, that the selection names is
    reset, so a finished stage survives every retry.  The job is requeued
    with its cancellation flag, owner, errors and end time cleared exactly
    when some step was reset; otherwise nothing changes at all. *)
Lemma reset_for_retry_spec now ks job reset job' :
  reset_for_retry now ks job = (reset, job') ->
  steps job' = List.map (fun s => if should_reset job ks s then s <| step_status := PENDING |> else s) (steps job)
  /\ reset = List.map stage_key (List.filter (should_reset job ks) (steps job))
  /\ (forall s, should_reset job ks s = true <-> retry_selects job ks s)
  /\ (forall s, In s (steps job) -> is_done (step_status s) = true -> In s (steps job'))
  /\ (reset = [] -> job' = job)
  /\ (reset <> [] -> job_status job' = QUEUED /\ cancel_requested job' = false /\ worker_id job' = None
        /\ queued_at job' = now /\ error_summary job' = None /\ finished_at job' = None
        /\ progress job' = compute_progress job').
Proof.
  unfold reset_for_retry. intros H.
  assert (Hs : steps job' = List.map (fun s => if should_reset job ks s
                 then s <| step_status := PENDING |> else s) (steps job)).
  { destruct (List.map stage_key _); injection H as <- <-; reflexivity. }
  assert (Hr : reset = List.map stage_key (List.filter (should_reset job ks) (steps job))).
  { destruct (List.map stage_key _) eqn:E; injection H as <- <-; done. }
  split_and!; [done|done|apply should_reset_selects| | |].
  - intros s Hin Hd. rewrite Hs. apply in_map_iff. exists s. split; [|done].
    unfold should_reset, eligible_for_retry. by destruct (step_status s).
  - intros E. rewrite <- Hr, E in H. injection H as <-.
    rewrite E in Hr. symmetry in Hr. apply map_eq_nil in Hr.
    rewrite (map_ext_in _ (fun s => s)), map_id; [by destruct job|].
    intros s Hin. destruct (should_reset job ks s) eqn:R; [|done].
    assert (X : In s (List.filter (should_reset job ks) (steps job))) by by apply filter_In.
    by rewrite Hr in X.
  - intros E. rewrite <- Hr in H. destruct reset; [done|]. injection H as <-. done.
Qed.

Lemma reset_for_retry_spec_witness :
  fst (reset_for_retry 7 None (rounding_job <| job_status := INTERRUPTED |>)) = ["reboot_guest"]
  /\ job_status (snd (reset_for_retry 7 None (rounding_job <| job_status := INTERRUPTED |>))) = QUEUED.
Proof.
  split; [vm_compute; reflexivity|].
  apply (reset_for_retry_spec 7 None (rounding_job <| job_status := INTERRUPTED |>) _ _
           (surjective_pairing _)). vm_compute. discriminate.
Defined.

(** ** Cancellation of a job no worker runs *)

Lemma cancel_open_step_closed s : let st := step_status (cancel_open_step s) in st <> PENDING /\ st <> STEP_RUNNING.
Proof. unfold cancel_open_step. by destruct (step_status s) eqn:E; simpl; rewrite ?E. Qed.

Lemma request_cancel_flag now job : cancel_requested (request_cancel now job) = true.
Proof. unfold request_cancel. by case_all. Qed.
