(* ===== verification/Queue.v ===== *)
(** * The job table as a queue

    The operations of [app/repositories/jobs.py], [app/workers/engine.py] and
    [app/services/provisioning/service.py] on the table of jobs, each as the
    atomic statement or transaction the code commits.  A table is the list of
    its rows; PostgreSQL's unique indexes of [app/models/jobs.py] are enforced
    by every statement that writes a row. *)

From Stdlib Require Import ZArith Lia Ascii String List Bool Sorted Permutation.
From stdpp Require Import base tactics list strings gmap relations.
From S2P Require Import Prelude PyStr Errors StateMachine Jobs Repository.

Local Open Scope string_scope.
Local Open Scope Z_scope.

Definition table := list Job.

(** ** Unique indexes *)

Inductive Constraint := VM_NAME_INDEX | IPV4_INDEX | IDEMPOTENCY_CONSTRAINT.

#[export] Instance Constraint_eq_dec : EqDecision Constraint.
Proof. solve_decision. Defined.

Definition is_active_job (j : Job) : bool := is_active (job_status j).

Definition same_text (a b : option string) : bool :=
  match a, b with Some x, Some y => String.eqb x y | _, _ => false end.

(** Two distinct rows may not both be indexed under the same key. *)
Definition conflicts (c : Constraint) (a b : Job) : bool :=
  match c with
  | VM_NAME_INDEX => is_active_job a && is_active_job b && String.eqb (lower (vm_name a)) (lower (vm_name b))
  | IPV4_INDEX => is_active_job a && is_active_job b && same_text (reserved_ipv4 a) (reserved_ipv4 b)
  | IDEMPOTENCY_CONSTRAINT => same_text (idempotency_key a) (idempotency_key b)
  end.

Definition CONSTRAINTS : list Constraint := [VM_NAME_INDEX; IPV4_INDEX; IDEMPOTENCY_CONSTRAINT].

Definition violates (c : Constraint) (t : table) (j : Job) : bool :=
  existsb (fun r => negb (String.eqb (job_id r) (job_id j)) && conflicts c r j) t.

Definition violations (t : table) (j : Job) : list Constraint :=
  List.filter (fun c => violates c t j) CONSTRAINTS.

Definition put_row (j : Job) (t : table) : table :=
  List.map (fun r => if String.eqb (job_id r) (job_id j) then j else r) t.

(** INSERT and UPDATE of one row.  Which of several violated indexes the
    server names is its choice, [reported]. *)
Definition insert_row (reported : list Constraint -> Constraint) (j : Job) (t : table) : res Constraint table :=
  match violations t j with
  | [] => Ok (t ++ [j])%list
  | vs => Err (reported vs)
  end.

Definition update_row (reported : list Constraint -> Constraint) (j : Job) (t : table) : res Constraint table :=
  match violations t j with
  | [] => Ok (put_row j t)
  | vs => Err (reported vs)
  end.

Definition row (id : string) (t : table) : option Job := find_first (fun r => String.eqb (job_id r) id) t.

(** ** Queries *)

Definition find_by_idempotency_key (key : string) (t : table) : option Job :=
  find_first (fun r => same_text (idempotency_key r) (Some key)) t.

Definition not_excluded (exclude : option string) (j : Job) : bool :=
  match exclude with None => true | Some id => negb (String.eqb (job_id j) id) end.

Definition has_active_job_for_vm (name : string) (exclude : option string) (t : table) : bool :=
  0 <? count (fun r => String.eqb (lower (vm_name r)) (lower name) && is_active_job r
                       && not_excluded exclude r) t.

Definition has_ipv4_reservation (address : string) (exclude : option string) (t : table) : bool :=
  0 <? count (fun r => same_text (reserved_ipv4 r) (Some address)
                       && bool_decide (job_status r ∈ IP_RESERVING_JOB_STATUSES)
                       && not_excluded exclude r) t.

(** ORDER BY queued_at; rows queued at the same time stay in table order. *)
Fixpoint insert_by_queued (x : Job) (l : list Job) : list Job :=
  match l with
  | [] => [x]
  | y :: r => if queued_at x <=? queued_at y then x :: l else y :: insert_by_queued x r
  end.
Definition order_by_queued (l : list Job) : list Job := fold_right insert_by_queued [] l.

(** SELECT ... WHERE p ORDER BY queued_at LIMIT n FOR UPDATE SKIP LOCKED, with
    the rows other transactions hold in [locked]. *)
Definition select_locked (p : Job -> bool) (limit : Z) (locked : list string) (t : table) : list Job :=
  firstn (Z.to_nat limit)
    (order_by_queued (List.filter (fun r => p r && negb (bool_decide (job_id r ∈ locked))) t)).

(** ** Claiming and liveness *)

Definition claim_row (now : Z) (worker : string) (j : Job) : Job :=
  j <| job_status := RUNNING |> <| worker_id := Some worker |> <| heartbeat_at := Some now |>
    <| started_at := match started_at j with None => Some now | s => s end |>.

Definition due (now : Z) (j : Job) : bool := bool_decide (job_status j = QUEUED) && (queued_at j <=? now).

Definition claim_due_jobs (limit : Z) (worker : string) (now : Z) (locked : list string) (t : table)
    : list string * table :=
  if limit <=? 0 then ([], t)
  else
    let ids := List.map job_id (select_locked (due now) limit locked t) in
    (ids, List.map (fun r => if bool_decide (job_id r ∈ ids) then claim_row now worker r else r) t).

(** [JobEngine._claim_due_jobs] with [free_slots]. *)
Definition free_slots (concurrency : Z) (tasks : list string) : Z :=
  Z.max 0 (concurrency - Z.of_nat (List.length tasks)).

Definition engine_claim (concurrency : Z) (tasks : list string) (worker : string) (now : Z)
    (locked : list string) (t : table) : list string * table :=
  let slots := free_slots concurrency tasks in
  if slots <=? 0 then ([], t) else claim_due_jobs slots worker now locked t.

Definition owned_by (worker : string) (j : Job) : bool :=
  match worker_id j with Some w => String.eqb w worker | None => false end.

(** [Some flag] is the stored cancellation flag ([false] for a job this worker
    has finished); [None]: the worker no longer owns the job. *)
Definition heartbeat (id worker : string) (now : Z) (t : table) : option bool * table :=
  match row id t with
  | Some j =>
      if owned_by worker j && bool_decide (job_status j = RUNNING)
      then (Some (cancel_requested j), put_row (j <| heartbeat_at := Some now |>) t)
      else if owned_by worker j && is_terminal (job_status j) then (Some false, t)
      else (None, t)
  | None => (None, t)
  end.

Definition last_sign_of_life (j : Job) : Z :=
  match heartbeat_at j with Some h => h | None => updated_at j end.

Definition stale (stale_before : Z) (exclude : list string) (j : Job) : bool :=
  bool_decide (job_status j = RUNNING) && (last_sign_of_life j <? stale_before)
  && negb (bool_decide (job_id j ∈ exclude)).

Definition claim_stale_running_jobs (stale_before limit : Z) (exclude locked : list string) (t : table) : list Job :=
  select_locked (stale stale_before exclude) limit locked t.

(** [JobEngine._interrupt] on the row (its notification, audit entry and the
    clean-up of the media are in Engine.v). *)
Definition interrupt_step (now : Z) (reason : string) (s : Step) : Step :=
  match step_status s with
  | STEP_RUNNING =>
      s <| step_status := STEP_FAILED |> <| step_finished_at := Some now |> <| retryable := true |>
        <| error_human := Some (reason ++ NL ++ NL ++ "Reason:" ++ NL ++
             "The worker executing this stage stopped." ++ NL ++ NL ++ "Recommended action:" ++ NL ++
             "Retry the job; completed stages are not repeated.") |>
  | _ => s
  end.

Definition elapsed (now : Z) (j : Job) : option Z :=
  match started_at j with Some s => Some (now - s) | None => duration j end.

Definition interrupt_row (now : Z) (reason : string) (j : Job) : Job :=
  let j1 := j <| steps := List.map (interrupt_step now reason) (steps j) |>
              <| job_status := INTERRUPTED |> <| error_summary := Some reason |>
              <| worker_id := None |> <| heartbeat_at := None |> <| finished_at := Some now |>
              <| duration := elapsed now j |> in
  j1 <| progress := compute_progress j1 |>.

(** One iteration of [reap_stale_jobs]: one job per transaction. *)
Definition reap_one (now heartbeat_timeout : Z) (tasks locked : list string) (t : table) : option string * table :=
  match claim_stale_running_jobs (now - heartbeat_timeout) 1 tasks locked t with
  | [] => (None, t)
  | j :: _ => (Some (job_id j),
               put_row (interrupt_row now "The worker executing this job stopped responding." j) t)
  end.

(** The loop, with the time and the locked rows each iteration sees. *)
Fixpoint reap_stale_jobs (views : list (Z * list string)) (heartbeat_timeout : Z) (tasks : list string)
    (t : table) : list string * table :=
  match views with
  | [] => ([], t)
  | (now, locked) :: rest =>
      match reap_one now heartbeat_timeout tasks locked t with
      | (None, _) => ([], t)
      | (Some id, t1) => let '(ids, t2) := reap_stale_jobs rest heartbeat_timeout tasks t1 in (id :: ids, t2)
      end
  end.

(** ** Selection *)

Lemma insert_by_queued_perm x l : insert_by_queued x l ≡ₚ x :: l.
Proof.
  induction l as [|y l IH]; simpl; [done|].
  destruct (_ <=? _); [done|]. rewrite IH. constructor.
Qed.

Lemma order_by_queued_perm l : order_by_queued l ≡ₚ l.
Proof. induction l as [|x l IH]; simpl; [done|]. by rewrite insert_by_queued_perm, IH. Qed.

Definition queue_order (l : list Job) : Prop := StronglySorted (fun a b => queued_at a <= queued_at b) l.

Lemma order_by_queued_sorted l : queue_order (order_by_queued l).
Proof.
  induction l as [|x l IH]; simpl; [constructor|].
  induction IH as [|y k Hs IHk Hy]; simpl; [repeat constructor|].
  destruct (queued_at x <=? queued_at y) eqn:E; bools.
  - constructor; [by constructor|]. constructor; [done|].
    eapply Forall_impl; [exact Hy|]. simpl. lia.
  - constructor; [done|]. rewrite insert_by_queued_perm. constructor; [lia|done].
Qed.

(** A sorted list: what [LIMIT] drops is queued no earlier than what it keeps. *)
Lemma firstn_sorted n l a b :
  queue_order l -> In a (firstn n l) -> In b (skipn n l) -> queued_at a <= queued_at b.
Proof.
  intros Hs. revert n. induction Hs as [|x l Hs IH Hx]; intros [|n]; simpl; try done.
  intros [<-|Ha] Hb; [|by eapply IH].
  rewrite List.Forall_forall in Hx. apply Hx. rewrite <- (firstn_skipn n l). apply in_app_iff. by right.
Qed.

Lemma in_select p limit locked t j :
  In j (select_locked p limit locked t) -> In j t /\ p j = true /\ job_id j ∉ locked.
Proof.
  unfold select_locked. intros H. apply firstn_In in H || (apply list_elem_of_In, elem_of_take in H as (i & H & _);
    apply list_elem_of_lookup_2, list_elem_of_In in H).
  rewrite <- list_elem_of_In, order_by_queued_perm, list_elem_of_In, filter_In in H.
  destruct H as [Hin H]. bools. done.
Qed.

Lemma not_selected p limit locked t j :
  In j t -> p j = true -> job_id j ∉ locked -> ~ In j (select_locked p limit locked t) ->
  List.length (select_locked p limit locked t) = Z.to_nat limit
  /\ forall k, In k (select_locked p limit locked t) -> queued_at k <= queued_at j.
Proof.
  unfold select_locked. set (l := order_by_queued _). intros Hin Hp Hl Hn.
  assert (Hj : In j l).
  { unfold l. rewrite <- list_elem_of_In, order_by_queued_perm, list_elem_of_In, filter_In.
    split; [done|]. rewrite Hp. simpl. by rewrite bool_decide_eq_false_2. }
  assert (Hs : In j (skipn (Z.to_nat limit) l)).
  { rewrite <- (firstn_skipn (Z.to_nat limit) l) in Hj. apply in_app_iff in Hj as [H|H]; done. }
  split.
  - rewrite length_firstn. apply Nat.min_l.
    destruct (Nat.le_gt_cases (Z.to_nat limit) (List.length l)) as [H|H]; [done|].
    rewrite skipn_all2 in Hs by lia. done.
  - intros k Hk. eapply firstn_sorted; [apply order_by_queued_sorted|exact Hk|exact Hs].
Qed.

Lemma select_length p limit locked t : (List.length (select_locked p limit locked t) <= Z.to_nat limit)%nat.
Proof. unfold select_locked. rewrite length_firstn. lia. Qed.

(** ** Rows by identifier *)

Definition ids (t : table) : list string := List.map job_id t.

Lemma row_some id t j : row id t = Some j -> In j t /\ job_id j = id.
Proof. intros H. apply find_first_some in H as [H E]. by apply String.eqb_eq in E. Qed.

Lemma row_in t j : NoDup (ids t) -> In j t -> row (job_id j) t = Some j.
Proof.
  unfold row, find_first, ids. induction t as [|x t IH]; simpl; [done|].
  intros Hn [<-|Hin]; [by rewrite String.eqb_refl|].
  inversion Hn as [|? ? Hx Ht]; subst. destruct (String.eqb _ _) eqn:E; [|by apply IH].
  apply String.eqb_eq in E. exfalso. apply Hx. rewrite E, list_elem_of_In. by apply in_map.
Qed.

Lemma same_id t i j : NoDup (ids t) -> In i t -> In j t -> job_id i = job_id j -> i = j.
Proof.
  intros Hn Hi Hj E. apply (row_in _ _ Hn) in Hi, Hj. rewrite E in Hi. congruence.
Qed.

Lemma map_rows_ids (f : Job -> Job) t : (forall j, job_id (f j) = job_id j) -> ids (List.map f t) = ids t.
Proof. intros H. unfold ids. rewrite map_map. by apply map_ext. Qed.

Lemma row_map (f : Job -> Job) t id :
  (forall j, job_id (f j) = job_id j) -> row id (List.map f t) = option_map f (row id t).
Proof.
  intros H. unfold row, find_first. induction t as [|x t IH]; simpl; [done|].
  rewrite H. by destruct (String.eqb _ _).
Qed.

Lemma put_row_ids j t : ids (put_row j t) = ids t.
Proof.
  apply map_rows_ids. intros r. destruct (String.eqb _ _) eqn:E; [|done].
  by apply String.eqb_eq in E.
Qed.

Lemma row_put_row j t : In (job_id j) (ids t) -> row (job_id j) (put_row j t) = Some j.
Proof.
  unfold row, put_row, find_first, ids. induction t as [|x t IH]; simpl; [done|].
  intros H. destruct (String.eqb (job_id x) (job_id j)) eqn:E.
  - by rewrite String.eqb_refl.
  - rewrite E. apply IH. destruct H as [H|H]; [|done]. by rewrite H, String.eqb_refl in E.
Qed.

Lemma in_put_row j t r : In r (put_row j t) -> r = j \/ (In r t /\ job_id r <> job_id j).
Proof.
  unfold put_row. rewrite in_map_iff. intros (x & <- & Hx).
  destruct (String.eqb (job_id x) (job_id j)) eqn:E; [by left|]. right. by apply String.eqb_neq in E.
Qed.

(** ** Claims *)

Lemma claim_due_jobs_ids limit worker now locked t :
  ids (snd (claim_due_jobs limit worker now locked t)) = ids t.
Proof.
  unfold claim_due_jobs. destruct (limit <=? 0); [done|]. simpl. apply map_rows_ids.
  intros j. by case_bool_decide.
Qed.

(** C14 (JobRepository.claim_due_jobs): a claim takes at most [limit] jobs, each
    of them queued, due and not locked by another transaction, and turns
    exactly those rows into RUNNING jobs of this worker with a fresh
    heartbeat, leaving every other row as it was.  A due unlocked job is left
    behind only when the limit is reached, and then every claimed job was
    queued no later than it (oldest first). *)
Theorem claim_due_jobs_spec limit worker now locked t :
  NoDup (ids t) ->
  let '(claimed, t') := claim_due_jobs limit worker now locked t in
  Z.of_nat (List.length claimed) <= Z.max 0 limit
  /\ (forall id, id ∈ claimed -> id ∉ locked /\ exists j, row id t = Some j /\ due now j = true
        /\ row id t' = Some (claim_row now worker j))
  /\ (forall id, id ∉ claimed -> row id t' = row id t)
  /\ (forall j, In j t -> due now j = true -> job_id j ∉ locked -> job_id j ∉ claimed ->
        Z.of_nat (List.length claimed) = Z.max 0 limit
        /\ forall id k, id ∈ claimed -> row id t = Some k -> queued_at k <= queued_at j).
Proof.
  intros Hn. unfold claim_due_jobs. destruct (limit <=? 0) eqn:L; bools.
  { split_and!; [simpl; lia|by intros ? ?%not_elem_of_nil|done|].
    intros. split; [simpl; lia|]. by intros ? ? ?%not_elem_of_nil. }
  set (sel := select_locked (due now) limit locked t). set (cl := List.map job_id sel).
  set (f := fun r => if bool_decide (job_id r ∈ cl) then claim_row now worker r else r).
  assert (Hf : forall id, row id (List.map f t) = option_map f (row id t)).
  { intros id. apply row_map. intros j. unfold f. by case_bool_decide. }
  assert (Hin : forall id, id ∈ cl -> exists j, In j sel /\ job_id j = id /\ row id t = Some j).
  { intros id. unfold cl. rewrite list_elem_of_In, in_map_iff. intros (j & <- & Hj).
    exists j. split_and!; [done|done|]. apply row_in; [done|]. by apply in_select in Hj as [? _]. }
  split_and!.
  - unfold cl. rewrite length_map. pose proof (select_length (due now) limit locked t). unfold sel. lia.
  - intros id Hid. destruct (Hin id Hid) as (j & Hj & <- & Hr).
    apply in_select in Hj as (? & ? & ?). split; [done|]. exists j. split_and!; [done|done|].
    rewrite Hf, Hr. simpl. unfold f. by rewrite bool_decide_eq_true_2.
  - intros id Hid. rewrite Hf. destruct (row id t) as [j|] eqn:E; [|done]. simpl. unfold f.
    apply row_some in E as [_ ->]. by rewrite bool_decide_eq_false_2.
  - intros j Hj Hd Hl Hc.
    destruct (not_selected (due now) limit locked t j Hj Hd Hl) as [Hlen Hq].
    { intros Hs. apply Hc. unfold cl. rewrite list_elem_of_In. by apply in_map. }
    split.
    + unfold cl. rewrite length_map. unfold sel. rewrite Hlen. lia.
    + intros id k Hid Hk. destruct (Hin id Hid) as (k' & Hk' & _ & Hr). rewrite Hr in Hk.
      injection Hk as <-. by apply Hq.
Qed.

Definition queued_job (id name : string) (at_ : Z) : Job :=
  rounding_job <| job_id := id |> <| job_status := QUEUED |> <| vm_name := name |>
    <| queued_at := at_ |> <| steps := [] |>.

Definition three_jobs : table := [queued_job "a" "web" 30; queued_job "b" "db" 10; queued_job "c" "app" 20].

Lemma claim_due_jobs_spec_witness :
  fst (claim_due_jobs 2 "w" 100 [] three_jobs) = ["b"; "c"]
  /\ Z.of_nat (List.length ["b"; "c"]) <= Z.max 0 2.
Proof.
  split; [vm_compute; reflexivity|].
  apply (claim_due_jobs_spec 2 "w" 100 [] three_jobs).
  apply (bool_decide_unpack _). vm_compute. exact I.
Defined.

Lemma in_claimed limit worker now locked t id :
  NoDup (ids t) -> id ∈ fst (claim_due_jobs limit worker now locked t) ->
  exists j, row id t = Some j /\ job_status j = QUEUED /\ id ∉ locked.
Proof.
  intros Hn. unfold claim_due_jobs. destruct (limit <=? 0); [by intros ?%not_elem_of_nil|].
  cbn zeta. simpl fst. rewrite list_elem_of_In, in_map_iff. intros (j & <- & Hj).
  apply in_select in Hj as (Hj & Hd & Hl). exists j. split_and!; [by apply row_in| |done].
  unfold due in Hd. bools. done.
Qed.

Lemma claimed_running limit worker now locked t id :
  NoDup (ids t) -> id ∈ fst (claim_due_jobs limit worker now locked t) ->
  exists j, row id (snd (claim_due_jobs limit worker now locked t)) = Some j /\ job_status j = RUNNING.
Proof.
  intros Hn Hid. destruct (in_claimed _ _ _ _ _ _ Hn Hid) as (j & Hr & _).
  unfold claim_due_jobs in *. destruct (limit <=? 0); [by apply not_elem_of_nil in Hid|].
  cbn zeta in *. simpl fst in Hid. simpl snd. set (cl := List.map job_id _) in *.
  exists (claim_row now worker j). split; [|done].
  rewrite row_map, Hr by (intros k; by case_bool_decide). simpl.
  apply row_some in Hr as [_ ->]. by rewrite bool_decide_eq_true_2.
Qed.

(** [JobRepository.claim_due_jobs, N workers]: no job is claimed twice.  A
    second claim never returns a job of a first one, whether it runs after
    the first committed, or concurrently while the first still holds the row
    locks (SKIP LOCKED). *)
Theorem claims_disjoint limit1 w1 now1 locked1 limit2 w2 now2 locked2 t id :
  NoDup (ids t) ->
  id ∈ fst (claim_due_jobs limit1 w1 now1 locked1 t) ->
  id ∉ fst (claim_due_jobs limit2 w2 now2 locked2 (snd (claim_due_jobs limit1 w1 now1 locked1 t)))
  /\ id ∉ fst (claim_due_jobs limit2 w2 now2 (fst (claim_due_jobs limit1 w1 now1 locked1 t) ++ locked2) t).
Proof.
  intros Hn H1. split; intros H2.
  - apply in_claimed in H2 as (j & Hr & Hs & _); [|by rewrite claim_due_jobs_ids].
    destruct (claimed_running _ _ _ _ _ _ Hn H1) as (j' & Hr' & Hs').
    rewrite Hr' in Hr. congruence.
  - apply in_claimed in H2 as (j & _ & _ & Hl); [|done].
    apply Hl. apply elem_of_app. by left.
Qed.

Lemma three_jobs_ids : NoDup (ids three_jobs).
Proof. apply (bool_decide_unpack _). vm_compute. exact I. Qed.

Lemma first_claim_example : "b" ∈ fst (claim_due_jobs 1 "w" 100 [] three_jobs).
Proof. apply (bool_decide_unpack _). vm_compute. exact I. Qed.

Lemma claims_disjoint_witness :
  "b" ∉ fst (claim_due_jobs 3 "v" 100 [] (snd (claim_due_jobs 1 "w" 100 [] three_jobs))).
Proof. exact (proj1 (claims_disjoint 1 "w" 100 [] 3 "v" 100 [] three_jobs "b" three_jobs_ids first_claim_example)). Defined.

(** ** Liveness *)

Lemma interrupt_row_id now reason j : job_id (interrupt_row now reason j) = job_id j.
Proof. reflexivity. Qed.

(** (heartbeat, JobEngine.reap_stale_jobs): the reaper only interrupts a
    RUNNING job that the reaping worker does not itself run, that no other
    transaction holds and whose last heartbeat is older than the timeout; the
    job is parked INTERRUPTED with no running step and no owner.  From then on
    the worker that ran it learns at its next heartbeat that it lost the job,
    whatever its name, and that heartbeat writes nothing. *)
Lemma reap_takes_ownership now timeout tasks locked t id t' :
  NoDup (ids t) ->
  reap_one now timeout tasks locked t = (Some id, t') ->
  (exists j, row id t = Some j /\ job_status j = RUNNING /\ last_sign_of_life j < now - timeout
     /\ id ∉ tasks /\ id ∉ locked)
  /\ (exists j', row id t' = Some j' /\ job_status j' = INTERRUPTED /\ worker_id j' = None
        /\ (forall s, In s (steps j') -> step_status s <> STEP_RUNNING))
  /\ (forall k, k <> id -> row k t' = row k t)
  /\ (forall worker later, heartbeat id worker later t' = (None, t')).
Proof.
  intros Hn. unfold reap_one, claim_stale_running_jobs.
  destruct (select_locked _ 1 locked t) as [|j sel] eqn:S; [discriminate|]. intros [= <- <-].
  assert (Hj : In j (select_locked (stale (now - timeout) tasks) 1 locked t)) by (rewrite S; by left).
  apply in_select in Hj as (Hj & Hp & Hl). unfold stale in Hp. bools.
  set (why := "The worker executing this job stopped responding.").
  assert (Hr : row (job_id j) (put_row (interrupt_row now why j) t) = Some (interrupt_row now why j)).
  { apply (row_put_row (interrupt_row now why j)). change (In (job_id j) (List.map job_id t)). by apply in_map. }
  split_and!.
  - exists j. split_and!; try done. by apply row_in.
  - exists (interrupt_row now why j). split_and!; [done..|]. intros s Hs.
    change (steps (interrupt_row now why j)) with (List.map (interrupt_step now why) (steps j)) in Hs.
    apply in_map_iff in Hs as (x & <- & _). unfold interrupt_step.
    by destruct (step_status x) eqn:E; rewrite ?E.
  - intros k Hk. unfold row, put_row, find_first. clear - Hk. rewrite interrupt_row_id.
    induction t as [|x t IH]; simpl; [done|]. destruct (String.eqb (job_id x) (job_id j)) eqn:E.
    + rewrite interrupt_row_id. apply String.eqb_eq in E. rewrite E.
      destruct (String.eqb (job_id j) k) eqn:F; [by apply String.eqb_eq in F|done].
    + by destruct (String.eqb (job_id x) k).
  - intros worker later. unfold heartbeat. by rewrite Hr.
Qed.

Definition lost_table : table :=
  [claim_row 100 "dead" (queued_job "a" "web" 30); claim_row 900 "alive" (queued_job "b" "db" 10)].

Definition reaped_table : table := snd (reap_one 1000 200 [] [] lost_table).

Lemma reap_example : reap_one 1000 200 [] [] lost_table = (Some "a", reaped_table).
Proof. vm_compute. reflexivity. Qed.

Lemma lost_table_ids : NoDup (ids lost_table).
Proof. apply (bool_decide_unpack _). vm_compute. exact I. Qed.

Lemma reap_takes_ownership_witness : heartbeat "a" "dead" 1001 reaped_table = (None, reaped_table).
Proof. exact (proj2 (proj2 (proj2 (reap_takes_ownership _ _ _ _ _ _ _ lost_table_ids reap_example))) "dead" 1001). Defined.

(** ** The unique indexes as an invariant *)

(** No two rows share an identifier or an index key. *)
Definition conflict_free (a b : Job) : Prop := forall c, conflicts c a b = false.

Definition table_ok (t : table) : Prop :=
  NoDup (ids t) /\ (forall a b, In a t -> In b t -> job_id a <> job_id b -> conflict_free a b).

Lemma conflicts_sym c a b : conflicts c a b = conflicts c b a.
Proof.
  assert (T : forall x y, same_text x y = same_text y x).
  { intros [x|] [y|]; simpl; try done. apply String.eqb_sym. }
  destruct c; simpl; [rewrite (String.eqb_sym (lower (vm_name a)))|rewrite (T (reserved_ipv4 a))|apply T];
    by rewrite (andb_comm (is_active_job a)).
Qed.

Lemma violations_nil t j :
  violations t j = [] -> forall r, In r t -> job_id r <> job_id j -> conflict_free r j.
Proof.
  intros H r Hr Hid c. destruct (conflicts c r j) eqn:E; [|done]. exfalso.
  assert (Hc : In c (violations t j)).
  { apply filter_In. split; [destruct c; simpl; tauto|]. apply existsb_exists. exists r.
    split; [done|]. rewrite E. apply String.eqb_neq in Hid. by rewrite Hid. }
  by rewrite H in Hc.
Qed.

Lemma violations_some t j c :
  In c (violations t j) -> exists r, In r t /\ job_id r <> job_id j /\ conflicts c r j = true.
Proof.
  intros H. apply filter_In in H as [_ H]. apply existsb_exists in H as (r & Hr & H). bools.
  exists r. split_and!; [done| |done]. by apply String.eqb_neq.
Qed.

Lemma put_row_ok j t :
  table_ok t -> (forall r, In r t -> job_id r <> job_id j -> conflict_free r j) -> table_ok (put_row j t).
Proof.
  intros [Hn Hc] Hj. split; [by rewrite put_row_ids|].
  intros a b Ha Hb Hab c. apply in_put_row in Ha as [->|[Ha Ha']], Hb as [->|[Hb Hb']]; [done|..].
  - rewrite conflicts_sym. by apply Hj.
  - by apply Hj.
  - by apply Hc.
Qed.

Lemma update_row_ok rep j t t' : table_ok t -> update_row rep j t = Ok t' -> table_ok t'.
Proof.
  unfold update_row. intros Ht. destruct (violations t j) eqn:V; [|discriminate]. intros [= <-].
  apply put_row_ok; [done|]. by apply violations_nil.
Qed.

Lemma insert_row_ok rep j t t' :
  table_ok t -> job_id j ∉ ids t -> insert_row rep j t = Ok t' -> table_ok t'.
Proof.
  unfold insert_row. intros [Hn Hc] Hid. destruct (violations t j) eqn:V; [|discriminate]. intros [= <-].
  pose proof (violations_nil _ _ V) as Hj. split.
  - unfold ids. rewrite map_app. apply NoDup_app. split_and!; [done| |by apply NoDup_singleton].
    intros x Hx Hx'. simpl in Hx'. apply list_elem_of_singleton in Hx' as ->. done.
  - intros a b Ha Hb Hab. apply in_app_iff in Ha, Hb.
    destruct Ha as [Ha|[<-|[]]], Hb as [Hb|[<-|[]]].
    + by apply Hc.
    + by apply Hj.
    + intros c. rewrite conflicts_sym. by apply Hj.
    + done.
Qed.

(** A write that keeps a row's index keys and does not make it active again
    cannot violate an index. *)
Definition keeps_keys (j j' : Job) : Prop :=
  job_id j' = job_id j /\ vm_name j' = vm_name j /\ reserved_ipv4 j' = reserved_ipv4 j
  /\ idempotency_key j' = idempotency_key j
  /\ (is_active_job j' = true -> is_active_job j = true).

Lemma keeps_keys_conflicts j j' c r : keeps_keys j j' -> conflicts c r j' = true -> conflicts c r j = true.
Proof.
  intros (_ & Hv & Hi & Hk & Ha). destruct c; simpl; rewrite ?Hv, ?Hi, ?Hk; [| |done];
    (destruct (is_active_job j') eqn:A; [rewrite Ha by done; done|]);
    rewrite andb_false_r; discriminate.
Qed.

Lemma put_row_keeps_ok j j' t : table_ok t -> In j t -> keeps_keys j j' -> table_ok (put_row j' t).
Proof.
  intros Ht Hj Hk. apply put_row_ok; [done|]. intros r Hr Hid c.
  destruct (conflicts c r j') eqn:E; [|done]. apply (keeps_keys_conflicts j) in E; [|done].
  destruct Ht as [_ Hc]. rewrite (Hc r j Hr Hj) in E; [done|]. by destruct Hk as [<- _].
Qed.

Lemma update_row_keeps rep j j' t :
  table_ok t -> In j t -> keeps_keys j j' -> update_row rep j' t = Ok (put_row j' t).
Proof.
  intros Ht Hj Hk. unfold update_row. destruct (violations t j') as [|c l] eqn:V; [done|]. exfalso.
  destruct (violations_some t j' c) as (r & Hr & Hid & Hc); [rewrite V; by left|].
  apply (keeps_keys_conflicts j) in Hc; [|done].
  destruct Ht as [_ H]. rewrite (H r j Hr Hj) in Hc; [done|]. by destruct Hk as [<- _].
Qed.
