(* ===== verification/Service.v ===== *)
(** * Submission, retry and cancellation

    [app/services/provisioning/service.py] over the job table.  An API request
    reads the table (a snapshot of the rows it needs), decides, and writes
    later: every operation takes the table it read and the table it writes to,
    so that other transactions can come in between.  An UPDATE writes the
    columns the operation assigned, over the row as it then is. *)

From Stdlib Require Import ZArith Lia Ascii String List Bool.
From stdpp Require Import base tactics list strings gmap relations.
From S2P Require Import Prelude PyStr Errors Schemas StateMachine Jobs AuditTrail Repository Queue.

Local Open Scope string_scope.
Local Open Scope Z_scope.

(** The authenticated caller: identifier and name. *)
Definition Caller : Type := string * string.

Definition validation_error (m : string) (d : list (string * json)) : AppError :=
  MkAppError DomainValidationError m d.
Definition conflict_error (m : string) (d : list (string * json)) : AppError :=
  MkAppError ConflictError m d.

Definition name_taken (name : string) : AppError :=
  conflict_error ("An active provisioning job for " ++ SQ ++ name ++ SQ ++ " already exists.")
    [("vm_name", JStr name)].
Definition address_taken (name : string) : AppError :=
  conflict_error "Another active provisioning job has already reserved this IPv4 address."
    [("vm_name", JStr name)].

(** How a request ends: an application error is an HTTP answer, [Crashed] an
    exception nobody translates. *)
Inductive Failure := Refused (e : AppError) | Crashed (c : Constraint).

Definition reservation_conflict (c : Constraint) (name : string) : Failure :=
  match c with
  | VM_NAME_INDEX => Refused (name_taken name)
  | IPV4_INDEX => Refused (address_taken name)
  | IDEMPOTENCY_CONSTRAINT => Crashed c
  end.

Definition reserved_ipv4_for (r : ProvisioningRequest) : option string :=
  match mode (network r), ipv4 (network r) with
  | STATIC, Some c => Some (address c)
  | _, _ => None
  end.

Section Service.

(** Which violated index the server reports, and the SHA-256 fingerprint of
    the canonical body. *)
Context (reported : list Constraint -> Constraint).
Context (request_fingerprint_of : ProvisioningRequest -> string).

Definition _check_idempotent_replay (existing : Job) (fingerprint : string) (user : option Caller)
    : res Failure (Job * bool) :=
  let same_user := bool_decide (requested_by_user_id existing = option_map fst user) in
  let other_body := match request_fingerprint existing with
                    | Some f => negb (String.eqb f fingerprint)
                    | None => false
                    end in
  if negb same_user || other_body
  then Err (Refused (validation_error "This Idempotency-Key was already used for a different request."
                       [("reason", JStr "idempotency_key_reused")]))
  else Ok (existing, false).

(** [JobRepository.create_job]: the column defaults. *)
Definition new_job (id : string) (now : Z) (user : option Caller) (key : option string)
    (r : ProvisioningRequest) : Job :=
  MkJob id QUEUED (vm_spec_name (vm r)) (Some (compute_datacenter_id (compute r))) None
    (option_map fst user) None 0 INFRA_PENDING OS_UNKNOWN TOOLS_UNKNOWN GUEST_PENDING None None false
    now None None None key (Some (request_fingerprint_of r)) (reserved_ipv4_for r) None None now [].

(** [if idempotency_key:] *)
Definition given (key : option string) : option string :=
  match key with Some "" => None | k => k end.

(** What the request reads before it writes: [None] lets it go on. *)
Definition submit_checks (user : option Caller) (r : ProvisioningRequest) (key : option string) (t : table)
    : option (res Failure (Job * bool)) :=
  if negb (bool_decide (identity_policy_version r = V2)) then
    Some (Err (Refused (validation_error
      ("Identity policy v1 is reserved for stored legacy jobs; " ++
       "new provisioning submissions must use v2.")
      [("identity_policy_version", JStr (policy_value (identity_policy_version r)))])))
  else
    match match given key with Some k => find_by_idempotency_key k t | None => None end with
    | Some existing => Some (_check_idempotent_replay existing (request_fingerprint_of r) user)
    | None =>
        if has_active_job_for_vm (vm_spec_name (vm r)) None t
        then Some (Err (Refused (name_taken (vm_spec_name (vm r)))))
        else
          match reserved_ipv4_for r with
          | Some a => if negb (String.eqb a "") && has_ipv4_reservation a None t
                      then Some (Err (Refused (address_taken (vm_spec_name (vm r))))) else None
          | None => None
          end
    end.

Definition blocking_checks (report : PreflightReport) : list PreflightCheck :=
  List.filter (fun c => bool_decide (check_status c = FAIL) && blocking c) (checks report).

(** The preflight gate: the audit row is committed, then the request fails. *)
Definition preflight_gate (user : option Caller) (r : ProvisioningRequest) (source_ip : option string)
    (report : option PreflightReport) : option (Failure * AuditEvent) :=
  match report with
  | None => None
  | Some rep =>
      if ready rep then None
      else
        let bl := blocking_checks rep in
        Some (Refused (validation_error "The request did not pass server-side preflight validation."
                [("summary", JStr (report_summary rep));
                 ("blocking_checks", JArr (List.map (fun c => JObj [("code", JStr (check_code c));
                    ("label", JStr (check_label c)); ("detail", JStr (check_detail c))]) bl))]),
              audit_event "PROVISIONING_REQUEST_REJECTED" (option_map snd user) "provisioning_request"
                (Some (vm_spec_name (vm r))) None (Some (compute_datacenter_id (compute r))) None
                (Some "blocked")
                [("blocking_checks", JArr (List.map (fun c => JStr (check_code c)) bl))] None)
  end.

Definition created_audit (user : option Caller) (r : ProvisioningRequest) (j : Job) : AuditEvent :=
  audit_event "PROVISIONING_REQUEST_CREATED" (option_map snd user) "provisioning_job"
    (Some (vm_spec_name (vm r))) (Some (job_id j)) (Some (compute_datacenter_id (compute r))) None
    (Some "queued")
    [("vcenter_id", JStr (vcenter_id (compute r))); ("cluster_id", JStr (cluster_id (compute r)));
     ("iso_id", JStr (iso_id (guest r)));
     ("data_disks", JNum (Z.of_nat (List.length (disks (hardware r))) - 1));
     ("network_mode", JStr (ip_mode_value (mode (network r))));
     ("computer_name", match effective_computer_name r with "" => JNull | n => JStr n end);
     ("requested_fqdn", match effective_fqdn r with Some f => JStr f | None => JNull end)]
    (Some ("Provisioning request queued for " ++ SQ ++
           match effective_fqdn r with Some "" | None => vm_spec_name (vm r) | Some f => f end ++ SQ ++ ".")).

(** [submit_provisioning]: [t0] is read, [t1] is the table when the INSERT runs. *)
Definition submit_provisioning (user : option Caller) (r : ProvisioningRequest) (key : option string)
    (source_ip : option string) (report : option PreflightReport) (id : string) (now : Z) (t0 t1 : table)
    : res Failure (Job * bool) * table * list AuditEvent :=
  match submit_checks user r key t0 with
  | Some answer => (answer, t1, [])
  | None =>
      match preflight_gate user r source_ip report with
      | Some (f, ev) => (Err f, t1, [ev])
      | None =>
          let j := new_job id now user key r in
          match insert_row reported j t1 with
          | Ok t2 => (Ok (j, true), t2, [created_audit user r j])
          | Err c =>
              let fallback := (Err (reservation_conflict c (vm_spec_name (vm r))), t1, []) in
              match c, given key with
              | IDEMPOTENCY_CONSTRAINT, Some k =>
                  match find_by_idempotency_key k t1 with
                  | Some existing => (_check_idempotent_replay existing (request_fingerprint_of r) user, t1, [])
                  | None => fallback
                  end
              | _, _ => fallback
              end
          end
      end
  end.

(** ** Retry *)

Definition retryable_status (s : JobStatus) : bool :=
  match s with FAILED | PARTIALLY_COMPLETED | CANCELLED | INTERRUPTED => true | _ => false end.

(** The selection of one stage: it must exist, be retryable and have failed. *)
Definition select_stage (j : Job) (key : string) : res AppError (list string) :=
  match STAGES_BY_KEY key, step_of j key with
  | Some d, Some s =>
      if negb (stage_retryable d && retryable s)
      then Err (validation_error ("Stage " ++ SQ ++ key ++ SQ ++ " is not retryable.") [])
      else match step_status s with
           | STEP_FAILED | STEP_CANCELLED => Ok [key]
           | st => Err (validation_error ("Stage " ++ SQ ++ key ++ SQ ++ " is " ++ SQ ++ step_status_value st ++
                          SQ ++ " — only failed stages can be retried.") [])
           end
  | _, _ => Err (MkAppError NotFoundError ("Unknown stage " ++ SQ ++ key ++ SQ ++ " for this job.") [])
  end.

(** The decision on the snapshot: the steps to reset. *)
Definition retry_plan (request_ok : bool) (stage_key : option string) (j : Job) (t0 : table)
    : res AppError (list string * Job * Z) :=
  if negb (retryable_status (job_status j)) then
    Err (validation_error ("Jobs in status " ++ SQ ++ job_status_value (job_status j) ++ SQ ++ " cannot be retried.")
           [("status", JStr (job_status_value (job_status j)))])
  else if negb request_ok then
    Err (validation_error ("This job was created by a provisioning workflow that no longer exists, so it can " ++
           "only be viewed. Submit a new request to create the VM.") [("reason", JStr "legacy_request")])
  else
    let? keys := match stage_key with
                 | None => Ok None
                 | Some k => let? l := select_stage j k in Ok (Some l)
                 end in
    if has_active_job_for_vm (vm_name j) (Some (job_id j)) t0 then
      Err (conflict_error ("Another active provisioning job for " ++ SQ ++ vm_name j ++ SQ ++
             " exists; it must finish first.") [("vm_name", JStr (vm_name j))])
    else
      let '(reset, j') := reset_for_retry 0 keys j in
      match reset with
      | [] => Err (validation_error "No failed stages were found to retry." [])
      | _ => Ok (reset, j', progress j')
      end.

(** The columns [reset_for_retry] assigns, over the row as it is. *)
Definition retry_write (now : Z) (reset : list string) (prog : Z) (cur : Job) : Job :=
  cur <| steps := List.map (fun s => if bool_decide (stage_key s ∈ reset)
                                     then s <| step_status := PENDING |> else s) (steps cur) |>
      <| job_status := QUEUED |> <| cancel_requested := false |> <| worker_id := None |>
      <| heartbeat_at := None |> <| error_summary := None |> <| error_detail := None |>
      <| finished_at := None |> <| duration := None |> <| queued_at := now |> <| progress := prog |>.

Definition retry_stages (user : option Caller) (request_ok : bool) (stage_key : option string) (now : Z)
    (j : Job) (t0 t1 : table) : res Failure (list string) * table * list AuditEvent :=
  match retry_plan request_ok stage_key j t0 with
  | Err e => (Err (Refused e), t1, [])
  | Ok (reset, _, prog) =>
      match row (job_id j) t1 with
      | None => (Ok reset, t1, [])
      | Some cur =>
          match update_row reported (retry_write now reset prog cur) t1 with
          | Err c => (Err (reservation_conflict c (vm_name j)), t1, [])
          | Ok t2 =>
              (Ok reset, t2,
               [audit_event "JOB_STAGE_RETRIED" (option_map snd user) "provisioning_job" (Some (vm_name j))
                  (Some (job_id j)) None None (Some "requeued")
                  [("stages", JArr (List.map JStr reset))] None])
          end
      end
  end.

(** ** Cancellation *)

Inductive CancelPlan :=
| Handover                              (* a worker removes the media first *)
| Flag                                  (* the worker that runs the job reads the flag *)
| Finalise (open_steps : list string).  (* nobody runs it *)

Definition open_step (s : Step) : bool :=
  match step_status s with PENDING | STEP_RUNNING => true | _ => false end.

Definition cancel_plan (j : Job) : res AppError CancelPlan :=
  if bool_decide (job_status j = INTERRUPTED) && may_hold_unattended_media j then Ok Handover
  else if is_terminal (job_status j) then
    Err (conflict_error ("Job is already " ++ SQ ++ job_status_value (job_status j) ++ SQ ++
           " and cannot be cancelled.") [("status", JStr (job_status_value (job_status j)))])
  else match job_status j with
       | QUEUED | INTERRUPTED => Ok (Finalise (List.map stage_key (List.filter open_step (steps j))))
       | _ => Ok Flag
       end.

Definition cancel_write (now : Z) (p : CancelPlan) (cur : Job) : Job :=
  let flagged := cur <| cancel_requested := true |> in
  match p with
  | Handover => flagged <| job_status := QUEUED |> <| queued_at := now |>
  | Flag => flagged
  | Finalise open_steps =>
      flagged <| job_status := CANCELLED |> <| finished_at := Some now |>
        <| steps := List.map (fun s => if bool_decide (stage_key s ∈ open_steps)
                                       then s <| step_status := STEP_CANCELLED |> else s) (steps cur) |>
  end.

Definition cancel_job (user : option Caller) (now : Z) (j : Job) (t1 : table)
    : res Failure unit * table * list AuditEvent :=
  match cancel_plan j with
  | Err e => (Err (Refused e), t1, [])
  | Ok p =>
      match row (job_id j) t1 with
      | None => (Ok tt, t1, [])
      | Some cur =>
          match update_row reported (cancel_write now p cur) t1 with
          | Err c => (Err (reservation_conflict c (vm_name j)), t1, [])
          | Ok t2 =>
              (Ok tt, t2,
               [audit_event "JOB_CANCELLED" (option_map snd user) "provisioning_job" (Some (vm_name j))
                  (Some (job_id j)) None None (Some "cancel_requested") [] None])
          end
      end
  end.

End Service.

(** ** The queue as a transition system

    Every atomic write any process makes.  [fresh j t] says what an operation
    may know of the row it read before: [read_any] allows any earlier
    snapshot, [read_current] the row as it is. *)

Definition read_any (j : Job) (t : table) : Prop := True.
Definition read_current (j : Job) (t : table) : Prop := row (job_id j) t = Some j.

(** What the worker of a job may commit (Engine.v proves that it commits nothing
    else): any transition of a RUNNING job but back into the queue, other
    columns of a job it has finished, and, after a cancellation it has
    applied, the late completion.  A job that stays RUNNING keeps its owner. *)
Definition worker_edge (a b : JobStatus) : bool :=
  match a, b with
  | RUNNING, QUEUED => false
  | RUNNING, _ => true
  | CANCELLED, COMPLETED => true
  | QUEUED, _ => false
  | _, _ => bool_decide (a = b)
  end.

Definition worker_write (j j' : Job) : Prop :=
  worker_edge (job_status j) (job_status j') = true /\ keeps_keys j j'
  /\ (job_status j' = RUNNING -> worker_id j' = worker_id j).

Inductive queue_step (reported : list Constraint -> Constraint) (fp : ProvisioningRequest -> string)
    (fresh : Job -> table -> Prop) : table -> table -> Prop :=
| QSubmit user r key src report id now t0 t :
    id ∉ ids t ->
    queue_step reported fp fresh t (snd (fst (submit_provisioning reported fp user r key src report id now t0 t)))
| QClaim limit worker now locked t :
    queue_step reported fp fresh t (snd (claim_due_jobs limit worker now locked t))
| QHeartbeat id worker now t :
    queue_step reported fp fresh t (snd (heartbeat id worker now t))
| QReap now timeout tasks locked t :
    queue_step reported fp fresh t (snd (reap_one now timeout tasks locked t))
| QRetry user ok key now j t0 t :
    fresh j t ->
    queue_step reported fp fresh t (snd (fst (retry_stages reported user ok key now j t0 t)))
| QCancel user now j t :
    fresh j t ->
    queue_step reported fp fresh t (snd (fst (cancel_job reported user now j t)))
| QWrite j j' t :
    row (job_id j) t = Some j -> worker_write j j' ->
    queue_step reported fp fresh t (put_row j' t).

Section QueueFacts.

Context (reported : list Constraint -> Constraint) (fp : ProvisioningRequest -> string).

Lemma submit_table user r key src report id now t0 t t' :
  t' = snd (fst (submit_provisioning reported fp user r key src report id now t0 t)) ->
  t' = t \/ (violations t (new_job fp id now user key r) = [] /\ t' = (t ++ [new_job fp id now user key r])%list).
Proof.
  unfold submit_provisioning, insert_row. intros ->.
  destruct (submit_checks _ _ _ _ _); [by left|]. destruct (preflight_gate _ _ _ _) as [[]|]; [by left|].
  destruct (violations t _) as [|c l]; [by right|]. left.
  by destruct (reported (c :: l)), (given key) as [k|]; try done; destruct (find_by_idempotency_key k t).
Qed.

Lemma claim_keeps now worker j : job_status j = QUEUED -> keeps_keys j (claim_row now worker j).
Proof. intros H. unfold keeps_keys. split_and!; try done. intros _. unfold is_active_job. by rewrite H. Qed.

Lemma interrupt_keeps now why j : job_status j = RUNNING -> keeps_keys j (interrupt_row now why j).
Proof. intros H. unfold keeps_keys. split_and!; try done. intros _. unfold is_active_job. by rewrite H. Qed.

(** A pointwise change of rows that keep their index keys. *)
Lemma map_rows_ok (f : Job -> Job) t :
  table_ok t -> (forall j, In j t -> keeps_keys j (f j)) -> table_ok (List.map f t).
Proof.
  intros [Hn Hc] Hf. split.
  - unfold ids. rewrite map_map. rewrite (map_ext_in _ job_id); [done|].
    intros j Hj. by destruct (Hf j Hj).
  - intros a b Ha Hb Hab c. apply in_map_iff in Ha as (x & <- & Hx), Hb as (y & <- & Hy).
    destruct (conflicts c (f x) (f y)) eqn:E; [|done].
    apply (keeps_keys_conflicts y) in E; [|by apply Hf]. rewrite conflicts_sym in E.
    apply (keeps_keys_conflicts x) in E; [|by apply Hf]. rewrite conflicts_sym in E.
    rewrite (Hc x y) in E; [done|done|done|].
    destruct (Hf x Hx) as [E1 _], (Hf y Hy) as [E2 _]. congruence.
Qed.

Lemma claim_ok limit worker now locked t :
  table_ok t -> table_ok (snd (claim_due_jobs limit worker now locked t)).
Proof.
  intros Ht. unfold claim_due_jobs. destruct (limit <=? 0); [done|]. cbn zeta. simpl snd.
  apply map_rows_ok; [done|]. intros j Hj. case_bool_decide as D; [|unfold keeps_keys; by split_and!].
  apply claim_keeps. apply list_elem_of_In, in_map_iff in D as (k & E & Hk).
  apply in_select in Hk as (Hk & Hd & _). destruct Ht as [Hn _].
  rewrite <- (same_id t k j Hn Hk Hj E). unfold due in Hd. by bools.
Qed.

Lemma heartbeat_ok id worker now t : table_ok t -> table_ok (snd (heartbeat id worker now t)).
Proof.
  intros Ht. unfold heartbeat. destruct (row id t) as [j|] eqn:R; [|done]. apply row_some in R as [Hj _].
  destruct (_ && _); [|by destruct (_ && _)].
  apply (put_row_keeps_ok j); [done|done|]. unfold keeps_keys. by split_and!.
Qed.

Lemma reap_ok now timeout tasks locked t : table_ok t -> table_ok (snd (reap_one now timeout tasks locked t)).
Proof.
  intros Ht. unfold reap_one, claim_stale_running_jobs.
  destruct (select_locked _ _ _ t) as [|j l] eqn:S; [done|].
  assert (Hj : In j (select_locked (stale (now - timeout) tasks) 1 locked t)) by (rewrite S; by left).
  apply in_select in Hj as (Hj & Hp & _). unfold stale in Hp. bools. simpl snd.
  apply (put_row_keeps_ok j); [done|done|]. by apply interrupt_keeps.
Qed.

Lemma update_result_ok (f : Job -> Job) j t t' A (ok : A) (err : Constraint -> A) :
  table_ok t ->
  t' = snd (match row (job_id j) t with
            | None => (ok, t)
            | Some cur => match update_row reported (f cur) t with
                          | Err c => (err c, t)
                          | Ok t2 => (ok, t2)
                          end
            end) ->
  table_ok t'.
Proof.
  intros Ht ->. destruct (row (job_id j) t) as [cur|]; [|done].
  destruct (update_row reported (f cur) t) eqn:U; [|done]. by eapply update_row_ok.
Qed.

Lemma retry_table user ok key now j t0 t :
  let t' := snd (fst (retry_stages reported user ok key now j t0 t)) in
  t' = t \/ exists reset prog cur, retryable_status (job_status j) = true /\ row (job_id j) t = Some cur
            /\ update_row reported (retry_write now reset prog cur) t = Ok t'.
Proof.
  cbn zeta. unfold retry_stages. destruct (retry_plan ok key j t0) as [[[reset j'] prog]|] eqn:P; [|by left].
  destruct (row (job_id j) t) as [cur|]; [|by left].
  destruct (update_row reported _ t) eqn:U; [|by left]. right. exists reset, prog, cur. split_and!; [|done|done].
  unfold retry_plan in P. by destruct (retryable_status (job_status j)).
Qed.

Lemma cancel_table user now j t :
  let t' := snd (fst (cancel_job reported user now j t)) in
  t' = t \/ exists p cur, cancel_plan j = Ok p /\ row (job_id j) t = Some cur
            /\ update_row reported (cancel_write now p cur) t = Ok t'.
Proof.
  cbn zeta. unfold cancel_job. destruct (cancel_plan j) as [p|] eqn:P; [|by left].
  destruct (row (job_id j) t) as [cur|]; [|by left].
  destruct (update_row reported _ t) eqn:U; [|by left]. right. by exists p, cur.
Qed.

Lemma queue_step_ok fresh t t' : queue_step reported fp fresh t t' -> table_ok t -> table_ok t'.
Proof.
  intros H Ht. destruct H as [user r key src report id now t0 t Hid| | | |user ok key now j t0 t _
                             |user now j t _|j j' t Hr Hw].
  - destruct (submit_table user r key src report id now t0 t _ eq_refl) as [->|[V ->]]; [done|].
    apply (insert_row_ok reported (new_job fp id now user key r) t); [done|done|].
    unfold insert_row. by rewrite V.
  - by apply claim_ok.
  - by apply heartbeat_ok.
  - by apply reap_ok.
  - destruct (retry_table user ok key now j t0 t) as [->|(? & ? & ? & _ & _ & U)]; [done|]. by eapply update_row_ok.
  - destruct (cancel_table user now j t) as [->|(? & ? & _ & _ & U)]; [done|]. by eapply update_row_ok.
  - apply (put_row_keeps_ok j); [done| |by destruct Hw as (_ & Hw & _)]. by apply row_some in Hr as [Hr _].
Qed.

(** C9 (provisioning_jobs unique indexes, submit/retry/cancel/claim/reap):
    in every state any interleaving of requests and workers can reach, even
    when each request decides on an arbitrarily stale snapshot, two different
    jobs never hold the same VM name (compared case-insensitively) or the same
    static address while both are queued, running or interrupted, and never
    share an idempotency key. *)
Theorem reservations_exclusive t a b :
  rtc (queue_step reported fp read_any) [] t ->
  In a t -> In b t -> job_id a <> job_id b ->
  (is_active_job a = true -> is_active_job b = true ->
     lower (vm_name a) <> lower (vm_name b)
     /\ (forall ip, reserved_ipv4 a = Some ip -> reserved_ipv4 b <> Some ip))
  /\ (forall k, idempotency_key a = Some k -> idempotency_key b <> Some k).
Proof.
  intros Hr Ha Hb Hab.
  assert (Ht : table_ok t).
  { assert (T0 : table_ok []) by (split; [constructor|intros ? ? []]).
    revert T0. clear Ha Hb. induction Hr as [x|x y z Hxy _ IH]; [done|].
    intros T. apply IH. by eapply queue_step_ok. }
  destruct Ht as [_ Hc]. pose proof (Hc a b Ha Hb Hab) as C. split.
  - intros Aa Ab. pose proof (C VM_NAME_INDEX) as Cv. pose proof (C IPV4_INDEX) as Ci.
    simpl in Cv, Ci. rewrite Aa, Ab in Cv, Ci. simpl in Cv, Ci. split.
    + by apply String.eqb_neq.
    + intros ip E1 E2. rewrite E1, E2 in Ci. simpl in Ci. by rewrite String.eqb_refl in Ci.
  - intros k E1 E2. pose proof (C IDEMPOTENCY_CONSTRAINT) as Ck. simpl in Ck. rewrite E1, E2 in Ck.
    simpl in Ck. by rewrite String.eqb_refl in Ck.
Qed.

End QueueFacts.

(** Two submissions that both passed their checks on the empty table. *)
Definition first_error (l : list Constraint) : Constraint :=
  match l with c :: _ => c | [] => VM_NAME_INDEX end.
Definition request_named (name : string) : ProvisioningRequest :=
  MkRequest V2 (MkVmSpec name "") (compute stored_request) (hardware stored_request)
    (guest stored_request) (network stored_request) [] [].
Definition submit_named (name id : string) (t0 t1 : table) : res Failure (Job * bool) * table * list AuditEvent :=
  submit_provisioning first_error (fun _ => "sha") (Some ("u", "alice")) (request_named name) None None None id 5 t0 t1.

Definition one_job : table := snd (fst (submit_named "web" "a" [] [])).

Lemma submit_step name id t0 t :
  id ∉ ids t ->
  queue_step first_error (fun _ => "sha") read_any t (snd (fst (submit_named name id t0 t))).
Proof. intros H. by apply QSubmit. Qed.

Definition free_request (name ip : string) : ProvisioningRequest :=
  MkRequest V2 (MkVmSpec name "") (compute stored_request) (hardware stored_request) (guest stored_request)
    (MkNetworkSpec "net-1" VMXNET3 STATIC (Some (MkIpv4 ip 24 "10.0.0.1" []))) [] [].

Definition two_jobs : table :=
  snd (fst (submit_provisioning first_error (fun _ => "sha") None (free_request "db" "10.0.0.9") None None None
              "b" 6 [] one_job)).

Lemma two_jobs_reachable : rtc (queue_step first_error (fun _ => "sha") read_any) [] two_jobs.
Proof.
  eapply rtc_l; [apply (submit_step "web" "a" [] []); by intros ?%not_elem_of_nil|].
  eapply rtc_l; [|apply rtc_refl].
  apply QSubmit. apply (bool_decide_unpack _). vm_compute. exact I.
Qed.

Lemma reservations_exclusive_witness :
  exists a b, In a two_jobs /\ In b two_jobs /\ lower (vm_name a) <> lower (vm_name b).
Proof.
  assert (Ha : exists a, nth_error two_jobs 0 = Some a /\ is_active_job a = true /\ job_id a = "a").
  { eexists. split; [vm_compute; reflexivity|]. done. }
  assert (Hb : exists b, nth_error two_jobs 1 = Some b /\ is_active_job b = true /\ job_id b = "b").
  { eexists. split; [vm_compute; reflexivity|]. done. }
  destruct Ha as (a & Ha & Aa & Ia), Hb as (b & Hb & Ab & Ib).
  apply nth_error_In in Ha, Hb. exists a, b. split; [exact Ha|]. split; [exact Hb|].
  apply (reservations_exclusive first_error (fun _ => "sha") two_jobs a b two_jobs_reachable Ha Hb); [|exact Aa|exact Ab].
  rewrite Ia, Ib. discriminate.
Defined.

(** ** The lifecycle of a job *)

(** The status changes the platform allows; COMPLETED has none.  CANCELLED to
    COMPLETED is the cancellation of a job during its last stage. *)
Definition edge (a b : JobStatus) : bool :=
  match a, b with
  | QUEUED, (RUNNING | CANCELLED) => true
  | RUNNING, (COMPLETED | PARTIALLY_COMPLETED | FAILED | CANCELLED | INTERRUPTED) => true
  | INTERRUPTED, (QUEUED | CANCELLED) => true
  | (FAILED | PARTIALLY_COMPLETED | CANCELLED), QUEUED => true
  | CANCELLED, COMPLETED => true
  | _, _ => false
  end.

Lemma worker_edge_edge a b : worker_edge a b = true -> b = a \/ edge a b = true.
Proof. destruct a, b; simpl; first [by left | by right | done]. Qed.

Section Lifecycle.

Context (reported : list Constraint -> Constraint) (fp : ProvisioningRequest -> string).

Lemma row_put_row_other j t id : id <> job_id j -> row id (put_row j t) = row id t.
Proof.
  intros H. unfold row, put_row, find_first. induction t as [|x t IH]; simpl; [done|].
  destruct (String.eqb (job_id x) (job_id j)) eqn:E; simpl.
  - apply String.eqb_eq in E. rewrite E. destruct (String.eqb (job_id j) id) eqn:F; [|apply IH].
    apply String.eqb_eq in F. done.
  - by destruct (String.eqb (job_id x) id).
Qed.

(** A row replaced by a version with an allowed status. *)
Lemma put_row_edge j j' t id a :
  row (job_id j) t = Some j -> job_id j' = job_id j ->
  (job_status j' = job_status j \/ edge (job_status j) (job_status j') = true) ->
  row id t = Some a ->
  exists b, row id (put_row j' t) = Some b
            /\ (job_status b = job_status a \/ edge (job_status a) (job_status b) = true).
Proof.
  intros Hj Hid He Ha. destruct (decide (id = job_id j)) as [->|Hne].
  - rewrite Hj in Ha. injection Ha as <-. exists j'. split; [|done].
    rewrite <- Hid. apply row_put_row. rewrite Hid. apply row_some in Hj as [Hj _].
    unfold ids. apply in_map. done.
  - exists a. split; [|by left]. rewrite row_put_row_other by congruence. done.
Qed.

Lemma row_app id t l a : row id t = Some a -> row id (t ++ l)%list = Some a.
Proof.
  unfold row, find_first. induction t as [|x t IH]; simpl; [done|]. by destruct (String.eqb _ _).
Qed.

Lemma update_row_put j t t' : update_row reported j t = Ok t' -> t' = put_row j t.
Proof. unfold update_row. destruct (violations t j); [|discriminate]. by intros [= <-]. Qed.

Lemma cancel_write_edge now p j :
  cancel_plan j = Ok p ->
  job_status (cancel_write now p j) = job_status j \/ edge (job_status j) (job_status (cancel_write now p j)) = true.
Proof.
  unfold cancel_plan. intros H. destruct (bool_decide (job_status j = INTERRUPTED) && _) eqn:I.
  - injection H as <-. right. bools. simpl. by rewrite H.
  - destruct (is_terminal (job_status j)) eqn:T; [discriminate|].
    destruct (job_status j) eqn:S; try discriminate; injection H as <-; simpl; rewrite ?S; first [by left | by right].
Qed.

(** C10 (job lifecycle): suppose that every request decides on the row as it
    is ([read_current]), and that the workers write only what
    [worker_write] allows (Engine.v shows they do while nobody else changes
    the row).  Then each atomic step of the platform keeps every job and moves
    its status only along the edges QUEUED to RUNNING or CANCELLED, RUNNING to
    a terminal status or INTERRUPTED, INTERRUPTED to QUEUED or CANCELLED,
    FAILED, PARTIALLY_COMPLETED or CANCELLED back to QUEUED by a retry, and
    CANCELLED to COMPLETED by the worker that was in its last stage.  A
    COMPLETED job therefore never runs, fails or is cancelled again.  The
    assumption is needed: a cancellation that decides on a row read before a
    claim marks a running job CANCELLED ([cancel_race]). *)
Theorem job_lifecycle t t' id a :
  table_ok t ->
  queue_step reported fp read_current t t' ->
  row id t = Some a ->
  exists b, row id t' = Some b
    /\ (job_status b = job_status a \/ edge (job_status a) (job_status b) = true)
    /\ (job_status a = COMPLETED -> job_status b = COMPLETED).
Proof.
  intros Ht H Ha.
  assert (G : exists b, row id t' = Some b
            /\ (job_status b = job_status a \/ edge (job_status a) (job_status b) = true)).
  { destruct H as [user r key src report nid now t0 t Hid|limit worker now locked t|hid worker now t
                  |now timeout tasks locked t|user ok key now j t0 t Hf|user now j t Hf|j j' t Hr Hw].
    - destruct (submit_table reported fp user r key src report nid now t0 t _ eq_refl) as [->|[_ ->]].
      + exists a. split; [done|by left].
      + exists a. split; [by apply row_app|by left].
    - unfold claim_due_jobs. destruct (limit <=? 0); [exists a; split; [done|by left]|].
      cbn zeta. simpl snd. rewrite row_map, Ha by (intros k; by case_bool_decide). simpl.
      eexists. split; [reflexivity|]. case_bool_decide as D; [|by left]. right.
      apply list_elem_of_In, in_map_iff in D as (k & E & Hk). apply in_select in Hk as (Hk & Hd & _).
      apply row_some in Ha as [Ha _]. rewrite <- (same_id t k a (proj1 Ht) Hk Ha E).
      unfold due in Hd. bools. rewrite H. reflexivity.
    - unfold heartbeat. destruct (row hid t) as [j|] eqn:R; [|exists a; split; [done|by left]].
      destruct (_ && _); [|by destruct (_ && _); exists a; (split; [|left])].
      eapply (put_row_edge j); [|done|by left|done]. by pose proof (row_some _ _ _ R) as [_ ->].
    - unfold reap_one, claim_stale_running_jobs.
      destruct (select_locked _ _ _ t) as [|j l] eqn:S; [exists a; split; [done|by left]|].
      assert (Hj : In j (select_locked (stale (now - timeout) tasks) 1 locked t)) by (rewrite S; by left).
      apply in_select in Hj as (Hj & Hp & _). unfold stale in Hp. bools. simpl snd.
      eapply (put_row_edge j); [by apply row_in; [apply Ht|]|done| |done]. right. simpl. by rewrite H.
    - destruct (retry_table reported user ok key now j t0 t) as [->|(reset & prog & cur & Hs & Hc & U)].
      + exists a. split; [done|by left].
      + apply update_row_put in U as ->. unfold read_current in Hf. rewrite Hf in Hc. injection Hc as <-.
        eapply (put_row_edge j); [done|done| |done]. right.
        change (job_status (retry_write now reset prog j)) with QUEUED. by destruct (job_status j).
    - destruct (cancel_table reported user now j t) as [->|(p & cur & Hp & Hc & U)].
      + exists a. split; [done|by left].
      + apply update_row_put in U as ->. unfold read_current in Hf. rewrite Hf in Hc. injection Hc as <-.
        eapply (put_row_edge j); [done|by destruct p|by apply cancel_write_edge|done].
    - destruct Hw as (Hs & Hk & _). eapply (put_row_edge j); [done|by destruct Hk|by apply worker_edge_edge|done]. }
  destruct G as (b & Hb & He). exists b. split_and!; [done|done|].
  intros C. rewrite C in He. destruct He as [->|He]; [done|]. by destruct (job_status b).
Qed.

End Lifecycle.

Lemma two_jobs_ok : table_ok two_jobs.
Proof.
  assert (T0 : table_ok []) by (split; [constructor|intros ? ? []]).
  revert T0. induction two_jobs_reachable as [|x y z Hxy _ IH]; [done|].
  intros T. apply IH. by eapply queue_step_ok.
Qed.

Lemma job_lifecycle_witness :
  exists b, row "a" (snd (claim_due_jobs 1 "w" 50 [] two_jobs)) = Some b
    /\ (job_status b = QUEUED \/ edge QUEUED (job_status b) = true).
Proof.
  assert (Ha : exists a, row "a" two_jobs = Some a /\ job_status a = QUEUED).
  { eexists. split; [vm_compute; reflexivity|]. reflexivity. }
  destruct Ha as (a & Ha & Qa).
  destruct (job_lifecycle first_error (fun _ => "sha") two_jobs _ "a" a two_jobs_ok
              (QClaim _ _ _ 1 "w" 50 [] two_jobs) Ha) as (b & Hb & He & _).
  exists b. rewrite Qa in He. split; [exact Hb|exact He].
Defined.

(** ** Idempotent submission *)

Lemma find_key_row k t j :
  table_ok t -> In j t -> idempotency_key j = Some k -> find_by_idempotency_key k t = Some j.
Proof.
  intros [Hn Hc] Hj Hk. unfold find_by_idempotency_key, find_first.
  destruct (List.find _ t) as [x|] eqn:F.
  - apply List.find_some in F as [Hx E]. f_equal. destruct (decide (job_id x = job_id j)) as [E'|Hne].
    + by apply (same_id t).
    + pose proof (Hc x j Hx Hj Hne IDEMPOTENCY_CONSTRAINT) as C. simpl in C. by rewrite Hk, E in C.
  - apply (List.find_none _ _ F) in Hj. rewrite Hk in Hj. simpl in Hj. by rewrite String.eqb_refl in Hj.
Qed.

(** C11 (submit_provisioning, Idempotency-Key): once a job carries a key, a
    submission with that key writes nothing, whatever happened to the job
    since.  The same user with the same body gets the job back; a different
    body or another user is refused with a validation error.  This holds
    both when the request sees the job in its first read and when it only
    collides with it at the INSERT (the table it read, [t0], may be older). *)
Theorem idempotent_submission reported fp user r k src report id now t0 t j :
  (forall vs, vs <> [] -> In (reported vs) vs) ->
  table_ok t -> In j t -> job_id j <> id ->
  idempotency_key j = Some k -> k <> "" -> identity_policy_version r = V2 ->
  (t0 = t \/ (submit_checks fp user r (Some k) t0 = None /\ preflight_gate user r src report = None
              /\ violations t (new_job fp id now user (Some k) r) = [IDEMPOTENCY_CONSTRAINT])) ->
  let '(answer, t', audit) := submit_provisioning reported fp user r (Some k) src report id now t0 t in
  t' = t /\ audit = []
  /\ answer = _check_idempotent_replay j (fp r) user
  /\ (requested_by_user_id j = option_map fst user -> request_fingerprint j = Some (fp r) -> answer = Ok (j, false))
  /\ (requested_by_user_id j <> option_map fst user \/ (exists f, request_fingerprint j = Some f /\ f <> fp r) ->
        exists e, answer = Err (Refused e) /\ app_kind e = DomainValidationError).
Proof.
  intros Hrep Ht Hj Hid Hk Hne Hv Hcase.
  assert (Hf : find_by_idempotency_key k t = Some j) by by apply find_key_row.
  assert (Hg : given (Some k) = Some k) by (unfold given; by destruct k).
  assert (E : submit_provisioning reported fp user r (Some k) src report id now t0 t
              = (_check_idempotent_replay j (fp r) user, t, [])).
  { unfold submit_provisioning. destruct Hcase as [->|(H1 & H2 & H3)].
    - unfold submit_checks. rewrite bool_decide_eq_true_2 by done. cbn [negb]. by rewrite Hg, Hf.
    - rewrite H1, H2. cbn zeta. unfold insert_row. rewrite H3.
      destruct (Hrep [IDEMPOTENCY_CONSTRAINT]) as [<-|[]]; [done|]. by rewrite Hg, Hf. }
  rewrite E. split_and!; [done|done|done| |].
  - intros Hu Hb. unfold _check_idempotent_replay. rewrite bool_decide_eq_true_2, Hb by done.
    by rewrite String.eqb_refl.
  - intros Hd. unfold _check_idempotent_replay.
    assert (B : negb (bool_decide (requested_by_user_id j = option_map fst user))
                || match request_fingerprint j with Some f => negb (String.eqb f (fp r)) | None => false end = true).
    { destruct Hd as [Hu|(f & -> & Hf')].
      - by rewrite bool_decide_eq_false_2.
      - apply String.eqb_neq in Hf' as ->. apply orb_true_r. }
    rewrite B. by eexists.
Qed.

Definition keyed_jobs : table :=
  snd (fst (submit_provisioning first_error (fun _ => "sha") (Some ("u", "alice")) (request_named "web") (Some "k-1")
              None None "a" 5 [] [])).

Lemma keyed_jobs_ok : table_ok keyed_jobs.
Proof.
  eapply (queue_step_ok first_error (fun _ => "sha") read_any []).
  - apply QSubmit. by intros ?%not_elem_of_nil.
  - split; [constructor|intros ? ? []].
Qed.

Lemma first_error_in vs : vs <> [] -> In (first_error vs) vs.
Proof. destruct vs; [done|]. intros _. by left. Qed.

Lemma idempotent_submission_witness :
  exists j, fst (fst (submit_provisioning first_error (fun _ => "sha") (Some ("u", "alice")) (request_named "other")
                        (Some "k-1") None None "z" 9 keyed_jobs keyed_jobs)) = Ok (j, false).
Proof.
  assert (Hj : exists j, nth_error keyed_jobs 0 = Some j /\ job_id j = "a" /\ idempotency_key j = Some "k-1"
                         /\ requested_by_user_id j = Some "u" /\ request_fingerprint j = Some "sha").
  { eexists. split; [vm_compute; reflexivity|]. done. }
  destruct Hj as (j & Hj & Ij & Kj & Uj & Fj). apply nth_error_In in Hj. exists j.
  pose proof (idempotent_submission first_error (fun _ => "sha") (Some ("u", "alice")) (request_named "other") "k-1"
                None None "z" 9 keyed_jobs keyed_jobs j first_error_in keyed_jobs_ok Hj) as T.
  destruct (submit_provisioning _ _ _ _ _ _ _ _ _ _ _) as [[answer t'] audit].
  apply T; [rewrite Ij; discriminate|exact Kj|discriminate|reflexivity|by left|exact Uj|exact Fj].
Defined.

(** ** A stale read in the cancellation path *)

(** The job as the cancelling request read it, and the table after a worker
    claimed it in between. *)
Definition stale_snapshot : Job := match one_job with j :: _ => j | [] => rounding_job end.
Definition claimed_jobs : table := snd (claim_due_jobs 1 "w" 50 [] one_job).
Definition cancelled_jobs : table := snd (fst (cancel_job first_error None 60 stale_snapshot claimed_jobs)).
Definition resubmitted_jobs : table := snd (fst (submit_named "WEB" "c" cancelled_jobs cancelled_jobs)).

Lemma claimed_step : queue_step first_error (fun _ => "sha") read_any one_job claimed_jobs.
Proof. unfold claimed_jobs. apply QClaim. Qed.

Lemma cancelled_step : queue_step first_error (fun _ => "sha") read_any claimed_jobs cancelled_jobs.
Proof. unfold cancelled_jobs. apply QCancel. exact I. Qed.

Lemma resubmitted_step : queue_step first_error (fun _ => "sha") read_any cancelled_jobs resubmitted_jobs.
Proof.
  unfold resubmitted_jobs. generalize (eq_refl cancelled_jobs). generalize cancelled_jobs at 1 3 4 5.
  intros t E. apply submit_step. rewrite E. apply (bool_decide_unpack _). vm_compute. exact I.
Qed.

Lemma cancel_race_trace : rtc (queue_step first_error (fun _ => "sha") read_any) [] resubmitted_jobs.
Proof.
  apply rtc_l with one_job; [apply (submit_step "web" "a" [] []); by intros ?%not_elem_of_nil|].
  apply rtc_l with claimed_jobs; [exact claimed_step|].
  apply rtc_l with cancelled_jobs; [exact cancelled_step|].
  apply rtc_once. exact resubmitted_step.
Qed.

(** [cancel_job against claim_due_jobs]: the cancellation of a queued job
    decides on the status it read.  When a worker claims the job between that
    read and the write, the reachable table shows the job CANCELLED although
    its worker runs it; the worker's heartbeat answers that there is nothing
    to cancel, and a second job for the same VM name is admitted while the
    first one still runs. *)
Theorem cancel_race :
  rtc (queue_step first_error (fun _ => "sha") read_any) [] resubmitted_jobs
  /\ exists a c, row "a" resubmitted_jobs = Some a /\ row "c" resubmitted_jobs = Some c
     /\ worker_id a = Some "w" /\ job_status a = CANCELLED
     /\ fst (heartbeat "a" "w" 70 resubmitted_jobs) = Some false
     /\ lower (vm_name a) = lower (vm_name c) /\ job_status c = QUEUED.
Proof.
  split; [apply cancel_race_trace|]. do 2 eexists. do 2 (split; [vm_compute; reflexivity|]).
  repeat split; vm_compute; reflexivity.
Qed.
