(* ===== verification/Scripts.v ===== *)
(** * Files executed inside the guest

    [app/services/guest/scripts.py]: quoting of PowerShell literals, the
    runner that starts a native program, and the file that wraps a script with
    its secret-loading preamble. *)

From Stdlib Require Import ZArith Lia Ascii String List Bool.
From stdpp Require Import base tactics list strings gmap.
From S2P Require Import Prelude PyStr Regex.

Local Open Scope string_scope.
Local Open Scope Z_scope.

Definition POWERSHELL_PATH : string := "C:\Windows\System32\WindowsPowerShell\v1.0\powershell.exe".
Definition HOSTNAME_PATH : string := "C:\Windows\System32\hostname.exe".
Definition GUEST_TEMP_DIR : string := "C:\Windows\Temp".

Definition RUNNER_FAILURE_EXIT_CODE : Z := 9009.
Definition RUNNER_TIMEOUT_EXIT_CODE : Z := 1460.

Definition letter : regex := RChr (fun c => is_lower c || is_upper c).
Definition _SECRET_NAME : regex := RSeq letter (rupto 40 (RChr (fun c => is_alnum c || Ascii.eqb c "_"%char))).

Definition is_control (c : ascii) : bool :=
  in_range 0 8 c || in_range 10 31 c || Ascii.eqb c (char_of 127).
Definition _CONTROL_CHARS (s : string) : bool := existsb is_control (chars s).

(** A value as a PowerShell single-quoted literal. *)
Definition ps_quote (value : string) : string := SQ ++ replace_char "'" (SQ ++ SQ) value ++ SQ.

Definition new_temp_path (token suffix : string) : string :=
  GUEST_TEMP_DIR ++ "\infraops-" ++ token ++ "." ++ suffix.

Definition powershell_file_arguments (script_path : string) : string :=
  "-NoProfile -NonInteractive -ExecutionPolicy Bypass -File " ++ DQ ++ script_path ++ DQ.

(** The runner of one program; [None] is the [ValueError]. *)
Definition build_process_runner (program arguments output_path : string) (timeout_seconds : Z)
    (working_directory : option string) (utf8_output : bool) : option string :=
  if _CONTROL_CHARS program || _CONTROL_CHARS arguments then None
  else
    let timeout_ms := Z.max 1000 (timeout_seconds * 1000) in
    let lines := [
      "$ErrorActionPreference = 'Stop'";
      "$log = " ++ ps_quote output_path;
      "$utf8 = New-Object System.Text.UTF8Encoding $false";
      "try {";
      "    $psi = New-Object System.Diagnostics.ProcessStartInfo";
      "    $psi.FileName = " ++ ps_quote program;
      "    $psi.Arguments = " ++ ps_quote arguments;
      "    $psi.UseShellExecute = $false";
      "    $psi.CreateNoWindow = $true";
      "    $psi.RedirectStandardOutput = $true";
      "    $psi.RedirectStandardError = $true" ] in
    let directory := match working_directory with
                     | Some d => if String.eqb d "" then [] else ["    $psi.WorkingDirectory = " ++ ps_quote d]
                     | None => []
                     end in
    let encoding := if utf8_output
                    then ["    $psi.StandardOutputEncoding = $utf8"; "    $psi.StandardErrorEncoding = $utf8"]
                    else [] in
    let tail := [
      "    $process = [System.Diagnostics.Process]::Start($psi)";
      "    $stdout = $process.StandardOutput.ReadToEndAsync()";
      "    $stderr = $process.StandardError.ReadToEndAsync()";
      "    if (-not $process.WaitForExit(" ++ str_int timeout_ms ++ ")) {";
      "        try { $process.Kill() } catch { }";
      "        $message = 'InfraOps: the process exceeded its timeout and was terminated.'";
      "        [System.IO.File]::WriteAllText($log, $message, $utf8)";
      "        exit " ++ str_int RUNNER_TIMEOUT_EXIT_CODE;
      "    }";
      "    $process.WaitForExit()";
      "    $text = $stdout.Result";
      "    if ($stderr.Result) { $text = $text + [Environment]::NewLine + $stderr.Result }";
      "    [System.IO.File]::WriteAllText($log, $text, $utf8)";
      "    exit $process.ExitCode";
      "} catch {";
      "    $message = 'InfraOps runner error: ' + $_.Exception.Message";
      "    try { [System.IO.File]::WriteAllText($log, $message, $utf8) } catch { }";
      "    exit " ++ str_int RUNNER_FAILURE_EXIT_CODE;
      "}" ] in
    Some (join CRLF (lines ++ directory ++ encoding ++ tail)%list ++ CRLF).

Definition secret_lines (name path : string) : list string :=
  let quoted := ps_quote path in [
    "try {";
    "    $InfraOpsSecrets[" ++ ps_quote name ++ "] = [System.IO.File]::ReadAllText(" ++ quoted
      ++ ", [System.Text.Encoding]::UTF8)";
    "} finally {";
    "    Remove-Item -LiteralPath " ++ quoted ++ " -Force -ErrorAction SilentlyContinue";
    "}" ].

Fixpoint preamble (secret_paths : list (string * string)) : option (list string) :=
  match secret_paths with
  | [] => Some []
  | (name, path) :: rest =>
      if fullmatch _SECRET_NAME name
      then option_map (fun l => (secret_lines name path ++ l)%list) (preamble rest)
      else None
  end.

(** A script body behind the preamble that loads its secrets. *)
Definition build_script_file (script : string) (secret_paths : list (string * string)) : option string :=
  option_map
    (fun l => join CRLF (["$ProgressPreference = 'SilentlyContinue'";
                          "try { [Console]::OutputEncoding = New-Object System.Text.UTF8Encoding $false } catch { }";
                          "$InfraOpsSecrets = @{}"] ++ l ++ [script])%list ++ CRLF)
    (preamble secret_paths).

(** UTF-8 with a byte-order mark; text is its UTF-8 bytes here. *)
Definition BOM : string := String (char_of 239) (String (char_of 187) (String (char_of 191) "")).
Definition encode_script (text : string) : string := BOM ++ text.

Inductive GuestCommand :=
| Native (program arguments : string)
| Powershell (script : string).

Definition display (c : GuestCommand) : string :=
  match c with Native p _ => p | Powershell _ => "powershell" end.

(** ** Reading a literal back

    What the quoting relies on is the language of Windows PowerShell: in a
    single-quoted literal nothing expands, two quotes in a row stand for the
    second one, and any other quote ends the literal.  Single quotes are the
    apostrophe and the typographic quotes U+2018 to U+201B.  [read_literal]
    consumes the literal a text starts with and returns its value and the text
    behind it. *)

(** The number of bytes of the single quote a text starts with, or 0. *)
Definition quote_bytes (l : list ascii) : nat :=
  match l with
  | c :: r =>
      if Ascii.eqb c "'"%char then 1
      else match r with
           | d :: e :: _ =>
               if Ascii.eqb c (char_of 226) && Ascii.eqb d (char_of 128) && in_range 152 155 e then 3 else 0
           | _ => 0
           end
  | [] => 0
  end%nat.

Fixpoint read_quoted (fuel : nat) (acc l : list ascii) : option (list ascii * list ascii) :=
  match fuel, l with
  | S fuel', c :: r =>
      match quote_bytes l with
      | O => read_quoted fuel' (acc ++ [c]) r
      | n => let behind := skipn n l in
             match quote_bytes behind with
             | O => Some (acc, behind)
             | m => read_quoted fuel' (acc ++ firstn m behind) (skipn m behind)
             end
      end
  | _, _ => None
  end.

Definition read_literal (s : string) : option (string * string) :=
  let l := chars s in
  match quote_bytes l with
  | O => None
  | n => option_map (fun p => (text (fst p), text (snd p))) (read_quoted (List.length l) [] (skipn n l))
  end.

(** No typographic quote. *)
Fixpoint no_smart_quotes (l : list ascii) : bool :=
  match l with
  | [] => true
  | c :: r => negb (quote_bytes l =? 3)%nat && no_smart_quotes r
  end.

Lemma chars_ps_quote v :
  chars (ps_quote v) = ("'"%char :: replace_chars "'" ["'"%char; "'"%char] (chars v) ++ ["'"%char])%list.
Proof. unfold ps_quote, replace_char. rewrite !chars_app, chars_text. done. Qed.

(** Doubling the apostrophes of a text forms no new quote. *)
Lemma quote_bytes_doubled c v rest :
  quote_bytes (c :: v) = O ->
  quote_bytes (replace_chars "'" ["'"%char; "'"%char] (c :: v) ++ "'"%char :: rest) = O.
Proof.
  simpl. destruct (Ascii.eqb_spec c "'"%char) as [|Nc]; [done|]. intros H. simpl.
  destruct (Ascii.eqb_spec c "'"%char) as [|_]; [done|].
  destruct v as [|d v]; simpl.
  - destruct rest; [done|]. by rewrite andb_false_r.
  - destruct (Ascii.eqb_spec d "'"%char) as [->|Nd]; simpl; [by rewrite andb_false_r|].
    destruct v as [|e v]; simpl; [destruct rest; by rewrite andb_false_r|].
    destruct (Ascii.eqb_spec e "'"%char) as [->|Ne]; simpl; [by rewrite andb_false_r|done].
Qed.

Lemma read_quoted_doubled v rest acc fuel :
  no_smart_quotes v = true -> quote_bytes rest = O ->
  (List.length (replace_chars "'" ["'"%char; "'"%char] v ++ "'"%char :: rest) <= fuel)%nat ->
  read_quoted fuel acc (replace_chars "'" ["'"%char; "'"%char] v ++ "'"%char :: rest) = Some ((acc ++ v)%list, rest).
Proof.
  intros Hv Hr. revert acc fuel. induction v as [|c v IH]; intros acc fuel F.
  - destruct fuel as [|fuel]; [simpl in F; lia|]. cbn [replace_chars List.app read_quoted].
    change (quote_bytes ("'"%char :: rest)) with 1%nat. cbv iota. change (skipn 1 ("'"%char :: rest)) with rest.
    rewrite Hr. by rewrite app_nil_r.
  - apply andb_true_iff in Hv as [Hq Hv].
    destruct (Ascii.eqb_spec c "'"%char) as [->|Nc].
    + destruct fuel as [|fuel]; [simpl in F; lia|].
      set (w := (replace_chars "'" ["'"%char; "'"%char] v ++ "'"%char :: rest)%list) in *.
      change ((replace_chars "'" ["'"%char; "'"%char] ("'"%char :: v) ++ "'"%char :: rest)%list)
        with ("'"%char :: "'"%char :: w) in *.
      cbn [read_quoted]. change (quote_bytes ("'"%char :: "'"%char :: w)) with 1%nat. cbv iota.
      change (skipn 1 ("'"%char :: "'"%char :: w)) with ("'"%char :: w).
      change (quote_bytes ("'"%char :: w)) with 1%nat. cbv iota.
      change (firstn 1 ("'"%char :: w)) with ["'"%char]. change (skipn 1 ("'"%char :: w)) with w. simpl in F.
      rewrite IH by (done || lia). by rewrite <- app_assoc.
    + assert (Z : quote_bytes (c :: v) = O).
      { revert Hq. simpl. destruct (Ascii.eqb_spec c "'"%char); [done|]. destruct v as [|? [|? ?]]; [done|done|].
        by match goal with |- context [if ?b then _ else _] => destruct b end. }
      pose proof (quote_bytes_doubled c v rest Z) as Q.
      assert (E : replace_chars "'" ["'"%char; "'"%char] (c :: v) = c :: replace_chars "'" ["'"%char; "'"%char] v).
      { simpl. by destruct (Ascii.eqb_spec c "'"%char). }
      rewrite E in F, Q |- *. destruct fuel as [|fuel]; [simpl in F; lia|]. cbn [List.app] in Q |- *.
      cbn [read_quoted]. rewrite Q. simpl in F. rewrite IH by (done || lia). by rewrite <- app_assoc.
Qed.

(** (ps_quote): the quoted form of a value without typographic quotes is one
    PowerShell literal, whatever apostrophes, line breaks or metacharacters
    the value has: in a script it reads back as the value, and the literal
    ends exactly where the quoted form does. *)
Lemma ps_quote_reads_back v rest :
  no_smart_quotes (chars v) = true -> quote_bytes (chars rest) = O ->
  read_literal (ps_quote v ++ rest) = Some (v, rest).
Proof.
  intros Hv Hr. unfold read_literal. rewrite chars_app, chars_ps_quote. cbn [List.app]. rewrite <- app_assoc.
  cbn [List.app]. set (w := (replace_chars _ _ _ ++ _)%list). change (quote_bytes ("'"%char :: w)) with 1%nat.
  cbv iota. change (skipn 1 ("'"%char :: w)) with w. unfold w.
  rewrite read_quoted_doubled by (done || (simpl; lia)). simpl. by rewrite !text_chars.
Qed.

Lemma ps_quote_reads_back_witness :
  read_literal (ps_quote "O'Brien's $x; `calc`" ++ ") | Out-Null") = Some ("O'Brien's $x; `calc`", ") | Out-Null").
Proof. apply ps_quote_reads_back; by vm_compute. Defined.
