(* ===== verification/Effects.v ===== *)
(** * Running a job: the effect monad

    [app/workers/context.py], [app/workers/events.py] and the effects of a
    pipeline run: the job row in the worker's database session and in the
    database, the audit trail, notifications, events, metrics, the outside
    world, and the delivery of asyncio cancellation at awaits.

    Every await is a point where the event loop may deliver a pending
    cancellation instead of the result.  A pending [Interrupt] says after how
    many further awaits it strikes and whether the operation in flight still
    takes effect.  Handlers never catch it ([CancelledError] is no
    [Exception]). *)

From Stdlib Require Import ZArith Lia Ascii String List Bool.
From stdpp Require Import base tactics list strings gmap.
From S2P Require Import Prelude PyStr Errors Schemas Jobs AuditTrail.

Local Open Scope string_scope.
Local Open Scope Z_scope.

(** ** Exceptions *)

Inductive InterruptKind := Timeout | UserCancel | Shutdown.

#[export] Instance InterruptKind_eq_dec : EqDecision InterruptKind.
Proof. solve_decision. Defined.

Inductive Exc :=
| InfraOperationError (e : InfraError)
| TimeoutError
| OtherException (name message : string)
| Cancelled (k : InterruptKind).

Inductive Outcome (A : Type) :=
| Return (a : A)
| Raise (e : Exc).
Arguments Return {A} a.
Arguments Raise {A} e.

Definition is_return {A} (o : Outcome A) : bool := match o with Return _ => true | Raise _ => false end.

(** ** Value objects of the collaborators *)

(** [services/vmware/base.py] *)
Record VCenterTarget := MkTarget {
  target_id : string;
  target_name : string;
  target_host : string;
  target_port : Z;
  username_secret_ref : string;
  password_secret_ref : string;
  verify_ssl : bool;
}.
Record VmRef := MkVmRef { ref_id : string; ref_name : string }.
Record VmOwnership := MkOwnership { owner_vm_id : string; owner_vm_name : string; owner_job_id : option string }.

Record PowerStateInfo := MkInfo {
  power_state : string;
  tools_status : option string;
  tools_running_status : option string;
  tools_version_status : option string;
  guest_operations_ready : bool;
  guest_family : option string;
  ip_addresses : list string;
  guest_host_name : option string;
  cpu_usage_mhz : option Z;
  cpu_capacity_mhz : option Z;
}.

Record VmCreateSpec := MkCreateSpec {
  cs_vm_name : string;
  cs_datacenter_id : string;
  cs_iso_id : string;
  cs_os_disk : DiskSpec;
  cs_description : string;
  cs_cluster_id : string;
  cs_host_id : option string;
  cs_resource_pool_id : option string;
  cs_datastore_id : option string;
  cs_cpu : Z;
  cs_memory_mb : Z;
  cs_firmware : FirmwareType;
  cs_secure_boot : bool;
  cs_job_id : option string;
}.

(** [services/guest/base.py] *)
Record GuestCredentials := MkCredentials { cred_username : string; cred_password : string }.
Record CommandResult := MkResult { exit_code : Z; stdout : string; stderr : string }.
Definition succeeded (r : CommandResult) : bool := exit_code r =? 0.

(** [workers/events.py]: [make_event] without extra fields. *)
Record Event := MkEvent {
  event_job_id : string;
  event_stage : option string;
  event_status : string;
  event_progress : Z;
  event_message : string;
}.

Definition make_event (job_id : string) (stage : option string) (status : string) (progress : Z)
    (message : string) : Event := MkEvent job_id stage status progress message.

Definition job_channel (job_id : string) : string := "infraops:job-events:" ++ job_id.

(** A metric increment: counter name and label value. *)
Inductive Metric :=
| JobsTotal (status : string)
| StageFailures (stage : string)
| JobDuration (d : Z)
| AppInstallFailures (application : string).

(** ** State of a run *)

(** What the worker's session holds, and what is committed. *)
Record Session := MkSession {
  job : Job;
  audit_log : list AuditEvent;
  notifications : list Notification;
}.

#[export] Instance eta_session : Eta Session := fun s =>
  MkSession (job s) (audit_log s) (notifications s).

Record Interrupt := MkInterrupt { after_awaits : nat; interrupt_kind : InterruptKind; in_flight_lands : bool }.

(** [db_cancel] is the [cancel_requested] column, which only API requests
    write; [cancel_arrivals] says per refresh of the row whether such a request
    was committed since the last one; [interrupts] holds per started handler
    what will interrupt it.  [commits] is a ghost: the rows of the job the run
    has committed, oldest first. *)
Record Run (X : Type) := MkRun {
  session : Session;
  stored : Session;
  vm_ref : option VmRef;
  reboot_required : bool;
  hostname_changed : bool;
  db_cancel : bool;
  cancel_arrivals : list bool;
  interrupts : list (option Interrupt);
  pending : option Interrupt;
  metrics : list Metric;
  published : list Event;
  commits : list Job;
  world : X;
}.
Arguments MkRun {X} _ _ _ _ _ _ _ _ _ _ _ _ _.
Arguments db_cancel {X} _.
Arguments session {X} _.
Arguments stored {X} _.
Arguments vm_ref {X} _.
Arguments reboot_required {X} _.
Arguments hostname_changed {X} _.
Arguments cancel_arrivals {X} _.
Arguments interrupts {X} _.
Arguments pending {X} _.
Arguments metrics {X} _.
Arguments published {X} _.
Arguments commits {X} _.
Arguments world {X} _.

#[export] Instance eta_run {X} : Eta (Run X) := fun r =>
  MkRun (session r) (stored r) (vm_ref r) (reboot_required r) (hostname_changed r)
    (db_cancel r) (cancel_arrivals r) (interrupts r) (pending r) (metrics r) (published r)
    (commits r) (world r).

(** The constant part of [JobRunContext]. *)
Record Ctx := MkCtx {
  request : ProvisioningRequest;
  target : VCenterTarget;
  actor_username : option string;
}.

(** An operation of a collaborator: it answers or raises an exception of its
    own (cancellation comes from the event loop only) and changes the world. *)
Inductive Fault :=
| InfraFault (e : InfraError)
| TimeoutFault
| OtherFault (name message : string).

Definition Op (X A : Type) : Type := X -> res Fault A * X.

Definition raised (e : Fault) : Exc :=
  match e with
  | InfraFault e => InfraOperationError e
  | TimeoutFault => TimeoutError
  | OtherFault n m => OtherException n m
  end.

Definition outcome_of {A} (o : res Fault A) : Outcome A :=
  match o with Ok a => Return a | Err e => Raise (raised e) end.

Definition M (X A : Type) : Type := Run X -> Outcome A * Run X.

Definition ret {X A} (a : A) : M X A := fun r => (Return a, r).
Definition throw {X A} (e : Exc) : M X A := fun r => (Raise e, r).
Definition fail {X A} (e : InfraError) : M X A := throw (InfraOperationError e).
Definition bind {X A B} (m : M X A) (k : A -> M X B) : M X B := fun r =>
  match m r with
  | (Return a, r1) => k a r1
  | (Raise e, r1) => (Raise e, r1)
  end.

Notation "'let*' x ':=' m 'in' k" := (bind m (fun x => k))
  (at level 10, x binder, m at level 100, k at level 200) : infra_scope.
Notation "m ;; k" := (bind m (fun _ => k)) (at level 100, k at level 200, right associativity) : infra_scope.

Definition get {X} : M X (Run X) := fun r => (Return r, r).
Definition modify {X} (f : Run X -> Run X) : M X unit := fun r => (Return tt, f r).

(** [try: m except InfraOperationError as exc: h(exc)] *)
Definition catch_infra {X A} (m : M X A) (h : InfraError -> M X A) : M X A := fun r =>
  match m r with
  | (Raise (InfraOperationError e), r1) => h e r1
  | o => o
  end.

(** [try: m except Exception as exc: h(exc)]: a cancellation passes through. *)
Definition catch_exception {X A} (m : M X A) (h : Exc -> M X A) : M X A := fun r =>
  match m r with
  | (Raise (Cancelled k), r1) => (Raise (Cancelled k), r1)
  | (Raise e, r1) => h e r1
  | o => o
  end.

(** [await] of an effect on the run. *)
Definition await {X A} (m : M X A) : M X A := fun r =>
  match pending r with
  | None => m r
  | Some i =>
      match after_awaits i with
      | S n => m (r <| pending := Some (MkInterrupt n (interrupt_kind i) (in_flight_lands i)) |>)
      | O =>
          let r1 := r <| pending := None |> in
          (Raise (Cancelled (interrupt_kind i)), if in_flight_lands i then snd (m r1) else r1)
      end
  end.

(** [await] of an operation of a collaborator. *)
Definition call {X A} (op : Op X A) : M X A :=
  await (fun r => let '(o, x) := op (world r) in (outcome_of o, r <| world := x |>)).

(** A synchronous operation of a collaborator: no await, no cancellation. *)
Definition draw {X A} (op : Op X A) : M X A := fun r =>
  let '(o, x) := op (world r) in (outcome_of o, r <| world := x |>).

(** The two halves of [try: m finally: ...]: run [m] and keep how it ended;
    raise again what was kept. *)
Definition attempt_to {X A} (m : M X A) : M X (Outcome A) := fun r => let '(o, r1) := m r in (Return o, r1).
Definition reraise {X A} (o : Outcome A) : M X A := fun r => (o, r).

(** ** Database effects *)

(** A commit that is not cancelled succeeds: a database that fails under the
    worker, whose exception escapes from [execute], is not modelled. *)
Definition commit {X} : M X unit :=
  await (modify (fun r => r <| stored := session r |> <| commits := (commits r ++ [job (session r)])%list |>)).

Definition get_job {X} : M X Job := fun r => (Return (job (session r)), r).
Definition set_job {X} (f : Job -> Job) : M X unit :=
  modify (fun r => r <| session := (session r) <| job := f (job (session r)) |> |>).

(** [db.add(row); await db.flush()] of an audit row. *)
Definition record_audit {X} (e : AuditEvent) : M X unit :=
  await (modify (fun r => r <| session := (session r) <| audit_log := (audit_log (session r) ++ [e])%list |> |>)).

Definition notify {X} (l : list Notification) : M X unit :=
  modify (fun r => r <| session := (session r) <| notifications := (notifications (session r) ++ l)%list |> |>).

(** [await db.refresh(job)]: reads the cancellation flag of the row. *)
Definition refresh_run {X} (r : Run X) : Run X :=
  let flag := db_cancel r || match cancel_arrivals r with b :: _ => b | [] => false end in
  r <| db_cancel := flag |> <| cancel_arrivals := tl (cancel_arrivals r) |>
    <| session := (session r) <| job := (job (session r)) <| cancel_requested := flag |> |> |>.

Definition refresh {X} : M X unit := await (modify refresh_run).

Definition measure {X} (m : Metric) : M X unit := modify (fun r => r <| metrics := (metrics r ++ [m])%list |>).

(** [publish_stage]: delivery failures are swallowed by the publisher. *)
Definition publish_stage {X} (stage : option string) (status : string) (message : string) : M X unit :=
  await (modify (fun r => let j := job (session r) in
    r <| published := (published r ++ [make_event (job_id j) stage status (progress j) message])%list |>)).

(** Access to the steps of the job in the session. *)
Definition get_step {X} (k : string) : M X (option Step) := fun r => (Return (step_of (job (session r)) k), r).
Definition set_step {X} (k : string) (f : Step -> Step) : M X unit := set_job (update_step k f).

(** The artifacts of the step with key [k]; empty without the step. *)
Definition get_artifacts {X} (k : string) : M X (gmap string json) := fun r =>
  (Return (match step_of (job (session r)) k with Some s => artifacts s | None => ∅ end), r).

(** ** What a stage may not touch

    [status_view] is the part of a job row the pipeline, the queue and its
    indexes decide on.  A stage leaves it alone in the session, so that it also
    is in every row it commits. *)

Definition index_keys (j : Job) : string * string * option string * option string :=
  (job_id j, vm_name j, reserved_ipv4 j, idempotency_key j).

Definition status_view (j : Job)
    : list (string * StepStatus * Z) * JobStatus * option string * (string * string * option string * option string) :=
  (skeleton j, job_status j, worker_id j, index_keys j).

(** The commits from one run to a later one, each with the property [P]. *)
Definition committed {X} (P : Job -> Prop) (r r' : Run X) : Prop :=
  exists l, commits r' = (commits r ++ l)%list /\ Forall P l /\ job (stored r') = List.last l (job (stored r)).

Lemma committed_none {X} P (r r' : Run X) :
  commits r' = commits r -> job (stored r') = job (stored r) -> committed P r r'.
Proof. intros E S. exists []. by rewrite app_nil_r. Qed.

Lemma committed_trans {X} P (a b c : Run X) : committed P a b -> committed P b c -> committed P a c.
Proof.
  intros (l & L1 & L2 & L3) (m & M1 & M2 & M3). exists (l ++ m)%list.
  split_and!; [by rewrite M1, L1, app_assoc|by apply Forall_app|by rewrite M3, L3, last_app].
Qed.

Lemma committed_mono {X} (P Q : Job -> Prop) (r r' : Run X) :
  (forall j, P j -> Q j) -> committed P r r' -> committed Q r r'.
Proof. intros H (l & L1 & L2 & L3). exists l. split_and!; [done|by eapply Forall_impl|done]. Qed.

Record frame {X} (r r' : Run X) : Prop := MkFrame {
  frame_session : status_view (job (session r')) = status_view (job (session r));
  frame_commits : committed (fun j => status_view j = status_view (job (session r))) r r';
  frame_cancel : db_cancel r' = db_cancel r;
  frame_arrivals : cancel_arrivals r' = cancel_arrivals r;
  frame_interrupts : interrupts r' = interrupts r;
}.

#[export] Hint Resolve committed_none : infra.

Lemma frame_refl {X} (r : Run X) : frame r r.
Proof. constructor; auto with infra. Qed.

Lemma frame_trans {X} (a b c : Run X) : frame a b -> frame b c -> frame a c.
Proof.
  intros [A1 A2 A3 A4 A5] [B1 B2 B3 B4 B5]. constructor; try congruence.
  eapply committed_trans; [exact A2|]. eapply committed_mono; [|exact B2]. by intros j ->.
Qed.

Definition frames {X A} (m : M X A) : Prop := forall r, frame r (snd (m r)).

Section Frames.
Context {X : Type}.

Lemma frames_ret {A} (a : A) : frames (X := X) (ret a).
Proof. intros r. apply frame_refl. Qed.

Lemma frames_throw {A} (e : Exc) : frames (X := X) (throw (A := A) e).
Proof. intros r. apply frame_refl. Qed.

Lemma frames_fail {A} e : frames (X := X) (fail (A := A) e).
Proof. apply frames_throw. Qed.

Lemma frames_bind {A B} (m : M X A) (k : A -> M X B) :
  frames m -> (forall a, frames (k a)) -> frames (bind m k).
Proof.
  intros Hm Hk r. unfold bind. specialize (Hm r). destruct (m r) as [[a|e] r1]; simpl in *; [|done].
  eapply frame_trans; [exact Hm|apply Hk].
Qed.

Lemma frames_await {A} (m : M X A) : frames m -> frames (await m).
Proof.
  intros Hm r. unfold await. destruct (pending r) as [[[|n] k b]|]; simpl; [| |apply Hm].
  - destruct b; [|constructor; auto with infra]. eapply frame_trans; [|apply Hm]. constructor; auto with infra.
  - eapply frame_trans; [|apply Hm]. constructor; auto with infra.
Qed.

Lemma frames_call {A} (op : Op X A) : frames (call op).
Proof. apply frames_await. intros r. destruct (op (world r)) as [o x]. constructor; auto with infra. Qed.

Lemma frames_draw {A} (op : Op X A) : frames (draw op).
Proof. intros r. unfold draw. destruct (op (world r)) as [o x]. constructor; auto with infra. Qed.

Lemma frames_attempt_to {A} (m : M X A) : frames m -> frames (attempt_to m).
Proof. intros H r. unfold attempt_to. specialize (H r). by destruct (m r). Qed.

Lemma frames_reraise {A} (o : Outcome A) : frames (X := X) (reraise o).
Proof. intros r. apply frame_refl. Qed.

Lemma frames_catch_infra {A} (m : M X A) h : frames m -> (forall e, frames (h e)) -> frames (catch_infra m h).
Proof.
  intros Hm Hh r. unfold catch_infra. specialize (Hm r). destruct (m r) as [[a|[e| | |]] r1]; simpl in *; try done.
  eapply frame_trans; [exact Hm|apply Hh].
Qed.

Lemma frames_catch_exception {A} (m : M X A) h :
  frames m -> (forall e, frames (h e)) -> frames (catch_exception m h).
Proof.
  intros Hm Hh r. unfold catch_exception. specialize (Hm r).
  destruct (m r) as [[a|[e| | |]] r1]; simpl in *; try done; (eapply frame_trans; [exact Hm|apply Hh]).
Qed.

Lemma frames_modify (f : Run X -> Run X) : (forall r, frame r (f r)) -> frames (modify f).
Proof. intros H r. apply H. Qed.

Lemma frames_commit : frames (X := X) commit.
Proof. apply frames_await. intros r. constructor; auto. exists [job (session r)]. simpl. auto. Qed.

Lemma frames_get : frames (X := X) get.
Proof. intros r. apply frame_refl. Qed.

Lemma frames_get_job : frames (X := X) get_job.
Proof. intros r. apply frame_refl. Qed.

Lemma frames_get_step k : frames (X := X) (get_step k).
Proof. intros r. apply frame_refl. Qed.

Lemma frames_get_artifacts k : frames (X := X) (get_artifacts k).
Proof. intros r. apply frame_refl. Qed.

Lemma frames_set_job (f : Job -> Job) :
  (forall j, status_view (f j) = status_view j) -> frames (X := X) (set_job f).
Proof. intros H r. constructor; simpl; auto with infra. Qed.

Lemma frames_set_step k (f : Step -> Step) :
  (forall s, skeleton_step (f s) = skeleton_step s) -> frames (X := X) (set_step k f).
Proof. intros H. apply frames_set_job. intros j. unfold status_view. by rewrite update_step_skeleton. Qed.

Lemma frames_record_audit e : frames (X := X) (record_audit e).
Proof. apply frames_await. intros r. constructor; simpl; auto with infra. Qed.

Lemma frames_notify l : frames (X := X) (notify l).
Proof. intros r. constructor; simpl; auto with infra. Qed.

Lemma frames_measure m : frames (X := X) (measure m).
Proof. intros r. constructor; simpl; auto with infra. Qed.

Lemma frames_publish s st msg : frames (X := X) (publish_stage s st msg).
Proof. apply frames_await. intros r. constructor; simpl; auto with infra. Qed.

End Frames.

#[export] Hint Resolve frames_ret frames_throw frames_fail frames_bind frames_await frames_call
  frames_draw frames_attempt_to frames_reraise
  frames_catch_infra frames_catch_exception frames_commit frames_get frames_get_job frames_get_step
  frames_get_artifacts frames_record_audit frames_notify frames_measure frames_publish : infra.

(** Decide [frames] by the shape of a monadic term. *)
Ltac frames_step :=
  lazymatch goal with
  | |- frames (bind _ _) => apply frames_bind
  | |- frames (ret _) => apply frames_ret
  | |- frames (throw _) => apply frames_throw
  | |- frames (fail _) => apply frames_fail
  | |- frames (call _) => apply frames_call
  | |- frames (draw _) => apply frames_draw
  | |- frames (attempt_to _) => apply frames_attempt_to
  | |- frames (reraise _) => apply frames_reraise
  | |- frames commit => apply frames_commit
  | |- frames get_job => apply frames_get_job
  | |- frames (get_step _) => apply frames_get_step
  | |- frames (record_audit _) => apply frames_record_audit
  | |- frames (measure _) => apply frames_measure
  | |- frames (catch_infra _ _) => apply frames_catch_infra
  | |- frames (catch_exception _ _) => apply frames_catch_exception
  | |- frames (set_step _ _) => apply frames_set_step; intros; reflexivity
  | |- frames (set_job _) => apply frames_set_job; intros; reflexivity
  | |- frames (modify _) => apply frames_modify; intros; constructor; simpl; auto with infra
  | |- frames (match ?x with _ => _ end) => destruct x
  | |- frames (let _ := _ in _) => cbn zeta
  | |- frames _ => solve [auto 2 with infra nocore]
  | |- forall _, _ => intros
  end.

Ltac solve_frames := repeat first [ frames_step | assumption ].

(** ** Reasoning about runs

    [wp m Q r]: running [m] from [r] ends in an outcome and a run that
    satisfy [Q].  The pipeline's theorems speak of the [core] of a run: the
    job in the session, the committed job, and the cancellation flag. *)

Definition wp {X A} (m : M X A) (Q : Outcome A -> Run X -> Prop) (r : Run X) : Prop := Q (fst (m r)) (snd (m r)).

Definition core {X} (r : Run X) : Job * Job * bool := (job (session r), job (stored r), db_cancel r).

(** Effects that leave the core alone and raise nothing but cancellations. *)
Definition quiet {X A} (m : M X A) : Prop :=
  forall r, core (snd (m r)) = core r /\ (forall e, fst (m r) = Raise e -> exists k, e = Cancelled k).

Section Wp.
Context {X : Type}.
Implicit Types r : Run X.

Lemma wp_ret {A} (a : A) Q r : Q (Return a) r -> wp (ret a) Q r.
Proof. done. Qed.

Lemma wp_bind {A B} (m : M X A) (k : A -> M X B) Q r :
  wp m (fun o r1 => match o with Return a => wp (k a) Q r1 | Raise e => Q (Raise e) r1 end) r ->
  wp (bind m k) Q r.
Proof. unfold wp, bind. by destruct (m r) as [[a|e] r1]. Qed.

Lemma wp_mono {A} (m : M X A) (P Q : Outcome A -> Run X -> Prop) r :
  wp m P r -> (forall o r', P o r' -> Q o r') -> wp m Q r.
Proof. unfold wp. auto. Qed.

Lemma wp_quiet {A} (m : M X A) Q r :
  quiet m ->
  (forall a r', core r' = core r -> Q (Return a) r') ->
  (forall k r', core r' = core r -> Q (Raise (Cancelled k)) r') ->
  wp m Q r.
Proof.
  intros Hm H1 H2. unfold wp. destruct (Hm r) as [Hc He]. destruct (m r) as [[a|e] r']; simpl in *; [by apply H1|].
  destruct (He e eq_refl) as [k ->]. by apply H2.
Qed.

Lemma wp_get_job Q r : Q (Return (job (session r))) r -> wp get_job Q r.
Proof. done. Qed.

Lemma wp_get_step k Q r : Q (Return (step_of (job (session r)) k)) r -> wp (get_step k) Q r.
Proof. done. Qed.

Lemma wp_set_job (f : Job -> Job) Q r :
  (forall r', core r' = (f (job (session r)), job (stored r), db_cancel r) -> Q (Return tt) r') ->
  wp (set_job f) Q r.
Proof. intros H. by apply H. Qed.

Lemma wp_await_modify (f : Run X -> Run X) Q r :
  (forall p, Q (Return tt) (f (r <| pending := p |>))) ->
  (forall k p, Q (Raise (Cancelled k)) (r <| pending := p |>)) ->
  (forall k p, Q (Raise (Cancelled k)) (f (r <| pending := p |>))) ->
  wp (await (modify f)) Q r.
Proof.
  intros H1 H2 H3. unfold wp, await. destruct (pending r) as [[[|n] k b]|] eqn:E; simpl.
  - destruct b; [apply (H3 k None)|apply (H2 k None)].
  - apply (H1 (Some (MkInterrupt n k b))).
  - specialize (H1 (pending r)). by destruct r.
Qed.

Lemma wp_commit Q r :
  (forall r', core r' = (job (session r), job (session r), db_cancel r) -> Q (Return tt) r') ->
  (forall k r', job (session r') = job (session r) -> db_cancel r' = db_cancel r ->
     (job (stored r') = job (stored r) \/ job (stored r') = job (session r)) -> Q (Raise (Cancelled k)) r') ->
  wp commit Q r.
Proof. intros H1 H2. apply wp_await_modify; intros; [by apply H1|apply H2; auto|apply H2; auto]. Qed.

Lemma wp_refresh Q r :
  (forall b r', (db_cancel r = true -> b = true) ->
     core r' = ((job (session r)) <| cancel_requested := b |>, job (stored r), b) -> Q (Return tt) r') ->
  (forall k r', core r' = core r \/ (exists b, (db_cancel r = true -> b = true) /\
        core r' = ((job (session r)) <| cancel_requested := b |>, job (stored r), b)) ->
     Q (Raise (Cancelled k)) r') ->
  wp refresh Q r.
Proof.
  intros H1 H2. apply wp_await_modify.
  - intros p. eapply H1; [|reflexivity]. simpl. by intros ->.
  - intros k p. apply H2. by left.
  - intros k p. apply H2. right. eexists. split; [|reflexivity]. simpl. by intros ->.
Qed.

Lemma quiet_ret {A} (a : A) : quiet (X := X) (ret a).
Proof. intros r. split; [done|]. discriminate. Qed.

Lemma quiet_await {A} (m : M X A) : quiet m -> quiet (await m).
Proof.
  intros Hm r. unfold await. destruct (pending r) as [[[|n] k b]|]; simpl.
  - split; [destruct b; [|done]|by intros e [= <-]; eauto].
    pose proof (Hm (r <| pending := None |>)) as [E _]. exact E.
  - pose proof (Hm (r <| pending := Some (MkInterrupt n k b) |>)) as E. exact E.
  - apply Hm.
Qed.

Lemma quiet_bind {A B} (m : M X A) (k : A -> M X B) : quiet m -> (forall a, quiet (k a)) -> quiet (bind m k).
Proof.
  intros Hm Hk r. unfold bind. destruct (Hm r) as [Hc He]. destruct (m r) as [[a|e] r1]; simpl in *.
  - destruct (Hk a r1) as [Hc' He']. by rewrite Hc'.
  - split; [done|]. intros e' [= <-]. by apply He.
Qed.

Lemma quiet_modify (f : Run X -> Run X) : (forall r, core (f r) = core r) -> quiet (modify f).
Proof. intros H r. split; [apply H|]. discriminate. Qed.

Lemma quiet_record_audit e : quiet (X := X) (record_audit e).
Proof. apply quiet_await, quiet_modify. done. Qed.
Lemma quiet_notify l : quiet (X := X) (notify l).
Proof. by apply quiet_modify. Qed.
Lemma quiet_measure m : quiet (X := X) (measure m).
Proof. by apply quiet_modify. Qed.
Lemma quiet_publish s st msg : quiet (X := X) (publish_stage s st msg).
Proof. apply quiet_await, quiet_modify. done. Qed.
Lemma quiet_get_job : quiet (X := X) get_job.
Proof. intros r. split; [done|]. discriminate. Qed.
Lemma quiet_get_step k : quiet (X := X) (get_step k).
Proof. intros r. split; [done|]. discriminate. Qed.
Lemma quiet_get_artifacts k : quiet (X := X) (get_artifacts k).
Proof. intros r. split; [done|]. discriminate. Qed.

(** Effects that leave the core alone, whatever they raise. *)
Definition steady {A} (m : M X A) : Prop := forall r, core (snd (m r)) = core r.

Lemma steady_await {A} (m : M X A) : steady m -> steady (await m).
Proof.
  intros Hm r. unfold await. destruct (pending r) as [[[|n] k b]|]; simpl; [destruct b; [|done]| |apply Hm].
  - pose proof (Hm (r <| pending := None |>)) as E. exact E.
  - pose proof (Hm (r <| pending := Some (MkInterrupt n k b) |>)) as E. exact E.
Qed.

Lemma steady_call {A} (op : Op X A) : steady (call op).
Proof. apply steady_await. intros r. by destruct (op (world r)). Qed.

Lemma steady_bind {A B} (m : M X A) (k : A -> M X B) : steady m -> (forall a, steady (k a)) -> steady (bind m k).
Proof.
  intros Hm Hk r. unfold bind. specialize (Hm r). destruct (m r) as [[a|e] r1]; simpl in *; [|done].
  by rewrite Hk.
Qed.

Lemma steady_quiet {A} (m : M X A) : quiet m -> steady m.
Proof. intros H r. apply H. Qed.

Lemma quiet_caught {A} (m : M X A) h : steady m -> (forall e, quiet (h e)) -> quiet (catch_exception m h).
Proof.
  intros Hm Hh r. unfold catch_exception. specialize (Hm r).
  destruct (m r) as [[a|[e| |nm ms|k]] r1]; simpl in *; try (rewrite <- Hm; apply Hh).
  - split; [done|discriminate].
  - split; [done|]. intros e [= <-]. eauto.
Qed.

End Wp.

(** ** Undisturbed runs

    Nothing is pending and nothing is going to interrupt a handler.  A [calm]
    effect keeps it so and raises no cancellation; a handler may still run
    into its own timeout ([t]). *)
Definition undisturbed {X} (r : Run X) : Prop := pending r = None /\ Forall (fun i => i = None) (interrupts r).

Definition calm {X A} (t : bool) (m : M X A) : Prop := forall r, undisturbed r ->
  undisturbed (snd (m r)) /\ (forall k, fst (m r) = Raise (Cancelled k) -> t = true /\ k = Timeout).

Section Calm.
Context {X : Type} (t : bool).

Lemma calm_ret {A} (a : A) : calm (X := X) t (ret a).
Proof. intros r Hr. split; [done|discriminate]. Qed.

Lemma calm_throw {A} e : match e with Cancelled _ => False | _ => True end -> calm (X := X) t (throw (A := A) e).
Proof. intros He r Hr. split; [done|]. intros k [= ->]. done. Qed.

Lemma calm_fail {A} e : calm (X := X) t (fail (A := A) e).
Proof. by apply calm_throw. Qed.

Lemma calm_bind {A B} (m : M X A) (k : A -> M X B) : calm t m -> (forall a, calm t (k a)) -> calm t (bind m k).
Proof.
  intros Hm Hk r Hr. unfold bind. destruct (Hm r Hr) as [H1 H2]. destruct (m r) as [[a|e] r1]; simpl in *.
  - by apply Hk.
  - split; [done|]. intros k' [= ->]. by apply H2.
Qed.

Lemma calm_await {A} (m : M X A) : calm t m -> calm t (await m).
Proof. intros Hm r Hr. unfold await. destruct Hr as [H1 H2]. rewrite H1. by apply Hm. Qed.

Lemma calm_modify (f : Run X -> Run X) : (forall r, undisturbed r -> undisturbed (f r)) -> calm t (modify f).
Proof. intros Hf r Hr. split; [by apply Hf|discriminate]. Qed.

Lemma calm_call {A} (op : Op X A) : calm t (call op).
Proof.
  apply calm_await. intros r Hr. destruct (op (world r)) as [[a|e] x]; simpl; (split; [done|]).
  - discriminate.
  - intros k [= E]. by destruct e.
Qed.

Lemma calm_draw {A} (op : Op X A) : calm t (draw op).
Proof.
  intros r Hr. unfold draw. destruct (op (world r)) as [[a|e] x]; simpl; (split; [done|]); [discriminate|].
  intros k [= E]. by destruct e.
Qed.

(** What may be raised again without disturbing the run. *)
Definition calm_outcome {A} (o : Outcome A) : Prop := forall k, o = Raise (Cancelled k) -> t = true /\ k = Timeout.

Lemma calm_attempt_to {A B} (m : M X A) (k : Outcome A -> M X B) :
  calm t m -> (forall o, calm_outcome o -> calm t (k o)) -> calm t (bind (attempt_to m) k).
Proof.
  intros Hm Hk r Hr. unfold bind, attempt_to. destruct (Hm r Hr) as [H1 H2]. destruct (m r) as [o r1]. simpl in *.
  apply Hk; [exact H2|done].
Qed.

Lemma calm_reraise {A} (o : Outcome A) : calm_outcome o -> calm (X := X) t (reraise o).
Proof. intros Ho r Hr. split; [done|exact Ho]. Qed.

Lemma calm_catch_infra {A} (m : M X A) h : calm t m -> (forall e, calm t (h e)) -> calm t (catch_infra m h).
Proof.
  intros Hm Hh r Hr. unfold catch_infra. destruct (Hm r Hr) as [H1 H2].
  destruct (m r) as [[a|[e| | |]] r1]; simpl in *; try done. by apply Hh.
Qed.

Definition ordinary (e : Exc) : Prop := match e with Cancelled _ => False | _ => True end.

Lemma calm_catch_exception {A} (m : M X A) h :
  calm t m -> (forall e, ordinary e -> calm t (h e)) -> calm t (catch_exception m h).
Proof.
  intros Hm Hh r Hr. unfold catch_exception. destruct (Hm r Hr) as [H1 H2].
  destruct (m r) as [[a|[e| |n s|k]] r1]; simpl in *; try (by apply Hh).
  - split; [done|discriminate].
  - split; [done|]. intros k' [= ->]. by apply H2.
Qed.

Lemma calm_commit : calm (X := X) t commit.
Proof. by apply calm_await, calm_modify. Qed.
Lemma calm_refresh : calm (X := X) t refresh.
Proof. by apply calm_await, calm_modify. Qed.
Lemma calm_get : calm (X := X) t get.
Proof. intros r Hr. split; [done|discriminate]. Qed.
Lemma calm_get_job : calm (X := X) t get_job.
Proof. intros r Hr. split; [done|discriminate]. Qed.
Lemma calm_get_step k : calm (X := X) t (get_step k).
Proof. intros r Hr. split; [done|discriminate]. Qed.
Lemma calm_get_artifacts k : calm (X := X) t (get_artifacts k).
Proof. intros r Hr. split; [done|discriminate]. Qed.
Lemma calm_set_job f : calm (X := X) t (set_job f).
Proof. by apply calm_modify. Qed.
Lemma calm_set_step k f : calm (X := X) t (set_step k f).
Proof. apply calm_set_job. Qed.
Lemma calm_record_audit e : calm (X := X) t (record_audit e).
Proof. by apply calm_await, calm_modify. Qed.
Lemma calm_notify l : calm (X := X) t (notify l).
Proof. by apply calm_modify. Qed.
Lemma calm_measure m : calm (X := X) t (measure m).
Proof. by apply calm_modify. Qed.
Lemma calm_publish s st msg : calm (X := X) t (publish_stage s st msg).
Proof. by apply calm_await, calm_modify. Qed.

End Calm.

(** A stage that runs into its own time limit. *)
Lemma calm_timeout {X A} : calm (X := X) true (throw (A := A) (Cancelled Timeout)).
Proof. intros r Hr. split; [done|]. by intros k [= <-]. Qed.

#[export] Hint Resolve calm_timeout calm_ret calm_fail calm_call calm_draw calm_commit calm_refresh calm_get calm_get_job calm_get_step
  calm_get_artifacts calm_set_job calm_set_step calm_record_audit calm_notify calm_measure calm_publish : infra.

(** Decide [calm] by the shape of a monadic term. *)
Ltac calm_step :=
  lazymatch goal with
  | |- calm _ (bind _ _) => apply calm_bind
  | |- calm _ (ret _) => apply calm_ret
  | |- calm true (throw (Cancelled Timeout)) => apply calm_timeout
  | |- calm _ (throw _) => apply calm_throw; first [exact I | assumption]
  | |- calm _ (catch_infra _ _) => apply calm_catch_infra
  | |- calm _ (catch_exception _ _) => apply calm_catch_exception
  | |- calm _ (match ?x with _ => _ end) => destruct x
  | |- calm _ (let _ := _ in _) => cbn zeta
  | |- calm _ _ => solve [auto 2 with infra nocore]
  | |- forall _, _ => intros
  end.

Ltac solve_calm := repeat first [ calm_step | assumption ].

(** The run was not disturbed and ended in no cancellation, not even one of
    its own. *)
Definition at_ease {X A} (o : Outcome A) (r : Run X) : Prop := undisturbed r /\ forall k, o <> Raise (Cancelled k).

Section AtEase.
Context {X : Type}.

Lemma calm_at_ease {A} (m : M X A) : calm false m <-> forall r, undisturbed r -> wp m at_ease r.
Proof.
  split; intros C r U; destruct (C r U) as [V D]; (split; [exact V|]).
  - intros k E. by destruct (D k E).
  - intros k E. by destruct (D k).
Qed.

Lemma at_ease_bind {A B} (m : M X A) (k : A -> M X B) r :
  wp m at_ease r -> (forall a, fst (m r) = Return a -> wp (k a) at_ease (snd (m r))) -> wp (bind m k) at_ease r.
Proof.
  intros [V D] K. unfold wp, bind. destruct (m r) as [[a|e] r1]; cbn in *; [by apply K|]. split; [done|].
  intros c [= ->]. by apply (D c).
Qed.

(** A value with a property goes on. *)
Lemma calm_bind_value {A B} (P : A -> Prop) (m : M X A) (k : A -> M X B) :
  calm false m -> (forall r a, fst (m r) = Return a -> P a) -> (forall a, P a -> calm false (k a)) -> calm false (bind m k).
Proof.
  rewrite !calm_at_ease. intros C V K r U. apply at_ease_bind; [by apply C|]. intros a E.
  apply calm_at_ease; [by eapply K, V|]. by apply C.
Qed.

End AtEase.

#[export] Hint Resolve quiet_ret quiet_bind quiet_record_audit quiet_notify quiet_measure quiet_publish
  quiet_get_job quiet_get_step quiet_get_artifacts steady_call steady_quiet quiet_caught : infra.
