(* ===== verification/Listing.v ===== *)
(** * Ordered, paginated lists

    What [ORDER BY], [OFFSET] and [LIMIT] do to the rows of a query, for the
    endpoints that show tables: an order by a comparison, pages, and how both
    commute with a restriction of the rows. *)

From Stdlib Require Import ZArith Lia List Bool Sorting.
From stdpp Require Import base tactics list.
From S2P Require Import Prelude.

Local Open Scope Z_scope.

Section Order.
Context {A : Type} (before : A -> A -> bool).

(** Rows that stand equal keep the order of the table. *)
Fixpoint insert_by (x : A) (l : list A) : list A :=
  match l with
  | [] => [x]
  | y :: r => if before x y then x :: l else y :: insert_by x r
  end.

Definition sort_by (l : list A) : list A := fold_right insert_by [] l.

Lemma insert_order_perm x l : insert_by x l ≡ₚ x :: l.
Proof. induction l as [|y l IH]; [done|]. cbn. destruct (before x y); [done|]. by rewrite IH, Permutation_swap. Qed.

Lemma sort_by_perm l : sort_by l ≡ₚ l.
Proof. induction l as [|x l IH]; [done|]. unfold sort_by in *. cbn. by rewrite insert_order_perm, IH. Qed.

(** The comparison is a total preorder. *)
Definition before_trans : Prop := forall x y z, before x y = true -> before y z = true -> before x z = true.
Definition before_total : Prop := forall x y, before x y = false -> before y x = true.

Definition ordered : list A -> Prop := StronglySorted (fun x y => before x y = true).

Lemma insert_by_ordered x l : before_trans -> before_total -> ordered l -> ordered (insert_by x l).
Proof.
  intros Tr To. induction 1 as [|y l S IH F]; cbn; [by repeat constructor|].
  destruct (before x y) eqn:E.
  - constructor; [by constructor|]. constructor; [done|]. eapply Forall_impl; [exact F|]. cbn. intros z. by apply Tr.
  - constructor; [done|]. eapply Permutation_Forall; [symmetry; apply insert_order_perm|]. constructor; [by apply To|done].
Qed.

Lemma sort_by_ordered l : before_trans -> before_total -> ordered (sort_by l).
Proof. intros Tr To. induction l as [|x l IH]; [constructor|]. by apply insert_by_ordered. Qed.

Lemma insert_by_filter (p : A -> bool) x l : before_trans -> ordered l ->
  List.filter p (insert_by x l) = if p x then insert_by x (List.filter p l) else List.filter p l.
Proof.
  intros Tr. induction 1 as [|y l S IH F]; cbn; [by destruct (p x)|].
  destruct (before x y) eqn:E; cbn.
  - destruct (p x), (p y); cbn; [by rewrite E| |done|done].
    assert (G : Forall (fun z => before x z = true) (List.filter p l)).
    { apply List.Forall_forall. intros z [I _]%List.filter_In. rewrite List.Forall_forall in F. eapply Tr; [exact E|by apply F]. }
    destruct G as [|z r Z _]; cbn; [done|by rewrite Z].
  - rewrite IH. destruct (p y), (p x); cbn; try rewrite E; done.
Qed.

(** Restricting the rows before or after they are put in order is the same. *)
Lemma sort_by_filter (p : A -> bool) l : before_trans -> before_total ->
  sort_by (List.filter p l) = List.filter p (sort_by l).
Proof.
  intros Tr To. induction l as [|x l IH]; [done|]. change (sort_by (x :: l)) with (insert_by x (sort_by l)).
  rewrite insert_by_filter by (done || by apply sort_by_ordered). cbn [List.filter]. rewrite <- IH. by destruct (p x).
Qed.

End Order.

Section Pages.
Context {A : Type}.

(** [.offset((page - 1) * page_size).limit(page_size)] *)
Definition page_of (page page_size : Z) (l : list A) : list A :=
  firstn (Z.to_nat page_size) (skipn (Z.to_nat ((page - 1) * page_size)) l).

Lemma page_of_elem page size (l : list A) x : x ∈ page_of page size l -> x ∈ l.
Proof.
  unfold page_of. set (m := Z.to_nat _). set (n := Z.to_nat _). intros I.
  rewrite <- (firstn_skipn n l), <- (firstn_skipn m (skipn n l)), !elem_of_app. auto.
Qed.

Lemma pages_concat (n : nat) (l : list A) k :
  List.concat (List.map (fun p => firstn n (skipn (p * n) l)) (seq 0 k)) = firstn (k * n) l.
Proof.
  revert l. induction k as [|k IH]; intros l; [done|]. rewrite seq_S, List.map_app, List.concat_app, IH. cbn [List.map List.concat plus].
  rewrite app_nil_r. replace (S k * n)%nat with (k * n + n)%nat by lia.
  rewrite <- (firstn_skipn (k * n) l) at 3. rewrite firstn_app.
  rewrite firstn_firstn, length_firstn. destruct (Nat.le_gt_cases (k * n) (List.length l)).
  - rewrite !Nat.min_r, !Nat.min_l by lia. do 2 f_equal. lia.
  - rewrite (List.skipn_all2 l) by lia. by rewrite !firstn_nil, Nat.min_r by lia.
Qed.

(** The pages of a list, one behind the other, are the list. *)
Lemma pages_of (size : Z) (l : list A) pages :
  0 < size -> Z.of_nat (List.length l) <= Z.of_nat pages * size ->
  List.concat (List.map (fun p => page_of (Z.of_nat p + 1) size l) (seq 0 pages)) = l.
Proof.
  intros S T. erewrite List.map_ext; [rewrite (pages_concat (Z.to_nat size)); apply List.firstn_all2; lia|].
  intros p. unfold page_of. do 2 f_equal. rewrite Z.add_simpl_r. lia.
Qed.

Lemma page_of_map {B} (f : A -> B) page size l :
  List.map f (page_of page size l) =
  firstn (Z.to_nat size) (skipn (Z.to_nat ((page - 1) * size)) (List.map f l)).
Proof. unfold page_of. by rewrite skipn_map, firstn_map. Qed.

End Pages.
