(* ===== verification/World.v ===== *)
(** * The collaborators of a run

    The interfaces the stages are written against: [VMwareService]
    ([app/services/vmware/base.py]), the abstract part of [GuestOperations]
    ([app/services/guest/base.py]), the secrets provider, the clock, and the
    tables a stage reads (platform settings, certificates, applications).
    An operation may answer anything, raise anything and change the world;
    every theorem about the stages holds for every instance. *)

From Stdlib Require Import ZArith Lia Ascii String List Bool.
From stdpp Require Import base tactics list strings gmap.
From S2P Require Import Prelude PyStr Errors Schemas Jobs AuditTrail Effects.

Local Open Scope string_scope.
Local Open Scope Z_scope.

(** ** Inventory ([app/schemas/infrastructure.py]); sizes in tenths of a gigabyte. *)

Record ConnectionTestResult := MkConn { conn_ok : bool; latency_ms : option Z; conn_detail : string }.
Record DatacenterOut := MkDatacenter { dc_id : string; dc_name : string }.
Record ClusterOut := MkCluster { cl_id : string; cl_name : string; drs_enabled : bool; hosts_count : Z }.
Record HostOut := MkHost {
  h_id : string;
  h_name : string;
  connection_state : string;
  maintenance_mode : bool;
  available_for_provisioning : bool;
}.
Record ResourcePoolOut := MkPool { rp_id : string; rp_name : string }.
Record DatastoreOut := MkDatastore { ds_id : string; ds_name : string; free_gb : Z; accessible : bool }.
(** Sizes in tenths. *)
Record DatastoreClusterOut := MkDatastoreCluster { dsc_id : string; dsc_name : string; dsc_capacity_gb : Z; dsc_free_gb : Z }.
Record NetworkOut := MkNetwork { net_id : string; net_name : string; net_type : string }.
Record IsoImageOut := MkIso {
  iso_image_id : string;
  iso_name : string;
  iso_datastore_id : string;
  iso_path : string;
  iso_datastore_name : string;
}.

(** Tenths in a gigabyte, and [f"{gb:.0f}"]: rounded half to even. *)
Definition TENTH : Z := 10.
Definition fmt_gb (t : Z) : string :=
  let q := t / 10 in
  let m := t mod 10 in
  str_int (if m <? 5 then q else if 5 <? m then q + 1 else if Z.even q then q else q + 1).

(** ** Rows of the catalog tables *)

Inductive CertificateType := ROOT_CERT | INTERMEDIATE_CERT.
Inductive InstallerType := MSI | EXE | POWERSHELL.
Inductive DetectionMethod := MSI_PRODUCT_CODE | REGISTRY_KEY | FILE_EXISTS | SERVICE_EXISTS | SCRIPT.

#[export] Instance CertificateType_eq_dec : EqDecision CertificateType.
Proof. solve_decision. Defined.
#[export] Instance InstallerType_eq_dec : EqDecision InstallerType.
Proof. solve_decision. Defined.

Record CertificateRow := MkCertificate {
  friendly_name : string;
  certificate_type : CertificateType;
  fingerprint_sha256 : string;
  pem_body : string;
  not_after : option Z;
  package_id : string;
  cert_enabled : bool;
  package_enabled : bool;
}.

Record ApplicationRow := MkApplication {
  app_id : string;
  app_name : string;
  installer_type : InstallerType;
  installer_path : string;
  install_arguments : string;
  detection_method : DetectionMethod;
  detection_config : gmap string json;
  timeout_seconds : Z;
  app_reboot_required : bool;
  app_enabled : bool;
  dependency_ids : list string;
}.

(** ** Interfaces *)

Class VMwareService (X : Type) := {
  test_connection : VCenterTarget -> Op X ConnectionTestResult;
  get_datacenters : VCenterTarget -> Op X (list DatacenterOut);
  get_clusters : VCenterTarget -> string -> Op X (list ClusterOut);
  get_hosts : VCenterTarget -> string -> Op X (list HostOut);
  get_resource_pools : VCenterTarget -> string -> Op X (list ResourcePoolOut);
  get_datastores : VCenterTarget -> string -> Op X (list DatastoreOut);
  get_datastore_clusters : VCenterTarget -> string -> Op X (list DatastoreClusterOut);
  get_networks : VCenterTarget -> string -> Op X (list NetworkOut);
  get_isos : VCenterTarget -> string -> Op X (list IsoImageOut);
  get_vm_info : VCenterTarget -> string -> Op X (option PowerStateInfo);
  get_vm_info_by_id : VCenterTarget -> string -> Op X (option PowerStateInfo);
  get_used_ips : VCenterTarget -> Op X (list (string * string));
  vm_exists : VCenterTarget -> string -> Op X bool;
  check_host_https : VCenterTarget -> list string -> Op X (list (string * option string));
  read_datastore_file : VCenterTarget -> string -> string -> Z -> Op X (list ascii);
  find_vm_ownership : VCenterTarget -> string -> Op X (option VmOwnership);
  create_vm : VCenterTarget -> VmCreateSpec -> Op X VmRef;
  configure_hardware : VCenterTarget -> string -> Z -> Z -> Op X unit;
  attach_network : VCenterTarget -> string -> string -> AdapterType -> string -> Op X unit;
  attach_answer_media : VCenterTarget -> string -> string -> option string -> string -> list ascii -> Op X string;
  remove_answer_media : VCenterTarget -> string -> string -> string -> Op X unit;
  power_on : VCenterTarget -> string -> Op X unit;
  reset : VCenterTarget -> string -> Op X unit;
  send_keystrokes : VCenterTarget -> string -> list Z -> Op X Z;
  detach_installation_media : VCenterTarget -> string -> Op X (list string);
  add_data_disks : VCenterTarget -> string -> list DiskSpec -> Op X Z;
  capture_screenshot : VCenterTarget -> string -> Op X string;
}.

(** The abstract part of [GuestOperations]: what the base class and the stages
    build on.  A program with its arguments and time limit; no caller passes a
    working directory.  [own_run_powershell]: the method of an implementation
    that overrides the one of the base class. *)
Class GuestOperations (X : Type) := {
  run_program : VCenterTarget -> string -> GuestCredentials -> string -> string -> Z -> Op X CommandResult;
  upload_file : VCenterTarget -> string -> GuestCredentials -> string -> string -> Op X unit;
  download_file : VCenterTarget -> string -> GuestCredentials -> string -> Op X string;
  delete_file : VCenterTarget -> string -> GuestCredentials -> string -> Op X unit;
  file_exists : VCenterTarget -> string -> GuestCredentials -> string -> Op X bool;
  own_run_powershell : option (VCenterTarget -> string -> GuestCredentials -> string -> Z -> list (string * string)
                               -> Op X CommandResult);
}.

(** A missing secret is the exception [SecretNotFoundError]. *)
Class SecretsProvider (X : Type) := {
  get_secret : string -> Op X string;
  secrets_provider_name : string;
}.

(** Wall clock and event-loop clock, in microseconds; the local date in days; [asyncio.sleep]; the
    random text of [secrets.token_urlsafe] and [uuid.uuid4().hex]; [datetime.isoformat],
    [traceback.format_exc] the [repr] of JSON values and
    [re.fullmatch] of a configured pattern ([None] when it is no pattern). *)
Class Platform (X : Type) := {
  utcnow : X -> Z;
  today : X -> Z;
  date_str : Z -> string;
  loop_time : X -> Z;
  sleep : Z -> Op X unit;
  token_urlsafe : Z -> Op X string;
  uuid4_hex : Op X string;
  isoformat : Z -> string;
  format_exc : Exc -> string;
  repr_json : json -> string;
  re_fullmatch : string -> string -> option bool;
}.

(** The worker's network: whether [ping] is installed, its exit status and
    output for an address, and the reverse lookup. *)
Class Network (X : Type) := {
  ping_installed : Op X bool;
  ping : string -> Op X (Z * string);
  gethostbyaddr : string -> Op X (option string);
}.

(** A certificate package with the [enabled] flags of its certificates. *)
Record PackageRow := MkPackage {
  pk_id : string;
  pk_name : string;
  pk_enabled : bool;
  pk_certificates_enabled : list bool;
}.

Record VCenterConnection := MkConnection {
  conn_id : string;
  conn_name : string;
  conn_host : string;
  conn_enabled : bool;
  conn_port : Z;
  conn_username_ref : string;
  conn_password_ref : string;
  conn_verify_ssl : bool;
}.

(** The target the callers build from an enabled row. *)
Definition target_of (c : VCenterConnection) : VCenterTarget :=
  MkTarget (conn_id c) (conn_name c) (conn_host c) (conn_port c) (conn_username_ref c) (conn_password_ref c)
    (conn_verify_ssl c).

(** SELECTs on the tables the platform reads. *)
Class Tables (X : Type) := {
  setting_rows : Op X (list (string * json));
  certificate_rows : Op X (list CertificateRow);
  application_rows : Op X (list ApplicationRow);
  active_duplicates : string -> string -> Op X bool;
  package_rows : Op X (list PackageRow);
  vcenter_connection : string -> Op X (option VCenterConnection);
}.

Class World (X : Type) := {
  world_vmware :: VMwareService X;
  world_guest :: GuestOperations X;
  world_secrets :: SecretsProvider X;
  world_platform :: Platform X;
  world_network :: Network X;
  world_tables :: Tables X;
}.

(** ** Watched worlds

    Any world together with a ghost state [L] that sees how its calls end, and
    may make them fail: the theorems that tell what becomes of a failure speak
    of this ghost, and it restricts nothing. *)

Inductive FileCall := Uploading | Deleting.

Record Watch (L : Type) := MkWatch {
  injected : L -> option Fault;
  noted : bool -> L -> L;
}.
Arguments MkWatch {L} _ _.
Arguments injected {L} _ _.
Arguments noted {L} _ _ _.

(** Nothing is injected, nothing noted. *)
Definition unwatched {L} : Watch L := MkWatch (fun _ => None) (fun _ l => l).

Definition watched {X L A} (w : Watch L) (op : Op X A) : Op (X * L) A := fun s =>
  let '(o, x) := match injected w (snd s) with Some f => (Err f, fst s) | None => op (fst s) end in
  (o, (x, noted w (is_ok o) (snd s))).

Section Watched.
Context {X L : Type} `{World X}.
Context (on_vcenter on_secrets : Watch L) (on_file : FileCall -> string -> Watch L).

Local Notation seen := (watched on_vcenter) (only parsing).
Local Notation unseen := (watched (@unwatched L)) (only parsing).

Definition watched_vmware : VMwareService (X * L) := {|
  test_connection t := seen (test_connection t);
  get_datacenters t := seen (get_datacenters t);
  get_clusters t d := seen (get_clusters t d);
  get_hosts t c := seen (get_hosts t c);
  get_resource_pools t c := seen (get_resource_pools t c);
  get_datastores t c := seen (get_datastores t c);
  get_datastore_clusters t c := seen (get_datastore_clusters t c);
  get_networks t d := seen (get_networks t d);
  get_isos t d := seen (get_isos t d);
  get_vm_info t n := seen (get_vm_info t n);
  get_vm_info_by_id t i := seen (get_vm_info_by_id t i);
  get_used_ips t := unseen (get_used_ips t);
  vm_exists t n := seen (vm_exists t n);
  check_host_https t l := seen (check_host_https t l);
  read_datastore_file t d p n := seen (read_datastore_file t d p n);
  find_vm_ownership t n := seen (find_vm_ownership t n);
  create_vm t c := seen (create_vm t c);
  configure_hardware t v n m := seen (configure_hardware t v n m);
  attach_network t v n a d := seen (attach_network t v n a d);
  attach_answer_media t v n o d c := seen (attach_answer_media t v n o d c);
  remove_answer_media t v d p := seen (remove_answer_media t v d p);
  power_on t v := seen (power_on t v);
  reset t v := seen (reset t v);
  send_keystrokes t v l := seen (send_keystrokes t v l);
  detach_installation_media t v := seen (detach_installation_media t v);
  add_data_disks t v l := seen (add_data_disks t v l);
  capture_screenshot t v := seen (capture_screenshot t v);
|}.

Definition watched_guest : GuestOperations (X * L) := {|
  run_program t v c p a n := unseen (run_program t v c p a n);
  upload_file t v c d p := watched (on_file Uploading p) (upload_file t v c d p);
  download_file t v c p := unseen (download_file t v c p);
  delete_file t v c p := watched (on_file Deleting p) (delete_file t v c p);
  file_exists t v c p := unseen (file_exists t v c p);
  own_run_powershell := option_map (fun own t v c s n l => unseen (own t v c s n l)) own_run_powershell;
|}.

Definition watched_secrets : SecretsProvider (X * L) := {|
  get_secret p := watched on_secrets (get_secret p);
  secrets_provider_name := secrets_provider_name;
|}.

Definition watched_platform : Platform (X * L) := {|
  utcnow s := utcnow (fst s);
  today s := today (fst s);
  date_str := date_str;
  loop_time s := loop_time (fst s);
  sleep n := unseen (sleep n);
  token_urlsafe n := unseen (token_urlsafe n);
  uuid4_hex := unseen uuid4_hex;
  isoformat := isoformat;
  format_exc := format_exc;
  repr_json := repr_json;
  re_fullmatch := re_fullmatch;
|}.

Definition watched_network : Network (X * L) := {|
  ping_installed := unseen ping_installed;
  ping a := unseen (ping a);
  gethostbyaddr a := unseen (gethostbyaddr a);
|}.

Definition watched_tables : Tables (X * L) := {|
  setting_rows := unseen setting_rows;
  certificate_rows := unseen certificate_rows;
  application_rows := unseen application_rows;
  active_duplicates n a := unseen (active_duplicates n a);
  package_rows := unseen package_rows;
  vcenter_connection i := seen (vcenter_connection i);
|}.

Definition watched_world : World (X * L) :=
  {| world_vmware := watched_vmware; world_guest := watched_guest; world_secrets := watched_secrets;
     world_platform := watched_platform; world_network := watched_network; world_tables := watched_tables |}.

End Watched.

(** [str(v)] of a JSON value, and [bool(v)] is [truthy]. *)
Definition py_str {X} `{Platform X} (v : json) : string :=
  match v with
  | JNull => "None"
  | JBool true => "True"
  | JBool false => "False"
  | JNum n => str_int n
  | JStr s => s
  | _ => repr_json v
  end.

(** [dt.datetime.now(dt.UTC)] and [loop.time()] *)
Definition now {X} `{Platform X} : M X Z := fun r => (Return (utcnow (world r)), r).
Definition monotonic {X} `{Platform X} : M X Z := fun r => (Return (loop_time (world r)), r).

Lemma frames_now {X} `{Platform X} : frames (X := X) now.
Proof. intros r. apply frame_refl. Qed.

Lemma frames_monotonic {X} `{Platform X} : frames (X := X) monotonic.
Proof. intros r. apply frame_refl. Qed.

Lemma calm_now {X} `{Platform X} t : calm (X := X) t now.
Proof. intros r Hr. split; [done|discriminate]. Qed.

Lemma calm_monotonic {X} `{Platform X} t : calm (X := X) t monotonic.
Proof. intros r Hr. split; [done|discriminate]. Qed.

#[export] Hint Resolve frames_now frames_monotonic calm_now calm_monotonic : infra.

(** *** Clocks that do not go back

    What the loops that poll with a deadline rely on: neither clock is behind
    where it was when a call ends, and a sleep takes the time it was given.
    [patient] operations leave the clocks no earlier. *)

Section Clocks.
Context {X : Type} `{World X}.

Definition later (x y : X) : Prop := utcnow x <= utcnow y /\ loop_time x <= loop_time y.
Definition passes_time {A} (op : Op X A) : Prop := forall x, later x (snd (op x)).

Class ClockLaws : Prop := {
  sleep_clock n x : 0 <= n -> utcnow x + n <= utcnow (snd (sleep n x)) /\ loop_time x + n <= loop_time (snd (sleep n x));
  keystrokes_clock t v l : passes_time (send_keystrokes t v l);
  info_clock t i : passes_time (get_vm_info_by_id t i);
  program_clock t v c p a n : passes_time (run_program t v c p a n);
  upload_clock t v c d p : passes_time (upload_file t v c d p);
  deletion_clock t v c p : passes_time (delete_file t v c p);
  token_clock : passes_time uuid4_hex;
  powershell_clock t v c s n l : match own_run_powershell with Some own => passes_time (own t v c s n l) | None => True end;
}.

Definition patient {A} (m : M X A) : Prop := forall r, later (world r) (world (snd (m r))).

Lemma later_refl x : later x x.
Proof. split; lia. Qed.

Lemma later_trans x y z : later x y -> later y z -> later x z.
Proof. unfold later. lia. Qed.

Lemma patient_pure {A} (m : M X A) : (forall r, world (snd (m r)) = world r) -> patient m.
Proof. intros E r. rewrite E. apply later_refl. Qed.

Lemma patient_bind {A B} (m : M X A) (k : A -> M X B) : patient m -> (forall a, patient (k a)) -> patient (bind m k).
Proof.
  intros Hm Hk r. unfold bind. specialize (Hm r). destruct (m r) as [[a|e] r1]; [|done]. eapply later_trans; [exact Hm|apply Hk].
Qed.

Lemma patient_await {A} (m : M X A) : patient m -> patient (await m).
Proof.
  intros Hm r. assert (P : forall p, later (world r) (world (snd (m (r <| pending := p |>))))) by (intros p; specialize (Hm (r <| pending := p |>)); exact Hm).
  unfold await. destruct (pending r) as [i|]; [|apply Hm]. destruct (after_awaits i); [|apply P].
  destruct (in_flight_lands i); [apply P|apply later_refl].
Qed.

Lemma patient_call {A} (op : Op X A) : passes_time op -> patient (call op).
Proof. intros P. apply patient_await. intros r. specialize (P (world r)). by destruct (op (world r)). Qed.

Lemma patient_draw {A} (op : Op X A) : passes_time op -> patient (draw op).
Proof. intros P r. specialize (P (world r)). unfold draw. by destruct (op (world r)). Qed.

Lemma patient_attempt_to {A} (m : M X A) : patient m -> patient (attempt_to m).
Proof. intros P r. specialize (P r). unfold attempt_to. by destruct (m r). Qed.

Lemma patient_catch_infra {A} (m : M X A) h : patient m -> (forall e, patient (h e)) -> patient (catch_infra m h).
Proof.
  intros Hm Hh r. unfold catch_infra. specialize (Hm r). destruct (m r) as [[a|[e| | |]] r1]; try done.
  eapply later_trans; [exact Hm|apply Hh].
Qed.

Lemma patient_catch_exception {A} (m : M X A) h : patient m -> (forall e, patient (h e)) -> patient (catch_exception m h).
Proof.
  intros Hm Hh r. unfold catch_exception. specialize (Hm r). destruct (m r) as [[a|[e| | |]] r1]; try done; (eapply later_trans; [exact Hm|apply Hh]).
Qed.

(** A step of a loop: what follows starts undisturbed and no earlier. *)
Lemma at_ease_patient {A B} (m : M X A) (k : A -> M X B) r :
  undisturbed r -> calm false m -> patient m ->
  (forall a r1, undisturbed r1 -> later (world r) (world r1) -> wp (k a) at_ease r1) -> wp (bind m k) at_ease r.
Proof.
  intros U C P K. destruct (proj1 (calm_at_ease m) C r U) as [V D]. apply at_ease_bind; [by split|]. intros a _. apply K; [done|apply P].
Qed.

(** Reading a clock. *)
Lemma at_ease_monotonic {B} (k : Z -> M X B) r : wp (k (loop_time (world r))) at_ease r -> wp (bind monotonic k) at_ease r.
Proof. done. Qed.
Lemma at_ease_now {B} (k : Z -> M X B) r : wp (k (utcnow (world r))) at_ease r -> wp (bind now k) at_ease r.
Proof. done. Qed.

(** A sleep, without a cancellation in its way. *)
Lemma at_ease_sleep `{!ClockLaws} {B} n (k : unit -> M X B) r :
  undisturbed r -> 0 <= n ->
  (forall r1, undisturbed r1 -> utcnow (world r) + n <= utcnow (world r1) -> loop_time (world r) + n <= loop_time (world r1) ->
     wp (k tt) at_ease r1) ->
  wp (bind (call (sleep n)) k) at_ease r.
Proof.
  intros U N K. pose proof (proj1 (calm_at_ease (call (sleep n))) (calm_call false _) r U) as V. apply at_ease_bind; [exact V|].
  intros [] _. destruct V as [V _]. assert (E : world (snd (call (sleep n) r)) = snd (sleep n (world r))).
  { unfold call, await. destruct U as [-> _]. by destruct (sleep n (world r)). }
  apply K; [exact V|rewrite E; by apply sleep_clock..].
Qed.

End Clocks.
Arguments ClockLaws X {_}.

#[export] Hint Resolve keystrokes_clock info_clock program_clock upload_clock deletion_clock token_clock : clock.

(** Decide [patient] by the shape of a monadic term. *)
Ltac patient_step :=
  lazymatch goal with
  | |- patient (bind _ _) => apply patient_bind
  | |- patient (call _) => apply patient_call; solve [auto with clock nocore]
  | |- patient (draw _) => apply patient_draw; solve [auto with clock nocore]
  | |- patient (attempt_to _) => apply patient_attempt_to
  | |- patient (catch_infra _ _) => apply patient_catch_infra
  | |- patient (catch_exception _ _) => apply patient_catch_exception
  | |- patient (match ?x with _ => _ end) => destruct x
  | |- patient (let _ := _ in _) => cbn zeta
  | |- patient _ => first [solve [auto 2 with clock nocore] | by apply patient_pure | apply patient_await; by apply patient_pure]
  | |- forall _, _ => intros
  end.

Ltac solve_patient := repeat first [ patient_step | assumption ].

(** ** Platform settings ([app/services/settings_store.py]) *)

Definition SETTING_VM_NAME_POLICY : string := "vm_name_policy_regex".
Definition SETTING_ALLOWED_INSTALLER_ROOTS : string := "allowed_installer_roots".
Definition SETTING_DEFAULT_TIMEOUTS : string := "default_timeouts".
Definition SETTING_ENVIRONMENT_LABEL : string := "environment_label".
Definition SETTING_PREFERRED_DATASTORES : string := "preferred_datastores".

Definition DEFAULTS : list (string * json) := [
  (SETTING_VM_NAME_POLICY, JStr "");
  (SETTING_ALLOWED_INSTALLER_ROOTS, JArr []);
  (SETTING_DEFAULT_TIMEOUTS, JObj []);
  (SETTING_ENVIRONMENT_LABEL, JStr "INTERNAL");
  (SETTING_PREFERRED_DATASTORES, JArr [])
].

Definition KNOWN_KEYS : list string := List.map fst DEFAULTS.

Definition is_null (v : json) : bool := match v with JNull => true | _ => false end.

(** The defaults overlaid with the stored rows of known keys. *)
Definition overlay (rows : list (string * json)) : gmap string json :=
  fold_left (fun d e => if bool_decide (fst e ∈ KNOWN_KEYS) && negb (is_null (snd e))
                        then <[fst e := snd e]> d else d)
    rows (list_to_map DEFAULTS).

Fixpoint assoc (k : string) (l : list (string * json)) : option json :=
  match l with
  | [] => None
  | (x, v) :: r => if String.eqb x k then Some v else assoc k r
  end.

(** Rows wrap their payload as {"value": ...}. *)
Definition read_stored_value (raw : json) : json :=
  match raw with
  | JObj l => match assoc "value" l with Some v => v | None => raw end
  | _ => raw
  end.

Definition load_effective {X} `{World X} : M X (gmap string json) :=
  let* rows := call setting_rows in
  ret (read_stored_value <$> overlay rows).

Lemma frames_load_effective {X} `{World X} : frames (X := X) load_effective.
Proof. unfold load_effective. solve_frames. Qed.

Lemma calm_load_effective {X} `{World X} t : calm (X := X) t load_effective.
Proof. unfold load_effective. solve_calm. Qed.

#[export] Hint Resolve frames_load_effective calm_load_effective : infra.

Lemma overlay_keys rows k : is_Some (overlay rows !! k) <-> k ∈ KNOWN_KEYS.
Proof.
  unfold overlay.
  assert (G : forall d : gmap string json, (forall k, is_Some (d !! k) <-> k ∈ KNOWN_KEYS) ->
    forall k, is_Some (fold_left (fun (d : gmap string json) e => if bool_decide (fst e ∈ KNOWN_KEYS) && negb (is_null (snd e))
                        then <[fst e := snd e]> d else d) rows d !! k) <-> k ∈ KNOWN_KEYS).
  { induction rows as [|[x v] rows IH]; intros d Hd k'; simpl; [apply Hd|]. apply IH. intros y.
    case_bool_decide as D; simpl; [|apply Hd]. destruct (is_null v); simpl; [apply Hd|].
    destruct (decide (x = y)) as [->|N].
    - rewrite lookup_insert_eq. split; [done|]. intros _. by eexists.
    - rewrite lookup_insert_ne by done. apply Hd. }
  apply G. clear. intros y. rewrite <- elem_of_dom, dom_list_to_map_L, elem_of_list_to_set. done.
Qed.
