(* ===== verification/ClientIp.v ===== *)
(** * The client's address behind proxies

    [app/core/client_ip.py]: which address of [X-Forwarded-For] is believed,
    and which scheme of [X-Forwarded-Proto].  The class [Ipaddress] is the
    part of Python's [ipaddress] the code uses, for both families; its IPv4
    instance is that of [Network.v]. *)

From Stdlib Require Import ZArith Lia Ascii String List Bool.
From stdpp Require Import base tactics strings list.
From S2P Require Import Prelude PyStr Network.

Local Open Scope string_scope.
Local Open Scope Z_scope.

(** ** [ipaddress] *)

Class Ipaddress := {
  addr : Type;
  net : Type;
  ip_address : string -> option addr;
  str_address : addr -> string;
  ip_network : string -> option net;
  in_net : addr -> net -> bool;
}.

(** The empty text is no address; an address prints as a text that reads back as it. *)
Class IpaddressLaws (I : Ipaddress) : Prop := {
  ip_address_empty : ip_address "" = None;
  ip_address_str a s : ip_address s = Some a -> ip_address (str_address a) = Some a;
}.

(** ** The module *)

Section ClientIp.
Context {I : Ipaddress}.

(** [None] is the [ValueError] of a malformed network. *)
Fixpoint parse_entries (entries : list string) : option (list net) :=
  match entries with
  | [] => Some []
  | entry :: rest =>
      let entry := strip entry in
      if String.eqb entry "" then parse_entries rest
      else match ip_network entry with
           | None => None
           | Some n => option_map (cons n) (parse_entries rest)
           end
  end.

Definition _parse_networks (raw : string) : option (list net) := parse_entries (split_on ","%char raw).

Definition _is_trusted (address : string) (networks : list net) : bool :=
  match ip_address address with
  | None => false
  | Some parsed => existsb (in_net parsed) networks
  end.

Definition _valid_ip (value : string) : option string := option_map str_address (ip_address (strip value)).

Definition hops_of (forwarded_for : string) : list string :=
  List.filter (fun hop => negb (String.eqb hop "")) (List.map strip (split_on ","%char forwarded_for)).

(** The walk from the right; [None] when every hop is trusted. *)
Fixpoint walk (peer : string) (networks : list net) (reversed_hops : list string) : option string :=
  match reversed_hops with
  | [] => None
  | hop :: rest =>
      match _valid_ip hop with
      | None => Some peer
      | Some address => if _is_trusted address networks then walk peer networks rest else Some address
      end
  end.

(** The outer [None] is the [ValueError] of the setting. *)
Definition resolve_client_ip (peer forwarded_for : option string) (trusted_cidrs : string) : option (option string) :=
  match _parse_networks trusted_cidrs with
  | None => None
  | Some networks =>
      Some match peer with
           | None => None
           | Some peer =>
               match forwarded_for with
               | None | Some "" => Some peer
               | Some header =>
                   if negb (_is_trusted peer networks) then Some peer
                   else let hops := hops_of header in
                        match walk peer networks (rev hops) with
                        | Some address => Some address
                        | None => match hops with hop :: _ => _valid_ip hop | [] => Some peer end
                        end
               end
           end
  end.

Definition resolve_scheme (peer forwarded_proto : option string) (scheme trusted_cidrs : string) : option string :=
  match peer, forwarded_proto with
  | Some (String _ _ as peer), Some (String _ _ as header) =>
      match _parse_networks trusted_cidrs with
      | None => None
      | Some networks =>
          if _is_trusted peer networks then
            let proto := lower (strip (List.hd "" (split_on ","%char header))) in
            if String.eqb proto "http" || String.eqb proto "https" then Some proto else Some scheme
          else Some scheme
      end
  | _, _ => Some scheme
  end.

(** ** The chain of hops *)

Lemma hops_of_cons claimed hop :
  ~ In ","%char (chars hop) -> strip hop <> "" ->
  hops_of (claimed ++ "," ++ hop) = (hops_of claimed ++ [strip hop])%list.
Proof.
  intros N E. unfold hops_of, split_on. rewrite !chars_app. change (chars ",") with [","%char]. cbn [app].
  rewrite split_chars_app, (split_chars_whole _ (chars hop)) by done.
  rewrite !List.map_app, List.filter_app. cbn. rewrite text_chars.
  by apply String.eqb_neq in E as ->.
Qed.

(** A hop as a proxy appends it: one address, with any spaces around it. *)
Definition is_hop (hop : string) (a : addr) : Prop := ~ In ","%char (chars hop) /\ ip_address (strip hop) = Some a.

Definition trusted (nets : list net) (a : addr) : bool := existsb (in_net a) nets.

Context {L : IpaddressLaws I}.

Lemma valid_hop hop a : is_hop hop a -> _valid_ip (strip hop) = Some (str_address a).
Proof. intros [_ H]. unfold _valid_ip. by rewrite strip_idemp, H. Qed.

Lemma trusted_hop hop a nets : is_hop hop a -> _is_trusted (str_address a) nets = trusted nets a.
Proof. intros [_ H]. unfold _is_trusted. by rewrite (ip_address_str a _ H). Qed.

Lemma hop_nonempty hop a : is_hop hop a -> strip hop <> "".
Proof. intros [_ H] E. rewrite E, ip_address_empty in H. done. Qed.

(** Hops of our own proxies at the right end are skipped. *)
Lemma walk_trusted peer nets l relays rest :
  Forall2 is_hop relays l -> Forall (fun a => trusted nets a = true) l ->
  walk peer nets (List.map strip relays ++ rest) = walk peer nets rest.
Proof.
  intros H. induction H as [|hop a relays l Hh _ IH]; intros T; [done|]. inversion T; subst. cbn.
  rewrite (valid_hop _ _ Hh), (trusted_hop _ _ _ Hh).
  repeat match goal with E : trusted _ _ = true |- _ => rewrite E end. auto.
Qed.

(** The header a chain of proxies leaves: what the client sent, then a hop per proxy. *)
Definition forwarded (claimed : string) (hops : list string) : string :=
  fold_left (fun header hop => header ++ "," ++ hop) hops claimed.

Lemma hops_of_forwarded hops l : Forall2 is_hop hops l -> forall claimed,
  hops_of (forwarded claimed hops) = (hops_of claimed ++ List.map strip hops)%list.
Proof.
  intros H. induction H as [|hop a hops l Hh _ IH]; intros claimed; [by rewrite app_nil_r|].
  change (hops_of (forwarded (claimed ++ "," ++ hop) hops) = (hops_of claimed ++ List.map strip (hop :: hops))%list).
  rewrite IH, hops_of_cons; [by rewrite <- app_assoc|apply Hh|by eapply hop_nonempty].
Qed.

Lemma forwarded_nonempty claimed hop hops : exists c s, forwarded claimed (hop :: hops) = String c s.
Proof.
  cbn. assert (exists c s, claimed ++ "," ++ hop = String c s) as (c & s & ->)
    by (destruct claimed; cbn; eauto).
  revert c s. induction hops as [|h hops IH]; intros c s; cbn; [eauto|]. apply IH.
Qed.

(** C37 (resolve_client_ip): the client cannot choose the address it is
    known by.  A peer that is not one of our proxies is known by its own
    address whatever headers it sends.  Behind trusted proxies the answer is
    the address the outermost of them appended: whatever the client wrote in
    [X-Forwarded-For] before, including commas and forged chains, and however
    many trusted relays follow. *)
Theorem client_ip_unspoofable cidrs nets peer claimed :
  _parse_networks cidrs = Some nets ->
  (_is_trusted peer nets = false -> forall header, resolve_client_ip (Some peer) header cidrs = Some (Some peer))
  /\ (_is_trusted peer nets = true ->
      forall hop client relays l,
        is_hop hop client -> trusted nets client = false ->
        Forall2 is_hop relays l -> Forall (fun a => trusted nets a = true) l ->
        resolve_client_ip (Some peer) (Some (forwarded claimed (hop :: relays))) cidrs
        = Some (Some (str_address client))).
Proof.
  intros P. unfold resolve_client_ip. rewrite P. split; intros T.
  - intros header. rewrite T. cbn. by destruct header as [[]|].
  - intros hop client relays l Hh Hc Hr Hl.
    destruct (forwarded_nonempty claimed hop relays) as (c & s & E).
    pose proof (hops_of_forwarded (hop :: relays) (client :: l) (List.Forall2_cons _ _ Hh Hr) claimed) as Hops.
    rewrite E in *. rewrite T. cbn [negb]. rewrite Hops.
    rewrite rev_app_distr. cbn [List.map rev]. rewrite <- List.map_rev.
    rewrite <- !app_assoc, (walk_trusted _ _ (rev l)) by (rewrite !rev_alt; first [by apply Forall2_reverse | by apply Forall_reverse]).
    cbn. by rewrite (valid_hop _ _ Hh), (trusted_hop _ _ _ Hh), Hc.
Qed.

End ClientIp.

(** ** The IPv4 family *)

(** [(address, prefix)] with [strict=False]: the host bits are dropped. *)
Definition PREFIXES : list Z := List.map Z.of_nat (List.seq 0 33).

(** A prefix in digits, else a netmask, else a hostmask. *)
Definition parse_prefix (s : string) : option Z :=
  if isdigit s then
    let n := digits_val (chars s) in if n <=? 32 then Some n else None
  else match parse_ipv4 s with
       | None => None
       | Some m =>
           match find_first (fun p => netmask p =? m) PREFIXES with
           | Some p => Some p
           | None => find_first (fun p => hostmask p =? m) PREFIXES
           end
       end.

Definition parse_ipv4_network (s : string) : option (Z * Z) :=
  match split_on "/"%char s with
  | [a] => option_map (fun a => (a, 32)) (parse_ipv4 a)
  | [a; p] =>
      match parse_ipv4 a, parse_prefix p with
      | Some a, Some p => Some (a, p)
      | _, _ => None
      end
  | _ => None
  end.

#[export] Instance ipv4 : Ipaddress := {|
  addr := Z;
  net := Z * Z;
  ip_address := parse_ipv4;
  str_address := format_ipv4;
  ip_network := parse_ipv4_network;
  in_net a n := in_network a n.1 n.2;
|}.

#[export] Instance ipv4_laws : IpaddressLaws ipv4.
Proof. split; [reflexivity|]. intros a s H. by apply parse_format, (parse_ipv4_ok s). Qed.

Lemma client_ip_unspoofable_witness :
  resolve_client_ip (Some "10.0.0.2") (Some "1.2.3.4, 10.0.0.9, 203.0.113.7, 10.0.0.3") "10.0.0.0/8"
  = Some (Some "203.0.113.7").
Proof.
  destruct (client_ip_unspoofable (I := ipv4) "10.0.0.0/8" [(167772160, 8)] "10.0.0.2" "1.2.3.4, 10.0.0.9") as [_ H];
    [vm_compute; reflexivity|].
  apply (H eq_refl " 203.0.113.7" 3405803783 [" 10.0.0.3"] [167772163]); repeat constructor;
    vm_compute; intuition discriminate.
Defined.

(** A forged scheme counts no more than a forged address. *)
Lemma untrusted_scheme `{Ipaddress} cidrs nets peer proto scheme :
  _parse_networks cidrs = Some nets -> _is_trusted peer nets = false ->
  resolve_scheme (Some peer) proto scheme cidrs = Some scheme.
Proof.
  intros P T. unfold resolve_scheme. destruct peer, proto as [[|c s]|]; try done. by rewrite P, T.
Qed.
