(* ===== verification/RateLimit.v ===== *)
(** * Login rate limiting

    [app/core/rate_limit.py]: the per-process sliding window and the shared
    limiter that falls back to it.  Times are microseconds; the counters of
    Redis and SHA-256 are parameters. *)

From Stdlib Require Import ZArith Lia Ascii String List Bool Sorted.
From stdpp Require Import base tactics strings gmap list.
From S2P Require Import Prelude PyStr.

Local Open Scope string_scope.
Local Open Scope Z_scope.

(** ** [SlidingWindowRateLimiter] *)

(** [self._hits], a [defaultdict(deque)]. *)
Notation Hits := (gmap string (list Z)).

Definition hits_of (key : string) (h : Hits) : list Z := default [] (h !! key).

(** The deque after its expired entries were popped. *)
Definition unexpired (cutoff : Z) (hits : list Z) : list Z := drop_while (fun t => t <? cutoff) hits.

Definition allow (key : string) (limit window now : Z) (h : Hits) : bool * Hits :=
  let cutoff := now - window in
  let hits := unexpired cutoff (hits_of key h) in
  if limit <=? Z.of_nat (List.length hits) then (false, <[key := hits]> h)
  else (true, <[key := (hits ++ [now])%list]> h).

Definition reset (key : string) (h : Hits) : Hits := delete key h.

(** ** [RedisRateLimiter] *)

Section Redis.
Context (sha256_hexdigest : string -> string).

Definition redis_key (key : string) (window wall : Z) : string :=
  "infraops:ratelimit:" ++ take_str 32 (sha256_hexdigest key) ++ ":" ++ str_int (wall / window).

(** [incr] is the answer of the pipeline, [None] an exception of it. *)
Definition redis_allow (incr : string -> option Z) (key : string) (limit window wall now : Z) (h : Hits) : bool * Hits :=
  match incr (redis_key key window wall) with
  | Some count => (count <=? limit, h)
  | None => allow key limit window now h
  end.

(** The two checks of the login endpoint, both always made. *)
Definition login_allowed (incr_ip incr_user : string -> option Z) (source_ip : option string) (username : string)
    (limit window wall now : Z) (h : Hits) : bool * bool * Hits :=
  let ip := match source_ip with Some (String _ _ as ip) => ip | _ => "unknown" end in
  let '(allowed_ip, h) := redis_allow incr_ip ("login-ip:" ++ ip) limit window wall now h in
  let '(allowed_user, h) := redis_allow incr_user ("login-user:" ++ casefold username) limit window wall now h in
  (allowed_ip, allowed_user, h).

End Redis.

(** ** The sliding window over a history of calls *)

(** The calls made, and the times at which those of a key were allowed. *)
Fixpoint run (limit window : Z) (calls : list (string * Z)) (h : Hits) : Hits * list (string * Z) :=
  match calls with
  | [] => (h, [])
  | (key, now) :: rest =>
      let '(ok, h1) := allow key limit window now h in
      let '(h2, granted) := run limit window rest h1 in
      (h2, if ok then (key, now) :: granted else granted)
  end.

Definition times_of (key : string) (granted : list (string * Z)) : list Z :=
  List.map snd (List.filter (fun e => String.eqb (fst e) key) granted).

(** Those of the last [window] before [now], both ends included. *)
Definition recent (window now : Z) (times : list Z) : list Z :=
  List.filter (fun t => (now - window <=? t) && (t <=? now)) times.

Notation sorted := (StronglySorted Z.le).

Lemma unexpired_filter c l : sorted l -> unexpired c l = List.filter (fun t => c <=? t) l.
Proof.
  unfold unexpired. induction 1 as [|x l S IH F]; cbn; [done|].
  destruct (Z.ltb_spec x c), (Z.leb_spec c x); try lia; [done|]. f_equal. symmetry.
  apply forallb_filter_id, forallb_forall. intros y I. rewrite List.Forall_forall in F. specialize (F y I). lia.
Qed.

Lemma sorted_filter (p : Z -> bool) l : sorted l -> sorted (List.filter p l).
Proof.
  induction 1 as [|x l S IH F]; cbn; [constructor|]. destruct (p x); [|done]. constructor; [done|].
  apply List.Forall_forall. intros y [I _]%filter_In. by rewrite List.Forall_forall in F; apply F.
Qed.

Lemma sorted_snoc x l : sorted l -> Forall (fun t => t <= x) l -> sorted (l ++ [x]).
Proof.
  induction 1 as [|y l S IH F]; cbn; intros H; [by repeat constructor|]. inversion H; subst.
  constructor; [auto|]. apply Forall_app. split; [done|by constructor].
Qed.

Lemma filter_filter {A} (p q : A -> bool) l :
  (forall x, q x = true -> p x = true) -> List.filter q (List.filter p l) = List.filter q l.
Proof.
  intros H. induction l as [|x l IH]; cbn; [done|]. destruct (p x) eqn:P; cbn; rewrite IH; [done|].
  destruct (q x) eqn:Q; [|done]. apply H in Q. congruence.
Qed.

(** The table knows of each key all grants after some instant no later than
    the window before the last call. *)
Record tracks (window last : Z) (h : Hits) (granted : list (string * Z)) : Prop := {
  t_sorted key : sorted (times_of key granted);
  t_past key : Forall (fun t => t <= last) (times_of key granted);
  t_hits key : exists c, c <= last - window /\ hits_of key h = List.filter (fun t => c <=? t) (times_of key granted);
}.

Lemma hits_of_insert key key' l h : hits_of key' (<[key := l]> h) = if String.eqb key key' then l else hits_of key' h.
Proof.
  unfold hits_of. destruct (String.eqb_spec key key') as [->|N]; [by rewrite lookup_insert_eq|].
  by rewrite lookup_insert_ne.
Qed.

Lemma recent_tracked window last now h granted key : tracks window last h granted -> last <= now ->
  unexpired (now - window) (hits_of key h) = recent window now (times_of key granted).
Proof.
  intros T L. destruct (t_hits _ _ _ _ T key) as (c & Hc & E). rewrite E, unexpired_filter
    by apply sorted_filter, T. rewrite filter_filter by (intros; lia).
  apply filter_ext_in. intros t I. pose proof (t_past _ _ _ _ T key) as P. rewrite List.Forall_forall in P.
  specialize (P t I). destruct (Z.leb_spec t now); [by rewrite andb_true_r|lia].
Qed.

Lemma times_of_snoc key key' now granted :
  times_of key' (granted ++ [(key, now)]) = (times_of key' granted ++ if String.eqb key key' then [now] else [])%list.
Proof. unfold times_of. rewrite List.filter_app, List.map_app. cbn. by destruct (String.eqb key key'). Qed.

(** One call: allowed exactly when fewer than [limit] calls of its key were
    allowed in the window that ends with it. *)
Lemma allow_step window last now limit h granted key :
  0 <= window -> tracks window last h granted -> last <= now ->
  let '(ok, h') := allow key limit window now h in
  ok = (Z.of_nat (List.length (recent window now (times_of key granted))) <? limit)
  /\ tracks window now h' (if ok then granted ++ [(key, now)] else granted)%list.
Proof.
  intros W T L. unfold allow. rewrite (recent_tracked window last now h granted key T L).
  set (r := recent window now (times_of key granted)).
  assert (r = List.filter (fun t => now - window <=? t) (times_of key granted)) as R.
  { apply filter_ext_in. intros t I. pose proof (t_past _ _ _ _ T key) as P. rewrite List.Forall_forall in P.
    specialize (P t I). destruct (Z.leb_spec t now); [by rewrite andb_true_r|lia]. }
  assert (forall k, Forall (fun t => t <= now) (times_of k granted)) as Past.
  { intros k. eapply Forall_impl; [apply (t_past _ _ _ _ T k)|]. cbn. lia. }
  destruct (Z.leb_spec limit (Z.of_nat (List.length r))); (split; [lia|]); split; intros k.
  - apply T.
  - apply Past.
  - rewrite hits_of_insert. destruct (String.eqb_spec key k) as [<-|N].
    + exists (now - window). split; [lia|done].
    + destruct (t_hits _ _ _ _ T k) as (c & Hc & E). exists c. split; [lia|done].
  - rewrite times_of_snoc. destruct (String.eqb key k); [|rewrite app_nil_r; apply T].
    apply sorted_snoc; [apply T|apply Past].
  - rewrite times_of_snoc. apply Forall_app. split; [apply Past|]. destruct (String.eqb key k); repeat constructor. lia.
  - rewrite hits_of_insert, times_of_snoc. destruct (String.eqb_spec key k) as [<-|N].
    + exists (now - window). split; [lia|]. rewrite List.filter_app, <- R. cbn. f_equal.
      by rewrite (proj2 (Z.leb_le _ _)) by lia.
    + rewrite app_nil_r. destruct (t_hits _ _ _ _ T k) as (c & Hc & E). exists c. split; [lia|done].
Qed.

Lemma tracks_empty window last : tracks window last ∅ [].
Proof. split; intros key; [constructor|constructor|]. exists (last - window). split; [lia|done]. Qed.

(** Calls in the order of a clock that does not go back. *)
Fixpoint ordered (last : Z) (calls : list (string * Z)) : Prop :=
  match calls with [] => True | (_, now) :: rest => last <= now /\ ordered now rest end.

Lemma recent_le (window t now : Z) times : Forall (fun x => x <= now) times -> now <= t ->
  (List.length (recent window t times) <= List.length (recent window now times))%nat.
Proof.
  intros P L. unfold recent. induction P as [|x times Px P IH]; cbn; [lia|].
  destruct (Z.leb_spec (t - window) x), (Z.leb_spec x t), (Z.leb_spec (now - window) x), (Z.leb_spec x now); cbn; lia.
Qed.

(** Every window holds at most [limit] grants of a key. *)
Definition bounded (limit window : Z) (granted : list (string * Z)) : Prop :=
  forall key t, Z.of_nat (List.length (recent window t (times_of key granted))) <= Z.max 0 limit.

Lemma bounded_snoc limit window last granted key now :
  0 <= window -> (forall k, Forall (fun t => t <= last) (times_of k granted)) -> last <= now ->
  bounded limit window granted ->
  Z.of_nat (List.length (recent window now (times_of key granted))) < limit ->
  bounded limit window (granted ++ [(key, now)]).
Proof.
  intros W P L B R key' t. rewrite times_of_snoc. destruct (String.eqb_spec key key') as [<-|N];
    [|rewrite app_nil_r; apply B].
  unfold recent. rewrite List.filter_app, List.length_app. fold (recent window t (times_of key granted)).
  specialize (B key t). cbn. destruct (Z.leb_spec (t - window) now), (Z.leb_spec now t); cbn; try lia.
  assert (List.length (recent window t (times_of key granted)) <= List.length (recent window now (times_of key granted)))%nat; [|lia].
  apply recent_le; [|done]. eapply Forall_impl; [apply P|]. cbn. lia.
Qed.

Lemma run_spec limit window calls : forall last h granted,
  0 <= window -> tracks window last h granted -> bounded limit window granted -> ordered last calls ->
  let '(h', more) := run limit window calls h in
  bounded limit window (granted ++ more)
  /\ forall last', Forall (fun e => snd e <= last') calls -> last <= last' -> tracks window last' h' (granted ++ more).
Proof.
  induction calls as [|[key now] rest IH]; intros last h granted W T B O; cbn [run].
  - rewrite app_nil_r. split; [done|]. intros last' _ L. split; [apply T| |].
    + intros k. eapply Forall_impl; [apply (t_past _ _ _ _ T k)|]. cbn. lia.
    + intros k. destruct (t_hits _ _ _ _ T k) as (c & Hc & E). exists c. split; [lia|done].
  - destruct O as [L O]. pose proof (allow_step window last now limit h granted key W T L) as A.
    destruct (allow key limit window now h) as [ok h1]. destruct A as [Eok T1].
    assert (bounded limit window (if ok then granted ++ [(key, now)] else granted)) as B1.
    { destruct ok; [|done]. eapply bounded_snoc; eauto; [apply T|lia]. }
    specialize (IH now h1 _ W T1 B1 O). destruct (run limit window rest h1) as [h2 more].
    destruct ok; [rewrite <- app_assoc in IH|]; (split; [apply IH|]; intros last' F _; inversion F; subst; by apply IH).
Qed.

(** C38 (SlidingWindowRateLimiter.allow): over any history of calls, whatever
    keys they interleave, no key is ever allowed more than [limit] times in
    any stretch of time as long as the window, wherever the stretch starts;
    and the limiter is exact: a further call is refused only when that many
    calls of its own key were allowed in the window that ends with it. *)
Theorem rate_limit_exact limit window calls start :
  0 <= window -> ordered start calls ->
  let '(h, granted) := run limit window calls ∅ in
  (forall key t, Z.of_nat (List.length (recent window t (times_of key granted))) <= Z.max 0 limit)
  /\ forall key now, start <= now -> Forall (fun e => snd e <= now) calls ->
       fst (allow key limit window now h)
       = (Z.of_nat (List.length (recent window now (times_of key granted))) <? limit).
Proof.
  intros W O. pose proof (run_spec limit window calls start ∅ [] W (tracks_empty _ _)) as R.
  destruct (run limit window calls ∅) as [h granted]. destruct R as [B T]; [intros key t; cbn; lia|done|].
  split; [apply B|]. intros key now L F.
  pose proof (allow_step window now now limit h granted key W (T now F L) (Z.le_refl _)) as A.
  destruct (allow key limit window now h) as [ok h']. apply A.
Qed.

Lemma rate_limit_exact_witness :
  let '(h, granted) := run 2 60 [("a", 0); ("b", 10); ("a", 20); ("a", 30); ("a", 61)] ∅ in
  granted = [("a", 0); ("b", 10); ("a", 20); ("a", 61)]
  /\ fst (allow "a" 2 60 80 h) = false /\ fst (allow "a" 2 60 81 h) = true.
Proof.
  pose proof (rate_limit_exact 2 60 [("a", 0); ("b", 10); ("a", 20); ("a", 30); ("a", 61)] 0) as R.
  destruct R as [_ R]; [lia|cbn; lia|].
  split; [reflexivity|]. split; (etransitivity; [apply R; [lia|repeat constructor; cbn; lia]|reflexivity]).
Defined.
