(* ===== verification/StreamTickets.v ===== *)
(** * Stream tickets

    [app/auth/stream_tickets.py]: the single-use tickets of the event stream.
    Redis, SHA-256 and the UUID reader are parameters; the class
    [TicketStoreLaws] states what the code relies on of the two Redis
    commands, and an instance on a finite map satisfies it. *)

From Stdlib Require Import ZArith Lia Ascii String List Bool.
From stdpp Require Import base tactics strings gmap list.
From S2P Require Import Prelude PyStr Json Jobs World.

Local Open Scope string_scope.
Local Open Scope Z_scope.

(** [SET key value EX ttl] and [GETDEL key] at an instant. *)
Class TicketStore (R : Type) := {
  redis_set : string -> string -> Z -> Z -> R -> R;
  redis_getdel : string -> Z -> R -> option string * R;
}.

Class TicketStoreLaws (R : Type) `{TicketStore R} : Prop := {
  (** A value is read until its time to live is over, *)
  getdel_set k v ttl t0 t r : t0 <= t < t0 + ttl -> (redis_getdel k t (redis_set k v ttl t0 r)).1 = Some v;
  getdel_expired k v ttl t0 t r : t0 + ttl <= t -> (redis_getdel k t (redis_set k v ttl t0 r)).1 = None;
  (** and is gone once read; *)
  getdel_twice k t t' r : t <= t' -> (redis_getdel k t' (redis_getdel k t r).2).1 = None;
}.

Definition TICKET_TTL_SECONDS : Z := 30.
Definition _KEY_PREFIX : string := "infraops:stream-ticket:".

Section Tickets.
Context (sha256_hexdigest : string -> string) (parse_uuid : string -> option string).
Context `{TicketStoreLaws R}.

Definition _key (ticket : string) : string := _KEY_PREFIX ++ sha256_hexdigest ticket.

(** The random ticket is given. *)
Definition issue (ticket user_id job_id : string) (now : Z) (r : R) : string * R :=
  (ticket, redis_set (_key ticket) (json_dumps (JObj [("user_id", JStr user_id); ("job_id", JStr job_id)]))
             TICKET_TTL_SECONDS now r).

(** The user a stored payload names for the job. *)
Definition ticket_user (raw job_id : string) : option string :=
  match json_loads raw with
  | Some (JObj data) =>
      match assoc "job_id" data with
      | Some (JStr j) =>
          if String.eqb j job_id then
            match assoc "user_id" data with
            | Some (JStr u) => parse_uuid u
            | _ => None
            end
          else None
      | _ => None
      end
  | _ => None
  end.

Definition consume (ticket job_id : string) (now : Z) (r : R) : option string * R :=
  if String.eqb ticket "" || (128 <? len ticket) then (None, r)
  else match redis_getdel (_key ticket) now r with
       | (None, r1) | (Some "", r1) => (None, r1)
       | (Some raw, r1) => (ticket_user raw job_id, r1)
       end.

(** A ticket is redeemed once: whatever the first attempt answered, and for
    whatever job it was made, a second attempt is refused. *)
Lemma consume_once ticket job job' t t' r : t <= t' -> (consume ticket job' t' (consume ticket job t r).2).1 = None.
Proof.
  intros L. unfold consume. destruct (String.eqb ticket "" || (128 <? len ticket)); [done|].
  pose proof (getdel_twice (_key ticket) t t' r L) as T.
  destruct (redis_getdel (_key ticket) t r) as [[[|c raw]|] r1]; cbn [snd] in *;
    destruct (redis_getdel (_key ticket) t' r1) as [v r2]; cbn in T; subst; done.
Qed.

(** Within its time to live the first attempt reads what was issued. *)
Lemma consume_issued ticket user job job' t0 t r :
  t0 <= t < t0 + TICKET_TTL_SECONDS -> ticket <> "" -> len ticket <= 128 ->
  (consume ticket job' t (issue ticket user job t0 r).2).1
  = ticket_user (json_dumps (JObj [("user_id", JStr user); ("job_id", JStr job)])) job'.
Proof.
  intros W N L. unfold consume, issue. rewrite (proj2 (String.eqb_neq _ _) N), (proj2 (Z.ltb_ge _ _)) by done.
  cbn [orb snd]. match goal with |- context [redis_set ?k ?v _ _ _] =>
    pose proof (getdel_set k v TICKET_TTL_SECONDS t0 t r W) as G end.
  destruct (redis_getdel _ t _) as [v r1]. cbn [fst] in G. subst v. by destruct (json_dumps _) eqn:E.
Qed.

Lemma consume_expired ticket user job job' t0 t r :
  t0 + TICKET_TTL_SECONDS <= t -> (consume ticket job' t (issue ticket user job t0 r).2).1 = None.
Proof.
  intros W. unfold consume, issue. destruct (_ || _); [done|]. cbn [snd].
  match goal with |- context [redis_set ?k ?v _ _ _] =>
    pose proof (getdel_expired k v TICKET_TTL_SECONDS t0 t r W) as G end.
  destruct (redis_getdel _ t _) as [v r1]. cbn [fst] in G. by subst v.
Qed.

End Tickets.

(** ** A store *)

Notation Store := (gmap string (string * Z)).

#[export] Instance map_store : TicketStore Store := {|
  redis_set k v ttl now r := <[k := (v, now + ttl)]> r;
  redis_getdel k now r :=
    match r !! k with
    | Some (v, deadline) => (if now <? deadline then Some v else None, delete k r)
    | None => (None, r)
    end;
|}.

#[export] Instance map_store_laws : TicketStoreLaws Store.
Proof.
  split; cbn.
  - intros k v ttl t0 t r W. rewrite lookup_insert_eq. cbn. by rewrite (proj2 (Z.ltb_lt _ _)) by lia.
  - intros k v ttl t0 t r W. rewrite lookup_insert_eq. cbn. by rewrite (proj2 (Z.ltb_ge _ _)) by lia.
  - intros k t t' r _. destruct (r !! k) as [[v d]|] eqn:E; cbn; [by rewrite lookup_delete_eq|by rewrite E].
Qed.
