(* ===== verification/Metrics.v ===== *)
(** * Metrics

    [app/core/metrics.py]: counters, gauges and histograms.  Values are
    integers (the histogram's are microseconds); the registry holds one value
    per label set, given here by its key; then the Prometheus text they print. *)

From Stdlib Require Import ZArith Lia Ascii String List Bool.
From stdpp Require Import base tactics strings gmap list.
From S2P Require Import Prelude PyStr Listing.

Local Open Scope string_scope.
Local Open Scope Z_scope.

(** [_label_key]: the labels come sorted by name. *)
Definition _label_key (labels : list (string * string)) : string :=
  join "," (List.map (fun e => fst e ++ "=" ++ DQ ++ snd e ++ DQ) labels).

(** [Counter._values] and [Gauge._values] *)
Notation Values := (gmap string Z).

Definition inc (amount : Z) (labels : list (string * string)) (v : Values) : Values :=
  let key := _label_key labels in <[key := default 0 (v !! key) + amount]> v.

Definition set_gauge (value : Z) (labels : list (string * string)) (v : Values) : Values :=
  <[_label_key labels := value]> v.

(** ** Histograms *)

(** [_DEFAULT_BUCKETS], in seconds. *)
Definition _DEFAULT_BUCKETS : list Z := [1; 5; 10; 30; 60; 120; 300; 600; 1800; 3600].

(** The entries of one label set: bucket counts in the order of the bounds
    ([setdefault] fills them all), sum and total. *)
Record Series := MkSeries { bucket_counts : list Z; sum : Z; total : Z }.

Definition empty_series (buckets : list Z) : Series := MkSeries (List.map (fun _ => 0) buckets) 0 0.

(** The first bound that holds the value is counted. *)
Fixpoint count_first (value : Z) (buckets counts : list Z) : list Z :=
  match buckets, counts with
  | bound :: buckets, c :: counts => if value <=? bound then c + 1 :: counts else c :: count_first value buckets counts
  | _, _ => counts
  end.

(** "Ensure monotonic cumulative counts": every count raised to the largest before it. *)
Fixpoint raise_to (running : Z) (counts : list Z) : list Z :=
  match counts with
  | [] => []
  | c :: counts => let running := if running <? c then c else running in running :: raise_to running counts
  end.

Definition observe (buckets : list Z) (value : Z) (s : Series) : Series :=
  MkSeries (raise_to 0 (count_first value buckets (bucket_counts s))) (sum s + value) (total s + 1).

(** What the format means: the observations no larger than each bound. *)
Definition cumulative (buckets values : list Z) : list Z :=
  List.map (fun bound => Z.of_nat (List.length (List.filter (fun v => v <=? bound) values))) buckets.

Definition observe_all (buckets values : list Z) : Series :=
  fold_left (fun s v => observe buckets v s) values (empty_series buckets).

(** The counts never decrease from one bound to the next, *)
Lemma raise_to_sorted counts : forall running, Sorted.StronglySorted Z.le (running :: raise_to running counts).
Proof.
  induction counts as [|c counts IH]; intros running; cbn; [repeat constructor|].
  specialize (IH (if running <? c then c else running)). destruct (Z.ltb_spec running c);
    (constructor; [done|]); inversion IH; subst; (constructor; [lia|]); eapply Forall_impl; eauto; cbn; lia.
Qed.

(** but they are not the number of observations under the bound: a later
    observation in a lower bucket is lost from the higher ones. *)
Lemma histogram_undercounts :
  bucket_counts (observe_all [1; 5] [1; 3; 0]) = [2; 2]
  /\ cumulative [1; 5] [1; 3; 0] = [2; 3]
  /\ total (observe_all [1; 5] [1; 3; 0]) = 3.
Proof. by split_and!. Qed.

(** ** The Prometheus text *)

Inductive MetricKind := COUNTER | GAUGE.

Record Metric := MkMetric { metric_name : string; documentation : string; metric_kind : MetricKind; values : Values }.

(** [str] of a whole float below 10 ^ 16. *)
Definition float_str (n : Z) : string := str_int n ++ ".0".

Definition header_lines (name documentation kind : string) : list string :=
  ["# HELP " ++ name ++ " " ++ documentation; "# TYPE " ++ name ++ " " ++ kind].

Definition sample_line (name key value : string) : string :=
  if String.eqb key "" then name ++ " " ++ value else name ++ "{" ++ key ++ "} " ++ value.

Definition by_key {A} (a b : string * A) : bool := String.leb (fst a) (fst b).

Definition render (m : Metric) : list string :=
  (header_lines (metric_name m) (documentation m) (match metric_kind m with COUNTER => "counter" | GAUGE => "gauge" end)
   ++ List.map (fun e => sample_line (metric_name m) (fst e) (float_str (snd e))) (sort_by by_key (map_to_list (values m))))%list.

(** A histogram keeps its label sets in the order they came up. *)
Record Histogram := MkHistogram {
  histogram_name : string;
  histogram_documentation : string;
  buckets : list Z;
  series : list (list (string * string) * Series);
}.

Section Histograms.
(** The text of the sum, a float. *)
Context (sum_text : Z -> string).

Definition bucket_lines (h : Histogram) (labels : list (string * string)) (s : Series) : list string :=
  let bucket le_ n := histogram_name h ++ "_bucket{" ++ _label_key (labels ++ [("le", le_)])%list ++ "} " ++ str_int n in
  let suffix := let base := _label_key labels in if String.eqb base "" then "" else "{" ++ base ++ "}" in
  (List.map (fun e => bucket (str_int (fst e)) (snd e)) (combine (buckets h) (bucket_counts s))
   ++ [bucket "+Inf" (total s); (histogram_name h ++ "_sum" ++ suffix ++ " " ++ sum_text (sum s))%string;
       (histogram_name h ++ "_count" ++ suffix ++ " " ++ str_int (total s))%string])%list.

Definition render_histogram (h : Histogram) : list string :=
  (header_lines (histogram_name h) (histogram_documentation h) "histogram"
   ++ flat_map (fun e => bucket_lines h (fst e) (snd e)) (series h))%list.

Definition render_metrics (collectors : list Metric) (durations : Histogram) : string :=
  (join NL (flat_map render collectors ++ render_histogram durations)%list ++ NL)%string.

End Histograms.

(** *** One series per label set *)

(** Names are identifiers, values hold no quote. *)
Definition plain_label (e : string * string) : Prop :=
  ~ In "="%char (chars (fst e)) /\ ~ In (char_of 34) (chars (snd e)).

Lemma until_char c (a b r s : list ascii) : ~ In c a -> ~ In c b -> (a ++ c :: r = b ++ c :: s)%list -> a = b /\ r = s.
Proof.
  revert b. induction a as [|x a IH]; intros [|y b] Na Nb E; cbn in *.
  - by injection E.
  - injection E as <- _. tauto.
  - injection E as -> _. tauto.
  - injection E as <- E. destruct (IH b) as [-> ->]; tauto.
Qed.

Lemma label_chars e rest : chars (fst e ++ "=" ++ DQ ++ snd e ++ DQ ++ rest)
  = (chars (fst e) ++ "="%char :: char_of 34 :: chars (snd e) ++ char_of 34 :: chars rest)%list.
Proof. by rewrite !chars_app. Qed.

(** Counters of different plain label sets are different entries: the key
    determines the labels. *)
Lemma label_key_injective l l' : Forall plain_label l -> Forall plain_label l' -> _label_key l = _label_key l' -> l = l'.
Proof.
  unfold _label_key. intros F. revert l'. induction F as [|[n v] l [N V] F IH]; intros l' F' E.
  - destruct F' as [|[n v] l' _ _]; [done|]. exfalso. apply (f_equal chars) in E. destruct l'; cbn -[chars] in E;
      rewrite ?chars_app in E; cbn in E; by destruct (chars n).
  - destruct F' as [|[n' v'] l' [N' V'] F'].
    { exfalso. apply (f_equal chars) in E. destruct l; cbn -[chars] in E; rewrite ?chars_app in E; cbn in E; by destruct (chars n). }
    assert (J : forall n v (l : list (string * string)), exists t, chars (join "," (List.map (fun e => fst e ++ "=" ++ DQ ++ snd e ++ DQ) ((n, v) :: l)))
      = (chars n ++ "="%char :: char_of 34 :: chars v ++ char_of 34 :: t)%list
        /\ (l = [] -> t = []) /\ (l <> [] -> t = ","%char :: chars (join "," (List.map (fun e => fst e ++ "=" ++ DQ ++ snd e ++ DQ) l)))).
    { clear. intros n v [|e l]; cbn [List.map join].
      - exists []. split_and!; [|done|done]. rewrite !chars_app. done.
      - exists (","%char :: chars (join "," (List.map (fun e => fst e ++ "=" ++ DQ ++ snd e ++ DQ) (e :: l)))).
        split_and!; [|done|done]. cbn [List.map join fst snd]. rewrite !chars_app, <- !app_assoc. cbn. by rewrite <- ?app_assoc. }
    destruct (J n v l) as (t & T & T0 & T1). destruct (J n' v' l') as (t' & T' & T0' & T1').
    apply (f_equal chars) in E. rewrite T, T' in E. cbn in N, V, N', V'.
    apply until_char in E as [En E]; [|done|done]. injection E as E. apply until_char in E as [Ev E]; [|done|done].
    apply chars_inj in En, Ev. subst n' v'. f_equal.
    destruct l as [|e l], l' as [|e' l'].
    + done.
    + rewrite T0, T1' in E by done. done.
    + rewrite T1, T0' in E by done. done.
    + rewrite T1, T1' in E by done. injection E as E. apply chars_inj in E. by apply IH.
Qed.

(** Nothing escapes a quote in a value, so that a request for a path with quotes
    in it can count under the labels of another. *)
Lemma quoted_labels_collide :
  _label_key [("path", "/x" ++ DQ ++ ",status=" ++ DQ ++ "200")] = _label_key [("path", "/x"); ("status", "200")].
Proof. reflexivity. Qed.

(** A plain label set reads its own counter. *)
Lemma inc_own amount l v : inc amount l v !! _label_key l = Some (default 0 (v !! _label_key l) + amount).
Proof. apply lookup_insert_eq. Qed.

Lemma inc_other amount l l' v : Forall plain_label l -> Forall plain_label l' -> l <> l' ->
  inc amount l v !! _label_key l' = v !! _label_key l'.
Proof. intros F F' N. apply lookup_insert_ne. intros E. by apply N, label_key_injective. Qed.

(** Every counter is one line of the text. *)
Lemma render_lists m key n : values m !! key = Some n -> In (sample_line (metric_name m) key (float_str n)) (render m).
Proof.
  intros L. unfold render. apply in_or_app. right. apply in_map_iff. exists (key, n). split; [done|].
  apply list_elem_of_In. rewrite sort_by_perm. by apply elem_of_map_to_list.
Qed.
