(* ===== verification/Utf8.v ===== *)
(** * UTF-8

    [bytes.decode("utf-8", errors="replace")] as Python decodes, and the last
    characters of a text.  A text is its UTF-8 bytes, so decoding keeps valid
    input and puts U+FFFD in the place of every maximal part that begins a
    sequence and does not complete it. *)

From Stdlib Require Import ZArith Lia Ascii String List Bool.
From stdpp Require Import base tactics list strings.
From S2P Require Import Prelude PyStr.

Local Open Scope nat_scope.

(** U+FFFD *)
Definition REPLACEMENT : list ascii := [char_of 239; char_of 191; char_of 189].

(** What may follow a leading byte: the range of the next byte and how many
    bytes come. *)
Inductive Lead := Single | Sequence (lo hi more : nat) | NoLead.

Definition lead (c : ascii) : Lead :=
  if in_range 0 127 c then Single
  else if in_range 194 223 c then Sequence 128 191 1
  else if in_range 224 224 c then Sequence 160 191 2
  else if in_range 237 237 c then Sequence 128 159 2
  else if in_range 225 239 c then Sequence 128 191 2
  else if in_range 240 240 c then Sequence 144 191 3
  else if in_range 241 243 c then Sequence 128 191 3
  else if in_range 244 244 c then Sequence 128 143 3
  else NoLead.

Definition continuation (c : ascii) : bool := in_range 128 191 c.

(** [held] are the bytes of the sequence under way, [more] how many it lacks. *)
Fixpoint decode (held : list ascii) (lo hi more : nat) (l : list ascii) : list ascii :=
  match l with
  | [] => match held with [] => [] | _ => REPLACEMENT end
  | c :: r =>
      let start := match lead c with
                   | Single => c :: decode [] 0 0 0 r
                   | Sequence lo' hi' more' => decode [c] lo' hi' more' r
                   | NoLead => REPLACEMENT ++ decode [] 0 0 0 r
                   end in
      match held with
      | [] => start
      | _ => if in_range lo hi c
             then match more with
                  | 1 => held ++ c :: decode [] 0 0 0 r
                  | _ => decode (held ++ [c]) 128 191 (pred more) r
                  end
             else REPLACEMENT ++ start
      end
  end%list.

Definition decode_replace (s : string) : string := text (decode [] 0 0 0 (chars s)).

(** [s[-n:]]: the last [n] characters; a character starts at every byte that is
    no continuation. *)
Definition points (l : list ascii) : nat := List.length (List.filter (fun c => negb (continuation c)) l).

Fixpoint last_bytes (n : nat) (l : list ascii) : list ascii :=
  if points l <=? n then drop_while continuation l else match l with [] => [] | _ :: r => last_bytes n r end.

Definition last_points (n : nat) (s : string) : string := text (last_bytes n (chars s)).

(** ** Valid text *)

(** The sequences [decode] completes. *)
Inductive utf8_text : list ascii -> Prop :=
| utf8_nil : utf8_text []
| utf8_char c r : lead c = Single -> utf8_text r -> utf8_text (c :: r)
| utf8_sequence c lo hi more d tail r :
    lead c = Sequence lo hi more -> in_range lo hi d = true ->
    List.length tail = pred more -> Forall (fun x => continuation x = true) tail -> utf8_text r ->
    utf8_text (c :: d :: tail ++ r).

Lemma lead_more c lo hi more : lead c = Sequence lo hi more -> 1 <= more <= 3.
Proof.
  unfold lead. repeat (destruct (in_range _ _ c); [intros [= <- <- <-]; lia || discriminate|]). discriminate.
Qed.

Lemma lead_range c lo hi more d : lead c = Sequence lo hi more -> in_range lo hi d = true -> continuation d = true.
Proof.
  unfold lead, continuation, in_range.
  repeat (match goal with |- (if ?b then _ else _) = _ -> _ => destruct b; [intros [= <- <- <-]; intros ?; bools; apply andb_true_iff; rewrite ?Nat.leb_le in *; lia || discriminate|] end).
  discriminate.
Qed.

Lemma utf8_app a b : utf8_text a -> utf8_text b -> utf8_text (a ++ b).
Proof.
  induction 1 as [|c r L _ IH|c lo hi more d tail r L D N F _ IH]; intros Hb; [done|by apply utf8_char; auto|].
  cbn. rewrite <- app_assoc. eapply utf8_sequence; eauto.
Qed.

Lemma utf8_replacement l : utf8_text l -> utf8_text (REPLACEMENT ++ l).
Proof. intros H. apply (utf8_sequence _ 128 191 2 _ [char_of 189] l); by repeat constructor. Qed.

(** The bytes held are the beginning of a sequence that lacks [more]. *)
Inductive holding : list ascii -> nat -> nat -> nat -> Prop :=
| holding_lead c lo hi more : lead c = Sequence lo hi more -> holding [c] lo hi more
| holding_more c lo hi n d tail more :
    lead c = Sequence lo hi n -> in_range lo hi d = true -> Forall (fun x => continuation x = true) tail ->
    S (List.length tail) + more = n -> 1 <= more -> holding (c :: d :: tail) 128 191 more.

Lemma holding_done held lo hi c : holding held lo hi 1 -> in_range lo hi c = true ->
  forall r, utf8_text r -> utf8_text (held ++ c :: r).
Proof.
  intros H D r Hr. inversion H as [x lo' hi' n L|x lo' hi' n d tail n' L D' F N P]; subst; cbn.
  - by apply (utf8_sequence x lo hi 1 c [] r).
  - change (d :: tail ++ c :: r)%list with (d :: (tail ++ c :: r))%list.
    replace (tail ++ c :: r)%list with ((tail ++ [c]) ++ r)%list by by rewrite <- app_assoc.
    eapply utf8_sequence; [exact L|done| |by apply Forall_app; split; [|repeat constructor]|done].
    rewrite length_app. cbn. lia.
Qed.

Lemma holding_next held lo hi more c : holding held lo hi (S (S more)) -> in_range lo hi c = true ->
  holding (held ++ [c]) 128 191 (S more).
Proof.
  intros H D. inversion H as [x lo' hi' n L|x lo' hi' n d tail n' L D' F N P]; subst; cbn.
  - eapply holding_more; [exact L|done|constructor|cbn; lia|lia].
  - eapply (holding_more x lo' hi' _ d (tail ++ [c])); [exact L|done|by apply Forall_app; split; [|repeat constructor]| |lia].
    rewrite length_app. cbn. lia.
Qed.

Lemma holding_more_pos held lo hi more : holding held lo hi more -> 1 <= more.
Proof. destruct 1; [|done]. by apply lead_more in H as [? ?]. Qed.

(** Decoding gives valid text, whatever the bytes are. *)
Lemma decode_valid l : forall held lo hi more, held = [] \/ holding held lo hi more -> utf8_text (decode held lo hi more l).
Proof.
  induction l as [|c r IH]; intros held lo hi more Hh; cbn [decode].
  - destruct held; [constructor|]. apply (utf8_replacement []). constructor.
  - assert (Start : utf8_text match lead c with
                   | Single => c :: decode [] 0 0 0 r
                   | Sequence lo' hi' more' => decode [c] lo' hi' more' r
                   | NoLead => REPLACEMENT ++ decode [] 0 0 0 r
                   end).
    { destruct (lead c) eqn:L; [by apply utf8_char; auto|apply IH; right; by constructor|apply utf8_replacement; auto]. }
    destruct held as [|h held]; [exact Start|]. destruct Hh as [|Hh]; [done|].
    destruct (in_range lo hi c) eqn:D; [|by apply utf8_replacement].
    pose proof (holding_more_pos _ _ _ _ Hh) as P. destruct more as [|[|more]]; [lia| |].
    + apply (holding_done _ _ _ _ Hh D). by auto.
    + apply IH. right. by apply holding_next with lo hi.
Qed.

Lemma decode_step held lo hi more d l : held <> [] -> in_range lo hi d = true ->
  decode held lo hi (S (S more)) (d :: l) = decode (held ++ [d]) 128 191 (S more) l.
Proof. intros Hh D. destruct held; [done|]. cbn [decode]. by rewrite D. Qed.

Lemma decode_tail lo hi d r : forall tail held more,
  List.length tail = pred more -> 1 <= more -> Forall (fun x => continuation x = true) tail ->
  held <> [] -> in_range lo hi d = true ->
  decode held lo hi more (d :: tail ++ r) = (held ++ d :: tail ++ decode [] 0 0 0 r)%list.
Proof.
  intros tail. revert lo hi d. induction tail as [|x tail IH]; intros lo hi d held more N P F Hh D.
  - assert (more = 1) as -> by (cbn in N; lia). cbn. destruct held; [done|]. by rewrite D.
  - destruct more as [|[|more]]; [lia|cbn in N; lia|]. inversion F; subst. rewrite decode_step by done. cbn [List.app].
    rewrite (IH 128 191 x (held ++ [d])%list (S more)); [by rewrite <- app_assoc|cbn in N |- *; lia|lia|done|by destruct held|done].
Qed.

Lemma decode_start c l lo hi more : lead c = Sequence lo hi more -> decode [] 0 0 0 (c :: l) = decode [c] lo hi more l.
Proof. intros L. cbn [decode]. by rewrite L. Qed.

(** Valid text is decoded to itself. *)
Lemma decode_id l : utf8_text l -> decode [] 0 0 0 l = l.
Proof.
  induction 1 as [|c r L _ IH|c lo hi more d tail r L D N F _ IH]; [done|cbn [decode]; by rewrite L, IH|].
  rewrite (decode_start _ _ _ _ _ L), (decode_tail lo hi d r tail [c] more); [by rewrite IH|done|by apply (lead_more _ _ _ _ L)|done|done|done].
Qed.

Lemma decode_replace_idemp s : decode_replace (decode_replace s) = decode_replace s.
Proof. unfold decode_replace. rewrite chars_text. f_equal. apply decode_id, decode_valid. by left. Qed.

(** At most [n] characters are left. *)
Lemma points_drop l : points (drop_while continuation l) = points l.
Proof.
  induction l as [|c l IH]; [reflexivity|]. cbn [drop_while]. destruct (continuation c) eqn:E; [|reflexivity].
  rewrite IH. unfold points. cbn [List.filter]. by rewrite E.
Qed.

Lemma last_points_bound n s : points (chars (last_points n s)) <= n.
Proof.
  unfold last_points. rewrite chars_text. induction (chars s) as [|c l IH]; cbn [last_bytes].
  - destruct (_ <=? _); cbn; lia.
  - destruct (_ <=? _) eqn:E; [|done]. rewrite points_drop. by apply Nat.leb_le.
Qed.

(** The last characters of valid text are valid text. *)
Lemma lead_starts c : lead c <> NoLead -> continuation c = false.
Proof.
  intros N. assert (G : implb (match lead c with NoLead => false | _ => true end) (negb (continuation c)) = true).
  { revert c N. intros c _. revert c. apply chars_forall. vm_compute. reflexivity. }
  destruct (lead c); [by apply negb_true_iff in G..|done].
Qed.

Lemma utf8_starts l : utf8_text l -> drop_while continuation l = l.
Proof. destruct 1 as [|c r L _|c lo hi more d tail r L _ _ _ _]; cbn; [done|by rewrite lead_starts; congruence..]. Qed.

Lemma last_bytes_keep n l : points l <= n -> last_bytes n l = drop_while continuation l.
Proof. intros H. apply Nat.leb_le in H. destruct l; cbn [last_bytes]; by rewrite H. Qed.

Lemma last_bytes_step n c l : last_bytes n (c :: l) = if points (c :: l) <=? n then drop_while continuation (c :: l) else last_bytes n l.
Proof. reflexivity. Qed.

Lemma last_bytes_rest n t r :
  Forall (fun c => continuation c = true) t -> last_bytes n (t ++ r) = last_bytes n r.
Proof.
  induction 1 as [|c t Hc _ IH]; [done|]. rewrite <- IH. cbn [List.app last_bytes].
  assert (P : points (c :: t ++ r) = points (t ++ r)) by (unfold points; cbn; by rewrite Hc).
  rewrite P. destruct (_ <=? n) eqn:E; [|done]. cbn [drop_while]. rewrite Hc.
  symmetry. apply last_bytes_keep. by apply Nat.leb_le.
Qed.

Lemma utf8_last n l : utf8_text l -> utf8_text (last_bytes n l).
Proof.
  induction 1 as [|c r L T IH|c lo hi more d tail r L D N F T IH]; [constructor| |]; rewrite last_bytes_step.
  - destruct (_ <=? n); [|done]. rewrite utf8_starts by by apply utf8_char. by apply utf8_char.
  - destruct (_ <=? n); [rewrite utf8_starts; by eapply utf8_sequence|].
    change (d :: tail ++ r)%list with ((d :: tail) ++ r)%list. rewrite last_bytes_rest; [done|].
    constructor; [by eapply lead_range|done].
Qed.

Lemma utf8_ascii l : forallb (in_range 0 127) l = true -> utf8_text l.
Proof.
  induction l as [|c l IH]; [constructor|]. cbn [forallb]. intros [Hc Hl]%andb_true_iff.
  apply utf8_char; [unfold lead; by rewrite Hc|by apply IH].
Qed.

Example decode_bad : decode_replace (String (char_of 195) (String (char_of 40) (String (char_of 195) (String (char_of 169) ""))))
  = text (REPLACEMENT ++ ["("%char; char_of 195; char_of 169]).
Proof. reflexivity. Qed.
