(* ===== verification/Urls.v ===== *)
(** * URLs

    [urllib.parse.urlsplit] and [urlunsplit] as the guest adapter uses them.
    Whether the text between brackets is an address is a parameter
    ([ipaddress]); hosts with other than ASCII characters are not modelled. *)

From Stdlib Require Import ZArith Lia Ascii String List Bool.
From stdpp Require Import base tactics list strings.
From S2P Require Import Prelude PyStr.

Local Open Scope string_scope.
Local Open Scope Z_scope.

Record SplitResult := MkUrl { scheme : string; netloc : string; url_path : string; query : string; fragment : string }.

(** [l.partition(c)]: what is before and behind the first [c]. *)
Fixpoint cut (p : ascii -> bool) (l : list ascii) : list ascii * option (list ascii) :=
  match l with
  | [] => ([], None)
  | x :: r => if p x then ([], Some r) else let '(a, b) := cut p r in (x :: a, b)
  end.

Definition before (c : ascii) (l : list ascii) : list ascii := fst (cut (Ascii.eqb c) l).
Definition behind (c : ascii) (l : list ascii) : list ascii := default [] (snd (cut (Ascii.eqb c) l)).
Definition has (c : ascii) (l : list ascii) : bool := existsb (Ascii.eqb c) l.

(** [l.rpartition(c)[2]] *)
Definition behind_last (c : ascii) (l : list ascii) : list ascii := List.last (split_chars c l) [].

Definition scheme_char (c : ascii) : bool := is_alnum c || existsb (Ascii.eqb c) (chars "+-.").
Definition is_alpha (c : ascii) : bool := is_lower c || is_upper c.

(** The text as [urlsplit] reads it: leading controls and blanks, tabs and line ends go. *)
Definition url_chars (url : string) : list ascii :=
  List.filter (fun c => negb (in_range 9 10 c || in_range 13 13 c))
    (drop_while (in_range 0 32) (chars url)).

Definition split_scheme (l : list ascii) : list ascii * list ascii :=
  match cut (Ascii.eqb ":") l with
  | ((c :: _) as front, Some rest) =>
      if is_alpha c && forallb scheme_char front then (List.map lower_char front, rest) else ([], l)
  | _ => ([], l)
  end.

Definition is_delimiter (c : ascii) : bool := existsb (Ascii.eqb c) (chars "/?#").

(** The text up to the first delimiter, and the rest with it. *)
Fixpoint split_netloc (l : list ascii) : list ascii * list ascii :=
  match l with
  | [] => ([], [])
  | x :: r => if is_delimiter x then ([], l) else let '(a, b) := split_netloc r in (x :: a, b)
  end.

(** [str.isdigit] of a port and its value. *)
Definition int_of_digits (l : list ascii) : Z :=
  fold_left (fun n c => 10 * n + (Z.of_nat (nat_of_ascii c) - 48)) l 0.

Section Urls.
(** [ipaddress.ip_address] accepts the text between the brackets. *)
Context (bracketed_host : string -> bool).

Definition host_text (netloc : list ascii) : list ascii * list ascii :=
  let hostinfo := behind_last "@" netloc in
  if has "[" hostinfo then
    let bracketed := behind "[" hostinfo in
    (before "]" bracketed, behind ":" (behind "]" bracketed))
  else (before ":" hostinfo, behind ":" hostinfo).

(** [None] is the [ValueError]. *)
Definition urlsplit (url : string) : option SplitResult :=
  let '(sch, rest) := split_scheme (url_chars url) in
  let '(net, rest) := match rest with
                      | a :: b :: r => if Ascii.eqb a "/" && Ascii.eqb b "/" then split_netloc r else ([], rest)
                      | _ => ([], rest)
                      end in
  if xorb (has "[" net) (has "]" net) then None
  else if has "[" net && negb (bracketed_host (text (before "]" (behind "[" net)))) then None
  else
    let front := before "#" rest in
    Some (MkUrl (text sch) (text net) (text (before "?" front)) (text (behind "?" front)) (text (behind "#" rest))).

(** [parts.hostname]: without a zone it is lower-cased. *)
Definition hostname_of (u : SplitResult) : option string :=
  match fst (host_text (chars (netloc u))) with
  | [] => None
  | h => let '(a, z) := cut (Ascii.eqb "%") h in
         Some (text (List.map lower_char a ++ match z with Some zone => "%"%char :: zone | None => [] end)%list)
  end.

(** [parts.port]: [Err] is the [ValueError]. *)
Definition port_of (u : SplitResult) : res string (option Z) :=
  match snd (host_text (chars (netloc u))) with
  | [] => Ok None
  | p =>
      if forallb is_digit p then
        if int_of_digits p <=? 65535 then Ok (Some (int_of_digits p)) else Err "Port out of range 0-65535"
      else Err ("Port could not be cast to integer value as " ++ SQ ++ text p ++ SQ)
  end.

End Urls.

Definition uses_netloc : list string :=
  [""; "ftp"; "http"; "gopher"; "nntp"; "telnet"; "imap"; "wais"; "file"; "mms"; "https"; "shttp"; "snews";
   "prospero"; "rtsp"; "rtspu"; "rsync"; "svn"; "svn+ssh"; "sftp"; "nfs"; "git"; "git+ssh"; "ws"; "wss"].

Definition urlunsplit (u : SplitResult) : string :=
  let with_netloc := negb (String.eqb (netloc u) "")
                     || (negb (String.eqb (scheme u) "") && bool_decide (scheme u ∈ uses_netloc)
                         && negb (startswith (url_path u) "//")) in
  let path := if with_netloc then
                "//" ++ netloc u ++ (if negb (String.eqb (url_path u) "") && negb (startswith (url_path u) "/") then "/" else "")
                ++ url_path u
              else url_path u in
  (if String.eqb (scheme u) "" then "" else scheme u ++ ":") ++ path
  ++ (if String.eqb (query u) "" then "" else "?" ++ query u)
  ++ (if String.eqb (fragment u) "" then "" else "#" ++ fragment u).

(** ** What a URL of known parts is read as *)

Lemma cut_none p l : forallb (fun c => negb (p c)) l = true -> cut p l = (l, None).
Proof. induction l as [|c l IH]; cbn; [done|]. intros [H1%negb_true_iff H2]%andb_true_iff. by rewrite H1, IH. Qed.

Lemma cut_first p l c r : forallb (fun c => negb (p c)) l = true -> p c = true -> cut p (l ++ c :: r) = (l, Some r).
Proof.
  intros H Hc. induction l as [|x l IH]; cbn in *; [by rewrite Hc|].
  apply andb_true_iff in H as [H1%negb_true_iff H2]. by rewrite H1, IH.
Qed.

Lemma split_netloc_first l r :
  forallb (fun c => negb (is_delimiter c)) l = true -> (r = [] \/ exists c t, r = c :: t /\ is_delimiter c = true) ->
  split_netloc (l ++ r) = (l, r).
Proof.
  intros H Hr. induction l as [|x l IH]; cbn in *.
  - destruct Hr as [->|(c & t & -> & E)]; [done|]. cbn. by rewrite E.
  - apply andb_true_iff in H as [H1%negb_true_iff H2]. by rewrite H1, IH.
Qed.
