(* ===== verification/Auth.v ===== *)
(** * Authentication and sessions

    [app/auth/service.py], [app/auth/permissions.py], [app/auth/dependencies.py],
    [app/core/security.py] and the session endpoints of [app/api/v1/auth.py]:
    roles and permissions, passwords, tokens, and the registry of refresh
    tokens with its rotation and theft detection.

    PyJWT, scrypt and base64 are parameters.  A database statement sees the
    rows committed when it started: [seen] says which rows an UPDATE finds. *)

From Stdlib Require Import ZArith Lia Ascii String List Bool.
From stdpp Require Import base tactics list strings gmap relations.
From S2P Require Import Prelude PyStr Errors AuditTrail World.

Local Open Scope string_scope.
Local Open Scope Z_scope.

(** ** Roles and permissions *)

Inductive Permission :=
| INFRASTRUCTURE_READ | PROVISIONING_VALIDATE | PROVISIONING_SUBMIT | JOBS_READ | JOBS_RETRY | JOBS_CANCEL
| AUDIT_READ | ADMIN_VCENTERS | ADMIN_CERTIFICATES | ADMIN_APPLICATIONS | ADMIN_CREDENTIALS | ADMIN_SETTINGS.

#[export] Instance Permission_eq_dec : EqDecision Permission.
Proof. solve_decision. Defined.

Definition permission_value (p : Permission) : string :=
  match p with
  | INFRASTRUCTURE_READ => "infrastructure.read" | PROVISIONING_VALIDATE => "provisioning.validate"
  | PROVISIONING_SUBMIT => "provisioning.submit" | JOBS_READ => "jobs.read" | JOBS_RETRY => "jobs.retry"
  | JOBS_CANCEL => "jobs.cancel" | AUDIT_READ => "audit.read" | ADMIN_VCENTERS => "admin.vcenters"
  | ADMIN_CERTIFICATES => "admin.certificates" | ADMIN_APPLICATIONS => "admin.applications"
  | ADMIN_CREDENTIALS => "admin.credentials" | ADMIN_SETTINGS => "admin.settings"
  end.

Definition ALL_PERMISSIONS : list Permission :=
  [INFRASTRUCTURE_READ; PROVISIONING_VALIDATE; PROVISIONING_SUBMIT; JOBS_READ; JOBS_RETRY; JOBS_CANCEL;
   AUDIT_READ; ADMIN_VCENTERS; ADMIN_CERTIFICATES; ADMIN_APPLICATIONS; ADMIN_CREDENTIALS; ADMIN_SETTINGS].

Definition ROLE_VIEWER : list Permission := [INFRASTRUCTURE_READ; JOBS_READ; AUDIT_READ].
Definition ROLE_OPERATOR : list Permission :=
  (ROLE_VIEWER ++ [PROVISIONING_VALIDATE; PROVISIONING_SUBMIT; JOBS_RETRY; JOBS_CANCEL])%list.
Definition ROLE_ADMINISTRATOR : list Permission := ALL_PERMISSIONS.

(** [ROLE_PERMISSIONS.get(role, frozenset())] *)
Definition ROLE_PERMISSIONS (role : string) : list Permission :=
  if String.eqb role "viewer" then ROLE_VIEWER
  else if String.eqb role "operator" then ROLE_OPERATOR
  else if String.eqb role "administrator" then ROLE_ADMINISTRATOR
  else [].

Definition roles_grant (roles : list string) (p : Permission) : bool :=
  existsb (fun role => bool_decide (p ∈ ROLE_PERMISSIONS role)) roles.

(** The granted permissions as the sorted texts the client receives: the
    enumeration filtered, in the order of its texts. *)
Definition SORTED_PERMISSIONS : list Permission :=
  [ADMIN_APPLICATIONS; ADMIN_CERTIFICATES; ADMIN_CREDENTIALS; ADMIN_SETTINGS; ADMIN_VCENTERS; AUDIT_READ;
   INFRASTRUCTURE_READ; JOBS_CANCEL; JOBS_READ; JOBS_RETRY; PROVISIONING_SUBMIT; PROVISIONING_VALIDATE].

Definition permissions_for_roles (roles : list string) : list string :=
  List.map permission_value (List.filter (roles_grant roles) SORTED_PERMISSIONS).

(** ** Rows *)

Record User := MkUser {
  uid : string;
  user_login : string;
  password_hash : option string;
  is_active : bool;
  role_names : list string;
  last_login_at : option Z;
}.

#[export] Instance eta_user : Eta User := fun u =>
  MkUser (uid u) (user_login u) (password_hash u) (is_active u) (role_names u) (last_login_at u).

Record RefreshToken := MkRefresh {
  jti : string;
  family_id : string;
  token_user : string;
  expires_at : Z;
  used_at : option Z;
  revoked_at : option Z;
}.

#[export] Instance eta_refresh : Eta RefreshToken := fun r =>
  MkRefresh (jti r) (family_id r) (token_user r) (expires_at r) (used_at r) (revoked_at r).

Record AuthDb := MkAuthDb { users : list User; tokens : list RefreshToken }.

#[export] Instance eta_authdb : Eta AuthDb := fun d => MkAuthDb (users d) (tokens d).

Record IssuedTokens := MkIssued { access_token : string; access_expires_at : Z; refresh_token : string }.

(** ** Errors *)

(** [RefreshTokenReuseError] is an [AuthenticationError] with the user;
    [MissingClaim] is the [KeyError] of [payload["sub"]]. *)
Inductive AuthFailure :=
| NotAuthenticated (message : string)
| RefreshTokenReuse (user : string)
| NotAuthorized (message : string)
| TooManyRequests (message : string)
| MissingClaim (name : string).

(** The application error the client receives; [None] is the [KeyError]. *)
Definition auth_app_error (f : AuthFailure) : option AppError :=
  match f with
  | NotAuthenticated m => Some (MkAppError AuthenticationError m [])
  | RefreshTokenReuse _ => Some (MkAppError AuthenticationError "Session was revoked. Please sign in again." [])
  | NotAuthorized m => Some (MkAppError AuthorizationError m [])
  | TooManyRequests m => Some (MkAppError RateLimitError m [])
  | MissingClaim _ => None
  end.

(** ** Times in microseconds *)

Definition SECOND : Z := 1000000.
Definition MINUTE : Z := 60 * SECOND.
Definition DAY : Z := 86400 * SECOND.
Definition _CONCURRENT_REFRESH_GRACE : Z := 10 * SECOND.
(** [int(moment.timestamp())] *)
Definition timestamp (t : Z) : Z := t / SECOND.

Inductive JwtFault := ExpiredSignatureError | InvalidTokenError.

Record AuthSettings := MkAuthSettings {
  access_token_expire_minutes : Z;
  refresh_token_expire_minutes : Z;
  rate_limit_login_per_minute : Z;
}.

Section Auth.

(** PyJWT with the secret key of the settings, HS256 and the issuer; the
    primitives of [hashlib] and [base64]; [str(v)] of a claim. *)
Context (jwt_encode : list (string * json) -> string).
Context (jwt_decode : Z -> string -> res JwtFault (list (string * json))).
Context (scrypt : string -> string -> Z -> Z -> Z -> Z -> option string).
Context (b64encode : string -> string) (b64decode : string -> option string).
Context (parse_int : string -> option Z).
Context (str_json : json -> string).
Context (settings : AuthSettings).

(** ** Passwords *)

Definition _SCRYPT_N : Z := 16384.
Definition _SCRYPT_R : Z := 8.
Definition _SCRYPT_P : Z := 1.
Definition _DKLEN : Z := 64.

(** The digest is that of [hashlib.scrypt]; [None] is its [ValueError]. *)
Definition hash_password (salt password : string) : option string :=
  option_map (fun digest =>
      "scrypt$" ++ str_int _SCRYPT_N ++ "$" ++ str_int _SCRYPT_R ++ "$" ++ str_int _SCRYPT_P ++ "$"
      ++ b64encode salt ++ "$" ++ b64encode digest)
    (scrypt password salt _SCRYPT_N _SCRYPT_R _SCRYPT_P _DKLEN).

Definition verify_password (password stored : string) : bool :=
  match split_on "$"%char stored with
  | [algorithm; n; r; p; salt64; digest64] =>
      if negb (String.eqb algorithm "scrypt") then false
      else match b64decode digest64, b64decode salt64, parse_int n, parse_int r, parse_int p with
           | Some expected, Some salt, Some n, Some r, Some p =>
               match scrypt password salt n r p (Z.of_nat (String.length expected)) with
               | Some actual => String.eqb actual expected
               | None => false
               end
           | _, _, _, _, _ => false
           end
  | _ => false
  end.

(** ** Tokens *)

Definition claims_of (subject token_type jti_ : string) (now expires : Z) (extra : list (string * json))
    : list (string * json) :=
  ([("sub", JStr subject); ("type", JStr token_type); ("jti", JStr jti_); ("iat", JNum (timestamp now));
    ("exp", JNum (timestamp expires)); ("iss", JStr "infraops")] ++ extra)%list.

(** Token and expiry; the random identifier [jti_] is given. *)
Definition _create_token (subject token_type jti_ : string) (now minutes : Z) (extra : list (string * json))
    : string * Z :=
  let expires := now + minutes * MINUTE in
  (jwt_encode (claims_of subject token_type jti_ now expires extra), expires).

Definition create_access_token (subject : string) (roles : list string) (jti_ : string) (now : Z) : string * Z :=
  _create_token subject "access" jti_ now (access_token_expire_minutes settings)
    [("roles", JArr (List.map JStr roles))].

Definition create_refresh_token (subject jti_ : string) (now : Z) : string * Z :=
  _create_token subject "refresh" jti_ now (refresh_token_expire_minutes settings) [].

Definition decode_token (now : Z) (token expected_type : string) : res AuthFailure (list (string * json)) :=
  match jwt_decode now token with
  | Err ExpiredSignatureError => Err (NotAuthenticated "Session token has expired.")
  | Err InvalidTokenError => Err (NotAuthenticated "Invalid session token.")
  | Ok payload =>
      match assoc "type" payload with
      | Some (JStr t) => if String.eqb t expected_type then Ok payload else Err (NotAuthenticated "Invalid token type.")
      | _ => Err (NotAuthenticated "Invalid token type.")
      end
  end.

(** [str(payload.get(k) or "")] *)
Definition claim_or_empty (k : string) (payload : list (string * json)) : string :=
  match assoc k payload with
  | Some (JStr s) => s
  | Some v => if truthy v then str_json v else ""
  | None => ""
  end.

(** [str(payload.get(k))] *)
Definition claim_text (k : string) (payload : list (string * json)) : string :=
  match assoc k payload with
  | Some (JStr s) => s
  | Some v => str_json v
  | None => "None"
  end.

(** ** The service *)

Definition user_named (name : string) (db : AuthDb) : option User :=
  find_first (fun u => String.eqb (user_login u) name) (users db).

(** An identifier that is no UUID matches no row either. *)
Definition get_active_user (id : string) (db : AuthDb) : option User :=
  match find_first (fun u => String.eqb (uid u) id) (users db) with
  | Some u => if is_active u then Some u else None
  | None => None
  end.

Definition authenticate (db : AuthDb) (name password : string) : res AuthFailure User :=
  let invalid := Err (NotAuthenticated "Invalid username or password.") in
  match user_named name db with
  | None => invalid
  | Some u =>
      if negb (is_active u) then invalid
      else match password_hash u with
           | None => invalid
           | Some h => if String.eqb h "" then invalid
                       else if verify_password password h then Ok u else invalid
           end
  end.

(** The random identifiers of a call: of the two tokens and of a new family. *)
Record Fresh := MkFresh { access_jti : string; refresh_jti : string; new_family : string }.

Definition issue_tokens (now : Z) (fresh : Fresh) (u : User) (family : option string) (db : AuthDb)
    : IssuedTokens * AuthDb :=
  let '(access, expires) := create_access_token (uid u) (role_names u) (access_jti fresh) now in
  let '(refresh, refresh_expires) := create_refresh_token (uid u) (refresh_jti fresh) now in
  let fam := match family with Some f => if String.eqb f "" then new_family fresh else f | None => new_family fresh end in
  (MkIssued access expires refresh,
   db <| tokens := (tokens db ++ [MkRefresh (refresh_jti fresh) fam (uid u) refresh_expires None None])%list |>).

Definition token_row (id : string) (db : AuthDb) : option RefreshToken :=
  find_first (fun t => String.eqb (jti t) id) (tokens db).

Definition revoke_row (now : Z) (t : RefreshToken) : RefreshToken :=
  match revoked_at t with None => t <| revoked_at := Some now |> | Some _ => t end.

Definition revoke_family (seen : RefreshToken -> bool) (now : Z) (family : string) (db : AuthDb) : AuthDb :=
  db <| tokens := List.map (fun t => if String.eqb (family_id t) family && seen t then revoke_row now t else t)
                    (tokens db) |>.

Definition use_row (now : Z) (t : RefreshToken) : RefreshToken :=
  match used_at t with None => t <| used_at := Some now |> | Some _ => t end.

Definition mark_used (now : Z) (id : string) (db : AuthDb) : AuthDb :=
  db <| tokens := List.map (fun t => if String.eqb (jti t) id
                                     then use_row now t else t) (tokens db) |>.

Definition rotate_refresh_token (seen : RefreshToken -> bool) (now : Z) (fresh : Fresh) (token : string) (db : AuthDb)
    : res AuthFailure (User * IssuedTokens) * AuthDb :=
  match decode_token now token "refresh" with
  | Err e => (Err e, db)
  | Ok payload =>
      match token_row (claim_or_empty "jti" payload) db with
      | None => (Err (NotAuthenticated "Session is no longer valid. Please sign in again."), db)
      | Some row =>
          if negb (String.eqb (token_user row) (claim_text "sub" payload)) then
            (Err (NotAuthenticated "Session is no longer valid. Please sign in again."), db)
          else if match revoked_at row with Some _ => true | None => false end then
            (Err (NotAuthenticated "Session was signed out. Please sign in again."), db)
          else if match used_at row with Some u => _CONCURRENT_REFRESH_GRACE <? now - u | None => false end then
            (Err (RefreshTokenReuse (token_user row)), revoke_family seen now (family_id row) db)
          else match get_active_user (token_user row) db with
               | None => (Err (NotAuthenticated "Account no longer active."), revoke_family seen now (family_id row) db)
               | Some u =>
                   let '(issued, db1) := issue_tokens now fresh u (Some (family_id row)) (mark_used now (jti row) db) in
                   (Ok (u, issued), db1)
               end
      end
  end.

Definition revoke_refresh_token (seen : RefreshToken -> bool) (now : Z) (token : string) (db : AuthDb)
    : option string * AuthDb :=
  match decode_token now token "refresh" with
  | Err _ => (None, db)
  | Ok payload =>
      match token_row (claim_or_empty "jti" payload) db with
      | None => (None, db)
      | Some row => (Some (token_user row), revoke_family seen now (family_id row) db)
      end
  end.

Definition purge_expired_refresh_tokens (now : Z) (db : AuthDb) : AuthDb :=
  db <| tokens := List.filter (fun t => negb (expires_at t <? now - DAY)) (tokens db) |>.

(** ** Authorization of a request *)

Definition _resolve_token (credentials : option string) : res AuthFailure string :=
  match credentials with
  | Some "" | None => Err (NotAuthenticated "Missing bearer token.")
  | Some t => Ok t
  end.

Definition get_current_user (now : Z) (credentials : option string) (db : AuthDb) : res AuthFailure User :=
  let? token := _resolve_token credentials in
  let? payload := decode_token now token "access" in
  match assoc "sub" payload with
  | None => Err (MissingClaim "sub")
  | Some _ =>
      match get_active_user (claim_text "sub" payload) db with
      | None => Err (NotAuthenticated "Account not found or inactive.")
      | Some u => Ok u
      end
  end.

Definition require_permission (p : Permission) (now : Z) (credentials : option string) (db : AuthDb)
    : res AuthFailure User :=
  let? u := get_current_user now credentials db in
  if roles_grant (role_names u) p then Ok u
  else Err (NotAuthorized ("Your roles (" ++ (match role_names u with [] => "none" | l => join ", " l end)
              ++ ") do not grant " ++ SQ ++ permission_value p ++ SQ ++ ".")).

(** ** The endpoints *)

Definition stamp_login (now : Z) (u : User) (db : AuthDb) : AuthDb :=
  db <| users := List.map (fun x => if String.eqb (uid x) (uid u) then x <| last_login_at := Some now |> else x)
                   (users db) |>.

(** [allowed_ip] and [allowed_user] are the answers of the rate limiter; the
    source address of the audit rows is not modelled. *)
Definition login (now : Z) (fresh : Fresh) (allowed_ip allowed_user : bool)
    (name password : string) (db : AuthDb) : res AuthFailure IssuedTokens * AuthDb * list AuditEvent :=
  if negb (allowed_ip && allowed_user)
  then (Err (TooManyRequests "Too many login attempts — try again shortly."), db, [])
  else match authenticate db name password with
       | Err e => (Err e, db, [audit_event "AUTH_LOGIN_FAILED" (Some name) "user" (Some name) None None None
                                 (Some "failure") [] None])
       | Ok u =>
           let '(issued, db1) := issue_tokens now fresh u None (purge_expired_refresh_tokens now db) in
           (Ok issued, stamp_login now u db1, [audit_event "AUTH_LOGIN" (Some (user_login u)) "user" (Some (user_login u)) None None None
                               (Some "success") [] None])
       end.

(** [POST /auth/refresh]: every outcome is committed. *)
Definition refresh_tokens (seen : RefreshToken -> bool) (now : Z) (fresh : Fresh) (cookie : option string) (db : AuthDb)
    : res AuthFailure IssuedTokens * AuthDb * list AuditEvent :=
  match cookie with
  | None | Some "" => (Err (NotAuthenticated "Missing refresh token."), db, [])
  | Some token =>
      match rotate_refresh_token seen now fresh token db with
      | (Ok (_, issued), db1) => (Ok issued, db1, [])
      | (Err (RefreshTokenReuse u), db1) =>
          (Err (RefreshTokenReuse u), db1,
           [audit_event "AUTH_REFRESH_REUSE_DETECTED" None "user" (Some u) None None None (Some "revoked")
              [("user_id", JStr u)] None])
      | (Err e, db1) => (Err e, db1, [])
      end
  end.

Definition logout (seen : RefreshToken -> bool) (now : Z) (cookie : option string) (db : AuthDb)
    : AuthDb * list AuditEvent :=
  let '(user, db1) := match cookie with
                      | None | Some "" => (None, db)
                      | Some token => revoke_refresh_token seen now token db
                      end in
  let name := match user with
              | Some u => option_map user_login (find_first (fun x => String.eqb (uid x) u) (users db1))
              | None => None
              end in
  (db1, [MkAudit "AUTH_LOGOUT" name None None None None None (Some "success") (JObj []) None]).

End Auth.
