(* ===== verification/AuthFacts.v ===== *)
(** * What sessions guarantee

    Theorems on [Auth.v]: a refresh token is good for ten seconds after its
    first rotation and then kills its family, a family once revoked stays so,
    authorization follows the account and the kind of the token; and the one
    interleaving in which a revocation misses a token. *)

From Stdlib Require Import ZArith Lia Ascii String List Bool.
From stdpp Require Import base tactics relations countable strings gmap list.
From S2P Require Import Prelude PyStr Errors AuditTrail World Auth.

Local Open Scope string_scope.
Local Open Scope Z_scope.

(** ** Steps of the session endpoints *)

(** What the service relies on of PyJWT: a token this service signed is
    accepted between its issue and its expiry, refused as expired afterwards,
    and never read as other claims. *)
Class JwtLaws (jwt_encode : list (string * json) -> string)
    (jwt_decode : Z -> string -> res JwtFault (list (string * json))) : Prop := {
  jwt_accepts now c iat exp :
    assoc "iss" c = Some (JStr "infraops") -> assoc "iat" c = Some (JNum iat) -> assoc "exp" c = Some (JNum exp) ->
    iat * SECOND <= now < exp * SECOND -> jwt_decode now (jwt_encode c) = Ok c;
  jwt_expires now c exp :
    assoc "iss" c = Some (JStr "infraops") -> assoc "exp" c = Some (JNum exp) ->
    exp * SECOND <= now -> jwt_decode now (jwt_encode c) = Err ExpiredSignatureError;
  jwt_nonempty c : jwt_encode c <> "";
  jwt_honest now c p : jwt_decode now (jwt_encode c) = Ok p -> p = c;
  jwt_deterministic now now' t p p' : jwt_decode now t = Ok p -> jwt_decode now' t = Ok p' -> p = p';
}.

Section Sessions.
Context (jwt_encode : list (string * json) -> string).
Context (jwt_decode : Z -> string -> res JwtFault (list (string * json))).
Context (scrypt : string -> string -> Z -> Z -> Z -> Z -> option string).
Context (b64encode : string -> string) (b64decode : string -> option string).
Context (parse_int : string -> option Z).
Context (str_json : json -> string).
Context (settings : AuthSettings).

Notation login := (login jwt_encode scrypt b64decode parse_int settings).
Notation refresh := (refresh_tokens jwt_encode jwt_decode str_json settings).
Notation rotate := (rotate_refresh_token jwt_encode jwt_decode str_json settings).
Notation logout := (logout jwt_decode str_json).
Notation require := (require_permission jwt_decode str_json).
Notation decode := (decode_token jwt_decode).
Notation access := (create_access_token jwt_encode settings).
Notation renewal := (create_refresh_token jwt_encode settings).

(** One request to the session endpoints, its new identifiers satisfying
    [fresh_ok] and its UPDATEs seeing whatever rows they may, or a change of
    the accounts from elsewhere. *)
Inductive session_step (fresh_ok : Fresh -> Prop) (db : AuthDb) : AuthDb -> Prop :=
| step_login now fresh ip_ok user_ok name pw :
    fresh_ok fresh -> session_step fresh_ok db (login now fresh ip_ok user_ok name pw db).1.2
| step_refresh seen now fresh cookie :
    fresh_ok fresh -> session_step fresh_ok db (refresh seen now fresh cookie db).1.2
| step_logout seen now cookie :
    session_step fresh_ok db (logout seen now cookie db).1
| step_accounts us :
    session_step fresh_ok db (db <| users := us |>).

(** ** Rows under the steps *)

Lemma rotate_cases seen now fresh tok db :
  (exists e, rotate seen now fresh tok db = (Err e, db))
  \/ (exists e row, In row (tokens db) /\ rotate seen now fresh tok db = (Err e, revoke_family seen now (family_id row) db))
  \/ (exists p row u fam exp issued,
        decode now tok "refresh" = Ok p /\ token_row (claim_or_empty str_json "jti" p) db = Some row
        /\ revoked_at row = None
        /\ match used_at row with Some t => now - t <= _CONCURRENT_REFRESH_GRACE | None => True end
        /\ (fam = family_id row \/ fam = new_family fresh)
        /\ rotate seen now fresh tok db
           = (Ok (u, issued), (mark_used now (jti row) db)
                <| tokens := (tokens (mark_used now (jti row) db)
                              ++ [MkRefresh (refresh_jti fresh) fam (uid u) exp None None])%list |>)).
Proof.
  unfold rotate_refresh_token. destruct (decode now tok "refresh") as [p|e] eqn:D; [|by left; eauto].
  destruct (token_row _ db) as [row|] eqn:R; [|by left; eauto].
  pose proof R as [I _]%find_first_some.
  destruct (negb _); [by left; eauto|].
  destruct (revoked_at row) eqn:V; [by left; eauto|].
  destruct (match used_at row with Some _ => _ | None => _ end) eqn:U; [by right; left; eauto|].
  destruct (get_active_user _ db) as [u|] eqn:A; [|by right; left; eauto].
  right; right. unfold issue_tokens, create_access_token, create_refresh_token, _create_token.
  exists p, row, u, (if String.eqb (family_id row) "" then new_family fresh else family_id row).
  do 2 eexists. split_and!; [done|exact R|exact V| | |reflexivity].
  - destruct (used_at row); [by apply Z.ltb_ge in U|done].
  - destruct (String.eqb (family_id row) ""); auto.
Qed.

Section RowInvariant.
Context (fresh_ok : Fresh -> Prop) (P : RefreshToken -> Prop).
Hypothesis revoke_keeps : forall now t, P t -> P (revoke_row now t).
Hypothesis use_keeps : forall now t, P t -> P (use_row now t).
Hypothesis issue_keeps : forall fresh fam user exp, fresh_ok fresh ->
  fam = new_family fresh \/ (exists row, P row /\ revoked_at row = None /\ fam = family_id row) ->
  P (MkRefresh (refresh_jti fresh) fam user exp None None).

Notation all db := (Forall P (tokens db)).

Lemma revoke_family_keeps seen now fam db : all db -> all (revoke_family seen now fam db).
Proof.
  intros H. apply Forall_map. eapply Forall_impl; [exact H|]. intros t Ht. cbn. case_match; auto.
Qed.

Lemma mark_used_keeps now id db : all db -> all (mark_used now id db).
Proof. intros H. apply Forall_map. eapply Forall_impl; [exact H|]. intros t Ht. cbn. case_match; auto. Qed.

Lemma purge_keeps now db : all db -> all (purge_expired_refresh_tokens now db).
Proof. intros H. cbn. apply List.Forall_forall. intros t [I _]%filter_In. by apply (proj1 (List.Forall_forall _ _) H). Qed.

Lemma refresh_keeps seen now fresh cookie db : fresh_ok fresh -> all db -> all (refresh seen now fresh cookie db).1.2.
Proof.
  intros F H. unfold refresh_tokens. destruct cookie as [tok|]; [|done]. destruct tok as [|c tok]; [done|].
  destruct (rotate_cases seen now fresh (String c tok) db)
    as [[e ->]|[(e & row & _ & ->)|(p & row & u & fam & exp & issued & _ & R & V & _ & Fam & ->)]].
  - by destruct e.
  - destruct e; cbn [fst snd]; by apply revoke_family_keeps.
  - apply find_first_some in R as [I _]. cbn. apply Forall_app. split; [by apply mark_used_keeps|].
    constructor; [|done]. apply issue_keeps; [done|]. destruct Fam as [->| ->]; [right|by left].
    exists row. split; [|done]. by apply (proj1 (List.Forall_forall _ _) H).
Qed.

Lemma session_keeps db db' : session_step fresh_ok db db' -> all db -> all db'.
Proof.
  intros [now fresh a b name pw F|seen now fresh cookie F|seen now cookie|us] H.
  - unfold Auth.login. destruct (negb _); [done|]. destruct (authenticate _ _ _ db name pw) as [u|e]; [|done].
    unfold issue_tokens, create_access_token, create_refresh_token, _create_token. cbn.
    apply Forall_app. split; [by apply (purge_keeps now)|]. constructor; [|done]. apply issue_keeps; auto.
  - by apply refresh_keeps.
  - unfold Auth.logout, revoke_refresh_token. destruct cookie as [[|c tok]|]; [done| |done].
    destruct (decode now _ "refresh"); [|done]. destruct (token_row _ db); [|done]. cbn.
    by apply revoke_family_keeps.
  - done.
Qed.

Lemma sessions_keep db db' : rtc (session_step fresh_ok) db db' -> all db -> all db'.
Proof. induction 1; [done|]. intros. by apply IHrtc, (session_keeps x). Qed.

End RowInvariant.

(** ** A token after its rotation *)

(** [jti] is the primary key of the table. *)
Definition keyed (db : AuthDb) : Prop := NoDup (List.map jti (tokens db)).

Lemma token_row_keyed id row db : keyed db -> In row (tokens db) -> jti row = id -> token_row id db = Some row.
Proof.
  intros K I <-. unfold token_row, keyed, find_first in *. induction (tokens db) as [|t l IH]; [done|]. cbn in *.
  apply NoDup_cons in K as [N K]. destruct I as [->|I]; [by rewrite String.eqb_refl|].
  destruct (String.eqb_spec (jti t) (jti row)) as [E|]; [|auto].
  destruct N. rewrite E. apply list_elem_of_In, in_map, I.
Qed.

Definition spent_row (id user family : string) (t0 : Z) (t : RefreshToken) : Prop :=
  jti t = id -> token_user t = user /\ family_id t = family /\ exists u, used_at t = Some u /\ u <= t0.

Definition dead_row (family : string) (t : RefreshToken) : Prop := family_id t = family -> revoked_at t <> None.

Lemma sessions_keep_spent id user family t0 db db' :
  rtc (session_step (fun f => refresh_jti f <> id)) db db' ->
  Forall (spent_row id user family t0) (tokens db) -> Forall (spent_row id user family t0) (tokens db').
Proof.
  apply sessions_keep.
  - intros now t H. unfold revoke_row. by destruct (revoked_at t).
  - intros now t H. unfold use_row. destruct (used_at t) eqn:U; [done|].
    intros E. destruct (H E) as (_ & _ & u & E' & _). congruence.
  - by intros fresh fam u exp F _ E.
Qed.

Lemma sessions_keep_dead family db db' :
  rtc (session_step (fun f => new_family f <> family)) db db' ->
  Forall (dead_row family) (tokens db) -> Forall (dead_row family) (tokens db').
Proof.
  apply sessions_keep.
  - intros now t H E. unfold revoke_row in *. destruct (revoked_at t) eqn:V; [congruence|done].
  - intros now t H E. unfold use_row in *. destruct (used_at t); [by apply H|exact (H E)].
  - intros fresh fam u exp F [->|(row & D & V & ->)] E; [done|]. by apply D in E.
Qed.

(** The revocation sees every row of the family there is. *)
Definition sees_family (seen : RefreshToken -> bool) (family : string) (db : AuthDb) : Prop :=
  forall t, In t (tokens db) -> family_id t = family -> seen t = true.

Lemma revoke_family_kills seen now family db :
  sees_family seen family db -> Forall (dead_row family) (tokens (revoke_family seen now family db)).
Proof.
  intros A. apply List.Forall_map, List.Forall_forall. intros t I. cbn.
  destruct (String.eqb_spec (family_id t) family) as [E|N]; [|by intros ?]. rewrite (A t I E). cbn.
  intros _. unfold revoke_row. destruct (revoked_at t) eqn:V; [rewrite V; discriminate|discriminate].
Qed.

(** No presentation of [tok] rotates, and none changes the table. *)
Definition refused (tok : string) (db : AuthDb) : Prop :=
  forall seen now fresh, exists e, refresh seen now fresh (Some tok) db = (Err e, db, []).

(** Every token whose row is of the family is refused. *)
Definition family_refused (family : string) (db : AuthDb) : Prop :=
  forall now tok p row, decode now tok "refresh" = Ok p -> token_row (claim_or_empty str_json "jti" p) db = Some row ->
    family_id row = family -> refused tok db.

Lemma decode_payload now tok kind p : decode now tok kind = Ok p -> jwt_decode now tok = Ok p.
Proof. unfold decode_token. repeat case_match; by intros [= <-]. Qed.

Lemma decode_refuses now tok kind e : decode now tok kind = Err e -> exists m, e = NotAuthenticated m.
Proof. unfold decode_token. repeat case_match; intros E; simplify_eq; eauto. Qed.

Lemma dead_family_refused `{!JwtLaws jwt_encode jwt_decode} family db :
  Forall (dead_row family) (tokens db) -> family_refused family db.
Proof.
  intros H now tok p row D R F seen now' fresh. unfold refresh_tokens.
  destruct tok as [|c tok]; [by eauto|]. unfold rotate_refresh_token.
  destruct (decode now' _ "refresh") as [p'|e] eqn:D'; [|apply decode_refuses in D' as [m ->]; eauto].
  assert (p' = p) as -> by (apply decode_payload in D, D'; by apply (jwt_deterministic (jwt_encode := jwt_encode) now' now (String c tok))).
  rewrite R. destruct (negb _); [by eauto|].
  apply find_first_some in R as [I _]. apply (proj1 (List.Forall_forall _ _) H) in I.
  specialize (I F). destruct (revoked_at row); [by eauto|done].
Qed.

Definition reuse_event (user : string) : AuditEvent :=
  audit_event "AUTH_REFRESH_REUSE_DETECTED" None "user" (Some user) None None None (Some "revoked")
    [("user_id", JStr user)] None.

(** The table after a rotation: the presented row, now used, with its owner and family. *)
Lemma rotation_spends seen now fresh tok db issued db' ev :
  keyed db' -> refresh seen now fresh (Some tok) db = (Ok issued, db', ev) ->
  exists p row, In row (tokens db) /\ decode now tok "refresh" = Ok p /\ jti row = claim_or_empty str_json "jti" p
    /\ token_user row = claim_text str_json "sub" p
    /\ Forall (spent_row (jti row) (token_user row) (family_id row) (Z.max now (default now (used_at row)))) (tokens db').
Proof.
  intros K. unfold refresh_tokens. destruct tok as [|c tok]; [done|].
  destruct (rotate_cases seen now fresh (String c tok) db)
    as [[e ->]|[(e & row & _ & ->)|(p & row & u & fam & exp & tk & D & R & V & _ & _ & E)]];
    [by destruct e|by destruct e|].
  pose proof E as S. unfold rotate_refresh_token in S. rewrite D, R in S.
  destruct (negb (String.eqb (token_user row) _)) eqn:N; [done|]. clear S.
  rewrite E. intros [= -> <- <-]. exists p, row.
  apply negb_false_iff, String.eqb_eq in N. pose proof R as [I Ej%String.eqb_eq]%find_first_some.
  split_and!; [done|done|done|done|].
  apply List.Forall_forall. intros t It Et. cbn in It.
  assert (In (if String.eqb (jti row) (jti row) then use_row now row else row)
            (tokens (mark_used now (jti row) db))) as Iu by (cbn; apply (in_map (fun t => if String.eqb (jti t) (jti row) then use_row now t else t)), I).
  rewrite String.eqb_refl in Iu.
  assert (jti (use_row now row) = jti row) as Eu by (unfold use_row; by destruct (used_at row)).
  assert (t = use_row now row) as ->.
  { pose proof (token_row_keyed _ _ _ K It Et). pose proof (token_row_keyed (jti row) _ _ K (in_or_app _ _ _ (or_introl Iu)) Eu). congruence. }
  unfold use_row. destruct (used_at row) as [v|] eqn:U; cbn; rewrite ?U; split_and!; eauto with lia.
Qed.

Lemma reuse_detected `{!JwtLaws jwt_encode jwt_decode} seen t1 t2 f tok p db row user family :
  decode t1 tok "refresh" = Ok p -> claim_text str_json "sub" p = user ->
  Forall (spent_row (claim_or_empty str_json "jti" p) user family t1) (tokens db) ->
  t1 + _CONCURRENT_REFRESH_GRACE < t2 -> tok <> "" ->
  is_ok (decode t2 tok "refresh") = true ->
  token_row (claim_or_empty str_json "jti" p) db = Some row -> revoked_at row = None ->
  refresh seen t2 f (Some tok) db
  = (Err (RefreshTokenReuse user), revoke_family seen t2 family db, [reuse_event user]).
Proof.
  intros D <- S T NE O R V. unfold refresh_tokens. destruct tok as [|c tok]; [done|].
  destruct (decode t2 _ "refresh") as [p'|] eqn:D'; [|done].
  assert (p' = p) as ->
    by (apply decode_payload in D, D'; by apply (jwt_deterministic (jwt_encode := jwt_encode) t2 t1 (String c tok))).
  unfold rotate_refresh_token. rewrite D', R.
  pose proof R as [I J%String.eqb_eq]%find_first_some.
  apply (proj1 (List.Forall_forall _ _) S) in I. destruct (I J) as (-> & -> & u & -> & U).
  rewrite String.eqb_refl, V. cbn. by rewrite (proj2 (Z.ltb_lt _ _)) by lia.
Qed.

Lemma spent_rejected `{!JwtLaws jwt_encode jwt_decode} seen t1 t2 f tok p db user family :
  decode t1 tok "refresh" = Ok p ->
  Forall (spent_row (claim_or_empty str_json "jti" p) user family t1) (tokens db) ->
  t1 + _CONCURRENT_REFRESH_GRACE < t2 ->
  is_ok (refresh seen t2 f (Some tok) db).1.1 = false.
Proof.
  intros D S T. unfold refresh_tokens. destruct tok as [|c tok]; [done|].
  destruct (rotate_cases seen t2 f (String c tok) db)
    as [[e ->]|[(e & row & _ & ->)|(p' & row & u & fam & exp & tk & D' & R & V & U & _ & _)]];
    [by destruct e|by destruct e|].
  assert (p' = p) as ->
    by (apply decode_payload in D, D'; by apply (jwt_deterministic (jwt_encode := jwt_encode) t2 t1 (String c tok))).
  apply find_first_some in R as [I J%String.eqb_eq]. apply (proj1 (List.Forall_forall _ _) S) in I.
  destruct (I J) as (_ & _ & v & E & L). rewrite E in U. lia.
Qed.

(** C35 (rotate_refresh_token, refresh_tokens): a refresh token that was
    rotated is good for ten more seconds at most.  Whatever logins, refreshes,
    logouts and account changes follow, each with new identifiers of its own,
    presenting it later never yields tokens, and if its session is still open, the presentation is answered as
    reuse, audited, and revokes the family; both whatever rows the revocation
    sees.  When it sees every row of the family, that is, when no rotation of
    the family runs beside it, no token of the family is ever rotated again,
    by whatever further steps. *)
Theorem rotated_token_is_dead `{!JwtLaws jwt_encode jwt_decode} seen t1 f1 tok db0 issued db1 ev :
  keyed db1 -> Forall (fun t => default t1 (used_at t) <= t1) (tokens db0) ->
  refresh seen t1 f1 (Some tok) db0 = (Ok issued, db1, ev) ->
  exists row, In row (tokens db0) /\
    forall db2, rtc (session_step (fun f => refresh_jti f <> jti row)) db1 db2 ->
    forall seen2 t2 f2, t1 + _CONCURRENT_REFRESH_GRACE < t2 ->
      is_ok (refresh seen2 t2 f2 (Some tok) db2).1.1 = false
      /\ (forall row2, token_row (jti row) db2 = Some row2 -> revoked_at row2 = None ->
            is_ok (decode t2 tok "refresh") = true ->
            refresh seen2 t2 f2 (Some tok) db2
            = (Err (RefreshTokenReuse (token_user row)), revoke_family seen2 t2 (family_id row) db2,
               [reuse_event (token_user row)]))
      /\ (sees_family seen2 (family_id row) db2 ->
          forall db4, rtc (session_step (fun f => new_family f <> family_id row))
                        (revoke_family seen2 t2 (family_id row) db2) db4 ->
            family_refused (family_id row) db4).
Proof.
  intros K C E. destruct (rotation_spends _ _ _ _ _ _ _ _ K E) as (p & row & I & D & J & U & S).
  exists row. split; [done|]. intros db2 St seen2 t2 f2 T.
  replace (Z.max t1 (default t1 (used_at row))) with t1 in S
    by (apply (proj1 (List.Forall_forall _ _) C) in I; lia).
  apply (sessions_keep_spent _ _ _ _ _ _ St) in S. rewrite J in *. split_and!.
  - by eapply spent_rejected.
  - intros row2 R V O. eapply reuse_detected; eauto. by intros ->.
  - intros A db4 St'. apply dead_family_refused, (sessions_keep_dead _ _ _ St'), revoke_family_kills, A.
Qed.

(** ** The kinds of token *)

Lemma decode_own `{!JwtLaws jwt_encode jwt_decode} now sub kind j born exp extra want :
  is_ok (decode now (jwt_encode (claims_of sub kind j born exp extra)) want) = true ->
  decode now (jwt_encode (claims_of sub kind j born exp extra)) want = Ok (claims_of sub kind j born exp extra)
  /\ kind = want.
Proof.
  unfold decode_token. destruct (jwt_decode now _) as [c|[]] eqn:D; [|done..].
  apply jwt_honest in D as ->. cbn.
  destruct (String.eqb_spec kind want); done.
Qed.

Lemma decode_live `{!JwtLaws jwt_encode jwt_decode} now sub kind j born exp extra :
  timestamp born * SECOND <= now < timestamp exp * SECOND ->
  decode now (jwt_encode (claims_of sub kind j born exp extra)) kind = Ok (claims_of sub kind j born exp extra).
Proof.
  intros W. unfold decode_token. rewrite (jwt_accepts _ _ (timestamp born) (timestamp exp)) by done.
  cbn. by rewrite String.eqb_refl.
Qed.

Lemma decode_dead `{!JwtLaws jwt_encode jwt_decode} now sub kind j born exp extra want :
  timestamp exp * SECOND <= now ->
  decode now (jwt_encode (claims_of sub kind j born exp extra)) want
  = Err (NotAuthenticated "Session token has expired.").
Proof. intros W. unfold decode_token. by rewrite (jwt_expires _ _ (timestamp exp)) by done. Qed.

Lemma decode_other `{!JwtLaws jwt_encode jwt_decode} now sub kind j born exp extra want :
  kind <> want -> exists m, decode now (jwt_encode (claims_of sub kind j born exp extra)) want = Err (NotAuthenticated m).
Proof.
  intros N. destruct (decode now _ want) as [c|e] eqn:D.
  - destruct (decode_own now sub kind j born exp extra want) as [_ E]; [by rewrite D|done].
  - apply decode_refuses in D as [m ->]. eauto.
Qed.

Lemma require_own `{!JwtLaws jwt_encode jwt_decode} perm now c db :
  require perm now (Some (jwt_encode c)) db
  = let? u := let? payload := decode now (jwt_encode c) "access" in
              match assoc "sub" payload with
              | None => Err (MissingClaim "sub")
              | Some _ => match get_active_user (claim_text str_json "sub" payload) db with
                          | None => Err (NotAuthenticated "Account not found or inactive.")
                          | Some u => Ok u
                          end
              end in
    if roles_grant (role_names u) perm then Ok u
    else Err (NotAuthorized ("Your roles (" ++ (match role_names u with [] => "none" | l => join ", " l end)
                ++ ") do not grant " ++ SQ ++ permission_value perm ++ SQ ++ ".")).
Proof.
  unfold require_permission, get_current_user, _resolve_token.
  destruct (jwt_encode c) eqn:T; [by apply jwt_nonempty in T|done].
Qed.

(** C36 (create_access_token, decode_token, require_permission): a request
    with an access token is decided by the account as it is now and not by
    the roles written in the token: inside the token's life exactly the
    active accounts one of whose roles grants the permission pass, after it
    every request is refused as expired.  A refresh token never authorizes a
    request; an access token never rotates, revokes or otherwise touches a
    session. *)
Theorem authorization_follows_account `{!JwtLaws jwt_encode jwt_decode} u roles j born db now perm :
  let '(token, expires) := access (uid u) roles j born in
  (timestamp born * SECOND <= now < timestamp expires * SECOND ->
     require perm now (Some token) db
     = match get_active_user (uid u) db with
       | None => Err (NotAuthenticated "Account not found or inactive.")
       | Some v => if roles_grant (role_names v) perm then Ok v
                   else Err (NotAuthorized ("Your roles (" ++ (match role_names v with [] => "none" | l => join ", " l end)
                               ++ ") do not grant " ++ SQ ++ permission_value perm ++ SQ ++ "."))
       end)
  /\ (timestamp expires * SECOND <= now ->
       require perm now (Some token) db = Err (NotAuthenticated "Session token has expired."))
  /\ (forall seen fresh, exists m, rotate seen now fresh token db = (Err (NotAuthenticated m), db))
  /\ (forall seen, revoke_refresh_token jwt_decode str_json seen now token db = (None, db))
  /\ is_ok (require perm now (Some (renewal (uid u) j born).1) db) = false.
Proof.
  unfold create_access_token, create_refresh_token, _create_token. cbv beta iota. cbn [fst].
  destruct (decode_other now (uid u) "access" j born (born + access_token_expire_minutes settings * MINUTE)
              [("roles", JArr (List.map JStr roles))] "refresh") as [m E]; [done|].
  destruct (decode_other now (uid u) "refresh" j born (born + refresh_token_expire_minutes settings * MINUTE)
              [] "access") as [m' E']; [done|].
  split_and!.
  - intros W. rewrite require_own, decode_live by done. cbn. by destruct (get_active_user _ _).
  - intros W. by rewrite require_own, decode_dead.
  - intros seen fresh. unfold rotate_refresh_token. rewrite E. eauto.
  - intros seen. unfold revoke_refresh_token. by rewrite E.
  - by rewrite require_own, E'.
Qed.

End Sessions.

(** ** A concrete token format

    Tokens for the examples: the claims, written as a string of bits. *)
Module Tokens.

Definition leaf : Type := unit + bool + Z + string.

Fixpoint to_tree (v : json) : gen_tree leaf :=
  match v with
  | JNull => GenLeaf (inl (inl (inl tt)))
  | JBool b => GenLeaf (inl (inl (inr b)))
  | JNum n => GenLeaf (inl (inr n))
  | JStr s => GenLeaf (inr s)
  | JArr l => GenNode 0 (List.map to_tree l)
  | JObj l => GenNode 1 (List.map (fun e => GenNode 0 [GenLeaf (inr (fst e)); to_tree (snd e)]) l)
  end.

Fixpoint of_tree (t : gen_tree leaf) : json :=
  match t with
  | GenLeaf (inl (inl (inl _))) => JNull
  | GenLeaf (inl (inl (inr b))) => JBool b
  | GenLeaf (inl (inr n)) => JNum n
  | GenLeaf (inr s) => JStr s
  | GenNode 0 l => JArr (List.map of_tree l)
  | GenNode _ l => JObj (List.map (fun t => match t with
                                           | GenNode _ [GenLeaf (inr k); u] => (k, of_tree u)
                                           | _ => ("", JNull)
                                           end) l)
  end.

Lemma of_to_tree v : of_tree (to_tree v) = v.
Proof.
  induction v as [| | | |l IH|l IH] using json_ind'; cbn; [done..| |]; f_equal; rewrite List.map_map.
  - induction IH as [|x l Hx _ IHl]; cbn; [done|]. by rewrite Hx, IHl.
  - induction IH as [|[k x] l Hx _ IHl]; cbn; [done|]. cbn in Hx. by rewrite Hx, IHl.
Qed.

#[export] Instance json_eq_dec : EqDecision json.
Proof.
  intros v w. destruct (decide (to_tree v = to_tree w)) as [E|N].
  - left. by rewrite <- (of_to_tree v), <- (of_to_tree w), E.
  - right. by intros ->.
Defined.
#[export] Instance json_countable : Countable json := inj_countable' to_tree of_tree of_to_tree.

Fixpoint bits (p : positive) : string :=
  match p with
  | xH => ""
  | xO p => String "0" (bits p)
  | xI p => String "1" (bits p)
  end.

Fixpoint of_bits (s : string) : positive :=
  match s with
  | "" => xH
  | String c s => if Ascii.eqb c "0" then xO (of_bits s) else xI (of_bits s)
  end.

Lemma of_bits_bits p : of_bits (bits p) = p.
Proof. induction p; cbn; congruence. Qed.

Definition jwt_encode (c : list (string * json)) : string := String "t" (bits (encode (JObj c))).

Definition jwt_decode (now : Z) (t : string) : res JwtFault (list (string * json)) :=
  match @decode json _ _ (of_bits (match t with String _ t => t | "" => "" end)) with
  | Some (JObj c) =>
      match assoc "iss" c, assoc "exp" c with
      | Some (JStr "infraops"), Some (JNum e) => if e * SECOND <=? now then Err ExpiredSignatureError else Ok c
      | _, _ => Err InvalidTokenError
      end
  | _ => Err InvalidTokenError
  end.

#[export] Instance laws : JwtLaws jwt_encode jwt_decode.
Proof.
  assert (forall c, @decode json _ _ (of_bits (bits (encode (JObj c)))) = Some (JObj c)) as RT
    by (intros; by rewrite of_bits_bits, decode_encode).
  split; unfold jwt_decode, jwt_encode;
    [intros now c iat e I _ E H|intros now c e I E H|done|intros now c p|intros now now' t p p'];
    rewrite ?RT, ?I, ?E.
  - by rewrite (proj2 (Z.leb_gt _ _)) by lia.
  - by rewrite (proj2 (Z.leb_le _ _)) by lia.
  - repeat case_match; congruence.
  - destruct (decode _) as [[]|]; [done..| |done]. repeat case_match; congruence.
Qed.

End Tokens.

(** ** Examples *)
Module Examples.
Import Tokens.

Definition settings : AuthSettings := MkAuthSettings 30 720 10.
Definition str_json (_ : json) : string := "".
Definition ana : User := MkUser "u1" "ana" None true ["operator"] None.
Definition nth_ids (n : string) : Fresh := MkFresh ("a" ++ n) ("r" ++ n) ("f" ++ n).
Definition first_refresh : string := (create_refresh_token jwt_encode settings "u1" "r0" 0).1.
(** Ana's session after her login: one row. *)
Definition signed_in : AuthDb := MkAuthDb [ana] [MkRefresh "r0" "f0" "u1" (720 * MINUTE) None None].

Notation refresh := (refresh_tokens jwt_encode jwt_decode str_json settings).
Notation serial := (fun _ : RefreshToken => true).

(** The table after the first rotation, a second after the login. *)
Definition rotated : AuthDb := (refresh serial SECOND (nth_ids "1") (Some first_refresh) signed_in).1.2.

Lemma authorization_follows_account_witness :
  let '(token, _) := create_access_token jwt_encode settings "u1" ["administrator"] "a0" 0 in
  require_permission jwt_decode str_json ADMIN_SETTINGS (5 * MINUTE) (Some token) signed_in
  = Err (NotAuthorized "Your roles (operator) do not grant 'admin.settings'.").
Proof.
  destruct (authorization_follows_account jwt_encode jwt_decode str_json settings ana ["administrator"] "a0" 0 signed_in
              (5 * MINUTE) ADMIN_SETTINGS) as [H _].
  etransitivity; [apply H; vm_compute; by split|reflexivity].
Defined.

Lemma rotated_token_is_dead_witness :
  exists row, In row (tokens signed_in) /\
    refresh serial (2 * MINUTE) (nth_ids "2") (Some first_refresh) rotated
    = (Err (RefreshTokenReuse "u1"), revoke_family serial (2 * MINUTE) "f0" rotated, [reuse_event "u1"])
    /\ token_user row = "u1".
Proof.
  destruct (rotated_token_is_dead jwt_encode jwt_decode (fun _ _ _ _ _ _ => None) (fun _ => None) (fun _ => None)
              str_json settings serial SECOND (nth_ids "1") first_refresh signed_in
              (default (MkIssued "" 0 "") (match (refresh serial SECOND (nth_ids "1") (Some first_refresh) signed_in).1.1 with
                                           | Ok i => Some i | Err _ => None end))
              rotated []) as (row & I & H).
  - apply (bool_decide_unpack _). vm_compute. exact Logic.I.
  - repeat constructor; vm_compute; discriminate.
  - vm_compute. reflexivity.
  - exists row. split; [exact I|].
    destruct I as [<-|[]]. split; [|reflexivity].
    destruct (H rotated (rtc_refl _ _) serial (2 * MINUTE) (nth_ids "2")) as (_ & R & _); [vm_compute; reflexivity|].
    eapply R; vm_compute; reflexivity.
Defined.

(** A logout whose UPDATE started before a concurrent rotation committed its
    row: READ COMMITTED re-reads the rows the UPDATE waited for, but does not
    see the new one. *)
Definition missed (t : RefreshToken) : bool := negb (String.eqb (jti t) "r1").

(** The session survives its own sign-out: the token of the unseen row still
    rotates, half an hour later. *)
Theorem logout_misses_concurrent_rotation :
  let '(issued, db1, _) := refresh serial SECOND (nth_ids "1") (Some first_refresh) signed_in in
  let '(db2, _) := logout jwt_decode str_json missed (2 * SECOND) (Some first_refresh) db1 in
  let renewed := match issued with Ok i => refresh_token i | Err _ => "" end in
  is_ok (refresh serial (30 * MINUTE) (nth_ids "2") (Some first_refresh) db2).1.1 = false
  /\ is_ok (refresh serial (30 * MINUTE) (nth_ids "2") (Some renewed) db2).1.1 = true.
Proof. vm_compute. by split. Qed.

End Examples.
