(* ===== verification/Guest.v ===== *)
(** * Guest operations

    The concrete part of [GuestOperations] ([app/services/guest/base.py]):
    PowerShell scripts are uploaded as files with their secrets beside them,
    run with [-File], and every uploaded file is deleted however it ended. *)

From Stdlib Require Import ZArith Lia Ascii String List Bool.
From stdpp Require Import base tactics list strings gmap.
From S2P Require Import Prelude PyStr Errors Scripts Effects World.

Local Open Scope string_scope.
Local Open Scope Z_scope.

Section Guest.

Context {X : Type} `{World X}.
Context (target_ : VCenterTarget) (vm_name : string) (credentials : GuestCredentials).

(** The secrets with the paths of their files, in order. *)
Definition secret_files (token : string) (secrets : list (string * string)) : list (string * string * string) :=
  imap (fun index e => (fst e, snd e, new_temp_path (token ++ "-" ++ str_int (Z.of_nat index)) "dat")) secrets.

(** The uploads until one raises, and what was uploaded. *)
Fixpoint upload_secrets (files : list (string * string * string)) (uploaded : list string)
    : M X (Outcome unit * list string) :=
  match files with
  | [] => ret (Return tt, uploaded)
  | (_, content, path) :: rest =>
      let* o := attempt_to (call (upload_file target_ vm_name credentials content path)) in
      match o with
      | Return _ => upload_secrets rest (uploaded ++ [path])%list
      | Raise e => ret (Raise e, uploaded)
      end
  end.

(** The [finally] block. *)
Fixpoint delete_files (paths : list string) : M X unit :=
  match paths with
  | [] => ret tt
  | path :: rest =>
      catch_infra (call (delete_file target_ vm_name credentials path)) (fun _ => ret tt);;
      delete_files rest
  end.

(** The body of the [try] after the secrets: its end, and what was uploaded. *)
Definition run_script_file (script script_path : string) (secret_paths : list (string * string))
    (timeout_seconds : Z) (uploaded : list string) : M X (Outcome CommandResult * list string) :=
  match build_script_file script secret_paths with
  | None => ret (Raise (OtherException "ValueError" "Invalid secret name."), uploaded)
  | Some body =>
      let* o := attempt_to (call (upload_file target_ vm_name credentials (encode_script body) script_path)) in
      match o with
      | Raise e => ret (Raise e, uploaded)
      | Return _ =>
          let* result := attempt_to (call (run_program target_ vm_name credentials POWERSHELL_PATH
                                             (powershell_file_arguments script_path) timeout_seconds)) in
          ret (result, uploaded ++ [script_path])%list
      end
  end.

(** The method of the base class. *)
Definition base_run_powershell (script : string) (timeout_seconds : Z) (secrets : list (string * string))
    : M X CommandResult :=
  let* token := draw uuid4_hex in
  let script_path := new_temp_path token "ps1" in
  let files := secret_files token secrets in
  let* secrets_end := upload_secrets files [] in
  let* script_end := match fst secrets_end with
                     | Raise e => ret (Raise e, snd secrets_end)
                     | Return _ => run_script_file script script_path
                                     (List.map (fun f => (fst (fst f), snd f)) files)
                                     timeout_seconds (snd secrets_end)
                     end in
  delete_files (snd script_end);;
  reraise (fst script_end).

Definition run_powershell (script : string) (timeout_seconds : Z) (secrets : list (string * string))
    : M X CommandResult :=
  match own_run_powershell with
  | Some own => call (own target_ vm_name credentials script timeout_seconds secrets)
  | None => base_run_powershell script timeout_seconds secrets
  end.

Definition run_command (command : GuestCommand) (timeout_seconds : Z) : M X CommandResult :=
  match command with
  | Powershell script => run_powershell script timeout_seconds []
  | Native program arguments => call (run_program target_ vm_name credentials program arguments timeout_seconds)
  end.

(** ** Frames and calm *)

Lemma frames_upload_secrets files uploaded : frames (upload_secrets files uploaded).
Proof. revert uploaded. induction files as [|[[n c] p] files IH]; intros; simpl; solve_frames. Qed.

Lemma frames_delete_files paths : frames (delete_files paths).
Proof. induction paths; simpl; solve_frames. Qed.

Lemma frames_run_powershell script timeout secrets : frames (run_powershell script timeout secrets).
Proof.
  pose proof frames_upload_secrets. pose proof frames_delete_files.
  unfold run_powershell, base_run_powershell, run_script_file. solve_frames.
Qed.

Lemma frames_run_command c timeout : frames (run_command c timeout).
Proof. unfold run_command. destruct c; [apply frames_call|apply frames_run_powershell]. Qed.

Lemma calm_delete_files t paths : calm t (delete_files paths).
Proof. induction paths; simpl; solve_calm. Qed.

(** Ends that may be raised again. *)
Definition calm_end {A} (t : bool) (m : M X (Outcome A * list string)) : Prop := forall r, undisturbed r ->
  undisturbed (snd (m r)) /\ match fst (m r) with Return (o, _) => calm_outcome t o | Raise _ => False end.

Lemma calm_end_ret {A} t (o : Outcome A) l : calm_outcome t o -> calm_end t (ret (o, l)).
Proof. by intros Ho r Hr. Qed.

Lemma calm_end_attempt {A B} t (m : M X A) (k : Outcome A -> M X (Outcome B * list string)) :
  calm t m -> (forall o, calm_outcome t o -> calm_end t (k o)) -> calm_end t (bind (attempt_to m) k).
Proof.
  intros Hm Hk r Hr. unfold bind, attempt_to. destruct (Hm r Hr) as [H1 H2]. destruct (m r) as [o r1]. simpl in *.
  apply Hk; [exact H2|done].
Qed.

Lemma calm_end_bind {A B} t (m : M X (Outcome A * list string)) (k : Outcome A * list string -> M X B) :
  calm_end t m -> (forall p, calm_outcome t (fst p) -> calm t (k p)) -> calm t (bind m k).
Proof.
  intros Hm Hk r Hr. unfold bind. destruct (Hm r Hr) as [H1 H2].
  destruct (m r) as [[[o l]|e] r1]; simpl in *; [|done]. by apply Hk.
Qed.

Lemma calm_outcome_raise {A B} t (e : Exc) : calm_outcome (A := A) t (Raise e) -> calm_outcome (A := B) t (Raise e).
Proof. intros Hc k [= ->]. by apply Hc. Qed.

Lemma calm_upload_secrets t files uploaded : calm_end t (upload_secrets files uploaded).
Proof.
  revert uploaded. induction files as [|[[n c] p] files IH]; intros; simpl; [by apply calm_end_ret|].
  apply calm_end_attempt; [apply calm_call|]. intros [u|e] Ho; [apply IH|by apply calm_end_ret].
Qed.

Lemma calm_run_script_file t s p secrets timeout uploaded :
  calm_end t (run_script_file s p secrets timeout uploaded).
Proof.
  unfold run_script_file. destruct (build_script_file _ _); [|by apply calm_end_ret].
  apply calm_end_attempt; [apply calm_call|]. intros [u|e] Ho.
  - apply calm_end_attempt; [apply calm_call|]. intros o Ho'. by apply calm_end_ret.
  - apply calm_end_ret. by eapply calm_outcome_raise.
Qed.

Lemma calm_run_powershell t script timeout secrets : calm t (run_powershell script timeout secrets).
Proof.
  unfold run_powershell, base_run_powershell. cbn zeta. destruct own_run_powershell as [own|]; [apply calm_call|].
  apply calm_bind; [apply calm_draw|]. intros token.
  apply (calm_end_bind t); [apply calm_upload_secrets|]. intros [o l] Ho. simpl in Ho.
  apply (calm_end_bind t).
  - cbn [fst]. destruct o as [u|e]; [apply calm_run_script_file|]. apply calm_end_ret.
    by eapply calm_outcome_raise.
  - intros p Hp. apply calm_bind; [apply calm_delete_files|]. intros _. by apply calm_reraise.
Qed.

Lemma calm_run_command t c timeout : calm t (run_command c timeout).
Proof. unfold run_command. destruct c; [apply calm_call|apply calm_run_powershell]. Qed.

(** A script takes no negative time. *)
Lemma patient_run_powershell `{!ClockLaws X} script timeout secrets : patient (run_powershell script timeout secrets).
Proof.
  assert (U : forall files uploaded, patient (upload_secrets files uploaded)).
  { induction files as [|[[n c] p] files IH]; intros; cbn [upload_secrets]; solve_patient; apply IH. }
  assert (D : forall paths, patient (delete_files paths)) by (induction paths; cbn [delete_files]; solve_patient).
  unfold run_powershell. pose proof (powershell_clock target_ vm_name credentials script timeout secrets) as P.
  destruct own_run_powershell; [by apply patient_call|]. unfold base_run_powershell, run_script_file. cbn zeta.
  solve_patient; auto.
Qed.

End Guest.

#[export] Hint Resolve patient_run_powershell : clock.
#[export] Hint Resolve frames_run_powershell frames_run_command calm_run_powershell calm_run_command : infra.
