(* ===== verification/GuestFacts.v ===== *)
(** * Temporary files of a script run

    When [GuestOperations.run_powershell] of [Guest.v] leaves one of the files
    it uploads in the guest, the secrets in plain text among them. *)

From Stdlib Require Import ZArith Lia Ascii String List Bool.
From stdpp Require Import base tactics list strings gmap.
From S2P Require Import Prelude PyStr Errors Scripts Effects World Guest.

Local Open Scope string_scope.
Local Open Scope Z_scope.

(** ** What the development relies on of the file operations *)

(** The files of a guest, and which uploads and deletions have raised.  Names
    of files are compared without case. *)
Class GuestFiles (X : Type) := {
  in_guest : VCenterTarget -> string -> X -> string -> Prop;
  has_raised : VCenterTarget -> string -> X -> FileCall -> string -> Prop;
}.

(** An upload adds no file but its own, also when it raises: the content may
    then be there or not.  A deletion that returns has removed the file; after
    one that raises it may be there still. *)
Class GuestFileLaws (X : Type) `{World X} `{GuestFiles X} : Prop := {
  upload_adds target vm c content path x :
    let '(o, x') := upload_file target vm c content path x in
    (forall p, in_guest target vm x' p -> in_guest target vm x p \/ lower p = lower path)
    /\ forall k p, has_raised target vm x' k p
                   <-> has_raised target vm x k p \/ (is_ok o = false /\ k = Uploading /\ lower p = lower path);
  delete_removes target vm c path x :
    let '(o, x') := delete_file target vm c path x in
    (forall p, in_guest target vm x' p -> in_guest target vm x p /\ (is_ok o = true -> lower p <> lower path))
    /\ forall k p, has_raised target vm x' k p
                   <-> has_raised target vm x k p \/ (is_ok o = false /\ k = Deleting /\ lower p = lower path);
  token_adds target vm x p : in_guest target vm (snd (uuid4_hex x)) p -> in_guest target vm x p;
}.

Section Files.
Context {X : Type} `{GuestFileLaws X}.
Context (target_ : VCenterTarget) (vm_name : string) (credentials : GuestCredentials).

Notation present := (in_guest target_ vm_name).
Notation raised_in := (has_raised target_ vm_name).

(** Failures are not forgotten. *)
Definition remembers (x x' : X) : Prop := forall k p, raised_in x k p -> raised_in x' k p.

(** The files of [U] are the only new ones, but for those whose upload raised. *)
Definition added (U : list string) (x x' : X) : Prop :=
  remembers x x' /\ forall p, present x' p -> present x p \/ (exists u, u ∈ U /\ lower p = lower u) \/ raised_in x' Uploading p.

Lemma added_nil x : added [] x x.
Proof. split; [by intros k p|]. intros p. by left. Qed.

Lemma added_trans U W x y z : added U x y -> added W y z -> added (U ++ W) x z.
Proof.
  intros [M A] [N B]. split; [by intros k p R; apply N, M|].
  intros p [Hp|[(u & Hu & E)|R]]%B; [|right; left; exists u; set_solver|by right; right].
  apply A in Hp as [|[(u & Hu & E)|R]]; [by left|right; left; exists u; set_solver|right; right; by apply N].
Qed.

(** One upload. *)
Lemma upload_added content path x :
  let '(o, x') := upload_file target_ vm_name credentials content path x in
  added (if is_ok o then [path] else []) x x'.
Proof.
  pose proof (upload_adds target_ vm_name credentials content path x) as L.
  destruct (upload_file _ _ _ content path x) as [o x']. destruct L as [A R]. split; [intros k p K; apply R; by left|].
  intros p [Hp|E]%A; [by left|right]. destruct (is_ok o) eqn:O; [left; exists path; split; [set_solver|done]|].
  right. apply R. by right.
Qed.

Lemma call_calm {A} (op : Op X A) r :
  pending r = None -> call op r = (outcome_of (fst (op (world r))), r <| world := snd (op (world r)) |>).
Proof. intros P. unfold call, await. rewrite P. by destruct (op (world r)). Qed.

Lemma upload_secrets_spec files acc r :
  pending r = None ->
  let '(o, r') := upload_secrets target_ vm_name credentials files acc r in
  pending r' = None /\ exists e U, o = Return (e, (acc ++ U)%list) /\ added U (world r) (world r')
    /\ U ⊆ List.map snd files /\ (is_return e = true -> U = List.map snd files).
Proof.
  revert acc r. induction files as [|[[n content] path] files IH]; intros acc r P; cbn [upload_secrets].
  - split; [done|]. exists (Return tt), []. rewrite app_nil_r. split_and!; [done|apply added_nil|set_solver|done].
  - unfold bind at 1, attempt_to. rewrite call_calm by done.
    pose proof (upload_added content path (world r)) as L.
    destruct (upload_file _ _ _ content path (world r)) as [o x]. cbn [fst snd].
    destruct o as [[]|f]; cbn [outcome_of is_ok] in *; cbv beta iota.
    + match goal with |- context [upload_secrets _ _ _ _ ?a ?r0] => specialize (IH a r0 P) end.
      destruct (upload_secrets _ _ _ files _ _) as [o' r']. destruct IH as (P' & e & U & -> & A & S & E). split; [done|].
      exists e, (path :: U). rewrite <- app_assoc. split_and!; [done| |set_solver|intros R; cbn; by rewrite (E R)].
      by apply (added_trans [path] U _ x).
    + split; [done|]. exists (Raise (raised f)), []. rewrite app_nil_r. split_and!; [done|done|set_solver|done].
Qed.

Lemma raised_other f k : raised f <> Cancelled k.
Proof. by destruct f. Qed.

(** The deletions: what is left are files whose deletion raised; the loop ends
    early when one raises what it does not catch. *)
Lemma delete_files_spec paths r :
  pending r = None ->
  let '(o, r') := delete_files target_ vm_name credentials paths r in
  remembers (world r) (world r') /\ (forall p, present (world r') p -> present (world r) p)
  /\ match o with
     | Return _ => forall p u, present (world r') p -> u ∈ paths -> lower p = lower u -> raised_in (world r') Deleting p
     | Raise e => exists u, u ∈ paths /\ raised_in (world r') Deleting u /\ forall i, e <> InfraOperationError i
     end.
Proof.
  revert r. induction paths as [|path paths IH]; intros r P; cbn [delete_files].
  - split; [by intros k p|]. split; [done|]. intros p u _ Hu. by apply elem_of_nil in Hu.
  - unfold bind, catch_infra. rewrite call_calm by done.
    pose proof (delete_removes target_ vm_name credentials path (world r)) as L.
    destruct (delete_file _ _ _ path (world r)) as [o x] eqn:D. cbn [fst snd].
    set (r1 := r <| world := x |>). destruct L as [A R].
    assert (remembers (world r) x) as M by (intros k p K; apply R; by left).
    assert (forall r2 : Run X, r2 = r1 -> let '(o', r') := delete_files target_ vm_name credentials paths r2 in
      remembers (world r) (world r') /\ (forall p, present (world r') p -> present (world r) p)
      /\ match o' with
         | Return _ => forall p u, present (world r') p -> u ∈ path :: paths -> lower p = lower u -> raised_in (world r') Deleting p
         | Raise e => exists u, u ∈ path :: paths /\ raised_in (world r') Deleting u /\ forall i, e <> InfraOperationError i
         end) as Rest.
    { intros r2 ->. specialize (IH r1 P). destruct (delete_files _ _ _ paths r1) as [o' r']. destruct IH as (M' & B & E).
      split; [by intros k p K; apply M', M|]. split; [by intros p [Hp _]%B%A|].
      destruct o' as [a|e]; [|destruct E as (u & Hu & E); exists u; split; [set_solver|done]].
      intros p u Hp [->|Hu]%elem_of_cons Eq; [|by eapply E].
      apply M', R. right. split; [|done]. apply not_true_is_false. intros O. by apply B, A in Hp as [_ Hp]; apply Hp. }
    destruct o as [[]|[i| |n m]]; cbn [outcome_of raised]; [by apply Rest|by apply Rest|..];
      (split; [done|]; split; [by intros p [Hp _]%A|]; exists path; split; [set_solver|]; split; [apply R; by right|done]).
Qed.

Lemma run_script_file_spec script script_path secret_paths timeout uploaded r :
  pending r = None ->
  let '(o, r') := run_script_file target_ vm_name credentials script script_path secret_paths timeout uploaded r in
  pending r' = None /\ exists e U, o = Return (e, U)
    /\ ((U = uploaded /\ added [] (world r) (world r')) \/ U = (uploaded ++ [script_path])%list).
Proof.
  intros P. unfold run_script_file. destruct (build_script_file _ _) as [body|].
  2: { split; [done|]. eexists _, _. split; [done|]. left. split; [done|apply added_nil]. }
  unfold bind at 1, attempt_to at 1. rewrite call_calm by done.
  pose proof (upload_added (encode_script body) script_path (world r)) as L.
  destruct (upload_file _ _ _ _ script_path (world r)) as [o x]. cbn [fst snd].
  destruct o as [[]|f]; cbn [outcome_of is_ok] in *; cbv beta iota.
  - unfold bind, attempt_to. rewrite call_calm by done. split; [done|]. eexists _, _. split; [done|]. by right.
  - split; [done|]. eexists _, _. split; [done|]. by left.
Qed.

Lemma script_end_spec script script_path secret_paths timeout (e : Outcome unit) U r :
  pending r = None ->
  let '(o, r') := (match e with
                   | Raise ex => ret (Raise ex, U)
                   | Return _ => run_script_file target_ vm_name credentials script script_path secret_paths timeout U
                   end) r in
  pending r' = None /\ exists e' W, o = Return (e', W)
    /\ ((W = U /\ added [] (world r) (world r')) \/ (is_return e = true /\ W = (U ++ [script_path])%list)).
Proof.
  intros P. destruct e as [[]|ex].
  - pose proof (run_script_file_spec script script_path secret_paths timeout U r P) as S.
    destruct (run_script_file _ _ _ _ _ _ _ _ _) as [o r2]. destruct S as (P2 & e' & W & -> & S). split; [done|].
    exists e', W. split; [done|]. destruct S as [S| ->]; [by left|by right].
  - split; [done|]. eexists _, U. split; [done|]. left. split; [done|apply added_nil].
Qed.

(** The temporary files of a run with this token. *)
Definition temporary (token : string) (secrets : list (string * string)) : list string :=
  new_temp_path token "ps1" :: List.map snd (secret_files token secrets).

(** C33 (GuestOperations.run_powershell): the temporary files of a script run,
    the script and the files with the secrets in plain text, when nothing
    interrupts the run.  However the uploads, the program and the deletions
    end: a temporary file that was not in the guest before and is there
    afterwards is one whose own upload raised, or one whose own deletion
    raised, unless the deletion of one of these files raised an exception that
    is no [InfraOperationError]; that one ends the clean-up and is what the run
    raises.  So nothing is left when every upload and deletion went through,
    whether or not the program did. *)
Theorem run_powershell_leaves_no_secret script timeout secrets r token x :
  pending r = None -> uuid4_hex (world r) = (Ok token, x) ->
  let '(o, r') := base_run_powershell target_ vm_name credentials script timeout secrets r in
  forall p, p ∈ temporary token secrets -> ~ present (world r) p -> present (world r') p ->
    raised_in (world r') Uploading p
    \/ raised_in (world r') Deleting p
    \/ exists u e, u ∈ temporary token secrets /\ raised_in (world r') Deleting u
                   /\ o = Raise e /\ forall i, e <> InfraOperationError i.
Proof.
  intros P T. unfold base_run_powershell, bind at 1, draw. rewrite T. cbn [outcome_of].
  assert (T0 : forall p, present x p -> present (world r) p).
  { intros p Hp. apply (token_adds target_ vm_name). by rewrite T. }
  set (files := secret_files token secrets). unfold bind at 1.
  match goal with |- context [upload_secrets _ _ _ _ [] ?r0] => pose proof (upload_secrets_spec files [] r0 P) as S end.
  destruct (upload_secrets _ _ _ files [] _) as [o1 r1]. destruct S as (P1 & e & U & -> & [M1 A] & Sub & E). cbn [List.app fst snd world] in *.
  unfold bind at 1.
  pose proof (script_end_spec script (new_temp_path token "ps1") (List.map (fun f => (fst (fst f), snd f)) files) timeout e U r1 P1) as S.
  match type of S with let '(_, _) := ?t in _ => destruct t as [o2 r2] end. destruct S as (P2 & e' & W & -> & S). cbn [snd fst].
  assert (W ⊆ temporary token secrets) as SubW by (unfold temporary; fold files; destruct S as [[-> _]|[_ ->]]; set_solver).
  unfold bind. pose proof (delete_files_spec W r2 P2) as D. destruct (delete_files _ _ _ W r2) as [o3 r3].
  destruct D as (M3 & B & D). destruct o3 as [[]|ex].
  2: { intros p _ _ _. right. right. destruct D as (u & Hu & R & N). exists u, ex. split; [by apply SubW|done]. }
  assert (world (snd (reraise e' r3)) = world r3) as Wr by (by destruct e').
  destruct (reraise e' r3) as [o4 r4]. cbn [snd] in Wr. rewrite Wr. intros p Hp N Hq. pose proof (B p Hq) as K2.
  destruct S as [[-> [M2 C]]|[R ->]].
  - apply C in K2 as [K1|[(u & Hu & _)|R2]]; [|by apply elem_of_nil in Hu|left; by apply M3].
    apply A in K1 as [K0|[(u & Hu & Eu)|R1]]; [by apply T0 in K0|right; left; by eapply D|left; by apply M3, M2].
  - right. left. apply (D p p); [done| |done]. rewrite (E R). unfold temporary in Hp. fold files in Hp.
    apply elem_of_cons in Hp as [->|Hp]; set_solver.
Qed.

End Files.
