(* ===== verification/Paths.v ===== *)
(** * Installer paths and approved roots

    [app/services/applications/paths.py].  A path is accepted only as a plain
    absolute UNC or drive path, and a root approves only what lies below it on
    a segment boundary. *)

From Stdlib Require Import ZArith Lia Ascii String List Bool.
From stdpp Require Import base tactics list strings.
From S2P Require Import Prelude PyStr Regex World.

Local Open Scope string_scope.

Definition SEP : ascii := char_of 92.

(** One path segment: what Windows allows in a file name, minus separators. *)
Definition segment_char (c : ascii) : bool :=
  negb (existsb (Ascii.eqb c) (chars ("\/:*?<>|" ++ DQ)) || in_range 0 31 c).
Definition _SEGMENT : regex := rplus (RChr segment_char).

Definition path_tail : regex := RSeq _SEGMENT (RStar (RSeq (RChr (Ascii.eqb SEP)) _SEGMENT)).

Definition UNC_PATH_PATTERN : regex :=
  RSeq (rstr "\\")
    (RSeq (RChr is_alnum)
      (RSeq (ropt (RSeq (rupto 251 (RChr (fun c => is_alnum c || Ascii.eqb c "." || Ascii.eqb c "-"))) (RChr is_alnum)))
        (RSeq (RChr (Ascii.eqb SEP)) path_tail))).

Definition DRIVE_PATH_PATTERN : regex :=
  RSeq (RChr (fun c => is_lower c || is_upper c)) (RSeq (RChr (Ascii.eqb ":")) (RSeq (RChr (Ascii.eqb SEP)) path_tail)).

Definition _EXPECTED_EXTENSIONS (t : InstallerType) : list string :=
  match t with MSI => [".msi"] | EXE => [".exe"] | POWERSHELL => [".ps1"] end.

Definition installer_type_value (t : InstallerType) : string :=
  match t with MSI => "MSI" | EXE => "EXE" | POWERSHELL => "POWERSHELL" end.

Definition _segments (path : string) : list string :=
  List.filter (fun s => negb (String.eqb s "")) (split_on SEP path).

(** Errs are the texts of the [ValueErr]s. *)
Definition validate_windows_path (value label : string) : res string string :=
  let path := strip value in
  if String.eqb path "" then Err (label ++ " is required.")
  else if contains path "/" then Err (label ++ " must use backslashes (\) as separators.")
  else if negb (fullmatch UNC_PATH_PATTERN path || fullmatch DRIVE_PATH_PATTERN path) then
    Err (label ++ " must be an absolute UNC path (\\server\share\...) or drive path (C:\...) "
                 ++ "without quotes, wildcards or control characters.")
  else if existsb (fun s => String.eqb (strip s) "." || String.eqb (strip s) "..") (_segments path) then
    Err (label ++ " must not contain '.' or '..' segments.")
  else if existsb (fun s => negb (String.eqb s (rstrip_by (fun c => Ascii.eqb c " " || Ascii.eqb c ".") s)))
            (_segments path) then
    Err (label ++ " segments must not end with a space or a dot.")
  else Ok path.

Definition validate_installer_path (value : string) (installer_type : option InstallerType) : res string string :=
  let? path := validate_windows_path value "Installer path" in
  match installer_type with
  | None => Ok path
  | Some t =>
      if existsb (endswith (lower path)) (_EXPECTED_EXTENSIONS t) then Ok path
      else Err (installer_type_value t ++ " installers must point to a "
                  ++ join " or " (_EXPECTED_EXTENSIONS t) ++ " file.")
  end.

Definition validate_installer_root (value : string) : res string string :=
  validate_windows_path (rstrip_char SEP (strip value)) "Approved installer root".

Definition _normalise (path : string) : string := casefold (rstrip_char SEP (strip path)).

Definition path_within_roots (path : string) (roots : list string) : bool :=
  match validate_windows_path path "Path" with
  | Err _ => false
  | Ok candidate =>
      existsb (fun root => match validate_installer_root root with
                           | Err _ => false
                           | Ok r => startswith (_normalise candidate) (_normalise r ++ BS)
                           end) roots
  end.

(** ** Accepted paths *)

(** The segments of a path as the root check compares them. *)
Definition segments (path : string) : list string := split_on SEP (_normalise path).

Lemma split_on_app c a b : split_on c (a ++ String c b) = (split_on c a ++ split_on c b)%list.
Proof. unfold split_on. rewrite chars_app. cbn [chars list_ascii_of_string]. by rewrite split_chars_app, map_app. Qed.

Lemma join_app sep a b : a <> [] -> b <> [] -> join sep (a ++ b) = join sep a ++ sep ++ join sep b.
Proof.
  intros Ha Hb. induction a as [|x a IH]; [done|]. destruct a as [|y a].
  - simpl. by destruct b.
  - cbn [List.app join] in *. rewrite IH by done. by rewrite !str_app_assoc.
Qed.

Lemma join_split_chars l : join BS (List.map text (split_chars SEP l)) = text l.
Proof.
  induction l as [|c l IH]; [done|]. cbn [split_chars].
  pose proof (split_chars_nonempty SEP l) as N. destruct (Ascii.eqb_spec c SEP) as [->|Hc].
  - cbn [List.map]. destruct (split_chars SEP l) as [|p r]; [done|]. cbn [List.map] in *.
    cbn [join] in *. rewrite IH. done.
  - destruct (split_chars SEP l) as [|p r]; [done|]. cbn [List.map] in *. destruct r; cbn [List.map join] in *.
    + change (String c (text p) = String c (text l)). by rewrite <- IH.
    + change (String c (text p ++ BS ++ join BS (text l0 :: List.map text r)) = String c (text l)). by rewrite <- IH.
Qed.

Lemma join_split_on s : join BS (split_on SEP s) = s.
Proof. unfold split_on. by rewrite join_split_chars, text_chars. Qed.

Lemma split_on_nonempty c s : split_on c s <> [].
Proof. unfold split_on. pose proof (split_chars_nonempty c (chars s)). by destruct (split_chars c (chars s)). Qed.

(** What [validate_windows_path] guarantees of an accepted path. *)
Record plain_path (p : string) : Prop := {
  plain_shape : fullmatch UNC_PATH_PATTERN p = true \/ fullmatch DRIVE_PATH_PATTERN p = true;
  plain_dots : forall s, In s (_segments p) -> strip s <> "." /\ strip s <> "..";
  plain_ends : forall s, In s (_segments p) ->
      s = rstrip_by (fun c => Ascii.eqb c " " || Ascii.eqb c ".") s;
}.

Lemma validate_windows_path_spec value label p :
  validate_windows_path value label = Ok p -> p = strip value /\ plain_path p.
Proof.
  unfold validate_windows_path. cbn zeta. set (q := strip value).
  destruct (String.eqb q ""); [discriminate|]. destruct (contains q "/"); [discriminate|].
  destruct (fullmatch UNC_PATH_PATTERN q || fullmatch DRIVE_PATH_PATTERN q) eqn:E1; [|discriminate].
  destruct (existsb _ (_segments q)) eqn:E2; [discriminate|].
  destruct (existsb (fun s => negb _) (_segments q)) eqn:E3; [discriminate|].
  intros [= <-]. split; [done|]. split.
  - by apply orb_true_iff in E1.
  - intros s Hs. apply not_true_iff_false in E2. rewrite existsb_exists in E2.
    split; intros E; apply E2; exists s; (split; [done|]); rewrite E; done.
  - intros s Hs. apply not_true_iff_false in E3. rewrite existsb_exists in E3.
    destruct (String.eqb_spec s (rstrip_by (fun c => Ascii.eqb c " " || Ascii.eqb c ".") s)) as [E|E]; [done|].
    exfalso. apply E3. exists s. split; [done|]. apply String.eqb_neq in E. by rewrite E.
Qed.

(** The characters of a plain path: those of segments, separators, the drive
    colon.  In particular no quote, wildcard or control character. *)
Definition path_char (c : ascii) : bool := segment_char c || Ascii.eqb SEP c || Ascii.eqb ":" c.

Ltac solve_only :=
  cbn [only];
  repeat first [ exact I | apply conj | apply only_rupto; cbn [only] | apply only_rstr; repeat constructor
               | (apply chars_impl; vm_compute; reflexivity) ].

Lemma plain_path_chars p : plain_path p -> Forall (fun c => path_char c = true) (chars p).
Proof.
  intros [H _ _]. destruct H as [H|H]; apply fullmatch_lang in H; (eapply lang_only; [|exact H]); clear;
    unfold UNC_PATH_PATTERN, DRIVE_PATH_PATTERN, path_tail, _SEGMENT, rplus, ropt; solve_only.
Qed.

(** A plain path can be put between double quotes on a command line. *)
Lemma plain_path_quotable p : plain_path p ->
  Forall (fun c => Ascii.eqb c (char_of 34) = false /\ in_range 0 31 c = false) (chars p).
Proof.
  intros H. eapply Forall_impl; [exact (plain_path_chars _ H)|]. intros c Hc.
  assert (G : negb (Ascii.eqb c (char_of 34) || in_range 0 31 c) = true).
  { revert c Hc. apply chars_impl. vm_compute. reflexivity. }
  apply negb_true_iff, orb_false_iff in G. done.
Qed.

(** ** The root check *)

Lemma validate_root_plain root r : validate_installer_root root = Ok r -> plain_path r.
Proof. intros H. by apply validate_windows_path_spec in H as [_ ?]. Qed.

(** C22 (approved roots): an installer path is approved exactly if it is a plain
    absolute path and its segments, compared without case, are those of a
    valid approved root followed by at least one more: a root never approves a
    sibling that merely starts with the same letters. *)
Theorem path_within_roots_spec path roots :
  path_within_roots path roots = true <->
  exists candidate root r rest,
    validate_windows_path path "Path" = Ok candidate /\ In root roots /\ validate_installer_root root = Ok r
    /\ rest <> [] /\ segments candidate = (segments r ++ rest)%list.
Proof.
  unfold path_within_roots. split.
  - destruct (validate_windows_path path "Path") as [candidate|e] eqn:E; [|discriminate].
    intros H. apply existsb_exists in H as (root & Hin & H).
    destruct (validate_installer_root root) as [r|e] eqn:Er; [|discriminate].
    apply startswith_spec in H as [tail Ht]. exists candidate, root, r, (split_on SEP tail).
    split_and!; [done|done|done|apply split_on_nonempty|].
    unfold segments. rewrite Ht. rewrite <- split_on_app. f_equal.
    by rewrite str_app_assoc.
  - intros (candidate & root & r & rest & -> & Hin & Hr & Hne & Hs). apply existsb_exists.
    exists root. split; [done|]. rewrite Hr. apply startswith_spec. exists (join BS rest).
    rewrite <- (join_split_on (_normalise candidate)). unfold segments in Hs. rewrite Hs.
    rewrite join_app; [|apply split_on_nonempty|done]. by rewrite join_split_on, str_app_assoc.
Qed.
