(* ===== verification/Resolver.v ===== *)
(** * Application dependency resolution

    [app/services/applications/resolver.py]: the installation order of the
    selected applications and everything they depend on. *)

From Stdlib Require Import ZArith Lia Ascii String List Bool.
From stdpp Require Import base tactics list strings gmap.
From S2P Require Import Prelude PyStr.

Local Open Scope string_scope.
Local Open Scope Z_scope.

Record AppNode := MkNode {
  node_id : string;
  node_name : string;
  node_enabled : bool;
  node_deps : gset string;
}.

(** [sorted(l, key=f)]: a stable insertion sort by a text key. *)
Fixpoint insert_by {A} (f : A -> string) (x : A) (l : list A) : list A :=
  match l with
  | [] => [x]
  | y :: r => if String.leb (f x) (f y) then x :: l else y :: insert_by f x r
  end.
Definition sorted_by {A} (f : A -> string) (l : list A) : list A := fold_right (insert_by f) [] l.

Inductive Color := WHITE | GRAY | BLACK.

(** The variables of the depth-first search; [required] in insertion order. *)
Record Search := MkSearch {
  color : gmap string Color;
  required : list (string * AppNode);
  errors : list string;
}.

#[export] Instance eta_search : Eta Search := fun s => MkSearch (color s) (required s) (errors s).

Definition color_of (s : Search) (k : string) : Color := match color s !! k with Some c => c | None => WHITE end.

Definition name_of (catalog : gmap string AppNode) (k : string) : string :=
  match catalog !! k with Some n => node_name n | None => k end.

(** [chain[chain.index(app_id):]] *)
Fixpoint from_first (k : string) (chain : list string) : list string :=
  match chain with
  | [] => []
  | x :: r => if String.eqb x k then chain else from_first k r
  end.

Definition missing_message (k : string) : string :=
  "A selected application depends on application " ++ SQ ++ k ++ SQ ++ ", which does not exist.".
Definition cycle_message (catalog : gmap string AppNode) (cycle : list string) : string :=
  "Circular dependency detected: " ++ join " -> " (List.map (name_of catalog) cycle).
Definition disabled_message (n : AppNode) : string :=
  "Application " ++ SQ ++ node_name n ++ SQ ++ " is disabled in the catalog and cannot be installed.".

Definition add_error (e : string) (s : Search) : Search := s <| errors := (errors s ++ [e])%list |>.
Definition paint (k : string) (c : Color) (s : Search) : Search := s <| color := <[k := c]> (color s) |>.

(** The nested [visit]; the fuel bounds the recursion depth. *)
Fixpoint visit (catalog : gmap string AppNode) (fuel : nat) (chain : list string) (s : Search) (app_id : string)
    : Search :=
  match fuel with
  | O => s
  | S fuel' =>
      match color_of s app_id with
      | BLACK => s
      | GRAY => add_error (cycle_message catalog (from_first app_id chain)) s
      | WHITE =>
          match catalog !! app_id with
          | None => paint app_id BLACK (add_error (missing_message app_id) s)
          | Some node =>
              let s1 := fold_left (visit catalog fuel' (chain ++ [app_id])%list)
                          (sorted_by (fun k => k) (elements (node_deps node))) (paint app_id GRAY s) in
              (paint app_id BLACK s1) <| required := (required s1 ++ [(app_id, node)])%list |>
          end
      end
  end.

(** A path of the search holds distinct catalog entries. *)
Definition search_fuel (catalog : gmap string AppNode) : nat := S (size catalog).

Definition search (catalog : gmap string AppNode) (selected_ids : list string) : Search :=
  fold_left (visit catalog (search_fuel catalog) []) selected_ids (MkSearch ∅ [] []).

Definition disabled_errors (req : list (string * AppNode)) : list string :=
  List.map (fun e => disabled_message (snd e)) (List.filter (fun e => negb (node_enabled (snd e))) req).

(** ** The topological sort *)

Definition edges_out (req : list (string * AppNode)) (dep : string) : list string :=
  List.map fst (List.filter (fun e => bool_decide (dep ∈ node_deps (snd e))) req).

Definition initial_indegree (req : list (string * AppNode)) : gmap string Z :=
  list_to_map (List.map (fun e => (fst e,
    count (fun d => bool_decide (d ∈ List.map fst req)) (elements (node_deps (snd e))))) req).

Definition degree (m : gmap string Z) (k : string) : Z := match m !! k with Some n => n | None => 0 end.

(** One dependent loses an unmet dependency and becomes ready at zero. *)
Definition release (st : gmap string Z * list string) (dependent : string) : gmap string Z * list string :=
  let n := degree (fst st) dependent - 1 in
  (<[dependent := n]> (fst st), if n =? 0 then (snd st ++ [dependent])%list else snd st).

Definition required_name (req : list (string * AppNode)) (k : string) : string :=
  match find_first (fun e => String.eqb (fst e) k) req with Some e => node_name (snd e) | None => "" end.

Fixpoint kahn (req : list (string * AppNode)) (fuel : nat) (indegree : gmap string Z) (ready ordered : list string)
    : list string :=
  match fuel, ready with
  | S fuel', current :: rest =>
      let st := fold_left release (edges_out req current) (indegree, rest) in
      kahn req fuel' (fst st) (sorted_by (required_name req) (snd st)) (ordered ++ [current])%list
  | _, _ => ordered
  end.

Definition ready_at_start (req : list (string * AppNode)) : list string :=
  sorted_by (required_name req)
    (List.filter (fun k => degree (initial_indegree req) k =? 0) (List.map fst req)).

Definition node_at (req : list (string * AppNode)) (k : string) : list AppNode :=
  match find_first (fun e => String.eqb (fst e) k) req with Some e => [snd e] | None => [] end.

Definition INCONSISTENT : string := "Dependencies could not be ordered (internal consistency error).".

Definition resolve_install_order (selected_ids : list string) (catalog : gmap string AppNode)
    : list AppNode * list string :=
  let s := search catalog selected_ids in
  let req := required s in
  let errs := (errors s ++ disabled_errors req)%list in
  match errs with
  | _ :: _ => ([], errs)
  | [] =>
      let ordered := kahn req (List.length req) (initial_indegree req) (ready_at_start req) [] in
      if bool_decide (List.length ordered = List.length req)
      then (List.flat_map (node_at req) ordered, []) else ([], [INCONSISTENT])
  end.

(** ** Dependencies as a relation *)

Local Open Scope list_scope.

Section Facts.

Context (catalog : gmap string AppNode).
Context (selected : list string).

(** The application [a] lists [b] as a dependency. *)
Definition depends (a b : string) : Prop := exists n, catalog !! a = Some n /\ b ∈ node_deps n.

(** Selected, or needed by a selected application. *)
Definition wanted (k : string) : Prop := exists a, a ∈ selected /\ rtc depends a k.

Lemma wanted_step a b : wanted a -> depends a b -> wanted b.
Proof. intros (s & Hs & R) D. exists s. split; [done|]. by eapply rtc_r. Qed.

(** ** The search *)

(** Every entry comes after all of its dependencies. *)
Definition topological (req : list (string * AppNode)) : Prop :=
  forall l1 e l2, req = (l1 ++ e :: l2)%list -> forall d, d ∈ node_deps (snd e) -> d ∈ List.map fst l1.

Lemma topological_snoc req e :
  topological req -> (forall d, d ∈ node_deps (snd e) -> d ∈ List.map fst req) -> topological (req ++ [e])%list.
Proof.
  intros T D l1 x l2 E d Hd.
  destruct l2 as [|y l2 _] using rev_ind.
  - apply app_inj_tail in E as [<- <-]. by apply D.
  - rewrite app_comm_cons, app_assoc in E. apply app_inj_tail in E as [-> _]. by eapply T.
Qed.

Definition keys (req : list (string * AppNode)) : list string := List.map fst req.

(** The state of the search inside the visits of [chain]. *)
Record searching (chain : list string) (s : Search) : Prop := MkSearching {
  chain_gray : forall k, color_of s k = GRAY <-> k ∈ chain;
  chain_nodup : NoDup chain;
  chain_known : forall k, k ∈ chain -> is_Some (catalog !! k);
  seen_wanted : forall k, color_of s k <> WHITE -> wanted k;
  required_black : forall k, k ∈ keys (required s) <-> color_of s k = BLACK /\ is_Some (catalog !! k);
  required_nodup : NoDup (keys (required s));
  required_nodes : forall e, e ∈ required s -> catalog !! (fst e) = Some (snd e);
  required_sorted : errors s = [] -> topological (required s);
  black_known : errors s = [] -> forall k, color_of s k = BLACK -> is_Some (catalog !! k);
  error_reason : errors s <> [] -> exists k, wanted k /\ (catalog !! k = None \/ tc depends k k);
}.

(** What a visit preserves. *)
Definition grows (s s' : Search) : Prop :=
  (forall k, color_of s k = BLACK -> color_of s' k = BLACK) /\ (errors s' = [] -> errors s = []).

Lemma grows_refl s : grows s s.
Proof. by split. Qed.
Lemma grows_trans a b c : grows a b -> grows b c -> grows a c.
Proof. intros [A1 A2] [B1 B2]. split; auto. Qed.

Lemma color_paint k c s x : color_of (paint k c s) x = if bool_decide (x = k) then c else color_of s x.
Proof.
  unfold color_of, paint. simpl. case_bool_decide as E; [subst; by rewrite lookup_insert_eq|by rewrite lookup_insert_ne by congruence].
Qed.

Lemma color_add_error e s x : color_of (add_error e s) x = color_of s x.
Proof. done. Qed.

(** The specification of one visit under [chain]. *)
Definition visits (f : Search -> string -> Search) (chain : list string) : Prop := forall s k,
  searching chain s -> wanted k -> (forall c, c ∈ chain -> tc depends c k) ->
  let s' := f s k in
  searching chain s' /\ grows s s' /\ (errors s' = [] -> color_of s' k = BLACK).

Lemma visits_all f chain l s :
  visits f chain -> searching chain s -> (forall k, k ∈ l -> wanted k /\ forall c, c ∈ chain -> tc depends c k) ->
  let s' := fold_left f l s in
  searching chain s' /\ grows s s' /\ (errors s' = [] -> forall k, k ∈ l -> color_of s' k = BLACK).
Proof.
  intros V. revert s. induction l as [|k l IH]; intros s Hs Hl; simpl.
  - split; [done|]. split; [apply grows_refl|]. intros _ k Hk. by apply elem_of_nil in Hk.
  - destruct (Hl k) as [Hw Hc]; [by left|].
    destruct (V s k Hs Hw Hc) as (H1 & G1 & B1).
    destruct (IH (f s k)) as (H2 & G2 & B2); [done| |].
    { intros x Hx. apply Hl. by right. }
    split; [done|]. split; [by eapply grows_trans|].
    intros E x [->|Hx]%elem_of_cons; [|by apply B2].
    apply G2, B1. by apply G2.
Qed.

Lemma chain_bound chain s : searching chain s -> (List.length chain <= size catalog)%nat.
Proof.
  intros H. rewrite <- size_dom, <- (size_list_to_set (C := gset string)) by apply (chain_nodup _ _ H).
  apply subseteq_size. intros k Hk%elem_of_list_to_set. apply elem_of_dom. by apply (chain_known _ _ H).
Qed.

Lemma elem_of_insert_by {A} (f : A -> string) x l y : y ∈ insert_by f x l <-> y = x \/ y ∈ l.
Proof.
  induction l as [|z r IH]; simpl; [set_solver|]. destruct (String.leb _ _); set_solver.
Qed.
Lemma elem_of_sorted_by {A} (f : A -> string) l y : y ∈ sorted_by f l <-> y ∈ l.
Proof. induction l as [|z r IH]; simpl; [set_solver|]. rewrite elem_of_insert_by. set_solver. Qed.

(** A visit of an entry under way closes a cycle. *)
Lemma visit_gray chain s k msg :
  searching chain s -> wanted k -> k ∈ chain -> tc depends k k -> searching chain (add_error msg s).
Proof.
  intros [] W Hk C. split; simpl; auto; try (intros E; by apply app_eq_nil in E as [_ ?]).
  intros _. exists k. auto.
Qed.

Lemma visit_missing chain s k msg :
  searching chain s -> wanted k -> color_of s k = WHITE -> catalog !! k = None ->
  searching chain (paint k BLACK (add_error msg s)).
Proof.
  intros [] W Hk N. split; simpl; auto; try (intros E; by apply app_eq_nil in E as [_ ?]).
  - intros x. rewrite color_paint, color_add_error. case_bool_decide as E; [subst|done].
    split; [done|]. intros Hx%chain_gray0. congruence.
  - intros x. rewrite color_paint, color_add_error. case_bool_decide; [by subst|auto].
  - intros x. rewrite color_paint, color_add_error, required_black0. case_bool_decide as E; [subst|done].
    rewrite N. split; intros [? [? ?]]; done.
  - intros _. exists k. auto.
Qed.

Lemma visit_enter chain s k node :
  searching chain s -> wanted k -> color_of s k = WHITE -> catalog !! k = Some node ->
  searching (chain ++ [k]) (paint k GRAY s).
Proof.
  intros [] W Hk N. split; simpl; auto.
  - intros x. rewrite color_paint, elem_of_app, <- chain_gray0, list_elem_of_singleton.
    case_bool_decide; [by split; auto|]. split; [auto|]. by intros [|].
  - apply NoDup_app. split; [done|]. split; [|apply NoDup_singleton].
    intros x Hx ->%list_elem_of_singleton. apply chain_gray0 in Hx. congruence.
  - intros x [Hx| ->%list_elem_of_singleton]%elem_of_app; [auto|by exists node].
  - intros x. rewrite color_paint. case_bool_decide; [by subst|auto].
  - intros x. rewrite color_paint, required_black0. case_bool_decide as E; [subst|done].
    rewrite Hk. by split; intros [? ?].
  - intros E x. rewrite color_paint. case_bool_decide; [done|auto].
Qed.

Lemma visit_leave chain s k node :
  searching (chain ++ [k]) s -> catalog !! k = Some node ->
  (errors s = [] -> forall d, d ∈ node_deps node -> color_of s d = BLACK) ->
  searching chain ((paint k BLACK s) <| required := (required s ++ [(k, node)])%list |>).
Proof.
  intros [] N D. set (s' := _ <| required := _ |>).
  assert (C : forall x, color_of s' x = if bool_decide (x = k) then BLACK else color_of s x) by apply color_paint.
  apply NoDup_app in chain_nodup0 as (NC & NK & _).
  assert (Kc : k ∉ chain) by (intros Hk; by apply (NK k Hk), list_elem_of_singleton).
  assert (G : color_of s k = GRAY) by (apply chain_gray0; set_solver).
  split; simpl.
  - intros x. rewrite C. case_bool_decide as E; [subst; by split|]. rewrite chain_gray0. set_solver.
  - done.
  - intros x Hx. apply chain_known0. set_solver.
  - intros x. rewrite C. case_bool_decide as E; [subst|auto]. intros _. apply seen_wanted0. by rewrite G.
  - intros x. unfold keys. rewrite C, map_app, elem_of_app. simpl. rewrite list_elem_of_singleton.
    fold (keys (required s)). rewrite required_black0. case_bool_decide as E; [subst|naive_solver].
    split; [|auto]. intros _. split; [done|by exists node].
  - unfold keys. rewrite map_app. apply NoDup_app. split; [done|]. split; [|apply NoDup_singleton].
    intros x Hx Hk%list_elem_of_singleton. apply required_black0 in Hx as [Hx _]. subst x.
    cbn [fst] in Hx. rewrite G in Hx. discriminate.
  - intros e [He| ->%list_elem_of_singleton]%elem_of_app; [by apply required_nodes0|done].
  - intros E. apply topological_snoc; [by apply required_sorted0|]. simpl. intros d Hd.
    apply required_black0. split; [by apply D|]. by apply black_known0, D.
  - intros E x. rewrite C. case_bool_decide as E'; [subst; by exists node|]. by apply black_known0.
  - done.
Qed.

Lemma visit_spec fuel chain :
  (size catalog < fuel + List.length chain)%nat -> visits (visit catalog fuel chain) chain.
Proof.
  revert chain. induction fuel as [|fuel IH]; intros chain F s k Hs W P; cbn zeta.
  { pose proof (chain_bound _ _ Hs). lia. }
  cbn [visit]. destruct (color_of s k) eqn:Hk.
  2: { pose proof Hk as Hg. apply (chain_gray _ _ Hs) in Hg. split; [by apply (visit_gray _ _ k); auto|].
       split; [split; [done|]|]; simpl; intros E; by apply app_eq_nil in E as [_ ?]. }
  2: { split; [done|]. split; [apply grows_refl|done]. }
  destruct (catalog !! k) as [node|] eqn:N.
  2: { split; [by apply visit_missing|]. split; [split|]; simpl.
       - intros x Hx. rewrite color_paint, color_add_error. by case_bool_decide.
       - intros E; by apply app_eq_nil in E as [_ ?].
       - intros _. rewrite color_paint. by case_bool_decide. }
  pose proof (visit_enter _ _ _ _ Hs W Hk N) as H0.
  destruct (visits_all (visit catalog fuel (chain ++ [k])) (chain ++ [k])
              (sorted_by (fun k => k) (elements (node_deps node))) (paint k GRAY s)) as (H1 & [G1 G2] & B1).
  { apply IH. rewrite length_app. simpl. lia. }
  { done. }
  { intros d Hd%elem_of_sorted_by%elem_of_elements.
    assert (Dk : depends k d) by by exists node. split; [by apply (wanted_step k)|].
    intros c [Hc| ->%list_elem_of_singleton]%elem_of_app; [|by constructor].
    eapply tc_r; [by apply P|done]. }
  set (s1 := fold_left _ _ _) in *. split; [|split; [split|]].
  - apply visit_leave; [done|done|]. intros E d Hd. apply B1; [done|]. by apply elem_of_sorted_by, elem_of_elements.
  - intros x Hx. change (color_of (paint k BLACK s1) x = BLACK). rewrite color_paint. case_bool_decide; [done|].
    apply G1. rewrite color_paint. by case_bool_decide.
  - exact G2.
  - intros _. change (color_of (paint k BLACK s1) k = BLACK). rewrite color_paint. by case_bool_decide.
Qed.

Lemma color_start k : color_of (MkSearch ∅ [] []) k = WHITE.
Proof. unfold color_of. simpl. by rewrite lookup_empty. Qed.

Lemma searching_start : searching [] (MkSearch ∅ [] []).
Proof.
  split; try (intros k; rewrite color_start); try done.
  - split; [discriminate|intros H; by apply elem_of_nil in H].
  - constructor.
  - intros k H. by apply elem_of_nil in H.
  - unfold keys. simpl. rewrite elem_of_nil. split; [done|by intros [? _]].
  - constructor.
  - intros e H. by apply elem_of_nil in H.
  - intros _ [|? ?] ? ? ?; discriminate.
Qed.

Lemma search_spec :
  let s := search catalog selected in
  searching [] s /\ (errors s = [] -> forall k, k ∈ selected -> color_of s k = BLACK).
Proof.
  destruct (visits_all (visit catalog (search_fuel catalog) []) [] selected (MkSearch ∅ [] [])) as (H & _ & B).
  - apply visit_spec. unfold search_fuel. simpl. lia.
  - apply searching_start.
  - intros k Hk. split; [by exists k|]. intros c Hc. by apply elem_of_nil in Hc.
  - by split.
Qed.

(** Without errors the required entries are exactly the wanted ones. *)
Lemma search_wanted k :
  let s := search catalog selected in
  errors s = [] -> (k ∈ keys (required s) <-> wanted k).
Proof.
  destruct search_spec as [H B]. intros s E. split.
  - intros [Hk _]%(required_black _ _ H). apply (seen_wanted _ _ H). by rewrite Hk.
  - assert (Start : forall a, a ∈ selected -> a ∈ keys (required s)).
    { intros a Ha. apply (required_black _ _ H). split; [by apply B|]. apply (black_known _ _ H E). by apply B. }
    intros (a & Ha & R). apply Start in Ha. clear Start.
    induction R as [x|x y z D R IH]; [done|]. apply IH.
    destruct D as (n & Hn & Hy). apply list_elem_of_fmap in Ha as (e & -> & He).
    pose proof (required_nodes _ _ H _ He) as N. rewrite N in Hn. injection Hn as <-.
    apply list_elem_of_split in He as (l1 & l2 & Es).
    pose proof (required_sorted _ _ H E _ _ _ Es _ Hy) as Hl. unfold keys. rewrite Es, map_app. set_solver.
Qed.

(** Entries in dependency order have no cycle. *)
Lemma topological_acyclic req :
  topological req -> NoDup (keys req) -> (forall e, e ∈ req -> catalog !! (fst e) = Some (snd e)) ->
  forall x, x ∈ keys req -> ~ tc depends x x.
Proof.
  induction req as [|[k n] req IH] using rev_ind; intros T ND N x Hx C; [by apply elem_of_nil in Hx|].
  assert (T0 : topological req) by (intros l1 e l2 ->; apply (T l1 e (l2 ++ [(k, n)])%list); by rewrite <- app_assoc).
  unfold keys in ND. rewrite map_app in ND. apply NoDup_app in ND as (ND0 & NK & _).
  assert (N0 : forall e, e ∈ req -> catalog !! (fst e) = Some (snd e)) by (intros e He; apply N; set_solver).
  assert (Down : forall a b, a ∈ keys (req ++ [(k, n)]) -> depends a b -> b ∈ keys req).
  { intros a b Ha (m & Hm & Hb). unfold keys in Ha. apply list_elem_of_fmap in Ha as (e & -> & He).
    rewrite (N _ He) in Hm. injection Hm as Em. apply elem_of_app in He as [He|He%list_elem_of_singleton].
    - apply list_elem_of_split in He as (l1 & l2 & ->). unfold keys. rewrite map_app. apply elem_of_app. left.
      apply (T0 l1 e l2); [done|]. by rewrite Em.
    - subst e. apply (T req (k, n) []); [done|]. by rewrite Em. }
  assert (Lower : forall a b, tc depends a b -> a ∈ keys (req ++ [(k, n)]) -> b ∈ keys req).
  { induction 1 as [a b D|a b c D R IHR]; intros Ha; [by eapply Down|].
    apply IHR. unfold keys. rewrite map_app. apply elem_of_app. left. by eapply Down. }
  apply (IH T0 ND0 N0 x); [|done]. by apply (Lower x x).
Qed.

(** ** The topological sort *)

(** The dependencies of an entry that are themselves required and not yet ordered. *)
Definition unmet (req : list (string * AppNode)) (ordered : list string) (n : AppNode) : Z :=
  count (fun d => bool_decide (d ∈ keys req) && negb (bool_decide (d ∈ ordered))) (elements (node_deps n)).

(** Every text of the list comes after its dependencies among the entries. *)
Definition ordered_ok (req : list (string * AppNode)) (l : list string) : Prop :=
  forall l1 k l2, l = (l1 ++ k :: l2)%list -> forall n d, (k, n) ∈ req -> d ∈ node_deps n -> d ∈ keys req -> d ∈ l1.

Record sorting (req : list (string * AppNode)) (m : gmap string Z) (ready ordered : list string) : Prop := MkSorting {
  sorting_nodup : NoDup (ordered ++ ready);
  sorting_known : forall k, k ∈ ordered ++ ready -> k ∈ keys req;
  sorting_degree : forall k n, (k, n) ∈ req -> k ∉ ordered -> degree m k = unmet req ordered n;
  sorting_ready : forall k, k ∈ keys req -> k ∉ ordered -> (k ∈ ready <-> degree m k = 0);
  sorting_order : ordered_ok req ordered;
}.

(** Releasing distinct dependents lowers the degree of each by one and appends
    those that reach zero. *)
Lemma release_all ds m l :
  NoDup ds ->
  let st := fold_left release ds (m, l) in
  (forall x, degree (fst st) x = if bool_decide (x ∈ ds) then degree m x - 1 else degree m x) /\
  exists new, snd st = (l ++ new)%list /\ NoDup new /\ forall x, x ∈ new <-> x ∈ ds /\ degree m x = 1.
Proof.
  revert m l. induction ds as [|d ds IH]; intros m l ND; cbn zeta.
  - split; [done|]. exists []. split; [by rewrite app_nil_r|]. split; [constructor|]. set_solver.
  - apply NoDup_cons in ND as [Nd ND]. cbn [fold_left].
    set (m' := <[d := degree m d - 1]> m).
    change (release (m, l) d) with (m', if degree m d - 1 =? 0 then (l ++ [d])%list else l).
    assert (Deg : forall x, degree m' x = if bool_decide (x = d) then degree m d - 1 else degree m x).
    { intros x. unfold degree at 1, m'. case_bool_decide; [subst; by rewrite lookup_insert_eq|].
      by rewrite lookup_insert_ne by congruence. }
    destruct (IH m' (if degree m d - 1 =? 0 then (l ++ [d])%list else l) ND) as (H1 & new & E & NDn & Hn).
    split.
    + intros x. rewrite H1, Deg. destruct (decide (x = d)) as [->|Hx].
      * rewrite (bool_decide_false (d ∈ ds)), (bool_decide_true (d = d)), bool_decide_true by (done || by left). done.
      * rewrite (bool_decide_false (x = d)) by done.
        rewrite (bool_decide_ext (x ∈ d :: ds) (x ∈ ds)); [done|]. set_solver.
    + assert (New : forall x, x ∈ new <-> x ∈ ds /\ degree m x = 1).
      { intros x. rewrite Hn, Deg. case_bool_decide; [subst; naive_solver|done]. }
      rewrite E. destruct (Z.eqb_spec (degree m d - 1) 0) as [Z0|Z0].
      * exists (d :: new). split; [by rewrite <- app_assoc|]. split; [apply NoDup_cons; split; [rewrite New; naive_solver|done]|].
        intros x. rewrite elem_of_cons, New, elem_of_cons. naive_solver lia.
      * exists new. split; [done|]. split; [done|]. intros x. rewrite New, elem_of_cons.
        split; [naive_solver|]. intros [[->|?] ?]; [lia|done].
Qed.

Lemma insert_by_perm {A} (f : A -> string) x l : insert_by f x l ≡ₚ x :: l.
Proof.
  induction l as [|y l IH]; simpl; [done|]. destruct (String.leb _ _); [done|]. rewrite IH. by rewrite Permutation_swap.
Qed.
Lemma sorted_by_perm {A} (f : A -> string) l : sorted_by f l ≡ₚ l.
Proof. induction l as [|x l IH]; simpl; [done|]. by rewrite insert_by_perm, IH. Qed.

(** The entries to order: distinct, in dependency order, dependencies included. *)
Record required_ok (req : list (string * AppNode)) : Prop := MkRequiredOk {
  entries_nodup : NoDup (keys req);
  entries_sorted : topological req;
}.

Lemma same_entry req k n n' : NoDup (keys req) -> (k, n) ∈ req -> (k, n') ∈ req -> n = n'.
Proof.
  induction req as [|[x m] req IH]; intros ND H H'; [by apply elem_of_nil in H|].
  apply NoDup_cons in ND as [Nx ND].
  assert (K : forall y, (x, y) ∉ req) by (intros y Hy; apply Nx, list_elem_of_fmap; by exists (x, y)).
  apply elem_of_cons in H as [E|H]; apply elem_of_cons in H' as [E'|H']; simplify_eq; auto; naive_solver.
Qed.

Lemma keys_entry req k : k ∈ keys req <-> exists n, (k, n) ∈ req.
Proof.
  unfold keys. rewrite list_elem_of_fmap. split; [intros ([x n] & -> & H); by exists n|intros [n H]; by exists (k, n)].
Qed.

Lemma edges_out_spec req k x : x ∈ edges_out req k <-> exists n, (x, n) ∈ req /\ k ∈ node_deps n.
Proof.
  unfold edges_out. rewrite list_elem_of_fmap. setoid_rewrite list_elem_of_In. setoid_rewrite filter_In.
  setoid_rewrite <- list_elem_of_In. setoid_rewrite bool_decide_eq_true. split.
  - intros ([y n] & -> & H & D). by exists n.
  - intros (n & H & D). by exists (x, n).
Qed.

Lemma edge_dependency req k x n : NoDup (keys req) -> (x, n) ∈ req -> (x ∈ edges_out req k <-> k ∈ node_deps n).
Proof.
  intros ND H. rewrite edges_out_spec. split; [|intros; by exists n].
  intros (n' & H' & D). by rewrite (same_entry _ _ _ _ ND H' H) in D.
Qed.

(** One iteration of the loop, which orders [current] next. *)
Section Step.

Context (req : list (string * AppNode)) (m : gmap string Z) (current : string) (rest ordered : list string).
Context (ok : required_ok req) (now_ : sorting req m (current :: rest) ordered).

Lemma current_required : current ∈ keys req.
Proof. apply (sorting_known _ _ _ _ now_). set_solver. Qed.
Lemma current_new : current ∉ ordered.
Proof.
  intros H. pose proof (sorting_nodup _ _ _ _ now_) as SN. apply NoDup_app in SN as (_ & SN & _). apply (SN _ H). by left.
Qed.
Lemma current_degree : degree m current = 0.
Proof. apply (sorting_ready _ _ _ _ now_); [apply current_required|apply current_new|by left]. Qed.

Lemma unmet_zero n d : unmet req ordered n = 0 -> d ∈ node_deps n -> d ∈ keys req -> d ∈ ordered.
Proof.
  intros U Hd Hk. apply count_zero with (x := d) in U; [|by apply elem_of_elements].
  rewrite bool_decide_true in U by done. simpl in U. by apply negb_false_iff, bool_decide_eq_true in U.
Qed.

(** The dependencies of [current] are ordered. *)
Lemma current_met n d : (current, n) ∈ req -> d ∈ node_deps n -> d ∈ keys req -> d ∈ ordered.
Proof.
  intros H. apply unmet_zero. rewrite <- (sorting_degree _ _ _ _ now_ _ _ H current_new). apply current_degree.
Qed.

(** What waits for [current] is not ordered, and not ready. *)
Lemma edge_waiting x : x ∈ edges_out req current -> x ∈ keys req /\ x ∉ ordered /\ degree m x <> 0.
Proof.
  intros (n & Hx & Hc)%edges_out_spec. pose proof current_new as Co. pose proof current_required as Cr.
  assert (Ox : x ∉ ordered).
  { intros Ho. apply list_elem_of_split in Ho as (l1 & l2 & E).
    pose proof (sorting_order _ _ _ _ now_ _ _ _ E n current Hx Hc Cr). apply Co. rewrite E. set_solver. }
  split; [apply keys_entry; by exists n|]. split; [done|].
  rewrite (sorting_degree _ _ _ _ now_ _ _ Hx Ox). intros Z0. apply Co. by eapply unmet_zero.
Qed.

Lemma ready_rest x : x ∈ keys req -> x ∉ ordered -> x <> current -> (x ∈ rest <-> degree m x = 0).
Proof. intros Hk Ho Hc. rewrite <- (sorting_ready _ _ _ _ now_ x Hk Ho), elem_of_cons. tauto. Qed.

Lemma unmet_step k n : (k, n) ∈ req -> k ∉ ordered ->
  unmet req (ordered ++ [current]) n =
  if bool_decide (k ∈ edges_out req current) then unmet req ordered n - 1 else unmet req ordered n.
Proof.
  intros Hk Ho. rewrite (bool_decide_ext _ _ (edge_dependency _ _ _ _ (entries_nodup _ ok) Hk)). unfold unmet.
  pose proof current_new as Co. pose proof current_required as Cr.
  case_bool_decide as He.
  - apply count_drop with current; [apply NoDup_elements|by apply elem_of_elements| | |].
    + by rewrite bool_decide_true, bool_decide_false by done.
    + rewrite (bool_decide_true (current ∈ ordered ++ [current])) by set_solver. apply andb_false_r.
    + intros y Hy. f_equal. f_equal. apply bool_decide_ext. set_solver.
  - apply count_ext. intros d Hd%elem_of_elements. f_equal. f_equal. apply bool_decide_ext.
    assert (d <> current) by (by intros ->). set_solver.
Qed.

Lemma sorting_step :
  let st := fold_left release (edges_out req current) (m, rest) in
  sorting req (fst st) (sorted_by (required_name req) (snd st)) (ordered ++ [current]).
Proof.
  intros st. pose proof current_new as Co.
  pose proof (sorting_nodup _ _ _ _ now_) as SN. apply NoDup_app in SN as (NO & NOR & [CR NR]%NoDup_cons).
  destruct (release_all (edges_out req current) m rest) as (Deg & new & E & NDn & Hn).
  { by apply nodup_map_filter, (entries_nodup _ ok). }
  fold st in Deg, E.
  assert (New : forall x, x ∈ new -> x ∉ ordered /\ x ∉ rest /\ x <> current /\ x ∈ keys req).
  { intros x [He Dx]%Hn. pose proof (edge_waiting x He) as (Hk & Ho & Hd). split; [done|].
    assert (x <> current) by (intros ->; by rewrite current_degree in Hd).
    split; [|done]. rewrite ready_rest by done. done. }
  split.
  - rewrite sorted_by_perm, E, <- app_assoc. apply NoDup_app. split; [done|]. split.
    + intros x Hx. specialize (NOR x Hx). specialize (New x). set_solver.
    + simpl. apply NoDup_cons. split; [specialize (New current); set_solver|].
      apply NoDup_app. split; [done|]. split; [|done]. intros x Hx Hw. by apply New in Hw as (_ & ? & _).
  - intros k. rewrite sorted_by_perm, E, !elem_of_app, list_elem_of_singleton.
    intros [[H| ->]|[H|H]]; [|apply current_required| |by apply New]; apply (sorting_known _ _ _ _ now_); set_solver.
  - intros k n Hk Ho. rewrite elem_of_app, list_elem_of_singleton in Ho.
    rewrite Deg, (unmet_step k n Hk) by tauto. by rewrite (sorting_degree _ _ _ _ now_ k n Hk) by tauto.
  - intros k Hk Ho. rewrite elem_of_app, list_elem_of_singleton in Ho.
    rewrite elem_of_sorted_by, E, elem_of_app, Deg, ready_rest, Hn by tauto.
    case_bool_decide as He; [|tauto]. pose proof (edge_waiting k He) as (_ & _ & Hd).
    split; [intros [|[_ ?]]; lia|intros; right; split; [done|lia]].
  - intros l1 k l2 El n d Hk Hd Hkd. destruct l2 as [|y l2 _] using rev_ind.
    + apply app_inj_tail in El as [<- <-]. by eapply current_met.
    + rewrite app_comm_cons, app_assoc in El. apply app_inj_tail in El as [El _].
      exact (sorting_order _ _ _ _ now_ _ _ _ El n d Hk Hd Hkd).
Qed.

End Step.

(** Some required entry is always ready while one is not ordered. *)
Lemma some_ready req m ordered :
  required_ok req -> sorting req m [] ordered -> forall k, k ∈ keys req -> k ∈ ordered.
Proof.
  intros [ND T] S.
  assert (A : forall l1 l2, req = l1 ++ l2 -> forall k, k ∈ keys l1 -> k ∈ ordered).
  { induction l1 as [|[x n] l1 IH] using rev_ind; intros l2 E k Hk; [by apply elem_of_nil in Hk|].
    rewrite <- app_assoc in E. unfold keys in Hk. rewrite map_app in Hk.
    apply elem_of_app in Hk as [Hk|Hk%list_elem_of_singleton]; [by eapply IH|]. simpl in Hk. subst k.
    destruct (decide (x ∈ ordered)) as [|Ho]; [done|]. exfalso.
    assert (Hx : (x, n) ∈ req) by (rewrite E; set_solver).
    assert (Kx : x ∈ keys req) by (apply keys_entry; by exists n).
    enough (degree m x = 0) as Z0 by (apply (sorting_ready _ _ _ _ S x Kx Ho) in Z0; by apply elem_of_nil in Z0).
    rewrite (sorting_degree _ _ _ _ S x n Hx Ho). apply count_none. intros d Hd%elem_of_elements.
    rewrite (bool_decide_true (d ∈ ordered)); [apply andb_false_r|].
    apply (IH _ E). by apply (T _ _ _ E). }
  intros k. apply (A req []). by rewrite app_nil_r.
Qed.

Lemma kahn_spec req fuel m ready ordered :
  required_ok req -> sorting req m ready ordered -> (List.length req <= fuel + List.length ordered)%nat ->
  exists m', sorting req m' [] (kahn req fuel m ready ordered).
Proof.
  intros R. revert m ready ordered. induction fuel as [|fuel IH]; intros m ready ordered S F.
  - simpl. destruct ready as [|x ready]; [by exists m|]. exfalso.
    pose proof (sorting_nodup _ _ _ _ S) as ND.
    assert (L : (List.length (ordered ++ x :: ready) <= List.length (keys req))%nat).
    { apply submseteq_length, NoDup_submseteq; [done|]. intros y. apply (sorting_known _ _ _ _ S). }
    rewrite length_app in L. unfold keys in L. rewrite length_map in L. simpl in L. lia.
  - destruct ready as [|x ready]; [by exists m|]. cbn [kahn]. cbv zeta.
    apply IH; [by apply sorting_step|]. rewrite length_app. simpl. lia.
Qed.

Lemma entry_lookup {B} req (f : AppNode -> B) k n :
  NoDup (keys req) -> (k, n) ∈ req -> (list_to_map (List.map (fun e => (fst e, f (snd e))) req) : gmap string B) !! k = Some (f n).
Proof.
  intros ND H. apply elem_of_list_to_map_1.
  - change (NoDup (List.map fst (List.map (fun e => (fst e, f (snd e))) req))). by rewrite map_map.
  - apply list_elem_of_fmap. by exists (k, n).
Qed.

Lemma sorting_start req : required_ok req -> sorting req (initial_indegree req) (ready_at_start req) [].
Proof.
  intros [ND T]. split.
  - simpl. unfold ready_at_start. rewrite sorted_by_perm. rewrite <- (map_id (List.filter _ _)). apply nodup_map_filter.
    by rewrite map_id.
  - intros k. simpl. unfold ready_at_start. rewrite elem_of_sorted_by, list_elem_of_In, filter_In, <- list_elem_of_In.
    by intros [? _].
  - intros k n Hk _. unfold degree, initial_indegree.
    rewrite (entry_lookup req (fun n => count (fun d => bool_decide (d ∈ List.map fst req)) (elements (node_deps n))) k n) by done.
    apply count_ext. intros d _. rewrite (bool_decide_false (d ∈ [])) by apply not_elem_of_nil. simpl. by rewrite andb_true_r.
  - intros k Hk _. unfold ready_at_start. rewrite elem_of_sorted_by, list_elem_of_In, filter_In, <- list_elem_of_In.
    rewrite Z.eqb_eq. tauto.
  - intros [|? ?] ? ? E; discriminate.
Qed.

(** ** The result *)

(** Everything wanted exists and is enabled, and no dependency leads back to itself. *)
Definition resolvable : Prop := forall k, wanted k ->
  (exists n, catalog !! k = Some n /\ node_enabled n = true) /\ ~ tc depends k k.

Lemma disabled_errors_nil req : disabled_errors req = [] <-> forall e, e ∈ req -> node_enabled (snd e) = true.
Proof.
  unfold disabled_errors. induction req as [|e req IH]; simpl.
  - split; [|done]. intros _ e H. by apply elem_of_nil in H.
  - destruct (node_enabled (snd e)) eqn:E; simpl; [rewrite IH|split; [discriminate|]].
    + split; intros H x; [intros [->|]%elem_of_cons; auto|intros; apply H; by right].
    + intros H. rewrite (H e) in E by by left. discriminate.
Qed.

(** A search without errors met no missing entry and no cycle. *)
Lemma search_clean :
  let s := search catalog selected in
  errors s = [] <-> forall k, wanted k -> is_Some (catalog !! k) /\ ~ tc depends k k.
Proof.
  destruct search_spec as [H _]. intros s. split.
  - intros E k Hk. apply (search_wanted k E) in Hk as Hr. split.
    + apply keys_entry in Hr as [n Hn]. exists n. by apply (required_nodes _ _ H (k, n)).
    + apply (topological_acyclic (required s)); [by apply (required_sorted _ _ H)|apply (required_nodup _ _ H)| |done].
      apply (required_nodes _ _ H).
  - intros R. destruct (errors s) eqn:E; [done|]. destruct (error_reason _ _ H) as (k & Wk & C); [fold s; by rewrite E|].
    destruct (R k Wk) as ([n N] & A). destruct C as [C|C]; [congruence|done].
Qed.

Lemma no_errors_resolvable :
  let s := search catalog selected in
  errors s ++ disabled_errors (required s) = [] <-> resolvable.
Proof.
  destruct search_spec as [H _]. pose proof search_clean as C. cbn zeta in C. intros s. split.
  - intros [E D]%app_eq_nil k Hk. apply (search_wanted k E) in Hk as Hr. split; [|by apply C].
    apply keys_entry in Hr as [n Hn]. exists n. split; [by apply (required_nodes _ _ H (k, n))|].
    by apply (proj1 (disabled_errors_nil _) D (k, n)).
  - intros R. assert (E : errors s = []).
    { apply C. intros k Wk. destruct (R k Wk) as ((n & N & _) & A). by rewrite N. }
    rewrite E. simpl. apply disabled_errors_nil. intros [k n] He.
    assert (Wk : wanted k) by (apply (search_wanted k E), keys_entry; by exists n).
    destruct (R k Wk) as ((n' & N & En) & _). pose proof (required_nodes _ _ H _ He) as N'. simpl in *. congruence.
Qed.

(** The errors of a search name a missing application or a cycle. *)
Definition search_error (e : string) : Prop :=
  (exists k, e = missing_message k) \/ exists cycle, e = cycle_message catalog cycle.

Lemma visit_errors fuel chain s k : Forall search_error (errors s) -> Forall search_error (errors (visit catalog fuel chain s k)).
Proof.
  revert chain s k. induction fuel as [|fuel IH]; intros chain s k Hs; [done|]. cbn [visit].
  destruct (color_of s k); [| |done].
  - destruct (catalog !! k) as [n|]; cbn; [|apply Forall_app_2; [done|]; apply Forall_singleton; left; by eexists].
    assert (G : forall l s0, Forall search_error (errors s0) ->
                     Forall search_error (errors (fold_left (visit catalog fuel (chain ++ [k])) l s0))).
    { induction l as [|x l IHl]; intros s0 H0; [done|]. cbn. by apply IHl, IH. }
    by apply G.
  - cbn. apply Forall_app_2; [done|]. apply Forall_singleton. right. by eexists.
Qed.

Lemma search_errors : Forall search_error (errors (search catalog selected)).
Proof.
  unfold search. assert (H0 : Forall search_error (errors (MkSearch ∅ [] []))) by constructor.
  revert H0. generalize (MkSearch ∅ [] []).
  induction selected as [|k l IH]; intros s Hs; [done|]. cbn [fold_left]. by apply IH, visit_errors.
Qed.

(** The entries the search found, put in order. *)
Lemma ordered_spec :
  let s := search catalog selected in
  let ids := kahn (required s) (List.length (required s)) (initial_indegree (required s))
               (ready_at_start (required s)) [] in
  errors s = [] ->
  List.length ids = List.length (required s) /\ NoDup ids /\ (forall k, k ∈ ids <-> wanted k) /\
  (forall l1 a l2 b, ids = l1 ++ a :: l2 -> depends a b -> b ∈ l1).
Proof.
  destruct search_spec as [H _]. intros s ids E.
  assert (R : required_ok (required s)) by (split; [apply (required_nodup _ _ H)|by apply (required_sorted _ _ H)]).
  destruct (kahn_spec (required s) (List.length (required s)) _ _ [] R (sorting_start _ R)) as [m S]; [simpl; lia|].
  fold ids in S. pose proof (sorting_nodup _ _ _ _ S) as ND. rewrite app_nil_r in ND.
  assert (K : forall k, k ∈ ids <-> k ∈ keys (required s)).
  { intros k. split; [|by apply (some_ready _ m)]. intros Hk. apply (sorting_known _ _ _ _ S). by rewrite app_nil_r. }
  split; [|split; [done|split]].
  - rewrite <- (length_map fst (required s)). apply Permutation_length, NoDup_Permutation; [done|apply (entries_nodup _ R)|done].
  - intros k. rewrite K. by apply search_wanted.
  - intros l1 a l2 b Ei D. assert (Wa : wanted a) by (apply (search_wanted a E), K; rewrite Ei; set_solver).
    pose proof (wanted_step _ _ Wa D) as Wb. destruct D as (n & N & Hb).
    apply (search_wanted a E), keys_entry in Wa as [n' Ha]. pose proof (required_nodes _ _ H _ Ha) as N'.
    simpl in N'. rewrite N' in N. injection N as ->.
    apply (sorting_order _ _ _ _ S _ _ _ Ei n b Ha Hb). by apply (search_wanted b E).
Qed.

Lemma nodes_of req ids :
  (forall e, e ∈ req -> catalog !! (fst e) = Some (snd e)) -> (forall k, k ∈ ids -> k ∈ keys req) ->
  Forall2 (fun k n => catalog !! k = Some n) ids (List.flat_map (node_at req) ids).
Proof.
  intros N. induction ids as [|k ids IH]; intros K; simpl; [constructor|]. unfold node_at at 1.
  destruct (find_first _ req) as [e|] eqn:F.
  - apply find_first_some in F as [He%list_elem_of_In Ek%String.eqb_eq]. subst k. simpl.
    constructor; [by apply N|]. apply IH. intros x Hx. apply K. by right.
  - exfalso. destruct (proj1 (keys_entry req k) (K k ltac:(by left))) as [n Hn].
    pose proof (find_none _ _ F (k, n) (proj1 (list_elem_of_In _ _) Hn)) as C. simpl in C. by rewrite String.eqb_refl in C.
Qed.

End Facts.

(** C25 (resolve_install_order): the resolver reports no error exactly if every
    selected application and everything it needs, directly or through others,
    is in the catalog, enabled and not part of a dependency cycle.  Then the
    result lists exactly these applications, each once and after all of its
    dependencies; so the internal consistency error is never reported.  With
    errors nothing is to be installed. *)
Theorem resolve_install_order_spec selected catalog :
  let result := resolve_install_order selected catalog in
  (snd result = [] <-> resolvable catalog selected)
  /\ (snd result <> [] -> fst result = [])
  /\ (snd result = [] -> exists ids,
       Forall2 (fun k n => catalog !! k = Some n) ids (fst result)
       /\ NoDup ids
       /\ (forall k, k ∈ ids <-> wanted catalog selected k)
       /\ (forall l1 a l2 b, ids = l1 ++ a :: l2 -> depends catalog a b -> b ∈ l1)).
Proof.
  cbn zeta. pose proof (no_errors_resolvable catalog selected) as R. cbn zeta in R. unfold resolve_install_order.
  destruct (errors _ ++ disabled_errors _) as [|e errs] eqn:E.
  - apply app_eq_nil in E as [E _]. destruct (ordered_spec catalog selected E) as (L & ND & W & O).
    rewrite bool_decide_true by done. cbn [fst snd]. split; [done|]. split; [done|]. intros _.
    eexists. split; [apply nodes_of|by split; [|split]].
    + apply (required_nodes _ _ _ _ (proj1 (search_spec catalog selected))).
    + intros k Hk. by apply (search_wanted catalog selected k E), W.
  - cbn [fst snd]. split; [rewrite <- R; by split|]. done.
Qed.

(** An application is installed after its dependency, a cycle is refused. *)
Definition sample_catalog : gmap string AppNode :=
  list_to_map [("a", MkNode "a" "Agent" true {["c"; "b"]}); ("b", MkNode "b" "Base" true {["c"]});
               ("c", MkNode "c" "Core" true ∅); ("d", MkNode "d" "Dead" true {["d"]})].

Example resolve_sample :
  List.map node_name (fst (resolve_install_order ["a"] sample_catalog)) = ["Core"; "Base"; "Agent"]
  /\ snd (resolve_install_order ["d"] sample_catalog) = ["Circular dependency detected: Dead"].
Proof. by vm_compute. Qed.
