(* ===== verification/Placement.v ===== *)
(** * Automatic storage placement

    [app/services/provisioning/placement.py]: the datastore of a request that
    leaves storage on automatic. *)

From Stdlib Require Import ZArith Lia Ascii String List Bool.
From stdpp Require Import base tactics list strings.
From S2P Require Import Prelude PyStr World.

Local Open Scope string_scope.
Local Open Scope Z_scope.

Record DatastoreChoice := MkChoice {
  datastore : option DatastoreOut;
  detail : string;
  preferred_configured : bool;
}.

(** [normalize_preferred] on the texts of the entries; [seen] holds their
    case-folded forms. *)
Fixpoint normalize_from (seen : list string) (names : list string) : list string :=
  match names with
  | [] => []
  | raw :: rest =>
      let name := strip raw in
      if negb (String.eqb name "") && negb (bool_decide (casefold name ∈ seen))
      then name :: normalize_from (casefold name :: seen) rest
      else normalize_from seen rest
  end.

Definition normalize_preferred (names : list string) : list string := normalize_from [] names.

(** [max(l, key=f)]: the first of the largest. *)
Definition max_by {A} (f : A -> Z) (l : list A) : option A :=
  fold_left (fun best x => match best with
                           | None => Some x
                           | Some b => if f b <? f x then Some x else Some b
                           end) l None.

Definition has_room (required_gb : Z) (d : DatastoreOut) : bool := required_gb * TENTH <=? free_gb d.

(** [by_name.get(...)]: of two datastores with one case-folded name the later. *)
Definition by_name (datastores : list DatastoreOut) (name : string) : option DatastoreOut :=
  find_first (fun d => String.eqb (casefold (ds_name d)) (casefold name)) (rev datastores).

(** The first preferred datastore that can take the VM with its rank, or what
    is wrong with each of them. *)
Fixpoint first_preferred (datastores : list DatastoreOut) (required_gb : Z) (rank : Z) (names : list string)
    : list string + DatastoreOut * Z :=
  match names with
  | [] => inl []
  | name :: rest =>
      let next problem := match first_preferred datastores required_gb (rank + 1) rest with
                          | inl problems => inl (problem :: problems)
                          | inr c => inr c
                          end in
      match by_name datastores name with
      | None => next (name ++ " is not connected to this compute target")
      | Some d =>
          if negb (accessible d) then next (ds_name d ++ " is not accessible")
          else if negb (has_room required_gb d) then next (ds_name d ++ " has " ++ fmt_gb (free_gb d) ++ " GB free")
          else inr (d, rank)
      end
  end.

Definition choose_automatic_datastore (datastores : list DatastoreOut) (preferred : list string) (required_gb : Z)
    : DatastoreChoice :=
  match normalize_preferred preferred with
  | [] =>
      match max_by free_gb (List.filter (fun d => accessible d && has_room required_gb d) datastores) with
      | None =>
          let largest := match max_by (fun g => g) (List.map free_gb (List.filter accessible datastores)) with
                         | Some g => g
                         | None => 0
                         end in
          MkChoice None ("No accessible datastore has " ++ str_int required_gb ++ " GB free (largest: "
                         ++ fmt_gb largest ++ " GB).") false
      | Some best =>
          MkChoice (Some best)
            (ds_name best ++ " (" ++ fmt_gb (free_gb best) ++ " GB free): the datastore with the most free space, "
             ++ "because no preferred datastores are configured") false
      end
  | ordered =>
      match first_preferred datastores required_gb 1 ordered with
      | inr (d, rank) =>
          MkChoice (Some d)
            (ds_name d ++ " (preferred datastore " ++ str_int rank ++ " of " ++ str_int (Z.of_nat (List.length ordered))
             ++ ", " ++ fmt_gb (free_gb d) ++ " GB free)") true
      | inl problems =>
          MkChoice None
            ("None of the preferred datastores can take the " ++ str_int required_gb ++ " GB this VM needs: "
             ++ join "; " problems ++ ".") true
      end
  end.

(** ** What is chosen *)

Definition fits (required_gb : Z) (d : DatastoreOut) : Prop :=
  accessible d = true /\ required_gb * TENTH <= free_gb d.

#[export] Instance fits_dec gb d : Decision (fits gb d).
Proof. apply and_dec; apply _. Defined.

Lemma max_by_spec {A} (f : A -> Z) l :
  match max_by f l with
  | Some m => In m l /\ forall x, In x l -> f x <= f m
  | None => l = []
  end.
Proof.
  unfold max_by. set (F := fun (best : option A) x => _).
  assert (G : forall best, match fold_left F l best with
    | Some m => (In m l \/ best = Some m) /\ (forall x, In x l -> f x <= f m)
                /\ (forall b, best = Some b -> f b <= f m)
    | None => l = [] /\ best = None
    end).
  { induction l as [|x l IH]; intros best; simpl.
    - destruct best as [b|]; [|done]. split_and!; [by right|done|]. intros ? [= <-]. lia.
    - specialize (IH (F best x)). destruct (fold_left F l (F best x)) as [m|].
      2:{ destruct IH as [_ E]. unfold F in E. destruct best; [by case_match|done]. }
      destruct IH as (I1 & I2 & I3).
      assert (E : exists y, F best x = Some y /\ f x <= f y /\ (y = x \/ best = Some y)
                            /\ forall b, best = Some b -> f b <= f y).
      { unfold F. destruct best as [b|].
        - destruct (Z.ltb_spec (f b) (f x)); [exists x|exists b];
            (split_and!; [done|lia|auto|intros ? [= <-]; lia]).
        - exists x. split_and!; [done|lia|auto|done]. }
      destruct E as (y & Ey & E1 & E2 & E3). specialize (I3 y Ey). split_and!.
      + destruct I1 as [I1|I1]; [auto|]. rewrite Ey in I1. injection I1 as ->. destruct E2 as [->|E2]; auto.
      + intros z [->|Hz]; [lia|by apply I2].
      + intros b Hb. specialize (E3 b Hb). lia. }
  specialize (G None). destruct (fold_left F l None) as [m|]; [|by destruct G].
  destruct G as ([G1|G1] & G2 & _); done.
Qed.

Lemma fits_filter gb ds d :
  In d (List.filter (fun d => accessible d && has_room gb d) ds) <-> In d ds /\ fits gb d.
Proof.
  rewrite filter_In, andb_true_iff. unfold has_room, fits. by rewrite Z.leb_le.
Qed.

Lemma by_name_in ds name d : by_name ds name = Some d -> In d ds /\ casefold (ds_name d) = casefold name.
Proof.
  unfold by_name. intros [H1 H2]%find_first_some. rewrite <- in_rev in H1. by apply String.eqb_eq in H2.
Qed.

Lemma first_preferred_spec ds gb rank names :
  match first_preferred ds gb rank names with
  | inr (d, k) => exists i name, names !! i = Some name /\ k = rank + Z.of_nat i
      /\ by_name ds name = Some d /\ fits gb d
      /\ forall j name' d', (j < i)%nat -> names !! j = Some name' -> by_name ds name' = Some d' -> ~ fits gb d'
  | inl problems => List.length problems = List.length names
      /\ forall name d, In name names -> by_name ds name = Some d -> ~ fits gb d
  end.
Proof.
  revert rank. induction names as [|name names IH]; intros rank; [by split|].
  assert (next : (forall d, by_name ds name = Some d -> ~ fits gb d) -> forall problem,
    match (match first_preferred ds gb (rank + 1) names with
           | inl problems => inl (problem :: problems) | inr c => inr c end) with
    | inr (d, k) => exists i name', (name :: names) !! i = Some name' /\ k = rank + Z.of_nat i
        /\ by_name ds name' = Some d /\ fits gb d
        /\ forall j name' d', (j < i)%nat -> (name :: names) !! j = Some name' -> by_name ds name' = Some d'
            -> ~ fits gb d'
    | inl problems => List.length problems = List.length (name :: names)
        /\ forall name' d, In name' (name :: names) -> by_name ds name' = Some d -> ~ fits gb d
    end).
  { intros Hno problem. specialize (IH (rank + 1)). destruct (first_preferred ds gb (rank + 1) names) as [p|[d k]].
    - destruct IH as [I1 I2]. split; [simpl; lia|]. intros n d [<-|Hn] Hd; [by apply Hno|by eapply I2].
    - destruct IH as (i & n & H1 & H2 & H3 & H4 & H5). exists (S i), n. split_and!; [done|lia|done|done|].
      intros [|j] n' d' Hj Hn' Hd'; [injection Hn' as <-; by apply Hno|]. eapply H5; [|exact Hn'|exact Hd']. lia. }
  simpl. destruct (by_name ds name) as [d|] eqn:E; [|apply next; discriminate].
  destruct (negb (accessible d)) eqn:A; [|destruct (negb (has_room gb d)) eqn:R].
  - apply next. intros ? [= <-] [F _]. by rewrite F in A.
  - apply next. intros ? [= <-] [_ F]. apply negb_true_iff in R. unfold has_room in R. lia.
  - apply negb_false_iff in A, R. unfold has_room in R. apply Z.leb_le in R. exists 0%nat, name.
    split_and!; [done|lia|done|done|]. intros j n d' Hj. lia.
Qed.

(** A chosen datastore is one of those offered and takes the VM. *)
Lemma chosen_fits ds preferred gb d :
  datastore (choose_automatic_datastore ds preferred gb) = Some d -> In d ds /\ fits gb d.
Proof.
  unfold choose_automatic_datastore. destruct (normalize_preferred preferred) as [|n names].
  - pose proof (max_by_spec free_gb (List.filter (fun d => accessible d && has_room gb d) ds)) as M.
    destruct (max_by free_gb _) as [best|]; [|discriminate]. intros [= <-]. apply fits_filter, M.
  - pose proof (first_preferred_spec ds gb 1 (n :: names)) as F.
    destruct (first_preferred ds gb 1 (n :: names)) as [problems|[d' k]]; [discriminate|]. intros [= <-].
    destruct F as (i & name & _ & _ & N & F & _). apply by_name_in in N as [N _]. by split.
Qed.

Definition no_better (ds : list DatastoreOut) (gb : Z) (ordered : list string) (d : DatastoreOut) : Prop :=
  match ordered with
  | [] => forall d', In d' ds -> accessible d' = true -> free_gb d' <= free_gb d
  | _ => exists i name, ordered !! i = Some name /\ by_name ds name = Some d
      /\ forall j name' d', (j < i)%nat -> ordered !! j = Some name' -> by_name ds name' = Some d' -> ~ fits gb d'
  end.

Definition nothing_fits (ds : list DatastoreOut) (gb : Z) (ordered : list string) : Prop :=
  match ordered with
  | [] => forall d, In d ds -> ~ fits gb d
  | _ => forall name d, In name ordered -> by_name ds name = Some d -> ~ fits gb d
  end.

(** (placement): the chosen datastore is connected, accessible and has room
    for all disks.  With preferred datastores it is the first of them that
    does; without, none of the accessible ones has more free space.  No
    datastore is chosen only when none (of the preferred ones, if any) fits. *)
Lemma choose_automatic_datastore_spec ds preferred gb :
  let ordered := normalize_preferred preferred in
  let choice := choose_automatic_datastore ds preferred gb in
  preferred_configured choice = negb (bool_decide (ordered = []))
  /\ match datastore choice with
     | Some d => In d ds /\ fits gb d /\ no_better ds gb ordered d
     | None => nothing_fits ds gb ordered
     end.
Proof.
  intros ordered choice. unfold choice, choose_automatic_datastore. fold ordered.
  destruct ordered as [|n names] eqn:Eo.
  - pose proof (max_by_spec free_gb (List.filter (fun d => accessible d && has_room gb d) ds)) as M.
    destruct (max_by free_gb _) as [best|]; (split; [done|]); cbn [datastore].
    + destruct M as [M1 M2]. apply fits_filter in M1 as [M1 M3]. split_and!; [done|done|].
      intros d' Hd Ha. destruct (decide (fits gb d')) as [F|F]; [by apply M2, fits_filter|].
      destruct M3 as [_ M3]. assert (~ gb * TENTH <= free_gb d') by (intros ?; by apply F). lia.
    + intros d Hd Hf. assert (I : In d []) by (rewrite <- M; by apply fits_filter). done.
  - pose proof (first_preferred_spec ds gb 1 (n :: names)) as F.
    destruct (first_preferred ds gb 1 (n :: names)) as [problems|[d k]]; (split; [done|]); cbn [datastore].
    + by destruct F.
    + destruct F as (i & name & H1 & _ & H2 & H3 & H4).
      split_and!; [by apply by_name_in in H2 as [? _]|done|]. by exists i, name.
Qed.
