(* ===== verification/Applications.v ===== *)
(** * Application detection and installation

    [app/services/applications/detection_rules.py] and [installer.py]: the
    rules of administrators are validated and turned into commands; an
    application is installed only when no probe finds it. *)

From Stdlib Require Import ZArith Lia Ascii String List Bool.
From stdpp Require Import base tactics list strings gmap.
From S2P Require Import Prelude PyStr Regex Errors Scripts Effects World Guest Paths.

Local Open Scope string_scope.
Local Open Scope Z_scope.

Definition REG_PATH : string := "C:\Windows\System32\reg.exe".
Definition SC_PATH : string := "C:\Windows\System32\sc.exe".
Definition MSIEXEC_PATH : string := "C:\Windows\System32\msiexec.exe".

Definition hex_digit : regex := RChr is_hex.
Definition dash : regex := RChr (Ascii.eqb "-").

(** [app/schemas/provisioning.py] *)
Definition GUID_PATTERN : regex :=
  RSeq (ropt (RChr (Ascii.eqb "{")))
    (RSeq (rtimes 8 hex_digit) (RSeq dash (RSeq (rtimes 4 hex_digit) (RSeq dash (RSeq (rtimes 4 hex_digit)
      (RSeq dash (RSeq (rtimes 4 hex_digit) (RSeq dash (RSeq (rtimes 12 hex_digit)
        (ropt (RChr (Ascii.eqb "}")))))))))))).

Definition _WINDOWS_ABS_PATH : regex :=
  RSeq letter (RSeq (rstr ":\")
    (rplus (RChr (fun c => negb (existsb (Ascii.eqb c) (chars ("<>:|?*" ++ DQ)) || in_range 0 31 c))))).

Definition _REGISTRY_HIVE (key : string) : bool := startswith key "HKLM\" || startswith key "HKCU\".

Definition _SERVICE_NAME : regex :=
  rbetween 1 80 (RChr (fun c => is_alnum c || existsb (Ascii.eqb c) (chars "_.-"))).

Definition DETECTION_ABSENT_EXIT_CODES : list Z := [1; 1060].

Definition quoted (s : string) : string := DQ ++ s ++ DQ.

Section Rules.
Context {X : Type} `{Platform X}.

(** [str(value or "")] of a field of the configuration. *)
Definition field_text (config : gmap string json) (k : string) : string :=
  match config !! k with Some v => if truthy v then py_str v else "" | None => "" end.

Definition _clean_text (value label : string) (max_length : Z) : res string string :=
  let text := strip value in
  if String.eqb text "" then Err (label ++ " is required.")
  else if max_length <? len text then Err (label ++ " exceeds " ++ str_int max_length ++ " characters.")
  else if _CONTROL_CHARS text then Err (label ++ " contains control characters.")
  else Ok text.

Definition is_brace (c : ascii) : bool := Ascii.eqb c "{" || Ascii.eqb c "}".

Definition validate_detection_config (method : DetectionMethod) (config : gmap string json)
    : res string (list (string * json)) :=
  match method with
  | MSI_PRODUCT_CODE =>
      let? code := _clean_text (field_text config "product_code") "Product code" 60 in
      if negb (fullmatch GUID_PATTERN code) then Err "Product code must be a valid MSI GUID."
      else Ok [("product_code", JStr (rstrip_by is_brace (lstrip_by is_brace code)))]
  | REGISTRY_KEY =>
      let? key := _clean_text (field_text config "key_path") "Registry key path" 400 in
      if negb (_REGISTRY_HIVE key) then Err "Registry key paths must start with HKLM\ or HKCU\."
      else if contains key DQ then Err "Registry key paths must not contain quotes."
      else
        let value_name := strip (field_text config "value_name") in
        if String.eqb value_name "" then Ok [("key_path", JStr key)]
        else
          let? name := _clean_text value_name "Value name" 200 in
          if contains name DQ then Err "Registry value names must not contain quotes."
          else Ok [("key_path", JStr key); ("value_name", JStr name)]
  | FILE_EXISTS =>
      let? path := _clean_text (field_text config "path") "File path" 400 in
      if negb (match_end _WINDOWS_ABS_PATH path) || contains path ".."
      then Err "File path must be an absolute Windows path without traversal segments."
      else Ok [("path", JStr path)]
  | SERVICE_EXISTS =>
      let? service := _clean_text (field_text config "service_name") "Service name" 80 in
      if negb (match_end _SERVICE_NAME service)
      then Err "Service names may contain letters, digits, dots, dashes and underscores."
      else Ok [("service_name", JStr service)]
  | SCRIPT =>
      let script := field_text config "script" in
      if String.eqb (strip script) "" then Err "Custom detection scripts must not be empty."
      else if 8000 <? len script then Err "Custom detection scripts are limited to 8000 characters."
      else Ok [("script", JStr script)]
  end.

Definition UNINSTALL_ROOT : string := "HKLM\SOFTWARE\Microsoft\Windows\CurrentVersion\Uninstall".

(** The probes of a rule; [Err] names the missing key of the [KeyError]. *)
Definition detection_programs (method : DetectionMethod) (config : gmap string json)
    : res string (list GuestCommand) :=
  let required key k := match config !! key with Some v => k (py_str v) | None => Err key end in
  match method with
  | MSI_PRODUCT_CODE => required "product_code" (fun code =>
      let query := "query " ++ quoted (UNINSTALL_ROOT ++ "\{" ++ code ++ "}") ++ " /v DisplayName" in
      Ok [Native REG_PATH query; Native REG_PATH (query ++ " /reg:32")])
  | REGISTRY_KEY => required "key_path" (fun key =>
      Ok [Native REG_PATH ("query " ++ quoted key ++
            (if get_truthy config "value_name" then " /v " ++ quoted (field_text config "value_name") else ""))])
  | FILE_EXISTS => required "path" (fun path =>
      Ok [Powershell ("if (Test-Path -LiteralPath " ++ ps_quote path ++ ") { exit 0 } else { exit 1 }")])
  | SERVICE_EXISTS => required "service_name" (fun service => Ok [Native SC_PATH ("query " ++ quoted service)])
  | SCRIPT => required "script" (fun script => Ok [Powershell script])
  end.

(** ** The program of an installation *)

Definition _sanitize_arguments (arguments : string) : res InfraError string :=
  if _CONTROL_CHARS arguments then
    Err (infra_error "An application definition contains invalid control characters."
      "Installer arguments include control characters."
      "Ask an administrator to correct the application definition."
      ("arguments=" ++ repr_json (JStr arguments)) false)
  else Ok (strip arguments).

Definition build_install_program (app : ApplicationRow) : res InfraError (string * string) :=
  let? arguments := _sanitize_arguments (install_arguments app) in
  match validate_installer_path (installer_path app) (Some (installer_type app)) with
  | Err reason =>
      Err (infra_error "An application definition has an invalid installer path." reason
        "Ask an administrator to correct the application definition."
        ("installer_path=" ++ repr_json (JStr (installer_path app))) false)
  | Ok path =>
      Ok (match installer_type app with
          | MSI => (MSIEXEC_PATH, "/i " ++ quoted path
                      ++ (if String.eqb arguments "" then "" else " " ++ arguments) ++ " /qn /norestart")
          | EXE => (path, arguments)
          | POWERSHELL => (POWERSHELL_PATH,
              rstrip_by is_space ("-NoProfile -ExecutionPolicy Bypass -File " ++ quoted path ++ " " ++ arguments))
          end)
  end.

End Rules.

(** ** Installing *)

Definition _MSI_REBOOT_EXIT_CODE : Z := 3010.

Record InstallOutcome := MkInstall {
  install_app_id : string;
  install_name : string;
  install_status : string;
  install_output : string;
  install_reboot : bool;
}.

Section Installer.

Context {X : Type} `{World X}.
Context (target_ : VCenterTarget) (vm_name : string) (credentials : GuestCredentials).

Definition probe_failure (app : ApplicationRow) (probe : GuestCommand) (result : CommandResult) : InfraError :=
  infra_error ("Detection for " ++ SQ ++ app_name app ++ SQ ++ " could not run inside the guest.")
    (SQ ++ display probe ++ SQ ++ " exited with unexpected code " ++ str_int (exit_code result) ++ ".")
    "Inspect the stage output and retry application installation."
    (last_str 1500 (stdout result ++ stderr result)) true.

Fixpoint probe_all (app : ApplicationRow) (probes : list GuestCommand) : M X bool :=
  match probes with
  | [] => ret false
  | probe :: rest =>
      let* result := run_command target_ vm_name credentials probe (Z.min (timeout_seconds app) 300) in
      if exit_code result =? 0 then ret true
      else if bool_decide (exit_code result ∈ DETECTION_ABSENT_EXIT_CODES) then probe_all app rest
      else fail (probe_failure app probe result)
  end.

Definition detect (app : ApplicationRow) : M X bool :=
  match detection_programs (detection_method app) (detection_config app) with
  | Err key => throw (OtherException "KeyError" key)
  | Ok probes => probe_all app probes
  end.

Definition outcome_of_install (app : ApplicationRow) (result : CommandResult) : M X InstallOutcome :=
  let result_with status out reboot := MkInstall (app_id app) (app_name app) status out reboot in
  if exit_code result =? 0 then
    ret (result_with "INSTALLED" (last_str 4000 (stdout result)) (app_reboot_required app))
  else if bool_decide (installer_type app = MSI) && (exit_code result =? _MSI_REBOOT_EXIT_CODE) then
    ret (result_with "REBOOT_REQUIRED" (last_str 4000 (stdout result)) true)
  else
    measure (AppInstallFailures (app_name app));;
    ret (result_with "FAILED" (strip ("exit=" ++ str_int (exit_code result) ++ NL ++ last_str 3000 (stdout result)
                             ++ NL ++ last_str 1000 (stderr result))) false).

Definition install (app : ApplicationRow) : M X InstallOutcome :=
  catch_infra
    (let* present := detect app in
     if present then
       ret (MkInstall (app_id app) (app_name app) "ALREADY_INSTALLED"
              "Detection matched — installation skipped (idempotent)." false)
     else
       match build_install_program app with
       | Err e => fail e
       | Ok (program, arguments) =>
           let* result := call (run_program target_ vm_name credentials program arguments (timeout_seconds app)) in
           outcome_of_install app result
       end)
    (fun e =>
       measure (AppInstallFailures (app_name app));;
       ret (MkInstall (app_id app) (app_name app) "FAILED" (summary e) false)).

Lemma frames_probe_all app probes : frames (probe_all app probes).
Proof. induction probes; simpl; solve_frames. Qed.

Lemma calm_probe_all t app probes : calm t (probe_all app probes).
Proof. induction probes; simpl; solve_calm. Qed.

Lemma frames_detect app : frames (detect app).
Proof. pose proof frames_probe_all. unfold detect. solve_frames. Qed.

Lemma calm_detect t app : calm t (detect app).
Proof. pose proof calm_probe_all. unfold detect. solve_calm. Qed.

Lemma frames_install app : frames (install app).
Proof. pose proof frames_detect. unfold install, outcome_of_install. cbn zeta. solve_frames. Qed.

Lemma calm_install t app : calm t (install app).
Proof. pose proof calm_detect. unfold install, outcome_of_install. cbn zeta. solve_calm. Qed.

End Installer.

#[export] Hint Resolve frames_detect calm_detect frames_install calm_install : infra.
