(* ===== verification/Certificates.v ===== *)
(** * Certificate deployment

    [app/services/certificates/store_logic.py] and [deployer.py]: importing
    public certificates into the computer stores of a guest, skipping what is
    already there and verifying what was imported. *)

From Stdlib Require Import ZArith Lia Ascii String List Bool.
From stdpp Require Import base tactics list strings gmap.
From S2P Require Import Prelude PyStr Regex Errors Scripts Effects World Guest.

Local Open Scope string_scope.
Local Open Scope Z_scope.

Definition CERTUTIL_PATH : string := "C:\Windows\System32\certutil.exe".
Definition ROOT_STORE : string := "Root".
Definition CA_STORE : string := "CA".

Definition STORE_FOR_TYPE (t : CertificateType) : string :=
  match t with ROOT_CERT => ROOT_STORE | INTERMEDIATE_CERT => CA_STORE end.

(** [app/schemas/provisioning.py] *)
Definition THUMBPRINT_PATTERN : regex := rbetween 40 64 (RChr is_hex).

Definition is_expired (not_after today : option Z) (date_today : Z) : bool :=
  match not_after with
  | None => false
  | Some d => d <? match today with Some t => t | None => date_today end
  end.

Definition valid_store (store : string) : bool := String.eqb store ROOT_STORE || String.eqb store CA_STORE.

(** The builders return the text of their [ValueError]s. *)
Definition build_presence_script (store thumbprint : string) : res string string :=
  if negb (fullmatch THUMBPRINT_PATTERN thumbprint) then Err "Thumbprint must be 40–64 hexadecimal characters."
  else if negb (valid_store store) then Err "Invalid certificate store."
  else Ok ("$match = Get-ChildItem Cert:\LocalMachine\" ++ store ++ " -ErrorAction SilentlyContinue | "
           ++ "Where-Object { $_.Thumbprint -eq '" ++ upper thumbprint ++ "' }; "
           ++ "if ($match) { 'PRESENT' } else { 'ABSENT' }").

Definition presence_command (store thumbprint : string) : res string GuestCommand :=
  let? script := build_presence_script store thumbprint in Ok (Powershell script).

Definition import_program (store guest_cert_path : string) : res string (string * string) :=
  if negb (valid_store store) then Err "Invalid certificate store."
  else if negb (startswith guest_cert_path (GUEST_TEMP_DIR ++ BS)) || contains guest_cert_path DQ then
    Err "Certificate files must be staged inside the managed temp directory."
  else Ok (CERTUTIL_PATH, "-addstore -f " ++ store ++ " " ++ DQ ++ guest_cert_path ++ DQ).

Definition parse_presence_output (stdout : string) : bool := contains (upper stdout) "PRESENT".

Definition safe_name_char (c : ascii) : ascii :=
  if is_alnum c || Ascii.eqb c "_" || Ascii.eqb c "-" then c else "_"%char.

Definition make_guest_cert_file_name (friendly_name thumbprint : string) : string :=
  take_str 40 (text (List.map safe_name_char (chars friendly_name))) ++ "_" ++ lower (take_str 12 thumbprint) ++ ".cer".

Definition _PRESENCE_TIMEOUT_SECONDS : Z := 90.
Definition _IMPORT_TIMEOUT_SECONDS : Z := 180.

Record CertificateInstallRecord := MkCertRecord {
  cert_name : string;
  cert_store : string;
  cert_thumbprint : string;
  cert_action : string;
  verified : bool;
  cert_detail : string;
}.

Section Deployer.

Context {X : Type} `{World X}.
Context (target_ : VCenterTarget) (vm_name : string) (credentials : GuestCredentials).

Definition cert_record (cert : CertificateRow) (store action : string) (ok : bool) (detail : string)
    : CertificateInstallRecord :=
  MkCertRecord (friendly_name cert) store (fingerprint_sha256 cert) action ok detail.

Definition value_error {A} (r : res string A) : M X A :=
  match r with Ok a => ret a | Err m => throw (OtherException "ValueError" m) end.

Definition _probe_presence (store thumbprint : string) : M X bool :=
  let* command := value_error (presence_command store thumbprint) in
  let* result := run_command target_ vm_name credentials command _PRESENCE_TIMEOUT_SECONDS in
  if negb (succeeded result) then
    fail (infra_error "The certificate presence probe could not run inside the guest."
      ("PowerShell exited with code " ++ str_int (exit_code result) ++ ".")
      "Verify VMware Tools health and retry."
      (last_str 1000 (stdout result) ++ last_str 1000 (stderr result)) true)
  else ret (parse_presence_output (stdout result)).

(** The [try] of the import; the staged file is deleted however it ends. *)
Definition import_staged (cert : CertificateRow) (store guest_path : string) : M X unit :=
  let* o := attempt_to
    (let* p := value_error (import_program store guest_path) in
     let* result := call (run_program target_ vm_name credentials (fst p) (snd p) _IMPORT_TIMEOUT_SECONDS) in
     if negb (succeeded result) then
       fail (infra_error ("Import of " ++ SQ ++ friendly_name cert ++ SQ ++ " failed inside the guest.")
         ("certutil exited with code " ++ str_int (exit_code result) ++ ".")
         "Review the stage output and retry certificate installation."
         (let out := last_str 2000 (stdout result) in
          if String.eqb out "" then last_str 2000 (stderr result) else out) true)
     else ret tt) in
  catch_infra (call (delete_file target_ vm_name credentials guest_path)) (fun _ => ret tt);;
  reraise o.

Definition _deploy_one (cert : CertificateRow) (store : string) : M X CertificateInstallRecord :=
  catch_infra
    (let* date := (fun r => (Return (today (world r)), r)) in
     if is_expired (not_after cert) None date then
       ret (cert_record cert store "FAILED" false
              ("The certificate expired on "
               ++ match not_after cert with Some d => date_str d | None => "None" end ++ "."))
     else
       let* already := _probe_presence store (fingerprint_sha256 cert) in
       if already then
         ret (cert_record cert store "ALREADY_PRESENT" true "Thumbprint already present — skipped reinstall.")
       else
         let guest_path := GUEST_TEMP_DIR ++ BS
                           ++ make_guest_cert_file_name (friendly_name cert) (fingerprint_sha256 cert) in
         call (upload_file target_ vm_name credentials (pem_body cert) guest_path);;
         import_staged cert store guest_path;;
         let* ok := _probe_presence store (fingerprint_sha256 cert) in
         ret (cert_record cert store "INSTALLED" ok
                (if ok then "" else "Import reported success but verification probe failed.")))
    (fun e => ret (cert_record cert store "FAILED" false (human_message e))).

Fixpoint deploy (certificates : list CertificateRow) : M X (list CertificateInstallRecord) :=
  match certificates with
  | [] => ret []
  | cert :: rest =>
      let* r := _deploy_one cert (STORE_FOR_TYPE (certificate_type cert)) in
      let* records := deploy rest in
      ret (r :: records)
  end.

Fixpoint verify_all (certificates : list CertificateRow) : M X (list CertificateInstallRecord) :=
  match certificates with
  | [] => ret []
  | cert :: rest =>
      let store := STORE_FOR_TYPE (certificate_type cert) in
      let* present := _probe_presence store (fingerprint_sha256 cert) in
      let* results := verify_all rest in
      ret (cert_record cert store (if present then "ALREADY_PRESENT" else "FAILED") present
             (if present then "" else "Thumbprint not found after installation.") :: results)
  end.

(** ** Frames and calm *)

Lemma frames_value_error {A} (r : res string A) : frames (X := X) (value_error r).
Proof. unfold value_error. solve_frames. Qed.
Lemma calm_value_error {A} t (r : res string A) : calm (X := X) t (value_error r).
Proof. unfold value_error. solve_calm. Qed.
Hint Resolve frames_value_error calm_value_error : infra.

Lemma frames_probe_presence store thumb : frames (_probe_presence store thumb).
Proof. unfold _probe_presence. solve_frames. Qed.
Lemma calm_probe_presence t store thumb : calm t (_probe_presence store thumb).
Proof. unfold _probe_presence. solve_calm. Qed.
Hint Resolve frames_probe_presence calm_probe_presence : infra.

Lemma frames_import_staged cert store path : frames (import_staged cert store path).
Proof. unfold import_staged. solve_frames. Qed.
Lemma calm_import_staged t cert store path : calm t (import_staged cert store path).
Proof.
  unfold import_staged. apply calm_attempt_to; [solve_calm|]. intros o Ho.
  apply calm_bind; [solve_calm|]. intros _. by apply calm_reraise.
Qed.
Hint Resolve frames_import_staged calm_import_staged : infra.

Lemma frames_today {A} (f : X -> A) : frames (fun r => (Return (f (world r)), r)).
Proof. intros r. apply frame_refl. Qed.
Lemma calm_today {A} t (f : X -> A) : calm t (fun r => (Return (f (world r)), r)).
Proof. intros r Hr. split; [done|discriminate]. Qed.

Lemma frames_deploy_one cert store : frames (_deploy_one cert store).
Proof. pose proof (frames_today today). unfold _deploy_one. solve_frames. Qed.
Lemma calm_deploy_one t cert store : calm t (_deploy_one cert store).
Proof. pose proof (calm_today t today). unfold _deploy_one. solve_calm. Qed.

Lemma frames_deploy certs : frames (deploy certs).
Proof. pose proof frames_deploy_one. induction certs; simpl; solve_frames. Qed.
Lemma calm_deploy t certs : calm t (deploy certs).
Proof. pose proof calm_deploy_one. induction certs; simpl; solve_calm. Qed.

Lemma frames_verify_all certs : frames (verify_all certs).
Proof. induction certs; simpl; solve_frames. Qed.
Lemma calm_verify_all t certs : calm t (verify_all certs).
Proof. induction certs; simpl; solve_calm. Qed.

(** ** Thumbprints *)

(** Windows reports the SHA-1 of a certificate as its [Thumbprint], 40 digits:
    a probe for any other number of digits finds nothing. *)
Definition sha1_thumbprints : Prop := forall store thumbprint command seconds r result r',
  presence_command store thumbprint = Ok command -> String.length thumbprint <> 40%nat ->
  run_command target_ vm_name credentials command seconds r = (Return result, r') ->
  parse_presence_output (stdout result) = false.

Lemma probe_sha256_absent store thumb r b r' : sha1_thumbprints -> String.length thumb <> 40%nat ->
  _probe_presence store thumb r = (Return b, r') -> b = false.
Proof.
  intros S N. unfold _probe_presence, value_error, bind. destruct (presence_command store thumb) as [c|m] eqn:C; [|done]. cbn.
  destruct (run_command target_ vm_name credentials c _PRESENCE_TIMEOUT_SECONDS r) as [[result|e] r1] eqn:R; [|done].
  destruct (negb (succeeded result)); [done|]. intros [= <- _]. exact (S _ _ _ _ _ _ _ C N R).
Qed.

(** A certificate known by its SHA-256 fingerprint never passes the validation
    on such a guest, however often it was imported. *)
Lemma sha256_never_verified certs r records r' : sha1_thumbprints ->
  Forall (fun c => String.length (fingerprint_sha256 c) <> 40%nat) certs ->
  verify_all certs r = (Return records, r') -> Forall (fun x => verified x = false) records.
Proof.
  intros S F. revert r records r'. induction F as [|c certs N F IH]; intros r records r'; cbn; [by intros [= <- _]|].
  unfold bind. destruct (_probe_presence _ _ r) as [[b|e] r1] eqn:P; [|done].
  destruct (verify_all certs r1) as [[l|e] r2] eqn:V; [|done]. intros [= <- _].
  constructor; [|by eapply IH]. cbn. by eapply probe_sha256_absent.
Qed.

End Deployer.

#[export] Hint Resolve frames_deploy calm_deploy frames_verify_all calm_verify_all frames_value_error
  calm_value_error : infra.
