(* ===== verification/Unattend.v ===== *)
(** * The Windows answer file

    [app/services/windows_unattend.py] up to the XML, and the product-key and
    media patterns of [app/services/windows_media.py].  The element tree is a
    value; its serialisation follows [xml.etree.ElementTree]. *)

From Stdlib Require Import ZArith Lia Ascii String List Bool.
From stdpp Require Import base tactics list strings.
From S2P Require Import Prelude PyStr Regex.

Local Open Scope string_scope.
Local Open Scope Z_scope.

(** ** Elements *)

Inductive xml :=
| Elem (tag : string) (attributes : list (string * string)) (content : string) (children : list xml).

Definition UNATTEND_NS : string := "urn:schemas-microsoft-com:unattend".
Definition WCM_NS : string := "http://schemas.microsoft.com/WMIConfig/2002/State".
Definition ANSWER_FILE_NAME : string := "Autounattend.xml".

(** An element with children, one with a text, one with [wcm:action="add"]. *)
Definition elem (tag : string) (children : list xml) : xml := Elem tag [] "" children.
Definition _text (tag value : string) : xml := Elem tag [] value [].
Definition ADD : list (string * string) := [("wcm:action", "add")].
Definition _action_child (tag : string) (children : list xml) : xml := Elem tag ADD "" children.

Definition _component (name : string) (children : list xml) : xml :=
  Elem "component" [("name", name); ("processorArchitecture", "amd64"); ("publicKeyToken", "31bf3856ad364e35");
                    ("language", "neutral"); ("versionScope", "nonSxS")] "" children.

Definition settings (pass : string) (children : list xml) : xml := Elem "settings" [("pass", pass)] "" children.

Record WindowsUnattendSpec := MkUnattend {
  computer_name : string;
  administrator_username : string;
  administrator_password : string;
  image_index : Z;
  locale : string;
  u_input_locale : string;
  u_timezone : string;
  u_firmware : string;
  product_key : option string;
  builtin_administrator_password : option string;
}.

(** ** Disk layout *)

Record Layout := MkLayout {
  type_name : string;
  size_mb : option string;
  filesystem : option string;
  label : option string;
  drive_letter : option string;
  active : bool;
}.

Definition EFI_LAYOUT : list Layout := [
  MkLayout "EFI" (Some "100") (Some "FAT32") (Some "System") None false;
  MkLayout "MSR" (Some "16") None None None false;
  MkLayout "Primary" None (Some "NTFS") (Some "Windows") (Some "C") false ].

Definition BIOS_LAYOUT : list Layout := [
  MkLayout "Primary" (Some "550") (Some "NTFS") (Some "System") None true;
  MkLayout "Primary" None (Some "NTFS") (Some "Windows") (Some "C") false ].

Definition layouts (firmware : string) : list Layout :=
  if String.eqb (upper firmware) "EFI" then EFI_LAYOUT else BIOS_LAYOUT.

Definition opt_text (tag : string) (o : option string) : list xml :=
  match o with Some v => [_text tag v] | None => [] end.

Definition create_partition (order : string) (l : Layout) : xml :=
  _action_child "CreatePartition"
    ([_text "Order" order; _text "Type" (type_name l)]
     ++ match size_mb l with Some s => [_text "Size" s] | None => [_text "Extend" "true"] end).

Definition modify_partition (order : string) (l : Layout) : xml :=
  _action_child "ModifyPartition"
    ([_text "Order" order; _text "PartitionID" order] ++ opt_text "Format" (filesystem l)
     ++ opt_text "Label" (label l) ++ opt_text "Letter" (drive_letter l)
     ++ (if active l then [_text "Active" "true"] else []))%list.

(** [enumerate(l, start=1)] with the numbers as text. *)
Definition numbered {A B} (f : string -> A -> B) (l : list A) : list B :=
  imap (fun i x => f (str_int (Z.of_nat i + 1)) x) l.

Definition _add_disk_configuration (firmware : string) : xml :=
  elem "DiskConfiguration" [
    _action_child "Disk" [
      _text "DiskID" "0"; _text "WillWipeDisk" "true";
      elem "CreatePartitions" (numbered create_partition (layouts firmware));
      elem "ModifyPartitions" (numbered modify_partition (layouts firmware)) ];
    _text "WillShowUI" "OnError" ].

(** The Windows partition is the last one. *)
Definition windows_partition (firmware : string) : Z := Z.of_nat (List.length (layouts firmware)).

(** ** Accounts *)

(** [s.rpartition(c)] as qualifier and rest; no separator gives [None]. *)
Definition rpartition (c : ascii) (s : string) : option (string * string) :=
  match rev (split_on c s) with
  | _ :: [] => None
  | last :: before => Some (join (String c "") (rev before), last)
  | [] => None
  end.

Definition bad_account_char (c : ascii) : bool :=
  existsb (Ascii.eqb c) (chars (DQ ++ "/\[]:;|=,+*?<>@")) || in_range 0 31 c.

Definition ACCOUNT_MESSAGE : string :=
  "The Windows provisioning credential username must be a valid local account name.".

Definition _local_account_name (username : string) : res string string :=
  let raw_username := strip username in
  let '(foreign, local_username) :=
    match rpartition (char_of 92) raw_username with
    | Some (qualifier, rest) => (negb (String.eqb qualifier "."), rest)
    | None => (false, raw_username)
    end in
  if foreign || String.eqb local_username "" || (20 <? len local_username) || endswith local_username "."
     || existsb bad_account_char (chars local_username)
  then Err ACCOUNT_MESSAGE
  else Ok local_username.

Definition is_builtin (local_username : string) : bool := String.eqb (casefold local_username) "administrator".

Definition _add_user_accounts (local_username password : string) (builtin_password : option string) : xml :=
  let builtin := is_builtin local_username in
  let password_of v := elem "AdministratorPassword" [_text "Value" v; _text "PlainText" "true"] in
  elem "UserAccounts"
    ((if builtin then [password_of password]
      else match builtin_password with
           | Some b => if String.eqb b "" then [] else [password_of b]
           | None => []
           end)
     ++ (if builtin then [] else
           [elem "LocalAccounts" [
              Elem "LocalAccount" ADD "" [
                elem "Password" [_text "Value" password; _text "PlainText" "true"];
                _text "DisplayName" local_username; _text "Group" "Administrators";
                _text "Name" local_username ]]]))%list.

Definition _add_international_core (component_name : string) (spec : WindowsUnattendSpec) : xml :=
  _component component_name
    ((if endswith component_name "-WinPE" then [elem "SetupUILanguage" [_text "UILanguage" (locale spec)]] else [])
     ++ [_text "InputLocale" (u_input_locale spec); _text "SystemLocale" (locale spec);
         _text "UILanguage" (locale spec); _text "UserLocale" (locale spec)])%list.

(** ** First logon *)

Definition FIRST_LOGON_SCRIPT_NAME : string := "InfraOps-FirstLogon.ps1".
Definition FIRST_LOGON_LOG : string := "C:\Windows\Temp\infraops-firstlogon.log".
Definition TOOLS_MSI_LOG : string := "C:\Windows\Temp\infraops-vmtools-msi.log".

Definition FIRST_LOGON_SCRIPT : string := join CRLF [
  "# InfraOps first logon: install VMware Tools from the host's VMware Tools CD.";
  "Start-Transcript -LiteralPath '" ++ FIRST_LOGON_LOG ++ "' -Append | Out-Null";
  "Write-Host 'InfraOps is installing VMware Tools. Do not close this window.'";
  "$deadline = (Get-Date).AddHours(2)";
  "$installer = $null";
  "$exitCode = 1";
  "while (-not $installer -and (Get-Date) -lt $deadline) {";
  "    foreach ($root in (Get-PSDrive -PSProvider FileSystem).Root) {";
  "        # Windows installation media also has setup.exe at its root; only it has \sources.";
  "        if (Test-Path -LiteralPath (Join-Path $root 'sources')) { continue }";
  "        # Older Tools ISOs ship setup64.exe; newer, 64-bit-only ones only setup.exe.";
  "        foreach ($name in 'setup64.exe', 'setup.exe') {";
  "            $candidate = Join-Path $root $name";
  "            if (-not $installer -and (Test-Path -LiteralPath $candidate)) { $installer = $candidate }";
  "        }";
  "    }";
  "    if (-not $installer) {";
  "        Write-Host 'Waiting for the VMware Tools CD (setup64.exe or setup.exe)...'";
  "        Start-Sleep -Seconds 15";
  "    }";
  "}";
  "if ($installer) {";
  "    Write-Host " ++ DQ ++ "Running $installer silently. Windows stays usable meanwhile." ++ DQ;
  "    $arguments = '/s /v" ++ DQ ++ "/qn REBOOT=R /l*v " ++ TOOLS_MSI_LOG ++ DQ ++ "'";
  "    $exitCode = (Start-Process -FilePath $installer -ArgumentList $arguments -Wait -PassThru).ExitCode";
  "    Write-Host " ++ DQ ++ "The VMware Tools installer exited with code $exitCode (0 and 3010 mean success)." ++ DQ;
  "} else {";
  "    Write-Host 'No VMware Tools CD was found within two hours. InfraOps cannot configure this VM.'";
  "}";
  "Stop-Transcript | Out-Null";
  "exit $exitCode";
  EmptyString ].

Definition LOCAL_SCRIPT_DIR : string := "C:\Windows\Setup\Scripts".
Definition LOCAL_FIRST_LOGON_SCRIPT : string := LOCAL_SCRIPT_DIR ++ "\" ++ FIRST_LOGON_SCRIPT_NAME.
Definition COPY_FIRST_LOGON_SCRIPT_COMMAND : string :=
  "powershell.exe -NoProfile -Command " ++ DQ ++ "$s=(Get-PSDrive -PSProvider FileSystem).Root|%{$_+'"
  ++ FIRST_LOGON_SCRIPT_NAME ++ "'}|?{Test-Path $_}|select -f 1;if($s){md " ++ LOCAL_SCRIPT_DIR
  ++ " -Force;copy $s " ++ LOCAL_SCRIPT_DIR ++ " -Force}" ++ DQ.
Definition MAX_SYNCHRONOUS_PATH : Z := 259.

Definition _FIRST_LOGON_LAUNCHER : string :=
  "$s=@('" ++ LOCAL_FIRST_LOGON_SCRIPT ++ "')+((Get-PSDrive -PSProvider FileSystem).Root|%{Join-Path $_ '"
  ++ FIRST_LOGON_SCRIPT_NAME ++ "'})|?{Test-Path -LiteralPath $_}|select -f 1;if($s){& $s;exit $LASTEXITCODE};exit 1".
Definition MAX_COMMAND_LINE : Z := 1024.

(** UTF-16-LE of ASCII text, and base 64. *)
Definition utf_16_le (s : string) : list ascii := List.flat_map (fun c => [c; char_of 0]) (chars s).

Definition b64_digit (n : nat) : ascii :=
  ascii_of_nat (if (n <? 26)%nat then 65 + n else if (n <? 52)%nat then 71 + n
                else if (n <? 62)%nat then n - 4 else if (n =? 62)%nat then 43 else 47).

Fixpoint b64encode (l : list ascii) : list ascii :=
  match l with
  | a :: b :: c :: r =>
      b64_digit (nat_of_ascii a / 4)%nat
      :: b64_digit ((nat_of_ascii a mod 4) * 16 + nat_of_ascii b / 16)%nat
      :: b64_digit ((nat_of_ascii b mod 16) * 4 + nat_of_ascii c / 64)%nat
      :: b64_digit (nat_of_ascii c mod 64)%nat :: b64encode r
  | [a; b] =>
      [b64_digit (nat_of_ascii a / 4)%nat; b64_digit ((nat_of_ascii a mod 4) * 16 + nat_of_ascii b / 16)%nat;
       b64_digit ((nat_of_ascii b mod 16) * 4)%nat; "="%char]
  | [a] => [b64_digit (nat_of_ascii a / 4)%nat; b64_digit ((nat_of_ascii a mod 4) * 16)%nat; "="%char; "="%char]
  | [] => []
  end.

Definition tools_install_command : res string string :=
  let command := "powershell.exe -NoProfile -ExecutionPolicy Bypass -EncodedCommand "
                 ++ text (b64encode (utf_16_le _FIRST_LOGON_LAUNCHER)) in
  if MAX_COMMAND_LINE <? len command
  then Err "The VMware Tools first-logon command exceeds Windows Setup's limit." else Ok command.

(** ** The document *)

Definition key_group : regex := rtimes 5 (RChr (fun c => is_upper c || is_digit c)).
Definition PRODUCT_KEY : regex := RSeq key_group (rtimes 4 (RSeq (RChr (Ascii.eqb "-")) key_group)).

Definition normalize_product_key (key : option string) : option string :=
  match key with
  | Some k => let n := upper (strip k) in if String.eqb n "" then None else Some n
  | None => None
  end.

Definition OOBE_PAGES : list (string * string) := [
  ("HideEULAPage", "true"); ("HideLocalAccountScreen", "true"); ("HideOEMRegistrationScreen", "true");
  ("HideOnlineAccountScreens", "true"); ("HideWirelessSetupInOOBE", "true"); ("ProtectYourPC", "3") ].

Definition windows_pe_settings (spec : WindowsUnattendSpec) (key : option string) : xml :=
  settings "windowsPE" [
    _add_international_core "Microsoft-Windows-International-Core-WinPE" spec;
    _component "Microsoft-Windows-Setup" [
      _add_disk_configuration (u_firmware spec);
      elem "ImageInstall" [
        elem "OSImage" [
          elem "InstallFrom" [Elem "MetaData" ADD "" [_text "Key" "/IMAGE/INDEX"; _text "Value" (str_int (image_index spec))]];
          elem "InstallTo" [_text "DiskID" "0"; _text "PartitionID" (str_int (windows_partition (u_firmware spec)))];
          _text "WillShowUI" "OnError" ]];
      elem "UserData"
        (_text "AcceptEula" "true"
         :: match key with
            | Some k => [elem "ProductKey" [_text "Key" k; _text "WillShowUI" "OnError"]]
            | None => []
            end) ]].

Definition specialize_settings (spec : WindowsUnattendSpec) : xml :=
  settings "specialize" [
    _component "Microsoft-Windows-Deployment" [
      elem "RunSynchronous" [
        Elem "RunSynchronousCommand" ADD "" [
          _text "Description" "Copy the InfraOps first-logon script to disk"; _text "Order" "1";
          _text "Path" COPY_FIRST_LOGON_SCRIPT_COMMAND ]]];
    _component "Microsoft-Windows-Shell-Setup" [
      _text "ComputerName" (computer_name spec); _text "TimeZone" (u_timezone spec) ]].

Definition oobe_settings (spec : WindowsUnattendSpec) (local_username command : string) : xml :=
  settings "oobeSystem" [
    _add_international_core "Microsoft-Windows-International-Core" spec;
    _component "Microsoft-Windows-Shell-Setup" [
      elem "AutoLogon" [
        elem "Password" [_text "Value" (administrator_password spec); _text "PlainText" "true"];
        _text "Domain" "."; _text "Enabled" "true"; _text "LogonCount" "1"; _text "Username" local_username ];
      elem "FirstLogonCommands" [
        Elem "SynchronousCommand" ADD "" [
          _text "CommandLine" command; _text "Description" "Install VMware Tools"; _text "Order" "1" ]];
      elem "OOBE" (List.map (fun e => _text (fst e) (snd e)) OOBE_PAGES);
      _text "TimeZone" (u_timezone spec);
      _add_user_accounts local_username (administrator_password spec) (builtin_administrator_password spec) ]].

Definition autounattend_tree (spec : WindowsUnattendSpec) : res string xml :=
  let? local_username := _local_account_name (administrator_username spec) in
  let key := normalize_product_key (product_key spec) in
  if match key with Some k => negb (fullmatch PRODUCT_KEY k) | None => false end
  then Err "The Windows product key must have the form XXXXX-XXXXX-XXXXX-XXXXX-XXXXX."
  else
    let? command := tools_install_command in
    Ok (elem "unattend" [windows_pe_settings spec key; specialize_settings spec;
                         oobe_settings spec local_username command]).

(** ** Serialisation *)

(** [_escape_cdata] *)
Fixpoint escape_chars (l : list ascii) : list ascii :=
  match l with
  | [] => []
  | c :: r => (if Ascii.eqb c "&" then chars "&amp;"
               else if Ascii.eqb c "<" then chars "&lt;"
               else if Ascii.eqb c ">" then chars "&gt;" else [c]) ++ escape_chars r
  end.
Definition escape_cdata (s : string) : string := text (escape_chars (chars s)).

Definition attribute (a : string * string) : string := " " ++ fst a ++ "=" ++ DQ ++ snd a ++ DQ.

Fixpoint serialize (x : xml) : string :=
  match x with
  | Elem tag attributes content children =>
      let open_tag := "<" ++ tag ++ String.concat "" (List.map attribute attributes) in
      if String.eqb content "" && match children with [] => true | _ => false end
      then open_tag ++ " />"
      else open_tag ++ ">" ++ escape_cdata content
           ++ (fix all (l : list xml) : string := match l with [] => "" | c :: r => serialize c ++ all r end) children
           ++ "</" ++ tag ++ ">"
  end.

(** The root declares the namespaces. *)
Definition with_namespaces (x : xml) : xml :=
  match x with
  | Elem tag attributes content children =>
      Elem tag ([("xmlns", UNATTEND_NS); ("xmlns:wcm", WCM_NS)] ++ attributes) content children
  end.

Definition build_autounattend_xml (spec : WindowsUnattendSpec) : res string string :=
  let? root := autounattend_tree spec in
  Ok ("<?xml version='1.0' encoding='utf-8'?>" ++ NL ++ serialize (with_namespaces root)).
