(* ===== verification/InventoryRefs.v ===== *)
(** * Identifiers of inventory files

    [app/services/vmware/inventory_refs.py]: an ISO image is named by its
    datastore and path, written as compact JSON in URL-safe base 64 without
    padding.  The decoder is Python's: characters outside the alphabet are
    skipped.  The text is read as UTF-8 bytes; bytes that are no UTF-8 are not
    refused here. *)

From Stdlib Require Import ZArith Lia Ascii String List Bool.
From stdpp Require Import base tactics list strings.
From S2P Require Import Prelude PyStr Json Unattend.

Local Open Scope string_scope.
Local Open Scope Z_scope.

(** ** [base64.urlsafe_b64encode] and [base64.urlsafe_b64decode] *)

Definition urlsafe (c : ascii) : ascii :=
  if Ascii.eqb c "+" then "-"%char else if Ascii.eqb c "/" then "_"%char else c.
Definition standard (c : ascii) : ascii :=
  if Ascii.eqb c "-" then "+"%char else if Ascii.eqb c "_" then "/"%char else c.

Definition b64_value (c : ascii) : option nat :=
  if is_upper c then Some (nat_of_ascii c - 65)%nat
  else if is_lower c then Some (nat_of_ascii c - 71)%nat
  else if is_digit c then Some (nat_of_ascii c + 4)%nat
  else if Ascii.eqb c "+" then Some 62%nat
  else if Ascii.eqb c "/" then Some 63%nat
  else None.

(** [binascii.a2b_base64]: position in the group of four, bits left over and
    padding seen; [None] is [binascii.Error]. *)
Fixpoint a2b (quad : nat) (left_bits : nat) (pads : nat) (l : list ascii) : option (list ascii) :=
  match l with
  | [] => if (quad =? 0)%nat then Some [] else None
  | c :: r =>
      if Ascii.eqb c "=" then
        if (2 <=? quad)%nat then if (4 <=? quad + S pads)%nat then Some [] else a2b quad left_bits (S pads) r
        else a2b quad left_bits pads r
      else match b64_value c with
           | None => a2b quad left_bits pads r
           | Some v =>
               match quad with
               | 0%nat => a2b 1 v 0 r
               | 1%nat => option_map (cons (ascii_of_nat (left_bits * 4 + v / 16))) (a2b 2 (v mod 16) 0 r)
               | 2%nat => option_map (cons (ascii_of_nat (left_bits * 16 + v / 4))) (a2b 3 (v mod 4) 0 r)
               | _ => option_map (cons (ascii_of_nat (left_bits * 64 + v))) (a2b 0 0 0 r)
               end
           end
  end.

Definition b64decode (l : list ascii) : option (list ascii) := a2b 0 0 0 (List.map standard l).

(** ** The identifiers *)

Definition _ISO_PREFIX : string := "iso:".

Definition encode_iso_id (datastore_id path : string) : string :=
  let payload := "[" ++ dump_string datastore_id ++ "," ++ dump_string path ++ "]" in
  _ISO_PREFIX ++ rstrip_char "=" (text (List.map urlsafe (b64encode (chars payload)))).

Definition decode_iso_id (value : string) : res string (string * string) :=
  if negb (startswith value _ISO_PREFIX) then Err "Unknown ISO identifier format."
  else
    let token := skipn 4 (chars value) in
    let token := (token ++ List.repeat "="%char (Z.to_nat ((- Z.of_nat (List.length token)) mod 4)))%list in
    match b64decode token with
    | None => Err "Invalid ISO identifier."
    | Some payload =>
        match json_loads (text payload) with
        | None => Err "Invalid ISO identifier."
        | Some (JArr [JStr d; JStr p]) =>
            if String.eqb d "" || String.eqb p "" then Err "Invalid ISO identifier payload." else Ok (d, p)
        | Some _ => Err "Invalid ISO identifier payload."
        end
    end.

Example iso_id_round_trip :
  decode_iso_id (encode_iso_id "datastore-12" "[ds one] iso/win server.iso")
  = Ok ("datastore-12", "[ds one] iso/win server.iso").
Proof. vm_compute. reflexivity. Qed.
