(* ===== verification/VCenter.v ===== *)
(** * vCenter as the adapter sees it

    The managed objects [app/services/vmware/vsphere.py] reads through pyVmomi,
    as records with the attributes the code uses, and the calls it makes, as
    the class [VCenterApi].  pyVmomi and vCenter are not part of the program:
    the class [VCenterLaws] of [VSphereFacts.v] states what the development
    relies on of them.  The
    ownership marker of [app/services/vmware/base.py] is here too. *)

From Stdlib Require Import ZArith Lia Ascii String List Bool.
From stdpp Require Import base tactics list strings gmap.
From S2P Require Import Prelude PyStr Errors Schemas Effects.

Local Open Scope string_scope.
Local Open Scope Z_scope.

(** ** Managed objects *)

(** [summary.freeSpace or 0] in bytes. *)
Record Datastore := MkDsObject { d_moid : string; d_name : string; d_accessible : bool; d_free : Z }.

Record HostSystem := MkHostSystem {
  host_moid : string;
  host_name : string;
  connectionState : string;
  inMaintenanceMode : bool;
  host_datastores : list Datastore;
}.

Inductive ResourcePool := MkResourcePool (moid name : string) (children : list ResourcePool).
Definition pool_moid (p : ResourcePool) : string := match p with MkResourcePool m _ _ => m end.
Definition pool_name (p : ResourcePool) : string := match p with MkResourcePool _ n _ => n end.

Record ComputeResource := MkCompute {
  cr_moid : string;
  cr_name : string;
  cr_hosts : list HostSystem;
  cr_pool : ResourcePool;
  cr_drs : bool;
}.

(** Switch and key of a distributed port group; none for a standard one. *)
Record NetworkEntity := MkNetworkEntity { nw_moid : string; nw_name : string; nw_dvs : option (string * string) }.

(** [dcn_ancestors]: the names of the folders above, the nearest first. *)
Record Datacenter := MkDatacenterEntity {
  dcn_moid : string;
  dcn_name : string;
  dcn_ancestors : list string;
  dcn_computes : list ComputeResource;
  dcn_datastores : list Datastore;
  dcn_networks : list NetworkEntity;
}.

(** [vim.StoragePod] with the datastores whose parent it is. *)
Record StoragePod := MkStoragePod {
  sp_moid : string;
  sp_name : string;
  sp_capacity : Z;
  sp_free : Z;
  sp_datastores : list string;
}.

(** ** Devices *)

Inductive CdBacking := IsoBackingInfo (fileName : string) | RemotePassthrough | OtherBacking.
Inductive NicBacking := DvsPort (switchUuid portgroupKey : string) | NetworkName (deviceName : string).

Inductive Device :=
| VirtualDisk (key controllerKey : Z) (unitNumber : option Z) (capacityInKB : Z) (thinProvisioned : bool)
| VirtualCdrom (key controllerKey : Z) (unitNumber : option Z) (backing : CdBacking) (connected : bool)
| VirtualEthernetCard (key : Z) (adapter : AdapterType) (backing : NicBacking)
| VirtualAHCIController (key : Z)
| VirtualLsiLogicSASController (key : Z)
| OtherDevice (key : Z) (controllerKey unitNumber : option Z).

Definition device_key (d : Device) : Z :=
  match d with
  | VirtualDisk k _ _ _ _ | VirtualCdrom k _ _ _ _ | VirtualEthernetCard k _ _
  | VirtualAHCIController k | VirtualLsiLogicSASController k | OtherDevice k _ _ => k
  end.

Definition with_key (k : Z) (d : Device) : Device :=
  match d with
  | VirtualDisk _ c u s t => VirtualDisk k c u s t
  | VirtualCdrom _ c u b s => VirtualCdrom k c u b s
  | VirtualEthernetCard _ a b => VirtualEthernetCard k a b
  | VirtualAHCIController _ => VirtualAHCIController k
  | VirtualLsiLogicSASController _ => VirtualLsiLogicSASController k
  | OtherDevice _ c u => OtherDevice k c u
  end.

(** [getattr(device, "controllerKey", None)] and [device.unitNumber] *)
Definition device_controller (d : Device) : option Z :=
  match d with VirtualDisk _ c _ _ _ | VirtualCdrom _ c _ _ _ => Some c | OtherDevice _ c _ => c | _ => None end.
Definition device_unit (d : Device) : option Z :=
  match d with VirtualDisk _ _ u _ _ | VirtualCdrom _ _ u _ _ => u | OtherDevice _ _ u => u | _ => None end.

Definition is_disk (d : Device) : bool := match d with VirtualDisk _ _ _ _ _ => true | _ => false end.
Definition is_cdrom (d : Device) : bool := match d with VirtualCdrom _ _ _ _ _ => true | _ => false end.
Definition is_nic (d : Device) : bool := match d with VirtualEthernetCard _ _ _ => true | _ => false end.
Definition is_ahci (d : Device) : bool := match d with VirtualAHCIController _ => true | _ => false end.
Definition is_sas (d : Device) : bool := match d with VirtualLsiLogicSASController _ => true | _ => false end.

(** [getattr(getattr(device, "backing", None), "fileName", None)] of a CD drive *)
Definition cd_file (d : Device) : option string :=
  match d with VirtualCdrom _ _ _ (IsoBackingInfo f) _ => Some f | _ => None end.

Inductive DeviceChange := AddDevice (d : Device) | RemoveDevice (d : Device) | EditDevice (d : Device).

Inductive BootDevice := BootableCdrom | BootableDisk (deviceKey : Z).
Record BootOptions := MkBoot {
  bootOrder : option (list BootDevice);
  bootRetryEnabled : option bool;
  bootRetryDelay : option Z;
  efiSecureBootEnabled : option bool;
}.

(** ** Virtual machines *)

Record GuestInfo := MkGuestInfo {
  g_net : list (list string);
  g_ip : option string;
  g_tools_status : option string;
  g_tools_running : option string;
  g_tools_version : option string;
  g_ready : bool;
  g_family : option string;
  g_host_name : option string;
}.

(** An object of the folder ancestry, with the datacenter's VM folder. *)
Record Ancestor := MkAncestor { an_moid : string; an_vm_folder : option string }.

Record VirtualMachine := MkVirtualMachine {
  v_moid : string;
  v_name : string;
  v_ancestors : list Ancestor;
  v_extra : list (string * string);
  v_annotation : option string;
  v_cpu : Z;
  v_memory : Z;
  v_devices : list Device;
  v_boot : BootOptions;
  v_datastores : list Datastore;
  v_power : string;
  v_guest : GuestInfo;
  v_cpu_usage : option Z;
  v_cpu_capacity : option Z;
}.

#[export] Instance eta_vm : Eta VirtualMachine := fun v =>
  MkVirtualMachine (v_moid v) (v_name v) (v_ancestors v) (v_extra v) (v_annotation v) (v_cpu v) (v_memory v)
    (v_devices v) (v_boot v) (v_datastores v) (v_power v) (v_guest v) (v_cpu_usage v) (v_cpu_capacity v).

Record Inventory := MkInventory { datacenters : list Datacenter; pods : list StoragePod; vms : list VirtualMachine }.

#[export] Instance eta_inventory : Eta Inventory := fun i => MkInventory (datacenters i) (pods i) (vms i).

(** ** Configuration specifications *)

Record ConfigSpec := MkConfig {
  c_name : string;
  c_annotation : string;
  c_extra : list (string * string);
  c_cpu : Z;
  c_memory : Z;
  c_path : string;
  c_firmware_efi : bool;
  c_secure_boot : bool;
  c_changes : list DeviceChange;
}.

(** The fields of a reconfiguration; an unset one stays as it is. *)
Record ReconfigSpec := MkReconfig {
  r_extra : list (string * string);
  r_cpu : option Z;
  r_memory : option Z;
  r_changes : list DeviceChange;
  r_boot : option BootOptions;
}.
Definition NO_CHANGE : ReconfigSpec := MkReconfig [] None None [] None.

#[export] Instance eta_reconfig : Eta ReconfigSpec := fun r =>
  MkReconfig (r_extra r) (r_cpu r) (r_memory r) (r_changes r) (r_boot r).

(** ** Tasks and questions *)

Inductive TaskState := TaskQueued | TaskRunning | TaskSuccess (result : option string) | TaskError (e : option Fault).
Record Question := MkQuestion { q_id : string; q_text : string; q_choices : list (string * string) }.

(** ** Operations as functions of the world *)

Definition oret {X A} (a : A) : Op X A := fun x => (Ok a, x).
Definition othrow {X A} (e : Fault) : Op X A := fun x => (Err e, x).
Definition obind {X A B} (m : Op X A) (k : A -> Op X B) : Op X B := fun x =>
  match m x with
  | (Ok a, x1) => k a x1
  | (Err e, x1) => (Err e, x1)
  end.
(** [try: m except ...: h] for the exceptions [h] answers. *)
Definition ocatch {X A} (m : Op X A) (h : Fault -> Op X A) : Op X A := fun x =>
  match m x with
  | (Err e, x1) => h e x1
  | r => r
  end.
Notation "'let!' x ':=' m 'in' k" := (obind m (fun x => k))
  (at level 10, x binder, m at level 100, k at level 200) : infra_scope.
Notation "m >>! k" := (obind m (fun _ => k)) (at level 100, k at level 200, right associativity) : infra_scope.

(** ** The calls *)

Definition Task : Type := string.

(** How opening a TLS connection to port 443 of a host ends, when it fails. *)
Inductive TlsFailure := CertificateNotTrusted (message : string) | NoAnswer | NameUnknown | ConnectionFailed (message : string).

(** [_ConnectionCache]: per vCenter the session, when it was made and the
    fingerprint of its credentials. *)
Notation SessionCache := (gmap string (string * Z * string)).

(** [sessions] is the cache of the adapter object.  [connection_fault]: the exceptions that are [ConnectionError], [OSError]
    or [vmodl.RuntimeFault].  Times are microseconds. *)
Class VCenterApi (V : Type) := {
  inventory : V -> Inventory;
  monotonic_us : V -> Z;
  time_sleep : Z -> Op V unit;
  cancel_event : Op V bool;
  connection_fault : string -> bool;
  sessions : V -> SessionCache;
  put_sessions : SessionCache -> V -> V;
  credential_fingerprint : string -> string -> string;
  SmartConnect : VCenterTarget -> string -> string -> Op V (option string);
  disconnect : string -> V -> V;
  CreateVM_Task : string -> ConfigSpec -> string -> option string -> Op V Task;
  ReconfigVM_Task : string -> ReconfigSpec -> Op V Task;
  PowerOnVM_Task : string -> Op V Task;
  ResetVM_Task : string -> Op V Task;
  CreateScreenshot_Task : string -> Op V Task;
  DeleteDatastoreFile_Task : string -> option string -> Op V Task;
  SearchDatastoreSubFolders_Task : string -> Op V Task;
  task_info : Task -> Op V TaskState;
  search_result : Task -> Op V (list (option string * list string));
  CancelTask : Task -> Op V unit;
  vm_question : string -> Op V (option Question);
  AnswerVM : string -> string -> string -> Op V unit;
  PutUsbScanCodes : string -> list Z -> Op V Z;
  MakeDirectory : string -> string -> Op V unit;
  open_tls : VCenterTarget -> string -> Op V (option TlsFailure);
  http_put : string -> list ascii -> Op V Z;
  http_get : string -> Z -> Op V (Z * list ascii);
}.

(** ** The ownership marker *)

Definition OWNER_EXTRA_CONFIG_KEY : string := "infraops.job_id".
Definition OWNER_ANNOTATION_PREFIX : string := "infraops-job-id:".

Definition owner_annotation (description : string) (job_id : option string) : string :=
  match job_id with
  | None | Some "" => description
  | Some j =>
      let marker := OWNER_ANNOTATION_PREFIX ++ " " ++ j in
      if String.eqb description "" then marker else description ++ NL ++ NL ++ marker
  end.

Definition drop_str (n : nat) (s : string) : string := text (skipn n (chars s)).

Fixpoint owner_line (lines : list string) : option string :=
  match lines with
  | [] => None
  | line :: rest =>
      let stripped := strip line in
      if startswith (lower stripped) OWNER_ANNOTATION_PREFIX then
        let value := strip (drop_str 16 stripped) in
        if String.eqb value "" then None else Some value
      else owner_line rest
  end.

Definition owner_from_annotation (annotation : option string) : option string :=
  owner_line (splitlines (default "" annotation)).

Definition _vm_owner_job_id (vm : VirtualMachine) : option string :=
  match find_first (fun o => String.eqb (fst o) OWNER_EXTRA_CONFIG_KEY && negb (String.eqb (snd o) "")) (v_extra vm) with
  | Some o => Some (snd o)
  | None => owner_from_annotation (v_annotation vm)
  end.

Definition _owner_extra_config (job_id : string) : list (string * string) := [(OWNER_EXTRA_CONFIG_KEY, job_id)].

(** ** What vCenter does to the inventory *)

Definition find_vm (inv : Inventory) (id : string) : option VirtualMachine :=
  find_first (fun v => String.eqb (v_moid v) id) (vms inv).

Definition update_vm (id : string) (f : VirtualMachine -> VirtualMachine) (inv : Inventory) : Inventory :=
  inv <| vms := List.map (fun v => if String.eqb (v_moid v) id then f v else v) (vms inv) |>.

(** Devices are named by their keys; an added device gets a key of its own. *)
Definition apply_change (server_key : list Device -> Z) (devices : list Device) (c : DeviceChange) : list Device :=
  match c with
  | AddDevice d => (devices ++ [with_key (server_key devices) d])%list
  | RemoveDevice d => List.filter (fun x => negb (device_key x =? device_key d)) devices
  | EditDevice d => List.map (fun x => if device_key x =? device_key d then d else x) devices
  end.

Definition apply_changes (server_key : list Device -> Z) (changes : list DeviceChange) (devices : list Device) : list Device :=
  fold_left (apply_change server_key) changes devices.

Definition or_else {A} (a b : option A) : option A := match a with Some _ => a | None => b end.

Definition merge_boot (new old : BootOptions) : BootOptions :=
  MkBoot (or_else (bootOrder new) (bootOrder old)) (or_else (bootRetryEnabled new) (bootRetryEnabled old))
    (or_else (bootRetryDelay new) (bootRetryDelay old)) (or_else (efiSecureBootEnabled new) (efiSecureBootEnabled old)).

Definition set_option (l : list (string * string)) (o : string * string) : list (string * string) :=
  (List.filter (fun x => negb (String.eqb (fst x) (fst o))) l ++ [o])%list.

Definition reconfigured (server_key : list Device -> Z) (spec : ReconfigSpec) (v : VirtualMachine) : VirtualMachine :=
  v <| v_extra := fold_left set_option (r_extra spec) (v_extra v) |>
    <| v_cpu := default (v_cpu v) (r_cpu spec) |>
    <| v_memory := default (v_memory v) (r_memory spec) |>
    <| v_devices := apply_changes server_key (r_changes spec) (v_devices v) |>
    <| v_boot := match r_boot spec with Some b => merge_boot b (v_boot v) | None => v_boot v end |>.
