(* ===== verification/VSphere.v ===== *)
(** * The vSphere adapter

    [app/services/vmware/vsphere.py]: sessions and error translation, look-ups
    in the inventory, and every operation of the service, over the interface of
    [VCenter.v].  [vsphere] makes them an instance of [VMwareService], so that
    the stages run on this adapter; [wait_for_tools] is not called by them.

    Waiting for a task polls at most [TASK_POLLS] times; the code has no such
    bound. *)

From Stdlib Require Import ZArith Lia Ascii String List Bool.
From stdpp Require Import base tactics list strings gmap.
From S2P Require Import Prelude PyStr Errors Schemas Effects World InventoryRefs VCenter.

Local Open Scope string_scope.
Local Open Scope Z_scope.

Definition SECOND : Z := 1000000.
Definition _CONNECTION_TTL_SECONDS : Z := 1800.
Definition _TASK_POLL_INTERVAL : Z := 500000.
Definition _TOOLS_POLL_INTERVAL : Z := 5.
Definition HOST_TOOLS_ISO_PATH : string := "[] /vmimages/tools-isoimages/windows.iso".
Definition ANSWER_MEDIA_FOLDER : string := "infraops-unattend".
Definition GIB : Z := 1073741824.
Definition TASK_POLLS : nat := 5000.

(** ** Errors *)

Definition InfraFail (human why action detail : string) (retry : bool) : Fault :=
  InfraFault (infra_error human why action detail retry).

Definition NotFound (message : string) : Fault := OtherFault "NotFoundError" message.

Definition denied (f : Fault) : bool :=
  match f with
  | OtherFault n _ => String.eqb n "vim.fault.NoPermission" || String.eqb n "vim.fault.InvalidLogin"
  | _ => false
  end.

Definition _wrap (operation : string) (f : Fault) : Fault :=
  match f with
  | InfraFault e => InfraFault e
  | TimeoutFault =>
      InfraFail ("vCenter operation " ++ SQ ++ operation ++ SQ ++ " failed.") "The vSphere API returned an unexpected error."
        "Check vCenter health and retry the failed stage." "TimeoutError: " true
  | OtherFault n m =>
      if String.eqb n "vim.fault.NoPermission" then
        InfraFail "vCenter denied a required operation due to insufficient permissions."
          "The service account lacks the vCenter privilege needed for this operation."
          ("Grant the InfraOps service account the required vCenter privileges "
           ++ "(see docs/vmware-integration.md) and retry.") m false
      else if String.eqb n "vim.fault.InvalidLogin" then
        InfraFail "vCenter rejected the service account credentials." "Authentication failed (InvalidLogin)."
          "Verify the credential secret references on the vCenter connection." m false
      else
        InfraFail ("vCenter operation " ++ SQ ++ operation ++ SQ ++ " failed.")
          "The vSphere API returned an unexpected error." "Check vCenter health and retry the failed stage."
          (n ++ ": " ++ m) true
  end.

(** ** Look-ups *)

Definition find_datacenter (inv : Inventory) (id : string) : option Datacenter :=
  find_first (fun d => String.eqb (dcn_moid d) id) (datacenters inv).

Definition computes_of (inv : Inventory) : list ComputeResource := List.flat_map dcn_computes (datacenters inv).

Definition find_compute (inv : Inventory) (id : string) : option ComputeResource :=
  find_first (fun c => String.eqb (cr_moid c) id) (computes_of inv).

Definition _find_vms_by_name (inv : Inventory) (name : string) : list VirtualMachine :=
  List.filter (fun v => String.eqb (lower (v_name v)) (lower name)) (vms inv).

Definition duplicate_vm (name : string) (matches : list VirtualMachine) : Fault :=
  InfraFail ("More than one virtual machine is named " ++ SQ ++ name ++ SQ ++ ".")
    "VM names are unique only per folder; InfraOps will not guess which VM to act on."
    "Rename or remove the duplicate VM in vCenter, then retry." (join ", " (List.map v_moid matches)) false.

(** Refuses to guess between duplicates. *)
Definition _find_vm_by_name (inv : Inventory) (name : string) : res Fault (option VirtualMachine) :=
  match _find_vms_by_name inv name with
  | [] => Ok None
  | [v] => Ok (Some v)
  | l => Err (duplicate_vm name l)
  end.

(** The datacenter whose VM folder an entity's ancestry leads through. *)
Fixpoint _owning_datacenter (current : string) (ancestors : list Ancestor) : option string :=
  match ancestors with
  | [] => None
  | p :: rest =>
      if bool_decide (an_vm_folder p = Some current) then Some (an_moid p) else _owning_datacenter (an_moid p) rest
  end.

Definition _host_usable (h : HostSystem) : bool :=
  String.eqb (connectionState h) "connected" && negb (inMaintenanceMode h).

(** Each datastore of the cluster's hosts once, in the order met. *)
Definition _cluster_datastores (c : ComputeResource) : list Datastore :=
  fold_left (fun seen d => if existsb (fun s => String.eqb (d_moid s) (d_moid d)) seen then seen else (seen ++ [d])%list)
    (List.flat_map host_datastores (cr_hosts c)) [].

Fixpoint _walk_resource_pools (p : ResourcePool) : list ResourcePool :=
  match p with MkResourcePool _ _ children => p :: List.flat_map _walk_resource_pools children end.

Definition _compute_belongs_to_datacenter (c : ComputeResource) (d : Datacenter) : bool :=
  existsb (fun e => String.eqb (cr_moid e) (cr_moid c)) (dcn_computes d).

(** [sorted(l, key=...)] on texts: stable. *)
Fixpoint insert_by {A} (key : A -> string) (x : A) (l : list A) : list A :=
  match l with
  | [] => [x]
  | y :: r => if String.ltb (key x) (key y) then x :: l else y :: insert_by key x r
  end.
Definition sort_by {A} (key : A -> string) (l : list A) : list A := fold_right (insert_by key) [] (rev l).

(** [round(bytes / 1024**3, 1)] in tenths: a tie goes to the even tenth. *)
Definition tenths_gb (bytes : Z) : Z :=
  let n := bytes * 10 in
  let q := n / GIB in
  match (2 * (n mod GIB)) ?= GIB with Lt => q | Gt => q + 1 | Eq => if Z.even q then q else q + 1 end.

Section Adapter.
Context {V : Type} `{VCenterApi V} `{SecretsProvider V}.

Definition read (f : V -> Inventory) : Op V Inventory := fun v => (Ok (f v), v).
(** [si.RetrieveContent()] and the views over it. *)
Definition _content : Op V Inventory := read inventory.

Definition lift_res {A} (r : res Fault A) : Op V A := fun v => (r, v).

(** [try: m except Exception as exc: raise _wrap(operation, exc)] *)
Definition wrapping {A} (operation : string) (m : Op V A) : Op V A := ocatch m (fun f => othrow (_wrap operation f)).

(** ** Sessions *)

Definition cache_put (id instance fingerprint : string) : Op V unit := fun v =>
  (Ok tt, put_sessions (<[id := (instance, monotonic_us v, fingerprint)]> (sessions v)) v).

Definition cache_evict (id : string) : Op V unit := fun v =>
  match sessions v !! id with
  | None => (Ok tt, v)
  | Some (instance, _, _) => (Ok tt, disconnect instance (put_sessions (delete id (sessions v)) v))
  end.

Definition cache_get (id fingerprint : string) : Op V (option string) := fun v =>
  match sessions v !! id with
  | None => (Ok None, v)
  | Some (instance, created, stored) =>
      if (_CONNECTION_TTL_SECONDS * SECOND <? monotonic_us v - created) || negb (String.eqb stored fingerprint)
      then (Ok None, disconnect instance (put_sessions (delete id (sessions v)) v))
      else (Ok (Some instance), v)
  end.

(** [SmartConnect] knows the target and with it the TLS context. *)
Definition _connect_blocking (target : VCenterTarget) (username password : string) : Op V string :=
  let! instance := wrapping "connect" (SmartConnect target username password) in
  match instance with
  | Some i => oret i
  | None => othrow (InfraFail ("Could not establish a session with vCenter " ++ SQ ++ target_host target ++ SQ ++ ".")
                      "SmartConnect returned no session." "Verify host/port and service account credentials." "" true)
  end.

Definition _get_session (target : VCenterTarget) : Op V string :=
  let! username := get_secret (username_secret_ref target) in
  let! password := get_secret (password_secret_ref target) in
  let fingerprint := credential_fingerprint username password in
  let! cached := cache_get (target_id target) fingerprint in
  match cached with
  | Some instance => oret instance
  | None =>
      let! instance := wrapping "connect" (_connect_blocking target username password) in
      cache_put (target_id target) instance fingerprint >>! oret instance
  end.

Definition is_not_found (f : Fault) : bool :=
  match f with OtherFault n _ => String.eqb n "NotFoundError" | _ => false end.
Definition is_infra (f : Fault) : bool := match f with InfraFault _ => true | _ => false end.
Definition is_connection (f : Fault) : bool :=
  match f with OtherFault n _ => connection_fault n | TimeoutFault => true | InfraFault _ => false end.

Definition _with_session {A} (target : VCenterTarget) (operation : string) (fn : Op V A) : Op V A :=
  let! _ := _get_session target in
  ocatch fn (fun f =>
    if is_infra f || is_not_found f then othrow f
    else if denied f then othrow (_wrap operation f)
    else if is_connection f then cache_evict (target_id target) >>! othrow (_wrap operation f)
    else othrow (_wrap operation f)).

(** ** Tasks *)

Definition task_failure (e : option Fault) : Fault :=
  match e with Some f => f | None => OtherFault "RuntimeError" "Task failed without an error object." end.

(** [_wait_for_task]; polls left. *)
Fixpoint wait_polls (polls : nat) (task : Task) : Op V (option string) :=
  match polls with
  | O => othrow (OtherFault "RuntimeError" "The task did not finish.")
  | S n =>
      let! state := task_info task in
      match state with
      | TaskQueued | TaskRunning =>
          let! cancelled := cancel_event in
          if cancelled then
            ocatch (CancelTask task) (fun _ => oret tt) >>! othrow (OtherFault "VCenterTaskCancelled" task)
          else time_sleep _TASK_POLL_INTERVAL >>! wait_polls n task
      | TaskSuccess result => oret result
      | TaskError e => othrow (task_failure e)
      end
  end.
Definition _wait_for_task (task : Task) : Op V (option string) := wait_polls TASK_POLLS task.

Definition run_task (start : Op V Task) : Op V (option string) := let! task := start in _wait_for_task task.

(** ** Discovery *)

Definition test_connection (target : VCenterTarget) : Op V ConnectionTestResult := fun v =>
  match _get_session target v with
  | (Ok _, v1) => (Ok (MkConn true (Some ((monotonic_us v1 - monotonic_us v) / 1000))
                        ("Authenticated to " ++ target_host target ++ ".")), v1)
  | (Err (InfraFault e), v1) => (Ok (MkConn false None (human_message e)), v1)
  | (Err f, v1) => (Err f, v1)
  end.

Definition get_datacenters (target : VCenterTarget) : Op V (list DatacenterOut) :=
  let! l := _with_session target "session-call"
              (let! inv := _content in oret (List.map (fun d => MkDatacenter (dcn_moid d) (dcn_name d)) (datacenters inv))) in
  oret (sort_by dc_name l).

Definition need_datacenter (inv : Inventory) (id : string) : Op V Datacenter :=
  match find_datacenter inv id with
  | Some d => oret d
  | None => othrow (NotFound ("Datacenter " ++ SQ ++ id ++ SQ ++ " does not exist."))
  end.

Definition need_compute (inv : Inventory) (id : string) : Op V ComputeResource :=
  match find_compute inv id with
  | Some c => oret c
  | None => othrow (NotFound ("Compute target " ++ SQ ++ id ++ SQ ++ " does not exist."))
  end.

(** Without a second entry of the same identifier. *)
Fixpoint distinct_by {A} (key : A -> string) (seen : list string) (l : list A) : list A :=
  match l with
  | [] => []
  | x :: r => if existsb (String.eqb (key x)) seen then distinct_by key seen r else x :: distinct_by key (key x :: seen) r
  end.

Definition get_clusters (target : VCenterTarget) (datacenter_id : string) : Op V (list ClusterOut) :=
  let! l := _with_session target "session-call"
    (let! inv := _content in
     let! d := need_datacenter inv datacenter_id in
     oret (List.map (fun c => MkCluster (cr_moid c) (cr_name c) (cr_drs c) (Z.of_nat (List.length (cr_hosts c))))
             (distinct_by cr_moid [] (dcn_computes d)))) in
  oret (sort_by cl_name l).

Definition get_hosts (target : VCenterTarget) (cluster_id : string) : Op V (list HostOut) :=
  let! l := _with_session target "session-call"
    (let! inv := _content in
     let! c := need_compute inv cluster_id in
     oret (List.map (fun h => MkHost (host_moid h) (host_name h) (connectionState h) (inMaintenanceMode h) (_host_usable h))
             (cr_hosts c))) in
  oret (sort_by h_name l).

Definition get_resource_pools (target : VCenterTarget) (cluster_id : string) : Op V (list ResourcePoolOut) :=
  _with_session target "session-call"
    (let! inv := _content in
     let! c := need_compute inv cluster_id in
     oret (MkPool (pool_moid (cr_pool c)) "Resources"
           :: List.map (fun p => MkPool (pool_moid p) (pool_name p)) (tl (_walk_resource_pools (cr_pool c))))).

Definition get_datastores (target : VCenterTarget) (cluster_id : string) : Op V (list DatastoreOut) :=
  let! l := _with_session target "session-call"
    (let! inv := _content in
     let! c := need_compute inv cluster_id in
     oret (List.map (fun d => MkDatastore (d_moid d) (d_name d) (tenths_gb (d_free d)) (d_accessible d))
             (_cluster_datastores c))) in
  oret (sort_by ds_name l).

(** The storage pod a datastore has as its parent. *)
Definition parent_pod (inv : Inventory) (d : Datastore) : option StoragePod :=
  find_first (fun p => bool_decide (d_moid d ∈ sp_datastores p)) (pods inv).
Definition find_pod (inv : Inventory) (id : string) : option StoragePod := find_first (fun p => String.eqb (sp_moid p) id) (pods inv).
Definition pod_out (p : StoragePod) : DatastoreClusterOut :=
  MkDatastoreCluster (sp_moid p) (sp_name p) (tenths_gb (sp_capacity p)) (tenths_gb (sp_free p)).

(** The identifiers are a set of the code. *)
Definition seen_pod_ids (inv : Inventory) (c : ComputeResource) : list string :=
  distinct_by (fun id => id) [] (omap (fun d => option_map sp_moid (parent_pod inv d)) (_cluster_datastores c)).

Definition get_datastore_clusters (target : VCenterTarget) (cluster_id : string) : Op V (list DatastoreClusterOut) :=
  _with_session target "session-call"
    (let! inv := _content in
     let! c := need_compute inv cluster_id in
     oret (omap (fun id => option_map pod_out (find_pod inv id)) (seen_pod_ids inv c))).

Definition get_networks (target : VCenterTarget) (datacenter_id : string) : Op V (list NetworkOut) :=
  let! l := _with_session target "session-call"
    (let! inv := _content in
     let! d := need_datacenter inv datacenter_id in
     oret (List.map (fun n => MkNetwork (nw_moid n) (nw_name n)
                                (match nw_dvs n with Some _ => "DISTRIBUTED_PORT_GROUP" | None => "STANDARD_PORT_GROUP" end))
             (dcn_networks d))) in
  oret (sort_by net_name l).

(** *** Installation media *)

(** [name.rstrip("/").rsplit("/", 1)[-1]] *)
Definition base_name (path : string) : string :=
  List.last (split_on "/"%char (rstrip_char "/" path)) "".

Definition iso_entry (d : Datacenter) (ds : Datastore) (folder relative : string) : option IsoImageOut :=
  if negb (endswith (lower relative) ".iso") then None
  else
    let separator := if endswith folder "/" || endswith folder " " then "" else " " in
    let full := folder ++ separator ++ relative in
    if contains full (ANSWER_MEDIA_FOLDER ++ "/") then None
    else Some (MkIso (encode_iso_id (d_moid ds) full) (base_name relative) (d_moid ds) full (d_name ds)).

Definition folder_path (ds : Datastore) (path : option string) : string :=
  match path with Some (String _ _ as p) => p | _ => "[" ++ d_name ds ++ "]" end.

Definition folder_images (d : Datacenter) (ds : Datastore) (f : option string * list string) : list IsoImageOut :=
  omap (iso_entry d ds (folder_path ds (fst f))) (snd f).

Fixpoint start_searches (stores : list Datastore) : Op V (list (Datastore * Task)) :=
  match stores with
  | [] => oret []
  | ds :: rest =>
      if d_accessible ds then
        let! task := SearchDatastoreSubFolders_Task ("[" ++ d_name ds ++ "]") in
        let! l := start_searches rest in oret ((ds, task) :: l)
      else start_searches rest
  end.

Fixpoint collect_searches (d : Datacenter) (searches : list (Datastore * Task)) : Op V (list IsoImageOut) :=
  match searches with
  | [] => oret []
  | (ds, task) :: rest =>
      _wait_for_task task >>!
      let! folders := search_result task in
      let! l := collect_searches d rest in
      oret (List.flat_map (folder_images d ds) folders ++ l)%list
  end.

(** The sort key is a pair; its texts hold no NUL. *)
Definition iso_key (i : IsoImageOut) : string :=
  casefold (iso_datastore_name i) ++ String (char_of 0) (casefold (iso_name i)).

Definition get_isos (target : VCenterTarget) (datacenter_id : string) : Op V (list IsoImageOut) :=
  let! l := _with_session target "list-isos"
    (let! inv := _content in
     let! d := need_datacenter inv datacenter_id in
     let! searches := start_searches (dcn_datastores d) in
     collect_searches d searches) in
  oret (sort_by iso_key l).

(** ** Datastore files *)

Definition _datacenter_path (d : Datacenter) : string := join "/" (rev (dcn_name d :: dcn_ancestors d)).

(** [_DATASTORE_PATH.fullmatch]: name and relative path. *)
Definition parse_datastore_path (path : string) : option (string * string) :=
  match path with
  | String b rest =>
      if negb (Ascii.eqb b "[") then None
      else match split_chars "]"%char (chars rest) with
           | name :: (_ :: _) =>
               let after := skipn (S (List.length name)) (chars rest) in
               let relative := match after with
                               | c :: (_ :: _ as r) => if Ascii.eqb c " " then r else after
                               | _ => after
                               end in
               match name, relative with
               | [], _ | _, [] => None
               | _, _ => if existsb (Ascii.eqb (char_of 10)) relative then None else Some (text name, text relative)
               end
           | _ => None
           end
  | "" => None
  end.

(** [urllib.parse.quote], and [quote_plus] of [urlencode]. *)
Definition unreserved (c : ascii) : bool := is_alnum c || existsb (Ascii.eqb c) ["_"; "."; "-"; "~"]%char.
Definition hex_upper (n : nat) : ascii := ascii_of_nat (if (n <? 10)%nat then 48 + n else 55 + n).
Definition percent (c : ascii) : list ascii :=
  ["%"%char; hex_upper (nat_of_ascii c / 16); hex_upper (nat_of_ascii c mod 16)].
Definition quote_path (s : string) : string :=
  text (List.flat_map (fun c => if unreserved c || Ascii.eqb c "/" then [c] else percent c) (chars s)).
Definition quote_plus (s : string) : string :=
  text (List.flat_map (fun c => if unreserved c then [c] else if Ascii.eqb c " " then ["+"%char] else percent c) (chars s)).

Definition _datastore_file_url (target : VCenterTarget) (d : Datacenter) (path : string) : Op V string :=
  match parse_datastore_path path with
  | None => othrow (InfraFail (SQ ++ path ++ SQ ++ " is not a datastore path.")
                      "Datastore paths have the form '[datastore] folder/file'."
                      "Report this incident to the platform administrators." "" false)
  | Some (name, relative) =>
      oret ("https://" ++ target_host target ++ ":" ++ str_int (target_port target) ++ "/folder/" ++ quote_path relative
            ++ "?dcPath=" ++ quote_plus (_datacenter_path d) ++ "&dsName=" ++ quote_plus name)
  end.

Definition read_datastore_file (target : VCenterTarget) (datacenter_id path : string) (max_bytes : Z) : Op V (list ascii) :=
  ocatch (_with_session target "read-datastore-file"
    (let! inv := _content in
     let! d := need_datacenter inv datacenter_id in
     let! url := _datastore_file_url target d path in
     let! response := http_get url max_bytes in
     if negb ((fst response =? 200) || (fst response =? 206))
     then othrow (OtherFault "RuntimeError" ("datastore download returned HTTP " ++ str_int (fst response)))
     else oret (firstn (Z.to_nat max_bytes) (snd response))))
    (fun f => if is_not_found f then othrow f else othrow (_wrap "read-datastore-file" f)).

(** ** Inventory queries *)

Definition vm_exists (target : VCenterTarget) (vm_name : string) : Op V bool :=
  _with_session target "session-call"
    (let! inv := _content in oret (match _find_vms_by_name inv vm_name with [] => false | _ => true end)).

Definition v4_only (ips : list string) : list string := List.filter (fun ip => negb (contains ip ":")) ips.

Definition guest_ipv4s (g : GuestInfo) : list string :=
  match v4_only (List.concat (g_net g)) with
  | [] => match g_ip g with Some (String _ _ as ip) => [ip] | _ => [] end
  | l => l
  end.

Definition nonempty_text (t : option string) : option string :=
  match t with Some (String _ _ as s) => Some s | _ => None end.

Definition _power_state_info (v : VirtualMachine) : PowerStateInfo :=
  let g := v_guest v in
  MkInfo (v_power v) (nonempty_text (g_tools_status g)) (nonempty_text (g_tools_running g))
    (nonempty_text (g_tools_version g)) (g_ready g) (nonempty_text (g_family g)) (guest_ipv4s g)
    (nonempty_text (g_host_name g)) (v_cpu_usage v) (v_cpu_capacity v).

Definition get_vm_info (target : VCenterTarget) (vm_name : string) : Op V (option PowerStateInfo) :=
  _with_session target "session-call"
    (let! inv := _content in
     let! vm := lift_res (_find_vm_by_name inv vm_name) in oret (option_map _power_state_info vm)).

Definition get_vm_info_by_id (target : VCenterTarget) (vm_id : string) : Op V (option PowerStateInfo) :=
  _with_session target "session-call" (let! inv := _content in oret (option_map _power_state_info (find_vm inv vm_id))).

Definition resolve_vm_id (target : VCenterTarget) (vm_name : string) : Op V (option string) :=
  _with_session target "session-call"
    (let! inv := _content in let! vm := lift_res (_find_vm_by_name inv vm_name) in oret (option_map v_moid vm)).

(** [used.setdefault(ip, vm.name)] over all machines. *)
Definition add_used (used : list (string * string)) (e : string * string) : list (string * string) :=
  if existsb (fun u => String.eqb (fst u) (fst e)) used then used else (used ++ [e])%list.

Definition get_used_ips (target : VCenterTarget) : Op V (list (string * string)) :=
  _with_session target "session-call"
    (let! inv := _content in
     oret (fold_left add_used
             (List.flat_map (fun v => List.map (fun ip => (ip, v_name v)) (guest_ipv4s (v_guest v))) (vms inv)) [])).

Definition find_vm_ownership (target : VCenterTarget) (vm_name : string) : Op V (option VmOwnership) :=
  _with_session target "find-vm-ownership"
    (let! inv := _content in
     let! vm := lift_res (_find_vm_by_name inv vm_name) in
     oret (option_map (fun v => MkOwnership (v_moid v) (v_name v) (_vm_owner_job_id v)) vm)).

(** ** Creation *)

Definition vm_not_found (vm_id action why advice : string) (retry : bool) : Fault :=
  InfraFail ("VM " ++ SQ ++ vm_id ++ SQ ++ " was not found while " ++ action ++ ".") why advice "" retry.

Definition _missing_vm (vm_id action : string) : Fault :=
  vm_not_found vm_id action "VM removed after creation."
    "Inspect the job timeline; the VM may need manual cleanup." false.

Definition need_vm (inv : Inventory) (vm_id action : string) : Op V VirtualMachine :=
  match find_vm inv vm_id with Some v => oret v | None => othrow (_missing_vm vm_id action) end.

Definition tag_vm_owner (target : VCenterTarget) (vm_id job_id : string) : Op V unit :=
  _with_session target "tag-vm-owner"
    (let! inv := _content in
     match find_vm inv vm_id with
     | None => othrow (vm_not_found vm_id "recording its InfraOps owner" "VM removed immediately after creation."
                         "Inspect recent vCenter tasks before retrying." true)
     | Some v =>
         match _vm_owner_job_id v with
         | Some o =>
             if negb (String.eqb o job_id)
             then othrow (InfraFail ("VM " ++ SQ ++ v_name v ++ SQ ++ " belongs to another InfraOps job.")
                            ("Ownership marker " ++ SQ ++ o ++ SQ ++ " does not match this job.")
                            "Choose a different VM name." "" false)
             else run_task (ReconfigVM_Task vm_id (NO_CHANGE <| r_extra := _owner_extra_config job_id |>)) >>! oret tt
         | None => run_task (ReconfigVM_Task vm_id (NO_CHANGE <| r_extra := _owner_extra_config job_id |>)) >>! oret tt
         end
     end).

(** Where a VM goes: the checks of [create_vm] before it builds the
    specification. *)
Definition chosen_host (c : ComputeResource) (host_id : option string) : Op V (option string) :=
  match nonempty_text host_id with
  | None => oret None
  | Some id =>
      match find_first (fun h => String.eqb (host_moid h) id) (cr_hosts c) with
      | Some h => if _host_usable h then oret (Some id) else
                    othrow (InfraFail ("Host " ++ SQ ++ id ++ SQ ++ " is not available in the selected compute target.")
                      "The host is disconnected, in maintenance mode, or belongs to another compute target."
                      "Select another host or use automatic placement." "" false)
      | None => othrow (InfraFail ("Host " ++ SQ ++ id ++ SQ ++ " is not available in the selected compute target.")
                      "The host is disconnected, in maintenance mode, or belongs to another compute target."
                      "Select another host or use automatic placement." "" false)
      end
  end.

Definition chosen_pool (c : ComputeResource) (pool_id : option string) : Op V string :=
  match nonempty_text pool_id with
  | None => oret (pool_moid (cr_pool c))
  | Some id =>
      if existsb (fun p => String.eqb (pool_moid p) id) (_walk_resource_pools (cr_pool c)) then oret id
      else othrow (InfraFail ("Resource pool " ++ SQ ++ id ++ SQ ++ " was not found in the compute target.")
                     "Resource pool removed or moved after validation." "Re-select the placement target and retry." "" false)
  end.

(** [max(candidates, key=freeSpace)]: the first of the largest. *)
Definition roomiest (l : list Datastore) : option Datastore :=
  match l with
  | [] => None
  | d :: r => Some (fold_left (fun best x => if d_free best <? d_free x then x else best) r d)
  end.

Definition chosen_datastore (c : ComputeResource) (size : Z) (datastore_id : option string) : Op V Datastore :=
  let candidates := List.filter (fun d => d_accessible d && (size * GIB <=? d_free d)) (_cluster_datastores c) in
  let candidates := match nonempty_text datastore_id with
                    | Some id => List.filter (fun d => String.eqb (d_moid d) id) candidates
                    | None => candidates
                    end in
  match roomiest candidates with
  | Some d => oret d
  | None => othrow (InfraFail "No selected datastore has enough accessible capacity for the VM."
                      ("The OS disk requires approximately " ++ str_int size ++ " GB.")
                      "Select another datastore or reduce the requested disk capacity." "" false)
  end.

Definition iso_available (c : ComputeResource) (dc : Datacenter) (iso_datastore_id iso_path : string) : bool :=
  match find_first (fun d => String.eqb (d_moid d) iso_datastore_id) (dcn_datastores dc) with
  | None => false
  | Some d =>
      existsb (fun x => String.eqb (d_moid x) iso_datastore_id) (_cluster_datastores c)
      && d_accessible d && startswith iso_path ("[" ++ d_name d ++ "] ") && endswith (lower iso_path) ".iso"
  end.

Definition os_disk_change (d : DiskSpec) : Device :=
  VirtualDisk (-101) (-100) (Some 0) (size_gb d * 1024 * 1024) (match provisioning d with THIN => true | THICK => false end).

(** The devices of a new VM: the SAS controller with the OS disk alone, and a
    SATA controller with the installation and the Tools CD. *)
Definition creation_devices (os_disk : DiskSpec) (iso_path : string) : list Device :=
  [VirtualLsiLogicSASController (-100); os_disk_change os_disk; VirtualAHCIController (-200);
   VirtualCdrom (-201) (-200) (Some 0) (IsoBackingInfo iso_path) true;
   VirtualCdrom (-202) (-200) (Some 1) (IsoBackingInfo HOST_TOOLS_ISO_PATH) true].

Definition creation_config (spec : VmCreateSpec) (datastore : Datastore) (iso_path : string) : ConfigSpec :=
  let efi := match cs_firmware spec with EFI => true | BIOS => false end in
  MkConfig (cs_vm_name spec) (owner_annotation (cs_description spec) (cs_job_id spec))
    (match nonempty_text (cs_job_id spec) with Some j => _owner_extra_config j | None => [] end)
    (cs_cpu spec) (cs_memory_mb spec) ("[" ++ d_name datastore ++ "]") efi (efi && cs_secure_boot spec)
    (List.map AddDevice (creation_devices (cs_os_disk spec) iso_path)).

Definition placement_changed : Fault :=
  InfraFail "The selected datacenter or compute target was not found." "The placement inventory changed after validation."
    "Re-open the wizard and select the infrastructure again." "" false.

Definition name_taken (name : string) : Fault :=
  InfraFail ("A virtual machine named " ++ SQ ++ name ++ SQ ++ " already exists.")
    "Duplicate VM name in the vCenter inventory." "Choose a different VM name and resubmit the request." "" false.

Definition iso_missing : Fault :=
  InfraFail "The selected ISO is not available in the selected datacenter."
    "Its datastore is missing, inaccessible, or does not match the ISO path."
    "Refresh the ISO inventory and select another image." "" false.

(** Boot the CD first, then the first disk the VM was created with. *)
Definition installation_boot (firmware : FirmwareType) (secure : bool) (devices : list Device) : BootOptions :=
  MkBoot (Some (BootableCdrom :: match List.filter is_disk devices with
                                 | d :: _ => [BootableDisk (device_key d)]
                                 | [] => []
                                 end))
    (Some true) (Some 10000) (match firmware with EFI => Some secure | BIOS => None end).

Definition placement (inv : Inventory) (spec : VmCreateSpec) : Op V (Datacenter * ComputeResource) :=
  match find_datacenter inv (cs_datacenter_id spec), find_compute inv (cs_cluster_id spec) with
  | Some dc, Some c => if _compute_belongs_to_datacenter c dc then oret (dc, c) else othrow placement_changed
  | _, _ => othrow placement_changed
  end.

Definition create_op (spec : VmCreateSpec) (iso_datastore_id iso_path : string) : Op V VmRef :=
  let! inv := _content in
  match _find_vms_by_name inv (cs_vm_name spec) with
  | _ :: _ => othrow (name_taken (cs_vm_name spec))
  | [] =>
      let! place := placement inv spec in
      let '(dc, c) := place in
      let! host := chosen_host c (cs_host_id spec) in
      let! pool := chosen_pool c (cs_resource_pool_id spec) in
      let! datastore := chosen_datastore c (size_gb (cs_os_disk spec)) (cs_datastore_id spec) in
      if negb (iso_available c dc iso_datastore_id iso_path) then othrow iso_missing
      else
        let! result := wrapping "create_vm"
                         (run_task (CreateVM_Task (dcn_moid dc) (creation_config spec datastore iso_path) pool host)) in
        let! after := _content in
        match result with
        | None => othrow (InfraFail ("Create task completed but VM " ++ SQ ++ cs_vm_name spec ++ SQ ++ " was not found.")
                            "Inventory inconsistency after VM creation."
                            "Check recent tasks in vCenter before retrying." "" true)
        | Some id =>
            let created := find_vm after id in
            wrapping "configure_installation_boot"
              (run_task (ReconfigVM_Task id (NO_CHANGE <| r_boot :=
                 Some (installation_boot (cs_firmware spec) (cs_secure_boot spec)
                         (match created with Some v => v_devices v | None => [] end)) |>))) >>!
            oret (MkVmRef id (match created with Some v => v_name v | None => cs_vm_name spec end))
        end
  end.

Definition create_vm (target : VCenterTarget) (spec : VmCreateSpec) : Op V VmRef :=
  match decode_iso_id (cs_iso_id spec) with
  | Err why => othrow (InfraFail "The selected ISO identifier is invalid." why
                         "Refresh the ISO inventory and select the image again." "" false)
  | Ok (iso_datastore_id, iso_path) => _with_session target "session-call" (create_op spec iso_datastore_id iso_path)
  end.

(** ** Hardware, network, power *)

Definition configure_hardware (target : VCenterTarget) (vm_id : string) (cpu memory_mb : Z) : Op V unit :=
  _with_session target "session-call"
    (let! inv := _content in
     let! v := need_vm inv vm_id "configuring hardware" in
     if (v_cpu v =? cpu) && (v_memory v =? memory_mb) then oret tt
     else wrapping "configure_hardware"
            (run_task (ReconfigVM_Task vm_id (NO_CHANGE <| r_cpu := Some cpu |> <| r_memory := Some memory_mb |>))) >>!
          oret tt).

Definition nic_backing (n : NetworkEntity) : NicBacking :=
  match nw_dvs n with Some (switch, key) => DvsPort switch key | None => NetworkName (nw_name n) end.

(** Every adapter is replaced by the one asked for; vCenter assigns its key. *)
Definition network_changes (devices : list Device) (n : NetworkEntity) (adapter : AdapterType) : list DeviceChange :=
  (List.map RemoveDevice (List.filter is_nic devices) ++ [AddDevice (VirtualEthernetCard 0 adapter (nic_backing n))])%list.

Definition attach_network (target : VCenterTarget) (vm_id network_id : string) (adapter : AdapterType)
    (datacenter_id : string) : Op V unit :=
  _with_session target "session-call"
    (let! inv := _content in
     let vm := find_vm inv vm_id in
     match find_datacenter inv datacenter_id with
     | None => othrow (InfraFail ("Datacenter " ++ SQ ++ datacenter_id ++ SQ ++ " was not found while attaching the network.")
                         "The placement inventory changed after validation."
                         "Refresh the infrastructure inventory and retry." "" false)
     | Some dc =>
         if match vm with
            | Some v => match _owning_datacenter (v_moid v) (v_ancestors v) with
                        | Some o => negb (String.eqb o datacenter_id)
                        | None => false
                        end
            | None => false
            end
         then othrow (InfraFail "The VM and selected network datacenter do not match."
                        "The VM is outside the requested datacenter boundary."
                        "Select a network from the VM's datacenter." "" false)
         else
           match vm, find_first (fun n => String.eqb (nw_moid n) network_id) (dcn_networks dc) with
           | None, _ => othrow (_missing_vm vm_id "attaching the network adapter")
           | Some _, None =>
               othrow (InfraFail ("Network " ++ SQ ++ network_id ++ SQ ++ " no longer exists on " ++ target_host target ++ ".")
                         "Port group removed or renamed." "Select a valid port group and retry the network stage." "" true)
           | Some v, Some n =>
               wrapping "attach_network"
                 (run_task (ReconfigVM_Task vm_id (NO_CHANGE <| r_changes := network_changes (v_devices v) n adapter |>))) >>!
               oret tt
           end
     end).

Definition power_on (target : VCenterTarget) (vm_id : string) : Op V unit :=
  _with_session target "session-call"
    (let! inv := _content in
     let! _ := need_vm inv vm_id "powering on" in
     wrapping "power_on" (run_task (PowerOnVM_Task vm_id)) >>! oret tt).

Definition reset (target : VCenterTarget) (vm_id : string) : Op V unit :=
  _with_session target "reset"
    (let! inv := _content in
     let! _ := need_vm inv vm_id "resetting it" in
     wrapping "reset" (run_task (ResetVM_Task vm_id)) >>! oret tt).

Definition usb_event (usage : Z) : Z := Z.lor (Z.shiftl usage 16) 7.

Definition send_keystrokes (target : VCenterTarget) (vm_id : string) (usages : list Z) : Op V Z :=
  _with_session target "send-keystrokes"
    (let! inv := _content in
     let! _ := need_vm inv vm_id "sending keystrokes" in
     PutUsbScanCodes vm_id (List.map usb_event usages)).

Definition capture_screenshot (target : VCenterTarget) (vm_id : string) : Op V string :=
  _with_session target "capture-screenshot"
    (let! inv := _content in
     let! _ := need_vm inv vm_id "capturing a console screenshot" in
     let! path := wrapping "capture_screenshot" (run_task (CreateScreenshot_Task vm_id)) in
     oret (default "" path)).

(** ** Reconfiguring a running machine *)

Definition QUESTION_POLLS : nat := 1000.

(** The choice that overrides a locked CD drive; some hosts answer with the
    untranslated label. *)
Definition override_choice (q : Question) : option (string * string) :=
  find_first (fun c => let label := lower (strip (snd c)) in String.eqb label "yes" || String.eqb label "button.yes")
    (q_choices q).

Definition question_pending_error (operation vm_id : string) (q : Question) : Fault :=
  InfraFault (MkInfraError "The VM is waiting for an answer to a question in vCenter." ("vCenter asked: " ++ q_text q)
    ("Answer the question on the VM's Summary page in the vSphere Client, " ++ "then retry this stage.")
    (operation ++ ": question " ++ q_id q ++ " on " ++ vm_id) true true).

Definition answer_question (vm_id : string) : Op V unit :=
  let! question := vm_question vm_id in
  match question with
  | None => oret tt
  | Some q => match override_choice q with
              | Some c => AnswerVM vm_id (q_id q) (fst c)
              | None => oret tt
              end
  end.

Fixpoint watch_reconfiguration (polls : nat) (deadline : Z) (operation vm_id : string) (task : Task) : Op V unit :=
  match polls with
  | O => othrow (OtherFault "RuntimeError" "The task did not finish.")
  | S n =>
      let! state := task_info task in
      match state with
      | TaskQueued | TaskRunning =>
          answer_question vm_id >>!
          (fun v =>
             (if deadline <? monotonic_us v then
                let! pending := vm_question vm_id in
                match pending with
                | None => othrow (OtherFault "RuntimeError" "Reconfiguration did not finish within 300 seconds.")
                | Some q => othrow (question_pending_error operation vm_id q)
                end
              else time_sleep _TASK_POLL_INTERVAL >>! watch_reconfiguration n deadline operation vm_id task) v)
      | _ => _wait_for_task task >>! oret tt
      end
  end.

Definition _reconfigure_answering_questions (vm_id : string) (spec : ReconfigSpec) (operation : string) : Op V unit :=
  wrapping operation
    (let! task := ReconfigVM_Task vm_id spec in
     fun v => watch_reconfiguration QUESTION_POLLS (monotonic_us v + 300 * SECOND) operation vm_id task v).

(** The lowest free unit of a controller. *)
Definition used_units (controller : Z) (devices : list Device) : list Z :=
  omap (fun d => if bool_decide (device_controller d = Some controller) then device_unit d else None) devices.

Definition units (limit : nat) : list Z := List.map Z.of_nat (List.seq 0 limit).

Definition _free_unit (controller : Device) (devices : list Device) (reserved : list Z) : option Z :=
  let used := used_units (device_key controller) devices in
  find_first (fun u => negb (bool_decide (u ∈ used)) && negb (bool_decide (u ∈ reserved)))
    (units (if is_ahci controller then 30 else 16)).

(** *** Answer media *)

Definition safe_name (file_name : string) : string := replace_char "092" "_" (replace_char "/" "_" file_name).

Definition media_vanished : Fault :=
  InfraFail "The VM or datacenter disappeared before the answer media could be attached."
    "vCenter inventory changed after validation." "Refresh inventory and retry the preparation stage." "" true.

Definition no_vm_datastore : Fault :=
  InfraFail "No VM datastore is available for the temporary answer media."
    "The selected datastore is not attached to the VM." "Select a datastore accessible to the VM and retry." "" false.

Definition no_sata_slot : Fault :=
  InfraFail "The VM has no free SATA slot for the answer media."
    "The SATA controller created with the VM is missing or full." "Delete the VM and submit a new request." "" false.

Definition media_path (d : Datastore) (file_name : string) : string :=
  "[" ++ d_name d ++ "] " ++ ANSWER_MEDIA_FOLDER ++ "/" ++ safe_name file_name.

Definition media_datastore (v : VirtualMachine) (datastore_id : option string) : option Datastore :=
  find_first (fun d => match nonempty_text datastore_id with None => true | Some i => String.eqb (d_moid d) i end)
    (v_datastores v).

Definition upload_media (target : VCenterTarget) (dc : Datacenter) (d : Datastore) (path : string) (content : list ascii)
    : Op V unit :=
  ocatch (MakeDirectory ("[" ++ d_name d ++ "] " ++ ANSWER_MEDIA_FOLDER) (dcn_moid dc))
    (fun f => match f with
              | OtherFault n _ => if String.eqb n "vim.fault.FileAlreadyExists" then oret tt else othrow f
              | _ => othrow f
              end) >>!
  let! url := _datastore_file_url target dc path in
  let! status := http_put url content in
  if (status =? 200) || (status =? 201) then oret tt
  else othrow (OtherFault "RuntimeError" ("datastore upload returned HTTP " ++ str_int status)).

Definition has_media (path : string) (devices : list Device) : bool :=
  existsb (fun d => bool_decide (cd_file d = Some path)) devices.

Definition attach_op (target : VCenterTarget) (vm_id datacenter_id : string) (datastore_id : option string)
    (file_name : string) (content : list ascii) : Op V string :=
  let! inv := _content in
  match find_vm inv vm_id, find_datacenter inv datacenter_id with
  | Some v, Some dc =>
      match media_datastore v datastore_id with
      | None => othrow no_vm_datastore
      | Some d =>
          let path := media_path d file_name in
          upload_media target dc d path content >>!
          if has_media path (v_devices v) then oret path
          else match find_first is_ahci (v_devices v) with
               | None => othrow no_sata_slot
               | Some sata =>
                   match _free_unit sata (v_devices v) [] with
                   | None => othrow no_sata_slot
                   | Some unit =>
                       run_task (ReconfigVM_Task vm_id (NO_CHANGE <| r_changes :=
                         [AddDevice (VirtualCdrom (-291) (device_key sata) (Some unit) (IsoBackingInfo path) true)] |>)) >>!
                       oret path
                   end
               end
      end
  | _, _ => othrow media_vanished
  end.

Definition attach_answer_media (target : VCenterTarget) (vm_id datacenter_id : string) (datastore_id : option string)
    (file_name : string) (content : list ascii) : Op V string :=
  wrapping "attach-answer-media"
    (_with_session target "attach-answer-media" (attach_op target vm_id datacenter_id datastore_id file_name content)).

Definition remove_answer_media (target : VCenterTarget) (vm_id datacenter_id path : string) : Op V unit :=
  _with_session target "remove-answer-media"
    (let! inv := _content in
     match find_vm inv vm_id with
     | None => oret tt
     | Some v =>
         match List.filter (fun d => bool_decide (cd_file d = Some path)) (v_devices v) with
         | [] => oret tt
         | drives => _reconfigure_answering_questions vm_id
                       (NO_CHANGE <| r_changes := List.map RemoveDevice drives |>) "remove-answer-media"
         end
     end >>!
     ocatch (run_task (DeleteDatastoreFile_Task path (option_map dcn_moid (find_datacenter inv datacenter_id))) >>! oret tt)
       (fun f => match f with
                 | OtherFault n _ => if String.eqb n "vim.fault.FileNotFound" then oret tt else othrow f
                 | _ => othrow f
                 end)).

(** *** Installation media and disks *)

(** A drive with an ISO that is not our answer media. *)
Definition installation_drive (d : Device) : bool :=
  match cd_file d with Some f => negb (contains f (ANSWER_MEDIA_FOLDER ++ "/")) | None => false end.

Definition emptied (d : Device) : Device :=
  match d with VirtualCdrom k c u _ _ => VirtualCdrom k c u RemotePassthrough false | _ => d end.

Definition detach_spec (devices : list Device) : ReconfigSpec :=
  MkReconfig [] None None (List.map (fun d => EditDevice (emptied d)) (List.filter installation_drive devices))
    (match List.filter is_disk devices with
     | d :: _ => Some (MkBoot (Some [BootableDisk (device_key d)]) None None None)
     | [] => None
     end).

Definition detach_installation_media (target : VCenterTarget) (vm_id : string) : Op V (list string) :=
  _with_session target "detach-installation-media"
    (let! inv := _content in
     let! v := need_vm inv vm_id "removing installation media" in
     let drives := List.filter installation_drive (v_devices v) in
     match drives, List.filter is_disk (v_devices v) with
     | [], [] => oret tt
     | _, _ => _reconfigure_answering_questions vm_id (detach_spec (v_devices v)) "detach-installation-media"
     end >>!
     oret (omap cd_file drives)).

Definition controller_missing : Fault :=
  InfraFail "The VM's disk controller was not found." "The LSI Logic SAS controller created with the VM is missing."
    "Delete the VM and submit a new request." "" false.

Definition controller_full : Fault :=
  InfraFail "The VM's disk controller has no free slot for another disk."
    "All 15 disk slots on SCSI controller 0 are in use." "Request fewer data disks." "" false.

(** Unit 7 is the controller itself. *)
Definition RESERVED_UNITS : list Z := [7].

(** The new disks, each on the lowest unit still free. *)
Fixpoint place_disks (controller : Device) (pending : list Device) (index : Z) (disks : list DiskSpec) : res Fault (list Device) :=
  match disks with
  | [] => Ok []
  | disk :: rest =>
      match _free_unit controller pending RESERVED_UNITS with
      | None => Err controller_full
      | Some unit =>
          let device := VirtualDisk (- 300 - index) (device_key controller) (Some unit) (size_gb disk * 1024 * 1024)
                          (match provisioning disk with THIN => true | THICK => false end) in
          let? more := place_disks controller (pending ++ [device])%list (index + 1) rest in
          Ok (device :: more)
      end
  end.

(** The first disk is the system's; any other was added by an earlier attempt. *)
Definition missing_disks (devices : list Device) (disks : list DiskSpec) : list DiskSpec :=
  skipn (List.length (List.filter is_disk devices) - 1) disks.

Definition disk_changes (devices : list Device) (disks : list DiskSpec) : res Fault (list Device) :=
  match missing_disks devices disks with
  | [] => Ok []
  | missing => match find_first is_sas devices with
               | None => Err controller_missing
               | Some controller => place_disks controller devices 0 missing
               end
  end.

Definition add_data_disks (target : VCenterTarget) (vm_id : string) (disks : list DiskSpec) : Op V Z :=
  _with_session target "add-data-disks"
    (let! inv := _content in
     let! v := need_vm inv vm_id "adding data disks" in
     match missing_disks (v_devices v) disks with
     | [] => oret 0
     | _ =>
         let! added := lift_res (disk_changes (v_devices v) disks) in
         wrapping "add_data_disks"
           (run_task (ReconfigVM_Task vm_id (NO_CHANGE <| r_changes := List.map AddDevice added |>))) >>!
         oret (Z.of_nat (List.length added))
     end).

(** ** The hosts' HTTPS ports *)

Definition probe_text (f : TlsFailure) : string :=
  match f with
  | CertificateNotTrusted m => "certificate not trusted (" ++ m ++ ")"
  | NoAnswer => "no answer on TCP 443 within 5 seconds"
  | NameUnknown => "the name does not resolve"
  | ConnectionFailed m => "connection failed (" ++ m ++ ")"
  end.

(** The probes run side by side; their answers keep the order of the names. *)
Fixpoint check_host_https (target : VCenterTarget) (host_names : list string) : Op V (list (string * option string)) :=
  match host_names with
  | [] => oret []
  | name :: rest =>
      let! failure := open_tls target name in
      let! l := check_host_https target rest in
      oret ((name, option_map probe_text failure) :: l)
  end.

(** ** The service *)

#[export] Instance vsphere : VMwareService V := {|
  World.test_connection := test_connection;
  World.get_datacenters := get_datacenters;
  World.get_clusters := get_clusters;
  World.get_hosts := get_hosts;
  World.get_resource_pools := get_resource_pools;
  World.get_datastores := get_datastores;
  World.get_datastore_clusters := get_datastore_clusters;
  World.get_networks := get_networks;
  World.get_isos := get_isos;
  World.get_vm_info := get_vm_info;
  World.get_vm_info_by_id := get_vm_info_by_id;
  World.get_used_ips := get_used_ips;
  World.vm_exists := vm_exists;
  World.check_host_https := check_host_https;
  World.read_datastore_file := read_datastore_file;
  World.find_vm_ownership := find_vm_ownership;
  World.create_vm := create_vm;
  World.configure_hardware := configure_hardware;
  World.attach_network := attach_network;
  World.attach_answer_media := attach_answer_media;
  World.remove_answer_media := remove_answer_media;
  World.power_on := power_on;
  World.reset := reset;
  World.send_keystrokes := send_keystrokes;
  World.detach_installation_media := detach_installation_media;
  World.add_data_disks := add_data_disks;
  World.capture_screenshot := capture_screenshot;
|}.

(** ** Waiting for VMware Tools *)

Context `{Platform V}.

Definition tools_ready (info : option PowerStateInfo) : bool :=
  match info with
  | Some i => (bool_decide (tools_status i ∈ [Some "toolsOk"; Some "toolsOld"])
               || bool_decide (tools_running_status i = Some "guestToolsRunning")) && guest_operations_ready i
  | None => false
  end.

Definition tools_timeout (vm_id : string) (timeout_seconds : Z) : Fault :=
  InfraFail "VMware Tools did not become ready within the configured timeout."
    ("Tools heartbeat absent after " ++ str_int timeout_seconds ++ " seconds.")
    ("Open the console screenshot attached to this step to see where the guest stopped, " ++ "then retry the failed stage.")
    ("waited " ++ str_int timeout_seconds ++ "s for toolsOk/toolsOld on " ++ vm_id) true.

(** The time limit is a whole number of seconds; polls left. *)
Fixpoint tools_polls (polls : nat) (target : VCenterTarget) (vm_id : string) (timeout_seconds deadline : Z) : Op V unit := fun v =>
  match polls with
  | O => (Err (tools_timeout vm_id timeout_seconds), v)
  | S n =>
      if utcnow v <? deadline then
        (let! info := get_vm_info_by_id target vm_id in
         if tools_ready info then oret tt
         else sleep (_TOOLS_POLL_INTERVAL * SECOND) >>! tools_polls n target vm_id timeout_seconds deadline) v
      else (Err (tools_timeout vm_id timeout_seconds), v)
  end.

Definition wait_for_tools (target : VCenterTarget) (vm_id : string) (timeout_seconds : Z) : Op V unit := fun v =>
  tools_polls (S (Z.to_nat timeout_seconds)) target vm_id timeout_seconds (utcnow v + timeout_seconds * SECOND) v.

End Adapter.
