(* ===== verification/VMwareTools.v ===== *)
(** * Guest operations through VMware Tools

    [app/services/guest/vmware_tools.py]: programs, files and processes inside
    the guest through vCenter's guest API, and the transfers of file contents
    from and to the ESXi host over HTTPS.  The last definition makes the adapter
    an instance of [GuestOperations].

    [interrupted] says whether a cancellation arrives at the await in flight: the
    awaited call has taken effect then, and its result is lost.  The stages
    deliver their cancellations themselves ([call]), so the instance runs
    without.  The subclasses of [InfraOperationError] raised here
    ([GuestCredentialsRejected], [GuestFileTransferError]) are told apart by no
    caller. *)

From Stdlib Require Import ZArith Lia Ascii String List Bool.
From stdpp Require Import base tactics list strings gmap.
From S2P Require Import Prelude PyStr Urls Utf8 Errors Schemas Scripts Effects World InventoryRefs VCenter VSphere.

Local Open Scope string_scope.
Local Open Scope Z_scope.

Definition _PROCESS_POLL_SECONDS : Z := 2.
Definition _RUNNER_GRACE_SECONDS : Z := 30.

(** ** The guest API *)

(** What the code asks of a process: whether it has ended, and its exit code. *)
Record GuestProcessInfo := MkProcess { process_ended : bool; process_exit_code : option Z }.

(** The classes [_wrap] and [file_exists] look for, the most specific one. *)
Inductive FaultClass :=
| InvalidGuestLogin
| GuestOperationsUnavailable
| GuestOperationsFault
| NoPermission (privilege_id : option string)
| FileNotFound (msg : option string)
| MethodFault (msg : option string)
| NoMethodFault.

(** An exception of the HTTP client: its type, per exception of its cause chain
    whether it is [SSLCertVerificationError] and its text, and whether it is a
    [TimeoutException], [ConnectError] or [OSError]. *)
Record HttpException := MkHttpException { http_type : string; http_chain : list (bool * string); http_connection : bool }.

Inductive RequestEnd :=
| Answered (status : Z) (content : string)
| TlsConfiguration (e : InfraError)
| RequestFailed (e : HttpException).

(** Guest authentication: user name and password. *)
Class GuestApi (V : Type) := {
  fault_class : string -> FaultClass;
  bracketed_host : string -> bool;
  InitiateFileTransferToGuest : string -> GuestCredentials -> string -> Z -> Op V string;
  InitiateFileTransferFromGuest : string -> GuestCredentials -> string -> Op V string;
  DeleteFileInGuest : string -> GuestCredentials -> string -> Op V unit;
  ListFilesInGuest : string -> GuestCredentials -> string -> string -> Op V bool;
  StartProgramInGuest : string -> GuestCredentials -> string -> string -> Op V Z;
  ListProcessesInGuest : string -> GuestCredentials -> Z -> Op V (option GuestProcessInfo);
  TerminateProcessInGuest : string -> GuestCredentials -> Z -> Op V unit;
  http_request : VCenterTarget -> string -> string -> option string -> Op V RequestEnd;
}.

(** ** Transfers *)

Definition ValueError (message : string) : Fault := OtherFault "ValueError" message.

Section Transfer.
Context {V : Type} `{GuestApi V}.

Definition _file_transfer_url (url : string) (target : VCenterTarget) : res Fault string :=
  match urlsplit bracketed_host url with
  | None => Err (ValueError "Invalid IPv6 URL")
  | Some parts =>
      if negb (bool_decide (hostname_of parts = Some "*")) then Ok url
      else
        match port_of parts with
        | Err m => Err (ValueError m)
        | Ok p =>
            let port := match p with Some n => ":" ++ str_int n | None => "" end in
            Ok (urlunsplit (MkUrl (scheme parts) (target_host target ++ port) (url_path parts) (query parts) (fragment parts)))
        end
  end.

Definition _TRANSFER_PATH_NOTE : string :=
  "VMware Tools file transfers go directly to the ESXi host that runs the VM, not through "
  ++ "vCenter, so the InfraOps backend and worker must reach every ESXi host over HTTPS.".

Definition _certificate_rejected (e : HttpException) : bool :=
  existsb (fun x => fst x || contains (snd x) "CERTIFICATE_VERIFY_FAILED" || contains (lower (snd x)) "hostname mismatch")
    (http_chain e).

(** [str(exc)] *)
Definition http_text (e : HttpException) : string := match http_chain e with (_, s) :: _ => s | [] => "" end.

Definition _transfer_error (operation url : string) (e : HttpException) : Fault :=
  match urlsplit bracketed_host url with
  | None => ValueError "Invalid IPv6 URL"
  | Some parts =>
      match port_of parts with
      | Err m => ValueError m
      | Ok p =>
          let host := default "the ESXi host" (hostname_of parts) in
          let port := match p with Some 0 | None => 443 | Some n => n end in
          let technical := operation ++ " " ++ scheme parts ++ "://" ++ host ++ ":" ++ str_int port ++ url_path parts
                           ++ ": " ++ http_type e ++ ": " ++ http_text e in
          if _certificate_rejected e then
            InfraFail ("The TLS certificate of ESXi host " ++ SQ ++ host ++ SQ ++ " is not trusted.")
              (_TRANSFER_PATH_NOTE ++ " The host's certificate failed verification.")
              ("Add the CA that signs the ESXi host certificates (normally the vCenter VMCA root "
               ++ "certificate) to VCENTER_CA_FILE and restart the backend and worker, or untick "
               ++ "'Verify the TLS certificate' on the vCenter connection; then retry this stage.")
              technical true
          else if http_connection e then
            InfraFail ("InfraOps could not connect to ESXi host " ++ SQ ++ host ++ SQ ++ " on port " ++ str_int port ++ ".")
              (_TRANSFER_PATH_NOTE ++ " The connection failed: " ++ http_text e)
              ("Allow HTTPS (TCP " ++ str_int port ++ ") from the InfraOps server to every ESXi host and make "
               ++ "sure " ++ SQ ++ host ++ SQ ++ " resolves inside the backend and worker containers; then retry this stage.")
              technical true
          else
            InfraFail ("ESXi host " ++ SQ ++ host ++ SQ ++ " refused the VMware Tools file transfer.")
              (_TRANSFER_PATH_NOTE ++ " " ++ http_text e)
              "Check the ESXi host's health and retry this stage." technical true
      end
  end.

(** [type(exc).__name__] and [str(exc)] *)
Definition fault_name (f : Fault) : string :=
  match f with InfraFault _ => "InfraOperationError" | TimeoutFault => "TimeoutError" | OtherFault n _ => n end.
Definition fault_text (f : Fault) : string :=
  match f with InfraFault e => human_message e | TimeoutFault => "" | OtherFault _ m => m end.

(** [name.rsplit(".", 1)[-1]] *)
Definition last_name (name : string) : string := text (behind_last "." (chars name)).

Definition _wrap (operation : string) (f : Fault) : Fault :=
  let technical := fault_name f ++ ": " ++ fault_text f in
  match match f with OtherFault n _ => fault_class n | _ => NoMethodFault end with
  | InvalidGuestLogin =>
      InfraFail "The guest operating system rejected the automation credentials."
        "Invalid username or password for the local administrator account."
        ("Verify the guest credential secret reference on the request "
         ++ "and confirm the account is not locked out.") technical false
  | GuestOperationsUnavailable =>
      InfraFail "VMware Tools guest operations are unavailable inside the VM."
        "VMware Tools is not running or the guest API is disabled."
        "Confirm VMware Tools is running in vCenter, then retry this stage." technical true
  | GuestOperationsFault =>
      InfraFail ("The guest rejected the " ++ SQ ++ operation ++ SQ ++ " operation.") (fault_text f)
        "Inspect the guest event log and retry the failed stage." technical true
  | NoPermission privilege =>
      InfraFail ("The vCenter service account may not run the " ++ SQ ++ operation ++ SQ ++ " guest operation.")
        ("vCenter denied the privilege "
         ++ match privilege with Some "" | None => "a guest operations privilege" | Some p => p end ++ " on this VM.")
        ("Give the service account's role Virtual machine > Guest operations (modification, "
         ++ "program execution and queries) on the VM folder, then retry this stage.") technical true
  | FileNotFound msg | MethodFault msg =>
      InfraFail ("vCenter refused the " ++ SQ ++ operation ++ SQ ++ " guest operation.")
        (last_name (fault_name f) ++ ": " ++ match msg with Some "" | None => fault_text f | Some m => m end)
        ("Check the VM in vCenter for a question waiting for an answer, a running task or a "
         ++ "powered-off state, then retry this stage.") technical true
  | NoMethodFault =>
      InfraFail ("Guest operation " ++ SQ ++ operation ++ SQ ++ " failed.")
        ("An unexpected error occurred while communicating with the VM: " ++ technical)
        "Verify VM and VMware Tools health, then retry." technical true
  end.

End Transfer.

(** ** The adapter *)

Definition CancelledError : Fault := OtherFault "CancelledError" "".
Definition is_cancelled (f : Fault) : bool := match f with OtherFault n _ => String.eqb n "CancelledError" | _ => false end.

Section Tools.
Context {V : Type} `{VCenterApi V} `{SecretsProvider V} `{Platform V} `{GuestApi V}.
Context (interrupted : Op V bool).

Definition awaiting {A} (m : Op V A) : Op V A := fun v =>
  let '(o, v1) := m v in
  match interrupted v1 with
  | (Ok true, v2) => (Err CancelledError, v2)
  | (_, v2) => (o, v2)
  end.

(** [try: m except Exception as exc: h(exc)] *)
Definition except_exception {A} (m : Op V A) (h : Fault -> Op V A) : Op V A :=
  ocatch m (fun f => if is_cancelled f then othrow f else h f).
(** [try: m except InfraOperationError: h] *)
Definition except_infra {A} (m : Op V A) (h : Op V A) : Op V A :=
  ocatch m (fun f => if is_infra f then h else othrow f).
(** [try: m finally: c] *)
Definition finally {A} (m : Op V A) (c : Op V unit) : Op V A := fun v =>
  let '(o, v1) := m v in
  match c v1 with
  | (Ok _, v2) => (o, v2)
  | (Err f, v2) => (Err f, v2)
  end.

Definition wrapping_guest {A} (operation : string) (m : Op V A) : Op V A :=
  except_exception m (fun f => othrow (_wrap operation f)).

Context (target : VCenterTarget) (vm_name : string) (credentials : GuestCredentials).

Definition vm_missing : Fault :=
  InfraFail ("VM " ++ SQ ++ vm_name ++ SQ ++ " was not found while performing guest operations.")
    "VM missing from inventory." "Check the job timeline and vCenter inventory." "" false.

(** The identifier of the machine; the manager is that of the session. *)
Definition _find_vm : Op V string :=
  let! found := awaiting (_with_session target "guest-find-vm"
                            (let! inv := _content in lift_res (_find_vm_by_name inv vm_name))) in
  match found with
  | Some m => oret (v_moid m)
  | None => othrow vm_missing
  end.

Definition _transfer (operation method url : string) (content : option string) : Op V string :=
  let! answer := awaiting (http_request target method url content) in
  match answer with
  | Answered status body =>
      if 300 <=? status
      then othrow (_transfer_error operation url (MkHttpException "RuntimeError" [(false, "HTTP " ++ str_int status)] false))
      else oret body
  | TlsConfiguration e => othrow (InfraFault e)
  | RequestFailed e => othrow (_transfer_error operation url e)
  end.

Definition upload_file (content guest_path : string) : Op V unit :=
  let! vm := _find_vm in
  let! url := wrapping_guest "upload-file"
                (let! u := awaiting (InitiateFileTransferToGuest vm credentials guest_path (len content)) in
                 lift_res (_file_transfer_url u target)) in
  let! _ := _transfer "upload-file" "PUT" url (Some content) in oret tt.

Definition download_file (guest_path : string) : Op V string :=
  let! vm := _find_vm in
  let! url := wrapping_guest "download-file"
                (let! u := awaiting (InitiateFileTransferFromGuest vm credentials guest_path) in
                 lift_res (_file_transfer_url u target)) in
  _transfer "download-file" "GET" url None.

Definition delete_file (guest_path : string) : Op V unit :=
  let! vm := _find_vm in wrapping_guest "delete-file" (awaiting (DeleteFileInGuest vm credentials guest_path)).

(** [re.escape] on ASCII text *)
Definition re_escape (s : string) : string :=
  text (List.flat_map (fun c => if existsb (Ascii.eqb c) (chars "()[]{}?*+-|^$\.&~# ") || in_range 9 13 c
                                then [char_of 92; c] else [c]) (chars s)).

(** [path.rpartition("\")] *)
Definition directory_of (path : string) : string :=
  join BS (removelast (split_on (char_of 92) path)).
Definition file_name_of (path : string) : string := List.last (split_on (char_of 92) path) "".

Definition is_file_not_found (f : Fault) : bool :=
  match f with OtherFault n _ => match fault_class n with FileNotFound _ => true | _ => false end | _ => false end.

Definition file_exists (guest_path : string) : Op V bool :=
  let! vm := _find_vm in
  except_exception
    (awaiting (ListFilesInGuest vm credentials (directory_of guest_path) ("^" ++ re_escape (file_name_of guest_path) ++ "$")))
    (fun f => if is_file_not_found f then oret false else othrow (_wrap "file-exists" f)).

(** ** Programs *)

Definition now : Op V Z := fun v => (Ok (utcnow v), v).

(** The polling loop; [last] is what the last poll found. *)
Fixpoint poll_process (polls : nat) (vm : string) (pid deadline : Z) (last : option GuestProcessInfo)
    : Op V (option GuestProcessInfo) :=
  match polls with
  | O => oret last
  | S n =>
      let! t := now in
      if t <? deadline then
        let! info := awaiting (ListProcessesInGuest vm credentials pid) in
        match info with
        | None => oret None
        | Some p => if process_ended p then oret info
                    else awaiting (sleep (_PROCESS_POLL_SECONDS * SECOND)) >>! poll_process n vm pid deadline info
        end
      else oret last
  end.

(** Enough polls for the time limit. *)
Definition process_polls (timeout_seconds : Z) : nat := S (Z.to_nat timeout_seconds).

Definition process_lost (pid : Z) : Fault :=
  InfraFail "The guest process could not be found after starting."
    "Process disappeared without reporting an exit code."
    "Retry the stage; if it recurs, inspect the guest event log." ("pid=" ++ str_int pid) true.

Definition process_timeout (pid timeout_seconds : Z) (program_label : string) : Fault :=
  InfraFail ("The guest operation exceeded its " ++ str_int timeout_seconds ++ " second timeout.")
    (SQ ++ program_label ++ SQ ++ " did not finish in time.")
    "Increase the configured timeout or investigate the guest."
    ("pid=" ++ str_int pid ++ " program=" ++ program_label) true.

(** The machine stops on its own: best effort. *)
Definition terminate (vm : string) (pid : Z) : Op V unit :=
  except_exception (awaiting (TerminateProcessInGuest vm credentials pid)) (fun _ => oret tt).

Definition wait_for_process (vm : string) (pid timeout_seconds : Z) (program_label : string) : Op V Z :=
  let! start := now in
  let! info := ocatch (poll_process (process_polls timeout_seconds) vm pid (start + timeout_seconds * SECOND) None)
                 (fun f => if is_cancelled f then terminate vm pid >>! othrow f else othrow f) in
  match info with
  | None => othrow (process_lost pid)
  | Some p =>
      if process_ended p then oret (default 0 (process_exit_code p))
      else terminate vm pid >>! othrow (process_timeout pid timeout_seconds program_label)
  end.

Definition _start_and_wait (program_path arguments : string) (timeout_seconds : Z) (program_label : string) : Op V Z :=
  let! vm := _find_vm in
  let! pid := wrapping_guest "start-program" (awaiting (StartProgramInGuest vm credentials program_path arguments)) in
  wait_for_process vm pid timeout_seconds program_label.

Definition invalid_command : Fault :=
  InfraFail "A guest command contained invalid characters."
    "Program paths and arguments must not contain control characters."
    "Ask an administrator to correct the definition that produced it." "" false.

Definition OUTPUT_UNAVAILABLE : string := "[output capture unavailable]".

(** [except InfraOperationError: pass] around each deletion of the [finally] block. *)
Fixpoint remove_files (paths : list string) : Op V unit :=
  match paths with
  | [] => oret tt
  | path :: rest => except_infra (delete_file path) (oret tt) >>! remove_files rest
  end.

Definition captured_output (output_path : string) : Op V string :=
  except_infra (let! blob := download_file output_path in oret (decode_replace blob)) (oret OUTPUT_UNAVAILABLE).

(** The body of the [try], the runner script being in the guest. *)
Definition run_uploaded (program_path runner_path output_path : string) (timeout_seconds : Z) : Op V CommandResult :=
  let! code := _start_and_wait POWERSHELL_PATH (powershell_file_arguments runner_path)
                 (timeout_seconds + _RUNNER_GRACE_SECONDS) program_path in
  let! output := captured_output output_path in
  oret (MkResult code (last_points 8000 output) "").

(** No caller passes a working directory. *)
Definition run_program (program_path arguments : string) (timeout_seconds : Z) : Op V CommandResult :=
  let! token := uuid4_hex in
  let runner_path := new_temp_path (token ++ "-run") "ps1" in
  let output_path := new_temp_path token "log" in
  match build_process_runner program_path arguments output_path timeout_seconds None
          (String.eqb (lower program_path) (lower POWERSHELL_PATH)) with
  | None => othrow invalid_command
  | Some runner =>
      let! _ := upload_file (encode_script runner) runner_path in
      finally (run_uploaded program_path runner_path output_path timeout_seconds)
        (remove_files [output_path; runner_path])
  end.

End Tools.

(** The adapter as the guest operations of the stages. *)
Definition vmware_tools {V : Type} `{VCenterApi V} `{SecretsProvider V} `{Platform V} `{GuestApi V}
    : GuestOperations V := {|
  World.run_program target vm_name credentials program arguments timeout :=
    run_program (oret false) target vm_name credentials program arguments timeout;
  World.upload_file target vm_name credentials content path := upload_file (oret false) target vm_name credentials content path;
  World.download_file target vm_name credentials path := download_file (oret false) target vm_name credentials path;
  World.delete_file target vm_name credentials path := delete_file (oret false) target vm_name credentials path;
  World.file_exists target vm_name credentials path := file_exists (oret false) target vm_name credentials path;
  World.own_run_powershell := None;
|}.
