(* ===== verification/VMwareToolsFacts.v ===== *)
(** * What the VMware Tools adapter guarantees

    Theorems on [VMwareTools.v] over any guest that satisfies
    [GuestProcessLaws]: the runner process the adapter started has ended when it
    reports on it, or its termination was refused; its exit code is the one
    the guest reports, and its output is valid text of bounded length. *)

From Stdlib Require Import ZArith Lia Ascii String List Bool.
From stdpp Require Import base tactics list strings gmap.
From S2P Require Import Prelude PyStr Urls Utf8 Errors Schemas Scripts Effects World InventoryRefs VCenter VSphere.
From S2P Require Import VMwareTools.

Local Open Scope string_scope.
Local Open Scope Z_scope.

(** ** What the development relies on of the guest *)

(** [alive v vm pid]: the process runs that StartProgramInGuest started and
    named [pid]; the processes it starts itself are not among them, and may
    outlive it.  [refused v vm pid]: a TerminateProcessInGuest of it has
    raised.  [starts_nothing]: no such process runs afterwards that did not
    run before, and none was to be terminated. *)
Class GuestProcesses (V : Type) := {
  alive : V -> string -> Z -> Prop;
  refused : V -> string -> Z -> Prop;
}.

Definition shrinks {V} `{GuestProcesses V} (v v' : V) : Prop := forall m q, alive v' m q -> alive v m q.
Definition fewer {V} `{GuestProcesses V} (v v' : V) : Prop :=
  shrinks v v' /\ forall m q, refused v' m q <-> refused v m q.
Definition starts_nothing {V A} `{GuestProcesses V} (op : Op V A) : Prop := forall v, fewer v (snd (op v)).

(** A process that runs now and did not run before could not be terminated. *)
Definition wound_up {V} `{GuestProcesses V} (v v' : V) : Prop :=
  forall m q, alive v' m q -> alive v m q \/ refused v' m q.

(** Only StartProgramInGuest gives out processes, and nobody else starts any; a
    process that is no longer listed or has an end time does not run; a
    termination that returns has ended the process, one that raises may not
    have.  The calls raise exceptions of pyVmomi, not of the program. *)
Class GuestProcessLaws (V : Type) `{VCenterApi V} `{SecretsProvider V} `{Platform V} `{GuestApi V} `{GuestProcesses V} : Prop := {
  start_process vm c program arguments v :
    let '(o, v') := StartProgramInGuest vm c program arguments v in
    (forall m q, alive v' m q -> alive v m q \/ (m = vm /\ o = Ok q)) /\ (forall q, o = Ok q -> ~ refused v' vm q);
  list_process vm c pid v :
    let '(o, v') := ListProcessesInGuest vm c pid v in
    fewer v v'
    /\ match o with
       | Ok None => ~ alive v' vm pid
       | Ok (Some p) => process_ended p = true -> ~ alive v' vm pid
       | Err f => is_infra f = false /\ is_cancelled f = false
       end;
  terminate_process vm c pid v :
    let '(o, v') := TerminateProcessInGuest vm c pid v in
    shrinks v v' /\ (is_ok o = true -> ~ alive v' vm pid)
    /\ forall m q, refused v' m q <-> refused v m q \/ (is_ok o = false /\ m = vm /\ q = pid);
  sleep_returns n v : fst (sleep n v) = Ok tt;
  sleep_starts n : starts_nothing (sleep n);
  token_starts : starts_nothing uuid4_hex;
  to_guest_starts vm c path size : starts_nothing (InitiateFileTransferToGuest vm c path size);
  from_guest_starts vm c path : starts_nothing (InitiateFileTransferFromGuest vm c path);
  delete_starts vm c path : starts_nothing (DeleteFileInGuest vm c path);
  request_starts target method url content : starts_nothing (http_request target method url content);
  connect_starts target user password : starts_nothing (SmartConnect target user password);
  secret_starts name : starts_nothing (get_secret name);
  disconnect_starts instance v : fewer v (disconnect instance v);
  sessions_start c v : fewer v (put_sessions c v);
}.

Section Facts.
Context {V : Type} `{GuestProcessLaws V}.

(** ** Operations that start nothing *)

Lemma fewer_refl (v : V) : fewer v v.
Proof. split; [by intros m q|done]. Qed.
Lemma fewer_trans (a b c : V) : fewer a b -> fewer b c -> fewer a c.
Proof. intros [F R] [G S]. split; [intros m q A; by apply F, G|intros m q; by rewrite S, R]. Qed.

Lemma wound_refl (v : V) : wound_up v v.
Proof. intros m q A. by left. Qed.
Lemma fewer_wound (a b c : V) : fewer a b -> wound_up b c -> wound_up a c.
Proof. intros [F _] W m q [A|R]%W; [left; by apply F|by right]. Qed.
Lemma wound_fewer (a b c : V) : wound_up a b -> fewer b c -> wound_up a c.
Proof. intros W [F R] m q [A|A]%F%W; [by left|right; by apply R]. Qed.
Lemma fewer_wound_up (a b : V) : fewer a b -> wound_up a b.
Proof. intros F. by eapply fewer_wound, wound_refl. Qed.

Lemma starts_ret {A} (a : A) : starts_nothing (oret (X := V) a).
Proof. intros v. apply fewer_refl. Qed.
Lemma starts_throw {A} f : starts_nothing (othrow (X := V) (A := A) f).
Proof. intros v. apply fewer_refl. Qed.
Lemma starts_lift {A} (r : res Fault A) : starts_nothing (lift_res (V := V) r).
Proof. intros v. apply fewer_refl. Qed.
Lemma starts_content : starts_nothing _content.
Proof. intros v. apply fewer_refl. Qed.

Lemma starts_bind {A B} (m : Op V A) (k : A -> Op V B) :
  starts_nothing m -> (forall a, starts_nothing (k a)) -> starts_nothing (obind m k).
Proof.
  intros Hm Hk v. unfold obind. specialize (Hm v). destruct (m v) as [[a|e] v1]; cbn in *; [|done].
  eapply fewer_trans; [done|apply Hk].
Qed.

Lemma starts_catch {A} (m : Op V A) h : starts_nothing m -> (forall f, starts_nothing (h f)) -> starts_nothing (ocatch m h).
Proof.
  intros Hm Hh v. unfold ocatch. specialize (Hm v). destruct (m v) as [[a|e] v1]; cbn in *; [done|].
  eapply fewer_trans; [done|apply Hh].
Qed.

Lemma starts_wrapping {A} o (m : Op V A) : starts_nothing m -> starts_nothing (wrapping o m).
Proof. intros Hm. apply starts_catch; [done|]. intros f. apply starts_throw. Qed.

Lemma starts_evict id : starts_nothing (cache_evict id).
Proof.
  intros v. unfold cache_evict. repeat case_match; cbn; [|apply fewer_refl].
  eapply fewer_trans; [apply sessions_start|apply disconnect_starts].
Qed.
Lemma starts_put id i f : starts_nothing (cache_put id i f).
Proof. intros v. apply sessions_start. Qed.
Lemma starts_get id f : starts_nothing (cache_get id f).
Proof.
  intros v. unfold cache_get. repeat case_match; cbn; try apply fewer_refl.
  eapply fewer_trans; [apply sessions_start|apply disconnect_starts].
Qed.

Ltac solve_starts :=
  repeat first
    [ assumption | apply starts_ret | apply starts_throw | apply starts_lift | apply starts_content
    | apply starts_bind | apply starts_wrapping | apply starts_catch
    | apply starts_put | apply starts_get | apply starts_evict | apply secret_starts | apply connect_starts
    | apply to_guest_starts | apply from_guest_starts | apply delete_starts | apply request_starts
    | apply sleep_starts | apply token_starts
    | match goal with |- starts_nothing (match ?x with _ => _ end) => destruct x end
    | match goal with |- forall _, _ => intros ? end ].

Lemma starts_session {A} target operation (fn : Op V A) :
  starts_nothing fn -> starts_nothing (_with_session target operation fn).
Proof. intros Hf. unfold _with_session, _get_session, _connect_blocking. cbv zeta. solve_starts. Qed.

Section Interruptible.
Context (interrupted : Op V bool) (calm : starts_nothing interrupted).
Context (target : VCenterTarget) (vm_name : string) (credentials : GuestCredentials).

Lemma awaiting_state {A} (m : Op V A) v : fewer (snd (m v)) (snd (awaiting interrupted m v)).
Proof.
  unfold awaiting. destruct (m v) as [o v1]. pose proof (calm v1) as C. cbn.
  destruct (interrupted v1) as [[[]|] v2]; exact C.
Qed.

Lemma starts_awaiting {A} (m : Op V A) : starts_nothing m -> starts_nothing (awaiting interrupted m).
Proof. intros Hm v. eapply fewer_trans; [apply Hm|apply awaiting_state]. Qed.

Lemma starts_except {A} (m : Op V A) h : starts_nothing m -> (forall f, starts_nothing (h f)) -> starts_nothing (except_exception m h).
Proof. intros Hm Hh. apply starts_catch; [done|]. intros f. destruct (is_cancelled f); [apply starts_throw|apply Hh]. Qed.

Lemma starts_except_infra {A} (m : Op V A) (h : Op V A) : starts_nothing m -> starts_nothing h -> starts_nothing (except_infra m h).
Proof. intros Hm Hh. apply starts_catch; [done|]. intros f. destruct (is_infra f); [done|apply starts_throw]. Qed.

Ltac solve_tools := repeat first [ progress solve_starts | apply starts_awaiting | apply starts_except | apply starts_except_infra
  | apply starts_session ].

Lemma starts_find_vm : starts_nothing (_find_vm interrupted target vm_name).
Proof. unfold _find_vm. solve_tools. Qed.

Lemma starts_transfer o m u c : starts_nothing (_transfer interrupted target o m u c).
Proof. unfold _transfer. solve_tools. Qed.

Lemma starts_upload content path : starts_nothing (upload_file interrupted target vm_name credentials content path).
Proof. pose proof starts_find_vm. pose proof starts_transfer. unfold upload_file, wrapping_guest. solve_tools; auto. Qed.

Lemma starts_download path : starts_nothing (download_file interrupted target vm_name credentials path).
Proof. pose proof starts_find_vm. pose proof starts_transfer. unfold download_file, wrapping_guest. solve_tools; auto. Qed.

Lemma starts_delete path : starts_nothing (delete_file interrupted target vm_name credentials path).
Proof. pose proof starts_find_vm. unfold delete_file, wrapping_guest. solve_tools; auto. Qed.

Lemma starts_remove paths : starts_nothing (remove_files interrupted target vm_name credentials paths).
Proof. pose proof starts_delete. induction paths as [|p l IH]; cbn [remove_files]; solve_tools; auto. Qed.

Lemma starts_output path : starts_nothing (captured_output interrupted target vm_name credentials path).
Proof. pose proof starts_download. unfold captured_output. solve_tools; auto. Qed.

(** ** Waiting for a process *)

(** How a poll may end: the process is gone, or it was still running. *)
Definition polled (vm : string) (pid : Z) (o : res Fault (option GuestProcessInfo)) (v : V) : Prop :=
  match o with
  | Ok None => ~ alive v vm pid
  | Ok (Some p) => process_ended p = true ->
                   ~ alive v vm pid /\ exists w, fst (ListProcessesInGuest vm credentials pid w) = Ok (Some p)
  | Err f => is_infra f = false
  end.

Lemma awaiting_answer {A} (m : Op V A) v o v' :
  awaiting interrupted m v = (o, v') -> o = Err CancelledError \/ (o = fst (m v) /\ fewer (snd (m v)) v').
Proof.
  pose proof (awaiting_state m v) as S. unfold awaiting in *. destruct (m v) as [o1 v1]. cbn in S.
  destruct (interrupted v1) as [[[]|] v2]; intros [= <- <-]; auto.
Qed.

Lemma list_polled vm pid v o v' :
  awaiting interrupted (ListProcessesInGuest vm credentials pid) v = (o, v') -> polled vm pid o v'.
Proof.
  intros E. destruct (awaiting_answer _ _ _ _ E) as [->|[-> F]]; [done|].
  pose proof (list_process vm credentials pid v) as L. destruct (ListProcessesInGuest _ _ _ v) as [o1 v1] eqn:E1. cbn in *.
  destruct L as [_ L]. destruct F as [F _]. destruct o1 as [[p|]|f]; cbn in *; [|by intros A%F|by destruct L].
  intros D. split; [intros A%F; by apply L|]. exists v. by rewrite E1.
Qed.

Lemma starts_poll polls vm pid deadline last :
  starts_nothing (poll_process interrupted credentials polls vm pid deadline last).
Proof.
  assert (L : starts_nothing (ListProcessesInGuest vm credentials pid)).
  { intros v. pose proof (list_process vm credentials pid v) as L. by destruct (ListProcessesInGuest _ _ _ v) as [o v1], L. }
  revert last. induction polls as [|n IH]; intros last; cbn [poll_process]; [apply starts_ret|].
  apply starts_bind; [intros v; apply fewer_refl|]. intros t. destruct (t <? deadline); [|apply starts_ret].
  solve_tools. apply IH.
Qed.

(** Some poll takes place, or an earlier one found the process running. *)
Definition polls_at_least_once (polls : nat) (deadline : Z) (last : option GuestProcessInfo) (v : V) : Prop :=
  match last with None => polls <> O /\ utcnow v < deadline | Some p => process_ended p = false end.

Lemma poll_spec polls vm pid deadline last v :
  polls_at_least_once polls deadline last v ->
  let '(o, v') := poll_process interrupted credentials polls vm pid deadline last v in polled vm pid o v'.
Proof.
  assert (Stay : forall w, match last with Some p => process_ended p = false | None => False end -> polled vm pid (Ok last) w).
  { intros w. destruct last; cbn; [congruence|done]. }
  revert last v Stay. induction polls as [|n IH]; intros last v Stay Once; cbn [poll_process].
  - apply Stay. by destruct last; [|destruct Once].
  - unfold obind at 1, now. destruct (utcnow v <? deadline) eqn:D.
    2: { apply Stay. destruct last; [done|]. destruct Once; bools; lia. }
    unfold obind at 1. destruct (awaiting _ _ v) as [o v1] eqn:E. pose proof (list_polled _ _ _ _ _ E) as P.
    destruct o as [[p|]|f]; [|exact P|exact P].
    destruct (process_ended p) eqn:Ep; [exact P|]. unfold obind.
    destruct (awaiting interrupted (sleep _) v1) as [o2 v2] eqn:E2.
    destruct (awaiting_answer _ _ _ _ E2) as [->|[-> _]]; [done|]. rewrite sleep_returns.
    apply IH; [|done]. intros w _. cbn. congruence.
Qed.

(** After the attempt the process runs no more, or its termination was refused. *)
Lemma terminate_spec vm pid v :
  let '(o, v') := terminate interrupted credentials vm pid v in
  shrinks v v' /\ (alive v' vm pid -> refused v' vm pid) /\ (o = Ok tt \/ exists f, o = Err f /\ is_cancelled f = true).
Proof.
  unfold terminate, except_exception, ocatch. destruct (awaiting _ _ v) as [o v1] eqn:E.
  pose proof (terminate_process vm credentials pid v) as T.
  pose proof (awaiting_state (TerminateProcessInGuest vm credentials pid) v) as S. rewrite E in S.
  destruct (TerminateProcessInGuest _ _ _ v) as [o1 w] eqn:E1. cbn in *. destruct T as (F & T & R), S as [S1 S2].
  assert (shrinks v v1 /\ (alive v1 vm pid -> refused v1 vm pid)) as [? ?].
  { split; [intros m q A; by apply F, S1|]. intros A. apply S2, R. right. split; [|done].
    apply not_true_is_false. intros O. by apply (T O), S1. }
  destruct o as [[]|f]; [split_and!; auto|]. destruct (is_cancelled f) eqn:C; cbn; split_and!; eauto.
Qed.

(** However the wait ends, by the end of the process, its disappearance, the
    time limit or a cancellation at any await, the process runs no more or
    could not be terminated, unless a poll itself failed. *)
Lemma wait_for_process_spec vm pid timeout label v :
  0 < timeout ->
  let '(o, v') := wait_for_process interrupted credentials vm pid timeout label v in
  shrinks v v' /\
  match o with
  | Ok code => ~ alive v' vm pid
      /\ exists p w, fst (ListProcessesInGuest vm credentials pid w) = Ok (Some p) /\ process_ended p = true
                     /\ code = default 0 (process_exit_code p)
  | Err f => is_infra f = true \/ is_cancelled f = true -> alive v' vm pid -> refused v' vm pid
  end.
Proof.
  intros T. unfold wait_for_process, obind at 1, now. unfold obind, ocatch.
  set (deadline := utcnow v + timeout * SECOND).
  pose proof (proj1 (starts_poll (process_polls timeout) vm pid deadline None v)) as F.
  assert (Once : polls_at_least_once (process_polls timeout) deadline None v).
  { split; [done|]. unfold deadline, SECOND. lia. }
  pose proof (poll_spec (process_polls timeout) vm pid deadline None v Once) as P.
  destruct (poll_process _ _ _ _ _ _ _ v) as [[info|f] v1]; cbn [snd] in F.
  - destruct info as [p|]; [|split; [exact F|intros _ A; by apply P in A]]. destruct (process_ended p) eqn:E.
    + destruct (P E) as [G [w L]]. split; [done|]. split; [done|]. by exists p, w.
    + pose proof (terminate_spec vm pid v1) as Te. destruct (terminate _ _ _ _ v1) as [o v2].
      destruct Te as (F2 & G & [->|(g & -> & _)]); (split; [intros m q A; by apply F, F2|intros _; exact G]).
  - cbn in P. destruct (is_cancelled f) eqn:C.
    + pose proof (terminate_spec vm pid v1) as Te. destruct (terminate _ _ _ _ v1) as [o v2].
      destruct Te as (F2 & G & [->|(g & -> & _)]); (split; [intros m q A; by apply F, F2|intros _; exact G]).
    + split; [done|]. rewrite P, C. by intros [].
Qed.

Lemma find_start_spec program arguments timeout label v :
  0 < timeout ->
  let '(o, v') := _start_and_wait interrupted target vm_name credentials program arguments timeout label v in
  match o with
  | Ok code => shrinks v v'
      /\ exists vm pid p w, fst (ListProcessesInGuest vm credentials pid w) = Ok (Some p) /\ process_ended p = true
                            /\ code = default 0 (process_exit_code p)
  | Err f => is_infra f = true -> wound_up v v'
  end.
Proof.
  intros T. unfold _start_and_wait. unfold obind at 1. pose proof (starts_find_vm v) as F0.
  destruct (_find_vm _ _ _ v) as [[vm|f] v0]; cbn [snd] in F0; [|intros _; by apply fewer_wound_up]. unfold obind at 1.
  assert (G : forall o v1, wrapping_guest "start-program" (awaiting interrupted (StartProgramInGuest vm credentials program arguments)) v0
              = (o, v1) -> match o with
                           | Ok pid => forall m q, alive v1 m q -> alive v0 m q \/ (m = vm /\ q = pid)
                           | Err f => is_infra f = true -> shrinks v0 v1
                           end).
  { intros o v1. unfold wrapping_guest, except_exception, ocatch.
    pose proof (start_process vm credentials program arguments v0) as S.
    destruct (awaiting _ _ v0) as [o0 w] eqn:E. destruct (awaiting_answer _ _ _ _ E) as [->|[-> [F _]]]; cbn; [by intros [= <- <-]|].
    destruct (StartProgramInGuest _ _ _ _ v0) as [o1 v2]. cbn in *. destruct S as [S _]. destruct o1 as [pid|f].
    - intros [= <- <-] m q A%F. destruct (S m q A) as [|[-> [= ->]]]; auto.
    - assert (shrinks v0 w) by (intros m q A%F; by destruct (S m q A) as [|[_ ?]]).
      destruct (is_cancelled f); by intros [= <- <-]. }
  destruct (wrapping_guest _ _ v0) as [[pid|f] v1]; specialize (G _ _ eq_refl); cbn in G.
  2: { intros I m q A. left. apply F0. by apply G. }
  pose proof (wait_for_process_spec vm pid timeout label v1 T) as W.
  destruct (wait_for_process _ _ _ _ _ _ v1) as [o v2]. destruct W as [F W].
  assert (Others : forall m q, alive v2 m q -> alive v m q \/ (m = vm /\ q = pid)).
  { intros m q A. destruct (G m q (F m q A)) as [B|B]; [left; by apply F0|by right]. }
  destruct o as [code|f].
  - destruct W as [D (p & w & L)]. split; [|by exists vm, pid, p, w].
    intros m q A. destruct (Others m q A) as [|[-> ->]]; done.
  - intros I m q A. destruct (Others m q A) as [|[-> ->]]; [by left|right; apply W; auto].
Qed.

End Interruptible.

(** ** Programs *)

Lemma starts_nothing_never : starts_nothing (oret (X := V) false).
Proof. apply starts_ret. Qed.

Lemma remove_files_end interrupted target vm_name credentials paths v f v' :
  remove_files interrupted target vm_name credentials paths v = (Err f, v') -> is_infra f = false.
Proof.
  revert v. induction paths as [|p l IH]; intros v; cbn [remove_files]; [done|]. unfold obind, except_infra, ocatch.
  destruct (delete_file _ _ _ _ _ v) as [[u|e] v1]; [by apply IH|].
  destruct (is_infra e) eqn:I; [by apply IH|]. by intros [= <- <-].
Qed.

Lemma finally_spec {A} (m : Op V A) c v :
  starts_nothing c -> (forall w f w', c w = (Err f, w') -> is_infra f = false) ->
  let '(o, v') := finally m c v in
  let '(o1, v1) := m v in
  fewer v1 v' /\ (o = o1 \/ exists f, o = Err f /\ is_infra f = false).
Proof.
  intros S E. unfold finally. destruct (m v) as [o1 v1]. specialize (S v1).
  destruct (c v1) as [[u|f] v2] eqn:C; (split; [exact S|]); [by left|]. right. exists f. split; [done|]. by eapply E.
Qed.

(** The output of a program is valid text of at most 8000 characters. *)
Definition good_output (r : CommandResult) : Prop :=
  utf8_text (chars (stdout r)) /\ (points (chars (stdout r)) <= 8000)%nat /\ stderr r = "".

Lemma captured_valid target vm_name credentials path v s v' :
  captured_output (oret false) target vm_name credentials path v = (Ok s, v') -> utf8_text (chars s).
Proof.
  unfold captured_output, except_infra, ocatch. unfold obind at 1.
  destruct (download_file _ _ _ _ _ v) as [[b|f] v1].
  - intros [= <- _]. unfold decode_replace. rewrite chars_text. apply decode_valid. by left.
  - destruct (is_infra f); [|done]. intros [= <- _]. by apply utf8_ascii.
Qed.

Lemma run_uploaded_spec target vm_name credentials program runner output timeout v :
  0 <= timeout ->
  let '(o, v') := run_uploaded (oret false) target vm_name credentials program runner output timeout v in
  match o with
  | Ok r => shrinks v v' /\ good_output r
      /\ exists vm pid p w, fst (ListProcessesInGuest vm credentials pid w) = Ok (Some p) /\ process_ended p = true
                            /\ exit_code r = default 0 (process_exit_code p)
  | Err f => is_infra f = true -> wound_up v v'
  end.
Proof.
  intros T. unfold run_uploaded. unfold obind at 1.
  pose proof (find_start_spec (oret false) starts_nothing_never target vm_name credentials POWERSHELL_PATH
    (powershell_file_arguments runner) (timeout + _RUNNER_GRACE_SECONDS) program v ltac:(unfold _RUNNER_GRACE_SECONDS; lia)) as S.
  destruct (_start_and_wait _ _ _ _ _ _ _ _ v) as [[code|f] v1]; [|exact S]. destruct S as [F L].
  unfold obind. pose proof (proj1 (starts_output (oret false) starts_nothing_never target vm_name credentials output v1)) as O.
  pose proof (captured_valid target vm_name credentials output v1) as C.
  destruct (captured_output _ _ _ _ _ v1) as [[s|f] v2]; cbn [snd] in O; cbn.
  - split; [intros m q A; by apply F, O|]. split; [|exact L]. split; [|split; [apply last_points_bound|done]].
    cbn. unfold last_points. rewrite chars_text. apply utf8_last. by eapply C.
  - intros _ m q A. left. by apply F, O.
Qed.

(** C34 (VMwareToolsGuestOperations.run_program, which nothing interrupts): the
    adapter does not leave its runner behind.  When it reports a result, the
    runner process it started has ended, the exit code is the one the guest gave for
    an ended process, and the output is valid text of at most 8000
    characters.  When it fails with an error of its own, be it before the
    start, at the time limit, or when the output or the temporary files cannot
    be fetched or removed, the runner has ended too, or its termination was
    refused.  This is about the process StartProgramInGuest named; what that
    process started itself may run on, and a start that raised is not known to
    the adapter. *)
Theorem tools_runner_ends target vm_name credentials program arguments timeout v :
  0 <= timeout ->
  let '(o, v') := World.run_program (GuestOperations := vmware_tools) target vm_name credentials program arguments timeout v in
  match o with
  | Ok r => shrinks v v' /\ good_output r
      /\ exists vm pid p w, fst (ListProcessesInGuest vm credentials pid w) = Ok (Some p) /\ process_ended p = true
                            /\ exit_code r = default 0 (process_exit_code p)
  | Err f => is_infra f = true -> wound_up v v'
  end.
Proof.
  intros T. cbn [World.run_program vmware_tools]. unfold run_program. unfold obind at 1.
  pose proof (token_starts v) as F0. destruct (uuid4_hex v) as [[token|f] v0]; cbn [snd] in F0; [|intros _; by apply fewer_wound_up].
  cbv zeta. destruct (build_process_runner _ _ _ _ _ _) as [runner|]; [|intros _; by apply fewer_wound_up]. unfold obind.
  pose proof (starts_upload (oret false) starts_nothing_never target vm_name credentials (encode_script runner)
    (new_temp_path (token ++ "-run") "ps1") v0) as F1.
  destruct (upload_file _ _ _ _ _ _ v0) as [[u|f] v1]; cbn [snd] in F1;
    [|intros _; apply fewer_wound_up; exact (fewer_trans _ _ _ F0 F1)].
  pose proof (finally_spec (run_uploaded (oret false) target vm_name credentials program (new_temp_path (token ++ "-run") "ps1")
      (new_temp_path token "log") timeout)
    (remove_files (oret false) target vm_name credentials [new_temp_path token "log"; new_temp_path (token ++ "-run") "ps1"]) v1
    (starts_remove _ starts_nothing_never _ _ _ _) (fun w f w' => remove_files_end _ _ _ _ _ _ _ _)) as Fin.
  pose proof (run_uploaded_spec target vm_name credentials program (new_temp_path (token ++ "-run") "ps1")
    (new_temp_path token "log") timeout v1 T) as S.
  destruct (finally _ _ v1) as [o v2]. destruct (run_uploaded _ _ _ _ _ _ _ _ v1) as [o1 w]. destruct Fin as [F2 [->|(f & -> & I)]].
  - pose proof (fewer_trans _ _ _ F0 F1) as F. destruct o1 as [r|f].
    + destruct S as [F3 S]. split; [|exact S]. intros m q A. by apply F, F3, F2.
    + intros I. specialize (S I). eapply fewer_wound; [exact F|]. by eapply wound_fewer.
  - congruence.
Qed.

(** A command with control characters is refused before anything reaches the guest. *)
Lemma tools_refuses_control target vm_name credentials program arguments timeout v token v1 :
  uuid4_hex v = (Ok token, v1) -> _CONTROL_CHARS program || _CONTROL_CHARS arguments = true ->
  World.run_program (GuestOperations := vmware_tools) target vm_name credentials program arguments timeout v = (Err invalid_command, v1).
Proof.
  intros E C. cbn [World.run_program vmware_tools]. unfold run_program, obind at 1. rewrite E. cbv zeta.
  unfold build_process_runner. by rewrite C.
Qed.

(** ** The polls allowed are enough *)

(** The clock of the worker goes on by what is slept, and never back. *)
Class SleepLaws : Prop := {
  sleep_passes n v : utcnow v + n <= utcnow (snd (sleep n v));
  list_takes_time vm c pid v : utcnow v <= utcnow (snd (ListProcessesInGuest vm c pid v));
}.

(** With more polls the loop ends in the same way: it is the time limit that ends it. *)
Lemma polls_enough `{!SleepLaws} credentials more : forall polls vm pid deadline last v,
  deadline - utcnow v <= Z.of_nat polls * (_PROCESS_POLL_SECONDS * SECOND) ->
  poll_process (oret false) credentials (S polls + more) vm pid deadline last v
  = poll_process (oret false) credentials (S polls) vm pid deadline last v.
Proof.
  induction polls as [|polls IH]; intros vm pid deadline last v B.
  - cbn [poll_process Nat.add]. unfold obind, now. replace (utcnow v <? deadline) with false by (symmetry; apply Z.ltb_ge; lia). done.
  - cbn [poll_process Nat.add]. unfold obind, now. destruct (utcnow v <? deadline); [|done].
    unfold awaiting. pose proof (list_takes_time vm credentials pid v) as L.
    destruct (ListProcessesInGuest vm credentials pid v) as [[[p|]|f] v1]; cbn [oret snd] in *; [|done|done].
    destruct (process_ended p); [done|]. unfold obind.
    pose proof (sleep_passes (_PROCESS_POLL_SECONDS * SECOND) v1) as P. pose proof (sleep_returns (_PROCESS_POLL_SECONDS * SECOND) v1) as R.
    destruct (sleep _ v1) as [o v2]. cbn in *. subst o.
    apply (IH vm pid deadline (Some p) v2). lia.
Qed.

(** ** Waiting for VMware Tools *)

Section ToolsWait.
Context `{!SleepLaws}.
Hypothesis info_takes_time : forall target vm v, utcnow v <= utcnow (snd (get_vm_info_by_id target vm v)).

(** The time limit ends the wait, not the number of polls. *)
Lemma tools_polls_enough target vm timeout more : forall polls deadline v,
  deadline - utcnow v <= Z.of_nat polls * (_TOOLS_POLL_INTERVAL * SECOND) ->
  tools_polls (S polls + more) target vm timeout deadline v = tools_polls (S polls) target vm timeout deadline v.
Proof.
  induction polls as [|polls IH]; intros deadline v B; cbn [tools_polls Nat.add]; destruct (Z.ltb_spec (utcnow v) deadline) as [L|L]; try done.
  - cbn in B. lia.
  - unfold obind. pose proof (info_takes_time target vm v) as T. destruct (get_vm_info_by_id target vm v) as [[info|f] v1]; [|done].
    destruct (tools_ready info); [done|]. cbn in T.
    pose proof (sleep_passes (_TOOLS_POLL_INTERVAL * SECOND) v1) as P. pose proof (sleep_returns (_TOOLS_POLL_INTERVAL * SECOND) v1) as R.
    destruct (sleep _ v1) as [o v2]. cbn in *. subst o. apply (IH deadline v2). lia.
Qed.

Lemma wait_for_tools_ends target vm timeout more v :
  tools_polls (S (Z.to_nat timeout) + more) target vm timeout (utcnow v + timeout * SECOND) v = wait_for_tools target vm timeout v.
Proof. apply tools_polls_enough. unfold _TOOLS_POLL_INTERVAL, SECOND. lia. Qed.

End ToolsWait.

(** The wait that returns has just seen Tools running and guest operations ready. *)
Lemma wait_for_tools_ready target vm timeout v v' :
  wait_for_tools target vm timeout v = (Ok tt, v') ->
  exists w i, get_vm_info_by_id target vm w = (Ok (Some i), v') /\ tools_ready (Some i) = true.
Proof.
  unfold wait_for_tools. generalize (utcnow v + timeout * SECOND) as deadline. intros deadline. revert v.
  induction (S (Z.to_nat timeout)) as [|n IH]; intros v; cbn [tools_polls]; [done|]. destruct (utcnow v <? deadline); [|done].
  unfold obind. destruct (get_vm_info_by_id target vm v) as [[info|f] v1] eqn:E; [|done]. destruct (tools_ready info) eqn:R.
  - intros [= <-]. destruct info as [i|]; [|done]. by exists v, i.
  - pose proof (sleep_returns (_TOOLS_POLL_INTERVAL * SECOND) v1) as S. destruct (sleep _ v1) as [o v2]. cbn in S. subst o. apply IH.
Qed.

End Facts.
