(* ===== verification/MockVSphere.v ===== *)
(** * The simulated estate

    [app/services/vmware/mock.py] ([INFRASTRUCTURE_MODE=mock]): the in-memory
    vCenter estates, with the state of the simulated guests of
    [app/services/guest/mock.py] beside them, and the operations of
    [MockVMwareService].  [mock_vmware] makes them an instance of
    [VMwareService].

    Latencies advance the clock.  A dictionary is an association list in
    insertion order.  Sizes are whole gigabytes; the display-only load and
    capacity figures are left out. *)

From Stdlib Require Import ZArith Lia Ascii String List Bool.
From stdpp Require Import base tactics list strings gmap.
From S2P Require Import Prelude PyStr Errors Schemas Effects World VCenter VSphere.

Local Open Scope string_scope.
Local Open Scope Z_scope.

Definition _LATENCY_DISCOVERY : Z := 150000.
Definition _LATENCY_CREATE : Z := 4 * SECOND.
Definition _LATENCY_RECONFIG : Z := SECOND.
Definition _LATENCY_POWER_ON : Z := 1500000.
Definition _TOOLS_READY_DELAY_SECONDS : Z := 3 * SECOND.

(** ** Dictionaries *)

Fixpoint dict_get {A} (k : string) (d : list (string * A)) : option A :=
  match d with
  | [] => None
  | (x, v) :: r => if String.eqb x k then Some v else dict_get k r
  end.

(** [d[k] = v]: a known key keeps its place. *)
Fixpoint dict_set {A} (k : string) (v : A) (d : list (string * A)) : list (string * A) :=
  match d with
  | [] => [(k, v)]
  | (x, w) :: r => if String.eqb x k then (x, v) :: r else (x, w) :: dict_set k v r
  end.

Definition values {A} (d : list (string * A)) : list A := List.map snd d.

(** ** The estate *)

Record MockHost := MkMockHost { mh_id : string; mh_name : string; mh_maintenance : bool; mh_state : string }.

Record MockCluster := MkMockCluster { mc_name : string; mc_dc : string; mc_drs : bool; mc_hosts : list string }.

Record MockDatastore := MkMockDatastore {
  md_id : string;
  md_name : string;
  md_free_gb : Z;
  md_accessible : bool;
  md_datastore_cluster_id : option string;
}.

#[export] Instance eta_mock_datastore : Eta MockDatastore := fun d =>
  MkMockDatastore (md_id d) (md_name d) (md_free_gb d) (md_accessible d) (md_datastore_cluster_id d).

Record MockVM := MkMockVM {
  mv_id : string;
  mv_name : string;
  mv_power_state : string;
  mv_tools_status : option string;
  mv_tools_running : option string;
  mv_tools_version : option string;
  mv_guest_ready : bool;
  mv_guest_family : option string;
  mv_has_guest_os : bool;
  mv_ip_address : option string;
  mv_hostname : option string;
  mv_network_id : option string;
  mv_cpu : Z;
  mv_memory_mb : Z;
  mv_disks_gb : list Z;
  mv_powered_on_at : option Z;
  mv_answer_media : list string;
  mv_installation_media : list string;
  mv_screenshots : Z;
  mv_datastore_id : option string;
  mv_owner_job_id : option string;
  mv_keystrokes : list Z;
}.

#[export] Instance eta_mock_vm : Eta MockVM := fun v =>
  MkMockVM (mv_id v) (mv_name v) (mv_power_state v) (mv_tools_status v) (mv_tools_running v) (mv_tools_version v)
    (mv_guest_ready v) (mv_guest_family v) (mv_has_guest_os v) (mv_ip_address v) (mv_hostname v) (mv_network_id v)
    (mv_cpu v) (mv_memory_mb v) (mv_disks_gb v) (mv_powered_on_at v) (mv_answer_media v) (mv_installation_media v)
    (mv_screenshots v) (mv_datastore_id v) (mv_owner_job_id v) (mv_keystrokes v).

(** [_MockVM(id_, name, installed=...)] *)
Definition _MockVM (id name : string) (installed : bool) : MockVM :=
  MkMockVM id name "poweredOff" None None None false None installed None None None 2 4096 [] None [] [] 0 None None [].

(** An ISO image with its datacenter. *)
Record MockIso := MkMockIso { mi_image : IsoImageOut; mi_datacenter_id : string }.

Record MockInventory := MkMockInventory {
  mk_datacenters : list (string * string);
  mk_clusters : list (string * MockCluster);
  mk_hosts : list (string * MockHost);
  mk_resource_pools : list (string * (string * string));
  mk_datastores : list (string * MockDatastore);
  mk_cluster_datastores : list (string * list string);
  mk_datastore_clusters : list (string * (string * (Z * Z)));
  mk_networks : list (string * NetworkOut);
  mk_network_datacenters : list (string * string);
  mk_isos : list (string * MockIso);
  mk_iso_labels : list (string * string);
  mk_vms : list (string * MockVM);
  mk_reserved_ips : list (string * string);
}.

#[export] Instance eta_mock_inventory : Eta MockInventory := fun i =>
  MkMockInventory (mk_datacenters i) (mk_clusters i) (mk_hosts i) (mk_resource_pools i) (mk_datastores i)
    (mk_cluster_datastores i) (mk_datastore_clusters i) (mk_networks i) (mk_network_datacenters i) (mk_isos i) (mk_iso_labels i) (mk_vms i)
    (mk_reserved_ips i).

Definition iso_entry (id name dc ds_id_ ds_name_ : string) : string * MockIso :=
  (id, MkMockIso (MkIso id name ds_id_ ("[" ++ ds_name_ ++ "] ISO/" ++ name) ds_name_) dc).

Definition existing_vm (id name ip : string) : string * MockVM :=
  (upper name, (_MockVM id name true) <| mv_power_state := "poweredOn" |> <| mv_tools_status := Some "toolsOk" |>
                 <| mv_ip_address := Some ip |> <| mv_hostname := Some (lower name) |>).

(** [_MockInventory()] *)
Definition _MockInventory : MockInventory := {|
  mk_datacenters := [("datacenter-21", "DC01-Corporate"); ("datacenter-22", "DC02-Lab")];
  mk_clusters := [("domain-c7", MkMockCluster "PROD-CLUSTER" "datacenter-21" true ["host-11"; "host-12"; "host-13"]);
                  ("domain-c8", MkMockCluster "EDGE-CLUSTER" "datacenter-21" false ["host-14"]);
                  ("domain-c9", MkMockCluster "LAB-CLUSTER" "datacenter-22" true ["host-15"])];
  mk_hosts := [("host-11", MkMockHost "host-11" "esx01.company.local" false "connected");
               ("host-12", MkMockHost "host-12" "esx02.company.local" false "connected");
               ("host-13", MkMockHost "host-13" "esx03.company.local" true "connected");
               ("host-14", MkMockHost "host-14" "esx04.company.local" false "connected");
               ("host-15", MkMockHost "host-15" "lab-esx01.company.local" false "connected")];
  mk_resource_pools := [("resgroup-31", ("Resources", "domain-c7")); ("resgroup-32", ("PROD-HIGH", "domain-c7"));
                        ("resgroup-33", ("PROD-STANDARD", "domain-c7")); ("resgroup-34", ("Resources", "domain-c8"));
                        ("resgroup-35", ("Resources", "domain-c9"))];
  mk_datastores := [("datastore-41", MkMockDatastore "datastore-41" "PROD-SAN-01" 9216 true (Some "group-p45"));
                    ("datastore-42", MkMockDatastore "datastore-42" "PROD-SAN-02" 3072 true (Some "group-p45"));
                    ("datastore-43", MkMockDatastore "datastore-43" "PROD-VSAN-01" 18432 true None);
                    ("datastore-44", MkMockDatastore "datastore-44" "LAB-SAN-01" 2048 true None);
                    ("datastore-45", MkMockDatastore "datastore-45" "RETIRE-SAN" 256 false None)];
  mk_cluster_datastores := [("domain-c7", ["datastore-41"; "datastore-42"; "datastore-43"; "datastore-45"]);
                            ("domain-c8", ["datastore-43"]); ("domain-c9", ["datastore-44"])];
  mk_datastore_clusters := [("group-p45", ("PROD-SAN-CLUSTER", (307200, 122880)))];
  mk_networks := [("dvportgroup-51", MkNetwork "dvportgroup-51" "VLAN100-PROD" "DISTRIBUTED_PORT_GROUP");
                  ("dvportgroup-52", MkNetwork "dvportgroup-52" "VLAN200-MGMT" "DISTRIBUTED_PORT_GROUP");
                  ("dvportgroup-53", MkNetwork "dvportgroup-53" "VLAN300-DB" "DISTRIBUTED_PORT_GROUP");
                  ("network-54", MkNetwork "network-54" "VLAN400-LAB" "STANDARD_PORT_GROUP")];
  mk_network_datacenters := [("dvportgroup-51", "datacenter-21"); ("dvportgroup-52", "datacenter-21");
                             ("dvportgroup-53", "datacenter-21"); ("network-54", "datacenter-22")];
  mk_isos := [iso_entry "iso-corp-windows-2025" "Windows Server 2025.iso" "datacenter-21" "datastore-41" "PROD-SAN-01";
              iso_entry "iso-corp-windows-2022" "Windows Server 2022.iso" "datacenter-21" "datastore-42" "PROD-SAN-02";
              iso_entry "iso-corp-windows-11" "Windows 11 24H2.iso" "datacenter-21" "datastore-41" "PROD-SAN-01";
              iso_entry "iso-lab-windows-2022" "Windows Server 2022.iso" "datacenter-22" "datastore-44" "LAB-SAN-01";
              ("iso-lab-ubuntu-2404",
               MkMockIso (MkIso "iso-lab-ubuntu-2404" "Ubuntu Server 24.04 LTS.iso" "datastore-44"
                            "[LAB-SAN-01] ISO/ubuntu-24.04-live-server-amd64.iso" "LAB-SAN-01") "datacenter-22")];
  mk_iso_labels := [("[PROD-SAN-01] ISO/Windows Server 2025.iso", "SSS_X64FREE_EN-US_DV9");
                    ("[PROD-SAN-02] ISO/Windows Server 2022.iso", "SSS_X64FREE_EN-US_DV9");
                    ("[PROD-SAN-01] ISO/Windows 11 24H2.iso", "CCCOMA_X64FRE_EN-US_DV9");
                    ("[LAB-SAN-01] ISO/Windows Server 2022.iso", "SSS_X64FREE_EN-US_DV9");
                    ("[LAB-SAN-01] ISO/ubuntu-24.04-live-server-amd64.iso", "Ubuntu-Server 24.04 LTS amd64")];
  mk_vms := [existing_vm "vm-70" "APP-PROD-004" "10.20.30.10"; existing_vm "vm-71" "SQL-TEST-002" "10.20.30.11"];
  mk_reserved_ips := [("10.20.30.1", "VLAN100 gateway"); ("10.20.30.2", "core-sw-01"); ("10.20.30.3", "core-sw-02");
                      ("10.20.30.10", "APP-PROD-004"); ("10.20.30.11", "SQL-TEST-002")];
|}.

Definition find_vm_by_name (name : string) (inv : MockInventory) : option MockVM := dict_get (upper name) (mk_vms inv).

(** ** The simulated guests ([_MockGuestState]) *)

Record DataVolume := MkVolume { dv_number : Z; dv_size_gb : Z; dv_letter : string; dv_label : string; dv_filesystem : string }.

Record MockGuest := MkMockGuest {
  cert_thumbprints : list string;
  executed_commands : list string;
  gs_hostname : option string;
  pending_hostname : option string;
  gs_domain : string;
  pending_domain : option string;
  part_of_domain : bool;
  gs_ip_address : option string;
  reboot_pending : bool;
  boot_count : Z;
  installation_type : string;
  data_volumes : list DataVolume;
  gs_files : gmap string string;
  last_secret_names : list string;
}.

#[export] Instance eta_mock_guest : Eta MockGuest := fun g =>
  MkMockGuest (cert_thumbprints g) (executed_commands g) (gs_hostname g) (pending_hostname g) (gs_domain g)
    (pending_domain g) (part_of_domain g) (gs_ip_address g) (reboot_pending g) (boot_count g) (installation_type g)
    (data_volumes g) (gs_files g) (last_secret_names g).

Definition _MockGuestState : MockGuest := MkMockGuest [] [] None None "WORKGROUP" None false None false 0 "Server" [] ∅ [].

(** ** The process *)

(** Clock, identifiers drawn, [_MOCK_ESTATES] and [_MOCK_GUESTS]. *)
Record Mock := MkMock {
  mock_clock : Z;
  mock_drawn : Z;
  _MOCK_ESTATES : gmap string MockInventory;
  _MOCK_GUESTS : gmap string MockGuest;
}.

#[export] Instance eta_mock : Eta Mock := fun m => MkMock (mock_clock m) (mock_drawn m) (_MOCK_ESTATES m) (_MOCK_GUESTS m).

(** An estate that is not there yet is a new one. *)
Definition _estate (vcenter_id : string) (m : Mock) : MockInventory := default _MockInventory (_MOCK_ESTATES m !! vcenter_id).
Definition put_estate (vcenter_id : string) (inv : MockInventory) (m : Mock) : Mock :=
  m <| _MOCK_ESTATES := <[vcenter_id := inv]> (_MOCK_ESTATES m) |>.

Definition mock_sleep (n : Z) : Op Mock unit := fun m => (Ok tt, m <| mock_clock := mock_clock m + n |>).
Definition reading {A} (f : Mock -> A) : Op Mock A := fun m => (Ok (f m), m).

(** A different text for every draw; its first eight characters too. *)
Definition hex_of (n : Z) : string := last_str 8 ("00000000" ++ str_int n) ++ "000000000000000000000000".
Definition draw_hex : Op Mock string := fun m => (Ok (hex_of (mock_drawn m)), m <| mock_drawn := mock_drawn m + 1 |>).

Section Service.
Context (target : VCenterTarget).

Definition estate : Op Mock MockInventory := reading (_estate (target_id target)).
Definition save (inv : MockInventory) : Op Mock unit := fun m => (Ok tt, put_estate (target_id target) inv m).

(** [_require_vm] and the key it is stored under. *)
Definition entry_by_id (id : string) (inv : MockInventory) : option (string * MockVM) :=
  find_first (fun e => String.eqb (mv_id (snd e)) id) (mk_vms inv).

Definition _require_vm (vm_id : string) : Op Mock (string * MockVM) :=
  let! inv := estate in
  match entry_by_id vm_id inv with
  | Some e => oret e
  | None => othrow (OtherFault "ServiceUnavailableError"
                      ("Mock VM " ++ SQ ++ vm_id ++ SQ ++ " is not registered in the simulated estate."))
  end.

(** Changes of the object [_require_vm] returns. *)
Definition change_vm (vm_id : string) (f : MockVM -> MockVM) : Op Mock unit :=
  let! e := _require_vm vm_id in
  let! inv := estate in
  save (inv <| mk_vms := dict_set (fst e) (f (snd e)) (mk_vms inv) |>).

(** ** Discovery *)

Definition need_mock_datacenter (id : string) (inv : MockInventory) : Op Mock unit :=
  match dict_get id (mk_datacenters inv) with
  | Some _ => oret tt
  | None => othrow (NotFound ("Datacenter " ++ SQ ++ id ++ SQ ++ " does not exist."))
  end.

Definition need_mock_cluster (id : string) (inv : MockInventory) : Op Mock MockCluster :=
  match dict_get id (mk_clusters inv) with
  | Some c => oret c
  | None => othrow (NotFound ("Cluster " ++ SQ ++ id ++ SQ ++ " does not exist."))
  end.

Definition test_connection : Op Mock ConnectionTestResult :=
  mock_sleep _LATENCY_DISCOVERY >>! oret (MkConn true (Some 12) "Mock vCenter session established.").

Definition get_datacenters : Op Mock (list DatacenterOut) :=
  mock_sleep _LATENCY_DISCOVERY >>!
  let! inv := estate in oret (List.map (fun e => MkDatacenter (fst e) (snd e)) (mk_datacenters inv)).

Definition get_clusters (datacenter_id : string) : Op Mock (list ClusterOut) :=
  mock_sleep _LATENCY_DISCOVERY >>!
  let! inv := estate in
  need_mock_datacenter datacenter_id inv >>!
  oret (List.map (fun e => MkCluster (fst e) (mc_name (snd e)) (mc_drs (snd e)) (Z.of_nat (List.length (mc_hosts (snd e)))))
          (List.filter (fun e => String.eqb (mc_dc (snd e)) datacenter_id) (mk_clusters inv))).

Definition host_out (h : MockHost) : HostOut :=
  MkHost (mh_id h) (mh_name h) (mh_state h) (mh_maintenance h) (String.eqb (mh_state h) "connected" && negb (mh_maintenance h)).

(** A host the table does not have is a [KeyError]. *)
Fixpoint hosts_out (ids : list string) (inv : MockInventory) : Op Mock (list HostOut) :=
  match ids with
  | [] => oret []
  | id :: rest =>
      match dict_get id (mk_hosts inv) with
      | None => othrow (OtherFault "KeyError" id)
      | Some h => let! l := hosts_out rest inv in oret (host_out h :: l)
      end
  end.

Definition get_hosts (cluster_id : string) : Op Mock (list HostOut) :=
  mock_sleep _LATENCY_DISCOVERY >>!
  let! inv := estate in
  let! c := need_mock_cluster cluster_id inv in hosts_out (mc_hosts c) inv.

Definition get_resource_pools (cluster_id : string) : Op Mock (list ResourcePoolOut) :=
  mock_sleep _LATENCY_DISCOVERY >>!
  let! inv := estate in
  let! _ := need_mock_cluster cluster_id inv in
  oret (List.map (fun e => MkPool (fst e) (fst (snd e)))
          (List.filter (fun e => String.eqb (snd (snd e)) cluster_id) (mk_resource_pools inv))).

Definition allowed_datastores (cluster_id : string) (inv : MockInventory) : list string :=
  default [] (dict_get cluster_id (mk_cluster_datastores inv)).

Definition get_datastores (cluster_id : string) : Op Mock (list DatastoreOut) :=
  mock_sleep _LATENCY_DISCOVERY >>!
  let! inv := estate in
  let! _ := need_mock_cluster cluster_id inv in
  oret (List.map (fun d => MkDatastore (md_id d) (md_name d) (md_free_gb d * TENTH) (md_accessible d))
          (List.filter (fun d => bool_decide (md_id d ∈ allowed_datastores cluster_id inv)) (values (mk_datastores inv)))).

(** Capacity and free space in tenths. *)
Definition get_datastore_clusters (cluster_id : string) : Op Mock (list DatastoreClusterOut) :=
  mock_sleep _LATENCY_DISCOVERY >>!
  let! inv := estate in
  let! _ := need_mock_cluster cluster_id inv in
  let visible_clusters := List.map md_datastore_cluster_id
                            (omap (fun id => dict_get id (mk_datastores inv)) (allowed_datastores cluster_id inv)) in
  oret (List.map (fun e => MkDatastoreCluster (fst e) (fst (snd e)) (fst (snd (snd e))) (snd (snd (snd e))))
          (List.filter (fun e => bool_decide (Some (fst e) ∈ visible_clusters)) (mk_datastore_clusters inv))).

Definition get_networks (datacenter_id : string) : Op Mock (list NetworkOut) :=
  mock_sleep _LATENCY_DISCOVERY >>!
  let! inv := estate in
  need_mock_datacenter datacenter_id inv >>!
  oret (sort_by net_name
          (values (List.filter (fun e => bool_decide (dict_get (fst e) (mk_network_datacenters inv) = Some datacenter_id))
                     (mk_networks inv)))).

Definition get_isos (datacenter_id : string) : Op Mock (list IsoImageOut) :=
  mock_sleep _LATENCY_DISCOVERY >>!
  let! inv := estate in
  need_mock_datacenter datacenter_id inv >>!
  oret (sort_by iso_name
          (List.map mi_image (List.filter (fun i => String.eqb (mi_datacenter_id i) datacenter_id) (values (mk_isos inv))))).

(** A system area, and a primary volume descriptor with the label. *)
Definition ljust (n : nat) (l : list ascii) : list ascii := (l ++ List.repeat " "%char (n - List.length l))%list.
Definition mock_iso_header (volume_label : string) : list ascii :=
  (List.repeat "000"%char 32768 ++ "001"%char :: chars "CD001" ++ "001"%char :: List.repeat "000"%char 33
   ++ ljust 32 (chars volume_label) ++ List.repeat "000"%char 1976)%list.

Definition PNG_MAGIC : list ascii := char_of 137 :: chars "PNG" ++ [char_of 13; char_of 10; char_of 26; char_of 10].

Definition read_datastore_file (datacenter_id path : string) (max_bytes : Z) : Op Mock (list ascii) :=
  mock_sleep _LATENCY_DISCOVERY >>!
  let! inv := estate in
  need_mock_datacenter datacenter_id inv >>!
  match dict_get path (mk_iso_labels inv) with
  | Some label => oret (firstn (Z.to_nat max_bytes) (mock_iso_header label))
  | None =>
      if endswith (lower path) ".png" then oret (firstn (Z.to_nat max_bytes) PNG_MAGIC)
      else othrow (InfraFail (SQ ++ path ++ SQ ++ " was not found on its datastore.") "The file was moved or deleted."
                     "Refresh the inventory and select the file again." "" false)
  end.

(** ** Inventory queries *)

Definition vm_exists (vm_name : string) : Op Mock bool :=
  mock_sleep _LATENCY_DISCOVERY >>!
  let! inv := estate in oret (match find_vm_by_name vm_name inv with Some _ => true | None => false end).

(** Setup "finishes" a few seconds after power-on when the answer media is attached. *)
Definition _advance_installation (now : Z) (vm : MockVM) : MockVM * bool :=
  let installing := match mv_answer_media vm, mv_installation_media vm with _ :: _, _ :: _ => true | _, _ => false end in
  let vm' :=
    match mv_powered_on_at vm with
    | Some t =>
        if (mv_has_guest_os vm || installing) && (_TOOLS_READY_DELAY_SECONDS <=? now - t) && negb (mv_guest_ready vm) then
          vm <| mv_has_guest_os := true |> <| mv_guest_family := Some "windowsGuest" |>
             <| mv_tools_status := Some "toolsOk" |> <| mv_tools_running := Some "guestToolsRunning" |>
             <| mv_tools_version := Some "guestToolsCurrent" |> <| mv_guest_ready := true |>
        else vm
    | None => vm
    end in
  (vm', mv_guest_ready vm').

Definition text_or {A} (s : option string) (f : string -> A) (d : A) : A :=
  match s with Some "" | None => d | Some t => f t end.

Definition _info (vm : MockVM) (tools_ready : bool) : PowerStateInfo :=
  MkInfo (mv_power_state vm) (mv_tools_status vm) (mv_tools_running vm) (mv_tools_version vm) (mv_guest_ready vm)
    (mv_guest_family vm) (text_or (mv_ip_address vm) (fun a => [a]) [])
    (text_or (mv_hostname vm) Some (if mv_guest_ready vm then Some (upper (mv_name vm)) else None))
    (Some (if String.eqb (mv_power_state vm) "poweredOn" then if tools_ready then 120 else 1800 else 0))
    (Some (mv_cpu vm * 2400)).

Definition info_of (e : option (string * MockVM)) : Op Mock (option PowerStateInfo) := fun m =>
  match e with
  | None => (Ok None, m)
  | Some (key, vm) =>
      let '(vm', ready) := _advance_installation (mock_clock m) vm in
      let inv := _estate (target_id target) m in
      (Ok (Some (_info vm' ready)), put_estate (target_id target) (inv <| mk_vms := dict_set key vm' (mk_vms inv) |>) m)
  end.

Definition get_vm_info (vm_name : string) : Op Mock (option PowerStateInfo) :=
  mock_sleep _LATENCY_DISCOVERY >>!
  let! inv := estate in info_of (option_map (pair (upper vm_name)) (find_vm_by_name vm_name inv)).

Definition get_vm_info_by_id (vm_id : string) : Op Mock (option PowerStateInfo) :=
  mock_sleep _LATENCY_DISCOVERY >>! let! inv := estate in info_of (entry_by_id vm_id inv).

Definition get_used_ips : Op Mock (list (string * string)) :=
  mock_sleep _LATENCY_DISCOVERY >>!
  let! inv := estate in
  oret (fold_left (fun used vm => text_or (mv_ip_address vm) (fun a => dict_set a (mv_name vm) used) used)
          (values (mk_vms inv)) (mk_reserved_ips inv)).

Definition resolve_vm_id (vm_name : string) : Op Mock (option string) :=
  mock_sleep _LATENCY_DISCOVERY >>! let! inv := estate in oret (option_map mv_id (find_vm_by_name vm_name inv)).

Definition find_vm_ownership (vm_name : string) : Op Mock (option VmOwnership) :=
  mock_sleep _LATENCY_DISCOVERY >>!
  let! inv := estate in
  oret (option_map (fun v => MkOwnership (mv_id v) (mv_name v) (mv_owner_job_id v)) (find_vm_by_name vm_name inv)).

Definition tag_vm_owner (vm_id job_id : string) : Op Mock unit :=
  let! e := _require_vm vm_id in
  match mv_owner_job_id (snd e) with
  | Some owner =>
      if negb (String.eqb owner job_id) then
        othrow (InfraFail ("VM " ++ SQ ++ mv_name (snd e) ++ SQ ++ " belongs to another InfraOps job.")
                  "Ownership marker mismatch." "Choose a different VM name." "" false)
      else oret tt
  | None => change_vm vm_id (fun v => v <| mv_owner_job_id := Some job_id |>)
  end.

(** ** Lifecycle operations *)

Definition refuse {A} (condition : bool) (human why action : string) (k : Op Mock A) : Op Mock A :=
  if condition then othrow (InfraFail human why action "" false) else k.

(** [max(l, key=...)]: the first of the largest. *)
Fixpoint largest (best : MockDatastore) (l : list MockDatastore) : MockDatastore :=
  match l with
  | [] => best
  | d :: r => largest (if md_free_gb best <? md_free_gb d then d else best) r
  end.

Definition candidates (spec : VmCreateSpec) (inv : MockInventory) : list MockDatastore :=
  let fitting := List.filter (fun d => bool_decide (md_id d ∈ allowed_datastores (cs_cluster_id spec) inv) && md_accessible d
                                       && (size_gb (cs_os_disk spec) <=? md_free_gb d)) (values (mk_datastores inv)) in
  text_or (cs_datastore_id spec) (fun id => List.filter (fun d => String.eqb (md_id d) id) fitting) fitting.

(** The image, when the cluster can read it. *)
Definition usable_iso (spec : VmCreateSpec) (inv : MockInventory) : option IsoImageOut :=
  match dict_get (cs_iso_id spec) (mk_isos inv) with
  | None => None
  | Some i =>
      let ds := iso_datastore_id (mi_image i) in
      if String.eqb (mi_datacenter_id i) (cs_datacenter_id spec)
         && bool_decide (ds ∈ allowed_datastores (cs_cluster_id spec) inv)
         && match dict_get ds (mk_datastores inv) with Some d => md_accessible d | None => false end
      then Some (mi_image i) else None
  end.

Definition TOOLS_ISO : string := "[] /vmimages/tools-isoimages/windows.iso".

(** The changes of a creation that passed its checks; the estate is read again
    after the latency. *)
Definition place_vm (spec : VmCreateSpec) (datastore : MockDatastore) (iso : IsoImageOut) : Op Mock VmRef :=
  let required := size_gb (cs_os_disk spec) in
  let! inv := estate in
  save (inv <| mk_datastores := dict_set (md_id datastore) (datastore <| md_free_gb := md_free_gb datastore - required |>)
                                  (mk_datastores inv) |>) >>!
  mock_sleep _LATENCY_CREATE >>!
  let! hex := draw_hex in
  let vm_id := "vm-" ++ take_str 8 hex in
  let! inv := estate in
  let vm := (_MockVM vm_id (cs_vm_name spec) false) <| mv_cpu := cs_cpu spec |> <| mv_memory_mb := cs_memory_mb spec |>
              <| mv_disks_gb := [required] |> <| mv_datastore_id := Some (md_id datastore) |>
              <| mv_installation_media := [iso_path iso; TOOLS_ISO] |> <| mv_owner_job_id := cs_job_id spec |> in
  save (inv <| mk_vms := dict_set (upper (cs_vm_name spec)) vm (mk_vms inv) |>) >>!
  oret (MkVmRef vm_id (cs_vm_name spec)).

Definition create_vm (spec : VmCreateSpec) : Op Mock VmRef :=
  let! inv := estate in
  let cluster := dict_get (cs_cluster_id spec) (mk_clusters inv) in
  refuse (match cluster with Some c => negb (String.eqb (mc_dc c) (cs_datacenter_id spec)) | None => true end)
    ("Cluster " ++ SQ ++ cs_cluster_id spec ++ SQ ++ " is not available in the selected datacenter.")
    "The placement inventory changed after validation." "Re-open the wizard and select the infrastructure again."
  (refuse (text_or (cs_host_id spec) (fun h => negb (bool_decide (h ∈ default [] (option_map mc_hosts cluster)))) false)
    ("Host " ++ SQ ++ default "" (cs_host_id spec) ++ SQ ++ " does not belong to cluster " ++ SQ ++ cs_cluster_id spec ++ SQ ++ ".")
    "The requested host and cluster do not match." "Select a host from the chosen cluster."
  (refuse (text_or (cs_resource_pool_id spec)
             (fun p => match dict_get p (mk_resource_pools inv) with
                       | Some e => negb (String.eqb (snd e) (cs_cluster_id spec)) | None => true end) false)
    ("Resource pool " ++ SQ ++ default "" (cs_resource_pool_id spec) ++ SQ ++ " was not found in the cluster.")
    "Resource pool removed or moved after validation." "Re-select the placement target and retry."
  (refuse (match find_vm_by_name (cs_vm_name spec) inv with Some _ => true | None => false end)
    ("A virtual machine named " ++ SQ ++ cs_vm_name spec ++ SQ ++ " already exists.")
    "Duplicate VM name in the vCenter inventory." "Choose a different VM name and resubmit the request."
  (match candidates spec inv with
   | [] => othrow (InfraFail "No selected datastore has enough accessible capacity for the VM."
                     ("The OS disk requires approximately " ++ str_int (size_gb (cs_os_disk spec)) ++ " GB.")
                     "Select another datastore or reduce the requested disk capacity." "" false)
   | d :: rest =>
       match usable_iso spec inv with
       | None => othrow (InfraFail "The selected ISO is not available to the target compute cluster."
                           "The ISO belongs to another datacenter or an inaccessible datastore."
                           "Refresh the ISO inventory and select another image." "" false)
       | Some iso => place_vm spec (largest d rest) iso
       end
   end)))).

Definition configure_hardware (vm_id : string) (cpu_ memory : Z) : Op Mock unit :=
  mock_sleep _LATENCY_RECONFIG >>! change_vm vm_id (fun v => v <| mv_cpu := cpu_ |> <| mv_memory_mb := memory |>).

Definition attach_network (vm_id network_id_ datacenter_id : string) : Op Mock unit :=
  mock_sleep _LATENCY_RECONFIG >>!
  let! inv := estate in
  let! _ := _require_vm vm_id in
  match dict_get network_id_ (mk_networks inv) with
  | None => othrow (InfraFail ("Network " ++ SQ ++ network_id_ ++ SQ ++ " no longer exists on " ++ target_host target ++ ".")
                      "Port group removed or renamed." "Select a valid port group and retry the network stage." "" true)
  | Some _ =>
      refuse (match dict_get datacenter_id (mk_datacenters inv) with Some _ => false | None => true end)
        "The selected datacenter no longer exists." "The placement inventory changed after validation."
        "Refresh the infrastructure inventory and retry."
      (refuse (negb (bool_decide (dict_get network_id_ (mk_network_datacenters inv) = Some datacenter_id)))
        "The selected network belongs to another datacenter."
        "Network scope changed or the request contains a stale selection." "Select a network from the target datacenter."
      (change_vm vm_id (fun v => v <| mv_network_id := Some network_id_ |>)))
  end.

Definition attach_answer_media (vm_id file_name : string) (content : list ascii) : Op Mock string :=
  mock_sleep _LATENCY_RECONFIG >>!
  let! _ := _require_vm vm_id in
  match content with
  | [] => othrow (InfraFail "The generated answer media was empty." "No answer-file content was supplied."
                    "Retry the unattended installation preparation stage." "" true)
  | _ =>
      let path := "[mock-datastore] infraops-unattend/" ++ file_name in
      change_vm vm_id (fun v => v <| mv_answer_media :=
                         if bool_decide (path ∈ mv_answer_media v) then mv_answer_media v else path :: mv_answer_media v |>) >>!
      oret path
  end.

Definition remove_answer_media (vm_id path : string) : Op Mock unit :=
  change_vm vm_id (fun v => v <| mv_answer_media := List.filter (fun p => negb (String.eqb p path)) (mv_answer_media v) |>).

Definition power_on (vm_id : string) : Op Mock unit :=
  mock_sleep _LATENCY_POWER_ON >>!
  let! e := _require_vm vm_id in
  if String.eqb (mv_power_state (snd e)) "poweredOn" then
    othrow (InfraFail ("VM " ++ SQ ++ mv_name (snd e) ++ SQ ++ " is already powered on.")
              "The VM was powered on outside this stage." "Reset the VM or retry the stage." "" true)
  else
    let! now := reading mock_clock in
    change_vm vm_id (fun v => v <| mv_power_state := "poweredOn" |> <| mv_powered_on_at := Some now |>).

Definition reset (vm_id : string) : Op Mock unit :=
  let! now := reading mock_clock in change_vm vm_id (fun v => v <| mv_powered_on_at := Some now |>).

Definition send_keystrokes (vm_id : string) (usages : list Z) : Op Mock Z :=
  change_vm vm_id (fun v => v <| mv_keystrokes := (mv_keystrokes v ++ usages)%list |>) >>!
  oret (Z.of_nat (List.length usages)).

Definition detach_installation_media (vm_id : string) : Op Mock (list string) :=
  mock_sleep _LATENCY_RECONFIG >>!
  let! e := _require_vm vm_id in
  change_vm vm_id (fun v => v <| mv_installation_media := [] |>) >>! oret (mv_installation_media (snd e)).

Definition total_size (disks_ : list DiskSpec) : Z := fold_right (fun d n => size_gb d + n) 0 disks_.

Definition charge_datastore (id : string) (required : Z) : Op Mock unit :=
  let! inv := estate in
  match dict_get id (mk_datastores inv) with
  | None => oret tt
  | Some d =>
      if md_free_gb d <? required then
        othrow (InfraFail ("Datastore " ++ SQ ++ md_name d ++ SQ ++ " has only " ++ str_int (md_free_gb d) ++ " GB free "
                             ++ "but the data disks need " ++ str_int required ++ " GB.")
                  "Insufficient datastore capacity." "Free space on the datastore, then retry this stage." "" true)
      else save (inv <| mk_datastores := dict_set id (d <| md_free_gb := md_free_gb d - required |>) (mk_datastores inv) |>)
  end.

Definition add_data_disks (vm_id : string) (disks_ : list DiskSpec) : Op Mock Z :=
  mock_sleep _LATENCY_RECONFIG >>!
  let! e := _require_vm vm_id in
  let missing := skipn (pred (List.length (mv_disks_gb (snd e)))) disks_ in
  charge_datastore (default "" (mv_datastore_id (snd e))) (total_size missing) >>!
  change_vm vm_id (fun v => v <| mv_disks_gb := (mv_disks_gb v ++ List.map size_gb missing)%list |>) >>!
  oret (Z.of_nat (List.length missing)).

Definition check_host_https (names : list string) : Op Mock (list (string * option string)) :=
  oret (fold_left (fun d n => dict_set n None d) names []).

Definition capture_screenshot (vm_id : string) : Op Mock string :=
  change_vm vm_id (fun v => v <| mv_screenshots := mv_screenshots v + 1 |>) >>!
  let! e := _require_vm vm_id in
  oret ("[mock-datastore] " ++ mv_name (snd e) ++ "/" ++ mv_name (snd e) ++ "-" ++ str_int (mv_screenshots (snd e)) ++ ".png").

(** *** Waiting for VMware Tools *)

Definition TOOLS_WAIT : Z := 250000.

(** [_advance_installation] on the object itself. *)
Definition advance (vm_id : string) : Op Mock bool :=
  let! e := _require_vm vm_id in
  let! now := reading mock_clock in
  let '(vm', ready) := _advance_installation now (snd e) in
  change_vm vm_id (fun _ => vm') >>! oret ready.

Definition mock_tools_timeout (vm_name : string) (timeout_seconds : Z) : Fault :=
  InfraFail ("VMware Tools did not become ready on " ++ SQ ++ vm_name ++ SQ ++ " within the configured timeout.")
    ("Tools heartbeat absent after " ++ str_int timeout_seconds ++ " seconds.")
    ("Open the console screenshot attached to this step to see where the guest " ++ "stopped, then retry the failed stage.")
    ("mock: tools_ready_delay=" ++ str_int (_TOOLS_READY_DELAY_SECONDS / SECOND) ++ ".0s timeout=" ++ str_int timeout_seconds ++ "s") true.

(** The time limit is a whole number of seconds; polls left. *)
Fixpoint mock_tools_polls (polls : nat) (vm_id vm_name : string) (timeout_seconds deadline : Z) : Op Mock unit :=
  match polls with
  | O => othrow (mock_tools_timeout vm_name timeout_seconds)
  | S n =>
      let! ready := advance vm_id in
      if ready then oret tt
      else
        let! now := reading mock_clock in
        if deadline <=? now then othrow (mock_tools_timeout vm_name timeout_seconds)
        else mock_sleep TOOLS_WAIT >>! mock_tools_polls n vm_id vm_name timeout_seconds deadline
  end.

(** Looking at the machine takes no time. *)
Lemma advance_clock vm_id m : mock_clock (snd (advance vm_id m)) = mock_clock m.
Proof.
  unfold advance, change_vm, _require_vm, estate, reading, save, obind. destruct (entry_by_id vm_id _) as [e|]; [|done]. cbn [oret].
  destruct (_advance_installation _ _) as [vm' ready]. destruct (entry_by_id vm_id _) as [e'|]; done.
Qed.

(** The time limit ends the wait, not the number of polls. *)
Lemma mock_polls_enough vm_id vm_name timeout more : forall polls deadline m,
  deadline - mock_clock m <= Z.of_nat polls * TOOLS_WAIT ->
  mock_tools_polls (S polls + more) vm_id vm_name timeout deadline m = mock_tools_polls (S polls) vm_id vm_name timeout deadline m.
Proof.
  induction polls as [|polls IH]; intros deadline m B; cbn [mock_tools_polls Nat.add]; unfold obind; pose proof (advance_clock vm_id m) as C;
    destruct (advance vm_id m) as [[[]|f] m1]; cbn in C; try done; cbn [reading]; destruct (Z.leb_spec deadline (mock_clock m1)) as [L|L]; try done.
  - cbn in B. lia.
  - cbn [mock_sleep]. apply IH. cbn. lia.
Qed.

Definition wait_for_tools (vm_id : string) (timeout_seconds : Z) : Op Mock unit :=
  let! e := _require_vm vm_id in
  let! now := reading mock_clock in
  mock_tools_polls (S (Z.to_nat (4 * timeout_seconds))) vm_id (mv_name (snd e)) timeout_seconds (now + timeout_seconds * SECOND).

Lemma mock_wait_ends vm_id vm_name timeout more m :
  mock_tools_polls (S (Z.to_nat (4 * timeout)) + more) vm_id vm_name timeout (mock_clock m + timeout * SECOND) m
  = mock_tools_polls (S (Z.to_nat (4 * timeout))) vm_id vm_name timeout (mock_clock m + timeout * SECOND) m.
Proof. apply mock_polls_enough. unfold TOOLS_WAIT, SECOND. lia. Qed.

End Service.

(** [MockVMwareService] *)
#[export] Instance mock_vmware : VMwareService Mock := {
  World.test_connection _ := test_connection;
  World.get_datacenters := get_datacenters;
  World.get_clusters := get_clusters;
  World.get_hosts := get_hosts;
  World.get_resource_pools := get_resource_pools;
  World.get_datastores := get_datastores;
  World.get_datastore_clusters := get_datastore_clusters;
  World.get_networks := get_networks;
  World.get_isos := get_isos;
  World.get_vm_info := get_vm_info;
  World.get_vm_info_by_id := get_vm_info_by_id;
  World.get_used_ips := get_used_ips;
  World.vm_exists := vm_exists;
  World.check_host_https target := check_host_https;
  World.read_datastore_file := read_datastore_file;
  World.find_vm_ownership := find_vm_ownership;
  World.create_vm := create_vm;
  World.configure_hardware := configure_hardware;
  World.attach_network target vm_id network_id_ _ datacenter_id := attach_network target vm_id network_id_ datacenter_id;
  World.attach_answer_media target vm_id _ _ file_name content := attach_answer_media target vm_id file_name content;
  World.remove_answer_media target vm_id _ path := remove_answer_media target vm_id path;
  World.power_on := power_on;
  World.reset := reset;
  World.send_keystrokes := send_keystrokes;
  World.detach_installation_media := detach_installation_media;
  World.add_data_disks := add_data_disks;
  World.capture_screenshot := capture_screenshot;
}.
