(* ===== verification/MockGuest.v ===== *)
(** * The simulated guests

    [MockGuestOperations] ([app/services/guest/mock.py]): programs and scripts
    are recognised by their text and change the state of the guest; files are
    kept by their lower-case path.  The last definition makes it an instance of
    [GuestOperations], with its own [run_powershell].

    The fingerprint of an uploaded certificate is a parameter (X.509). *)

From Stdlib Require Import ZArith Lia Ascii String List Bool.
From stdpp Require Import base tactics list strings gmap.
From S2P Require Import Prelude PyStr Json Errors Schemas Effects World VCenter VSphere MockVSphere.

Local Open Scope string_scope.
Local Open Scope Z_scope.

Definition _LATENCY_PROGRAM : Z := 600000.
Definition _LATENCY_FILE : Z := 200000.

(** ** Patterns *)

(** [re.search(r"([0-9a-f]{40,64})", s)] *)
Fixpoint hex_run (l : list ascii) : list ascii :=
  match l with
  | c :: r => if is_digit c || in_range 97 102 c then c :: hex_run r else []
  | [] => []
  end.

Fixpoint find_thumbprint (l : list ascii) : option (list ascii) :=
  match l with
  | [] => None
  | _ :: r =>
      let run := hex_run l in
      if (40 <=? List.length run)%nat then Some (firstn 64 run) else find_thumbprint r
  end.

Definition thumbprint_in (s : string) : option string := option_map text (find_thumbprint (chars s)).

(** [re.search(key + r"\s+'([^']+)'", s, re.IGNORECASE)]: the text quoted behind the key. *)
Fixpoint until_quote (l : list ascii) : option (list ascii) :=
  match l with
  | [] => None
  | c :: r => if Ascii.eqb c "'" then Some [] else option_map (cons c) (until_quote r)
  end.

Definition quoted_value (l : list ascii) : option string :=
  match l with
  | c :: _ =>
      if is_space c then
        match drop_while is_space l with
        | q :: r => if Ascii.eqb q "'"
                    then match until_quote r with Some (x :: v) => Some (text (x :: v)) | _ => None end
                    else None
        | [] => None
        end
      else None
  | [] => None
  end.

Fixpoint quoted_behind (key l : list ascii) : option string :=
  match l with
  | [] => None
  | _ :: r =>
      match (if starts key (List.map lower_char l) then quoted_value (skipn (List.length key) l) else None) with
      | Some v => Some v
      | None => quoted_behind key r
      end
  end.

Definition argument (key s : string) : option string := quoted_behind (chars key) (chars s).

(** The first text between double quotes that ends in [.cer], whatever its case. *)
Definition is_cer (piece : string) : bool := endswith (lower piece) ".cer" && (5 <=? len piece).
Definition cer_path (s : string) : option string :=
  match split_on (char_of 34) s with
  | _ :: pieces => find_first is_cer (removelast pieces)
  | [] => None
  end.

(** [_SECRET_IN_SCRIPT.sub(r"\1[REDACTED]\2", s)] *)
Fixpoint scrub (fuel : nat) (l : list ascii) : list ascii :=
  match fuel, l with
  | S fuel', c :: r =>
      let key := chars "-AsPlainText" in
      if starts key l then
        let spaces := skipn (List.length key) l in
        match spaces, drop_while is_space spaces with
        | s :: _, q :: rest =>
            if is_space s && Ascii.eqb q "'" then
              match until_quote rest with
              | Some v => (firstn (List.length l - List.length rest) l ++ chars "[REDACTED]'" ++ scrub fuel' (skipn (S (List.length v)) rest))%list
              | None => c :: scrub fuel' r
              end
            else c :: scrub fuel' r
        | _, _ => c :: scrub fuel' r
        end
      else c :: scrub fuel' r
  | _, _ => l
  end.

(** Never retain credential material inside simulated command logs. *)
Definition _scrub_for_log (s : string) : string := text (scrub (String.length s) (chars s)).

(** ** Answers *)

(** [json.dumps(v, separators=(",", ":"))] *)
Fixpoint json_compact (v : json) : string :=
  match v with
  | JArr l => "[" ++ join "," (List.map json_compact l) ++ "]"
  | JObj l => "{" ++ join "," (List.map (fun e => dump_string (fst e) ++ ":" ++ json_compact (snd e)) l) ++ "}"
  | v => json_dumps v
  end.

Definition volume_json (v : DataVolume) : json :=
  JObj [("Number", JNum (dv_number v)); ("SizeGB", JNum (dv_size_gb v)); ("DriveLetter", JStr (dv_letter v));
        ("Label", JStr (dv_label v)); ("FileSystem", JStr (dv_filesystem v))].

(** The volume of the data disk with this number. *)
Definition volume_of (index size : Z) : DataVolume :=
  MkVolume index size (String (ascii_of_nat (68 + Z.to_nat index)) "") ("Data" ++ str_int index) "NTFS".

Fixpoint volumes_from (index : Z) (sizes : list Z) : list DataVolume :=
  match sizes with
  | [] => []
  | s :: r => volume_of index s :: volumes_from (index + 1) r
  end.

Section Guest.
(** [certificate_metadata(...)["fingerprint_sha256"]] of an uploaded file *)
Context (fingerprint_sha256_of : string -> string).
(** [datetime.isoformat] *)
Context (isoformat : Z -> string).
Context (target : VCenterTarget) (vm_name : string).

Definition guest_key : string := upper vm_name.

(** [mock_guest_state]: a guest that is not there yet is a new one. *)
Definition mock_guest_state (m : Mock) : MockGuest := default _MockGuestState (_MOCK_GUESTS m !! guest_key).
Definition put_guest (g : MockGuest) (m : Mock) : Mock := m <| _MOCK_GUESTS := <[guest_key := g]> (_MOCK_GUESTS m) |>.

Definition guest : Op Mock MockGuest := reading mock_guest_state.
Definition change_guest (f : MockGuest -> MockGuest) : Op Mock unit := fun m => (Ok tt, put_guest (f (mock_guest_state m)) m).

Definition _data_disk_sizes (m : Mock) : list Z :=
  match find_vm_by_name vm_name (_estate (target_id target) m) with Some v => tl (mv_disks_gb v) | None => [] end.

(** The first machine of that name. *)
Fixpoint set_first_ip (name ip : string) (vms_ : list (string * MockVM)) : list (string * MockVM) :=
  match vms_ with
  | [] => []
  | (k, v) :: r =>
      if String.eqb (upper (mv_name v)) (upper name) then (k, v <| mv_ip_address := Some ip |>) :: r
      else (k, v) :: set_first_ip name ip r
  end.

Definition _sync_ip_to_inventory (ip : string) : Op Mock unit := fun m =>
  let inv := _estate (target_id target) m in
  (Ok tt, put_estate (target_id target) (inv <| mk_vms := set_first_ip vm_name ip (mk_vms inv) |>) m).

Definition add_thumbprint (t : string) (g : MockGuest) : MockGuest :=
  g <| cert_thumbprints := if bool_decide (t ∈ cert_thumbprints g) then cert_thumbprints g else t :: cert_thumbprints g |>.

Definition import_certificate (arguments : string) (g : MockGuest) : MockGuest :=
  match thumbprint_in (lower arguments) with
  | Some t => add_thumbprint (upper t) g
  | None =>
      match cer_path arguments with
      | None => g
      | Some path =>
          match gs_files g !! lower path with
          | None | Some "" => g
          | Some content => add_thumbprint (fingerprint_sha256_of content) g
          end
      end
  end.

Definition name_or_vm (name : option string) : string := text_or name (fun n => n) (upper vm_name).

Definition identity_json (g : MockGuest) : json :=
  let active := name_or_vm (gs_hostname g) in
  JObj [("Name", JStr active); ("Domain", JStr (gs_domain g)); ("PartOfDomain", JBool (part_of_domain g));
        ("ActiveName", JStr active); ("PendingName", JStr (text_or (pending_hostname g) (fun n => n) active));
        ("PendingDomainJoin", JBool (match pending_domain g with Some _ => true | None => false end))].

(** A restart applies the pending name and domain. *)
Definition restarted (g : MockGuest) : MockGuest :=
  let g1 := g <| boot_count := boot_count g + 1 |> in
  let g2 := text_or (pending_hostname g1) (fun n => g1 <| gs_hostname := Some n |> <| pending_hostname := None |>) g1 in
  let g3 := text_or (pending_domain g2)
              (fun d => g2 <| gs_domain := d |> <| pending_domain := None |> <| part_of_domain := true |>) g2 in
  g3 <| reboot_pending := false |>.

(** [dt.datetime(2026, 1, 1, tzinfo=dt.UTC)] *)
Definition BOOT_EPOCH : Z := 1767225600 * SECOND.
Definition MINUTE : Z := 60 * SECOND.

Definition say (s : string) : Op Mock string := oret s.

Definition initialize_disks : Op Mock string := fun m =>
  let g := mock_guest_state m in
  let volumes := match data_volumes g with [] => volumes_from 1 (_data_disk_sizes m) | l => l end in
  (Ok (json_compact (JArr (List.map volume_json volumes))), put_guest (g <| data_volumes := volumes |>) m).

Definition set_address (ip : string) : Op Mock unit :=
  change_guest (fun g => g <| gs_ip_address := Some ip |>) >>! _sync_ip_to_inventory ip.

Definition new_name (arguments : string) : string :=
  upper (match argument "-newname" arguments with Some n => n | None => vm_name end).

(** [lowered] and [arguments] as the callers pass them. *)
Definition _simulate (lowered arguments : string) : Op Mock string :=
  let has s := contains lowered s in
  if has ").installationtype" then let! g := guest in say (installation_type g)
  else if has "update-hoststoragecache" then initialize_disks
  else if has "get-childitem" && has "thumbprint" then
    let! g := guest in
    say (match thumbprint_in lowered with
         | Some t => if bool_decide (upper t ∈ List.map upper (cert_thumbprints g)) then "PRESENT" else "ABSENT"
         | None => "ABSENT"
         end)
  else if has "import-certificate" || (has "certutil" && has "-addstore") then
    change_guest (import_certificate arguments) >>! say "MOCK: certificate imported into store"
  else if has "new-netipaddress" then
    match argument "-ipaddress" lowered with
    | Some ip => set_address ip
    | None => oret tt
    end >>! say "NETWORK-CONFIGURED"
  else if has "set-netipinterface" && has "-dhcp enabled" then
    set_address "10.20.30.200" >>! say "NETWORK-DHCP-ENABLED"
  else if has "test-connection" || has "resolve-dnsname" then
    say (if has "test-connection" then "GW-REACHABLE" else "DNS-OK")
  else if has "win32_computersystem" && has "partofdomain" then
    let! g := guest in say (json_compact (identity_json g))
  else if has "rename-computer" then
    change_guest (fun g => g <| pending_hostname := Some (new_name arguments) |> <| reboot_pending := true |>) >>! say "RENAMED"
  else if has "add-computer" then
    change_guest (fun g => g <| pending_hostname := Some (new_name arguments) |>
                             <| pending_domain := Some (match argument "-domainname" arguments with
                                                        | Some d => lower d | None => "mock.example.test" end) |>
                             <| reboot_pending := true |>) >>! say "DOMAIN-JOINED"
  else if has "lastbootuptime" then let! g := guest in say (isoformat (BOOT_EPOCH + boot_count g * MINUTE))
  else if has "restart-computer" || has "shutdown" then change_guest restarted >>! say "MOCK: guest restarting"
  else if has "$env:computername" then let! g := guest in say (name_or_vm (gs_hostname g))
  else if has "msiexec" || has ".exe" || has ".ps1" then say "MOCK: installer completed exit 0"
  else say "MOCK-OK".

Definition log_command (command : string) : Op Mock unit :=
  change_guest (fun g => g <| executed_commands := (executed_commands g ++ [_scrub_for_log command])%list |>).

Definition run_program (program_path arguments : string) : Op Mock CommandResult :=
  mock_sleep _LATENCY_PROGRAM >>!
  log_command (strip (program_path ++ " " ++ arguments)) >>!
  if contains arguments "__FAIL__" then oret (MkResult 1603 "" "Simulated installation failure (mock).")
  else
    let! out := _simulate (lower (program_path ++ " " ++ arguments)) arguments in oret (MkResult 0 out "").

Definition run_powershell (script : string) (secrets : list (string * string)) : Op Mock CommandResult :=
  mock_sleep _LATENCY_PROGRAM >>!
  log_command ("[ps1] " ++ script) >>!
  change_guest (fun g => g <| last_secret_names := sort_by (fun k => k) (List.map fst secrets) |>) >>!
  if contains script "__FAIL__" then oret (MkResult 1603 "" "Simulated script failure (mock).")
  else let! out := _simulate (lower script) script in oret (MkResult 0 out "").

(** ** Files *)

Definition upload_file (content guest_path : string) : Op Mock unit :=
  mock_sleep _LATENCY_FILE >>! change_guest (fun g => g <| gs_files := <[lower guest_path := content]> (gs_files g) |>).

Definition download_file (guest_path : string) : Op Mock string :=
  mock_sleep _LATENCY_FILE >>! let! g := guest in oret (default "MOCK-FILE-CONTENT" (gs_files g !! lower guest_path)).

Definition delete_file (guest_path : string) : Op Mock unit :=
  mock_sleep _LATENCY_FILE >>! change_guest (fun g => g <| gs_files := delete (lower guest_path) (gs_files g) |>).

Definition file_exists (guest_path : string) : Op Mock bool :=
  mock_sleep _LATENCY_FILE >>!
  let! g := guest in oret (match gs_files g !! lower guest_path with Some _ => true | None => false end).

End Guest.

(** [MockGuestOperations] *)
Definition mock_guest_operations (fingerprint_sha256_of : string -> string) (isoformat : Z -> string) : GuestOperations Mock := {|
  World.run_program target vm_name _ program arguments _ :=
    run_program fingerprint_sha256_of isoformat target vm_name program arguments;
  World.upload_file _ vm_name _ content path := upload_file vm_name content path;
  World.download_file _ vm_name _ path := download_file vm_name path;
  World.delete_file _ vm_name _ path := delete_file vm_name path;
  World.file_exists _ vm_name _ path := file_exists vm_name path;
  World.own_run_powershell :=
    Some (fun target vm_name _ script _ secrets =>
            run_powershell fingerprint_sha256_of isoformat target vm_name script secrets);
|}.
