(* ===== verification/AnswerIso.v ===== *)
(** * The answer media

    The ISO 9660 and Joliet image of [app/services/windows_unattend.py]
    ([build_answer_iso], [build_answer_media]) and the media recognition of
    [app/services/windows_media.py].  Bytes are characters. *)

From Stdlib Require Import ZArith Lia Ascii String List Bool.
From stdpp Require Import base tactics list strings.
From S2P Require Import Prelude PyStr Regex Resolver Unattend.

Local Open Scope string_scope.
Local Open Scope Z_scope.
Local Open Scope list_scope.

Definition bytes : Type := list ascii.

Definition _SECTOR : Z := 2048.
Definition _VOLUME_ID : string := "INFRAOPS_ANSWER".

(** [struct.pack] of unsigned integers, little and big endian: the [k] low
    bytes. *)
Definition byte (n : Z) : ascii := ascii_of_nat (Z.to_nat (n mod 256)).
Fixpoint little (k : nat) (n : Z) : bytes :=
  match k with O => [] | S k' => byte n :: little k' (Z.shiftr n 8) end.
Definition big (k : nat) (n : Z) : bytes := rev (little k n).

Definition _both16 (value : Z) : bytes := little 2 value ++ big 2 value.
Definition _both32 (value : Z) : bytes := little 4 value ++ big 4 value.

(** 2026-01-01 00:00:00 UTC *)
Definition _directory_date : bytes := List.map byte [126; 1; 1; 0; 0; 0; 0].
Definition _volume_date : bytes := chars "2026010100000000" ++ [byte 0].

Definition zeros (n : nat) : bytes := List.repeat (byte 0) n.

(** [buffer[at:at + len(payload)] = payload] of a bytearray. *)
Definition put_at (at_ : nat) (payload buffer : bytes) : bytes :=
  (firstn at_ buffer ++ payload ++ skipn (at_ + List.length payload) buffer)%list.

(** [ljust(size)] with a filler, cut to the size. *)
Definition pad_to (size : nat) (filler l : bytes) : bytes :=
  firstn size (l ++ List.concat (List.repeat filler size)).

Definition _directory_record (identifier : bytes) (extent length_ : Z) (directory : bool) : bytes :=
  let size := (33 + List.length identifier)%nat in
  let total := if Nat.odd size then S size else size in
  [byte (Z.of_nat total); byte 0] ++ _both32 extent ++ _both32 length_ ++ _directory_date
  ++ [byte (if directory then 2 else 0); byte 0; byte 0] ++ _both16 1 ++ [byte (Z.of_nat (List.length identifier))]
  ++ identifier ++ (if Nat.odd size then [byte 0] else []).

Definition _path_table (root_extent : Z) (big_endian : bool) : bytes :=
  [byte 1; byte 0] ++ (if big_endian then big 4 root_extent else little 4 root_extent)
  ++ (if big_endian then big 2 1 else little 2 1) ++ [byte 0; byte 0].

Definition utf_16_be (s : string) : bytes := List.flat_map (fun c => [byte 0; c]) (chars s).

(** The text fields of a descriptor. *)
Definition identifier_field (joliet : bool) (text_ : string) (size : nat) : bytes :=
  if joliet then pad_to size [byte 0; " "%char] (utf_16_be text_)
  else (chars text_ ++ List.repeat " "%char (size - String.length text_))%list.

Definition BLANK_FIELDS : list (nat * nat) :=
  [(190, 128); (318, 128); (446, 128); (574, 128); (702, 37); (739, 37); (776, 37)]%nat.

(** The assignments to slices of the descriptor, in order. *)
Definition _volume_descriptor (joliet : bool) (total_sectors path_table_size l_table m_table root_extent : Z)
    : bytes :=
  let fields : list (nat * bytes) :=
    ([(0, [byte (if joliet then 2 else 1)]); (1, chars "CD001"); (6, [byte 1]);
      (8, identifier_field joliet "" 32); (40, identifier_field joliet _VOLUME_ID 32);
      (80, _both32 total_sectors)]
     ++ (if joliet then [(88, chars "%/E")] else [])
     ++ [(120, _both16 1); (124, _both16 1); (128, _both16 _SECTOR); (132, _both32 path_table_size);
         (140, little 4 l_table); (148, big 4 m_table);
         (156, _directory_record [byte 0] root_extent _SECTOR true)]
     ++ List.map (fun f => (fst f, identifier_field joliet "" (snd f))) BLANK_FIELDS
     ++ [(813, _volume_date); (830, _volume_date); (847, List.repeat "0"%char 16 ++ [byte 0]);
         (864, _volume_date); (881, [byte 1])])%nat%list in
  fold_left (fun d f => put_at (fst f) (snd f) d) fields (zeros (Z.to_nat _SECTOR)).

(** ** The image *)

Definition FIRST_EXTENT : Z := 25.
Definition ROOT_PRIMARY : Z := 23.
Definition ROOT_JOLIET : Z := 24.

Definition sectors (content : bytes) : Z := Z.max 1 ((Z.of_nat (List.length content) + _SECTOR - 1) / _SECTOR).

(** The extents of the files from a sector on, and the first free sector. *)
Fixpoint place (sector : Z) (files : list (string * bytes)) : list (string * bytes * Z) * Z :=
  match files with
  | [] => ([], sector)
  | (name, content) :: rest =>
      let r := place (sector + sectors content) rest in ((name, content, sector) :: fst r, snd r)
  end.

Definition put (sector : Z) (payload image : bytes) : bytes := put_at (Z.to_nat (sector * _SECTOR)) payload image.

Definition primary_identifier (name : string) : bytes :=
  (chars (replace_char "-" "_" (upper name)) ++ chars ";1")%list.
Definition joliet_identifier (name : string) : bytes := utf_16_be name.

Definition root_directory (root : Z) (identifier : string -> bytes) (placed : list (string * bytes * Z)) : bytes :=
  (_directory_record [byte 0] root _SECTOR true ++ _directory_record [byte 1] root _SECTOR true
   ++ List.flat_map (fun f => _directory_record (identifier (fst (fst f))) (snd f)
                                (Z.of_nat (List.length (snd (fst f)))) false)
        (sorted_by (fun f => text (identifier (fst (fst f)))) placed))%list.

(** The payloads in the order they are written. *)
Definition payloads (placed : list (string * bytes * Z)) (total : Z) : list (Z * bytes) :=
  let table_size := Z.of_nat (List.length (_path_table 0 false)) in
  ([(16, _volume_descriptor false total table_size 19 20 ROOT_PRIMARY);
    (17, _volume_descriptor true total table_size 21 22 ROOT_JOLIET);
    (18, byte 255 :: chars "CD001" ++ [byte 1]);
    (19, _path_table ROOT_PRIMARY false); (20, _path_table ROOT_PRIMARY true);
    (21, _path_table ROOT_JOLIET false); (22, _path_table ROOT_JOLIET true);
    (ROOT_PRIMARY, root_directory ROOT_PRIMARY primary_identifier placed);
    (ROOT_JOLIET, root_directory ROOT_JOLIET joliet_identifier placed)]
   ++ List.map (fun f => (snd f, snd (fst f))) placed)%list.

Definition build_answer_iso (files : list (string * bytes)) : bytes :=
  let '(placed, total) := place FIRST_EXTENT (sorted_by fst files) in
  fold_left (fun image p => put (fst p) (snd p) image) (payloads placed total)
    (zeros (Z.to_nat (total * _SECTOR))).

Definition build_answer_media (xml_bytes : bytes) : bytes :=
  build_answer_iso [(ANSWER_FILE_NAME, xml_bytes); (FIRST_LOGON_SCRIPT_NAME, chars FIRST_LOGON_SCRIPT)].

(** ** Recognising installation media *)

Inductive WindowsMediaKind := SERVER | CLIENT | UNKNOWN.

Definition _PVD_OFFSET : Z := 16 * _SECTOR.
Definition ISO_HEADER_BYTES : Z := _PVD_OFFSET + _SECTOR.

Definition slice {A} (start stop : Z) (l : list A) : list A :=
  firstn (Z.to_nat (stop - start)) (skipn (Z.to_nat start) l).

(** Undecodable bytes of a label become replacement characters; they take no
    part in the recognition and are left as they are. *)
Definition iso_volume_label (header : bytes) : option string :=
  let descriptor := slice _PVD_OFFSET (_PVD_OFFSET + _SECTOR) header in
  if (List.length descriptor <? 72)%nat
     || negb (bool_decide (slice 0 1 descriptor = [byte 1]))
     || negb (bool_decide (slice 1 6 descriptor = chars "CD001"))
  then None
  else
    let label := strip (text (slice 40 72 descriptor)) in
    if String.eqb label "" then None else Some label.

Definition CLIENT_PREFIXES : list string := ["CCCOMA_"; "CCOMA_"; "CPBA_"; "CPRA_"; "CENA_"; "CCSA_"].

Definition classify_windows_media (label : option string) : WindowsMediaKind :=
  let normalized := upper (strip (match label with Some l => l | None => "" end)) in
  if startswith normalized "SSS_" || contains normalized "_SSS_" then SERVER
  else if existsb (fun p => startswith normalized p || startswith normalized ("J_" ++ p)%string) CLIENT_PREFIXES
       || existsb (fun e => String.eqb normalized e) ["ESD-ISO"; "ESD_ISO"] then CLIENT
  else UNKNOWN.
