(* ===== verification/Conflict.v ===== *)
(** * IP conflict validation

    [app/services/network/conflict.py]: independent providers look for another
    user of an address; their answers are aggregated with a statement of how
    far they can be trusted. *)

From Stdlib Require Import ZArith Lia Ascii String List Bool.
From stdpp Require Import base tactics list strings gmap.
From S2P Require Import Prelude PyStr Errors Schemas Effects World.

Local Open Scope string_scope.
Local Open Scope Z_scope.

Definition ping_replied (returncode : Z) (text_ : string) : bool :=
  (returncode =? 0)
  && (contains (lower text_) "ttl=" || contains (lower text_) "time<" || contains (lower text_) "time=").

(** Windows ping exits 0 even on an unreachable destination. *)
Definition ping_unreachable (text_ : string) : bool :=
  existsb (contains (lower text_)) ["unreachable"; "timed out"; "could not find host"].

Definition type_name (e : Exc) : string :=
  match e with
  | InfraOperationError _ => "InfraOperationError"
  | TimeoutError => "TimeoutError"
  | OtherException n _ => n
  | Cancelled _ => "CancelledError"
  end.

Definition exc_text (e : Exc) : string :=
  match e with OtherException _ m => m | InfraOperationError e => human_message e | _ => "" end.

(** [except (TimeoutError, OSError)] *)
Definition is_os_error (e : Exc) : bool :=
  match e with
  | TimeoutError => true
  | OtherException n _ => existsb (String.eqb n) ["OSError"; "FileNotFoundError"; "PermissionError"; "BlockingIOError"]
  | _ => false
  end.

Section Conflict.

Context {X : Type} `{World X}.

Record Provider := MkConflictProvider {
  provider_name : string;
  check : string -> Z -> M X ProviderResult;
}.

Definition IcmpPingProvider : Provider := MkConflictProvider "ICMP" (fun address _ =>
  let* installed := draw ping_installed in
  if negb installed then
    ret (MkProvider "ICMP" NOT_CONFIGURED "ICMP probe is unavailable because the ping utility is not installed.")
  else
    let* answer := catch_exception (let* p := call (ping address) in ret (Ok p))
                     (fun e => if is_os_error e then ret (Err e) else throw e) in
    match answer with
    | Err e => ret (MkProvider "ICMP" ERROR ("Ping could not be executed: " ++ exc_text e))
    | Ok (returncode, out) =>
        if ping_replied returncode out && negb (ping_unreachable out) then
          ret (MkProvider "ICMP" CONFLICT_DETECTED ("A device responded to ICMP echo at " ++ address ++ "."))
        else ret (MkProvider "ICMP" NO_CONFLICT "No ICMP response received (may simply be filtered).")
    end).

Definition dns_provider (name : string) : Provider := MkConflictProvider name (fun address _ =>
  let* hostname := call (gethostbyaddr address) in
  match hostname with
  | Some h => if String.eqb h "" then ret (MkProvider name NO_CONFLICT "No PTR record found.")
              else ret (MkProvider name CONFLICT_DETECTED ("Reverse lookup resolves to " ++ SQ ++ h ++ SQ ++ "."))
  | None => ret (MkProvider name NO_CONFLICT "No PTR record found.")
  end).

Definition DnsForwardProvider : Provider := dns_provider "DNS".
Definition ReverseDnsProvider : Provider := dns_provider "Reverse DNS".

(** [used.get(address)] of a dict built from the pairs. *)
Definition owner_of (used : list (string * string)) (address : string) : option string :=
  option_map snd (find_first (fun e => String.eqb (fst e) address) used).

Definition VMwareInventoryProvider (target_ : VCenterTarget) (exclude_vm_name : option string) : Provider :=
  MkConflictProvider "VMware inventory" (fun address _ =>
    let* used := catch_exception (let* u := call (get_used_ips target_) in ret (Some u)) (fun _ => ret None) in
    match used with
    | None => ret (MkProvider "VMware inventory" ERROR "Inventory could not be queried.")
    | Some u =>
        let owner := match owner_of u address with
                     | Some o => if String.eqb o "" then None
                                 else match exclude_vm_name with
                                      | Some x => if negb (String.eqb x "") && String.eqb (casefold o) (casefold x)
                                                  then None else Some o
                                      | None => Some o
                                      end
                     | None => None
                     end in
        match owner with
        | Some o => ret (MkProvider "VMware inventory" CONFLICT_DETECTED
                           ("Address is assigned to VM " ++ SQ ++ o ++ SQ ++ "."))
        | None => ret (MkProvider "VMware inventory" NO_CONFLICT "Not present in the vCenter guest inventory.")
        end
    end).

Fixpoint run_providers (address : string) (prefix : Z) (providers_ : list Provider) : M X (list ProviderResult) :=
  match providers_ with
  | [] => ret []
  | p :: rest =>
      let* r := catch_exception (check p address prefix)
                  (fun e => ret (MkProvider (provider_name p) ERROR ("Provider failed: " ++ type_name e))) in
      let* results := run_providers address prefix rest in
      ret (r :: results)
  end.

Definition confidence (results : list ProviderResult) : string :=
  let conflict := existsb (fun r => bool_decide (provider_status r = CONFLICT_DETECTED)) results in
  let definitive := count (fun r => bool_decide (provider_status r ∈ [NO_CONFLICT; CONFLICT_DETECTED])) results in
  let available := count (fun r => negb (bool_decide (provider_status r = NOT_CONFIGURED))) results in
  if conflict then "A potential conflict WAS detected — choose a different address."
  else if available =? 0 then "No validation source was available; the address is unverified."
  else "No conflict detected with " ++ str_int available ++ " available validation method(s) ("
       ++ str_int definitive ++ " returned a definitive answer). Validation confidence depends "
       ++ "on the configured sources; a filtered network can hide active devices.".

Definition run_conflict_check (address : string) (prefix : Z) (providers_ : list Provider) : M X IpConflictReport :=
  let* results := run_providers address prefix providers_ in
  ret (MkConflictReport address prefix results
         (existsb (fun r => bool_decide (provider_status r = CONFLICT_DETECTED)) results) (confidence results)).

Definition default_providers (target_ : option VCenterTarget) : list Provider :=
  [IcmpPingProvider; DnsForwardProvider; ReverseDnsProvider]
  ++ match target_ with Some t => [VMwareInventoryProvider t None] | None => [] end.

(** ** Frames and calm *)

Definition tame (p : Provider) : Prop :=
  (forall a n, frames (check p a n)) /\ (forall t a n, calm t (check p a n)).

Lemma tame_icmp : tame IcmpPingProvider.
Proof. split; intros; simpl; [solve_frames|solve_calm]. Qed.

Lemma tame_dns n : tame (dns_provider n).
Proof. split; intros; simpl; [solve_frames|solve_calm]. Qed.

Lemma tame_inventory target_ x : tame (VMwareInventoryProvider target_ x).
Proof. split; intros; simpl; [solve_frames|solve_calm]. Qed.

Lemma tame_run_conflict_check a n ps : Forall tame ps ->
  frames (run_conflict_check a n ps) /\ (forall t, calm t (run_conflict_check a n ps)).
Proof.
  intros Hps. assert (G : frames (run_providers a n ps) /\ forall t, calm t (run_providers a n ps)).
  { induction Hps as [|p ps [H1 H2] Hps [I1 I2]]; simpl; split; intros; [apply frames_ret|apply calm_ret| |].
    - pose proof (H1 a n). solve_frames.
    - pose proof (H2 t a n). pose proof (I2 t). solve_calm. }
  destruct G as [G1 G2]. unfold run_conflict_check. split; [solve_frames|]. intros t. pose proof (G2 t). solve_calm.
Qed.

End Conflict.
