(* ===== verification/GuestScripts.v ===== *)
(** * Scripts of the stages and what they print

    The pure part of [app/workers/stages.py]: the PowerShell scripts the
    stages send into the guest, and the interpretation of the identity probe
    and of the data-disk script. *)

From Stdlib Require Import ZArith Lia Ascii String List Bool.
From stdpp Require Import base tactics list strings.
From S2P Require Import Prelude PyStr Json Schemas Scripts.

Local Open Scope string_scope.
Local Open Scope Z_scope.

Definition SHUTDOWN_PATH : string := "C:\Windows\System32\shutdown.exe".

(** ** Network *)

Definition _SELECT_ADAPTER : string :=
  "$adapter = Get-NetAdapter | Where-Object { $_.Status -eq 'Up' } | Select-Object -First 1" ++ NL
  ++ "if (-not $adapter) { throw 'No connected network adapter found' }" ++ NL.

Definition dns_line (dns_servers : list string) : string :=
  match dns_servers with
  | [] => "Set-DnsClientServerAddress -InterfaceIndex $adapter.ifIndex -ResetServerAddresses | Out-Null" ++ NL
  | _ => "Set-DnsClientServerAddress -InterfaceIndex $adapter.ifIndex -ServerAddresses "
         ++ join "," (List.map ps_quote dns_servers) ++ " | Out-Null" ++ NL
  end.

Definition build_static_ip_script (address : string) (prefix : Z) (gateway : string) (dns_servers : list string)
    : string :=
  "$ErrorActionPreference = 'Stop'" ++ NL ++ _SELECT_ADAPTER
  ++ "Set-NetIPInterface -InterfaceIndex $adapter.ifIndex -AddressFamily IPv4 -Dhcp Disabled" ++ NL
  ++ "Get-NetIPAddress -InterfaceIndex $adapter.ifIndex -AddressFamily IPv4 -ErrorAction SilentlyContinue |" ++ NL
  ++ "    Remove-NetIPAddress -Confirm:$false -ErrorAction SilentlyContinue" ++ NL
  ++ "Get-NetRoute -InterfaceIndex $adapter.ifIndex -DestinationPrefix '0.0.0.0/0' -ErrorAction SilentlyContinue |" ++ NL
  ++ "    Remove-NetRoute -Confirm:$false -ErrorAction SilentlyContinue" ++ NL
  ++ "New-NetIPAddress -InterfaceIndex $adapter.ifIndex -IPAddress " ++ ps_quote address
  ++ " -PrefixLength " ++ str_int prefix ++ " -DefaultGateway " ++ ps_quote gateway ++ " | Out-Null" ++ NL
  ++ dns_line dns_servers ++ "'NETWORK-CONFIGURED'".

Definition build_dhcp_script : string :=
  "$ErrorActionPreference = 'Stop'" ++ NL ++ _SELECT_ADAPTER
  ++ "Set-NetIPInterface -InterfaceIndex $adapter.ifIndex -AddressFamily IPv4 -Dhcp Enabled" ++ NL
  ++ "Set-DnsClientServerAddress -InterfaceIndex $adapter.ifIndex -ResetServerAddresses | Out-Null" ++ NL
  ++ "'NETWORK-DHCP-ENABLED'".

Definition build_dhcp_probe_script : string :=
  "$ip = (Get-NetIPAddress -AddressFamily IPv4 -ErrorAction SilentlyContinue | Where-Object {" ++ NL
  ++ "    $_.IPAddress -notlike '169.254*' -and $_.IPAddress -ne '127.0.0.1'" ++ NL
  ++ "} | Select-Object -First 1).IPAddress" ++ NL
  ++ "if ($ip) { " ++ DQ ++ "DHCP-IP:$ip" ++ DQ ++ " } else { exit 1 }".

(** ** Identity *)

Definition build_rename_script (new_name : string) : string :=
  "Rename-Computer -NewName " ++ ps_quote new_name ++ " -Force -ErrorAction Stop | Out-Null" ++ NL ++ "'RENAMED'".

Definition build_windows_identity_probe_script : string :=
  "$cs = Get-CimInstance -ClassName Win32_ComputerSystem -ErrorAction Stop; "
  ++ "$active = (Get-ItemProperty -LiteralPath "
  ++ "'Registry::HKEY_LOCAL_MACHINE\SYSTEM\CurrentControlSet\Control\ComputerName\"
  ++ "ActiveComputerName' -ErrorAction SilentlyContinue).ComputerName; "
  ++ "$pending = (Get-ItemProperty -LiteralPath "
  ++ "'Registry::HKEY_LOCAL_MACHINE\SYSTEM\CurrentControlSet\Control\ComputerName\"
  ++ "ComputerName' -ErrorAction SilentlyContinue).ComputerName; "
  ++ "$netlogon = 'Registry::HKEY_LOCAL_MACHINE\SYSTEM\CurrentControlSet\Services\Netlogon'; "
  ++ "$pendingJoin = ((Test-Path -LiteralPath ($netlogon + '\JoinDomain')) -or "
  ++ "(Test-Path -LiteralPath ($netlogon + '\AvoidSpnSet'))); "
  ++ "[pscustomobject]@{Name=[string]$cs.Name;Domain=[string]$cs.Domain;"
  ++ "PartOfDomain=[bool]$cs.PartOfDomain;ActiveName=[string]$active;"
  ++ "PendingName=[string]$pending;PendingDomainJoin=[bool]$pendingJoin} | "
  ++ "ConvertTo-Json -Compress".

Record WindowsIdentityState := MkIdentity {
  id_name : string;
  id_domain : string;
  part_of_domain : bool;
  active_name : string;
  pending_name : string;
  pending_domain_join : bool;
}.

Definition same_name (a b : string) : bool := String.eqb (casefold a) (casefold b).

Definition has_pending_rename (s : WindowsIdentityState) : bool :=
  negb (String.eqb (active_name s) "") && negb (String.eqb (pending_name s) "")
  && negb (same_name (active_name s) (pending_name s)).

Definition fqdn (s : WindowsIdentityState) : option string :=
  if negb (part_of_domain s) || String.eqb (id_name s) "" || String.eqb (id_domain s) "" then None
  else Some (lower (id_name s ++ "." ++ id_domain s)).

(** [json.loads] of the last line that gives a value [p] accepts. *)
Fixpoint first_payload {A} (p : json -> option A) (lines : list string) : option A :=
  match lines with
  | [] => None
  | l :: rest =>
      match json_loads l with
      | None => first_payload p rest
      | Some v => match p v with Some a => Some a | None => first_payload p rest end
      end
  end.

(** The non-blank lines, stripped, last first. *)
Definition output_lines (stdout : string) : list string :=
  List.filter (fun l => negb (String.eqb l "")) (List.map strip (splitlines stdout)).
Definition lines_reversed (stdout : string) : list string := rev (output_lines stdout).

Fixpoint member (k : string) (l : list (string * json)) : option json :=
  match l with
  | [] => None
  | (x, v) :: r => if String.eqb x k then Some v else member k r
  end.

(** [isinstance(x, bool)], or the texts true and false. *)
Definition read_flag (v : json) : option bool :=
  match v with
  | JBool b => Some b
  | JStr s => if String.eqb (casefold s) "true" then Some true
              else if String.eqb (casefold s) "false" then Some false else None
  | _ => None
  end.

(** [str(payload.get(k) or default)]; the probe prints texts. *)
Definition text_or_default (repr : json -> string) (payload : list (string * json)) (k d : string) : string :=
  match member k payload with
  | Some v => if truthy v then repr v else d
  | None => d
  end.

Definition identity_payload (v : json) : option (list (string * json)) :=
  match v with
  | JObj l => match member "PartOfDomain" l with Some _ => Some l | None => None end
  | _ => None
  end.

(** [parse_windows_identity_state]; [repr] is [str] of a JSON value. *)
Definition parse_windows_identity_state (repr : json -> string) (stdout : string) : res string WindowsIdentityState :=
  match first_payload identity_payload (lines_reversed stdout) with
  | None => Err "The Windows identity probe did not return a JSON object."
  | Some payload =>
      match match member "PartOfDomain" payload with Some v => read_flag v | None => None end with
      | None => Err "The Windows identity probe returned an invalid PartOfDomain value."
      | Some membership =>
          let name := strip (text_or_default repr payload "Name" "") in
          let domain := rstrip_char "." (strip (text_or_default repr payload "Domain" "")) in
          if String.eqb name "" || String.eqb domain "" then
            Err "The Windows identity probe omitted Name or Domain."
          else
            let active := strip (text_or_default repr payload "ActiveName" name) in
            let pending := strip (text_or_default repr payload "PendingName" active) in
            match match member "PendingDomainJoin" payload with Some v => read_flag v | None => Some false end with
            | None => Err "The Windows identity probe returned an invalid PendingDomainJoin value."
            | Some join => Ok (MkIdentity name domain membership active pending join)
            end
      end
  end.

Definition windows_identity_matches (s : WindowsIdentityState) (computer_name domain : string) : bool :=
  part_of_domain s && same_name (id_name s) computer_name
  && String.eqb (casefold (id_domain s)) (casefold (rstrip_char "." domain))
  && negb (has_pending_rename s) && negb (pending_domain_join s).

Definition py_bool (b : bool) : string := if b then "True" else "False".

Definition windows_identity_detail (s : WindowsIdentityState) : string :=
  "Name=" ++ id_name s ++ ", Domain=" ++ id_domain s ++ ", PartOfDomain=" ++ py_bool (part_of_domain s) ++ ", "
  ++ "ActiveName=" ++ active_name s ++ ", PendingName=" ++ pending_name s ++ ", "
  ++ "PendingDomainJoin=" ++ py_bool (pending_domain_join s) ++ " ("
  ++ (if part_of_domain s then "domain member" else "not domain joined") ++ ")".

Definition DOMAIN_JOIN_PASSWORD_SECRET : string := "domain_join_password".

Definition clause (flag : string) (v : option string) : string :=
  match v with Some s => if String.eqb s "" then "" else flag ++ ps_quote s | None => "" end.

Definition build_domain_join_script (domain username : string) (ou new_name : option string) : string :=
  "$secpw = ConvertTo-SecureString $InfraOpsSecrets[" ++ ps_quote DOMAIN_JOIN_PASSWORD_SECRET
  ++ "] -AsPlainText -Force" ++ NL
  ++ "$InfraOpsSecrets.Remove(" ++ ps_quote DOMAIN_JOIN_PASSWORD_SECRET ++ ")" ++ NL
  ++ "$cred = New-Object System.Management.Automation.PSCredential(" ++ ps_quote username ++ ", $secpw)" ++ NL
  ++ "Add-Computer -DomainName " ++ ps_quote domain ++ clause " -NewName " new_name ++ clause " -OUPath " ou
  ++ " -Credential $cred -Force -ErrorAction Stop | Out-Null" ++ NL ++ "'DOMAIN-JOINED'".

(** ** Data disks *)

Definition DATA_DISKS_NOT_VISIBLE_EXIT : Z := 3.

Definition build_initialize_data_disks_script (expected_count : Z) : string := join NL [
  "$ErrorActionPreference = 'Stop'";
  "Update-HostStorageCache";
  "$data = @(Get-Disk | Where-Object { -not ($_.IsBoot -or $_.IsSystem) } | Sort-Object Number)";
  "if ($data.Count -lt " ++ str_int expected_count ++ ") { " ++ DQ ++ "FOUND:$($data.Count)" ++ DQ ++ "; exit "
    ++ str_int DATA_DISKS_NOT_VISIBLE_EXIT ++ " }";
  "$index = 0";
  "$volumes = foreach ($disk in $data) {";
  "    $index++";
  "    if ($disk.IsOffline) { Set-Disk -Number $disk.Number -IsOffline $false }";
  "    if ($disk.IsReadOnly) { Set-Disk -Number $disk.Number -IsReadOnly $false }";
  "    $disk = Get-Disk -Number $disk.Number";
  "    if ($disk.PartitionStyle -eq 'RAW') { Initialize-Disk -Number $disk.Number -PartitionStyle GPT }";
  "    $partition = Get-Partition -DiskNumber $disk.Number -ErrorAction SilentlyContinue |";
  "        Where-Object { $_.Type -eq 'Basic' } | Select-Object -First 1";
  "    if (-not $partition) {";
  "        $partition = New-Partition -DiskNumber $disk.Number -UseMaximumSize -AssignDriveLetter";
  "    }";
  "    $volume = $partition | Get-Volume";
  "    if (-not $volume.FileSystem) {";
  "        $volume = Format-Volume -Partition $partition -FileSystem NTFS "
    ++ "-NewFileSystemLabel ('Data' + $index) -Confirm:$false";
  "    }";
  "    [pscustomobject]@{Number=[int]$disk.Number; SizeGB=[int][math]::Round($disk.Size / 1GB);"
    ++ " DriveLetter=[string]$partition.DriveLetter; Label=[string]$volume.FileSystemLabel;"
    ++ " FileSystem=[string]$volume.FileSystem}";
  "}";
  "ConvertTo-Json -Compress -InputObject @($volumes)" ].

Record DataVolume := MkVolume {
  volume_number : Z;
  volume_size_gb : Z;
  drive_letter : string;
  volume_label : string;
  file_system : string;
}.

(** A raised exception: class and message. *)
Definition Raised : Type := string * string.

Section Volumes.

(** [int] of a text, [str] and [repr] of a JSON value. *)
Variables (int_of : string -> option Z) (str_of repr_of : json -> string).

Definition to_int (v : json) : res Raised Z :=
  match v with
  | JNum n => Ok n
  | JBool b => Ok (if b then 1 else 0)
  | JStr s => match int_of s with
              | Some n => Ok n
              | None => Err ("ValueError", "invalid literal for int() with base 10: " ++ repr_of v)
              end
  | JNull => Err ("TypeError", "int() argument must be a string, a bytes-like object or a real number, not 'NoneType'")
  | JArr _ => Err ("TypeError", "int() argument must be a string, a bytes-like object or a real number, not 'list'")
  | JObj _ => Err ("TypeError", "int() argument must be a string, a bytes-like object or a real number, not 'dict'")
  end.

Definition volume_of (l : list (string * json)) : res Raised DataVolume :=
  let? number := to_int (match member "Number" l with Some v => v | None => JNull end) in
  let? size := match member "SizeGB" l with
               | Some v => if truthy v then to_int v else Ok 0
               | None => Ok 0
               end in
  Ok (MkVolume number size (text_or_default str_of l "DriveLetter" "") (text_or_default str_of l "Label" "")
        (text_or_default str_of l "FileSystem" "")).

Fixpoint all_some {A B} (f : A -> option B) (l : list A) : option (list B) :=
  match l with
  | [] => Some []
  | x :: r => match f x, all_some f r with Some y, Some t => Some (y :: t) | _, _ => None end
  end.

Fixpoint all_ok {A B} (f : A -> res Raised B) (l : list A) : res Raised (list B) :=
  match l with
  | [] => Ok []
  | x :: r => let? y := f x in let? t := all_ok f r in Ok (y :: t)
  end.

Definition volume_item (v : json) : option (list (string * json)) :=
  match v with
  | JObj l => match member "Number" l with Some _ => Some l | None => None end
  | _ => None
  end.

(** The items of a line that holds nothing but volumes. *)
Definition volume_items (v : json) : option (list (list (string * json))) :=
  all_some volume_item (match v with JArr l => l | _ => [v] end).

Definition parse_data_volumes (stdout : string) : res Raised (list DataVolume) :=
  match first_payload volume_items (lines_reversed stdout) with
  | None => Err ("ValueError", "The data-disk script did not return a JSON list.")
  | Some items => all_ok volume_of items
  end.

End Volumes.

(** ** Fixed scripts *)

Definition ANSWER_FILE_SCRUB_SCRIPT : string := join NL [
  "$paths = @(";
  "    'C:\Windows\Panther\unattend.xml',";
  "    'C:\Windows\Panther\Unattend\unattend.xml',";
  "    'C:\Windows\Panther\Unattend\autounattend.xml',";
  "    'C:\Windows\Panther\autounattend.xml',";
  "    'C:\Windows\System32\Sysprep\unattend.xml',";
  "    'C:\Windows\System32\Sysprep\Panther\unattend.xml'";
  ")";
  "foreach ($path in $paths) {";
  "    if (Test-Path -LiteralPath $path) {";
  "        Remove-Item -LiteralPath $path -Force -ErrorAction Stop";
  "        " ++ DQ ++ "REMOVED $path" ++ DQ;
  "    }";
  "}";
  "$winlogon = 'HKLM:\SOFTWARE\Microsoft\Windows NT\CurrentVersion\Winlogon'";
  "foreach ($name in 'DefaultPassword', 'AutoLogonCount') {";
  "    Remove-ItemProperty -Path $winlogon -Name $name -ErrorAction SilentlyContinue";
  "}";
  "Set-ItemProperty -Path $winlogon -Name AutoAdminLogon -Value '0' -ErrorAction SilentlyContinue";
  "'ANSWER-FILE-SCRUBBED'" ].

Definition GUEST_BOOT_TIME_SCRIPT : string :=
  "(Get-CimInstance -ClassName Win32_OperatingSystem -ErrorAction Stop)"
  ++ ".LastBootUpTime.ToUniversalTime().ToString('o')".

Definition INSTALLATION_TYPE_SCRIPT : string :=
  "(Get-ItemProperty -LiteralPath "
  ++ "'Registry::HKEY_LOCAL_MACHINE\SOFTWARE\Microsoft\Windows NT\CurrentVersion' "
  ++ "-ErrorAction Stop).InstallationType".

Definition gateway_script (gateway : string) : string :=
  "if (Test-Connection -ComputerName " ++ ps_quote gateway ++ " -Count 2 -Quiet) { 'GW-REACHABLE' } else { exit 1 }".

Definition dns_script (fqdn dns : string) : string :=
  "$r = Resolve-DnsName -Name " ++ ps_quote fqdn ++ " -Server " ++ ps_quote dns
  ++ " -ErrorAction SilentlyContinue" ++ NL ++ "if ($r) { 'DNS-OK' } else { exit 1 }".

(** ** Typographic quotes *)

(** U+2019, the right single quotation mark, in UTF-8. *)
Definition RIGHT_QUOTE : string := text [char_of 226; char_of 128; char_of 153].

Definition hostile_ou : string := RIGHT_QUOTE ++ "; Stop-Computer #".

Definition hostile_join : DomainJoinSpec := MkDomainJoinSpec "corp.example.com" (Some hostile_ou) "ad/join".

(** [ps_quote, build_domain_join_script]: [ps_quote] doubles the apostrophe
    only, but a typographic quote ends a literal as well.  The organizational
    unit of a domain join is free text of the operator, and the schema accepts
    one that begins with such a quote; in the script that joins the domain its
    literal is empty and the rest of the text is code that runs with the
    administrator account of the guest. *)
Theorem typographic_quote_escapes :
  validate_domain_join hostile_join = Ok hostile_join
  /\ exists before behind,
       build_domain_join_script "corp.example.com" "joiner" (ou hostile_join) None
       = before ++ ps_quote hostile_ou ++ behind
       /\ read_literal (ps_quote hostile_ou ++ behind) = Some ("", "; Stop-Computer #'" ++ behind).
Proof.
  split; [by vm_compute|].
  set (behind := " -Credential $cred -Force -ErrorAction Stop | Out-Null" ++ NL ++ "'DOMAIN-JOINED'").
  set (script := build_domain_join_script "corp.example.com" "joiner" (ou hostile_join) None).
  exists (take_str (String.length script - String.length (ps_quote hostile_ou ++ behind)) script), behind.
  by vm_compute.
Qed.
