(* ===== verification/StageSupport.v ===== *)
(** * What stages and the pipeline share

    Helpers of [app/workers/stages.py]: effective timeouts, the VM reference,
    the Tools lifecycle, live status, and the removal of the answer media on
    a failure, cancellation or interruption. *)

From Stdlib Require Import ZArith Lia Ascii String List Bool.
From stdpp Require Import base tactics list strings gmap.
From S2P Require Import Prelude PyStr Errors Schemas StateMachine Jobs AuditTrail Effects World.

Local Open Scope string_scope.
Local Open Scope Z_scope.

Record StageOutcome := MkOutcome {
  outcome_status : string;
  outcome_output : string;
  outcome_artifacts : gmap string json;
}.

(** [StageOutcome(output=..., artifacts=...)] with the default status. *)
Definition succeed (out : string) (arts : list (string * json)) : StageOutcome :=
  MkOutcome "SUCCEEDED" out (list_to_map arts).
Definition skip (out : string) (arts : list (string * json)) : StageOutcome :=
  MkOutcome "SKIPPED" out (list_to_map arts).

(** ** Timeouts *)

Definition _TIMEOUT_KEY_MAP (stage_key : string) : list string :=
  match find_first (fun e => String.eqb (fst e) stage_key)
    [("create_vm", ["create_vm_minutes"]); ("wait_for_guest_os", ["os_installation_minutes"]);
     ("wait_for_tools", ["vmware_tools_minutes"]);
     ("configure_guest_network", ["network_configuration_minutes"]);
     ("validate_network", ["network_configuration_minutes"]);
     ("initialize_data_disks", ["guest_operations_minutes"]); ("join_domain", ["guest_operations_minutes"]);
     ("reboot_guest", ["guest_operations_minutes"]); ("wait_guest_ready", ["guest_operations_minutes"])] with
  | Some e => snd e
  | None => []
  end.

(** [int(text)] of a decimal literal, and [int(v)] of a JSON value; [None] raises. *)
Definition parse_int (s : string) : option Z :=
  let value l := match l with
                 | [] => None
                 | _ => if forallb is_digit l
                        then Some (fold_left (fun v c => 10 * v + (Z.of_nat (nat_of_ascii c) - 48)) l 0) else None
                 end in
  match chars (strip s) with
  | "-"%char :: l => option_map Z.opp (value l)
  | "+"%char :: l => value l
  | l => value l
  end.

Definition json_int (v : json) : option Z :=
  match v with
  | JNum n => Some n
  | JBool b => Some (if b then 1 else 0)
  | JStr s => parse_int s
  | _ => None
  end.

(** [{k: int(v) for k, v in raw.items()}]; any failing value empties the override. *)
Fixpoint int_items (l : list (string * json)) : option (list (string * Z)) :=
  match l with
  | [] => Some []
  | (k, v) :: r =>
      match json_int v, int_items r with
      | Some n, Some t => Some ((k, n) :: t)
      | _, _ => None
      end
  end.

Definition timeout_override (rows : gmap string json) : list (string * Z) :=
  match rows !! SETTING_DEFAULT_TIMEOUTS with
  | Some (JObj l) => match int_items l with Some o => o | None => [] end
  | _ => []
  end.

(** Seconds for a stage, given the override. *)
Definition timeout_with (override : list (string * Z)) (stage_key : string) : Z :=
  match List.find (fun k => match lookup_timeout override k with Some _ => true | None => false end)
          (_TIMEOUT_KEY_MAP stage_key) with
  | Some k => match lookup_timeout override k with Some m => m * 60 | None => 0 end
  | None => stage_timeout stage_key DEFAULT_STAGE_TIMEOUTS
  end.

Definition effective_timeout_seconds {X} `{World X} (stage_key : string) : M X Z :=
  let* override := catch_exception (let* rows := load_effective in ret (timeout_override rows))
                     (fun _ => ret []) in
  ret (timeout_with override stage_key).

(** ** The VM of the job *)

Definition vm_name_of (ctx : Ctx) : string := vm_spec_name (vm (request ctx)).

Definition _require_vm_id {X} (ctx : Ctx) : M X string := fun r =>
  match vm_ref r with
  | Some v => (Return (ref_id v), r)
  | None =>
      match (match step_of (job (session r)) "create_vm" with
             | Some s => get_text (artifacts s) "vm_id"
             | None => None
             end) with
      | Some id => (Return id, r <| vm_ref := Some (MkVmRef id (vm_name_of ctx)) |>)
      | None =>
          (Raise (InfraOperationError
             (infra_error "The created VM reference is missing."
                "The VM creation stage has not produced a VM identifier."
                "Retry the 'Create virtual machine' stage." "" true)), r)
      end
  end.

Definition set_vm_ref {X} (v : VmRef) : M X unit := modify (fun r => r <| vm_ref := Some v |>).
Definition set_reboot_required {X} (b : bool) : M X unit := modify (fun r => r <| reboot_required := b |>).
Definition set_hostname_changed {X} (b : bool) : M X unit := modify (fun r => r <| hostname_changed := b |>).

Definition _tools_lifecycle (info : option PowerStateInfo) : VMwareToolsStatus :=
  match info with
  | None => TOOLS_UNKNOWN
  | Some i =>
      let eqs (o : option string) (v : string) := match o with Some x => String.eqb x v | None => false end in
      if eqs (tools_version_status i) "guestToolsNotInstalled" then NOT_INSTALLED
      else if eqs (tools_running_status i) "guestToolsExecutingScripts" then INSTALLING
      else if eqs (tools_running_status i) "guestToolsNotRunning" then NOT_RUNNING
      else if eqs (tools_running_status i) "guestToolsRunning" then
        if existsb (eqs (tools_version_status i))
             ["guestToolsNeedUpgrade"; "guestToolsTooOld"; "guestToolsSupportedOld"; "guestToolsBlacklisted"]
        then OUTDATED else TOOLS_RUNNING
      else if eqs (tools_status i) "toolsOk" then TOOLS_RUNNING
      else if eqs (tools_status i) "toolsOld" then OUTDATED
      else if eqs (tools_status i) "toolsNotRunning" then NOT_RUNNING
      else if eqs (tools_status i) "toolsNotInstalled" then NOT_INSTALLED
      else TOOLS_UNKNOWN
  end.

(** ** Live status *)

Definition report_live_status {X} `{World X} (ctx : Ctx) (stage_key text : string) : M X unit :=
  let* step := get_step stage_key in
  match step with
  | None => ret tt
  | Some _ =>
      let* at_ := now in
      set_step stage_key (fun s => s <| output := Some text |>
        <| artifacts := <["live_status" := JObj [("text", JStr text); ("updated_at", JStr (isoformat at_))]]>
                          (artifacts s) |>);;
      catch_exception (commit;; publish_stage (Some stage_key) "RUNNING" text) (fun _ => ret tt)
  end.

(** ** Removing the answer media *)

Definition media_audit (ctx : Ctx) (j : Job) (reason : string) : AuditEvent :=
  audit_event "UNATTENDED_MEDIA_REMOVED" (actor_username ctx) "virtual_machine" (Some (vm_name_of ctx))
    (Some (job_id j)) (Some (compute_datacenter_id (compute (request ctx)))) (datacenter_name j)
    (Some "success") [("reason", JStr reason)] None.

(** Whether the media of this job must still be removed: its path. *)
Definition media_to_remove (j : Job) : option string :=
  match step_of j "prepare_unattended_install" with
  | None => None
  | Some p =>
      match get_text (artifacts p) "datastore_path" with
      | None => None
      | Some path =>
          if get_truthy (artifacts p) "media_removed" then None
          else match step_of j "cleanup_unattended_media" with
               | Some c => if bool_decide (step_status c = SUCCEEDED) then None else Some path
               | None => Some path
               end
      end
  end.

Definition booted (j : Job) : bool :=
  match step_of j "power_on" with
  | Some s => match step_status s with SUCCEEDED | SKIPPED => true | _ => false end
  | None => false
  end.

(** What a successful removal records on the preparation step. *)
Definition mark_removed (has_booted : bool) (reason : string) (p : Step) : Step :=
  let p1 := p <| artifacts := <["media_removed_reason" := JStr reason]>
                                (<["media_removed" := JBool true]> (artifacts p)) |> in
  if bool_decide (step_status p1 = SUCCEEDED) && negb has_booted
  then p1 <| step_status := PENDING |>
          <| output := Some "Answer media removed after the job stopped; it is regenerated on retry." |>
  else p1.

Definition release_unattended_media {X} `{World X} (ctx : Ctx) (reason : string) : M X bool :=
  let* j := get_job in
  match media_to_remove j with
  | None => ret false
  | Some path =>
      let* removed :=
        catch_exception
          (let* vm_id := _require_vm_id ctx in
           call (remove_answer_media (target ctx) vm_id (compute_datacenter_id (compute (request ctx))) path);;
           ret true)
          (fun _ => ret false) in
      if negb removed then ret false
      else
        set_step "prepare_unattended_install" (mark_removed (booted j) reason);;
        (let* j' := get_job in record_audit (media_audit ctx j' reason));;
        ret true
  end.

(** ** Frames *)

Lemma frames_require_vm_id {X} ctx : frames (X := X) (_require_vm_id ctx).
Proof.
  intros r. unfold _require_vm_id. destruct (vm_ref r); [apply frame_refl|].
  destruct (match step_of _ _ with Some _ => _ | None => _ end); [|apply frame_refl]. constructor; auto with infra.
Qed.

Lemma frames_set_vm_ref {X} v : frames (X := X) (set_vm_ref v).
Proof. intros r. constructor; auto with infra. Qed.
Lemma frames_set_reboot {X} b : frames (X := X) (set_reboot_required b).
Proof. intros r. constructor; auto with infra. Qed.
Lemma frames_set_hostname {X} b : frames (X := X) (set_hostname_changed b).
Proof. intros r. constructor; auto with infra. Qed.

#[export] Hint Resolve frames_require_vm_id frames_set_vm_ref frames_set_reboot frames_set_hostname : infra.

Lemma frames_effective_timeout {X} `{World X} k : frames (X := X) (effective_timeout_seconds k).
Proof. unfold effective_timeout_seconds. solve_frames. Qed.

Lemma frames_report_live_status {X} `{World X} ctx k t : frames (X := X) (report_live_status ctx k t).
Proof. unfold report_live_status. solve_frames. Qed.

#[export] Hint Resolve frames_effective_timeout frames_report_live_status : infra.

(** ** Calm *)

Lemma calm_require_vm_id {X} t ctx : calm (X := X) t (_require_vm_id ctx).
Proof.
  intros r Hr. unfold _require_vm_id. destruct (vm_ref r); simpl; [by split|].
  destruct (match step_of _ _ with Some _ => _ | None => _ end); simpl; (split; [done|discriminate]).
Qed.

Lemma calm_set_vm_ref {X} t v : calm (X := X) t (set_vm_ref v).
Proof. by apply calm_modify. Qed.
Lemma calm_set_reboot {X} t b : calm (X := X) t (set_reboot_required b).
Proof. by apply calm_modify. Qed.
Lemma calm_set_hostname {X} t b : calm (X := X) t (set_hostname_changed b).
Proof. by apply calm_modify. Qed.

#[export] Hint Resolve calm_require_vm_id calm_set_vm_ref calm_set_reboot calm_set_hostname : infra.

Lemma calm_effective_timeout {X} `{World X} t k : calm (X := X) t (effective_timeout_seconds k).
Proof. unfold effective_timeout_seconds. solve_calm. Qed.

Lemma calm_report_live_status {X} `{World X} t ctx k s : calm (X := X) t (report_live_status ctx k s).
Proof. unfold report_live_status. solve_calm. Qed.

Lemma calm_release {X} `{World X} t ctx why : calm (X := X) t (release_unattended_media ctx why).
Proof. unfold release_unattended_media. solve_calm. Qed.

#[export] Hint Resolve calm_effective_timeout calm_report_live_status calm_release : infra.
