(* ===== verification/StagesVm.v ===== *)
(** * Stages: from the request to installed Windows

    The stage handlers of [app/workers/stages.py] up to [wait_for_tools].  A
    polling loop runs on fuel; when it is used up, it is as if the pipeline's
    timeout of the stage struck.  While clocks do not go back it is not: the
    deadlines of the loops end them before. *)

From Stdlib Require Import ZArith Lia Ascii String List Bool.
From Stdlib Require Import Floats.SpecFloat.
From stdpp Require Import base tactics list strings gmap.
From S2P Require Import Prelude PyStr Json Errors Schemas StateMachine Jobs AuditTrail Repository Scripts Effects.
From S2P Require Import World Guest Paths Placement Unattend AnswerIso GuestScripts StageSupport.

Local Open Scope string_scope.
Local Open Scope Z_scope.

Definition POLL_FUEL : nat := 5000.

Lemma POLL_FUEL_value : Z.of_nat POLL_FUEL = 5000.
Proof. by vm_compute. Qed.

(** [await asyncio.sleep(s)] of seconds. *)
Definition SECOND_US : Z := 1000000.

(** The list a JSON value iterates over: entries, characters, keys; [None] raises. *)
Definition iterate (v : json) : option (list json) :=
  match v with
  | JArr l => Some l
  | JStr s => Some (List.map (fun c => JStr (String c "")) (chars s))
  | JObj l => Some (List.map (fun e => JStr (fst e)) l)
  | _ => None
  end.

(** [{x.id: x for x in l}.get(k)]: a later entry wins. *)
Definition by_id {A} (id_of : A -> string) (l : list A) (k : string) : option A :=
  find_first (fun x => String.eqb (id_of x) k) (rev l).

Lemma by_id_some {A} (id_of : A -> string) l k x : by_id id_of l k = Some x -> In x l /\ id_of x = k.
Proof. unfold by_id. intros [H E]%find_first_some. rewrite <- in_rev in H. by apply String.eqb_eq in E. Qed.

Definition or_text (s d : string) : string := if String.eqb s "" then d else s.

Definition nonempty (o : option string) : option string :=
  match o with Some s => if String.eqb s "" then None else Some s | None => None end.

(** The distinct elements, each at its first place. *)
Fixpoint distinct (seen l : list string) : list string :=
  match l with
  | [] => []
  | x :: r => if bool_decide (x ∈ seen) then distinct seen r else x :: distinct (x :: seen) r
  end.

Ltac solve_tame := intros ctx; split; cbn zeta; [solve_frames|solve_calm].

Section Stages.

Context {X : Type} `{World X}.

(** ** The request *)

Definition set_statuses (i : InfrastructureStatus) (g : GuestOsStatus) (t : VMwareToolsStatus) (j : Job) : Job :=
  j <| infrastructure_status := i |> <| guest_os_status := g |> <| vmware_tools_status := t |>.

Definition policy_violation (ctx : Ctx) (policy : string) : InfraError :=
  infra_error ("The VM name " ++ SQ ++ vm_name_of ctx ++ SQ ++ " violates the configured naming policy.")
    ("Naming policy regex: " ++ policy) "Choose a compliant VM name and resubmit." "" false.

Definition check_name_policy (ctx : Ctx) (policy : string) : M X unit :=
  if String.eqb policy "" then ret tt
  else match re_fullmatch policy (vm_name_of ctx) with
       | None => throw (OtherException "error" policy)
       | Some true => ret tt
       | Some false => fail (policy_violation ctx policy)
       end.

Definition repository_error (why : string) : InfraError :=
  infra_error "Application installer repository policy is not satisfied." why
    "Configure approved installer roots and correct the application catalog before resubmitting." "" false.

Definition check_installers (ctx : Ctx) (rows : gmap string json) : M X unit :=
  let wanted := application_ids (request ctx) in
  match wanted with
  | [] => ret tt
  | _ =>
      let* all := call application_rows in
      let applications := List.filter (fun a => bool_decide (app_id a ∈ wanted)) all in
      match iterate (match rows !! SETTING_ALLOWED_INSTALLER_ROOTS with Some v => v | None => JArr [] end) with
      | None => throw (OtherException "TypeError" "object is not iterable")
      | Some roots =>
          let allowed_roots := List.map py_str roots in
          let outside := List.filter (fun p => negb (path_within_roots p allowed_roots))
                           (List.map installer_path applications) in
          match allowed_roots, outside with
          | [], _ => fail (repository_error "No approved installer roots are configured.")
          | _, [] => ret tt
          | _, _ => fail (repository_error ("Installer paths outside approved roots: " ++ join ", " outside))
          end
      end
  end.

Definition stage_validate_request (ctx : Ctx) : M X StageOutcome :=
  set_job (set_statuses INFRA_PENDING OS_UNKNOWN NOT_APPLICABLE_YET);;
  (let* rows := load_effective in
   let policy := match rows !! SETTING_VM_NAME_POLICY with
                 | Some v => if truthy v then py_str v else ""
                 | None => ""
                 end in
   check_name_policy ctx policy;;
   (let* j := get_job in
    let* duplicate := call (active_duplicates (vm_name_of ctx) (job_id j)) in
    if duplicate then
      fail (infra_error ("Another provisioning job for " ++ SQ ++ vm_name_of ctx ++ SQ ++ " is already active.")
              "Duplicate active job for the same VM name."
              "Wait for the existing job to finish or choose another name." "" false)
    else
      check_installers ctx rows;;
      (let r := request ctx in
       let n := Z.of_nat (List.length (disks (hardware r))) in
       let* at_ := now in
       ret (succeed ("Request validated." ++ NL ++ "VM: " ++ vm_name_of ctx ++ NL
              ++ "Infrastructure placement supplied." ++ NL
              ++ "CPU/Memory: " ++ str_int (cpu (hardware r)) ++ " vCPU / " ++ str_int (memory_mb (hardware r)) ++ " MB"
              ++ NL ++ "Disks: " ++ str_int n ++ " (OS disk + " ++ str_int (n - 1) ++ " data)" ++ NL
              ++ "Network: " ++ ip_mode_value (mode (network r)))
              [("validated_at", JStr (isoformat at_))])))).

(** ** vCenter *)

Definition stage_connect_vcenter (ctx : Ctx) : M X StageOutcome :=
  let* result := call (test_connection (target ctx)) in
  let host := target_host (target ctx) in
  if negb (conn_ok result) then
    fail (infra_error ("Could not connect to vCenter " ++ SQ ++ host ++ SQ ++ ".")
            (or_text (conn_detail result) "Connection test failed.")
            "Check the vCenter connection under Administration → VMware Connections." "" true)
  else
    ret (succeed ("Connected to " ++ host ++ " ("
                  ++ match latency_ms result with
                     | Some n => if n =? 0 then "?" else str_int n
                     | None => "?"
                     end ++ " ms).") []).

(** What is wrong with an explicitly selected datastore. *)
Definition datastore_problem (required : Z) (datastores : list DatastoreOut) (id : string) : option string :=
  match by_id ds_id datastores id with
  | None => Some ("datastore " ++ SQ ++ id ++ SQ ++ " inaccessible")
  | Some d =>
      if negb (accessible d) then Some ("datastore " ++ SQ ++ id ++ SQ ++ " inaccessible")
      else if free_gb d <? required * TENTH then
        Some ("datastore " ++ SQ ++ ds_name d ++ SQ ++ " has " ++ fmt_gb (free_gb d)
              ++ " GB free, needs ~" ++ str_int required ++ " GB")
      else None
  end.

Definition storage_problems (r : ProvisioningRequest) (datastores : list DatastoreOut) : list string :=
  let required := total_disk_gb r in
  let explicit := distinct [] (omap (fun d => nonempty (disk_datastore_id d)) (disks (hardware r))) in
  match explicit with
  | [] =>
      let best := match max_by (fun g => g) (List.map free_gb (List.filter accessible datastores)) with
                  | Some g => g
                  | None => 0
                  end in
      if best <? required * TENTH
      then ["no datastore with >= " ++ str_int required ++ " GB free (best " ++ fmt_gb best ++ " GB)"] else []
  | _ =>
      omap (datastore_problem required datastores) explicit
  end.

(** The problems of the placement on a cluster, and its datastores. *)
Definition check_cluster (ctx : Ctx) (cluster : ClusterOut) : M X (list string * list DatastoreOut) :=
  let r := request ctx in
  let* hosts := call (get_hosts (target ctx) (cl_id cluster)) in
  let host_problems :=
    match nonempty (host_id (compute r)) with
    | None => []
    | Some id => match by_id h_id hosts id with
                 | Some h => if available_for_provisioning h then [] else ["host " ++ SQ ++ id ++ SQ ++ " unavailable"]
                 | None => ["host " ++ SQ ++ id ++ SQ ++ " unavailable"]
                 end
    end in
  let* pool_problems :=
    match nonempty (resource_pool_id (compute r)) with
    | None => ret []
    | Some id =>
        let* pools := call (get_resource_pools (target ctx) (cl_id cluster)) in
        ret (if bool_decide (id ∈ List.map rp_id pools) then []
             else ["resource pool does not belong to the cluster"])
    end in
  let* datastores := call (get_datastores (target ctx) (cl_id cluster)) in
  ret ((host_problems ++ pool_problems ++ storage_problems r datastores)%list, datastores).

Definition opt_str (o : option string) : json := match o with Some s => JStr s | None => JNull end.

Definition stage_validate_infrastructure (ctx : Ctx) : M X StageOutcome :=
  let r := request ctx in
  let dc_id_ := compute_datacenter_id (compute r) in
  let* datacenters := call (get_datacenters (target ctx)) in
  let dc := by_id dc_id datacenters dc_id_ in
  match dc with
  | Some d => set_job (fun j => j <| datacenter_id := Some (dc_id d) |> <| datacenter_name := Some (dc_name d) |>)
  | None => ret tt
  end;;
  (let* clusters := match dc with Some _ => call (get_clusters (target ctx) dc_id_) | None => ret [] end in
   let cluster := by_id cl_id clusters (cluster_id (compute r)) in
   let* placement := match cluster with
                     | Some c => check_cluster ctx c
                     | None => ret (["compute target " ++ SQ ++ cluster_id (compute r) ++ SQ ++ " missing"], [])
                     end in
   let* networks := match dc with Some _ => call (get_networks (target ctx) dc_id_) | None => ret [] end in
   let net := by_id net_id networks (network_id (network r)) in
   let* isos := match dc with Some _ => call (get_isos (target ctx) dc_id_) | None => ret [] end in
   let image := by_id iso_image_id isos (iso_id (guest r)) in
   let dc_problem := match dc with Some _ => [] | None => ["datacenter " ++ SQ ++ dc_id_ ++ SQ ++ " missing"] end in
   let net_problem := match net with
                      | Some _ => []
                      | None => ["network " ++ SQ ++ network_id (network r) ++ SQ ++ " missing"]
                      end in
   let image_problem := match image with
                        | None => ["selected ISO missing from the datacenter"]
                        | Some i => match by_id ds_id (snd placement) (iso_datastore_id i) with
                                    | Some _ => []
                                    | None => ["selected ISO datastore unavailable to the cluster"]
                                    end
                        end in
   let problems := (dc_problem ++ fst placement ++ net_problem ++ image_problem)%list in
   match problems with
   | _ :: _ =>
       fail (infra_error "The infrastructure configuration could not be re-validated on vCenter."
               (join "; " problems)
               "Re-open the wizard, refresh the affected selections and resubmit."
               (json_dumps (JArr (List.map JStr problems))) true)
   | [] =>
       ret (succeed "Datacenter, cluster, placement, storage, network and installation ISO verified."
              [("datacenter_name", opt_str (option_map dc_name dc));
               ("network_name", opt_str (option_map net_name net));
               ("iso_name", opt_str (option_map iso_name image))])
   end).

(** ** The VM *)

(** The VM's datastore: the request's, else the one [create_vm] recorded. *)
Definition _os_disk_datastore (ctx : Ctx) : M X (option string) := fun r =>
  (Return (match list_find is_Some (List.map (fun d => nonempty (disk_datastore_id d)) (disks (hardware (request ctx)))) with
           | Some (_, Some id) => Some id
           | _ => match step_of (job (session r)) "create_vm" with
                  | Some s => get_text (artifacts s) "datastore_id"
                  | None => None
                  end
           end), r).

Definition no_datastore (detail_ : string) : InfraError :=
  infra_error "No datastore can take this VM." detail_
    ("Free space on a preferred datastore, add one under Settings → Preferred datastores, "
     ++ "or submit a new request with a datastore chosen in the wizard.") "" true.

(** The texts of a configured list; a falsy value is none. *)
Definition preferred_names (v : option json) : option (list string) :=
  match v with
  | None => Some []
  | Some v => if truthy v then option_map (List.map py_str) (iterate v) else Some []
  end.

Definition _placement_datastore (ctx : Ctx) : M X (string * string) :=
  let r := request ctx in
  let* datastores := call (get_datastores (target ctx) (cluster_id (compute r))) in
  let* requested := _os_disk_datastore ctx in
  match requested with
  | Some id =>
      let name := match find_first (fun d => String.eqb (ds_id d) id) datastores with
                  | Some d => ds_name d
                  | None => id
                  end in
      ret (id, name ++ " (selected in the request)")
  | None =>
      let* rows := load_effective in
      match preferred_names (rows !! SETTING_PREFERRED_DATASTORES) with
      | None => throw (OtherException "TypeError" "object is not iterable")
      | Some names =>
          let choice := choose_automatic_datastore datastores names (total_disk_gb r) in
          match datastore choice with
          | None => fail (no_datastore (detail choice))
          | Some d => ret (ds_id d, detail choice)
          end
      end
  end.

Definition set_infrastructure (i : InfrastructureStatus) : M X unit :=
  set_job (fun j => j <| infrastructure_status := i |>).

Definition foreign_vm (ctx : Ctx) (existing : VmOwnership) (job_marker : string) : InfraError :=
  infra_error ("A virtual machine named " ++ SQ ++ vm_name_of ctx ++ SQ
               ++ " already exists and was not created by this job.")
    ("The VM name is taken by an existing VM"
     ++ match nonempty (owner_job_id existing) with
        | Some o => " created by another InfraOps job (" ++ o ++ ")."
        | None => " that carries no InfraOps ownership marker."
        end)
    "Choose a different VM name and submit a new request. InfraOps did not modify the existing VM."
    ("vm_id=" ++ owner_vm_id existing ++ " owner=" ++ repr_json (opt_str (owner_job_id existing))
     ++ " job=" ++ job_marker) false.

Definition create_spec (ctx : Ctx) (os_disk : DiskSpec) (datastore_id job_marker : string) : VmCreateSpec :=
  let r := request ctx in
  MkCreateSpec (vm_name_of ctx) (compute_datacenter_id (compute r)) (iso_id (guest r)) os_disk (description (vm r))
    (cluster_id (compute r)) (host_id (compute r)) (resource_pool_id (compute r)) (Some datastore_id)
    (cpu (hardware r)) (memory_mb (hardware r)) (firmware (hardware r)) (secure_boot (hardware r)) (Some job_marker).

Definition vm_created_audit (ctx : Ctx) (j : Job) (ref : VmRef) (datastore_id : string) : AuditEvent :=
  let r := request ctx in
  audit_event "VM_CREATED" (actor_username ctx) "virtual_machine" (Some (ref_name ref)) (Some (job_id j))
    (Some (compute_datacenter_id (compute r))) (datacenter_name j) (Some "success")
    [("computer_name", opt_str (nonempty (Some (effective_computer_name r))));
     ("requested_fqdn", opt_str (effective_fqdn r)); ("iso_id", JStr (iso_id (guest r)));
     ("vm_id", JStr (ref_id ref)); ("datastore_id", JStr datastore_id)] None.

Definition create_new_vm (ctx : Ctx) (job_marker : string) : M X StageOutcome :=
  match disks (hardware (request ctx)) with
  | [] => throw (OtherException "IndexError" "list index out of range")
  | os_disk :: data =>
      let* chosen := _placement_datastore ctx in
      let '(datastore_id, placement) := chosen in
      let* ref := call (create_vm (target ctx) (create_spec ctx os_disk datastore_id job_marker)) in
      set_vm_ref ref;;
      set_infrastructure INFRA_READY;;
      (let* j := get_job in record_audit (vm_created_audit ctx j ref datastore_id));;
      ret (succeed
        ("Created " ++ SQ ++ ref_name ref ++ SQ ++ " powered off with its " ++ str_int (size_gb os_disk)
         ++ " GB OS disk, the Windows installation ISO and the host's VMware Tools ISO." ++ NL
         ++ "Datastore: " ++ placement ++ "."
         ++ match data with
            | [] => ""
            | _ => NL ++ str_int (Z.of_nat (List.length data))
                   ++ " data disk(s) are added on the same datastore after Windows is installed."
            end)
        [("vm_id", JStr (ref_id ref)); ("vm_name", JStr (ref_name ref)); ("owner_job_id", JStr job_marker);
         ("datastore_id", JStr datastore_id); ("datastore", JStr placement)])
  end.

Definition stage_create_vm (ctx : Ctx) : M X StageOutcome :=
  let* j := get_job in
  let job_marker := job_id j in
  set_infrastructure CREATING;;
  (let* existing := call (find_vm_ownership (target ctx) (vm_name_of ctx)) in
   match existing with
   | Some e =>
       if negb (bool_decide (owner_job_id e = Some job_marker)) then
         set_infrastructure INFRA_FAILED;; fail (foreign_vm ctx e job_marker)
       else
         set_vm_ref (MkVmRef (owner_vm_id e) (owner_vm_name e));;
         set_infrastructure INFRA_READY;;
         ret (skip ("VM " ++ SQ ++ vm_name_of ctx ++ SQ
                    ++ " was already created by this job (ownership marker verified) — "
                    ++ "resuming with it instead of creating it again.")
                [("vm_id", JStr (owner_vm_id e)); ("vm_name", JStr (owner_vm_name e));
                 ("owner_job_id", JStr job_marker)])
   | None => create_new_vm ctx job_marker
   end).

Definition stage_configure_hardware (ctx : Ctx) : M X StageOutcome :=
  let* vm_id := _require_vm_id ctx in
  let hw := hardware (request ctx) in
  call (configure_hardware (target ctx) vm_id (cpu hw) (memory_mb hw));;
  ret (succeed ("CPU: " ++ str_int (cpu hw) ++ " vCPU" ++ NL ++ "Memory: " ++ str_int (memory_mb hw) ++ " MB" ++ NL
                ++ "Firmware: " ++ firmware_value (firmware hw) ++ (if secure_boot hw then " + Secure Boot" else "")) []).

Definition stage_attach_network_adapter (ctx : Ctx) : M X StageOutcome :=
  let* vm_id := _require_vm_id ctx in
  let net := network (request ctx) in
  call (attach_network (target ctx) vm_id (network_id net) (adapter_type net)
          (compute_datacenter_id (compute (request ctx))));;
  ret (succeed (adapter_value (adapter_type net) ++ " network adapter connected.") []).

(** ** Unattended installation *)

(** [JobRunContext.resolve_guest_credentials] *)
Definition resolve_guest_credentials (ctx : Ctx) : M X GuestCredentials :=
  let base := credential_secret_ref (guest (request ctx)) in
  let* username := call (get_secret (base ++ "/username")) in
  let* password := call (get_secret (base ++ "/password")) in
  ret (MkCredentials username password).

Definition answer_spec (ctx : Ctx) (credentials : GuestCredentials) (key : option string) (builtin : string)
    : WindowsUnattendSpec :=
  let g := guest (request ctx) in
  MkUnattend (effective_computer_name (request ctx)) (cred_username credentials) (cred_password credentials)
    (windows_image_index g) (installation_locale g) (input_locale g)
    (match nonempty (timezone g) with Some z => z | None => "UTC" end)
    (firmware_value (firmware (hardware (request ctx)))) key (Some (builtin ++ "aA1!")).

Definition answer_file_error (why : string) : InfraError :=
  infra_error "The answer file could not be generated from the selected credentials." why
    ("Select a provisioning credential whose username is a local account such as "
     ++ "'Administrator' and, for a product key, a valid 25-character key; then submit a new request.") "" false.

Definition stage_prepare_unattended_install (ctx : Ctx) : M X StageOutcome :=
  let* vm_id := _require_vm_id ctx in
  let* credentials := resolve_guest_credentials ctx in
  let* key := match nonempty (product_key_secret_ref (guest (request ctx))) with
              | Some ref => let* k := call (get_secret (ref ++ "/password")) in ret (Some (strip k))
              | None => ret None
              end in
  let* builtin := draw (token_urlsafe 24) in
  match build_autounattend_xml (answer_spec ctx credentials key builtin) with
  | Err why => fail (answer_file_error why)
  | Ok xml =>
      let* j := get_job in
      let* datastore_id := _os_disk_datastore ctx in
      let* path := call (attach_answer_media (target ctx) vm_id (compute_datacenter_id (compute (request ctx)))
                           datastore_id ("infraops-" ++ job_id j ++ ".iso") (build_answer_media (chars xml))) in
      ret (succeed
        ("Temporary answer media attached as a CD drive. Windows Setup installs the selected "
         ++ "image to disk 0 and configures the administrator account, locale, keyboard, time zone "
         ++ "and computer name without showing any page"
         ++ match nonempty key with Some _ => ", using the selected product key." | None => "." end)
        [("datastore_path", JStr path)])
  end.

Definition _HID_SPACEBAR : Z := 44.
Definition _BOOT_KEY_SECONDS : Z := 45.
Definition _BOOT_KEY_INTERVAL_SECONDS : Z := 3.

Definition keystroke_error (e : InfraError) : InfraError :=
  infra_error "Windows Setup could not be started from the ISO."
    ("The installation media waits for a key press, and vCenter refused the keystroke: " ++ human_message e)
    ("Grant the vCenter service account 'Virtual machine > Interaction > Inject USB "
     ++ "HID scan codes', then retry this stage (the VM is reset and the key is sent again).")
    (technical_detail e) true.

Fixpoint press_keys (ctx : Ctx) (vm_id : string) (fuel : nat) (stop_at sent : Z) : M X Z :=
  match fuel with
  | O => throw (Cancelled Timeout)
  | S fuel' =>
      let* n := catch_infra (call (send_keystrokes (target ctx) vm_id [_HID_SPACEBAR]))
                  (fun e => fail (keystroke_error e)) in
      let* time := monotonic in
      if stop_at <=? time then ret (sent + n)
      else call (sleep (_BOOT_KEY_INTERVAL_SECONDS * SECOND_US));; press_keys ctx vm_id fuel' stop_at (sent + n)
  end.

Definition press_key_to_boot_from_iso (ctx : Ctx) (vm_id : string) : M X Z :=
  let* start := monotonic in
  press_keys ctx vm_id POLL_FUEL (start + _BOOT_KEY_SECONDS * SECOND_US) 0.

Definition powered_on (info : option PowerStateInfo) : bool :=
  match info with Some i => String.eqb (power_state i) "poweredOn" | None => false end.

Definition stage_power_on (ctx : Ctx) : M X StageOutcome :=
  let* vm_id := _require_vm_id ctx in
  let* info := call (get_vm_info (target ctx) (vm_name_of ctx)) in
  let already_on := powered_on info in
  (if already_on then call (reset (target ctx) vm_id) else call (power_on (target ctx) vm_id));;
  (let* sent := press_key_to_boot_from_iso ctx vm_id in
   set_job (fun j => j <| guest_os_status := INSTALLATION_IN_PROGRESS |>);;
   ret (succeed
     ((if already_on then "Reset" else "Power-on") ++ " task completed. The space bar was pressed "
      ++ str_int sent ++ " time(s) during the first " ++ str_int _BOOT_KEY_SECONDS ++ " seconds to answer the "
      ++ "installation media's 'Press any key to boot from CD or DVD' prompt.")
     [("boot_keys_sent", JNum sent)])).

(** ** Watching Setup *)

Definition _SETUP_POLL_SECONDS : Z := 20.
Definition _SETUP_STATUS_SECONDS : Z := 60.
Definition _SETUP_STALL_SECONDS : Z := 30 * 60.
Definition _SETUP_BUSY_MIN_MHZ : Z := 100.

(** The double nearest to 0.03. *)
Definition _SETUP_BUSY_SHARE : spec_float := S754_finite false 8646911284551352 (-58).

Definition of_int (n : Z) : spec_float := binary_normalize 53 1024 n 0 false.

Definition opt_is (o : option string) (l : list string) : bool :=
  match o with Some s => existsb (String.eqb s) l | None => false end.

Definition _tools_ready (i : PowerStateInfo) : bool :=
  guest_operations_ready i
  && (opt_is (tools_running_status i) ["guestToolsRunning"] || opt_is (tools_status i) ["toolsOk"; "toolsOld"]).

Definition opt_z (o : option Z) : Z := match o with Some n => n | None => 0 end.

Definition _vm_busy (i : PowerStateInfo) : bool :=
  let usage := opt_z (cpu_usage_mhz i) in
  let share := fmul (of_int (opt_z (cpu_capacity_mhz i))) _SETUP_BUSY_SHARE in
  (_SETUP_BUSY_MIN_MHZ <=? usage) && SFleb share (of_int usage).

(** Durations are microseconds. *)
Definition _minutes (time : Z) : string :=
  let minutes := time / (60 * SECOND_US) in
  if minutes <? 60 then str_int minutes ++ " min"
  else str_int (minutes / 60) ++ " h " ++ (if minutes mod 60 <? 10 then "0" else "") ++ str_int (minutes mod 60) ++ " min".

(** [f"{x:.1f}"] of a finite non-negative double: its exact value rounded half
    to even. *)
Definition fixed_1 (x : spec_float) : string :=
  let tenths := match x with
                | S754_finite _ m e =>
                    if 0 <=? e then Z.shiftl (Zpos m) e * 10
                    else let d := Z.shiftl 1 (- e) in
                         let q := Zpos m * 10 / d in
                         let r := (Zpos m * 10) mod d in
                         if 2 * r <? d then q else if d <? 2 * r then q + 1 else if Z.even q then q else q + 1
                | _ => 0
                end in
  str_int (tenths / 10) ++ "." ++ str_int (tenths mod 10).

Definition _cpu_text (i : PowerStateInfo) : string :=
  let usage := opt_z (cpu_usage_mhz i) in
  if 1000 <=? usage then fixed_1 (fdiv (of_int usage) (of_int 1000)) ++ " GHz" else str_int usage ++ " MHz".

Definition cpu_detail (i : PowerStateInfo) : string :=
  match cpu_usage_mhz i with Some n => str_int n | None => "None" end.

Definition vm_disappeared : InfraError :=
  infra_error "The VM disappeared from vCenter while Windows was installing."
    "It was deleted or unregistered outside InfraOps." "Submit a new request." "" false.

Definition vm_powered_off (i : PowerStateInfo) : InfraError :=
  infra_error "The VM was powered off while Windows was installing."
    ("vCenter reports the VM as " ++ power_state i ++ ".")
    ("Check the VM's events in vCenter. Power it on to let Setup continue, then retry "
     ++ "this stage, or submit a new request.") "" true.

Definition setup_stalled (i : PowerStateInfo) (elapsed_ idle : Z) : InfraError :=
  infra_error "Windows Setup stopped making progress."
    ("After " ++ _minutes elapsed_ ++ " the VM has been idle for " ++ _minutes idle ++ " and VMware "
     ++ "Tools has not reported, so Setup is most likely waiting on a page or an error. "
     ++ "Without VMware Tools InfraOps cannot configure the network, domain or software.")
    ("Check the console screenshot in the administrator diagnostics: an EFI boot list "
     ++ "or 'Press any key to boot from CD or DVD' means Setup never started; a Windows "
     ++ "Setup page or error usually points at the edition, product key or ISO. A Windows "
     ++ "desktop means Windows installed but VMware Tools did not: the InfraOps window on "
     ++ "the desktop and " ++ FIRST_LOGON_LOG ++ " show whether the host's Tools ISO "
     ++ "([] /vmimages/tools-isoimages/windows.iso) was missing or its installer failed "
     ++ "(installer log: " ++ TOOLS_MSI_LOG ++ "). Fix the cause and submit a new request.")
    ("elapsed=" ++ str_int (elapsed_ / SECOND_US) ++ "s idle=" ++ str_int (idle / SECOND_US)
     ++ "s cpu=" ++ cpu_detail i ++ "MHz") true.

Definition setup_timed_out (i : PowerStateInfo) (activity : string) (elapsed_ timeout : Z) : InfraError :=
  infra_error ("Windows Setup did not finish within the " ++ _minutes timeout ++ " limit.")
    ("The VM was still active (" ++ activity ++ ") but VMware Tools never reported. "
     ++ "Installation on this host is unusually slow; it normally takes 15–40 minutes.")
    ("Check the console screenshot. If Setup is still progressing, raise 'Install "
     ++ "Windows' under Settings → Default operation time limits and retry this stage — "
     ++ "Setup keeps running meanwhile. Also check the host's load and the datastore "
     ++ "performance of the VM and its ISO.")
    ("elapsed=" ++ str_int (elapsed_ / SECOND_US) ++ "s cpu=" ++ cpu_detail i ++ "MHz") true.

Definition setup_activity (i : PowerStateInfo) (idle : Z) : string :=
  if idle <? _SETUP_POLL_SECONDS * SECOND_US then "VM busy (CPU " ++ _cpu_text i ++ ")"
  else "VM idle for " ++ _minutes idle ++ " (CPU " ++ _cpu_text i ++ ")".

(** The loop of [stage_wait_for_guest_os]: it ends with the state of a VM whose
    Tools are ready. *)
Fixpoint watch_setup (ctx : Ctx) (vm_id : string) (fuel : nat) (timeout started deadline last_busy : Z)
    (last_report : option Z) : M X PowerStateInfo :=
  match fuel with
  | O => throw (Cancelled Timeout)
  | S fuel' =>
      let* time := monotonic in
      let* info := call (get_vm_info_by_id (target ctx) vm_id) in
      match info with
      | None => fail vm_disappeared
      | Some i =>
          if _tools_ready i then ret i
          else if negb (String.eqb (power_state i) "poweredOn") then fail (vm_powered_off i)
          else
            let last_busy' := if _vm_busy i then time else last_busy in
            let idle := time - last_busy' in
            let elapsed_ := time - started in
            let activity := setup_activity i idle in
            let due_report := match last_report with
                              | None => true
                              | Some at_ => _SETUP_STATUS_SECONDS * SECOND_US <=? time - at_
                              end in
            (if due_report then
               report_live_status ctx "wait_for_guest_os"
                 ("Windows Setup running for " ++ _minutes elapsed_ ++ ": " ++ activity ++ "; VMware Tools not "
                  ++ "installed yet (it is installed at the first logon after Setup).")
             else ret tt);;
            (if _SETUP_STALL_SECONDS * SECOND_US <=? idle then fail (setup_stalled i elapsed_ idle)
             else if deadline <=? time then fail (setup_timed_out i activity elapsed_ timeout)
             else
               call (sleep (Z.min (_SETUP_POLL_SECONDS * SECOND_US) (Z.max 0 (deadline - time))));;
               watch_setup ctx vm_id fuel' timeout started deadline last_busy'
                 (if due_report then Some time else last_report))
      end
  end.

Definition not_windows (family : string) : InfraError :=
  infra_error ("The installed guest reports " ++ SQ ++ family ++ SQ ++ ", not Windows.")
    "Only Windows Server installation media is supported."
    "Select a Windows Server ISO and submit a new request." "" false.

Definition stage_wait_for_guest_os (ctx : Ctx) : M X StageOutcome :=
  let* vm_id := _require_vm_id ctx in
  set_job (fun j => j <| guest_os_status := INSTALLATION_IN_PROGRESS |> <| vmware_tools_status := NOT_APPLICABLE_YET |>
                      <| guest_provisioning_status := WAITING_FOR_OS |>);;
  (let* seconds := effective_timeout_seconds "wait_for_guest_os" in
   let* started := monotonic in
   let timeout := seconds * SECOND_US in
   let deadline := started + Z.max (_SETUP_POLL_SECONDS * SECOND_US) (timeout - 60 * SECOND_US) in
   let* info := watch_setup ctx vm_id POLL_FUEL timeout started deadline started None in
   match nonempty (guest_family info) with
   | Some family => if contains (casefold family) "windows" then ret tt else fail (not_windows family)
   | None => ret tt
   end;;
   set_job (fun j => j <| guest_os_status := OS_READY |> <| guest_provisioning_status := IN_PROGRESS |>);;
   set_step "wait_for_guest_os" (fun s => s <| artifacts := delete "live_status" (artifacts s) |>);;
   (let* finished := monotonic in
    ret (succeed
      ("Windows was installed unattended from the ISO in " ++ _minutes (finished - started) ++ ". "
       ++ "VMware Tools, which Windows installs at the first logon after Setup and OOBE, is running"
       ++ match nonempty (guest_host_name info) with
          | Some n => " and reports the computer name " ++ SQ ++ n ++ SQ ++ "."
          | None => "."
          end)
      [("windows_setup", JObj [("computer_name", opt_str (guest_host_name info))])]))).

Definition stage_wait_for_tools (ctx : Ctx) : M X StageOutcome :=
  let* info := call (get_vm_info (target ctx) (vm_name_of ctx)) in
  let state := _tools_lifecycle info in
  set_job (fun j => j <| vmware_tools_status := state |>);;
  match state with
  | TOOLS_RUNNING => ret (succeed "VMware Tools is installed, current, and running." [])
  | OUTDATED =>
      ret (MkOutcome "WARNING"
             ("VMware Tools is running but outdated (the host's Tools ISO is older than the "
              ++ "latest release). Provisioning continued; upgrade Tools during regular patching.") ∅)
  | _ =>
      fail (infra_error "VMware Tools stopped reporting after Windows was installed."
              ("VMware Tools state: " ++ tools_status_value state ++ ".")
              ("Check the console screenshot in the administrator diagnostics, then retry this stage; "
               ++ "InfraOps does not reinstall Tools over a running installation.") "" true)
  end.

(** ** Frames and calm *)

Opaque POLL_FUEL.

Lemma frames_os_disk_datastore ctx : frames (X := X) (_os_disk_datastore ctx).
Proof. intros r. apply frame_refl. Qed.
Lemma calm_os_disk_datastore t ctx : calm (X := X) t (_os_disk_datastore ctx).
Proof. intros r Hr. split; [done|discriminate]. Qed.
Hint Resolve frames_os_disk_datastore calm_os_disk_datastore : infra.

Lemma frames_placement_datastore ctx : frames (_placement_datastore ctx).
Proof. unfold _placement_datastore. cbn zeta. solve_frames. Qed.
Lemma calm_placement_datastore t ctx : calm t (_placement_datastore ctx).
Proof. unfold _placement_datastore. cbn zeta. solve_calm. Qed.
Hint Resolve frames_placement_datastore calm_placement_datastore : infra.

Lemma frames_credentials ctx : frames (resolve_guest_credentials ctx).
Proof. unfold resolve_guest_credentials. cbn zeta. solve_frames. Qed.
Lemma calm_credentials t ctx : calm t (resolve_guest_credentials ctx).
Proof. unfold resolve_guest_credentials. cbn zeta. solve_calm. Qed.
Hint Resolve frames_credentials calm_credentials : infra.

Lemma frames_press_keys ctx vm_id fuel stop sent : frames (press_keys ctx vm_id fuel stop sent).
Proof. revert sent. induction fuel; intros; cbn [press_keys]; solve_frames. Qed.
Lemma calm_press_keys ctx vm_id fuel stop sent : calm true (press_keys ctx vm_id fuel stop sent).
Proof. revert sent. induction fuel; intros; cbn [press_keys]; solve_calm. Qed.
Hint Resolve frames_press_keys calm_press_keys : infra.

Lemma frames_watch_setup ctx vm_id fuel timeout started deadline busy rep :
  frames (watch_setup ctx vm_id fuel timeout started deadline busy rep).
Proof. revert busy rep. induction fuel; intros; cbn [watch_setup]; cbn zeta; solve_frames. Qed.
Lemma calm_watch_setup ctx vm_id fuel timeout started deadline busy rep :
  calm true (watch_setup ctx vm_id fuel timeout started deadline busy rep).
Proof. revert busy rep. induction fuel; intros; cbn [watch_setup]; cbn zeta; solve_calm. Qed.
Hint Resolve frames_watch_setup calm_watch_setup : infra.

(** A stage handler respects the pipeline's bookkeeping. *)
Definition tame_stage (t : bool) (h : Ctx -> M X StageOutcome) : Prop := forall ctx, frames (h ctx) /\ calm t (h ctx).

Lemma tame_validate_request t : tame_stage t stage_validate_request.
Proof. unfold stage_validate_request, check_name_policy, check_installers. solve_tame. Qed.
Lemma tame_connect_vcenter t : tame_stage t stage_connect_vcenter.
Proof. unfold stage_connect_vcenter. solve_tame. Qed.
Lemma tame_validate_infrastructure t : tame_stage t stage_validate_infrastructure.
Proof. unfold stage_validate_infrastructure, check_cluster. solve_tame. Qed.
Lemma tame_create_vm t : tame_stage t stage_create_vm.
Proof. unfold stage_create_vm, create_new_vm, set_infrastructure. solve_tame. Qed.
Lemma tame_configure_hardware t : tame_stage t stage_configure_hardware.
Proof. unfold stage_configure_hardware. solve_tame. Qed.
Lemma tame_attach_network t : tame_stage t stage_attach_network_adapter.
Proof. unfold stage_attach_network_adapter. solve_tame. Qed.
Lemma tame_prepare t : tame_stage t stage_prepare_unattended_install.
Proof. unfold stage_prepare_unattended_install. solve_tame. Qed.
Lemma tame_power_on : tame_stage true stage_power_on.
Proof. unfold stage_power_on, press_key_to_boot_from_iso. solve_tame. Qed.
Lemma tame_wait_for_guest_os : tame_stage true stage_wait_for_guest_os.
Proof. unfold stage_wait_for_guest_os. solve_tame. Qed.
Lemma tame_wait_for_tools t : tame_stage t stage_wait_for_tools.
Proof. unfold stage_wait_for_tools. solve_tame. Qed.

(** ** Deadlines

    The loops end by themselves, before their fuel is used up: each turn takes
    its pause, and the deadline is tested on every turn. *)

Section Deadlines.
Context {clocks : ClockLaws X}.

Lemma press_keys_end ctx vm_id fuel stop sent r :
  undisturbed r -> (0 < fuel)%nat -> stop - loop_time (world r) <= _BOOT_KEY_INTERVAL_SECONDS * SECOND_US * (Z.of_nat fuel - 1) ->
  wp (press_keys ctx vm_id fuel stop sent) at_ease r.
Proof.
  revert sent r. induction fuel as [|fuel IH]; intros sent r U F D; [lia|]. cbn [press_keys].
  apply at_ease_patient; [done|solve_calm|solve_patient|]. intros n r1 U1 [_ L].
  apply at_ease_monotonic.
  destruct (Z.leb_spec stop (loop_time (world r1))) as [E|E]; [by split|].
  unfold _BOOT_KEY_INTERVAL_SECONDS, SECOND_US in *. apply at_ease_sleep; [done|lia|]. intros r2 U2 _ S. apply IH; [done|lia..].
Qed.

Lemma press_key_ends ctx vm_id : calm false (press_key_to_boot_from_iso ctx vm_id).
Proof.
  apply calm_at_ease. intros r U. apply at_ease_monotonic. pose proof POLL_FUEL_value as F. generalize dependent POLL_FUEL. intros fuel F.
  apply press_keys_end; [done|lia|].
  unfold _BOOT_KEY_SECONDS, _BOOT_KEY_INTERVAL_SECONDS, SECOND_US. lia.
Qed.

Lemma patient_live_status ctx key text_ : patient (report_live_status ctx key text_).
Proof. unfold report_live_status, commit, publish_stage, set_step, set_job. solve_patient. Qed.
Hint Resolve patient_live_status : clock.

Lemma watch_setup_ends ctx vm_id fuel timeout started deadline busy rep r :
  undisturbed r -> (0 < fuel)%nat -> deadline - loop_time (world r) <= _SETUP_POLL_SECONDS * SECOND_US * (Z.of_nat fuel - 1) ->
  wp (watch_setup ctx vm_id fuel timeout started deadline busy rep) at_ease r.
Proof.
  revert busy rep r. induction fuel as [|fuel IH]; intros busy rep r U F D; [lia|].
  unfold _SETUP_POLL_SECONDS, SECOND_US in D. cbn [watch_setup]. set (time := loop_time (world r)) in *.
  apply at_ease_monotonic. fold time.
  apply at_ease_patient; [done|solve_calm|solve_patient|]. intros [i|] r1 U1 [_ L1]; [|by split].
  destruct (_tools_ready i); [by split|]. destruct (negb _); [by split|]. cbn zeta.
  apply at_ease_patient; [done|solve_calm|solve_patient|]. intros [] r2 U2 [_ L2]. fold time in L1.
  destruct (_ <=? _); [by split|]. destruct (Z.leb_spec deadline time) as [E|E]; [by split|].
  unfold _SETUP_POLL_SECONDS, SECOND_US. apply at_ease_sleep; [done|lia|]. intros r3 U3 _ S. apply IH; [done|lia|].
  unfold _SETUP_POLL_SECONDS, SECOND_US. lia.
Qed.

(** The largest time limit the settings accept for installing Windows. *)
Definition setup_limited : Prop :=
  forall (x : X) rows y, setting_rows x = (Ok rows, y) ->
    timeout_with (timeout_override (read_stored_value <$> overlay rows)) "wait_for_guest_os" <= 720 * 60.

Lemma setup_limit (r : Run X) seconds : setup_limited ->
  fst (effective_timeout_seconds "wait_for_guest_os" r) = Return seconds -> seconds <= 720 * 60.
Proof.
  intros L. unfold effective_timeout_seconds, load_effective, bind, catch_exception, call, await, ret.
  assert (D : timeout_with [] "wait_for_guest_os" <= 720 * 60) by by vm_compute.
  assert (G : forall r0 : Run X, match setting_rows (world r0) with (Ok rows, _) =>
                timeout_with (timeout_override (read_stored_value <$> overlay rows)) "wait_for_guest_os" <= 720 * 60 | _ => True end).
  { intros r0. pose proof (L (world r0)) as G. destruct (setting_rows (world r0)) as [[rows|e] y]; [by apply (G rows y)|done]. }
  destruct (pending r) as [[[|n] k b]|]; cbn [after_awaits interrupt_kind].
  - done.
  - specialize (G (r <| pending := Some (MkInterrupt n k b) |>)). cbn [interrupt_kind in_flight_lands].
    destruct (setting_rows _) as [[rows|e] y]; cbn [outcome_of]; [by intros [= <-]|]. destruct e; cbn; by intros [= <-].
  - specialize (G r). destruct (setting_rows _) as [[rows|e] y]; cbn [outcome_of]; [by intros [= <-]|]. destruct e; cbn; by intros [= <-].
Qed.

Lemma power_on_ends : tame_stage false stage_power_on.
Proof. pose proof press_key_ends. intros ctx. split; [apply tame_power_on|]. unfold stage_power_on. solve_calm. Qed.

Lemma wait_for_guest_os_ends : setup_limited -> tame_stage false stage_wait_for_guest_os.
Proof.
  intros Lim ctx. split; [apply tame_wait_for_guest_os|]. unfold stage_wait_for_guest_os.
  do 2 (apply calm_bind; [solve_calm|]; intros ?).
  apply (calm_bind_value (fun s => s <= 720 * 60)); [unfold effective_timeout_seconds; solve_calm|intros r s; by apply setup_limit|].
  intros s Ls. apply calm_at_ease. intros r U. apply at_ease_monotonic. set (started := loop_time (world r)). cbv zeta.
  pose proof POLL_FUEL_value as F. generalize dependent POLL_FUEL. intros fuel F.
  set (deadline := started + _). assert (W : wp (watch_setup ctx a fuel (s * SECOND_US) started deadline started None) at_ease r).
  { apply watch_setup_ends; [done|lia|]. unfold deadline, started, _SETUP_POLL_SECONDS, SECOND_US. lia. }
  apply at_ease_bind; [exact W|]. intros info _. apply calm_at_ease; [solve_calm|exact (proj1 W)].
Qed.

End Deadlines.

End Stages.

#[export] Hint Resolve frames_os_disk_datastore calm_os_disk_datastore frames_credentials calm_credentials : infra.
