(* ===== verification/VSphereFacts.v ===== *)
(** * What the vSphere adapter guarantees

    Theorems on [VSphere.v] over any vCenter that satisfies [VCenterLaws]:
    creation only ever adds a VM of the requested name with the marker of its
    job, the stage that calls it never takes over another VM, disks are added
    once and on free units, and media and adapters end as asked. *)

From Stdlib Require Import ZArith Lia Ascii String List Bool.
From stdpp Require Import base tactics strings gmap list.
From S2P Require Import Prelude PyStr Errors Schemas Jobs AuditTrail Effects World InventoryRefs VCenter VSphere.
From S2P Require Import StageSupport StagesVm.

Local Open Scope string_scope.
Local Open Scope Z_scope.

(** ** What the development relies on of vCenter *)

(** A device without its keys. *)
Definition shape (d : Device) : Device :=
  match d with
  | VirtualDisk _ _ u s t => VirtualDisk 0 0 u s t
  | VirtualCdrom _ _ u b c => VirtualCdrom 0 0 u b c
  | d => with_key 0 d
  end.

(** The options of an [extraConfig] under one key. *)
Definition options_of (k : string) (l : list (string * string)) : list (string * string) :=
  List.filter (fun o => String.eqb (fst o) k) l.

(** The VM a creation asks for, in an inventory that had no VM of its
    identifier: everything requested is there; the host adds the devices and
    options of its own that every VM gets. *)
Definition as_configured (inv : Inventory) (config : ConfigSpec) (v : VirtualMachine) : Prop :=
  find_vm inv (v_moid v) = None /\ v_name v = c_name config /\ v_annotation v = Some (c_annotation config)
  /\ v_cpu v = c_cpu config /\ v_memory v = c_memory config
  /\ (forall k, In k (List.map fst (c_extra config)) -> options_of k (v_extra v) = options_of k (c_extra config))
  /\ (forall d, In (AddDevice d) (c_changes config) -> In (shape d) (List.map shape (v_devices v))).

(** The keys a reconfiguration gives to the devices it adds: any that are free. *)
Definition fresh_keys (key : list Device -> Z) : Prop := forall devices, ~ In (key devices) (List.map device_key devices).

(** What a reconfiguration makes of the inventory. *)
Definition reconfigures (id : string) (spec : ReconfigSpec) (a b : Inventory) : Prop :=
  exists key, fresh_keys key /\ b = update_vm id (reconfigured key spec) a.

Definition add_vm (v : VirtualMachine) (inv : Inventory) : Inventory := inv <| vms := (vms inv ++ [v])%list |>.

Definition keeps {V A} `{VCenterApi V} (op : Op V A) : Prop := forall v, inventory (snd (op v)) = inventory v.

(** A task that succeeded has taken effect; of one that failed or was
    cancelled the effect may still have been applied.  Nothing else the
    adapter calls changes machines, and nobody but the adapter changes the
    inventory while one of its operations runs. *)
Class VCenterLaws (V : Type) `{VCenterApi V} `{SecretsProvider V} := {
  create_task dc config pool host v :
    let '(o, v') := run_task (CreateVM_Task dc config pool host) v in
    match o with
    | Ok (Some id) => exists m, v_moid m = id /\ as_configured (inventory v) config m /\ inventory v' = add_vm m (inventory v)
    | _ => inventory v' = inventory v
           \/ exists m, as_configured (inventory v) config m /\ inventory v' = add_vm m (inventory v)
    end;
  reconfig_task id spec v :
    let '(o, v') := run_task (ReconfigVM_Task id spec) v in
    match o with
    | Ok _ => reconfigures id spec (inventory v) (inventory v')
    | Err _ => inventory v' = inventory v \/ reconfigures id spec (inventory v) (inventory v')
    end;
  connect_keeps target user password : keeps (SmartConnect target user password);
  secret_keeps name : keeps (get_secret name);
  disconnect_keeps instance v : inventory (disconnect instance v) = inventory v;
  sessions_keep c v : inventory (put_sessions c v) = inventory v;
}.

Section Facts.
Context {V : Type} `{VCenterLaws V}.

(** ** Operations that leave the inventory alone *)

Lemma keeps_ret {A} (a : A) : keeps (oret a).
Proof. done. Qed.
Lemma keeps_throw {A} f : keeps (othrow (A := A) f).
Proof. done. Qed.
Lemma keeps_bind {A B} (m : Op V A) (k : A -> Op V B) : keeps m -> (forall a, keeps (k a)) -> keeps (obind m k).
Proof.
  intros Hm Hk v. unfold obind. specialize (Hm v). destruct (m v) as [[a|e] v1]; cbn in *; [|done]. by rewrite Hk.
Qed.
Lemma keeps_catch {A} (m : Op V A) h : keeps m -> (forall f, keeps (h f)) -> keeps (ocatch m h).
Proof.
  intros Hm Hh v. unfold ocatch. specialize (Hm v). destruct (m v) as [[a|e] v1]; cbn in *; [done|]. by rewrite Hh.
Qed.
Lemma keeps_content : keeps _content.
Proof. done. Qed.
Lemma keeps_lift {A} (r : res Fault A) : keeps (lift_res r).
Proof. done. Qed.
Lemma keeps_wrapping {A} o (m : Op V A) : keeps m -> keeps (wrapping o m).
Proof. intros Hm. by apply keeps_catch. Qed.

Lemma keeps_evict id : keeps (cache_evict id).
Proof. intros v. unfold cache_evict. repeat case_match; cbn; by rewrite ?disconnect_keeps, ?sessions_keep. Qed.
Lemma keeps_put id i f : keeps (cache_put id i f).
Proof. intros v. cbn. by rewrite sessions_keep. Qed.
Lemma keeps_get id f : keeps (cache_get id f).
Proof. intros v. unfold cache_get. repeat case_match; cbn; by rewrite ?disconnect_keeps, ?sessions_keep. Qed.

Lemma keeps_get_session target : keeps (_get_session target).
Proof.
  apply keeps_bind; [apply secret_keeps|]. intros user. apply keeps_bind; [apply secret_keeps|]. intros password.
  apply keeps_bind; [apply keeps_get|]. intros [i|]; [apply keeps_ret|].
  apply keeps_bind; [|intros i; apply keeps_bind; [apply keeps_put|intros; apply keeps_ret]].
  apply keeps_wrapping, keeps_bind; [apply keeps_wrapping, connect_keeps|]. intros [i|]; done.
Qed.

(** Whatever relation contains the changes of [fn] contains those of its session. *)
Lemma session_moves {A} (R : Inventory -> Inventory -> Prop) target operation (fn : Op V A) v :
  (forall w, inventory w = inventory v -> R (inventory w) (inventory (snd (fn w)))) -> R (inventory v) (inventory v) ->
  R (inventory v) (inventory (snd (_with_session target operation fn v))).
Proof.
  intros Hf R0. unfold _with_session, obind. pose proof (keeps_get_session target v) as K.
  destruct (_get_session target v) as [[i|e] v1]; cbn in *; [|by rewrite K]. specialize (Hf v1 K). rewrite K in Hf.
  unfold ocatch. destruct (fn v1) as [[a|f] v2]; cbn in *; [done|].
  destruct (is_infra f || is_not_found f); [exact Hf|]. destruct (denied f); [exact Hf|].
  destruct (is_connection f); [|exact Hf].
  pose proof (keeps_evict (target_id target) v2) as E. unfold obind. destruct (cache_evict _ v2) as [[]]; cbn in *; by rewrite E.
Qed.

Lemma keeps_session {A} target operation (fn : Op V A) : keeps fn -> keeps (_with_session target operation fn).
Proof.
  intros Hf v. apply (session_moves (fun a b => b = a)); [|done]. intros w _. apply Hf.
Qed.

(** An answer of a session is an answer of its operation, in an unchanged inventory. *)
Lemma session_answer {A} target operation (fn : Op V A) v a v' :
  _with_session target operation fn v = (Ok a, v') ->
  exists w, inventory w = inventory v /\ fn w = (Ok a, v').
Proof.
  unfold _with_session, obind. pose proof (keeps_get_session target v) as K.
  destruct (_get_session target v) as [[i|e] v1]; cbn in *; [|done]. unfold ocatch.
  destruct (fn v1) as [[b|f] v2] eqn:F; [intros [= <- <-]; eauto|].
  unfold obind, othrow. repeat case_match; intros; simplify_eq.
Qed.

(** ** Datastore clusters *)

Lemma distinct_by_spec (l : list string) : forall seen x, In x (distinct_by (fun y => y) seen l) <-> In x l /\ ~ In x seen.
Proof.
  induction l as [|y l IH]; intros seen x; [cbn; tauto|]. cbn [distinct_by].
  destruct (existsb (String.eqb y) seen) eqn:E.
  - apply existsb_exists in E as (z & I & Q%String.eqb_eq). subst z. rewrite IH. cbn. intuition congruence.
  - assert (N : ~ In y seen) by (intros I; rewrite (proj2 (existsb_exists _ _)) in E; [done|exists y; by rewrite String.eqb_refl]).
    cbn. rewrite IH. cbn. destruct (string_dec y x) as [->|D]; intuition congruence.
Qed.

Lemma distinct_by_nodup (l : list string) : forall seen, NoDup (distinct_by (fun y => y) seen l).
Proof.
  induction l as [|y l IH]; intros seen; [constructor|]. cbn [distinct_by]. destruct (existsb _ seen); [done|].
  apply NoDup_cons. split; [|done]. rewrite list_elem_of_In, distinct_by_spec. intros [_ N]. apply N. by left.
Qed.

Lemma find_pod_in inv p : NoDup (List.map sp_moid (pods inv)) -> In p (pods inv) -> find_pod inv (sp_moid p) = Some p.
Proof.
  unfold find_pod. induction (pods inv) as [|q l IH]; [done|]. cbn. intros [N D]%NoDup_cons [->|I].
  - by rewrite String.eqb_refl.
  - destruct (String.eqb_spec (sp_moid q) (sp_moid p)) as [E|]; [|by apply IH]. destruct N. apply list_elem_of_In. rewrite E. by apply in_map.
Qed.

(** The clusters on offer are those that hold a datastore of the hosts, each once. *)
Lemma offered_datastore_clusters inv c :
  NoDup (List.map sp_moid (pods inv)) ->
  let offered := omap (fun id => option_map pod_out (find_pod inv id)) (seen_pod_ids inv c) in
  (forall o, In o offered <-> exists p d, In d (_cluster_datastores c) /\ parent_pod inv d = Some p /\ o = pod_out p)
  /\ List.map dsc_id offered = seen_pod_ids inv c /\ NoDup (seen_pod_ids inv c).
Proof.
  intros N offered.
  assert (S : forall id, In id (seen_pod_ids inv c) <-> exists p d, In d (_cluster_datastores c) /\ parent_pod inv d = Some p /\ id = sp_moid p).
  { intros id. unfold seen_pod_ids. rewrite distinct_by_spec, <- list_elem_of_In, list_elem_of_omap. split.
    - intros [(d & I%list_elem_of_In & E) _]. destruct (parent_pod inv d) as [p|] eqn:P; [|done]. injection E as <-. eauto.
    - intros (p & d & I & P & ->). split; [|by intros []]. exists d. rewrite P. split; [by apply list_elem_of_In|done]. }
  assert (F : forall id, In id (seen_pod_ids inv c) -> exists p d, find_pod inv id = Some p /\ id = sp_moid p /\ In d (_cluster_datastores c) /\ parent_pod inv d = Some p).
  { intros id (p & d & I & P & ->)%S. exists p, d. split_and!; try done. apply find_pod_in; [done|]. by apply find_first_some in P as [? _]. }
  split_and!; [| |apply distinct_by_nodup].
  - intros o. unfold offered. rewrite <- list_elem_of_In, list_elem_of_omap. split.
    + intros (id & I%list_elem_of_In & E). destruct (F id I) as (p & d & Fp & _ & Id & P). rewrite Fp in E. injection E as <-. eauto.
    + intros (p & d & I & P & ->). exists (sp_moid p). rewrite list_elem_of_In, S. split; [by exists p, d|].
      rewrite find_pod_in; [done|done|]. by apply find_first_some in P as [? _].
  - unfold offered. clear S offered. induction (seen_pod_ids inv c) as [|id l IH]; [done|]. cbn.
    destruct (F id) as (p & d & -> & -> & _); [by left|]. cbn. f_equal. apply IH. intros x I. apply F. by right.
Qed.

(** ** Ownership *)

Lemma find_option k (p : string -> bool) l :
  find_first (fun o => String.eqb (fst o) k && p (snd o)) l
  = find_first (fun o => String.eqb (fst o) k && p (snd o)) (options_of k l).
Proof.
  unfold find_first, options_of. induction l as [|o l IH]; [done|]. cbn.
  destruct (String.eqb (fst o) k) eqn:E; cbn; [rewrite E; cbn; by destruct (p (snd o))|done].
Qed.

Lemma owner_of_extra v j :
  options_of OWNER_EXTRA_CONFIG_KEY (v_extra v) = _owner_extra_config j -> j <> "" -> _vm_owner_job_id v = Some j.
Proof.
  intros E N. unfold _vm_owner_job_id. rewrite (find_option _ (fun x => negb (String.eqb x ""))), E.
  cbn. by apply String.eqb_neq in N as ->.
Qed.

Lemma update_fresh id f m inv : find_vm inv id = None -> v_moid m = id -> update_vm id f (add_vm m inv) = add_vm (f m) inv.
Proof.
  intros F M. unfold update_vm, add_vm. destruct inv as [dcs pd l]. cbn in *. f_equal.
  rewrite List.map_app. cbn. rewrite M, String.eqb_refl. f_equal.
  induction l as [|x l IH]; cbn in *; [done|]. destruct (String.eqb (v_moid x) id); [done|]. by rewrite IH.
Qed.

Lemma find_added m inv : find_vm inv (v_moid m) = None -> find_vm (add_vm m inv) (v_moid m) = Some m.
Proof.
  intros F. unfold find_vm, add_vm, find_first in *. cbn. induction (vms inv) as [|x l IH]; cbn in *.
  - by rewrite String.eqb_refl.
  - destruct (String.eqb (v_moid x) (v_moid m)); [done|auto].
Qed.

(** A machine of the creation [spec] for job [j]. *)
Definition created_for (spec : VmCreateSpec) (j : string) (m : VirtualMachine) : Prop :=
  v_name m = cs_vm_name spec /\ _vm_owner_job_id m = Some j /\ v_cpu m = cs_cpu spec /\ v_memory m = cs_memory_mb spec.

Lemma configured_owner inv spec ds path j m :
  cs_job_id spec = Some j -> j <> "" -> as_configured inv (creation_config spec ds path) m -> created_for spec j m.
Proof.
  intros J N (_ & Nm & _ & C & M & X & _). split_and!; [done| |done|done].
  apply owner_of_extra; [|done].
  assert (c_extra (creation_config spec ds path) = _owner_extra_config j) as Q by (cbn; rewrite J; by destruct j).
  rewrite Q in X. apply X. by left.
Qed.

Lemma reconfigured_boot key b m : let m' := reconfigured key (NO_CHANGE <| r_boot := Some b |>) m in
  v_moid m' = v_moid m /\ v_name m' = v_name m /\ _vm_owner_job_id m' = _vm_owner_job_id m /\ v_cpu m' = v_cpu m
  /\ v_memory m' = v_memory m /\ v_devices m' = v_devices m /\ v_boot m' = merge_boot b (v_boot m).
Proof. by split_and!. Qed.

(** The end of a creation: the machine's boot order. *)
Definition boots_installation (m : VirtualMachine) : Prop :=
  exists rest, bootOrder (v_boot m) = Some (BootableCdrom :: rest).

Definition creation (spec : VmCreateSpec) (j : string) (a b : Inventory) (o : res Fault VmRef) : Prop :=
  match o with
  | Ok ref => exists m, b = add_vm m a /\ find_vm a (v_moid m) = None /\ created_for spec j m
                        /\ ref = MkVmRef (v_moid m) (v_name m) /\ boots_installation m
  | Err _ => b = a \/ exists m, b = add_vm m a /\ created_for spec j m
  end.

Lemma boot_step spec j m a secure v :
  find_vm a (v_moid m) = None -> created_for spec j m -> inventory v = add_vm m a ->
  let '(o, v') := (wrapping "configure_installation_boot"
     (run_task (ReconfigVM_Task (v_moid m) (NO_CHANGE <| r_boot :=
        Some (installation_boot (cs_firmware spec) secure (v_devices m)) |>))) >>!
     oret (MkVmRef (v_moid m) (v_name m))) v in
  creation spec j a (inventory v') o.
Proof.
  intros F C I. set (boot := installation_boot _ _ _).
  pose proof (reconfig_task (v_moid m) (NO_CHANGE <| r_boot := Some boot |>) v) as R.
  assert (forall b, reconfigures (v_moid m) (NO_CHANGE <| r_boot := Some boot |>) (inventory v) b ->
            exists m', b = add_vm m' a /\ created_for spec j m' /\ v_moid m' = v_moid m /\ v_name m' = v_name m
                       /\ boots_installation m') as Done.
  { intros b (key & _ & ->). rewrite I, update_fresh by done.
    destruct (reconfigured_boot key boot m) as (M & N & O & Cp & Me & _ & B).
    exists (reconfigured key (NO_CHANGE <| r_boot := Some boot |>) m).
    split_and!; try done. unfold boots_installation. rewrite B. eexists. reflexivity. }
  unfold obind, wrapping, ocatch. destruct (run_task _ v) as [[x|f] v1]; cbn [othrow oret].
  - apply Done in R as (m' & E & C' & M & N & B). exists m'. rewrite M, N. by split_and!.
  - right. destruct R as [R|(m' & E & C' & _)%Done]; [exists m; split; [congruence|done]|eauto].
Qed.

(** Checks that read nothing and change nothing. *)
Definition still {A} (m : Op V A) : Prop := forall v, snd (m v) = v.

Lemma obind_still {A B} (m : Op V A) (k : A -> Op V B) v (Q : res Fault B * V -> Prop) :
  still m -> (forall a, Q (k a v)) -> (forall f, Q (Err f, v)) -> Q (obind m k v).
Proof.
  intros S K F. unfold obind. specialize (S v). destruct (m v) as [[a|f] v1]; cbn in S; subst v1; auto.
Qed.

Lemma still_placement inv spec : still (placement inv spec).
Proof. intros v. unfold placement. by repeat case_match. Qed.
Lemma still_host c h : still (chosen_host c h).
Proof. intros v. unfold chosen_host. by repeat case_match. Qed.
Lemma still_pool c p : still (chosen_pool c p).
Proof. intros v. unfold chosen_pool. by repeat case_match. Qed.
Lemma still_datastore c n d : still (chosen_datastore c n d).
Proof. intros v. unfold chosen_datastore. by repeat case_match. Qed.

(** Creation adds nothing, or the one machine it was asked for; it adds one
    only where no machine had the name, and an answer names that machine. *)
Lemma create_op_spec spec ids path v j : cs_job_id spec = Some j -> j <> "" ->
  let '(o, v') := create_op spec ids path v in
  (_find_vms_by_name (inventory v) (cs_vm_name spec) = [] \/ inventory v' = inventory v)
  /\ creation spec j (inventory v) (inventory v') o.
Proof.
  intros J N. unfold create_op. unfold obind at 1. cbn [_content read].
  destruct (_find_vms_by_name (inventory v) (cs_vm_name spec)) as [|x l]; [|split; [by right|by left]].
  set (Q := fun p : res Fault VmRef * V => let '(o, v') := p in
    (@nil VirtualMachine = [] \/ inventory v' = inventory v) /\ creation spec j (inventory v) (inventory v') o).
  assert (forall f, Q (Err f, v)) as Refused by (intros f; split; [by right|by left]).
  match goal with |- let '(_, _) := ?p in _ => change (Q p) end.
  apply obind_still; [apply still_placement| |apply Refused]. intros [dc c].
  apply obind_still; [apply still_host| |apply Refused]. intros host.
  apply obind_still; [apply still_pool| |apply Refused]. intros pool.
  apply obind_still; [apply still_datastore| |apply Refused]. intros ds.
  destruct (iso_available _ _ _ _); [cbn [negb]|apply Refused].
  unfold obind at 1, wrapping at 1, ocatch at 1.
  pose proof (create_task (dcn_moid dc) (creation_config spec ds path) pool host v) as T.
  destruct (run_task _ v) as [[[id|]|f] v1]; cbn [othrow].
  - destruct T as (m & <- & As & I). unfold obind at 1. cbn [_content read].
    assert (find_vm (inventory v) (v_moid m) = None) as F by apply As.
    rewrite I at 1. rewrite (find_added m) by done. rewrite I. rewrite (find_added m) by done.
    pose proof (boot_step spec j m (inventory v) (cs_secure_boot spec) v1 F (configured_owner _ _ _ _ _ _ J N As) I) as B.
    unfold Q. destruct ((_ >>! _) v1) as [o v']. split; [by left|exact B].
  - unfold obind at 1. cbn [_content read]. split; [by left|]. destruct T as [->|(m & As & ->)]; [by left|].
    right. exists m. split; [done|]. by eapply configured_owner.
  - split; [by left|]. destruct T as [->|(m & As & ->)]; [by left|]. right. exists m. split; [done|]. by eapply configured_owner.
Qed.

(** The inventory after [create_vm], seen from before: the same, or with the
    one machine of the request. *)
Definition created_one (spec : VmCreateSpec) (j : string) (a b : Inventory) : Prop :=
  b = a \/ (_find_vms_by_name a (cs_vm_name spec) = [] /\ exists m, b = add_vm m a /\ created_for spec j m).

Lemma add_vm_new m a : add_vm m a <> a.
Proof.
  intros F. apply (f_equal (fun i => List.length (vms i))) in F. cbn in F. rewrite List.length_app in F. cbn in F. lia.
Qed.

Lemma create_vm_spec target spec j v : cs_job_id spec = Some j -> j <> "" ->
  let '(o, v') := create_vm target spec v in
  created_one spec j (inventory v) (inventory v')
  /\ match o with
     | Ok ref => exists m, inventory v' = add_vm m (inventory v) /\ created_for spec j m
                           /\ ref = MkVmRef (v_moid m) (v_name m) /\ boots_installation m
     | Err _ => True
     end.
Proof.
  intros J N. unfold create_vm. destruct (decode_iso_id (cs_iso_id spec)) as [[ids path]|why]; [|split; [by left|done]].
  pose proof (session_moves (created_one spec j) target "session-call" (create_op spec ids path) v) as M.
  destruct (_with_session _ _ _ v) as [o v'] eqn:E. cbn [snd] in M. split.
  - apply M; [|by left]. intros w _. pose proof (create_op_spec spec ids path w j J N) as C.
    destruct (create_op _ _ _ w) as [[ref|f] w']; destruct C as [F C]; cbn [snd].
    + destruct C as (m & B & Fr & Cr & _). right. rewrite B in *. destruct F as [F|F]; [eauto|by apply add_vm_new in F].
    + destruct C as [->|(m & B & Cr)]; [by left|]. right. rewrite B in *. destruct F as [F|F]; [eauto|by apply add_vm_new in F].
  - destruct o as [ref|f]; [|done]. apply session_answer in E as (w & I & E).
    pose proof (create_op_spec spec ids path w j J N) as C. rewrite E in C. destruct C as [_ (m & C)].
    rewrite I in C. exists m. tauto.
Qed.

Lemma find_vm_ownership_answer target name v o v' :
  find_vm_ownership target name v = (Ok o, v') ->
  _find_vm_by_name (inventory v) name
  = Ok (match _find_vms_by_name (inventory v) name with [] => None | m :: _ => Some m end)
  /\ o = option_map (fun m => MkOwnership (v_moid m) (v_name m) (_vm_owner_job_id m)) (hd_error (_find_vms_by_name (inventory v) name)).
Proof.
  intros E. apply session_answer in E as (w & I & E). unfold obind at 1 in E. cbn [_content read] in E. rewrite I in E.
  unfold obind, lift_res, _find_vm_by_name in *. destruct (_find_vms_by_name (inventory v) name) as [|m [|m' l]]; [..|done];
    injection E as <- _; done.
Qed.

Lemma keeps_ownership target name : keeps (find_vm_ownership target name).
Proof.
  apply keeps_session, keeps_bind; [done|]. intros inv. apply keeps_bind; [apply keeps_lift|]. done.
Qed.

Lemma keeps_datastores target c : keeps (get_datastores target c).
Proof.
  apply keeps_bind; [|done]. apply keeps_session, keeps_bind; [done|]. intros inv. apply keeps_bind; [|done].
  intros w. unfold need_compute. by case_match.
Qed.

(** ** Data disks *)

Definition disk_count (devices : list Device) : nat := List.length (List.filter is_disk devices).

(** The disk a request asks for, on a unit of the controller. *)
Definition fits (controller : Z) (spec : DiskSpec) (d : Device) : Prop :=
  exists key unit, d = VirtualDisk key controller (Some unit) (size_gb spec * 1024 * 1024)
                         (match provisioning spec with THIN => true | THICK => false end)
                   /\ 0 <= unit < 16 /\ unit <> 7.

Lemma free_unit_some controller devices reserved u :
  is_ahci controller = false -> _free_unit controller devices reserved = Some u ->
  0 <= u < 16 /\ u ∉ used_units (device_key controller) devices /\ u ∉ reserved.
Proof.
  intros A E. unfold _free_unit in E. rewrite A in E. apply find_first_some in E as [I E].
  apply andb_true_iff in E as [E1 E2]. apply negb_true_iff in E1, E2.
  apply bool_decide_eq_false in E1, E2. split; [|done].
  apply in_map_iff in I as (n & <- & I). apply in_seq in I. lia.
Qed.

Lemma used_units_app c l k : used_units c (l ++ k) = (used_units c l ++ used_units c k)%list.
Proof. apply omap_app. Qed.

Lemma place_disks_spec controller disks : is_ahci controller = false -> forall pending index added,
  place_disks controller pending index disks = Ok added ->
  Forall2 (fits (device_key controller)) disks added
  /\ NoDup (used_units (device_key controller) added)
  /\ (forall u, u ∈ used_units (device_key controller) added -> u ∉ used_units (device_key controller) pending).
Proof.
  intros C. induction disks as [|disk disks IH]; intros pending index added E; cbn [place_disks] in E.
  - injection E as <-. split_and!; [constructor|constructor|]. intros u Hu. by apply elem_of_nil in Hu.
  - destruct (_free_unit controller pending RESERVED_UNITS) as [u|] eqn:U; [|done].
    destruct (free_unit_some _ _ _ _ C U) as (B & Free & Res).
    destruct (place_disks _ _ _ disks) as [more|] eqn:M; [|done]. injection E as <-.
    apply IH in M as (F & ND & Away). rewrite used_units_app in *.
    set (c := device_key controller) in *.
    assert (forall k s t l, used_units c (VirtualDisk k c (Some u) s t :: l) = u :: used_units c l) as Cons
      by (intros; unfold used_units; cbn; by rewrite bool_decide_true).
    rewrite Cons in *. split_and!.
    + constructor; [|done]. do 2 eexists. split_and!; [reflexivity|apply B|apply B|].
      intros ->. apply Res. unfold RESERVED_UNITS. set_solver.
    + constructor; [|done]. intros I. apply Away in I. set_solver.
    + intros w [->|I]%elem_of_cons; [done|]. apply Away in I. set_solver.
Qed.

Lemma disk_changes_spec devices disks added : disk_changes devices disks = Ok added ->
  exists c, Forall2 (fits c) (missing_disks devices disks) added /\ NoDup (used_units c added)
    /\ forall u, u ∈ used_units c added -> u ∉ used_units c devices.
Proof.
  unfold disk_changes. destruct (missing_disks devices disks) as [|d l] eqn:M.
  - intros [= <-]. exists 0. split_and!; [constructor|constructor|]. intros u I. by apply elem_of_nil in I.
  - destruct (find_first is_sas devices) as [controller|] eqn:C; [|done]. apply find_first_some in C as [_ C].
    intros E. exists (device_key controller). apply (place_disks_spec controller) in E; [done|by destruct controller].
Qed.

Lemma added_disks key devices specs added c : Forall2 (fits c) specs added ->
  List.map shape (List.filter is_disk (apply_changes key (List.map AddDevice added) devices))
  = (List.map shape (List.filter is_disk devices) ++ List.map shape added)%list.
Proof.
  intros F. revert devices. induction F as [|spec d specs added (k & u & -> & _) F IH]; intros devices; cbn.
  - by rewrite app_nil_r.
  - unfold apply_changes in IH. rewrite IH. rewrite List.filter_app, List.map_app. cbn. by rewrite <- app_assoc.
Qed.

Lemma added_count key devices specs added c : Forall2 (fits c) specs added ->
  disk_count (apply_changes key (List.map AddDevice added) devices) = (disk_count devices + List.length added)%nat.
Proof.
  intros F. unfold disk_count. by rewrite <- (List.length_map shape), (added_disks _ _ _ _ _ F), List.length_app, !List.length_map.
Qed.

Lemma find_updated id f inv m : (forall x, v_moid (f x) = v_moid x) ->
  find_vm inv id = Some m -> find_vm (update_vm id f inv) id = Some (f m).
Proof.
  intros K. unfold find_vm, update_vm, find_first. cbn. induction (vms inv) as [|x l IH]; cbn; [done|].
  destruct (String.eqb (v_moid x) id) eqn:E; cbn; [|rewrite E; exact IH]. rewrite K, E. congruence.
Qed.

(** The machine [m'] has the disks of [m] and, behind them, those of the
    request [disks] beyond the [disk_count - 1] data disks [m] had, in their
    order, each on a unit of its own. *)
Definition disks_added (disks : list DiskSpec) (m m' : VirtualMachine) : Prop :=
  exists c added,
    (forall i d, added !! i = Some d ->
       exists spec, disks !! (disk_count (v_devices m) - 1 + i)%nat = Some spec /\ fits c spec d)
    /\ NoDup (used_units c added) /\ (forall u, u ∈ used_units c added -> u ∉ used_units c (v_devices m))
    /\ List.map shape (List.filter is_disk (v_devices m'))
       = (List.map shape (List.filter is_disk (v_devices m)) ++ List.map shape added)%list
    /\ disk_count (v_devices m') = Nat.max (disk_count (v_devices m)) (1 + List.length disks).

Lemma fits_beyond c devices disks added : (1 <= disk_count devices)%nat ->
  Forall2 (fits c) (missing_disks devices disks) added ->
  (forall i d, added !! i = Some d -> exists spec, disks !! (disk_count devices - 1 + i)%nat = Some spec /\ fits c spec d)
  /\ (disk_count devices + List.length added = Nat.max (disk_count devices) (1 + List.length disks))%nat.
Proof.
  intros K F. split.
  - intros i d E. destruct (Forall2_lookup_r _ _ _ _ _ F E) as (spec & L & Fi). exists spec. split; [|done].
    unfold missing_disks in L. fold (disk_count devices) in L. by rewrite lookup_drop in L.
  - apply Forall2_length in F. unfold missing_disks in F. fold (disk_count devices) in F.
    rewrite List.length_skipn in F. lia.
Qed.

Lemma disks_added_now key disks m added : (1 <= disk_count (v_devices m))%nat ->
  disk_changes (v_devices m) disks = Ok added ->
  disks_added disks m (reconfigured key (NO_CHANGE <| r_changes := List.map AddDevice added |>) m).
Proof.
  intros K E. apply disk_changes_spec in E as (c & F & ND & Away). exists c, added.
  destruct (fits_beyond _ _ _ _ K F) as [Each Count].
  split_and!; [done|done|done|exact (added_disks _ _ _ _ _ F)|].
  rewrite <- Count. exact (added_count key _ _ _ _ F).
Qed.

(** With no disk missing the machine is what was asked for. *)
Lemma disks_present disks m : (1 <= disk_count (v_devices m))%nat ->
  missing_disks (v_devices m) disks = [] -> disks_added disks m m.
Proof.
  intros K E. exists 0, []. destruct (fits_beyond 0 (v_devices m) disks [] K) as [_ Count]; [rewrite E; constructor|].
  split_and!; [done|constructor|intros u I; by apply elem_of_nil in I|by rewrite app_nil_r|].
  rewrite <- Count. cbn [List.length]. lia.
Qed.

(** How many data disks a machine lacks of a request. *)
Definition lacking (disks : list DiskSpec) (m : VirtualMachine) : nat :=
  (1 + List.length disks - disk_count (v_devices m))%nat.

Lemma missing_lacking disks m : (1 <= disk_count (v_devices m))%nat ->
  List.length (missing_disks (v_devices m) disks) = lacking disks m.
Proof. intros K. unfold missing_disks, lacking. fold (disk_count (v_devices m)). rewrite List.length_skipn. lia. Qed.

Definition disks_op (vm_id : string) (disks : list DiskSpec) : Op V Z :=
  let! inv := _content in
  let! v := need_vm inv vm_id "adding data disks" in
  match missing_disks (v_devices v) disks with
  | [] => oret 0
  | _ =>
      let! added := lift_res (disk_changes (v_devices v) disks) in
      wrapping "add_data_disks"
        (run_task (ReconfigVM_Task vm_id (NO_CHANGE <| r_changes := List.map AddDevice added |>))) >>!
      oret (Z.of_nat (List.length added))
  end.

(** Nothing, or all the disks the machine lacks; nothing if it lacks none. *)
Definition disked (vm_id : string) (disks : list DiskSpec) (m : VirtualMachine) (a b : Inventory) : Prop :=
  b = a \/ (lacking disks m <> 0%nat /\ exists m', find_vm b vm_id = Some m' /\ disks_added disks m m').

Lemma disks_op_spec vm_id disks v m :
  find_vm (inventory v) vm_id = Some m -> (1 <= disk_count (v_devices m))%nat ->
  let '(o, v') := disks_op vm_id disks v in
  disked vm_id disks m (inventory v) (inventory v')
  /\ match o with
     | Ok n => n = Z.of_nat (lacking disks m)
               /\ exists m', find_vm (inventory v') vm_id = Some m' /\ disks_added disks m m'
     | Err _ => True
     end.
Proof.
  intros F K. unfold disks_op. unfold obind at 1. cbn [_content read]. unfold need_vm. rewrite F. unfold obind at 1. cbn [oret].
  pose proof (missing_lacking disks m K) as Len. destruct (missing_disks (v_devices m) disks) as [|d l] eqn:M.
  - split; [by left|]. split; [by rewrite <- Len|]. exists m. split; [done|by apply disks_present].
  - unfold obind at 1, lift_res. destruct (disk_changes (v_devices m) disks) as [added|f] eqn:C; [|split; [by left|done]].
    assert (List.length added = lacking disks m) as Len'.
    { apply disk_changes_spec in C as (c & Fa & _). rewrite M in Fa. rewrite <- Len. symmetry. by eapply Forall2_length. }
    unfold obind, wrapping, ocatch. pose proof (reconfig_task vm_id (NO_CHANGE <| r_changes := List.map AddDevice added |>) v) as R.
    assert (forall b, reconfigures vm_id (NO_CHANGE <| r_changes := List.map AddDevice added |>) (inventory v) b ->
              exists m', find_vm b vm_id = Some m' /\ disks_added disks m m') as Done.
    { intros b (key & _ & ->). eexists. split; [by apply find_updated|by apply disks_added_now]. }
    assert (lacking disks m <> 0%nat) as Some_ by (rewrite <- Len; discriminate).
    destruct (run_task _ v) as [[r|f] v1]; cbn [othrow oret].
    + apply Done in R. split; [by right|]. by rewrite Len'.
    + split; [|done]. destruct R as [->|R%Done]; [by left|by right].
Qed.

(** C40 (add_data_disks): the stage that adds data disks can be repeated.
    For a machine that has its system disk, and while nobody else changes the
    inventory: whatever the outcome, the machine has either the disks it had
    or, besides its system disk, as many as the request lists, and none is
    added to a machine that has as many.  Success means that with k data
    disks present the disks k+1, k+2, ... of the request were added in their
    order, with the requested sizes and formats, each on a unit below 16 of
    its own that nothing used and that is not the controller's unit 7, and the
    answer is their number; a further attempt then finds nothing missing. *)
Theorem add_data_disks_once target vm_id disks v m :
  find_vm (inventory v) vm_id = Some m -> (1 <= disk_count (v_devices m))%nat ->
  let '(o, v') := add_data_disks target vm_id disks v in
  disked vm_id disks m (inventory v) (inventory v')
  /\ match o with
     | Ok n => n = Z.of_nat (lacking disks m)
               /\ exists m', find_vm (inventory v') vm_id = Some m' /\ disks_added disks m m'
     | Err _ => True
     end.
Proof.
  intros F K. change (add_data_disks target vm_id disks) with (_with_session target "add-data-disks" (disks_op vm_id disks)).
  pose proof (session_moves (disked vm_id disks m) target "add-data-disks" (disks_op vm_id disks) v) as M.
  destruct (_with_session _ _ _ v) as [o v'] eqn:E. cbn [snd] in M. split.
  - apply M; [|by left]. intros w I. pose proof (disks_op_spec vm_id disks w m) as D. rewrite I in *.
    destruct (disks_op _ _ w). by apply D.
  - destruct o as [n|f]; [|done]. apply session_answer in E as (w & I & E).
    pose proof (disks_op_spec vm_id disks w m) as D. rewrite E, I in D. by apply D.
Qed.

(** ** Media and adapters *)

Lemma edited_drives key drives : forall devices,
  (forall x, In x devices -> installation_drive x = true -> exists d, In d drives /\ device_key d = device_key x) ->
  (forall d, In d drives -> is_cdrom d = true) ->
  forall x, In x (apply_changes key (List.map (fun d => EditDevice (emptied d)) drives) devices) ->
    installation_drive x = false.
Proof.
  induction drives as [|d drives IH]; intros devices Cover Cd x I; cbn in I.
  - destruct (installation_drive x) eqn:E; [|done]. by destruct (Cover x I E) as (? & [] & _).
  - assert (installation_drive (emptied d) = false) as Em by (specialize (Cd d (or_introl eq_refl)); by destruct d).
    assert (device_key (emptied d) = device_key d) as Key by (by destruct d).
    eapply IH; [| |exact I]; [|intros; apply Cd; by right].
    intros y Iy Ey. apply in_map_iff in Iy as (z & <- & Iz). rewrite Key in *.
    destruct (Z.eqb_spec (device_key z) (device_key d)) as [K|K]; [congruence|].
    destruct (Cover z Iz Ey) as (e & [->|Ie] & Ke); [congruence|eauto].
Qed.

(** After the media was detached no drive holds an installation image. *)
Lemma detach_leaves key devices x :
  In x (apply_changes key (r_changes (detach_spec devices)) devices) -> installation_drive x = false.
Proof.
  apply edited_drives.
  - intros y Iy E. exists y. split; [by apply filter_In|done].
  - intros d [_ E]%filter_In. unfold installation_drive in E. by destruct d.
Qed.

Lemma removed_devices key gone : forall devices x,
  In x (apply_changes key (List.map RemoveDevice gone) devices) ->
  In x devices /\ ~ In (device_key x) (List.map device_key gone).
Proof.
  induction gone as [|g gone IH]; intros devices x I; cbn in I; [by split; [|intros []]|].
  apply IH in I as [[I N]%filter_In G]. apply negb_true_iff, Z.eqb_neq in N. cbn. split; [done|]. intros [E|E]; [congruence|done].
Qed.

(** After the network was attached its adapter is the only one. *)
Lemma one_adapter key devices n adapter :
  exists k, List.filter is_nic (apply_changes key (network_changes devices n adapter) devices)
              = [VirtualEthernetCard k adapter (nic_backing n)].
Proof.
  unfold network_changes, apply_changes. rewrite fold_left_app. cbn [fold_left apply_change].
  fold (apply_changes key (List.map RemoveDevice (List.filter is_nic devices)) devices).
  set (rest := apply_changes _ _ _). rewrite List.filter_app. exists (key rest). cbn.
  assert (List.filter is_nic rest = []) as ->; [|done].
  destruct (List.filter is_nic rest) as [|x l] eqn:E; [done|].
  assert (In x (List.filter is_nic rest)) as [I Nic]%filter_In by (rewrite E; by left).
  apply removed_devices in I as [I G]. destruct G. apply in_map, filter_In. by split.
Qed.

End Facts.

(** ** The creation stage on this adapter *)

Section Stage.
Context {X : Type} `{A : VCenterApi X} `{S : !SecretsProvider X} `{L : !VCenterLaws X}.
Context `{G : !GuestOperations X} `{P : !Platform X} `{N : !World.Network X} `{T : !Tables X}.

(** Reading the settings table changes no machine. *)
Hypothesis settings_keep : keeps setting_rows.

#[local] Instance on_vsphere : World X := {|
  world_vmware := vsphere; world_guest := G; world_secrets := S; world_platform := P; world_network := N;
  world_tables := T |}.

Notation inv r := (inventory (world r)).

(** An await either is interrupted, with or without its effect, or happens. *)
Lemma wp_call {B} (op : Op X B) (Q : Outcome B -> Run X -> Prop) r :
  (forall p o x, op (world r) = (o, x) -> Q (outcome_of o) (r <| pending := p |> <| world := x |>)) ->
  (forall k x, x = world r \/ x = snd (op (world r)) -> Q (Raise (Cancelled k)) (r <| pending := None |> <| world := x |>)) ->
  wp (call op) Q r.
Proof.
  intros H C. unfold wp, call, await. destruct (pending r) as [[[|n] k b]|] eqn:E; cbn.
  - destruct b; cbn; [|destruct r; exact (C k _ (or_introl eq_refl))].
    specialize (C k _ (or_intror eq_refl)). by destruct (op (world r)).
  - specialize (H (Some (MkInterrupt n k b))). destruct (op (world r)) as [o x]. by apply H.
  - specialize (H None). destruct (op (world r)) as [o x]. specialize (H o x eq_refl).
    destruct r; cbn in *; subst; exact H.
Qed.

(** A call that keeps the inventory. *)
Lemma wp_keeps_call {B C} (op : Op X B) (k : B -> M X C) (Q : Outcome C -> Run X -> Prop) r :
  keeps op ->
  (forall b r', inv r' = inv r -> session r' = session r -> fst (op (world r)) = Ok b -> wp (k b) Q r') ->
  (forall e r', inv r' = inv r -> Q (Raise e) r') ->
  wp (let* b := call op in k b) Q r.
Proof.
  intros K H F. apply wp_bind, wp_call.
  - intros p o x E. specialize (K (world r)). rewrite E in K. destruct o as [b|f]; cbn [outcome_of].
    + apply H; [exact K|done|by rewrite E].
    + apply F. exact K.
  - intros k' x [->| ->]; apply F; [done|apply K].
Qed.

Lemma wp_placement ctx Q (r : Run X) :
  (forall c r', inv r' = inv r -> session r' = session r -> Q (Return c) r') ->
  (forall e r', inv r' = inv r -> Q (Raise e) r') ->
  wp (_placement_datastore ctx) Q r.
Proof.
  intros H F. unfold _placement_datastore. cbn zeta. apply wp_keeps_call; [apply keeps_datastores| |done].
  intros stores r1 I1 S1 _. apply wp_bind. unfold _os_disk_datastore at 1. unfold wp at 1. cbn [fst snd].
  match goal with |- wp (match ?m with _ => _ end) _ _ => destruct m as [id|] end; [by apply wp_ret, H|].
  unfold load_effective. apply wp_bind. apply wp_keeps_call; [exact settings_keep| |].
  - intros rows r2 I2 S2 _. apply wp_ret. destruct (preferred_names _) as [names|].
    + case_match; [apply wp_ret, H; congruence|apply (F _ r2); congruence].
    + apply (F _ r2). congruence.
  - intros e r2 I2. apply F. congruence.
Qed.

(** Effects that touch neither the world nor the VM of the run. *)
Definition inward {B} (m : M X B) : Prop := forall r, world (snd (m r)) = world r /\ vm_ref (snd (m r)) = vm_ref r.

Lemma inward_bind {B C} (m : M X B) (k : B -> M X C) : inward m -> (forall b, inward (k b)) -> inward (bind m k).
Proof.
  intros Hm Hk r. unfold bind. destruct (Hm r) as [W R]. destruct (m r) as [[b|e] r1]; cbn in *; [|done].
  destruct (Hk b r1) as [-> ->]. done.
Qed.
Lemma inward_ret {B} (b : B) : inward (ret b).
Proof. done. Qed.
Lemma inward_get_job : inward get_job.
Proof. done. Qed.
Lemma inward_set_infrastructure i : inward (set_infrastructure i).
Proof. done. Qed.
Lemma inward_record_audit e : inward (record_audit e).
Proof. intros r. unfold record_audit, await. by destruct (pending r) as [[[|n] k []]|]. Qed.
Hint Resolve inward_bind inward_ret inward_get_job inward_set_infrastructure inward_record_audit : infra.

(** How the stage leaves the inventory. *)
Definition extended (ctx : Ctx) (j : string) (a b : Inventory) : Prop :=
  b = a \/ (_find_vms_by_name a (vm_name_of ctx) = [] /\ exists m, b = add_vm m a
      /\ v_name m = vm_name_of ctx /\ _vm_owner_job_id m = Some j
      /\ v_cpu m = cpu (hardware (request ctx)) /\ v_memory m = memory_mb (hardware (request ctx))).

(** The VM the run goes on with is one of the job. *)
Definition bound (ctx : Ctx) (j : string) (b : Inventory) (ref : option VmRef) : Prop :=
  exists m, In m (vms b) /\ option_map ref_id ref = Some (v_moid m) /\ _vm_owner_job_id m = Some j
    /\ lower (v_name m) = lower (vm_name_of ctx).

Definition owned (ctx : Ctx) (j : string) (a : Inventory) (o : Outcome StageOutcome) (r : Run X) : Prop :=
  extended ctx j a (inv r) /\ (is_return o = true -> bound ctx j (inv r) (vm_ref r)).

Lemma owned_same ctx j a e (r : Run X) : inv r = a -> owned ctx j a (Raise e) r.
Proof. intros E. split; [by left|done]. Qed.

Lemma owned_inward ctx j a (m : M X StageOutcome) r :
  inward m -> extended ctx j a (inv r) -> bound ctx j (inv r) (vm_ref r) -> wp m (owned ctx j a) r.
Proof. intros I E B. destruct (I r) as [W R]. unfold wp, owned. rewrite W, R. by split. Qed.

Lemma wp_create_new ctx j (r : Run X) : j <> "" -> wp (create_new_vm ctx j) (owned ctx j (inv r)) r.
Proof.
  intros J. unfold create_new_vm. destruct (disks _) as [|os data]; [by apply owned_same|].
  apply wp_bind, wp_placement; [|intros e r1 I; by apply owned_same]. intros [ds where_] r1 I1 _.
  set (spec := create_spec ctx os ds j). pose proof (create_vm_spec (target ctx) spec j (world r1) eq_refl J) as C.
  assert (created_one spec j (inv r) (inventory (snd (create_vm (target ctx) spec (world r1))))) as Any.
  { destruct (create_vm _ _ (world r1)) as [o x]. rewrite I1 in C. apply C. }
  assert (forall b, created_one spec j (inv r) b -> extended ctx j (inv r) b) as Ext.
  { intros b [->|(F & m & -> & Nm & O & Cp & Me)]; [by left|right]. split; [exact F|]. exists m. by split_and!. }
  apply wp_bind, wp_call.
  - intros p o x E. change (create_vm (target ctx) spec (world r1) = (o, x)) in E. rewrite E in C, Any. cbn [snd] in Any.
    destruct C as [_ C]. rewrite I1 in C. destruct o as [ref|f]; cbn [outcome_of]; [|split; [apply Ext, Any|done]].
    destruct C as (m & B & (Nm & O & _) & -> & _). apply wp_bind. apply (owned_inward ctx j); [|apply Ext, Any|].
    + auto 10 with infra.
    + cbn. exists m. rewrite B. cbn. split_and!; [apply in_or_app; right; by left|done|done|by rewrite Nm].
  - intros k x [->| ->]; [by apply owned_same|]. split; [apply Ext, Any|done].
Qed.

(** C39 (stage_create_vm over VsphereVMwareService): whatever vCenter answers
    and whenever the run is interrupted, the stage changes no machine that
    was there; it adds at most one, only where the name was free, with the
    requested hardware and the marker of its own job.  When it succeeds, the
    run goes on with a machine of the requested name that carries that
    marker: a machine of another job, or of none, is never taken over. *)
Theorem stage_create_vm_owns ctx r :
  job_id (job (session r)) <> "" -> wp (stage_create_vm ctx) (owned ctx (job_id (job (session r))) (inv r)) r.
Proof.
  intros J. unfold stage_create_vm. apply wp_bind, wp_get_job. revert J. generalize (job_id (job (session r))). intros j J.
  apply wp_bind. unfold set_infrastructure at 1, set_job at 1, modify at 1, wp at 1. cbn [fst snd].
  match goal with |- wp _ _ ?x => change (inv r) with (inv x); generalize x; clear r end. intros r.
  apply wp_keeps_call; [apply keeps_ownership| |intros e r1 I; by apply owned_same].
  intros found r1 I _ E. destruct found as [e|].
  - destruct (find_vm_ownership (target ctx) (vm_name_of ctx) (world r)) as [o x] eqn:F.
    change (fst (find_vm_ownership (target ctx) (vm_name_of ctx) (world r)) = Ok (Some e)) in E. rewrite F in E.
    cbn [fst] in E. subst o. apply find_vm_ownership_answer in F as [_ F].
    destruct (_find_vms_by_name _ _) as [|m l] eqn:Q; [done|]. injection F as ->. cbn [owner_job_id owner_vm_id owner_vm_name].
    destruct (bool_decide_reflect (_vm_owner_job_id m = Some j)) as [O|O]; cbn [negb].
    + apply wp_bind, (owned_inward ctx j); [auto with infra|by left|]. cbn. rewrite I.
      assert (In m (_find_vms_by_name (inv r) (vm_name_of ctx))) as M by (rewrite Q; by left).
      apply filter_In in M as [M Nm%String.eqb_eq]. exists m. by split_and!.
    + apply wp_bind. by apply owned_same.
  - rewrite <- I. by apply wp_create_new.
Qed.

End Stage.
