(* ===== verification/StagesGuest.v ===== *)
(** * Stages: configuring Windows

    The stage handlers of [app/workers/stages.py] from the clean-up of the
    answer media to the guest being back after its restart. *)

From Stdlib Require Import ZArith Lia Ascii String List Bool.
From stdpp Require Import base tactics list strings gmap.
From S2P Require Import Prelude PyStr Json Network Errors Schemas StateMachine Jobs AuditTrail Scripts Effects.
From S2P Require Import World Guest Conflict GuestScripts StageSupport StagesVm.

Local Open Scope string_scope.
Local Open Scope Z_scope.

(** The numbers in ascending order. *)
Fixpoint insert_z (x : Z) (l : list Z) : list Z :=
  match l with
  | [] => [x]
  | y :: r => if x <=? y then x :: l else y :: insert_z x r
  end.
Definition sorted_z (l : list Z) : list Z := fold_right insert_z [] l.

(** [str] of a list of integers. *)
Definition str_list (l : list Z) : string := "[" ++ join ", " (List.map str_int l) ++ "]".

(** [s.replace(old, new)] of a non-empty [old]. *)
Fixpoint replace_in (fuel : nat) (old new l : list ascii) : list ascii :=
  match fuel with
  | O => l
  | S f =>
      match l with
      | [] => []
      | c :: r => if starts old l then (new ++ replace_in f old new (skipn (List.length old) l))%list
                  else c :: replace_in f old new r
      end
  end.
Definition replace_str (old new s : string) : string :=
  if String.eqb old "" then
    text (chars new ++ List.flat_map (fun c => c :: chars new) (chars s))%list
  else text (replace_in (S (String.length s)) (chars old) (chars new) (chars s)).

(** [l[-1]]; [None] is the [IndexError]. *)
Definition last_line (s : string) : option string := last (splitlines s).

Section Stages.

Context {X : Type} `{World X}.

Definition script_failed (what : string) (why : string) (action : string) (result : CommandResult) : InfraError :=
  infra_error what why action (last_str 1500 (stdout result ++ NL ++ stderr result)) true.

Definition powershell (ctx : Ctx) (credentials : GuestCredentials) (script : string) (timeout : Z)
    : M X CommandResult := run_powershell (target ctx) (vm_name_of ctx) credentials script timeout [].

(** ** Restarting Windows *)

Definition _RESTART_POLL_SECONDS : Z := 10.
Definition _GUEST_RESTART_SECONDS : Z := 540.
Definition _TOOLS_RESTART_SECONDS : Z := 900.

Definition guest_boot_time (ctx : Ctx) (credentials : GuestCredentials) : M X string :=
  let* result := powershell ctx credentials GUEST_BOOT_TIME_SCRIPT 60 in
  match (if succeeded result then last (output_lines (stdout result)) else None) with
  | Some line => ret line
  | None =>
      fail (infra_error "Windows did not report when it last started."
              ("The boot-time probe exited with code " ++ str_int (exit_code result) ++ ".")
              "Review the technical output, then retry this stage."
              (last_str 1000 (stdout result ++ NL ++ stderr result)) true)
  end.

Definition schedule_guest_restart (ctx : Ctx) (credentials : GuestCredentials) (comment : string) : M X unit :=
  let* result := call (run_program (target ctx) (vm_name_of ctx) credentials SHUTDOWN_PATH
                         ("/r /t 10 /d p:4:1 /c " ++ DQ ++ comment ++ DQ) 60) in
  if succeeded result then ret tt
  else fail (infra_error "The guest restart could not be scheduled."
               ("shutdown.exe exited with code " ++ str_int (exit_code result) ++ ".")
               "Restart the VM from the console, then retry this stage." (last_str 1000 (stdout result)) true).

Definition no_restart (timeout_seconds_ : Z) (last_error : string) : InfraError :=
  infra_error "Windows did not come back after the restart."
    ("No new start was reported within " ++ str_int (timeout_seconds_ / 60) ++ " minutes (last: " ++ last_error ++ ").")
    "Check the VM console in vCenter, then retry this stage." "" true.

(** [Ok] when the guest reports a later start, else what the probe said. *)
Definition probe_restart (ctx : Ctx) (credentials : GuestCredentials) (boot_before : string) : M X (res string unit) :=
  catch_infra
    (let* boot := guest_boot_time ctx credentials in
     ret (if String.eqb boot boot_before then Err "Windows had not restarted yet" else Ok tt))
    (fun e => ret (Err (human_message e))).

Fixpoint poll_restart (ctx : Ctx) (credentials : GuestCredentials) (boot_before : string) (timeout_seconds_ : Z)
    (fuel : nat) (deadline probes : Z) : M X Z :=
  match fuel with
  | O => throw (Cancelled Timeout)
  | S fuel' =>
      call (sleep (_RESTART_POLL_SECONDS * SECOND_US));;
      (let* answer := probe_restart ctx credentials boot_before in
       match answer with
       | Ok _ => ret (probes + 1)
       | Err last_error =>
           let* time := now in
           if deadline <=? time then fail (no_restart timeout_seconds_ last_error)
           else poll_restart ctx credentials boot_before timeout_seconds_ fuel' deadline (probes + 1)
       end)
  end.

Definition wait_for_guest_restart (ctx : Ctx) (credentials : GuestCredentials) (boot_before : string)
    (timeout_seconds_ : Z) : M X Z :=
  let* start := now in
  poll_restart ctx credentials boot_before timeout_seconds_ POLL_FUEL (start + timeout_seconds_ * SECOND_US) 0.

(** ** Clean-up *)

Definition scrub_message : string := "The cached answer file could not be removed from Windows.".

Definition scrub_guest (ctx : Ctx) (credentials : GuestCredentials) : M X unit :=
  let* result := catch_infra (powershell ctx credentials ANSWER_FILE_SCRUB_SCRIPT 120)
    (fun e => fail (infra_error scrub_message (human_message e ++ " " ++ reason e) (recommended_action e)
                      (technical_detail e) true)) in
  if succeeded result then ret tt
  else fail (script_failed scrub_message
               ("The in-guest cleanup exited with code " ++ str_int (exit_code result) ++ ".")
               "Review the technical output, then retry this stage." result).

(** The status of the stage and a line about the installation media. *)
Definition detach_media (ctx : Ctx) (vm_id : string) : M X (string * string) :=
  catch_infra
    (let* released := call (detach_installation_media (target ctx) vm_id) in
     ret ("SUCCEEDED", "Installation media disconnected and boot order set to disk only"
            ++ match released with [] => "." | _ => ": " ++ join ", " released ++ "." end))
    (fun e => if question_pending e then fail e
              else ret ("WARNING", "The installation ISOs could not be disconnected: "
                          ++ human_message e ++ " " ++ reason e)).

Definition remove_recorded_media (ctx : Ctx) (vm_id : string) : M X string :=
  let* arts := get_artifacts "prepare_unattended_install" in
  match get_text arts "datastore_path" with
  | Some path =>
      call (remove_answer_media (target ctx) vm_id (compute_datacenter_id (compute (request ctx))) path);;
      set_step "prepare_unattended_install"
        (fun s => s <| artifacts := <["media_removed" := JBool true]> (artifacts s) |>);;
      ret "Temporary answer media was detached and deleted."
  | None => ret "No temporary answer media was recorded."
  end.

Definition stage_cleanup_unattended_media (ctx : Ctx) : M X StageOutcome :=
  let* vm_id := _require_vm_id ctx in
  let* media_line := remove_recorded_media ctx vm_id in
  let* detached := detach_media ctx vm_id in
  let* credentials := resolve_guest_credentials ctx in
  scrub_guest ctx credentials;;
  (let* boot_before := guest_boot_time ctx credentials in
   schedule_guest_restart ctx credentials "InfraOps: finish installing VMware Tools";;
   wait_for_guest_restart ctx credentials boot_before _TOOLS_RESTART_SECONDS;;
   ret (MkOutcome (fst detached)
          (join NL [media_line; snd detached;
             "Cached answer-file copies and AutoLogon values were removed from the guest.";
             "Windows restarted from its disk to load the VMware Tools drivers (mouse, display and network)."]) ∅)).

(** ** Data disks *)

Definition data_disks_of (ctx : Ctx) : list DiskSpec := tl (disks (hardware (request ctx))).

Definition stage_add_data_disks (ctx : Ctx) : M X StageOutcome :=
  let data_disks := data_disks_of ctx in
  match data_disks with
  | [] => ret (skip "No data disks were requested." [])
  | _ =>
      let* vm_id := _require_vm_id ctx in
      let* added := call (add_data_disks (target ctx) vm_id data_disks) in
      let n := Z.of_nat (List.length data_disks) in
      let sizes := join ", " (List.map (fun d => str_int (size_gb d) ++ " GB "
                                                 ++ disk_provisioning_value (provisioning d)) data_disks) in
      ret (succeed (str_int n ++ " data disk(s) attached to the running VM (" ++ sizes ++ "); "
                    ++ str_int added ++ " added now, " ++ str_int (n - added) ++ " already present.")
             [("data_disks", JArr (List.map (fun d => JNum (size_gb d)) data_disks))])
  end.

Definition _DATA_DISK_DETECTION_DELAYS : list Z := [5; 10; 20; 30; 30].

(** The script is run again after each delay while Windows has not detected
    every disk. *)
Fixpoint run_disk_script (ctx : Ctx) (credentials : GuestCredentials) (script : string) (timeout : Z)
    (previous : CommandResult) (delays : list Z) : M X CommandResult :=
  match delays with
  | [] => ret previous
  | delay :: rest =>
      (if delay =? 0 then ret tt else call (sleep (delay * SECOND_US)));;
      (let* result := powershell ctx credentials script timeout in
       if negb (exit_code result =? DATA_DISKS_NOT_VISIBLE_EXIT) then ret result
       else run_disk_script ctx credentials script timeout result rest)
  end.

Definition volume_json (v : DataVolume) : json :=
  JObj [("number", JNum (volume_number v)); ("size_gb", JNum (volume_size_gb v));
        ("drive_letter", JStr (drive_letter v)); ("label", JStr (volume_label v));
        ("file_system", JStr (file_system v))].

Definition volume_text (v : DataVolume) : string :=
  "Disk " ++ str_int (volume_number v) ++ ": " ++ str_int (volume_size_gb v) ++ " GB " ++ file_system v ++ " "
  ++ (if String.eqb (drive_letter v) "" then "(no drive letter)" else drive_letter v ++ ":") ++ " "
  ++ SQ ++ volume_label v ++ SQ.

Definition check_volumes (expected : list Z) (result : CommandResult) (volumes : list DataVolume)
    : M X StageOutcome :=
  let found := sorted_z (List.map volume_size_gb volumes) in
  let unformatted := existsb (fun v => String.eqb (file_system v) "") volumes in
  if negb (bool_decide (found = expected)) || unformatted then
    fail (infra_error "The data disks Windows reports do not match the request."
            ("Requested sizes " ++ str_list expected ++ " GB; Windows reports " ++ str_list found ++ " GB.")
            "Check the VM's disks in vCenter, then retry this stage." (last_str 1500 (stdout result)) true)
  else ret (succeed ("Data disks online and formatted:" ++ NL ++ join NL (List.map volume_text volumes))
              [("volumes", JArr (List.map volume_json volumes))]).

Definition no_result : CommandResult := MkResult DATA_DISKS_NOT_VISIBLE_EXIT "" "".

Definition stage_initialize_data_disks (ctx : Ctx) : M X StageOutcome :=
  let expected := sorted_z (List.map size_gb (data_disks_of ctx)) in
  let n := Z.of_nat (List.length expected) in
  match expected with
  | [] => ret (skip "No data disks were requested." [])
  | _ =>
      let* credentials := resolve_guest_credentials ctx in
      let* timeout := effective_timeout_seconds "initialize_data_disks" in
      let* result := run_disk_script ctx credentials (build_initialize_data_disks_script n) timeout no_result
                       (0 :: _DATA_DISK_DETECTION_DELAYS) in
      if exit_code result =? DATA_DISKS_NOT_VISIBLE_EXIT then
        fail (infra_error "Windows did not detect every hot-added data disk."
                ("Expected " ++ str_int n ++ " data disk(s); Windows reported " ++ strip (stdout result) ++ ".")
                "Check the VM's disks in vCenter, then retry this stage." (last_str 1000 (stdout result)) true)
      else if negb (succeeded result) then
        fail (script_failed "The data disks could not be brought online and formatted."
                ("The disk script exited with code " ++ str_int (exit_code result) ++ ".")
                "Review the technical output, then retry this stage." result)
      else
        match parse_data_volumes parse_int py_str repr_json (stdout result) with
        | Ok volumes => check_volumes expected result volumes
        | Err (kind, message_) =>
            if String.eqb kind "ValueError" then
              fail (infra_error "The data-disk result could not be interpreted." message_ "Retry this stage."
                      (last_str 1500 (stdout result)) true)
            else throw (OtherException kind message_)
        end
  end.

(** ** Network *)

Definition provider_status_value (s : ConflictProviderStatus) : string :=
  match s with
  | NO_CONFLICT => "NO_CONFLICT" | CONFLICT_DETECTED => "CONFLICT_DETECTED"
  | NOT_CONFIGURED => "NOT_CONFIGURED" | ERROR => "ERROR"
  end.

Definition provider_json (p : ProviderResult) : json :=
  JObj [("provider", JStr (provider p)); ("status", JStr (provider_status_value (provider_status p)));
        ("detail", JStr (provider_detail p))].

Definition assert_static_address_unclaimed (ctx : Ctx) (address : string) (prefix : Z) : M X unit :=
  let* info := call (get_vm_info (target ctx) (vm_name_of ctx)) in
  if match info with Some i => bool_decide (address ∈ ip_addresses i) | None => false end then ret tt
  else
    let* report := run_conflict_check address prefix
                     [IcmpPingProvider; VMwareInventoryProvider (target ctx) (Some (vm_name_of ctx))] in
    if conflict_detected report then
      let conflicts := List.map provider_detail
                         (List.filter (fun p => bool_decide (provider_status p = CONFLICT_DETECTED)) (providers report)) in
      fail (infra_error ("The address " ++ address ++ " is already in use on the network.")
              (or_text (join " " conflicts) "A conflict provider reported the address as in use.")
              "Free the address (or choose another one and resubmit), then retry the network stage."
              (json_dumps (JArr (List.map provider_json (providers report)))) true)
    else ret tt.

Definition static_ipv4 (r : ProvisioningRequest) : option Ipv4Config :=
  if bool_decide (mode (network r) = STATIC) then ipv4 (network r) else None.

Definition static_artifacts (c : Ipv4Config) : list (string * json) :=
  [("mode", JStr "STATIC"); ("address", JStr (address c)); ("prefix", JNum (prefix c));
   ("subnet_mask", JStr (subnet_mask c)); ("gateway", JStr (gateway c));
   ("dns_servers", JArr (List.map JStr (dns_servers c)))].

Definition stage_configure_guest_network (ctx : Ctx) : M X StageOutcome :=
  set_job (fun j => j <| guest_provisioning_status := IN_PROGRESS |>);;
  (let* credentials := resolve_guest_credentials ctx in
   let* plan :=
     match static_ipv4 (request ctx) with
     | Some c =>
         assert_static_address_unclaimed ctx (address c) (prefix c);;
         ret (build_static_ip_script (address c) (prefix c) (gateway c) (dns_servers c),
              succeed ("IP configured:" ++ NL ++ address c ++ "/" ++ str_int (prefix c) ++ NL ++ NL ++ "Gateway:" ++ NL
                       ++ gateway c ++ NL ++ NL ++ "DNS:" ++ NL ++ join NL (dns_servers c)) (static_artifacts c))
     | None => ret (build_dhcp_script, succeed "DHCP enabled on the guest adapter." [("mode", JStr "DHCP")])
     end in
   let* timeout := effective_timeout_seconds "configure_guest_network" in
   let* result := powershell ctx credentials (fst plan) timeout in
   if succeeded result then ret (snd plan)
   else
     fail (infra_error "The VM was created successfully, but Windows networking could not be configured."
             ("The configuration command exited with code " ++ str_int (exit_code result) ++ ".")
             "Verify VMware Tools status and retry the Network Configuration stage."
             (or_text (last_str 1500 (stdout result) ++ last_str 500 (stderr result)) "no output captured") true)).

Definition check_gateway (ctx : Ctx) (credentials : GuestCredentials) (c : Ipv4Config) : M X string :=
  let* result := powershell ctx credentials (gateway_script (gateway c)) 120 in
  if succeeded result then ret ("Gateway " ++ gateway c ++ " reachable")
  else fail (infra_error "The configured default gateway is not reachable from the guest."
               ("Ping to " ++ gateway c ++ " failed after network configuration.")
               ("Verify the IP/gateway values, VLAN assignment and firewall rules, then retry Network Validation.")
               (last_str 1000 (stdout result)) true).

Definition check_dns (ctx : Ctx) (credentials : GuestCredentials) (c : Ipv4Config) : M X (list string) :=
  match dns_servers c, domain_join (guest (request ctx)) with
  | [], _ => ret []
  | _, None => ret ["DNS servers configured; name-resolution probe skipped (no domain supplied)"]
  | dns :: _, Some join_ =>
      let* result := powershell ctx credentials (dns_script (domain join_) dns) 120 in
      if succeeded result then ret ["DNS lookup via " ++ dns ++ " working"]
      else fail (infra_error "DNS resolution through the configured resolver failed."
                   (SQ ++ domain join_ ++ SQ ++ " could not be resolved via " ++ dns ++ ".")
                   "Check the DNS server addresses and network routing, then retry."
                   (last_str 1000 (stdout result)) true)
  end.

Definition check_dhcp (ctx : Ctx) (credentials : GuestCredentials) : M X string :=
  let* result := powershell ctx credentials build_dhcp_probe_script 180 in
  if succeeded result then
    if String.eqb (stdout result) "" then ret "DHCP lease acquired"
    else match last_line (strip (stdout result)) with
         | Some l => ret l
         | None => throw (OtherException "IndexError" "list index out of range")
         end
  else fail (infra_error "The guest did not receive a DHCP address."
               "No usable IPv4 address was found on the adapter."
               "Verify the port group provides DHCP connectivity, then retry." (last_str 800 (stdout result)) true).

Definition CHECK_MARK : string := "✓ ".

Definition stage_validate_network (ctx : Ctx) : M X StageOutcome :=
  let* credentials := resolve_guest_credentials ctx in
  let* checks :=
    match static_ipv4 (request ctx) with
    | Some c =>
        let* gw := check_gateway ctx credentials c in
        let* dns := check_dns ctx credentials c in
        ret (gw :: dns)
    | None => let* lease := check_dhcp ctx credentials in ret [lease]
    end in
  ret (succeed ("Network validation:" ++ NL ++ join NL (List.map (fun c => CHECK_MARK ++ c) checks)) []).

(** ** Identity *)

Definition identity_artifacts (ctx : Ctx) (desired : string) : list (string * json) :=
  [("hostname", JStr desired); ("computer_name", JStr desired)]
  ++ match nonempty (effective_fqdn (request ctx)) with Some f => [("requested_fqdn", JStr f)] | None => [] end.

Definition rename_guest (ctx : Ctx) (credentials : GuestCredentials) (current desired : string) : M X StageOutcome :=
  let* result := powershell ctx credentials (build_rename_script desired) 180 in
  if succeeded result then
    set_hostname_changed true;;
    ret (succeed ("Windows computer name changed " ++ SQ ++ or_text current "?" ++ SQ ++ " → " ++ SQ ++ desired ++ SQ
                  ++ " (applies at reboot).") (identity_artifacts ctx desired))
  else fail (infra_error ("The Windows computer name could not be changed to " ++ SQ ++ desired ++ SQ ++ ".")
               ("Rename-Computer exited with code " ++ str_int (exit_code result) ++ ".")
               "Retry the hostname stage; verify local administrator permissions."
               (last_str 1000 (stdout result)) true).

Definition stage_configure_hostname (ctx : Ctx) : M X StageOutcome :=
  let desired := upper (effective_computer_name (request ctx)) in
  match domain_join (guest (request ctx)) with
  | Some _ =>
      ret (skip ("Windows computer name " ++ SQ ++ desired ++ SQ
                 ++ " will be applied atomically with the Active Directory join.") (identity_artifacts ctx desired))
  | None =>
      let* credentials := resolve_guest_credentials ctx in
      let* probe := powershell ctx credentials "$env:COMPUTERNAME" 60 in
      match (if String.eqb (stdout probe) "" then Some "" else last_line (upper (strip (stdout probe)))) with
      | None => throw (OtherException "IndexError" "list index out of range")
      | Some current =>
          if succeeded probe && String.eqb current desired then
            ret (skip ("Windows computer name already set to " ++ SQ ++ desired ++ SQ ++ ".")
                   (identity_artifacts ctx desired))
          else rename_guest ctx credentials current desired
      end
  end.

Definition probe_windows_identity (ctx : Ctx) (credentials : GuestCredentials) (operation : string)
    : M X WindowsIdentityState :=
  let* result := powershell ctx credentials build_windows_identity_probe_script 60 in
  if negb (succeeded result) then
    fail (script_failed "The Windows computer identity could not be read safely."
            ("The identity probe failed before " ++ operation ++ ".")
            "Verify VMware Tools and local administrator access, then retry." result)
  else match parse_windows_identity_state py_str (stdout result) with
       | Ok s => ret s
       | Err why =>
           fail (infra_error "The Windows computer identity could not be interpreted safely." why
                   "Retry after confirming the guest reports its Windows name and domain state."
                   (last_str 1500 (stdout result)) true)
       end.

Definition pending_identity (s : WindowsIdentityState) : bool :=
  has_pending_rename s || pending_domain_join s
  || (negb (String.eqb (active_name s) "") && negb (same_name (id_name s) (active_name s))).

Definition add_to_domain (ctx : Ctx) (credentials : GuestCredentials) (join_ : DomainJoinSpec)
    (observed : WindowsIdentityState) (desired_name : string) : M X StageOutcome :=
  let base := join_secret_ref join_ in
  let* username := call (get_secret (base ++ "/username")) in
  let* password := call (get_secret (base ++ "/password")) in
  let rename_to := if same_name (id_name observed) desired_name then None else Some desired_name in
  let* timeout := effective_timeout_seconds "join_domain" in
  let* result := run_powershell (target ctx) (vm_name_of ctx) credentials
                   (build_domain_join_script (domain join_) username (ou join_) rename_to) timeout
                   [(DOMAIN_JOIN_PASSWORD_SECRET, password)] in
  if negb (succeeded result) then
    fail (infra_error ("The domain join to " ++ SQ ++ domain join_ ++ SQ ++ " failed.")
            ("Add-Computer exited with code " ++ str_int (exit_code result) ++ ".")
            ("Verify the domain-join account, OU path and network path to a domain "
             ++ "controller, then retry the domain join stage.")
            (replace_str password "[REDACTED]" (last_str 1500 (stdout result ++ NL ++ stderr result))) true)
  else
    set_reboot_required true;;
    ret (succeed
      ("Active Directory accepted Windows computer name " ++ SQ ++ desired_name ++ SQ ++ " for domain " ++ SQ
       ++ domain join_ ++ SQ ++ match nonempty (ou join_) with Some o => " (OU: " ++ o ++ ")" | None => "" end
       ++ "; reboot is required before the resulting DNS identity can be verified.")
      [("computer_name", JStr desired_name); ("domain", JStr (domain join_)); ("identity_verified", JBool false);
       ("joined", JBool true); ("reboot_required", JBool true);
       ("requested_fqdn", opt_str (effective_fqdn (request ctx)))]).

Definition stage_join_domain (ctx : Ctx) : M X StageOutcome :=
  match domain_join (guest (request ctx)) with
  | None => ret (skip "Domain join not requested." [])
  | Some join_ =>
      let* credentials := resolve_guest_credentials ctx in
      let desired_name := upper (effective_computer_name (request ctx)) in
      let* observed := probe_windows_identity ctx credentials "attempting an Active Directory join" in
      if pending_identity observed then
        fail (infra_error "A pending Windows identity change must be resolved before domain join."
                (windows_identity_detail observed)
                ("Restart the guest, confirm its active computer name and domain, then retry the "
                 ++ "domain-join stage. InfraOps did not make another Active Directory change.") "" true)
      else if windows_identity_matches observed desired_name (domain join_) then
        set_reboot_required false;;
        ret (skip
          ("Windows already reports the verified domain identity " ++ SQ
           ++ match fqdn observed with Some f => f | None => "None" end ++ SQ
           ++ "; no Active Directory change was made.")
          [("computer_name", JStr (upper (id_name observed))); ("domain", JStr (lower (id_domain observed)));
           ("fqdn", opt_str (fqdn observed)); ("identity_verified", JBool true); ("joined", JBool true);
           ("reboot_required", JBool false)])
      else if part_of_domain observed then
        fail (infra_error "The guest is already joined with a different Windows domain identity."
                (windows_identity_detail observed)
                ("Resolve the existing domain membership manually before retrying. "
                 ++ "InfraOps will not move or rename an unexpected domain member automatically.") "" false)
      else add_to_domain ctx credentials join_ observed desired_name
  end.

(** ** Restart and availability *)

(** The join still needs a restart, by its artifacts. *)
Definition joined_requires_reboot (arts : gmap string json) : bool :=
  get_truthy arts "joined" && match arts !! "reboot_required" with Some v => truthy v | None => true end.

Definition get_hostname_changed : M X bool := fun r => (Return (hostname_changed r), r).

Definition stage_reboot_guest (ctx : Ctx) : M X StageOutcome :=
  let* join_artifacts := get_artifacts "join_domain" in
  let* renamed := get_hostname_changed in
  if negb (renamed || joined_requires_reboot join_artifacts) then
    ret (skip "No pending changes require a reboot." [])
  else
    let* credentials := resolve_guest_credentials ctx in
    let* boot_before := guest_boot_time ctx credentials in
    schedule_guest_restart ctx credentials "InfraOps provisioning restart";;
    ret (succeed "Guest restart initiated." [("boot_time", JStr boot_before)]).

Fixpoint poll_responsive (ctx : Ctx) (credentials : GuestCredentials) (fuel : nat) (deadline attempts : Z)
    (last_error : string) : M X StageOutcome :=
  match fuel with
  | O => throw (Cancelled Timeout)
  | S fuel' =>
      let* time := now in
      if time <? deadline then
        let* answer := catch_infra
          (let* probe := call (run_program (target ctx) (vm_name_of ctx) credentials HOSTNAME_PATH "" 60) in
           ret (if succeeded probe then Ok tt else Err ("exit code " ++ str_int (exit_code probe))))
          (fun e => ret (Err (human_message e))) in
        match answer with
        | Ok _ => ret (succeed ("Guest responsive after restart (" ++ str_int (attempts + 1) ++ " probe(s)).") [])
        | Err why =>
            call (sleep (10 * SECOND_US));; poll_responsive ctx credentials fuel' deadline (attempts + 1) why
        end
      else
        fail (infra_error "The guest did not become responsive after the scheduled restart."
                ("Guest operations probes timed out after 10 minutes (last: " ++ or_text last_error "n/a" ++ ").")
                "Check the VM console in vCenter, then retry the availability stage." "" true)
  end.

Definition stage_wait_guest_ready (ctx : Ctx) : M X StageOutcome :=
  let* join_artifacts := get_artifacts "join_domain" in
  let* reboot_step := get_step "reboot_guest" in
  let joined := get_truthy join_artifacts "joined" in
  let rebooted := match reboot_step with Some s => bool_decide (step_status s = SUCCEEDED) | None => false end in
  if negb (joined || rebooted) then
    ret (skip "Guest was not restarted — availability confirmed earlier." [])
  else
    let* credentials := resolve_guest_credentials ctx in
    let boot_before := match reboot_step with
                       | Some s => if rebooted then get_text (artifacts s) "boot_time" else None
                       | None => None
                       end in
    match boot_before with
    | Some boot =>
        let* probes := wait_for_guest_restart ctx credentials boot _GUEST_RESTART_SECONDS in
        ret (succeed ("Guest responsive after restart (" ++ str_int probes ++ " probe(s)).") [])
    | None =>
        let* start := now in
        poll_responsive ctx credentials POLL_FUEL (start + 600 * SECOND_US) 0 ""
    end.

(** ** Frames and calm *)

Opaque POLL_FUEL.

Lemma frames_powershell ctx c script t : frames (powershell ctx c script t).
Proof. unfold powershell. solve_frames. Qed.
Lemma calm_powershell b ctx c script t : calm b (powershell ctx c script t).
Proof. unfold powershell. solve_calm. Qed.
Hint Resolve frames_powershell calm_powershell : infra.

Lemma frames_boot_time ctx c : frames (guest_boot_time ctx c).
Proof. unfold guest_boot_time. solve_frames. Qed.
Lemma calm_boot_time b ctx c : calm b (guest_boot_time ctx c).
Proof. unfold guest_boot_time. solve_calm. Qed.
Lemma frames_schedule ctx c m : frames (schedule_guest_restart ctx c m).
Proof. unfold schedule_guest_restart. solve_frames. Qed.
Lemma calm_schedule b ctx c m : calm b (schedule_guest_restart ctx c m).
Proof. unfold schedule_guest_restart. solve_calm. Qed.
Hint Resolve frames_boot_time calm_boot_time frames_schedule calm_schedule : infra.

Lemma frames_poll_restart ctx c boot t fuel d n : frames (poll_restart ctx c boot t fuel d n).
Proof. revert n. induction fuel; intros; cbn [poll_restart]; unfold probe_restart; solve_frames. Qed.
Lemma calm_poll_restart ctx c boot t fuel d n : calm true (poll_restart ctx c boot t fuel d n).
Proof. revert n. induction fuel; intros; cbn [poll_restart]; unfold probe_restart; solve_calm. Qed.
Hint Resolve frames_poll_restart calm_poll_restart : infra.

Lemma frames_wait_restart ctx c boot t : frames (wait_for_guest_restart ctx c boot t).
Proof. unfold wait_for_guest_restart. solve_frames. Qed.
Lemma calm_wait_restart ctx c boot t : calm true (wait_for_guest_restart ctx c boot t).
Proof. unfold wait_for_guest_restart. solve_calm. Qed.
Hint Resolve frames_wait_restart calm_wait_restart : infra.

Lemma frames_disk_script ctx c script t p delays : frames (run_disk_script ctx c script t p delays).
Proof. revert p. induction delays; intros; cbn [run_disk_script]; solve_frames. Qed.
Lemma calm_disk_script b ctx c script t p delays : calm b (run_disk_script ctx c script t p delays).
Proof. revert p. induction delays; intros; cbn [run_disk_script]; solve_calm. Qed.
Hint Resolve frames_disk_script calm_disk_script : infra.

Lemma tame_address_checks ctx a n : let ps := [IcmpPingProvider; VMwareInventoryProvider (target ctx) (Some (vm_name_of ctx))] in
  frames (run_conflict_check a n ps) /\ forall t, calm t (run_conflict_check a n ps).
Proof.
  apply tame_run_conflict_check. apply Forall_cons. split; [apply tame_icmp|].
  apply Forall_cons. split; [apply tame_inventory|done].
Qed.

Lemma frames_assert_address ctx a n : frames (assert_static_address_unclaimed ctx a n).
Proof. pose proof (proj1 (tame_address_checks ctx a n)). unfold assert_static_address_unclaimed. solve_frames. Qed.
Lemma calm_assert_address t ctx a n : calm t (assert_static_address_unclaimed ctx a n).
Proof. pose proof (proj2 (tame_address_checks ctx a n) t). unfold assert_static_address_unclaimed. solve_calm. Qed.
Hint Resolve frames_assert_address calm_assert_address : infra.

Lemma frames_probe_identity ctx c op : frames (probe_windows_identity ctx c op).
Proof. unfold probe_windows_identity. solve_frames. Qed.
Lemma calm_probe_identity t ctx c op : calm t (probe_windows_identity ctx c op).
Proof. unfold probe_windows_identity. solve_calm. Qed.
Hint Resolve frames_probe_identity calm_probe_identity : infra.

Lemma frames_hostname_changed : frames get_hostname_changed.
Proof. intros r. apply frame_refl. Qed.
Lemma calm_hostname_changed t : calm t get_hostname_changed.
Proof. intros r Hr. split; [done|discriminate]. Qed.
Hint Resolve frames_hostname_changed calm_hostname_changed : infra.

Lemma frames_poll_responsive ctx c fuel d n e : frames (poll_responsive ctx c fuel d n e).
Proof. revert n e. induction fuel; intros; cbn [poll_responsive]; solve_frames. Qed.
Lemma calm_poll_responsive ctx c fuel d n e : calm true (poll_responsive ctx c fuel d n e).
Proof. revert n e. induction fuel; intros; cbn [poll_responsive]; solve_calm. Qed.
Hint Resolve frames_poll_responsive calm_poll_responsive : infra.

Lemma tame_cleanup : tame_stage true stage_cleanup_unattended_media.
Proof. unfold stage_cleanup_unattended_media, remove_recorded_media, detach_media, scrub_guest. solve_tame. Qed.
Lemma tame_add_data_disks t : tame_stage t stage_add_data_disks.
Proof. unfold stage_add_data_disks. solve_tame. Qed.
Lemma tame_initialize_data_disks t : tame_stage t stage_initialize_data_disks.
Proof. unfold stage_initialize_data_disks, check_volumes. solve_tame. Qed.
Lemma tame_configure_guest_network t : tame_stage t stage_configure_guest_network.
Proof. unfold stage_configure_guest_network. solve_tame. Qed.
Lemma tame_validate_network t : tame_stage t stage_validate_network.
Proof. unfold stage_validate_network, check_gateway, check_dns, check_dhcp. solve_tame. Qed.
Lemma tame_configure_hostname t : tame_stage t stage_configure_hostname.
Proof. unfold stage_configure_hostname, rename_guest. solve_tame. Qed.
Lemma tame_join_domain t : tame_stage t stage_join_domain.
Proof. unfold stage_join_domain, add_to_domain. solve_tame. Qed.
Lemma tame_reboot_guest t : tame_stage t stage_reboot_guest.
Proof. unfold stage_reboot_guest. solve_tame. Qed.
Lemma tame_wait_guest_ready : tame_stage true stage_wait_guest_ready.
Proof. unfold stage_wait_guest_ready. solve_tame. Qed.

(** ** Deadlines *)

Section Deadlines.
Context {clocks : ClockLaws X}.

Lemma patient_probe_restart ctx c boot : patient (probe_restart ctx c boot).
Proof. unfold probe_restart, guest_boot_time, powershell. solve_patient. Qed.
Hint Resolve patient_probe_restart : clock.

Lemma poll_restart_ends ctx c boot timeout fuel deadline probes r :
  undisturbed r -> (0 < fuel)%nat -> deadline - utcnow (world r) <= _RESTART_POLL_SECONDS * SECOND_US * Z.of_nat fuel ->
  wp (poll_restart ctx c boot timeout fuel deadline probes) at_ease r.
Proof.
  unfold _RESTART_POLL_SECONDS, SECOND_US. revert probes r. induction fuel as [|fuel IH]; intros probes r U F D; [lia|]. cbn [poll_restart].
  unfold _RESTART_POLL_SECONDS, SECOND_US. apply at_ease_sleep; [done|lia|]. intros r1 U1 S1 _.
  apply at_ease_patient; [done|unfold probe_restart; solve_calm|solve_patient|]. intros [[]|why] r2 U2 [L2 _]; [by split|].
  apply at_ease_now. destruct (Z.leb_spec deadline (utcnow (world r2))) as [E|E]; [by split|]. apply IH; [done|lia..].
Qed.

Lemma wait_restart_ends ctx c boot timeout : timeout <= 900 -> calm false (wait_for_guest_restart ctx c boot timeout).
Proof.
  intros T. apply calm_at_ease. intros r U. apply at_ease_now. pose proof POLL_FUEL_value as F. generalize dependent POLL_FUEL. intros fuel F.
  apply poll_restart_ends; [done|lia|]. unfold _RESTART_POLL_SECONDS, SECOND_US. lia.
Qed.

Lemma poll_responsive_ends ctx c fuel deadline attempts why r :
  undisturbed r -> (0 < fuel)%nat -> deadline - utcnow (world r) <= 10 * SECOND_US * (Z.of_nat fuel - 1) ->
  wp (poll_responsive ctx c fuel deadline attempts why) at_ease r.
Proof.
  unfold SECOND_US. revert attempts why r. induction fuel as [|fuel IH]; intros attempts why r U F D; [lia|]. cbn [poll_responsive].
  apply at_ease_now. destruct (Z.ltb_spec (utcnow (world r)) deadline) as [E|E]; [|by split].
  apply at_ease_patient; [done|solve_calm|solve_patient|]. intros [[]|err] r1 U1 [L1 _]; [by split|].
  unfold SECOND_US. apply at_ease_sleep; [done|lia|]. intros r2 U2 S2 _. apply IH; [done|lia..].
Qed.

Lemma cleanup_ends : tame_stage false stage_cleanup_unattended_media.
Proof.
  intros ctx. split; [apply tame_cleanup|]. assert (W : forall c boot, calm false (wait_for_guest_restart ctx c boot _TOOLS_RESTART_SECONDS))
    by (intros; by apply wait_restart_ends).
  unfold stage_cleanup_unattended_media, remove_recorded_media, detach_media, scrub_guest. solve_calm.
Qed.

Lemma wait_guest_ready_ends : tame_stage false stage_wait_guest_ready.
Proof.
  intros ctx. split; [apply tame_wait_guest_ready|]. assert (W : forall c boot, calm false (wait_for_guest_restart ctx c boot _GUEST_RESTART_SECONDS))
    by (intros; by apply wait_restart_ends).
  assert (P : forall c, calm false (let* start := now in poll_responsive ctx c POLL_FUEL (start + 600 * SECOND_US) 0 "")).
  { intros c. apply calm_at_ease. intros r U. apply at_ease_now. pose proof POLL_FUEL_value as F. generalize dependent POLL_FUEL. intros fuel F.
    apply poll_responsive_ends; [done|lia|]. unfold SECOND_US. lia. }
  unfold stage_wait_guest_ready. do 2 (apply calm_bind; [solve_calm|]; intros ?). cbn zeta. destruct (negb _); [solve_calm|].
  apply calm_bind; [solve_calm|]. intros c. case_match; [solve_calm|apply P].
Qed.

End Deadlines.

End Stages.

#[export] Hint Resolve frames_powershell calm_powershell frames_probe_identity calm_probe_identity : infra.
