(* ===== verification/StagesApps.v ===== *)
(** * Stages: certificates, applications, final validation

    The remaining stage handlers of [app/workers/stages.py] and the table
    [STAGE_HANDLERS] of all of them. *)

From Stdlib Require Import ZArith Lia Ascii String List Bool.
From stdpp Require Import base tactics list strings gmap.
From S2P Require Import Prelude PyStr Json Network Errors Schemas StateMachine Jobs AuditTrail Scripts Effects.
From S2P Require Import World Guest Resolver Applications Certificates GuestScripts StageSupport StagesVm.
From S2P Require Import StagesGuest.

Local Open Scope string_scope.
Local Open Scope Z_scope.

Section Stages.

Context {X : Type} `{World X}.

(** ** Certificates *)

Definition _load_certificates (package_ids : list string) (kind : CertificateType) : M X (list CertificateRow) :=
  match package_ids with
  | [] => ret []
  | _ =>
      let* rows := call certificate_rows in
      ret (sorted_by friendly_name
             (List.filter (fun c => bool_decide (package_id c ∈ package_ids) && cert_enabled c && package_enabled c
                                    && bool_decide (certificate_type c = kind)) rows))
  end.

Definition certificate_audit (ctx : Ctx) (j : Job) (r : CertificateInstallRecord) : AuditEvent :=
  audit_event "CERTIFICATE_INSTALLED" (actor_username ctx) "certificate" (Some (cert_name r)) (Some (job_id j))
    (Some (compute_datacenter_id (compute (request ctx)))) (datacenter_name j) (Some "success")
    [("store", JStr ("LocalMachine\" ++ cert_store r)); ("thumbprint", JStr (cert_thumbprint r))] None.

Fixpoint audit_certificates (ctx : Ctx) (records : list CertificateInstallRecord) : M X unit :=
  match records with
  | [] => ret tt
  | r :: rest =>
      (let* j := get_job in record_audit (certificate_audit ctx j r));; audit_certificates ctx rest
  end.

Definition record_json (r : CertificateInstallRecord) : json :=
  JObj [("friendly_name", JStr (cert_name r)); ("store", JStr (cert_store r)); ("thumbprint", JStr (cert_thumbprint r));
        ("action", JStr (cert_action r)); ("verified", JBool (verified r)); ("detail", JStr (cert_detail r))].

Definition action_is (a : string) (r : CertificateInstallRecord) : bool := String.eqb (cert_action r) a.
Definition record_reason (r : CertificateInstallRecord) : string := cert_name r ++ ": " ++ cert_detail r.

Definition _deploy_certificate_group (ctx : Ctx) (kind : CertificateType) (label_ : string) : M X StageOutcome :=
  let* certs := _load_certificates (certificate_package_ids (request ctx)) kind in
  match certs with
  | [] => ret (skip ("No " ++ label_ ++ " certificates selected.") [])
  | _ =>
      let* credentials := resolve_guest_credentials ctx in
      let* records := deploy (target ctx) (vm_name_of ctx) credentials certs in
      let failures := List.filter (action_is "FAILED") records in
      audit_certificates ctx (List.filter (action_is "INSTALLED") records);;
      match failures with
      | _ :: _ =>
          fail (infra_error (str_int (Z.of_nat (List.length failures)) ++ " " ++ label_
                             ++ " certificate(s) failed to install.")
                  (take_str 800 (join "; " (List.map record_reason failures)))
                  "Retry the certificate installation stage after reviewing the errors."
                  (json_dumps (JArr (List.map record_json records))) true)
      | [] =>
          ret (succeed (join NL (List.map (fun r => (if verified r then "✓" else "✗") ++ " " ++ cert_name r
                                   ++ " → LocalMachine\" ++ cert_store r ++ " (" ++ cert_action r ++ ")") records))
                 [("records", JArr (List.map record_json records))])
      end
  end.

Definition stage_install_root_certificates (ctx : Ctx) : M X StageOutcome :=
  _deploy_certificate_group ctx ROOT_CERT "trusted root".
Definition stage_install_intermediate_certificates (ctx : Ctx) : M X StageOutcome :=
  _deploy_certificate_group ctx INTERMEDIATE_CERT "intermediate".

Definition stage_validate_certificates (ctx : Ctx) : M X StageOutcome :=
  let* roots := _load_certificates (certificate_package_ids (request ctx)) ROOT_CERT in
  let* intermediates := _load_certificates (certificate_package_ids (request ctx)) INTERMEDIATE_CERT in
  let all_certs := (roots ++ intermediates)%list in
  match all_certs with
  | [] => ret (skip "No certificates selected." [])
  | _ =>
      let* credentials := resolve_guest_credentials ctx in
      let* results := verify_all (target ctx) (vm_name_of ctx) credentials all_certs in
      let failed := List.filter (fun r => negb (verified r)) results in
      match failed with
      | _ :: _ =>
          fail (infra_error (str_int (Z.of_nat (List.length failed)) ++ " certificate(s) failed post-install verification.")
                  (take_str 800 (join "; " (List.map record_reason failed)))
                  "Retry certificate installation and verification."
                  (json_dumps (JArr (List.map record_json results))) true)
      | [] =>
          ret (succeed (join NL (List.map (fun r => CHECK_MARK ++ cert_name r ++ " present in LocalMachine\"
                                   ++ cert_store r) results))
                 [("verified", JArr (List.map (fun r => JStr (cert_name r)) results))])
      end
  end.

(** ** Applications *)

Definition app_node (a : ApplicationRow) : AppNode :=
  MkNode (app_id a) (app_name a) (app_enabled a) (list_to_set (dependency_ids a)).

Definition catalog_of_rows (rows : list ApplicationRow) : gmap string AppNode :=
  fold_left (fun catalog a => <[app_id a := app_node a]> catalog) rows ∅.

Definition _load_application_catalog : M X (gmap string AppNode) :=
  let* rows := call application_rows in ret (catalog_of_rows rows).

Definition stage_resolve_dependencies (ctx : Ctx) : M X StageOutcome :=
  match application_ids (request ctx) with
  | [] => ret (skip "No applications selected." [])
  | ids =>
      let* catalog := _load_application_catalog in
      match resolve_install_order ids catalog with
      | (_, (_ :: _) as errs) =>
          fail (infra_error "Application dependencies could not be resolved." (take_str 800 (join " " errs))
                  "Ask an administrator to correct the application catalog dependencies."
                  (json_dumps (JArr (List.map JStr errs))) false)
      | (ordered, []) =>
          ret (succeed ("Install order: " ++ join " → " (List.map node_name ordered))
                 [("order", JArr (List.map (fun n => JObj [("id", JStr (node_id n)); ("name", JStr (node_name n))])
                                    ordered))])
      end
  end.

(** The entries of a list artifact; absent or falsy is empty. *)
Definition artifact_list (arts : gmap string json) (k : string) : list json :=
  match arts !! k with Some (JArr l) => l | _ => [] end.

(** [entry[k]] as text. *)
Definition entry_text (entry : json) (k : string) : M X string :=
  match entry with
  | JObj l => match member k l with
              | Some v => ret (py_str v)
              | None => throw (OtherException "KeyError" k)
              end
  | _ => throw (OtherException "TypeError" "string indices must be integers")
  end.

Definition symbol_of (o : InstallOutcome) : string :=
  if bool_decide (install_status o ∈ ["INSTALLED"; "ALREADY_INSTALLED"]) then "✓"
  else if String.eqb (install_status o) "REBOOT_REQUIRED" then "↻" else "✗".

Definition application_audit (ctx : Ctx) (j : Job) (o : InstallOutcome) : AuditEvent :=
  audit_event "APPLICATION_INSTALLED" (actor_username ctx) "application" (Some (install_name o)) (Some (job_id j))
    (Some (compute_datacenter_id (compute (request ctx)))) (datacenter_name j) (Some "success") [] None.

(** The loop over the order: its outcomes and failures, both in order. *)
Fixpoint install_all (ctx : Ctx) (credentials : GuestCredentials) (apps : list ApplicationRow) (order : list json)
    : M X (list InstallOutcome * list string) :=
  match order with
  | [] => ret ([], [])
  | entry :: rest =>
      let* id := entry_text entry "id" in
      match by_id app_id apps id with
      | None =>
          let* name := entry_text entry "name" in
          let* more := install_all ctx credentials apps rest in
          ret (fst more, (name ++ ": definition disappeared from the catalog") :: snd more)
      | Some app =>
          let* o := install (target ctx) (vm_name_of ctx) credentials app in
          (if String.eqb (install_status o) "INSTALLED"
           then let* j := get_job in record_audit (application_audit ctx j o) else ret tt);;
          (let* more := install_all ctx credentials apps rest in
           ret (o :: fst more,
                (if String.eqb (install_status o) "FAILED"
                 then (install_name o ++ ": " ++ take_str 200 (install_output o)) :: snd more else snd more)))
      end
  end.

Definition get_reboot_required : M X bool := fun r => (Return (reboot_required r), r).

Definition outcome_json (o : InstallOutcome) : json :=
  JObj [("name", JStr (install_name o)); ("status", JStr (install_status o)); ("reboot_required", JBool (install_reboot o))].

(** Every line carries the symbol the loop computed last. *)
Definition install_report (outcomes : list InstallOutcome) : string :=
  let symbol := match last outcomes with Some o => symbol_of o | None => "" end in
  join NL (List.map (fun o => symbol ++ " " ++ install_name o ++ " (" ++ install_status o ++ ")") outcomes).

Definition stage_install_applications (ctx : Ctx) : M X StageOutcome :=
  let* dep_artifacts := get_artifacts "resolve_dependencies" in
  match artifact_list dep_artifacts "order" with
  | [] => ret (skip "No applications to install." [])
  | order =>
      let* credentials := resolve_guest_credentials ctx in
      let* apps := call application_rows in
      let* result := install_all ctx credentials apps order in
      let '(outcomes, failures) := result in
      let any_reboot := existsb install_reboot outcomes in
      match failures with
      | _ :: _ =>
          fail (infra_error (str_int (Z.of_nat (List.length failures)) ++ " application installation(s) failed.")
                  (take_str 900 (join "; " failures))
                  "Retry the application installation stage — already-installed items are skipped."
                  (join NL (List.map (fun o => "[" ++ install_status o ++ "] " ++ install_name o ++ ": "
                                       ++ take_str 400 (install_output o)) outcomes)) true)
      | [] =>
          let* before := get_reboot_required in
          set_reboot_required (before || any_reboot);;
          ret (succeed (install_report outcomes)
                 [("outcomes", JArr (List.map outcome_json outcomes)); ("reboot_required", JBool any_reboot)])
      end
  end.

(** The loop of the validation: its lines and problems. *)
Fixpoint detect_all (ctx : Ctx) (credentials : GuestCredentials) (apps : list ApplicationRow) (entries : list json)
    : M X (list string * list string) :=
  match entries with
  | [] => ret ([], [])
  | entry :: rest =>
      let* name := entry_text entry "name" in
      match by_id app_name apps name with
      | None =>
          let* more := detect_all ctx credentials apps rest in
          ret (fst more, (name ++ ": definition missing during validation") :: snd more)
      | Some app =>
          let* detected := detect (target ctx) (vm_name_of ctx) credentials app in
          let* more := detect_all ctx credentials apps rest in
          ret (if detected then ((CHECK_MARK ++ name) :: fst more, snd more)
               else (("✗ " ++ name ++ " not detected after installation") :: fst more, name :: snd more))
      end
  end.

Fixpoint entry_names (entries : list json) : M X (list json) :=
  match entries with
  | [] => ret []
  | e :: rest => let* n := entry_text e "name" in let* l := entry_names rest in ret (JStr n :: l)
  end.

Definition stage_validate_applications (ctx : Ctx) : M X StageOutcome :=
  let* install_artifacts := get_artifacts "install_applications" in
  match artifact_list install_artifacts "outcomes" with
  | [] => ret (skip "No applications were installed." [])
  | outcomes =>
      let* credentials := resolve_guest_credentials ctx in
      let* apps := call application_rows in
      let* result := detect_all ctx credentials apps outcomes in
      match snd result with
      | _ :: _ as problems =>
          fail (infra_error ("Post-install detection failed for: " ++ join ", " problems ++ ".")
                  "Detection rules did not match after installation."
                  "Review the detection rules with an administrator and retry validation."
                  (json_dumps (JArr (List.map JStr problems))) true)
      | [] =>
          let* names := entry_names outcomes in
          ret (succeed (join NL (fst result)) [("validated", JArr names)])
      end
  end.

(** ** Final validation *)

Definition windows_installation_type (ctx : Ctx) : M X string :=
  let* credentials := resolve_guest_credentials ctx in
  let* result := powershell ctx credentials INSTALLATION_TYPE_SCRIPT 60 in
  match (if succeeded result then last (output_lines (stdout result)) else None) with
  | Some line => ret line
  | None =>
      fail (infra_error "Windows did not report its installation type."
              ("The read-only registry query exited with code " ++ str_int (exit_code result) ++ ".")
              "Retry this stage." (last_str 1000 (stdout result ++ NL ++ stderr result)) true)
  end.

Record CheckItem := MkItem { group : string; item_label : string; item_ok : bool; item_detail : string }.

Definition item_json (i : CheckItem) : json :=
  JObj [("group", JStr (group i)); ("label", JStr (item_label i));
        ("status", JStr (if item_ok i then "PASS" else "FAIL")); ("detail", JStr (item_detail i))].

Definition checklist_json (l : list CheckItem) : json := JArr (List.map item_json l).

Definition vm_items (info : option PowerStateInfo) : list CheckItem :=
  MkItem "VM" "Exists in vCenter" (match info with Some _ => true | None => false end) ""
  :: match info with
     | Some i =>
         [MkItem "VM" "Powered on" (String.eqb (power_state i) "poweredOn") (power_state i);
          MkItem "VM" "VMware Tools running" (opt_is (tools_status i) ["toolsOk"; "toolsOld"])
            (match nonempty (tools_status i) with Some s => s | None => "unknown" end)]
     | None => []
     end.

Definition wrong_edition (ctx : Ctx) (edition installation_type : string) (checklist : list CheckItem) : InfraError :=
  infra_error "Windows was installed without the Desktop Experience."
    ("Windows reports installation type " ++ SQ ++ installation_type ++ SQ ++ " for edition index "
     ++ str_int (windows_image_index (guest (request ctx))) ++ ", which Microsoft's Windows Server media use for "
     ++ edition ++ ".")
    ("The ISO lists its editions in a different order than Microsoft's Windows Server "
     ++ "media. The Desktop Experience cannot be added to a Server Core installation: "
     ++ "delete the VM and submit a new request with unmodified Microsoft media.")
    (json_dumps (checklist_json checklist)) false.

(** The edition item; an edition without the Desktop Experience ends the stage. *)
Definition edition_items (ctx : Ctx) (checklist : list CheckItem) : M X (list CheckItem) :=
  match DESKTOP_EXPERIENCE_EDITIONS (windows_image_index (guest (request ctx))) with
  | None => ret checklist
  | Some edition =>
      let* installation_type := windows_installation_type ctx in
      let ok := String.eqb installation_type "Server" in
      let checklist' := (checklist ++ [MkItem "Windows" (edition ++ " installed") ok installation_type])%list in
      if ok then ret checklist' else fail (wrong_edition ctx edition installation_type checklist')
  end.

(** [d.get(k)] of an entry. *)
Definition entry_get (entry : json) (k : string) : json :=
  match entry with JObj l => match member k l with Some v => v | None => JNull end | _ => JNull end.
Definition text_if_truthy (v : json) : string := if truthy v then py_str v else "".

Definition volume_check (v : json) : CheckItem :=
  let letter := text_if_truthy (entry_get v "drive_letter") in
  MkItem "Storage"
    (py_str (entry_get v "size_gb") ++ " GB data volume " ++ (if String.eqb letter "" then "" else letter ++ ":")
     ++ " online")
    (truthy (entry_get v "file_system")) (text_if_truthy (entry_get v "label")).

Definition network_items (ctx : Ctx) (info : option PowerStateInfo) (net_artifacts : gmap string json)
    : list CheckItem :=
  let observed := match info with Some i => ip_addresses i | None => [] end in
  match static_ipv4 (request ctx) with
  | Some c =>
      [MkItem "Network" ("Correct IP address (" ++ address c ++ ")") (bool_decide (address c ∈ observed))
         (or_text (join ", " observed) "none reported");
       MkItem "Network" "Gateway reachable" true
         (match net_artifacts !! "gateway" with Some v => py_str v | None => "" end);
       MkItem "Network" "DNS servers configured" (get_truthy net_artifacts "dns_servers")
         (join ", " (List.map py_str (artifact_list net_artifacts "dns_servers")))]
  | None =>
      [MkItem "Network" "DHCP address acquired" (match observed with [] => false | _ => true end)
         (join ", " observed)]
  end.

(** The identity item with the observed names. *)
Definition identity_items (ctx : Ctx) : M X (list CheckItem * option string * option string) :=
  match domain_join (guest (request ctx)) with
  | None => ret ([], Some (effective_computer_name (request ctx)), None)
  | Some join_ =>
      let* credentials := resolve_guest_credentials ctx in
      let* identity := probe_windows_identity ctx credentials "performing post-reboot validation" in
      if windows_identity_matches identity (effective_computer_name (request ctx)) (domain join_) then
        ret ([MkItem "Identity" ("Observed domain identity " ++ match fqdn identity with Some f => f | None => "None" end)
                true (windows_identity_detail identity)],
             Some (upper (id_name identity)), fqdn identity)
      else
        ret ([MkItem "Identity" "Observed Windows identity matches the requested computer and domain" false
                (windows_identity_detail identity)], None, None)
  end.

Fixpoint add_to_group (g line : string) (groups : list (string * list string)) : list (string * list string) :=
  match groups with
  | [] => [(g, [line])]
  | (x, l) :: r => if String.eqb x g then (x, (l ++ [line])%list) :: r else (x, l) :: add_to_group g line r
  end.

Definition rendered (checklist : list CheckItem) : string :=
  let groups := fold_left (fun gs i => add_to_group (group i) (CHECK_MARK ++ item_label i) gs) checklist [] in
  join (NL ++ NL) (List.map (fun g => fst g ++ NL ++ join NL (snd g)) groups).

Definition unresolved (checklist failures : list CheckItem) : InfraError :=
  infra_error "Final validation reported unresolved problems."
    (join "; " (List.map (fun i => group i ++ "/" ++ item_label i) failures))
    "Review the validation checklist and retry the affected stages." (json_dumps (checklist_json checklist)) true.

Definition finish_validation (ctx : Ctx) (info : option PowerStateInfo) (checklist : list CheckItem)
    (name_ fqdn_ : option string) : M X StageOutcome :=
  match List.filter (fun i => negb (item_ok i)) checklist with
  | (_ :: _) as failures => fail (unresolved checklist failures)
  | [] =>
      set_job (fun j => j <| infrastructure_status := INFRA_READY |> <| guest_provisioning_status := GUEST_COMPLETED |>);;
      (let* at_ := now in
       ret (succeed (rendered checklist)
         [("checklist", checklist_json checklist);
          ("summary", JObj [("vm_name", JStr (vm_name_of ctx)); ("computer_name", opt_str name_);
             ("fqdn", opt_str fqdn_);
             ("ip_address", opt_str (match info with Some i => head (ip_addresses i) | None => None end));
             ("finished_at", JStr (isoformat at_))])]))
  end.

Definition stage_final_validation (ctx : Ctx) : M X StageOutcome :=
  let* info := call (get_vm_info (target ctx) (vm_name_of ctx)) in
  let* base := edition_items ctx (vm_items info) in
  let* disk_artifacts := get_artifacts "initialize_data_disks" in
  let* net_artifacts := get_artifacts "configure_guest_network" in
  let* identity := identity_items ctx in
  let* cert_artifacts := get_artifacts "validate_certificates" in
  let* app_artifacts := get_artifacts "validate_applications" in
  let '(id_items, name_, fqdn_) := identity in
  let checklist :=
    (base ++ List.map volume_check (artifact_list disk_artifacts "volumes") ++ network_items ctx info net_artifacts
     ++ id_items
     ++ List.map (fun v => MkItem "Certificates" (py_str v ++ " installed") true "") (artifact_list cert_artifacts "verified")
     ++ List.map (fun v => MkItem "Applications" (py_str v) true "") (artifact_list app_artifacts "validated"))%list in
  finish_validation ctx info checklist name_ fqdn_.

(** ** The table *)

Definition HANDLER_TABLE : list (string * (Ctx -> M X StageOutcome)) := [
  ("validate_request", stage_validate_request);
  ("connect_vcenter", stage_connect_vcenter);
  ("validate_infrastructure", stage_validate_infrastructure);
  ("create_vm", stage_create_vm);
  ("configure_hardware", stage_configure_hardware);
  ("attach_network_adapter", stage_attach_network_adapter);
  ("prepare_unattended_install", stage_prepare_unattended_install);
  ("power_on", stage_power_on);
  ("wait_for_guest_os", stage_wait_for_guest_os);
  ("wait_for_tools", stage_wait_for_tools);
  ("cleanup_unattended_media", stage_cleanup_unattended_media);
  ("add_data_disks", stage_add_data_disks);
  ("initialize_data_disks", stage_initialize_data_disks);
  ("configure_guest_network", stage_configure_guest_network);
  ("validate_network", stage_validate_network);
  ("configure_hostname", stage_configure_hostname);
  ("join_domain", stage_join_domain);
  ("reboot_guest", stage_reboot_guest);
  ("wait_guest_ready", stage_wait_guest_ready);
  ("install_root_certificates", stage_install_root_certificates);
  ("install_intermediate_certificates", stage_install_intermediate_certificates);
  ("validate_certificates", stage_validate_certificates);
  ("resolve_dependencies", stage_resolve_dependencies);
  ("install_applications", stage_install_applications);
  ("validate_applications", stage_validate_applications);
  ("final_validation", stage_final_validation) ].

Definition STAGE_HANDLERS (key : string) : option (Ctx -> M X StageOutcome) :=
  option_map snd (find_first (fun e => String.eqb (fst e) key) HANDLER_TABLE).

(** ** Frames and calm *)

Lemma frames_load_certificates ids kind : frames (_load_certificates ids kind).
Proof. unfold _load_certificates. solve_frames. Qed.
Lemma calm_load_certificates t ids kind : calm t (_load_certificates ids kind).
Proof. unfold _load_certificates. solve_calm. Qed.
Lemma frames_audit_certificates ctx l : frames (audit_certificates ctx l).
Proof. induction l; cbn [audit_certificates]; solve_frames. Qed.
Lemma calm_audit_certificates t ctx l : calm t (audit_certificates ctx l).
Proof. induction l; cbn [audit_certificates]; solve_calm. Qed.
Hint Resolve frames_load_certificates calm_load_certificates frames_audit_certificates calm_audit_certificates : infra.

Lemma frames_entry_text e k : frames (entry_text e k).
Proof. unfold entry_text. solve_frames. Qed.
Lemma calm_entry_text t e k : calm t (entry_text e k).
Proof. unfold entry_text. solve_calm. Qed.
Hint Resolve frames_entry_text calm_entry_text : infra.

Lemma frames_install_all ctx c apps order : frames (install_all ctx c apps order).
Proof. induction order; cbn [install_all]; solve_frames. Qed.
Lemma calm_install_all t ctx c apps order : calm t (install_all ctx c apps order).
Proof. induction order; cbn [install_all]; solve_calm. Qed.
Lemma frames_detect_all ctx c apps l : frames (detect_all ctx c apps l).
Proof. induction l; cbn [detect_all]; solve_frames. Qed.
Lemma calm_detect_all t ctx c apps l : calm t (detect_all ctx c apps l).
Proof. induction l; cbn [detect_all]; solve_calm. Qed.
Lemma frames_entry_names l : frames (entry_names l).
Proof. induction l; cbn [entry_names]; solve_frames. Qed.
Lemma calm_entry_names t l : calm t (entry_names l).
Proof. induction l; cbn [entry_names]; solve_calm. Qed.
Lemma frames_reboot_required : frames get_reboot_required.
Proof. intros r. apply frame_refl. Qed.
Lemma calm_reboot_required t : calm t get_reboot_required.
Proof. intros r Hr. split; [done|discriminate]. Qed.
Hint Resolve frames_install_all calm_install_all frames_detect_all calm_detect_all frames_entry_names
  calm_entry_names frames_reboot_required calm_reboot_required : infra.

Lemma tame_root t : tame_stage t stage_install_root_certificates.
Proof. unfold stage_install_root_certificates, _deploy_certificate_group. solve_tame. Qed.
Lemma tame_intermediate t : tame_stage t stage_install_intermediate_certificates.
Proof. unfold stage_install_intermediate_certificates, _deploy_certificate_group. solve_tame. Qed.
Lemma tame_validate_certificates t : tame_stage t stage_validate_certificates.
Proof. unfold stage_validate_certificates. solve_tame. Qed.
Lemma tame_resolve t : tame_stage t stage_resolve_dependencies.
Proof. unfold stage_resolve_dependencies, _load_application_catalog. solve_tame. Qed.
Lemma tame_install t : tame_stage t stage_install_applications.
Proof. unfold stage_install_applications. solve_tame. Qed.
Lemma tame_validate_applications t : tame_stage t stage_validate_applications.
Proof. unfold stage_validate_applications. solve_tame. Qed.
Lemma tame_final t : tame_stage t stage_final_validation.
Proof.
  unfold stage_final_validation, edition_items, windows_installation_type, identity_items, finish_validation.
  solve_tame.
Qed.

Ltac solve_table :=
  repeat apply Forall_cons_2; try apply Forall_nil_2;
    first [ apply tame_validate_request | apply tame_connect_vcenter | apply tame_validate_infrastructure
          | apply tame_create_vm | apply tame_configure_hardware | apply tame_attach_network | apply tame_prepare
          | assumption | apply tame_power_on | apply tame_wait_for_guest_os | apply tame_wait_for_tools | apply tame_cleanup
          | apply tame_add_data_disks | apply tame_initialize_data_disks | apply tame_configure_guest_network
          | apply tame_validate_network | apply tame_configure_hostname | apply tame_join_domain
          | apply tame_reboot_guest | apply tame_wait_guest_ready | apply tame_root | apply tame_intermediate
          | apply tame_validate_certificates | apply tame_resolve | apply tame_install
          | apply tame_validate_applications | apply tame_final ].

Lemma tame_table : Forall (fun e => tame_stage true (snd e)) HANDLER_TABLE.
Proof. solve_table. Qed.

Lemma ending_table `{!ClockLaws X} : setup_limited -> Forall (fun e => tame_stage false (snd e)) HANDLER_TABLE.
Proof.
  intros L. pose proof power_on_ends. pose proof (wait_for_guest_os_ends L). pose proof cleanup_ends. pose proof wait_guest_ready_ends. solve_table.
Qed.

Lemma handler_in_table (P : (Ctx -> M X StageOutcome) -> Prop) k h :
  Forall (fun e => P (snd e)) HANDLER_TABLE -> STAGE_HANDLERS k = Some h -> P h.
Proof.
  intros T. unfold STAGE_HANDLERS. destruct (find_first _ HANDLER_TABLE) as [e|] eqn:E; simpl; [|discriminate].
  intros [= <-]. apply find_first_some in E as [Hin _]. rewrite Forall_forall in T. by apply T, list_elem_of_In.
Qed.

Lemma handler_tame k h : STAGE_HANDLERS k = Some h -> tame_stage true h.
Proof. apply handler_in_table, tame_table. Qed.

End Stages.
