(* ===== verification/Pipeline.v ===== *)
(** * The pipeline

    [app/workers/pipeline.py]: executing the ordered stages with timeouts,
    cancellation, resumption and the terminal transitions of the job.  The
    pipeline is written over any table of stage handlers. *)

From Stdlib Require Import ZArith Lia Ascii String List Bool.
From stdpp Require Import base tactics list strings gmap.
From S2P Require Import Prelude PyStr Errors Schemas StateMachine Jobs AuditTrail Repository Queue Effects World.
From S2P Require Import StageSupport.

Local Open Scope string_scope.
Local Open Scope Z_scope.

Definition _MAX_OUTPUT_CHARS : nat := 8000.

Section Pipeline.

Context {X : Type} `{World X}.
Context (handlers : string -> option (Ctx -> M X StageOutcome)).
Context (ctx : Ctx).

Definition update_progress : M X unit := set_job (fun j => j <| progress := compute_progress j |>).

(** [_publish]: the event names the job's current stage. *)
Definition _publish (status message : string) : M X unit :=
  let* j := get_job in publish_stage (current_stage j) status message.

(** ** Cancellation *)

Definition stop_open_step (finished : Z) (s : Step) : Step :=
  match step_status s with
  | PENDING | STEP_RUNNING => s <| step_status := STEP_CANCELLED |> <| step_finished_at := Some finished |>
  | _ => s
  end.

Definition job_audit (act : string) (j : Job) (res : string) (det : list (string * json)) (text : option string)
    : AuditEvent :=
  audit_event act (actor_username ctx) "virtual_machine" (Some (vm_name_of ctx)) (Some (job_id j))
    (Some (compute_datacenter_id (compute (request ctx)))) (datacenter_name j) (Some res) det text.

Definition cancel_row (finished : Z) (j : Job) : Job :=
  let j1 := j <| steps := List.map (stop_open_step finished) (steps j) |> <| job_status := CANCELLED |>
              <| finished_at := Some finished |> <| duration := elapsed finished j |> in
  j1 <| progress := compute_progress j1 |>.

Definition _apply_cancellation : M X unit :=
  let* finished := now in
  release_unattended_media ctx "job cancelled";;
  set_job (cancel_row finished);;
  measure (JobsTotal (job_status_value CANCELLED));;
  (let* j := get_job in record_audit (job_audit "JOB_CANCELLED" j "cancelled" [] None));;
  commit;;
  (let* j := get_job in
   publish_stage (current_stage j) "CANCELLED" "Provisioning cancelled by user request.").

(** ** Success *)

Definition obj (v : option json) : gmap string json :=
  match v with Some (JObj l) => list_to_map l | _ => ∅ end.
Definition arr (v : option json) : list json := match v with Some (JArr l) => l | _ => [] end.

Definition is_pass (item : json) : bool :=
  match item with
  | JObj l => match assoc "status" l with Some (JStr s) => String.eqb s "PASS" | _ => false end
  | _ => false
  end.

Definition complete_row (finished : Z) (j : Job) : Job :=
  j <| job_status := COMPLETED |> <| error_summary := None |> <| error_detail := None |>
    <| finished_at := Some finished |> <| progress := 100 |> <| current_stage := Some "final_validation" |>
    <| duration := elapsed finished j |>.

Definition opt_json (o : option json) : json := match o with Some v => v | None => JNull end.

Definition _finalize_success : M X unit :=
  let* finished := now in
  set_job (complete_row finished);;
  (let* arts := get_artifacts "final_validation" in
   let summary := obj (arts !! "summary") in
   let checks_passed := count is_pass (arr (arts !! "checklist")) in
   let* j := get_job in
   notify (notify_requester j JOB_COMPLETED (completed_message j summary checks_passed));;
   measure (JobsTotal (job_status_value COMPLETED));;
   match duration j with
   | Some d => if d =? 0 then ret tt else measure (JobDuration d)
   | None => ret tt
   end;;
   record_audit (job_audit "JOB_COMPLETED" j "success"
     [("computer_name", opt_json (summary !! "computer_name"));
      ("duration_seconds", match duration j with Some d => JNum d | None => JNull end);
      ("fqdn", opt_json (summary !! "fqdn"))]
     (Some ("Provisioned " ++ SQ ++
            match get_text summary "fqdn" with Some f => f | None => vm_name_of ctx end ++ SQ ++ " successfully.")));;
   commit;;
   publish_stage (Some "final_validation") "COMPLETED"
     ("Successfully provisioned " ++ vm_name_of ctx ++
      match get_text summary "ip_address" with Some a => " (" ++ a ++ ")" | None => "" end)).

(** ** Failure *)

Definition text_or (o : option string) (d : string) : string := match o with Some s => s | None => d end.

Definition human_error (e : InfraError) : string :=
  human_message e ++ NL ++ NL ++ "Reason:" ++ NL ++ reason e ++ NL ++ NL
  ++ "Recommended action:" ++ NL ++ recommended_action e.

Definition failed_step (stage : StageDefinition) (e : InfraError) (finished : Z) (s : Step) : Step :=
  s <| step_status := STEP_FAILED |> <| step_finished_at := Some finished |>
    <| retryable := err_retryable e && stage_retryable stage |>
    <| error_human := Some (human_error e) |> <| error_technical := Some (technical_detail e) |>.

(** The VM exists: the creation step succeeded or adopted the job's own VM. *)
Definition vm_created (j : Job) : bool :=
  match step_of j "create_vm" with
  | Some s => match step_status s with SUCCEEDED | SKIPPED => true | _ => false end
  | None => false
  end.

(** The detail statuses a failed stage records. *)
Definition mark_failed_area (key : string) (j : Job) : Job :=
  if bool_decide (key ∈ ["create_vm"; "configure_hardware"; "attach_network_adapter"])
  then j <| infrastructure_status := INFRA_FAILED |>
  else if String.eqb key "wait_for_guest_os"
  then j <| guest_os_status := OS_ERROR |> <| guest_provisioning_status := GUEST_FAILED |>
  else if String.eqb key "wait_for_tools"
  then j <| vmware_tools_status := TOOLS_ERROR |> <| guest_provisioning_status := GUEST_FAILED |>
  else if bool_decide (key ∈ ["add_data_disks"; "initialize_data_disks"; "configure_guest_network";
                              "validate_network"; "configure_hostname"; "join_domain"; "reboot_guest";
                              "wait_guest_ready"])
  then j <| guest_provisioning_status := GUEST_FAILED |>
  else j.

Definition failed_status (created : bool) : JobStatus := if created then PARTIALLY_COMPLETED else FAILED.

Definition fail_row (created : bool) (key : string) (e : InfraError) (technical : string) (finished : Z) (j : Job)
    : Job :=
  let j1 := mark_failed_area key (j <| job_status := failed_status created |>) in
  let j2 := j1 <| error_summary := Some (human_message e) |>
    <| error_detail := Some (take_str 6000 (human_message e ++ NL ++ "Reason: " ++ reason e ++ NL
         ++ "Recommended action: " ++ recommended_action e ++ NL ++ NL
         ++ "Technical detail:" ++ NL ++ technical)) |>
    <| current_stage := Some key |> <| finished_at := Some finished |> <| duration := elapsed finished j |> in
  j2 <| progress := compute_progress j2 |>.

Definition _attach_console_screenshot (key : string) : M X unit :=
  let* shot := catch_exception
                 (let* vm_id := _require_vm_id ctx in
                  let* path := call (capture_screenshot (target ctx) vm_id) in ret (Some path))
                 (fun _ => ret None) in
  match shot with
  | None => ret tt
  | Some path =>
      set_step key (fun s => s <| artifacts := <["console_screenshot" := JStr path]> (artifacts s) |>
        <| error_technical := Some (strip (text_or (error_technical s) "" ++ NL ++ NL
             ++ "Console screenshot at failure: " ++ path)) |>)
  end.

Definition _handle_failure (stage : StageDefinition) (e : InfraError) (finished : Z) : M X unit :=
  let key := stage_key_of stage in
  set_step key (failed_step stage e finished);;
  (let* j := get_job in
   let created := vm_created j in
   (if created && bool_decide (key ∈ CONSOLE_STAGES) then _attach_console_screenshot key else ret tt);;
   (let* step := get_step key in
    set_job (fail_row created key e
      (match step with Some s => text_or (error_technical s) "" | None => "" end) finished)));;
  measure (StageFailures key);;
  (let* j := get_job in
   measure (JobsTotal (job_status_value (job_status j)));;
   release_unattended_media ctx ("stage " ++ SQ ++ key ++ SQ ++ " failed");;
   notify (notify_requester j JOB_FAILED
     (failed_message j (stage_name stage) (human_message e ++ " " ++ reason e))));;
  (let* j := get_job in
   let* step := get_step key in
   record_audit (audit_event "JOB_STAGE_FAILED" (actor_username ctx) "provisioning_stage"
     (Some (stage_name stage)) (Some (job_id j)) (Some (compute_datacenter_id (compute (request ctx))))
     (datacenter_name j) (Some "failure")
     [("stage", JStr key); ("attempt", JNum (match step with Some s => attempt s | None => 0 end))]
     (Some (summary e))));;
  commit;;
  publish_stage (Some key) "FAILED" (human_message e).

(** ** One stage *)

(** How the attempt to run a handler ended, as [_run_stage] tells the cases apart. *)
Inductive Attempt :=
| Finished (o : StageOutcome)
| StageCancelled
| Failed (e : InfraError)
| Stopped (k : InterruptKind).

(** [_run_handler]: the stage under its timeout and the live cancellation.
    The heartbeat sets the cancellation event after it read the flag of the
    row, so a delivered user cancellation is in the database. *)
Definition _run_handler (h : M X StageOutcome) : M X StageOutcome := fun r =>
  let r0 := match interrupts r with
            | [] => r
            | i :: l => r <| interrupts := l |>
                          <| pending := match i with Some _ => i | None => pending r end |>
            end in
  let '(o, r1) := h r0 in
  let calm := r1 <| pending := match pending r1 with
                               | Some i => if bool_decide (interrupt_kind i = Shutdown) then Some i else None
                               | None => None
                               end |> in
  match o with
  | Raise (Cancelled Timeout) => (Raise TimeoutError, calm)
  | Raise (Cancelled UserCancel) => (o, calm <| db_cancel := true |>)
  | _ => (o, calm)
  end.

Definition missing_handler (key : string) : InfraError :=
  infra_error ("Stage " ++ SQ ++ key ++ SQ ++ " has no registered handler.")
    "Internal pipeline misconfiguration." "Report this incident to the platform administrators." "" false.

Definition timeout_failure (name : string) (timeout : Z) : InfraError :=
  infra_error (SQ ++ name ++ SQ ++ " exceeded its " ++ str_int timeout ++ " second timeout.")
    "The operation did not complete within the configured time limit."
    ("Retry the " ++ SQ ++ name ++ SQ ++ " stage; increase the timeout in Settings if needed.")
    ("timeout_seconds=" ++ str_int timeout ++ ".0") true.

Definition unexpected_failure (name : string) (e : Exc) : InfraError :=
  infra_error (SQ ++ name ++ SQ ++ " failed unexpectedly.")
    "An unexpected internal error interrupted the stage."
    "Review the technical details and retry the stage."
    (last_str 4000 (format_exc e)) true.

Definition attempt_stage (stage : StageDefinition) (timeout : Z) : M X Attempt := fun r =>
  match handlers (stage_key_of stage) with
  | None => (Return (Failed (missing_handler (stage_key_of stage))), r)
  | Some h =>
      let '(o, r1) := _run_handler (h ctx) r in
      (Return (match o with
               | Return out => Finished out
               | Raise (Cancelled UserCancel) => StageCancelled
               | Raise TimeoutError => Failed (timeout_failure (stage_name stage) timeout)
               | Raise (InfraOperationError e) => Failed e
               | Raise (Cancelled k) => Stopped k
               | Raise e => Failed (unexpected_failure (stage_name stage) e)
               end), r1)
  end.

Definition outcome_step_status (s : string) : StepStatus :=
  if String.eqb s "SKIPPED" then SKIPPED
  else if String.eqb s "WARNING" then WARNING
  else if String.eqb s "NOT_APPLICABLE" then NOT_APPLICABLE
  else SUCCEEDED.

Definition started_step (started : Z) (s : Step) : Step :=
  s <| step_status := STEP_RUNNING |> <| attempt := attempt s + 1 |> <| step_started_at := Some started |>
    <| error_human := None |> <| error_technical := None |>.

Definition finished_step (o : StageOutcome) (finished : Z) (s : Step) : Step :=
  s <| step_status := outcome_step_status (outcome_status o) |> <| step_finished_at := Some finished |>
    <| output := Some (take_str _MAX_OUTPUT_CHARS (outcome_output o)) |>
    <| artifacts := dict_update (artifacts s) (outcome_artifacts o) |>.

Definition first_line (o : StageOutcome) (name : string) : string :=
  match outcome_output o with
  | "" => name
  | out => take_str 200 (match splitlines out with l :: _ => l | [] => "" end)
  end.

Definition _run_stage (stage : StageDefinition) : M X unit :=
  let key := stage_key_of stage in
  let* started := now in
  set_step key (started_step started);;
  set_job (fun j => j <| current_stage := Some key |>);;
  update_progress;;
  commit;;
  _publish "RUNNING" ("Started: " ++ stage_name stage);;
  (let* timeout := effective_timeout_seconds key in
   let* result := attempt_stage stage timeout in
   match result with
   | Stopped k => throw (Cancelled k)
   | StageCancelled =>
       let* finished := now in
       set_step key (fun s => s <| step_status := STEP_CANCELLED |> <| step_finished_at := Some finished |>
                                <| output := Some "Cancelled by user request while running." |>);;
       _apply_cancellation
   | Failed e => let* finished := now in _handle_failure stage e finished
   | Finished o =>
       let* finished := now in
       set_step key (finished_step o finished);;
       update_progress;;
       commit;;
       (let* step := get_step key in
        _publish (match step with Some s => step_status_value (step_status s) | None => "" end)
          (first_line o (stage_name stage)))
   end).

(** ** The run *)

(** The loop over the stages; [true] when it reaches its end, [false] when it
    returned (cancelled or failed). *)
Fixpoint run_stages (stages : list StageDefinition) : M X bool :=
  match stages with
  | [] => ret true
  | stage :: rest =>
      let* step := get_step (stage_key_of stage) in
      match step with
      | None => run_stages rest
      | Some s =>
          if is_done (step_status s) then run_stages rest
          else
            refresh;;
            (let* j := get_job in
             if cancel_requested j then _apply_cancellation;; ret false
             else
               _run_stage stage;;
               (let* after := get_step (stage_key_of stage) in
                match after with
                | Some s' => if bool_decide (step_status s' = STEP_FAILED) then ret false else run_stages rest
                | None => run_stages rest
                end))
      end
  end.

Definition execute : M X unit :=
  let* reached_end := run_stages ORDERED_STAGES in
  if reached_end then _finalize_success else ret tt.

End Pipeline.
