(* ===== verification/PipelineFacts.v ===== *)
(** * What the pipeline guarantees

    Theorems on [execute] (Pipeline.v) for every table of stage handlers that
    respects the pipeline's bookkeeping, every world and every schedule of
    cancellations, timeouts and shutdowns. *)

From Stdlib Require Import ZArith Lia Ascii String List Bool.
From stdpp Require Import base tactics list strings gmap.
From S2P Require Import Prelude PyStr Errors Schemas StateMachine Jobs AuditTrail Repository Queue Effects World.
From S2P Require Import StageSupport Pipeline.

Local Open Scope string_scope.
Local Open Scope Z_scope.

(** What the pipeline asks of the stages: a handler leaves the status and the
    attempts of every step and the status of the job to the pipeline, and does
    not cancel itself except by running into its timeout.  The handlers of
    Stages.v are an instance. *)
Class StageHandlers {X : Type} (handlers : string -> option (Ctx -> M X StageOutcome)) := {
  handler_frames : forall k h ctx, handlers k = Some h -> frames (h ctx);
  handler_calm : forall k h ctx, handlers k = Some h -> calm true (h ctx);
}.

(** ** Statuses by key *)

Definition st_of (j : Job) (k : string) : option (StepStatus * Z) :=
  option_map (fun s => (step_status s, attempt s)) (step_of j k).

Lemma st_of_skeleton j j' k : skeleton j = skeleton j' -> st_of j k = st_of j' k.
Proof. intros E. unfold st_of. by rewrite <- !status_in_skeleton, E. Qed.

Lemma st_of_steps j j' k : steps j = steps j' -> st_of j k = st_of j' k.
Proof. intros E. apply st_of_skeleton. unfold skeleton. by rewrite E. Qed.

Lemma st_of_update_ne j k k' f :
  (forall s, stage_key (f s) = stage_key s) -> k <> k' -> st_of (update_step k f j) k' = st_of j k'.
Proof. intros Hf Hk. unfold st_of. by rewrite step_of_update_ne. Qed.

Lemma st_of_update_eq j k f :
  (forall s, stage_key (f s) = stage_key s) ->
  st_of (update_step k f j) k = option_map (fun s => (step_status (f s), attempt (f s))) (step_of j k).
Proof.
  intros Hf. unfold st_of. destruct (step_of j k) as [s|] eqn:E.
  - by rewrite (step_of_update_eq _ _ _ s).
  - rewrite update_step_absent by done. by rewrite E.
Qed.

Lemma step_of_map j k (f : Step -> Step) :
  (forall s, stage_key (f s) = stage_key s) ->
  step_of (j <| steps := List.map f (steps j) |>) k = option_map f (step_of j k).
Proof.
  intros Hf. unfold step_of, find_first. simpl. induction (steps j) as [|x l IH]; simpl; [done|].
  unfold key_is at 1 3. rewrite Hf. by destruct (String.eqb (stage_key x) k).
Qed.

Definition PREPARE : string := "prepare_unattended_install".

Definition open_status (a : StepStatus) : bool := match a with PENDING | STEP_RUNNING => true | _ => false end.

(** How a step may change while its own stage does not run: an open step is
    cancelled, and the removal of the media resets the preparation stage. *)
Definition soft_status (k : string) (a b : StepStatus) : Prop :=
  b = a \/ (open_status a = true /\ b = STEP_CANCELLED)
  \/ (k = PREPARE /\ a = SUCCEEDED /\ (b = PENDING \/ b = STEP_CANCELLED)).

Definition soft (j j' : Job) : Prop := forall k,
  match st_of j k, st_of j' k with
  | None, None => True
  | Some (a, n), Some (b, m) => m = n /\ soft_status k a b
  | _, _ => False
  end.

Lemma soft_status_trans k a b c : soft_status k a b -> soft_status k b c -> soft_status k a c.
Proof.
  unfold soft_status. intros [->|[[Ha ->]|(-> & -> & Hb)]] H2; [done|..].
  - destruct H2 as [->|[[H _]|(_ & H & _)]]; [right; left; done|done|done].
  - right. right. split_and!; [done|done|]. destruct H2 as [->|[[_ ->]|(_ & -> & H)]]; [done|by right|done].
Qed.

Lemma soft_eq j j' : (forall k, st_of j k = st_of j' k) -> soft j j'.
Proof. intros H k. rewrite <- H. destruct (st_of j k) as [[a n]|]; [|done]. split; [done|by left]. Qed.

Lemma soft_refl j : soft j j.
Proof. by apply soft_eq. Qed.

Lemma soft_trans a b c : soft a b -> soft b c -> soft a c.
Proof.
  intros H1 H2 k. specialize (H1 k). specialize (H2 k).
  destruct (st_of a k) as [[x n]|], (st_of b k) as [[y m]|], (st_of c k) as [[z p]|]; try done.
  destruct H1 as [-> H1], H2 as [-> H2]. split; [done|]. by eapply soft_status_trans.
Qed.

Lemma soft_some j j' k a n : soft j j' -> st_of j k = Some (a, n) ->
  exists b, st_of j' k = Some (b, n) /\ soft_status k a b.
Proof.
  intros H E. specialize (H k). rewrite E in H. destruct (st_of j' k) as [[b m]|]; [|done].
  destruct H as [-> H]. by exists b.
Qed.

(** A pointwise change of statuses. *)
Lemma soft_map j j' (f : Step -> Step) :
  steps j' = List.map f (steps j) ->
  (forall s, stage_key (f s) = stage_key s /\ attempt (f s) = attempt s
             /\ soft_status (stage_key s) (step_status s) (step_status (f s))) ->
  soft j j'.
Proof.
  intros E Hf k.
  assert (E' : st_of j' k = option_map (fun s => (step_status (f s), attempt (f s))) (step_of j k)).
  { transitivity (st_of (j <| steps := List.map f (steps j) |>) k); [by apply st_of_steps|].
    unfold st_of. rewrite step_of_map by apply Hf. by destruct (step_of j k). }
  rewrite E'. unfold st_of. destruct (step_of j k) as [s|] eqn:S; simpl; [|done].
  destruct (Hf s) as (H1 & H2 & H3). split; [done|]. apply step_of_some in S as [_ <-]. done.
Qed.

Lemma soft_cancel_row finished j : soft j (cancel_row finished j).
Proof.
  apply (soft_map _ _ (stop_open_step finished)); [done|]. intros s. unfold stop_open_step, soft_status.
  destruct (step_status s) eqn:E; simpl; rewrite ?E; auto 6.
Qed.

Lemma cancel_row_closed finished j k a n : st_of (cancel_row finished j) k = Some (a, n) -> open_status a = false.
Proof.
  intros E. assert (E' : st_of (cancel_row finished j) k
                   = st_of (j <| steps := List.map (stop_open_step finished) (steps j) |>) k) by by apply st_of_steps.
  rewrite E' in E. unfold st_of in E. rewrite step_of_map in E.
  - destruct (step_of j k) as [s|]; [|discriminate]. injection E as <- _. unfold stop_open_step.
    by destruct (step_status s) eqn:S; simpl; rewrite ?S.
  - intros s. unfold stop_open_step. by destruct (step_status s).
Qed.

Lemma mark_removed_key b why s : stage_key (mark_removed b why s) = stage_key s.
Proof. unfold mark_removed. cbn zeta. by destruct (_ && _). Qed.

Lemma mark_removed_soft b why s :
  stage_key s = PREPARE ->
  attempt (mark_removed b why s) = attempt s
  /\ soft_status (stage_key s) (step_status s) (step_status (mark_removed b why s)).
Proof.
  intros Hk. unfold mark_removed, soft_status. cbn zeta.
  match goal with |- context [if ?c then _ else _] => destruct c eqn:E end; simpl; [|auto].
  split; [done|]. right. right. apply andb_true_iff in E as [E _]. apply bool_decide_eq_true in E.
  simpl in E. auto.
Qed.

Lemma soft_mark_removed b why j : soft j (update_step PREPARE (mark_removed b why) j).
Proof.
  apply (soft_map _ _ (fun s => if key_is PREPARE s then mark_removed b why s else s)); [done|].
  intros s. destruct (key_is PREPARE s) eqn:E.
  - apply key_is_spec in E. split; [apply mark_removed_key|]. by apply mark_removed_soft.
  - split_and!; [done|done|by left].
Qed.

Definition soft_except (key : string) (j j' : Job) : Prop := forall k, k <> key ->
  match st_of j k, st_of j' k with
  | None, None => True
  | Some (a, n), Some (b, m) => m = n /\ soft_status k a b
  | _, _ => False
  end.

Lemma soft_soft_except key j j' : soft j j' -> soft_except key j j'.
Proof. intros H k _. apply H. Qed.

Lemma soft_except_trans key a b c : soft_except key a b -> soft_except key b c -> soft_except key a c.
Proof.
  intros H1 H2 k Hk. specialize (H1 k Hk). specialize (H2 k Hk).
  destruct (st_of a k) as [[x n]|], (st_of b k) as [[y m]|], (st_of c k) as [[z p]|]; try done.
  destruct H1 as [-> H1], H2 as [-> H2]. split; [done|]. by eapply soft_status_trans.
Qed.

Lemma soft_except_eq key j j' : (forall k, k <> key -> st_of j' k = st_of j k) -> soft_except key j j'.
Proof.
  intros H k Hk. rewrite (H k Hk). destruct (st_of j k) as [[a n]|]; [|done]. split; [done|by left].
Qed.

(** A closed status other than a finished preparation does not move. *)
Lemma soft_closed j j' k a n :
  soft j j' -> st_of j k = Some (a, n) -> a = STEP_FAILED \/ a = STEP_CANCELLED -> st_of j' k = Some (a, n).
Proof.
  intros H E Ha. destruct (soft_some _ _ _ _ _ H E) as (b & -> & [->|[[Ho _]|(_ & Hs & _)]]); [done| |];
    destruct Ha as [->| ->]; done.
Qed.

Lemma vm_created_st j :
  vm_created j = match st_of j "create_vm" with Some (SUCCEEDED, _) | Some (SKIPPED, _) => true | _ => false end.
Proof.
  unfold vm_created, st_of. destruct (step_of j "create_vm") as [s|]; simpl; [by destruct (step_status s)|done].
Qed.

Lemma vm_created_soft j j' : soft j j' -> vm_created j' = vm_created j.
Proof.
  intros H. rewrite !vm_created_st. specialize (H "create_vm").
  destruct (st_of j "create_vm") as [[a n]|], (st_of j' "create_vm") as [[b m]|]; try done.
  destruct H as [_ [->|[[Ho ->]|(H & _)]]]; [done| |discriminate]. by destruct a.
Qed.

Section Facts.

Context {X : Type} `{World X}.
Context (handlers : string -> option (Ctx -> M X StageOutcome)) `{!StageHandlers handlers}.
Context (ctx : Ctx).

Lemma wp_now Q (r : Run X) : Q (Return (utcnow (world r))) r -> wp now Q r.
Proof. done. Qed.

Lemma quiet_now : quiet (X := X) now.
Proof. intros r. split; [done|]. discriminate. Qed.

Lemma steady_require_vm_id : steady (X := X) (_require_vm_id ctx).
Proof.
  intros r. unfold _require_vm_id. destruct (vm_ref r); [done|].
  by destruct (match step_of _ _ with Some _ => _ | None => _ end).
Qed.

Lemma steady_load_effective : steady (X := X) load_effective.
Proof. apply steady_bind; [apply steady_call|]. intros. apply steady_quiet, quiet_ret. Qed.

Lemma quiet_effective_timeout k : quiet (X := X) (effective_timeout_seconds k).
Proof.
  apply quiet_bind; [|intros; apply quiet_ret]. apply quiet_caught; [|intros; apply quiet_ret].
  apply steady_bind; [apply steady_load_effective|]. intros. apply steady_quiet, quiet_ret.
Qed.

Lemma quiet_publish_stage status msg : quiet (X := X) (_publish status msg).
Proof. apply quiet_bind; [apply quiet_get_job|]. intros. apply quiet_publish. Qed.

(** ** The pieces *)

Lemma wp_release why Q (r : Run X) :
  (forall o r', (exists b, o = Return b) \/ (exists k, o = Raise (Cancelled k)) ->
     (job (session r') = job (session r)
      \/ exists b, job (session r') = update_step PREPARE (mark_removed b why) (job (session r))) ->
     job (stored r') = job (stored r) -> db_cancel r' = db_cancel r -> Q o r') ->
  wp (release_unattended_media ctx why) Q r.
Proof.
  intros HQ. unfold release_unattended_media. apply wp_bind, wp_get_job.
  destruct (media_to_remove (job (session r))) as [path|]; [|apply wp_ret, HQ; eauto].
  apply wp_bind, wp_quiet.
  { apply quiet_caught; [|intros; apply quiet_ret]. apply steady_bind; [apply steady_require_vm_id|].
    intros v. apply steady_bind; [apply steady_call|]. intros. apply steady_quiet, quiet_ret. }
  - intros b r1 Hc. injection Hc as H1 H2 H3. destruct b; cbn [negb]; [|apply wp_ret, HQ; eauto].
    apply wp_bind, wp_set_job. intros r2 Hc. injection Hc as H4 H5 H6.
    assert (G : forall o r', core r' = core r2 -> (exists b, o = Return b) \/ (exists k, o = Raise (Cancelled k)) ->
                Q o r').
    { intros o r' Hc Ho. injection Hc as C1 C2 C3. apply HQ; [done| |congruence|congruence].
      right. exists (booted (job (session r))). rewrite C1, H4, H1. done. }
    apply wp_bind, wp_quiet.
    { apply quiet_bind; [apply quiet_get_job|]. intros. apply quiet_record_audit. }
    + intros _ r3 Hc. apply wp_ret, G; eauto.
    + intros k r3 Hc. apply G; eauto.
  - intros k r1 Hc. injection Hc as H1 H2 H3. apply HQ; eauto.
Qed.

(** The result of a terminal transition. *)
Definition settled (st : JobStatus) (r : Run X) : Prop :=
  job (stored r) = job (session r) /\ job_status (job (session r)) = st.

Lemma soft_release why (j j' : Job) :
  (j' = j \/ exists b, j' = update_step PREPARE (mark_removed b why) j) -> soft j j'.
Proof. intros [->|[b ->]]; [apply soft_refl|apply soft_mark_removed]. Qed.

Lemma wp_apply_cancellation Q (r : Run X) :
  (forall o r', soft (job (session r)) (job (session r')) -> db_cancel r' = db_cancel r ->
     match o with
     | Return _ => settled CANCELLED r'
                   /\ (forall k a n, st_of (job (session r')) k = Some (a, n) -> open_status a = false)
     | Raise e => exists k, e = Cancelled k
     end -> Q o r') ->
  wp (_apply_cancellation ctx) Q r.
Proof.
  intros HQ. unfold _apply_cancellation. apply wp_bind, wp_quiet; [apply quiet_now| |].
  2:{ intros k r1 Hc. injection Hc as H1 _ H3. apply HQ; [rewrite H1; apply soft_refl|done|eauto]. }
  intros finished r1 Hc. injection Hc as H1 H2 H3. apply wp_bind, wp_release.
  intros o r2 Ho Hj Hs Hd.
  assert (S1 : soft (job (session r)) (job (session r2))).
  { apply soft_release in Hj. by rewrite H1 in Hj. }
  destruct Ho as [[b ->]|[k ->]]; [|apply HQ; [done|congruence|eauto]].
  apply wp_bind, wp_set_job. intros r3 Hc. injection Hc as H4 H5 H6.
  assert (S2 : soft (job (session r)) (job (session r3))).
  { rewrite H4. eapply soft_trans; [exact S1|]. apply soft_cancel_row. }
  assert (Hst : job_status (job (session r3)) = CANCELLED) by by rewrite H4.
  assert (Hcl : forall k a n, st_of (job (session r3)) k = Some (a, n) -> open_status a = false).
  { intros k a n. rewrite H4. apply cancel_row_closed. }
  assert (Hd3 : db_cancel r3 = db_cancel r) by congruence.
  assert (R : forall k r', job (session r') = job (session r3) -> db_cancel r' = db_cancel r3 ->
              Q (Raise (Cancelled k)) r').
  { intros k r' E1 E2. apply HQ; [by rewrite E1|congruence|eauto]. }
  apply wp_bind, wp_quiet; [apply quiet_measure| |by intros k r4 [= E1 _ E2]; apply R].
  intros [] r4 [= E1 E2 E3]. apply wp_bind, wp_quiet.
  { apply quiet_bind; [apply quiet_get_job|]. intros. apply quiet_record_audit. }
  2:{ intros k r5 [= F1 _ F3]. apply R; congruence. }
  intros [] r5 [= F1 F2 F3]. apply wp_bind, wp_commit; [|intros k r6 G1 G2 _; apply R; congruence].
  intros r6 [= G1 G2 G3].
  apply wp_quiet.
  { apply quiet_bind; [apply quiet_get_job|]. intros. apply quiet_publish. }
  - intros [] r7 [= K1 K2 K3]. apply HQ.
    + replace (job (session r7)) with (job (session r3)) by congruence. done.
    + congruence.
    + unfold settled. replace (job (session r7)) with (job (session r3)) by congruence.
      split; [split; congruence|done].
  - intros k r7 [= K1 _ K3]. apply R; congruence.
Qed.


(** What a handler leaves of the session. *)
Definition same_statuses (j j' : Job) : Prop :=
  (forall k, st_of j' k = st_of j k) /\ job_status j' = job_status j.

Lemma frame_same (r r' : Run X) : frame r r' -> same_statuses (job (session r)) (job (session r')).
Proof.
  intros [F _ _ _ _]. unfold status_view in F. injection F as F1 F2. split; [|done].
  intros k. by apply st_of_skeleton.
Qed.

Lemma wp_attempt stage timeout Q (r : Run X) :
  (forall a r', same_statuses (job (session r)) (job (session r')) ->
     db_cancel r' = (match a with StageCancelled => true | _ => db_cancel r end) -> Q (Return a) r') ->
  wp (attempt_stage handlers ctx stage timeout) Q r.
Proof.
  intros HQ. unfold wp, attempt_stage. destruct (handlers (stage_key_of stage)) as [h|] eqn:Eh.
  - unfold _run_handler.
    set (r0 := match interrupts r with [] => r | i :: l => _ end).
    assert (E0 : session r0 = session r /\ db_cancel r0 = db_cancel r).
    { unfold r0. by destruct (interrupts r). }
    destruct E0 as [E1 E2]. pose proof (handler_frames _ _ ctx Eh r0) as F.
    pose proof (frame_same _ _ F) as S. pose proof (frame_cancel _ _ F) as D. rewrite E1 in S. rewrite E2 in D.
    destruct (h ctx r0) as [o r1]. simpl in *.
    destruct o as [a|[e| |nm ms|[| |]]]; simpl; apply HQ; simpl; done.
  - simpl. apply HQ; [done|done].
Qed.

Lemma wp_attach key Q (r : Run X) :
  (forall o r', (o = Return tt \/ exists k, o = Raise (Cancelled k)) ->
     same_statuses (job (session r)) (job (session r')) -> db_cancel r' = db_cancel r -> Q o r') ->
  wp (_attach_console_screenshot ctx key) Q r.
Proof.
  intros HQ. unfold _attach_console_screenshot. apply wp_bind, wp_quiet.
  { apply quiet_caught; [|intros; apply quiet_ret]. apply steady_bind; [apply steady_require_vm_id|].
    intros v. apply steady_bind; [apply steady_call|]. intros. apply steady_quiet, quiet_ret. }
  - intros [path|] r1 [= H1 _ H3]; [|apply wp_ret, HQ; rewrite ?H1; eauto; done].
    apply wp_set_job. intros r2 [= H4 _ H6]. apply HQ; [by left| |congruence].
    split; [intros k|]; rewrite H4, H1; [|done]. apply st_of_skeleton, update_step_skeleton. done.
  - intros k r1 [= H1 _ H3]. apply HQ; [eauto|by rewrite H1|done].
Qed.

Lemma fail_row_same created key e t f j :
  steps (fail_row created key e t f j) = steps j /\ job_status (fail_row created key e t f j) = failed_status created.
Proof. unfold fail_row, mark_failed_area. cbn zeta. by repeat case_match. Qed.

(** Failing a stage: what holds from the moment the step is marked. *)
Definition failing (J : Job) (d : bool) (key : string) (n : Z) (r : Run X) : Prop :=
  soft_except key J (job (session r)) /\ st_of (job (session r)) key = Some (STEP_FAILED, n) /\ db_cancel r = d.

Lemma failing_soft J d key n (a b : Run X) :
  failing J d key n a -> soft (job (session a)) (job (session b)) -> db_cancel b = db_cancel a ->
  failing J d key n b.
Proof.
  intros (G1 & G2 & G3) S D. split_and!; [|by eapply soft_closed; eauto|congruence].
  eapply soft_except_trans; [exact G1|by apply soft_soft_except].
Qed.

Lemma failing_core J d key n (a b : Run X) :
  failing J d key n a -> core b = core a -> failing J d key n b.
Proof. intros G [= E1 E2 E3]. eapply failing_soft; [exact G|rewrite E1; apply soft_refl|done]. Qed.

Lemma wp_handle_failure stage e finished a n Q (r : Run X) :
  let key := stage_key_of stage in
  st_of (job (session r)) key = Some (a, n) ->
  (forall o r', failing (job (session r)) (db_cancel r) key n r' ->
     match o with
     | Return _ => settled (failed_status (vm_created (job (session r')))) r'
     | Raise e => exists k, e = Cancelled k
     end -> Q o r') ->
  wp (_handle_failure ctx stage e finished) Q r.
Proof.
  intros key E HQ. unfold _handle_failure. fold key. cbn zeta.
  apply wp_bind, wp_set_job. intros r1 [= H1 _ H3].
  set (J := job (session r)) in *. set (d := db_cancel r) in *.
  assert (F1 : failing J d key n r1).
  { split_and!; [|rewrite H1|done].
    - rewrite H1. apply soft_except_eq. intros k Hk. by rewrite st_of_update_ne.
    - rewrite st_of_update_eq by done. unfold st_of in E. destruct (step_of J key) as [s|]; [|discriminate].
      by injection E as _ <-. }
  clear H1 H3 E. apply wp_bind, wp_bind, wp_get_job. set (c := vm_created (job (session r1))).
  assert (V : forall r' : Run X, soft (job (session r1)) (job (session r')) ->
              vm_created (job (session r')) = c) by (intros r' S; by apply vm_created_soft).
  apply wp_bind.
  assert (Hshot : forall P : Outcome unit -> Run X -> Prop,
    (forall o r', (o = Return tt \/ exists k, o = Raise (Cancelled k)) -> failing J d key n r' ->
       vm_created (job (session r')) = c -> P o r') ->
    wp (if c && bool_decide (key ∈ CONSOLE_STAGES) then _attach_console_screenshot ctx key else ret tt) P r1).
  { intros P HP. destruct (c && _); [|by apply wp_ret, HP; [left| |]].
    apply wp_attach. intros o r' Ho S D.
    assert (soft (job (session r1)) (job (session r'))) by (apply soft_eq; intros; by rewrite (proj1 S)).
    apply HP; [done| |by apply V]. by eapply failing_soft. }
  apply Hshot. clear Hshot. intros o r2 Ho F2 V2.
  destruct Ho as [->|[k ->]]; [|by apply HQ; eauto].
  apply wp_bind, wp_get_step, wp_set_job. intros r3 [= H1 _ H3].
  match type of H1 with _ = fail_row ?c0 ?k0 ?e0 ?t0 ?f0 ?j0 =>
    destruct (fail_row_same c0 k0 e0 t0 f0 j0) as [Es Et] end.
  rewrite <- H1 in Es, Et.
  assert (F3 : failing J d key n r3).
  { eapply failing_soft; [exact F2|apply soft_eq; intros k; by apply eq_sym, st_of_steps|done]. }
  assert (V3 : vm_created (job (session r3)) = c).
  { rewrite <- V2. apply vm_created_soft, soft_eq. intros k. by apply eq_sym, st_of_steps. }
  clear H1 H3 Es F2 V2. rewrite <- V3 in Et.
  apply wp_bind, wp_quiet; [apply quiet_measure| |by intros k r4 C; apply HQ; [by eapply failing_core|eauto]].
  intros [] r4 C4. apply wp_bind, wp_bind, wp_get_job. apply wp_bind, wp_quiet; [apply quiet_measure| |].
  2:{ intros k r5 C. apply HQ; [|eauto]. eapply failing_core; [exact F3|by rewrite C]. }
  intros [] r5 C5. rewrite C4 in C5. clear C4. assert (F5 := failing_core _ _ _ _ _ _ F3 C5).
  apply wp_bind, wp_release. intros o r6 Ho Hj _ Hd.
  assert (T : job_status (job (session r6)) = job_status (job (session r5))).
  { by destruct Hj as [->|[b ->]]. }
  apply soft_release in Hj. assert (F6 := failing_soft _ _ _ _ _ _ F5 Hj Hd).
  assert (T6 : job_status (job (session r6)) = failed_status (vm_created (job (session r6)))).
  { rewrite (vm_created_soft _ _ Hj), T. by injection C5 as -> _ _. }
  clear T Hj Hd C5 F3 Et V3 V F5. destruct Ho as [[b ->]|[k ->]]; [|by apply HQ; eauto].
  apply wp_quiet; [apply quiet_notify| |by intros k r7 C; apply HQ; [by eapply failing_core|eauto]].
  intros [] r7 C7. assert (F7 := failing_core _ _ _ _ _ _ F6 C7).
  apply wp_bind, wp_quiet.
  { apply quiet_bind; [apply quiet_get_job|]. intros. apply quiet_bind; [apply quiet_get_step|]. intros.
    apply quiet_record_audit. }
  2:{ intros k r8 C. apply HQ; [by eapply failing_core|eauto]. }
  intros [] r8 C8. assert (F8 := failing_core _ _ _ _ _ _ F7 C8). rewrite C7 in C8. clear C7 F7.
  injection C8 as C8 _ _. apply wp_bind, wp_commit.
  2:{ intros k r9 E1 E2 _. apply HQ; [|eauto]. eapply failing_soft; [exact F8|rewrite E1; apply soft_refl|done]. }
  intros r9 [= E1 E2 E3].
  assert (F9 : failing J d key n r9) by (eapply failing_soft; [exact F8|rewrite E1; apply soft_refl|done]).
  apply wp_quiet; [apply quiet_publish| |by intros k r10 C; apply HQ; [by eapply failing_core|eauto]].
  intros [] r10 C. apply HQ; [by eapply failing_core|]. injection C as C1 C2 C3.
  unfold settled. rewrite C1, C2, E1, E2, C8. done.
Qed.

(** ** One stage *)

(** The stage runs: its step has a status and one more attempt, the others and
    the job are as before. *)
Definition running (J : Job) (key : string) (b : StepStatus) (n : Z) (j : Job) : Prop :=
  (forall k, k <> key -> st_of j k = st_of J k) /\ st_of j key = Some (b, n) /\ job_status j = job_status J.

Lemma running_soft J key b n j : running J key b n j -> soft_except key J j.
Proof. intros (H1 & _). by apply soft_except_eq. Qed.

Lemma running_step J key b n j f c :
  running J key b n j -> (forall s, stage_key (f s) = stage_key s) ->
  (forall s, step_status (f s) = c /\ attempt (f s) = attempt s) ->
  running J key c n (update_step key f j).
Proof.
  intros (H1 & H2 & H3) Hk Hf. split_and!; [|rewrite st_of_update_eq by done|done].
  - intros k Hne. rewrite st_of_update_ne by done. by apply H1.
  - unfold st_of in H2. destruct (step_of j key) as [s|]; [|discriminate]. injection H2 as _ <-. simpl.
    by destruct (Hf s) as [-> ->].
Qed.

Definition stage_result (J : Job) (d : bool) (key : string) (n : Z) (o : Outcome unit) (r : Run X) : Prop :=
  exists b, st_of (job (session r)) key = Some (b, n + 1) /\ soft_except key J (job (session r))
    /\ (d = true -> db_cancel r = true)
    /\ match o with
       | Raise e => exists k, e = Cancelled k
       | Return _ =>
           (b = STEP_FAILED /\ settled (failed_status (vm_created (job (session r)))) r)
           \/ (b = STEP_CANCELLED /\ settled CANCELLED r /\ db_cancel r = true
               /\ forall k x m, st_of (job (session r)) k = Some (x, m) -> open_status x = false)
           \/ (is_done b = true /\ running J key b (n + 1) (job (session r)) /\ db_cancel r = d)
       end.

Lemma stage_result_cancelled J d key n k b (r : Run X) :
  running J key b (n + 1) (job (session r)) -> (d = true -> db_cancel r = true) ->
  stage_result J d key n (Raise (Cancelled k)) r.
Proof. intros R D. exists b. destruct R as (H1 & H2 & H3). split_and!; [done|by apply soft_except_eq|done|eauto]. Qed.

Lemma is_done_outcome s : is_done (outcome_step_status s) = true.
Proof. unfold outcome_step_status. by repeat case_match. Qed.

Lemma wp_run_stage stage a n Q (r : Run X) :
  let key := stage_key_of stage in
  st_of (job (session r)) key = Some (a, n) ->
  (forall o r', stage_result (job (session r)) (db_cancel r) key n o r' -> Q o r') ->
  wp (_run_stage handlers ctx stage) Q r.
Proof.
  intros key E HQ. unfold _run_stage. fold key. cbn zeta.
  set (J := job (session r)) in *. set (d := db_cancel r) in *.
  apply wp_bind, wp_now. apply wp_bind, wp_set_job. intros r1 [= H1 _ H3].
  fold J in H1.
  assert (R1 : running J key STEP_RUNNING (n + 1) (job (session r1))).
  { rewrite H1. split_and!; [|rewrite st_of_update_eq by done|done].
    - intros k Hk. by rewrite st_of_update_ne.
    - unfold st_of in E. destruct (step_of J key) as [s|]; [|discriminate]. by injection E as _ <-. }
  clear H1 E. apply wp_bind, wp_set_job. intros r2 [= H1 _ H3'].
  apply wp_bind, wp_set_job. intros r3 [= H2 _ H3''].
  assert (R3 : running J key STEP_RUNNING (n + 1) (job (session r3))) by (rewrite H2, H1; exact R1).
  assert (D3 : db_cancel r3 = d) by (unfold d; congruence). clear H1 H2 H3 H3' H3'' R1.
  assert (stop : forall k r', running J key STEP_RUNNING (n + 1) (job (session r')) -> db_cancel r' = d ->
                 Q (Raise (Cancelled k)) r').
  { intros k r' G1 G2. apply HQ. eapply stage_result_cancelled; [exact G1|congruence]. }
  apply wp_bind, wp_commit; [|intros k r4 E1 E2 _; apply stop; [by rewrite E1|congruence]].
  intros r4 [= E1 _ E2].
  apply wp_bind, wp_quiet; [apply quiet_publish_stage| |by intros k r5 [= F1 _ F3]; apply stop;
    [rewrite F1, E1|congruence]].
  intros [] r5 [= F1 _ F3]. apply wp_bind, wp_quiet; [apply quiet_effective_timeout| |by
    intros k r6 [= G1 _ G3]; apply stop; [rewrite G1, F1, E1|congruence]].
  intros timeout r6 [= G1 _ G3].
  assert (R6 : running J key STEP_RUNNING (n + 1) (job (session r6))) by (rewrite G1, F1, E1; exact R3).
  assert (D6 : db_cancel r6 = d) by congruence. clear E1 E2 F1 F3 G1 G3 R3 D3 stop.
  apply wp_bind, wp_attempt. intros result r7 [S1 S2] D7.
  assert (R7 : running J key STEP_RUNNING (n + 1) (job (session r7))).
  { destruct R6 as (A1 & A2 & A3). split_and!; [|by rewrite S1|congruence].
    intros k Hk. rewrite S1. by apply A1. }
  clear S1 S2 R6.
  assert (D7' : d = true -> db_cancel r7 = true) by (intros Hd; rewrite D7; destruct result; congruence).
  destruct result as [out| |e|k]; [| | |apply HQ; by eapply stage_result_cancelled].
  - (* the handler returned *)
    apply wp_bind, wp_now, wp_bind, wp_set_job. intros r8 [= H1 _ H3].
    set (b := outcome_step_status (outcome_status out)).
    assert (R8 : running J key b (n + 1) (job (session r8))).
    { rewrite H1. eapply running_step; [exact R7|done|done]. }
    apply wp_bind, wp_set_job. intros r9 [= K1 _ K3].
    assert (R9 : running J key b (n + 1) (job (session r9))) by (rewrite K1; exact R8).
    assert (D9 : db_cancel r9 = d) by congruence.
    assert (stop : forall k r', job (session r') = job (session r9) -> db_cancel r' = d ->
                   Q (Raise (Cancelled k)) r').
    { intros k r' G1 G2. apply HQ. eapply stage_result_cancelled; [rewrite G1; exact R9|congruence]. }
    apply wp_bind, wp_commit; [|intros k r' E1 E2 _; apply stop; congruence].
    intros r10 [= E1 _ E2].
    apply wp_bind, wp_get_step, wp_quiet; [apply quiet_publish_stage| |by intros k r' [= F1 _ F3]; apply stop; congruence].
    intros [] r11 [= F1 _ F3]. apply HQ. exists b.
    assert (R11 : running J key b (n + 1) (job (session r11))) by (rewrite F1, E1; exact R9).
    split_and!; [by apply R11|by eapply running_soft|congruence|]. right. right.
    split_and!; [apply is_done_outcome|done|congruence].
  - (* cancelled by the user while it ran *)
    apply wp_bind, wp_now, wp_bind, wp_set_job. intros r8 [= H1 _ H3].
    assert (R8 : running J key STEP_CANCELLED (n + 1) (job (session r8))).
    { rewrite H1. eapply running_step; [exact R7|done|done]. }
    apply wp_apply_cancellation. intros o r9 S D Ho. apply HQ.
    exists STEP_CANCELLED. destruct R8 as (A1 & A2 & A3). split_and!.
    + eapply soft_closed; [exact S|exact A2|by right].
    + eapply soft_except_trans; [by apply soft_except_eq|by apply soft_soft_except].
    + intros _. congruence.
    + destruct o as [[]|e]; [|done]. right. left. destruct Ho as [Ho1 Ho2]. split_and!; [done|done|congruence|done].
  - (* failed *)
    apply wp_bind, wp_now. destruct R7 as (A1 & A2 & A3).
    eapply wp_handle_failure; [exact A2|]. intros o r9 (G1 & G2 & G3) Ho. apply HQ.
    exists STEP_FAILED. split_and!; [done| |congruence|].
    + eapply soft_except_trans; [by apply soft_except_eq|exact G1].
    + destruct o as [[]|e']; [by left|done].
Qed.

(** ** The loop *)

(** What a run does to one step: a finished or foreign step is only ever
    cancelled or reset, any other step gains at most one attempt. *)
Definition evolves (keys : list string) (J J' : Job) : Prop := forall k,
  match st_of J k, st_of J' k with
  | None, None => True
  | Some (a, n), Some (b, m) =>
      n <= m <= n + 1 /\ (is_done a = true \/ k ∉ keys -> m = n /\ soft_status k a b)
  | _, _ => False
  end.

Lemma evolves_soft keys J J' : soft J J' -> evolves keys J J'.
Proof.
  intros S k. specialize (S k). destruct (st_of J k) as [[a n]|], (st_of J' k) as [[b m]|]; try done.
  destruct S as [-> S]. split; [lia|done].
Qed.

(** The stage with this key was started. *)
Definition ran (J J' : Job) (k : string) : Prop :=
  exists a b n m, st_of J k = Some (a, n) /\ st_of J' k = Some (b, m) /\ m <> n.

(** A stage starts only behind finished ones; of these only the preparation of
    the answer media can be reset later. *)
Definition in_order (keys : list string) (J J' : Job) : Prop :=
  forall before k after, keys = (before ++ k :: after)%list -> ran J J' k ->
  forall k', k' ∈ before ->
  match st_of J' k' with Some (a, _) => is_done a = true \/ k' = PREPARE | None => True end.

Definition all_done (keys : list string) (j : Job) : Prop :=
  forall k, k ∈ keys -> match st_of j k with Some (a, _) => is_done a = true | None => True end.

Definition loop_result (keys : list string) (J : Job) (d : bool) (o : Outcome bool) (r : Run X) : Prop :=
  (evolves keys J (job (session r)) /\ in_order keys J (job (session r))) /\ (d = true -> db_cancel r = true) /\
  match o with
  | Raise e => exists k, e = Cancelled k
  | Return true =>
      db_cancel r = false ->
      all_done keys (job (session r)) /\ (forall k, k ∉ keys -> st_of (job (session r)) k = st_of J k)
  | Return false =>
      (settled CANCELLED r /\ db_cancel r = true
       /\ forall k x m, st_of (job (session r)) k = Some (x, m) -> open_status x = false)
      \/ (settled (failed_status (vm_created (job (session r)))) r
          /\ exists k m, k ∈ keys /\ st_of (job (session r)) k = Some (STEP_FAILED, m))
  end.

(** Once the cancellation is recorded no stage starts. *)
Lemma wp_run_stages_cancelled stages Q (r : Run X) :
  db_cancel r = true ->
  (forall o r', soft (job (session r)) (job (session r')) -> db_cancel r' = true ->
     match o with
     | Raise e => exists k, e = Cancelled k
     | Return true => True
     | Return false => settled CANCELLED r'
         /\ forall k x m, st_of (job (session r')) k = Some (x, m) -> open_status x = false
     end -> Q o r') ->
  wp (run_stages handlers ctx stages) Q r.
Proof.
  intros Hd HQ. induction stages as [|stage rest IH]; cbn [run_stages].
  { apply wp_ret, HQ; [apply soft_refl|done|done]. }
  apply wp_bind, wp_get_step. destruct (step_of _ _) as [s|]; [|done].
  destruct (is_done (step_status s)); [done|]. apply wp_bind, wp_refresh.
  - intros b r1 Hb [= H1 _ H3]. rewrite Hb in H1, H3 by done.
    apply wp_bind, wp_get_job. rewrite H1. cbn [cancel_requested].
    apply wp_bind, wp_apply_cancellation. intros o r2 S D Ho. rewrite H1 in S.
    assert (S2 : soft (job (session r)) (job (session r2))).
    { eapply soft_trans; [|exact S]. apply soft_eq. intros k. by apply st_of_steps. }
    destruct o as [[]|e]; [apply wp_ret, HQ; [done|congruence|done]|apply HQ; [done|congruence|done]].
  - intros k r1 [C|(b & Hb & C)]; injection C as H1 _ H3; apply HQ; [| |eauto| | |eauto].
    + rewrite H1. apply soft_refl.
    + congruence.
    + rewrite H1. apply soft_eq. intros k'. by apply st_of_steps.
    + rewrite H3. by apply Hb.
Qed.

Lemma evolves_weaken keys key J J' : evolves keys J J' -> evolves (key :: keys) J J'.
Proof.
  intros E k. specialize (E k). destruct (st_of J k) as [[a n]|], (st_of J' k) as [[b m]|]; try done.
  destruct E as [E1 E2]. split; [done|]. intros [Hd|Hk]; apply E2; [by left|right; set_solver].
Qed.

Lemma evolves_eq keys J J1 J' : (forall k, st_of J1 k = st_of J k) -> evolves keys J1 J' -> evolves keys J J'.
Proof. intros E V k. rewrite <- E. apply V. Qed.

(** A stage that ran, then a change that runs nothing of it. *)
Lemma evolves_after_stage keys key J J2 J' a n b :
  st_of J key = Some (a, n) -> is_done a = false -> st_of J2 key = Some (b, n + 1) -> soft_except key J J2 ->
  key ∉ keys -> evolves keys J2 J' -> (forall k, k <> key -> st_of J2 k = st_of J k) \/ soft J2 J' ->
  evolves (key :: keys) J J'.
Proof.
  intros E Hd E2 S Hk V Hs k. specialize (V k).
  destruct (decide (k = key)) as [->|Hne].
  - rewrite E. rewrite E2 in V. destruct (st_of J' key) as [[c m]|]; [|done].
    destruct V as [_ V]. destruct V as [-> _]; [by right|]. split; [lia|].
    intros [Hd'|Hk']; [congruence|set_solver].
  - destruct Hs as [Hs|Hs].
    + rewrite <- Hs by done. destruct (st_of J2 k) as [[x p]|], (st_of J' k) as [[c m]|]; try done.
      destruct V as [V1 V2]. split; [done|]. intros [Hx|Hx]; apply V2; [by left|right; set_solver].
    + specialize (S k Hne). specialize (Hs k). destruct (st_of J k) as [[x p]|]; destruct (st_of J2 k) as [[y q]|];
        destruct (st_of J' k) as [[z m]|]; try done. destruct S as [-> S], Hs as [-> Hs].
      split; [lia|]. intros _. split; [done|]. by eapply soft_status_trans.
Qed.

Lemma in_order_unrun keys J J' : (forall k, k ∈ keys -> ~ ran J J' k) -> in_order keys J J'.
Proof. intros Hn before k after -> Hr. exfalso. apply (Hn k); [set_solver|done]. Qed.

Lemma soft_unrun J J' k : soft J J' -> ~ ran J J' k.
Proof. intros S (a & b & n & m & E1 & E2 & Hne). specialize (S k). rewrite E1, E2 in S. by destruct S as [-> _]. Qed.

Lemma in_order_soft keys J J' : soft J J' -> in_order keys J J'.
Proof. intros S. apply in_order_unrun. intros k _. by apply soft_unrun. Qed.

(** Only the first stage ran. *)
Lemma in_order_first key keys J J' : key ∉ keys -> (forall k, k <> key -> ~ ran J J' k) -> in_order (key :: keys) J J'.
Proof.
  intros Hk Hn before k after E Hr k' Hin. destruct before as [|x before]; [by apply not_elem_of_nil in Hin|].
  exfalso. injection E as -> ->. apply (Hn k); [|done]. intros ->. apply Hk. set_solver.
Qed.

(** A finished step in front stays finished. *)
Lemma in_order_cons keys key J J2 J' :
  in_order keys J2 J' -> (forall k, k ∈ keys -> ran J J' k -> ran J2 J' k) -> evolves keys J2 J' -> key ∉ keys ->
  match st_of J2 key with Some (a, _) => is_done a = true | None => True end -> in_order (key :: keys) J J'.
Proof.
  intros I Hr V Hk Hd before k after E R k' Hin. destruct before as [|x before]; [by apply not_elem_of_nil in Hin|].
  injection E as <- E. apply elem_of_cons in Hin as [->|Hin].
  - specialize (V key). destruct (st_of J2 key) as [[a n]|], (st_of J' key) as [[b m]|]; try done.
    destruct V as [_ V]. destruct V as [_ [->|[[Ho _]|(-> & _)]]]; [by left|by left| |by right].
    by destruct a.
  - eapply I; [exact E|apply Hr; [rewrite E; set_solver|done]|done].
Qed.

Lemma ran_eq J J2 J' k : st_of J2 k = st_of J k -> ran J J' k -> ran J2 J' k.
Proof. intros E (a & b & n & m & E1 & E2). exists a, b, n, m. by rewrite E. Qed.

Lemma soft_except_unrun key J J2 J' : soft_except key J J2 -> soft J2 J' -> forall k, k <> key -> ~ ran J J' k.
Proof.
  intros S1 S2 k Hk (a & b & n & m & E1 & E2 & Hne). specialize (S1 k Hk). specialize (S2 k). rewrite E1 in S1.
  rewrite E2 in S2. destruct (st_of J2 k) as [[c p]|]; [|done]. destruct S1 as [-> _], S2 as [-> _]. done.
Qed.

Lemma loop_result_skip key keys J d o (r : Run X) :
  key ∉ keys -> match st_of J key with Some (a, _) => is_done a = true | None => True end ->
  loop_result keys J d o r -> loop_result (key :: keys) J d o r.
Proof.
  intros Hk Hd ([V I] & D & Ho). split; [split; [by apply evolves_weaken|]|split; [done|]].
  { eapply in_order_cons; eauto. }
  destruct o as [[|]|e]; [| |done].
  - intros Hc. destruct (Ho Hc) as [H1 H2]. split.
    + intros k [->|Hin]%elem_of_cons; [|by apply H1]. by rewrite H2.
    + intros k Hin. apply H2. set_solver.
  - destruct Ho as [Ho|(H1 & k & m & H2 & H3)]; [by left|]. right. split; [done|]. exists k, m. split; [set_solver|done].
Qed.

Lemma loop_result_run key keys J J2 a n b d d2 o (r : Run X) :
  key ∉ keys -> st_of J key = Some (a, n) -> is_done a = false ->
  running J key b (n + 1) J2 -> is_done b = true -> (d = true -> d2 = true) ->
  loop_result keys J2 d2 o r -> loop_result (key :: keys) J d o r.
Proof.
  intros Hk E Ha R Hb Hd ([V I] & D & Ho). destruct (R) as (R1 & R2 & R3). split; [split|split; [by auto|]].
  - eapply evolves_after_stage; eauto. by eapply running_soft.
  - eapply in_order_cons; [exact I| |exact V|exact Hk|by rewrite R2].
    intros k Hin. apply ran_eq, R1. by intros ->.
  - destruct o as [[|]|e]; [| |done].
    + intros Hc. destruct (Ho Hc) as [H1 H2]. split.
      * intros k [->|Hin]%elem_of_cons; [|by apply H1]. rewrite H2 by done. by rewrite R2.
      * intros k Hin. apply not_elem_of_cons in Hin as [? ?]. rewrite H2 by done. by apply R1.
    + destruct Ho as [Ho|(H1 & k & m & H2 & H3)]; [by left|]. right. split; [done|]. exists k, m. split; [set_solver|done].
Qed.

Lemma st_of_step j k s : step_of j k = Some s -> st_of j k = Some (step_status s, attempt s).
Proof. unfold st_of. by intros ->. Qed.

Lemma wp_run_stages stages : NoDup (List.map stage_key_of stages) -> forall Q (r : Run X),
  (forall o r', loop_result (List.map stage_key_of stages) (job (session r)) (db_cancel r) o r' -> Q o r') ->
  wp (run_stages handlers ctx stages) Q r.
Proof.
  induction stages as [|stage rest IH]; intros Hnd Q r HQ; cbn [run_stages List.map].
  { apply wp_ret, HQ. split_and!; [apply evolves_soft, soft_refl|apply in_order_soft, soft_refl|done|]. intros _. split; [intros k []%not_elem_of_nil|done]. }
  set (key := stage_key_of stage) in *. cbn [List.map] in Hnd, HQ. fold key in Hnd, HQ.
  set (keys := List.map stage_key_of rest) in *. apply NoDup_cons in Hnd as [Hk Hnd].
  apply wp_bind, wp_get_step. set (J := job (session r)) in *.
  destruct (step_of J key) as [s|] eqn:Es.
  2:{ apply IH; [done|]. intros o r' L. apply HQ, loop_result_skip; [done| |done]. by unfold st_of; rewrite Es. }
  apply st_of_step in Es. destruct (is_done (step_status s)) eqn:Hs.
  { apply IH; [done|]. intros o r' L. apply HQ, loop_result_skip; [done| |done]. by rewrite Es. }
  apply wp_bind, wp_refresh.
  2:{ intros k r1 C. apply HQ. destruct C as [C|(b & Hb & C)]; injection C as H1 _ H3.
      - split_and!; [apply evolves_soft; rewrite H1; apply soft_refl|apply in_order_soft; rewrite H1; apply soft_refl
          |congruence|eauto].
      - assert (S : soft J (job (session r1))) by (rewrite H1; apply soft_eq; intros k'; by apply st_of_steps).
        split_and!; [by apply evolves_soft|by apply in_order_soft|rewrite H3; exact Hb|eauto]. }
  intros b r1 Hb [= H1 _ H3]. apply wp_bind, wp_get_job.
  assert (E1 : forall k, st_of (job (session r1)) k = st_of J k) by (intros k; rewrite H1; by apply st_of_steps).
  assert (E2 : job_status (job (session r1)) = job_status J) by by rewrite H1.
  assert (Hc : cancel_requested (job (session r1)) = b) by by rewrite H1. rewrite Hc. clear H1 Hc.
  destruct b.
  - apply wp_bind, wp_apply_cancellation. intros o r2 S D Ho.
    assert (S2 : soft J (job (session r2))) by (eapply soft_trans; [by apply soft_eq; intros; rewrite E1|done]).
    destruct o as [[]|e]; [apply wp_ret|]; apply HQ; (split_and!; [by apply evolves_soft|by apply in_order_soft|congruence|]); [|done].
    left. destruct Ho as [Ho1 Ho2]. split_and!; [done|congruence|done].
  - apply wp_bind. eapply wp_run_stage; [rewrite E1; exact Es|]. fold key.
    intros o r2 (c & G1 & G2 & G3 & G4).
    assert (S2 : soft_except key J (job (session r2))).
    { eapply soft_except_trans; [|exact G2]. apply soft_except_eq. intros; apply E1. }
    assert (V2 : evolves (key :: keys) J (job (session r2))).
    { eapply evolves_after_stage; [exact Es|done|exact G1|exact S2|exact Hk| |by right; apply soft_refl].
      apply evolves_soft, soft_refl. }
    assert (I2 : in_order (key :: keys) J (job (session r2))).
    { apply in_order_first; [done|]. eapply soft_except_unrun; [exact S2|apply soft_refl]. }
    destruct o as [[]|e].
    2:{ apply HQ. split_and!; [exact V2|exact I2| |done]. intros Hd. rewrite (Hb Hd) in H3. rewrite H3 in G3. by apply G3. }
    assert (Hdf : db_cancel r = true -> False) by (intros Hd; by specialize (Hb Hd)).
    apply wp_bind, wp_get_step. destruct (step_of (job (session r2)) key) as [s2|] eqn:Es2.
    2:{ unfold st_of in G1. by rewrite Es2 in G1. }
    apply st_of_step in Es2. rewrite G1 in Es2. injection Es2 as Hc _. rewrite <- Hc. clear s2 Hc.
    destruct G4 as [[-> G4]|[(-> & G4 & G5 & G6)|(Hdone & G4 & G5)]].
    + rewrite bool_decide_eq_true_2 by done. apply wp_ret, HQ. split_and!; [exact V2|exact I2|by intros ?%Hdf|].
      right. split; [done|]. exists key, (attempt s + 1). split; [set_solver|done].
    + rewrite bool_decide_eq_false_2 by done. apply wp_run_stages_cancelled; [done|].
      intros o r3 S D Ho. apply HQ. split_and!; [| |by intros _|].
      * eapply evolves_after_stage; [exact Es|done|exact G1|exact S2|exact Hk|by apply evolves_soft|by right].
      * apply in_order_first; [done|]. by eapply soft_except_unrun.
      * destruct o as [[|]|e]; [congruence| |done]. left. destruct Ho as [? ?]. split_and!; done.
    + rewrite bool_decide_eq_false_2 by (by destruct c). apply IH; [done|]. intros o r3 L. apply HQ.
      eapply loop_result_run; [exact Hk|exact Es|done| |exact Hdone| |exact L].
      * destruct G4 as (A1 & A2 & A3). split_and!; [intros; rewrite A1 by done; apply E1|done|].
        congruence.
      * by intros ?%Hdf.
Qed.

(** ** The run *)

Lemma wp_finalize_success Q (r : Run X) :
  (forall o r', (forall k, st_of (job (session r')) k = st_of (job (session r)) k) -> db_cancel r' = db_cancel r ->
     match o with Return _ => settled COMPLETED r' | Raise e => exists k, e = Cancelled k end -> Q o r') ->
  wp (_finalize_success ctx) Q r.
Proof.
  intros HQ. unfold _finalize_success. apply wp_bind, wp_now, wp_bind, wp_set_job. intros r1 [= H1 _ H3].
  assert (stop : forall k r', core r' = core r1 -> Q (Raise (Cancelled k)) r').
  { intros k r' [= E1 _ E3]. apply HQ; [intros k'; rewrite E1, H1; by apply st_of_steps|congruence|eauto]. }
  apply wp_bind, wp_quiet; [apply quiet_get_artifacts| |done]. intros arts r2 C2. cbn zeta. apply wp_bind, wp_get_job.
  apply wp_bind, wp_quiet; [apply quiet_notify| |by intros k r3 C3; apply stop; rewrite C3].
  intros [] r3 C3. rewrite C2 in C3.
  apply wp_bind, wp_quiet; [apply quiet_measure| |by intros k r4 C4; apply stop; rewrite C4].
  intros [] r4 C4. rewrite C3 in C4. apply wp_bind, wp_quiet.
  { destruct (duration _) as [z|]; [destruct (z =? 0)|]; auto with infra. }
  2:{ intros k r5 C5. apply stop. by rewrite C5. }
  intros [] r5 C5. rewrite C4 in C5.
  apply wp_bind, wp_quiet; [apply quiet_record_audit| |by intros k r6 C6; apply stop; rewrite C6].
  intros [] r6 C6. rewrite C5 in C6. injection C6 as C6 C7 C8.
  assert (G : forall r' : Run X, job (session r') = job (session r1) -> forall k, st_of (job (session r')) k = st_of (job (session r)) k).
  { intros r' E k. rewrite E, H1. by apply st_of_steps. }
  apply wp_bind, wp_commit.
  - intros r7 [= E1 E2 E3]. apply wp_quiet; [apply quiet_publish| |].
    + intros [] r8 [= F1 F2 F3]. apply HQ; [apply G; congruence|congruence|].
      split; [congruence|]. replace (job (session r8)) with (job (session r1)) by congruence. by rewrite H1.
    + intros k r8 [= F1 F2 F3]. apply HQ; [apply G; congruence|congruence|eauto].
  - intros k r7 E1 E2 _. apply HQ; [apply G; congruence|congruence|eauto].
Qed.

Definition STAGE_KEYS : list string := List.map stage_key_of ORDERED_STAGES.

Lemma STAGE_KEYS_nodup : NoDup STAGE_KEYS.
Proof. apply (bool_decide_unpack _). vm_compute. exact I. Qed.

(** Everything a run of [execute] guarantees of the job. *)
Definition run_result (r : Run X) (o : Outcome unit) (r' : Run X) : Prop :=
  (evolves STAGE_KEYS (job (session r)) (job (session r'))
   /\ in_order STAGE_KEYS (job (session r)) (job (session r'))) /\
  match o with
  | Raise e => exists k, e = Cancelled k
  | Return _ =>
      (settled COMPLETED r' /\ (db_cancel r' = false -> all_done STAGE_KEYS (job (session r'))))
      \/ (settled CANCELLED r' /\ db_cancel r' = true
          /\ forall k x m, st_of (job (session r')) k = Some (x, m) -> open_status x = false)
      \/ (settled (failed_status (vm_created (job (session r')))) r'
          /\ exists k m, k ∈ STAGE_KEYS /\ st_of (job (session r')) k = Some (STEP_FAILED, m))
  end.

Lemma execute_result (r : Run X) : wp (execute handlers ctx) (run_result r) r.
Proof.
  unfold execute. apply wp_bind, wp_run_stages; [exact STAGE_KEYS_nodup|]. fold STAGE_KEYS.
  intros o r1 (V & D & Ho). destruct o as [[|]|e]; [| |by split].
  - apply wp_finalize_success. intros o r2 S D2 Ho2.
    destruct V as [V I].
    assert (V2 : evolves STAGE_KEYS (job (session r)) (job (session r2))).
    { intros k. specialize (V k). by rewrite S. }
    assert (I2 : in_order STAGE_KEYS (job (session r)) (job (session r2))).
    { intros b k a E (x & y & n & m & E1 & E2 & E3) k' Hk'. rewrite S in E2 |- *.
      eapply I; [exact E|by exists x, y, n, m|done]. }
    split; [done|]. destruct o as [[]|e]; [|done]. left. split; [done|].
    rewrite D2. intros Hc k Hk. rewrite S. by apply Ho.
  - apply wp_ret. split; [done|]. by right.
Qed.

(** ** Undisturbed runs *)

Lemma undisturbed_pop (r : Run X) : undisturbed r ->
  undisturbed (match interrupts r with
               | [] => r
               | i :: l => r <| interrupts := l |> <| pending := match i with Some _ => i | None => pending r end |>
               end).
Proof.
  intros [Hp Hi]. destruct (interrupts r) as [|i l] eqn:E; [by split; rewrite ?E|].
  apply Forall_cons in Hi as [-> Hl]. by split.
Qed.

Lemma calm_attempt stage timeout : calm false (attempt_stage handlers ctx stage timeout).
Proof.
  intros r Hr. unfold attempt_stage. destruct (handlers (stage_key_of stage)) as [h|] eqn:Eh; simpl;
    [|split; [done|discriminate]].
  unfold _run_handler. set (r0 := match interrupts r with [] => r | i :: l => _ end).
  assert (U0 : undisturbed r0) by by apply undisturbed_pop.
  destruct (handler_calm _ _ ctx Eh r0 U0) as [[U1 U2] U3]. destruct (h ctx r0) as [o r1]. simpl in *.
  assert (G : forall b : bool, undisturbed ((r1 <| pending := match pending r1 with
      Some i => if bool_decide (interrupt_kind i = Shutdown) then Some i else None | None => None end |>)
      <| db_cancel := b |>)).
  { intros b. split; simpl; [by rewrite U1|done]. }
  destruct o as [a|[e| |n m|k]]; simpl; try (split; [exact (G (db_cancel r1))|discriminate]).
  destruct (U3 k eq_refl) as [_ ->]. simpl. split; [exact (G (db_cancel r1))|discriminate].
Qed.

Lemma calm_apply_cancellation : calm false (_apply_cancellation ctx).
Proof. unfold _apply_cancellation. solve_calm. Qed.

Lemma calm_handle_failure stage e finished : calm false (_handle_failure ctx stage e finished).
Proof. unfold _handle_failure, _attach_console_screenshot. cbn zeta. solve_calm. Qed.

Lemma calm_finalize : calm false (_finalize_success ctx).
Proof. unfold _finalize_success. cbn zeta. solve_calm. Qed.

Lemma calm_publish_event st msg : calm (X := X) false (_publish st msg).
Proof. unfold _publish. solve_calm. Qed.

Hint Resolve calm_attempt calm_apply_cancellation calm_handle_failure calm_finalize calm_publish_event : infra.

Lemma calm_attempt_result stage timeout (k : Attempt -> M X unit) :
  (forall a, match a with Stopped _ => False | _ => True end -> calm false (k a)) ->
  calm false (let* a := attempt_stage handlers ctx stage timeout in k a).
Proof.
  intros Hk r Hr. unfold bind. pose proof (calm_attempt stage timeout r Hr) as [U _].
  assert (N : match fst (attempt_stage handlers ctx stage timeout r) with
              | Return (Stopped _) => False | _ => True end).
  { unfold attempt_stage. destruct (handlers (stage_key_of stage)) as [h|] eqn:Eh; [|done].
    unfold _run_handler. set (r0 := match interrupts r with [] => r | i :: l => _ end).
    assert (U0 : undisturbed r0) by by apply undisturbed_pop.
    destruct (handler_calm _ _ ctx Eh r0 U0) as [_ U3]. destruct (h ctx r0) as [o r1]. simpl in *.
    destruct o as [a|[e| |n m|k']]; simpl; try done. destruct (U3 k' eq_refl) as [_ ->]. done. }
  destruct (attempt_stage handlers ctx stage timeout r) as [[a|e] r1] eqn:E; simpl in *.
  - apply Hk; [by destruct a|done].
  - exfalso. revert E. unfold attempt_stage. destruct (handlers _); [|discriminate].
    destruct (_run_handler _ _) as [o r2]. discriminate.
Qed.

Lemma calm_run_stage stage : calm false (_run_stage handlers ctx stage).
Proof.
  unfold _run_stage, update_progress. cbn zeta. do 7 (apply calm_bind; [solve_calm|intros ?]).
  apply calm_attempt_result. intros [o| |e|k] Ha; [| | |done]; solve_calm.
Qed.

Lemma calm_run_stages stages : calm false (run_stages handlers ctx stages).
Proof.
  pose proof calm_run_stage. induction stages as [|stage rest IH]; cbn [run_stages]; solve_calm.
Qed.

Lemma execute_calm : calm false (execute handlers ctx).
Proof. pose proof calm_run_stages. unfold execute. solve_calm. Qed.

End Facts.
