(* ===== verification/Commits.v ===== *)
(** * What a run commits

    Every row a run of the pipeline commits is a change the queue allows its
    worker ([worker_write] of Service.v), whatever the stages, collaborators
    and cancellations do.  The commits of a run are the ghost list [commits]
    of its state (Effects.v). *)

From Stdlib Require Import ZArith Lia Ascii String List Bool.
From stdpp Require Import base tactics list strings gmap relations.
From S2P Require Import Prelude PyStr Errors Schemas StateMachine Jobs AuditTrail Repository Queue Service Effects World.
From S2P Require Import StageSupport Pipeline PipelineFacts.

Local Open Scope string_scope.
Local Open Scope Z_scope.

(** ** Chains of rows *)

Fixpoint linked (R : Job -> Job -> Prop) (j : Job) (l : list Job) : Prop :=
  match l with
  | [] => True
  | x :: r => R j x /\ linked R x r
  end.

Lemma linked_app R j l m : linked R j (l ++ m) <-> linked R j l /\ linked R (List.last l j) m.
Proof.
  revert j. induction l as [|x l IH]; intros j; [simpl; tauto|]. rewrite last_cons. simpl. rewrite IH. tauto.
Qed.

Lemma worker_edge_refl s : s <> QUEUED -> worker_edge s s = true.
Proof. by destruct s. Qed.

Lemma worker_edge_trans a b c : worker_edge a b = true -> worker_edge b c = true -> worker_edge a c = true.
Proof. by destruct a, b, c. Qed.

Lemma worker_write_keys j j' :
  index_keys j' = index_keys j -> worker_edge (job_status j) (job_status j') = true ->
  (job_status j' = RUNNING -> worker_id j' = worker_id j) -> worker_write j j'.
Proof.
  intros [= E1 E2 E3 E4] E W. split; [done|]. split; [|done]. unfold keeps_keys, is_active_job. split_and!; try done.
  by destruct (job_status j), (job_status j').
Qed.

Lemma linked_keys j l : linked worker_write j l -> index_keys (List.last l j) = index_keys j.
Proof.
  induction l as [|x l IH] using rev_ind; [done|]. rewrite linked_app. intros [H1 [(_ & K & _) _]].
  rewrite last_app. simpl. destruct K as (K1 & K2 & K3 & K4 & _). rewrite <- (IH H1). unfold index_keys. congruence.
Qed.

(** A row that still runs kept its owner. *)
Lemma linked_owner j l :
  linked worker_write j l -> job_status (List.last l j) = RUNNING ->
  job_status j = RUNNING /\ worker_id (List.last l j) = worker_id j.
Proof.
  induction l as [|x l IH] using rev_ind; [done|]. rewrite linked_app, last_app. simpl.
  intros [H1 [(E & _ & W) _]] R. rewrite R in E. destruct IH as [I1 I2]; [done| |].
  - by destruct (job_status (List.last l j)).
  - split; [done|]. by rewrite W.
Qed.

Section Commits.

Context {X : Type} (j0 : Job).

(** The run started from the row [j0], all its commits are allowed, and it may
    commit its session, in which the job has the status [s]. *)
Record at_status (s : JobStatus) (r : Run X) : Prop := MkAt {
  at_linked : linked worker_write j0 (commits r);
  at_stored : job (stored r) = List.last (commits r) j0;
  at_keys : index_keys (job (session r)) = index_keys j0;
  at_session : job_status (job (session r)) = s;
  at_owner : s = RUNNING -> worker_id (job (session r)) = worker_id j0;
  at_edge : worker_edge (job_status (job (stored r))) s = true;
}.

Definition safe (r : Run X) : Prop := exists s, s <> QUEUED /\ at_status s r.

Lemma safe_at s (r : Run X) : at_status s r -> s <> QUEUED -> safe r.
Proof. intros. by exists s. Qed.

Lemma safe_status (r : Run X) : safe r -> at_status (job_status (job (session r))) r.
Proof. intros (s & _ & H). by rewrite (at_session _ _ H). Qed.

(** [m] leaves the status of the job alone. *)
Definition stays {A} (m : M X A) : Prop :=
  forall s r, s <> QUEUED -> at_status s r -> at_status s (snd (m r)).

(** The row last committed, as the session may overwrite it. *)
Definition may_follow (s : JobStatus) (x : Job) : Prop :=
  index_keys x = index_keys j0 /\ worker_edge (job_status x) s = true
  /\ (s = RUNNING -> worker_id x = worker_id j0).

Lemma may_follow_stored s (r : Run X) : at_status s r -> may_follow s (job (stored r)).
Proof.
  intros [A1 A2 A3 A4 AO A5]. rewrite A2 in *. split_and!; [by apply linked_keys|done|].
  intros ->. apply linked_owner; [done|]. by destruct (job_status (List.last (commits r) j0)).
Qed.

Lemma linked_same s x l :
  s <> QUEUED -> may_follow s x ->
  Forall (fun j => index_keys j = index_keys j0 /\ job_status j = s /\ (s = RUNNING -> worker_id j = worker_id j0)) l ->
  linked worker_write x l /\ worker_edge (job_status (List.last l x)) s = true.
Proof.
  intros Hs Hx Hl. revert x Hx. induction Hl as [|y l (Ky & Sy & Wy) Hl IH]; intros x (Kx & Ex & Wx); [done|].
  rewrite last_cons. destruct (IH y) as [I1 I2].
  { split_and!; [done|rewrite Sy; by apply worker_edge_refl|done]. }
  split; [|done]. split; [|done]. apply worker_write_keys; [congruence|by rewrite Sy|].
  intros R. rewrite Wx, Wy; congruence.
Qed.

Lemma at_committed s P (r r' : Run X) :
  s <> QUEUED -> at_status s r ->
  status_view (job (session r')) = status_view (job (session r)) ->
  (forall j, P j -> status_view j = status_view (job (session r))) -> committed P r r' ->
  at_status s r'.
Proof.
  intros Hs A V HP (l & L1 & L2 & L3). pose proof (may_follow_stored _ _ A) as F.
  destruct A as [A1 A2 A3 A4 AO A5].
  assert (Hv : forall j, status_view j = status_view (job (session r)) ->
            index_keys j = index_keys j0 /\ job_status j = s /\ (s = RUNNING -> worker_id j = worker_id j0)).
  { unfold status_view. intros j [= _ E W K]. rewrite W, <- A3, <- A4. split_and!; [|done|by rewrite A4].
    unfold index_keys. congruence. }
  destruct (linked_same s (job (stored r)) l) as [H1 H2]; [done|done| |].
  { eapply Forall_impl; [exact L2|]. intros j Hj. by apply Hv, HP. }
  destruct (Hv (job (session r')) V) as (K' & S' & W').
  constructor; [rewrite L1; apply linked_app; rewrite <- A2; auto|by rewrite L3, A2, L1, last_app|done|done|done|by rewrite L3].
Qed.

Lemma stays_frames {A} (m : M X A) : frames m -> stays m.
Proof. intros F s r Hs H. destruct (F r) as [V C _ _ _]. eapply at_committed; [exact Hs|exact H|exact V| |exact C]. done. Qed.

Lemma stays_bind {A B} (m : M X A) (k : A -> M X B) : stays m -> (forall a, stays (k a)) -> stays (bind m k).
Proof.
  intros Hm Hk s r Hs H. unfold bind. specialize (Hm s r Hs H). destruct (m r) as [[a|e] r1]; simpl in *; [|done].
  by apply Hk.
Qed.

Lemma stays_await {A} (m : M X A) : stays m -> stays (await m).
Proof.
  intros Hm s r Hs H. unfold await.
  assert (P : forall p, at_status s (r <| pending := p |>)) by (intros p; destruct H; by constructor).
  destruct (pending r) as [[[|n] k b]|]; cbn [after_awaits interrupt_kind in_flight_lands snd]; [| |by apply Hm].
  - destruct b; [apply Hm; [done|]|]; apply (P None).
  - apply Hm; [done|]. apply (P (Some _)).
Qed.

Lemma at_set_job s s' (f : Job -> Job) (r : Run X) :
  at_status s r -> worker_edge s s' = true ->
  index_keys (f (job (session r))) = index_keys (job (session r)) -> job_status (f (job (session r))) = s' ->
  (s' = RUNNING -> s = RUNNING /\ worker_id (f (job (session r))) = worker_id (job (session r))) ->
  at_status s' (snd (set_job f r)).
Proof.
  intros [A1 A2 A3 A4 AO A5] E K S W. constructor; simpl; [done|done|congruence|done| |by eapply worker_edge_trans].
  intros R. destruct (W R) as [-> ->]. by apply AO.
Qed.

Lemma stays_set_job (f : Job -> Job) :
  (forall j, index_keys (f j) = index_keys j /\ job_status (f j) = job_status j /\ worker_id (f j) = worker_id j) ->
  stays (set_job f).
Proof.
  intros Hf s r Hs H. destruct (Hf (job (session r))) as (K & S & W).
  eapply at_set_job; [exact H|by apply worker_edge_refl|exact K|rewrite S; apply H|done].
Qed.

Lemma stays_set_step k (f : Step -> Step) : stays (set_step k f).
Proof. by apply stays_set_job. Qed.

Lemma stays_refresh : stays (refresh (X := X)).
Proof. apply stays_await. intros s r Hs [A1 A2 A3 A4 AO A5]. by constructor. Qed.

Lemma wp_stays {A} (m : M X A) s Q (r : Run X) :
  stays m -> s <> QUEUED -> at_status s r -> (forall o r', at_status s r' -> Q o r') -> wp m Q r.
Proof. intros Hm Hs H HQ. apply HQ. by apply Hm. Qed.

Lemma wp_both {A} (m : M X A) (P Q : Outcome A -> Run X -> Prop) (r : Run X) :
  wp m P r -> wp m Q r -> wp m (fun o r' => P o r' /\ Q o r') r.
Proof. by split. Qed.

Lemma wp_bind_stays {A B} (m : M X A) (k : A -> M X B) s (Q : Outcome B -> Run X -> Prop) (r : Run X) :
  stays m -> s <> QUEUED -> at_status s r ->
  (forall a r', at_status s r' -> wp (k a) Q r') -> (forall e r', at_status s r' -> Q (Raise e) r') ->
  wp (bind m k) Q r.
Proof. intros Hm Hs H H1 H2. apply wp_bind, (wp_stays m s); [done..|]. intros [a|e] r' H'; auto. Qed.

End Commits.

#[export] Hint Resolve stays_set_step stays_refresh : infra.

(** Decide [stays] by the shape of a monadic term. *)
Ltac stays_step :=
  lazymatch goal with
  | |- stays _ (bind _ _) => apply stays_bind
  | |- stays _ (set_step _ _) => apply stays_set_step
  | |- stays _ (set_job _) => apply stays_set_job; intros; split_and!; reflexivity
  | |- stays _ refresh => apply stays_refresh
  | |- stays _ (match ?x with _ => _ end) => destruct x
  | |- stays _ (let _ := _ in _) => cbn zeta
  | |- stays _ _ => first [solve [auto 2 with infra nocore] | apply stays_frames; solve [solve_frames]]
  | |- forall _, _ => intros
  end.

Ltac solve_stays := repeat first [ stays_step | assumption ].

(** ** The pipeline *)

Section Pipeline.

Context {X : Type} `{World X} (j0 : Job).
Context (handlers : string -> option (Ctx -> M X StageOutcome)) `{!StageHandlers handlers}.
Context (ctx : Ctx).

Local Notation at_status := (at_status (X := X) j0).
Local Notation safe := (safe (X := X) j0).
Local Notation stays := (stays (X := X) j0).

Lemma stays_release why : stays (release_unattended_media ctx why).
Proof. unfold release_unattended_media. solve_stays. Qed.

Lemma stays_publish st msg : stays (_publish st msg).
Proof. unfold _publish. solve_stays. Qed.

Lemma stays_attach key : stays (_attach_console_screenshot ctx key).
Proof. unfold _attach_console_screenshot. solve_stays. Qed.

Lemma stays_attempt stage timeout : stays (attempt_stage handlers ctx stage timeout).
Proof.
  intros s r Hs H0. unfold attempt_stage. destruct (handlers (stage_key_of stage)) as [h|] eqn:Eh; [|done].
  unfold _run_handler. set (r0 := match interrupts r with [] => r | i :: l => _ end).
  assert (A0 : at_status s r0) by (unfold r0; destruct (interrupts r); [done|]; destruct H0; by constructor).
  pose proof (stays_frames j0 (h ctx) (handler_frames _ _ ctx Eh) s r0 Hs A0) as A1. destruct (h ctx r0) as [o r1].
  destruct A1. destruct o as [a|[e| |n m|[| |]]]; by constructor.
Qed.

Hint Resolve stays_release stays_publish stays_attach stays_attempt : infra.

(** A transition of the job. *)
Lemma wp_move s s' (f : Job -> Job) (Q : Outcome unit -> Run X -> Prop) (r : Run X) :
  at_status s r -> worker_edge s s' = true -> s' <> RUNNING ->
  (forall j, index_keys (f j) = index_keys j /\ job_status (f j) = s') ->
  (forall r', at_status s' r' -> Q (Return tt) r') -> wp (set_job f) Q r.
Proof. intros A E N Hf HQ. apply HQ. eapply at_set_job; [exact A|exact E|apply Hf|apply Hf|done]. Qed.

Lemma wp_stays_safe {A} (m : M X A) s (r : Run X) :
  stays m -> s <> QUEUED -> at_status s r -> wp m (fun _ r' => safe r') r.
Proof. intros Hm Hs H0. apply (wp_stays j0 m s); [done..|]. intros o r' A'. by apply (safe_at _ s). Qed.

(** The statuses in which the loop over the stages goes on: after a
    cancellation during the last stage the job is CANCELLED already. *)
Definition live (s : JobStatus) : Prop := s = RUNNING \/ s = CANCELLED.

Lemma live_not_queued s : live s -> s <> QUEUED.
Proof. by intros [-> | ->]. Qed.

Lemma wp_cancellation_safe s (r : Run X) :
  live s -> at_status s r -> wp (_apply_cancellation ctx) (fun _ r' => safe r') r.
Proof.
  intros Hs A. pose proof (live_not_queued s Hs) as Hq. unfold _apply_cancellation.
  apply (wp_bind_stays j0 _ _ s); [solve_stays|done|done| |intros; by eapply safe_at].
  intros finished r1 A1. apply (wp_bind_stays j0 _ _ s); [solve_stays|done|done| |intros; by eapply safe_at].
  intros _ r2 A2. apply wp_bind, (wp_move s CANCELLED); [done|by destruct Hs as [-> | ->]|done|done|].
  intros r3 A3. eapply wp_stays_safe; [solve_stays| |exact A3]. done.
Qed.

Lemma failed_status_not_queued b : failed_status b <> QUEUED.
Proof. by destruct b. Qed.

Lemma wp_failure_safe stage e finished (r : Run X) :
  at_status RUNNING r -> wp (_handle_failure ctx stage e finished) (fun _ r' => safe r') r.
Proof.
  intros A. unfold _handle_failure. cbn zeta.
  apply (wp_bind_stays j0 _ _ RUNNING); [solve_stays|done|done| |intros; by eapply safe_at].
  intros _ r1 A1. apply wp_bind, wp_bind, wp_get_job. set (created := vm_created _).
  apply (wp_bind_stays j0 _ _ RUNNING); [solve_stays|done|done| |intros; by eapply safe_at].
  intros _ r2 A2. apply wp_bind, wp_get_step.
  apply (wp_move RUNNING (failed_status created)); [done|by destruct created|by destruct created| |].
  { intros j. destruct (fail_row_same created (stage_key_of stage) e
      (match step_of (job (session r2)) (stage_key_of stage) with
       | Some s => text_or (error_technical s) "" | None => "" end) finished j) as [_ E].
    split; [|exact E]. unfold fail_row, mark_failed_area. cbn zeta. by repeat case_match. }
  intros r3 A3. eapply wp_stays_safe; [solve_stays|apply failed_status_not_queued|exact A3].
Qed.

Lemma wp_run_stage_safe stage (r : Run X) :
  at_status RUNNING r -> wp (_run_stage handlers ctx stage) (fun _ r' => safe r') r.
Proof.
  intros A. assert (Q : RUNNING <> QUEUED) by done. unfold _run_stage, update_progress. cbn zeta.
  do 7 (apply (wp_bind_stays j0 _ _ RUNNING); [solve_stays|exact Q|eassumption|clear dependent r; intros ? r A
                                              |intros; by eapply safe_at]).
  apply (wp_bind_stays j0 _ _ RUNNING); [apply stays_attempt|exact Q|exact A| |intros; by eapply safe_at].
  clear dependent r. intros result r A. destruct result as [o| |e|k].
  - eapply wp_stays_safe; [solve_stays|exact Q|exact A].
  - apply (wp_bind_stays j0 _ _ RUNNING); [solve_stays|exact Q|exact A| |intros; by eapply safe_at].
    intros finished r1 A1. apply (wp_bind_stays j0 _ _ RUNNING); [solve_stays|exact Q|exact A1| |intros; by eapply safe_at].
    intros _ r2 A2. eapply wp_cancellation_safe; [by left|exact A2].
  - apply (wp_bind_stays j0 _ _ RUNNING); [solve_stays|exact Q|exact A| |intros; by eapply safe_at].
    intros finished r1 A1. by apply wp_failure_safe.
  - by eapply safe_at.
Qed.

(** The loop may go on: the job runs, or its cancellation is already recorded. *)
Definition going (r : Run X) : Prop :=
  at_status RUNNING r \/ (at_status CANCELLED r /\ db_cancel r = true).

Lemma going_live (r : Run X) : going r -> exists s, live s /\ at_status s r.
Proof. intros [A|[A _]]; eexists; (split; [|exact A]); [by left|by right]. Qed.

Lemma going_safe (r : Run X) : going r -> safe r.
Proof. intros (s & L & A)%going_live. eapply safe_at; [exact A|by apply live_not_queued]. Qed.

(** After a stage that did not fail. *)
Lemma stage_going key n (r0 r : Run X) :
  at_status RUNNING r0 -> safe r ->
  stage_result (job (session r0)) (db_cancel r0) key n (Return tt) r ->
  going r \/ exists m, st_of (job (session r)) key = Some (STEP_FAILED, m).
Proof.
  intros A0 S (b & E & _ & _ & [[-> _]|[(_ & [_ St] & D & _)|(_ & (_ & _ & St) & _)]]).
  - right. by eexists.
  - left. right. split; [|done]. apply safe_status in S. by rewrite St in S.
  - left. left. apply safe_status in S. by rewrite St, (at_session _ _ _ A0) in S.
Qed.

Lemma wp_run_stages_safe stages : forall r : Run X, going r ->
  wp (run_stages handlers ctx stages)
    (fun o r' => safe r' /\ (o = Return true -> exists s, live s /\ at_status s r')) r.
Proof.
  induction stages as [|stage rest IH]; intros r G; cbn [run_stages].
  { apply wp_ret. split; [by apply going_safe|]. intros _. by apply going_live. }
  apply wp_bind, wp_get_step. destruct (step_of (job (session r)) (stage_key_of stage)) as [st|] eqn:Es; [|by apply IH].
  destruct (is_done (step_status st)); [by apply IH|].
  apply wp_bind. eapply wp_mono.
  { apply wp_both; [apply (wp_refresh (fun o r1 => match o with
      | Return _ => (db_cancel r = true -> db_cancel r1 = true)
                    /\ cancel_requested (job (session r1)) = db_cancel r1
                    /\ st_of (job (session r1)) (stage_key_of stage) = Some (step_status st, attempt st)
      | Raise _ => True end)); [|done]|].
    - intros b r1 Hb [= H1 _ H3]. rewrite H3. split_and!; [done|by rewrite H1|].
      rewrite H1. by apply st_of_step.
    - apply (fun P => P : wp refresh (fun _ r1 => forall s, s <> QUEUED -> at_status s r -> at_status s r1) r).
      intros s Hs A. by apply stays_refresh. }
  intros [[]|e] r1 [R A].
  2:{ split; [|done]. destruct (going_live r G) as (s & L & A0). eapply safe_at; [|by apply live_not_queued].
      apply A; [by apply live_not_queued|done]. }
  destruct R as (D1 & D2 & D3). apply wp_bind, wp_get_job. rewrite D2. destruct (db_cancel r1) eqn:D.
  - destruct (going_live r G) as (s & L & A0). apply wp_bind. eapply wp_mono.
    { apply (wp_cancellation_safe s); [done|]. apply A; [by apply live_not_queued|done]. }
    intros [[]|e] r2 S; [apply wp_ret|]; by split.
  - destruct G as [A0|[_ G]]; [|by specialize (D1 G)]. specialize (A RUNNING ltac:(done) A0).
    apply wp_bind. eapply wp_mono.
    { apply wp_both; [exact (wp_run_stage_safe stage r1 A)|].
      eapply (wp_run_stage handlers ctx stage); [exact D3|]. intros o r2 SR. exact SR. }
    intros [[]|e] r2 [S SR]; [|by split].
    apply wp_bind, wp_get_step. destruct (stage_going _ _ r1 r2 A S SR) as [G2|(m & F)].
    + destruct (step_of (job (session r2)) _) as [s'|]; [|by apply IH]. case_bool_decide; [by apply wp_ret|by apply IH].
    + unfold st_of in F. destruct (step_of (job (session r2)) _) as [s'|]; [|done]. injection F as F _.
      rewrite bool_decide_eq_true_2 by done. by apply wp_ret.
Qed.

Lemma wp_finalize_safe s (r : Run X) :
  live s -> at_status s r -> wp (_finalize_success ctx) (fun _ r' => safe r') r.
Proof.
  intros Hs A. unfold _finalize_success. apply wp_bind, wp_now, wp_bind.
  apply (wp_move s COMPLETED); [done|by destruct Hs as [-> | ->]|done|done|].
  intros r1 A1. eapply wp_stays_safe; [solve_stays| |exact A1]. done.
Qed.

(** Every commit of a run of the pipeline is a write the queue allows. *)
Lemma wp_execute_safe (r : Run X) : at_status RUNNING r -> wp (execute handlers ctx) (fun _ r' => safe r') r.
Proof.
  intros A. unfold execute. apply wp_bind. eapply wp_mono; [apply wp_run_stages_safe; by left|].
  intros [[|]|e] r1 [S L]; [|by apply wp_ret|done]. destruct (L eq_refl) as (s & Hs & A1).
  by apply (wp_finalize_safe s).
Qed.

End Pipeline.
