(* ===== verification/SampleWorld.v ===== *)
(** * A concrete world

    A small vCenter with one cluster and a guest that answers the scripts of
    the stages, as an instance of [World].  The witnesses and the concrete
    runs of the development use it. *)

From Stdlib Require Import ZArith Lia Ascii String List Bool.
From stdpp Require Import base tactics list strings gmap.
From S2P Require Import Prelude PyStr Json Errors Schemas StateMachine Jobs AuditTrail Repository Scripts Effects.
From S2P Require Import World GuestScripts.

Local Open Scope string_scope.
Local Open Scope Z_scope.

(** Clock, power, restarts, addresses, computer name and pending new name of the
    guest, the last uploaded script, the files in the guest, and the VMs by name. *)
Record Sample := MkSample {
  clock : Z;
  powered : bool;
  boots : Z;
  guest_ips : list string;
  guest_name : string;
  renamed : option string;
  script : string;
  guest_files : list string;
  media : list string;
  inventory : list VmOwnership;
}.

#[export] Instance eta_sample : Eta Sample := fun s =>
  MkSample (clock s) (powered s) (boots s) (guest_ips s) (guest_name s) (renamed s) (script s) (guest_files s) (media s)
    (inventory s).

Definition START : Sample := MkSample 0 false 0 [] "WIN-SETUP" None "" [] [] [].

Definition answer {A} (a : A) : Op Sample A := fun x => (Ok a, x).
Definition update (f : Sample -> Sample) : Op Sample unit := fun x => (Ok tt, f x).

Definition sample_info (x : Sample) : PowerStateInfo :=
  MkInfo (if powered x then "poweredOn" else "poweredOff") (if powered x then Some "toolsOk" else None)
    (if powered x then Some "guestToolsRunning" else None) (if powered x then Some "guestToolsCurrent" else None)
    (powered x) (Some "windowsGuest") (guest_ips x) (Some (guest_name x)) (Some 500) (Some 4000).

(** The first sectors of an ISO image labelled as Windows Server media. *)
Definition SERVER_HEADER : list ascii :=
  (List.repeat "000"%char 32768 ++ "001"%char :: chars "CD001" ++ List.repeat "000"%char 34
   ++ chars "SSS_X64FRE_EN-US_DV9" ++ List.repeat " "%char 12)%list.

#[export] Instance sample_vmware : VMwareService Sample := {
  test_connection _ := answer (MkConn true (Some 12) "");
  get_datacenters _ := answer [MkDatacenter "dc-1" "DC"];
  get_clusters _ _ := answer [MkCluster "cl-1" "Cluster" true 1];
  get_hosts _ _ := answer [MkHost "h-1" "esx1" "connected" false true];
  get_resource_pools _ _ := answer [MkPool "rp-1" "Pool"];
  get_datastores _ _ := answer [MkDatastore "ds-1" "datastore1" 50000 true];
  get_datastore_clusters _ _ := answer [];
  get_networks _ _ := answer [MkNetwork "net-1" "VLAN 10" "DVPG"];
  get_isos _ _ := answer [MkIso "iso-1" "server.iso" "ds-1" "[datastore1] iso/server.iso" "datastore1"];
  get_vm_info _ _ := fun x => (Ok (match inventory x with [] => None | _ => Some (sample_info x) end), x);
  get_vm_info_by_id _ _ := fun x => (Ok (Some (sample_info x)), x);
  get_used_ips _ := answer [];
  vm_exists _ name := fun x => (Ok (existsb (fun o => String.eqb (owner_vm_name o) name) (inventory x)), x);
  check_host_https _ names := answer (List.map (fun n => (n, None)) names);
  read_datastore_file _ _ _ _ := answer SERVER_HEADER;
  find_vm_ownership _ name := fun x =>
    (Ok (find_first (fun o => String.eqb (owner_vm_name o) name) (inventory x)), x);
  create_vm _ spec := fun x =>
    (Ok (MkVmRef "vm-1" (cs_vm_name spec)),
     x <| inventory := MkOwnership "vm-1" (cs_vm_name spec) (cs_job_id spec) :: inventory x |>);
  configure_hardware _ _ _ _ := answer tt;
  attach_network _ _ _ _ _ := answer tt;
  attach_answer_media _ _ _ _ name _ := fun x =>
    (Ok ("[datastore1] infraops/" ++ name), x <| media := ("[datastore1] infraops/" ++ name) :: media x |>);
  remove_answer_media _ _ _ path :=
    update (fun x => x <| media := List.filter (fun m => negb (String.eqb m path)) (media x) |>);
  power_on _ _ := update (fun x => x <| powered := true |>);
  reset _ _ := answer tt;
  send_keystrokes _ _ keys := answer (Z.of_nat (List.length keys));
  detach_installation_media _ _ := answer ["Windows"; "VMware Tools"];
  add_data_disks _ _ l := answer (Z.of_nat (List.length l));
  capture_screenshot _ _ := answer "[datastore1] shot.png";
}.

(** What the guest prints for a script. *)
Definition reply (x : Sample) : string :=
  let s := script x in
  if contains s "LastBootUpTime" then str_int (boots x) ++ NL
  else if contains s "InstallationType" then "Server" ++ NL
  else if contains s "COMPUTERNAME" then guest_name x ++ NL
  else if contains s "Initialize-Disk" then
    "[{" ++ DQ ++ "Number" ++ DQ ++ ":1," ++ DQ ++ "SizeGB" ++ DQ ++ ":100," ++ DQ ++ "DriveLetter" ++ DQ ++ ":" ++ DQ
    ++ "D" ++ DQ ++ "," ++ DQ ++ "FileSystem" ++ DQ ++ ":" ++ DQ ++ "NTFS" ++ DQ ++ "}]"
  else "OK".

Definition effect (x : Sample) : Sample :=
  if contains (script x) "New-NetIPAddress" then x <| guest_ips := ["10.0.0.20"] |>
  else if contains (script x) "Rename-Computer" then x <| renamed := Some "SRV-APP-01" |> else x.

(** A restart applies a pending name. *)
Definition restart (x : Sample) : Sample :=
  let y := x <| boots := boots x + 1 |> in
  match renamed x with Some n => (y <| guest_name := n |>) <| renamed := None |> | None => y end.

#[export] Instance sample_guest : GuestOperations Sample := {
  run_program _ _ _ program _ _ := fun x =>
    if String.eqb program SHUTDOWN_PATH then (Ok (MkResult 0 "" ""), restart x)
    else (Ok (MkResult 0 (reply x) ""), effect x);
  upload_file _ _ _ content path := update (fun x => x <| script := content |> <| guest_files := path :: guest_files x |>);
  download_file _ _ _ _ := answer "";
  delete_file _ _ _ path :=
    update (fun x => x <| guest_files := List.filter (fun f => negb (String.eqb f path)) (guest_files x) |>);
  file_exists _ _ _ path := fun x => (Ok (existsb (String.eqb path) (guest_files x)), x);
  own_run_powershell := None;
}.

#[export] Instance sample_secrets : SecretsProvider Sample := {
  get_secret ref := answer (if endswith ref "/username" then "Administrator" else "Pa55&word");
  secrets_provider_name := "database";
}.

#[export] Instance sample_platform : Platform Sample := {
  utcnow := clock;
  today _ := 0;
  date_str _ := "2026-01-01";
  loop_time := clock;
  sleep n := update (fun x => x <| clock := clock x + n |>);
  token_urlsafe _ := answer "token";
  uuid4_hex := answer "0123456789abcdef";
  isoformat n := str_int n;
  format_exc _ := "Traceback";
  repr_json _ := "repr";
  re_fullmatch _ _ := Some true;
}.

#[export] Instance sample_network : Network Sample := {
  ping_installed := answer true;
  ping _ := answer (1, "Request timed out");
  gethostbyaddr _ := answer None;
}.

#[export] Instance sample_tables : Tables Sample := {
  setting_rows := answer [];
  certificate_rows := answer [];
  application_rows := answer [];
  active_duplicates _ _ := answer false;
  package_rows := answer [];
  vcenter_connection _ := answer (Some (MkConnection "vc-1" "vCenter" "vcenter.example" true 443 "vc/username" "vc/password" true));
}.

#[export] Instance sample_world : World Sample := {}.

(** ** A request and its job *)

Definition SAMPLE_REQUEST : ProvisioningRequest :=
  MkRequest V2 (MkVmSpec "srv-app-01" "Application server") (MkComputeSpec "vc-1" "dc-1" "cl-1" None None)
    (MkHardwareSpec 4 8192 EFI true [MkDiskSpec 60 THIN None; MkDiskSpec 100 THIN None])
    (MkGuestSpec "iso-1" None None "en-US" "0409:00000409" 2 "infra/guest-admin" None None)
    (MkNetworkSpec "net-1" VMXNET3 STATIC (Some (MkIpv4 "10.0.0.20" 24 "10.0.0.1" ["10.0.0.53"]))) [] [].

Definition SAMPLE_CTX : Ctx := MkCtx SAMPLE_REQUEST (MkTarget "vc-1" "vCenter" "vcenter.example" 443 "vc/username" "vc/password" true) (Some "alice").

Definition QUEUED_JOB : Job :=
  MkJob "job-1" RUNNING "srv-app-01" (Some "dc-1") None (Some "user-1") None 0 INFRA_PENDING OS_UNKNOWN TOOLS_UNKNOWN
    GUEST_PENDING None None false 0 (Some 0) None None None None None (Some "worker-1") (Some 0) 0 [].

Definition SAMPLE_JOB : Job := ensure_steps stage_definitions QUEUED_JOB.

Definition sample_run (interrupts_ : list (option Interrupt)) (arrivals : list bool) (w : Sample) (j : Job) : Run Sample :=
  MkRun (MkSession j [] []) (MkSession j [] []) None false false false arrivals interrupts_ None [] [] [] w.
