(* ===== verification/VCenterSim.v ===== *)
(** * A simulated vCenter

    An instance of [VCenterApi] that satisfies [VCenterLaws]: tasks take effect
    at once, unless the next outcome is a failure.  The witnesses of
    [VSphereFacts.v] run on it. *)

From Stdlib Require Import ZArith Lia Ascii String List Bool.
From stdpp Require Import base tactics infinite strings gmap list.
From S2P Require Import Prelude PyStr Errors Schemas Jobs AuditTrail Effects World InventoryRefs VCenter VSphere.
From S2P Require Import Scripts VMwareTools VMwareToolsFacts Utf8 StageSupport StagesVm VSphereFacts SampleWorld.

Local Open Scope string_scope.
Local Open Scope Z_scope.

(** The inventory, the clock, the adapter's sessions, the result of the last
    task, and which of the coming reconfigurations fail; the processes of the
    guests with the polls each still runs for, the last process identifier, the
    files transferred, and, when programs hang and cannot be terminated, the
    terminations that were refused. *)
Record Sim := MkSim {
  sim_inventory : Inventory;
  sim_clock : Z;
  sim_sessions : SessionCache;
  sim_result : option string;
  sim_failed : bool;
  sim_faults : list bool;
  sim_processes : list (string * Z * nat);
  sim_pid : Z;
  sim_files : gmap string string;
  sim_hung : option (list (string * Z));
}.

#[export] Instance eta_sim : Eta Sim := fun s =>
  MkSim (sim_inventory s) (sim_clock s) (sim_sessions s) (sim_result s) (sim_failed s) (sim_faults s)
    (sim_processes s) (sim_pid s) (sim_files s) (sim_hung s).

(** A key above all others. *)
Definition sim_key (devices : list Device) : Z := 1 + fold_right (fun d k => Z.max (device_key d) k) 2000 devices.

Lemma sim_key_above devices d : In d devices -> device_key d < sim_key devices.
Proof.
  unfold sim_key. induction devices as [|x l IH]; cbn; [done|]. intros [->|I]; [lia|]. specialize (IH I). lia.
Qed.

Lemma sim_key_fresh devices : ~ In (sim_key devices) (List.map device_key devices).
Proof. intros I. apply in_map_iff in I as (d & E & I). apply sim_key_above in I. lia. Qed.

Definition no_guest : GuestInfo := MkGuestInfo [] None None None None false None None.

Definition new_vm (id : string) (c : ConfigSpec) : VirtualMachine :=
  MkVirtualMachine id (c_name c) [] (c_extra c) (Some (c_annotation c)) (c_cpu c) (c_memory c)
    (omap (fun x => match x with AddDevice d => Some d | _ => None end) (c_changes c))
    (MkBoot None None None None) [] "poweredOff" no_guest None None.

Definition fresh_moid (inv : Inventory) : string := fresh (list_to_set (List.map v_moid (vms inv)) : gset string).

Definition done_with (result : option string) (s : Sim) : Sim := s <| sim_result := result |> <| sim_failed := false |>.
Definition started (f : Sim -> Sim) : Op Sim Task := fun s => (Ok "task", f s).

#[export] Instance sim_api : VCenterApi Sim := {
  VCenter.inventory := sim_inventory;
  monotonic_us := sim_clock;
  time_sleep n := fun s => (Ok tt, s <| sim_clock := sim_clock s + n |>);
  cancel_event := oret false;
  connection_fault n := String.eqb n "ConnectionError" || String.eqb n "OSError";
  sessions := sim_sessions;
  put_sessions c s := s <| sim_sessions := c |>;
  credential_fingerprint user password := user ++ password;
  SmartConnect _ _ _ := oret (Some "session");
  disconnect _ s := s;
  CreateVM_Task _ config _ _ := started (fun s =>
    if forallb (fun c => match c with AddDevice _ => true | _ => false end) (c_changes config) then
      let id := fresh_moid (sim_inventory s) in
      done_with (Some id) (s <| sim_inventory := add_vm (new_vm id config) (sim_inventory s) |>)
    else s <| sim_failed := true |>);
  ReconfigVM_Task id spec := started (fun s =>
    match sim_faults s with
    | true :: rest => s <| sim_faults := rest |> <| sim_failed := true |>
    | _ => done_with None (s <| sim_faults := tl (sim_faults s) |>
                             <| sim_inventory := update_vm id (reconfigured sim_key spec) (sim_inventory s) |>)
    end);
  PowerOnVM_Task _ := started (done_with None);
  ResetVM_Task _ := started (done_with None);
  CreateScreenshot_Task _ := started (done_with (Some "[ds1] shot.png"));
  DeleteDatastoreFile_Task _ _ := started (done_with None);
  SearchDatastoreSubFolders_Task _ := started (done_with None);
  task_info _ := fun s => (Ok (if sim_failed s then TaskError None else TaskSuccess (sim_result s)), s);
  search_result _ := oret [];
  CancelTask _ := oret tt;
  vm_question _ := oret None;
  AnswerVM _ _ _ := oret tt;
  PutUsbScanCodes _ l := oret (Z.of_nat (List.length l));
  MakeDirectory _ _ := oret tt;
  open_tls _ _ := oret None;
  http_put _ _ := oret 201;
  http_get _ _ := oret (200, []);
}.

#[export] Instance sim_secrets : SecretsProvider Sim := {
  get_secret ref := oret ref;
  secrets_provider_name := "database";
}.

Lemma sim_wait n s : wait_polls (S n) "task" s
  = (if sim_failed s then Err (OtherFault "RuntimeError" "Task failed without an error object.") else Ok (sim_result s), s).
Proof. cbn [wait_polls]. unfold obind. cbn [task_info sim_api]. by destruct (sim_failed s). Qed.

Lemma sim_task f s : run_task (started f) s
  = (if sim_failed (f s) then Err (OtherFault "RuntimeError" "Task failed without an error object.") else Ok (sim_result (f s)), f s).
Proof.
  unfold run_task, _wait_for_task. replace TASK_POLLS with (S (pred TASK_POLLS)) by reflexivity. apply sim_wait.
Qed.

Lemma fresh_not_found inv : find_vm inv (fresh_moid inv) = None.
Proof.
  unfold find_vm, find_first. destruct (List.find _ _) as [m|] eqn:E; [|done]. apply find_some in E as [I E%String.eqb_eq].
  destruct (is_fresh (list_to_set (List.map v_moid (vms inv)) : gset string)). apply elem_of_list_to_set, list_elem_of_In.
  fold (fresh_moid inv). rewrite <- E. by apply in_map.
Qed.

Lemma configured_devices changes d :
  In (AddDevice d) changes ->
  In (shape d) (List.map shape (omap (fun x => match x with AddDevice d => Some d | _ => None end) changes)).
Proof. induction changes as [|[e|e|e] l IH]; cbn; [done|intros [[= ->]|I]; auto|intros [|I]; [done|auto]..]. Qed.

Lemma sim_create dc config pool host s :
  let '(o, s') := run_task (CreateVM_Task dc config pool host) s in
  match o with
  | Ok (Some id) => exists m, v_moid m = id /\ as_configured (sim_inventory s) config m
                              /\ sim_inventory s' = add_vm m (sim_inventory s)
  | _ => sim_inventory s' = sim_inventory s
         \/ exists m, as_configured (sim_inventory s) config m /\ sim_inventory s' = add_vm m (sim_inventory s)
  end.
Proof.
  cbn [CreateVM_Task sim_api]. rewrite sim_task. destruct (forallb _ (c_changes config)) eqn:Adds; cbn; [|by left].
  exists (new_vm (fresh_moid (sim_inventory s)) config). split; [reflexivity|]. split; [|reflexivity].
  split_and!; [apply fresh_not_found|done..|exact (configured_devices (c_changes config))].
Qed.

Lemma sim_reconfigure id spec s :
  let '(o, s') := run_task (ReconfigVM_Task id spec) s in
  match o with
  | Ok _ => reconfigures id spec (sim_inventory s) (sim_inventory s')
  | Err _ => sim_inventory s' = sim_inventory s \/ reconfigures id spec (sim_inventory s) (sim_inventory s')
  end.
Proof.
  cbn [ReconfigVM_Task sim_api]. rewrite sim_task.
  destruct (sim_faults s) as [|[] l]; cbn; [exists sim_key|auto|exists sim_key]; (split; [exact sim_key_fresh|done]).
Qed.

#[export] Instance sim_laws : VCenterLaws Sim := {|
  create_task := sim_create;
  reconfig_task := sim_reconfigure;
  connect_keeps _ _ _ _ := eq_refl;
  secret_keeps _ _ := eq_refl;
  disconnect_keeps _ _ := eq_refl;
  sessions_keep _ _ := eq_refl;
|}.

(** ** A site with one cluster *)

#[export] Instance sim_platform : Platform Sim := {
  utcnow := sim_clock;
  today _ := 0;
  date_str _ := "2026-01-01";
  loop_time := sim_clock;
  sleep n := fun s => (Ok tt, s <| sim_clock := sim_clock s + n |>);
  token_urlsafe _ := oret "token";
  uuid4_hex := oret "0123456789abcdef";
  isoformat n := str_int n;
  format_exc _ := "Traceback";
  repr_json _ := "repr";
  re_fullmatch _ _ := Some true;
}.

(** A program runs for one poll and leaves no output, unless it hangs. *)
Definition process_of (vm : string) (pid : Z) (p : string * Z * nat) : bool := String.eqb (fst (fst p)) vm && (snd (fst p) =? pid).

Definition without_process (vm : string) (pid : Z) (s : Sim) : Sim :=
  s <| sim_processes := List.filter (fun p => negb (process_of vm pid p)) (sim_processes s) |>.

Definition transfer_url (path : string) : string := "https://*/guestFile?id=" ++ path.

#[export] Instance sim_guest_api : GuestApi Sim := {
  fault_class n := if String.eqb n "vim.fault.FileNotFound" then FileNotFound None else NoMethodFault;
  bracketed_host _ := false;
  InitiateFileTransferToGuest _ _ path _ := oret (transfer_url path);
  InitiateFileTransferFromGuest _ _ path := oret (transfer_url path);
  DeleteFileInGuest _ _ path := fun s => (Ok tt, s <| sim_files := delete ("https://vcenter.example/guestFile?id=" ++ path) (sim_files s) |>);
  ListFilesInGuest _ _ _ _ := oret false;
  StartProgramInGuest vm _ _ _ := fun s =>
    (Ok (sim_pid s + 1), s <| sim_pid := sim_pid s + 1 |> <| sim_processes := (vm, sim_pid s + 1, match sim_hung s with None => 1%nat | Some _ => 10000%nat end) :: sim_processes s |>
                            <| sim_hung := option_map (List.filter (fun p => negb (String.eqb (fst p) vm && (snd p =? sim_pid s + 1)))) (sim_hung s) |>);
  ListProcessesInGuest vm _ pid := fun s =>
    match find_first (process_of vm pid) (sim_processes s) with
    | None => (Ok None, s)
    | Some (_, _, O) => (Ok (Some (MkProcess true (Some 0))), without_process vm pid s)
    | Some (_, _, S n) =>
        (Ok (Some (MkProcess false None)), (without_process vm pid s) <| sim_processes :=
           (vm, pid, n) :: sim_processes (without_process vm pid s) |>)
    end;
  TerminateProcessInGuest vm _ pid := fun s =>
    match sim_hung s with
    | None => (Ok tt, without_process vm pid s)
    | Some l => (Err (OtherFault "vim.fault.GuestOperationsUnavailable" ""), s <| sim_hung := Some ((vm, pid) :: l) |>)
    end;
  http_request _ method url content := fun s =>
    match content with
    | Some c => (Ok (Answered 200 ""), s <| sim_files := <[url := c]> (sim_files s) |>)
    | None => (Ok (match sim_files s !! url with Some c => Answered 200 c | None => Answered 200 "done" end), s)
    end;
}.

#[export] Instance sim_guest : GuestOperations Sim := vmware_tools.

#[export] Instance sim_network : World.Network Sim := {
  ping_installed := oret true;
  ping _ := oret (1, "Request timed out");
  gethostbyaddr _ := oret None;
}.

#[export] Instance sim_tables : Tables Sim := {
  setting_rows := oret [];
  certificate_rows := oret [];
  application_rows := oret [];
  active_duplicates _ _ := oret false;
  package_rows := oret [];
  vcenter_connection _ := oret None;
}.

Definition SIM_DATASTORE : Datastore := MkDsObject "ds-1" "ds1" true (5000 * GIB).
Definition SIM_SITE : Datacenter :=
  MkDatacenterEntity "dc-1" "DC" []
    [MkCompute "cl-1" "Cluster" [MkHostSystem "h-1" "esx1" "connected" false [SIM_DATASTORE]]
       (MkResourcePool "rp-1" "Resources" []) true]
    [SIM_DATASTORE] [MkNetworkEntity "net-1" "VLAN 10" (Some ("switch", "port-1"))].

(** A machine of somebody else. *)
Definition OTHER_VM : VirtualMachine :=
  MkVirtualMachine "vm-9" "legacy" [] [] None 2 2048 [] (MkBoot None None None None) [SIM_DATASTORE] "poweredOn" no_guest None None.

Definition SIM_CTX : Ctx :=
  MkCtx (MkRequest V2 (MkVmSpec "srv-app-01" "Application server") (MkComputeSpec "vc-1" "dc-1" "cl-1" None None)
      (MkHardwareSpec 4 8192 EFI true [MkDiskSpec 60 THIN None; MkDiskSpec 100 THIN None])
      (MkGuestSpec (encode_iso_id "ds-1" "[ds1] iso/server.iso") None None "en-US" "0409:00000409" 2 "infra/guest-admin" None None)
      (MkNetworkSpec "net-1" VMXNET3 STATIC (Some (MkIpv4 "10.0.0.20" 24 "10.0.0.1" ["10.0.0.53"]))) [] [])
    (MkTarget "vc-1" "vCenter" "vcenter.example" 443 "vc/username" "vc/password" true) (Some "alice").

Definition sim_start (faults : list bool) : Run Sim :=
  MkRun (MkSession SAMPLE_JOB [] []) (MkSession SAMPLE_JOB [] []) None false false false [] [] None [] [] []
    (MkSim (MkInventory [SIM_SITE] [] [OTHER_VM]) 0 ∅ None false faults [] 0 ∅ None).

Notation create_stage := (@stage_create_vm Sim on_vsphere SIM_CTX).
Notation machines r := (vms (VCenter.inventory (world r))).

Lemma stage_create_vm_owns_witness :
  let r := snd (create_stage (sim_start [])) in
  is_return (fst (create_stage (sim_start []))) = true
  /\ exists m, In m (machines r) /\ option_map ref_id (vm_ref r) = Some (v_moid m) /\ _vm_owner_job_id m = Some "job-1"
               /\ lower (v_name m) = "srv-app-01".
Proof.
  assert (is_return (fst (create_stage (sim_start []))) = true) as R by (vm_compute; reflexivity).
  split; [exact R|].
  refine (proj2 (stage_create_vm_owns (fun _ => eq_refl) SIM_CTX (sim_start []) _) R). discriminate.
Defined.

(** The machine whose system disk and controller the stage made. *)
Definition installed : VirtualMachine :=
  OTHER_VM <| v_devices := [VirtualLsiLogicSASController 1000; VirtualDisk 2001 1000 (Some 0) 62914560 true] |>.
Definition with_machine : Sim := MkSim (MkInventory [SIM_SITE] [] [installed]) 0 ∅ None false [] [] 0 ∅ None.

Lemma add_data_disks_once_witness :
  let '(o, s) := add_data_disks (target SIM_CTX) "vm-9" [MkDiskSpec 100 THIN None; MkDiskSpec 200 THICK None] with_machine in
  o = Ok 2 /\ exists m, find_vm (VCenter.inventory s) "vm-9" = Some m
     /\ disks_added [MkDiskSpec 100 THIN None; MkDiskSpec 200 THICK None] installed m.
Proof.
  pose proof (add_data_disks_once (target SIM_CTX) "vm-9" [MkDiskSpec 100 THIN None; MkDiskSpec 200 THICK None] with_machine
                installed eq_refl) as H.
  destruct (add_data_disks _ _ _ with_machine) as [o s] eqn:E.
  assert (o = Ok 2) as -> by (apply (f_equal fst) in E; vm_compute in E; by symmetry).
  split; [reflexivity|]. destruct H as [_ [_ H]]; [vm_compute; lia|exact H].
Defined.

(** ** A creation resumed *)

(** The creation succeeded but setting its boot order failed; the retry finds
    the machine with its own marker and skips the stage, so that the boot
    order is never set. *)
Theorem resumed_creation_keeps_boot_order :
  let '(first, r1) := create_stage (sim_start [true]) in
  let '(second, r2) := create_stage r1 in
  is_return first = false /\ is_return second = true
  /\ List.map (fun m => (_vm_owner_job_id m, bootOrder (v_boot m))) (machines r2)
     = [(None, None); (Some "job-1", None)].
Proof. vm_compute. by split_and!. Qed.

(** ** Processes of the simulated guests *)

#[export] Instance sim_processes_alive : GuestProcesses Sim := {
  alive s vm pid := exists n, (vm, pid, n) ∈ sim_processes s;
  refused s vm pid := exists l, sim_hung s = Some l /\ In (vm, pid) l;
}.

Lemma without_process_alive vm pid s m q : alive (without_process vm pid s) m q <-> alive s m q /\ (m, q) <> (vm, pid).
Proof.
  unfold alive, sim_processes_alive. cbn. setoid_rewrite list_elem_of_In. setoid_rewrite filter_In.
  unfold process_of. cbn. setoid_rewrite negb_true_iff. setoid_rewrite andb_false_iff.
  setoid_rewrite String.eqb_neq. setoid_rewrite Z.eqb_neq. split.
  - intros (n & I & D). split; [by exists n|]. intros [= -> ->]. by destruct D.
  - intros [[n I] D]. exists n. split; [done|]. destruct (decide (m = vm)) as [->|]; [right; congruence|by left].
Qed.

Lemma found_process vm pid (s : Sim) p :
  find_first (process_of vm pid) (sim_processes s) = Some p -> p ∈ sim_processes s /\ fst p = (vm, pid).
Proof.
  intros [I E]%find_first_some. split; [by apply list_elem_of_In|]. unfold process_of in E. bools.
  destruct p as [[v q] n]. cbn in *. apply String.eqb_eq in H. by subst.
Qed.

Lemma sim_start_process vm c program arguments s :
  let '(o, s') := StartProgramInGuest vm c program arguments s in
  (forall m q, alive s' m q -> alive s m q \/ (m = vm /\ o = Ok q)) /\ (forall q, o = Ok q -> ~ refused s' vm q).
Proof.
  cbn. split.
  - intros m q [n [[= -> -> ->]|I]%elem_of_cons]; [by right|]. left. by exists n.
  - intros q [= <-] (l & E & I). destruct (sim_hung s); [|done]. injection E as <-. apply filter_In in I as [_ I].
    cbn in I. by rewrite String.eqb_refl, Z.eqb_refl in I.
Qed.

Lemma sim_list_process vm c pid s :
  let '(o, s') := ListProcessesInGuest vm c pid s in
  fewer s s' /\ match o with
                | Ok None => ~ alive s' vm pid
                | Ok (Some p) => process_ended p = true -> ~ alive s' vm pid
                | Err f => is_infra f = false /\ is_cancelled f = false
                end.
Proof.
  cbn [ListProcessesInGuest sim_guest_api]. destruct (find_first _ _) as [[[v q] n]|] eqn:E.
  - apply found_process in E as [I [= -> ->]]. destruct n as [|n].
    + split; [split; [by intros m r [A _]%without_process_alive|done]|]. intros _ A. by apply without_process_alive in A as [_ ?].
    + split; [|done]. split; [|done]. intros m r [k [[= -> -> ->]|A]%elem_of_cons]; [by eexists|].
      eapply (without_process_alive vm pid). by exists k.
  - split; [split; [by intros m q|done]|]. intros [n I%list_elem_of_In].
    pose proof (find_none _ _ E _ I) as N. unfold process_of in N. cbn in N. by rewrite String.eqb_refl, Z.eqb_refl in N.
Qed.

Lemma sim_terminate_process vm c pid s :
  let '(o, s') := TerminateProcessInGuest vm c pid s in
  shrinks s s' /\ (is_ok o = true -> ~ alive s' vm pid)
  /\ forall m q, refused s' m q <-> refused s m q \/ (is_ok o = false /\ m = vm /\ q = pid).
Proof.
  cbn. destruct (sim_hung s) as [l|] eqn:E; cbn.
  - split_and!; [by intros m q|done|]. intros m q. split.
    + intros (l' & [= <-] & [[= -> ->]|I]); [by right|left; by exists l].
    + intros [(l' & [= <-] & I)|(_ & -> & ->)]; eexists; (split; [done|]); [by right|by left].
  - split_and!; [by intros m q [A _]%without_process_alive|intros _ A; by apply without_process_alive in A as [_ ?]|].
    intros m q. rewrite E. split; [by left|by intros [|[? _]]].
Qed.

#[export] Instance sim_process_laws : GuestProcessLaws Sim.
Proof.
  split; [exact sim_start_process|exact sim_list_process|exact sim_terminate_process|done|..];
    intros; try intros ?; try by (split; [by intros ?|done]).
  all: cbn; split; [intros ?|]; by destruct content.
Qed.

#[export] Instance sim_sleep_laws : SleepLaws (V := Sim).
Proof.
  split; [cbn; lia|]. intros vm c pid v. cbn. destruct (find_first _ _) as [[[? ?] []]|]; cbn; lia.
Qed.

Definition SIM_ADMIN : GuestCredentials := MkCredentials "Administrator" "secret".

Lemma tools_runner_ends_witness :
  let '(o, s) := World.run_program (GuestOperations := vmware_tools) (target SIM_CTX) "legacy" SIM_ADMIN HOSTNAME_PATH "" 60 with_machine in
  o = Ok (MkResult 0 "done" "") /\ sim_processes s = [] /\ shrinks with_machine s.
Proof.
  pose proof (tools_runner_ends (target SIM_CTX) "legacy" SIM_ADMIN HOSTNAME_PATH "" 60 with_machine ltac:(lia)) as T.
  destruct (World.run_program _ _ _ _ _ _ with_machine) as [o s] eqn:E.
  assert (o = Ok (MkResult 0 "done" "") /\ sim_processes s = []) as [-> P].
  { split; [apply (f_equal fst) in E; vm_compute in E; by symmetry|apply (f_equal (fun x => sim_processes (snd x))) in E].
    vm_compute in E. by symmetry. }
  split; [reflexivity|]. split; [exact P|exact (proj1 T)].
Defined.

(** A program that hangs and cannot be terminated: the adapter reports the
    time limit, and the refusal is on record. *)
Lemma hung_program_reported :
  let '(o, s) := World.run_program (GuestOperations := vmware_tools) (target SIM_CTX) "legacy" SIM_ADMIN HOSTNAME_PATH "" 60
                   (with_machine <| sim_hung := Some [] |>) in
  match o with Ok _ => False | Err f => is_infra f = true end /\ List.map fst (sim_processes s) = [("vm-9", 1)]
  /\ sim_hung s = Some [("vm-9", 1)].
Proof. vm_compute. by split_and!. Qed.

(** ** Processes left running *)

(** A poll that fails ends the operation with the bare exception of the poll:
    the program runs on. *)
Lemma failed_poll_leaves_process :
  let api := {|
    fault_class := fault_class; bracketed_host := bracketed_host;
    InitiateFileTransferToGuest := InitiateFileTransferToGuest; InitiateFileTransferFromGuest := InitiateFileTransferFromGuest;
    DeleteFileInGuest := DeleteFileInGuest; ListFilesInGuest := ListFilesInGuest; StartProgramInGuest := StartProgramInGuest;
    ListProcessesInGuest _ _ _ := othrow (OtherFault "ConnectionError" "reset");
    TerminateProcessInGuest := TerminateProcessInGuest; http_request := http_request |} : GuestApi Sim in
  let '(o, s) := World.run_program (GuestOperations := vmware_tools (H2 := api)) (target SIM_CTX) "legacy" SIM_ADMIN
                   HOSTNAME_PATH "" 60 with_machine in
  o = Err (OtherFault "ConnectionError" "reset") /\ sim_processes s = [("vm-9", 1, 1%nat)].
Proof. vm_compute. by split. Qed.

(** A cancellation while the start is under way loses the identifier of the
    process, and nothing terminates it. *)
Lemma interrupted_start_leaves_process :
  let interrupted : Op Sim bool := fun s => (Ok (match sim_processes s with [] => false | _ => true end), s) in
  let '(o, s) := run_program interrupted (target SIM_CTX) "legacy" SIM_ADMIN HOSTNAME_PATH "" 60 with_machine in
  o = Err CancelledError /\ sim_processes s = [("vm-9", 1, 1%nat)].
Proof. vm_compute. by split. Qed.
