(* ===== verification/RequestBody.v ===== *)
(** * Request bodies and stored requests

    The JSON form of a provisioning request ([app/schemas/provisioning.py]):
    the reading of a document into the schema ([ProvisioningRequest.model_validate]),
    the document a request is stored as ([model_dump(mode="json")]), and the
    reader of stored rows ([parse_stored_request]).

    The conversions of pydantic for numbers, booleans and UUIDs are the
    class [Pydantic]; [PydanticLaws] states the documented behaviour that is
    used.  PostgreSQL does not keep the order of the keys of a JSONB document:
    [canon] is the document with its keys in order. *)

From Stdlib Require Import ZArith Lia Ascii String List Bool.
From stdpp Require Import base tactics list strings gmap.
From S2P Require Import Prelude PyStr Network Schemas AuditTrail World.

Local Open Scope string_scope.
Local Open Scope Z_scope.

(** ** What is used of pydantic *)

Class Pydantic := {
  to_int : json -> option Z;
  to_bool : json -> option bool;
  to_uuid4 : string -> option string;
}.

(** A number is an integer field, a boolean a boolean one, an array or object is
    neither; a UUID is printed in a form that reads as itself. *)
Class PydanticLaws `{Pydantic} : Prop := {
  to_int_num n : to_int (JNum n) = Some n;
  to_bool_bool b : to_bool (JBool b) = Some b;
  to_int_arr l : to_int (JArr l) = None;
  to_int_obj l : to_int (JObj l) = None;
  to_bool_arr l : to_bool (JArr l) = None;
  to_bool_obj l : to_bool (JObj l) = None;
  to_uuid4_idem s u : to_uuid4 s = Some u -> to_uuid4 u = Some u;
}.

(** ** Documents *)

(** A list whose elements are all readable. *)
Fixpoint all_some {A} (l : list (option A)) : option (list A) :=
  match l with
  | [] => Some []
  | None :: _ => None
  | Some a :: r => match all_some r with Some s => Some (a :: s) | None => None end
  end.

Definition as_str (v : json) : option string := match v with JStr s => Some s | _ => None end.
Definition as_list {A} (rd : json -> option A) (v : json) : option (list A) :=
  match v with JArr l => all_some (List.map rd l) | _ => None end.
Definition nullable {A} (rd : json -> option A) (v : json) : option (option A) :=
  match v with JNull => Some None | v => match rd v with Some a => Some (Some a) | None => None end end.

(** A required field, and one with a default. *)
Definition field {A} (k : string) (rd : json -> option A) (l : list (string * json)) : option A :=
  match assoc k l with Some v => rd v | None => None end.
Definition field_or {A} (k : string) (rd : json -> option A) (d : A) (l : list (string * json)) : option A :=
  match assoc k l with Some v => rd v | None => Some d end.

(** [extra="forbid"]. *)
Definition only_keys (ks : list string) (l : list (string * json)) : bool :=
  forallb (fun e => bool_decide (fst e ∈ ks)) l.

Definition opt_bind {A B} (m : option A) (k : A -> option B) : option B := match m with Some a => k a | None => None end.

Notation "'let!?' x ':=' m 'in' k" := (opt_bind m (fun x => k))
  (at level 200, x name, m at level 100, k at level 200) : infra_scope.

Definition object {A} (ks : list string) (rd : list (string * json) -> option A) (v : json) : option A :=
  match v with JObj l => if only_keys ks l then rd l else None | _ => None end.

(** A member of an enumeration, by its value. *)
Definition member {A} (value : A -> string) (all : list A) (v : json) : option A :=
  match v with JStr s => find_first (fun a => String.eqb (value a) s) all | _ => None end.

Definition res_ok {E A} (r : res E A) : option A := match r with Ok a => Some a | Err _ => None end.

Section Body.
Context `{Pydantic}.

Definition as_uuid4 (v : json) : option string := match v with JStr s => to_uuid4 s | _ => None end.

(** ** Reading *)

Definition vm_of : json -> option VmSpec := object ["name"; "description"] (fun l =>
  let!? n := field "name" as_str l in
  let!? d := field_or "description" as_str "" l in
  Some (MkVmSpec n d)).

(** Drafts of before the removal of sites carry a [site_id]. *)
Definition _discard_legacy_site_id (v : json) : json :=
  match v with
  | JObj l => JObj (List.filter (fun e => negb (String.eqb (fst e) "site_id")) l)
  | v => v
  end.

Definition compute_of (v : json) : option ComputeSpec :=
  object ["vcenter_id"; "datacenter_id"; "cluster_id"; "host_id"; "resource_pool_id"] (fun l =>
    let!? vc := field "vcenter_id" as_uuid4 l in
    let!? dc := field "datacenter_id" as_str l in
    let!? cl := field "cluster_id" as_str l in
    let!? h := field_or "host_id" (nullable as_str) None l in
    let!? p := field_or "resource_pool_id" (nullable as_str) None l in
    Some (MkComputeSpec vc dc cl h p)) (_discard_legacy_site_id v).

Definition disk_of : json -> option DiskSpec := object ["size_gb"; "provisioning"; "datastore_id"] (fun l =>
  let!? s := field "size_gb" to_int l in
  let!? p := field_or "provisioning" (member disk_provisioning_value [THIN; THICK]) THIN l in
  let!? d := field_or "datastore_id" (nullable as_str) None l in
  Some (MkDiskSpec s p d)).

Definition hardware_of : json -> option HardwareSpec :=
  object ["cpu"; "memory_mb"; "firmware"; "secure_boot"; "disks"] (fun l =>
    let!? c := field "cpu" to_int l in
    let!? m := field "memory_mb" to_int l in
    let!? f := field_or "firmware" (member firmware_value [BIOS; EFI]) EFI l in
    let!? s := field_or "secure_boot" to_bool false l in
    let!? d := field "disks" (as_list disk_of) l in
    Some (MkHardwareSpec c m f s d)).

Definition domain_join_of : json -> option DomainJoinSpec :=
  object ["domain"; "ou"; "credential_secret_ref"] (fun l =>
    let!? d := field "domain" as_str l in
    let!? o := field_or "ou" (nullable as_str) None l in
    let!? c := field "credential_secret_ref" as_str l in
    Some (MkDomainJoinSpec d o c)).

(** The declared fields of [GuestSpec]. *)
Definition GUEST_FIELDS : list string :=
  ["iso_id"; "hostname"; "timezone"; "installation_locale"; "input_locale"; "windows_image_index";
   "credential_secret_ref"; "product_key_secret_ref"; "domain_join"].

Definition guest_of : json -> option GuestSpec := object GUEST_FIELDS (fun l =>
  let!? i := field "iso_id" as_str l in
  let!? h := field_or "hostname" (nullable as_str) None l in
  let!? t := field_or "timezone" (nullable as_str) None l in
  let!? il := field_or "installation_locale" as_str "en-US" l in
  let!? inp := field_or "input_locale" as_str "0409:00000409" l in
  let!? w := field_or "windows_image_index" to_int 2 l in
  let!? c := field_or "credential_secret_ref" as_str "guest-local-admin" l in
  let!? p := field_or "product_key_secret_ref" (nullable as_str) None l in
  let!? j := field_or "domain_join" (nullable domain_join_of) None l in
  Some (MkGuestSpec i h t il inp w c p j)).

Definition ipv4_of : json -> option Ipv4Config := object ["address"; "prefix"; "gateway"; "dns_servers"] (fun l =>
  let!? a := field "address" as_str l in
  let!? p := field "prefix" to_int l in
  let!? g := field "gateway" as_str l in
  let!? d := field_or "dns_servers" (as_list as_str) [] l in
  Some (MkIpv4 a p g d)).

Definition network_of : json -> option NetworkSpec := object ["network_id"; "adapter_type"; "mode"; "ipv4"] (fun l =>
  let!? n := field "network_id" as_str l in
  let!? a := field_or "adapter_type" (member adapter_value [VMXNET3; E1000E]) VMXNET3 l in
  let!? m := field "mode" (member ip_mode_value [DHCP; STATIC]) l in
  let!? v := field_or "ipv4" (nullable ipv4_of) None l in
  Some (MkNetworkSpec n a m v)).

(** [_only_blank_vms] *)
Definition _only_blank_vms (v : json) : option unit :=
  match v with JNull | JStr "blank" => Some tt | _ => None end.

Definition REQUEST_FIELDS : list string :=
  ["source_type"; "identity_policy_version"; "vm"; "compute"; "hardware"; "guest"; "network";
   "certificate_package_ids"; "application_ids"].

(** The fields of a document at their declared types. *)
Definition request_of : json -> option ProvisioningRequest := object REQUEST_FIELDS (fun l =>
  let!? _ := field_or "source_type" _only_blank_vms tt l in
  let!? pol := field_or "identity_policy_version" (member policy_value [V1; V2]) V2 l in
  let!? v := field "vm" vm_of l in
  let!? c := field "compute" compute_of l in
  let!? h := field "hardware" hardware_of l in
  let!? g := field "guest" guest_of l in
  let!? n := field "network" network_of l in
  let!? ce := field_or "certificate_package_ids" (as_list as_uuid4) [] l in
  let!? ap := field_or "application_ids" (as_list as_uuid4) [] l in
  Some (MkRequest pol v c h g n ce ap)).

(** [ProvisioningRequest.model_validate] *)
Definition model_validate (v : json) : option ProvisioningRequest :=
  let!? r := request_of v in res_ok (validate_request r).

(** [ProvisioningSubmissionRequest.model_validate]: the body of a submission. *)
Definition submission_of (v : json) : option ProvisioningRequest :=
  let!? r := request_of v in res_ok (validate_submission r).

(** ** Stored rows *)

(** [candidate.setdefault(k, v)] *)
Definition setdefault (k : string) (v : json) (l : list (string * json)) : list (string * json) :=
  match assoc k l with Some _ => l | None => (l ++ [(k, v)])%list end.

Definition replace_key (k : string) (v : json) (l : list (string * json)) : list (string * json) :=
  List.map (fun e => if String.eqb (fst e) k then (k, v) else e) l.

(** What is validated: rows of before the identity policy are marked v1, and
    removed guest fields that were stored as null are dropped. *)
Definition stored_candidate (l : list (string * json)) : list (string * json) :=
  let candidate := setdefault "identity_policy_version" (JStr "v1") l in
  match assoc "guest" candidate with
  | Some (JObj g) =>
      replace_key "guest"
        (JObj (List.filter (fun e => negb (is_null (snd e)) || bool_decide (fst e ∈ GUEST_FIELDS)) g)) candidate
  | _ => candidate
  end.

Definition parse_stored_request (payload : json) : option ProvisioningRequest :=
  match payload with
  | JObj l => model_validate (JObj (stored_candidate l))
  | _ => None
  end.

End Body.

(** ** Writing ([model_dump(mode="json")]) *)

Definition or_null {A} (f : A -> json) (o : option A) : json := match o with Some a => f a | None => JNull end.

Definition vm_dump (v : VmSpec) : json := JObj [("name", JStr (vm_spec_name v)); ("description", JStr (description v))].

Definition compute_dump (c : ComputeSpec) : json :=
  JObj [("vcenter_id", JStr (vcenter_id c)); ("datacenter_id", JStr (compute_datacenter_id c));
        ("cluster_id", JStr (cluster_id c)); ("host_id", or_null JStr (host_id c));
        ("resource_pool_id", or_null JStr (resource_pool_id c))].

Definition disk_dump (d : DiskSpec) : json :=
  JObj [("size_gb", JNum (size_gb d)); ("provisioning", JStr (disk_provisioning_value (provisioning d)));
        ("datastore_id", or_null JStr (disk_datastore_id d))].

Definition hardware_dump (h : HardwareSpec) : json :=
  JObj [("cpu", JNum (cpu h)); ("memory_mb", JNum (memory_mb h)); ("firmware", JStr (firmware_value (firmware h)));
        ("secure_boot", JBool (secure_boot h)); ("disks", JArr (List.map disk_dump (disks h)))].

Definition domain_join_dump (j : DomainJoinSpec) : json :=
  JObj [("domain", JStr (domain j)); ("ou", or_null JStr (ou j)); ("credential_secret_ref", JStr (join_secret_ref j))].

Definition guest_dump (g : GuestSpec) : json :=
  JObj [("iso_id", JStr (iso_id g)); ("hostname", or_null JStr (hostname g)); ("timezone", or_null JStr (timezone g));
        ("installation_locale", JStr (installation_locale g)); ("input_locale", JStr (input_locale g));
        ("windows_image_index", JNum (windows_image_index g));
        ("credential_secret_ref", JStr (credential_secret_ref g));
        ("product_key_secret_ref", or_null JStr (product_key_secret_ref g));
        ("domain_join", or_null domain_join_dump (domain_join g))].

Definition ipv4_dump (c : Ipv4Config) : json :=
  JObj [("address", JStr (address c)); ("prefix", JNum (prefix c)); ("gateway", JStr (gateway c));
        ("dns_servers", JArr (List.map JStr (dns_servers c)))].

Definition network_dump (n : NetworkSpec) : json :=
  JObj [("network_id", JStr (network_id n)); ("adapter_type", JStr (adapter_value (adapter_type n)));
        ("mode", JStr (ip_mode_value (mode n))); ("ipv4", or_null ipv4_dump (ipv4 n))].

Definition model_dump (r : ProvisioningRequest) : json :=
  JObj [("source_type", JStr "blank"); ("identity_policy_version", JStr (policy_value (identity_policy_version r)));
        ("vm", vm_dump (vm r)); ("compute", compute_dump (compute r)); ("hardware", hardware_dump (hardware r));
        ("guest", guest_dump (guest r)); ("network", network_dump (network r));
        ("certificate_package_ids", JArr (List.map JStr (certificate_package_ids r)));
        ("application_ids", JArr (List.map JStr (application_ids r)))].

(** ** Order of keys *)

Fixpoint insert_key (e : string * json) (l : list (string * json)) : list (string * json) :=
  match l with
  | [] => [e]
  | f :: r => if String.leb (fst e) (fst f) then e :: l else f :: insert_key e r
  end.

(** The document with the keys of every object in order, the first of equal
    keys first. *)
Fixpoint canon (v : json) : json :=
  match v with
  | JArr l => JArr (List.map canon l)
  | JObj l => JObj (fold_right insert_key [] (List.map (fun e => (fst e, canon (snd e))) l))
  | v => v
  end.

Definition canon_fields (l : list (string * json)) : list (string * json) :=
  fold_right insert_key [] (List.map (fun e => (fst e, canon (snd e))) l).

Lemma leb_refl s : String.leb s s = true.
Proof. destruct (String.leb_total s s); done. Qed.

Lemma assoc_insert_key k e l : assoc k (insert_key e l) = assoc k (e :: l).
Proof.
  induction l as [|f l IH]; [done|]. cbn [insert_key].
  destruct (String.leb (fst e) (fst f)) eqn:L; [done|]. destruct e as [x v], f as [y w]. cbn [assoc fst] in *. rewrite IH.
  destruct (String.eqb_spec x k), (String.eqb_spec y k); try done. subst. by rewrite leb_refl in L.
Qed.

Lemma assoc_canon k l : assoc k (canon_fields l) = option_map canon (assoc k l).
Proof.
  induction l as [|[x v] l IH]; [done|]. unfold canon_fields in *. cbn [List.map fold_right fst snd]. rewrite assoc_insert_key.
  cbn [assoc]. by destruct (String.eqb x k).
Qed.

Lemma insert_key_perm e l : insert_key e l ≡ₚ e :: l.
Proof.
  induction l as [|f l IH]; [done|]. cbn [insert_key]. destruct (String.leb _ _); [done|]. by rewrite IH, Permutation_swap.
Qed.

Lemma canon_fields_perm l : canon_fields l ≡ₚ List.map (fun e => (fst e, canon (snd e))) l.
Proof.
  unfold canon_fields. induction (List.map _ l) as [|e m IH]; [done|]. cbn [fold_right]. by rewrite insert_key_perm, IH.
Qed.

Lemma only_keys_perm ks l m : l ≡ₚ m -> only_keys ks l = only_keys ks m.
Proof.
  unfold only_keys. induction 1 as [|e l m P IH|e f l|]; cbn [forallb]; [done|by rewrite IH| |congruence].
  by rewrite !andb_assoc, (andb_comm (bool_decide (fst e ∈ ks))).
Qed.

Lemma only_keys_canon ks l : only_keys ks (canon_fields l) = only_keys ks l.
Proof.
  rewrite (only_keys_perm _ _ _ (canon_fields_perm l)). unfold only_keys. induction l as [|e l IH]; [done|].
  cbn [List.map forallb fst]. by rewrite IH.
Qed.

(** A reader that does not see the order of keys. *)
Definition orderless {A} (rd : json -> option A) : Prop := forall v, rd (canon v) = rd v.
Definition orderless_fields {A} (rd : list (string * json) -> option A) : Prop := forall l, rd (canon_fields l) = rd l.

Lemma orderless_as_str : orderless as_str.
Proof. by intros []. Qed.

Lemma orderless_member {A} (value : A -> string) all : orderless (member value all).
Proof. by intros []. Qed.

Lemma orderless_nullable {A} (rd : json -> option A) : orderless rd -> orderless (nullable rd).
Proof. intros O v. pose proof (O v) as E. unfold nullable. destruct v; cbn in *; try done; by rewrite E. Qed.

Lemma orderless_list {A} (rd : json -> option A) : orderless rd -> orderless (as_list rd).
Proof.
  intros O []; try done. cbn. rewrite List.map_map. by rewrite (List.map_ext _ _ O).
Qed.

Lemma orderless_field {A} k (rd : json -> option A) : orderless rd -> orderless_fields (field k rd).
Proof. intros O l. unfold field. rewrite assoc_canon. destruct (assoc k l); [apply O|done]. Qed.

Lemma orderless_field_or {A} k (rd : json -> option A) d : orderless rd -> orderless_fields (field_or k rd d).
Proof. intros O l. unfold field_or. rewrite assoc_canon. destruct (assoc k l); [apply O|done]. Qed.

Lemma orderless_object {A} ks (rd : list (string * json) -> option A) : orderless_fields rd -> orderless (object ks rd).
Proof.
  intros O [| | | | |l]; try done. cbn. change (fold_right insert_key [] _) with (canon_fields l).
  by rewrite only_keys_canon, O.
Qed.

Lemma orderless_bind {A B} (rd : list (string * json) -> option A) (k : A -> list (string * json) -> option B) :
  orderless_fields rd -> (forall a, orderless_fields (k a)) ->
  orderless_fields (fun l => opt_bind (rd l) (fun a => k a l)).
Proof. intros O K l. rewrite O. destruct (rd l); [apply K|done]. Qed.

Lemma orderless_const {A} (o : option A) : orderless_fields (fun _ => o).
Proof. done. Qed.

Create HintDb orderless.
#[export] Hint Resolve orderless_as_str orderless_member orderless_nullable orderless_list orderless_field orderless_field_or
  orderless_const : orderless.

Ltac solve_orderless :=
  repeat first
    [ apply orderless_object
    | match goal with |- orderless_fields (fun l => opt_bind (@?m l) (@?k l)) =>
        apply (orderless_bind m (fun a l => k l a)); [solve [eauto 6 with orderless]|intros ?] end
    | solve [eauto 6 with orderless] ].

Section Stored.
Context `{PydanticLaws}.

Lemma orderless_int : orderless to_int.
Proof. intros []; try done; cbn; by rewrite ?to_int_arr, ?to_int_obj. Qed.
Lemma orderless_bool : orderless to_bool.
Proof. intros []; try done; cbn; by rewrite ?to_bool_arr, ?to_bool_obj. Qed.
Lemma orderless_uuid : orderless as_uuid4.
Proof. by intros []. Qed.
Lemma orderless_blank : orderless _only_blank_vms.
Proof. by intros []. Qed.
Hint Resolve orderless_int orderless_bool orderless_uuid orderless_blank : orderless.

Lemma orderless_vm : orderless vm_of.
Proof. unfold vm_of. solve_orderless. Qed.
Lemma orderless_disk : orderless disk_of.
Proof. unfold disk_of. solve_orderless. Qed.
Lemma orderless_domain_join : orderless domain_join_of.
Proof. unfold domain_join_of. solve_orderless. Qed.
Lemma orderless_ipv4 : orderless ipv4_of.
Proof. unfold ipv4_of. solve_orderless. Qed.
Hint Resolve orderless_vm orderless_disk orderless_domain_join orderless_ipv4 : orderless.

Lemma orderless_hardware : orderless hardware_of.
Proof. unfold hardware_of. solve_orderless. Qed.
Lemma orderless_guest : orderless guest_of.
Proof. unfold guest_of. solve_orderless. Qed.
Lemma orderless_network : orderless network_of.
Proof. unfold network_of. solve_orderless. Qed.

(** *** Dropped keys *)

Lemma assoc_filter k (q : string * json -> bool) l :
  (forall v, q (k, v) = true) -> assoc k (List.filter q l) = assoc k l.
Proof.
  intros Q. induction l as [|[x v] l IH]; [done|]. cbn [List.filter assoc]. destruct (String.eqb_spec x k) as [->|N].
  - rewrite Q. cbn. by rewrite String.eqb_refl.
  - destruct (q (x, v)); [|done]. cbn [assoc]. rewrite (proj2 (String.eqb_neq _ _) N). exact IH.
Qed.

Lemma field_filter {A} k (q : string * json -> bool) (rd : json -> option A) l :
  (forall v, q (k, v) = true) -> field k rd (List.filter q l) = field k rd l.
Proof. intros Q. unfold field. by rewrite assoc_filter. Qed.

Lemma field_or_filter {A} k (q : string * json -> bool) (rd : json -> option A) d l :
  (forall v, q (k, v) = true) -> field_or k rd d (List.filter q l) = field_or k rd d l.
Proof. intros Q. unfold field_or. by rewrite assoc_filter. Qed.

Lemma forallb_filter {A} (p q : A -> bool) l : forallb p (List.filter q l) = forallb (fun x => negb (q x) || p x) l.
Proof. induction l as [|x l IH]; [done|]. cbn. destruct (q x); cbn; by rewrite IH. Qed.

Lemma forallb_canon (p : string * json -> bool) l :
  (forall k v, p (k, canon v) = p (k, v)) -> forallb p (canon_fields l) = forallb p l.
Proof.
  intros P. transitivity (forallb p (List.map (fun e => (fst e, canon (snd e))) l)).
  - generalize (canon_fields_perm l). generalize (canon_fields l), (List.map (fun e => (fst e, canon (snd e))) l).
    induction 1 as [|e a b _ IH|e f a|]; cbn; [done|by rewrite IH| |congruence].
    by rewrite !andb_assoc, (andb_comm (p e)).
  - induction l as [|[k v] l IH]; [done|]. cbn. by rewrite P, IH.
Qed.

Lemma orderless_compute : orderless compute_of.
Proof.
  intros [| | | | |l]; try done. unfold compute_of, object. cbn [canon _discard_legacy_site_id].
  change (fold_right insert_key [] _) with (canon_fields l). unfold only_keys. rewrite !forallb_filter, forallb_canon by done.
  rewrite !field_filter, !field_or_filter by done.
  match goal with |- (if ?b then ?x else None) = (if ?b then ?y else None) => enough (x = y) as -> by done end.
  match goal with |- context [canon_fields l] => idtac end.
  rewrite !orderless_field, !orderless_field_or by eauto with orderless. done.
Qed.
Hint Resolve orderless_hardware orderless_guest orderless_network orderless_compute : orderless.

(** *** The reader of stored rows *)

(** [GuestSpec] without the removed fields that were stored as null. *)
Definition clean_guest (v : json) : json :=
  match v with
  | JObj g => JObj (List.filter (fun e => negb (is_null (snd e)) || bool_decide (fst e ∈ GUEST_FIELDS)) g)
  | v => v
  end.

Lemma orderless_clean_guest : orderless (fun v => guest_of (clean_guest v)).
Proof.
  intros [| | | | |g]; try done. unfold guest_of, object. cbn [canon clean_guest].
  change (fold_right insert_key [] _) with (canon_fields g). unfold only_keys. rewrite !forallb_filter.
  rewrite forallb_canon by (by intros k []).
  rewrite !field_filter, !field_or_filter by (intros; apply orb_true_r).
  rewrite !orderless_field, !orderless_field_or by eauto with orderless. done.
Qed.

(** The reader of stored rows in one piece. *)
Definition stored_request_of : json -> option ProvisioningRequest := object REQUEST_FIELDS (fun l =>
  let!? _ := field_or "source_type" _only_blank_vms tt l in
  let!? pol := field_or "identity_policy_version" (member policy_value [V1; V2]) V1 l in
  let!? v := field "vm" vm_of l in
  let!? c := field "compute" compute_of l in
  let!? h := field "hardware" hardware_of l in
  let!? g := field "guest" (fun v => guest_of (clean_guest v)) l in
  let!? n := field "network" network_of l in
  let!? ce := field_or "certificate_package_ids" (as_list as_uuid4) [] l in
  let!? ap := field_or "application_ids" (as_list as_uuid4) [] l in
  Some (MkRequest pol v c h g n ce ap)).

Lemma assoc_app k l m : assoc k (l ++ m) = match assoc k l with Some v => Some v | None => assoc k m end.
Proof. induction l as [|[x v] l IH]; [done|]. cbn. by destruct (String.eqb x k). Qed.

Lemma assoc_setdefault k k0 v l :
  assoc k (setdefault k0 v l) = if String.eqb k0 k then Some (default v (assoc k l)) else assoc k l.
Proof.
  unfold setdefault. destruct (String.eqb_spec k0 k) as [->|N].
  - destruct (assoc k l) eqn:E; [exact E|]. rewrite assoc_app, E. cbn. by rewrite String.eqb_refl.
  - destruct (assoc k0 l); [done|]. rewrite assoc_app. cbn. rewrite (proj2 (String.eqb_neq _ _) N).
    by destruct (assoc k l).
Qed.

Lemma assoc_replace_key k k0 v l :
  assoc k (replace_key k0 v l) = if String.eqb k0 k then option_map (fun _ => v) (assoc k l) else assoc k l.
Proof.
  induction l as [|[x w] l IH]; [by destruct (String.eqb _ _)|]. unfold replace_key in *. cbn [List.map fst].
  destruct (String.eqb_spec x k0) as [->|N]; cbn [assoc]; rewrite IH; destruct (String.eqb_spec k0 k) as [->|M]; try done.
  rewrite (proj2 (String.eqb_neq _ _) N). done.
Qed.

Lemma only_keys_setdefault ks k v l : k ∈ ks -> only_keys ks (setdefault k v l) = only_keys ks l.
Proof.
  intros K. unfold setdefault, only_keys. destruct (assoc k l); [done|]. rewrite forallb_app. cbn.
  rewrite bool_decide_eq_true_2 by done. by rewrite andb_true_r.
Qed.

Lemma only_keys_replace ks k v l : only_keys ks (replace_key k v l) = only_keys ks l.
Proof.
  unfold only_keys, replace_key. induction l as [|[x w] l IH]; [done|]. cbn. rewrite IH.
  destruct (String.eqb_spec x k) as [->|]; done.
Qed.

Lemma assoc_candidate k l :
  let c := setdefault "identity_policy_version" (JStr "v1") l in
  assoc k (stored_candidate l) = if String.eqb "guest" k then option_map clean_guest (assoc k c) else assoc k c.
Proof.
  cbn zeta. unfold stored_candidate. destruct (String.eqb_spec "guest" k) as [<-|N].
  - destruct (assoc "guest" (setdefault _ _ _)) as [[]|] eqn:E; cbn [option_map clean_guest]; rewrite ?E; try done.
    rewrite assoc_replace_key, E. reflexivity.
  - destruct (assoc "guest" (setdefault _ _ _)) as [[]|] eqn:E; try done.
    rewrite assoc_replace_key. by rewrite (proj2 (String.eqb_neq _ _) N).
Qed.

Lemma only_keys_candidate l : only_keys REQUEST_FIELDS (stored_candidate l) = only_keys REQUEST_FIELDS l.
Proof.
  unfold stored_candidate. rewrite <- (only_keys_setdefault REQUEST_FIELDS "identity_policy_version" (JStr "v1") l) by set_solver.
  destruct (assoc _ _) as [[]|]; try done. apply only_keys_replace.
Qed.

Lemma request_of_candidate l : request_of (JObj (stored_candidate l)) = stored_request_of (JObj l).
Proof.
  unfold request_of, stored_request_of, object. rewrite only_keys_candidate.
  unfold field, field_or. rewrite !assoc_candidate, !assoc_setdefault. cbn [String.eqb Ascii.eqb Bool.eqb].
  destruct (only_keys _ _); [|done]. destruct (assoc "source_type" l); cbn [opt_bind];
    destruct (assoc "identity_policy_version" l); cbn [default]; destruct (assoc "guest" l); done.
Qed.

Lemma parse_stored_unfold v :
  parse_stored_request v = opt_bind (stored_request_of v) (fun r => res_ok (validate_request r)).
Proof. destruct v; try done. unfold parse_stored_request, model_validate. by rewrite request_of_candidate. Qed.

Hint Resolve orderless_clean_guest : orderless.

(** PostgreSQL may reorder the keys. *)
Lemma orderless_stored : orderless parse_stored_request.
Proof.
  intros v. rewrite !parse_stored_unfold. f_equal. revert v. change (orderless stored_request_of).
  unfold stored_request_of. solve_orderless.
Qed.

(** *** Reading what was written *)

Lemma all_some_map {A B} (rd : json -> option A) (f : B -> json) (g : B -> A) l :
  (forall x, In x l -> rd (f x) = Some (g x)) -> as_list rd (JArr (List.map f l)) = Some (List.map g l).
Proof.
  cbn. rewrite List.map_map. induction l as [|x l IH]; intros E; [done|]. cbn. rewrite E by (by left).
  rewrite IH; [done|]. intros y Hy. apply E. by right.
Qed.

Lemma nullable_null {A} (rd : json -> option A) (f : A -> json) o :
  (forall a, f a <> JNull) -> (forall a, rd (f a) = Some a) -> nullable rd (or_null f o) = Some o.
Proof.
  intros N R. destruct o as [a|]; [|done]. cbn [or_null]. unfold nullable. rewrite R. by destruct (f a) eqn:E; try done; destruct (N a).
Qed.

Lemma str_list l : as_list as_str (JArr (List.map JStr l)) = Some l.
Proof. rewrite (all_some_map as_str JStr (fun s => s)) by done. by rewrite List.map_id. Qed.

Lemma uuid_list l : (forall u, In u l -> to_uuid4 u = Some u) -> as_list as_uuid4 (JArr (List.map JStr l)) = Some l.
Proof. intros U. rewrite (all_some_map as_uuid4 JStr (fun s => s)) by done. by rewrite List.map_id. Qed.

Lemma nullable_str o : nullable as_str (or_null JStr o) = Some o.
Proof. by apply nullable_null. Qed.

(** Reads the fields of a concrete document. *)
Ltac read_fields :=
  unfold field, field_or;
  cbn [object only_keys forallb fst snd assoc String.eqb Ascii.eqb Bool.eqb opt_bind as_str member];
  rewrite ?to_int_num, ?to_bool_bool, ?nullable_str, ?str_list; cbn [opt_bind].

Lemma vm_round v : vm_of (vm_dump v) = Some v.
Proof. by destruct v. Qed.

Lemma compute_round c : to_uuid4 (vcenter_id c) = Some (vcenter_id c) -> compute_of (compute_dump c) = Some c.
Proof.
  intros U. destruct c as [vc dc cl h p]. unfold compute_of, compute_dump. cbn [vcenter_id compute_datacenter_id cluster_id host_id resource_pool_id _discard_legacy_site_id List.filter fst String.eqb Ascii.eqb Bool.eqb negb] in *.
  unfold object. replace (only_keys _ _) with true by (by vm_compute). read_fields. cbn [as_uuid4]. rewrite U. cbn [opt_bind]. by rewrite ?nullable_str.
Qed.

Lemma disk_round d : disk_of (disk_dump d) = Some d.
Proof.
  destruct d as [s p o]. unfold disk_of, disk_dump, object. cbn [size_gb provisioning disk_datastore_id].
  replace (only_keys _ _) with true by (by vm_compute). read_fields. by destruct p.
Qed.

Lemma hardware_round h : hardware_of (hardware_dump h) = Some h.
Proof.
  destruct h as [c m f s d]. unfold hardware_of, hardware_dump, object. cbn [cpu memory_mb firmware secure_boot disks].
  replace (only_keys _ _) with true by (by vm_compute). read_fields.
  rewrite (all_some_map disk_of disk_dump (fun x => x)) by (intros; apply disk_round). rewrite List.map_id. by destruct f.
Qed.

Lemma domain_join_round j : domain_join_of (domain_join_dump j) = Some j.
Proof.
  destruct j as [d o c]. unfold domain_join_of, domain_join_dump, object. cbn [domain ou join_secret_ref].
  replace (only_keys _ _) with true by (by vm_compute). by read_fields.
Qed.

Lemma guest_round g : guest_of (guest_dump g) = Some g.
Proof.
  destruct g as [i h t il inp w c p j]. unfold guest_of, guest_dump, object.
  cbn [iso_id hostname timezone installation_locale input_locale windows_image_index credential_secret_ref product_key_secret_ref domain_join].
  replace (only_keys _ _) with true by (by vm_compute). read_fields.
  by rewrite (nullable_null domain_join_of domain_join_dump) by (done || apply domain_join_round).
Qed.

Lemma ipv4_round c : ipv4_of (ipv4_dump c) = Some c.
Proof.
  destruct c as [a p g d]. unfold ipv4_of, ipv4_dump, object. cbn [address prefix gateway dns_servers].
  replace (only_keys _ _) with true by (by vm_compute). by read_fields.
Qed.

Lemma network_round n : network_of (network_dump n) = Some n.
Proof.
  destruct n as [i a m v]. unfold network_of, network_dump, object. cbn [network_id adapter_type mode ipv4].
  replace (only_keys _ _) with true by (by vm_compute). read_fields.
  rewrite (nullable_null ipv4_of ipv4_dump) by (done || apply ipv4_round). by destruct a, m.
Qed.

(** The identifiers of a request are in the form UUIDs are printed in. *)
Definition ids_canonical (r : ProvisioningRequest) : Prop :=
  forall u, In u (vcenter_id (compute r) :: certificate_package_ids r ++ application_ids r) -> to_uuid4 u = Some u.

Lemma stored_round r : ids_canonical r -> stored_request_of (model_dump r) = Some r.
Proof.
  intros U. destruct r as [pol v c h g n ce ap]. unfold ids_canonical in U. cbn [compute certificate_package_ids application_ids] in U.
  unfold stored_request_of, model_dump, object.
  cbn [identity_policy_version vm compute hardware guest network certificate_package_ids application_ids].
  replace (only_keys _ _) with true by (by vm_compute). read_fields. cbn [_only_blank_vms opt_bind].
  replace (find_first _ _) with (Some pol) by (by destruct pol). cbn [opt_bind].
  rewrite vm_round, compute_round, hardware_round, network_round by (apply U; by left). cbn [opt_bind].
  replace (clean_guest (guest_dump g)) with (guest_dump g) by (by destruct g as [? [] [] ? ? ? ? [] []]).
  rewrite guest_round, !uuid_list; [done|..]; intros u Hu; apply U; right; apply in_app_iff; auto.
Qed.

Lemma opt_bind_some {A B} (m : option A) (k : A -> option B) b :
  opt_bind m k = Some b -> exists a, m = Some a /\ k a = Some b.
Proof. destruct m as [a|]; [by exists a|done]. Qed.

Lemma as_uuid4_canonical v u : as_uuid4 v = Some u -> to_uuid4 u = Some u.
Proof. destruct v; try done. apply to_uuid4_idem. Qed.

Lemma field_some {A} k (rd : json -> option A) l a : field k rd l = Some a -> exists v, rd v = Some a.
Proof. unfold field. destruct (assoc k l) as [v|]; [by exists v|done]. Qed.

Lemma uuid_list_canonical k l us u : field_or k (as_list as_uuid4) [] l = Some us -> In u us -> to_uuid4 u = Some u.
Proof.
  unfold field_or. destruct (assoc k l) as [[| | | |d|]|]; try done; [|by intros [= <-]]. cbn. revert us.
  induction d as [|v d IH]; cbn; intros us E Hu; [by injection E as <-|].
  destruct (as_uuid4 v) as [w|] eqn:V; [|done]. destruct (all_some _) as [ws|]; [|done]. injection E as <-.
  destruct Hu as [->|Hu]; [by apply as_uuid4_canonical in V|by apply (IH ws)].
Qed.

Lemma compute_canonical v c : compute_of v = Some c -> to_uuid4 (vcenter_id c) = Some (vcenter_id c).
Proof.
  unfold compute_of, object. destruct (_discard_legacy_site_id v) as [| | | | |l]; try done. destruct (only_keys _ l); [|done].
  intros E. apply opt_bind_some in E as (vc & Ev & E). repeat (apply opt_bind_some in E as (? & _ & E)).
  injection E as <-. apply field_some in Ev as (w & Ew). by apply as_uuid4_canonical in Ew.
Qed.

Lemma request_canonical v r : request_of v = Some r -> ids_canonical r.
Proof.
  unfold request_of, object. destruct v as [| | | | |l]; try done. destruct (only_keys _ l); [|done]. intros E.
  do 3 (apply opt_bind_some in E as (? & _ & E)). apply opt_bind_some in E as (c & Ec & E).
  do 3 (apply opt_bind_some in E as (? & _ & E)). apply opt_bind_some in E as (ce & Ece & E).
  apply opt_bind_some in E as (ap & Eap & E). injection E as <-.
  apply field_some in Ec as (w & Ec). intros u [<-|Hu]; [exact (compute_canonical _ _ Ec)|].
  apply in_app_iff in Hu as [Hu|Hu]; [exact (uuid_list_canonical _ _ _ _ Ece Hu)|exact (uuid_list_canonical _ _ _ _ Eap Hu)].
Qed.

Lemma validated_ids r r' : validate_request r = Ok r' -> ids_canonical r -> ids_canonical r'.
Proof.
  intros V. enough (compute r' = compute r /\ certificate_package_ids r' = certificate_package_ids r
                    /\ application_ids r' = application_ids r) as (E1 & E2 & E3).
  { unfold ids_canonical. by rewrite E1, E2, E3. }
  exact (validate_request_keeps _ _ V).
Qed.

(** C21 (submission, model_dump, parse_stored_request): the worker executes the
    request that was admitted.  The document a submission is stored as, in
    whatever order the database returns its keys, is read back as exactly the
    validated request: defaults filled in, addresses, domain and hostname
    normalised, identity policy v2. *)
Theorem stored_request_reads_back body r row :
  submission_of body = Some r -> canon row = canon (model_dump r) -> parse_stored_request row = Some r.
Proof.
  intros S C. rewrite <- (orderless_stored row), C, orderless_stored, parse_stored_unfold.
  apply opt_bind_some in S as (r0 & E & S). apply request_canonical in E.
  destruct (validate_submission r0) as [r1|] eqn:V; [|done]. injection S as ->.
  apply validate_submission_request in V. rewrite stored_round by (by eapply validated_ids). cbn [opt_bind].
  by rewrite (validate_request_stable _ _ V).
Qed.

End Stored.

(** ** A reading of the leaves *)

Definition is_hex (c : ascii) : bool := is_digit c || in_range 97 102 c.

(** Thirty-two hexadecimal digits in groups of 8, 4, 4, 4 and 12: version 4. *)
Fixpoint uuid4_shape (i : nat) (l : list ascii) : bool :=
  match l with
  | [] => (i =? 36)%nat
  | c :: r =>
      (if bool_decide (i ∈ [8; 13; 18; 23]%nat) then Ascii.eqb c "-"
       else if (i =? 14)%nat then Ascii.eqb c "4"
       else if (i =? 19)%nat then is_hex c && bool_decide (c ∈ chars "89ab")
       else is_hex c) && uuid4_shape (S i) r
  end.

Definition strict_pydantic : Pydantic := {|
  to_int v := match v with JNum n => Some n | _ => None end;
  to_bool v := match v with JBool b => Some b | _ => None end;
  to_uuid4 s := if uuid4_shape 0 (chars (lower s)) then Some (lower s) else None;
|}.

Lemma strict_laws : @PydanticLaws strict_pydantic.
Proof.
  split; try done. intros s u. cbn. destruct (uuid4_shape 0 (chars (lower s))) eqn:E; [|done].
  intros [= <-]. by rewrite lower_idemp, E.
Qed.

Definition VC_ID : string := "4E8C1D0A-9B1F-4C6E-8A2B-5D3F7A9C0E11".

(** A body that leaves out every default, with an upper-case UUID. *)
Definition SAMPLE_BODY : json :=
  JObj [("vm", JObj [("name", JStr "web-01")]);
        ("compute", JObj [("vcenter_id", JStr VC_ID); ("datacenter_id", JStr "dc-1"); ("cluster_id", JStr "cl-1")]);
        ("hardware", JObj [("cpu", JNum 2); ("memory_mb", JNum 4096); ("disks", JArr [JObj [("size_gb", JNum 60)]])]);
        ("guest", JObj [("iso_id", JStr "iso:x");
                        ("domain_join", JObj [("domain", JStr "Corp.Example.com."); ("credential_secret_ref", JStr "ad/join")])]);
        ("network", JObj [("network_id", JStr "net-1"); ("mode", JStr "DHCP")])].

Definition SAMPLE_ADMITTED : ProvisioningRequest :=
  MkRequest V2 (MkVmSpec "web-01" "") (MkComputeSpec (lower VC_ID) "dc-1" "cl-1" None None)
    (MkHardwareSpec 2 4096 EFI false [MkDiskSpec 60 THIN None])
    (MkGuestSpec "iso:x" (Some "WEB-01") None "en-US" "0409:00000409" 2 "guest-local-admin" None
       (Some (MkDomainJoinSpec "corp.example.com" None "ad/join")))
    (MkNetworkSpec "net-1" VMXNET3 DHCP None) [] [].

(** The stored document comes back with its keys in another order. *)
Lemma stored_request_reads_back_witness :
  @submission_of strict_pydantic SAMPLE_BODY = Some SAMPLE_ADMITTED
  /\ @parse_stored_request strict_pydantic (canon (model_dump SAMPLE_ADMITTED)) = Some SAMPLE_ADMITTED.
Proof.
  assert (E : @submission_of strict_pydantic SAMPLE_BODY = Some SAMPLE_ADMITTED) by (vm_compute; reflexivity).
  split; [exact E|]. apply (@stored_request_reads_back strict_pydantic strict_laws SAMPLE_BODY); [exact E|].
  vm_compute. reflexivity.
Defined.
