(* ===== verification/Catalog.v ===== *)
(** * Administration of the application catalog

    [app/api/v1/admin_applications.py] and [app/schemas/applications.py]: the
    endpoints that create, change and delete applications, and what they keep
    of the catalog the jobs resolve their installations from.

    A request reads the committed table, and its writes take effect together
    when it commits: the [..._row] definitions say what it decides on the table
    it read.  Timestamps are not modelled. *)

From Stdlib Require Import ZArith Lia Ascii String List Bool.
From stdpp Require Import base tactics list strings gmap.
From S2P Require Import Prelude PyStr Regex Errors Schemas Jobs AuditTrail Scripts Effects World Guest.
From S2P Require Import Service Paths Resolver Applications StagesApps SampleWorld.

Local Open Scope string_scope.
Local Open Scope Z_scope.

(** ** Rows and payloads *)

Record Application := MkApp {
  app_row : ApplicationRow;
  app_version : string;
  app_description : string;
  created_by : option string;
}.

#[export] Instance eta_application : Eta Application := fun a =>
  MkApp (app_row a) (app_version a) (app_description a) (created_by a).

#[export] Instance eta_application_row : Eta ApplicationRow := fun r =>
  MkApplication (app_id r) (app_name r) (installer_type r) (installer_path r) (install_arguments r)
    (detection_method r) (detection_config r) (timeout_seconds r) (app_reboot_required r) (app_enabled r)
    (dependency_ids r).

(** The table, by primary key. *)
Notation Catalog := (gmap string Application).

Record ApplicationCreate := MkAppCreate {
  ac_name : string;
  ac_version : string;
  ac_description : string;
  ac_installer_type : InstallerType;
  ac_installer_path : string;
  ac_install_arguments : string;
  ac_detection_method : DetectionMethod;
  ac_detection_config : gmap string json;
  ac_timeout_seconds : Z;
  ac_reboot_required : bool;
  ac_enabled : bool;
  ac_dependency_ids : list string;
}.

#[export] Instance eta_application_create : Eta ApplicationCreate := fun p =>
  MkAppCreate (ac_name p) (ac_version p) (ac_description p) (ac_installer_type p) (ac_installer_path p)
    (ac_install_arguments p) (ac_detection_method p) (ac_detection_config p) (ac_timeout_seconds p)
    (ac_reboot_required p) (ac_enabled p) (ac_dependency_ids p).

(** [None]: the field is not in the body; [Some None]: it is null. *)
Notation Change A := (option (option A)).

Record ApplicationUpdate := MkAppUpdate {
  au_name : Change string;
  au_version : Change string;
  au_description : Change string;
  au_installer_type : Change InstallerType;
  au_installer_path : Change string;
  au_install_arguments : Change string;
  au_detection_method : Change DetectionMethod;
  au_detection_config : Change (gmap string json);
  au_timeout_seconds : Change Z;
  au_reboot_required : Change bool;
  au_enabled : Change bool;
  au_dependency_ids : Change (list string);
}.

#[export] Instance eta_application_update : Eta ApplicationUpdate := fun p =>
  MkAppUpdate (au_name p) (au_version p) (au_description p) (au_installer_type p) (au_installer_path p)
    (au_install_arguments p) (au_detection_method p) (au_detection_config p) (au_timeout_seconds p)
    (au_reboot_required p) (au_enabled p) (au_dependency_ids p).

Definition no_change : ApplicationUpdate :=
  MkAppUpdate None None None None None None None None None None None None.

(** The field is given and not null. *)
Definition given_value {A} (c : Change A) : option A := match c with Some v => v | None => None end.

(** The attribute after [setattr]. *)
Definition column {A} (old : A) (c : Change A) : option A := match c with Some v => v | None => Some old end.

(** A version 4 UUID in canonical spelling. *)
Definition is_uuid4 (id : string) : bool :=
  match skipn 14 (chars id) with c :: _ => Ascii.eqb c "4" | [] => false end.

Section Payloads.
Context {X : Type} `{Platform X}.

Definition validate_application_create (p : ApplicationCreate) : res string ApplicationCreate :=
  let? _ := check (sized 2 200 (ac_name p)) "name" in
  let? _ := check (len (ac_version p) <=? 50) "version" in
  let? _ := check (len (ac_description p) <=? 2000) "description" in
  let? _ := check (sized 3 500 (ac_installer_path p)) "installer_path" in
  let? _ := check (len (ac_install_arguments p) <=? 2000) "install_arguments" in
  let? _ := check (within 30 14400 (ac_timeout_seconds p)) "timeout_seconds" in
  let? _ := check ((List.length (ac_dependency_ids p) <=? 20)%nat && forallb is_uuid4 (ac_dependency_ids p)) "dependency_ids" in
  let? path := validate_installer_path (ac_installer_path p) (Some (ac_installer_type p)) in
  let? config := validate_detection_config (X := X) (ac_detection_method p) (ac_detection_config p) in
  Ok (p <| ac_installer_path := path |> <| ac_detection_config := list_to_map config |>).

Definition holds_of {A} (f : A -> bool) (c : Change A) : bool := match given_value c with Some v => f v | None => true end.

(** The detection pair is validated only when the body has both parts. *)
Definition validate_application_update (p : ApplicationUpdate) : res string ApplicationUpdate :=
  let? _ := check (holds_of (sized 2 200) (au_name p)) "name" in
  let? _ := check (holds_of (fun s => len s <=? 50) (au_version p)) "version" in
  let? _ := check (holds_of (fun s => len s <=? 2000) (au_description p)) "description" in
  let? _ := check (holds_of (sized 3 500) (au_installer_path p)) "installer_path" in
  let? _ := check (holds_of (fun s => len s <=? 2000) (au_install_arguments p)) "install_arguments" in
  let? _ := check (holds_of (within 30 14400) (au_timeout_seconds p)) "timeout_seconds" in
  let? _ := check (holds_of (fun l => List.length l <=? 20)%nat (au_dependency_ids p)) "dependency_ids" in
  let? p1 := match given_value (au_installer_path p) with
             | Some path => let? clean := validate_installer_path path (given_value (au_installer_type p)) in
                            Ok (p <| au_installer_path := Some (Some clean) |>)
             | None => Ok p
             end in
  match given_value (au_detection_method p), given_value (au_detection_config p) with
  | Some m, Some c => let? clean := validate_detection_config (X := X) m c in
                      Ok (p1 <| au_detection_config := Some (Some (list_to_map clean)) |>)
  | _, _ => Ok p1
  end.

End Payloads.

(** ** The dependency checks *)

(** How a request fails: its body is refused, an application error, or an
    exception of the database layer. *)
Inductive CatalogError :=
| BadPayload (field : string)
| Rejected (e : AppError)
| NullColumn (column : string)
| DuplicateKey
| MultipleResultsFound.

Definition invalid {A} (message : string) (d : list (string * json)) : res CatalogError A :=
  Err (Rejected (MkAppError DomainValidationError message d)).

(** The nodes of the table as the session sees it; an unknown name stands for a
    name set to null, which no commit accepts. *)
Definition nodes_of_table (edited : string) (dependency_ids_ : list string) (t : Catalog) : gmap string AppNode :=
  let m := map_imap (fun k a => Some (MkNode (app_id (app_row a)) (app_name (app_row a)) (app_enabled (app_row a))
                               (list_to_set (if String.eqb k edited then dependency_ids_ else dependency_ids (app_row a))))) t in
  match m !! edited with
  | Some _ => m
  | None => <[edited := MkNode edited "(new)" true (list_to_set dependency_ids_)]> m
  end.

Definition is_cycle_error (e : string) : bool := contains e "Circular" || contains e "does not exist".

Definition _assert_acyclic (edited : string) (dependency_ids_ : list string) (t : Catalog) : res CatalogError unit :=
  let catalog := nodes_of_table edited dependency_ids_ t in
  let errors := snd (resolve_install_order (List.map fst (map_to_list catalog)) catalog) in
  match List.filter is_cycle_error errors with
  | [] => Ok tt
  | cycle_errors => invalid ("Dependency validation failed: " ++ join " " cycle_errors) []
  end.

(** [list(dict.fromkeys(l))] *)
Fixpoint unique (seen l : list string) : list string :=
  match l with
  | [] => []
  | x :: r => if existsb (String.eqb x) seen then unique seen r else x :: unique (x :: seen) r
  end.

Fixpoint first_missing (t : Catalog) (ids : list string) : option string :=
  match ids with
  | [] => None
  | d :: r => match t !! d with Some _ => first_missing t r | None => Some d end
  end.

Definition _replace_dependencies (id : string) (dependency_ids_ : list string) (t : Catalog)
    : res CatalogError (list string) :=
  let unique_ids := unique [] dependency_ids_ in
  if existsb (String.eqb id) unique_ids then invalid "An application cannot depend on itself." []
  else match first_missing t unique_ids with
       | Some d => invalid ("Dependency " ++ SQ ++ d ++ SQ ++ " does not exist.") []
       | None => Ok unique_ids
       end.

(** ** The endpoints *)

Definition application_audit (action : string) (user : option Caller) (name : string) (det : list (string * json))
    : AuditEvent :=
  audit_event action (option_map snd user) "application" (Some name) None None None None det None.

(** The row of the payload, without dependencies. *)
Definition application_of (id : string) (user : option Caller) (p : ApplicationCreate) : Application :=
  MkApp (MkApplication id (ac_name p) (ac_installer_type p) (ac_installer_path p) (ac_install_arguments p)
           (ac_detection_method p) (ac_detection_config p) (ac_timeout_seconds p) (ac_reboot_required p) (ac_enabled p) [])
    (ac_version p) (ac_description p) (option_map fst user).

Definition with_dependencies (l : list string) (a : Application) : Application :=
  a <| app_row := (app_row a) <| dependency_ids := l |> |>.

Definition named (name : string) (t : Catalog) : list Application :=
  List.filter (fun a => String.eqb (app_name (app_row a)) name) (List.map snd (map_to_list t)).

(** [create_application] on the table it reads; [id] is the generated key. *)
Definition create_application_row (user : option Caller) (id : string) (p : ApplicationCreate) (t : Catalog)
    : res CatalogError (Application * AuditEvent) :=
  match named (ac_name p) t with
  | [_] => Err (Rejected (MkAppError ConflictError ("An application named " ++ SQ ++ ac_name p ++ SQ ++ " already exists.") []))
  | _ :: _ :: _ => Err MultipleResultsFound
  | [] =>
      match t !! id with
      | Some _ => Err DuplicateKey
      | None =>
          let app := application_of id user p in
          let? deps := _replace_dependencies id (ac_dependency_ids p) (<[id := app]> t) in
          let app' := with_dependencies deps app in
          let? _ := _assert_acyclic id (ac_dependency_ids p) (<[id := app']> t) in
          Ok (app', application_audit "APPLICATION_CREATED" user (ac_name p)
                      [("installer_type", JStr (installer_type_value (ac_installer_type p)))])
      end
  end.

Definition not_null {A} (name : string) (v : option A) : res CatalogError A :=
  match v with Some a => Ok a | None => Err (NullColumn name) end.

(** The flush: every column of the session's row is NOT NULL. *)
Definition flushed (old : Application) (p : ApplicationUpdate) (deps : list string) : res CatalogError Application :=
  let row := app_row old in
  let? name := not_null "name" (column (app_name row) (au_name p)) in
  let? version := not_null "version" (column (app_version old) (au_version p)) in
  let? description := not_null "description" (column (app_description old) (au_description p)) in
  let? type := not_null "installer_type" (column (installer_type row) (au_installer_type p)) in
  let? path := not_null "installer_path" (column (installer_path row) (au_installer_path p)) in
  let? arguments := not_null "install_arguments" (column (install_arguments row) (au_install_arguments p)) in
  let? method := not_null "detection_method" (column (detection_method row) (au_detection_method p)) in
  let? config := not_null "detection_config" (column (detection_config row) (au_detection_config p)) in
  let? timeout := not_null "timeout_seconds" (column (timeout_seconds row) (au_timeout_seconds p)) in
  let? reboot := not_null "reboot_required" (column (app_reboot_required row) (au_reboot_required p)) in
  let? enabled := not_null "enabled" (column (app_enabled row) (au_enabled p)) in
  Ok (MkApp (MkApplication (app_id row) name type path arguments method config timeout reboot enabled deps)
        version description (created_by old)).

(** The row as the session holds it before the flush, for the dependency checks. *)
Definition session_row (old : Application) (p : ApplicationUpdate) (deps : list string) : Application :=
  old <| app_row := (app_row old) <| app_name := default "None" (column (app_name (app_row old)) (au_name p)) |>
           <| app_enabled := default false (column (app_enabled (app_row old)) (au_enabled p)) |>
           <| dependency_ids := deps |> |>.

Definition changed {A} (name : string) (c : Change A) : list string := match c with Some _ => [name] | None => [] end.

(** [sorted] of the names of the changed fields. *)
Definition changed_fields (p : ApplicationUpdate) : list string :=
  (match given_value (au_dependency_ids p) with Some _ => ["dependency_ids"] | None => [] end
   ++ changed "description" (au_description p) ++ changed "detection_config" (au_detection_config p)
   ++ changed "detection_method" (au_detection_method p) ++ changed "enabled" (au_enabled p)
   ++ changed "install_arguments" (au_install_arguments p) ++ changed "installer_path" (au_installer_path p)
   ++ changed "installer_type" (au_installer_type p) ++ changed "name" (au_name p)
   ++ changed "reboot_required" (au_reboot_required p) ++ changed "timeout_seconds" (au_timeout_seconds p)
   ++ changed "version" (au_version p))%list.

Definition update_application_row (user : option Caller) (id : string) (p : ApplicationUpdate) (t : Catalog)
    : res CatalogError (Application * AuditEvent) :=
  match t !! id with
  | None => Err (Rejected (MkAppError NotFoundError "Application not found." []))
  | Some old =>
      let row := app_row old in
      match validate_installer_path (default "" (column (installer_path row) (au_installer_path p)))
              (column (installer_type row) (au_installer_type p)) with
      | Err reason => invalid reason [("field", JStr "installer_path")]
      | Ok _ =>
          let? deps := match given_value (au_dependency_ids p) with
                       | Some ids =>
                           let? deps := _replace_dependencies id ids t in
                           let? _ := _assert_acyclic id ids (<[id := session_row old p deps]> t) in
                           Ok deps
                       | None => Ok (dependency_ids row)
                       end in
          let? app := flushed old p deps in
          Ok (app, application_audit "APPLICATION_UPDATED" user (app_name (app_row app))
                     [("fields", JArr (List.map JStr (changed_fields p)))])
      end
  end.

Definition commit_row (id : string) (a : Application) (t : Catalog) : Catalog := <[id := a]> t.

(** The delete cascades to the edges of the application. *)
Definition delete_application (user : option Caller) (id : string) (t : Catalog)
    : res CatalogError (Catalog * AuditEvent) :=
  match t !! id with
  | None => Err (Rejected (MkAppError NotFoundError "Application not found." []))
  | Some app =>
      if existsb (fun a => existsb (String.eqb id) (dependency_ids (app_row a))) (List.map snd (map_to_list t))
      then Err (Rejected (MkAppError ConflictError
                  "Other applications depend on this entry — remove those dependencies first." []))
      else Ok (delete id t, application_audit "APPLICATION_DELETED" user (app_name (app_row app)) [])
  end.

(** ** Requests on the table *)

Section Requests.
Context {X : Type} `{Platform X}.

Definition create_application (user : option Caller) (id : string) (p : ApplicationCreate) (t : Catalog)
    : res CatalogError (Catalog * AuditEvent) :=
  match validate_application_create (X := X) p with
  | Err field => Err (BadPayload field)
  | Ok payload => let? r := create_application_row user id payload t in Ok (commit_row id (fst r) t, snd r)
  end.

Definition update_application (user : option Caller) (id : string) (p : ApplicationUpdate) (t : Catalog)
    : res CatalogError (Catalog * AuditEvent) :=
  match validate_application_update (X := X) p with
  | Err field => Err (BadPayload field)
  | Ok payload => let? r := update_application_row user id payload t in Ok (commit_row id (fst r) t, snd r)
  end.

End Requests.
