(* ===== verification/CatalogFacts.v ===== *)
(** * The application catalog stays installable

    What the endpoints of [Catalog.v] keep of the catalog, and what they do
    not. *)

From Stdlib Require Import ZArith Lia Ascii String List Bool.
From stdpp Require Import base tactics list strings gmap.
From S2P Require Import Prelude PyStr Errors Schemas Jobs AuditTrail Scripts Effects World Guest.
From S2P Require Import Service Paths Resolver Applications StagesApps SampleWorld Catalog.

Local Open Scope string_scope.

(** ** Dependencies of the table *)

Definition deps_of (a : Application) : list string := dependency_ids (app_row a).

Definition needs (t : Catalog) (a b : string) : Prop := exists r, t !! a = Some r /\ b ∈ deps_of r.

Definition path_ok (a : Application) : bool :=
  is_ok (validate_installer_path (installer_path (app_row a)) (Some (installer_type (app_row a)))).

Record catalog_ok (t : Catalog) : Prop := {
  ok_ids : forall k a, t !! k = Some a -> app_id (app_row a) = k;
  ok_known : forall a b, needs t a b -> is_Some (t !! b);
  ok_acyclic : forall k, ~ tc (needs t) k k;
  ok_paths : forall k a, t !! k = Some a -> path_ok a = true;
}.

Lemma tc_mono {A} (R S : A -> A -> Prop) : (forall a b, R a b -> S a b) -> forall a b, tc R a b -> tc S a b.
Proof. intros M a b. induction 1 as [a b H|a b c H _ IH]; [by apply tc_once, M|]. eapply tc_l; eauto. Qed.

Lemma tc_first {A} (R : A -> A -> Prop) a c : tc R a c -> exists b, R a b.
Proof. by destruct 1; eexists. Qed.

Lemma elem_of_unique x seen l : x ∈ unique seen l <-> x ∈ l /\ x ∉ seen.
Proof.
  revert seen. induction l as [|y l IH]; intros seen; cbn; [set_solver|].
  destruct (existsb (String.eqb y) seen) eqn:E.
  - apply existsb_exists in E as (z & Hz & <-%String.eqb_eq). apply list_elem_of_In in Hz. rewrite IH. set_solver.
  - assert (y ∉ seen).
    { intros Hy%list_elem_of_In. apply not_true_iff_false in E. apply E, existsb_exists. exists y. by rewrite String.eqb_refl. }
    rewrite elem_of_cons, IH. destruct (decide (x = y)); set_solver.
Qed.

Lemma first_missing_none t ids : first_missing t ids = None <-> forall d, d ∈ ids -> is_Some (t !! d).
Proof.
  induction ids as [|d ids IH]; cbn; [set_solver|]. destruct (t !! d) eqn:E.
  - rewrite IH. setoid_rewrite elem_of_cons. split; [intros H k [->|Hk]; eauto|eauto].
  - split; [done|]. intros H. destruct (H d) as [? ?]; [by left|congruence].
Qed.

Lemma replace_dependencies_ok id ids t deps :
  _replace_dependencies id ids t = Ok deps ->
  (forall d, d ∈ deps <-> d ∈ ids) /\ forall d, d ∈ deps -> is_Some (t !! d).
Proof.
  unfold _replace_dependencies. destruct (existsb _ _); [done|]. destruct (first_missing _ _) eqn:E; [done|].
  intros [= <-]. split; [|by apply first_missing_none]. intros d. rewrite elem_of_unique. set_solver.
Qed.

(** ** The cycle check *)

Lemma contains_app a p b : contains (a ++ p ++ b) p = true.
Proof. unfold contains. rewrite !chars_app. apply occurs_spec. by exists (chars a), (chars b). Qed.

Lemma search_error_flagged catalog e : search_error catalog e -> is_cycle_error e = true.
Proof.
  intros [[k ->]|[cycle ->]]; unfold is_cycle_error; apply orb_true_iff; [right|left].
  - assert (E : missing_message k = ("A selected application depends on application " ++ SQ ++ k ++ "', which ")
                                    ++ "does not exist" ++ ".") by (unfold missing_message; by rewrite !str_app_assoc).
    rewrite E. apply contains_app.
  - exact (contains_app "" "Circular" (" dependency detected: " ++ _)).
Qed.

(** The check passes only on catalogs without cycles and unknown dependencies. *)
Lemma assert_acyclic_ok edited ids t :
  _assert_acyclic edited ids t = Ok tt ->
  let catalog := nodes_of_table edited ids t in
  forall k, is_Some (catalog !! k) -> ~ tc (depends catalog) k k.
Proof.
  unfold _assert_acyclic. cbn zeta. set (catalog := nodes_of_table edited ids t).
  set (all := List.map fst (map_to_list catalog)). intros H k [n Hk].
  assert (E : errors (search catalog all) = []).
  { pose proof (search_errors catalog all) as F. revert H. unfold resolve_install_order.
    destruct (errors (search catalog all)) as [|e l]; [done|]. cbn [List.app snd List.filter].
    apply Forall_cons in F as [F _]. by rewrite (search_error_flagged _ _ F). }
  assert (W : wanted catalog all k); [|by apply (proj1 (search_clean catalog all) E k W)].
  exists k. split; [|done]. apply list_elem_of_fmap. exists (k, n). split; [done|]. by apply elem_of_map_to_list.
Qed.

Lemma depends_nodes edited ids t x :
  t !! edited = Some x -> (forall d, d ∈ deps_of x <-> d ∈ ids) ->
  forall a b, needs t a b -> depends (nodes_of_table edited ids t) a b.
Proof.
  intros Hx D a b (r & Hr & Hb). unfold depends, nodes_of_table. cbn zeta.
  rewrite map_lookup_imap, Hx. cbn. rewrite map_lookup_imap, Hr. cbn. eexists. split; [done|]. cbn.
  apply elem_of_list_to_set. destruct (String.eqb_spec a edited) as [->|]; [|done].
  apply D. congruence.
Qed.

Lemma checked_acyclic edited ids t x :
  t !! edited = Some x -> (forall d, d ∈ deps_of x <-> d ∈ ids) -> _assert_acyclic edited ids t = Ok tt ->
  forall k, ~ tc (needs t) k k.
Proof.
  intros Hx D H k C. eapply (assert_acyclic_ok _ _ _ H k).
  - destruct (tc_first _ _ _ C) as (b & r & Hr & _). unfold nodes_of_table. cbn zeta.
    rewrite map_lookup_imap, Hx. cbn. rewrite map_lookup_imap, Hr. by eexists.
  - revert C. apply tc_mono. by apply (depends_nodes _ _ _ x).
Qed.

(** ** One request *)

Lemma needs_insert t id x a b : needs (<[id := x]> t) a b <-> (a = id /\ b ∈ deps_of x) \/ (a <> id /\ needs t a b).
Proof.
  unfold needs. destruct (decide (a = id)) as [->|N].
  - rewrite lookup_insert_eq. naive_solver.
  - rewrite lookup_insert_ne by done. naive_solver.
Qed.

Lemma needs_same_deps t id x y a b : deps_of x = deps_of y -> needs (<[id := x]> t) a b -> needs (<[id := y]> t) a b.
Proof. intros E. rewrite !needs_insert, E. done. Qed.

Lemma commit_ok t id x :
  catalog_ok t -> app_id (app_row x) = id -> path_ok x = true -> (forall d, d ∈ deps_of x -> is_Some (<[id := x]> t !! d)) ->
  (forall k, ~ tc (needs (<[id := x]> t)) k k) -> catalog_ok (commit_row id x t).
Proof.
  intros [] Hi Hp Hd Ha. unfold commit_row. split; [| |done|].
  - intros k a [[<- <-]|[N H]]%lookup_insert_Some; auto.
  - intros a b [[-> H]|[N H]]%needs_insert; [by apply Hd|].
    destruct (decide (b = id)) as [->|]; [rewrite lookup_insert_eq; by eexists|].
    rewrite lookup_insert_ne by done. by eapply ok_known0.
  - intros k a [[<- <-]|[N H]]%lookup_insert_Some; eauto.
Qed.

Lemma create_row_ok user id p t x e :
  catalog_ok t -> is_ok (validate_installer_path (ac_installer_path p) (Some (ac_installer_type p))) = true ->
  create_application_row user id p t = Ok (x, e) -> catalog_ok (commit_row id x t).
Proof.
  intros Ht Hp. unfold create_application_row. destruct (named _ _) as [|? [|]]; [|done|done].
  destruct (t !! id); [done|]. intros (deps & Hd & (u & Ha & [= <- _])%res_bind_ok)%res_bind_ok.
  destruct u. apply replace_dependencies_ok in Hd as [D K]. apply commit_ok; [done|done|done| |].
  - cbn. intros d Hd. specialize (K d Hd). destruct (decide (d = id)) as [->|].
    + rewrite lookup_insert_eq. by eexists.
    + rewrite lookup_insert_ne in K |- * by done. done.
  - eapply checked_acyclic; [apply lookup_insert_eq|exact D|exact Ha].
Qed.

Lemma flushed_keeps old p deps x :
  flushed old p deps = Ok x ->
  app_id (app_row x) = app_id (app_row old) /\ deps_of x = deps
  /\ column (installer_path (app_row old)) (au_installer_path p) = Some (installer_path (app_row x))
  /\ column (installer_type (app_row old)) (au_installer_type p) = Some (installer_type (app_row x)).
Proof.
  assert (G : forall A n (v : option A) a, not_null n v = Ok a -> v = Some a) by (intros A n [v|] a; cbn; congruence).
  unfold flushed. cbn zeta. intros H.
  repeat (apply res_bind_ok in H as (? & ?%G & H)). injection H as <-. done.
Qed.

Lemma edit_row_ok user id p t x e :
  catalog_ok t -> update_application_row user id p t = Ok (x, e) -> catalog_ok (commit_row id x t).
Proof.
  intros Ht. unfold update_application_row. destruct (t !! id) as [old|] eqn:Ho; [|done]. cbn zeta.
  destruct (validate_installer_path _ _) as [path|] eqn:Hp; [|done].
  intros (deps & Hd & (y & Hf & [= -> _])%res_bind_ok)%res_bind_ok.
  apply flushed_keeps in Hf as (Hi & Hx & Cp & Ct). rewrite Cp, Ct in Hp. cbn in Hp.
  assert (P : path_ok x = true) by (unfold path_ok; by rewrite Hp).
  assert (I : app_id (app_row x) = id) by (rewrite Hi; by apply (ok_ids _ Ht)).
  apply commit_ok; [done|done|done| |]; rewrite ?Hx.
  - intros d D. assert (K : is_Some (t !! d)).
    { destruct (given_value _); [|injection Hd as <-; apply (ok_known _ Ht id); by exists old].
      apply res_bind_ok in Hd as (ds & Hd & (u & _ & [= ->])%res_bind_ok). by apply (replace_dependencies_ok _ _ _ _ Hd). }
    destruct (decide (d = id)) as [->|]; [rewrite lookup_insert_eq; by eexists|by rewrite lookup_insert_ne].
  - intros k C. destruct (given_value _) as [ids|].
    + apply res_bind_ok in Hd as (ds & Hd & ([] & Ha & [= ->])%res_bind_ok). apply replace_dependencies_ok in Hd as [D _].
      refine (checked_acyclic id ids _ (session_row old p deps) (lookup_insert_eq _ _ _) D Ha k _).
      revert C. apply tc_mono. intros a b. by apply needs_same_deps.
    + injection Hd as Hd. apply (ok_acyclic _ Ht k). revert C. apply tc_mono. intros a b [[-> H]|[_ H]]%needs_insert; [|done].
      exists old. split; [done|]. unfold deps_of at 1. by rewrite Hd, <- Hx.
Qed.

Lemma delete_ok user id t t' e : catalog_ok t -> delete_application user id t = Ok (t', e) -> catalog_ok t'.
Proof.
  intros Ht. unfold delete_application. destruct (t !! id) as [app|]; [|done].
  destruct (existsb _ _) eqn:E; [done|]. intros [= <- _]. destruct Ht.
  assert (S : forall a b, needs (delete id t) a b -> needs t a b /\ b <> id).
  { intros a b (r & [N Hr]%lookup_delete_Some & Hb). split; [by exists r|]. intros ->.
    apply not_true_iff_false in E. apply E, existsb_exists. exists r. split.
    - apply in_map_iff. exists (a, r). split; [done|]. by apply list_elem_of_In, elem_of_map_to_list.
    - apply existsb_exists. exists id. split; [by apply list_elem_of_In|apply String.eqb_refl]. }
  split.
  - intros k a [_ H]%lookup_delete_Some. auto.
  - intros a b [H N]%S. rewrite lookup_delete_ne by done. by eapply ok_known0.
  - intros k C. apply (ok_acyclic0 k). revert C. apply tc_mono. intros a b H. by apply S.
  - intros k a [_ H]%lookup_delete_Some. eauto.
Qed.

(** ** Requests one after the other *)

(** One successful request. *)
Inductive catalog_step {X} `{Platform X} (t : Catalog) : Catalog -> Prop :=
| step_create user id p t' e : create_application (X := X) user id p t = Ok (t', e) -> catalog_step t t'
| step_update user id p t' e : update_application (X := X) user id p t = Ok (t', e) -> catalog_step t t'
| step_delete user id t' e : delete_application user id t = Ok (t', e) -> catalog_step t t'.

Lemma validate_path_again value type path :
  validate_installer_path value (Some type) = Ok path -> is_ok (validate_installer_path path (Some type)) = true.
Proof.
  unfold validate_installer_path. intros (p & Hw & Hx)%res_bind_ok.
  pose proof (validate_windows_path_spec _ _ _ Hw) as [-> _]. cbv iota in Hx.
  assert (path = strip value) as -> by (revert Hx; case_all; congruence).
  replace (validate_windows_path (strip value) "Installer path") with (validate_windows_path value "Installer path").
  - rewrite Hw. cbn. by rewrite Hx.
  - unfold validate_windows_path. by rewrite strip_idemp.
Qed.

Lemma step_ok {X} `{Platform X} t t' : catalog_ok t -> catalog_step t t' -> catalog_ok t'.
Proof.
  intros Ht. destruct 1 as [user id p t' e E|user id p t' e E|user id t' e E]; [| |by eapply delete_ok].
  - unfold create_application in E. destruct (validate_application_create p) as [q|] eqn:V; [|done].
    apply res_bind_ok in E as ([x e'] & E & [= <- _]). refine (create_row_ok _ _ _ _ _ _ Ht _ E).
    unfold validate_application_create in V. do 7 (apply res_bind_ok in V as (? & _ & V)).
    apply res_bind_ok in V as (path & Hp & (config & _ & [= <-])%res_bind_ok). by eapply validate_path_again.
  - unfold update_application in E. destruct (validate_application_update p) as [q|] eqn:V; [|done].
    apply res_bind_ok in E as ([x e'] & E & [= <- _]). by apply (edit_row_ok _ _ _ _ _ _ Ht E).
Qed.

Lemma catalog_ok_empty : catalog_ok ∅.
Proof.
  assert (E : forall a b, ~ needs ∅ a b) by (intros a b (r & H & _); by rewrite lookup_empty in H).
  split; try (intros k a H; by rewrite lookup_empty in H); [intros a b H; by apply E in H|].
  intros k [b H]%tc_first. by apply E in H.
Qed.

Lemma reachable_ok {X} `{Platform X} t : rtc (catalog_step (X := X)) ∅ t -> catalog_ok t.
Proof.
  intros R. pose proof catalog_ok_empty as O. revert O. remember (∅ : Catalog) as t0 eqn:E. clear E.
  induction R; [done|]. eauto using step_ok.
Qed.

(** ** What the jobs read *)

(** The answer of the SELECT of the stages. *)
Definition rows_of (t : Catalog) : list ApplicationRow := List.map (fun e => app_row (snd e)) (map_to_list t).

Lemma catalog_of_rows_lookup rows (m : gmap string AppNode) k :
  NoDup (List.map app_id rows) ->
  (forall a, a ∈ rows -> app_id a = k -> fold_left (fun c a => <[app_id a := app_node a]> c) rows m !! k = Some (app_node a))
  /\ (k ∉ List.map app_id rows -> fold_left (fun c a => <[app_id a := app_node a]> c) rows m !! k = m !! k).
Proof.
  revert m. induction rows as [|a rows IH]; intros m ND; cbn [List.map fold_left]; [set_solver|].
  cbn in ND. apply NoDup_cons in ND as [N ND]. destruct (IH (<[app_id a := app_node a]> m) ND) as [I1 I2]. split.
  - intros b [->|Hb]%elem_of_cons E; [|by apply I1]. subst k. rewrite I2 by done. apply lookup_insert_eq.
  - intros H. rewrite I2 by set_solver. apply lookup_insert_ne. set_solver.
Qed.

Lemma loaded_lookup t k : catalog_ok t ->
  catalog_of_rows (rows_of t) !! k = (fun a => app_node (app_row a)) <$> t !! k.
Proof.
  intros Ht. unfold catalog_of_rows.
  assert (K : List.map app_id (rows_of t) = List.map fst (map_to_list t)).
  { unfold rows_of. rewrite map_map. apply map_ext_in. intros [x a] I. cbn. apply (ok_ids _ Ht).
    by apply elem_of_map_to_list, list_elem_of_In. }
  destruct (catalog_of_rows_lookup (rows_of t) ∅ k) as [L1 L2]; [rewrite K; apply NoDup_fst_map_to_list|].
  destruct (t !! k) as [a|] eqn:E; cbn.
  - apply L1; [|by apply (ok_ids _ Ht)]. apply list_elem_of_fmap. exists (k, a). split; [done|]. by apply elem_of_map_to_list.
  - rewrite L2; [apply lookup_empty|]. rewrite K. intros ([x a] & -> & I)%list_elem_of_fmap.
    apply elem_of_map_to_list in I. cbn in E. congruence.
Qed.

Lemma loaded_depends t a b : catalog_ok t -> depends (catalog_of_rows (rows_of t)) a b <-> needs t a b.
Proof.
  intros Ht. unfold depends, needs. rewrite loaded_lookup by done. split.
  - intros (n & (r & Hr & ->)%fmap_Some & Hb). exists r. split; [done|]. by apply elem_of_list_to_set in Hb.
  - intros (r & -> & Hb). eexists. split; [done|]. by apply elem_of_list_to_set.
Qed.

(** C32 (admin_applications): whatever applications administrators create,
    change and delete, one request after the other, the table never holds a
    dependency on an application that is not there, nor a cycle, and every
    installer path is one the installer accepts for its type.  So the
    resolution of a job that selects known applications fails only when one
    of those it needs is disabled. *)
Theorem catalog_stays_installable {X} `{Platform X} t :
  rtc (catalog_step (X := X)) ∅ t ->
  catalog_ok t
  /\ forall selected, (forall k, k ∈ selected -> is_Some (t !! k)) ->
     let catalog := catalog_of_rows (rows_of t) in
     snd (resolve_install_order selected catalog) = []
     <-> forall k, wanted catalog selected k -> exists a, t !! k = Some a /\ app_enabled (app_row a) = true.
Proof.
  intros R%reachable_ok. split; [done|]. intros selected S catalog.
  assert (K : forall k, wanted catalog selected k -> is_Some (t !! k)).
  { intros k (a & Ha & P). apply S in Ha. induction P as [|x y z D _ IH]; [done|].
    apply IH. apply loaded_depends in D; [|done]. by eapply (ok_known _ R). }
  rewrite (proj1 (resolve_install_order_spec selected catalog)). split.
  - intros E k Wk. destruct (E k Wk) as [(n & Hn & En) _]. unfold catalog in Hn. rewrite loaded_lookup in Hn by done.
    apply fmap_Some in Hn as (a & Ha & ->). by exists a.
  - intros E k Wk. destruct (E k Wk) as (a & Ha & En). split.
    + exists (app_node (app_row a)). unfold catalog. by rewrite loaded_lookup, Ha by done.
    + intros C. apply (ok_acyclic _ R k). revert C. apply tc_mono. intros x y. by apply loaded_depends.
Qed.

(** ** Sample requests *)

Definition sample_app (name : string) (deps : list string) : ApplicationCreate :=
  MkAppCreate name "1.0" "" MSI "\\files\apps\agent.msi" "" REGISTRY_KEY {["key_path" := JStr "HKLM\SOFTWARE\Agent"]}
    600 false true deps.

Definition ID_A : string := "aaaaaaaa-0000-4000-8000-000000000001".
Definition ID_B : string := "bbbbbbbb-0000-4000-8000-000000000002".

Definition after (r : res CatalogError (Catalog * AuditEvent)) (t : Catalog) : Catalog :=
  match r with Ok (t', _) => t' | Err _ => t end.

Definition CATALOG_A : Catalog := after (create_application (X := Sample) None ID_A (sample_app "Agent" []) ∅) ∅.
Definition CATALOG_AB : Catalog :=
  after (create_application (X := Sample) None ID_B (sample_app "Base" [ID_A]) CATALOG_A) CATALOG_A.

Lemma create_reachable user id p (t : Catalog) :
  is_ok (create_application (X := Sample) user id p t) = true ->
  catalog_step (X := Sample) t (after (create_application (X := Sample) user id p t) t).
Proof. destruct (create_application _ _ _ _) as [[t' e]|] eqn:E; [|done]. intros _. by eapply step_create. Qed.

Lemma sample_reachable : rtc (catalog_step (X := Sample)) ∅ CATALOG_AB.
Proof.
  eapply rtc_l; [apply (create_reachable None ID_A (sample_app "Agent" [])); by vm_compute|].
  eapply rtc_l; [apply (create_reachable None ID_B (sample_app "Base" [ID_A])); by vm_compute|]. apply rtc_refl.
Qed.

Lemma catalog_stays_installable_witness :
  catalog_ok CATALOG_AB /\ List.length (map_to_list CATALOG_AB) = 2%nat
  /\ snd (resolve_install_order [ID_B] (catalog_of_rows (rows_of CATALOG_AB))) = []
  /\ exists a, CATALOG_AB !! ID_B = Some a /\ app_enabled (app_row a) = true.
Proof.
  destruct (catalog_stays_installable CATALOG_AB sample_reachable) as [O H]. split; [exact O|].
  split; [vm_compute; reflexivity|].
  assert (snd (resolve_install_order [ID_B] (catalog_of_rows (rows_of CATALOG_AB))) = []) as E by (vm_compute; reflexivity).
  split; [exact E|].
  refine (proj1 (H [ID_B] _) E ID_B _).
  - intros k ->%list_elem_of_singleton. vm_compute. by eexists.
  - exists ID_B. split; [by apply list_elem_of_singleton|apply rtc_refl].
Defined.

(** ** What slips through *)

(** Two requests that read the table at the same time: each passes the cycle
    check, and together they make a cycle. *)
Lemma concurrent_edits_make_cycle :
  let depend d := no_change <| au_dependency_ids := Some (Some [d]) |> in
  let t := after (create_application (X := Sample) None ID_B (sample_app "Base" []) CATALOG_A) CATALOG_A in
  match update_application_row None ID_A (depend ID_B) t, update_application_row None ID_B (depend ID_A) t with
  | Ok (a, _), Ok (b, _) =>
      let t' := commit_row ID_B b (commit_row ID_A a t) in
      snd (resolve_install_order [ID_A] (catalog_of_rows (rows_of t')))
      = ["Circular dependency detected: Agent -> Base"]
      /\ is_ok (update_application (X := Sample) None ID_B (depend ID_A) (commit_row ID_A a t)) = false
  | _, _ => False
  end.
Proof. by vm_compute. Qed.

(** A change of the detection configuration alone is stored unchecked: the
    probe runs [reg.exe] with an argument of the caller's own. *)
Lemma unchecked_detection_config :
  let config := {["key_path" := JStr ("HKLM\SOFTWARE" ++ DQ ++ " /s " ++ DQ)]} : gmap string json in
  let change := no_change <| au_detection_config := Some (Some config) |> in
  validate_detection_config (X := Sample) REGISTRY_KEY config = Err "Registry key paths must not contain quotes."
  /\ match update_application (X := Sample) None ID_A change CATALOG_A with
     | Ok (t, _) =>
         match t !! ID_A with
         | Some a => detection_programs (X := Sample) (detection_method (app_row a)) (detection_config (app_row a))
                     = Ok [Native REG_PATH ("query " ++ DQ ++ "HKLM\SOFTWARE" ++ DQ ++ " /s " ++ DQ ++ DQ)]
         | None => False
         end
     | Err _ => False
     end.
Proof. by vm_compute. Qed.

(** A change of the method alone leaves a configuration without the key the
    probe needs: the stage ends with a [KeyError]. *)
Lemma unchecked_detection_method :
  match update_application (X := Sample) None ID_A (no_change <| au_detection_method := Some (Some FILE_EXISTS) |>) CATALOG_A with
  | Ok (t, _) =>
      match t !! ID_A with
      | Some a => detection_programs (X := Sample) (detection_method (app_row a)) (detection_config (app_row a)) = Err "path"
      | None => False
      end
  | Err _ => False
  end.
Proof. by vm_compute. Qed.

(** A rename is not checked for the name being taken; a creation under a name
    two applications carry fails with an internal error. *)
Lemma rename_takes_name :
  let t := after (update_application (X := Sample) None ID_B (no_change <| au_name := Some (Some "Agent") |>) CATALOG_AB) ∅ in
  List.length (named "Agent" t) = 2%nat
  /\ create_application (X := Sample) None "cccccccc-0000-4000-8000-000000000003" (sample_app "Agent" []) t
     = Err MultipleResultsFound.
Proof. by vm_compute. Qed.

(** Errors are recognised by their text: a disabled application whose name
    contains [Circular] makes every change of dependencies fail. *)
Lemma name_mistaken_for_cycle :
  let t := after (update_application (X := Sample) None ID_A
                    (no_change <| au_name := Some (Some "Circular saw") |> <| au_enabled := Some (Some false) |>) CATALOG_AB) ∅ in
  let id := "cccccccc-0000-4000-8000-000000000003" in
  create_application (X := Sample) None id (sample_app "Other" []) t
  = invalid ("Dependency validation failed: " ++ disabled_message (MkNode ID_A "Circular saw" false ∅)) [].
Proof. by vm_compute. Qed.
