(* ===== verification/Credentials.v ===== *)
(** * The credential store

    [app/secrets/] and the credential endpoints of
    [app/api/v1/admin_platform.py]: keys and their rotation, the provider that
    resolves a reference to a value, and the endpoints that create, change and
    delete credential pairs.

    The authenticated encryption of the cryptography package (Fernet) and the
    derivation of a key are the class [Fernet]; a ciphertext opens under its own
    key only ([FernetLaws]).  The endpoints act on the rows they read; a request
    that fails leaves them alone (the session is rolled back). *)

From Stdlib Require Import ZArith Lia Ascii String List Bool.
From stdpp Require Import base tactics list strings gmap.
From S2P Require Import Prelude PyStr Regex Errors Schemas AuditTrail Service World Catalog.

Local Open Scope string_scope.
Local Open Scope Z_scope.

(** ** Encryption ([encryption.py]) *)

(** [fernet_of bytes] is the cipher whose key is the SHA-256 digest of the
    bytes; [seal k nonce plain] is a ciphertext; [unseal k text] is [None] for
    [InvalidToken] and for a text that is not ASCII. *)
Class Fernet := {
  Key : Type;
  fernet_of : string -> Key;
  seal : Key -> string -> string -> string;
  unseal : Key -> string -> option string;
}.

Class FernetLaws `{Fernet} : Prop := {
  unseal_seal k n v : unseal k (seal k n v) = Some v;
  unseal_only k k' n v v' : unseal k' (seal k n v) = Some v' -> k' = k;
  seal_nonempty k n v : seal k n v <> "";
}.

Definition _KEY_LABEL : string := "infraops/credential-store/v1" ++ String (ascii_of_nat 0) "".

Definition _derive `{Fernet} (root : string) : Key := fernet_of (_KEY_LABEL ++ root).

Record KeySettings := MkKeys {
  credential_encryption_key : string;
  credential_encryption_previous_keys : string;
  secret_key : string;
}.

Definition or_text (a b : string) : string := if String.eqb a "" then b else a.

Definition primary_root (s : KeySettings) : string := or_text (credential_encryption_key s) (secret_key s).

Definition add_root (roots : list string) (root : string) : list string :=
  if String.eqb root "" || bool_decide (root ∈ roots) then roots else (roots ++ [root])%list.

Definition _key_roots (s : KeySettings) : list string :=
  add_root (fold_left add_root (List.map strip (split_on "," (credential_encryption_previous_keys s))) [primary_root s])
    (secret_key s).

(** How a secret operation fails. *)
Inductive SecretFailure :=
| SecretNotFoundError (name : string)
| SecretsProviderError (message : string)
| EmptySecret.

Section Encryption.
Context `{Fernet}.

Definition encrypt_secret (s : KeySettings) (nonce value : string) : res SecretFailure string :=
  if String.eqb value "" then Err EmptySecret else Ok (seal (_derive (primary_root s)) nonce value).

(** The first key that opens the text. *)
Fixpoint open_with (keys : list Key) (text : string) : option string :=
  match keys with
  | [] => None
  | k :: r => match unseal k text with Some v => Some v | None => open_with r text end
  end.

Definition undecryptable : string :=
  "A stored credential could not be decrypted. Verify CREDENTIAL_ENCRYPTION_KEY "
  ++ "(or SECRET_KEY) and CREDENTIAL_ENCRYPTION_PREVIOUS_KEYS.".

Definition decrypt_secret (s : KeySettings) (value : string) : res SecretFailure string :=
  match open_with (List.map _derive (_key_roots s)) value with
  | Some v => Ok v
  | None => Err (SecretsProviderError undecryptable)
  end.

Definition reencrypt_secret (s : KeySettings) (nonce value : string) : res SecretFailure string :=
  match open_with (List.map _derive (_key_roots s)) value with
  | Some v => Ok (seal (_derive (primary_root s)) nonce v)
  | None => Err (SecretsProviderError "A stored credential could not be re-encrypted.")
  end.

End Encryption.

(** ** Rows *)

Record SecretReference := MkSecretRow {
  sr_id : string;
  sr_name : string;
  sr_provider : string;
  sr_purpose : string;
  sr_description : string;
  sr_meta : list (string * json);
  encrypted_username : option string;
  encrypted_password : option string;
  sr_revision : Z;
  sr_created_by : option string;
}.

#[export] Instance eta_secret_row : Eta SecretReference := fun r =>
  MkSecretRow (sr_id r) (sr_name r) (sr_provider r) (sr_purpose r) (sr_description r) (sr_meta r)
    (encrypted_username r) (encrypted_password r) (sr_revision r) (sr_created_by r).

Definition row_named (name : string) (rows : list SecretReference) : option SecretReference :=
  find_first (fun r => String.eqb (sr_name r) name) rows.
Definition row_by_id (id : string) (rows : list SecretReference) : option SecretReference :=
  find_first (fun r => String.eqb (sr_id r) id) rows.

(** ** The provider ([database_provider.py]) *)

Inductive CredentialField := Username | Password.

Definition field_of (s : string) : option CredentialField :=
  if String.eqb s "username" then Some Username else if String.eqb s "password" then Some Password else None.

(** [s.rpartition("/")] *)
Fixpoint rpartition (l : list ascii) : option (list ascii * list ascii) :=
  match l with
  | [] => None
  | c :: r => match rpartition r with
              | Some (a, b) => Some (c :: a, b)
              | None => if Ascii.eqb c "/" then Some ([], r) else None
              end
  end.

Definition _split (secret_name : string) : res SecretFailure (string * CredentialField) :=
  match rpartition (chars secret_name) with
  | Some ((_ :: _) as base, field) =>
      match field_of (text field) with
      | Some f => Ok (text base, f)
      | None => Err (SecretNotFoundError secret_name)
      end
  | _ => Err (SecretNotFoundError secret_name)
  end.

Definition encrypted (f : CredentialField) (r : SecretReference) : option string :=
  match f with Username => encrypted_username r | Password => encrypted_password r end.

Definition get_secret `{Fernet} (s : KeySettings) (rows : list SecretReference) (secret_name : string)
    : res SecretFailure string :=
  let? p := _split secret_name in
  let found := find_first (fun r => String.eqb (sr_name r) (fst p) && String.eqb (sr_provider r) "database") rows in
  match match found with Some r => encrypted (snd p) r | None => None end with
  | None | Some "" => Err (SecretNotFoundError secret_name)
  | Some text => decrypt_secret s text
  end.

Definition get_credentials `{Fernet} (s : KeySettings) (rows : list SecretReference) (username_ref password_ref : string)
    : res SecretFailure (string * string) :=
  let? u := get_secret s rows username_ref in
  let? p := get_secret s rows password_ref in Ok (u, p).

(** ** Administration *)

Record SecretReferenceCreate := MkSecretCreate {
  sc_name : string;
  sc_provider : string;
  sc_purpose : string;
  sc_username : string;
  sc_password : string;
  sc_description : string;
  sc_meta : list (string * json);
}.

Record SecretReferenceUpdate := MkSecretUpdate {
  su_purpose : Change string;
  su_username : Change string;
  su_password : Change string;
  su_description : Change string;
}.

Record SecretReferenceOut := MkSecretOut {
  sro_id : string;
  sro_name : string;
  sro_provider : string;
  sro_purpose : string;
  sro_description : string;
  sro_meta : list (string * json);
  configured : bool;
  sro_revision : Z;
}.

Definition PURPOSES : list string := ["generic"; "vcenter"; "guest_administrator"; "domain_join"; "windows_product_key"].

Definition validate_secret_create (p : SecretReferenceCreate) : res string SecretReferenceCreate :=
  let? _ := check (sized 2 150 (sc_name p) && fullmatch SECRET_REFERENCE_PATTERN (sc_name p)) "name" in
  let? _ := check (String.eqb (sc_provider p) "database") "provider" in
  let? _ := check (bool_decide (sc_purpose p ∈ PURPOSES)) "purpose" in
  let? _ := check (sized 1 320 (sc_username p)) "username" in
  let? _ := check (sized 1 1024 (sc_password p)) "password" in
  let? _ := check (len (sc_description p) <=? 1000) "description" in
  Ok p.

Definition validate_secret_update (p : SecretReferenceUpdate) : res string SecretReferenceUpdate :=
  let? _ := check (holds_of (fun s => bool_decide (s ∈ PURPOSES)) (su_purpose p)) "purpose" in
  let? _ := check (holds_of (sized 1 320) (su_username p)) "username" in
  let? _ := check (holds_of (sized 1 1024) (su_password p)) "password" in
  let? _ := check (holds_of (fun s => len s <=? 1000) (su_description p)) "description" in
  Ok p.

(** How an endpoint fails: the body is refused, an application error, or an
    exception of the server. *)
Inductive AdminFailure :=
| InvalidBody (field : string)
| Declined (e : AppError)
| ServerError (exception : string).

Definition body {A} (r : res string A) : res AdminFailure A :=
  match r with Ok a => Ok a | Err f => Err (InvalidBody f) end.
Definition stored {A} (r : res SecretFailure A) : res AdminFailure A :=
  match r with Ok a => Ok a | Err EmptySecret => Err (ServerError "ValueError") | Err _ => Err (ServerError "SecretsProviderError") end.
Definition missing {A} (m : string) : res AdminFailure A := Err (Declined (MkAppError NotFoundError m [])).

Definition filled (o : option string) : bool := match o with None | Some "" => false | Some _ => true end.

Definition secret_out (r : SecretReference) : SecretReferenceOut :=
  MkSecretOut (sr_id r) (sr_name r) (sr_provider r) (sr_purpose r) (sr_description r) (sr_meta r)
    (filled (encrypted_username r) && filled (encrypted_password r)) (sr_revision r).

Definition list_credentials (rows : list SecretReference) : list SecretReferenceOut := List.map secret_out rows.

(** An audit row of an administrator's change. *)
Definition admin_audit (action_ : string) (user : option Caller) (kind name : string) (details : list (string * json))
    : AuditEvent := audit_event action_ (option_map snd user) kind (Some name) None None None None details None.

Section Endpoints.
Context `{Fernet} (keys : KeySettings).

(** [id], and the randomness of the two encryptions. *)
Definition create_credential (user : option Caller) (id nonce1 nonce2 : string) (payload : SecretReferenceCreate)
    (rows : list SecretReference) : res AdminFailure (SecretReferenceOut * AuditEvent * list SecretReference) :=
  let? p := body (validate_secret_create payload) in
  match row_named (sc_name p) rows with
  | Some _ => Err (Declined (MkAppError ConflictError
                     ("A credential reference named " ++ SQ ++ sc_name p ++ SQ ++ " already exists.") []))
  | None =>
      let? u := stored (encrypt_secret keys nonce1 (sc_username p)) in
      let? w := stored (encrypt_secret keys nonce2 (sc_password p)) in
      let row := MkSecretRow id (sc_name p) (sc_provider p) (sc_purpose p) (sc_description p) (sc_meta p)
                   (Some u) (Some w) 1 (option_map fst user) in
      Ok (MkSecretOut id (sc_name p) (sc_provider p) (sc_purpose p) (sc_description p) (sc_meta p) true 1,
          admin_audit "CREDENTIAL_CREATED" user "credential_reference" (sc_name p)
            [("provider", JStr (sc_provider p)); ("purpose", JStr (sc_purpose p))],
          (rows ++ [row])%list)
  end.

(** A value that is given replaces the ciphertext. *)
Definition replaced (nonce : string) (given : option string) (old : option string) : res AdminFailure (option string) :=
  match given with
  | None => Ok old
  | Some v => let? t := stored (encrypt_secret keys nonce v) in Ok (Some t)
  end.

(** The fields of the body, sorted. *)
Definition secret_fields (p : SecretReferenceUpdate) : list json :=
  (if su_description p then [JStr "description"] else []) ++ (if su_password p then [JStr "password"] else [])
  ++ (if su_purpose p then [JStr "purpose"] else []) ++ (if su_username p then [JStr "username"] else []).

(** Purpose and description are columns without NULL. *)
Definition secret_row_after (nonce1 nonce2 : string) (p : SecretReferenceUpdate) (row : SecretReference)
    : res AdminFailure SecretReference :=
  match column (sr_purpose row) (su_purpose p), column (sr_description row) (su_description p) with
  | Some purpose, Some text =>
      let? u := replaced nonce1 (given_value (su_username p)) (encrypted_username row) in
      let? w := replaced nonce2 (given_value (su_password p)) (encrypted_password row) in
      let row1 := row <| sr_purpose := purpose |> <| sr_description := text |> <| encrypted_username := u |>
                      <| encrypted_password := w |> in
      Ok (match given_value (su_username p), given_value (su_password p) with
          | None, None => row1
          | _, _ => row1 <| sr_provider := "database" |> <| sr_revision := sr_revision row + 1 |>
          end)
  | _, _ => Err (ServerError "IntegrityError")
  end.

Definition update_credential (user : option Caller) (nonce1 nonce2 id : string) (payload : SecretReferenceUpdate)
    (rows : list SecretReference) : res AdminFailure (SecretReferenceOut * AuditEvent * list SecretReference) :=
  let? p := body (validate_secret_update payload) in
  match row_by_id id rows with
  | None => missing "Credential not found."
  | Some row =>
      let? row' := secret_row_after nonce1 nonce2 p row in
      Ok (secret_out row',
          admin_audit "CREDENTIAL_UPDATED" user "credential_reference" (sr_name row) [("fields", JArr (secret_fields p))],
          List.map (fun r => if String.eqb (sr_id r) id then row' else r) rows)
  end.

Definition delete_credential (user : option Caller) (id : string) (rows : list SecretReference)
    : res AdminFailure (AuditEvent * list SecretReference) :=
  match row_by_id id rows with
  | None => missing "Credential reference not found."
  | Some row =>
      Ok (admin_audit "CREDENTIAL_DELETED" user "credential_reference" (sr_name row) [],
          List.filter (fun r => negb (String.eqb (sr_id r) id)) rows)
  end.

(** ** Rotation ([rotate.py]) *)

Definition rotate_value (nonce : string) (o : option string) : res SecretFailure (option string) :=
  match o with
  | None => Ok None
  | Some "" => Ok (Some "")
  | Some t => let? t' := reencrypt_secret keys nonce t in Ok (Some t')
  end.

Definition rotate_row (nonce : string) (r : SecretReference) : res SecretFailure SecretReference :=
  let? u := rotate_value nonce (encrypted_username r) in
  let? w := rotate_value nonce (encrypted_password r) in
  Ok (r <| encrypted_username := u |> <| encrypted_password := w |>).

(** One transaction: the first failure rolls all of it back.  The randomness is
    given. *)
Fixpoint rotate_all (nonce : string) (rows : list SecretReference) : res SecretFailure (list SecretReference) :=
  match rows with
  | [] => Ok []
  | r :: rest => let? r' := rotate_row nonce r in let? l := rotate_all nonce rest in Ok (r' :: l)
  end.

End Endpoints.

(** ** What the store promises *)

Section Promises.
Context `{FernetLaws}.

Lemma open_seal (keys : list Key) k n v : k ∈ keys -> open_with keys (seal k n v) = Some v.
Proof.
  induction keys as [|k0 keys IH]; [by intros ?%elem_of_nil|]. intros I. cbn.
  destruct (unseal k0 (seal k n v)) as [v'|] eqn:E.
  - pose proof (unseal_only _ _ _ _ _ E) as ->. rewrite unseal_seal in E. congruence.
  - apply elem_of_cons in I as [->|I]; [by rewrite unseal_seal in E|by apply IH].
Qed.

Lemma add_root_keeps roots root x : x ∈ roots -> x ∈ add_root roots root.
Proof. intros I. unfold add_root. destruct (_ || _); [done|]. set_solver. Qed.

Lemma primary_is_root s : primary_root s ∈ _key_roots s.
Proof.
  unfold _key_roots. apply add_root_keeps. assert (I : primary_root s ∈ [primary_root s]) by set_solver. revert I.
  generalize [primary_root s]. induction (List.map strip _) as [|r l IH]; intros roots I; [done|]. by apply IH, add_root_keeps.
Qed.

Lemma decrypt_sealed s root n v : root ∈ _key_roots s -> decrypt_secret s (seal (_derive root) n v) = Ok v.
Proof. intros I. unfold decrypt_secret. by rewrite open_seal by (by apply list_elem_of_fmap_2). Qed.

(** *** Names *)

Lemma rpartition_app a b : "/"%char ∉ b -> rpartition (a ++ "/"%char :: b) = Some (a, b).
Proof.
  intros N. assert (B : rpartition b = None).
  { induction b as [|c b IH]; [done|]. cbn. rewrite IH by set_solver. destruct (Ascii.eqb_spec c "/"); [set_solver|done]. }
  induction a as [|c a IH]; cbn; [by rewrite B|by rewrite IH].
Qed.

Definition field_name (f : CredentialField) : string := match f with Username => "username" | Password => "password" end.

Lemma split_reference name f : name <> "" -> _split (name ++ "/" ++ field_name f) = Ok (name, f).
Proof.
  intros N. unfold _split. rewrite chars_app. change (chars ("/" ++ field_name f)) with ("/"%char :: chars (field_name f)).
  rewrite rpartition_app by (destruct f; cbn; set_solver). 
  destruct (chars name) as [|c l] eqn:E; [destruct N; by rewrite <- (text_chars name), E|].
  rewrite text_chars. assert (T : text (c :: l) = name) by (by rewrite <- E, text_chars). change (String c (text l)) with (text (c :: l)). rewrite T. by destruct f.
Qed.

(** A row the provider resolves under the name: the field of the row holds a
    ciphertext of [v] under the root. *)
Definition holds_secret (root : string) (f : CredentialField) (v : string) (r : SecretReference) : Prop :=
  exists n, encrypted f r = Some (seal (_derive root) n v).

Lemma get_secret_row s rows name r root f v :
  name <> "" -> find_first (fun r => String.eqb (sr_name r) name && String.eqb (sr_provider r) "database") rows = Some r ->
  holds_secret root f v r -> root ∈ _key_roots s -> get_secret s rows (name ++ "/" ++ field_name f) = Ok v.
Proof.
  intros N F (n & E) I. unfold get_secret. rewrite split_reference by done. cbn [res_bind fst snd]. rewrite F, E.
  destruct (seal (_derive root) n v) eqn:S; [by apply seal_nonempty in S|]. rewrite <- S. by apply decrypt_sealed.
Qed.

Lemma find_first_app {A} (p : A -> bool) l m : find_first p (l ++ m) = match find_first p l with Some x => Some x | None => find_first p m end.
Proof. induction l as [|x l IH]; [done|]. cbn. by destruct (p x). Qed.

Lemma no_row_named name rows : row_named name rows = None ->
  find_first (fun r => String.eqb (sr_name r) name && String.eqb (sr_provider r) "database") rows = None.
Proof. unfold row_named. induction rows as [|r l IH]; [done|]. cbn. by destruct (String.eqb (sr_name r) name). Qed.

Lemma nonempty_name p : validate_secret_create p = Ok p -> sc_name p <> "" /\ sc_provider p = "database".
Proof.
  unfold validate_secret_create, check. destruct (sized 2 150 (sc_name p) && _) eqn:E; [|done]. cbn [res_bind].
  destruct (String.eqb (sc_provider p) "database") eqn:D; [|done]. intros _. apply String.eqb_eq in D. split; [|done].
  intros Z. by rewrite Z in E.
Qed.

Lemma validate_create_same p p' : validate_secret_create p = Ok p' -> p' = p.
Proof.
  unfold validate_secret_create. intros V. repeat (apply res_bind_ok in V as (? & _ & V)). by injection V.
Qed.

(** C15 (create_credential, get_secret): a new credential pair resolves to the
    values that were entered, under the current keys and under every later
    configuration that still lists the key they were encrypted with; no other
    reference changes its meaning. *)
Theorem created_credential_resolves keys later user id n1 n2 p rows out audit rows' :
  create_credential keys user id n1 n2 p rows = Ok (out, audit, rows') -> primary_root keys ∈ _key_roots later ->
  get_secret later rows' (sc_name p ++ "/username") = Ok (sc_username p)
  /\ get_secret later rows' (sc_name p ++ "/password") = Ok (sc_password p)
  /\ forall reference, (forall f, _split reference <> Ok (sc_name p, f)) ->
       get_secret later rows' reference = get_secret later rows reference.
Proof.
  unfold create_credential. intros C L. apply res_bind_ok in C as (p' & V & C).
  destruct (validate_secret_create p) as [q|] eqn:Vp; [|done]. injection V as <-.
  pose proof (validate_create_same _ _ Vp) as ->. destruct (nonempty_name p Vp) as [N D].
  destruct (row_named (sc_name p) rows) eqn:R; [done|]. apply no_row_named in R.
  apply res_bind_ok in C as (u & U & C). apply res_bind_ok in C as (w & W & C). injection C as _ _ <-.
  assert (S : forall n v t, stored (encrypt_secret keys n v) = Ok t -> t = seal (_derive (primary_root keys)) n v).
  { intros n v t. unfold encrypt_secret. destruct (String.eqb v ""); [done|]. by intros [= <-]. }
  apply S in U, W. subst u w.
  match goal with |- context [(rows ++ [?row])%list] => set (r := row) end.
  assert (F : find_first (fun r => String.eqb (sr_name r) (sc_name p) && String.eqb (sr_provider r) "database") (rows ++ [r])%list = Some r).
  { rewrite find_first_app, R. cbn. by rewrite String.eqb_refl, D. }
  split; [|split].
  - apply (get_secret_row later _ _ r (primary_root keys) Username); [done|exact F|by exists n1|done].
  - apply (get_secret_row later _ _ r (primary_root keys) Password); [done|exact F|by exists n2|done].
  - intros reference O. unfold get_secret. destruct (_split reference) as [[base f]|] eqn:E; [|done]. cbn [res_bind fst snd].
    rewrite find_first_app. cbn. destruct (find_first _ rows); [done|].
    change (sr_name r) with (sc_name p). destruct (String.eqb_spec (sc_name p) base) as [<-|]; [by destruct (O f)|cbn [andb]; by destruct (find_first _ rows)].
Qed.

(** *** Rotation *)

(** Every ciphertext of the rows is under a key the configuration lists. *)
Definition sealed_value (s : KeySettings) (o : option string) : Prop :=
  match o with
  | None | Some "" => True
  | Some t => exists root n v, root ∈ _key_roots s /\ t = seal (_derive root) n v
  end.
Definition sealed_row (s : KeySettings) (r : SecretReference) : Prop :=
  forall f, sealed_value s (encrypted f r).

(** The value behind a ciphertext. *)
Definition opened (s : KeySettings) (o : option string) : option (res SecretFailure string) :=
  match o with
  | None | Some "" => None
  | Some t => Some (decrypt_secret s t)
  end.

Lemma rotate_value_ok s nonce o : sealed_value s o ->
  exists o', rotate_value s nonce o = Ok o' /\
    forall s', primary_root s ∈ _key_roots s' -> opened s' o' = opened s o.
Proof.
  destruct o as [[|c t]|]; [by exists (Some "")| |by exists None].
  intros (root & n & v & I & E). unfold rotate_value, reencrypt_secret. rewrite E, open_seal by (by apply list_elem_of_fmap_2).
  eexists. split; [reflexivity|]. intros s' I'. unfold opened. destruct (seal (_derive (primary_root s)) nonce v) eqn:S; [by apply seal_nonempty in S|].
  rewrite <- S, decrypt_sealed by done. destruct (seal (_derive root) n v) eqn:S2; [done|]. by rewrite <- S2, decrypt_sealed.
Qed.

Lemma rotate_row_ok s nonce r : sealed_row s r ->
  exists r', rotate_row s nonce r = Ok r' /\ sr_name r' = sr_name r /\ sr_provider r' = sr_provider r /\
    forall s' f, primary_root s ∈ _key_roots s' -> opened s' (encrypted f r') = opened s (encrypted f r).
Proof.
  intros S. destruct (rotate_value_ok s nonce _ (S Username)) as (u & U & OU).
  destruct (rotate_value_ok s nonce _ (S Password)) as (w & W & OW). cbn in U, W. unfold rotate_row. rewrite U, W. cbn [res_bind].
  eexists. split; [reflexivity|]. split_and!; [done|done|]. intros s' [] I; [by apply OU|by apply OW].
Qed.

Lemma get_secret_opened s rows reference :
  get_secret s rows reference =
  match _split reference with
  | Err e => Err e
  | Ok (base, f) =>
      match find_first (fun r => String.eqb (sr_name r) base && String.eqb (sr_provider r) "database") rows with
      | None => Err (SecretNotFoundError reference)
      | Some r => match opened s (encrypted f r) with Some v => v | None => Err (SecretNotFoundError reference) end
      end
  end.
Proof.
  unfold get_secret. destruct (_split reference) as [[base f]|]; [|done]. cbn [res_bind fst snd].
  destruct (find_first _ rows) as [r|]; [|done]. unfold opened. by destruct (encrypted f r) as [[]|].
Qed.

(** C24 (rotate_all, reencrypt_secret): a key rotation loses no credential.  When
    every stored ciphertext is under a key the configuration lists, the
    rotation goes through, and afterwards every reference resolves as before,
    also under a configuration from which all former keys have been removed. *)
Theorem key_rotation_preserves s nonce rows :
  Forall (sealed_row s) rows ->
  exists rows', rotate_all s nonce rows = Ok rows' /\
    forall s' reference, primary_root s ∈ _key_roots s' -> get_secret s' rows' reference = get_secret s rows reference.
Proof.
  induction 1 as [|r rows S _ (l & R & G)].
  - exists []. split; [done|]. intros s' reference _. by rewrite !get_secret_opened.
  - destruct (rotate_row_ok s nonce r S) as (r' & Rr & N & P & O). exists (r' :: l). cbn. rewrite Rr, R. split; [done|].
    intros s' reference I. specialize (G s' reference I). rewrite !get_secret_opened in *.
    destruct (_split reference) as [[base f]|]; [|done]. cbn. rewrite N, P.
    destruct (String.eqb (sr_name r) base && String.eqb (sr_provider r) "database"); [|exact G]. by rewrite O.
Qed.

End Promises.

(** Neither the answer nor the audit row of a creation depends on the values. *)
Lemma create_credential_discreet `{Fernet} keys user id n1 n2 p rows u w a b :
  create_credential keys user id n1 n2 p rows = Ok a ->
  create_credential keys user id n1 n2
    (MkSecretCreate (sc_name p) (sc_provider p) (sc_purpose p) u w (sc_description p) (sc_meta p)) rows = Ok b ->
  fst a = fst b.
Proof.
  unfold create_credential. intros A B. apply res_bind_ok in A as (p1 & V1 & A), B as (p2 & V2 & B).
  unfold body in V1, V2. destruct (validate_secret_create p) as [q1|] eqn:E1; [|done].
  destruct (validate_secret_create (MkSecretCreate _ _ _ u w _ _)) as [q2|] eqn:E2; [|done].
  injection V1 as <-. injection V2 as <-. apply validate_create_same in E1, E2. subst q1 q2. cbn [sc_name] in B.
  destruct (row_named (sc_name p) rows); [done|]. apply res_bind_ok in A as (? & _ & A), B as (? & _ & B).
  apply res_bind_ok in A as (? & _ & A), B as (? & _ & B). by injection A as <-; injection B as <-.
Qed.

(** ** A stand-in cipher *)

(** The key is the length of its root: that many marks head the ciphertext. *)
Fixpoint toy_seal (k : nat) (v : string) : string :=
  match k with O => String "|" v | S k' => String "x" (toy_seal k' v) end.

Fixpoint toy_unseal (k : nat) (t : string) : option string :=
  match k, t with
  | O, String "|" v => Some v
  | S k', String "x" t' => toy_unseal k' t'
  | _, _ => None
  end.

Definition toy_fernet : Fernet := {|
  Key := nat;
  fernet_of bytes := String.length bytes;
  seal k _ v := toy_seal k v;
  unseal := toy_unseal;
|}.

Lemma toy_laws : @FernetLaws toy_fernet.
Proof.
  split; cbn [unseal seal toy_fernet Key].
  - intros k _ v. by induction k.
  - intros k k' _ v v'. revert k'. induction k as [|k IH]; intros [|k'] E; cbn in E; [done..|]. f_equal. by apply IH.
  - intros [] _ v; discriminate.
Qed.

Definition OLD_KEYS : KeySettings := MkKeys "old-root" "" "jwt".
Definition NEW_KEYS : KeySettings := MkKeys "new-root-1" " old-root " "jwt".
Definition ONLY_NEW_KEYS : KeySettings := MkKeys "new-root-1" "" "jwt".

Definition ADMIN_PAIR : SecretReferenceCreate :=
  MkSecretCreate "infra/guest-admin" "database" "guest_administrator" "Administrator" "Pa55" "" [].

(** A pair created under the old key is read under the new configuration. *)
Lemma created_credential_resolves_witness :
  match @create_credential toy_fernet OLD_KEYS None "id-1" "n" "m" ADMIN_PAIR [] with
  | Ok (_, _, rows) => @get_secret toy_fernet NEW_KEYS rows "infra/guest-admin/password" = Ok "Pa55"
  | Err _ => False
  end.
Proof.
  destruct (@create_credential toy_fernet OLD_KEYS None "id-1" "n" "m" ADMIN_PAIR []) as [[[out audit] rows]|] eqn:E; [|vm_compute in E; discriminate].
  apply (@created_credential_resolves toy_fernet toy_laws _ NEW_KEYS _ _ _ _ ADMIN_PAIR _ _ _ _ E).
  vm_compute. set_solver.
Defined.

Definition OLD_ROW : SecretReference :=
  MkSecretRow "id-1" "infra/guest-admin" "database" "guest_administrator" "" [] None (Some (toy_seal 37 "Pa55")) 1 None.

(** The rotation to the new key, after which the old one is removed. *)
Lemma key_rotation_preserves_witness :
  exists rows, @rotate_all toy_fernet NEW_KEYS "n" [OLD_ROW] = Ok rows
    /\ @get_secret toy_fernet ONLY_NEW_KEYS rows "infra/guest-admin/password" = Ok "Pa55".
Proof.
  assert (S : Forall (@sealed_row toy_fernet NEW_KEYS) [OLD_ROW]).
  { constructor; [|constructor]. intros []; [exact I|]. exists "old-root", "n", "Pa55". split; [vm_compute; set_solver|reflexivity]. }
  destruct (@key_rotation_preserves toy_fernet toy_laws NEW_KEYS "n" [OLD_ROW] S) as (rows & R & G).
  exists rows. split; [exact R|]. rewrite G; [vm_compute; reflexivity|vm_compute; set_solver].
Defined.
