(* ===== verification/Settings.v ===== *)
(** * Platform settings

    The settings endpoints of [app/api/v1/admin_platform.py] with their body
    ([app/schemas/admin.py]) and the store they write
    ([app/services/settings_store.py]; the reading side is in World), and what
    the stages of a job make of the stored values.  Regular expressions and
    [repr] are the platform's, as for the stages. *)

From Stdlib Require Import ZArith Lia Ascii String List Bool.
From stdpp Require Import base tactics list strings gmap.
From S2P Require Import Prelude PyStr Errors Schemas StateMachine AuditTrail Service Effects World Paths Placement StageSupport StagesVm.
From S2P Require Import Credentials.

Local Open Scope string_scope.
Local Open Scope Z_scope.

(** ** The body *)

(** The fields the client set. *)
Record DefaultTimeouts := MkDefaultTimeouts {
  create_vm_minutes : option Z;
  os_installation_minutes : option Z;
  vmware_tools_minutes : option Z;
  network_configuration_minutes : option Z;
  guest_operations_minutes : option Z;
}.

(** Name, default and bounds of each. *)
Definition TIMEOUT_FIELDS : list (string * (DefaultTimeouts -> option Z) * Z * Z * Z) :=
  [("create_vm_minutes", create_vm_minutes, 30, 1, 240);
   ("os_installation_minutes", os_installation_minutes, 360, 30, 720);
   ("vmware_tools_minutes", vmware_tools_minutes, 15, 1, 120);
   ("network_configuration_minutes", network_configuration_minutes, 5, 1, 60);
   ("guest_operations_minutes", guest_operations_minutes, 10, 1, 120)].

(** An absent or null field changes nothing. *)
Record PlatformSettingsUpdate := MkSettingsUpdate {
  u_vm_name_policy_regex : option string;
  u_allowed_installer_roots : option (list string);
  u_default_timeouts : option DefaultTimeouts;
  u_environment_label : option string;
  u_preferred_datastores : option (list string);
}.

Definition opt_all {A} (f : A -> bool) (o : option A) : bool := match o with Some a => f a | None => true end.

Definition timeouts_ok (t : DefaultTimeouts) : bool :=
  forallb (fun '(_, get, _, lo, hi) => opt_all (within lo hi) (get t)) TIMEOUT_FIELDS.

Fixpoint map_res {A B E} (f : A -> res E B) (l : list A) : res E (list B) :=
  match l with
  | [] => Ok []
  | x :: r => let? y := f x in let? t := map_res f r in Ok (y :: t)
  end.

Definition opt_res {A B E} (f : A -> res E B) (o : option A) : res E (option B) :=
  match o with None => Ok None | Some a => let? b := f a in Ok (Some b) end.

Definition count_within {A} (n : Z) (l : list A) : bool := Z.of_nat (List.length l) <=? n.

Section Settings.
Context {X : Type} `{Platform X}.

(** [re.compile] accepts what [re.fullmatch] can search for. *)
Definition re_compiles (pattern : string) : bool :=
  match re_fullmatch pattern "" with Some _ => true | None => false end.

(** [_regex_must_compile]: the error of [re.compile] is no [ValueError], so it
    passes through the validation and fails the request. *)
Definition _regex_must_compile (v : string) : res AdminFailure string :=
  if negb (len v <=? 300) then Err (InvalidBody "vm_name_policy_regex")
  else if re_compiles v then Ok v else Err (ServerError "re.error").

Definition _roots_must_be_paths (l : list string) : res AdminFailure (list string) :=
  if negb (count_within 20 l) then Err (InvalidBody "allowed_installer_roots")
  else match map_res validate_installer_root l with
       | Ok r => Ok r
       | Err _ => Err (InvalidBody "allowed_installer_roots")
       end.

Definition _datastore_names (l : list string) : res AdminFailure (list string) :=
  if negb (count_within 30 l) then Err (InvalidBody "preferred_datastores")
  else let names := normalize_preferred l in
       if existsb (fun n => 80 <? len n) names then Err (InvalidBody "preferred_datastores") else Ok names.

Definition validate_settings (p : PlatformSettingsUpdate) : res AdminFailure PlatformSettingsUpdate :=
  let? policy := opt_res _regex_must_compile (u_vm_name_policy_regex p) in
  let? roots := opt_res _roots_must_be_paths (u_allowed_installer_roots p) in
  let? _ := body (check (opt_all timeouts_ok (u_default_timeouts p)) "default_timeouts") in
  let? _ := body (check (opt_all (fun s => len s <=? 40) (u_environment_label p)) "environment_label") in
  let? names := opt_res _datastore_names (u_preferred_datastores p) in
  Ok (MkSettingsUpdate policy roots (u_default_timeouts p) (u_environment_label p) names).

(** ** The store *)

(** The timeouts the client gave; the others are not stored. *)
Definition timeouts_dump (t : DefaultTimeouts) : json :=
  JObj (omap (fun '(k, get, _, _, _) => option_map (fun n => (k, JNum n)) (get t)) TIMEOUT_FIELDS).

Definition given_setting {A} (k : string) (f : A -> json) (o : option A) : list (string * json) :=
  match o with Some a => [(k, f a)] | None => [] end.

(** [payload.model_dump(exclude_unset=True, exclude_none=True)] *)
Definition changes (p : PlatformSettingsUpdate) : list (string * json) :=
  given_setting SETTING_VM_NAME_POLICY JStr (u_vm_name_policy_regex p)
  ++ given_setting SETTING_ALLOWED_INSTALLER_ROOTS (fun l => JArr (List.map JStr l)) (u_allowed_installer_roots p)
  ++ given_setting SETTING_DEFAULT_TIMEOUTS timeouts_dump (u_default_timeouts p)
  ++ given_setting SETTING_ENVIRONMENT_LABEL JStr (u_environment_label p)
  ++ given_setting SETTING_PREFERRED_DATASTORES (fun l => JArr (List.map JStr l)) (u_preferred_datastores p).

Definition wrapped (v : json) : json := JObj [("value", v)].

Definition save_platform_setting (key : string) (value : json) (rows : list (string * json)) : list (string * json) :=
  if existsb (fun r => String.eqb (fst r) key) rows
  then List.map (fun r => if String.eqb (fst r) key then (key, wrapped value) else r) rows
  else (rows ++ [(key, wrapped value)])%list.

Definition save_all (l : list (string * json)) (rows : list (string * json)) : list (string * json) :=
  fold_left (fun rows e => save_platform_setting (fst e) (snd e) rows) l rows.

(** What [load_effective] makes of the rows. *)
Definition effective (rows : list (string * json)) : gmap string json := read_stored_value <$> overlay rows.

(** ** The page *)

Record PlatformSettingsOut := MkSettingsOut {
  so_policy : string;
  so_roots : list string;
  so_timeouts : list (string * Z);
  so_label : string;
  so_datastores : list string;
}.

(** [x or y] of a stored value. *)
Definition value_or (eff : gmap string json) (k : string) (y : json) : json :=
  match eff !! k with Some v => if truthy v then v else y | None => y end.

Definition crash {A} (e : string) : res AdminFailure A := Err (ServerError e).

Definition out_timeout (d : list (string * json)) (k : string) (default_ lo hi : Z) : res AdminFailure (string * Z) :=
  match match assoc k d with Some v => json_int v | None => Some default_ end with
  | Some n => if within lo hi n then Ok (k, n) else crash "ValidationError"
  | None => crash "TypeError"
  end.

Definition only_texts (l : list json) : res AdminFailure (list string) :=
  map_res (fun v => match v with JStr s => Ok s | _ => crash "ValidationError" end) l.

Definition _settings_out (eff : gmap string json) : res AdminFailure PlatformSettingsOut :=
  match value_or eff SETTING_DEFAULT_TIMEOUTS (JObj []) with
  | JObj d =>
      match iterate (value_or eff SETTING_ALLOWED_INSTALLER_ROOTS (JArr [])),
            iterate (value_or eff SETTING_PREFERRED_DATASTORES (JArr [])) with
      | Some roots, Some names =>
          let? texts := only_texts roots in
          let? timeouts := map_res (fun '(k, _, default_, lo, hi) => out_timeout d k default_ lo hi) TIMEOUT_FIELDS in
          Ok (MkSettingsOut (py_str (value_or eff SETTING_VM_NAME_POLICY (JStr ""))) texts timeouts
                (py_str (value_or eff SETTING_ENVIRONMENT_LABEL (JStr "INTERNAL"))) (List.map py_str names))
      | _, _ => crash "TypeError"
      end
  | _ => crash "AttributeError"
  end.

Definition get_settings_endpoint (rows : list (string * json)) : res AdminFailure PlatformSettingsOut :=
  _settings_out (effective rows).

(** [sorted(changes)]: insertion among the keys, which are distinct. *)
Fixpoint insert_key (k : string) (l : list string) : list string :=
  match l with
  | [] => [k]
  | x :: r => if String.leb k x then k :: l else x :: insert_key k r
  end.
Definition sorted_keys (l : list string) : list string := fold_right insert_key [] l.

(** The rows are committed before the page is built. *)
Definition update_settings (user : option Caller) (payload : PlatformSettingsUpdate) (rows : list (string * json))
    : res AdminFailure (AuditEvent * list (string * json) * res AdminFailure PlatformSettingsOut) :=
  let? p := validate_settings payload in
  let c := changes p in
  let rows' := save_all c rows in
  Ok (admin_audit "SETTINGS_UPDATED" user "platform_settings" "platform"
        [("fields", JArr (List.map JStr (sorted_keys (List.map fst c))))],
      rows', get_settings_endpoint rows').

(** The table after requests, those that fail included. *)
Definition settings_run (requests : list (option Caller * PlatformSettingsUpdate)) (rows : list (string * json))
    : list (string * json) :=
  fold_left (fun rows r => match update_settings (fst r) (snd r) rows with
                           | Ok (_, rows', _) => rows'
                           | Err _ => rows
                           end) requests rows.

(** ** What is stored *)

Definition valid_setting (k : string) (v : json) : Prop :=
  (k = SETTING_VM_NAME_POLICY /\ exists s, v = JStr s /\ (s = "" \/ re_compiles s = true))
  \/ (k = SETTING_ALLOWED_INSTALLER_ROOTS /\ exists l, v = JArr (List.map JStr l) /\ Forall plain_path l)
  \/ (k = SETTING_DEFAULT_TIMEOUTS /\ exists t, v = timeouts_dump t /\ timeouts_ok t = true)
  \/ (k = SETTING_ENVIRONMENT_LABEL /\ exists s, v = JStr s)
  \/ (k = SETTING_PREFERRED_DATASTORES /\ exists l, v = JArr (List.map JStr l)).

Lemma map_res_forall {A B E} (f : A -> res E B) (P : B -> Prop) l r :
  (forall x y, f x = Ok y -> P y) -> map_res f l = Ok r -> Forall P r.
Proof.
  intros F. revert r. induction l as [|x l IH]; intros r; cbn; [by intros [= <-]|].
  intros (y & Y & R)%res_bind_ok. apply res_bind_ok in R as (t & T & R). injection R as <-. constructor; [by eapply F|by apply IH].
Qed.

Lemma opt_res_some {A B E} (f : A -> res E B) o b : opt_res f o = Ok (Some b) -> exists a, f a = Ok b.
Proof. destruct o as [a|]; [|done]. cbn. intros (y & Y & R)%res_bind_ok. injection R as <-. eauto. Qed.

Lemma changes_valid p q : validate_settings p = Ok q -> Forall (fun e => valid_setting (fst e) (snd e)) (changes q).
Proof.
  unfold validate_settings. intros (policy & P & V)%res_bind_ok. apply res_bind_ok in V as (roots & R & V).
  apply res_bind_ok in V as (? & T & V). apply res_bind_ok in V as (? & _ & V). apply res_bind_ok in V as (names & N & V).
  injection V as <-. unfold changes, given_setting. cbn [u_vm_name_policy_regex u_allowed_installer_roots u_default_timeouts u_environment_label u_preferred_datastores].
  rewrite !Forall_app. split_and!.
  - destruct policy as [s|]; [|constructor]. apply opt_res_some in P as (a & P). unfold _regex_must_compile in P.
    destruct (len a <=? 300); [|done]. cbn in P. destruct (re_compiles a) eqn:C; [|done]. injection P as <-.
    constructor; [|constructor]. left. eauto.
  - destruct roots as [l|]; [|constructor]. apply opt_res_some in R as (a & R). unfold _roots_must_be_paths in R.
    destruct (count_within 20 a); [|done]. cbn in R. destruct (map_res validate_installer_root a) as [r|] eqn:M; [|done].
    injection R as <-. constructor; [|constructor]. right; left. split; [done|]. exists r. split; [done|].
    eapply map_res_forall; [|exact M]. intros w z. apply validate_root_plain.
  - destruct (u_default_timeouts p) as [t|]; [|constructor]. constructor; [|constructor]. right; right; left. split; [done|].
    exists t. split; [done|]. cbn [opt_all] in T. by destruct (timeouts_ok t).
  - destruct (u_environment_label p) as [s|]; constructor; [|constructor]. do 3 right; left. eauto.
  - destruct names as [l|]; constructor; [|constructor]. do 4 right. eauto.
Qed.

(** Rows as the endpoint writes them. *)
Definition stored_setting (r : string * json) : Prop := exists v, snd r = wrapped v /\ valid_setting (fst r) v.

Lemma save_stored k v rows : valid_setting k v -> Forall stored_setting rows -> Forall stored_setting (save_platform_setting k v rows).
Proof.
  intros V F. assert (N : stored_setting (k, wrapped v)) by (exists v; by split). unfold save_platform_setting.
  destruct (existsb _ rows); [|apply Forall_app; by repeat constructor].
  apply List.Forall_map. eapply Forall_impl; [exact F|]. intros [x w] S. cbn. by destruct (String.eqb x k).
Qed.

Lemma save_all_stored l rows : Forall (fun e => valid_setting (fst e) (snd e)) l -> Forall stored_setting rows ->
  Forall stored_setting (save_all l rows).
Proof.
  intros V. revert rows. induction V as [|e l Ve V IH]; intros rows F; [done|]. cbn. by apply IH, save_stored.
Qed.

Lemma settings_run_stored requests rows : Forall stored_setting rows -> Forall stored_setting (settings_run requests rows).
Proof.
  revert rows. induction requests as [|[user p] requests IH]; intros rows F; [done|]. cbn. apply IH.
  unfold update_settings. destruct (validate_settings p) as [q|] eqn:V; [|done]. cbn. by apply save_all_stored; [eapply changes_valid|].
Qed.

(** *** What is read back *)

Definition overlaid (k : string) (v : json) : Prop := (exists w, v = wrapped w /\ valid_setting k w) \/ In (k, v) DEFAULTS.

Lemma overlay_stored rows k v : Forall stored_setting rows -> overlay rows !! k = Some v -> overlaid k v.
Proof.
  unfold overlay. assert (D : forall k v, (list_to_map DEFAULTS : gmap string json) !! k = Some v -> overlaid k v).
  { intros k' v' L. right. apply elem_of_list_to_map_2, list_elem_of_In in L. done. }
  revert D. generalize (list_to_map DEFAULTS : gmap string json). intros d D F. revert d D.
  induction F as [|[x w] rows (u & E & V) F IH]; intros d D; cbn; [apply D|]. apply IH. intros y z. cbn in E. subst w. cbn [fst snd wrapped is_null negb].
  rewrite andb_true_r. case_bool_decide; [|apply D]. destruct (decide (x = y)) as [->|N].
  - rewrite lookup_insert_eq. intros [= <-]. left. eauto.
  - rewrite lookup_insert_ne by done. apply D.
Qed.

Definition NO_TIMEOUTS : DefaultTimeouts := MkDefaultTimeouts None None None None None.

Lemma default_valid k v : In (k, v) DEFAULTS -> valid_setting k (read_stored_value v).
Proof.
  unfold valid_setting. intros [[= <- <-]|[[= <- <-]|[[= <- <-]|[[= <- <-]|[[= <- <-]|[]]]]]].
  - left. split; [done|]. eexists. split; [done|by left].
  - right; left. split; [done|]. exists []. by split.
  - right; right; left. split; [done|]. exists NO_TIMEOUTS. by split.
  - do 3 right; left. split; [done|]. by eexists.
  - do 4 right. split; [done|]. by exists [].
Qed.

Lemma effective_valid rows k : Forall stored_setting rows -> k ∈ KNOWN_KEYS ->
  exists v, effective rows !! k = Some v /\ valid_setting k v.
Proof.
  intros F K. apply overlay_keys with (rows := rows) in K as [v L]. exists (read_stored_value v). split.
  - unfold effective. by rewrite lookup_fmap, L.
  - destruct (overlay_stored rows k v F L) as [(w & -> & V)|D]; [exact V|by apply default_valid].
Qed.

(** *** Timeouts *)

Lemma dump_lookup t k get d lo hi : In (k, get, d, lo, hi) TIMEOUT_FIELDS ->
  exists l, timeouts_dump t = JObj l /\ assoc k l = option_map JNum (get t)
    /\ exists items, int_items l = Some items /\ lookup_timeout items k = get t.
Proof.
  intros I. eexists. split; [reflexivity|]. destruct t as [[] [] [] [] []];
    repeat (destruct I as [[= <- <- <- <- <-]|I]; [split; [reflexivity|]; eexists; split; reflexivity|]); destruct I.
Qed.

Lemma mapped_field stage k : _TIMEOUT_KEY_MAP stage = [k] ->
  exists get d lo hi, In (k, get, d, lo, hi) TIMEOUT_FIELDS /\ stage_timeout stage DEFAULT_STAGE_TIMEOUTS = d * 60.
Proof.
  unfold _TIMEOUT_KEY_MAP. destruct (find_first _ _) as [e|] eqn:F; [|done]. apply find_first_some in F as [I E].
  apply String.eqb_eq in E. subst stage. intros K. cbn in I.
  repeat destruct I as [<-|I]; [..|done]; injection K as <-; unfold TIMEOUT_FIELDS;
    eexists _, _, _, _; (split; [cbn; eauto 10|vm_compute; reflexivity]).
Qed.

(** The case of a key. *)
Ltac by_key := let V := fresh in intros V; unfold valid_setting in V;
  repeat (destruct V as [[E V]|V]; [try discriminate E|]); try (destruct V as [E V]; try discriminate E); eauto.

Lemma valid_policy v : valid_setting SETTING_VM_NAME_POLICY v -> exists s, v = JStr s /\ (s = "" \/ re_compiles s = true).
Proof. by_key. Qed.
Lemma valid_roots v : valid_setting SETTING_ALLOWED_INSTALLER_ROOTS v -> exists l, v = JArr (List.map JStr l) /\ Forall plain_path l.
Proof. by_key. Qed.
Lemma valid_timeouts v : valid_setting SETTING_DEFAULT_TIMEOUTS v -> exists t, v = timeouts_dump t /\ timeouts_ok t = true.
Proof. by_key. Qed.
Lemma valid_datastores v : valid_setting SETTING_PREFERRED_DATASTORES v -> exists l, v = JArr (List.map JStr l).
Proof. by_key. Qed.

(** What the page shows for stored timeouts. *)
Definition shown_timeouts (t : DefaultTimeouts) : list (string * Z) :=
  List.map (fun '(k, get, d, _, _) => (k, default d (get t))) TIMEOUT_FIELDS.

Lemma map_res_all {A B E} (f : A -> res E B) (g : A -> B) l : (forall x, In x l -> f x = Ok (g x)) -> map_res f l = Ok (List.map g l).
Proof.
  induction l as [|x l IH]; intros F; [done|]. cbn. rewrite F by by left. cbn. rewrite IH; [done|]. intros y I. apply F. by right.
Qed.

Lemma page_timeouts t l : timeouts_ok t = true -> timeouts_dump t = JObj l ->
  map_res (fun '(k, _, d, lo, hi) => out_timeout l k d lo hi) TIMEOUT_FIELDS = Ok (shown_timeouts t).
Proof.
  intros T L. apply map_res_all. intros [[[[k get] d] lo] hi] I. unfold out_timeout.
  destruct (dump_lookup t k get d lo hi I) as (l' & L' & A & _). rewrite L in L'. injection L' as <-. rewrite A.
  unfold timeouts_ok in T. rewrite forallb_forall in T. specialize (T _ I). cbn in T. destruct (get t) as [n|]; cbn in *.
  - by rewrite T.
  - clear -I. repeat (destruct I as [[= <- _ <- <- <-]|I]; [reflexivity|]). destruct I.
Qed.

Lemma only_texts_map l : only_texts (List.map JStr l) = Ok l.
Proof. unfold only_texts. induction l as [|x l IH]; [done|]. cbn. by rewrite IH. Qed.

Lemma shown_in t k n : In (k, n) (shown_timeouts t) ->
  exists get d lo hi, In (k, get, d, lo, hi) TIMEOUT_FIELDS /\ n = default d (get t).
Proof. unfold shown_timeouts. intros ([[[[k' get] d] lo] hi] & [= <- <-] & I)%in_map_iff. eauto 6. Qed.

Lemma field_unique k g d l h g' d' l' h' : In (k, g, d, l, h) TIMEOUT_FIELDS -> In (k, g', d', l', h') TIMEOUT_FIELDS -> g = g' /\ d = d'.
Proof.
  intros I J. repeat (destruct I as [[= <- <- <- <- <-]|I]; [repeat (destruct J as [J|J]; [discriminate J || (injection J; intros; subst; done)|]); destruct J|]). destruct I.
Qed.

Lemma stage_seconds rows t stage k n : effective rows !! SETTING_DEFAULT_TIMEOUTS = Some (timeouts_dump t) ->
  _TIMEOUT_KEY_MAP stage = [k] -> In (k, n) (shown_timeouts t) ->
  timeout_with (timeout_override (effective rows)) stage = n * 60.
Proof.
  intros E K I. apply shown_in in I as (get & d & lo & hi & I & ->).
  destruct (mapped_field stage k K) as (g' & d' & lo' & hi' & I' & D). destruct (field_unique _ _ _ _ _ _ _ _ _ I I') as [<- <-].
  destruct (dump_lookup t k get d lo hi I) as (l & L & _ & items & It & Lk).
  unfold timeout_with, timeout_override. rewrite E, L, It, K. cbn [List.find]. rewrite Lk. by destruct (get t); rewrite ?Lk.
Qed.

(** What the page shows of stored settings, and that this is in force. *)
Definition shown_in_force (rows : list (string * json)) : Prop :=
  exists out, get_settings_endpoint rows = Ok out
    /\ (forall stage k minutes, _TIMEOUT_KEY_MAP stage = [k] -> In (k, minutes) (so_timeouts out) ->
          timeout_with (timeout_override (effective rows)) stage = minutes * 60)
    /\ Forall plain_path (so_roots out)
    /\ (so_policy out = "" \/ re_compiles (so_policy out) = true).

Lemma stored_in_force rows : Forall stored_setting rows -> shown_in_force rows.
Proof.
  intros F. unfold shown_in_force.
  assert (K : forall k, In k KNOWN_KEYS -> exists v, effective rows !! k = Some v /\ valid_setting k v).
  { intros k I. apply effective_valid; [done|]. by apply list_elem_of_In. }
  destruct (K SETTING_VM_NAME_POLICY ltac:(cbn; tauto)) as (v1 & L1 & (s & -> & C)%valid_policy).
  destruct (K SETTING_ALLOWED_INSTALLER_ROOTS ltac:(cbn; tauto)) as (v2 & L2 & (roots & -> & P)%valid_roots).
  destruct (K SETTING_DEFAULT_TIMEOUTS ltac:(cbn; tauto)) as (v3 & L3 & (t & -> & T)%valid_timeouts).
  destruct (K SETTING_PREFERRED_DATASTORES ltac:(cbn; tauto)) as (v5 & L5 & (names & ->)%valid_datastores).
  assert (V2 : value_or (effective rows) SETTING_ALLOWED_INSTALLER_ROOTS (JArr []) = JArr (List.map JStr roots))
    by (unfold value_or; rewrite L2; by destruct roots).
  assert (V5 : value_or (effective rows) SETTING_PREFERRED_DATASTORES (JArr []) = JArr (List.map JStr names))
    by (unfold value_or; rewrite L5; by destruct names).
  assert (V1 : value_or (effective rows) SETTING_VM_NAME_POLICY (JStr "") = JStr s)
    by (unfold value_or; rewrite L1; by destruct s).
  assert (V3 : value_or (effective rows) SETTING_DEFAULT_TIMEOUTS (JObj []) = timeouts_dump t).
  { unfold value_or. rewrite L3. destruct (timeouts_dump t) as [| | | | |[|]] eqn:E; done. }
  unfold get_settings_endpoint, _settings_out. rewrite V1, V2, V3, V5.
  destruct (timeouts_dump t) as [| | | | |l] eqn:E; try done. cbn [iterate]. rewrite only_texts_map. cbn [res_bind].
  rewrite (page_timeouts t l T E). eexists. split; [reflexivity|]. cbn [so_timeouts so_roots so_policy py_str].
  split_and!; [|done|exact C]. intros stage k n M I. eapply stage_seconds; [|exact M|exact I]. by rewrite L3, E.
Qed.

(** C26 (update_settings, _settings_out, effective_timeout_seconds): the settings
    page never fails on what the endpoint stored, and it shows what is in
    force.  After any requests to a fresh installation, accepted or not, every
    stage with a configurable time limit runs under the minutes of the page,
    the approved roots are plain absolute paths, and the naming policy is empty
    or a pattern that compiles. *)
Theorem settings_in_force requests :
  let rows := settings_run requests [] in
  exists out, get_settings_endpoint rows = Ok out
    /\ (forall stage k minutes, _TIMEOUT_KEY_MAP stage = [k] -> In (k, minutes) (so_timeouts out) ->
          timeout_with (timeout_override (effective rows)) stage = minutes * 60)
    /\ Forall plain_path (so_roots out)
    /\ (so_policy out = "" \/ re_compiles (so_policy out) = true).
Proof. cbn zeta. apply stored_in_force, settings_run_stored. constructor. Qed.

(** *** Saving *)

Definition overlay_row (d : gmap string json) (e : string * json) : gmap string json :=
  if bool_decide (fst e ∈ KNOWN_KEYS) && negb (is_null (snd e)) then <[fst e := snd e]> d else d.

Lemma overlay_row_other d e y : fst e <> y -> overlay_row d e !! y = d !! y.
Proof. intros N. unfold overlay_row. destruct (_ && _); [by apply lookup_insert_ne|done]. Qed.

Lemma overlay_row_same d e : fst e ∈ KNOWN_KEYS -> is_null (snd e) = false -> overlay_row d e !! fst e = Some (snd e).
Proof. intros K N. unfold overlay_row. rewrite bool_decide_true, N by done. apply lookup_insert_eq. Qed.

Lemma fold_other (f : string * json -> string * json) y rows d d' :
  (forall e, fst (f e) = fst e /\ (fst e = y -> f e = e)) -> d !! y = d' !! y ->
  fold_left overlay_row (List.map f rows) d !! y = fold_left overlay_row rows d' !! y.
Proof.
  intros F. revert d d'. induction rows as [|e rows IH]; intros d d' E; [done|]. cbn. apply IH.
  destruct (F e) as [K S]. destruct (decide (fst e = y)) as [Y|N].
  - rewrite S by done. unfold overlay_row. destruct (_ && _); [|done]. rewrite Y. by rewrite !lookup_insert_eq.
  - rewrite !overlay_row_other by congruence. done.
Qed.

Lemma fold_same k w rows d : k ∈ KNOWN_KEYS -> is_null w = false -> Forall (fun e => fst e = k -> snd e = w) rows ->
  (existsb (fun e => String.eqb (fst e) k) rows = true \/ d !! k = Some w) -> fold_left overlay_row rows d !! k = Some w.
Proof.
  intros K N F. revert d. induction F as [|e rows E F IH]; intros d H'; [by destruct H'|]. cbn. apply IH.
  cbn in H'. destruct (String.eqb_spec (fst e) k) as [<-|Ne].
  - right. rewrite <- (E eq_refl) in N |- *. by apply overlay_row_same.
  - rewrite overlay_row_other by done. by destruct H' as [H'|H']; [left|right].
Qed.

Lemma save_effective k v rows : k ∈ KNOWN_KEYS ->
  effective (save_platform_setting k v rows) !! k = Some v
  /\ forall y, y <> k -> effective (save_platform_setting k v rows) !! y = effective rows !! y.
Proof.
  intros K. set (f := fun r : string * json => if String.eqb (fst r) k then (k, wrapped v) else r).
  assert (M : forall e, fst (f e) = fst e).
  { intros [x u]. unfold f. cbn. by destruct (String.eqb_spec x k). }
  unfold effective, save_platform_setting. fold f. split.
  - rewrite lookup_fmap. assert (O : overlay (if existsb (fun r => String.eqb (fst r) k) rows then List.map f rows else (rows ++ [(k, wrapped v)])%list) !! k = Some (wrapped v));
      [|by rewrite O].
    change overlay with (fun rows => fold_left overlay_row rows (list_to_map DEFAULTS)). cbn beta.
    destruct (existsb _ rows) eqn:E.
    + apply fold_same; [done|done| |left].
      * apply List.Forall_map, List.Forall_forall. intros [x u] _. unfold f. cbn. by destruct (String.eqb_spec x k).
      * rewrite <- E. clear E. induction rows as [|e rows IH]; [done|]. cbn. by rewrite M, IH.
    + rewrite fold_left_app. cbn [fold_left]. by apply (overlay_row_same _ (k, wrapped v)).
  - intros y N. rewrite !lookup_fmap. f_equal. change overlay with (fun rows => fold_left overlay_row rows (list_to_map DEFAULTS)). cbn beta.
    destruct (existsb _ rows); [|rewrite fold_left_app; cbn [fold_left]; by rewrite overlay_row_other].
    apply fold_other; [|done]. intros [x u]. split; [apply M|]. unfold f. cbn. intros ->. by destruct (String.eqb_spec y k).
Qed.

Lemma save_all_effective l rows : NoDup (List.map fst l) -> Forall (fun e => fst e ∈ KNOWN_KEYS) l ->
  (forall k v, In (k, v) l -> effective (save_all l rows) !! k = Some v)
  /\ (forall y, ~ In y (List.map fst l) -> effective (save_all l rows) !! y = effective rows !! y).
Proof.
  revert rows. induction l as [|[k v] l IH]; intros rows N F; [done|]. inversion F; subst. apply NoDup_cons in N as [N1 N2].
  rewrite list_elem_of_In in N1. cbn in *. destruct (IH (save_platform_setting k v rows) N2) as [G O]; [done|].
  destruct (save_effective k v rows) as [S T]; [done|]. split.
  - intros k' v' [[= <- <-]|I]; [by rewrite O|by apply G].
  - intros y NI. rewrite O by tauto. apply T. intros ->. tauto.
Qed.

Lemma changes_keys_nodup q : NoDup (List.map fst (changes q)).
Proof. destruct q as [[] [] [] [] []]; apply (bool_decide_unpack _); vm_compute; exact I. Qed.

Lemma changes_keys_known q : Forall (fun e => fst e ∈ KNOWN_KEYS) (changes q).
Proof.
  apply (List.Forall_map fst (fun k => k ∈ KNOWN_KEYS)).
  destruct q as [[] [] [] [] []]; apply (bool_decide_unpack _); vm_compute; exact I.
Qed.

(** What a request changes is read back, and nothing else changes. *)
Lemma updated_settings_read_back user p rows audit rows' page : update_settings user p rows = Ok (audit, rows', page) ->
  exists q, validate_settings p = Ok q
    /\ (forall k v, In (k, v) (changes q) -> effective rows' !! k = Some v)
    /\ (forall y, ~ In y (List.map fst (changes q)) -> effective rows' !! y = effective rows !! y).
Proof.
  unfold update_settings. intros (q & V & U)%res_bind_ok. injection U as _ <- _. exists q. split; [done|].
  apply save_all_effective; [apply changes_keys_nodup|apply changes_keys_known].
Qed.

(** The timeouts are replaced as a whole: those the client leaves out fall back
    to their defaults. *)
Lemma partial_timeouts_reset user :
  let first := MkSettingsUpdate None None (Some (MkDefaultTimeouts None (Some 400) None None None)) None None in
  let second := MkSettingsUpdate None None (Some (MkDefaultTimeouts (Some 60) None None None None)) None None in
  match get_settings_endpoint (settings_run [(user, first); (user, second)] []) with
  | Ok out => so_timeouts out = [("create_vm_minutes", 60); ("os_installation_minutes", 360); ("vmware_tools_minutes", 15);
                                 ("network_configuration_minutes", 5); ("guest_operations_minutes", 10)]
  | Err _ => False
  end.
Proof. vm_compute. reflexivity. Qed.

End Settings.
