(* ===== verification/CertificateAdmin.v ===== *)
(** * Certificate administration

    [app/api/v1/admin_certificates.py] with its bodies
    ([app/schemas/certificates.py]), the rows ([app/models/certificates.py]) and
    the reading of a certificate ([parse_certificate], [certificate_metadata] of
    [store_logic.py]).  X.509 is the cryptography package, a parameter.  The
    requests act on the rows they read; one that fails leaves them alone. *)

From Stdlib Require Import ZArith Lia Ascii String List Bool.
From stdpp Require Import base tactics list strings gmap.
From S2P Require Import Prelude PyStr Regex Errors Schemas AuditTrail Service Scripts World Certificates Catalog Credentials Listing.

Local Open Scope string_scope.
Local Open Scope Z_scope.

(** ** Reading a certificate *)

Inductive PemFault := PemValueError (m : string) | PemFailure (m : string).

(** A parsed certificate: SHA-256 of its encoding (32 bytes), the common names
    of its subject, and its validity in seconds of UTC. *)
Class X509 := {
  Cert : Type;
  load_pem : string -> res PemFault Cert;
  sha256 : Cert -> string;
  common_names : Cert -> list string;
  not_valid_before : Cert -> option Z;
  not_valid_after : Cert -> option Z;
}.

Class X509Laws `{X509} : Prop := digest_length c : String.length (sha256 c) = 32%nat.

Definition hex_digit (n : nat) : ascii := ascii_of_nat (if (n <? 10)%nat then 48 + n else 55 + n).

(** [binascii.hexlify(b).decode("ascii").upper()] *)
Definition hexlify (s : string) : string :=
  text (flat_map (fun c => [hex_digit (nat_of_ascii c / 16); hex_digit (nat_of_ascii c mod 16)]) (chars s)).

Record CertificateMetadata := MkMetadata {
  m_fingerprint : string;
  m_subject_cn : string;
  m_not_before : option Z;
  m_not_after : option Z;
}.

(** Days since the epoch. *)
Definition _as_date (t : option Z) : option Z := option_map (fun t => t / 86400) t.

Definition domain_error (m : string) (d : list (string * json)) : AppError := MkAppError DomainValidationError m d.

Section CertificateAdmin.
Context `{X509}.

Definition parse_certificate (pem : string) : res PemFault (res AppError Cert) :=
  match load_pem pem with
  | Ok c => Ok (Ok c)
  | Err (PemValueError m) =>
      Ok (Err (domain_error "The provided certificate is not valid PEM-encoded X.509." [("reason", JStr m)]))
  | Err e => Err e
  end.

Definition metadata_of (c : Cert) : CertificateMetadata :=
  MkMetadata (hexlify (sha256 c)) (match common_names c with n :: _ => n | [] => "" end)
    (_as_date (not_valid_before c)) (_as_date (not_valid_after c)).

(** The error the endpoint answers with, whichever way the parsing fails. *)
Definition certificate_metadata (pem : string) : res AppError CertificateMetadata :=
  match parse_certificate pem with
  | Ok (Ok c) => Ok (metadata_of c)
  | Ok (Err e) => Err e
  | Err (PemValueError m) | Err (PemFailure m) => Err (domain_error ("The certificate could not be parsed: " ++ m) [])
  end.

(** ** Rows *)

Record CertificatePackage := MkCertPackage {
  pe_id : string;
  pe_name : string;
  pe_description : string;
  pe_enabled : bool;
}.

Record Certificate := MkCert {
  ce_id : string;
  ce_package : string;
  ce_friendly_name : string;
  ce_type : CertificateType;
  ce_store : string;
  ce_subject_cn : string;
  ce_fingerprint : string;
  ce_not_before : option Z;
  ce_not_after : option Z;
  ce_pem : string;
  ce_file_name : string;
  ce_enabled : bool;
}.

Record CertDb := MkCertDb { packages : list CertificatePackage; certificates : list Certificate }.

Definition package_by_id (id : string) (db : CertDb) : option CertificatePackage :=
  find_first (fun p => String.eqb (pe_id p) id) (packages db).
Definition certificate_by_id (id : string) (db : CertDb) : option Certificate :=
  find_first (fun c => String.eqb (ce_id c) id) (certificates db).

(** ** Bodies *)

Record CertificatePackageCreate := MkPackageCreate { pc_name : string; pc_description : string; pc_enabled : bool }.

Record CertificatePackageUpdate := MkPackageUpdate {
  pu_name : Change string;
  pu_description : Change string;
  pu_enabled : Change bool;
}.

Record CertificateCreate := MkCertCreate {
  cc_package_id : string;
  cc_friendly_name : string;
  cc_type : CertificateType;
  cc_pem_body : string;
  cc_enabled : bool;
}.

Record CertificateUpdate := MkCertUpdate { cu_friendly_name : Change string; cu_enabled : Change bool }.

Definition validate_package_create (p : CertificatePackageCreate) : res string unit :=
  let? _ := check (sized 2 150 (pc_name p)) "name" in
  check (len (pc_description p) <=? 1000) "description".

Definition validate_package_update (p : CertificatePackageUpdate) : res string unit :=
  let? _ := check (holds_of (sized 2 150) (pu_name p)) "name" in
  check (holds_of (fun d => len d <=? 1000) (pu_description p)) "description".

Definition validate_certificate_create (p : CertificateCreate) : res string unit :=
  let? _ := check (is_uuid4 (cc_package_id p)) "package_id" in
  let? _ := check (sized 2 200 (cc_friendly_name p)) "friendly_name" in
  check (sized 64 100000 (cc_pem_body p)) "pem_body".

Definition validate_certificate_update (p : CertificateUpdate) : res string unit :=
  check (holds_of (sized 2 200) (cu_friendly_name p)) "friendly_name".

(** A column without NULL after [setattr] and the flush. *)
Definition not_null_column {A} (old : A) (c : Change A) : res AdminFailure A :=
  match column old c with Some v => Ok v | None => Err (ServerError "IntegrityError") end.

Definition changed_names (l : list (string * bool)) : json :=
  JArr (List.map (fun e => JStr (fst e)) (List.filter snd l)).

Definition given {A} (c : Change A) : bool := match c with Some _ => true | None => false end.

(** The drawn identifier is the key of another row. *)
Definition taken (id : string) (ids : list string) : bool := existsb (String.eqb id) ids.

(** ** Packages *)

Definition cert_audit (action_ : string) (user : option Caller) (kind name : string) (d : list (string * json)) : AuditEvent :=
  admin_audit action_ user kind name d.

Definition create_package (user : option Caller) (id : string) (p : CertificatePackageCreate) (db : CertDb)
    : res AdminFailure (CertificatePackage * AuditEvent * CertDb) :=
  let? _ := body (validate_package_create p) in
  match find_first (fun x => String.eqb (pe_name x) (pc_name p)) (packages db) with
  | Some _ => Err (Declined (MkAppError ConflictError ("Package " ++ SQ ++ pc_name p ++ SQ ++ " already exists.") []))
  | None =>
      let row := MkCertPackage id (pc_name p) (pc_description p) (pc_enabled p) in
      if taken id (List.map pe_id (packages db)) then Err (ServerError "IntegrityError")
      else Ok (row, cert_audit "CERTIFICATE_PACKAGE_CREATED" user "certificate_package" (pe_name row) [],
               MkCertDb (packages db ++ [row])%list (certificates db))
  end.

(** The name is unique in the table. *)
Definition update_package (user : option Caller) (id : string) (p : CertificatePackageUpdate) (db : CertDb)
    : res AdminFailure (CertificatePackage * AuditEvent * CertDb) :=
  let? _ := body (validate_package_update p) in
  match package_by_id id db with
  | None => missing "Certificate package not found."
  | Some old =>
      let? name := not_null_column (pe_name old) (pu_name p) in
      let? description := not_null_column (pe_description old) (pu_description p) in
      let? enabled := not_null_column (pe_enabled old) (pu_enabled p) in
      if existsb (fun x => String.eqb (pe_name x) name && negb (String.eqb (pe_id x) id)) (packages db)
      then Err (ServerError "IntegrityError")
      else
        let row := MkCertPackage id name description enabled in
        Ok (row, cert_audit "CERTIFICATE_PACKAGE_UPDATED" user "certificate_package" name
                   [("fields", changed_names [("description", given (pu_description p)); ("enabled", given (pu_enabled p));
                                              ("name", given (pu_name p))])],
            MkCertDb (List.map (fun x => if String.eqb (pe_id x) id then row else x) (packages db)) (certificates db))
  end.

(** The certificates of the package go with it. *)
Definition delete_package (user : option Caller) (id : string) (db : CertDb) : res AdminFailure (AuditEvent * CertDb) :=
  match package_by_id id db with
  | None => missing "Certificate package not found."
  | Some old =>
      Ok (cert_audit "CERTIFICATE_PACKAGE_DELETED" user "certificate_package" (pe_name old) [],
          MkCertDb (List.filter (fun x => negb (String.eqb (pe_id x) id)) (packages db))
            (List.filter (fun c => negb (String.eqb (ce_package c) id)) (certificates db)))
  end.

(** ** Certificates *)

Definition register_certificate (user : option Caller) (id : string) (p : CertificateCreate) (db : CertDb)
    : res AdminFailure (Certificate * AuditEvent * CertDb) :=
  let? _ := body (validate_certificate_create p) in
  match package_by_id (cc_package_id p) db with
  | None => missing "Target certificate package does not exist."
  | Some _ =>
      match certificate_metadata (cc_pem_body p) with
      | Err e => Err (Declined e)
      | Ok m =>
          let store := STORE_FOR_TYPE (cc_type p) in
          let row := MkCert id (cc_package_id p) (cc_friendly_name p) (cc_type p) store (m_subject_cn m) (m_fingerprint m)
                       (m_not_before m) (m_not_after m) (strip (cc_pem_body p))
                       (make_guest_cert_file_name (cc_friendly_name p) (m_fingerprint m)) (cc_enabled p) in
          match List.filter (fun c => String.eqb (ce_fingerprint c) (m_fingerprint m)) (certificates db) with
          | [] =>
              if taken id (List.map ce_id (certificates db)) then Err (ServerError "IntegrityError")
              else Ok (row, cert_audit "CERTIFICATE_CREATED" user "certificate" (ce_friendly_name row)
                         [("store", JStr ("LocalMachine" ++ BS ++ store)); ("thumbprint", JStr (ce_fingerprint row))],
                  MkCertDb (packages db) (certificates db ++ [row])%list)
          | [_] => Err (Declined (MkAppError ConflictError "A certificate with this SHA-256 fingerprint is already registered." []))
          | _ => Err (ServerError "MultipleResultsFound")
          end
      end
  end.

Definition renamed (c : Certificate) (name : string) (enabled : bool) : Certificate :=
  MkCert (ce_id c) (ce_package c) name (ce_type c) (ce_store c) (ce_subject_cn c) (ce_fingerprint c) (ce_not_before c)
    (ce_not_after c) (ce_pem c) (ce_file_name c) enabled.

Definition update_certificate (user : option Caller) (id : string) (p : CertificateUpdate) (db : CertDb)
    : res AdminFailure (Certificate * AuditEvent * CertDb) :=
  let? _ := body (validate_certificate_update p) in
  match certificate_by_id id db with
  | None => missing "Certificate not found."
  | Some old =>
      let? name := not_null_column (ce_friendly_name old) (cu_friendly_name p) in
      let? enabled := not_null_column (ce_enabled old) (cu_enabled p) in
      let row := renamed old name enabled in
      Ok (row, cert_audit "CERTIFICATE_UPDATED" user "certificate" name
                 [("fields", changed_names [("enabled", given (cu_enabled p)); ("friendly_name", given (cu_friendly_name p))])],
          MkCertDb (packages db) (List.map (fun x => if String.eqb (ce_id x) id then renamed x name enabled else x) (certificates db)))
  end.

Definition delete_certificate (user : option Caller) (id : string) (db : CertDb) : res AdminFailure (AuditEvent * CertDb) :=
  match certificate_by_id id db with
  | None => missing "Certificate not found."
  | Some old =>
      Ok (cert_audit "CERTIFICATE_DELETED" user "certificate" (ce_friendly_name old) [],
          MkCertDb (packages db) (List.filter (fun x => negb (String.eqb (ce_id x) id)) (certificates db)))
  end.

(** The packages by name, each with its certificates. *)
Definition list_packages (db : CertDb) : list (CertificatePackage * list Certificate) :=
  List.map (fun p => (p, List.filter (fun c => String.eqb (ce_package c) (pe_id p)) (certificates db)))
    (sort_by (fun a b => String.leb (pe_name a) (pe_name b)) (packages db)).

(** The rows a job reads. *)
Definition certificate_row (db : CertDb) (c : Certificate) : CertificateRow :=
  MkCertificate (ce_friendly_name c) (ce_type c) (ce_fingerprint c) (ce_pem c) (ce_not_after c) (ce_package c) (ce_enabled c)
    (match package_by_id (ce_package c) db with Some p => pe_enabled p | None => false end).

(** ** Requests *)

Inductive CertRequest :=
| CreatePackage (id : string) (p : CertificatePackageCreate)
| UpdatePackage (id : string) (p : CertificatePackageUpdate)
| DeletePackage (id : string)
| RegisterCertificate (id : string) (p : CertificateCreate)
| UpdateCertificate (id : string) (p : CertificateUpdate)
| DeleteCertificate (id : string).

Definition after {D A} (db : D) (r : res AdminFailure (A * D)) : D :=
  match r with Ok (_, db') => db' | Err _ => db end.

Definition cert_step (db : CertDb) (r : option Caller * CertRequest) : CertDb :=
  match snd r with
  | CreatePackage id p => after db (create_package (fst r) id p db)
  | UpdatePackage id p => after db (update_package (fst r) id p db)
  | DeletePackage id => after db (delete_package (fst r) id db)
  | RegisterCertificate id p => after db (register_certificate (fst r) id p db)
  | UpdateCertificate id p => after db (update_certificate (fst r) id p db)
  | DeleteCertificate id => after db (delete_certificate (fst r) id db)
  end.

Definition cert_run (requests : list (option Caller * CertRequest)) (db : CertDb) : CertDb := fold_left cert_step requests db.

(** ** What a job can rely on *)

Definition good_certificate (c : Certificate) : Prop :=
  ce_store c = STORE_FOR_TYPE (ce_type c)
  /\ exists pem x, load_pem pem = Ok x /\ ce_pem c = strip pem /\ ce_fingerprint c = hexlify (sha256 x).

Record cert_ok (db : CertDb) : Prop := {
  ok_certificates : Forall good_certificate (certificates db);
  ok_packages : Forall (fun c => In (ce_package c) (List.map pe_id (packages db))) (certificates db);
  ok_fingerprints : NoDup (List.map ce_fingerprint (certificates db));
  ok_names : NoDup (List.map pe_name (packages db));
  ok_ids : NoDup (List.map pe_id (packages db));
}.

Lemma body_ok {A B} (r : res string A) (k : A -> res AdminFailure B) b : res_bind (body r) k = Ok b -> exists a, k a = Ok b.
Proof. intros (a & _ & K)%res_bind_ok. eauto. Qed.

Lemma metadata_fingerprint pem m : certificate_metadata pem = Ok m -> exists x, load_pem pem = Ok x /\ m_fingerprint m = hexlify (sha256 x).
Proof.
  unfold certificate_metadata, parse_certificate. destruct (load_pem pem) as [x|[]]; [|done..]. intros [= <-]. eauto.
Qed.

Lemma filter_nil {A} (p : A -> bool) l : List.filter p l = [] -> Forall (fun x => p x = false) l.
Proof. induction l as [|x l IH]; [constructor|]. cbn. destruct (p x) eqn:E; [done|]. intros F. constructor; [done|by apply IH]. Qed.

Lemma replaced_ids id name d e (l : list CertificatePackage) :
  List.map pe_id (List.map (fun x => if String.eqb (pe_id x) id then MkCertPackage id name d e else x) l) = List.map pe_id l.
Proof. rewrite List.map_map. apply List.map_ext. intros x. by destruct (String.eqb_spec (pe_id x) id). Qed.

(** The index on the names keeps an update from repeating one. *)
Lemma replaced_names id name d e (l : list CertificatePackage) :
  NoDup (List.map pe_name l) -> NoDup (List.map pe_id l) ->
  existsb (fun x => String.eqb (pe_name x) name && negb (String.eqb (pe_id x) id)) l = false ->
  NoDup (List.map pe_name (List.map (fun x => if String.eqb (pe_id x) id then MkCertPackage id name d e else x) l)).
Proof.
  intros N I E. induction l as [|x l IH]; [done|]. cbn in *. apply NoDup_cons in N as [N1 N2]. apply NoDup_cons in I as [I1 I2].
  apply orb_false_iff in E as [E1 E2].
  assert (K : forall y, In y l -> pe_id y <> id -> pe_name y <> name).
  { intros y Iy Ny Ey. assert (existsb (fun x => String.eqb (pe_name x) name && negb (String.eqb (pe_id x) id)) l = true); [|congruence].
    apply existsb_exists. exists y. split; [done|]. rewrite Ey, String.eqb_refl. by apply negb_true_iff, String.eqb_neq. }
  apply NoDup_cons. split; [|by apply IH]. rewrite list_elem_of_In, List.map_map, in_map_iff. intros (y & Ey & Iy).
  destruct (String.eqb_spec (pe_id x) id) as [Ex|Nx]; cbn in Ey.
  - destruct (String.eqb_spec (pe_id y) id) as [Eyi|Nyi]; cbn in Ey.
    + apply I1. rewrite Ex, <- Eyi. apply list_elem_of_In. by apply in_map.
    + by apply (K y).
  - destruct (String.eqb_spec (pe_id y) id) as [Eyi|Nyi]; cbn in Ey.
    + rewrite <- Ey, String.eqb_refl in E1. done.
    + apply N1. rewrite <- Ey. apply list_elem_of_In. by apply in_map.
Qed.

Lemma taken_not id ids : taken id ids = false -> id ∉ ids.
Proof.
  intros T I. apply list_elem_of_In in I. assert (taken id ids = true); [|congruence].
  apply existsb_exists. exists id. split; [done|]. apply String.eqb_refl.
Qed.

Lemma create_package_ok user id p db r db' : cert_ok db -> create_package user id p db = Ok (r, db') -> cert_ok db'.
Proof.
  intros [G P F N I]. unfold create_package. intros (? & C)%body_ok.
  destruct (find_first _ _) eqn:D; [done|]. destruct (taken _ _) eqn:T; [done|]. injection C as _ <-.
  apply find_first_none in D. apply taken_not in T. split; cbn; [done| |done| |].
  - eapply Forall_impl; [exact P|]. cbn. intros c J. rewrite List.map_app. apply in_or_app. by left.
  - rewrite List.map_app. apply nodup_snoc; [done|]. cbn. rewrite list_elem_of_In, in_map_iff. intros (y & E & J).
    rewrite List.Forall_forall in D. apply D in J. rewrite E, String.eqb_refl in J. done.
  - rewrite List.map_app. by apply nodup_snoc.
Qed.

Lemma update_package_ok user id p db r db' : cert_ok db -> update_package user id p db = Ok (r, db') -> cert_ok db'.
Proof.
  intros [G P F N I]. unfold update_package. intros (? & C)%body_ok.
  destruct (package_by_id id db) as [old|]; [|done]. apply res_bind_ok in C as (name & _ & C).
  apply res_bind_ok in C as (d & _ & C). apply res_bind_ok in C as (e & _ & C).
  destruct (existsb _ _) eqn:X; [done|]. injection C as _ <-. split; cbn; [done| |done| |].
  - by rewrite replaced_ids.
  - by apply replaced_names.
  - by rewrite replaced_ids.
Qed.

Lemma delete_package_ok user id db r db' : cert_ok db -> delete_package user id db = Ok (r, db') -> cert_ok db'.
Proof.
  intros [G P F N I]. unfold delete_package. destruct (package_by_id id db) as [old|]; [|done]. intros [= _ <-]. split; cbn.
  - by apply forall_filter.
  - apply List.Forall_forall. intros c [J K]%List.filter_In. rewrite List.Forall_forall in P. apply P in J.
    apply in_map_iff in J as (x & E & J). apply in_map_iff. exists x. split; [done|]. apply List.filter_In. split; [done|]. by rewrite E.
  - by apply nodup_map_filter.
  - by apply nodup_map_filter.
  - by apply nodup_map_filter.
Qed.

Lemma register_certificate_ok user id p db r db' : cert_ok db -> register_certificate user id p db = Ok (r, db') -> cert_ok db'.
Proof.
  intros [G P F N I]. unfold register_certificate. intros (? & C)%body_ok.
  destruct (package_by_id _ db) as [pk|] eqn:K; [|done]. destruct (certificate_metadata _) as [m|] eqn:M; [|done].
  destruct (List.filter _ _) as [|? [|]] eqn:D; [|done..]. destruct (taken _ _); [done|]. injection C as _ <-.
  apply metadata_fingerprint in M as (crt & L & M). apply filter_nil in D. apply find_first_some in K as [K E]. apply String.eqb_eq in E.
  split; cbn; [| | |done|done].
  - apply Forall_app. split; [done|]. constructor; [|constructor]. split; [done|]. by exists (cc_pem_body p), crt.
  - apply Forall_app. split; [done|]. constructor; [|constructor]. cbn. rewrite <- E. by apply in_map.
  - rewrite List.map_app. apply nodup_snoc; [done|]. cbn. rewrite list_elem_of_In, in_map_iff. intros (y & Ey & J).
    rewrite List.Forall_forall in D. apply D in J. rewrite Ey, String.eqb_refl in J. done.
Qed.

Lemma update_certificate_ok user id p db r db' : cert_ok db -> update_certificate user id p db = Ok (r, db') -> cert_ok db'.
Proof.
  intros [G P F N I]. unfold update_certificate. intros (? & C)%body_ok.
  destruct (certificate_by_id id db) as [old|]; [|done]. apply res_bind_ok in C as (name & _ & C).
  apply res_bind_ok in C as (e & _ & C). injection C as _ <-. split; cbn; [| | |done|done].
  - apply List.Forall_map. eapply Forall_impl; [exact G|]. intros c Gc. cbn. by destruct (String.eqb (ce_id c) id).
  - apply List.Forall_map. eapply Forall_impl; [exact P|]. intros c Pc. cbn. by destruct (String.eqb (ce_id c) id).
  - rewrite List.map_map. erewrite List.map_ext; [exact F|]. intros c. cbn. by destruct (String.eqb (ce_id c) id).
Qed.

Lemma delete_certificate_ok user id db r db' : cert_ok db -> delete_certificate user id db = Ok (r, db') -> cert_ok db'.
Proof.
  intros [G P F N I]. unfold delete_certificate. destruct (certificate_by_id id db) as [old|]; [|done]. intros [= _ <-].
  split; cbn; [by apply forall_filter|by apply forall_filter|by apply nodup_map_filter|done|done].
Qed.

Lemma cert_step_ok db r : cert_ok db -> cert_ok (cert_step db r).
Proof.
  intros O. destruct r as [user []]; cbn; match goal with |- cert_ok (after _ ?r) => destruct r as [[? ?]|] eqn:E; cbn; [|exact O] end;
    eauto using create_package_ok, update_package_ok, delete_package_ok, register_certificate_ok, update_certificate_ok, delete_certificate_ok.
Qed.

Lemma cert_run_ok requests db : cert_ok db -> cert_ok (cert_run requests db).
Proof. revert db. induction requests as [|r requests IH]; intros db O; [done|]. cbn. by apply IH, cert_step_ok. Qed.

(** ** Deployable certificates *)

Lemma hex_digit_hex n : (n < 16)%nat -> is_hex (hex_digit n) = true /\ is_hex (lower_char (hex_digit n)) = true /\ upper_char (hex_digit n) = hex_digit n.
Proof. intros L. do 16 (destruct n as [|n]; [by repeat split|]). lia. Qed.

Lemma hexlify_hex s : Forall (fun c => is_hex c = true) (chars (hexlify s)) /\ String.length (hexlify s) = (2 * String.length s)%nat.
Proof.
  unfold hexlify. rewrite chars_text. rewrite <- chars_length, chars_text, <- (chars_length s).
  assert (D : forall c, (nat_of_ascii c / 16 < 16)%nat /\ (nat_of_ascii c mod 16 < 16)%nat).
  { intros c. pose proof (nat_ascii_bounded c). split; [apply Nat.Div0.div_lt_upper_bound; lia|by apply Nat.mod_upper_bound]. }
  induction (chars s) as [|c l [IH1 IH2]]; [done|]. cbn [flat_map List.app List.length]. destruct (D c) as [A B]. split.
  - constructor; [by apply hex_digit_hex|]. constructor; [by apply hex_digit_hex|done].
  - rewrite IH2. lia.
Qed.

Lemma lang_rtimes n q (l : list ascii) : List.length l = n -> Forall (fun c => q c = true) l -> lang (rtimes n (RChr q)) l.
Proof.
  intros <- F. induction F as [|c l H' F IH]; cbn; [by apply lang_eps|]. apply lang_seq. exists [c], l. split_and!; [done| |done].
  apply lang_chr. eauto.
Qed.

Lemma lang_rupto n q (l : list ascii) : (List.length l <= n)%nat -> Forall (fun c => q c = true) l -> lang (rupto n (RChr q)) l.
Proof.
  intros L F. revert n L. induction F as [|c l H' F IH]; intros n L.
  - destruct n; cbn; [by apply lang_eps|]. apply lang_alt. right. by apply lang_eps.
  - destruct n as [|n]; cbn in *; [lia|]. apply lang_alt. left. apply lang_seq. exists [c], l. split_and!; [done| |apply IH; lia].
    apply lang_chr. eauto.
Qed.

Lemma fingerprint_matches `{!X509Laws} x : fullmatch THUMBPRINT_PATTERN (hexlify (sha256 x)) = true.
Proof.
  apply fullmatch_lang. unfold THUMBPRINT_PATTERN, rbetween. destruct (hexlify_hex (sha256 x)) as [F L]. rewrite digest_length in L.
  rewrite <- (firstn_skipn 40 (chars (hexlify (sha256 x)))) in F |- *. apply Forall_app in F as [F1 F2].
  apply lang_seq. eexists _, _. split; [reflexivity|]. rewrite <- chars_length in L.
  split; [apply lang_rtimes; [rewrite length_firstn; lia|done]|apply lang_rupto; [rewrite length_skipn; lia|done]].
Qed.

(** A staged file name has no quote. *)
Lemma file_name_unquoted name x : ~ In (char_of 34) (chars (make_guest_cert_file_name name (hexlify x))).
Proof.
  assert (Q : forall l, Forall (fun c => negb (Ascii.eqb c (char_of 34)) = true) l -> ~ In (char_of 34) l).
  { intros l F I. rewrite List.Forall_forall in F. apply F in I. by rewrite Ascii.eqb_refl in I. }
  apply Q. unfold make_guest_cert_file_name. rewrite !chars_app, !Forall_app. split_and!; [|by repeat constructor| |by repeat constructor].
  - unfold take_str. rewrite !chars_text. apply List.Forall_forall. intros c I.
    assert (J : In c (List.map safe_name_char (chars name))) by (rewrite <- (firstn_skipn 40 (List.map safe_name_char (chars name))); apply in_or_app; by left).
    apply in_map_iff in J as (d & <- & _). clear I. revert d. apply (chars_forall (fun d => negb (Ascii.eqb (safe_name_char d) (char_of 34)))). vm_compute. reflexivity.
  - unfold lower, take_str. rewrite !chars_text. apply List.Forall_map. destruct (hexlify_hex x) as [F _].
    rewrite <- (firstn_skipn 12 (chars (hexlify x))) in F. apply Forall_app in F as [F _]. eapply Forall_impl; [exact F|].
    intros c. revert c. apply (chars_impl is_hex (fun c => negb (Ascii.eqb (lower_char c) (char_of 34)))). vm_compute. reflexivity.
Qed.

(** C31 (register_certificate and the requests of [admin_certificates.py],
    against the script builders of the deployer): whatever requests
    administrators make one after another, each reading what the one before
    committed, every certificate in the table belongs to a package, carries
    the SHA-256 fingerprint of the PEM text it was registered with, which no
    other row carries, and is accepted by both builders: under its present
    name neither the presence command nor the import program is refused.
    (Two registrations at once are outside: the column has no unique index.
    That the commands are built does not say that the probe finds the
    certificate on a guest; it compares other digests.) *)
Theorem registered_certificates_accepted `{!X509Laws} requests :
  let db := cert_run requests (MkCertDb [] []) in
  NoDup (List.map ce_fingerprint (certificates db))
  /\ forall c, In c (certificates db) ->
       let row := certificate_row db c in
       let store := STORE_FOR_TYPE (certificate_type row) in
       In (ce_package c) (List.map pe_id (packages db)) /\ ce_store c = store
       /\ (exists pem x, load_pem pem = Ok x /\ pem_body row = strip pem /\ fingerprint_sha256 row = hexlify (sha256 x))
       /\ is_ok (presence_command store (fingerprint_sha256 row)) = true
       /\ is_ok (import_program store (GUEST_TEMP_DIR ++ BS ++ make_guest_cert_file_name (friendly_name row) (fingerprint_sha256 row))) = true.
Proof.
  cbn zeta. assert (O : cert_ok (cert_run requests (MkCertDb [] []))) by (apply cert_run_ok; split; by constructor).
  destruct O as [G P F _ _]. split; [exact F|]. intros c I. rewrite List.Forall_forall in G, P.
  destruct (G c I) as (S & pem & x & L & B & E). cbn [certificate_row friendly_name certificate_type fingerprint_sha256 pem_body].
  assert (V : valid_store (STORE_FOR_TYPE (ce_type c)) = true) by by destruct (ce_type c).
  split_and!; [by apply P|done|by exists pem, x| |].
  - unfold presence_command, build_presence_script. rewrite E, fingerprint_matches, V. done.
  - unfold import_program. rewrite V. cbn [negb]. rewrite (proj2 (startswith_spec _ _)) by (by eexists; symmetry; apply str_app_assoc).
    unfold DQ. rewrite (proj2 (contains_char _ _)); [done|]. rewrite E, !chars_app. rewrite !in_app_iff. intros [J|[J|J]].
    + vm_compute in J. intuition discriminate.
    + vm_compute in J. intuition discriminate.
    + by apply file_name_unquoted in J.
Qed.

End CertificateAdmin.

(** ** An example *)

(** Any text is a certificate; its digest is its first 32 characters. *)
Definition toy_x509 : X509 := {|
  Cert := string;
  load_pem pem := if startswith pem "-----BEGIN" then Ok pem else Err (PemValueError "no PEM");
  sha256 c := text (firstn 32 (chars c ++ List.repeat "x"%char 32));
  common_names _ := [];
  not_valid_before _ := None;
  not_valid_after _ := Some 4102444800;
|}.

Lemma toy_x509_laws : @X509Laws toy_x509.
Proof.
  intros c. change (String.length (text (firstn 32 (chars c ++ List.repeat "x"%char 32))) = 32%nat).
  rewrite <- chars_length, chars_text, length_firstn, length_app, repeat_length. lia.
Qed.

Definition EXAMPLE_PEM : string := "-----BEGIN CERTIFICATE----- MIIB0123456789abcdefghijklmnopqrstuv -----END CERTIFICATE-----".
Definition PACKAGE_ID : string := "11111111-1111-4111-8111-111111111111".

Definition EXAMPLE_REQUESTS : list (option Caller * CertRequest) :=
  [(None, CreatePackage PACKAGE_ID (MkPackageCreate "Corporate CA" "" true));
   (None, RegisterCertificate "c1" (MkCertCreate PACKAGE_ID "Corporate Root" ROOT_CERT EXAMPLE_PEM true));
   (None, RegisterCertificate "c2" (MkCertCreate PACKAGE_ID "The same again" ROOT_CERT EXAMPLE_PEM true));
   (None, UpdateCertificate "c1" (MkCertUpdate (Some (Some "Root")) None))].

Lemma registered_certificates_accepted_witness :
  exists c, certificates (@cert_run toy_x509 EXAMPLE_REQUESTS (MkCertDb [] [])) = [c]
    /\ is_ok (presence_command "Root" (ce_fingerprint c)) = true.
Proof.
  destruct (@registered_certificates_accepted toy_x509 toy_x509_laws EXAMPLE_REQUESTS) as [_ G].
  destruct (certificates (@cert_run toy_x509 EXAMPLE_REQUESTS (MkCertDb [] []))) as [|c l] eqn:E; [vm_compute in E; discriminate|].
  assert (T : ce_type c = ROOT_CERT /\ l = []) by (vm_compute in E; injection E as <- <-; by split).
  destruct T as [T ->]. exists c. split; [reflexivity|].
  destruct (G c (or_introl eq_refl)) as (_ & _ & _ & A & _). cbn in A. rewrite T in A. exact A.
Defined.
