(* ===== verification/VCenterAdmin.v ===== *)
(** * vCenter connections

    [app/api/v1/admin_infrastructure.py] with its bodies
    ([app/schemas/admin.py]) and rows ([app/models/infrastructure.py]), and the
    discovery endpoints of [app/api/v1/infrastructure.py] over the interface to
    vCenter, and the TLS policy of a connection
    ([app/services/vmware/base.py]).  The requests act on the rows they read; one that fails leaves them
    alone.  Times are seconds. *)

From Stdlib Require Import ZArith Lia Ascii String List Bool.
From stdpp Require Import base tactics list strings gmap.
From S2P Require Import Prelude PyStr Regex Errors Schemas AuditTrail Service Effects World Catalog Credentials Listing CertificateAdmin VCenter.

Local Open Scope string_scope.
Local Open Scope Z_scope.

(** ** Bodies *)

(** A letter or digit, and up to 253 characters that end in one. *)
Definition host_char (c : ascii) : bool := is_alnum c || Ascii.eqb c "-" || Ascii.eqb c ".".
Definition HOSTNAME_PATTERN : regex :=
  RSeq (RChr is_alnum) (ropt (RSeq (rupto 251 (RChr host_char)) (RChr is_alnum))).

Record VCenterConnectionCreate := MkVCenterCreate {
  vc_name : string;
  vc_host : string;
  vc_port : Z;
  vc_username_ref : string;
  vc_password_ref : string;
  vc_verify_ssl : bool;
  vc_notes : string;
}.

Record VCenterConnectionUpdate := MkVCenterUpdate {
  vu_name : Change string;
  vu_host : Change string;
  vu_port : Change Z;
  vu_username_ref : Change string;
  vu_password_ref : Change string;
  vu_verify_ssl : Change bool;
  vu_enabled : Change bool;
  vu_notes : Change string;
}.

Definition name_ok (s : string) : bool := sized 2 150 s.
Definition host_ok (s : string) : bool := sized 3 255 s && fullmatch HOSTNAME_PATTERN s.
Definition port_ok (n : Z) : bool := within 1 65535 n.
Definition ref_ok (s : string) : bool := sized 2 150 s && fullmatch SECRET_REFERENCE_PATTERN s.

Definition validate_vcenter_create (p : VCenterConnectionCreate) : res string unit :=
  let? _ := check (name_ok (vc_name p)) "name" in
  let? _ := check (host_ok (vc_host p)) "host" in
  let? _ := check (port_ok (vc_port p)) "port" in
  let? _ := check (ref_ok (vc_username_ref p)) "username_secret_ref" in
  let? _ := check (ref_ok (vc_password_ref p)) "password_secret_ref" in
  check (len (vc_notes p) <=? 2000) "notes".

Definition validate_vcenter_update (p : VCenterConnectionUpdate) : res string unit :=
  let? _ := check (holds_of name_ok (vu_name p)) "name" in
  let? _ := check (holds_of host_ok (vu_host p)) "host" in
  let? _ := check (holds_of port_ok (vu_port p)) "port" in
  let? _ := check (holds_of ref_ok (vu_username_ref p)) "username_secret_ref" in
  let? _ := check (holds_of ref_ok (vu_password_ref p)) "password_secret_ref" in
  check (holds_of (fun n => len n <=? 2000) (vu_notes p)) "notes".

(** ** Rows *)

Record VCenterRow := MkVCenterRow {
  connection : VCenterConnection;
  notes : option string;
  last_connection_state : option string;
  last_connection_error : option string;
  last_checked_at : option Z;
}.

#[export] Instance eta_vcenter_row : Eta VCenterRow := fun r =>
  MkVCenterRow (connection r) (notes r) (last_connection_state r) (last_connection_error r) (last_checked_at r).

Definition row_id (r : VCenterRow) : string := conn_id (connection r).
Definition row_name (r : VCenterRow) : string := conn_name (connection r).

Definition display_state (r : VCenterRow) : string :=
  if negb (conn_enabled (connection r)) then "disabled" else or_text (default "" (last_connection_state r)) "unknown".

Definition _get_vcenter (id : string) (rows : list VCenterRow) : res AdminFailure VCenterRow :=
  match find_first (fun r => String.eqb (row_id r) id) rows with
  | Some r => Ok r
  | None => missing "vCenter connection not found."
  end.

Definition by_name (rows : list VCenterRow) : list VCenterRow := sort_by (fun a b => String.leb (row_name a) (row_name b)) rows.

(** What the page shows of a row: references, never values. *)
Record VCenterConnectionAdminOut := MkVCenterOut {
  vo_connection : VCenterConnection;
  vo_notes : string;
  vo_state : string;
  vo_error : option string;
  vo_checked_at : option Z;
}.

Definition vcenter_out (r : VCenterRow) : VCenterConnectionAdminOut :=
  MkVCenterOut (connection r) (default "" (notes r)) (display_state r) (last_connection_error r) (last_checked_at r).

Definition list_vcenters (rows : list VCenterRow) : list VCenterConnectionAdminOut := List.map vcenter_out (by_name rows).

Definition create_vcenter (user : option Caller) (id : string) (p : VCenterConnectionCreate) (rows : list VCenterRow)
    : res AdminFailure (VCenterConnectionAdminOut * AuditEvent * list VCenterRow) :=
  let? _ := body (validate_vcenter_create p) in
  match find_first (fun r => String.eqb (row_name r) (vc_name p)) rows with
  | Some _ => Err (Declined (MkAppError ConflictError ("A vCenter connection named " ++ SQ ++ vc_name p ++ SQ ++ " already exists.") []))
  | None =>
      let c := MkConnection id (vc_name p) (vc_host p) true (vc_port p) (vc_username_ref p) (vc_password_ref p) (vc_verify_ssl p) in
      let row := MkVCenterRow c (Some (vc_notes p)) None None None in
      if taken id (List.map row_id rows) then Err (ServerError "IntegrityError")
      else Ok (vcenter_out row, admin_audit "VCENTER_CREATED" user "vcenter" (vc_name p)
                                  [("host", JStr (vc_host p)); ("port", JNum (vc_port p))], (rows ++ [row])%list)
  end.

Definition vcenter_fields (p : VCenterConnectionUpdate) : json :=
  changed_names [("enabled", given (vu_enabled p)); ("host", given (vu_host p)); ("name", given (vu_name p));
                 ("notes", given (vu_notes p)); ("password_secret_ref", given (vu_password_ref p));
                 ("port", given (vu_port p)); ("username_secret_ref", given (vu_username_ref p));
                 ("verify_ssl", given (vu_verify_ssl p))].

(** The notes may be NULL, the name is unique. *)
Definition update_vcenter (user : option Caller) (id : string) (p : VCenterConnectionUpdate) (rows : list VCenterRow)
    : res AdminFailure (VCenterConnectionAdminOut * AuditEvent * list VCenterRow) :=
  let? _ := body (validate_vcenter_update p) in
  let? old := _get_vcenter id rows in
  let c := connection old in
  let? name := not_null_column (conn_name c) (vu_name p) in
  let? host := not_null_column (conn_host c) (vu_host p) in
  let? port := not_null_column (conn_port c) (vu_port p) in
  let? user_ref := not_null_column (conn_username_ref c) (vu_username_ref p) in
  let? password_ref := not_null_column (conn_password_ref c) (vu_password_ref p) in
  let? verify := not_null_column (conn_verify_ssl c) (vu_verify_ssl p) in
  let? enabled := not_null_column (conn_enabled c) (vu_enabled p) in
  let row := old <| connection := MkConnection id name host enabled port user_ref password_ref verify |>
                 <| notes := match vu_notes p with Some v => v | None => notes old end |> in
  if existsb (fun r => String.eqb (row_name r) name && negb (String.eqb (row_id r) id)) rows
  then Err (ServerError "IntegrityError")
  else Ok (vcenter_out row, admin_audit "VCENTER_UPDATED" user "vcenter" name [("fields", vcenter_fields p)],
           List.map (fun r => if String.eqb (row_id r) id then row else r) rows).

Definition delete_vcenter (user : option Caller) (id : string) (rows : list VCenterRow) : res AdminFailure (AuditEvent * list VCenterRow) :=
  let? old := _get_vcenter id rows in
  Ok (admin_audit "VCENTER_DELETED" user "vcenter" (row_name old) [],
      List.filter (fun r => negb (String.eqb (row_id r) id)) rows).

(** What a test writes into a row. *)
Definition tested (now : Z) (result : ConnectionTestResult) (r : VCenterRow) : VCenterRow :=
  r <| last_checked_at := Some now |>
    <| last_connection_state := Some (if conn_ok result then "connected" else "error") |>
    <| last_connection_error := if conn_ok result then None else Some (take_str 2000 (conn_detail result)) |>.

(** What the test of a connection leaves behind: its audit row and the row. *)
Definition test_recorded (user : option Caller) (now : Z) (row : VCenterRow) (result : ConnectionTestResult) (rows : list VCenterRow)
    : AuditEvent * list VCenterRow :=
  (audit_event "VCENTER_TESTED" (option_map snd user) "vcenter" (Some (row_name row)) None None None
     (Some (if conn_ok result then "success" else "failure")) [] (Some (conn_detail result)),
   List.map (fun r => if String.eqb (row_id r) (row_id row) then tested now result r else r) rows).

Section Test.
Context {X : Type} `{World X}.

(** The answer of vCenter, or the exception of the adapter, which leaves the rows alone. *)
Definition test_vcenter (user : option Caller) (now : Z) (id : string) (rows : list VCenterRow)
    : Op X (res AdminFailure (ConnectionTestResult * AuditEvent * list VCenterRow)) :=
  match _get_vcenter id rows with
  | Err e => oret (Err e)
  | Ok row =>
      let! result := test_connection (target_of (connection row)) in
      let '(audit, rows') := test_recorded user now row result rows in oret (Ok (result, audit, rows'))
  end.

(** ** Discovery ([infrastructure.py]) *)

Definition _load_target (id : string) (rows : list VCenterRow) : res AdminFailure VCenterTarget :=
  let? row := _get_vcenter id rows in
  if conn_enabled (connection row) then Ok (target_of (connection row))
  else missing ("vCenter connection " ++ SQ ++ row_name row ++ SQ ++ " is disabled.").

(** An endpoint that asks the vCenter of a connection. *)
Definition discover {A} (ask : VCenterTarget -> Op X A) (id : string) (rows : list VCenterRow) : Op X (res AdminFailure A) :=
  match _load_target id rows with
  | Err e => oret (Err e)
  | Ok target => let! answer := ask target in oret (Ok answer)
  end.

Definition list_datacenters (vcenter_id : string) (rows : list VCenterRow) := discover get_datacenters vcenter_id rows.
Definition list_clusters (datacenter_id vcenter_id : string) (rows : list VCenterRow) :=
  discover (fun t => get_clusters t datacenter_id) vcenter_id rows.
Definition list_hosts (cluster vcenter_id : string) (rows : list VCenterRow) :=
  discover (fun t => get_hosts t cluster) vcenter_id rows.
Definition list_resource_pools (cluster vcenter_id : string) (rows : list VCenterRow) :=
  discover (fun t => get_resource_pools t cluster) vcenter_id rows.
Definition list_datastores (cluster vcenter_id : string) (rows : list VCenterRow) :=
  discover (fun t => get_datastores t cluster) vcenter_id rows.
Definition list_networks (vcenter_id datacenter_id : string) (rows : list VCenterRow) :=
  discover (fun t => get_networks t datacenter_id) vcenter_id rows.
Definition list_datastore_clusters (cluster vcenter_id : string) (rows : list VCenterRow) :=
  discover (fun t => get_datastore_clusters t cluster) vcenter_id rows.
Definition list_isos (vcenter_id datacenter_id : string) (rows : list VCenterRow) :=
  discover (fun t => get_isos t datacenter_id) vcenter_id rows.

End Test.

(** ** What the rows promise *)

Inductive VCenterRequest :=
| CreateVCenter (id : string) (p : VCenterConnectionCreate)
| UpdateVCenter (id : string) (p : VCenterConnectionUpdate)
| DeleteVCenter (id : string)
| TestedVCenter (id : string) (now : Z) (result : ConnectionTestResult).

Definition vcenter_step (rows : list VCenterRow) (r : option Caller * VCenterRequest) : list VCenterRow :=
  match snd r with
  | CreateVCenter id p => after rows (create_vcenter (fst r) id p rows)
  | UpdateVCenter id p => after rows (update_vcenter (fst r) id p rows)
  | DeleteVCenter id => after rows (delete_vcenter (fst r) id rows)
  | TestedVCenter id now result => List.map (fun r => if String.eqb (row_id r) id then tested now result r else r) rows
  end.

Definition connection_ok (c : VCenterConnection) : bool :=
  name_ok (conn_name c) && host_ok (conn_host c) && port_ok (conn_port c) && ref_ok (conn_username_ref c) && ref_ok (conn_password_ref c).

(** The outcome of the last test; its text belongs to a failure. *)
Definition checked_ok (r : VCenterRow) : Prop :=
  match last_connection_state r, last_connection_error r with
  | None, None => True
  | Some s, None => s = "connected"
  | Some s, Some e => s = "error" /\ len e <= 2000
  | None, Some _ => False
  end.

Definition vcenter_row_ok (r : VCenterRow) : Prop := connection_ok (connection r) = true /\ checked_ok r.

Lemma checks_ok (c : bool) m : check c m = Ok tt -> c = true.
Proof. unfold check. by destruct c. Qed.

Lemma column_holds {A} (f : A -> bool) (old : A) (c : Change A) v :
  f old = true -> holds_of f c = true -> not_null_column old c = Ok v -> f v = true.
Proof. unfold not_null_column, column, holds_of, given_value. destruct c as [[w|]|]; [|done|]; by intros ? ? [= <-]. Qed.

Lemma create_checked p : validate_vcenter_create p = Ok tt -> forall id e,
  connection_ok (MkConnection id (vc_name p) (vc_host p) e (vc_port p) (vc_username_ref p) (vc_password_ref p) (vc_verify_ssl p)) = true.
Proof.
  unfold validate_vcenter_create. intros V id e. repeat (apply res_bind_ok in V as ([] & ?%checks_ok & V)).
  unfold connection_ok. cbn [conn_name conn_host conn_port conn_username_ref conn_password_ref].
  rewrite !andb_true_iff. tauto.
Qed.

Lemma update_checked p c id name host port u w verify e :
  validate_vcenter_update p = Ok tt -> connection_ok c = true ->
  not_null_column (conn_name c) (vu_name p) = Ok name -> not_null_column (conn_host c) (vu_host p) = Ok host ->
  not_null_column (conn_port c) (vu_port p) = Ok port -> not_null_column (conn_username_ref c) (vu_username_ref p) = Ok u ->
  not_null_column (conn_password_ref c) (vu_password_ref p) = Ok w ->
  connection_ok (MkConnection id name host e port u w verify) = true.
Proof.
  unfold validate_vcenter_update. intros V C N1 N2 N3 N4 N5. repeat (apply res_bind_ok in V as ([] & ?%checks_ok & V)).
  unfold connection_ok in *. cbn [conn_name conn_host conn_port conn_username_ref conn_password_ref].
  rewrite !andb_true_iff in *. destruct C as [[[[C1 C2] C3] C4] C5].
  split_and!; [by apply (column_holds name_ok _ _ _ C1 H)|by apply (column_holds host_ok _ _ _ C2 H0)|by apply (column_holds port_ok _ _ _ C3 H1)
    |by apply (column_holds ref_ok _ _ _ C4 H2)|by apply (column_holds ref_ok _ _ _ C5 H3)].
Qed.

Lemma get_vcenter_in id rows r : _get_vcenter id rows = Ok r -> In r rows /\ row_id r = id.
Proof.
  unfold _get_vcenter. destruct (find_first _ rows) as [x|] eqn:F; [|done]. intros [= <-].
  apply find_first_some in F as [I E]. by apply String.eqb_eq in E.
Qed.

Lemma vcenter_step_ok rows r : Forall vcenter_row_ok rows -> Forall vcenter_row_ok (vcenter_step rows r).
Proof.
  intros F. destruct r as [user [id p|id p|id|id now result]]; cbn.
  - unfold create_vcenter. destruct (validate_vcenter_create p) as [[]|] eqn:V; [|done]. cbn. destruct (find_first _ rows); [done|].
    destruct (taken _ _); [done|]. cbn. apply Forall_app. split; [done|]. constructor; [|constructor]. split; [by apply create_checked|exact I].
  - unfold update_vcenter. destruct (validate_vcenter_update p) as [[]|] eqn:V; [|done]. cbn.
    destruct (_get_vcenter id rows) as [old|] eqn:G; [|done]. cbn. apply get_vcenter_in in G as [G _].
    rewrite List.Forall_forall in F. destruct (F old G) as [C K].
    repeat (match goal with |- context [res_bind (not_null_column ?a ?b) _] => destruct (not_null_column a b) eqn:?; [|by apply List.Forall_forall] end; cbn [res_bind]).
    destruct (existsb _ rows); [by apply List.Forall_forall|]. cbn. apply List.Forall_map, List.Forall_forall. intros x I.
    destruct (String.eqb (row_id x) id); [|by apply F]. split; [|exact K]. cbn. eapply update_checked; eassumption.
  - unfold delete_vcenter. destruct (_get_vcenter id rows); [|done]. cbn. by apply forall_filter.
  - apply List.Forall_map. eapply Forall_impl; [exact F|]. intros x [C K]. cbn. destruct (String.eqb (row_id x) id); [|by split].
    split; [exact C|]. unfold checked_ok, tested. cbn. destruct (conn_ok result); [done|]. split; [done|].
    unfold len. pose proof (take_str_length 2000 (conn_detail result)). lia.
Qed.

(** Whatever administrators do, every connection has a usable name, host, port
    and credential references, and one of the four states the pages know. *)
Lemma vcenter_rows_ok requests :
  let rows := fold_left vcenter_step requests [] in
  Forall (fun r => connection_ok (connection r) = true
                   /\ In (display_state r) ["disabled"; "unknown"; "connected"; "error"]) rows.
Proof.
  cbn zeta. assert (F : Forall vcenter_row_ok (fold_left vcenter_step requests [])).
  { assert (G : Forall vcenter_row_ok []) by constructor. revert G. generalize (@nil VCenterRow).
    induction requests as [|r requests IH]; intros rows G; [done|]. cbn. by apply IH, vcenter_step_ok. }
  eapply Forall_impl; [exact F|]. intros r [C K]. split; [done|]. unfold display_state, checked_ok in *.
  destruct (conn_enabled (connection r)); cbn [negb]; [|by left]. destruct (last_connection_state r) as [s|]; [|by right; left].
  destruct (last_connection_error r); [destruct K as [-> _]|subst s]; cbn; tauto.
Qed.

(** ** What requesters see of connections *)

Record VCenterSummary := MkSummary {
  vs_id : string;
  vs_name : string;
  vs_host : string;
  vs_port : Z;
  vs_enabled : bool;
  vs_connection_state : string;
  vs_last_checked_at : option Z;
}.

(** [list_vcenters] of [app/api/v1/infrastructure.py] *)
Definition vcenter_summary (r : VCenterRow) : VCenterSummary :=
  let c := connection r in
  MkSummary (conn_id c) (conn_name c) (conn_host c) (conn_port c) (conn_enabled c) (display_state r) (last_checked_at r).
Definition list_vcenter_summaries (rows : list VCenterRow) : list VCenterSummary := List.map vcenter_summary (by_name rows).

(** Requesters learn nothing of the secrets, notes and errors of a connection. *)
Lemma summary_discreet r c n e :
  conn_id c = conn_id (connection r) -> conn_name c = conn_name (connection r) -> conn_host c = conn_host (connection r) ->
  conn_port c = conn_port (connection r) -> conn_enabled c = conn_enabled (connection r) ->
  vcenter_summary (r <| connection := c |> <| notes := n |> <| last_connection_error := e |>) = vcenter_summary r.
Proof. intros E1 E2 E3 E4 E5. unfold vcenter_summary, display_state. cbn. by rewrite E1, E2, E3, E4, E5. Qed.

(** ** Certificate verification

    [vcenter_ssl_context] of [app/services/vmware/base.py]: [files] says what the
    container has under a path, [system] whether the system trust store loads. *)

Inductive CaFile := NoFile | NoBundle (error : string) | Bundle.

(** The certificates a connection accepts: those a bundle vouches for ([None]:
    the system trust store), or any. *)
Inductive TlsContext := Verified (trust : option string) | Unverified.

Section Tls.
Context (files : string -> CaFile) (system : res string unit) (vcenter_ca_file : string).

Definition ensure_tls_policy (target : VCenterTarget) : list string :=
  if verify_ssl target then []
  else ["Connecting to vCenter " ++ SQ ++ target_name target ++ SQ ++ " (" ++ target_host target ++ ") without TLS certificate verification."].

(** [ssl.create_default_context] *)
Definition create_default_context (cafile : option string) : res string TlsContext :=
  match cafile with
  | None => let? _ := system in Ok (Verified None)
  | Some f => match files f with
              | Bundle => Ok (Verified (Some f))
              | NoBundle e => Err e
              | NoFile => Err "FileNotFoundError: [Errno 2] No such file or directory"
              end
  end.

(** The context and the warnings; [Unverified] is [False] of the code. *)
Definition vcenter_ssl_context (target : VCenterTarget) : res InfraError TlsContext * list string :=
  (if negb (verify_ssl target) then Ok Unverified
   else
     let ca_file := match vcenter_ca_file with "" => None | f => Some f end in
     match ca_file, option_map files ca_file with
     | Some f, Some NoFile =>
         Err (infra_error "The configured vCenter CA bundle was not found."
                ("VCENTER_CA_FILE points to " ++ SQ ++ f ++ SQ ++ ", which does not exist inside the container.")
                ("Place the PEM bundle in the mounted certs directory (./certs on the host) and " ++
                 "restart the backend and worker, or clear VCENTER_CA_FILE to use the system trust store.") "" false)
     | _, _ =>
         match create_default_context ca_file with
         | Ok c => Ok c
         | Err e =>
             Err (infra_error "The configured vCenter CA bundle could not be loaded."
                    ("VCENTER_CA_FILE " ++ SQ ++ default "None" ca_file ++ SQ ++ " is not a readable PEM certificate bundle.")
                    "Provide the CA certificate(s) in PEM format and restart the backend and worker." e false)
         end
     end, ensure_tls_policy target).

(** A certificate is accepted unverified only where an administrator asked for
    it on the connection, and then there is a warning; otherwise the configured
    bundle, if there is one, is the only trust, and one that is missing or
    broken fails the connection for good. *)
Lemma tls_policy target :
  let '(answer, warnings) := vcenter_ssl_context target in
  (answer = Ok Unverified <-> verify_ssl target = false)
  /\ (warnings = [] <-> verify_ssl target = true)
  /\ (verify_ssl target = true -> vcenter_ca_file <> "" ->
      (answer = Ok (Verified (Some vcenter_ca_file)) /\ files vcenter_ca_file = Bundle)
      \/ (exists e, answer = Err e /\ err_retryable e = false /\ files vcenter_ca_file <> Bundle)).
Proof.
  unfold vcenter_ssl_context, ensure_tls_policy, create_default_context. destruct (verify_ssl target); cbn [negb]; [|by repeat split].
  destruct vcenter_ca_file as [|c f] eqn:E; cbn [option_map].
  - split_and!; [|done|done]. destruct system; cbn; by split.
  - destruct (files (String c f)) as [|e|] eqn:F; (split_and!; [by split|by split|]); intros _ _; [right|right|by left]; eexists; by split_and!.
Qed.

End Tls.

Section Discovery.
Context {X : Type} `{World X}.

(** A disabled or unknown connection is never contacted, not even for a
    connection that was listed a moment ago. *)
Lemma disabled_not_contacted {A} (ask : VCenterTarget -> Op X A) id rows x :
  Forall (fun r => row_id r = id -> conn_enabled (connection r) = false) rows ->
  exists e, discover ask id rows x = (Ok (Err e), x).
Proof.
  intros F. unfold discover, _load_target. destruct (_get_vcenter id rows) as [r|e] eqn:G; cbn [res_bind]; [|by eexists].
  apply get_vcenter_in in G as [I E]. rewrite List.Forall_forall in F. rewrite (F r I E). by eexists.
Qed.

End Discovery.
