(* ===== verification/Preflight.v ===== *)
(** * Preflight validation

    [app/services/provisioning/preflight.py]: every check that can be made
    without changing the infrastructure, run on each submission.  A check
    section appends to a list of checks and may fail half-way, so a section
    is a function of the list so far and the state of the run. *)

From Stdlib Require Import ZArith Lia Ascii String List Bool.
From stdpp Require Import base tactics list strings gmap.
From S2P Require Import Prelude PyStr Errors Regex Network Schemas StateMachine Jobs Effects World.
From S2P Require Import Paths Resolver Placement Unattend AnswerIso Conflict StageSupport StagesVm SampleWorld.

Local Open Scope string_scope.
Local Open Scope Z_scope.

(** ** Sections of checks *)

Definition C (X A : Type) : Type := list PreflightCheck -> Run X -> Outcome A * list PreflightCheck * Run X.

Section Checks.
Context {X : Type}.

Definition cret {A} (a : A) : C X A := fun log r => (Return a, log, r).
Definition cthrow {A} (e : Exc) : C X A := fun log r => (Raise e, log, r).
Definition cbind {A B} (m : C X A) (k : A -> C X B) : C X B := fun log r =>
  match m log r with
  | (Return a, log1, r1) => k a log1 r1
  | (Raise e, log1, r1) => (Raise e, log1, r1)
  end.

(** An effect of the run that adds no check. *)
Definition lift {A} (m : M X A) : C X A := fun log r => let '(o, r1) := m r in (o, log, r1).

Definition add (check_code_ label : string) (status : CheckStatus) (detail_ : string) : C X unit := fun log r =>
  (Return tt, (log ++ [MkCheck check_code_ label status detail_ true])%list, r).

(** [add(..., blocking=False)] *)
Definition note (check_code_ label : string) (status : CheckStatus) (detail_ : string) : C X unit := fun log r =>
  (Return tt, (log ++ [MkCheck check_code_ label status detail_ false])%list, r).

(** [try: m except Exception as exc: h(exc)]: what [m] added before it failed stays. *)
Definition ctry {A} (m : C X A) (h : Exc -> C X A) : C X A := fun log r =>
  match m log r with
  | (Raise (Cancelled k), log1, r1) => (Raise (Cancelled k), log1, r1)
  | (Raise e, log1, r1) => h e log1 r1
  | o => o
  end.

End Checks.

Notation "'let+' x ':=' m 'in' k" := (cbind m (fun x => k))
  (at level 10, x binder, m at level 100, k at level 200) : infra_scope.
Notation "m >> k" := (cbind m (fun _ => k)) (at level 100, k at level 200, right associativity) : infra_scope.

Definition _safe_infrastructure_failure (e : Exc) (fallback : string) : string :=
  match e with
  | InfraOperationError e =>
      human_message e ++ " Reason: " ++ reason e ++ " Recommended action: " ++ recommended_action e
  | _ => fallback
  end.

(** The values of [{id_of(x): x for x in l}]. *)
Definition dict_values {A} (id_of : A -> string) (l : list A) : list A :=
  omap (by_id id_of l) (distinct [] (List.map id_of l)).

Definition SecretNotFoundError : string := "SecretNotFoundError".

Section Preflight.

Context {X : Type} `{World X}.
Context (req : ProvisioningRequest).

(** ** Storage *)

Definition selected_datastore : option string :=
  match list_find is_Some (List.map (fun d => nonempty (disk_datastore_id d)) (disks (hardware req))) with
  | Some (_, o) => o
  | None => None
  end.

Definition _check_storage (datastores : list DatastoreOut) (rows : gmap string json) : C X unit :=
  let total_gb := total_disk_gb req in
  match selected_datastore with
  | Some id =>
      match by_id ds_id datastores id with
      | None => add "datastore" "Selected datastore available" FAIL
                  "The selected datastore is not accessible from this compute target."
      | Some selected =>
          if negb (accessible selected) then
            add "datastore" "Selected datastore available" FAIL
              "The selected datastore is not accessible from this compute target."
          else if free_gb selected <? total_gb * TENTH then
            add "datastore_capacity" "Selected datastore capacity" FAIL
              (ds_name selected ++ " has " ++ fmt_gb (free_gb selected) ++ " GB free; the VM needs about "
               ++ str_int total_gb ++ " GB.")
          else
            add "datastore_capacity" "Selected datastore has room" PASS
              (ds_name selected ++ " (" ++ fmt_gb (free_gb selected) ++ " GB free, " ++ str_int total_gb ++ " GB needed)")
      end
  | None =>
      match preferred_names (rows !! SETTING_PREFERRED_DATASTORES) with
      | None => cthrow (OtherException "TypeError" "object is not iterable")
      | Some preferred =>
          let choice := choose_automatic_datastore (dict_values ds_id datastores) preferred total_gb in
          match datastore choice with
          | None =>
              add "datastore_capacity" "Automatic storage placement" FAIL
                (detail choice ++ " Choose a datastore in the wizard"
                 ++ (if preferred_configured choice then " or add one under Settings → Preferred datastores." else "."))
          | Some _ =>
              add "datastore_capacity" "Automatic storage placement" PASS (detail choice) >>
              (if preferred_configured choice then cret tt
               else note "preferred_datastores" "Preferred datastores configured" WARN
                 ("Automatic placement uses the datastore with the most free space, which is often a "
                  ++ "slow capacity tier. List the fast datastores under Settings → Preferred datastores, "
                  ++ "or choose a datastore in the wizard."))
          end
      end
  end.

(** ** Hosts and media *)

Definition HOSTS_LABEL : string := "ESXi hosts reachable for VMware Tools file transfers".

Definition host_problems (results : list (string * option string)) : list (string * string) :=
  omap (fun e => match snd e with Some p => if String.eqb p "" then None else Some (fst e, p) | None => None end) results.

Definition _check_host_file_transfers (tgt : VCenterTarget) (host_names : list string) : C X unit :=
  let+ results := ctry (let+ l := lift (call (check_host_https tgt host_names)) in cret (Some l))
    (fun e => add "esxi_https" HOSTS_LABEL FAIL
                (_safe_infrastructure_failure e "The ESXi hosts could not be checked.") >> cret None) in
  match results with
  | None => cret tt
  | Some l =>
      match host_problems l with
      | [] => add "esxi_https" HOSTS_LABEL PASS (join ", " host_names)
      | problems =>
          add "esxi_https" HOSTS_LABEL FAIL
            (join "; " (List.map (fun e => fst e ++ ": " ++ snd e) problems)
             ++ ". Every guest configuration step uploads its script to the ESXi host that runs the "
             ++ "VM: allow HTTPS (TCP 443) from the InfraOps server to every ESXi host, make the host "
             ++ "names resolve inside the backend and worker containers, and trust their certificates "
             ++ "(the vCenter VMCA root in VCENTER_CA_FILE) or untick 'Verify the TLS certificate' on "
             ++ "the vCenter connection.")
      end
  end.

Definition MEDIA_LABEL : string := "Windows Server installation media".

Definition _check_windows_server_media (tgt : VCenterTarget) (datacenter : string) (image : IsoImageOut) : C X unit :=
  let+ header := ctry (let+ h := lift (call (read_datastore_file tgt datacenter (iso_path image) ISO_HEADER_BYTES)) in
                       cret (Some h))
    (fun e => add "windows_media" MEDIA_LABEL FAIL
                (_safe_infrastructure_failure e "The ISO could not be read from its datastore.") >> cret None) in
  match header with
  | None => cret tt
  | Some h =>
      let label := iso_volume_label h in
      let shown := match label with Some l => if String.eqb l "" then "missing" else l | None => "missing" end in
      match classify_windows_media label with
      | SERVER => add "windows_media" MEDIA_LABEL PASS ("Volume label " ++ shown ++ ".")
      | CLIENT =>
          add "windows_media" MEDIA_LABEL FAIL
            (iso_name image ++ " is Windows client media (volume label " ++ shown ++ "). Only Windows "
             ++ "Server installs without anyone answering Setup or OOBE pages.")
      | UNKNOWN =>
          add "windows_media" MEDIA_LABEL FAIL
            (iso_name image ++ " is not recognised as Windows Server installation media "
             ++ "(volume label " ++ shown ++ "). Microsoft Server ISOs carry an 'SSS_' "
             ++ "volume label; use unmodified Microsoft media or keep that label when rebuilding it.")
      end
  end.

(** ** Infrastructure *)

Definition host_check (hosts : list HostOut) (id : string) : C X unit :=
  match by_id h_id hosts id with
  | None => add "host" "Host availability" FAIL "The manually selected host was not found in the compute target."
  | Some h =>
      if negb (available_for_provisioning h) then
        add "host" "Host availability" FAIL
          ("Host " ++ SQ ++ h_name h ++ SQ ++ " is not available (state=" ++ connection_state h
           ++ ", maintenance=" ++ (if maintenance_mode h then "True" else "False") ++ ").")
      else add "host" "Host available" PASS (h_name h)
  end.

(** The hosts a file transfer may go to. *)
Definition transfer_hosts (hosts : list HostOut) : list string :=
  match nonempty (host_id (compute req)) with
  | Some id => match by_id h_id hosts id with Some h => [h_name h] | None => [] end
  | None => List.map h_name (List.filter available_for_provisioning (dict_values h_id hosts))
  end.

Definition pool_check (tgt : VCenterTarget) (cluster : string) : C X unit :=
  match nonempty (resource_pool_id (compute req)) with
  | None => cret tt
  | Some id =>
      let+ pools := lift (call (get_resource_pools tgt cluster)) in
      if bool_decide (id ∈ List.map rp_id pools) then add "resource_pool" "Resource pool exists" PASS ""
      else add "resource_pool" "Resource pool exists" FAIL
             "The selected resource pool does not belong to this cluster."
  end.

Definition network_check (networks : list NetworkOut) : C X unit :=
  match by_id net_id networks (network_id (network req)) with
  | None => add "network" "Network exists" FAIL
              ("Port group " ++ SQ ++ network_id (network req) ++ SQ ++ " was not found.")
  | Some n => add "network" "Network exists" PASS (net_name n ++ " (" ++ net_type n ++ ")")
  end.

Definition iso_check (tgt : VCenterTarget) (datacenter : string) (datastores : list DatastoreOut)
    (isos : list IsoImageOut) : C X unit :=
  match by_id iso_image_id isos (iso_id (guest req)) with
  | None => add "iso" "ISO available" FAIL "The selected ISO was not found in this datacenter."
  | Some image =>
      if match by_id ds_id datastores (iso_datastore_id image) with Some d => accessible d | None => false end
      then
        add "iso" "ISO available" PASS (iso_name image ++ " on " ++ iso_datastore_name image) >>
        _check_windows_server_media tgt datacenter image
      else
        add "iso" "ISO accessible to cluster" FAIL
          (iso_name image ++ " is stored on a datastore unavailable to this cluster.")
  end.

Definition check_placement (tgt : VCenterTarget) (rows : gmap string json) (dc : DatacenterOut) (cluster : ClusterOut)
    : C X unit :=
  let+ hosts := lift (call (get_hosts tgt (cl_id cluster))) in
  match nonempty (host_id (compute req)) with Some id => host_check hosts id | None => cret tt end >>
  match transfer_hosts hosts with [] => cret tt | names => _check_host_file_transfers tgt names end >>
  pool_check tgt (cl_id cluster) >>
  (let+ datastores := lift (call (get_datastores tgt (cl_id cluster))) in
   _check_storage datastores rows >>
   (let+ networks := lift (call (get_networks tgt (dc_id dc))) in
    network_check networks >>
    (let+ isos := lift (call (get_isos tgt (dc_id dc))) in
     iso_check tgt (dc_id dc) datastores isos))).

Definition check_inventory (tgt : VCenterTarget) (rows : gmap string json) : C X unit :=
  let+ datacenters := lift (call (get_datacenters tgt)) in
  match by_id dc_id datacenters (compute_datacenter_id (compute req)) with
  | None => add "datacenter" "Datacenter exists" FAIL
              ("Datacenter " ++ SQ ++ compute_datacenter_id (compute req) ++ SQ ++ " was not found.")
  | Some dc =>
      add "datacenter" "Datacenter exists" PASS (dc_name dc) >>
      (let+ clusters := lift (call (get_clusters tgt (dc_id dc))) in
       match by_id cl_id clusters (cluster_id (compute req)) with
       | None => add "cluster" "Compute target exists" FAIL
                   ("Compute target " ++ SQ ++ cluster_id (compute req) ++ SQ ++ " was not found in " ++ dc_name dc ++ ".")
       | Some cluster =>
           add "cluster" "Compute target available" PASS
             (cl_name cluster ++ " (" ++ str_int (hosts_count cluster) ++ " host(s), DRS "
              ++ (if drs_enabled cluster then "on" else "off") ++ ")") >>
           check_placement tgt rows dc cluster
       end)
  end.

(** A section whose exception becomes a failed check. *)
Definition guarded (check_code_ label fallback : string) (m : C X unit) : C X unit :=
  ctry m (fun e => add check_code_ label FAIL (_safe_infrastructure_failure e fallback)).

Definition _check_infrastructure (tgt : VCenterTarget) (rows : gmap string json) : C X unit :=
  guarded "infrastructure" "Infrastructure discovery" "Infrastructure inventory could not be loaded. Try again."
    (check_inventory tgt rows).

(** ** vCenter, names and addresses *)

(** The target is known as soon as the connection is enabled, even if its test
    fails. *)
Definition check_vcenter : C X (option VCenterTarget) :=
  let wanted := vcenter_id (compute req) in
  let fallback := "The vCenter connection could not be tested. Try again or contact an administrator." in
  let failed e := add "vcenter" "vCenter connection" FAIL (_safe_infrastructure_failure e fallback) in
  let+ row := ctry (let+ c := lift (call (vcenter_connection wanted)) in cret (Some c))
                (fun e => failed e >> cret None) in
  match row with
  | None => cret None
  | Some None =>
      add "vcenter" "vCenter connection" FAIL "The selected vCenter connection no longer exists." >> cret None
  | Some (Some c) =>
      if negb (conn_enabled c) then
        add "vcenter" "vCenter connection" FAIL ("vCenter " ++ SQ ++ conn_name c ++ SQ ++ " is disabled.") >> cret None
      else
        let tgt := target_of c in
        ctry (let+ result := lift (call (test_connection tgt)) in
              if conn_ok result
              then add "vcenter" "vCenter connection successful" PASS (conn_name c ++ " (" ++ conn_host c ++ ")")
              else add "vcenter" "vCenter connection" FAIL (conn_detail result)) failed >>
        cret (Some tgt)
  end.

Definition name_of : string := vm_spec_name (vm req).

Definition name_policy (rows : gmap string json) : string :=
  match rows !! SETTING_VM_NAME_POLICY with
  | Some v => if truthy v then py_str v else ""
  | None => ""
  end.

Definition check_policy (rows : gmap string json) : C X unit :=
  let policy := name_policy rows in
  let matching := add "name_policy" "VM name matches naming policy" PASS "" in
  if String.eqb policy "" then cret tt
  else match re_fullmatch policy name_of with
       | None =>
           note "name_policy" "VM name policy" WARN
             "The configured naming policy regex is invalid — check Administration → Settings." >> matching
       | Some true => matching
       | Some false =>
           add "name_policy" "VM name policy" FAIL
             (SQ ++ name_of ++ SQ ++ " does not match the configured naming policy.")
       end.

Definition check_unique (tgt : VCenterTarget) : C X unit :=
  guarded "vm_name_unique" "VM name uniqueness" "VM name availability could not be checked. Try again."
    (let+ exists_ := lift (call (vm_exists tgt name_of)) in
     if exists_ then add "vm_name_unique" "VM name is available" FAIL ("A VM named " ++ SQ ++ name_of ++ SQ ++ " already exists.")
     else add "vm_name_unique" "VM name is available" PASS "").

Definition conflict_providers (tgt : VCenterTarget) : list (Provider (X := X)) :=
  [IcmpPingProvider; DnsForwardProvider; VMwareInventoryProvider tgt None].

Definition check_conflict (tgt : VCenterTarget) (c : Ipv4Config) : C X unit :=
  ctry
    (let+ report := lift (run_conflict_check (address c) (prefix c) (conflict_providers tgt)) in
     if conflict_detected report then
       add "ip_conflict" "IP conflict check" FAIL
         (join " " (List.map provider_detail
            (List.filter (fun p => bool_decide (provider_status p = CONFLICT_DETECTED)) (providers report))))
     else add "ip_conflict" "No conflict detected" PASS (confidence_note report))
    (fun e => note "ip_conflict" "IP conflict check" WARN
                (_safe_infrastructure_failure e "One or more conflict providers could not be checked.")).

Definition check_addressing (run_ip_conflict_checks : bool) (tgt : option VCenterTarget) : C X unit :=
  match mode (network req), ipv4 (network req) with
  | STATIC, Some c =>
      match validate_static_ipv4 (address c) (prefix c) (gateway c) (dns_servers c) with
      | (_ :: _) as issues =>
          add "ip_syntax" "IP address syntax" FAIL (join "; " (List.map message issues))
      | [] =>
          add "ip_syntax" "IP address syntax valid" PASS "" >>
          match tgt with
          | Some t => if run_ip_conflict_checks then check_conflict t c else cret tt
          | None => cret tt
          end
      end
  | _, _ => cret tt
  end.

(** ** Certificates and applications *)

Definition package_problem (packages : list PackageRow) (id : string) : option string :=
  match by_id pk_id packages id with
  | None => Some ("Package " ++ SQ ++ id ++ SQ ++ " does not exist.")
  | Some p =>
      if negb (pk_enabled p) then Some ("Package " ++ SQ ++ pk_name p ++ SQ ++ " is disabled.")
      else if negb (existsb (fun b => b) (pk_certificates_enabled p))
           then Some ("Package " ++ SQ ++ pk_name p ++ SQ ++ " contains no enabled certificates.")
           else None
  end.

Definition _check_certificates : C X unit :=
  match certificate_package_ids req with
  | [] => add "certificates" "Certificate packages" PASS "None selected."
  | wanted =>
      let+ all := lift (call package_rows) in
      let packages := List.filter (fun p => bool_decide (pk_id p ∈ wanted)) all in
      match omap (package_problem packages) wanted with
      | (_ :: _) as problems => add "certificates" "Certificate packages available" FAIL (join " " problems)
      | [] => add "certificates" "Certificate packages available" PASS
                (join ", " (omap (fun id => option_map pk_name (by_id pk_id packages id)) wanted))
      end
  end.

Definition _selected_applications : C X (list ApplicationRow) :=
  match application_ids req with
  | [] => cret []
  | wanted => let+ all := lift (call application_rows) in
              cret (List.filter (fun a => bool_decide (app_id a ∈ wanted)) all)
  end.

Definition app_node (a : ApplicationRow) : AppNode :=
  MkNode (app_id a) (app_name a) (app_enabled a) (list_to_set (dependency_ids a)).

(** The enabled applications by identifier. *)
Definition catalog_of (rows : list ApplicationRow) : gmap string AppNode :=
  fold_left (fun m a => <[app_id a := app_node a]> m) (List.filter app_enabled rows) ∅.

Definition application_problems (selected all : list ApplicationRow) : list string :=
  let wanted := application_ids req in
  let missing := List.filter (fun id => negb (bool_decide (id ∈ List.map app_id selected))) wanted in
  let disabled := List.map app_name (List.filter (fun a => negb (app_enabled a)) selected) in
  (match missing with [] => [] | _ => [("Applications not found: " ++ join ", " missing ++ ".")%string] end
   ++ match disabled with [] => [] | _ => [("Applications disabled: " ++ join ", " disabled ++ ".")%string] end
   ++ snd (resolve_install_order wanted (catalog_of all)))%list.

Definition _check_applications : C X unit :=
  let+ selected := _selected_applications in
  match application_ids req with
  | [] => add "applications" "Application definitions" PASS "None selected."
  | wanted =>
      let+ all := lift (call application_rows) in
      match application_problems selected all with
      | (_ :: _) as problems => add "applications" "Application definitions valid" FAIL (join " " problems)
      | [] => add "applications" "Application definitions valid" PASS
                ("Install order: " ++ join " → " (List.map node_name (fst (resolve_install_order wanted (catalog_of all)))))
      end
  end.

(** [settings_rows.get(SETTING_ALLOWED_INSTALLER_ROOTS) or []] as texts;
    [None]: not iterable. *)
Definition allowed_roots (rows : gmap string json) : option (list string) :=
  match rows !! SETTING_ALLOWED_INSTALLER_ROOTS with
  | Some v => if truthy v then option_map (List.map py_str) (iterate v) else Some []
  | None => Some []
  end.

Definition check_installer_policy (rows : gmap string json) : C X unit :=
  match allowed_roots rows with
  | None => cthrow (OtherException "TypeError" "object is not iterable")
  | Some roots =>
      let+ selected := _selected_applications in
      let outside := List.filter (fun p => negb (path_within_roots p roots)) (List.map installer_path selected) in
      match selected, roots with
      | _ :: _, [] =>
          add "installer_policy" "Installer repository policy" FAIL
            ("No approved installer repository roots are configured. Configure at least "
             ++ "one root before selecting applications.")
      | _, _ =>
          match (match roots with [] => [] | _ => outside end) with
          | [] => add "installer_policy" "Installer locations approved" PASS ""
          | l => add "installer_policy" "Installer locations approved" FAIL
                   (str_int (Z.of_nat (List.length l)) ++ " installer path(s) are outside the approved software "
                    ++ "repository roots configured by administrators.")
          end
      end
  end.

(** ** Credentials *)

Definition is_missing_secret (e : Exc) : bool :=
  match e with OtherException n _ => String.eqb n SecretNotFoundError | _ => false end.

Definition _check_product_key : C X unit :=
  match nonempty (product_key_secret_ref (guest req)) with
  | None => add "product_key" "Windows product key" PASS
              "None selected; volume-license and evaluation media need none."
  | Some reference =>
      let+ key := ctry (let+ k := lift (call (get_secret (reference ++ "/password"))) in cret (Some (upper (strip k))))
        (fun e => (if is_missing_secret e then
                     add "product_key" "Windows product key" FAIL
                       ("Product key " ++ SQ ++ reference ++ SQ ++ " is not resolvable.")
                   else
                     add "product_key" "Windows product key" FAIL
                       ("Product key " ++ SQ ++ reference ++ SQ ++ " could not be checked. Contact an administrator."))
                  >> cret None) in
      match key with
      | None => cret tt
      | Some k =>
          if fullmatch PRODUCT_KEY k then add "product_key" "Windows product key" PASS reference
          else add "product_key" "Windows product key" FAIL
                 ("Product key " ++ SQ ++ reference ++ SQ
                  ++ " is not a 25-character key (XXXXX-XXXXX-XXXXX-XXXXX-XXXXX).")
      end
  end.

(** Whether one secret can be read, or what is wrong with it. *)
Definition secret_problem (path : string) : C X (option string) :=
  ctry (lift (call (get_secret path)) >> cret None)
    (fun e => cret (Some (if is_missing_secret e
       then "Secret " ++ SQ ++ path ++ SQ ++ " is not resolvable by the " ++ SQ ++ secrets_provider_name ++ SQ ++ " provider."
       else "Secret " ++ SQ ++ path ++ SQ ++ " could not be checked. Contact an administrator."))).

Fixpoint secret_problems (paths : list string) : C X (list string) :=
  match paths with
  | [] => cret []
  | p :: rest =>
      let+ problem := secret_problem p in
      let+ problems := secret_problems rest in
      cret (match problem with Some m => m :: problems | None => problems end)
  end.

Definition credential_bases : list string :=
  (credential_secret_ref (guest req)
   :: match domain_join (guest req) with Some d => [join_secret_ref d] | None => [] end)%list.

Definition credential_paths : list string :=
  List.flat_map (fun base => [base ++ "/username"; base ++ "/password"]) credential_bases.

Definition _check_credentials : C X unit :=
  _check_product_key >>
  (let+ problems := secret_problems credential_paths in
   match problems with
   | [] => add "credentials" "Credential references resolvable" PASS ""
   | _ =>
       let local := existsb (fun p => startswith p ("Secret " ++ SQ ++ credential_secret_ref (guest req) ++ "/")) problems in
       add "credentials" "Credential references resolvable" FAIL
         (join " " (problems ++ (if local then
            [("Select a configured Windows provisioning administrator credential. "
              ++ "It is required before network configuration and domain join.")%string] else []))%list)
   end).

(** ** The report *)

Definition all_checks (run_ip_conflict_checks : bool) : C X unit :=
  let+ rows := lift load_effective in
  let+ tgt := check_vcenter in
  match tgt with Some t => _check_infrastructure t rows | None => cret tt end >>
  check_policy rows >>
  match tgt with Some t => check_unique t | None => cret tt end >>
  check_addressing run_ip_conflict_checks tgt >>
  _check_certificates >>
  _check_applications >>
  check_installer_policy rows >>
  _check_credentials.

Definition is_blocking_failure (c : PreflightCheck) : bool := bool_decide (check_status c = FAIL) && blocking c.
Definition is_warning (c : PreflightCheck) : bool := bool_decide (check_status c = WARN).

Definition report_of (log : list PreflightCheck) : PreflightReport :=
  let failures := count is_blocking_failure log in
  let is_ready := failures =? 0 in
  MkReport is_ready log
    (if is_ready
     then "Ready to provision (" ++ str_int (Z.of_nat (List.length log)) ++ " checks, "
          ++ str_int (count is_warning log) ++ " warning(s))."
     else "Not ready — " ++ str_int failures ++ " blocking problem(s) must be resolved.").

(** [PreflightValidator.validate] *)
Definition validate (run_ip_conflict_checks : bool) : M X PreflightReport := fun r =>
  match all_checks run_ip_conflict_checks [] r with
  | (Return _, log, r1) => (Return (report_of log), r1)
  | (Raise e, _, r1) => (Raise e, r1)
  end.

End Preflight.

(** The sample request passes every check. *)
Example sample_preflight :
  match fst (validate SAMPLE_REQUEST true (sample_run [] [] START QUEUED_JOB)) with
  | Return report =>
      ready report = true
      /\ report_summary report = "Ready to provision (17 checks, 1 warning(s))."
      /\ List.map check_code (checks report) =
           ["vcenter"; "datacenter"; "cluster"; "esxi_https"; "datastore_capacity"; "preferred_datastores"; "network";
            "iso"; "windows_media"; "vm_name_unique"; "ip_syntax"; "ip_conflict"; "certificates"; "applications";
            "installer_policy"; "product_key"; "credentials"]
  | Raise _ => False
  end.
Proof. vm_compute. repeat split. Qed.
