(* ===== verification/PreflightFacts.v ===== *)
(** * What the preflight validation guarantees

    It changes nothing, and it always comes to a report however its
    collaborators fail. *)

From Stdlib Require Import ZArith Lia Ascii String List Bool.
From stdpp Require Import base tactics list strings gmap.
From S2P Require Import Prelude PyStr Errors Regex Network Schemas StateMachine Jobs Effects World.
From S2P Require Import Paths Resolver Placement Unattend AnswerIso Conflict StageSupport StagesVm SampleWorld Preflight.

Local Open Scope string_scope.
Local Open Scope Z_scope.

(** ** Read-only *)

Section ReadOnly.

Context {X V : Type} `{World X} (obs : X -> V).

(** What an operation must not touch: any view [obs] of the world. *)
Definition query {A} (op : Op X A) : Prop := forall x, obs (snd (op x)) = obs x.

(** The operations the validation uses are queries. *)
Class Queries : Prop := {
  q_test_connection t : query (test_connection t);
  q_get_datacenters t : query (get_datacenters t);
  q_get_clusters t d : query (get_clusters t d);
  q_get_hosts t c : query (get_hosts t c);
  q_get_resource_pools t c : query (get_resource_pools t c);
  q_get_datastores t c : query (get_datastores t c);
  q_get_networks t d : query (get_networks t d);
  q_get_isos t d : query (get_isos t d);
  q_vm_exists t n : query (vm_exists t n);
  q_get_used_ips t : query (get_used_ips t);
  q_check_host_https t l : query (check_host_https t l);
  q_read_datastore_file t d p n : query (read_datastore_file t d p n);
  q_get_secret p : query (get_secret p);
  q_ping_installed : query ping_installed;
  q_ping a : query (ping a);
  q_gethostbyaddr a : query (gethostbyaddr a);
  q_setting_rows : query setting_rows;
  q_application_rows : query application_rows;
  q_package_rows : query package_rows;
  q_vcenter_connection i : query (vcenter_connection i);
}.

Context `{!Queries}.

(** What is left alone: the view, and the rows of the session and the database. *)
Definition view (r : Run X) : V * Session * Session * list Job := (obs (world r), session r, stored r, commits r).

Definition reads {A} (m : M X A) : Prop := forall r, view (snd (m r)) = view r.
Definition creads {A} (m : C X A) : Prop := forall log r, view (snd (m log r)) = view r.

Lemma reads_ret {A} (a : A) : reads (ret a).
Proof. done. Qed.
Lemma reads_throw {A} e : reads (throw (A := A) e).
Proof. done. Qed.
Lemma reads_bind {A B} (m : M X A) (k : A -> M X B) : reads m -> (forall a, reads (k a)) -> reads (bind m k).
Proof.
  intros Hm Hk r. unfold bind. specialize (Hm r). destruct (m r) as [[a|e] r1]; simpl in *; [by rewrite Hk|done].
Qed.

Lemma reads_run {A} (op : Op X A) : query op -> reads (fun r => let '(o, x) := op (world r) in (outcome_of o, r <| world := x |>)).
Proof. intros Q r. specialize (Q (world r)). destruct (op (world r)) as [o x]. unfold view. simpl in *. by rewrite Q. Qed.

Lemma reads_await {A} (m : M X A) : reads m -> reads (await m).
Proof.
  intros Hm r. unfold await. destruct (pending r) as [[[|n] k b]|]; cbn [after_awaits in_flight_lands snd]; [| |by apply Hm].
  - destruct b; [exact (eq_trans (Hm (r <| pending := None |>)) eq_refl)|done].
  - exact (eq_trans (Hm (r <| pending := Some (MkInterrupt n k b) |>)) eq_refl).
Qed.

Lemma reads_call {A} (op : Op X A) : query op -> reads (call op).
Proof. intros Q. by apply reads_await, reads_run. Qed.
Lemma reads_draw {A} (op : Op X A) : query op -> reads (draw op).
Proof. apply reads_run. Qed.

Lemma reads_catch_exception {A} (m : M X A) h : reads m -> (forall e, reads (h e)) -> reads (catch_exception m h).
Proof.
  intros Hm Hh r. unfold catch_exception. specialize (Hm r).
  destruct (m r) as [[a|[e| |n t|k]] r1]; simpl in *; try done; by rewrite Hh.
Qed.

Lemma creads_ret {A} (a : A) : creads (cret a).
Proof. done. Qed.
Lemma creads_throw {A} e : creads (cthrow (A := A) e).
Proof. done. Qed.
Lemma creads_add c l s d : creads (add c l s d).
Proof. done. Qed.
Lemma creads_note c l s d : creads (note c l s d).
Proof. done. Qed.
Lemma creads_lift {A} (m : M X A) : reads m -> creads (lift m).
Proof. intros Hm log r. unfold lift. specialize (Hm r). by destruct (m r). Qed.
Lemma creads_bind {A B} (m : C X A) (k : A -> C X B) : creads m -> (forall a, creads (k a)) -> creads (cbind m k).
Proof.
  intros Hm Hk log r. unfold cbind. specialize (Hm log r). destruct (m log r) as [[[a|e] log1] r1]; simpl in *;
    [by rewrite Hk|done].
Qed.
Lemma creads_try {A} (m : C X A) h : creads m -> (forall e, creads (h e)) -> creads (ctry m h).
Proof.
  intros Hm Hh log r. unfold ctry. specialize (Hm log r).
  destruct (m log r) as [[[a|[e| |n t|k]] log1] r1]; simpl in *; try done; by rewrite Hh.
Qed.

End ReadOnly.

Create HintDb queries.
#[export] Hint Resolve q_test_connection q_get_datacenters q_get_clusters q_get_hosts q_get_resource_pools
  q_get_datastores q_get_networks q_get_isos q_vm_exists q_get_used_ips q_check_host_https q_read_datastore_file
  q_get_secret q_ping_installed q_ping q_gethostbyaddr q_setting_rows q_application_rows q_package_rows
  q_vcenter_connection : queries.

Ltac reads_step :=
  lazymatch goal with
  | |- reads _ (bind _ _) => apply reads_bind
  | |- reads _ (ret _) => apply reads_ret
  | |- reads _ (throw _) => apply reads_throw
  | |- reads _ (call _) => apply reads_call; solve [eauto with queries]
  | |- reads _ (draw _) => apply reads_draw; solve [eauto with queries]
  | |- reads _ (catch_exception _ _) => apply reads_catch_exception
  | |- creads _ (cbind _ _) => apply creads_bind
  | |- creads _ (cret _) => apply creads_ret
  | |- creads _ (cthrow _) => apply creads_throw
  | |- creads _ (add _ _ _ _) => apply creads_add
  | |- creads _ (note _ _ _ _) => apply creads_note
  | |- creads _ (lift _) => apply creads_lift
  | |- creads _ (ctry _ _) => apply creads_try
  | |- reads _ (match ?x with _ => _ end) => destruct x
  | |- creads _ (match ?x with _ => _ end) => destruct x
  | |- forall _, _ => intros
  end.
Ltac solve_reads := repeat first [ reads_step | assumption | progress cbn zeta ].

Section Guarantees.

Context {X V : Type} `{World X} (obs : X -> V) `{!Queries obs}.
Context (req : ProvisioningRequest).

Lemma reads_load_effective : reads obs load_effective.
Proof. unfold load_effective. solve_reads. Qed.

Lemma reads_providers a n ps :
  (forall p, In p ps -> reads obs (check p a n)) -> reads obs (run_providers a n ps).
Proof.
  induction ps as [|p ps IH]; intros Hp; simpl; [apply reads_ret|].
  pose proof (Hp p (or_introl eq_refl)). assert (reads obs (run_providers a n ps)) by (apply IH; intros q Hq; apply Hp; by right).
  solve_reads.
Qed.

Lemma reads_conflict t a n : reads obs (run_conflict_check a n (conflict_providers t)).
Proof.
  unfold run_conflict_check. apply reads_bind; [|solve_reads]. apply reads_providers.
  intros p [<-|[<-|[<-|[]]]]; simpl; solve_reads.
Qed.

Lemma creads_infrastructure t rows : creads obs (_check_infrastructure req t rows).
Proof.
  unfold _check_infrastructure, guarded, check_inventory, check_placement, host_check, pool_check, network_check, iso_check,
    _check_storage, _check_host_file_transfers, _check_windows_server_media. solve_reads.
Qed.

Lemma creads_secrets paths : creads obs (secret_problems paths).
Proof. induction paths as [|p paths IH]; simpl; unfold secret_problem; solve_reads. Qed.

Lemma creads_all conflict : creads obs (all_checks req conflict).
Proof.
  pose proof reads_load_effective. pose proof creads_infrastructure. pose proof reads_conflict. pose proof creads_secrets.
  unfold all_checks, check_vcenter, check_policy, check_unique, guarded, check_addressing, check_conflict,
    _check_certificates, _check_applications, check_installer_policy, _check_credentials, _check_product_key,
    _selected_applications.
  repeat first [reads_step | progress cbn zeta | by auto].
Qed.

(** (PreflightValidator): the validation is read-only.  For every view of
    the world that the queries of the collaborators leave alone (inventory,
    host, datastore and media reads, host name and ping look-ups, secret reads
    and SELECTs), the validation leaves it alone, and it neither writes nor
    commits any row, also when it fails or is cancelled half-way. *)
Lemma preflight_read_only conflict (r : Run X) :
  let r' := snd (validate req conflict r) in
  obs (world r') = obs (world r) /\ session r' = session r /\ stored r' = stored r /\ commits r' = commits r.
Proof.
  cbn zeta. unfold validate. pose proof (creads_all conflict [] r) as E.
  destruct (all_checks req conflict [] r) as [[[a|e] log] r1]; simpl in *; by injection E.
Qed.

End Guarantees.

(** The sample world's queries leave its inventory of VMs alone. *)
#[export] Instance sample_queries : Queries (X := Sample) inventory.
Proof. split; intros; by intros x. Qed.

Lemma preflight_read_only_witness :
  let r := sample_run [] [] START QUEUED_JOB in
  inventory (world (snd (validate SAMPLE_REQUEST true r))) = inventory (world r).
Proof. apply (preflight_read_only inventory SAMPLE_REQUEST true (sample_run [] [] START QUEUED_JOB)). Defined.

(** ** The report always comes *)

Section Total.

Context {X : Type} `{World X}.

(** [m] keeps an undisturbed run so and is not cancelled. *)
Definition ccalm {A} (m : C X A) : Prop := forall log r, undisturbed r ->
  undisturbed (snd (m log r)) /\ (forall k, fst (fst (m log r)) <> Raise (Cancelled k)).

(** [m] moreover returns. *)
Definition total {A} (m : C X A) : Prop := forall log r, undisturbed r ->
  undisturbed (snd (m log r)) /\ exists a, fst (fst (m log r)) = Return a.

Lemma ccalm_total {A} (m : C X A) : total m -> ccalm m.
Proof. intros T log r U. destruct (T log r U) as [U' [a E]]. split; [done|]. by rewrite E. Qed.

Lemma total_ret {A} (a : A) : total (cret a).
Proof. intros log r U. split; [done|by eexists]. Qed.
Lemma total_add c l s d : total (add c l s d).
Proof. intros log r U. split; [done|by eexists]. Qed.
Lemma total_note c l s d : total (note c l s d).
Proof. intros log r U. split; [done|by eexists]. Qed.

Lemma total_bind {A B} (m : C X A) (k : A -> C X B) : total m -> (forall a, total (k a)) -> total (cbind m k).
Proof.
  intros Hm Hk log r U. unfold cbind. destruct (Hm log r U) as [U1 [a E]].
  destruct (m log r) as [[o log1] r1]. simpl in *. subst o. by apply Hk.
Qed.

Lemma ccalm_bind {A B} (m : C X A) (k : A -> C X B) : ccalm m -> (forall a, ccalm (k a)) -> ccalm (cbind m k).
Proof.
  intros Hm Hk log r U. unfold cbind. destruct (Hm log r U) as [U1 E].
  destruct (m log r) as [[[a|e] log1] r1]; simpl in *; [by apply Hk|]. split; [done|]. intros k0 [= ->]. by destruct (E k0).
Qed.

Lemma ccalm_throw {A} e : ordinary e -> ccalm (cthrow (A := A) e).
Proof. intros O log r U. split; [done|]. intros k [= ->]. done. Qed.

Lemma ccalm_lift {A} (m : M X A) : calm false m -> ccalm (lift m).
Proof.
  intros Hm log r U. unfold lift. destruct (Hm r U) as [U1 E]. destruct (m r) as [o r1]. simpl in *.
  split; [done|]. intros k ->. by destruct (E k eq_refl).
Qed.

(** A caught section. *)
Lemma total_try {A} (m : C X A) h : ccalm m -> (forall e, total (h e)) -> total (ctry m h).
Proof.
  intros Hm Hh log r U. unfold ctry. destruct (Hm log r U) as [U1 E].
  destruct (m log r) as [[[a|[e| |n t|k]] log1] r1]; simpl in *; try (by apply Hh).
  - split; [done|by eexists].
  - by destruct (E k).
Qed.

Lemma total_call {A} (op : Op X A) : (forall x, exists a, fst (op x) = Ok a) -> total (lift (call op)).
Proof.
  intros Hop log r [U1 U2]. unfold lift, call, await. rewrite U1. destruct (Hop (world r)) as [a E].
  destruct (op (world r)) as [o x]. simpl in *. subst o. split; [done|by eexists].
Qed.

End Total.

Ltac total_step :=
  lazymatch goal with
  | |- total (cbind _ _) => apply total_bind
  | |- total (cret _) => apply total_ret
  | |- total (add _ _ _ _) => apply total_add
  | |- total (note _ _ _ _) => apply total_note
  | |- total (ctry _ _) => apply total_try
  | |- total (match ?x with _ => _ end) => destruct x
  | |- ccalm (cbind _ _) => apply ccalm_bind
  | |- ccalm (cret _) => apply ccalm_total, total_ret
  | |- ccalm (cthrow _) => apply ccalm_throw; exact I
  | |- ccalm (add _ _ _ _) => apply ccalm_total, total_add
  | |- ccalm (note _ _ _ _) => apply ccalm_total, total_note
  | |- ccalm (ctry _ _) => apply ccalm_total, total_try
  | |- ccalm (lift (call _)) => apply ccalm_lift, calm_call
  | |- ccalm (match ?x with _ => _ end) => destruct x
  | |- forall _, _ => intros
  end.
Ltac solve_total := repeat first [ total_step | assumption | progress cbn zeta | by auto ].

(** ** What becomes of a failure *)

(** [failed] is set by an operation that raises, and by nothing else. *)
Definition records {X A} (failed : X -> bool) (op : Op X A) : Prop := forall x,
  let '(o, x') := op x in failed x' = failed x || negb (is_ok o).

(** A world that remembers whether an operation of vCenter, of a host or of the
    secret store, or the look-up of the connection, has raised; the other
    queries of the validation leave that alone.  Any world becomes one
    ([flagged_world]). *)
Class FailureLog (X : Type) `{World X} := {
  failed : X -> bool;
  f_test_connection t : records failed (test_connection t);
  f_get_datacenters t : records failed (get_datacenters t);
  f_get_clusters t d : records failed (get_clusters t d);
  f_get_hosts t c : records failed (get_hosts t c);
  f_get_resource_pools t c : records failed (get_resource_pools t c);
  f_get_datastores t c : records failed (get_datastores t c);
  f_get_networks t d : records failed (get_networks t d);
  f_get_isos t d : records failed (get_isos t d);
  f_vm_exists t n : records failed (vm_exists t n);
  f_check_host_https t l : records failed (check_host_https t l);
  f_read_datastore_file t d p n : records failed (read_datastore_file t d p n);
  f_get_secret p : records failed (get_secret p);
  f_vcenter_connection i : records failed (vcenter_connection i);
  f_get_used_ips t : query failed (get_used_ips t);
  f_ping_installed : query failed ping_installed;
  f_ping a : query failed (ping a);
  f_gethostbyaddr a : query failed (gethostbyaddr a);
  f_setting_rows : query failed setting_rows;
  f_application_rows : query failed application_rows;
  f_package_rows : query failed package_rows;
}.

Create HintDb failures.
#[export] Hint Resolve f_test_connection f_get_datacenters f_get_clusters f_get_hosts f_get_resource_pools f_get_datastores
  f_get_networks f_get_isos f_vm_exists f_check_host_https f_read_datastore_file f_get_secret f_vcenter_connection : failures.
#[export] Hint Resolve f_get_used_ips f_ping_installed f_ping f_gethostbyaddr f_setting_rows f_application_rows f_package_rows
  : queries.

Section Accounts.

Context {X : Type} `{FailureLog X}.

(** The log blocks the request. *)
Definition blocks (log : list PreflightCheck) : Prop := exists c, c ∈ log /\ check_status c = FAIL /\ blocking c = true.

(** An operation failed between [r] and [r'], and neither the new checks nor an
    exception tell. *)
Definition told (r r' : Run X) (new : list PreflightCheck) (raised_ : bool) : Prop :=
  failed (world r') = true -> failed (world r) = true \/ blocks new \/ raised_ = true.

Definition accounts {A} (m : C X A) : Prop := forall log r, undisturbed r ->
  let '(o, log', r') := m log r in exists new, log' = (log ++ new)%list /\ told r r' new (negb (is_return o)).

(** [m] adds a blocking check. *)
Definition pays {A} (m : C X A) : Prop := forall log r,
  let '(_, log', _) := m log r in exists new, log' = (log ++ new)%list /\ blocks new.

Lemma blocks_app a b : blocks (a ++ b) <-> blocks a \/ blocks b.
Proof.
  unfold blocks. setoid_rewrite elem_of_app. split.
  - intros (c & [I|I] & E); [left|right]; eauto.
  - intros [(c & I & E)|(c & I & E)]; exists c; auto.
Qed.

Lemma told_same r r' new b : failed (world r') = failed (world r) -> told r r' new b.
Proof. unfold told. intros ->. by left. Qed.

Lemma accounts_ret {A} (a : A) : accounts (cret a).
Proof. intros log r U. exists []. rewrite app_nil_r. split; [done|by apply told_same]. Qed.
Lemma accounts_throw {A} e : accounts (cthrow (A := A) e).
Proof. intros log r U. exists []. rewrite app_nil_r. split; [done|by apply told_same]. Qed.
Lemma accounts_add c l s d : accounts (add c l s d).
Proof. intros log r U. eexists. split; [reflexivity|by apply told_same]. Qed.
Lemma accounts_note c l s d : accounts (note c l s d).
Proof. intros log r U. eexists. split; [reflexivity|by apply told_same]. Qed.

Lemma pays_add c l d : pays (add c l FAIL d).
Proof. intros log r. eexists. split; [reflexivity|]. eexists. split; [by left|done]. Qed.
Lemma pays_then {A B} (m : C X A) (b : B) : pays m -> pays (cbind m (fun _ => cret b)).
Proof.
  intros P log r. unfold cbind. specialize (P log r). by destruct (m log r) as [[[a|e] log1] r1].
Qed.

Lemma accounts_bind {A B} (m : C X A) (k : A -> C X B) :
  ccalm m -> accounts m -> (forall a, accounts (k a)) -> accounts (cbind m k).
Proof.
  intros Hc Hm Hk log r U. unfold cbind. destruct (Hc log r U) as [U1 _]. specialize (Hm log r U).
  destruct (m log r) as [[[a|e] log1] r1]; cbn [fst snd] in *; [|done]. destruct Hm as (new & -> & N).
  specialize (Hk a (log ++ new)%list r1 U1). destruct (k a _ r1) as [[o log2] r2]. destruct Hk as (more & -> & N2).
  exists (new ++ more)%list. rewrite <- app_assoc. split; [done|]. unfold told. rewrite blocks_app. intros [K|[K|K]]%N2; [|auto..].
  apply N in K as [K|[K|K]]; [by left|auto|done].
Qed.

Lemma accounts_try {A} (m : C X A) h : accounts m -> (forall e, pays (h e)) -> accounts (ctry m h).
Proof.
  intros Hm Hh log r U. unfold ctry. specialize (Hm log r U).
  destruct (m log r) as [[[a|e] log1] r1]; [exact Hm|]. destruct Hm as (new & -> & N).
  assert (let '(o, log', r') := h e (log ++ new)%list r1 in
            exists new, log' = (log ++ new)%list /\ told r r' new (negb (is_return o))) as P.
  { specialize (Hh e (log ++ new)%list r1). destruct (h e _ r1) as [[o log2] r2]. destruct Hh as (more & -> & B).
    exists (new ++ more)%list. split; [by rewrite app_assoc|]. intros _. right. left. apply blocks_app. by right. }
  destruct e as [i| |n t|k]; [exact P..|]. by exists new.
Qed.

Lemma accounts_call {A} (op : Op X A) : records failed op -> accounts (lift (call op)).
Proof.
  intros R log r [U _]. unfold lift, call, await. rewrite U. specialize (R (world r)).
  destruct (op (world r)) as [o x]. exists []. rewrite app_nil_r. split; [done|].
  unfold told. cbn. rewrite R. intros [K|K]%orb_prop; [by left|]. right; right. by destruct o.
Qed.

(** What leaves the ghost alone. *)
Lemma accounts_lift {A} (m : M X A) : reads failed m -> accounts (lift m).
Proof.
  intros R log r U. unfold lift. specialize (R r). destruct (m r) as [o r1]. exists [].
  rewrite app_nil_r. split; [done|]. apply told_same. by injection R.
Qed.

End Accounts.

Ltac accounts_step :=
  lazymatch goal with
  | |- accounts (cbind _ _) => apply accounts_bind; [first [solve [solve_total] | solve [apply ccalm_total; solve_total]]| |]
  | |- accounts (cret _) => apply accounts_ret
  | |- accounts (cthrow _) => apply accounts_throw
  | |- accounts (add _ _ _ _) => apply accounts_add
  | |- accounts (note _ _ _ _) => apply accounts_note
  | |- accounts (ctry _ _) => apply accounts_try
  | |- accounts (lift (call _)) =>
      first [apply accounts_call; solve [eauto with failures] | apply accounts_lift, reads_call; solve [eauto with queries]]
  | |- accounts (match ?x with _ => _ end) => destruct x
  | |- pays (add _ _ FAIL _) => apply pays_add
  | |- pays (cbind _ (fun _ => cret _)) => apply pays_then
  | |- pays (match ?x with _ => _ end) => destruct x
  | |- forall _, _ => intros
  end.
Ltac solve_accounts := repeat first [ accounts_step | assumption | progress cbn zeta | by auto ].

Section Reports.

Context {X : Type} `{World X} (req : ProvisioningRequest).

Lemma total_infrastructure t rows : total (_check_infrastructure (X := X) req t rows).
Proof.
  unfold _check_infrastructure, guarded, check_inventory, check_placement, host_check, pool_check, network_check, iso_check,
    _check_storage, _check_host_file_transfers, _check_windows_server_media. solve_total.
Qed.

Lemma total_conflict t c : total (check_conflict (X := X) t c).
Proof.
  unfold check_conflict. apply total_try; [|solve_total]. apply ccalm_bind; [|solve_total].
  apply ccalm_lift, tame_run_conflict_check.
  apply Forall_cons_2; [apply tame_icmp|apply Forall_cons_2; [apply tame_dns|apply Forall_cons_2; [apply tame_inventory|constructor]]].
Qed.

Lemma total_secrets paths : total (secret_problems (X := X) paths).
Proof. induction paths as [|p paths IH]; simpl; unfold secret_problem; solve_total. Qed.

(** The database answers, and the roots setting is a list or absent. *)
Record database_answers : Prop := {
  settings_answer : forall x : X, exists rows, fst (setting_rows x) = Ok rows
                    /\ allowed_roots (read_stored_value <$> overlay rows) <> None;
  applications_answer : forall x : X, exists rows, fst (application_rows x) = Ok rows;
  packages_answer : forall x : X, exists rows, fst (package_rows x) = Ok rows;
}.

Context (DB : database_answers).

Lemma total_selected : total (_selected_applications (X := X) req).
Proof. unfold _selected_applications. pose proof (total_call _ (applications_answer DB)). solve_total. Qed.

Lemma total_rest conflict tgt rows : allowed_roots rows <> None ->
  total (X := X)
    (match tgt with Some t => _check_infrastructure req t rows | None => cret tt end >>
     check_policy req rows >>
     match tgt with Some t => check_unique req t | None => cret tt end >>
     check_addressing req conflict tgt >>
     _check_certificates req >> _check_applications req >> check_installer_policy req rows >> _check_credentials req).
Proof.
  intros Hr. pose proof total_infrastructure. pose proof total_conflict. pose proof total_secrets. pose proof total_selected.
  pose proof (total_call _ (applications_answer DB)). pose proof (total_call _ (packages_answer DB)).
  unfold check_policy, check_unique, guarded, check_addressing, _check_certificates, _check_applications,
    check_installer_policy, _check_credentials, _check_product_key.
  destruct (allowed_roots rows) as [roots|]; [|done]. solve_total.
Qed.

Context `{F : !FailureLog X}.

Lemma accounts_infrastructure t rows : accounts (_check_infrastructure req t rows).
Proof.
  unfold _check_infrastructure, guarded, check_inventory, check_placement, host_check, pool_check, network_check, iso_check,
    _check_storage, _check_host_file_transfers, _check_windows_server_media. solve_accounts.
Qed.

(** A provider that fails is a warning, or an answer of its own. *)
Lemma reads_conflict_failed t c :
  reads failed (run_conflict_check (address c) (prefix c) (conflict_providers (X := X) t)).
Proof.
  unfold run_conflict_check, conflict_providers. apply reads_bind; [|solve_reads].
  apply reads_providers. intros p [<-|[<-|[<-|[]]]]; simpl; solve_reads.
Qed.

Lemma accounts_conflict t c : accounts (check_conflict (X := X) t c).
Proof.
  intros log r U. unfold check_conflict, ctry, cbind, lift. pose proof (reads_conflict_failed t c r) as R.
  destruct (run_conflict_check _ _ _ r) as [[report|[e| |n m|k]] r1]; injection R as R _ _ _.
  1: destruct (conflict_detected report).
  6: exists []; rewrite app_nil_r; (split; [done|by apply told_same]).
  all: eexists; (split; [reflexivity|by apply told_same]).
Qed.

(** A secret that cannot be read is one of the problems. *)
Lemma secret_problem_told path log r : undisturbed r ->
  let '(o, log', r') := secret_problem (X := X) path log r in
  log' = log /\ undisturbed r' /\ exists m, o = Return m /\ told r r' [] (match m with Some _ => true | None => false end).
Proof.
  intros [U1 U2]. unfold secret_problem, ctry, cbind, lift, call, await. rewrite U1. pose proof (f_get_secret path (world r)) as R.
  destruct (get_secret path (world r)) as [[s|f] x]; cbn in R.
  - split; [done|]. split; [by split|]. eexists. split; [reflexivity|]. apply told_same. cbn. by rewrite R, orb_false_r.
  - destruct f; cbn; (split; [done|]; split; [by split|]; eexists; split; [reflexivity|]; intros _; by right; right).
Qed.

Lemma secret_problems_told paths : forall log r, undisturbed r ->
  let '(o, log', r') := secret_problems (X := X) paths log r in
  log' = log /\ exists l, o = Return l /\ told r r' [] (negb (bool_decide (l = []))).
Proof.
  induction paths as [|path paths IH]; intros log r U; cbn [secret_problems].
  - split; [done|]. exists []. split; [done|by apply told_same].
  - unfold cbind at 1. pose proof (secret_problem_told path log r U) as P.
    destruct (secret_problem path log r) as [[o log1] r1]. destruct P as (-> & U1 & m & -> & T).
    unfold cbind. specialize (IH log r1 U1). destruct (secret_problems paths log r1) as [[o log2] r2]. destruct IH as (-> & l & -> & T2).
    split; [done|]. eexists. split; [reflexivity|]. intros [K|[(? & K%elem_of_nil & _)|K]]%T2; [| |]; [|done|].
    + apply T in K as [K|[(? & K%elem_of_nil & _)|K]]; [by left|done|]. right; right. by destruct m.
    + right; right. destruct m; [done|exact K].
Qed.

Lemma accounts_credentials : accounts (_check_credentials (X := X) req).
Proof.
  pose proof total_secrets. unfold _check_credentials, _check_product_key.
  apply accounts_bind; [solve_total|solve_accounts|]. intros _ log r U. unfold cbind.
  pose proof (secret_problems_told (credential_paths req) log r U) as P.
  destruct (secret_problems _ log r) as [[o log1] r1]. destruct P as (-> & l & -> & T). destruct l as [|x l].
  - eexists. split; [reflexivity|]. intros [K|[(? & K%elem_of_nil & _)|K]]%T; [by left|done|done].
  - eexists. split; [reflexivity|]. intros _. right. left. eexists. split; [by left|done].
Qed.

Lemma accounts_rest conflict tgt rows : allowed_roots rows <> None ->
  accounts (X := X)
    (match tgt with Some t => _check_infrastructure req t rows | None => cret tt end >>
     check_policy req rows >>
     match tgt with Some t => check_unique req t | None => cret tt end >>
     check_addressing req conflict tgt >>
     _check_certificates req >> _check_applications req >> check_installer_policy req rows >> _check_credentials req).
Proof.
  intros Hr. pose proof total_infrastructure. pose proof total_conflict. pose proof total_secrets. pose proof total_selected.
  pose proof (total_call _ (applications_answer DB)). pose proof (total_call _ (packages_answer DB)).
  pose proof accounts_infrastructure. pose proof accounts_conflict. pose proof accounts_credentials as Credentials.
  assert (accounts (_selected_applications (X := X) req)) by (unfold _selected_applications; solve_accounts).
  assert (total (X := X) (_check_credentials req)) by (unfold _check_credentials, _check_product_key; solve_total).
  unfold check_policy, check_unique, guarded, check_addressing, _check_certificates, _check_applications, check_installer_policy.
  destruct (allowed_roots rows) as [roots|]; [|done]. solve_accounts.
Qed.

Lemma blocks_not_ready log : blocks log -> ready (report_of log) = false.
Proof.
  intros (c & I & S & B). cbn. apply Z.eqb_neq. unfold count. intros E.
  assert (List.filter is_blocking_failure log = []) as N by (apply List.length_zero_iff_nil; lia).
  assert (In c (List.filter is_blocking_failure log)) as J; [|by rewrite N in J].
  apply filter_In. split; [by apply list_elem_of_In|]. unfold is_blocking_failure. by rewrite S, B.
Qed.


End Reports.

(** Any world with a flag is one that remembers.  The number, if there is one,
    is how many more calls vCenter answers before it goes down. *)
Definition Flag : Type := bool * option nat.

Definition vcenter_down : Fault := OtherFault "ConnectionError" "Connection reset by peer".

Definition flag_raised : Watch Flag :=
  MkWatch (fun l => match snd l with Some O => Some vcenter_down | _ => None end)
    (fun ok l => (fst l || negb ok, option_map pred (snd l))).

Definition flagged_world {X} (W : World X) : World (X * Flag) := watched_world flag_raised flag_raised (fun _ _ => unwatched).

Definition raised_flag {X} (s : X * Flag) : bool := fst (snd s).

Lemma flag_records {X A} (op : Op X A) : records raised_flag (watched flag_raised op).
Proof. intros [x l]. unfold watched, raised_flag. destruct (injected flag_raised _); [done|]. cbn. by destruct (op x). Qed.
Lemma unwatched_query {X A} (op : Op X A) : query raised_flag (watched (@unwatched Flag) op).
Proof. intros [x b]. unfold watched. cbn. by destruct (op x). Qed.

#[export] Instance flagged_log {X} (W : World X) : @FailureLog (X * Flag) (flagged_world W).
Proof. refine {| failed := raised_flag |}; intros; first [apply flag_records|apply unwatched_query]. Defined.

