(* ===== verification/PreflightStage.v ===== *)
(** * Preflight and the stages that check again

    A job repeats on vCenter what the preflight validation checked at the
    submission.  In an infrastructure that did not change in between, a
    request that was ready does not fail there. *)

From Stdlib Require Import ZArith Lia Ascii String List Bool.
From stdpp Require Import base tactics list strings gmap.
From S2P Require Import Prelude PyStr Errors Regex Network Schemas StateMachine Jobs Effects World.
From S2P Require Import Paths Resolver Placement Unattend AnswerIso Conflict StageSupport StagesVm SampleWorld.
From S2P Require Import Preflight PreflightFacts.

Local Open Scope string_scope.
Local Open Scope Z_scope.

(** ** Blocking failures stay *)

Definition bad (log : list PreflightCheck) : bool := existsb is_blocking_failure log.

Lemma bad_app a b : bad (a ++ b) = bad a || bad b.
Proof. apply existsb_app. Qed.

Lemma ready_not_bad log : ready (report_of log) = true -> bad log = false.
Proof.
  cbn [report_of ready]. intros E. apply Z.eqb_eq in E. unfold bad.
  destruct (existsb is_blocking_failure log) eqn:B; [|done].
  apply existsb_exists in B as (c & Hc & B). by rewrite (count_zero _ _ E c) in B by by apply list_elem_of_In.
Qed.

Section Sections.

Context {X : Type} `{World X}.

Definition sticky {A} (m : C X A) : Prop := forall log r, bad log = true -> bad (snd (fst (m log r))) = true.

Lemma sticky_ret {A} (a : A) : sticky (cret a).
Proof. by intros log r. Qed.
Lemma sticky_throw {A} e : sticky (cthrow (A := A) e).
Proof. by intros log r. Qed.
Lemma sticky_add c l s d : sticky (add c l s d).
Proof. intros log r B. simpl. by rewrite bad_app, B. Qed.
Lemma sticky_note c l s d : sticky (note c l s d).
Proof. intros log r B. simpl. by rewrite bad_app, B. Qed.
Lemma sticky_lift {A} (m : M X A) : sticky (lift m).
Proof. intros log r B. unfold lift. by destruct (m r). Qed.
Lemma sticky_bind {A B} (m : C X A) (k : A -> C X B) : sticky m -> (forall a, sticky (k a)) -> sticky (cbind m k).
Proof.
  intros Hm Hk log r B0. unfold cbind. specialize (Hm log r B0). destruct (m log r) as [[[a|e] log1] r1]; [by apply Hk|done].
Qed.
Lemma sticky_try {A} (m : C X A) h : sticky m -> (forall e, sticky (h e)) -> sticky (ctry m h).
Proof.
  intros Hm Hh log r B0. unfold ctry. specialize (Hm log r B0).
  destruct (m log r) as [[[a|[e| |n t|k]] log1] r1]; simpl in *; try done; by apply Hh.
Qed.

(** [cwp m Q log r]: what [m] gives from the list [log] and the run [r]. *)
Definition cwp {A} (m : C X A) (Q : Outcome A -> list PreflightCheck -> Run X -> Prop) (log : list PreflightCheck)
    (r : Run X) : Prop := Q (fst (fst (m log r))) (snd (fst (m log r))) (snd (m log r)).

Lemma cwp_bind {A B} (m : C X A) (k : A -> C X B) Q log r :
  cwp m (fun o log1 r1 => match o with Return a => cwp (k a) Q log1 r1 | Raise e => Q (Raise e) log1 r1 end) log r ->
  cwp (cbind m k) Q log r.
Proof. unfold cwp, cbind. by destruct (m log r) as [[[a|e] log1] r1]. Qed.

Lemma cwp_mono {A} (m : C X A) (P Q : Outcome A -> list PreflightCheck -> Run X -> Prop) log r :
  cwp m P log r -> (forall o l r', P o l r' -> Q o l r') -> cwp m Q log r.
Proof. unfold cwp. auto. Qed.

Lemma cwp_sticky {A} (m : C X A) (Q : Outcome A -> list PreflightCheck -> Run X -> Prop) log r :
  sticky m -> bad log = true -> (forall o l r', bad l = true -> Q o l r') -> cwp m Q log r.
Proof. intros Hm B HQ. apply HQ. by apply Hm. Qed.

(** *** In a world that does not change *)

Definition same (x : X) : X := x.

Context `{!Queries same}.

Lemma call_static {A} (op : Op X A) (r : Run X) :
  query same op -> pending r = None -> call op r = (outcome_of (fst (op (world r))), r).
Proof.
  intros Q P. unfold call, await. rewrite P. specialize (Q (world r)). unfold same in Q.
  destruct (op (world r)) as [o x]. simpl in *. subst x. by destruct r.
Qed.

Lemma cwp_call {A B} (op : Op X A) (k : A -> C X B) (Q : Outcome B -> list PreflightCheck -> Run X -> Prop) log r :
  query same op -> pending r = None ->
  (forall a, fst (op (world r)) = Ok a -> cwp (k a) Q log r) ->
  (forall e, Q (Raise (raised e)) log r) ->
  cwp (cbind (lift (call op)) k) Q log r.
Proof.
  intros Hq Hp H1 H2. unfold cwp, cbind, lift. rewrite (call_static op r Hq Hp).
  destruct (fst (op (world r))) as [a|e] eqn:E; simpl; [by apply H1|apply H2].
Qed.

(** A caught operation. *)
Lemma cwp_try_call {A B} (op : Op X A) (k : A -> C X B) h (Q : Outcome B -> list PreflightCheck -> Run X -> Prop) log r :
  query same op -> pending r = None ->
  (forall a, fst (op (world r)) = Ok a -> cwp (ctry (k a) h) Q log r) ->
  (forall e, cwp (h (raised e)) Q log r) ->
  cwp (ctry (cbind (lift (call op)) k) h) Q log r.
Proof.
  intros Hq Hp H1 H2. unfold cwp, ctry, cbind, lift in *. rewrite (call_static op r Hq Hp).
  destruct (fst (op (world r))) as [a|e]; simpl; [by apply H1|]. specialize (H2 e). by destruct e.
Qed.

(** [m] leaves the run as it is. *)
Definition still {A} (m : C X A) : Prop := forall log r, pending r = None -> snd (m log r) = r.

Lemma still_ret {A} (a : A) : still (cret a).
Proof. by intros log r. Qed.
Lemma still_throw {A} e : still (cthrow (A := A) e).
Proof. by intros log r. Qed.
Lemma still_add c l s d : still (add c l s d).
Proof. by intros log r. Qed.
Lemma still_note c l s d : still (note c l s d).
Proof. by intros log r. Qed.
Lemma still_call {A} (op : Op X A) : query same op -> still (lift (call op)).
Proof. intros Q log r P. unfold lift. by rewrite (call_static op r Q P). Qed.
Lemma still_bind {A B} (m : C X A) (k : A -> C X B) : still m -> (forall a, still (k a)) -> still (cbind m k).
Proof.
  intros Hm Hk log r P. unfold cbind. specialize (Hm log r P). destruct (m log r) as [[[a|e] log1] r1]; simpl in *; subst r1;
    [by apply Hk|done].
Qed.
Lemma still_try {A} (m : C X A) h : still m -> (forall e, still (h e)) -> still (ctry m h).
Proof.
  intros Hm Hh log r P. unfold ctry. specialize (Hm log r P).
  destruct (m log r) as [[[a|[e| |n t|k]] log1] r1]; simpl in *; subst r1; try done; by apply Hh.
Qed.

Lemma cwp_still {A B} (m : C X A) (k : A -> C X B) (Q : Outcome B -> list PreflightCheck -> Run X -> Prop) log r :
  still m -> pending r = None ->
  (forall a log1, fst (fst (m log r)) = Return a -> snd (fst (m log r)) = log1 -> cwp (k a) Q log1 r) ->
  (forall e log1, Q (Raise e) log1 r) ->
  cwp (cbind m k) Q log r.
Proof.
  intros Hm P H1 H2. apply cwp_bind. unfold cwp at 1. specialize (Hm log r P).
  destruct (m log r) as [[[a|e] log1] r1]; simpl in *; subst r1; [by apply H1|apply H2].
Qed.

End Sections.

Ltac sticky_step :=
  lazymatch goal with
  | |- sticky (cbind _ _) => apply sticky_bind
  | |- sticky (cret _) => apply sticky_ret
  | |- sticky (cthrow _) => apply sticky_throw
  | |- sticky (add _ _ _ _) => apply sticky_add
  | |- sticky (note _ _ _ _) => apply sticky_note
  | |- sticky (lift _) => apply sticky_lift
  | |- sticky (ctry _ _) => apply sticky_try
  | |- sticky (match ?x with _ => _ end) => destruct x
  | |- still (cbind _ _) => apply still_bind
  | |- still (cret _) => apply still_ret
  | |- still (cthrow _) => apply still_throw
  | |- still (add _ _ _ _) => apply still_add
  | |- still (note _ _ _ _) => apply still_note
  | |- still (lift (call _)) => apply still_call; solve [eauto with queries]
  | |- still (ctry _ _) => apply still_try
  | |- still (match ?x with _ => _ end) => destruct x
  | |- forall _, _ => intros
  end.
Ltac solve_sticky := repeat first [ sticky_step | assumption | progress cbn zeta | by auto ].

(** ** What a ready report vouches for *)

Section Agreement.

Context {X : Type} `{World X} `{!Queries (same (X := X))}.
Context (req : ProvisioningRequest) (t : VCenterTarget).

Definition storage_vouched (stores : list DatastoreOut) : Prop :=
  match selected_datastore req with
  | Some id => exists d, by_id ds_id stores id = Some d /\ fits (total_disk_gb req) d
  | None => exists d, In d stores /\ fits (total_disk_gb req) d
  end.

Definition host_vouched (hosts : list HostOut) : Prop :=
  forall id, nonempty (host_id (compute req)) = Some id ->
  exists h, by_id h_id hosts id = Some h /\ available_for_provisioning h = true.

Definition pool_vouched (cluster : string) (x : X) : Prop :=
  forall id, nonempty (resource_pool_id (compute req)) = Some id ->
  exists pools, fst (get_resource_pools t cluster x) = Ok pools /\ id ∈ List.map rp_id pools.

Record placement_vouched (dc : DatacenterOut) (cluster : ClusterOut) (x : X) : Prop := MkVouched {
  v_hosts : exists hosts, fst (get_hosts t (cl_id cluster) x) = Ok hosts /\ host_vouched hosts;
  v_pool : pool_vouched (cl_id cluster) x;
  v_network : exists nets, fst (get_networks t (dc_id dc) x) = Ok nets
              /\ is_Some (by_id net_id nets (network_id (network req)));
  v_storage : exists stores, fst (get_datastores t (cl_id cluster) x) = Ok stores /\ storage_vouched stores
              /\ exists isos image d, fst (get_isos t (dc_id dc) x) = Ok isos
                 /\ by_id iso_image_id isos (iso_id (guest req)) = Some image
                 /\ by_id ds_id stores (iso_datastore_id image) = Some d /\ accessible d = true;
}.

Definition vouched (x : X) : Prop := exists dcs dc clusters cluster,
  fst (get_datacenters t x) = Ok dcs /\ by_id dc_id dcs (compute_datacenter_id (compute req)) = Some dc
  /\ fst (get_clusters t (dc_id dc) x) = Ok clusters /\ by_id cl_id clusters (cluster_id (compute req)) = Some cluster
  /\ placement_vouched dc cluster x.

(** A section is sound for [P]: where [P] fails, it ends with an exception or a
    blocking failure. *)
Definition sound {A} (P : Prop) (o : Outcome A) (log : list PreflightCheck) (_ : Run X) : Prop :=
  is_return o = true -> bad log = true \/ P.

Lemma bad_add c l d log : bad (log ++ [MkCheck c l FAIL d true]) = true.
Proof. rewrite bad_app. simpl. by rewrite orb_true_r. Qed.

Lemma sound_bad {A} (m : C X A) P log r : sticky m -> bad log = true -> cwp m (sound P) log r.
Proof. intros S B0. apply cwp_sticky; [done|done|]. intros o l r' Bl _. by left. Qed.

Lemma sound_raise {A} P e log (r : Run X) : sound (A := A) P (Raise e) log r.
Proof. done. Qed.

Lemma sticky_storage stores rows : sticky (X := X) (_check_storage req stores rows).
Proof. unfold _check_storage. solve_sticky. Qed.

Lemma sticky_transfers names : sticky (X := X) (_check_host_file_transfers t names).
Proof. unfold _check_host_file_transfers. solve_sticky. Qed.

Lemma still_transfers names : still (X := X) (_check_host_file_transfers t names).
Proof. unfold _check_host_file_transfers. solve_sticky. Qed.

Lemma sticky_iso dc stores isos : sticky (X := X) (iso_check req t dc stores isos).
Proof. unfold iso_check, _check_windows_server_media. solve_sticky. Qed.

(** One-step sections: what they found is fine or the list is bad. *)
Lemma storage_sound stores rows log (r : Run X) :
  cwp (_check_storage req stores rows) (fun o l r' => r' = r /\ sound (storage_vouched stores) o l r') log r.
Proof.
  unfold _check_storage, storage_vouched, cwp, sound. cbn zeta. destruct (selected_datastore req) as [id|].
  - destruct (by_id ds_id stores id) as [d|]; simpl; [|split; [done|left; apply bad_add]].
    destruct (accessible d) eqn:A; simpl; [|split; [done|left; apply bad_add]].
    destruct (Z.ltb_spec (free_gb d) (total_disk_gb req * TENTH)); simpl; (split; [done|intros _]).
    + left. apply bad_add.
    + right. exists d. by split.
  - destruct (preferred_names _) as [preferred|]; simpl; [|by split].
    destruct (datastore (choose_automatic_datastore _ _ _)) as [d|] eqn:D; simpl.
    + apply chosen_fits in D as [Hd F]. assert (In d stores).
      { unfold dict_values in Hd. apply list_elem_of_In, list_elem_of_omap in Hd as (k & _ & E). by apply by_id_some in E as [? _]. }
      unfold cbind, add. cbn zeta. destruct (preferred_configured _); simpl; (split; [done|intros _; right; by exists d]).
    + split; [done|]. left. apply bad_add.
Qed.

Lemma host_sound hosts id log (r : Run X) :
  cwp (host_check hosts id)
    (fun o l r' => r' = r /\ sound (exists h, by_id h_id hosts id = Some h /\ available_for_provisioning h = true) o l r')
    log r.
Proof.
  unfold host_check, cwp, sound. destruct (by_id h_id hosts id) as [h|]; simpl; [|split; [done|left; apply bad_add]].
  destruct (available_for_provisioning h) eqn:A; simpl; (split; [done|intros _]); [right; by exists h|left; apply bad_add].
Qed.

Lemma network_sound nets log (r : Run X) :
  cwp (network_check req nets)
    (fun o l r' => r' = r /\ sound (is_Some (by_id net_id nets (network_id (network req)))) o l r') log r.
Proof.
  unfold network_check, cwp, sound. destruct (by_id net_id nets _) as [n|]; simpl; (split; [done|intros _]);
    [right; by eexists|left; apply bad_add].
Qed.

Lemma iso_sound dc stores isos log (r : Run X) :
  cwp (iso_check req t dc stores isos)
    (sound (exists image d, by_id iso_image_id isos (iso_id (guest req)) = Some image
                 /\ by_id ds_id stores (iso_datastore_id image) = Some d /\ accessible d = true)) log r.
Proof.
  unfold iso_check. destruct (by_id iso_image_id isos _) as [image|] eqn:I.
  2:{ unfold cwp, sound. simpl. intros _. left. apply bad_add. }
  destruct (by_id ds_id stores (iso_datastore_id image)) as [d|] eqn:D; [destruct (accessible d) eqn:A|].
  - unfold cwp, sound. intros _. right. by exists image, d.
  - unfold cwp, sound. simpl. intros _. left. apply bad_add.
  - unfold cwp, sound. simpl. intros _. left. apply bad_add.
Qed.

(** Composition: a section that leaves the run alone, then the rest. *)
Lemma sound_step {A B} (m : C X A) (k : A -> C X B) (P Q : Prop) log (r : Run X) :
  cwp m (fun o l r' => r' = r /\ sound P o l r') log r ->
  (forall a, sticky (k a)) ->
  (P -> forall a log1, cwp (k a) (sound Q) log1 r) ->
  cwp (cbind m k) (sound Q) log r.
Proof.
  intros Hm Hs Hk. apply cwp_bind. eapply cwp_mono; [exact Hm|]. intros [a|e] l r' [-> S]; [|apply sound_raise].
  destruct (S eq_refl) as [B0|HP]; [by apply sound_bad|by apply Hk].
Qed.

Lemma pool_sound cluster log (r : Run X) :
  pending r = None ->
  cwp (pool_check req t cluster) (fun o l r' => r' = r /\ sound (pool_vouched cluster (world r)) o l r') log r.
Proof.
  intros P. unfold pool_check, pool_vouched. destruct (nonempty _) as [id|].
  2:{ unfold cwp, sound. simpl. split; [done|]. intros _. right. by intros id. }
  apply cwp_call; [auto with queries|done| |by intros e].
  intros pools E. case_bool_decide as D; unfold cwp, sound; simpl; (split; [done|intros _]); [|left; apply bad_add].
  right. intros i [= <-]. by exists pools.
Qed.

Lemma sticky_pool cluster : sticky (X := X) (pool_check req t cluster).
Proof. unfold pool_check. solve_sticky. Qed.

(** The rest after a step that vouches for nothing. *)
Lemma sound_skip {A B} (m : C X A) (k : A -> C X B) (Q : Prop) log (r : Run X) :
  still m -> pending r = None -> (forall a log1, cwp (k a) (sound Q) log1 r) -> cwp (cbind m k) (sound Q) log r.
Proof. intros Hm P Hk. apply cwp_still; [done|done|by intros|done]. Qed.

Lemma sound_call {A B} (op : Op X A) (k : A -> C X B) (Q : Prop) log (r : Run X) :
  query same op -> pending r = None ->
  (forall a, fst (op (world r)) = Ok a -> cwp (k a) (sound Q) log r) -> cwp (cbind (lift (call op)) k) (sound Q) log r.
Proof. intros Hq P Hk. apply cwp_call; [done|done|done|]. intros. apply sound_raise. Qed.

Lemma placement_sound rows dc cluster log (r : Run X) :
  pending r = None ->
  cwp (check_placement req t rows dc cluster) (sound (placement_vouched dc cluster (world r))) log r.
Proof.
  intros P. pose proof sticky_storage. pose proof sticky_transfers. pose proof sticky_iso. pose proof sticky_pool.
  unfold check_placement. apply sound_call; [auto with queries|done|]. intros hosts Eh.
  apply (sound_step _ _ (host_vouched hosts)).
  { unfold host_vouched. destruct (nonempty _) as [id|].
    - eapply cwp_mono; [apply host_sound|]. intros o l r' [-> S]. split; [done|]. intros Ho.
      destruct (S Ho) as [B0|V]; [by left|right]. by intros i [= <-].
    - unfold cwp, sound. simpl. split; [done|]. intros _. right. by intros. }
  { intros []. destruct (transfer_hosts _ _); unfold network_check; solve_sticky. }
  intros Vh _ log1. apply sound_skip; [destruct (transfer_hosts _ _); [apply still_ret|apply still_transfers]|done|].
  intros _ log2. apply (sound_step _ _ _ _ _ _ (pool_sound _ _ _ P)); [unfold network_check; solve_sticky|].
  intros Vp _ log3. apply sound_call; [auto with queries|done|]. intros stores Es.
  apply (sound_step _ _ _ _ _ _ (storage_sound _ _ _ _)); [unfold network_check; solve_sticky|].
  intros Vs _ log4. apply sound_call; [auto with queries|done|]. intros nets En.
  apply (sound_step _ _ _ _ _ _ (network_sound _ _ _)); [solve_sticky|].
  intros Vn _ log5. apply sound_call; [auto with queries|done|]. intros isos Ei.
  eapply cwp_mono; [apply iso_sound|]. intros o l r' S Ho. destruct (S Ho) as [B0|(image & d & V)]; [by left|right].
  constructor; [by exists hosts|done|by exists nets|]. exists stores. split_and!; [done|done|]. by exists isos, image, d.
Qed.

Lemma inventory_sound rows log (r : Run X) :
  pending r = None -> cwp (check_inventory req t rows) (sound (vouched (world r))) log r.
Proof.
  intros P. unfold check_inventory. apply sound_call; [auto with queries|done|]. intros dcs Ed.
  destruct (by_id dc_id dcs _) as [dc|] eqn:D; [|unfold cwp, sound; simpl; intros _; left; apply bad_add].
  apply sound_skip; [apply still_add|done|]. intros _ log1.
  apply sound_call; [auto with queries|done|]. intros clusters Ec.
  destruct (by_id cl_id clusters _) as [cluster|] eqn:K; [|unfold cwp, sound; simpl; intros _; left; apply bad_add].
  apply sound_skip; [apply still_add|done|]. intros _ log2.
  eapply cwp_mono; [by apply placement_sound|]. intros o l r' S Ho. destruct (S Ho) as [B0|V]; [by left|right].
  by exists dcs, dc, clusters, cluster.
Qed.

Lemma infrastructure_sound rows log (r : Run X) :
  pending r = None -> cwp (_check_infrastructure req t rows) (sound (vouched (world r))) log r.
Proof.
  intros P. pose proof (inventory_sound rows log r P) as S. unfold _check_infrastructure, guarded, cwp, ctry in *.
  destruct (check_inventory req t rows log r) as [[[a|[e| |n m|k]] l] r1]; simpl in *; try done;
    intros _; left; apply bad_add.
Qed.

End Agreement.

(** ** The whole validation *)

Section Ready.

Context {X : Type} `{World X} `{!Queries (same (X := X))}.
Context (req : ProvisioningRequest).

Lemma sticky_infrastructure t rows : sticky (X := X) (_check_infrastructure req t rows).
Proof.
  unfold _check_infrastructure, guarded, check_inventory, check_placement, host_check, pool_check, network_check, iso_check,
    _check_storage, _check_host_file_transfers, _check_windows_server_media. solve_sticky.
Qed.

Lemma sticky_secrets paths : sticky (X := X) (secret_problems paths).
Proof. induction paths as [|p paths IH]; simpl; unfold secret_problem; solve_sticky. Qed.

Lemma sticky_rest conflict tgt rows :
  sticky (X := X)
    (check_policy req rows >>
     match tgt with Some t => check_unique req t | None => cret tt end >>
     check_addressing req conflict tgt >>
     _check_certificates req >> _check_applications req >> check_installer_policy req rows >> _check_credentials req).
Proof.
  pose proof sticky_secrets.
  unfold check_policy, check_unique, guarded, check_addressing, check_conflict, _check_certificates, _check_applications,
    check_installer_policy, _check_credentials, _check_product_key, _selected_applications. solve_sticky.
Qed.

(** The registered vCenter the request names, as the target of its job. *)
Definition registered (x : X) (t : VCenterTarget) : Prop :=
  exists c, fst (vcenter_connection (vcenter_id (compute req)) x) = Ok (Some c) /\ conn_enabled c = true
            /\ t = target_of c.

Lemma vcenter_sound log (r : Run X) :
  pending r = None ->
  cwp (check_vcenter req) (fun o l r' => r' = r /\
    match o with
    | Return (Some t) => registered (world r) t
    | Return None => bad l = true
    | Raise _ => True
    end) log r.
Proof.
  intros P. unfold check_vcenter. cbn zeta. apply cwp_bind. apply cwp_try_call; [auto with queries|done| |].
  - intros [c|] E; unfold cwp at 1; simpl; [|split; [done|apply bad_add]].
    destruct (conn_enabled c) eqn:En; simpl; [|split; [done|apply bad_add]].
    apply cwp_still; [solve_sticky|done| |done]. intros _ l _ _. split; [done|]. by exists c.
  - intros e. unfold cwp, cbind. simpl. split; [done|apply bad_add].
Qed.

Lemma ready_vouched conflict report (r : Run X) :
  pending r = None -> fst (validate req conflict r) = Return report -> ready report = true ->
  exists t, registered (world r) t /\ vouched req t (world r).
Proof.
  intros P E R.
  assert (S : cwp (all_checks req conflict)
    (sound (exists t, registered (world r) t /\ vouched req t (world r))) [] r).
  { unfold all_checks, load_effective. apply cwp_bind. unfold cwp at 1, lift, bind, ret.
    rewrite (call_static _ r) by auto with queries.
    destruct (fst (setting_rows (world r))) as [rows|f]; simpl; [|done].
    apply cwp_bind. eapply cwp_mono; [by apply vcenter_sound|]. intros [[t|]|e] l r' [-> V]; [| |done].
    - apply cwp_bind. eapply cwp_mono; [by apply infrastructure_sound|]. intros [a|e] l1 r1 S; [|done].
      apply (cwp_mono _ (fun _ l2 _ => bad l1 = true -> bad l2 = true)); [intros B0; by apply (sticky_rest conflict (Some t))|].
      intros o l2 r2 B2 _. destruct (S eq_refl) as [B1|Hv]; [left; auto|right; by exists t].
    - apply sound_bad; [|done]. apply sticky_bind; [solve_sticky|]. intros. apply (sticky_rest conflict None). }
  unfold validate in E. unfold cwp, sound in S. destruct (all_checks req conflict [] r) as [[[a|e] log] r1]; [|discriminate].
  injection E as <-. destruct (S eq_refl) as [B0|V]; [|done]. simpl in B0. by rewrite (ready_not_bad _ R) in B0.
Qed.

(** *** The stage *)

(** Every disk with a datastore of its own names the same one. *)
Definition one_datastore : Prop :=
  forall a b x y, In a (disks (hardware req)) -> In b (disks (hardware req)) ->
  nonempty (disk_datastore_id a) = Some x -> nonempty (disk_datastore_id b) = Some y -> x = y.

Lemma distinct_in seen l x : In x (distinct seen l) -> In x l.
Proof.
  revert seen. induction l as [|y l IH]; intros seen; simpl; [done|]. case_bool_decide; [right; by eapply IH|].
  intros [->|Hx]; [by left|right; by eapply IH].
Qed.

Lemma selected_spec id :
  selected_datastore req = Some id -> exists d, In d (disks (hardware req)) /\ nonempty (disk_datastore_id d) = Some id.
Proof.
  unfold selected_datastore. destruct (list_find _ _) as [[i o]|] eqn:F; [|discriminate]. intros ->.
  apply list_find_Some in F as (L & _ & _). apply list_lookup_fmap_Some in L as (d & E & L).
  exists d. split; [by eapply list_elem_of_In, list_elem_of_lookup_2|done].
Qed.

Lemma selected_none :
  selected_datastore req = None -> forall d, In d (disks (hardware req)) -> nonempty (disk_datastore_id d) = None.
Proof.
  unfold selected_datastore. destruct (list_find _ _) as [[i o]|] eqn:F.
  - apply list_find_Some in F as (_ & [v ->] & _). discriminate.
  - intros _ d Hd. apply list_find_None in F. rewrite Forall_fmap, Forall_forall in F.
    apply list_elem_of_In in Hd. specialize (F d Hd). simpl in F.
    destruct (nonempty _) as [v|]; [|done]. destruct F. by exists v.
Qed.

(** The stage's largest accessible datastore takes what any other takes. *)
Lemma best_fits stores gb d :
  In d stores -> fits gb d ->
  (match max_by (fun g => g) (List.map free_gb (List.filter accessible stores)) with Some g => g | None => 0 end
   <? gb * TENTH) = false.
Proof.
  intros Hd [A F]. pose proof (max_by_spec (fun g => g) (List.map free_gb (List.filter accessible stores))) as G.
  assert (I : In (free_gb d) (List.map free_gb (List.filter accessible stores))) by (apply in_map, filter_In; by split).
  destruct (max_by _ _) as [g|]; [|by rewrite G in I]. destruct G as [_ G]. specialize (G _ I). apply Z.ltb_ge. lia.
Qed.

Lemma omap_none {A B} (f : A -> option B) l : (forall x, In x l -> f x = None) -> omap f l = [].
Proof.
  induction l as [|x l IH]; intros N; [done|]. simpl. rewrite (N x) by by left. apply IH. intros y Hy. apply N. by right.
Qed.

Lemma datastore_fine gb stores id d : by_id ds_id stores id = Some d -> fits gb d -> datastore_problem gb stores id = None.
Proof.
  intros E [A F]. unfold datastore_problem. rewrite E, A. simpl. by destruct (Z.ltb_spec (free_gb d) (gb * TENTH)); [lia|].
Qed.

Lemma storage_fine stores : one_datastore -> storage_vouched req stores -> storage_problems req stores = [].
Proof.
  unfold storage_vouched, storage_problems. intros O V. cbn zeta.
  assert (G : forall d, In d stores -> fits (total_disk_gb req) d ->
            (forall x, In x (distinct [] (omap (fun d => nonempty (disk_datastore_id d)) (disks (hardware req)))) ->
               datastore_problem (total_disk_gb req) stores x = None) -> storage_problems req stores = []).
  { intros d Hd F N. unfold storage_problems. destruct (distinct _ _) as [|x l]; [by rewrite (best_fits stores _ d)|].
    by apply omap_none. }
  destruct (selected_datastore req) as [id|] eqn:S; [destruct V as (d & Ed & F)|destruct V as (d & Hd & F)].
  - destruct (selected_spec id S) as (d0 & Hd0 & E0). apply (G d); [by apply by_id_some in Ed as [? _]|done|].
    intros x Hx. apply distinct_in, list_elem_of_In, list_elem_of_omap in Hx as (d1 & Hd1 & E1). apply list_elem_of_In in Hd1.
    rewrite (O d1 d0 x id) by done. by eapply datastore_fine.
  - apply (G d); [done|done|]. rewrite omap_none by by apply selected_none. done.
Qed.

Lemma wp_call_static {A B} (op : Op X A) (k : A -> M X B) Q a (r : Run X) :
  query same op -> pending r = None -> fst (op (world r)) = Ok a -> wp (k a) Q r -> wp (bind (call op) k) Q r.
Proof. intros Hq P E Hk. apply wp_bind. unfold wp at 1. rewrite (call_static op r Hq P), E. exact Hk. Qed.

(** What the stage reads about the cluster holds no problem. *)
Lemma wp_cluster_fine ctx t dc cluster Q (r : Run X) :
  request ctx = req -> target ctx = t -> pending r = None -> one_datastore -> placement_vouched req t dc cluster (world r) ->
  (forall stores, fst (get_datastores t (cl_id cluster) (world r)) = Ok stores -> Q (Return ([], stores)) r) ->
  wp (check_cluster ctx cluster) Q r.
Proof.
  intros Ereq <- P O V HQ. destruct V as [(hosts & V6 & V7) V8 _ (stores & V11 & V12 & _)].
  unfold check_cluster. rewrite Ereq. cbn zeta. eapply wp_call_static; [auto with queries|done|exact V6|].
  assert (Hh : match nonempty (host_id (compute req)) with
      | None => []
      | Some id => match by_id h_id hosts id with
                   | Some h => if available_for_provisioning h then [] else ["host " ++ SQ ++ id ++ SQ ++ " unavailable"]
                   | None => ["host " ++ SQ ++ id ++ SQ ++ " unavailable"]
                   end
      end = ([] : list string)).
  { destruct (nonempty (host_id _)) as [id|] eqn:E; [|done]. destruct (V7 id E) as (h & -> & ->). done. }
  rewrite Hh. clear Hh V7 V6 hosts. apply wp_bind.
  assert (Hp : wp (match nonempty (resource_pool_id (compute req)) with
      | None => ret []
      | Some id => let* pools := call (get_resource_pools (target ctx) (cl_id cluster)) in
                   ret (if bool_decide (id ∈ List.map rp_id pools) then []
                        else ["resource pool does not belong to the cluster"])
      end) (fun o r1 => o = Return [] /\ r1 = r) r).
  { destruct (nonempty (resource_pool_id _)) as [id|] eqn:E; [|done]. destruct (V8 id E) as (pools & Ep & Hin).
    eapply wp_call_static; [auto with queries|done|exact Ep|]. apply wp_ret. by rewrite bool_decide_eq_true_2. }
  eapply wp_mono; [exact Hp|]. intros o r1 [-> ->].
  eapply wp_call_static; [auto with queries|done|exact V11|]. apply wp_ret. rewrite storage_fine by done. by apply HQ.
Qed.

Lemma revalidates ctx t (r : Run X) :
  request ctx = req -> target ctx = t -> pending r = None -> one_datastore -> vouched req t (world r) ->
  wp (stage_validate_infrastructure ctx) (fun o _ => exists out, o = Return out) r.
Proof.
  intros Ereq Et P O (dcs & dc & cls & cl & V1 & V2 & V3 & V4 & V5).
  unfold stage_validate_infrastructure. rewrite Ereq, Et. cbn zeta. eapply wp_call_static; [auto with queries|done|exact V1|].
  rewrite V2. apply wp_bind. unfold wp at 1, set_job, modify. cbn [fst snd].
  match goal with |- wp _ _ ?s => set (r1 := s) end.
  assert (P1 : pending r1 = None) by exact P. assert (W1 : world r1 = world r) by done. clearbody r1.
  rewrite <- W1 in V1, V3, V5. destruct (by_id_some _ _ _ _ V2) as [_ Ei]. rewrite <- Ei.
  apply wp_bind. unfold wp at 1. rewrite (call_static _ r1), V3 by auto with queries. cbn [outcome_of fst snd]. rewrite V4.
  apply wp_bind, (wp_cluster_fine ctx t dc); [done..|]. intros stores Es.
  destruct V5 as [_ _ (nets & V9 & [net V10]) (stores' & V11 & _ & isos & image & d & V13 & V14 & V15 & _)].
  rewrite Es in V11. injection V11 as <-.
  apply wp_bind. unfold wp at 1. rewrite (call_static _ r1), V9 by auto with queries. cbn [outcome_of fst snd].
  apply wp_bind. unfold wp at 1. rewrite (call_static _ r1), V13 by auto with queries. cbn [outcome_of fst snd].
  rewrite V10, V14, V15. simpl. apply wp_ret. by eexists.
Qed.

(** C19 (PreflightValidator against stage_validate_infrastructure): what the
    validation called ready does not fail the job.  In a world that its
    queries do not change, if the report is ready and all disks that select a
    datastore select the same one, then the job's re-validation of the
    infrastructure, run against the registered vCenter of the request and the
    same world, succeeds. *)
Theorem ready_request_revalidates conflict report (r : Run X) :
  undisturbed r -> one_datastore ->
  fst (validate req conflict r) = Return report -> ready report = true ->
  exists t, registered (world r) t /\
    forall ctx (r' : Run X), request ctx = req -> target ctx = t -> undisturbed r' -> world r' = world r ->
    exists out, fst (stage_validate_infrastructure ctx r') = Return out.
Proof.
  intros [P _] O E R. destruct (ready_vouched conflict report r P E R) as (t & Ht & V). exists t. split; [done|].
  intros ctx r' Er Et [P' _] Ew. rewrite <- Ew in V. exact (revalidates ctx t r' Er Et P' O V).
Qed.

End Ready.

(** ** Concrete validations *)

#[export] Instance sample_static : Queries (X := Sample) same.
Proof. split; intros; by intros x. Qed.

Local Notation SUBMITTED := (sample_run [] [] START QUEUED_JOB).

Lemma ready_request_revalidates_witness :
  exists t, registered SAMPLE_REQUEST (world SUBMITTED) t /\
    (target SAMPLE_CTX = t ->
     exists out, fst (stage_validate_infrastructure SAMPLE_CTX SUBMITTED) = Return out).
Proof.
  assert (U : undisturbed SUBMITTED) by (split; [reflexivity|constructor]).
  assert (O : one_datastore SAMPLE_REQUEST).
  { intros a b x y Ha Hb Ea _. destruct Ha as [<-|[<-|[]]]; discriminate. }
  assert (E : exists report, fst (validate SAMPLE_REQUEST true SUBMITTED) = Return report /\ ready report = true).
  { eexists. split; [vm_compute; reflexivity|reflexivity]. }
  destruct E as (report & E & R).
  destruct (ready_request_revalidates SAMPLE_REQUEST true report SUBMITTED U O E R) as (t & Ht & G).
  exists t. split; [exact Ht|]. intros Et. by apply G.
Defined.

(** The second disk asks for a datastore that does not exist. *)
Definition SPLIT_REQUEST : ProvisioningRequest :=
  MkRequest V2 (vm SAMPLE_REQUEST) (compute SAMPLE_REQUEST)
    (MkHardwareSpec 4 8192 EFI true [MkDiskSpec 60 THIN (Some "ds-1"); MkDiskSpec 100 THIN (Some "ds-gone")])
    (guest SAMPLE_REQUEST) (network SAMPLE_REQUEST) [] [].

(** A naming policy that is no regular expression. *)
#[local] Instance broken_policy_tables : Tables Sample := {
  setting_rows := answer [(SETTING_VM_NAME_POLICY, JStr "srv-(")];
  certificate_rows := answer [];
  application_rows := answer [];
  active_duplicates _ _ := answer false;
  package_rows := answer [];
  vcenter_connection := sample_tables.(vcenter_connection);
}.

#[local] Instance broken_policy_platform : Platform Sample := {
  utcnow := clock; today _ := 0; date_str _ := "2026-01-01"; loop_time := clock;
  sleep n := update (fun x => x <| clock := clock x + n |>);
  token_urlsafe _ := answer "token"; uuid4_hex := answer "0123456789abcdef"; isoformat n := str_int n;
  format_exc _ := "Traceback"; repr_json _ := "repr";
  re_fullmatch _ _ := None;
}.

Definition BROKEN_POLICY : World Sample :=
  {| world_vmware := sample_vmware; world_guest := sample_guest; world_secrets := sample_secrets;
     world_platform := broken_policy_platform; world_network := sample_network;
     world_tables := broken_policy_tables |}.

Definition is_ready (o : Outcome PreflightReport) : bool := match o with Return rep => ready rep | Raise _ => false end.

(** Blind spots of the preflight validation: two requests it calls ready
    fail in the first stages of their job although nothing has changed.  It
    looks at the first selected datastore only, while the job checks all of
    them, so a data disk on a datastore that is not there passes; and it notes
    an invalid naming policy as a warning, together with a passed policy
    check, while the job ends with the exception of the regular expression. *)
Theorem preflight_blind_spots :
  is_ready (fst (validate SPLIT_REQUEST true SUBMITTED)) = true
  /\ is_return (fst (stage_validate_infrastructure (MkCtx SPLIT_REQUEST (target SAMPLE_CTX) None) SUBMITTED)) = false
  /\ is_ready (fst (@validate Sample BROKEN_POLICY SAMPLE_REQUEST true SUBMITTED)) = true
  /\ fst (@stage_validate_request Sample BROKEN_POLICY SAMPLE_CTX SUBMITTED) = Raise (OtherException "error" "srv-(").
Proof. vm_compute. repeat split. Qed.
