(* ===== verification/Execution.v ===== *)
(** * Running the stages of a job

    [JobPipeline.execute] over the table of all stage handlers: the instance
    that makes the theorems of PipelineFacts.v hold of it, what a run
    guarantees, and concrete runs. *)

From Stdlib Require Import ZArith Lia Ascii String List Bool.
From stdpp Require Import base tactics list strings gmap.
From S2P Require Import Prelude PyStr Errors Schemas StateMachine Jobs AuditTrail Repository Queue Effects World.
From S2P Require Import StageSupport StagesVm StagesGuest StagesApps Pipeline PipelineFacts SampleWorld.

Local Open Scope string_scope.
Local Open Scope Z_scope.

#[export] Instance stage_handlers {X} `{World X} : StageHandlers STAGE_HANDLERS.
Proof.
  split; intros k h ctx E; pose proof (handler_tame k h E) as T; apply T.
Qed.

Definition execute_job_stages {X} `{World X} (ctx : Ctx) : M X unit := execute STAGE_HANDLERS ctx.

Section Guarantees.

Context {X : Type} `{World X}.

Lemma stages_result (ctx : Ctx) (r : Run X) :
  run_result r (fst (execute_job_stages ctx r)) (snd (execute_job_stages ctx r)).
Proof. exact (execute_result STAGE_HANDLERS ctx r). Qed.

Lemma stages_calm (ctx : Ctx) : calm false (execute_job_stages ctx).
Proof. exact (execute_calm STAGE_HANDLERS ctx). Qed.

(** C1 (JobPipeline.execute): whatever the stages, the collaborators and the
    cancellations do, a run either ends with a cancellation of the worker, or
    it has committed the job in a final status: COMPLETED, with every stage
    done unless the user cancelled meanwhile; CANCELLED, after a user
    cancellation, with no step left pending or running; or, with a failed
    stage, PARTIALLY_COMPLETED exactly if the VM had been created and FAILED
    otherwise. *)
Theorem execute_settles (ctx : Ctx) (r : Run X) :
  let (o, r') := execute_job_stages ctx r in
  match o with
  | Raise e => exists k, e = Cancelled k
  | Return _ =>
      let j := job (stored r') in
      j = job (session r')
      /\ ((job_status j = COMPLETED /\ (db_cancel r' = false -> all_done STAGE_KEYS j))
          \/ (job_status j = CANCELLED /\ db_cancel r' = true
              /\ forall k a n, st_of j k = Some (a, n) -> a <> PENDING /\ a <> STEP_RUNNING)
          \/ (job_status j = (if vm_created j then PARTIALLY_COMPLETED else FAILED)
              /\ exists k n, k ∈ STAGE_KEYS /\ st_of j k = Some (STEP_FAILED, n)))
  end.
Proof.
  pose proof (stages_result ctx r) as [_ R]. destruct (execute_job_stages ctx r) as [o r']. cbn [fst snd] in R.
  destruct o as [[]|e]; [|exact R].
  destruct R as [[[E1 E2] R]|[([E1 E2] & R1 & R2)|[[E1 E2] R]]]; cbn zeta; (split; [exact E1|]); rewrite E1.
  - by left.
  - right. left. split_and!; [done|done|]. intros k a n Hk. apply R2 in Hk. by destruct a.
  - right. right. by split.
Qed.

(** C2 (resuming): a run never repeats a finished step.  A step that was done
    keeps its attempts and its status, except that the preparation of the
    answer media may be reset when the media is removed; every other step of
    a stage gains at most one attempt; no step appears or disappears. *)
Theorem execute_resumes (ctx : Ctx) (r : Run X) :
  let r' := snd (execute_job_stages ctx r) in
  forall k,
  match st_of (job (session r)) k, st_of (job (session r')) k with
  | None, None => True
  | Some (a, n), Some (b, m) =>
      n <= m <= n + 1
      /\ (is_done a = true -> m = n /\ (b = a \/ (k = PREPARE /\ (b = PENDING \/ b = STEP_CANCELLED))))
  | _, _ => False
  end.
Proof.
  cbn zeta. intros k. pose proof (stages_result ctx r) as [[V _] _]. specialize (V k).
  destruct (st_of (job (session r)) k) as [[a n]|];
    destruct (st_of _ k) as [[b m]|]; try done.
  destruct V as [V1 V2]. split; [done|]. intros Hd. destruct V2 as [-> S]; [by left|]. split; [done|].
  destruct S as [->|[[Ho _]|(-> & _ & S)]]; [by left|by destruct a|by right].
Qed.

(** C3 (order of the stages): a stage is started only when every earlier stage
    has finished: in the job the run leaves behind, each step before a started
    one is done, except the preparation step, which may have been reset
    ([in_order]). *)
Theorem execute_in_order (ctx : Ctx) (r : Run X) :
  in_order STAGE_KEYS (job (session r)) (job (session (snd (execute_job_stages ctx r)))).
Proof. pose proof (stages_result ctx r) as [[_ I] _]. exact I. Qed.


End Guarantees.

(** ** Concrete runs *)

Definition DONE_RUN : Outcome unit * Run Sample := execute_job_stages SAMPLE_CTX (sample_run [] [] START SAMPLE_JOB).

Example sample_completes :
  fst DONE_RUN = Return tt /\ job_status (job (stored (snd DONE_RUN))) = COMPLETED.
Proof. vm_compute. split; reflexivity. Qed.

(** *** A guest that does not restart *)

#[export] Instance sample_clocks : ClockLaws Sample.
Proof.
  split; try (intros; intros x; cbn; first [apply later_refl|split; cbn; lia]).
  - intros n x N. cbn. lia.
  - intros t v c p a n x. cbn -[String.eqb contains]. unfold restart, effect. repeat case_match; split; cbn; lia.
  - done.
Qed.

Lemma sample_limited : setup_limited (X := Sample).
Proof. intros x rows y [= <- <-]. by vm_compute. Qed.

(** It reported its start before the restart was scheduled, and reports the
    same one ever since: after nine minutes the stage gives up. *)
Definition RESTARTED_JOB : Job :=
  update_step "reboot_guest" (fun s => s <| step_status := SUCCEEDED |> <| artifacts := <["boot_time" := JStr "0"]> ∅ |>) SAMPLE_JOB.

Definition WAITING : Outcome StageOutcome * Run Sample := stage_wait_guest_ready SAMPLE_CTX (sample_run [] [] START RESTARTED_JOB).


(** *** A cancellation during the last stage *)

Definition strike (k : InterruptKind) : option Interrupt := Some (MkInterrupt 0 k false).

Definition LATE_CANCEL : Outcome unit * Run Sample :=
  execute_job_stages SAMPLE_CTX (sample_run (List.repeat None 25 ++ [strike UserCancel]) [] START SAMPLE_JOB).

(** A late cancellation is overridden: the user cancels while the last
    stage runs.  The step is cancelled and the job is marked CANCELLED and
    audited so, but the loop over the stages ends without returning, and the
    job is completed after all. *)
Theorem late_cancel_completes :
  fst LATE_CANCEL = Return tt
  /\ st_of (job (stored (snd LATE_CANCEL))) "final_validation" = Some (STEP_CANCELLED, 1)
  /\ job_status (job (stored (snd LATE_CANCEL))) = COMPLETED
  /\ List.map action (skipn 1 (audit_log (stored (snd LATE_CANCEL)))) = ["JOB_CANCELLED"; "JOB_COMPLETED"].
Proof. vm_compute. repeat split. Qed.

(** *** A cancellation during an earlier stage *)

Definition EARLY_CANCEL : Outcome unit * Run Sample :=
  execute_job_stages SAMPLE_CTX (sample_run [None; strike UserCancel] [] START SAMPLE_JOB).

(** The cancellation is applied when the stage stops and again when the loop
    reaches the next step: two audit rows and two counts for one cancellation. *)
Lemma early_cancel_audited_twice :
  job_status (job (stored (snd EARLY_CANCEL))) = CANCELLED
  /\ List.map action (audit_log (stored (snd EARLY_CANCEL))) = ["JOB_CANCELLED"; "JOB_CANCELLED"]
  /\ metrics (snd EARLY_CANCEL) = [JobsTotal "CANCELLED"; JobsTotal "CANCELLED"].
Proof. vm_compute. repeat split. Qed.

(** *** Retrying in a new run *)

(** The job the run left behind, reset by a retry of everything that failed and
    picked up by a worker again, in the world as it is. *)
Definition retried (interrupts_ : list (option Interrupt)) (o : Outcome unit * Run Sample) : Outcome unit * Run Sample :=
  execute_job_stages SAMPLE_CTX
    (sample_run interrupts_ [] (world (snd o))
       ((snd (reset_for_retry 0 None (job (stored (snd o))))) <| job_status := RUNNING |>)).

(** Powering on runs into its time limit, twice; the stage is the second to run
    again after the reset of the preparation. *)
Definition FIRST_FAILURE : Outcome unit * Run Sample :=
  execute_job_stages SAMPLE_CTX (sample_run (List.repeat None 7 ++ [strike Timeout]) [] START SAMPLE_JOB).
Definition SECOND_FAILURE : Outcome unit * Run Sample := retried [None; strike Timeout] FIRST_FAILURE.

(** The answer media survives a second failure: a failure before the
    installation removes the answer media, which holds the administrator's
    password, and resets the preparation.  The flag that records the removal
    survives the retry that attaches new media, so a second failure leaves
    that media in place, and the clean-up of interrupted jobs does not see it
    either. *)
Theorem second_failure_keeps_media :
  media (world (snd FIRST_FAILURE)) = []
  /\ job_status (job (stored (snd SECOND_FAILURE))) = PARTIALLY_COMPLETED
  /\ st_of (job (stored (snd SECOND_FAILURE))) "power_on" = Some (STEP_FAILED, 2)
  /\ media (world (snd SECOND_FAILURE)) = ["[datastore1] infraops/infraops-job-1.iso"]
  /\ may_hold_unattended_media (job (stored (snd SECOND_FAILURE))) = false.
Proof. vm_compute. repeat split. Qed.

(** The restart stage runs into its time limit after the computer was renamed. *)
Definition RENAMED_FAILURE : Outcome unit * Run Sample :=
  execute_job_stages SAMPLE_CTX (sample_run (List.repeat None 17 ++ [strike Timeout]) [] START SAMPLE_JOB).
Definition RENAMED_RETRY : Outcome unit * Run Sample := retried [] RENAMED_FAILURE.

(** The renamed guest is not restarted: that the computer was renamed is
    kept in the memory of the run only.  When the restart fails and is
    retried, the new run skips it: the job completes and reports the new
    name, while Windows still has the old one. *)
Theorem retry_forgets_rename :
  st_of (job (stored (snd RENAMED_FAILURE))) "configure_hostname" = Some (SUCCEEDED, 1)
  /\ job_status (job (stored (snd RENAMED_RETRY))) = COMPLETED
  /\ st_of (job (stored (snd RENAMED_RETRY))) "reboot_guest" = Some (SKIPPED, 2)
  /\ renamed (world (snd RENAMED_RETRY)) = Some "SRV-APP-01"
  /\ guest_name (world (snd RENAMED_RETRY)) = "WIN-SETUP".
Proof. vm_compute. repeat split. Qed.
