(* ===== verification/MockWorld.v ===== *)
(** * Runs in mock mode

    The platform run against the simulated estate and guests
    ([INFRASTRUCTURE_MODE=mock]), as an instance of [World]: the whole
    pipeline evaluates on it. *)

From Stdlib Require Import ZArith Lia Ascii String List Bool.
From stdpp Require Import base tactics list strings gmap.
From S2P Require Import Prelude PyStr Json Errors Schemas StateMachine Jobs AuditTrail Repository Scripts Effects.
From S2P Require Import World Guest GuestFacts GuestScripts VCenter VSphere MockVSphere MockGuest.
From S2P Require Import StageSupport StagesVm StagesApps Pipeline PipelineFacts SampleWorld Execution.

Local Open Scope string_scope.
Local Open Scope Z_scope.

(** ** Dates *)

Definition pad (n : nat) (z : Z) : string := last_str n ("000000" ++ str_int z).

(** The date of a day since 1970-01-01 in the proleptic Gregorian calendar. *)
Definition civil (days : Z) : Z * Z * Z :=
  let z := days + 719468 in
  let era := z / 146097 in
  let doe := z mod 146097 in
  let yoe := (doe - doe / 1460 + doe / 36524 - doe / 146096) / 365 in
  let doy := doe - (365 * yoe + yoe / 4 - yoe / 100) in
  let mp := (5 * doy + 2) / 153 in
  let m := if mp <? 10 then mp + 3 else mp - 9 in
  (yoe + era * 400 + (if m <=? 2 then 1 else 0), m, doy - (153 * mp + 2) / 5 + 1).

Definition date_text (days : Z) : string :=
  let '(y, m, d) := civil days in pad 4 y ++ "-" ++ pad 2 m ++ "-" ++ pad 2 d.

Definition DAY : Z := 86400 * SECOND.

(** [isoformat] of a time in UTC, in microseconds since 1970. *)
Definition iso_text (us : Z) : string :=
  let s := (us mod DAY) / SECOND in
  date_text (us / DAY) ++ "T" ++ pad 2 (s / 3600) ++ ":" ++ pad 2 (s / 60 mod 60) ++ ":" ++ pad 2 (s mod 60)
  ++ (if us mod SECOND =? 0 then "" else "." ++ pad 6 (us mod SECOND)) ++ "+00:00".

Example iso_text_boot : iso_text (BOOT_EPOCH + MINUTE) = "2026-01-01T00:01:00+00:00".
Proof. reflexivity. Qed.

(** ** The instance *)

(** The fingerprint of the one certificate the runs deploy. *)
Definition FINGERPRINT : string := text (List.repeat "A"%char 64).

#[export] Instance mock_guest : GuestOperations Mock := mock_guest_operations (fun _ => FINGERPRINT) iso_text.

#[export] Instance mock_secrets : SecretsProvider Mock := {
  get_secret ref := oret (if endswith ref "/username" then "Administrator" else "Pa55&word");
  secrets_provider_name := "database";
}.

#[export] Instance mock_platform : Platform Mock := {
  utcnow := mock_clock;
  today m := mock_clock m / DAY;
  date_str := date_text;
  loop_time := mock_clock;
  sleep := mock_sleep;
  token_urlsafe _ := draw_hex;
  uuid4_hex := draw_hex;
  isoformat := iso_text;
  format_exc _ := "Traceback";
  repr_json := json_dumps;
  re_fullmatch _ _ := Some true;
}.

#[export] Instance mock_network : World.Network Mock := {
  ping_installed := oret true;
  ping _ := oret (1, "Request timed out");
  gethostbyaddr _ := oret None;
}.

Definition ROOT_CA : CertificateRow :=
  MkCertificate "Company Root CA" ROOT_CERT FINGERPRINT "-----BEGIN CERTIFICATE-----" (Some 30000) "pk-1" true true.

Definition agent (id name : string) (deps : list string) : ApplicationRow :=
  MkApplication id name MSI ("\\files\apps\" ++ name ++ ".msi") "" SERVICE_EXISTS {["service_name" := JStr name]} 600 false true deps.

#[export] Instance mock_tables : Tables Mock := {
  setting_rows := oret [(SETTING_ALLOWED_INSTALLER_ROOTS, JArr [JStr "\\files\apps"])];
  certificate_rows := oret [ROOT_CA];
  application_rows := oret [agent "app-1" "Agent" ["app-2"]; agent "app-2" "Runtime" []];
  active_duplicates _ _ := oret false;
  package_rows := oret [MkPackage "pk-1" "Company" true [true]];
  vcenter_connection _ := oret (Some (MkConnection "vc-1" "vCenter" "vcenter.example" true 443 "vc/username" "vc/password" true));
}.

#[export] Instance mock_world : World Mock := {}.

(** ** A deployment *)

Definition NOW : Z := 1780000000 * SECOND.
Definition MOCK_START : Mock := MkMock NOW 0 ∅ ∅.

Definition mock_request (join : option DomainJoinSpec) (mode_ : IpMode) (v4 : option Ipv4Config) : ProvisioningRequest :=
  MkRequest V2 (MkVmSpec "srv-app-01" "Application server") (MkComputeSpec "vc-1" "datacenter-21" "domain-c7" None None)
    (MkHardwareSpec 4 8192 EFI true [MkDiskSpec 60 THIN None; MkDiskSpec 100 THIN None])
    (MkGuestSpec "iso-corp-windows-2025" None None "en-US" "0409:00000409" 2 "infra/guest-admin" None join)
    (MkNetworkSpec "dvportgroup-51" VMXNET3 mode_ v4) ["pk-1"] ["app-1"].

Definition mock_run (r : ProvisioningRequest) : Outcome unit * Run Mock :=
  let j := ensure_steps stage_definitions QUEUED_JOB in
  execute_job_stages (MkCtx r (target SAMPLE_CTX) (Some "alice"))
    (MkRun (MkSession j [] []) (MkSession j [] []) None false false false [] [] None [] [] [] MOCK_START).

(** ** Files of the simulated guests *)

Lemma mock_guest_state_put vm g m : mock_guest_state vm (put_guest vm g m) = g.
Proof. unfold mock_guest_state, put_guest. cbn. by rewrite lookup_insert_eq. Qed.

(** Guests whose uploads and deletions may be made to fail, and which remember
    those that did. *)
Section FailingFiles.
Context (fails : FileCall -> string -> option Fault).

Definition FileLog : Type := list (FileCall * string).

Definition watch_file (k : FileCall) (p : string) : Watch FileLog :=
  MkWatch (fun _ => fails k p) (fun ok l => if ok then l else (k, p) :: l).

Definition failing_world : World (Mock * FileLog) := watched_world unwatched unwatched watch_file.

#[local] Existing Instance failing_world.

#[export] Instance mock_files : GuestFiles (Mock * FileLog) := {
  in_guest _ vm s p := is_Some (gs_files (mock_guest_state vm (fst s)) !! lower p);
  has_raised _ _ s k p := exists q, In (k, q) (snd s) /\ lower p = lower q;
}.

Lemma logged_iff (ok : bool) k q (l : FileLog) k' p :
  (exists u, In (k', u) (if ok then l else (k, q) :: l) /\ lower p = lower u)
  <-> (exists u, In (k', u) l /\ lower p = lower u) \/ (ok = false /\ k' = k /\ lower p = lower q).
Proof.
  destruct ok; cbn; [by split; [left|intros [|[? _]]]|]. split.
  - intros (u & [[= -> ->]|I] & E); [by right|left; eauto].
  - intros [(u & I & E)|(_ & -> & E)]; eauto.
Qed.

#[export] Instance mock_file_laws : GuestFileLaws (Mock * FileLog).
Proof.
  split; cbn.
  - intros target vm c content path [m l]. unfold watched. cbn. destruct (fails Uploading path) as [f|].
    + split; [by left|]. intros k p. apply (logged_iff false).
    + unfold MockGuest.upload_file, change_guest, obind. cbn. rewrite mock_guest_state_put. cbn. split.
      * intros p. rewrite lookup_insert_is_Some. intros [<-|[_ ?]]; auto.
      * intros k p. apply (logged_iff true Uploading path).
  - intros target vm c path [m l]. unfold watched. cbn. destruct (fails Deleting path) as [f|].
    + split; [by split|]. intros k p. apply (logged_iff false).
    + unfold MockGuest.delete_file, change_guest, obind. cbn. rewrite mock_guest_state_put. cbn. split.
      * intros p. rewrite lookup_delete_is_Some. intros [? ?]. split; [done|congruence].
      * intros k p. apply (logged_iff true Deleting path).
  - by intros target vm [m l] p.
Qed.

End FailingFiles.

(** The deletion of the answer to [path] fails. *)
Definition cannot_delete (path : string) (k : FileCall) (p : string) : option Fault :=
  match k with Deleting => if String.eqb p path then Some (InfraFail "The file could not be deleted." "" "" "" true) else None | Uploading => None end.

(** A script that reads a password, on the simulated guest, when the secret file
    cannot be deleted: it is the one that is left, and the script is gone. *)
Lemma run_powershell_leaves_no_secret_witness :
  let t := target SAMPLE_CTX in
  let secret := new_temp_path (hex_of 0 ++ "-0") "dat" in
  let W := failing_world (cannot_delete secret) in
  let r := MkRun (MkSession QUEUED_JOB [] []) (MkSession QUEUED_JOB [] []) None false false false [] [] None [] [] []
             (MOCK_START, []) in
  let r' := snd (base_run_powershell (H := W) t "srv-app-01" (MkCredentials "a" "b") "hostname" 60 [("pw", "Pa55")] r) in
  snd (world r') = [(Deleting, secret)]
  /\ in_guest t "srv-app-01" (world r') secret
  /\ ~ in_guest t "srv-app-01" (world r') (new_temp_path (hex_of 0) "ps1").
Proof.
  cbv zeta. set (secret := new_temp_path (hex_of 0 ++ "-0") "dat").
  match goal with |- context [base_run_powershell (H := ?w) ?t ?v ?c ?s ?k ?l ?r] =>
    pose proof (run_powershell_leaves_no_secret (H := w) t v c s k l r (hex_of 0) (snd (draw_hex MOCK_START), []) eq_refl eq_refl) as S;
    assert (snd (world (snd (base_run_powershell (H := w) t v c s k l r))) = [(Deleting, secret)]
            /\ is_return (fst (base_run_powershell (H := w) t v c s k l r)) = true
            /\ gs_files (mock_guest_state "srv-app-01" (fst (world (snd (base_run_powershell (H := w) t v c s k l r))))) !! lower secret
               = Some "Pa55") as (L & O & F) by (vm_compute; by split_and!);
    destruct (base_run_powershell (H := w) t v c s k l r) as [o r'] end.
  cbn [fst snd] in *. split; [exact L|]. split; [eexists; exact F|]. intros P.
  assert (forall k p, has_raised (target SAMPLE_CTX) "srv-app-01" (world r') k p -> lower p = lower secret /\ k = Deleting) as R.
  { intros k p (q & I & E). rewrite L in I. destruct I as [[= <- <-]|[]]. by split. }
  destruct (S (new_temp_path (hex_of 0) "ps1")) as [[_ ?]%R|[[E _]%R|(u & e & _ & _ & -> & _)]]; try done.
  - by left.
  - intros [b E]. discriminate E.
Defined.

(** A cancellation in the upload of a secret that the guest has already
    received: its path was not recorded, so neither the [finally] block nor the
    script, which never runs, deletes it. *)
Lemma interrupted_upload_leaves_secret :
  let t := target SAMPLE_CTX in
  let r := MkRun (MkSession QUEUED_JOB [] []) (MkSession QUEUED_JOB [] []) None false false false [] []
             (Some (MkInterrupt 0 Timeout true)) [] [] [] MOCK_START in
  let '(o, r') := base_run_powershell t "srv-app-01" (MkCredentials "a" "b") "hostname" 60 [("pw", "Pa55")] r in
  o = Raise (Cancelled Timeout)
  /\ gs_files (mock_guest_state "srv-app-01" (world r')) !! lower (new_temp_path (hex_of 0 ++ "-0") "dat") = Some "Pa55".
Proof. vm_compute. split; reflexivity. Qed.
