(* ===== verification/Engine.v ===== *)
(** * The worker engine

    [app/workers/engine.py] and [app/workers/context.py]: reading the stored
    request, building the context, executing a claimed job, interrupting it
    on shutdown or on a lost worker, and the heartbeat that delivers
    cancellations.  [worker_refines_queue] ties the worker to the transition
    system of Service.v: whatever happens while it processes a job, it writes
    only what that system allows. *)

From Stdlib Require Import ZArith Lia Ascii String List Bool.
From stdpp Require Import base tactics list strings gmap relations.
From S2P Require Import Prelude PyStr Errors Schemas StateMachine Jobs AuditTrail Repository Queue Service Effects World RequestBody.
From S2P Require Import StageSupport StagesApps Pipeline PipelineFacts SampleWorld Execution Commits.

Local Open Scope string_scope.
Local Open Scope Z_scope.

(** ** Rows the engine reads *)

(** The request stored with a job, and the names of the users. *)
Class EngineTables (X : Type) := {
  job_request : X -> string -> option json;
  user_name : string -> Op X (option string);
}.

(** [type(exc).__name__], [str(exc)]. *)
Definition exc_type (e : Exc) : string :=
  match e with
  | InfraOperationError e => if question_pending e then "VmQuestionPending" else "InfraOperationError"
  | TimeoutError => "TimeoutError"
  | OtherException n _ => n
  | Cancelled _ => "CancelledError"
  end.

Definition exc_str (e : Exc) : string :=
  match e with
  | InfraOperationError e => human_message e
  | OtherException _ m => m
  | _ => ""
  end.

Section Engine.

Context {X : Type} `{World X} `{EngineTables X} {conversions : Pydantic}.

(** ** The context *)

Definition runtime_error {A} (m : string) : M X A := throw (OtherException "RuntimeError" m).
Definition lookup_error {A} (m : string) : M X A := throw (OtherException "LookupError" m).

Definition load_request_payload (j : Job) : M X ProvisioningRequest := fun r =>
  match job_request (world r) (job_id j) with
  | None => runtime_error ("Job " ++ job_id j ++ " has no stored provisioning request.") r
  | Some payload =>
      match parse_stored_request payload with
      | None => runtime_error ("This job was created by a provisioning workflow that no longer exists; "
                               ++ "submit a new request.") r
      | Some request => ret request r
      end
  end.

Definition build_vcenter_target (vcenter_id : string) : M X VCenterTarget :=
  let* connection := call (vcenter_connection vcenter_id) in
  match connection with
  | None => lookup_error ("vCenter connection " ++ SQ ++ vcenter_id ++ SQ ++ " is no longer registered.")
  | Some c =>
      if negb (conn_enabled c) then lookup_error ("vCenter connection " ++ SQ ++ conn_name c ++ SQ ++ " is disabled.")
      else ret (target_of c)
  end.

Definition requester_name (j : Job) : M X (option string) :=
  match requested_by_user_id j with None => ret None | Some u => call (user_name u) end.

(** What a new [JobRunContext] starts with. *)
Definition fresh_context : M X unit :=
  modify (fun r => r <| vm_ref := None |> <| reboot_required := false |> <| hostname_changed := false |>).

Definition _build_context (j : Job) : M X Ctx :=
  let* req := load_request_payload j in
  let* tgt := build_vcenter_target (vcenter_id (compute req)) in
  let* requester := requester_name j in
  fresh_context;;
  ret (MkCtx req tgt requester).

(** A new session, or the session after a rollback, reads the committed rows. *)
Definition reload : M X unit := await (modify (fun r => r <| session := stored r |>)).

Definition flush : M X unit := await (ret tt).

(** ** Failing before the pipeline *)

Definition fail_open_step (s : Step) : Step :=
  match step_status s with
  | PENDING | STEP_RUNNING => s <| step_status := STEP_CANCELLED |>
  | _ => s
  end.

Definition human_text (e : Exc) : string := if String.eqb (exc_str e) "" then exc_type e else exc_str e.

Definition fail_before_row (at_ : Z) (e : Exc) (j : Job) : Job :=
  j <| job_status := FAILED |> <| error_summary := Some (take_str 500 (human_text e)) |>
    <| error_detail := Some (take_str 4000 (human_text e ++ NL ++ NL ++ exc_type e ++ ": " ++ exc_str e)) |>
    <| finished_at := Some at_ |> <| worker_id := None |> <| duration := elapsed at_ j |>
    <| steps := List.map fail_open_step (steps j) |>.

(** [payload.get("compute", {}).get("datacenter_id")] of whatever is stored. *)
Definition payload_datacenter (payload : option json) : option string :=
  match payload with
  | Some (JObj l) =>
      match assoc "compute" l with
      | Some (JObj c) => match assoc "datacenter_id" c with Some (JStr d) => Some d | _ => None end
      | _ => None
      end
  | _ => None
  end.

Definition _fail_before_pipeline (e : Exc) : M X unit :=
  let* at_ := now in
  set_job (fail_before_row at_ e);;
  measure (JobsTotal (job_status_value FAILED));;
  (let* j := get_job in
   let* requester := requester_name j in
   let* r := get in
   notify (notify_requester j JOB_FAILED (failed_message j "Start provisioning" (human_text e)));;
   record_audit (audit_event "JOB_FAILED" requester "virtual_machine" (Some (vm_name j)) (Some (job_id j))
     (payload_datacenter (job_request (world r) (job_id j))) (datacenter_name j) (Some "failure") []
     (Some (human_text e))));;
  commit;;
  publish_stage None "FAILED" (human_text e).

(** ** Interruption *)

(** The clean-up after an interruption, whose failure rolls the session back. *)
Definition clean_up : M X unit :=
  catch_exception
    (let* j := get_job in
     let* ctx := _build_context j in
     let* released := release_unattended_media ctx "job interrupted" in
     if released then commit else ret tt)
    (fun _ => reload).

Definition _interrupt (why : string) : M X unit :=
  let* at_ := now in
  set_job (interrupt_row at_ why);;
  measure (JobsTotal (job_status_value INTERRUPTED));;
  (let* j := get_job in
   notify (notify_requester j JOB_FAILED (interrupted_message j why));;
   record_audit (audit_event "JOB_INTERRUPTED" None "virtual_machine" (Some (vm_name j)) (Some (job_id j))
     None (datacenter_name j) (Some "interrupted") [] (Some why)));;
  commit;;
  (let* j := get_job in publish_stage (current_stage j) (job_status_value INTERRUPTED) why);;
  clean_up.

Definition claimed_by (worker : string) (j : Job) : bool :=
  bool_decide (job_status j = RUNNING) && owned_by worker j.

Definition _mark_interrupted (worker : string) (why : string) : M X unit :=
  catch_exception
    (reload;;
     (let* j := get_job in if claimed_by worker j then _interrupt why else ret tt))
    (fun _ => ret tt).

(** ** One job *)

Definition start_audit (ctx : Ctx) (j : Job) : AuditEvent :=
  audit_event "JOB_STARTED" (actor_username ctx) "virtual_machine" (Some (vm_name_of ctx)) (Some (job_id j))
    (Some (compute_datacenter_id (compute (request ctx)))) (datacenter_name j) (Some "running") [] None.

(** [await pipeline_task] and what follows.  [stopping]: the worker is shutting
    down; otherwise a cancelled pipeline means that the heartbeat found the
    job in other hands. *)
Definition run_pipeline (stopping : bool) (ctx : Ctx) : M X unit :=
  let* ended := attempt_to (execute_job_stages ctx) in
  match ended with
  | Return _ => commit
  | Raise (Cancelled k) => if stopping then throw (Cancelled k) else ret tt
  | Raise _ =>
      reload;;
      _fail_before_pipeline (OtherException "RuntimeError" "Pipeline crashed unexpectedly")
  end.

Definition _execute_job (worker : string) (stopping : bool) : M X unit :=
  reload;;
  (let* j := get_job in
   if negb (claimed_by worker j) then ret tt
   else
     set_job (ensure_steps stage_definitions);;
     flush;;
     (let* built := catch_exception (let* ctx := _build_context j in ret (inl ctx)) (fun e => ret (inr e)) in
      match built with
      | inr e => _fail_before_pipeline e
      | inl ctx =>
          measure (JobsTotal "STARTED");;
          (let* j' := get_job in record_audit (start_audit ctx j'));;
          commit;;
          run_pipeline stopping ctx
      end)).

(** [second] is a cancellation that reaches the clean-up itself. *)
Definition _process_job (worker : string) (stopping : bool) (second : option Interrupt) : M X unit :=
  let* ended := attempt_to (_execute_job worker stopping) in
  match ended with
  | Raise (Cancelled k) =>
      modify (fun r => r <| pending := second |> <| interrupts := [] |>);;
      _mark_interrupted worker "The worker shut down before the job finished.";;
      throw (Cancelled k)
  | o => reraise o
  end.

End Engine.

(** ** Heartbeats *)

(** One beat: no answer from the database, or the answer of
    [JobRepository.heartbeat]. *)
Inductive Beat := Missed | Answered (cancel_requested_ : option bool).

Inductive Signal := CancelEventSet | PipelineCancelled.

(** [_heartbeat_loop]: the signals to the pipeline, until it is done (the end
    of the list) or the ownership is lost. *)
Fixpoint _heartbeat_loop (beats : list Beat) : list Signal :=
  match beats with
  | [] => []
  | Missed :: rest => _heartbeat_loop rest
  | Answered None :: _ => [PipelineCancelled]
  | Answered (Some true) :: rest => CancelEventSet :: _heartbeat_loop rest
  | Answered (Some false) :: rest => _heartbeat_loop rest
  end.

(** ** The engine's own settings *)

Record EngineSettings := MkEngineSettings {
  worker_concurrency : Z;
  worker_heartbeat_interval : Z;
  worker_heartbeat_timeout : Z;
  worker_reaper_interval : Z;
  worker_shutdown_grace : Z;
  worker_poll_interval : Z;
}.

(** [JobEngine.__init__], times in microseconds. *)
Definition engine_settings (s : EngineSettings) : EngineSettings :=
  let interval := Z.max 1000000 (worker_heartbeat_interval s) in
  MkEngineSettings (Z.max 1 (worker_concurrency s)) interval (Z.max (interval * 3) (worker_heartbeat_timeout s))
    (Z.max 5000000 (worker_reaper_interval s)) (Z.max 0 (worker_shutdown_grace s)) (worker_poll_interval s).

(** [healthy]: the main loop came round lately. *)
Definition healthy (s : EngineSettings) (last_tick at_ : Z) : bool :=
  at_ - last_tick <? Z.max 60000000 (worker_poll_interval s * 10).

(** The answer of [_serve_metrics] to a request line. *)
Definition latin1_space (c : ascii) : bool := is_space c || Ascii.eqb c "133"%char || Ascii.eqb c "160"%char.

Definition split_spaces (s : string) : list string :=
  List.filter (fun w => negb (String.eqb w ""))
    (split_on " "%char (text (List.map (fun c => if latin1_space c then " "%char else c) (chars s)))).

Definition metrics_path (request_line : string) : string :=
  match split_spaces request_line with
  | _ :: path :: _ => path
  | _ => "/"
  end.

Definition metrics_answer (path rendered : string) (ok : bool) : string * string * string :=
  if startswith path "/metrics" then ("200 OK", rendered, "text/plain; version=0.0.4")
  else if startswith path "/health" then
    (if ok then "200 OK" else "503 Service Unavailable", (if ok then "ok" else "stalled") ++ NL, "text/plain")
  else ("404 Not Found", "not found" ++ NL, "text/plain").

Example metrics_path_example : metrics_path ("GET /metrics HTTP/1.1" ++ NL) = "/metrics".
Proof. reflexivity. Qed.

(** ** The commits of the worker *)

Section Commits.

Context {X : Type} `{World X} `{EngineTables X} {conversions : Pydantic}.

Lemma frames_load_request j : frames (X := X) (load_request_payload j).
Proof.
  intros r. unfold load_request_payload. destruct (job_request _ _) as [payload|]; [|apply frame_refl].
  destruct (parse_stored_request _); apply frame_refl.
Qed.

Lemma frames_build_context j : frames (X := X) (_build_context j).
Proof.
  unfold _build_context, build_vcenter_target, requester_name, lookup_error, fresh_context.
  pose proof frames_load_request. solve_frames.
Qed.

Lemma frames_requester j : frames (X := X) (requester_name j).
Proof. unfold requester_name. solve_frames. Qed.

Lemma frames_flush : frames (X := X) flush.
Proof. unfold flush. solve_frames. Qed.

Hint Resolve frames_load_request frames_build_context frames_requester frames_flush frames_get : infra.

Context (j0 : Job).
Local Notation at_status := (at_status (X := X) j0).
Local Notation safe := (safe (X := X) j0).
Local Notation stays := (stays (X := X) j0).

(** After a reload the session is the committed row. *)
Lemma at_reload s (r : Run X) :
  s <> QUEUED -> at_status s r -> job_status (job (stored r)) <> QUEUED ->
  at_status (job_status (job (stored r))) (r <| session := stored r |>).
Proof.
  intros Hs A Hq. destruct (may_follow_stored j0 _ _ A) as (K & _ & _). destruct A as [A1 A2 A3 A4 AO A5].
  constructor; simpl; [done|done|done|done| |by apply worker_edge_refl].
  intros R. rewrite A2 in *. by apply linked_owner.
Qed.

Lemma at_stored_not_queued s (r : Run X) : at_status s r -> job_status (job (stored r)) <> QUEUED.
Proof. intros [_ _ _ _ _ E] Q. by rewrite Q in E. Qed.

Lemma wp_reload Q (r : Run X) :
  safe r ->
  (forall r', safe r' -> job (session r') = job (stored r') -> Q (Return tt) r') ->
  (forall k r', safe r' -> Q (Raise (Cancelled k)) r') -> wp reload Q r.
Proof.
  intros (s & Hs & A) H1 H2.
  assert (P : forall p, at_status s (r <| pending := p |>)) by (intros p; destruct A; by constructor).
  assert (R : forall p, safe ((r <| pending := p |>) <| session := stored r |>)).
  { intros p. eapply safe_at; [|by eapply at_stored_not_queued]. by apply (at_reload s _ Hs (P p)), (at_stored_not_queued s). }
  unfold reload. apply wp_await_modify.
  - intros p. by apply H1.
  - intros k p. apply H2. eapply safe_at; [apply P|done].
  - intros k p. by apply H2.
Qed.

(** Neither the session nor the committed row says RUNNING. *)
Definition closed (r : Run X) : Prop :=
  job_status (job (session r)) <> RUNNING /\ job_status (job (stored r)) <> RUNNING.

Definition keeps_closed {A} (m : M X A) : Prop := forall r, closed r -> closed (snd (m r)).

Lemma closed_frames {A} (m : M X A) : frames m -> keeps_closed m.
Proof.
  intros F r [C1 C2]. destruct (F r) as [V (l & _ & L2 & L3) _ _ _]. injection V as _ V _ _.
  split; [by rewrite V|]. rewrite L3. clear L3. destruct l as [|x l] using rev_ind; [done|].
  rewrite last_app. simpl. apply Forall_app in L2 as [_ L2]. apply Forall_inv in L2. injection L2 as _ L2 _ _.
  by rewrite L2.
Qed.

Lemma closed_bind {A B} (m : M X A) (k : A -> M X B) :
  keeps_closed m -> (forall a, keeps_closed (k a)) -> keeps_closed (bind m k).
Proof.
  intros Hm Hk r C. unfold bind. specialize (Hm r C). destruct (m r) as [[a|e] r1]; [by apply Hk|done].
Qed.

Lemma closed_await {A} (m : M X A) : keeps_closed m -> keeps_closed (await m).
Proof.
  intros Hm r C. unfold await. destruct (pending r) as [[[|n] k b]|]; cbn [after_awaits snd in_flight_lands]; [| |by apply Hm].
  - destruct b; [by apply Hm|done].
  - by apply Hm.
Qed.

Lemma closed_catch {A} (m : M X A) h : keeps_closed m -> (forall e, keeps_closed (h e)) -> keeps_closed (catch_exception m h).
Proof.
  intros Hm Hh r C. unfold catch_exception. specialize (Hm r C).
  destruct (m r) as [[a|[e| |n t|k]] r1]; simpl in *; try done; by apply Hh.
Qed.

Lemma closed_reload : keeps_closed reload.
Proof. apply closed_await. by intros r [C1 C2]. Qed.

Lemma closed_release ctx why : keeps_closed (release_unattended_media ctx why).
Proof.
  unfold release_unattended_media. apply closed_bind; [apply closed_frames; solve_frames|]. intros j.
  destruct (media_to_remove j); [|apply closed_frames; solve_frames].
  apply closed_bind; [apply closed_frames; solve_frames|]. intros []; cbn [negb]; [|apply closed_frames; solve_frames].
  apply closed_bind; [by intros r C|]. intros []. apply closed_frames. solve_frames.
Qed.

Hint Resolve closed_reload closed_release : infra.

(** *** The pieces *)

Lemma stays_safe {A} (m : M X A) s (r : Run X) :
  stays m -> s <> QUEUED -> at_status s r -> closed r -> keeps_closed m ->
  wp m (fun _ r' => safe r' /\ closed r') r.
Proof. intros Hm Hs A0 C K. split; [eapply safe_at; [by apply Hm|done]|by apply K]. Qed.

(** A commit that ends the job: what follows cannot bring it back. *)
Lemma wp_final_commit {B} s (k : unit -> M X B) (P : Outcome B -> Prop) (r : Run X) :
  s <> QUEUED -> s <> RUNNING -> at_status s r ->
  (forall r', at_status s r' -> closed r' -> wp (k tt) (fun _ r1 => safe r1 /\ closed r1) r') ->
  (forall e, P (Raise (Cancelled e)) -> False) ->
  wp (bind commit k) (fun o r' => safe r' /\ (P o -> closed r')) r.
Proof.
  intros Hs Hr A Hk HP. apply wp_bind.
  assert (St : wp commit (fun _ r1 => at_status s r1) r) by (apply (stays_frames j0 commit frames_commit s r Hs A)).
  eapply wp_mono; [apply wp_both; [exact St|]|].
  { apply (wp_commit (fun o r1 => match o with
      | Return _ => job (stored r1) = job (session r1)
      | Raise e => exists k, e = Cancelled k end)).
    - by intros r' [= E1 E2 _]; rewrite E1, E2.
    - intros k0 r' _ _ _. by exists k0. }
  intros [[]|e] r1 [A1 E].
  - eapply wp_mono; [apply Hk; [exact A1|]|].
    + split; [by rewrite (at_session _ _ _ A1)|]. by rewrite E, (at_session _ _ _ A1).
    + intros o r2 [S C]. by split.
  - destruct E as [k0 ->]. split; [eapply safe_at; [exact A1|done]|]. intros F. by apply HP in F.
Qed.

Lemma wp_fail_before e (r : Run X) :
  at_status RUNNING r ->
  wp (_fail_before_pipeline e) (fun o r' => safe r' /\ (o = Return tt -> closed r')) r.
Proof.
  intros A. unfold _fail_before_pipeline. apply wp_bind, wp_now, wp_bind.
  apply (wp_move j0 RUNNING FAILED); [done|done|done|done|]. intros r1 A1.
  assert (N : FAILED <> QUEUED) by done.
  assert (stop : forall (o : Outcome unit) r', at_status FAILED r' -> o <> Return tt -> safe r' /\ (o = Return tt -> closed r')).
  { intros o r' A' Ho. split; [by eapply safe_at|done]. }
  apply (wp_bind_stays j0 _ _ FAILED); [solve_stays|done|done| |intros; by apply stop].
  intros _ r2 A2. apply (wp_bind_stays j0 _ _ FAILED); [solve_stays|done|done| |intros; by apply stop].
  intros _ r3 A3. apply (wp_final_commit FAILED); [done|done|done| |done].
  intros r4 A4 C4. apply (stays_safe _ FAILED); [solve_stays|done|done|done|]. apply closed_frames. solve_frames.
Qed.

Lemma wp_bind_quiet {A B} (m : M X A) (k : A -> M X B) s (Q : Outcome B -> Run X -> Prop) (r : Run X) :
  quiet m -> stays m -> s <> QUEUED -> at_status s r ->
  (forall a r', at_status s r' -> wp (k a) Q r') -> (forall c r', at_status s r' -> Q (Raise (Cancelled c)) r') ->
  wp (bind m k) Q r.
Proof.
  intros Hq Hm Hs A0 H1 H2. apply wp_bind. unfold wp. specialize (Hm s r Hs A0). destruct (Hq r) as [_ E].
  destruct (m r) as [[a|e] r1]; simpl in *; [by apply H1|]. destruct (E e eq_refl) as [c ->]. by apply H2.
Qed.

Lemma wp_clean_up (r : Run X) :
  safe r -> closed r -> wp clean_up (fun _ r' => safe r' /\ closed r') r.
Proof.
  intros (s & Hs & A) C. unfold clean_up.
  set (m := let* j := get_job in _).
  assert (Sm : stays m) by (pose proof (stays_release j0); unfold m; solve_stays).
  assert (Cm : keeps_closed m).
  { unfold m. apply closed_bind; [apply closed_frames; solve_frames|]. intros j.
    apply closed_bind; [apply closed_frames; solve_frames|]. intros ctx.
    apply closed_bind; [apply closed_release|]. intros []; apply closed_frames; solve_frames. }
  specialize (Sm s r Hs A). specialize (Cm r C). unfold wp, catch_exception.
  destruct (m r) as [[a|e] r1]; simpl in *; [split; [by eapply safe_at|done]|].
  assert (R : wp reload (fun _ r' => safe r' /\ closed r') r1).
  { apply wp_both; [|by apply closed_reload]. apply wp_reload; [by eapply safe_at|done|done]. }
  destruct e; try exact R. split; [by eapply safe_at|done].
Qed.

Lemma wp_interrupt why (r : Run X) :
  at_status RUNNING r ->
  wp (_interrupt why) (fun o r' => safe r' /\ ((forall k, o <> Raise (Cancelled k)) -> closed r')) r.
Proof.
  intros A. unfold _interrupt. apply wp_bind, wp_now, wp_bind.
  apply (wp_move j0 RUNNING INTERRUPTED); [done|done|done|done|]. intros r1 A1.
  assert (N : INTERRUPTED <> QUEUED) by done.
  assert (stop : forall k r', at_status INTERRUPTED r' ->
            safe r' /\ ((forall k', Raise (A := unit) (Cancelled k) <> Raise (Cancelled k')) -> closed r')).
  { intros k r' A'. split; [by eapply safe_at|]. intros F. by destruct (F k). }
  apply (wp_bind_quiet _ _ INTERRUPTED); [apply quiet_measure|solve_stays|done|done| |exact stop].
  intros _ r2 A2. apply (wp_bind_quiet _ _ INTERRUPTED); [|solve_stays|done|done| |exact stop].
  { apply quiet_bind; [apply quiet_get_job|]. intros j. apply quiet_bind; [apply quiet_notify|]. intros.
    apply quiet_record_audit. }
  intros _ r3 A3. apply (wp_final_commit INTERRUPTED _ (fun o => forall k, o <> Raise (Cancelled k))); [done..| |].
  2:{ intros e F. by destruct (F e). }
  intros r4 A4 C4.
  assert (F1 : frames (let* j := get_job in publish_stage (X := X) (current_stage j) (job_status_value INTERRUPTED) why))
    by solve_frames.
  apply wp_bind. eapply wp_mono; [apply (stays_safe _ INTERRUPTED); [by apply stays_frames|done|done|done|by apply closed_frames]|].
  intros [[]|e] r5 [S5 C5]; [|by split].
  eapply wp_mono; [by apply wp_clean_up|]. intros o r6 [S6 C6]. by split.
Qed.

(** The job is RUNNING and belongs to the worker, in the committed row. *)
Definition still_claimed (worker : string) (r : Run X) : bool := claimed_by worker (job (stored r)).

Lemma closed_unclaimed worker (r : Run X) : closed r -> still_claimed worker r = false.
Proof. intros [_ C]. unfold still_claimed, claimed_by. by rewrite bool_decide_eq_false_2. Qed.

Lemma wp_mark_interrupted worker why (r : Run X) :
  safe r ->
  wp (_mark_interrupted worker why)
    (fun o r' => safe r' /\ ((forall k, o <> Raise (Cancelled k)) -> still_claimed worker r' = false)) r.
Proof.
  intros S. unfold _mark_interrupted.
  set (m := reload;; _).
  assert (W : wp m (fun o r' => safe r' /\ ((forall k, o <> Raise (Cancelled k)) -> still_claimed worker r' = false)) r).
  { unfold m. apply wp_bind, wp_reload; [done| |].
    2:{ intros k r1 S1. split; [done|]. intros F. by destruct (F k). }
    intros r1 S1 E. apply wp_bind, wp_get_job. destruct (claimed_by worker (job (session r1))) eqn:C.
    - assert (R : job_status (job (session r1)) = RUNNING) by (unfold claimed_by in C; by bools).
      eapply wp_mono; [apply wp_interrupt; rewrite <- R; by apply safe_status|].
      intros o r2 [S2 C2]. split; [done|]. intros F. by apply closed_unclaimed, C2.
    - apply wp_ret. split; [done|]. intros _. unfold still_claimed. by rewrite <- E. }
  clearbody m. unfold wp, catch_exception in *. destruct (m r) as [o r1]. simpl in W. destruct W as [S1 C1].
  destruct o as [a|[e| |n t|k]]; simpl; (split; [done|]); intros F; by apply C1.
Qed.

Lemma undisturbed_pipeline ctx (r : Run X) k :
  undisturbed r -> fst (execute_job_stages ctx r) <> Raise (Cancelled k).
Proof. intros U E. destruct (stages_calm ctx r U) as [_ D]. by destruct (D k E). Qed.

Lemma wp_run_pipeline stopping ctx (r : Run X) :
  at_status RUNNING r ->
  wp (run_pipeline stopping ctx)
    (fun o r' => safe r' /\ (o = Return tt -> stopping = true \/ undisturbed r -> closed r')) r.
Proof.
  intros A. unfold run_pipeline. apply wp_bind. unfold wp at 1, attempt_to.
  assert (W : wp (execute_job_stages ctx)
    (fun o r' => safe r' /\ match o with
       | Return _ => closed r'
       | Raise e => exists k, e = Cancelled k end) r).
  { eapply wp_mono.
    { apply wp_both; [exact (wp_execute_safe j0 STAGE_HANDLERS ctx r A)|exact (stages_result ctx r)]. }
    intros [[]|e] r1 [S1 [_ R1]]; [|by split]. split; [done|].
    destruct R1 as [[[E1 E2] _]|[([E1 E2] & _)|[[E1 E2] _]]]; (split; [|rewrite E1]); rewrite E2; try done;
      by destruct (vm_created _). }
  pose proof (undisturbed_pipeline ctx r) as U. unfold wp in W.
  destruct (execute_job_stages ctx r) as [o r1]. cbn [fst snd] in *. destruct W as [(s & Hs & A1) C1].
  destruct o as [[]|e].
  - unfold wp. split; [|intros _ _; by apply closed_frames; [apply frames_commit|]].
    eapply safe_at; [by apply (stays_frames j0 commit frames_commit s r1)|done].
  - destruct C1 as [k ->]. destruct stopping; [split; [by eapply safe_at|done]|].
    apply wp_ret. split; [by eapply safe_at|]. intros _ [?|Hu]; [done|]. by destruct (U k Hu).
Qed.

(** What the processing of a job leaves behind. *)
Definition executed (stopping : bool) (undisturbed_ : Prop) (o : Outcome unit) (r : Run X) : Prop :=
  safe r /\ (o = Return tt -> stopping = true \/ undisturbed_ -> closed r).

Lemma executed_raise stopping U e s (r : Run X) :
  s <> QUEUED -> at_status s r -> executed stopping U (Raise e) r.
Proof. intros Hs A. split; [by eapply safe_at|done]. Qed.

(** The build of the context, with its exception caught. *)
Lemma stays_built j :
  stays (catch_exception (let* ctx := _build_context j in ret (inl ctx)) (fun e => ret (inr (A := Ctx) e))).
Proof. apply stays_frames. solve_frames. Qed.

Lemma calm_load_request t j : calm (X := X) t (load_request_payload j).
Proof.
  intros r U. unfold load_request_payload. destruct (job_request _ _) as [p|]; [|split; [done|discriminate]].
  destruct (parse_stored_request _); (split; [done|discriminate]).
Qed.

Lemma calm_build_context t j : calm (X := X) t (_build_context j).
Proof.
  pose proof calm_load_request.
  unfold _build_context, build_vcenter_target, requester_name, lookup_error, fresh_context. solve_calm; by apply calm_modify.
Qed.

(** The job still runs, and nothing has disturbed the run that was not going to. *)
Definition ready (U : Prop) (r : Run X) : Prop := at_status RUNNING r /\ (U -> undisturbed r).

Lemma wp_bind_ready {A} (m : M X A) (k : A -> M X unit) stopping U (r : Run X) :
  stays m -> calm false m -> ready U r ->
  (forall a r', ready U r' -> wp (k a) (executed stopping U) r') ->
  wp (bind m k) (executed stopping U) r.
Proof.
  intros Hm Hc [A0 U0] Hk. apply wp_bind. unfold wp. pose proof (Hm RUNNING r ltac:(done) A0) as A1.
  assert (U1 : U -> undisturbed (snd (m r))) by (intros Hu; by apply Hc, U0).
  destruct (m r) as [[a|e] r1]; [by apply Hk|]. by apply (executed_raise _ _ _ RUNNING).
Qed.

Lemma wp_start_pipeline stopping j U (r : Run X) :
  ready U r ->
  wp (set_job (ensure_steps stage_definitions);;
      flush;;
      (let* built := catch_exception (let* ctx := _build_context j in ret (inl ctx)) (fun e => ret (inr e)) in
       match built with
       | inr e => _fail_before_pipeline e
       | inl ctx =>
           measure (JobsTotal "STARTED");;
           (let* j' := get_job in record_audit (start_audit ctx j'));;
           commit;;
           run_pipeline stopping ctx
       end))
    (executed stopping U) r.
Proof.
  intros R. apply wp_bind_ready; [solve_stays|solve_calm|done|]. intros _ r1 R1.
  apply wp_bind_ready; [solve_stays|unfold flush; apply calm_await; solve_calm|done|]. intros _ r2 R2.
  apply wp_bind_ready; [apply stays_built|pose proof calm_build_context; solve_calm|done|].
  intros [ctx|e] r3 R3.
  - do 3 (apply wp_bind_ready; [solve_stays|solve_calm|eassumption|]; intros _ ? ?).
    match goal with R : ready U ?r' |- wp _ _ ?r' => destruct R as [A4 U4] end.
    eapply wp_mono; [by apply wp_run_pipeline|]. intros o r7 [S C]. split; [done|].
    intros E [Hs|Hu]; apply C; auto.
  - destruct R3 as [A3 _]. eapply wp_mono; [by apply wp_fail_before|]. intros o r4 [S C]. by split; auto.
Qed.

Lemma wp_execute_job worker stopping (r : Run X) :
  safe r ->
  wp (_execute_job worker stopping)
    (fun o r' => safe r' /\ (o = Return tt -> stopping = true \/ undisturbed r -> still_claimed worker r' = false)) r.
Proof.
  intros S. unfold _execute_job. apply wp_bind.
  assert (Hc : wp reload (fun _ r1 => undisturbed r -> undisturbed r1) r).
  { intros U. by apply (calm_await (X := X) false), U; intros r' U'; split; [|discriminate]. }
  eapply wp_mono; [apply wp_both; [exact Hc|apply (wp_reload (fun o r1 => safe r1 /\ match o with
     | Return _ => job (session r1) = job (stored r1) | Raise e => exists k, e = Cancelled k end)); eauto]|].
  intros [[]|e] r1 (U1 & S1 & E1); [|by split].
  apply wp_bind, wp_get_job. destruct (claimed_by worker (job (session r1))) eqn:C; cbn [negb].
  - assert (R : job_status (job (session r1)) = RUNNING) by (unfold claimed_by in C; by bools).
    eapply wp_mono; [apply (wp_start_pipeline stopping _ (undisturbed r))|].
    + split; [|done]. rewrite <- R. by apply safe_status.
    + intros o r2 [S2 C2]. split; [done|]. intros Ho Hu. by apply closed_unclaimed, C2.
  - apply wp_ret. split; [done|]. intros _ _. unfold still_claimed. by rewrite <- E1.
Qed.

Lemma calm_reload t : calm (X := X) t reload.
Proof. apply calm_await, calm_modify. by intros r []. Qed.

Lemma calm_mark_interrupted t worker why : calm (X := X) t (_mark_interrupted worker why).
Proof.
  pose proof calm_reload. pose proof calm_build_context. unfold _mark_interrupted, _interrupt, clean_up. solve_calm.
Qed.

(** What is left when the processing of a job has ended. *)
Definition processed (worker : string) (stopping : bool) (second : option Interrupt) (U : Prop)
    (o : Outcome unit) (r : Run X) : Prop :=
  match o with
  | Return _ => stopping = true \/ U -> still_claimed worker r = false
  | Raise (Cancelled _) => second = None -> still_claimed worker r = false
  | Raise _ => True
  end.

Lemma wp_process_job worker stopping second (r : Run X) :
  safe r ->
  wp (_process_job worker stopping second)
    (fun o r' => safe r' /\ processed worker stopping second (undisturbed r) o r') r.
Proof.
  intros S. unfold _process_job. apply wp_bind. unfold wp at 1, attempt_to.
  pose proof (wp_execute_job worker stopping r S) as W. unfold wp in W.
  destruct (_execute_job worker stopping r) as [o r1]. simpl in *. destruct W as [S1 C1].
  destruct o as [[]|[e| |n t|k]]; simpl; try (split; [done|]; simpl; auto; fail).
  set (r2 := (r1 <| pending := second |>) <| interrupts := [] |>).
  apply wp_bind. change (wp (_mark_interrupted worker "The worker shut down before the job finished.";;
    throw (A := unit) (Cancelled k)) (fun o r' => safe r' /\ processed worker stopping second (undisturbed r) o r') r2).
  assert (S2 : safe r2) by (destruct S1 as (s & Hs & A1); exists s; split; [done|]; destruct A1; by constructor).
  assert (U2 : second = None -> undisturbed r2) by by (intros ->; split).
  apply wp_bind. pose proof (wp_mark_interrupted worker "The worker shut down before the job finished." r2 S2) as W.
  pose proof (calm_mark_interrupted false worker "The worker shut down before the job finished." r2) as U.
  clearbody r2. unfold wp in *. destruct (_mark_interrupted _ _ r2) as [o r3]. cbn [fst snd] in *. destruct W as [S3 C3].
  assert (F : second = None -> forall k, o <> Raise (Cancelled k)).
  { intros E k' ->. apply U2, U in E as [_ E]. by destruct (E k' eq_refl). }
  destruct o as [[]|e]; simpl; (split; [done|]).
  - intros _. by apply C3.
  - destruct e; simpl; auto.
Qed.

End Commits.

(** ** The worker and the queue *)

Definition put_rows (rows : list Job) (t : table) : table := fold_left (fun t j => put_row j t) rows t.

Lemma put_rows_last rows : forall j t,
  linked worker_write j rows -> row (job_id j) t = Some j -> row (job_id j) (put_rows rows t) = Some (List.last rows j).
Proof.
  induction rows as [|x rows IH]; intros j t L R; [done|]. destruct L as [Hx L].
  assert (E : job_id x = job_id j) by (destruct Hx as (_ & K & _); apply K).
  assert (R' : row (job_id x) (put_row x t) = Some x).
  { apply row_put_row. rewrite E. apply row_some in R as [Hin _]. unfold ids. by apply in_map. }
  rewrite last_cons, <- E. by apply IH.
Qed.

(** What the queue looks at in a row: its status, its owner, and its keys. *)
Definition queue_view (j : Job) : JobStatus * option string * (string * string * option string * option string) :=
  (job_status j, worker_id j, index_keys j).

Lemma queue_view_write j j' k k' :
  queue_view k = queue_view j -> queue_view k' = queue_view j' -> worker_write j j' -> worker_write k k'.
Proof.
  unfold queue_view, index_keys. intros [= S W K1 K2 K3 K4] [= S' W' K1' K2' K3' K4'] (E & (L1 & L2 & L3 & L4 & A) & O).
  split; [by rewrite S, S'|]. split; [|by rewrite S', W, W']. unfold keeps_keys, is_active_job in *. rewrite S, S'. split_and!; try congruence. exact A.
Qed.

Section Interleaving.
Context (reported : list Constraint -> Constraint) (fp : ProvisioningRequest -> string) (fresh : Job -> table -> Prop) (id : string).

(** The table while one worker commits the rows of the job [id], one after the
    other, and everybody else goes on: any step of the platform that leaves the
    status, the owner and the keys of that row alone may come in between (other
    jobs' steps, heartbeats, a request for cancellation of the running job).
    A commit writes the columns it changed, so of its row it decides what the
    queue looks at. *)
Inductive interleaved : table -> list Job -> table -> Prop :=
| all_committed t : interleaved t [] t
| others_step t t' a b rows t'' :
    queue_step reported fp fresh t t' -> row id t = Some a -> row id t' = Some b -> queue_view b = queue_view a ->
    interleaved t' rows t'' -> interleaved t rows t''
| own_commit t j j' rows t'' :
    queue_view j' = queue_view j -> interleaved (put_row j' t) rows t'' -> interleaved t (j :: rows) t''.

Lemma interleaved_alone rows : forall t, interleaved t rows (put_rows rows t).
Proof. induction rows as [|j rows IH]; intros t; [constructor|]. by apply (own_commit t j j). Qed.

Lemma interleaved_steps t rows t' : interleaved t rows t' -> forall j a,
  linked worker_write j rows -> job_id j = id -> row id t = Some a -> queue_view a = queue_view j ->
  rtc (queue_step reported fp fresh) t t'
  /\ exists b, row id t' = Some b /\ queue_view b = queue_view (List.last rows j).
Proof.
  induction 1 as [t|t t' a' b rows t'' S R1 R2 V _ IH|t j' k rows t'' V _ IH]; intros j a L I R A.
  - split; [constructor|by exists a].
  - destruct (IH j b L I R2) as [Q W]; [congruence|]. split; [|done]. eapply rtc_l; [exact S|exact Q].
  - destruct L as [Hw L]. pose proof (queue_view_write j j' a k A V Hw) as Hw'.
    assert (job_id k = id /\ job_id a = id /\ job_id j' = id) as (Ik & Ia & Ij).
    { destruct Hw' as (_ & K' & _), Hw as (_ & K & _). destruct K' as [K' _], K as [K _].
      unfold queue_view, index_keys in A. injection A as _ _ A _ _ _. split_and!; congruence. }
    assert (row id (put_row k t) = Some k) as Rk.
    { rewrite <- Ik. apply row_put_row. rewrite Ik, <- Ia. apply row_some in R as [R _]. unfold ids. by apply in_map. }
    destruct (IH j' k L Ij Rk V) as [Q W]. split; [|by rewrite last_cons].
    eapply rtc_l; [|exact Q]. apply (QWrite _ _ _ a); [by rewrite Ia|done].
Qed.

End Interleaving.

Section Guarantees.

Context {X : Type} `{World X} `{EngineTables X} {conversions : Pydantic}.

(** A run as the worker starts it: nothing committed yet. *)
Definition starts (r : Run X) : Prop :=
  commits r = [] /\ job_status (job (stored r)) <> QUEUED /\ session r = stored r.

Lemma starts_safe (r : Run X) : starts r -> safe (job (stored r)) r.
Proof.
  intros (C & Q & S). exists (job_status (job (stored r))). split; [done|].
  constructor; rewrite ?C, ?S; try done. by apply worker_edge_refl.
Qed.

(** C5 (JobEngine._process_job against the queue): the worker refines the
    queue.  Let other processes go on while it processes a job, as long as
    none of them changes the status, the owner or the keys of that job's row:
    then every row the worker commits, one after the other, is a step the
    transition system of the queue allows its worker, the whole sequence of
    tables is one of that system, and the row ends in the status and with the
    owner the worker last committed, whatever the stages, the collaborators,
    timeouts, cancellations and shutdowns do.  A worker whose job was reaped,
    or cancelled past it ([cancel_race]), is outside of this. *)
Theorem worker_refines_queue reported fp fresh worker stopping second (r : Run X) t a t' :
  starts r -> row (job_id (job (stored r))) t = Some a -> queue_view a = queue_view (job (stored r)) ->
  let r' := snd (_process_job worker stopping second r) in
  interleaved reported fp fresh (job_id (job (stored r))) t (commits r') t' ->
  rtc (queue_step reported fp fresh) t t'
  /\ exists b, row (job_id (job (stored r))) t' = Some b /\ queue_view b = queue_view (job (stored r')).
Proof.
  intros S R V r' I. destruct (wp_process_job _ worker stopping second r (starts_safe r S)) as [(s & _ & A) _].
  fold r' in A. rewrite (at_stored _ _ _ A).
  by eapply interleaved_steps; [exact I|apply A| |exact R|].
Qed.

(** C6 (JobEngine._process_job): the worker leaves no orphan.  When the
    processing of a job ends, its committed row is no longer RUNNING under
    this worker: after a return, provided that the worker is stopping or that
    nothing cancelled the run (otherwise the job was taken over and is
    abandoned), and after a cancellation, provided that nothing cancels the
    clean-up too.  The only other way to end is an exception of the database
    while a failed start is recorded; such a job is left to the reaper. *)
Theorem worker_leaves_no_orphan worker stopping second (r : Run X) :
  starts r ->
  let (o, r') := _process_job worker stopping second r in
  match o with
  | Return _ => stopping = true \/ undisturbed r -> claimed_by worker (job (stored r')) = false
  | Raise (Cancelled _) => second = None -> claimed_by worker (job (stored r')) = false
  | Raise _ => True
  end.
Proof.
  intros S. pose proof (wp_process_job _ worker stopping second r (starts_safe r S)) as [_ P].
  destruct (_process_job worker stopping second r) as [o r']. exact P.
Qed.

End Guarantees.

(** ** Concrete runs of the worker *)

(** Every text is an identifier. *)
#[local] Instance sample_pydantic : Pydantic := {
  to_int v := match v with JNum n => Some n | _ => None end;
  to_bool v := match v with JBool b => Some b | _ => None end;
  to_uuid4 := Some;
}.

#[export] Instance sample_tables_engine : EngineTables Sample := {
  job_request _ _ := Some (model_dump SAMPLE_REQUEST);
  user_name _ := answer (Some "alice");
}.

(** The worker is stopped while it powers on the VM: the job is interrupted and
    the answer media is removed. *)
Local Notation SHUTDOWN_RUN :=
  (_process_job "worker-1" true None
    (sample_run (List.repeat None 7 ++ [strike Shutdown]) [] START QUEUED_JOB)).

Example shutdown_interrupts :
  fst SHUTDOWN_RUN = Raise (Cancelled Shutdown)
  /\ job_status (job (stored (snd SHUTDOWN_RUN))) = INTERRUPTED
  /\ worker_id (job (stored (snd SHUTDOWN_RUN))) = None
  /\ media (world (snd SHUTDOWN_RUN)) = [].
Proof. vm_compute. repeat split. Qed.

(** The same run, with a heartbeat before its first commit. *)
Lemma worker_refines_queue_witness :
  let r := sample_run (List.repeat None 7 ++ [strike Shutdown]) [] START QUEUED_JOB in
  let t := snd (heartbeat "job-1" "worker-1" 7 [QUEUED_JOB]) in
  let t' := put_rows (commits (snd (_process_job "worker-1" true None r))) t in
  t <> [QUEUED_JOB]
  /\ rtc (queue_step first_error (fun _ => "sha") read_current) [QUEUED_JOB] t'
  /\ option_map queue_view (row "job-1" t') = Some (INTERRUPTED, None, index_keys QUEUED_JOB).
Proof.
  cbv zeta. set (r := sample_run _ _ _ _). set (t := snd (heartbeat _ _ _ _)). set (r' := snd (_process_job _ _ _ r)).
  split; [vm_compute; discriminate|].
  destruct (worker_refines_queue first_error (fun _ => "sha") read_current "worker-1" true None r [QUEUED_JOB] QUEUED_JOB
              (put_rows (commits r') t)) as [Q (b & R & V)].
  - split_and!; [reflexivity|discriminate|reflexivity].
  - reflexivity.
  - reflexivity.
  - eapply (others_step _ _ _ _ _ t); [apply QHeartbeat|reflexivity|reflexivity|reflexivity|apply interleaved_alone].
  - split; [exact Q|]. change (row "job-1" (put_rows (commits r') t) = Some b) in R. rewrite R. cbn [option_map].
    rewrite V. vm_compute. reflexivity.
Defined.

Lemma worker_leaves_no_orphan_witness :
  claimed_by "worker-1" (job (stored (snd SHUTDOWN_RUN))) = false.
Proof.
  pose proof (worker_leaves_no_orphan "worker-1" true None
    (sample_run (List.repeat None 7 ++ [strike Shutdown]) [] START QUEUED_JOB)
    ltac:(split_and!; [reflexivity|discriminate|reflexivity])) as P.
  pose proof (proj1 shutdown_interrupts) as E.
  destruct SHUTDOWN_RUN as [o r]. cbn [fst snd] in *. subst o. by apply P.
Defined.
