(* ===== verification/JobApi.v ===== *)
(** * The job endpoints

    The reading side of [app/api/v1/provisioning.py] and its response models
    ([app/schemas/jobs.py]): job lists and details, the stored request as it is
    shown, console screenshots, and the user behind a stream ticket.  Routing
    and response encoding are the framework's. *)

From Stdlib Require Import ZArith Lia Ascii String List Bool Sorting.
From stdpp Require Import base tactics list strings gmap.
From S2P Require Import Prelude PyStr Json Errors Schemas Jobs AuditTrail Repository Effects World.
From S2P Require Import RequestBody StreamTickets Auth VCenter Listing.

Local Open Scope string_scope.
Local Open Scope Z_scope.

(** An endpoint answers an application error, or fails inside the server. *)
Inductive ApiFailure :=
| Refusal (e : AppError)
| Crash (exception : string).

Definition not_found {A} (m : string) : res ApiFailure A := Err (Refusal (MkAppError NotFoundError m [])).

(** ** Views *)

Record JobStepOut := MkStepOut {
  so_job_id : string;
  so_stage_key : string;
  so_name : string;
  so_sequence : Z;
  so_status : StepStatus;
  so_attempt : Z;
  so_retryable : bool;
  so_started_at : option Z;
  so_finished_at : option Z;
  so_output : option string;
  so_error_human : option string;
  so_error_technical : option string;
  so_artifacts : gmap string json;
}.

Definition _step_out (include_technical : bool) (job : string) (s : Step) : JobStepOut :=
  MkStepOut job (stage_key s) (step_name s) (sequence s) (step_status s) (attempt s) (retryable s)
    (step_started_at s) (step_finished_at s) (output s) (error_human s)
    (if include_technical then error_technical s else None) (artifacts s).

Record JobOut := MkJobOut {
  jo_id : string;
  jo_status : JobStatus;
  jo_vm_name : string;
  jo_datacenter_id : option string;
  jo_datacenter_name : option string;
  jo_requested_by : option string;
  jo_current_stage : option string;
  jo_progress : Z;
  jo_infrastructure : InfrastructureStatus;
  jo_guest_os : GuestOsStatus;
  jo_tools : VMwareToolsStatus;
  jo_guest : GuestProvisioningStatus;
  jo_error_summary : option string;
  jo_cancel_requested : bool;
  jo_queued_at : Z;
  jo_started_at : option Z;
  jo_finished_at : option Z;
  jo_duration : option Z;
}.

(** [(usernames or {}).get(job.requested_by_user_id)] *)
Fixpoint name_of (users : list (string * string)) (id : string) : option string :=
  match users with
  | [] => None
  | (x, n) :: r => if String.eqb x id then Some n else name_of r id
  end.

Definition job_out (users : list (string * string)) (j : Job) : JobOut :=
  MkJobOut (job_id j) (job_status j) (vm_name j) (datacenter_id j) (datacenter_name j)
    (match requested_by_user_id j with Some u => name_of users u | None => None end) (current_stage j) (progress j)
    (infrastructure_status j) (guest_os_status j) (vmware_tools_status j) (guest_provisioning_status j)
    (error_summary j) (cancel_requested j) (queued_at j) (started_at j) (finished_at j) (duration j).

(** *** As JSON ([model_dump_json]) *)

Definition infrastructure_value (s : InfrastructureStatus) : string :=
  match s with INFRA_PENDING => "PENDING" | CREATING => "CREATING" | INFRA_READY => "READY" | INFRA_FAILED => "FAILED" end.
Definition guest_os_value (s : GuestOsStatus) : string :=
  match s with
  | OS_UNKNOWN => "UNKNOWN" | NOT_PRESENT => "NOT_PRESENT" | INSTALLATION_REQUIRED => "INSTALLATION_REQUIRED"
  | INSTALLATION_IN_PROGRESS => "INSTALLATION_IN_PROGRESS" | OS_READY => "READY" | OS_ERROR => "ERROR"
  end.
Definition guest_provisioning_value (s : GuestProvisioningStatus) : string :=
  match s with
  | GUEST_PENDING => "PENDING" | WAITING_FOR_OS => "WAITING_FOR_OS" | WAITING_FOR_TOOLS => "WAITING_FOR_TOOLS"
  | IN_PROGRESS => "IN_PROGRESS" | GUEST_COMPLETED => "COMPLETED" | NOT_REQUESTED => "NOT_REQUESTED"
  | GUEST_FAILED => "FAILED"
  end.

Section Json.
(** The texts of a time, and the number of seconds (a float) of a duration. *)
Context (time_text : Z -> string) (seconds : Z -> json).

Definition step_out_json (s : JobStepOut) : json :=
  JObj [("job_id", JStr (so_job_id s)); ("stage_key", JStr (so_stage_key s)); ("name", JStr (so_name s));
        ("sequence", JNum (so_sequence s)); ("status", JStr (step_status_value (so_status s)));
        ("attempt", JNum (so_attempt s)); ("retryable", JBool (so_retryable s));
        ("started_at", or_null (fun t => JStr (time_text t)) (so_started_at s));
        ("finished_at", or_null (fun t => JStr (time_text t)) (so_finished_at s));
        ("output", or_null JStr (so_output s)); ("error_human", or_null JStr (so_error_human s));
        ("error_technical", or_null JStr (so_error_technical s)); ("artifacts", JObj (map_to_list (so_artifacts s)))].

Definition job_out_json (j : JobOut) : json :=
  JObj [("id", JStr (jo_id j)); ("job_type", JStr "vm_provisioning"); ("status", JStr (job_status_value (jo_status j)));
        ("vm_name", JStr (jo_vm_name j)); ("datacenter_id", or_null JStr (jo_datacenter_id j));
        ("datacenter_name", or_null JStr (jo_datacenter_name j)); ("requested_by_username", or_null JStr (jo_requested_by j));
        ("current_stage", or_null JStr (jo_current_stage j)); ("progress", JNum (jo_progress j));
        ("infrastructure_status", JStr (infrastructure_value (jo_infrastructure j)));
        ("guest_os_status", JStr (guest_os_value (jo_guest_os j)));
        ("vmware_tools_status", JStr (tools_status_value (jo_tools j)));
        ("guest_provisioning_status", JStr (guest_provisioning_value (jo_guest j)));
        ("error_summary", or_null JStr (jo_error_summary j)); ("cancel_requested", JBool (jo_cancel_requested j));
        ("queued_at", JStr (time_text (jo_queued_at j)));
        ("started_at", or_null (fun t => JStr (time_text t)) (jo_started_at j));
        ("finished_at", or_null (fun t => JStr (time_text t)) (jo_finished_at j));
        ("duration_seconds", or_null seconds (jo_duration j))].

(** What the first event of a stream shows. *)
Definition snapshot_json (include_technical : bool) (row : Job * list (string * string)) : json :=
  let '(j, users) := row in
  JObj [("type", JStr "snapshot"); ("job", job_out_json (job_out users j));
        ("steps", JArr (List.map (fun s => step_out_json (_step_out include_technical (job_id j) s)) (sort_steps (steps j))))].

End Json.

(** [_username_map]: the names of the requesters of these jobs. *)
Definition _username_map (all_users : list User) (jobs : list Job) : list (string * string) :=
  let ids := omap requested_by_user_id jobs in
  List.map (fun u => (uid u, user_login u)) (List.filter (fun u => bool_decide (uid u ∈ ids)) all_users).

(** [_request_view]: the request in the current contract, or the raw document of
    a workflow that no longer exists; and whether it is such a document. *)
Definition _request_view `{Pydantic} (payload : option json) : option json * bool :=
  match payload with
  | Some (JObj l) =>
      match parse_stored_request (JObj l) with
      | None => (Some (JObj l), true)
      | Some r => (Some (model_dump r), false)
      end
  | _ => (None, false)
  end.

Definition get_job_steps (u : User) (j : Job) : list JobStepOut :=
  List.map (_step_out (roles_grant (role_names u) ADMIN_SETTINGS) (job_id j)) (sort_steps (steps j)).

Record JobDetailOut := MkDetail {
  detail_job : JobOut;
  detail_steps : list JobStepOut;
  request_payload : option json;
  legacy_request : bool;
}.

Definition get_job_detail `{Pydantic} (u : User) (users : list User) (payload : option json) (j : Job) : JobDetailOut :=
  let '(shown, legacy) := _request_view payload in
  MkDetail (job_out (_username_map users [j]) j) (get_job_steps u j) shown legacy.

Definition get_job_request `{Pydantic} (payload : option json) : res ApiFailure (option json) :=
  match payload with
  | None => not_found "No stored request for this job."
  | Some p => Ok (fst (_request_view (Some p)))
  end.

(** ** Lists *)

Definition ALL_JOB_STATUSES : list JobStatus :=
  [QUEUED; RUNNING; COMPLETED; PARTIALLY_COMPLETED; FAILED; CANCELLED; INTERRUPTED].

(** [JobStatusEnum(job_status.upper())], when a status is given. *)
Definition parse_status (s : option string) : res ApiFailure (option JobStatus) :=
  match s with
  | None | Some "" => Ok None
  | Some t =>
      match find_first (fun x => String.eqb (job_status_value x) (upper t)) ALL_JOB_STATUSES with
      | Some x => Ok (Some x)
      | None => not_found ("Unknown job status " ++ SQ ++ t ++ SQ ++ ".")
      end
  end.

Section Lists.
(** [column ILIKE pattern] *)
Context (ilike : string -> string -> bool).

Definition matches_filter (status : option JobStatus) (vm_name_contains : option string) (j : Job) : bool :=
  match status with Some s => bool_decide (job_status j = s) | None => true end
  && match vm_name_contains with
     | None | Some "" => true
     | Some t => ilike (vm_name j) ("%" ++ t ++ "%")
     end.

(** [ORDER BY queued_at DESC]; rows of one time as the table has them. *)
Fixpoint insert_newest (x : Job) (l : list Job) : list Job :=
  match l with
  | [] => [x]
  | y :: r => if queued_at y <=? queued_at x then x :: l else y :: insert_newest x r
  end.
Definition newest_first (l : list Job) : list Job := fold_right insert_newest [] l.

(** The rows of a page, and the number of rows of all pages. *)
Definition list_jobs (page page_size : Z) (status : option JobStatus) (vm_name_contains : option string) (rows : list Job)
    : list Job * Z :=
  let found := List.filter (matches_filter status vm_name_contains) rows in
  (firstn (Z.to_nat page_size) (skipn (Z.to_nat ((page - 1) * page_size)) (newest_first found)),
   Z.of_nat (List.length found)).

Record JobListResponse := MkJobList { jl_items : list JobOut; jl_total : Z; jl_page : Z; jl_page_size : Z }.

(** The endpoint; [page] and [page_size] are in their bounds. *)
Definition list_jobs_endpoint (page page_size : Z) (vm_name_ job_status_ : option string) (users : list User) (rows : list Job)
    : res ApiFailure JobListResponse :=
  let? status := parse_status job_status_ in
  let '(jobs, total) := list_jobs page page_size status vm_name_ rows in
  Ok (MkJobList (List.map (job_out (_username_map users jobs)) jobs) total page page_size).

End Lists.

(** ** Console screenshots *)

(** The text up to the first line feed. *)
Fixpoint first_line (l : list ascii) : list ascii :=
  match l with
  | c :: r => if Ascii.eqb c (char_of 10) then [] else c :: first_line r
  | [] => []
  end.

Fixpoint take_while (p : ascii -> bool) (l : list ascii) : list ascii :=
  match l with
  | c :: r => if p c then c :: take_while p r else []
  | [] => []
  end.

(** [_SCREENSHOT_PATH.fullmatch(path)]: a datastore in brackets without slashes,
    a blank, and a path that ends in [.png]; a dot of the pattern does not match
    a line feed, so the first line is searched for [..]. *)
Definition _SCREENSHOT_PATH (path : string) : bool :=
  match chars path with
  | o :: l =>
      let ds := take_while (fun c => negb (Ascii.eqb c "]")) l in
      let behind := skipn (List.length ds) l in
      Ascii.eqb o "["
      && negb (bool_decide (ds = [])) && forallb (fun c => negb (bool_decide (c ∈ ["/"%char; char_of 92]))) ds
      && match behind with
         | b :: s :: rest =>
             Ascii.eqb b "]" && Ascii.eqb s " "
             && negb (contains (text (first_line rest)) "..")
             && endswith (text rest) ".png" && (5 <=? len (text rest))
             && forallb (fun c => negb (Ascii.eqb c "000")) rest
         | _ => false
         end
  | [] => false
  end.

Definition _MAX_SCREENSHOT_BYTES : Z := 16 * 1024 * 1024.

Section Screenshot.
(** The UUID reader, and [str] of a JSON value. *)
Context (parse_uuid : string -> option string) (str_json : json -> string).

Definition str_opt_json (v : option json) : string := match v with Some v => str_json v | None => "None" end.

(** [str(a or b or "")] of a value of the document and a text of the row. *)
Definition first_true (v : option json) (t : option string) : string :=
  match v with
  | Some v => if truthy v then str_json v else Schemas.or_else t ""
  | None => Schemas.or_else t ""
  end.

(** Where the picture is: vCenter, datacenter and path. *)
Definition screenshot_source (j : Job) (payload : option json) (stage : string) : res ApiFailure (string * string * string) :=
  let missing := not_found "No console screenshot was captured for this stage." in
  match find_first (fun s => String.eqb (stage_key s) stage) (steps j) with
  | None => missing
  | Some step =>
      match artifacts step !! "console_screenshot" with
      | Some (JStr path) =>
          if _SCREENSHOT_PATH path then
            let compute := match payload with
                           | Some (JObj l) => default (JObj []) (assoc "compute" l)
                           | _ => JObj []
                           end in
            match compute with
            | JObj c =>
                match parse_uuid (str_opt_json (assoc "vcenter_id" c)) with
                | None => not_found "The vCenter that holds this screenshot is no longer registered."
                | Some vc => Ok (vc, first_true (assoc "datacenter_id" c) (datacenter_id j), path)
                end
            | _ => Err (Crash "AttributeError")
            end
          else missing
      | _ => missing
      end
  end.

Context {X : Type} `{World X}.

Definition get_console_screenshot (j : Job) (payload : option json) (stage : string) : Op X (res ApiFailure (list ascii)) :=
  match screenshot_source j payload stage with
  | Err e => oret (Err e)
  | Ok (vc, dc, path) =>
      let! connection := vcenter_connection vc in
      match connection with
      | Some c =>
          if conn_enabled c then
            let! content := read_datastore_file (target_of c) dc path _MAX_SCREENSHOT_BYTES in oret (Ok content)
          else oret (not_found "The vCenter that holds this screenshot is no longer registered.")
      | None => oret (not_found "The vCenter that holds this screenshot is no longer registered.")
      end
  end.

End Screenshot.

(** ** Stream tickets *)

Section Tickets.
Context (sha256_hexdigest : string -> string) (parse_uuid : string -> option string).
Context {R : Type} `{TicketStore R}.

Definition issue_event_stream_ticket (ticket : string) (u : User) (job : string) (now : Z) (r : R) : string * Z * R :=
  let '(t, r1) := issue sha256_hexdigest ticket (uid u) job now r in (t, TICKET_TTL_SECONDS, r1).

Definition _user_from_ticket (db : AuthDb) (job : string) (ticket : option string) (now : Z) (r : R)
    : res AuthFailure User * R :=
  let '(user_id, r1) := consume sha256_hexdigest parse_uuid (default "" ticket) job now r in
  (match match user_id with Some id => get_active_user id db | None => None end with
   | None => Err (NotAuthenticated "Invalid or expired stream ticket.")
   | Some u =>
       if roles_grant (role_names u) JOBS_READ then Ok u
       else Err (NotAuthorized ("Your roles do not grant " ++ SQ ++ "jobs.read" ++ SQ ++ "."))
   end, r1).

End Tickets.

(** ** What a viewer learns *)

(** What is left of a row for a viewer without [admin.settings]: no technical
    error text, and none of the columns of the queue. *)
Definition public_step (s : Step) : Step := s <| error_technical := None |>.
Definition public_job (j : Job) : Job :=
  j <| error_detail := None |> <| idempotency_key := None |> <| request_fingerprint := None |> <| reserved_ipv4 := None |>
    <| worker_id := None |> <| heartbeat_at := None |> <| updated_at := 0 |> <| steps := List.map public_step (steps j) |>.

Lemma insert_step_map x l : List.map public_step (insert_step x l) = insert_step (public_step x) (List.map public_step l).
Proof. induction l as [|y l IH]; [done|]. cbn. destruct (sequence x <=? sequence y); cbn; [done|by rewrite IH]. Qed.

Lemma sort_steps_map l : List.map public_step (sort_steps l) = sort_steps (List.map public_step l).
Proof. induction l as [|x l IH]; [done|]. unfold sort_steps in *. cbn. by rewrite insert_step_map, IH. Qed.

Lemma steps_public u j :
  roles_grant (role_names u) ADMIN_SETTINGS = false -> get_job_steps u j = get_job_steps u (public_job j).
Proof.
  intros G. unfold get_job_steps. rewrite G. change (job_id (public_job j)) with (job_id j).
  change (steps (public_job j)) with (List.map public_step (steps j)). rewrite <- sort_steps_map, List.map_map. done.
Qed.

(** [get_job, get_job_steps]: technical error details reach administrators
    only.  Two jobs that differ in technical texts, or in what the queue keeps
    with a row (owner, heartbeat, key, fingerprint, reservation), look the same
    to every user whose roles do not grant [admin.settings]. *)
Theorem technical_details_hidden `{Pydantic} u users payload j j' :
  roles_grant (role_names u) ADMIN_SETTINGS = false -> public_job j = public_job j' ->
  get_job_detail u users payload j = get_job_detail u users payload j' /\ get_job_steps u j = get_job_steps u j'.
Proof.
  intros G E. assert (S : get_job_steps u j = get_job_steps u j') by (rewrite (steps_public u j), (steps_public u j'), E; done).
  split; [|exact S]. unfold get_job_detail. rewrite S. destruct (_request_view payload) as [shown legacy]. f_equal.
  assert (R : requested_by_user_id j = requested_by_user_id j') by exact (f_equal requested_by_user_id E).
  assert (M : _username_map users [j] = _username_map users [j']) by (unfold _username_map; cbn; by rewrite R).
  rewrite M. change (job_out ?x j) with (job_out x (public_job j)). by rewrite E.
Qed.

(** ** Pages *)

Section Pages.
Context (ilike : string -> string -> bool).

Lemma insert_newest_perm x l : insert_newest x l ≡ₚ x :: l.
Proof. induction l as [|y l IH]; [done|]. cbn. destruct (_ <=? _); [done|]. by rewrite IH, Permutation_swap. Qed.

Lemma newest_first_perm l : newest_first l ≡ₚ l.
Proof. induction l as [|x l IH]; [done|]. unfold newest_first in *. cbn. by rewrite insert_newest_perm, IH. Qed.

(** The pages of a list, one behind the other, are the jobs that match, each
    once; the total counts them. *)
Lemma pages_cover size status needle rows pages :
  0 < size -> snd (list_jobs ilike 1 size status needle rows) <= Z.of_nat pages * size ->
  List.concat (List.map (fun p => fst (list_jobs ilike (Z.of_nat p + 1) size status needle rows)) (seq 0 pages))
  ≡ₚ List.filter (matches_filter ilike status needle) rows.
Proof.
  intros S T. cbn in T. etransitivity; [|apply newest_first_perm].
  erewrite List.map_ext; [rewrite (pages_concat (Z.to_nat size))|].
  - rewrite List.firstn_all2; [done|]. rewrite (Permutation_length (newest_first_perm _)). lia.
  - intros p. cbn. do 2 f_equal. rewrite Z.add_simpl_r. lia.
Qed.

End Pages.

(** A requested status is found under its own name. *)
Lemma parse_status_value s : parse_status (Some (job_status_value s)) = Ok (Some s).
Proof. by destruct s. Qed.

(** ** Screenshot paths *)

Lemma first_line_app l m : first_line (l ++ m) = (l ++ m)%list -> first_line m = m.
Proof.
  induction l as [|c l IH]; [done|]. cbn. destruct (Ascii.eqb c (char_of 10)); [done|]. intros [= E]. by apply IH.
Qed.

Lemma take_while_split p l : (take_while p l ++ skipn (List.length (take_while p l)) l)%list = l.
Proof. induction l as [|c l IH]; [done|]. cbn. destruct (p c); cbn; [by rewrite IH|done]. Qed.

(** A path of one line that is accepted stays below its folder: it names a
    datastore, and no [..] occurs behind it. *)
Lemma screenshot_path_inside path :
  _SCREENSHOT_PATH path = true -> first_line (chars path) = chars path ->
  exists ds rest, path = "[" ++ ds ++ "] " ++ rest /\ contains rest ".." = false /\ endswith rest ".png" = true.
Proof.
  unfold _SCREENSHOT_PATH. destruct (chars path) as [|o l] eqn:P; [done|]. intros E F.
  pose proof (take_while_split (fun c => negb (Ascii.eqb c "]")) l) as D.
  set (ds := take_while _ l) in *. destruct (skipn _ l) as [|b [|s rest]]; [by rewrite !andb_false_r in E..|].
  rewrite !andb_true_iff in E. destruct E as [[[O _] _] [[[[[B S] N] G] _] _]]. exists (text ds), (text rest).
  apply Ascii.eqb_eq in O, B, S. subst o b s. apply negb_true_iff in N.
  assert (R : first_line rest = rest).
  { apply (first_line_app ("["%char :: ds ++ ["]"%char; " "%char])%list). by rewrite <- D, <- app_comm_cons, <- app_assoc in *. }
  rewrite R in N. split; [|done]. rewrite <- (text_chars path), P, <- D.
  change ("[" ++ text ds ++ "] " ++ text rest) with (String "["%char (text ds ++ String "]"%char (String " "%char (text rest)))).
  change (text ("["%char :: ?x)) with (String "["%char (text x)). f_equal. by rewrite text_app.
Qed.

(** The search stops at a line feed. *)
Example screenshot_path_line_feed :
  _SCREENSHOT_PATH ("[ds] a" ++ NL ++ "/../../other/x.png") = true.
Proof. reflexivity. Qed.

(** ** Concrete viewers *)

Definition VIEWER : User := MkUser "u-1" "vera" None true ["viewer"] None.

Definition FAILED_STEP : Step :=
  MkStep "power_on" "Power on" 1 STEP_FAILED 1 true None None None (Some "It failed.") (Some "Traceback: secret path") ∅.

Definition SHOWN_JOB (technical : option string) (owner : option string) : Job :=
  MkJob "job-1" FAILED "web-01" None None (Some "u-1") None 10 INFRA_PENDING OS_UNKNOWN TOOLS_UNKNOWN GUEST_PENDING
    (Some "It failed.") technical false 0 None None None None None None owner None 0 [FAILED_STEP <| error_technical := technical |>].

(** Two failures that differ in their technical text and owner, seen by a viewer. *)
Lemma technical_details_hidden_witness :
  get_job_steps VIEWER (SHOWN_JOB (Some "Traceback: secret path") (Some "worker-1")) = get_job_steps VIEWER (SHOWN_JOB None None).
Proof.
  apply (@technical_details_hidden strict_pydantic VIEWER [VIEWER] None
           (SHOWN_JOB (Some "Traceback: secret path") (Some "worker-1")) (SHOWN_JOB None None)); reflexivity.
Defined.
