(* ===== verification/Monitoring.v ===== *)
(** * Dashboard and health

    [app/api/v1/dashboard.py], [app/api/v1/health.py] and the choice of the
    adapters ([factory.py] of vmware and guest).  Durations are whole numbers;
    rates stay fractions, the rounding to one decimal is left out. *)

From Stdlib Require Import ZArith Lia Ascii String List Bool.
From stdpp Require Import base tactics list strings.
From S2P Require Import Prelude PyStr Schemas Jobs World Auth JobApi Listing Bootstrap VCenterAdmin.

Local Open Scope string_scope.
Local Open Scope Z_scope.

Record HealthComponent := MkHealth { component : string; health : string; health_detail : string }.

(** ** Dashboard *)

Definition finished_since (start : Z) (j : Job) : bool :=
  match finished_at j with Some t => start <=? t | None => false end.

Definition completed_since (start : Z) (j : Job) : bool :=
  bool_decide (job_status j ∈ [COMPLETED; PARTIALLY_COMPLETED]) && finished_since start j.
Definition failed_since (start : Z) (j : Job) : bool := bool_decide (job_status j = FAILED) && finished_since start j.
Definition active_job (j : Job) : bool := bool_decide (job_status j ∈ [QUEUED; RUNNING]).

(** [avg(duration_seconds)] of completed jobs: sum and number, NULLs aside. *)
Definition average_duration (start : Z) (jobs : list Job) : option (Z * Z) :=
  match omap duration (List.filter (fun j => bool_decide (job_status j = COMPLETED) && finished_since start j) jobs) with
  | [] => None
  | l => let s := fold_right Z.add 0 l in if s =? 0 then None else Some (s, Z.of_nat (List.length l))
  end.

Record DashboardStats := MkStats {
  vms_provisioned_this_month : Z;
  success_rate : option (Z * Z);
  average_duration_seconds : option (Z * Z);
  failed_jobs : Z;
  active_jobs : Z;
}.

(** [month_start] is the first instant of the month of the request. *)
Definition stats (month_start : Z) (jobs : list Job) : DashboardStats :=
  let completed := count (completed_since month_start) jobs in
  let failed := count (failed_since month_start) jobs in
  MkStats completed (if completed + failed =? 0 then None else Some (completed * 100, completed + failed))
    (average_duration month_start jobs) failed (count active_job jobs).

Definition vcenter_health (r : VCenterRow) : HealthComponent :=
  let state := display_state r in
  MkHealth ("vCenter " ++ row_name r)
    (if String.eqb state "connected" then "healthy" else if String.eqb state "error" then "unavailable" else "degraded")
    (conn_host (connection r)
     ++ match last_connection_error r with None | Some "" => "" | Some e => " — " ++ e end).

Definition dashboard_health (rows : list VCenterRow) (provider : string) (secrets_ok : bool) : list HealthComponent :=
  (List.map vcenter_health (VCenterAdmin.by_name rows)
   ++ [MkHealth ("Secrets provider (" ++ provider ++ ")")%string (if secrets_ok then "healthy" else "unavailable") "";
       MkHealth "Application repository" "healthy" "Catalog reachable";
       MkHealth "Certificate repository" "healthy" "Catalog reachable"])%list.

Definition dashboard (month_start : Z) (jobs : list Job) (users : list User) (rows : list VCenterRow) (provider : string)
    (secrets_ok : bool) : DashboardStats * list JobOut * list HealthComponent :=
  let recent := firstn 8 (newest_first jobs) in
  (stats month_start jobs, List.map (job_out (_username_map users recent)) recent, dashboard_health rows provider secrets_ok).

(** A job counts once: active, failed, completed or none of them. *)
Lemma job_counts_once start j :
  (if active_job j then 1 else 0) + (if failed_since start j then 1 else 0) + (if completed_since start j then 1 else 0) <= 1.
Proof. unfold active_job, failed_since, completed_since. destruct (job_status j), (finished_since start j); vm_compute; discriminate. Qed.

(** The rate is a percentage. *)
Lemma success_rate_bounds start jobs n d : success_rate (stats start jobs) = Some (n, d) -> 0 < d /\ 0 <= n <= 100 * d.
Proof.
  unfold stats. cbn. pose proof (count_bounds (completed_since start) jobs). pose proof (count_bounds (failed_since start) jobs).
  destruct (Z.eqb_spec (count (completed_since start) jobs + count (failed_since start) jobs) 0); [done|]. intros [= <- <-]. lia.
Qed.

(** ** Readiness *)

(** The answers of the database and of Redis: an exception leaves its text. *)
Definition store_check (name : string) (answer : option string) : HealthComponent :=
  match answer with
  | None => MkHealth name "healthy" ""
  | Some e => MkHealth name "unavailable" (take_str 200 e)
  end.

Definition readiness (database redis : option string) (provider : string) (secrets_ok : bool) : string * list HealthComponent :=
  let checks := [store_check "database" database; store_check "redis" redis;
                 MkHealth ("secrets (" ++ provider ++ ")") (if secrets_ok then "healthy" else "degraded") ""] in
  (if forallb (fun c => negb (String.eqb (health c) "unavailable")) checks then "ready" else "not-ready", checks).

(** Ready means that the database and Redis answered. *)
Lemma ready_spec database redis provider secrets_ok :
  fst (readiness database redis provider secrets_ok) = "ready" <-> database = None /\ redis = None.
Proof. destruct database, redis, secrets_ok; cbn; intuition discriminate. Qed.

(** ** Adapters *)

(** Real or simulated infrastructure; an explicit mode overrides the setting. *)
Definition selected_mode (mode : option InfrastructureMode) (s : Settings) : InfrastructureMode :=
  match mode with Some m => m | None => infrastructure_mode s end.

Definition build_adapter {A} (real mock : A) (mode : option InfrastructureMode) (s : Settings) : A :=
  match selected_mode mode s with REAL => real | MOCK => mock end.

(** In production no component is built over the simulated infrastructure. *)
Lemma production_is_real {A} (real mock : A) s :
  _validate_production_safety s = Ok s -> is_production s = true -> build_adapter real mock None s = real.
Proof.
  intros V P. destruct (production_keys_long s V P) as (_ & _ & M & _). unfold build_adapter, selected_mode. by rewrite M.
Qed.
