(* ===== verification/LogLines.v ===== *)
(** * Log lines

    [app/core/logging.py]: the correlation identifiers of an execution context,
    and the two formatters.  The texts of times, of exceptions and of the
    message with its arguments are given; redaction is in AuditTrail. *)

From Stdlib Require Import ZArith Lia Ascii String List Bool.
From stdpp Require Import base tactics list strings pretty.
From S2P Require Import Prelude PyStr Json AuditTrail.

Local Open Scope string_scope.
Local Open Scope Z_scope.

(** ** What JSON texts look like

    [json.dumps] writes printable ASCII only, so a text it wrote stays on one
    line. *)

Definition printable (c : ascii) : bool := in_range 32 126 c.
Definition printed (s : string) : bool := forallb printable (chars s).

Lemma printed_app s t : printed (s ++ t) = printed s && printed t.
Proof. unfold printed. by rewrite chars_app, forallb_app. Qed.

Lemma pretty_char_printable n : printable (pretty_N_char n) = true.
Proof. unfold pretty_N_char. by repeat case_match. Qed.

Lemma pretty_go_printed x s : printed s = true -> printed (pretty_N_go x s) = true.
Proof.
  revert s. induction (N.lt_wf_0 x) as [x _ IH]. intros s P. destruct (N.eq_dec x 0%N) as [->|]; [by rewrite pretty_N_go_0|].
  rewrite pretty_N_go_step by lia. apply IH; [by apply N.div_lt; lia|].
  change (printable (pretty_N_char (x mod 10)%N) && printed s = true). by rewrite pretty_char_printable, P.
Qed.

Lemma pretty_N_printed (n : N) : printed (pretty n) = true.
Proof. unfold pretty, pretty_N. case_decide; [done|]. by apply pretty_go_printed. Qed.

Lemma str_int_printed n : printed (str_int n) = true.
Proof.
  unfold str_int, pretty, pretty_Z. destruct n; [done|apply pretty_N_printed|].
  change (printed ("-" ++ pretty (N.pos p)) = true). by rewrite printed_app, pretty_N_printed.
Qed.

Lemma hex_char_printable n : 0 <= n < 16 -> printable (hex_char n) = true.
Proof.
  intros H. assert (A : forallb (fun k => printable (hex_char (Z.of_nat k))) (seq 0 16) = true) by reflexivity.
  rewrite forallb_forall in A. rewrite <- (Z2Nat.id n) by lia. apply A. apply in_seq. lia.
Qed.

Lemma unicode_printable n : forallb printable (unicode_escape n) = true.
Proof.
  unfold unicode_escape, hex4. cbn [List.app forallb]. rewrite !hex_char_printable by (apply Z.mod_pos_bound; lia). done.
Qed.

Lemma point_printable n : forallb printable (escape_point n) = true.
Proof.
  unfold escape_point. destruct (n <? 65536); [apply unicode_printable|]. cbv zeta. by rewrite forallb_app, !unicode_printable.
Qed.

Lemma ascii_printable c : forallb printable (escape_ascii c) = true.
Proof.
  unfold escape_ascii. repeat (match goal with |- context [if ?b then _ else _] => destruct b eqn:? end; [try done|]).
  - cbn. match goal with E : Ascii.eqb c _ = true |- _ => apply Ascii.eqb_eq in E; by subst end.
  - cbn. match goal with E : Ascii.eqb c _ = true |- _ => apply Ascii.eqb_eq in E; by subst end.
  - cbn. unfold printable. by rewrite Heqb6.
  - apply unicode_printable.
Qed.

Lemma escape_printable need acc l : forallb printable (escape_json need acc l) = true.
Proof.
  revert need acc. induction l as [|c l IH]; intros need acc; [done|]. cbn [escape_json].
  destruct need as [|[|n]]; [|by rewrite forallb_app, point_printable, IH|apply IH].
  destruct (ord c <? 128); [by rewrite forallb_app, ascii_printable, IH|]. destruct (ord c <? 224); [apply IH|].
  destruct (ord c <? 240); apply IH.
Qed.

Lemma dump_string_printed s : printed (dump_string s) = true.
Proof.
  unfold dump_string. rewrite !printed_app. unfold printed at 2. rewrite chars_text, escape_printable. done.
Qed.

Lemma join_printed sep l : printed sep = true -> forallb printed l = true -> printed (join sep l) = true.
Proof.
  intros P. induction l as [|x l IH]; [done|]. intros [Q R]%andb_true_iff. destruct l as [|y r]; [done|].
  change (printed (x ++ sep ++ join sep (y :: r)) = true). by rewrite !printed_app, Q, P, IH.
Qed.

Lemma json_dumps_printed v : printed (json_dumps v) = true.
Proof.
  induction v as [|[]|n|s|l IH|l IH] using json_ind'; cbn [json_dumps]; [done|done|done|apply str_int_printed|apply dump_string_printed| |].
  - rewrite !printed_app, join_printed; [done|done|]. rewrite forallb_forall. intros x Hx. apply List.in_map_iff in Hx as (y & <- & Hy).
    rewrite List.Forall_forall in IH. by apply IH.
  - rewrite !printed_app, join_printed; [done|done|]. rewrite forallb_forall. intros x Hx. apply List.in_map_iff in Hx as (y & <- & Hy).
    rewrite !printed_app, dump_string_printed. rewrite List.Forall_forall in IH. by rewrite (IH y Hy).
Qed.

(** A printed text has no line feed. *)
Lemma printed_line s : printed s = true -> char_of 10 ∉ chars s.
Proof.
  unfold printed. rewrite forallb_forall. intros P I. apply list_elem_of_In in I. by apply P in I.
Qed.

(** ** Contexts and records *)

(** The context variables. *)
Record LogContext := MkLogContext { request_id_var : option string; job_id_var : option string; user_id_var : option string }.

Definition bind_logging_context (request_id job_id user_id : option string) (c : LogContext) : LogContext :=
  let bound new old := match new with Some v => Some v | None => old end in
  MkLogContext (bound request_id (request_id_var c)) (bound job_id (job_id_var c)) (bound user_id (user_id_var c)).

Record LogRecord := MkLogRecord {
  created : string -> string;
  levelname : string;
  logger_name : string;
  log_text : string;
  exc_text : option string;
  attached : LogContext;
}.

(** [ContextFilter.filter] *)
Definition filter (c : LogContext) (r : LogRecord) : LogRecord :=
  MkLogRecord (created r) (levelname r) (logger_name r) (log_text r) (exc_text r) c.

(** The identifiers that are set, with their names. *)
Definition context_fields (c : LogContext) : list (string * string) :=
  List.filter (fun e => negb (String.eqb (snd e) ""))
    (omap (fun '(k, v) => option_map (fun s => (k, s)) v)
       [("request_id", request_id_var c); ("job_id", job_id_var c); ("user_id", user_id_var c)]).

Definition json_format (r : LogRecord) : string :=
  json_dumps (JObj
    ([("timestamp", JStr (created r "%Y-%m-%dT%H:%M:%S%z")); ("level", JStr (levelname r));
      ("logger", JStr (logger_name r)); ("message", JStr (log_text r))]
     ++ List.map (fun e => (fst e, JStr (snd e))) (context_fields (attached r))
     ++ match exc_text r with Some t => [("exception", JStr t)] | None => [] end)%list).

(** [f"{s:<7}"] *)
Definition pad7 (s : string) : string := s ++ text (List.repeat " "%char (7 - String.length s)).

Definition console_format (r : LogRecord) : string :=
  let ctx := context_fields (attached r) in
  let prefix := match ctx with
                | [] => ""
                | _ => " [" ++ join " " (List.map (fun e => fst e ++ "=" ++ snd e) ctx) ++ "]"
                end in
  created r "%H:%M:%S" ++ " " ++ pad7 (levelname r) ++ " " ++ logger_name r ++ ": " ++ log_text r ++ prefix
  ++ match exc_text r with Some t => NL ++ t | None => "" end.

(** The formatter the configuration selects. *)
Definition format_of (log_format : string) : LogRecord -> string :=
  if String.eqb (lower log_format) "json" then json_format else console_format.

(** What the stream of the handler receives: a line per record. *)
Definition emitted (log_format : string) (records : list LogRecord) : string :=
  join "" (List.map (fun r => format_of log_format r ++ NL) records).

(** ** One line per record *)

Lemma join_nothing l : join "" l = fold_right append "" l.
Proof.
  induction l as [|x l IH]; [done|]. destruct l as [|y l].
  - cbn. by rewrite <- (text_chars (x ++ "")), chars_app, app_nil_r, text_chars.
  - change (join "" (x :: y :: l)) with (x ++ join "" (y :: l)). by rewrite IH.
Qed.

(** The log is a sequence of one line per record, whatever messages, names and
    identifiers (the request identifier is the client's) hold: a reader that
    splits the stream at line feeds finds each record's line and nothing else. *)
Lemma json_log_lines log_format records : lower log_format = "json" ->
  split_on (char_of 10) (emitted log_format records) = (List.map json_format records ++ [""])%list.
Proof.
  intros J. unfold emitted, format_of. rewrite J. change (String.eqb "json" "json") with true. cbv iota. rewrite join_nothing.
  unfold split_on. induction records as [|r records IH]; [done|]. cbn [List.map fold_right List.app].
  rewrite !chars_app, <- app_assoc. change (chars NL ++ ?t)%list with (char_of 10 :: t)%list. rewrite split_chars_sep.
  - cbn [List.map]. by rewrite IH, text_chars.
  - intros I. apply list_elem_of_In in I. by apply (printed_line (json_format r)) in I; [|apply json_dumps_printed].
Qed.

(** The console format is for development: a line feed in a message shows as a
    line of its own. *)
Lemma console_log_splits : exists r, List.length (split_on (char_of 10) (console_format r)) = 2%nat.
Proof. by exists (MkLogRecord (fun _ => "12:00:00") "INFO" "app" ("a" ++ NL ++ "b") None (MkLogContext None None None)). Qed.

(** An identifier once bound stays until another one is. *)
Lemma bound_stays c : bind_logging_context None None None c = c.
Proof. by destruct c. Qed.
