(* ===== verification/EventStream.v ===== *)
(** * The event stream

    The live event stream of a job: [stream_job_events] and [_snapshot_event]
    of [app/api/v1/provisioning.py], and the publisher of
    [app/workers/events.py].  Redis and the committed rows are the class
    [EventBackend]; [EventBackendLaws] states what the stream relies on of
    publish/subscribe, which is at most once, and of reading a row; the instance at the end interleaves
    the stream with the commits and publications of a worker.

    A stream is run to its end; the value is the list of chunks it yields. *)

From Stdlib Require Import ZArith Lia Ascii String List Bool Sorted.
From stdpp Require Import base tactics list strings gmap.
From S2P Require Import Prelude PyStr Json LogLines Errors Jobs Repository Effects StreamTickets Auth JobApi.

Local Open Scope string_scope.
Local Open Scope Z_scope.

(** ** Messages *)

Definition job_channel (job : string) : string := "infraops:job-events:" ++ job.

Definition event_json (e : Event) : json :=
  JObj [("job_id", JStr (event_job_id e));
        ("stage", match event_stage e with Some s => JStr s | None => JNull end);
        ("status", JStr (event_status e)); ("progress", JNum (event_progress e)); ("message", JStr (event_message e))].

(** The text [publish] sends. *)
Definition event_data (e : Event) : string := json_dumps (event_json e).

(** A chunk of the stream: [event: name], [data: text] and a blank line. *)
Definition sse (name data : string) : string := "event: " ++ name ++ NL ++ "data: " ++ data ++ NL ++ NL.
Definition KEEP_ALIVE : string := ": keep-alive" ++ NL ++ NL.

(** ** The backend *)

Class EventBackend (X : Type) := {
  (** [publisher.subscribe], and the unsubscription at the end *)
  subscribe : X -> X;
  unsubscribe : X -> X;
  (** the committed row of the job, with the names of the users *)
  read_row : X -> option (Job * list (string * string)) * X;
  (** [get_message(ignore_subscribe_messages=True, timeout=15.0)] *)
  get_message : X -> option Event * X;
  is_disconnected : X -> bool * X;
  loop_clock : X -> Z;
}.

Section Stream.
Context {X : Type} `{EventBackend X}.

Context (time_text : Z -> string) (seconds : Z -> json).

(** [_snapshot_event] *)
Definition _snapshot_event (include_technical : bool) (x : X) : option string * X :=
  let '(row, x1) := read_row x in
  (match row with Some r => Some (sse "snapshot" (json_dumps (snapshot_json time_text seconds include_technical r))) | None => None end, x1).

(** The loop: chunks, whether it ended within [fuel] turns, and the state. *)
Fixpoint event_loop (fuel : nat) (deadline : Z) (x : X) : list string * bool * X :=
  match fuel with
  | O => ([], false, x)
  | S fuel' =>
      if loop_clock x <? deadline then
        let '(gone, x1) := is_disconnected x in
        if gone then ([], true, x1)
        else
          let '(message, x2) := get_message x1 in
          let '(chunks, ended, x3) := event_loop fuel' deadline x2 in
          (match message with
           | None => KEEP_ALIVE
           | Some e => sse "job-update" (event_data e)
           end :: chunks, ended, x3)
      else ([], true, x)
  end.

(** [max(60, minutes * 60)] seconds *)
Definition max_lifetime (access_token_expire_minutes : Z) : Z := Z.max 60 (access_token_expire_minutes * 60) * SECOND.

(** The generator [event_stream], read to its end. *)
Definition event_stream (fuel : nat) (minutes : Z) (include_technical : bool) (x : X) : list string * bool * X :=
  let x1 := subscribe x in
  let deadline := loop_clock x1 + max_lifetime minutes in
  let '(snapshot, x2) := _snapshot_event include_technical x1 in
  match snapshot with
  | None => ([], true, unsubscribe x2)
  | Some s =>
      let '(chunks, ended, x3) := event_loop fuel deadline x2 in
      (s :: chunks ++ (if ended then [sse "reauthenticate" "{}"] else []), ended, unsubscribe x3)
  end%list.

(** ** The endpoint *)

Section Endpoint.
Context (sha256_hexdigest : string -> string) (parse_uuid : string -> option string).
Context {R : Type} `{TicketStore R}.

Inductive StreamAnswer :=
| StreamRefused (f : AuthFailure)
| StreamMissing (e : AppError)
| Streamed (chunks : list string) (ended : bool).

(** [stream_job_events]: the ticket is spent first; the user behind it decides
    what the snapshot shows. *)
Definition stream_job_events (fuel : nat) (minutes : Z) (db : AuthDb) (known : bool) (job : string) (ticket : option string)
    (now : Z) (tickets : R) (x : X) : StreamAnswer * R * X :=
  let '(user, r1) := _user_from_ticket sha256_hexdigest parse_uuid db job ticket now tickets in
  match user with
  | Err f => (StreamRefused f, r1, x)
  | Ok u =>
      if negb known then (StreamMissing (MkAppError NotFoundError "Provisioning job not found." []), r1, x)
      else
        let '(chunks, ended, x1) := event_stream fuel minutes (roles_grant (role_names u) ADMIN_SETTINGS) x in
        (Streamed chunks ended, r1, x1)
  end.

(** Nothing of a job is streamed, and nothing is subscribed to, without a ticket
    of an active user who may read jobs; technical texts need [admin.settings]. *)
Lemma streamed_to_readers fuel minutes db known job ticket now tickets x chunks ended r1 x1 :
  stream_job_events fuel minutes db known job ticket now tickets x = (Streamed chunks ended, r1, x1) ->
  exists u id r2, consume sha256_hexdigest parse_uuid (default "" ticket) job now tickets = (Some id, r2) /\ r1 = r2
    /\ get_active_user id db = Some u /\ roles_grant (role_names u) JOBS_READ = true /\ known = true
    /\ event_stream fuel minutes (roles_grant (role_names u) ADMIN_SETTINGS) x = (chunks, ended, x1).
Proof.
  unfold stream_job_events, _user_from_ticket. destruct (consume _ _ _ job now tickets) as [[id|] r2]; [|done].
  destruct (get_active_user id db) as [u|] eqn:A; [|done]. destruct (roles_grant (role_names u) JOBS_READ) eqn:G; [|done].
  destruct known; [|done]. cbn [negb]. destruct (event_stream _ _ _ x) as [[c e] y] eqn:E. intros [= <- <- <- <-].
  exists u, id, r2. by rewrite E.
Qed.

Lemma refused_stream_untouched fuel minutes db known job ticket now tickets x a r1 x1 :
  stream_job_events fuel minutes db known job ticket now tickets x = (a, r1, x1) ->
  match a with Streamed _ _ => True | _ => x1 = x end.
Proof.
  unfold stream_job_events. destruct (_user_from_ticket _ _ _ _ _ _ _) as [[u|f] r2]; [|by intros [= <- _ <-]].
  destruct known; cbn [negb]; [|by intros [= <- _ <-]]. destruct (event_stream _ _ _ x) as [[c e] y]. by intros [= <- _ _].
Qed.

End Endpoint.

End Stream.

(** ** What the stream relies on *)

(** The rows committed so far, the events published so far, each with the number
    of commits before its publication, how many of them are behind the
    subscriber, and which of them Redis never hands to it. *)
Class EventHistory (X : Type) := {
  committed : X -> list Job;
  sent : X -> list (Event * nat);
  cursor : X -> option nat;
  dropped : X -> nat -> Prop;
}.

Definition grows {X} `{EventHistory X} (x y : X) : Prop :=
  committed x `prefix_of` committed y /\ sent x `prefix_of` sent y /\ forall i, dropped x i -> dropped y i.

(** Publish/subscribe of Redis is at most once: an event may be lost, because
    the publisher could not send it, because Redis had not yet handled the
    [SUBSCRIBE], which the client only sends, or on a broken connection.  What
    arrives arrives in order and once. *)
Class EventBackendLaws (X : Type) `{EventBackend X, EventHistory X} : Prop := {
  sent_after_commit x : Forall (fun e => (e.2 <= List.length (committed x))%nat) (sent x);
  (** Nothing published before the [SUBSCRIBE] is sent is received; *)
  subscribe_law x :
    grows x (subscribe x) /\ exists c, cursor (subscribe x) = Some c /\ (c <= List.length (sent (subscribe x)))%nat;
  (** a message is one of the later ones, and those it overtakes are lost; *)
  get_message_law x c :
    cursor x = Some c ->
    let '(m, y) := get_message x in
    grows x y /\ match m with
                 | None => cursor y = Some c
                 | Some e => exists k n, (c <= k)%nat /\ sent y !! k = Some (e, n) /\ cursor y = Some (S k)
                                         /\ forall i, (c <= i < k)%nat -> dropped y i
                 end;
  (** a row that is read is not older than the question. *)
  read_row_law x :
    let '(row, y) := read_row x in
    grows x y /\ cursor y = cursor x
    /\ match row with
       | None => True
       | Some (j, _) => exists n, committed y !! n = Some j /\ (List.length (committed x) <= S n)%nat
       end;
  disconnected_law x : let '(_, y) := is_disconnected x in grows x y /\ cursor y = cursor x;
  unsubscribe_law x : grows x (unsubscribe x);
}.

Section NoGap.
Context {X : Type} `{EventBackendLaws X}.
Context (time_text : Z -> string) (seconds : Z -> json).

#[local] Instance grows_preorder : PreOrder (grows (X := X)).
Proof.
  split; [by intros x; split_and!|]. intros x y z (A & B & D) (A' & B' & D'). split_and!; [by etrans|by etrans|]. intros i Di. by apply D', D.
Qed.

Definition update (e : Event) : string := sse "job-update" (event_data e).
Definition is_update (chunk : string) : bool := negb (String.eqb chunk KEEP_ALIVE).

(** The chunks are the events with these numbers. *)
Definition deliver (x : X) (ks : list nat) (chunks : list string) : Prop :=
  Forall2 (fun k chunk => exists e n, sent x !! k = Some (e, n) /\ chunk = update e) ks chunks.

(** The numbers ascend within the bounds, and what is left out is lost. *)
Definition accounts_for (x : X) (start stop : nat) (ks : list nat) : Prop :=
  StronglySorted lt ks /\ Forall (fun k => (start <= k < stop)%nat) ks
  /\ forall i, (start <= i < stop)%nat -> i ∈ ks \/ dropped x i.

Lemma deliver_grows x y ks chunks : grows x y -> deliver x ks chunks -> deliver y ks chunks.
Proof.
  intros (_ & S & _) D. eapply Forall2_impl; [exact D|]. intros k chunk (e & n & L & E). exists e, n. split; [|done].
  by eapply prefix_lookup_Some.
Qed.

Lemma accounts_grows x y start stop ks : grows x y -> accounts_for x start stop ks -> accounts_for y start stop ks.
Proof. intros (_ & _ & D) (S & F & A). split_and!; [done|done|]. intros i I. destruct (A i I) as [?|?]; [by left|right; by apply D]. Qed.

Lemma accounts_cons x start k stop ks : (start <= k)%nat -> (S k <= stop)%nat -> (forall i, (start <= i < k)%nat -> dropped x i) ->
  accounts_for x (S k) stop ks -> accounts_for x start stop (k :: ks).
Proof.
  intros L M D (S & F & A). split_and!.
  - constructor; [done|]. eapply Forall_impl; [exact F|]. cbn. lia.
  - constructor; [lia|]. eapply Forall_impl; [exact F|]. cbn. lia.
  - intros i I. destruct (decide (i < k)%nat) as [B|B]; [right; apply D; lia|]. destruct (decide (i = k)) as [->|N]; [left; by left|].
    destruct (A i ltac:(lia)) as [?|?]; [left; by right|by right].
Qed.

(** The loop delivers what it receives, in order, and receives what is not lost. *)
Lemma event_loop_delivers fuel deadline (x : X) c :
  cursor x = Some c ->
  let '(chunks, ended, y) := event_loop fuel deadline x in
  grows x y /\ exists ks stop, (c <= stop)%nat /\ deliver y ks (List.filter is_update chunks) /\ accounts_for y c stop ks.
Proof.
  revert x c. induction fuel as [|fuel IH]; intros x c C; cbn [event_loop].
  { split; [done|]. exists [], c. split_and!; [done|constructor|]. split_and!; [constructor|constructor|]. lia. }
  assert (Stop : forall y, grows x y -> grows x y /\ exists ks stop, (c <= stop)%nat /\ deliver y ks [] /\ accounts_for y c stop ks).
  { intros y G. split; [done|]. exists [], c. split_and!; [done|constructor|]. split_and!; [constructor|constructor|]. lia. }
  destruct (loop_clock x <? deadline); [|by apply Stop].
  pose proof (disconnected_law x) as D. destruct (is_disconnected x) as [gone x1]. destruct D as [G1 C1].
  destruct gone; [by apply Stop|]. rewrite C in C1.
  pose proof (get_message_law x1 c C1) as M. destruct (get_message x1) as [m x2]. destruct M as [G2 M]. destruct m as [e|].
  - destruct M as (k & n & L & E & C2 & Lost). specialize (IH x2 (S k) C2). destruct (event_loop fuel deadline x2) as [[chunks ended] y].
    destruct IH as (G3 & ks & stop & Ls & Dv & A). split; [by do 2 (etrans; [eassumption|])|]. exists (k :: ks), stop. split_and!; [lia| |].
    + cbn [List.filter]. change (is_update (sse "job-update" (event_data e))) with true. constructor; [|exact Dv]. exists e, n. split; [|done].
      destruct G3 as (_ & S3 & _). by eapply prefix_lookup_Some.
    + apply accounts_cons; [done|done| |done]. intros i I. destruct G3 as (_ & _ & D3). by apply D3, Lost.
  - specialize (IH x2 c M). destruct (event_loop fuel deadline x2) as [[chunks ended] y].
    destruct IH as (G3 & ks & stop & IH). split; [by do 2 (etrans; [eassumption|])|]. exists ks, stop.
    cbn [List.filter]. change (is_update KEEP_ALIVE) with false. exact IH.
Qed.

(** The chunks of a stream that ended in the state [y]: without a row none;
    otherwise the row, which is the one some commit left, and the deliveries.
    Every event with a number below [start] was published when no later commit
    had been made, so that the row shows it; every other one up to [stop],
    where the stream was read no further, is delivered, once and in its turn,
    unless Redis lost it. *)
Definition no_gap (tech : bool) (row : option (Job * list (string * string))) (chunks : list string) (ended : bool) (y : X) : Prop :=
  match row with
  | None => chunks = []
  | Some (j, users) =>
      exists n body deliveries start stop ks,
        chunks = sse "snapshot" (json_dumps (snapshot_json time_text seconds tech (j, users))) :: body
        /\ committed y !! n = Some j
        /\ (forall i e, (i < start)%nat -> sent y !! i = Some e -> (e.2 <= S n)%nat)
        /\ List.filter is_update body = (deliveries ++ if ended then [sse "reauthenticate" "{}"] else [])%list
        /\ deliver y ks deliveries /\ accounts_for y start stop ks
  end.

(** C29 (stream_job_events): the stream itself misses nothing.  A client gets the
    row of the job after some commit first; every event is one that row shows,
    or one that reaches the client, once and in the order of publication, or
    one that publish/subscribe, which is at most once, lost on the way. *)
Theorem event_stream_no_gap fuel minutes tech (x : X) :
  let '(chunks, ended, y) := event_stream time_text seconds fuel minutes tech x in
  no_gap tech (fst (read_row (subscribe x))) chunks ended y.
Proof.
  unfold event_stream, _snapshot_event. destruct (subscribe_law x) as [G0 (c & C & Lc)].
  set (x1 := subscribe x) in *. pose proof (read_row_law x1) as R. destruct (read_row x1) as [[[j users]|] x2]; [|done].
  destruct R as (G1 & C2 & n & N & Ln). rewrite C in C2.
  pose proof (event_loop_delivers fuel (loop_clock x1 + max_lifetime minutes) x2 c C2) as D.
  destruct (event_loop fuel _ x2) as [[chunks ended] x3]. destruct D as (G2 & ks & stop & _ & Dv & A).
  pose proof (unsubscribe_law x3) as G3. set (y := unsubscribe x3) in *.
  exists n, (chunks ++ if ended then [sse "reauthenticate" "{}"] else [])%list, (List.filter is_update chunks), c, stop, ks. split_and!.
  - done.
  - destruct G2 as [K2 _], G3 as [K3 _]. eapply prefix_lookup_Some; [|exact K3]. by eapply prefix_lookup_Some.
  - intros i e Li Le. assert (S : sent x1 `prefix_of` sent y) by (destruct G1 as (_ & ? & _), G2 as (_ & ? & _), G3 as (_ & ? & _); by do 2 (etrans; [eassumption|])).
    destruct (lookup_lt_is_Some_2 (sent x1) i ltac:(lia)) as [e' Le']. pose proof (prefix_lookup_Some _ _ _ _ Le' S) as L2. rewrite Le in L2.
    injection L2 as ->. pose proof (sent_after_commit x1) as F. rewrite Forall_lookup in F. specialize (F i e' Le'). cbn in F. lia.
  - rewrite List.filter_app. by destruct ended.
  - by eapply deliver_grows.
  - by eapply accounts_grows.
Qed.

End NoGap.

(** ** The stream ends *)

(** The time a keep-alive is waited for. *)
Definition MESSAGE_TIMEOUT : Z := 15 * SECOND.

(** A turn takes one of finitely many messages, or the waiting time. *)
Class EventTraffic (X : Type) `{EventBackend X} (work : X -> nat) : Prop := {
  disconnected_turn x :
    let '(_, y) := is_disconnected x in (work y <= work x)%nat /\ loop_clock x <= loop_clock y;
  message_turn x :
    let '(_, y) := get_message x in
    ((work y < work x)%nat /\ loop_clock x <= loop_clock y)
    \/ ((work y <= work x)%nat /\ loop_clock x + MESSAGE_TIMEOUT <= loop_clock y);
}.

Section Ends.
Context {X : Type} {backend : EventBackend X} (work : X -> nat) {traffic : EventTraffic X work}.

(** The turns: one per message, and those of the lifetime. *)
Lemma event_loop_ends fuel deadline (x : X) :
  deadline - loop_clock x + MESSAGE_TIMEOUT * Z.of_nat (work x) < MESSAGE_TIMEOUT * (Z.of_nat fuel - 1) ->
  (0 < fuel)%nat -> snd (fst (event_loop fuel deadline x)) = true.
Proof.
  revert x. induction fuel as [|fuel IH]; intros x L F; [lia|]. cbn [event_loop].
  destruct (Z.ltb_spec (loop_clock x) deadline) as [T|T]; [|done].
  pose proof (disconnected_turn x) as D. destruct (is_disconnected x) as [gone x1]. destruct gone; [done|].
  pose proof (message_turn x1) as M. destruct (get_message x1) as [m x2].
  unfold MESSAGE_TIMEOUT, SECOND in *.
  specialize (IH x2 ltac:(lia) ltac:(lia)). destruct (event_loop fuel deadline x2) as [[chunks ended] y]. exact IH.
Qed.

End Ends.

(** ** One chunk is one event *)

(** Whatever messages a worker announces, a chunk has one data line. *)
Lemma chunk_is_one_event e : exists data,
  sse "job-update" (event_data e) = "event: job-update" ++ NL ++ "data: " ++ data ++ NL ++ NL /\ char_of 10 ∉ chars data.
Proof. exists (event_data e). split; [done|]. apply printed_line, json_dumps_printed. Qed.

(** ** A worker beside the stream *)

(** What others do between the steps of the stream; an event may be published
    and never arrive. *)
Inductive Action := Commits (j : Job) | Publishes (e : Event) (arrives : bool).

(** The history, and what others will do in the next steps. *)
Record Feed := MkFeed { f_history : list Action; f_cursor : option nat; f_clock : Z; f_agenda : list (list Action) }.

#[export] Instance eta_feed : Eta Feed := fun f => MkFeed (f_history f) (f_cursor f) (f_clock f) (f_agenda f).

Fixpoint rows_of (l : list Action) : list Job :=
  match l with
  | [] => []
  | Commits j :: r => j :: rows_of r
  | Publishes _ _ :: r => rows_of r
  end.

(** The events, [n] commits having been made before. *)
Fixpoint events_of (n : nat) (l : list Action) : list (Event * nat) :=
  match l with
  | [] => []
  | Commits _ :: r => events_of (S n) r
  | Publishes e _ :: r => (e, n) :: events_of n r
  end.

(** Which of them arrive. *)
Fixpoint fates (l : list Action) : list bool :=
  match l with
  | [] => []
  | Commits _ :: r => fates r
  | Publishes _ arrives :: r => arrives :: fates r
  end.

(** How many are lost before the next that arrives. *)
Fixpoint lost_first (l : list bool) : nat :=
  match l with
  | false :: r => S (lost_first r)
  | _ => 0
  end.

Definition others (f : Feed) : Feed :=
  match f_agenda f with
  | [] => f
  | batch :: rest => f <| f_history := (f_history f ++ batch)%list |> <| f_agenda := rest |>
  end.

#[export] Instance feed_history : EventHistory Feed := {|
  committed f := rows_of (f_history f);
  sent f := events_of 0 (f_history f);
  cursor := f_cursor;
  dropped f i := fates (f_history f) !! i = Some false;
|}.

Definition waited (f : Feed) : Feed := f <| f_clock := f_clock f + MESSAGE_TIMEOUT |>.

#[export] Instance feed_backend : EventBackend Feed := {|
  subscribe f := let f1 := others f in f1 <| f_cursor := Some (List.length (sent f1)) |>;
  unsubscribe f := f <| f_cursor := None |>;
  read_row f := let f1 := others f in
                (match rev (committed f1) with j :: _ => Some (j, []) | [] => None end, f1);
  get_message f :=
    let f1 := others f in
    match f_cursor f1 with
    | None => (None, waited f1)
    | Some c => let k := (c + lost_first (skipn c (fates (f_history f1))))%nat in
                match sent f1 !! k with
                | Some (e, _) => (Some e, f1 <| f_cursor := Some (S k) |>)
                | None => (None, waited f1)
                end
    end;
  is_disconnected f := (false, f);
  loop_clock := f_clock;
|}.

Lemma rows_app l m : rows_of (l ++ m) = (rows_of l ++ rows_of m)%list.
Proof. induction l as [|[] l IH]; cbn; [done|by rewrite IH|done]. Qed.

Lemma events_app n l m : events_of n (l ++ m) = (events_of n l ++ events_of (n + List.length (rows_of l)) m)%list.
Proof.
  revert n. induction l as [|[] l IH]; intros n; cbn; [by rewrite Nat.add_0_r| |by rewrite IH].
  rewrite IH. do 2 f_equal. lia.
Qed.

Lemma fates_app l m : fates (l ++ m) = (fates l ++ fates m)%list.
Proof. induction l as [|[] l IH]; cbn; [done|done|by rewrite IH]. Qed.

Lemma lost_first_spec l i : (i < lost_first l)%nat -> l !! i = Some false.
Proof. revert i. induction l as [|[] l IH]; intros i; cbn; [lia|lia|]. destruct i as [|i]; [done|]. intros L. apply (IH i). lia. Qed.

Lemma events_stamped n l : Forall (fun e => (e.2 <= n + List.length (rows_of l))%nat) (events_of n l).
Proof.
  revert n. induction l as [|[] l IH]; intros n; cbn; [done| |].
  - eapply Forall_impl; [apply IH|]. intros e He. cbn in He. lia.
  - constructor; [cbn; lia|apply IH].
Qed.

Lemma others_grow f : grows f (others f) /\ f_cursor (others f) = f_cursor f /\ f_clock (others f) = f_clock f.
Proof.
  unfold others. destruct (f_agenda f) as [|b r]; [done|]. split; [|done]. split_and!; cbn.
  - rewrite rows_app. by eexists.
  - rewrite events_app. by eexists.
  - intros i D. rewrite fates_app. by apply lookup_app_l_Some.
Qed.

#[export] Instance feed_laws : EventBackendLaws Feed.
Proof.
  split.
  - intros f. apply (events_stamped 0).
  - intros f. destruct (others_grow f) as (G & _). split; [exact G|]. by eexists.
  - intros f c C. destruct (others_grow f) as (G & E & _). change (f_cursor f = Some c) in C. cbn -[sent others].
    rewrite E, C. change (events_of 0 (f_history (others f))) with (sent (others f)).
    set (k := (c + _)%nat). destruct (sent (others f) !! k) as [[e n]|] eqn:L; [|by split; [|rewrite <- C, <- E]].
    split; [exact G|]. exists k, n. split_and!; [lia|exact L|done|]. intros i I. change (fates (f_history (others f)) !! i = Some false).
    replace i with (c + (i - c))%nat by lia. rewrite <- lookup_drop. apply lost_first_spec. lia.
  - intros f. destruct (others_grow f) as (G & E & _). cbn -[committed others]. split; [exact G|]. split; [exact E|].
    change (rows_of (f_history (others f))) with (committed (others f)).
    destruct (rev (committed (others f))) as [|j l] eqn:R; [done|].
    apply (f_equal (@rev Job)) in R. rewrite rev_involutive in R. cbn [rev] in R. exists (List.length (rev l)). rewrite R. split.
    + by apply list_lookup_middle.
    + destruct G as [P _]. apply prefix_length in P. rewrite R, length_app in P. change (List.length [j]) with 1%nat in P. lia.
  - intros f. cbn. done.
  - intros f. done.
Qed.

(** The messages that are waiting or still to come. *)
Fixpoint to_come (agenda : list (list Action)) : nat :=
  match agenda with
  | [] => 0
  | batch :: rest => List.length (events_of 0 batch) + to_come rest
  end.
Definition traffic_left (f : Feed) : nat :=
  List.length (sent f) - default (List.length (sent f)) (f_cursor f) + to_come (f_agenda f).

Lemma events_length n m l : List.length (events_of n l) = List.length (events_of m l).
Proof. revert n m. induction l as [|[] l IH]; intros n m; cbn; [done|apply IH|by rewrite (IH n m)]. Qed.

Lemma others_traffic f : (traffic_left (others f) <= traffic_left f)%nat.
Proof.
  unfold traffic_left, others. destruct (f_agenda f) as [|b r] eqn:A; [by rewrite A|]. cbn [f_agenda f_cursor f_history sent feed_history put_field to_come].
  cbn. rewrite events_app, length_app, (events_length (0 + _) 0). destruct (f_cursor f); cbn; lia.
Qed.

#[export] Instance feed_traffic : EventTraffic Feed traffic_left.
Proof.
  split; [cbn; intros f; lia|]. intros f. pose proof (others_traffic f) as T. destruct (others_grow f) as (_ & E & K).
  cbn -[sent others]. destruct (f_cursor (others f)) as [c|] eqn:C.
  - set (k := (c + _)%nat). destruct (sent (others f) !! k) as [[e n]|] eqn:L; [left|right]; cbn -[sent others]; (split; [|lia]).
    + apply lookup_lt_Some in L. unfold traffic_left in *. cbn -[sent others] in *. rewrite C in T. cbn in *. lia.
    + exact T.
  - right. cbn -[sent others]. split; [exact T|lia].
Qed.

(** *** A run: the worker announces three times; the first announcement comes
    before the stream has subscribed, the second is lost. *)

Definition ROW (p : Z) : Job :=
  MkJob "job-1" RUNNING "web-01" None None None (Some "power_on") p INFRA_PENDING OS_UNKNOWN TOOLS_UNKNOWN GUEST_PENDING
    None None false 0 None None None None None None (Some "worker-1") None 0 [].

Definition announce (p : Z) (arrives : bool) : list Action :=
  [Commits (ROW p); Publishes (make_event "job-1" (Some "power_on") "RUNNING" p "") arrives].

Definition FEED : Feed := MkFeed [Commits (ROW 0)] None 0 [announce 10 true; announce 20 false; announce 30 true].

Lemma event_stream_no_gap_witness :
  let '(chunks, ended, y) := event_stream str_int JNum 300 1 false FEED in
  ended = true /\ List.length (List.filter is_update chunks) = 3%nat
  /\ no_gap str_int JNum false (fst (read_row (subscribe FEED))) chunks ended y.
Proof.
  pose proof (event_stream_no_gap str_int JNum 300 1 false FEED) as P.
  destruct (event_stream str_int JNum 300 1 false FEED) as [[chunks ended] y] eqn:E. vm_compute in E.
  split; [|split; [|exact P]]; by injection E as <- <- _.
Defined.
