(* ===== verification/LogViews.v ===== *)
(** * Operational logs

    [app/repositories/logs.py] behind [app/api/v1/logs.py]: the steps of the
    jobs read as a log, with its severities and messages, the filters of a
    search, and its pages.  ILIKE is PostgreSQL's, a parameter; times are
    instants in seconds.  The identifiers of the step rows are left out. *)

From Stdlib Require Import ZArith Lia Ascii String List Bool Sorting.
From stdpp Require Import base tactics list strings gmap.
From S2P Require Import Prelude PyStr Schemas Jobs Repository Listing RequestBody Auth JobApi.

Local Open Scope string_scope.
Local Open Scope Z_scope.

(** ** Events *)

Inductive LogSeverity := SEV_DEBUG | SEV_INFO | SEV_WARNING | SEV_ERROR | SEV_CRITICAL.

#[export] Instance log_severity_eq_dec : EqDecision LogSeverity.
Proof. solve_decision. Defined.

Definition LOGGABLE_STEP_STATUSES : list StepStatus :=
  [STEP_RUNNING; SUCCEEDED; STEP_FAILED; SKIPPED; WARNING; NOT_APPLICABLE; STEP_CANCELLED].

Definition severity_for_status (s : StepStatus) : LogSeverity :=
  match s with
  | STEP_FAILED => SEV_ERROR
  | STEP_CANCELLED | WARNING => SEV_WARNING
  | SKIPPED | NOT_APPLICABLE => SEV_DEBUG
  | _ => SEV_INFO
  end.

(** A time with or without a zone; a bare one is read as UTC. *)
Inductive When := Aware (instant : Z) | Naive (wall_clock : Z).

Definition _normalized_timestamp (w : When) : Z := match w with Aware t | Naive t => t end.

(** [value.split()] *)
Fixpoint words_of (word l : list ascii) : list (list ascii) :=
  match l with
  | [] => match word with [] => [] | _ => [word] end
  | c :: r => if is_space c then match word with [] => words_of [] r | _ => word :: words_of [] r end
              else words_of (word ++ [c])%list r
  end.
Definition split_words (s : string) : list string := List.map text (words_of [] (chars s)).

(** The first line with text in it. *)
Definition first_text (value : string) : string :=
  match find_first (fun l => negb (String.eqb (strip l) "")) (splitlines value) with
  | Some l => strip l
  | None => ""
  end.

Definition _concise (limit : nat) (value : string) : string :=
  let normalized := join " " (split_words (first_text value)) in
  if (String.length normalized <=? limit)%nat then normalized
  else rstrip_by is_space (take_str (limit - 3) normalized) ++ "...".

(** [str.title()]: upper case behind anything that is not a letter. *)
Fixpoint title_chars (in_word : bool) (l : list ascii) : list ascii :=
  match l with
  | [] => []
  | c :: r => let letter := is_lower c || is_upper c in
              (if in_word then lower_char c else upper_char c) :: title_chars letter r
  end.
Definition title_case (s : string) : string := text (title_chars false (chars s)).

Definition message_for_step (s : Step) : string :=
  match step_status s, Schemas.or_else (error_human s) "", Schemas.or_else (output s) "" with
  | STEP_FAILED, String c m, _ => _concise 240 (String c m)
  | _, _, String c m => _concise 240 (String c m)
  | st, _, EmptyString => step_name s ++ ": " ++ title_case (replace_char "_" " " (step_status_value st))
  end.

Definition details_for_step (s : Step) (j : Job) (include_technical : bool) : list (string * json) :=
  [("stage", JStr (stage_key s)); ("status", JStr (step_status_value (step_status s))); ("attempt", JNum (attempt s))]
  ++ if include_technical then
       [("datacenter_id", or_null JStr (datacenter_id j)); ("artifacts", JObj (map_to_list (artifacts s)))]
       ++ match error_technical s with
          | None | Some "" => []
          | Some t => [("technical_error", JStr t)]
          end
     else [].

Record LogEventOut := MkLogEvent {
  timestamp : Z;
  severity : LogSeverity;
  component : string;
  log_message : string;
  log_resource_name : string;
  log_datacenter_name : option string;
  log_job_id : string;
  log_details : list (string * json);
}.

(** [coalesce(finished_at, started_at, queued_at)] *)
Definition row_time (r : Step * Job) : Z :=
  match step_finished_at (fst r), step_started_at (fst r) with
  | Some t, _ => t
  | None, Some t => t
  | None, None => queued_at (snd r)
  end.

Definition log_event (include_technical : bool) (r : Step * Job) : LogEventOut :=
  let '(s, j) := r in
  MkLogEvent (row_time r) (severity_for_status (step_status s)) ("provisioning." ++ stage_key s) (message_for_step s)
    (vm_name j) (datacenter_name j) (job_id j) (details_for_step s j include_technical).

(** ** Search *)

Record LogQuery := MkLogQuery {
  q_severity : option LogSeverity;
  q_component : option string;
  q_datacenter : option string;
  q_job_id : option string;
  q_search : option string;
  q_since : option When;
  q_until : option When;
}.

(** The statuses a severity asks for. *)
Definition severity_condition (s : LogSeverity) (st : StepStatus) : bool :=
  match s with
  | SEV_ERROR => bool_decide (st = STEP_FAILED)
  | SEV_WARNING => bool_decide (st ∈ [STEP_CANCELLED; WARNING])
  | SEV_DEBUG => bool_decide (st ∈ [SKIPPED; NOT_APPLICABLE])
  | SEV_INFO => bool_decide (st ∈ [STEP_RUNNING; SUCCEEDED])
  | SEV_CRITICAL => false
  end.

(** [s.removeprefix(p)] *)
Definition removeprefix (p s : string) : string :=
  if startswith s p then text (skipn (String.length p) (chars s)) else s.

Definition component_key (c : string) : string := strip (removeprefix "provisioning." (casefold c)).

Definition if_given {A} (f : A -> bool) (o : option A) : bool := match o with Some a => f a | None => true end.
Definition if_text (f : string -> bool) (o : option string) : bool :=
  match o with None | Some "" => true | Some t => f t end.
(** A condition on a column that may be NULL. *)
Definition not_null (f : string -> bool) (o : option string) : bool := match o with Some t => f t | None => false end.

Section Search.
(** [column ILIKE pattern] *)
Context (ilike : string -> string -> bool).

Definition component_condition (c : string) (s : Step) : bool :=
  let key := component_key c in
  if String.eqb key "" || String.eqb key "provisioning" then true
  else ilike (stage_key s) ("%" ++ replace_char " " "_" key ++ "%").

Definition conditions (q : LogQuery) (r : Step * Job) : bool :=
  let '(s, j) := r in
  bool_decide (step_status s ∈ LOGGABLE_STEP_STATUSES)
  && if_given (fun v => severity_condition v (step_status s)) (q_severity q)
  && if_text (fun c => component_condition c s) (q_component q)
  && if_text (fun d => not_null (fun n => ilike n ("%" ++ d ++ "%")) (datacenter_name j)
                       || bool_decide (datacenter_id j = Some d)) (q_datacenter q)
  && if_given (fun i => String.eqb (job_id j) i) (q_job_id q)
  && if_text (fun t => let pattern := "%" ++ t ++ "%" in
                       ilike (step_name s) pattern || not_null (fun o => ilike o pattern) (output s)
                       || not_null (fun o => ilike o pattern) (error_human s) || ilike (vm_name j) pattern) (q_search q)
  && if_given (fun w => _normalized_timestamp w <=? row_time r) (q_since q)
  && if_given (fun w => row_time r <=? _normalized_timestamp w) (q_until q).

(** [ORDER BY timestamp DESC, sequence DESC] *)
Definition newer (a b : Step * Job) : bool :=
  (row_time b <? row_time a) || (row_time a =? row_time b) && (sequence (fst b) <=? sequence (fst a)).

(** The join of the two tables. *)
Definition step_rows (jobs : list Job) : list (Step * Job) := flat_map (fun j => List.map (fun s => (s, j)) (steps j)) jobs.

Definition search (include_technical : bool) (page page_size : Z) (q : LogQuery) (jobs : list Job) : list LogEventOut * Z :=
  let found := List.filter (conditions q) (step_rows jobs) in
  (List.map (log_event include_technical) (page_of page page_size (sort_by newer found)), Z.of_nat (List.length found)).

(** The endpoint: the deprecated [datacenter_id] stands in for [datacenter]. *)
Definition search_logs (u : User) (page page_size : Z) (legacy_datacenter : option string) (q : LogQuery) (jobs : list Job)
    : list LogEventOut * Z :=
  let dc := match q_datacenter q with None | Some "" => legacy_datacenter | d => d end in
  search (roles_grant (role_names u) ADMIN_SETTINGS) page page_size
    (MkLogQuery (q_severity q) (q_component q) dc (q_job_id q) (q_search q) (q_since q) (q_until q)) jobs.

(** ** Severities *)

(** All events a search finds, on one page. *)
Definition all_events (include_technical : bool) (q : LogQuery) (jobs : list Job) : list LogEventOut :=
  List.map (log_event include_technical) (sort_by newer (List.filter (conditions q) (step_rows jobs))).

Lemma newer_trans : before_trans newer.
Proof. intros x y z. unfold newer. rewrite !orb_true_iff, !andb_true_iff, !Z.ltb_lt, !Z.eqb_eq, !Z.leb_le. lia. Qed.

Lemma newer_total : before_total newer.
Proof.
  intros x y. unfold newer. rewrite orb_false_iff, andb_false_iff, orb_true_iff, andb_true_iff, !Z.ltb_lt, !Z.eqb_eq, !Z.leb_le, Z.ltb_ge, Z.eqb_neq, Z.leb_gt. lia.
Qed.

Lemma search_pages tech page size q jobs :
  search tech page size q jobs = (page_of page size (all_events tech q jobs), Z.of_nat (List.length (all_events tech q jobs))).
Proof.
  unfold search, all_events. rewrite page_of_map. f_equal.
  by rewrite length_map, (Permutation_length (sort_by_perm newer _)).
Qed.

(** The filter and the severity that is shown agree on what a log can hold. *)
Lemma severity_condition_shown v st : st ∈ LOGGABLE_STEP_STATUSES ->
  severity_condition v st = bool_decide (severity_for_status st = v).
Proof. intros I. destruct v, st; try reflexivity; vm_compute in I; set_solver. Qed.

Definition with_severity (v : option LogSeverity) (q : LogQuery) : LogQuery :=
  MkLogQuery v (q_component q) (q_datacenter q) (q_job_id q) (q_search q) (q_since q) (q_until q).

Lemma conditions_severity v q r :
  conditions (with_severity (Some v) q) r
  = conditions (with_severity None q) r && bool_decide (severity_for_status (step_status (fst r)) = v).
Proof.
  destruct r as [s j]. unfold conditions. cbn [with_severity q_severity q_component q_datacenter q_job_id q_search q_since q_until if_given fst].
  destruct (bool_decide (step_status s ∈ LOGGABLE_STEP_STATUSES)) eqn:I; [|done].
  apply bool_decide_eq_true in I. rewrite (severity_condition_shown v _ I).
  destruct (bool_decide (severity_for_status (step_status s) = v)); cbn [andb]; [by rewrite andb_true_r|by rewrite andb_false_r].
Qed.

Lemma filter_map {A B} (p : B -> bool) (f : A -> B) l :
  List.filter p (List.map f l) = List.map f (List.filter (fun x => p (f x)) l).
Proof. induction l as [|x l IH]; [done|]. cbn. rewrite IH. by destruct (p (f x)). Qed.

Lemma filter_both {A} (p q : A -> bool) l : List.filter (fun x => p x && q x) l = List.filter q (List.filter p l).
Proof. induction l as [|x l IH]; [done|]. cbn. rewrite IH. by destruct (p x); cbn; [destruct (q x)|]. Qed.

(** [LogRepository.search, severity_for_status]: a search for a severity
    shows, on its pages and in its total, exactly the events that the same
    search without it displays with that severity, in the same order. *)
Theorem severity_filter_exact tech page size v q jobs :
  let shown := List.filter (fun e => bool_decide (severity e = v)) (all_events tech (with_severity None q) jobs) in
  search tech page size (with_severity (Some v) q) jobs = (page_of page size shown, Z.of_nat (List.length shown)).
Proof.
  cbn zeta. rewrite search_pages. assert (E : all_events tech (with_severity (Some v) q) jobs
    = List.filter (fun e => bool_decide (severity e = v)) (all_events tech (with_severity None q) jobs)); [|by rewrite E].
  unfold all_events. rewrite filter_map. f_equal.
  erewrite List.filter_ext by (intros r; apply conditions_severity).
  rewrite filter_both, sort_by_filter by (apply newer_trans || apply newer_total).
  apply List.filter_ext. by intros [s j].
Qed.

End Search.

(** ** What a viewer learns *)

Section Viewers.
Context (ilike : string -> string -> bool).

(** Without technical details neither artifacts nor technical texts show. *)
Definition public_row (r : Step * Job) : Step * Job :=
  let '(s, j) := r in (s <| error_technical := None |> <| artifacts := ∅ |>, j <| datacenter_id := None |>).

Lemma log_event_public r : log_event false r = log_event false (public_row r).
Proof. by destruct r. Qed.

(** The text of a message is one line without runs of blanks. *)
Definition one_line (s : string) : Prop := Forall (fun c => is_space c = true -> c = " "%char) (chars s).

Lemma words_of_plain word l : Forall (fun c => is_space c = false) word ->
  Forall (Forall (fun c => is_space c = false)) (words_of word l).
Proof.
  revert word. induction l as [|c l IH]; intros word W; cbn; [destruct word; repeat (exact W || constructor)|].
  destruct (is_space c) eqn:S.
  - destruct word; [by apply IH|]. constructor; [done|by apply IH].
  - apply IH. apply Forall_app. by split; [|repeat constructor].
Qed.

Lemma join_one_line l : Forall (fun w => Forall (fun c => is_space c = false) (chars w)) l -> one_line (join " " l).
Proof.
  assert (P : forall cs, Forall (fun c => is_space c = false) cs -> Forall (fun c => is_space c = true -> c = " "%char) cs)
    by (intros cs F; eapply Forall_impl; [exact F|]; cbn; congruence).
  induction 1 as [|w l W F IH]; [constructor|]. destruct l as [|w' l]; [by apply P|].
  change (join " " (w :: w' :: l)) with (w ++ " " ++ join " " (w' :: l)). unfold one_line. rewrite chars_app.
  apply Forall_app. split; [by apply P|]. by constructor.
Qed.

Lemma one_line_prefix n s : one_line s -> one_line (take_str n s).
Proof. unfold one_line, take_str. rewrite chars_text. intros F. rewrite <- (firstn_skipn n (chars s)) in F. by apply Forall_app in F as [F _]. Qed.

Lemma drop_while_forall {A} (P : A -> Prop) (p : A -> bool) l : Forall P l -> Forall P (drop_while p l).
Proof. induction 1 as [|x l H F IH]; cbn; [constructor|]. destruct (p x); [done|by constructor]. Qed.

Lemma rstrip_one_line s : one_line s -> one_line (rstrip_by is_space s).
Proof.
  unfold one_line, rstrip_by. rewrite chars_text. intros F. by apply Forall_rev, drop_while_forall, Forall_rev.
Qed.

Lemma drop_while_length {A} (p : A -> bool) l : (List.length (drop_while p l) <= List.length l)%nat.
Proof. induction l as [|x l IH]; cbn; [done|]. destruct (p x); cbn; lia. Qed.

(** A message fits the limit and is one line, whatever the step wrote. *)
Lemma concise_bounded limit value : (3 <= limit)%nat ->
  (String.length (_concise limit value) <= limit)%nat /\ one_line (_concise limit value).
Proof.
  intros L. unfold _concise. set (n := join " " _).
  assert (O : one_line n).
  { apply join_one_line. unfold split_words. apply List.Forall_map. eapply Forall_impl; [by apply words_of_plain|].
    intros w. cbn. by rewrite chars_text. }
  destruct (String.length n <=? limit)%nat eqn:E; [split; [by apply Nat.leb_le|done]|]. split.
  - rewrite <- chars_length, chars_app, length_app. unfold rstrip_by. rewrite chars_text, length_rev.
    pose proof (drop_while_length is_space (rev (chars (take_str (limit - 3) n)))) as D.
    rewrite length_rev, chars_length in D. pose proof (take_str_length (limit - 3) n). cbn. lia.
  - unfold one_line. rewrite chars_app. apply Forall_app. split; [by apply rstrip_one_line, one_line_prefix|].
    repeat constructor; discriminate.
Qed.

(** *** Components *)

(** A text matches the pattern that looks for a part of it. *)
Class IlikePart : Prop :=
  ilike_part a b c : ~ In (char_of 92) (chars b) -> ilike (a ++ b ++ c) ("%" ++ b ++ "%") = true.

(** An event is found under the component it shows. *)
Lemma shown_component_found `{IlikePart} tech s j :
  ~ In (char_of 92) (chars (stage_key s)) -> lower (stage_key s) = stage_key s ->
  Forall (fun c => is_space c = false) (chars (stage_key s)) ->
  component_condition ilike (component (log_event tech (s, j))) s = true.
Proof.
  intros B L P. unfold component_condition, component_key, casefold. cbn [component log_event].
  rewrite lower_app, L. change (lower "provisioning.") with "provisioning.".
  assert (R : removeprefix "provisioning." ("provisioning." ++ stage_key s) = stage_key s).
  { unfold removeprefix. rewrite (proj2 (startswith_spec _ _)) by by eexists. rewrite chars_app. exact (text_chars _). }
  rewrite R, strip_no_space by done. destruct (_ || _); [done|].
  assert (Q : replace_char " " "_" (stage_key s) = stage_key s).
  { transitivity (text (chars (stage_key s))); [|apply text_chars]. unfold replace_char. f_equal.
    clear B. induction P as [|c l N F IH]; [done|]. cbn [replace_chars]. destruct (Ascii.eqb_spec c " "); [by subst|by rewrite IH]. }
  rewrite Q. pose proof (ilike_part "" (stage_key s) "" B) as I. assert (N : stage_key s ++ "" = stage_key s) by (by rewrite <- (text_chars (stage_key s ++ "")), chars_app, app_nil_r, text_chars).
  by rewrite N in I.
Qed.

End Viewers.
