(* ===== verification/AuditLog.v ===== *)
(** * The audit trail as it is searched and shown

    [app/repositories/audit.py] behind [app/api/v1/audit.py], and the labels of
    [app/audit/actions.py]: the canonical form of a searched action, the filters
    and pages of a search, and what a viewer sees of the details of an event.
    ILIKE is PostgreSQL's, a parameter. *)

From Stdlib Require Import ZArith Lia Ascii String List Bool Sorting.
From stdpp Require Import base tactics list strings gmap.
From S2P Require Import Prelude PyStr Schemas Jobs AuditTrail Listing Auth LogViews.

Local Open Scope string_scope.
Local Open Scope Z_scope.

(** ** Labels ([actions.py]) *)

Definition _ACRONYMS : list (string * string) := [("Ip", "IP"); ("Vm", "VM"); ("Vcenter", "vCenter")].

Definition word_label (word : string) : string :=
  let t := title_case word in
  match find_first (fun p => String.eqb (fst p) t) _ACRONYMS with Some p => snd p | None => t end.

Definition audit_action_label (action : string) : string :=
  join " " (List.map word_label
    (List.filter (fun w => negb (String.eqb w "")) (split_on "_" (replace_char "." "_" action)))).

(** [re.sub("[^A-Za-z0-9]+", "_", s)] *)
Fixpoint squash (in_run : bool) (l : list ascii) : list ascii :=
  match l with
  | [] => []
  | c :: r => if is_alnum c then c :: squash false r
              else if in_run then squash true r else "_"%char :: squash true r
  end.

Definition strip_by (p : ascii -> bool) (s : string) : string := rstrip_by p (lstrip_by p s).

Definition normalized_action_term (value : string) : string :=
  upper (strip_by (Ascii.eqb "_") (text (squash false (chars (strip value))))).

(** ** What a viewer sees ([api/v1/audit.py]) *)

Definition _INTERNAL_DETAIL_KEYS : list string := ["id"; "artifacts"; "technical_error"; "technical_detail"].

Definition internal_key (k : string) : bool :=
  bool_decide (lower k ∈ _INTERNAL_DETAIL_KEYS) || endswith (lower k) "_id" || endswith (lower k) "_ids".

Fixpoint _public_details (value : json) : json :=
  match value with
  | JObj l => JObj (flat_map (fun e => if internal_key (fst e) then [] else [(fst e, _public_details (snd e))]) l)
  | JArr l => JArr (List.map _public_details l)
  | v => v
  end.

(** A row of the table; the event is what the recorder wrote. *)
Record AuditRow := MkAuditRow {
  ar_id : string;
  ar_time : Z;
  ar_user_id : option string;
  ar_source_ip : option string;
  ar_event : AuditEvent;
}.

Record AuditEventOut := MkAuditOut {
  ao_row : string * Z * option string * option string;
  ao_username : option string;
  ao_action : string;
  ao_action_label : string;
  ao_resource : option string * option string;
  ao_job_id : option string;
  ao_datacenter_id : option string;
  ao_datacenter_name : option string;
  ao_result : option string;
  ao_details : json;
  ao_detail_text : option string;
}.

Definition or_empty (d : json) : json := if truthy d then d else JObj [].

Definition _audit_out (include_technical : bool) (r : AuditRow * option string) : AuditEventOut :=
  let '(row, dc_name) := r in
  let e := ar_event row in
  MkAuditOut (ar_id row, ar_time row, ar_user_id row, ar_source_ip row) (username e) (action e) (audit_action_label (action e))
    (resource_type e, resource_name e) (audit_job_id e) (audit_datacenter_id e) dc_name (result e)
    (if include_technical then or_empty (details e) else _public_details (or_empty (details e))) (detail_text e).

(** ** Search ([repositories/audit.py]) *)

Record AuditQuery := MkAuditQuery {
  a_action : option string;
  a_username : option string;
  a_resource_type : option string;
  a_result : option string;
  a_datacenter : option string;
  a_search : option string;
  a_job_id : option string;
  a_since : option When;
  a_until : option When;
}.

Section Search.
Context (ilike : string -> string -> bool).

(** The outer join with the jobs. *)
Definition job_of (jobs : list Job) (row : AuditRow) : option Job :=
  match audit_job_id (ar_event row) with
  | Some i => find_first (fun j => String.eqb (job_id j) i) jobs
  | None => None
  end.

Definition resolved_datacenter_name (jobs : list Job) (row : AuditRow) : option string :=
  match audit_datacenter_name (ar_event row), job_of jobs row with
  | Some n, _ => Some n
  | None, Some j => datacenter_name j
  | None, None => None
  end.

Definition search_condition (t : string) (e : AuditEvent) : bool :=
  let part s := ilike s ("%" ++ t ++ "%") in
  let canonical := normalized_action_term t in
  part (action e) || not_null part (username e) || not_null part (resource_type e) || not_null part (resource_name e)
  || not_null part (detail_text e)
  || (if String.eqb canonical "" then false else ilike (action e) ("%" ++ canonical ++ "%")).

Definition equals (o : option string) (s : string) : bool := bool_decide (o = Some s).

Definition audit_conditions (q : AuditQuery) (jobs : list Job) (row : AuditRow) : bool :=
  let e := ar_event row in
  if_text (fun a => String.eqb (action e) (normalized_action_term a)) (a_action q)
  && if_text (fun u => not_null (fun n => ilike n ("%" ++ u ++ "%")) (username e)) (a_username q)
  && if_text (equals (resource_type e)) (a_resource_type q)
  && if_text (equals (result e)) (a_result q)
  && if_text (fun d => not_null (fun n => ilike n ("%" ++ d ++ "%")) (resolved_datacenter_name jobs row)
                       || equals (audit_datacenter_id e) d
                       || match job_of jobs row with Some j => equals (datacenter_id j) d | None => false end) (a_datacenter q)
  && if_text (fun t => search_condition t e) (a_search q)
  && if_given (equals (audit_job_id e)) (a_job_id q)
  && if_given (fun w => _normalized_timestamp w <=? ar_time row) (a_since q)
  && if_given (fun w => ar_time row <=? _normalized_timestamp w) (a_until q).

Definition later (a b : AuditRow) : bool := ar_time b <=? ar_time a.

Definition audit_search (page page_size : Z) (q : AuditQuery) (jobs : list Job) (rows : list AuditRow)
    : list (AuditRow * option string) * Z :=
  let found := List.filter (audit_conditions q jobs) rows in
  (List.map (fun r => (r, resolved_datacenter_name jobs r)) (page_of page page_size (sort_by later found)),
   Z.of_nat (List.length found)).

Definition search_audit (u : User) (page page_size : Z) (legacy_datacenter : option string) (q : AuditQuery)
    (jobs : list Job) (rows : list AuditRow) : list AuditEventOut * Z :=
  let dc := match a_datacenter q with None | Some "" => legacy_datacenter | d => d end in
  let '(events, total) := audit_search page page_size
      (MkAuditQuery (a_action q) (a_username q) (a_resource_type q) (a_result q) dc (a_search q) (a_job_id q) (a_since q) (a_until q))
      jobs rows in
  (List.map (_audit_out (roles_grant (role_names u) ADMIN_SETTINGS)) events, total).

End Search.

(** ** Details of other viewers *)

(** [entry k x v]: at some depth of the document [v] the key [k] has the value [x]. *)
Inductive entry (k : string) (x : json) : json -> Prop :=
  | entry_here l : In (k, x) l -> entry k x (JObj l)
  | entry_field l k' y : In (k', y) l -> entry k x y -> entry k x (JObj l)
  | entry_item l y : In y l -> entry k x y -> entry k x (JArr l).

(** A key that names a secret: one of these words is part of it, in any case. *)
Definition names_secret (k : string) : Prop :=
  exists word before after,
    In word ["password"; "secret"; "token"; "api_key"; "private_key"; "credential"; "authorization"]
    /\ lower k = before ++ word ++ after.

(** A key of an internal identifier, an artifact or a technical text. *)
Definition names_internal (k : string) : Prop :=
  In (lower k) ["id"; "artifacts"; "technical_error"; "technical_detail"]
  \/ exists before, lower k = before ++ "_id" \/ lower k = before ++ "_ids".

(** No value under such a key but the marker of the redaction. *)
Definition secret_free (v : json) : Prop := forall k x, entry k x v -> names_secret k -> x = JStr "[REDACTED]".

Lemma contains_spec s p : contains s p = true <-> exists a b, s = a ++ p ++ b.
Proof.
  unfold contains. rewrite occurs_spec. split.
  - intros (a & b & E). exists (text a), (text b). apply chars_inj. by rewrite !chars_app, !chars_text.
  - intros (a & b & ->). exists (chars a), (chars b). by rewrite !chars_app.
Qed.

Lemma endswith_spec s p : endswith s p = true <-> exists a, s = a ++ p.
Proof.
  unfold endswith. rewrite starts_spec. split.
  - intros (a & E). exists (text (rev a)). apply chars_inj. rewrite chars_app, chars_text.
    by rewrite <- (rev_involutive (chars s)), E, rev_app_distr, rev_involutive.
  - intros (a & ->). exists (rev (chars a)). by rewrite chars_app, rev_app_distr.
Qed.

Lemma sensitive_spec k : sensitive k = true <-> names_secret k.
Proof.
  unfold sensitive, names_secret. rewrite existsb_exists. setoid_rewrite contains_spec.
  split; [intros (w & I & a & b & E)|intros (w & a & b & I & E)]; eauto.
Qed.

Lemma internal_key_spec k : internal_key k = true <-> names_internal k.
Proof.
  unfold internal_key, names_internal. rewrite !orb_true_iff, bool_decide_eq_true, list_elem_of_In, !endswith_spec.
  unfold _INTERNAL_DETAIL_KEYS. naive_solver.
Qed.

Lemma entry_obj k x l : entry k x (JObj l) <-> exists e, In e l /\ (e = (k, x) \/ entry k x (snd e)).
Proof.
  split.
  - inversion 1 as [? I|? k' y I E|]; subst; [exists (k, x); auto|exists (k', y); auto].
  - intros ([k' y] & I & [[= -> ->]|E]); [by apply entry_here|by eapply entry_field].
Qed.

Lemma entry_arr k x l : entry k x (JArr l) <-> exists y, In y l /\ entry k x y.
Proof. split; [inversion 1; subst; eauto|intros (y & I & E); by eapply entry_item]. Qed.

Lemma clean_entry v k x : clean v = true -> entry k x v -> names_secret k -> x = JStr "[REDACTED]".
Proof.
  intros C E S%sensitive_spec. revert C. induction E as [l I|l k' y I E IH|l y I E IH]; cbn; rewrite forallb_forall; intros C.
  - specialize (C _ I). cbn in C. rewrite S in C. destruct x; try done. by apply String.eqb_eq in C as ->.
  - specialize (C _ I). cbn in C. destruct (sensitive k'); [|by apply IH]. by destruct y; try done; inversion E.
  - apply IH, C, I.
Qed.

(** What is left of a document: its entries under public keys. *)
Lemma public_details_entry v k x : entry k x (_public_details v) -> ~ names_internal k.
Proof.
  rewrite <- internal_key_spec. induction v as [| | | |l IH|l IH] using json_ind'; cbn; try by inversion 1.
  - intros (y & (z & <- & I)%in_map_iff & E)%entry_arr. rewrite List.Forall_forall in IH. by apply (IH z).
  - intros (e & (z & I & J)%in_flat_map & E)%entry_obj. rewrite List.Forall_forall in IH.
    destruct (internal_key (fst z)) eqn:K; [done|]. destruct J as [<-|[]]. destruct E as [[= <- _]|E]; [congruence|by apply (IH z)].
Qed.

Lemma public_details_id v : (forall k x, entry k x v -> ~ names_internal k) -> _public_details v = v.
Proof.
  induction v as [| | | |l IH|l IH] using json_ind'; cbn; try done; rewrite List.Forall_forall in IH; intros P; f_equal.
  - rewrite <- (map_id l) at 2. apply map_ext_in. intros y I. apply IH; [done|]. intros k x E. apply (P k x), entry_arr. eauto.
  - induction l as [|[k y] l IHl]; [done|]. cbn.
    assert (internal_key k = false) as ->.
    { apply not_true_iff_false. rewrite internal_key_spec. apply (P k y), entry_here. by left. }
    pose proof (IH (k, y) (or_introl eq_refl)) as Y. cbn in Y. rewrite Y by (intros k' x E; apply (P k' x); eapply entry_field; [by left|done]). f_equal.
    apply IHl; [intros e I; apply IH; by right|]. intros k' x (e & I & E)%entry_obj. apply (P k' x), entry_obj.
    exists e. split; [by right|done].
Qed.

(** What remains of details that carry no secret carries none. *)
Lemma public_details_clean v : clean v = true -> clean (_public_details v) = true.
Proof.
  induction v as [| | | |l IH|l IH] using json_ind'; cbn; try done.
  - induction IH as [|x l Hx _ IHl]; cbn; [done|]. intros [C1 C2]%andb_true_iff. by rewrite Hx, IHl.
  - induction IH as [|[k x] l Hx _ IHl]; cbn; [done|]. intros [C1 C2]%andb_true_iff.
    destruct (internal_key k); cbn; [by apply IHl|]. rewrite IHl by done. rewrite andb_true_r.
    destruct (sensitive k); [|by apply Hx]. by destruct x.
Qed.

(** A row as [AuditRecorder.record] writes it, whatever it was called with. *)
Definition recorded (e : AuditEvent) : Prop :=
  exists act user rtype rname job dc_id dc_name res det text,
    e = audit_event act user rtype rname job dc_id dc_name res det text.

Lemma recorded_clean e : recorded e -> clean (or_empty (details e)) = true.
Proof.
  intros (? & ? & ? & ? & ? & ? & ? & ? & det & ? & ->). unfold or_empty. cbn [audit_event details].
  destruct (truthy _); [apply redact_clean|done].
Qed.

(** C27 (AuditRecorder.record with search_audit and _public_details): what the
    details of the audit rows the recorder wrote show, whatever details it was
    called with.  No viewer sees, at any depth of them, a value under a key
    that names a password, secret, token, key, credential or authorization: the
    marker stands there.  A viewer without [admin.settings] sees in them, at
    any depth, no key of an internal identifier, of artifacts or of a
    technical text; details without such keys are shown as they are, and a
    viewer with the permission sees them whole.  (The columns of the row, its
    identifiers and [detail_text] among them, are shown to every viewer.) *)
Theorem audit_details_shown ilike u page size legacy q jobs rows e :
  Forall (fun r => recorded (ar_event r)) rows ->
  e ∈ fst (search_audit ilike u page size legacy q jobs rows) ->
  secret_free (ao_details e)
  /\ (roles_grant (role_names u) ADMIN_SETTINGS = false -> forall k x, entry k x (ao_details e) -> ~ names_internal k)
  /\ exists r, r ∈ rows /\ ao_row e = (ar_id r, ar_time r, ar_user_id r, ar_source_ip r)
       /\ (roles_grant (role_names u) ADMIN_SETTINGS = true
           \/ (forall k x, entry k x (or_empty (details (ar_event r))) -> ~ names_internal k) ->
           ao_details e = or_empty (details (ar_event r))).
Proof.
  intros C I. unfold search_audit, audit_search in I. cbn [fst] in I.
  apply list_elem_of_fmap in I as ([r dc] & -> & I). apply list_elem_of_fmap in I as (r' & [= -> ->] & I).
  assert (R : r' ∈ rows).
  { apply page_of_elem in I. rewrite sort_by_perm in I. apply list_elem_of_In, List.filter_In in I as [I _]. by apply list_elem_of_In. }
  rewrite Forall_forall in C. pose proof (recorded_clean _ (C r' R)) as O. cbn [_audit_out ao_details ao_row].
  destruct (roles_grant (role_names u) ADMIN_SETTINGS); split_and!; try done.
  - intros k x. by apply clean_entry.
  - exists r'. by split_and!.
  - intros k x. by apply clean_entry, public_details_clean.
  - intros _ k x. apply public_details_entry.
  - exists r'. split_and!; [done|done|]. intros [|P]; [done|by apply public_details_id].
Qed.

(** ** Labels read back *)

(** The action identifiers of [AuditAction]. *)
Definition AUDIT_ACTIONS : list string :=
  ["AUTH_LOGIN"; "AUTH_LOGIN_FAILED"; "AUTH_LOGOUT"; "AUTH_REFRESH_REUSE_DETECTED"; "PROVISIONING_REQUEST_CREATED";
   "PROVISIONING_REQUEST_REJECTED"; "DRY_RUN_PERFORMED"; "IP_CONFLICT_CHECK_PERFORMED"; "JOB_STARTED";
   "JOB_STAGE_SUCCEEDED"; "JOB_STAGE_FAILED"; "JOB_COMPLETED"; "JOB_PARTIALLY_COMPLETED"; "JOB_FAILED"; "JOB_CANCELLED";
   "JOB_INTERRUPTED"; "JOB_STAGE_RETRIED"; "VM_CREATED"; "UNATTENDED_MEDIA_REMOVED"; "NETWORK_MODIFIED";
   "CERTIFICATE_INSTALLED"; "APPLICATION_INSTALLED"; "VCENTER_CREATED"; "VCENTER_UPDATED"; "VCENTER_DELETED";
   "VCENTER_TESTED"; "CERTIFICATE_PACKAGE_CREATED"; "CERTIFICATE_PACKAGE_UPDATED"; "CERTIFICATE_PACKAGE_DELETED";
   "CERTIFICATE_CREATED"; "CERTIFICATE_UPDATED"; "CERTIFICATE_DELETED"; "APPLICATION_CREATED"; "APPLICATION_UPDATED";
   "APPLICATION_DELETED"; "CREDENTIAL_CREATED"; "CREDENTIAL_UPDATED"; "CREDENTIAL_DELETED"; "SETTINGS_UPDATED"].

(** A word of a label, and a word of an identifier. *)
Definition word (w : string) : Prop := w <> "" /\ Forall (fun c => is_alnum c = true) (chars w).
Definition capital_word (w : string) : Prop := word w /\ upper w = w.

Lemma title_chars_upper b l : List.map upper_char (title_chars b l) = List.map upper_char l.
Proof.
  revert b. induction l as [|c l IH]; intros b; [done|]. cbn. rewrite IH. f_equal.
  destruct b; destruct c as [[] [] [] [] [] [] [] []]; reflexivity.
Qed.

Lemma title_chars_alnum b l : Forall (fun c => is_alnum c = true) l -> Forall (fun c => is_alnum c = true) (title_chars b l).
Proof.
  intros F. revert b. induction F as [|c l H F IH]; intros b; cbn; [done|]. constructor; [|apply IH].
  destruct b; destruct c as [[] [] [] [] [] [] [] []]; vm_compute in H |- *; congruence.
Qed.

Lemma word_label_upper w : upper (word_label w) = upper w.
Proof.
  assert (T : upper (title_case w) = upper w) by (unfold upper, title_case; by rewrite chars_text, title_chars_upper).
  unfold word_label. rewrite <- T. destruct (find_first _ _ ) as [p|] eqn:F; [|done].
  apply find_first_some in F as [I E]. apply String.eqb_eq in E. rewrite <- E.
  unfold _ACRONYMS in I. by destruct I as [<-|[<-|[<-|[]]]].
Qed.

Lemma word_label_word w : word w -> word (word_label w).
Proof.
  intros [N A]. assert (T : word (title_case w)).
  { split; [|unfold title_case; rewrite chars_text; by apply title_chars_alnum].
    destruct w as [|c w]; [done|]. discriminate. }
  unfold word_label. destruct (find_first _ _) as [p|] eqn:F; [|done]. apply find_first_some in F as [I _].
  unfold _ACRONYMS in I.
  destruct I as [<-|[<-|[<-|[]]]]; (split; [discriminate|]); repeat constructor.
Qed.

(** *** Joined words *)

Lemma join_cons2 sep w v ws : join sep (w :: v :: ws) = w ++ sep ++ join sep (v :: ws).
Proof. done. Qed.

Lemma word_chars w : word w -> exists c l, chars w = c :: l /\ is_alnum c = true.
Proof. intros [N A]. destruct w as [|c w]; [done|]. cbn in *. exists c, (chars w). inversion A. by split. Qed.

Lemma word_chars_end w : word w -> exists c l, chars w = (l ++ [c])%list /\ is_alnum c = true.
Proof.
  intros [N A]. destruct (chars w) as [|c l _] eqn:E using rev_ind; [destruct w; [done|discriminate]|].
  apply Forall_app in A as [_ A]. inversion A. eauto.
Qed.

Lemma join_ends sep ws : ws <> [] -> Forall word ws ->
  (exists c l, chars (join sep ws) = c :: l /\ is_alnum c = true)
  /\ (exists c l, chars (join sep ws) = (l ++ [c])%list /\ is_alnum c = true).
Proof.
  intros N F. destruct ws as [|w ws]; [done|]. clear N. inversion F as [|? ? W F']; subst. clear F. revert w W.
  induction F' as [|v ws V F' IH]; intros w W; [cbn; split; [by apply word_chars|by apply word_chars_end]|].
  destruct (IH v V) as [_ (c & l & E & A)]. destruct (word_chars w W) as (c' & l' & E' & A').
  rewrite join_cons2, !chars_app, E, E'. split; [by eexists _, _|].
  exists c, ((c' :: l') ++ chars sep ++ l)%list. by rewrite <- !app_assoc.
Qed.

(** Stripping leaves alone a text that begins and ends with a letter or digit. *)
Lemma strip_by_kept p s : (forall c, is_alnum c = true -> p c = false) ->
  (exists c l, chars s = c :: l /\ is_alnum c = true) -> (exists c l, chars s = (l ++ [c])%list /\ is_alnum c = true) ->
  strip_by p s = s.
Proof.
  intros P (c & l & E & A) (d & m & E' & A'). unfold strip_by.
  assert (L : lstrip_by p s = s) by (unfold lstrip_by; rewrite E; cbn; rewrite (P c A), <- E; apply text_chars).
  rewrite L. apply (rstrip_by_keep p s (text m) d); [|by apply P]. apply chars_inj. by rewrite chars_app, chars_text.
Qed.

Lemma squash_word b w l : Forall (fun c => is_alnum c = true) w -> w <> [] -> squash b (w ++ l) = (w ++ squash false l)%list.
Proof.
  intros A. revert b. induction A as [|c w H A IH]; intros b N; [done|]. cbn. rewrite H. f_equal.
  destruct w as [|c' w]; [done|]. by apply IH.
Qed.

Lemma squash_join b ws : Forall word ws -> squash b (chars (join " " ws)) = chars (join "_" ws).
Proof.
  intros F. revert b. induction F as [|w ws [N A] F IH]; intros b; [done|].
  assert (NE : chars w <> []) by (destruct w; done). destruct ws as [|v ws].
  - cbn. rewrite <- (app_nil_r (chars w)) at 1. rewrite squash_word by done. apply app_nil_r.
  - rewrite !join_cons2, !chars_app, squash_word by done. cbn. f_equal. f_equal. apply IH.
Qed.

Lemma upper_join ws : upper (join "_" ws) = join "_" (List.map upper ws).
Proof.
  unfold upper. induction ws as [|w ws IH]; [done|]. destruct ws as [|v ws]; [done|].
  cbn [List.map] in *. rewrite !join_cons2, <- IH, !chars_app, !List.map_app, !text_app. done.
Qed.

Lemma split_join ws : ws <> [] -> Forall word ws -> split_on "_" (join "_" ws) = ws.
Proof.
  assert (U : forall w, word w -> ~ In "_"%char (chars w)).
  { intros w [_ A] I. rewrite List.Forall_forall in A. by apply A in I. }
  intros N F. unfold split_on. destruct ws as [|w ws]; [done|]. clear N. inversion F as [|? ? W F']; subst. clear F. revert w W.
  induction F' as [|v ws V F' IH]; intros w W.
  - cbn [join]. rewrite split_chars_whole by by apply U. cbn. by rewrite text_chars.
  - rewrite join_cons2, !chars_app. change (chars "_" ++ ?l)%list with ("_"%char :: l). rewrite split_chars_sep by by apply U.
    cbn [List.map]. rewrite IH by done. by rewrite text_chars.
Qed.

Lemma no_dots ws : Forall word ws -> replace_char "." "_" (join "_" ws) = join "_" ws.
Proof.
  intros F. transitivity (text (chars (join "_" ws))); [|apply text_chars]. unfold replace_char. f_equal.
  assert (D : Forall (fun c => Ascii.eqb c "." = false) (chars (join "_" ws))).
  { assert (W : forall w, word w -> Forall (fun c => Ascii.eqb c "." = false) (chars w)).
    { intros w [_ A]. eapply Forall_impl; [exact A|]. intros c. cbn. destruct (Ascii.eqb_spec c "."); [by subst|done]. }
    induction F as [|w ws V F IH]; [constructor|]. destruct ws as [|v ws]; [by apply W|].
    rewrite join_cons2, !chars_app. apply Forall_app. split; [by apply W|]. by constructor. }
  induction D as [|c l H D IH]; [done|]. cbn [replace_chars]. by rewrite H, IH.
Qed.

Lemma label_words ws : ws <> [] -> Forall word ws ->
  audit_action_label (join "_" ws) = join " " (List.map word_label ws).
Proof.
  intros N F. unfold audit_action_label. rewrite no_dots, split_join by done. do 2 f_equal.
  clear N. induction F as [|w ws [N A] F IH]; [done|]. cbn. destruct (String.eqb_spec w ""); [done|]. cbn. by rewrite IH.
Qed.

(** [audit_action_label, normalized_action_term]: a search for the label an
    action is shown under looks for exactly that action.  The canonical form of
    the label of an identifier of capital words is the identifier, for every
    action of the program and any it may add. *)
Theorem label_reads_back ws :
  ws <> [] -> Forall capital_word ws -> normalized_action_term (audit_action_label (join "_" ws)) = join "_" ws.
Proof.
  intros N C. assert (F : Forall word ws) by (eapply Forall_impl; [exact C|]; by intros w []).
  rewrite label_words by done. set (ls := List.map word_label ws).
  assert (L : Forall word ls) by (apply List.Forall_map; eapply Forall_impl; [exact F|]; apply word_label_word).
  assert (NL : ls <> []) by (unfold ls; by destruct ws).
  unfold normalized_action_term. destruct (join_ends " " ls NL L) as [B E].
  change strip with (strip_by is_space). rewrite (strip_by_kept is_space); [|intros [[] [] [] [] [] [] [] []]; vm_compute; congruence|done|done].
  rewrite squash_join, text_chars by done. destruct (join_ends "_" ls NL L) as [B' E'].
  rewrite strip_by_kept; [|intros [[] [] [] [] [] [] [] []]; vm_compute; congruence|done|done].
  rewrite upper_join. f_equal. unfold ls. rewrite List.map_map. clear -C.
  induction C as [|w ws [_ U] C IH]; [done|]. cbn. rewrite word_label_upper, U. by rewrite IH.
Qed.

Lemma label_reads_back_witness :
  normalized_action_term (audit_action_label "VCENTER_CREATED") = "VCENTER_CREATED"
  /\ audit_action_label "VCENTER_CREATED" = "vCenter Created".
Proof.
  split; [|reflexivity]. apply (label_reads_back ["VCENTER"; "CREATED"]); [done|].
  repeat constructor; done.
Defined.

(** Every action of the program is such an identifier. *)
Definition capital_wordb (w : string) : bool :=
  negb (String.eqb w "") && forallb is_alnum (chars w) && String.eqb (upper w) w.

Lemma capital_wordb_ok w : capital_wordb w = true -> capital_word w.
Proof.
  unfold capital_wordb. rewrite !andb_true_iff, negb_true_iff, String.eqb_eq, String.eqb_neq. intros [[N A] U].
  split; [|done]. split; [done|]. by apply List.Forall_forall, forallb_forall.
Qed.

Lemma audit_actions_words :
  forallb (fun a => String.eqb (join "_" (split_on "_" a)) a && forallb capital_wordb (split_on "_" a)) AUDIT_ACTIONS = true.
Proof. vm_compute. reflexivity. Qed.

(** ** An example *)

Definition EXAMPLE_ROW : AuditRow :=
  MkAuditRow "a1" 100 None (Some "192.0.2.1")
    (audit_event "JOB_STAGE_FAILED" (Some "olga") "job" (Some "vm01") (Some "j1") None None (Some "failure")
       [("stage", JStr "join_domain"); ("vm_id", JStr "vm-7"); ("password", JStr "Pa55")] None).

Definition NO_QUERY : AuditQuery := MkAuditQuery None None None None None None None None None.

Definition VIEWER : User := MkUser "u1" "olga" None true ["viewer"] None.

Lemma audit_details_shown_witness :
  let shown := fst (search_audit (fun _ _ => true) VIEWER 1 50 None NO_QUERY [] [EXAMPLE_ROW]) in
  List.map ao_details shown = [JObj [("stage", JStr "join_domain"); ("password", JStr "[REDACTED]")]]
  /\ forall e, e ∈ shown -> forall k x, entry k x (ao_details e) -> ~ names_internal k.
Proof.
  split; [vm_compute; reflexivity|]. intros e I.
  assert (C : Forall (fun r => recorded (ar_event r)) [EXAMPLE_ROW]) by (repeat constructor; by repeat eexists).
  apply (audit_details_shown (fun _ _ => true) VIEWER 1 50 None NO_QUERY [] [EXAMPLE_ROW] e C I). vm_compute. reflexivity.
Defined.
