(* ===== verification/Inbox.v ===== *)
(** * The notifications of a user

    [app/api/v1/notifications.py]: the list with its count of unread rows, and
    the two requests that mark rows as read.  The rows are what
    [notify_requester] (AuditTrail) describes, with what the table adds. *)

From Stdlib Require Import ZArith Lia Ascii String List Bool Sorting.
From stdpp Require Import base tactics list strings.
From S2P Require Import Prelude PyStr Errors Schemas AuditTrail Listing JobApi.

Local Open Scope string_scope.
Local Open Scope Z_scope.

Record InboxRow := MkInbox {
  nr_id : string;
  nr_created_at : Z;
  nr_read_at : option Z;
  nr_notification : Notification;
}.

#[export] Instance eta_inbox_row : Eta InboxRow := fun r =>
  MkInbox (nr_id r) (nr_created_at r) (nr_read_at r) (nr_notification r).

Record NotificationOut := MkNotificationOut {
  no_id : string;
  no_kind : NotificationKind;
  no_title : string;
  no_message : string;
  no_job_id : option string;
  no_created_at : Z;
  no_read_at : option Z;
}.

Definition _out (r : InboxRow) : NotificationOut :=
  let n := nr_notification r in
  MkNotificationOut (nr_id r) (kind n) (title n) (message n)
    (if String.eqb (notification_job_id n) "" then None else Some (notification_job_id n)) (nr_created_at r) (nr_read_at r).

Definition owned (user : string) (r : InboxRow) : bool := String.eqb (user_id (nr_notification r)) user.
Definition unread (r : InboxRow) : bool := match nr_read_at r with None => true | Some _ => false end.

(** [ORDER BY created_at DESC, id] *)
Definition inbox_order (a b : InboxRow) : bool :=
  (nr_created_at b <? nr_created_at a) || (nr_created_at a =? nr_created_at b) && String.leb (nr_id a) (nr_id b).

Definition list_notifications (user : string) (limit : Z) (rows : list InboxRow) : list NotificationOut * Z :=
  let own := List.filter (owned user) rows in
  (List.map _out (firstn (Z.to_nat limit) (sort_by inbox_order own)), count unread own).

(** [coalesce(read_at, now)] *)
Definition read_row (now : Z) (r : InboxRow) : InboxRow :=
  r <| nr_read_at := Some (default now (nr_read_at r)) |>.

Definition mark_notification_read (user id : string) (now : Z) (rows : list InboxRow) : res ApiFailure (list InboxRow) :=
  let hit r := String.eqb (nr_id r) id && owned user r in
  if existsb hit rows then Ok (List.map (fun r => if hit r then read_row now r else r) rows)
  else not_found "Notification not found.".

Definition mark_all_notifications_read (user : string) (now : Z) (rows : list InboxRow) : list InboxRow :=
  List.map (fun r => if owned user r && unread r then r <| nr_read_at := Some now |> else r) rows.

(** ** Requests *)

Inductive InboxOp := ListRows (limit : Z) | ReadOne (id : string) (now : Z) | ReadAll (now : Z).

Inductive InboxAnswer := Listed (items : list NotificationOut) (unread_count : Z) | Done | Refused (e : ApiFailure).

Definition inbox_step (user : string) (op : InboxOp) (rows : list InboxRow) : InboxAnswer * list InboxRow :=
  match op with
  | ListRows limit => let '(items, n) := list_notifications user limit rows in (Listed items n, rows)
  | ReadOne id now =>
      match mark_notification_read user id now rows with
      | Ok rows' => (Done, rows')
      | Err e => (Refused e, rows)
      end
  | ReadAll now => (Done, mark_all_notifications_read user now rows)
  end.

(** What one user is answered while everyone makes requests, and the rows left. *)
Fixpoint inbox_run (v : string) (ops : list (string * InboxOp)) (rows : list InboxRow) : list InboxAnswer * list InboxRow :=
  match ops with
  | [] => ([], rows)
  | (u, op) :: rest =>
      let '(a, rows1) := inbox_step u op rows in
      let '(l, rows2) := inbox_run v rest rows1 in
      (if String.eqb u v then a :: l else l, rows2)
  end.

(** ** Privacy *)

Definition own_rows (v : string) (rows : list InboxRow) : list InboxRow := List.filter (owned v) rows.
Arguments own_rows : simpl never.

Lemma own_rows_map v (f : InboxRow -> InboxRow) rows : (forall r, owned v (f r) = owned v r) ->
  own_rows v (List.map f rows) = List.map f (own_rows v rows).
Proof. intros O. unfold own_rows. induction rows as [|r rows IH]; [done|]. cbn. rewrite O, IH. by destruct (owned v r). Qed.

Lemma own_rows_others v (f : InboxRow -> InboxRow) rows : (forall r, owned v r = true -> f r = r) ->
  List.map f (own_rows v rows) = own_rows v rows.
Proof.
  intros O. unfold own_rows. induction rows as [|r rows IH]; [done|]. cbn. destruct (owned v r) eqn:E; [|done].
  cbn. by rewrite IH, O.
Qed.

Lemma owned_other u v r : u <> v -> owned v r = true -> owned u r = false.
Proof. unfold owned. intros N E%String.eqb_eq. rewrite E. by apply String.eqb_neq. Qed.

Lemma own_rows_idemp v rows : own_rows v (own_rows v rows) = own_rows v rows.
Proof. unfold own_rows. induction rows as [|r rows IH]; [done|]. cbn. destruct (owned v r) eqn:E; cbn; [by rewrite E, IH|done]. Qed.

Lemma hit_own v id rows : let hit r := String.eqb (nr_id r) id && owned v r in existsb hit (own_rows v rows) = existsb hit rows.
Proof.
  cbn zeta. unfold own_rows. induction rows as [|r rows IH]; [done|]. cbn. destruct (owned v r) eqn:E; cbn; rewrite IH, ?E; [done|by rewrite andb_false_r].
Qed.

(** A request of the user depends on, and changes, the user's own rows only. *)
Lemma own_step v op rows :
  let '(a, rows1) := inbox_step v op rows in
  inbox_step v op (own_rows v rows) = (a, own_rows v rows1).
Proof.
  destruct op as [limit|id now|now]; cbn.
  - unfold list_notifications. change (List.filter (owned v)) with (own_rows v). by rewrite own_rows_idemp.
  - unfold mark_notification_read. rewrite hit_own. destruct (existsb _ rows); [|done]. cbn.
    rewrite own_rows_map; [done|]. intros r. by destruct (_ && owned v r).
  - unfold mark_all_notifications_read. rewrite own_rows_map; [done|]. intros r. by destruct (owned v r && unread r).
Qed.

(** A request of another user leaves them alone. *)
Lemma other_step u v op rows : u <> v -> own_rows v (snd (inbox_step u op rows)) = own_rows v rows.
Proof.
  intros N. destruct op as [limit|id now|now]; cbn; [by destruct (list_notifications u limit rows)| |].
  - unfold mark_notification_read. destruct (existsb _ rows); [|done]. cbn. rewrite own_rows_map.
    + apply own_rows_others. intros r O. by rewrite (owned_other u v r N O), andb_false_r.
    + intros r. by destruct (_ && owned u r).
  - unfold mark_all_notifications_read. rewrite own_rows_map.
    + apply own_rows_others. intros r O. by rewrite (owned_other u v r N O).
    + intros r. by destruct (owned u r && unread r).
Qed.

(** (list_notifications, mark_notification_read, mark_all_notifications_read):
    inboxes are private.  Whatever requests the users interleave, each user is
    answered as if there were no other users and no rows but the user's own,
    and these rows end up the same: nobody learns of, or marks, the
    notification of somebody else, not even that it exists. *)
Lemma inbox_private v ops rows :
  let '(answers, final) := inbox_run v ops rows in
  inbox_run v (List.filter (fun o => String.eqb (fst o) v) ops) (own_rows v rows) = (answers, own_rows v final).
Proof.
  revert rows. induction ops as [|[u op] ops IH]; intros rows; [done|]. cbn [inbox_run List.filter fst].
  destruct (inbox_step u op rows) as [a rows1] eqn:S. specialize (IH rows1).
  destruct (inbox_run v ops rows1) as [l rows2]. destruct (String.eqb_spec u v) as [->|N].
  - pose proof (own_step v op rows) as O. rewrite S in O. cbn [inbox_run]. rewrite O, IH, String.eqb_refl. done.
  - pose proof (other_step u v op rows N) as O. rewrite S in O. cbn [snd] in O. by rewrite <- O.
Qed.

(** ** Reading *)

(** The time of the first reading stays. *)
Lemma read_time_stays u op rows r t : r ∈ rows -> nr_read_at r = Some t ->
  r ∈ snd (inbox_step u op rows).
Proof.
  intros I R. destruct op as [limit|id now|now]; cbn; [by destruct (list_notifications u limit rows)| |].
  - unfold mark_notification_read. destruct (existsb _ rows); [|done]. cbn. apply list_elem_of_fmap. exists r. split; [|done].
    destruct (_ && owned u r); [|done]. unfold read_row. rewrite R. destruct r. cbn in *. by subst.
  - unfold mark_all_notifications_read. apply list_elem_of_fmap. exists r. split; [|done]. unfold unread. by rewrite R, andb_false_r.
Qed.

(** Nothing is unread behind [read-all]. *)
Lemma read_all_reads u now rows limit :
  snd (list_notifications u limit (mark_all_notifications_read u now rows)) = 0.
Proof.
  cbn. apply count_none. intros r I. apply list_elem_of_In, List.filter_In in I as [I O].
  apply List.in_map_iff in I as (r0 & E & _). destruct (owned u r0) eqn:O0, (unread r0) eqn:U; cbn in E; subst r; try done; congruence.
Qed.
