(* ===== verification/ProvisioningApi.v ===== *)
(** * The provisioning endpoints that only ask

    [app/api/v1/provisioning.py], [applications.py] and [certificates.py]: what
    a requester may choose from (credentials, applications, certificate
    packages), the dry run of a request and the check of an address.  They
    write nothing but their audit rows. *)

From Stdlib Require Import ZArith Lia Ascii String List Bool.
From stdpp Require Import base tactics list strings gmap.
From S2P Require Import Prelude PyStr Errors Schemas StateMachine Jobs AuditTrail Service Effects World Listing.
From S2P Require Import Resolver StagesApps Catalog Credentials CertificateAdmin VCenter VCenterAdmin Conflict Preflight.

Local Open Scope string_scope.
Local Open Scope Z_scope.

(** ** The credentials on offer *)

Record CredentialOptionOut := MkCredentialOption { co_name : string; co_purpose : string; co_revision : Z }.

(** [encrypted_username IS NOT NULL AND encrypted_password IS NOT NULL] *)
Definition usable_credential (r : SecretReference) : bool :=
  String.eqb (sr_provider r) "database"
  && match encrypted_username r, encrypted_password r with Some _, Some _ => true | _, _ => false end.

Definition list_provisioning_credentials (purpose : option string) (rows : list SecretReference) : list CredentialOptionOut :=
  let wanted r := usable_credential r && match purpose with
                                         | None | Some "" => true
                                         | Some p => String.eqb (sr_purpose r) p
                                         end in
  List.map (fun r => MkCredentialOption (sr_name r) (sr_purpose r) (sr_revision r))
    (sort_by (fun a b => String.leb (sr_name a) (sr_name b)) (List.filter wanted rows)).

(** ** The applications and certificates on offer *)

(** [list_applications]; the rows are shown with all their columns. *)
Definition list_applications (enabled_only : bool) (t : Catalog) : list Application :=
  sort_by (fun a b => String.leb (app_name (app_row a)) (app_name (app_row b)))
    (List.filter (fun a => negb enabled_only || app_enabled (app_row a)) (List.map snd (map_to_list t))).

(** [_package_out] *)
Definition _package_out (enabled_only : bool) (db : CertDb) (p : CertificatePackage) : CertificatePackage * list Certificate :=
  (p, List.filter (fun c => String.eqb (ce_package c) (pe_id p) && (ce_enabled c || negb enabled_only)) (certificates db)).

Definition list_certificate_packages (enabled_only : bool) (db : CertDb) : list (CertificatePackage * list Certificate) :=
  List.map (_package_out enabled_only db)
    (sort_by (fun a b => String.leb (pe_name a) (pe_name b)) (List.filter (fun p => negb enabled_only || pe_enabled p) (packages db))).

(** An application on offer is in the catalog and enabled; what it depends on
    need not be. *)
Lemma offered_application t a : In a (list_applications true t) -> exists id, t !! id = Some a /\ app_enabled (app_row a) = true.
Proof.
  intros I. apply (Permutation_in _ (sort_by_perm _ _)), filter_In in I as [I E]. apply in_map_iff in I as ([id x] & <- & I).
  exists id. split; [|done]. by apply elem_of_map_to_list, list_elem_of_In.
Qed.

(** The certificates shown with a package on offer are those a job that selects
    the package deploys: the rows its stages load, by kind, are the rows of
    exactly these certificates. *)
Lemma shown_certificates_deployed db p shown kind :
  NoDup (List.map pe_id (packages db)) -> In (p, shown) (list_certificate_packages true db) ->
  List.filter (fun c => bool_decide (package_id c ∈ [pe_id p]) && cert_enabled c && package_enabled c && bool_decide (certificate_type c = kind))
    (List.map (certificate_row db) (certificates db))
  = List.map (certificate_row db) (List.filter (fun c => bool_decide (ce_type c = kind)) shown).
Proof.
  intros N I. apply in_map_iff in I as (q & E & I). injection E as -> <-.
  apply (Permutation_in _ (sort_by_perm _ _)), filter_In in I as [I En]. cbn in En.
  assert (F : package_by_id (pe_id p) db = Some p).
  { unfold package_by_id. destruct (find_first _ (packages db)) as [q|] eqn:F.
    - apply find_first_some in F as [J E%String.eqb_eq]. f_equal. by apply (nodup_map_inj pe_id (packages db)).
    - apply find_first_none in F. rewrite List.Forall_forall in F. specialize (F p I). by rewrite String.eqb_refl in F. }
  induction (certificates db) as [|c l IH]; [done|]. cbn [List.map List.filter].
  change (package_id (certificate_row db c)) with (ce_package c). change (cert_enabled (certificate_row db c)) with (ce_enabled c).
  change (certificate_type (certificate_row db c)) with (ce_type c).
  destruct (String.eqb_spec (ce_package c) (pe_id p)) as [E|Ne].
  - rewrite E. rewrite (bool_decide_eq_true_2 (pe_id p ∈ [pe_id p])) by (by left).
    assert (P : package_enabled (certificate_row db c) = true) 
      by (change (match package_by_id (ce_package c) db with Some q => pe_enabled q | None => false end = true); by rewrite E, F).
    rewrite P. cbn [andb]. rewrite orb_false_r, andb_true_r. destruct (ce_enabled c); cbn [andb List.filter]; [|exact IH].
    destruct (bool_decide (ce_type c = kind)); cbn [List.map]; [by rewrite IH|exact IH].
  - rewrite bool_decide_eq_false_2 by (by intros ?%list_elem_of_singleton). exact IH.
Qed.

(** ** The dry run *)

Definition dry_run_audit (user : option Caller) (r : ProvisioningRequest) (report : PreflightReport) : AuditEvent :=
  let failures := count (fun c => bool_decide (check_status c = FAIL)) (Schemas.checks report) in
  let warnings := count (fun c => bool_decide (check_status c = WARN)) (Schemas.checks report) in
  audit_event "DRY_RUN_PERFORMED" (option_map snd user) "provisioning_request" (Some (vm_spec_name (vm r))) None
    (Some (compute_datacenter_id (compute r))) None (Some (if ready report then "ready" else "blocked"))
    [("checks", JNum (Z.of_nat (List.length (Schemas.checks report)))); ("failures", JNum failures); ("warnings", JNum warnings)] None.

Definition ip_check_audit (user : option Caller) (address : string) (conflict : bool) : AuditEvent :=
  audit_event "IP_CONFLICT_CHECK_PERFORMED" (option_map snd user) "ip_address" (Some address) None None None
    (Some (if conflict then "conflict" else "clear")) [] None.

(** The vCenter an address is looked up in: a connection that is unknown or
    disabled is left out without a word. *)
Definition conflict_target (vcenter : option string) (rows : list VCenterRow) : option VCenterTarget :=
  match vcenter with
  | None => None
  | Some id =>
      match find_first (fun r => String.eqb (row_id r) id) rows with
      | Some r => if conn_enabled (connection r) then Some (target_of (connection r)) else None
      | None => None
      end
  end.

Section Checks.
Context {X : Type} `{World X}.

Definition validate_provisioning_request (user : option Caller) (req : ProvisioningRequest) : M X (PreflightReport * AuditEvent) :=
  let* report := validate req true in ret (report, dry_run_audit user req report).

Definition conflict_providers (target : option VCenterTarget) : list Provider :=
  ([IcmpPingProvider; DnsForwardProvider] ++ match target with Some t => [VMwareInventoryProvider t None] | None => [] end)%list.

Definition check_ip_conflict (user : option Caller) (address : string) (prefix : Z) (vcenter : option string) (rows : list VCenterRow)
    : M X (IpConflictReport * AuditEvent) :=
  let* report := run_conflict_check address prefix (conflict_providers (conflict_target vcenter rows)) in
  ret (report, ip_check_audit user address (conflict_detected report)).

(** An unknown or disabled connection is as good as none. *)
Lemma ip_check_without_inventory user address prefix id rows :
  Forall (fun r => row_id r = id -> conn_enabled (connection r) = false) rows ->
  check_ip_conflict user address prefix (Some id) rows = check_ip_conflict user address prefix None rows.
Proof.
  intros F. unfold check_ip_conflict, conflict_target. destruct (find_first _ rows) as [r|] eqn:E; [|done].
  apply find_first_some in E as [I E]. rewrite List.Forall_forall in F. rewrite (F r I); [done|by apply String.eqb_eq].
Qed.

(** One result per provider, whatever a provider does; a detected conflict is
    the conflict of a named provider. *)
Lemma run_providers_names address prefix (l : list (Provider (X := X))) r results r' :
  run_providers address prefix l r = (Return results, r') -> List.length results = List.length l.
Proof.
  revert r results r'. induction l as [|p l IH]; intros r results r'; cbn; [by intros [= <- _]|]. unfold bind.
  destruct (catch_exception _ _ r) as [[a|e] r1]; [|done]. destruct (run_providers address prefix l r1) as [[rest|e] r2] eqn:R; [|done].
  intros [= <- _]. cbn. f_equal. by eapply IH.
Qed.

Lemma check_ip_conflict_spec user address prefix vcenter rows r report audit r' :
  check_ip_conflict user address prefix vcenter rows r = (Return (report, audit), r') ->
  List.length (providers report) = List.length (conflict_providers (conflict_target vcenter rows))
  /\ (conflict_detected report = true <-> exists p, In p (providers report) /\ provider_status p = CONFLICT_DETECTED)
  /\ AuditTrail.result audit = Some (if conflict_detected report then "conflict" else "clear").
Proof.
  unfold check_ip_conflict, run_conflict_check, bind. destruct (run_providers _ _ _ r) as [[results|e] r1] eqn:R; [|done].
  intros [= <- <- _]. apply run_providers_names in R. split_and!; [exact R| |done].
  cbn [conflict_detected providers]. rewrite existsb_exists. split; intros (p & I & E); exists p; split; [done|by eapply bool_decide_eq_true_1|done|by apply bool_decide_eq_true_2].
Qed.

End Checks.

(** ** What is offered works *)

Section Offers.
Context `{FernetLaws}.

Lemma first_of_name name rows r : NoDup (List.map sr_name rows) -> In r rows -> sr_name r = name -> sr_provider r = "database" ->
  find_first (fun r => String.eqb (sr_name r) name && String.eqb (sr_provider r) "database") rows = Some r.
Proof.
  intros N I <- P. induction rows as [|x rows IH]; [done|]. cbn in *. apply NoDup_cons in N as [Nx N]. destruct I as [->|I].
  - by rewrite String.eqb_refl, P.
  - destruct (String.eqb_spec (sr_name x) (sr_name r)) as [E|]; [|by apply IH].
    destruct Nx. rewrite E. by apply list_elem_of_In, in_map.
Qed.

(** (list_provisioning_credentials against DatabaseCredentialProvider): while
    the names are unique and what is stored was encrypted under a configured
    key, every credential on offer can be used: the worker gets a user name
    and a password for it. *)
Lemma offered_credential_resolves keys purpose rows o :
  NoDup (List.map sr_name rows) ->
  Forall (fun r => sr_name r <> "" /\ sealed_row keys r /\ encrypted_username r <> Some "" /\ encrypted_password r <> Some "") rows ->
  In o (list_provisioning_credentials purpose rows) ->
  exists u w, get_credentials keys rows (co_name o ++ "/username") (co_name o ++ "/password") = Ok (u, w).
Proof.
  intros N F I. apply in_map_iff in I as (r & <- & I). cbn [co_name].
  apply (Permutation_in _ (sort_by_perm _ _)), filter_In in I as [I (U & _)%andb_true_iff].
  rewrite List.Forall_forall in F. destruct (F r I) as (Nr & S & Eu & Ew).
  unfold usable_credential in U. apply andb_true_iff in U as [P%String.eqb_eq U].
  destruct (encrypted_username r) as [cu|] eqn:Cu; [|done]. destruct (encrypted_password r) as [cw|] eqn:Cw; [|done].
  pose proof (first_of_name _ rows r N I eq_refl P) as G.
  assert (O : forall f, exists root v, root ∈ _key_roots keys /\ holds_secret root f v r).
  { intros f. specialize (S f). unfold holds_secret. destruct f; cbn [encrypted] in *; rewrite ?Cu, ?Cw in *.
    - destruct cu; [done|]. destruct S as (root & n & v & Ir & E). exists root, v. split; [done|]. exists n. by rewrite E.
    - destruct cw; [done|]. destruct S as (root & n & v & Ir & E). exists root, v. split; [done|]. exists n. by rewrite E. }
  destruct (O Username) as (r1 & u & I1 & H1), (O Password) as (r2 & w & I2 & H2). exists u, w. unfold get_credentials.
  pose proof (get_secret_row keys rows _ r r1 Username u Nr G H1 I1) as E1.
  pose proof (get_secret_row keys rows _ r r2 Password w Nr G H2 I2) as E2.
  cbn [field_name] in E1, E2. change ("/" ++ "username") with "/username" in E1. change ("/" ++ "password") with "/password" in E2.
  by rewrite E1, E2.
Qed.

End Offers.
