(* ===== verification/Api.v ===== *)
(** * The HTTP interface over the whole site

    The endpoints that change state ([app/api/v1/*.py]) behind the
    authorization of [app/auth/dependencies.py], over one record of every
    table they write: who may change what, what the audit trail keeps of it,
    and the invariants the site keeps as a whole. *)

From Stdlib Require Import ZArith Lia Ascii String List Bool.
From stdpp Require Import base tactics list strings gmap relations.
From S2P Require Import Prelude PyStr Errors Schemas StateMachine Jobs AuditTrail Repository Queue Service Effects World.
From S2P Require Import Auth Conflict RequestBody Catalog CatalogFacts Credentials Settings CertificateAdmin VCenter VCenterAdmin.
From S2P Require Import SampleWorld ProvisioningApi JobApi Inbox AuditLog.

Local Open Scope string_scope.
Local Open Scope Z_scope.

(** ** State *)

Record Site := MkSite {
  accounts : AuthDb;
  jobs : table;
  applications : Catalog;
  certificate_store : CertDb;
  vcenters : list VCenterRow;
  credentials : list SecretReference;
  platform_settings : list (string * json);
  notifications : list InboxRow;
  trail : list AuditEvent;
}.

#[export] Instance eta_site : Eta Site := fun s =>
  MkSite (accounts s) (jobs s) (applications s) (certificate_store s) (vcenters s) (credentials s) (platform_settings s)
    (notifications s) (trail s).

(** ** Requests *)

Inductive CatalogRequest :=
| CreateApplication (id : string) (p : ApplicationCreate)
| UpdateApplication (id : string) (p : ApplicationUpdate)
| DeleteApplication (id : string).

Inductive CredentialRequest :=
| CreateCredential (id nonce1 nonce2 : string) (p : SecretReferenceCreate)
| UpdateCredential (nonce1 nonce2 id : string) (p : SecretReferenceUpdate)
| DeleteCredential (id : string).

(** The identifiers of new rows and the answers of vCenter and of the network
    come with the request: [report] is what the preflight validation found,
    [conflict] whether a probe found the address in use. *)
Inductive Request :=
| ValidateRequest (body : json) (report : PreflightReport)
| IpCheck (address : string) (conflict : bool)
| SubmitJob (body : json) (key : option string) (report : option PreflightReport) (id : string)
| RetryJob (job : string) (stage_key : option string)
| CancelJob (job : string)
| OnApplications (r : CatalogRequest)
| OnCertificates (r : CertRequest)
| OnVCenters (r : VCenterRequest)
| OnCredentials (r : CredentialRequest)
| OnSettings (p : PlatformSettingsUpdate)
| OnInbox (op : InboxOp).

(** The permission of the route; the inbox asks for an account only. *)
Definition permission_of (r : Request) : option Permission :=
  match r with
  | ValidateRequest _ _ | IpCheck _ _ => Some PROVISIONING_VALIDATE
  | SubmitJob _ _ _ _ => Some PROVISIONING_SUBMIT
  | RetryJob _ _ => Some JOBS_RETRY
  | CancelJob _ => Some JOBS_CANCEL
  | OnApplications _ => Some ADMIN_APPLICATIONS
  | OnCertificates _ => Some ADMIN_CERTIFICATES
  | OnVCenters _ => Some ADMIN_VCENTERS
  | OnCredentials _ => Some ADMIN_CREDENTIALS
  | OnSettings _ => Some ADMIN_SETTINGS
  | OnInbox _ => None
  end.

Inductive ApiError :=
| Unauthorised (f : AuthFailure)
| BadBody
| JobMissing (e : AppError)
| OfService (f : Failure)
| OfCatalog (e : CatalogError)
| OfAdmin (f : AdminFailure)
| OfInbox (e : ApiFailure).

Inductive Answer :=
| JobAnswer (job : string) (created : bool)
| InboxItems (items : list NotificationOut) (unread_count : Z)
| Ready (ready : bool)
| Conflicting (conflict : bool)
| Stored.

(** ** Handlers *)

Definition caller (u : User) : option Caller := Some (uid u, user_login u).

(** [_get_job] *)
Definition _get_job (id : string) (t : table) : res ApiError Job :=
  match row id t with
  | Some j => Ok j
  | None => Err (JobMissing (MkAppError NotFoundError "Provisioning job not found." []))
  end.

(** [idempotency_key[:120] if idempotency_key else None] *)
Definition header_key (key : option string) : option string :=
  match key with None | Some "" => None | Some k => Some (take_str 120 k) end.

(** The row of the request and its audit row are committed together. *)
Definition committed {E D} (wrap : E -> ApiError) (put : D -> Site -> Site) (r : res E (AuditEvent * D)) (s : Site)
    : res ApiError Answer * Site :=
  match r with
  | Ok (e, d) => (Ok Stored, (put d s) <| trail := (trail s ++ [e])%list |>)
  | Err f => (Err (wrap f), s)
  end.

(** The audit row and the table of an answer that also shows the row. *)
Definition recorded {A D} (r : res AdminFailure (A * AuditEvent * D)) : res AdminFailure (AuditEvent * D) :=
  match r with Ok (_, e, d) => Ok (e, d) | Err f => Err f end.

Section Handlers.

Context {X : Type} `{Platform X} `{Fernet} `{X509} `{Pydantic}.
Context (keys : KeySettings).
Context (reported : list Constraint -> Constraint) (fp : ProvisioningRequest -> string).

(** Whether the stored request of a job still parses. *)
Context (runnable : string -> bool).

(** [submit_job] *)
Definition submit_job (u : User) (now : Z) (seen : table) (body : json) (key : option string) (report : option PreflightReport)
    (id : string) (s : Site) : res ApiError Answer * Site :=
  match submission_of body with
  | None => (Err BadBody, s)
  | Some r =>
      let '(answer, t, evs) := submit_provisioning reported fp (caller u) r (header_key key) None report id now seen (jobs s) in
      (match answer with Ok (j, created) => Ok (JobAnswer (job_id j) created) | Err f => Err (OfService f) end,
       s <| jobs := t |> <| trail := (trail s ++ evs)%list |>)
  end.

(** The service commits the row of the job, the endpoint the audit row behind
    it: the sites committed, one after the other. *)
Definition in_two_commits {A} (answer : res Failure A) (id : string) (t : table) (evs : list AuditEvent) (s : Site)
    : res ApiError Answer * list Site :=
  match answer with
  | Ok _ => (Ok (JobAnswer id false), [s <| jobs := t |>; s <| jobs := t |> <| trail := (trail s ++ evs)%list |>])
  | Err f => (Err (OfService f), [])
  end.

(** [retry_job]: [reset_for_retry] commits, and [retry_job] again. *)
Definition retry_job (u : User) (now : Z) (seen : table) (id : string) (stage_key : option string) (s : Site)
    : res ApiError Answer * list Site :=
  match _get_job id seen with
  | Err e => (Err e, [])
  | Ok j =>
      let '(answer, t, evs) := retry_stages reported (caller u) (runnable id) stage_key now j seen (jobs s) in
      in_two_commits answer id t evs s
  end.

(** [cancel_job_endpoint]: [cancel_job] or [request_cancel] commits, and the
    endpoint again. *)
Definition cancel_job_endpoint (u : User) (now : Z) (seen : table) (id : string) (s : Site) : res ApiError Answer * list Site :=
  match _get_job id seen with
  | Err e => (Err e, [])
  | Ok j =>
      let '(answer, t, evs) := cancel_job reported (caller u) now j (jobs s) in
      in_two_commits answer id t evs s
  end.

(** The site the last commit leaves. *)
Definition settle (s : Site) (p : res ApiError Answer * list Site) : res ApiError Answer * Site := (fst p, List.last (snd p) s).

Definition swap {E A B} (r : res E (A * B)) : res E (B * A) := match r with Ok (a, b) => Ok (b, a) | Err e => Err e end.

Definition catalog_answer (user : option Caller) (r : CatalogRequest) (t : Catalog) : res CatalogError (AuditEvent * Catalog) :=
  match r with
  | CreateApplication id p => swap (create_application (X := X) user id p t)
  | UpdateApplication id p => swap (update_application (X := X) user id p t)
  | DeleteApplication id => swap (delete_application user id t)
  end.

Definition cert_answer (user : option Caller) (r : CertRequest) (db : CertDb) : res AdminFailure (AuditEvent * CertDb) :=
  match r with
  | CreatePackage id p => recorded (create_package user id p db)
  | UpdatePackage id p => recorded (update_package user id p db)
  | DeletePackage id => delete_package user id db
  | RegisterCertificate id p => recorded (register_certificate user id p db)
  | UpdateCertificate id p => recorded (update_certificate user id p db)
  | DeleteCertificate id => delete_certificate user id db
  end.

Definition vcenter_answer (user : option Caller) (r : VCenterRequest) (rows : list VCenterRow)
    : res AdminFailure (AuditEvent * list VCenterRow) :=
  match r with
  | CreateVCenter id p => recorded (create_vcenter user id p rows)
  | UpdateVCenter id p => recorded (update_vcenter user id p rows)
  | DeleteVCenter id => delete_vcenter user id rows
  | TestedVCenter id now result => let? row := _get_vcenter id rows in Ok (test_recorded user now row result rows)
  end.

Definition credential_answer (user : option Caller) (r : CredentialRequest) (rows : list SecretReference)
    : res AdminFailure (AuditEvent * list SecretReference) :=
  match r with
  | CreateCredential id nonce1 nonce2 p => recorded (create_credential keys user id nonce1 nonce2 p rows)
  | UpdateCredential nonce1 nonce2 id p => recorded (update_credential keys user nonce1 nonce2 id p rows)
  | DeleteCredential id => delete_credential user id rows
  end.

(** The settings are committed before the page is made of them. *)
Definition save_settings (u : User) (p : PlatformSettingsUpdate) (s : Site) : res ApiError Answer * Site :=
  match update_settings (X := X) (caller u) p (platform_settings s) with
  | Ok (e, rows, page) =>
      (match page with Ok _ => Ok Stored | Err f => Err (OfAdmin f) end,
       s <| platform_settings := rows |> <| trail := (trail s ++ [e])%list |>)
  | Err f => (Err (OfAdmin f), s)
  end.

(** The handler of a route, for the user the authorization let in. *)
Definition handle (u : User) (now : Z) (seen : table) (r : Request) (s : Site) : res ApiError Answer * Site :=
  let c := caller u in
  match r with
  | ValidateRequest body report =>
      match submission_of body with
      | None => (Err BadBody, s)
      | Some req => (Ok (Ready (ready report)), s <| trail := (trail s ++ [dry_run_audit c req report])%list |>)
      end
  | IpCheck address conflict =>
      (Ok (Conflicting conflict), s <| trail := (trail s ++ [ip_check_audit c address conflict])%list |>)
  | SubmitJob body key report id => submit_job u now seen body key report id s
  | RetryJob job stage_key => settle s (retry_job u now seen job stage_key s)
  | CancelJob job => settle s (cancel_job_endpoint u now seen job s)
  | OnApplications r => committed OfCatalog (fun t s => s <| applications := t |>) (catalog_answer c r (applications s)) s
  | OnCertificates r => committed OfAdmin (fun t s => s <| certificate_store := t |>) (cert_answer c r (certificate_store s)) s
  | OnVCenters r => committed OfAdmin (fun t s => s <| vcenters := t |>) (vcenter_answer c r (vcenters s)) s
  | OnCredentials r => committed OfAdmin (fun t s => s <| credentials := t |>) (credential_answer c r (credentials s)) s
  | OnSettings p => save_settings u p s
  | OnInbox op =>
      let '(a, rows) := inbox_step (uid u) op (notifications s) in
      (match a with
       | Listed items n => Ok (InboxItems items n)
       | Done => Ok Stored
       | Inbox.Refused e => Err (OfInbox e)
       end, s <| notifications := rows |>)
  end.

(** ** A request *)

Context (jwt_decode : Z -> string -> res JwtFault (list (string * json))) (str_json : json -> string).

(** The user of the bearer token, with the permission of the route. *)
Definition authorize (r : Request) (now : Z) (bearer : option string) (s : Site) : res AuthFailure User :=
  match permission_of r with
  | Some p => require_permission jwt_decode str_json p now bearer (accounts s)
  | None => get_current_user jwt_decode str_json now bearer (accounts s)
  end.

(** [seen] is the table of jobs when the request read it. *)
Definition serve (now : Z) (bearer : option string) (seen : table) (r : Request) (s : Site) : res ApiError Answer * Site :=
  match authorize r now bearer s with
  | Err f => (Err (Unauthorised f), s)
  | Ok u => handle u now seen r s
  end.

(** The sites a request commits.  The endpoints but [retry_job] and
    [cancel_job_endpoint] commit once, at their end. *)
Definition handle_commits (u : User) (now : Z) (seen : table) (r : Request) (s : Site) : list Site :=
  match r with
  | RetryJob job stage_key => snd (retry_job u now seen job stage_key s)
  | CancelJob job => snd (cancel_job_endpoint u now seen job s)
  | _ => [snd (handle u now seen r s)]
  end.

Definition request_commits (now : Z) (bearer : option string) (seen : table) (r : Request) (s : Site) : list Site :=
  match authorize r now bearer s with
  | Err _ => []
  | Ok u => handle_commits u now seen r s
  end.

Definition site_step (s : Site) (q : Z * option string * table * Request) : Site :=
  let '(now, bearer, seen, r) := q in snd (serve now bearer seen r s).

Definition site_run (requests : list (Z * option string * table * Request)) (s : Site) : Site := fold_left site_step requests s.

End Handlers.

(** ** Who changes what *)

Inductive Table :=
| Accounts | Jobs | Applications | Certificates | VCenters | SecretReferences | PlatformSettings | Notifications.

Definition same (t : Table) (s s' : Site) : Prop :=
  match t with
  | Accounts => accounts s' = accounts s
  | Jobs => jobs s' = jobs s
  | Applications => applications s' = applications s
  | Certificates => certificate_store s' = certificate_store s
  | VCenters => vcenters s' = vcenters s
  | SecretReferences => credentials s' = credentials s
  | PlatformSettings => platform_settings s' = platform_settings s
  | Notifications => notifications s' = notifications s
  end.

(** The roles that may change a table through a request. *)
Definition writers (t : Table) : list string :=
  match t with
  | Accounts => []
  | Jobs => ["operator"; "administrator"]
  | Notifications => ["viewer"; "operator"; "administrator"]
  | _ => ["administrator"]
  end.

(** The table a permission is about. *)
Definition governs (p : Permission) : option Table :=
  match p with
  | PROVISIONING_SUBMIT | JOBS_RETRY | JOBS_CANCEL => Some Jobs
  | ADMIN_APPLICATIONS => Some Applications
  | ADMIN_CERTIFICATES => Some Certificates
  | ADMIN_VCENTERS => Some VCenters
  | ADMIN_CREDENTIALS => Some SecretReferences
  | ADMIN_SETTINGS => Some PlatformSettings
  | _ => None
  end.

(** An audit row of a user, without a secret in its details. *)
Definition by_user (c : option Caller) (e : AuditEvent) : Prop := username e = option_map snd c /\ secret_free (details e).

Lemma audit_event_by act c rtype rname job dc_id dc_name res det text :
  by_user c (audit_event act (option_map snd c) rtype rname job dc_id dc_name res det text).
Proof. split; [done|]. intros k x. apply clean_entry, redact_clean. Qed.

(** What the answer of a handler says of its audit row. *)
Definition audited {E D} (c : option Caller) (r : res E (AuditEvent * D)) : Prop :=
  match r with Ok (e, _) => by_user c e | Err _ => True end.

Ltac audit_row :=
  repeat (case_match; simplify_eq/=; try exact I);
  try (unfold application_audit, cert_audit, admin_audit; apply audit_event_by).

Section Accountability.

Context {X : Type} `{Platform X} `{Fernet} `{X509} `{Pydantic}.
Context (keys : KeySettings).
Context (reported : list Constraint -> Constraint) (fp : ProvisioningRequest -> string) (runnable : string -> bool).

Lemma swap_audited {E A} (c : option Caller) (r : res E (A * AuditEvent)) :
  (forall a e, r = Ok (a, e) -> by_user c e) -> audited c (swap r).
Proof. destruct r as [[a e]|]; cbn; [|done]. intros Q. by eapply Q. Qed.

Lemma catalog_audited c r t : audited c (catalog_answer (X := X) c r t).
Proof.
  destruct r as [id p|id p|id]; cbn; apply swap_audited; intros a e;
    unfold create_application, update_application, create_application_row, update_application_row, delete_application, res_bind;
    intros E; audit_row.
Qed.

Lemma cert_audited c r db : audited c (cert_answer c r db).
Proof.
  destruct r; cbn; unfold recorded, create_package, update_package, delete_package, register_certificate, update_certificate,
    delete_certificate, res_bind; audit_row.
Qed.

Lemma vcenter_audited c r rows : audited c (vcenter_answer c r rows).
Proof. destruct r; cbn; unfold recorded, create_vcenter, update_vcenter, delete_vcenter, res_bind; audit_row. Qed.

Lemma credential_audited c r rows : audited c (credential_answer keys c r rows).
Proof.
  destruct r; cbn; unfold recorded, create_credential, update_credential, delete_credential, res_bind; audit_row.
Qed.

Lemma settings_audited c p rows e rows' page : update_settings (X := X) c p rows = Ok (e, rows', page) -> by_user c e.
Proof. unfold update_settings. intros (q & _ & [= <- _ _])%res_bind_ok. apply audit_event_by. Qed.

Lemma submit_audited c r k src report id now t0 t :
  let '(_, t', evs) := submit_provisioning reported fp c r k src report id now t0 t in
  Forall (by_user c) evs /\ (evs = [] -> t' = t).
Proof.
  unfold submit_provisioning, preflight_gate, created_audit.
  repeat case_match; simplify_eq/=; (split; [|done]); repeat constructor; apply audit_event_by.
Qed.

Lemma retry_audited c ok k now j t0 t :
  let '(_, t', evs) := retry_stages reported c ok k now j t0 t in
  (evs = [] /\ t' = t) \/ exists e, evs = [e] /\ by_user c e.
Proof.
  unfold retry_stages. repeat case_match; simplify_eq/=; solve [by left|right; eexists; split; [done|apply audit_event_by]].
Qed.

Lemma cancel_audited c now j t :
  let '(_, t', evs) := cancel_job reported c now j t in
  (evs = [] /\ t' = t) \/ exists e, evs = [e] /\ by_user c e.
Proof.
  unfold cancel_job. repeat case_match; simplify_eq/=; solve [by left|right; eexists; split; [done|apply audit_event_by]].
Qed.

(** The commit of a change whose audit row is still to come: only the jobs
    differ, and the next commit, the last one, adds the row. *)
Definition row_follows (u : User) (commits : list Site) (s s' : Site) : Prop :=
  s' = s <| jobs := jobs s' |>
  /\ exists e, commits = [s'; s' <| trail := (trail s ++ [e])%list |>] /\ by_user (caller u) e.

(** What a commit of a handler leaves of the site: the rows of its user in the
    trail, a row for every change outside the inbox, the tables of other
    routes and the inboxes of other users as they were. *)
Record accountable (u : User) (r : Request) (commits : list Site) (s s' : Site) : Prop := {
  kept_tables t : same t s s' \/ match permission_of r with Some p => governs p = Some t | None => t = Notifications end;
  kept_inboxes v : v <> uid u -> own_rows v (notifications s') = own_rows v (notifications s);
  kept_trail : exists evs, trail s' = (trail s ++ evs)%list /\ Forall (by_user (caller u)) evs
                           /\ (evs = [] -> s' = s <| notifications := notifications s' |> \/ row_follows u commits s s');
}.

Lemma accountable_same u r l s : accountable u r l s s.
Proof.
  split; [by left; destruct t|done|]. exists []. rewrite app_nil_r. split_and!; [done|constructor|]. left. by destruct s.
Qed.

(** Appending rows of the user and writing the one table of the route. *)
Lemma accountable_write u r p t l s s' evs :
  permission_of r = Some p -> governs p = Some t -> (forall t', t' = t \/ same t' s s') -> t <> Notifications ->
  trail s' = (trail s ++ evs)%list -> Forall (by_user (caller u)) evs ->
  (evs = [] -> s' = s \/ row_follows u l s s') -> accountable u r l s s'.
Proof.
  intros P G O N T F E. split.
  - intros t'. rewrite P. destruct (O t') as [->|S]; [by right|by left].
  - intros v _. destruct (O Notifications) as [<-|S]; [done|]. cbn in S. by rewrite S.
  - exists evs. split_and!; [done|done|]. intros Q. destruct (E Q) as [->|]; [left; by destruct s|by right].
Qed.

Lemma committed_accountable {E D} (wrap : E -> ApiError) put (a : res E (AuditEvent * D)) u r p t l s :
  permission_of r = Some p -> governs p = Some t -> t <> Notifications ->
  (forall d evs t', t' = t \/ same t' s ((put d s) <| trail := evs |>)) ->
  audited (caller u) a -> accountable u r l s (snd (committed wrap put a s)).
Proof.
  intros P G N O A. destruct a as [[e d]|f]; cbn; [|apply accountable_same].
  eapply accountable_write with (evs := [e]); [done|done|intros t'; apply O|done|done|by constructor; [exact A|constructor]|done].
Qed.

(** Only a row of the trail. *)
Lemma noted_accountable u r l s e : by_user (caller u) e -> accountable u r l s (s <| trail := (trail s ++ [e])%list |>).
Proof.
  intros B. split; [by left; destruct t|done|]. exists [e]. split_and!; [done|by constructor; [exact B|constructor]|done].
Qed.

(** Nothing but the jobs and the trail changed. *)
Lemma jobs_accountable u r p l s t evs :
  permission_of r = Some p -> governs p = Some Jobs -> Forall (by_user (caller u)) evs ->
  (evs = [] -> t = jobs s \/ row_follows u l s (s <| jobs := t |>)) ->
  accountable u r l s (s <| jobs := t |> <| trail := (trail s ++ evs)%list |>).
Proof.
  intros P G F K. eapply accountable_write; [done|exact G| |done|done|exact F|].
  - intros t'. destruct t'; (by left) || (by right).
  - intros ->. destruct (K eq_refl) as [->|R]; [left|right].
    + rewrite app_nil_r. by destruct s.
    + cbn. rewrite app_nil_r. exact R.
Qed.

Lemma two_commits_accountable {A} (x : res Failure A * table * list AuditEvent) u r p id s :
  permission_of r = Some p -> governs p = Some Jobs ->
  (let '(_, t, evs) := x in (evs = [] /\ t = jobs s) \/ exists e, evs = [e] /\ by_user (caller u) e) ->
  let l := snd (let '(b, t, evs) := x in in_two_commits b id t evs s) in Forall (accountable u r l s) l.
Proof.
  destruct x as [[b t] evs]. intros P G K. destruct b as [b|f]; cbn; [|constructor].
  assert (Forall (by_user (caller u)) evs) as F by (destruct K as [[-> _]|(e & -> & B)]; [apply Forall_nil_2|by apply Forall_singleton]).
  set (l := [_; _]). apply Forall_cons. split; [|apply Forall_singleton].
  - assert (accountable u r l s (s <| jobs := t |> <| trail := (trail s ++ [])%list |>)) as J.
    { apply jobs_accountable with (p := p); [done|done|constructor|]. intros _.
      destruct K as [[-> ->]|(e & -> & B)]; [by left|right]. split; [done|]. by exists e. }
    by rewrite app_nil_r in J.
  - apply jobs_accountable with (p := p); [done|done|done|]. destruct K as [[-> ->]|(e & -> & B)]; [by left|done].
Qed.

Ltac one_table := intros d evs t'; destruct t'; (by left) || (by right).

Lemma handle_accountable u now seen r s :
  let l := handle_commits (X := X) keys reported fp runnable u now seen r s in Forall (accountable u r l s) l.
Proof.
  destruct r as [body report|address conflict|body key report id|job stage_key|job|q|q|q|q|p|op];
    cbn [handle_commits handle]; cbn zeta; try lazymatch goal with |- Forall _ [_] => apply Forall_singleton end.
  - destruct (submission_of body) as [req|]; [|apply accountable_same]. apply noted_accountable, audit_event_by.
  - apply noted_accountable, audit_event_by.
  - unfold submit_job. destruct (submission_of body) as [req|]; [|apply accountable_same].
    pose proof (submit_audited (caller u) req (header_key key) None report id now seen (jobs s)) as A.
    destruct (submit_provisioning _ _ _ _ _ _ _ _ _ _ _) as [[a t] evs]. destruct A as [F K].
    apply jobs_accountable with (p := PROVISIONING_SUBMIT); [done|done|done|]. intros E. left. by apply K.
  - unfold retry_job. destruct (_get_job job seen) as [j|]; [|constructor].
    apply two_commits_accountable with (p := JOBS_RETRY); [done|done|apply retry_audited].
  - unfold cancel_job_endpoint. destruct (_get_job job seen) as [j|]; [|constructor].
    apply two_commits_accountable with (p := JOBS_CANCEL); [done|done|apply cancel_audited].
  - eapply (committed_accountable _ _ _ u _ ADMIN_APPLICATIONS); [done|done|done|one_table|apply catalog_audited].
  - eapply (committed_accountable _ _ _ u _ ADMIN_CERTIFICATES); [done|done|done|one_table|apply cert_audited].
  - eapply (committed_accountable _ _ _ u _ ADMIN_VCENTERS); [done|done|done|one_table|apply vcenter_audited].
  - eapply (committed_accountable _ _ _ u _ ADMIN_CREDENTIALS); [done|done|done|one_table|apply credential_audited].
  - unfold save_settings. destruct (update_settings _ _ _) as [[[e rows] page]|f] eqn:U; [|apply accountable_same].
    apply settings_audited in U. eapply (accountable_write _ _ ADMIN_SETTINGS PlatformSettings) with (evs := [e]);
      [done|done|intros t'; destruct t'; (by left) || (by right)|done|done|by constructor; [exact U|constructor]|done].
  - destruct (inbox_step (uid u) op (notifications s)) as [a rows] eqn:I. cbn. split.
    + intros t. destruct t; cbn; tauto.
    + intros v N. cbn. replace rows with (snd (inbox_step (uid u) op (notifications s))) by by rewrite I. by apply other_step.
    + exists []. rewrite app_nil_r. split_and!; [done|constructor|by left].
Qed.

(** ** Every change has an author *)

Context (jwt_decode : Z -> string -> res JwtFault (list (string * json))) (str_json : json -> string).

Lemma current_user_active now bearer db u : get_current_user jwt_decode str_json now bearer db = Ok u ->
  In u (users db) /\ is_active u = true.
Proof.
  unfold get_current_user. intros (tok & _ & (payload & _ & E)%res_bind_ok)%res_bind_ok.
  destruct (assoc "sub" payload); [|done]. destruct (get_active_user _ db) as [x|] eqn:G; [|done]. injection E as <-.
  unfold get_active_user in G. destruct (find_first _ (users db)) as [y|] eqn:F; [|done].
  destruct (is_active y) eqn:A; [|done]. injection G as <-. by apply find_first_some in F as [F _].
Qed.

Lemma authorize_current r now bearer s u : authorize jwt_decode str_json r now bearer s = Ok u ->
  get_current_user jwt_decode str_json now bearer (accounts s) = Ok u
  /\ match permission_of r with Some p => roles_grant (role_names u) p = true | None => True end.
Proof.
  unfold authorize. destruct (permission_of r) as [p|]; [|done]. unfold require_permission.
  intros (v & C & E)%res_bind_ok. destruct (roles_grant (role_names v) p) eqn:G; [|done]. by injection E as <-.
Qed.

(** A granted permission names a writer of its table. *)
Lemma granted_writer roles p t : roles_grant roles p = true -> governs p = Some t -> exists role, In role roles /\ In role (writers t).
Proof.
  unfold roles_grant. rewrite existsb_exists. intros (role & I & G%bool_decide_eq_true) W. exists role. split; [done|].
  unfold ROLE_PERMISSIONS in G.
  destruct (String.eqb_spec role "viewer") as [->|_]; [by destruct p; try done; apply list_elem_of_In in G; cbn in G; intuition|].
  destruct (String.eqb_spec role "operator") as [->|_];
    [destruct p; try done; injection W as <-; try (by left); apply list_elem_of_In in G; cbn in G; intuition discriminate|].
  destruct (String.eqb_spec role "administrator") as [->|_]; [|by apply elem_of_nil in G].
  destruct p; try done; injection W as <-; cbn; tauto.
Qed.

(** The last commit is the site the request leaves. *)
Lemma commits_serve now bearer seen r s :
  List.last (request_commits (X := X) keys reported fp runnable jwt_decode str_json now bearer seen r s) s
  = snd (serve (X := X) keys reported fp runnable jwt_decode str_json now bearer seen r s).
Proof. unfold request_commits, serve. destruct (authorize _ _ r now bearer s) as [u|f]; [by destruct r|done]. Qed.

(** C13 (api/v1/*.py behind require_permission and get_current_user): no change
    of the site without an authorized author.  Whatever a request asks, and
    whatever it read before, each site it commits was committed for the access
    token of an active account, and in it: each table is as before or the
    account has a role that may write it (administrators every table but the
    accounts, operators the jobs, viewers only their inbox); the inbox of every
    other user is unchanged; nothing is removed from the audit trail; the rows
    added to it name that account and their details hold no secret; and if no
    row is added, only the inbox changed, or only the jobs did and the next
    commit of the same request, its last, adds the row: a retry or a
    cancellation writes the job first and its audit row behind it.  A request
    without a commit leaves the site as it was. *)
Theorem api_accountable now bearer seen r s :
  let commits := request_commits (X := X) keys reported fp runnable jwt_decode str_json now bearer seen r s in
  snd (serve (X := X) keys reported fp runnable jwt_decode str_json now bearer seen r s) = List.last commits s
  /\ Forall (fun s' =>
       exists u, get_current_user jwt_decode str_json now bearer (accounts s) = Ok u
         /\ In u (users (accounts s)) /\ is_active u = true
         /\ (forall t, same t s s' \/ t = Notifications \/ exists role, In role (role_names u) /\ In role (writers t))
         /\ (forall v, v <> uid u -> own_rows v (notifications s') = own_rows v (notifications s))
         /\ exists evs, trail s' = (trail s ++ evs)%list
              /\ Forall (fun e => username e = Some (user_login u) /\ secret_free (details e)) evs
              /\ (evs = [] -> s' = s <| notifications := notifications s' |> \/ row_follows u commits s s')) commits.
Proof.
  cbn zeta. split; [symmetry; apply commits_serve|]. unfold request_commits.
  destruct (authorize jwt_decode str_json r now bearer s) as [u|f] eqn:A; [|constructor].
  apply authorize_current in A as [C G]. destruct (current_user_active _ _ _ _ C) as [I Act].
  eapply Forall_impl; [apply handle_accountable|]. intros s' [T N K]. exists u. split_and!; [done|done|done| |done|done].
  intros t. destruct (T t) as [S|W]; [by left|right]. destruct (permission_of r) as [p|]; [right|by left].
  by eapply granted_writer.
Qed.

End Accountability.

(** ** The invariant of the site *)

Record site_ok `{X509} (X : Type) `{Platform X} (s : Site) : Prop := {
  jobs_ok : table_ok (jobs s);
  applications_ok : catalog_ok (applications s);
  certificates_ok : cert_ok (certificate_store s);
  vcenters_ok : Forall vcenter_row_ok (vcenters s);
  settings_ok : Forall (stored_setting (X := X)) (platform_settings s);
  credential_names : NoDup (List.map sr_name (credentials s));
  credential_ids : NoDup (List.map sr_id (credentials s));
}.

(** The identifier a request draws for a new row. *)
Definition drawn (r : Request) : list string :=
  match r with
  | SubmitJob _ _ _ id | OnCredentials (CreateCredential id _ _ _) => [id]
  | _ => []
  end.

(** The identifiers in use in the two tables that do not check a new one. *)
Definition in_use (s : Site) : list string := (ids (jobs s) ++ List.map sr_id (credentials s))%list.

Section Invariant.

Context {X : Type} `{Platform X} `{Fernet} `{X509} `{Pydantic}.
Context (keys : KeySettings).
Context (reported : list Constraint -> Constraint) (fp : ProvisioningRequest -> string) (runnable : string -> bool).

Lemma swap_after {E D} (r : res E (D * AuditEvent)) e d : swap r = Ok (e, d) -> r = Ok (d, e).
Proof. destruct r as [[a b]|]; cbn; [|done]. by intros [= -> ->]. Qed.

Lemma catalog_answer_ok c r t e t' : catalog_ok t -> catalog_answer (X := X) c r t = Ok (e, t') -> catalog_ok t'.
Proof.
  intros O A. apply (step_ok (X := X) t); [done|]. destruct r; cbn in A; apply swap_after in A; by econstructor.
Qed.

Lemma recorded_after {A D} (r : res AdminFailure (A * AuditEvent * D)) e d : recorded r = Ok (e, d) -> exists a, r = Ok (a, e, d).
Proof. destruct r as [[[a b] x]|]; cbn; [|done]. intros [= -> ->]. by exists a. Qed.

Lemma cert_answer_step c r db e db' : cert_answer c r db = Ok (e, db') -> cert_step db (c, r) = db'.
Proof.
  destruct r; cbn; intros A; try (apply recorded_after in A as [a A]); by rewrite A.
Qed.

Lemma vcenter_answer_step c r rows e rows' : vcenter_answer c r rows = Ok (e, rows') -> vcenter_step rows (c, r) = rows'.
Proof.
  destruct r as [id p|id p|id|id now result]; cbn; intros A; try (apply recorded_after in A as [a A]); try by rewrite A.
  apply res_bind_ok in A as (row & G & A). injection A as _ <-. apply get_vcenter_in in G as [_ ->]. done.
Qed.

Lemma settings_step c p rows e rows' page : update_settings (X := X) c p rows = Ok (e, rows', page) ->
  settings_run (X := X) [(c, p)] rows = rows'.
Proof. cbn. by intros ->. Qed.

Lemma row_named_none name rows : row_named name rows = None -> name ∉ List.map sr_name rows.
Proof.
  intros F I. apply find_first_none in F. rewrite List.Forall_forall in F. apply list_elem_of_In, in_map_iff in I as (r & <- & I).
  apply F in I. by rewrite String.eqb_refl in I.
Qed.

Lemma row_after_keys n1 n2 p row row' : secret_row_after keys n1 n2 p row = Ok row' -> sr_name row' = sr_name row /\ sr_id row' = sr_id row.
Proof.
  unfold secret_row_after. destruct (column _ _) as [purpose|]; [|done]. destruct (column _ _) as [text|]; [|done].
  intros (u & _ & (w & _ & [= <-])%res_bind_ok)%res_bind_ok. by destruct (given_value (su_username p)), (given_value (su_password p)).
Qed.

Lemma row_by_id_some id rows row : row_by_id id rows = Some row -> In row rows /\ sr_id row = id.
Proof. intros [I E]%find_first_some. by apply String.eqb_eq in E. Qed.

(** A replaced row keeps the name the identifier stands for. *)
Lemma replaced_keys row row' rows : NoDup (List.map sr_id rows) -> In row rows -> sr_name row' = sr_name row -> sr_id row' = sr_id row ->
  let rows' := List.map (fun r => if String.eqb (sr_id r) (sr_id row) then row' else r) rows in
  List.map sr_name rows' = List.map sr_name rows /\ List.map sr_id rows' = List.map sr_id rows.
Proof.
  intros N I En Ei. cbn zeta. rewrite !map_map. split; apply map_ext_in; intros r J.
  - destruct (String.eqb_spec (sr_id r) (sr_id row)) as [E|]; [|done]. rewrite En. f_equal.
    by rewrite (nodup_map_inj sr_id rows r row).
  - destruct (String.eqb_spec (sr_id r) (sr_id row)) as [E|]; [|done]. by rewrite Ei.
Qed.

Lemma credential_answer_ok c r rows e rows' :
  NoDup (List.map sr_name rows) -> NoDup (List.map sr_id rows) ->
  (forall id, id ∈ drawn (OnCredentials r) -> id ∉ List.map sr_id rows) ->
  credential_answer keys c r rows = Ok (e, rows') ->
  NoDup (List.map sr_name rows') /\ NoDup (List.map sr_id rows')
  /\ forall id, id ∈ List.map sr_id rows' -> id ∈ drawn (OnCredentials r) \/ id ∈ List.map sr_id rows.
Proof.
  intros N I D A. destruct r as [id n1 n2 p|n1 n2 id p|id]; cbn in A.
  - apply recorded_after in A as [o A]. unfold create_credential in A. apply res_bind_ok in A as (q & _ & A).
    destruct (row_named (sc_name q) rows) eqn:R; [done|]. apply res_bind_ok in A as (u & _ & A). apply res_bind_ok in A as (w & _ & A).
    injection A as _ _ <-. rewrite !map_app. cbn. split_and!.
    + apply nodup_snoc; [done|]. by apply row_named_none.
    + apply nodup_snoc; [done|]. apply D. cbn. set_solver.
    + intros x. set_solver.
  - apply recorded_after in A as [o A]. unfold update_credential in A. apply res_bind_ok in A as (q & _ & A).
    destruct (row_by_id id rows) as [row|] eqn:R; [|done]. apply res_bind_ok in A as (row' & S & A). injection A as _ _ <-.
    apply row_by_id_some in R as [R <-]. apply row_after_keys in S as [E1 E2].
    destruct (replaced_keys row row' rows I R E1 E2) as [-> ->]. split_and!; [done|done|by right].
  - unfold delete_credential in A. destruct (row_by_id id rows); [|done]. injection A as _ <-.
    split_and!; [by apply nodup_map_filter|by apply nodup_map_filter|]. intros x J. right.
    apply list_elem_of_In, in_map_iff in J as (r & <- & J). apply filter_In in J as [J _].
    by apply list_elem_of_In, in_map.
Qed.

(** Jobs: a submission adds at most its own row, a retry or a cancellation none. *)
Lemma submit_jobs c r k src report id now t0 t t' :
  t' = snd (fst (submit_provisioning reported fp c r k src report id now t0 t)) -> table_ok t -> id ∉ ids t ->
  table_ok t' /\ forall x, x ∈ ids t' -> x = id \/ x ∈ ids t.
Proof.
  intros -> O F. split; [by apply (queue_step_ok reported fp read_any t), O; apply QSubmit|].
  destruct (submit_table reported fp c r k src report id now t0 t _ eq_refl) as [->|[_ ->]]; [by right|].
  unfold ids. rewrite map_app. cbn. set_solver.
Qed.

Lemma update_row_ids j t t' : update_row reported j t = Ok t' -> ids t' = ids t.
Proof. intros ->%update_row_put. apply put_row_ids. Qed.

Lemma retry_jobs c ok k now j t0 t t' :
  t' = snd (fst (retry_stages reported c ok k now j t0 t)) -> table_ok t -> table_ok t' /\ ids t' = ids t.
Proof.
  intros -> O. split; [by apply (queue_step_ok reported fp read_any t), O; apply QRetry|].
  destruct (retry_table reported c ok k now j t0 t) as [->|(? & ? & ? & _ & _ & U)]; [done|]. by apply update_row_ids in U.
Qed.

Lemma cancel_jobs c now j t t' :
  t' = snd (fst (cancel_job reported c now j t)) -> table_ok t -> table_ok t' /\ ids t' = ids t.
Proof.
  intros -> O. split; [by apply (queue_step_ok reported fp read_any t), O; apply QCancel|].
  destruct (cancel_table reported c now j t) as [->|(? & ? & _ & _ & U)]; [done|]. by apply update_row_ids in U.
Qed.

(** A request keeps the invariant, and brings no identifier into use but its own. *)
Definition kept (r : Request) (s s' : Site) : Prop :=
  site_ok X s' /\ forall id, id ∈ in_use s' -> id ∈ drawn r \/ id ∈ in_use s.

Lemma kept_same r s : site_ok X s -> kept r s s.
Proof. split; [done|by right]. Qed.

Lemma kept_note r s l : site_ok X s -> kept r s (s <| trail := l |>).
Proof. intros []. by split; [split|right]. Qed.

Lemma kept_jobs r s t l :
  site_ok X s -> table_ok t -> (forall x, x ∈ ids t -> x ∈ drawn r \/ x ∈ ids (jobs s)) ->
  kept r s (s <| jobs := t |> <| trail := l |>).
Proof. intros [] T D. split; [by split|]. unfold in_use in *. cbn. intros x. set_solver. Qed.

(** The answer of an admin route is the step of its table. *)
Lemma kept_commit {E D} (wrap : E -> ApiError) put (a : res E (AuditEvent * D)) r s :
  site_ok X s -> (forall e d l, a = Ok (e, d) -> kept r s ((put d s) <| trail := l |>)) -> kept r s (snd (committed wrap put a s)).
Proof. intros O K. destruct a as [[e d]|f]; cbn; [by eapply K|by apply kept_same]. Qed.

Lemma handle_kept u now seen r s :
  site_ok X s -> (forall id, id ∈ drawn r -> id ∉ in_use s) ->
  kept r s (snd (handle (X := X) keys reported fp runnable u now seen r s)).
Proof.
  intros O D. destruct r as [body report|address conflict|body key report id|job stage_key|job|q|q|q|q|p|op]; cbn [handle].
  - destruct (submission_of body); [by apply kept_note|by apply kept_same].
  - by apply kept_note.
  - unfold submit_job. destruct (submission_of body) as [req|]; [|by apply kept_same].
    pose proof (submit_jobs (caller u) req (header_key key) None report id now seen (jobs s) _ eq_refl) as S.
    destruct (submit_provisioning _ _ _ _ _ _ _ _ _ _ _) as [[a t] evs]. destruct S as [T I]; [by destruct O|intros J; eapply D; [|apply elem_of_app; by left]; cbn; set_solver|].
    apply kept_jobs; [done|done|]. intros x J. cbn. destruct (I x J) as [->|]; [left; set_solver|by right].
  - unfold settle, retry_job. destruct (_get_job job seen) as [j|]; [|by apply kept_same].
    pose proof (retry_jobs (caller u) (runnable job) stage_key now j seen (jobs s) _ eq_refl) as S.
    destruct (retry_stages _ _ _ _ _ _ _ _) as [[a t] evs]. destruct S as [T I]; [by destruct O|]. cbn [fst snd] in T, I.
    destruct a; [|by apply kept_same]. apply kept_jobs; [done|done|rewrite I; by right].
  - unfold settle, cancel_job_endpoint. destruct (_get_job job seen) as [j|]; [|by apply kept_same].
    pose proof (cancel_jobs (caller u) now j (jobs s) _ eq_refl) as S.
    destruct (cancel_job _ _ _ _ _) as [[a t] evs]. destruct S as [T I]; [by destruct O|]. cbn [fst snd] in T, I.
    destruct a; [|by apply kept_same]. apply kept_jobs; [done|done|rewrite I; by right].
  - apply kept_commit; [done|]. intros e t l A. destruct O. split; [split; try done|by right]. by eapply catalog_answer_ok.
  - apply kept_commit; [done|]. intros e t l A. destruct O. split; [split; try done|by right].
    apply cert_answer_step in A as <-. by apply cert_step_ok.
  - apply kept_commit; [done|]. intros e t l A. destruct O. split; [split; try done|by right].
    apply vcenter_answer_step in A as <-. by apply vcenter_step_ok.
  - apply kept_commit; [done|]. intros e t l A. destruct O.
    destruct (credential_answer_ok _ _ _ _ _ credential_names0 credential_ids0 (fun id J K => D id J (proj2 (elem_of_app _ _ _) (or_intror K))) A)
      as (N & I & U). split; [by split|]. unfold in_use. cbn. intros x. specialize (U x). set_solver.
  - unfold save_settings. destruct (update_settings _ _ _) as [[[e rows] page]|f] eqn:A; [|by apply kept_same].
    destruct O. split; [split; try done|by right]. apply settings_step in A as <-. by apply settings_run_stored.
  - destruct (inbox_step (uid u) op (notifications s)) as [a rows]. destruct O. by split; [split|right].
Qed.

Context (jwt_decode : Z -> string -> res JwtFault (list (string * json))) (str_json : json -> string).

Lemma serve_kept now bearer seen r s :
  site_ok X s -> (forall id, id ∈ drawn r -> id ∉ in_use s) ->
  kept r s (snd (serve (X := X) keys reported fp runnable jwt_decode str_json now bearer seen r s)).
Proof.
  intros O D. unfold serve. destruct (authorize _ _ r now bearer s); [by apply handle_kept|by apply kept_same].
Qed.

(** C12 (every endpoint that changes state, composed): the site stays
    consistent.  From a site whose tables are consistent, whatever requests
    accounts with whatever roles make, each deciding on a table of jobs that
    may be arbitrarily stale, with identifiers that are drawn once: no two
    active jobs share a VM name or an address and no two jobs an idempotency
    key, the dependencies of the catalog exist and have no cycle, every
    certificate can be deployed and belongs to a package, every vCenter
    connection is well formed, every stored setting is one the readers accept,
    and the names of credentials stay unique. *)
Theorem site_stays_consistent requests s :
  let new_ids := flat_map (fun q => drawn (snd q)) requests in
  site_ok X s -> NoDup new_ids -> (forall id, id ∈ new_ids -> id ∉ in_use s) ->
  site_ok X (site_run (X := X) keys reported fp runnable jwt_decode str_json requests s).
Proof.
  cbn zeta. revert s. induction requests as [|[[[now bearer] seen] r] rest IH]; intros s O N D; [done|].
  cbn [flat_map snd] in N, D. apply NoDup_app in N as (_ & N2 & N3).
  destruct (serve_kept now bearer seen r s O) as [O' U]; [intros id J; apply D, elem_of_app; by left|].
  cbn. apply IH; [done|done|]. intros id J K. destruct (U id K) as [L|L]; [by eapply N2|].
  by apply (D id); [apply elem_of_app; right|].
Qed.

End Invariant.

(** ** An example *)

Lemma empty_site_ok `{X509} X `{Platform X} accounts_ : site_ok X (MkSite accounts_ [] ∅ (MkCertDb [] []) [] [] [] [] []).
Proof.
  split; cbn; [by split; [constructor|intros ? ? []]|apply catalog_ok_empty|by split; constructor|constructor|constructor|constructor|constructor].
Qed.

(** The access token of an account is its identifier. *)
Definition plain_tokens (now : Z) (token : string) : res JwtFault (list (string * json)) :=
  Ok [("sub", JStr token); ("type", JStr "access")].

Definition STAFF : AuthDb :=
  MkAuthDb [MkUser "u1" "ada" None true ["administrator"] None; MkUser "u2" "oleg" None true ["operator"] None;
            MkUser "u3" "gone" None false ["administrator"] None] [].

Definition NEW_SITE : Site := MkSite STAFF [] ∅ (MkCertDb [] []) [] [] [] [] [].

(** Ada registers a credential; Oleg, who is no administrator, and an account
    that was closed may not; Oleg checks an address. *)
Definition STAFF_REQUESTS : list (Z * option string * table * Request) :=
  [(1, Some "u1", [], OnCredentials (CreateCredential "c-1" "n" "m" ADMIN_PAIR));
   (2, Some "u2", [], OnCredentials (CreateCredential "c-2" "n" "m" ADMIN_PAIR));
   (3, Some "u3", [], OnCredentials (DeleteCredential "c-1"));
   (4, None, [], OnCredentials (DeleteCredential "c-1"));
   (5, Some "u2", [], IpCheck "10.0.0.9" false)].

Definition staff_site : Site :=
  @site_run Sample _ toy_fernet toy_x509 strict_pydantic NEW_KEYS first_error (fun _ => "sha") (fun _ => true) plain_tokens
    (fun _ => "") STAFF_REQUESTS NEW_SITE.

Lemma site_stays_consistent_witness :
  @site_ok toy_x509 Sample _ staff_site /\ List.map sr_name (credentials staff_site) = ["infra/guest-admin"]
  /\ List.map (fun e => (action e, username e)) (trail staff_site)
     = [("CREDENTIAL_CREATED", Some "ada"); ("IP_CONFLICT_CHECK_PERFORMED", Some "oleg")].
Proof.
  split.
  - apply (@site_stays_consistent Sample _ toy_fernet toy_x509 strict_pydantic); [apply empty_site_ok|by vm_compute; apply (bool_decide_unpack _); vm_compute|].
    intros id _. vm_compute. apply not_elem_of_nil.
  - vm_compute. by split.
Defined.
