(* ===== verification/Responses.v ===== *)
(** * What a client is answered

    The exception handlers of [app/core/errors.py], the middleware of
    [app/main.py] around every route, the session cookie and the account view of
    [app/api/v1/auth.py], and the status of the requests of [Api]. *)

From Stdlib Require Import ZArith Lia Ascii String List Bool.
From stdpp Require Import base tactics list strings gmap.
From S2P Require Import Prelude PyStr Errors Schemas Jobs Queue Service World Metrics Auth RequestBody Catalog Credentials CertificateAdmin.
From S2P Require Import Settings VCenterAdmin JobApi Inbox AuditTrail SampleWorld Api.

Local Open Scope string_scope.
Local Open Scope Z_scope.

(** ** Exceptions *)

(** What leaves a route without an answer: an application error, a body or
    parameter that the schema refuses, a failed infrastructure operation, or
    anything else. *)
Inductive Raised :=
| RaisedApp (e : AppError)
| RaisedValidation (issues : list (list string * string * string))
| RaisedInfra (e : InfraError)
| RaisedOther (text : string).

Record Response := MkResponse { resp_status : Z; resp_headers : list (string * string); resp_body : json }.

#[export] Instance eta_response : Eta Response := fun r => MkResponse (resp_status r) (resp_headers r) (resp_body r).

Definition error_body (code_ message : string) (details : json) : json :=
  JObj [("error", JObj [("code", JStr code_); ("message", JStr message); ("details", details)])].

(** [_validation_handler] *)
Definition validation_payload (issues : list (list string * string * string)) : json :=
  error_body "schema_validation_failed" "Request payload failed schema validation."
    (JObj [("issues", JArr (List.map (fun i => let '(loc, msg, type_) := i in
              JObj [("loc", JArr (List.map JStr loc)); ("msg", JStr msg); ("type", JStr type_)]) issues))]).

(** [_unhandled_handler] *)
Definition internal_payload : json :=
  error_body "internal_error" "An unexpected internal error occurred. The incident has been logged." (JObj []).

(** [register_exception_handlers] *)
Definition exception_response (e : Raised) : Response :=
  match e with
  | RaisedApp e => MkResponse (status_code (app_kind e)) [] (to_payload e)
  | RaisedValidation issues => MkResponse 422 [] (validation_payload issues)
  | RaisedInfra e => MkResponse 502 [] (infra_payload e)
  | RaisedOther _ => MkResponse 500 [] internal_payload
  end.

(** ** The middleware *)

Definition security_headers (request_id : string) : list (string * string) :=
  [("X-Request-ID", request_id); ("X-Content-Type-Options", "nosniff"); ("X-Frame-Options", "DENY");
   ("Referrer-Policy", "strict-origin-when-cross-origin")].

(** Starlette runs the handler of [Exception] outside every middleware: what
    no other handler takes passes [call_next] as an exception, so neither the
    headers nor the counter see it. *)
Definition security_and_metrics_middleware (request_id method path : string) (route : res Raised Response) (counts : Values)
    : Response * Values :=
  let finish r := (r <| resp_headers := (resp_headers r ++ security_headers request_id)%list |>,
                   inc 1 [("method", method); ("path", take_str 80 path); ("status", str_int (resp_status r))] counts) in
  match route with
  | Ok r => finish r
  | Err (RaisedOther text) => (exception_response (RaisedOther text), counts)
  | Err e => finish (exception_response e)
  end.

(** ** The failures of the site *)

Definition catalog_raised (e : CatalogError) : Raised :=
  match e with
  | BadPayload field => RaisedValidation [(["body"; field], "invalid", "value_error")]
  | Rejected e => RaisedApp e
  | NullColumn _ | DuplicateKey => RaisedOther "IntegrityError"
  | MultipleResultsFound => RaisedOther "MultipleResultsFound"
  end.

Definition raised_of (e : ApiError) : Raised :=
  match e with
  | Unauthorised f => match auth_app_error f with Some e => RaisedApp e | None => RaisedOther "KeyError" end
  | BadBody => RaisedValidation [(["body"], "invalid", "value_error")]
  | JobMissing e => RaisedApp e
  | OfService (Service.Refused e) => RaisedApp e
  | OfService (Crashed _) => RaisedOther "IntegrityError"
  | OfCatalog e => catalog_raised e
  | OfAdmin (InvalidBody field) => RaisedValidation [(["body"; field], "invalid", "value_error")]
  | OfAdmin (Declined e) => RaisedApp e
  | OfAdmin (ServerError text) => RaisedOther text
  | OfInbox (Refusal e) => RaisedApp e
  | OfInbox (Crash text) => RaisedOther text
  end.

(** The status a route declares for its answer. *)
Definition route_status (r : Request) (a : Answer) : Z :=
  match r, a with
  | SubmitJob _ _ _ _, JobAnswer _ created => if created then 201 else 200
  | OnApplications (CreateApplication _ _), _ | OnCertificates (CreatePackage _ _), _ | OnCertificates (RegisterCertificate _ _), _
  | OnVCenters (CreateVCenter _ _), _ | OnCredentials (CreateCredential _ _ _ _), _ => 201
  | OnApplications (DeleteApplication _), _ | OnCertificates (DeletePackage _), _ | OnCertificates (DeleteCertificate _), _
  | OnVCenters (DeleteVCenter _), _ | OnCredentials (DeleteCredential _), _
  | OnInbox (ReadOne _ _), _ | OnInbox (ReadAll _), _ => 204
  | _, _ => 200
  end.

(** The status of the answer; the bodies of successes are the views of the
    other files. *)
Definition http_status (r : Request) (a : res ApiError Answer) : Z :=
  match a with
  | Ok a => route_status r a
  | Err e => resp_status (exception_response (raised_of e))
  end.

(** ** The session in the browser

    The cookie and the two endpoints of [app/api/v1/auth.py] that tell a client
    about its session. *)

Record Cookie := MkCookie {
  cookie_key : string;
  cookie_value : string;
  httponly : bool;
  secure : bool;
  samesite : string;
  max_age : Z;
  cookie_path : string;
}.

Definition REFRESH_COOKIE : string := "infraops_refresh".

(** [scheme] is the one [scheme_from_request] resolves, [origin] the header. *)
Definition refresh_cookie_secure (cookie_secure : bool) (scheme : option string) (origin : string) : bool :=
  if negb cookie_secure then false else bool_decide (scheme = Some "https") || startswith (lower origin) "https://".

Definition _set_refresh_cookie (cookie_secure : bool) (refresh_minutes : Z) (prefix : string) (scheme : option string) (origin token : string) : Cookie :=
  MkCookie REFRESH_COOKIE token true (refresh_cookie_secure cookie_secure scheme origin) "lax" (refresh_minutes * 60) (prefix ++ "/auth").

Record UserOut := MkUserOut { uo_id : string; uo_username : string; uo_roles : list string; uo_permissions : list string }.

(** [me], without address and full name *)
Definition me (u : User) : UserOut := MkUserOut (uid u) (user_login u) (role_names u) (permissions_for_roles (role_names u)).

(** The refresh token is out of reach of scripts, goes to the session endpoints
    only and, unless the operator turned that off, never leaves a page that was
    served over HTTPS in the clear. *)
Lemma refresh_cookie_guarded minutes prefix scheme origin token :
  let c := _set_refresh_cookie true minutes prefix scheme origin token in
  httponly c = true /\ samesite c = "lax" /\ cookie_path c = prefix ++ "/auth"
  /\ (scheme = Some "https" \/ startswith (lower origin) "https://" = true -> secure c = true).
Proof.
  split_and!; try done. cbn. unfold refresh_cookie_secure. cbn.
  intros [->|E]; [by rewrite bool_decide_eq_true_2|by rewrite E, orb_true_r].
Qed.

Lemma permission_value_inj p q : permission_value p = permission_value q -> p = q.
Proof. by destruct p, q. Qed.

(** What [me] shows of the permissions is what the routes grant. *)
Lemma me_shows_grants u p : In (permission_value p) (uo_permissions (me u)) <-> roles_grant (role_names u) p = true.
Proof.
  change (uo_permissions (me u)) with (permissions_for_roles (role_names u)). unfold permissions_for_roles. rewrite in_map_iff. split.
  - intros (q & E%permission_value_inj & I). subst q. apply filter_In in I as [_ G]. exact G.
  - intros G. exists p. split; [done|]. apply filter_In. split; [|done]. destruct p; cbn; tauto.
Qed.

(** ** Facts *)

(** The technical detail of a failed operation, which may name hosts, paths
    and accounts, never reaches a client, nor does the text of an unexpected
    exception. *)
Lemma response_without_detail e d e' text text' :
  e' = MkInfraError (human_message e) (reason e) (recommended_action e) d (err_retryable e) (question_pending e) ->
  exception_response (RaisedInfra e') = exception_response (RaisedInfra e)
  /\ exception_response (RaisedOther text') = exception_response (RaisedOther text).
Proof. by intros ->. Qed.

Lemma status_error k : In (status_code k) [401; 403; 404; 409; 422; 429; 503].
Proof. destruct k; cbn; tauto. Qed.

Lemma response_status e : In (resp_status (exception_response e)) [401; 403; 404; 409; 422; 429; 500; 502; 503].
Proof. destruct e as [e| | |]; cbn; [pose proof (status_error (app_kind e)); cbn in *|..]; tauto. Qed.

Lemma route_status_success r a : In (route_status r a) [200; 201; 204].
Proof. destruct r as [| | | | |[]|[]|[]|[]| |[]], a as [? []|? ?|?|?|]; cbn; tauto. Qed.

(** Every answer but that of an unexpected exception carries the headers and is
    counted once under its status. *)
Lemma middleware_covers request_id method path route counts :
  let '(r, counts') := security_and_metrics_middleware request_id method path route counts in
  match route with
  | Err (RaisedOther _) => resp_status r = 500 /\ resp_headers r = [] /\ counts' = counts
  | _ => (exists h, resp_headers r = (h ++ security_headers request_id)%list)
         /\ counts' = inc 1 [("method", method); ("path", take_str 80 path); ("status", str_int (resp_status r))] counts
  end.
Proof. destruct route as [r|[]]; cbn; split_and?; try done; first [by exists [] | by exists (resp_headers r)]. Qed.

(** ** A refused request changes nothing *)

Section Atomic.

Context {X : Type} `{Platform X} `{Fernet} `{X509} `{Pydantic}.
Context (keys : KeySettings).
Context (reported : list Constraint -> Constraint) (fp : ProvisioningRequest -> string) (runnable : string -> bool).

Definition unchanged (s s' : Site) : Prop := forall t, same t s s'.

Lemma unchanged_same s : unchanged s s.
Proof. by intros []. Qed.

Lemma unchanged_trail s l : unchanged s (s <| trail := l |>).
Proof. by intros []. Qed.

Lemma refused_submission c r k src report id now t0 t e :
  let '(a, t', _) := submit_provisioning reported fp c r k src report id now t0 t in a = Err e -> t' = t.
Proof. unfold submit_provisioning. by repeat case_match; simplify_eq/=. Qed.

Lemma refused_retry c ok k now j t0 t e :
  let '(a, t', _) := retry_stages reported c ok k now j t0 t in a = Err e -> t' = t.
Proof. unfold retry_stages. by repeat case_match; simplify_eq/=. Qed.

Lemma refused_cancel c now j t e :
  let '(a, t', _) := cancel_job reported c now j t in a = Err e -> t' = t.
Proof. unfold cancel_job. by repeat case_match; simplify_eq/=. Qed.

Lemma refused_write {A} (x : res Failure A * table * list AuditEvent) (a : A -> Answer) s f :
  (forall e, let '(b, t, _) := x in b = Err e -> t = jobs s) ->
  let '(b, s') := (let '(b, t, evs) := x in
                   (match b with Ok y => Ok (a y) | Err e => Err (OfService e) end,
                    s <| jobs := t |> <| trail := (trail s ++ evs)%list |>)) in
  b = Err f -> unchanged s s'.
Proof.
  destruct x as [[[y|e] t] evs]; intros K; [done|]. intros _ []; try done. by apply (K e).
Qed.

Lemma refused_commit {E D} (wrap : E -> ApiError) put (a : res E (AuditEvent * D)) s f :
  let '(b, s') := committed wrap put a s in b = Err f -> unchanged s s'.
Proof. destruct a as [[e d]|e]; cbn; [done|]. intros _. apply unchanged_same. Qed.

Lemma refused_inbox u op rows e : fst (inbox_step u op rows) = Inbox.Refused e -> snd (inbox_step u op rows) = rows.
Proof.
  destruct op as [limit|id now|now]; cbn; [by destruct (list_notifications u limit rows)| |done].
  by destruct (mark_notification_read u id now rows).
Qed.

Lemma handle_refused u now seen r s f :
  site_ok X s ->
  let '(a, s') := handle (X := X) keys reported fp runnable u now seen r s in a = Err f -> unchanged s s'.
Proof.
  intros O. destruct r as [body report|address conflict|body key report id|job stage_key|job|q|q|q|q|p|op]; cbn [handle].
  - destruct (submission_of body); [done|intros _; apply unchanged_same].
  - done.
  - unfold submit_job. destruct (submission_of body) as [req|]; [|intros _; apply unchanged_same].
    pose proof (refused_submission (caller u) req (header_key key) None report id now seen (jobs s)) as R.
    destruct (submit_provisioning _ _ _ _ _ _ _ _ _ _ _) as [[[[j b]|e] t] evs]; [done|]. intros _ []; try done. by apply (R e).
  - unfold settle, retry_job. destruct (_get_job job seen) as [j|]; [|intros _; apply unchanged_same].
    destruct (retry_stages _ _ _ _ _ _ _ _) as [[[b|e] t] evs]; [done|intros _; apply unchanged_same].
  - unfold settle, cancel_job_endpoint. destruct (_get_job job seen) as [j|]; [|intros _; apply unchanged_same].
    destruct (cancel_job _ _ _ _ _) as [[[b|e] t] evs]; [done|intros _; apply unchanged_same].
  - apply refused_commit.
  - apply refused_commit.
  - apply refused_commit.
  - apply refused_commit.
  - unfold save_settings. destruct (update_settings _ _ _) as [[[e rows] page]|e] eqn:U; [|intros _; apply unchanged_same].
    destruct O. pose proof (settings_step _ _ _ _ _ _ U) as R. apply (settings_run_stored [(caller u, p)]) in settings_ok.
    rewrite R in settings_ok. destruct (stored_in_force rows settings_ok) as (out & P & _).
    unfold update_settings in U. apply res_bind_ok in U as (q & _ & U). injection U as _ <- <-. by rewrite P.
  - destruct (inbox_step (uid u) op (notifications s)) as [a rows] eqn:I. destruct a as [items n| |e]; [done|done|].
    intros _ []; try done. cbn. pose proof (refused_inbox (uid u) op (notifications s) e) as R. rewrite I in R. by apply R.
Qed.

Context (jwt_decode : Z -> string -> res JwtFault (list (string * json))) (str_json : json -> string).

Lemma no_token now bearer db : bearer = None \/ bearer = Some "" ->
  get_current_user jwt_decode str_json now bearer db = Err (NotAuthenticated "Missing bearer token.").
Proof. by intros [-> | ->]. Qed.

Lemma refused_request now bearer seen r s :
  site_ok X s ->
  let '(a, s') := serve (X := X) keys reported fp runnable jwt_decode str_json now bearer seen r s in
  forall f, a = Err f -> unchanged s s'.
Proof.
  intros O. unfold serve. destruct (authorize jwt_decode str_json r now bearer s) as [u|f]; [|intros ? _; apply unchanged_same].
  pose proof (handle_refused u now seen r s) as R. destruct (handle _ _ _ _ u now seen r s) as [a s']. intros f. by apply R.
Qed.

(** C18 (errors.py, require_permission and the endpoints): what an answer tells
    about the site.  On a consistent site a request is answered with 200, 201
    or 204 exactly when its handler went through; with any other status, which
    is one of the documented nine, no table has changed.  Without a token the
    answer is 401, and to an account whose roles do not grant the permission
    of the route 403; either leaves the site as it was, audit trail included. *)
Theorem status_tells_outcome now bearer seen r s :
  site_ok X s ->
  let '(a, s') := serve (X := X) keys reported fp runnable jwt_decode str_json now bearer seen r s in
  match a with
  | Ok _ => In (http_status r a) [200; 201; 204]
  | Err _ => In (http_status r a) [401; 403; 404; 409; 422; 429; 500; 502; 503] /\ unchanged s s'
  end
  /\ (bearer = None \/ bearer = Some "" -> http_status r a = 401 /\ s' = s)
  /\ (forall u p, get_current_user jwt_decode str_json now bearer (accounts s) = Ok u -> permission_of r = Some p ->
        roles_grant (role_names u) p = false -> http_status r a = 403 /\ s' = s).
Proof.
  intros O. pose proof (refused_request now bearer seen r s O) as R.
  destruct (serve _ _ _ _ jwt_decode str_json now bearer seen r s) as [a s'] eqn:E. split_and!.
  - destruct a as [x|f]; [apply route_status_success|]. split; [apply response_status|by eapply R].
  - intros T. pose proof (no_token now bearer (accounts s) T) as C. unfold serve, authorize, require_permission in E.
    destruct (permission_of r); rewrite C in E; by injection E as <- <-.
  - intros u p C P G. unfold serve, authorize, require_permission in E. rewrite P, C in E. cbn in E. rewrite G in E.
    by injection E as <- <-.
Qed.

End Atomic.

(** Oleg, an operator, may not register a credential. *)
Lemma status_tells_outcome_witness :
  let r := OnCredentials (CreateCredential "c-2" "n" "m" ADMIN_PAIR) in
  let '(a, s') := @serve Sample _ toy_fernet toy_x509 strict_pydantic NEW_KEYS first_error (fun _ => "sha") (fun _ => true)
                    plain_tokens (fun _ => "") 2 (Some "u2") [] r NEW_SITE in
  http_status r a = 403 /\ s' = NEW_SITE.
Proof.
  cbn zeta.
  pose proof (@status_tells_outcome Sample _ toy_fernet toy_x509 strict_pydantic NEW_KEYS first_error (fun _ => "sha")
    (fun _ => true) plain_tokens (fun _ => "") 2 (Some "u2") [] (OnCredentials (CreateCredential "c-2" "n" "m" ADMIN_PAIR)) NEW_SITE
    (empty_site_ok _ _)) as T.
  destruct (serve _ _ _ _ _ _ _ _ _ _ _) as [a s']. destruct T as (_ & _ & T).
  apply (T (MkUser "u2" "oleg" None true ["operator"] None) ADMIN_CREDENTIALS); [vm_compute; reflexivity|reflexivity|vm_compute; reflexivity].
Defined.
