(* ===== verification/Migrations.v ===== *)
(** * Upgrading a database

    [migrations/versions/0007_job_liveness_and_hardening.py] and
    [0009_iso_only_unattended.py], the two migrations that rewrite the rows of
    the job tables: the SQL statements on the rows they touch, in their order,
    the new column types and unique indexes as checks that may fail.  Of
    [0002_remove_development_seed_data.py] and [0004_add_audit_datacenter.py]
    the rows that are deleted and filled in.  The other migrations only add or
    drop tables and columns. *)

From Stdlib Require Import ZArith Lia Ascii String List Bool.
From stdpp Require Import base tactics list strings gmap.
From S2P Require Import Prelude PyStr Json StateMachine Jobs Schemas AuditTrail World Listing RequestBody.

Local Open Scope string_scope.
Local Open Scope Z_scope.

(** ** Rows *)

(** The columns the migrations read or write; a status is a label of its
    enumeration type. *)
Record JobRow := MkJobRow {
  mj_id : string;
  mj_vm_name : string;
  mj_status : string;
  mj_stage : option string;
  mj_summary : option string;
  mj_detail : option string;
  mj_action : option string;
  mj_queued_at : Z;
  mj_finished_at : option Z;
  mj_reserved : option string;
}.

#[export] Instance eta_job_row : Eta JobRow := fun r =>
  MkJobRow (mj_id r) (mj_vm_name r) (mj_status r) (mj_stage r) (mj_summary r) (mj_detail r) (mj_action r)
    (mj_queued_at r) (mj_finished_at r) (mj_reserved r).

Record StepRow := MkStepRow {
  ms_job : string;
  ms_key : string;
  ms_name : string;
  ms_sequence : Z;
  ms_status : string;
  ms_finished_at : option Z;
  ms_error : option string;
}.

#[export] Instance eta_step_row : Eta StepRow := fun r =>
  MkStepRow (ms_job r) (ms_key r) (ms_name r) (ms_sequence r) (ms_status r) (ms_finished_at r) (ms_error r).

Record Database := MkDatabase {
  db_jobs : list JobRow;
  db_steps : list StepRow;
  db_requests : list (string * json);
  db_kinds : list string;
  db_settings : list (string * json);
  job_labels : list string;
  step_labels : list string;
}.

#[export] Instance eta_database : Eta Database := fun d =>
  MkDatabase (db_jobs d) (db_steps d) (db_requests d) (db_kinds d) (db_settings d) (job_labels d) (step_labels d).

(** ** SQL *)

(** [UPDATE ... SET f WHERE p] *)
Definition update {A} (p : A -> bool) (f : A -> A) (rows : list A) : list A := List.map (fun r => if p r then f r else r) rows.

Definition is_in (s : string) (l : list string) : bool := existsb (String.eqb s) l.

Definition coalesce {A} (a b : option A) : option A := match a with Some _ => a | None => b end.

(** [v -> k] and [v ->> k]: a member that is missing or null is NULL. *)
Definition member_of (k : string) (v : option json) : option json := match v with Some (JObj l) => assoc k l | _ => None end.
Definition text_of (v : option json) : option string :=
  match v with
  | None | Some JNull => None
  | Some (JStr s) => Some s
  | Some v => Some (json_dumps v)
  end.

(** [CREATE UNIQUE INDEX]: NULL keys and rows outside the predicate do not count. *)
Definition create_unique_index {A} (name : string) (key : A -> option string) (rows : list A) : res string unit :=
  if bool_decide (NoDup (omap key rows)) then Ok tt else Err ("could not create unique index " ++ name).

(** [ALTER TABLE ... ALTER COLUMN status TYPE ... USING status::text::type] *)
Definition _rebuild_enum {A} (name : string) (label : A -> string) (values : list string) (rows : list A) : res string unit :=
  if forallb (fun r => is_in (label r) values) rows then Ok tt else Err ("invalid input value for enum " ++ name).

Definition _ACTIVE : list string := ["QUEUED"; "RUNNING"; "INTERRUPTED"].
Definition _IP_RESERVING : list string := ["QUEUED"; "RUNNING"; "INTERRUPTED"; "ACTION_REQUIRED"].

(** The keys of [uq_provisioning_jobs_active_vm_name] and of
    [uq_provisioning_jobs_reserved_ipv4] with its predicate. *)
Definition active_name_key (j : JobRow) : option string := if is_in (mj_status j) _ACTIVE then Some (lower (mj_vm_name j)) else None.
Definition reserved_key (reserving : list string) (j : JobRow) : option string :=
  if is_in (mj_status j) reserving then mj_reserved j else None.

(** [ALTER TYPE ... ADD VALUE IF NOT EXISTS] *)
Definition add_label (v : string) (labels : list string) : list string := if is_in v labels then labels else (labels ++ [v])%list.

(** ** 0007: reservations that cannot race *)

Definition DUPLICATE_NAME : string := "Duplicate active job for the same VM name (closed during upgrade).".

(** [ORDER BY queued_at, id] *)
Definition queued_before (a b : JobRow) : bool :=
  (mj_queued_at a <? mj_queued_at b)
  || (mj_queued_at a =? mj_queued_at b) && String.leb (mj_id a) (mj_id b) && negb (String.eqb (mj_id a) (mj_id b)).

(** [row_number() OVER (PARTITION BY lower(vm_name) ORDER BY queued_at, id) > 1] among the active jobs. *)
Definition duplicate_name (jobs : list JobRow) (j : JobRow) : bool :=
  is_in (mj_status j) _ACTIVE
  && existsb (fun o => is_in (mj_status o) _ACTIVE && String.eqb (lower (mj_vm_name o)) (lower (mj_vm_name j)) && queued_before o j) jobs.

Definition close_duplicates (now : Z) (jobs : list JobRow) : list JobRow :=
  update (duplicate_name jobs)
    (fun j => j <| mj_status := "FAILED" |> <| mj_finished_at := Some now |> <| mj_summary := Some DUPLICATE_NAME |>) jobs.

(** The static address of a job that can still configure it. *)
Definition static_address (requests : list (string * json)) (j : JobRow) : option string :=
  let network := member_of "network" (assoc (mj_id j) requests) in
  if bool_decide (text_of (member_of "mode" network) = Some "STATIC") && is_in (mj_status j) _IP_RESERVING
  then text_of (member_of "address" (member_of "ipv4" network)) else None.

(** [SELECT DISTINCT ON (address) ... ORDER BY address, queued_at]: of several
    that were queued at once the server takes any; here the first row. *)
Definition holder_of (requests : list (string * json)) (jobs : list JobRow) (address : string) : option JobRow :=
  find_first (fun j => bool_decide (static_address requests j = Some address))
    (sort_by (fun a b => mj_queued_at a <=? mj_queued_at b) jobs).

Definition backfill_reservations (requests : list (string * json)) (jobs : list JobRow) : list JobRow :=
  List.map (fun j => match static_address requests j with
                     | Some a => match holder_of requests jobs a with
                                 | Some h => if String.eqb (mj_id h) (mj_id j) then j <| mj_reserved := Some a |> else j
                                 | None => j
                                 end
                     | None => j
                     end) jobs.

(** [upgrade] of 0007: the new column is NULL in every row. *)
Definition upgrade_0007 (now : Z) (db : Database) : res string Database :=
  let jobs0 := List.map (fun j => j <| mj_reserved := None |>) (db_jobs db) in
  let jobs1 := close_duplicates now jobs0 in
  let jobs2 := backfill_reservations (db_requests db) jobs1 in
  let? _ := create_unique_index "uq_provisioning_jobs_active_vm_name" active_name_key jobs2 in
  let? _ := create_unique_index "uq_provisioning_jobs_reserved_ipv4" (reserved_key _IP_RESERVING) jobs2 in
  Ok (db <| db_jobs := jobs2 |> <| job_labels := add_label "INTERRUPTED" (job_labels db) |>).

(** [downgrade] of 0007; the label stays in the type, the addresses go. *)
Definition downgrade_0007 (db : Database) : Database :=
  db <| db_jobs := update (fun j => String.eqb (mj_status j) "INTERRUPTED") (fun j => j <| mj_status := "FAILED" |>)
                     (List.map (fun j => j <| mj_reserved := None |>) (db_jobs db)) |>.

(** ** 0004: the datacenter of a job *)

Record JobDatacenter := MkJobDatacenter { jd_id : string; jd_datacenter : option string }.

(** [payload #>> '{compute,datacenter_id}'] for the jobs that have a request;
    the new column is NULL. *)
Definition upgrade_0004 (requests : list (string * json)) (ids : list string) : list JobDatacenter :=
  update (fun j => bool_decide (is_Some (assoc (jd_id j) requests)) && bool_decide (jd_datacenter j = None))
    (fun j => MkJobDatacenter (jd_id j) (text_of (member_of "datacenter_id" (member_of "compute" (assoc (jd_id j) requests)))))
    (List.map (fun id => MkJobDatacenter id None) ids).

(** ** 0002: the records of the former demonstration *)

(** The columns that tell a demonstration record from one of the operators. *)
Record SeedTables := MkSeedTables {
  sd_installer_paths : list string;
  sd_packages : list (string * string);
  sd_vcenters : list string;
  sd_secrets : list (string * string);
  sd_users : list (string * option string);
  sd_settings : list string;
}.

Definition MOCK_VCENTER_ID : string := "11111111-1111-4111-8111-111111111111".

Definition DEMO_INSTALLER_PATHS : list string :=
  ["\\software.company.local\packages\runtime\vc_redist.x64.exe";
   "\\software.company.local\packages\monitoring\agent.msi";
   "\\software.company.local\packages\backup\agent.msi";
   "\\software.company.local\packages\edr\agent-setup.exe";
   "\\software.company.local\packages\tools\7z2408-x64.msi"].

Definition seeded_packages : list (string * string) :=
  [("Corporate Standard Certificates", "Development trust chain deployed to every provisioned server.")].

Definition seeded_references : list (string * string) :=
  [("vcsa-prod", "Mock vCenter service account (SECRETS_VCSA_PROD_* env vars).");
   ("guest-local-admin", "Local Windows administrator used for guest automation.");
   ("domain-join", "Domain account used for automatic domain joins.")].

Definition seeded_users : list (string * option string) :=
  [("admin", Some "admin@example.internal"); ("operator", Some "operator@example.internal");
   ("viewer", Some "viewer@example.internal")].

(** [DELETE FROM ... WHERE row IN keys] *)
Definition delete_in {A} `{EqDecision A} (keys rows : list A) : list A := List.filter (fun r => negb (bool_decide (r ∈ keys))) rows.

Definition upgrade_0002 (t : SeedTables) : SeedTables :=
  MkSeedTables (delete_in DEMO_INSTALLER_PATHS (sd_installer_paths t)) (delete_in seeded_packages (sd_packages t))
    (delete_in [MOCK_VCENTER_ID] (sd_vcenters t)) (delete_in seeded_references (sd_secrets t))
    (delete_in seeded_users (sd_users t)) (delete_in ["ipam_enabled"] (sd_settings t)).

(** ** 0009: unattended installations only *)

Definition JOB_STATUS : list string :=
  ["QUEUED"; "RUNNING"; "COMPLETED"; "PARTIALLY_COMPLETED"; "FAILED"; "CANCELLED"; "INTERRUPTED"].
Definition STEP_STATUS : list string :=
  ["PENDING"; "RUNNING"; "SUCCEEDED"; "FAILED"; "SKIPPED"; "WARNING"; "NOT_APPLICABLE"; "CANCELLED"].

Definition STAGES : list string :=
  ["validate_request"; "connect_vcenter"; "validate_infrastructure"; "create_vm";
   "configure_hardware"; "attach_network_adapter"; "prepare_unattended_install"; "power_on";
   "wait_for_guest_os"; "wait_for_tools"; "cleanup_unattended_media"; "add_data_disks";
   "initialize_data_disks"; "configure_guest_network"; "validate_network"; "configure_hostname";
   "join_domain"; "reboot_guest"; "wait_guest_ready"; "install_root_certificates";
   "install_intermediate_certificates"; "validate_certificates"; "resolve_dependencies";
   "install_applications"; "validate_applications"; "final_validation"].

Definition PREVIOUS_STAGES : list string :=
  List.map (fun k => if String.eqb k "create_vm" then "clone_vm" else k)
    (List.filter (fun k => negb (is_in k ["add_data_disks"; "initialize_data_disks"])) STAGES).

(** Stage, current name, previous name. *)
Definition RENAMED_STEPS : list (string * string * string) :=
  [("power_on", "Power on and start Windows Setup", "Power on VM");
   ("wait_for_guest_os", "Install Windows", "Wait for guest operating system");
   ("cleanup_unattended_media", "Remove installation media", "Remove temporary unattended media")].

Definition REMOVED_WORKFLOW : string :=
  "This job was created by a provisioning workflow that no longer exists, so it was closed " ++
  "during the upgrade. Submit a new request to create the VM.".
Definition MANUAL_STEP_REMOVED : string :=
  "This job was waiting for a manual step that no longer exists. Retry the failed stage to " ++
  "continue unattended.".

(** [_REMOVED_WORKFLOW_JOBS]: no installation ISO in the stored request. *)
Definition _REMOVED_WORKFLOW_JOBS (requests : list (string * json)) : list string :=
  List.map fst (List.filter (fun r => String.eqb (default "" (text_of (member_of "iso_id" (member_of "guest" (Some (snd r)))))) "") requests).

Definition position (k : string) (l : list string) : option Z :=
  (fix go (i : Z) (l : list string) := match l with
                                       | [] => None
                                       | x :: r => if String.eqb x k then Some i else go (i + 1) r
                                       end) 0 l.

Definition _renumber (stages : list string) (steps : list StepRow) : list StepRow :=
  List.map (fun s => match position (ms_key s) stages with Some i => s <| ms_sequence := i |> | None => s end) steps.

(** [jsonb_set(value, '{value}', ((value -> 'value') - old) || jsonb_build_object(new, ...))] *)
Definition rename_member (old new : string) (l : list (string * json)) (v : json) : list (string * json) :=
  let without k := List.filter (fun e => negb (String.eqb (fst e) k)) in
  (without new (without old l) ++ [(new, v)])%list.

Definition set_member (k : string) (v : json) (l : list (string * json)) : list (string * json) :=
  List.map (fun e => if String.eqb (fst e) k then (k, v) else e) l.

Definition _rename_timeout (old new : string) (rows : list (string * json)) : list (string * json) :=
  List.map (fun r =>
    match snd r with
    | JObj doc =>
        match assoc "value" doc with
        | Some (JObj l) =>
            match assoc old l with
            | Some v => if String.eqb (fst r) "default_timeouts"
                        then (fst r, JObj (set_member "value" (JObj (rename_member old new l v)) doc)) else r
            | None => r
            end
        | _ => r
        end
    | _ => r
    end) rows.

(** [_vm_created]: the VM of the job exists. *)
Definition vm_created (steps : list StepRow) (id : string) : bool :=
  existsb (fun s => String.eqb (ms_job s) id && String.eqb (ms_key s) "create_vm" && is_in (ms_status s) ["SUCCEEDED"; "SKIPPED"]) steps.

(** [UPDATE provisioning_jobs SET status = CASE WHEN _vm_created ...]: close a job. *)
Definition closed (now : Z) (steps : list StepRow) (message : string) (j : JobRow) : JobRow :=
  j <| mj_status := if vm_created steps (mj_id j) then "PARTIALLY_COMPLETED" else "FAILED" |>
    <| mj_finished_at := coalesce (mj_finished_at j) (Some now) |> <| mj_summary := Some message |>
    <| mj_detail := coalesce (mj_action j) (mj_detail j) |>.

Definition failed_step (now : Z) (message : string) (s : StepRow) : StepRow :=
  s <| ms_status := "FAILED" |> <| ms_finished_at := Some now |> <| ms_error := Some message |>.

(** The jobs with one of the statuses. *)
Definition jobs_in (statuses : list string) (jobs : list JobRow) : list string :=
  List.map mj_id (List.filter (fun j => is_in (mj_status j) statuses) jobs).

Definition rename_stage (old new k : string) : string := if String.eqb k old then new else k.

Section Upgrade.
Context (now : Z).

(** [stage_key = 'create_vm'] *)
Definition rename_create_vm (db : Database) : Database :=
  db <| db_steps := List.map (fun s => s <| ms_key := rename_stage "clone_vm" "create_vm" (ms_key s) |>) (db_steps db) |>
     <| db_jobs := List.map (fun j => j <| mj_stage := option_map (rename_stage "clone_vm" "create_vm") (mj_stage j) |>) (db_jobs db) |>.

(** Jobs of the removed workflows that could still run. *)
Definition close_removed (db : Database) : Database :=
  let removed := _REMOVED_WORKFLOW_JOBS (db_requests db) in
  let open_ := jobs_in _IP_RESERVING (db_jobs db) in
  let steps := update (fun s => is_in (ms_status s) ["RUNNING"; "WAITING_FOR_PREREQUISITE"] && is_in (ms_job s) open_ && is_in (ms_job s) removed)
                 (failed_step now REMOVED_WORKFLOW) (db_steps db) in
  db <| db_steps := steps |>
     <| db_jobs := update (fun j => is_in (mj_status j) _IP_RESERVING && is_in (mj_id j) removed) (closed now steps REMOVED_WORKFLOW) (db_jobs db) |>.

(** Paused jobs: the waiting stage fails. *)
Definition close_paused (db : Database) : Database :=
  let paused := jobs_in ["ACTION_REQUIRED"] (db_jobs db) in
  let steps := update (fun s => String.eqb (ms_status s) "WAITING_FOR_PREREQUISITE" && is_in (ms_job s) paused)
                 (failed_step now MANUAL_STEP_REMOVED) (db_steps db) in
  db <| db_steps := steps |>
     <| db_jobs := update (fun j => String.eqb (mj_status j) "ACTION_REQUIRED") (closed now steps MANUAL_STEP_REMOVED) (db_jobs db) |>.

(** Anything still waiting belongs to a finished job. *)
Definition close_waiting (db : Database) : Database :=
  db <| db_steps := List.map (fun s =>
          match find_first (fun j => String.eqb (mj_id j) (ms_job s)) (db_jobs db) with
          | Some j => if String.eqb (ms_status s) "WAITING_FOR_PREREQUISITE"
                      then s <| ms_status := if String.eqb (mj_status j) "CANCELLED" then "CANCELLED" else "FAILED" |>
                             <| ms_finished_at := coalesce (ms_finished_at s) (Some now) |>
                             <| ms_error := coalesce (ms_error s) (Some MANUAL_STEP_REMOVED) |>
                      else s
          | None => s
          end) (db_steps db) |>.

(** The names of steps, the numbers of stages, the timeout setting. *)
Definition rename_steps (names : list (string * string)) (keep : StepRow -> bool) (steps : list StepRow) : list StepRow :=
  fold_left (fun steps e => update (fun s => String.eqb (ms_key s) (fst e) && negb (keep s)) (fun s => s <| ms_name := snd e |>) steps) names steps.

Definition renumber_and_rename (db : Database) : Database :=
  let removed := _REMOVED_WORKFLOW_JOBS (db_requests db) in
  db <| db_kinds := List.map (fun k => if String.eqb k "JOB_ACTION_REQUIRED" then "JOB_FAILED" else k) (db_kinds db) |>
     <| db_steps := rename_steps (List.map (fun e => (fst (fst e), snd (fst e))) RENAMED_STEPS) (fun s => is_in (ms_job s) removed)
                      (_renumber STAGES (db_steps db)) |>
     <| db_settings := _rename_timeout "clone_minutes" "create_vm_minutes" (db_settings db) |>.

(** [upgrade] *)
Definition upgrade_0009 (db : Database) : res string Database :=
  let db1 := renumber_and_rename (close_waiting (close_paused (close_removed (rename_create_vm db)))) in
  let jobs := List.map (fun j => j <| mj_action := None |>) (db_jobs db1) in
  let? _ := _rebuild_enum "job_status" mj_status JOB_STATUS jobs in
  let? _ := _rebuild_enum "step_status" ms_status STEP_STATUS (db_steps db1) in
  let? _ := create_unique_index "uq_provisioning_jobs_active_vm_name" active_name_key jobs in
  let? _ := create_unique_index "uq_provisioning_jobs_reserved_ipv4" (reserved_key _ACTIVE) jobs in
  Ok (db1 <| db_jobs := jobs |> <| job_labels := JOB_STATUS |> <| step_labels := STEP_STATUS |>).

End Upgrade.

(** [(value -> 'value') - key] in the row of the timeouts. *)
Definition drop_timeout (key : string) (rows : list (string * json)) : list (string * json) :=
  List.map (fun r =>
    match snd r with
    | JObj doc =>
        match assoc "value" doc with
        | Some (JObj l) => if String.eqb (fst r) "default_timeouts"
                           then (fst r, JObj (set_member "value" (JObj (List.filter (fun e => negb (String.eqb (fst e) key)) l)) doc)) else r
        | _ => r
        end
    | _ => r
    end) rows.

(** [downgrade] of 0009 *)
Definition downgrade_0009 (db : Database) : res string Database :=
  let? _ := create_unique_index "uq_provisioning_jobs_reserved_ipv4" (reserved_key _IP_RESERVING) (db_jobs db) in
  let kept := List.filter (fun s => negb (is_in (ms_key s) ["add_data_disks"; "initialize_data_disks"])) (db_steps db) in
  let back k := if is_in k ["add_data_disks"; "initialize_data_disks"] then "cleanup_unattended_media" else k in
  let jobs := List.map (fun j => j <| mj_stage := option_map (fun k => rename_stage "create_vm" "clone_vm" (back k)) (mj_stage j) |>) (db_jobs db) in
  let steps := List.map (fun s => s <| ms_key := rename_stage "create_vm" "clone_vm" (ms_key s) |>) kept in
  let named := rename_steps (List.map (fun e => (fst (fst e), snd e)) RENAMED_STEPS) (fun _ => false) (_renumber PREVIOUS_STAGES steps) in
  Ok (db <| db_jobs := jobs |> <| db_steps := named |>
         <| db_settings := drop_timeout "os_installation_minutes" (_rename_timeout "create_vm_minutes" "clone_minutes" (db_settings db)) |>
         <| job_labels := add_label "ACTION_REQUIRED" (job_labels db) |>
         <| step_labels := add_label "WAITING_FOR_PREREQUISITE" (step_labels db) |>).

(** The stages of the migration are those of the registry. *)
Lemma stages_are_registry : STAGES = stage_keys.
Proof. reflexivity. Qed.

Arguments vm_created : simpl never.
Arguments _REMOVED_WORKFLOW_JOBS : simpl never.
Arguments is_in : simpl never.
Arguments position : simpl never.

(** ** Rows through updates *)

Lemma is_in_spec s l : is_in s l = true <-> In s l.
Proof.
  unfold is_in. rewrite existsb_exists. split; [intros (x & I & E)|intros I; exists s].
  - apply String.eqb_eq in E. by subst.
  - by rewrite String.eqb_refl.
Qed.

Lemma map_id_keep {A B} (g : A -> B) (f : A -> A) l : (forall x, g (f x) = g x) -> List.map g (List.map f l) = List.map g l.
Proof. intros E. rewrite map_map. by apply map_ext. Qed.

Lemma forall2_map {A B} (R : A -> B -> Prop) (f : A -> B) l : (forall x, R x (f x)) -> Forall2 R l (List.map f l).
Proof. intros K. induction l as [|x l IH]; constructor; [apply K|exact IH]. Qed.

(** ** What the releases promise of their rows *)

Definition OLD_JOB_LABELS : list string := (JOB_STATUS ++ ["ACTION_REQUIRED"])%list.
Definition OLD_STEP_LABELS : list string := (STEP_STATUS ++ ["WAITING_FOR_PREREQUISITE"])%list.

(** Types, foreign key and primary key. *)
Record typed (jobs_ steps_ : list string) (db : Database) : Prop := {
  typed_jobs : Forall (fun j => In (mj_status j) jobs_) (db_jobs db);
  typed_steps : Forall (fun s => In (ms_status s) steps_) (db_steps db);
  typed_ids : NoDup (List.map mj_id (db_jobs db));
  typed_owner : Forall (fun s => In (ms_job s) (List.map mj_id (db_jobs db))) (db_steps db);
}.

Record reserved_once (reserving : list string) (db : Database) : Prop := {
  once_name : NoDup (omap active_name_key (db_jobs db));
  once_address : NoDup (omap (reserved_key reserving) (db_jobs db));
}.

(** A database of release 0008, and of release 0009. *)
Definition release_0008 (db : Database) : Prop := typed OLD_JOB_LABELS OLD_STEP_LABELS db /\ reserved_once _IP_RESERVING db.

Record release_0009 (db : Database) : Prop := {
  r9_typed : typed JOB_STATUS STEP_STATUS db;
  r9_once : reserved_once _ACTIVE db;
  r9_stages : Forall (fun s => ms_key s <> "clone_vm" /\ forall d, STAGES_BY_KEY (ms_key s) = Some d -> ms_sequence s = stage_index (ms_key s)) (db_steps db);
  r9_runnable : Forall (fun j => is_in (mj_status j) _ACTIVE = true -> ~ In (mj_id j) (_REMOVED_WORKFLOW_JOBS (db_requests db))) (db_jobs db);
}.

(** Whether the migration closes a job, and whether its VM exists. *)
Definition closes (db : Database) (j : JobRow) : bool :=
  String.eqb (mj_status j) "ACTION_REQUIRED" || is_in (mj_status j) _ACTIVE && is_in (mj_id j) (_REMOVED_WORKFLOW_JOBS (db_requests db)).
Definition vm_exists (db : Database) (id : string) : bool :=
  existsb (fun s => String.eqb (ms_job s) id && is_in (ms_key s) ["clone_vm"; "create_vm"] && is_in (ms_status s) ["SUCCEEDED"; "SKIPPED"]) (db_steps db).

Arguments vm_exists : simpl never.

(** What becomes of a job. *)
Definition job_after (now : Z) (db : Database) (j j' : JobRow) : Prop :=
  mj_id j' = mj_id j /\ mj_vm_name j' = mj_vm_name j /\ mj_queued_at j' = mj_queued_at j /\ mj_reserved j' = mj_reserved j /\
  if closes db j
  then mj_status j' = (if vm_exists db (mj_id j) then "PARTIALLY_COMPLETED" else "FAILED")
       /\ mj_finished_at j' = Some (default now (mj_finished_at j))
       /\ mj_summary j' = Some (if is_in (mj_id j) (_REMOVED_WORKFLOW_JOBS (db_requests db)) then REMOVED_WORKFLOW else MANUAL_STEP_REMOVED)
       /\ mj_detail j' = coalesce (mj_action j) (mj_detail j)
  else mj_status j' = mj_status j /\ mj_finished_at j' = mj_finished_at j /\ mj_summary j' = mj_summary j /\ mj_detail j' = mj_detail j.

Section UpgradeFacts.
Context (now : Z).

(** Closing steps touches none that built the VM. *)
Lemma vm_created_update p message steps id :
  (forall s, p s = true -> is_in (ms_status s) ["RUNNING"; "WAITING_FOR_PREREQUISITE"] = true) ->
  vm_created (update p (failed_step now message) steps) id = vm_created steps id.
Proof.
  intros P. unfold vm_created, update. apply existsb_map. intros s _. destruct (p s) eqn:E; [|done].
  apply P, is_in_spec in E. cbn in E. cbn. rewrite andb_false_r. destruct E as [<-|[<-|[]]]; by rewrite andb_false_r.
Qed.

Lemma vm_created_renamed db id : vm_created (db_steps (rename_create_vm db)) id = vm_exists db id.
Proof.
  unfold vm_created, vm_exists.
  change (db_steps (rename_create_vm db)) with (List.map (fun s => s <| ms_key := rename_stage "clone_vm" "create_vm" (ms_key s) |>) (db_steps db)).
  induction (db_steps db) as [|s l IH]; [done|]. cbn [List.map existsb].
  rewrite IH. f_equal. cbn. f_equal. f_equal. unfold rename_stage.
  destruct (String.eqb_spec (ms_key s) "clone_vm") as [->|N]; [by vm_compute|]. unfold is_in. cbn [existsb]. rewrite (proj2 (String.eqb_neq _ _) N). by rewrite orb_false_r.
Qed.

Definition steps_removed (db : Database) : list StepRow := db_steps (close_removed now (rename_create_vm db)).
Definition steps_paused (db : Database) : list StepRow := db_steps (close_paused now (close_removed now (rename_create_vm db))).

Lemma vm_created_removed db id : vm_created (steps_removed db) id = vm_exists db id.
Proof.
  rewrite <- vm_created_renamed. apply (vm_created_update _ REMOVED_WORKFLOW).
  intros s [[E _]%andb_true_iff _]%andb_true_iff. exact E.
Qed.

Lemma vm_created_paused db id : vm_created (steps_paused db) id = vm_exists db id.
Proof.
  rewrite <- vm_created_removed. apply (vm_created_update _ MANUAL_STEP_REMOVED).
  intros s [E _]%andb_true_iff. apply String.eqb_eq in E. by rewrite E.
Qed.

(** The statements that write jobs, on one row. *)
Definition stage_renamed (j : JobRow) : JobRow := j <| mj_stage := option_map (rename_stage "clone_vm" "create_vm") (mj_stage j) |>.
Definition after_removed (db : Database) (j : JobRow) : JobRow :=
  if is_in (mj_status j) _IP_RESERVING && is_in (mj_id j) (_REMOVED_WORKFLOW_JOBS (db_requests db))
  then closed now (steps_removed db) REMOVED_WORKFLOW j else j.
Definition after_paused (db : Database) (j : JobRow) : JobRow :=
  if String.eqb (mj_status j) "ACTION_REQUIRED" then closed now (steps_paused db) MANUAL_STEP_REMOVED j else j.
Definition upgraded_job (db : Database) (j : JobRow) : JobRow :=
  (after_paused db (after_removed db (stage_renamed j))) <| mj_action := None |>.

Definition upgraded (db : Database) : Database :=
  renumber_and_rename (close_waiting now (close_paused now (close_removed now (rename_create_vm db)))).

Lemma upgraded_jobs db : List.map (fun j => j <| mj_action := None |>) (db_jobs (upgraded db)) = List.map (upgraded_job db) (db_jobs db).
Proof.
  change (db_jobs (upgraded db)) with (List.map (after_paused db) (List.map (after_removed db) (List.map stage_renamed (db_jobs db)))).
  by rewrite !map_map.
Qed.

Lemma reserving_split s : is_in s _IP_RESERVING = String.eqb s "ACTION_REQUIRED" || is_in s _ACTIVE.
Proof. unfold is_in. cbn. by destruct (String.eqb s "QUEUED"), (String.eqb s "RUNNING"), (String.eqb s "INTERRUPTED"), (String.eqb s "ACTION_REQUIRED"). Qed.

Lemma upgraded_job_after db j : job_after now db j (upgraded_job db j).
Proof.
  unfold job_after, upgraded_job, after_paused, after_removed, closes.
  change (mj_status (stage_renamed j)) with (mj_status j). change (mj_id (stage_renamed j)) with (mj_id j).
  rewrite reserving_split. pose proof (vm_created_removed db (mj_id j)) as V1. pose proof (vm_created_paused db (mj_id j)) as V2.
  generalize dependent (steps_removed db). generalize dependent (steps_paused db). intros S2 V2 S1 V1.
  destruct (is_in (mj_id j) (_REMOVED_WORKFLOW_JOBS (db_requests db))) eqn:R; rewrite ?andb_true_r, ?andb_false_r, ?orb_false_r.
  - destruct (String.eqb (mj_status j) "ACTION_REQUIRED" || is_in (mj_status j) _ACTIVE) eqn:A.
    + unfold closed. cbn. rewrite V1. destruct (vm_exists db (mj_id j)); cbn; split_and!; try done; by destruct (mj_finished_at j).
    + apply orb_false_iff in A as [A _]. cbn. rewrite A. by split_and!.
  - change (mj_status (stage_renamed j)) with (mj_status j).
    destruct (String.eqb (mj_status j) "ACTION_REQUIRED"); [|by split_and!]. unfold closed. cbn. rewrite V2. split_and!; try done; by destruct (mj_finished_at j).
Qed.

(** Statements that keep the keys and leave labels of the new types. *)
Lemma typed_map jl sl jl' sl' (f : JobRow -> JobRow) (g : StepRow -> StepRow) db db' :
  typed jl sl db -> db_jobs db' = List.map f (db_jobs db) -> db_steps db' = List.map g (db_steps db) ->
  (forall j, mj_id (f j) = mj_id j) -> (forall x, ms_job (g x) = ms_job x) ->
  (forall j, In (mj_status j) jl -> In (mj_status (f j)) jl') ->
  (forall x, In (ms_status x) sl -> In (ms_job x) (List.map mj_id (db_jobs db)) -> In (ms_status (g x)) sl') -> typed jl' sl' db'.
Proof.
  intros [J S I O] EJ ES Fi Gi Fs Gs.
  assert (K : List.map mj_id (db_jobs db') = List.map mj_id (db_jobs db)) by (rewrite EJ; by apply map_id_keep).
  split; [..|rewrite K]; [|..|by rewrite K|].
  - rewrite EJ. apply List.Forall_map. eapply Forall_impl; [exact J|]. exact Fs.
  - rewrite ES. apply List.Forall_map, List.Forall_forall. intros x Hx. rewrite List.Forall_forall in S, O. apply Gs; [by apply S|by apply O].
  - rewrite ES. apply List.Forall_map. eapply Forall_impl; [exact O|]. cbn. intros x. by rewrite Gi.
Qed.

Lemma typed_renamed db : typed OLD_JOB_LABELS OLD_STEP_LABELS db -> typed OLD_JOB_LABELS OLD_STEP_LABELS (rename_create_vm db).
Proof. intros T. by eapply (typed_map _ _ _ _ _ _ db). Qed.

Lemma closed_label steps m j : In (mj_status (closed now steps m j)) JOB_STATUS.
Proof. unfold closed. cbn. destruct (vm_created steps (mj_id j)); cbn; tauto. Qed.

Lemma job_label_old s : In s JOB_STATUS -> In s OLD_JOB_LABELS.
Proof. intros I. apply in_app_iff. by left. Qed.

Lemma typed_removed db : typed OLD_JOB_LABELS OLD_STEP_LABELS db -> typed OLD_JOB_LABELS OLD_STEP_LABELS (close_removed now db).
Proof.
  intros T. eapply (typed_map _ _ _ _ _ _ db (close_removed now db)); [done|reflexivity|reflexivity|..]; intros x; cbn beta; destruct (_ && _); try done.
  - intros _. apply job_label_old, closed_label.
  - intros _ _. cbn. tauto.
Qed.

Lemma typed_paused db : typed OLD_JOB_LABELS OLD_STEP_LABELS db -> typed JOB_STATUS OLD_STEP_LABELS (close_paused now db).
Proof.
  intros T. eapply (typed_map _ _ _ _ _ _ db (close_paused now db)); [done|reflexivity|reflexivity|..]; intros x; cbn beta.
  - by destruct (String.eqb _ _).
  - by destruct (_ && _).
  - destruct (String.eqb_spec (mj_status x) "ACTION_REQUIRED") as [E|N]; [intros _; apply closed_label|].
    intros [I|[I|[]]]%in_app_iff; [done|by destruct N].
  - destruct (_ && _); [|done]. intros _ _. cbn. tauto.
Qed.

Lemma typed_waiting jl db : typed jl OLD_STEP_LABELS db -> typed jl STEP_STATUS (close_waiting now db).
Proof.
  intros T. eapply (typed_map _ _ _ _ (fun j => j) _ db (close_waiting now db)); [done|symmetry; apply map_id|reflexivity|done|..]; intros x; cbn beta.
  - by destruct (find_first _ _), (String.eqb (ms_status x) "WAITING_FOR_PREREQUISITE").
  - done.
  - intros I O. destruct (find_first _ (db_jobs db)) as [j|] eqn:F.
    + destruct (String.eqb_spec (ms_status x) "WAITING_FOR_PREREQUISITE") as [E|N].
      * cbn. destruct (String.eqb _ _); tauto.
      * apply in_app_iff in I as [I|[I|[]]]; [done|by destruct N].
    + apply in_map_iff in O as (j & E & O). apply find_first_none in F. rewrite List.Forall_forall in F.
      apply F in O. by rewrite E, String.eqb_refl in O.
Qed.

Lemma update_keeps {A B} (g : A -> B) p (f : A -> A) rows : (forall x, g (f x) = g x) -> List.map g (update p f rows) = List.map g rows.
Proof. intros G. apply map_id_keep. intros x. by destruct (p x). Qed.

(** What renaming and renumbering make of a step. *)
Lemma rename_steps_keeps {B} (g : StepRow -> B) names keep steps :
  (forall s n, g (s <| ms_name := n |>) = g s) -> List.map g (rename_steps names keep steps) = List.map g steps.
Proof.
  intros G. unfold rename_steps. revert steps. induction names as [|e names IH]; intros steps; [done|]. cbn. rewrite IH.
  apply update_keeps. intros x. apply G.
Qed.

Lemma renumber_keeps {B} (g : StepRow -> B) stages steps :
  (forall s i, g (s <| ms_sequence := i |>) = g s) -> List.map g (_renumber stages steps) = List.map g steps.
Proof. intros G. unfold _renumber. apply map_id_keep. intros x. destruct (position (ms_key x) stages); [apply (G x)|done]. Qed.

Lemma forall_by_map {A B} (g : A -> B) (P : B -> Prop) l l' : List.map g l' = List.map g l -> Forall (fun x => P (g x)) l -> Forall (fun x => P (g x)) l'.
Proof. rewrite <- !(List.Forall_map g P). by intros ->. Qed.

Lemma typed_numbered jl db : typed jl STEP_STATUS db -> typed jl STEP_STATUS (renumber_and_rename db).
Proof.
  intros [J S I O].
  assert (K : forall B (g : StepRow -> B), (forall s n, g (s <| ms_name := n |>) = g s) -> (forall s i, g (s <| ms_sequence := i |>) = g s) ->
                List.map g (db_steps (renumber_and_rename db)) = List.map g (db_steps db)).
  { intros B g G1 G2. cbn [renumber_and_rename]. etransitivity; [by apply rename_steps_keeps|by apply renumber_keeps]. }
  split; [done|..|done|].
  - by eapply (forall_by_map ms_status (fun s => In s STEP_STATUS)); [apply K|].
  - by eapply (forall_by_map ms_job (fun s => In s (List.map mj_id (db_jobs db)))); [apply K|].
Qed.

Lemma typed_upgraded db : typed OLD_JOB_LABELS OLD_STEP_LABELS db -> typed JOB_STATUS STEP_STATUS (upgraded db).
Proof. intros T. by apply typed_numbered, typed_waiting, typed_paused, typed_removed, typed_renamed. Qed.

(** The numbers of the stages are those of the registry. *)
Lemma position_stage k d : STAGES_BY_KEY k = Some d -> position k STAGES = Some (stage_index k).
Proof.
  intros (I & <-)%stages_by_key_some.
  assert (C : forallb (fun d => bool_decide (position (stage_key_of d) STAGES = Some (stage_index (stage_key_of d)))) ORDERED_STAGES = true)
    by (vm_compute; reflexivity).
  rewrite forallb_forall in C. by eapply bool_decide_eq_true_1, C.
Qed.

Lemma upgraded_stages db :
  Forall (fun s => ms_key s <> "clone_vm" /\ forall d, STAGES_BY_KEY (ms_key s) = Some d -> ms_sequence s = stage_index (ms_key s)) (db_steps (upgraded db)).
Proof.
  pose (g := fun s => (ms_key s, ms_sequence s)).
  apply (forall_by_map g (fun e => e.1 <> "clone_vm" /\ forall d, STAGES_BY_KEY e.1 = Some d -> e.2 = stage_index e.1)
           (_renumber STAGES (db_steps (close_waiting now (close_paused now (close_removed now (rename_create_vm db))))))).
  { by apply (rename_steps_keeps g). }
  apply List.Forall_map.
  assert (K : Forall (fun s => ms_key s <> "clone_vm") (db_steps (close_waiting now (close_paused now (close_removed now (rename_create_vm db)))))).
  { apply (forall_by_map ms_key (fun k => k <> "clone_vm") (db_steps (rename_create_vm db))).
    - transitivity (List.map ms_key (db_steps (close_paused now (close_removed now (rename_create_vm db))))).
      { apply map_id_keep. intros x. by destruct (find_first _ _), (String.eqb (ms_status x) "WAITING_FOR_PREREQUISITE"). }
      transitivity (List.map ms_key (db_steps (close_removed now (rename_create_vm db)))); by apply update_keeps.
    - apply List.Forall_map, List.Forall_forall. intros s _. cbn. unfold rename_stage. by destruct (String.eqb_spec (ms_key s) "clone_vm"). }
  eapply Forall_impl; [exact K|]. intros s N. unfold g. cbn. split; [by destruct (position (ms_key s) STAGES)|].
  intros d D. assert (E : STAGES_BY_KEY (ms_key s) = Some d) by by destruct (position (ms_key s) STAGES).
  rewrite (position_stage _ _ E). done.
Qed.

Lemma active_label s : is_in s _ACTIVE = true -> In s JOB_STATUS /\ s <> "PARTIALLY_COMPLETED" /\ s <> "FAILED" /\ s <> "ACTION_REQUIRED".
Proof. intros I%is_in_spec. cbn in I. destruct I as [<-|[<-|[<-|[]]]]; cbn; split_and!; try tauto; done. Qed.

(** A job that is active afterwards was active before, and is not closed. *)
Lemma upgraded_active db j : is_in (mj_status (upgraded_job db j)) _ACTIVE = true ->
  closes db j = false /\ mj_status (upgraded_job db j) = mj_status j.
Proof.
  intros A. destruct (upgraded_job_after db j) as (_ & _ & _ & _ & T). destruct (closes db j); [|by destruct T].
  destruct T as (E & _). apply active_label in A as (_ & N1 & N2 & _). rewrite E in N1, N2. by destruct (vm_exists db (mj_id j)).
Qed.

Lemma upgraded_once db : reserved_once _IP_RESERVING db ->
  NoDup (omap active_name_key (List.map (upgraded_job db) (db_jobs db)))
  /\ NoDup (omap (reserved_key _ACTIVE) (List.map (upgraded_job db) (db_jobs db))).
Proof.
  intros [N R]. split; [eapply omap_map_nodup, N|eapply omap_map_nodup, R]; intros j _;
    destruct (upgraded_job_after db j) as (_ & En & _ & Er & _); unfold active_name_key, reserved_key;
    destruct (is_in (mj_status (upgraded_job db j)) _ACTIVE) eqn:A; try (by right); left;
    destruct (upgraded_active db j A) as [_ E]; rewrite E in A.
  - by rewrite A, En.
  - by rewrite reserving_split, A, orb_true_r, Er.
Qed.

Lemma upgraded_runnable db :
  Forall (fun j => is_in (mj_status j) _ACTIVE = true -> ~ In (mj_id j) (_REMOVED_WORKFLOW_JOBS (db_requests db))) (List.map (upgraded_job db) (db_jobs db)).
Proof.
  apply List.Forall_map, List.Forall_forall. intros j _ A. destruct (upgraded_active db j A) as [C E].
  destruct (upgraded_job_after db j) as (-> & _). rewrite E in A. unfold closes in C. apply orb_false_iff in C as [_ C].
  rewrite A in C. cbn in C. intros I%is_in_spec. by rewrite I in C.
Qed.

Lemma unique_index_ok {A} name (key : A -> option string) rows : NoDup (omap key rows) -> create_unique_index name key rows = Ok tt.
Proof. intros N. unfold create_unique_index. by rewrite bool_decide_eq_true_2. Qed.

Lemma rebuild_ok {A} name (label : A -> string) values rows : Forall (fun r => In (label r) values) rows -> _rebuild_enum name label values rows = Ok tt.
Proof.
  intros F. unfold _rebuild_enum. rewrite (proj2 (forallb_forall _ _)); [done|]. intros r I. rewrite List.Forall_forall in F.
  by apply is_in_spec, F.
Qed.

(** C16 (migration 0009, upgrade): the upgrade always goes through, and ends in
    a database the release can run.  For every database of the previous
    release, the new column types hold every label and the new unique indexes
    every reservation; every step of a known stage has the number the stage
    has in the registry; no active job lacks its installation ISO; and each
    job is kept as it was, or, exactly when it was paused or belongs to the
    removed workflow and could still run, is closed with an explanation, as
    partially completed if and only if its VM exists. *)
Theorem upgrade_0009_total db :
  release_0008 db ->
  exists db', upgrade_0009 now db = Ok db' /\ release_0009 db' /\ Forall2 (job_after now db) (db_jobs db) (db_jobs db').
Proof.
  intros [T O]. pose proof (typed_upgraded db T) as [J S I Ow]. destruct (upgraded_once db O) as [O1 O2].
  unfold upgrade_0009. cbn zeta. fold (upgraded db). rewrite upgraded_jobs.
  assert (J' : Forall (fun j => In (mj_status j) JOB_STATUS) (List.map (upgraded_job db) (db_jobs db)))
    by (rewrite <- upgraded_jobs; by apply List.Forall_map).
  assert (I' : List.map mj_id (List.map (upgraded_job db) (db_jobs db)) = List.map mj_id (db_jobs (upgraded db)))
    by (rewrite <- upgraded_jobs; by apply map_id_keep).
  rewrite (rebuild_ok _ _ _ _ J'), (rebuild_ok _ _ _ _ S), (unique_index_ok _ _ _ O1), (unique_index_ok _ _ _ O2). cbn [res_bind].
  eexists. split; [reflexivity|]. split.
  - split; [split|split|apply upgraded_stages|]; try done; cbn [db_jobs db_steps db_requests].
    + change (NoDup (List.map mj_id (List.map (upgraded_job db) (db_jobs db)))). by rewrite I'.
    + change (Forall (fun s => In (ms_job s) (List.map mj_id (List.map (upgraded_job db) (db_jobs db)))) (db_steps (upgraded db))). by rewrite I'.
    + exact (upgraded_runnable db).
  - apply forall2_map. intros j. apply upgraded_job_after.
Qed.

End UpgradeFacts.

(** ** Migration 0007 *)

(** A key no two different rows share. *)
Lemma nodup_omap_pairwise {A B} (id_of : A -> string) (key : A -> option B) l :
  NoDup (List.map id_of l) ->
  (forall a b k, In a l -> In b l -> id_of a <> id_of b -> key a = Some k -> key b = Some k -> False) -> NoDup (omap key l).
Proof.
  induction l as [|x l IH]; [constructor|]. cbn. intros [Nx N]%NoDup_cons D.
  assert (T : NoDup (omap key l)) by (apply IH; [done|]; intros a b k Ia Ib; apply D; by right).
  destruct (key x) as [k|] eqn:E; [|done]. apply NoDup_cons. split; [|done].
  intros (y & I & K)%list_elem_of_omap. apply list_elem_of_In in I. eapply (D x y k); [by left|by right| |done|done].
  intros F. apply Nx, list_elem_of_In. rewrite F. by apply in_map.
Qed.

(** Of two rows one was queued first. *)
Lemma queued_total a b : mj_id a <> mj_id b -> queued_before a b = true \/ queued_before b a = true.
Proof.
  intros N. unfold queued_before. destruct (Z.lt_trichotomy (mj_queued_at a) (mj_queued_at b)) as [L|[E|L]].
  - left. by rewrite (proj2 (Z.ltb_lt _ _) L).
  - rewrite E, Z.ltb_irrefl, Z.eqb_refl. cbn. rewrite (proj2 (String.eqb_neq _ _) N), (proj2 (String.eqb_neq (mj_id b) _)) by done.
    rewrite !andb_true_r. apply String.leb_total.
  - right. by rewrite (proj2 (Z.ltb_lt _ _) L).
Qed.

Section Upgrade7.
Context (now : Z).

Lemma duplicates_closed jobs :
  NoDup (List.map mj_id jobs) -> NoDup (omap active_name_key (close_duplicates now jobs)).
Proof.
  intros N. unfold close_duplicates, update.
  apply (nodup_omap_pairwise mj_id); [by rewrite map_id_keep by (intros x; by destruct (duplicate_name jobs x))|].
  assert (K : forall x, In x jobs -> forall k, active_name_key (if duplicate_name jobs x
                then x <| mj_status := "FAILED" |> <| mj_finished_at := Some now |> <| mj_summary := Some DUPLICATE_NAME |> else x) = Some k ->
              duplicate_name jobs x = false /\ is_in (mj_status x) _ACTIVE = true /\ lower (mj_vm_name x) = k).
  { intros x _ k. destruct (duplicate_name jobs x); [by vm_compute|]. unfold active_name_key.
    destruct (is_in (mj_status x) _ACTIVE); [|done]. by intros [= <-]. }
  intros a b k (x & <- & Ix)%in_map_iff (y & <- & Iy)%in_map_iff D Kx Ky.
  apply (K x Ix) in Kx as (Dx & Ax & Ex). apply (K y Iy) in Ky as (Dy & Ay & Ey). rewrite Dx, Dy in D.
  assert (Q : forall u v, In u jobs -> duplicate_name jobs v = false -> is_in (mj_status u) _ACTIVE = true -> is_in (mj_status v) _ACTIVE = true ->
                lower (mj_vm_name u) = lower (mj_vm_name v) -> queued_before u v = true -> False).
  { intros u v Iu F Au Av E B. unfold duplicate_name in F. rewrite Av in F. cbn in F.
    assert (X : existsb (fun o => is_in (mj_status o) _ACTIVE && String.eqb (lower (mj_vm_name o)) (lower (mj_vm_name v)) && queued_before o v) jobs = true).
    { apply existsb_exists. exists u. split; [done|]. by rewrite Au, E, String.eqb_refl, B. }
    by rewrite X in F. }
  destruct (queued_total x y D) as [B|B].
  - apply (Q x y); congruence.
  - apply (Q y x); congruence.
Qed.

Lemma static_address_reserved requests j a : static_address requests (j <| mj_reserved := a |>) = static_address requests j.
Proof. done. Qed.

(** The job that is queued first holds the address. *)
Lemma holder_first requests jobs j a : In j jobs -> static_address requests j = Some a ->
  exists h, holder_of requests jobs a = Some h /\ In h jobs /\ static_address requests h = Some a /\ mj_queued_at h <= mj_queued_at j.
Proof.
  intros I S. unfold holder_of. set (before := fun a b : JobRow => mj_queued_at a <=? mj_queued_at b).
  assert (O : ordered before (sort_by before jobs)).
  { apply sort_by_ordered; unfold before_trans, before_total, before; intros *; rewrite ?Z.leb_le, ?Z.leb_gt; lia. }
  assert (J : In j (sort_by before jobs)) by (eapply Permutation_in; [symmetry; apply sort_by_perm|done]).
  assert (Sub : forall x, In x (sort_by before jobs) -> In x jobs) by (intros x; apply Permutation_in, sort_by_perm).
  assert (L : forall x, before j x = false -> mj_queued_at x <= mj_queued_at j) by (unfold before; intros x; rewrite Z.leb_gt; lia).
  assert (M : forall x, before x j = true -> mj_queued_at x <= mj_queued_at j) by (unfold before; intros x; by rewrite Z.leb_le).
  clearbody before. revert O J Sub. induction (sort_by before jobs) as [|x l IH]; [done|]. intros O J Sub. inversion O as [|? ? O' F]; subst.
  cbn [find_first List.find]. destruct (bool_decide (static_address requests x = Some a)) eqn:E.
  - exists x. apply bool_decide_eq_true in E. split_and!; [done|apply Sub; by left|done|].
    destruct J as [->|J]; [lia|]. apply M. rewrite List.Forall_forall in F. by apply F.
  - destruct J as [->|J]; [by rewrite bool_decide_eq_true_2 in E|]. apply IH; [done|done|]. intros y Y. apply Sub. by right.
Qed.

(** A reservation that was written is the holder's. *)
Definition backfilled (requests : list (string * json)) (jobs : list JobRow) (j : JobRow) : JobRow :=
  match static_address requests j with
  | Some a => match holder_of requests jobs a with
              | Some h => if String.eqb (mj_id h) (mj_id j) then j <| mj_reserved := Some a |> else j
              | None => j
              end
  | None => j
  end.

Lemma backfilled_keeps {B} (g : JobRow -> B) requests jobs j : (forall j a, g (j <| mj_reserved := a |>) = g j) -> g (backfilled requests jobs j) = g j.
Proof.
  intros G. unfold backfilled. destruct (static_address requests j); [|done]. destruct (holder_of requests jobs _); [|done].
  by destruct (String.eqb _ _).
Qed.

Lemma backfilled_reserved requests jobs j a : mj_reserved j = None -> mj_reserved (backfilled requests jobs j) = Some a ->
  exists h, holder_of requests jobs a = Some h /\ mj_id h = mj_id j.
Proof.
  intros N. unfold backfilled. destruct (static_address requests j) as [b|]; [|by rewrite N].
  destruct (holder_of requests jobs b) as [h|] eqn:H; [|by rewrite N]. destruct (String.eqb_spec (mj_id h) (mj_id j)) as [E|]; [|by rewrite N].
  intros [= <-]. by exists h.
Qed.

Lemma reservations_held requests jobs :
  NoDup (List.map mj_id jobs) -> Forall (fun j => mj_reserved j = None) jobs ->
  NoDup (omap (reserved_key _IP_RESERVING) (backfill_reservations requests jobs)).
Proof.
  intros N F. rewrite List.Forall_forall in F.
  apply (nodup_omap_pairwise mj_id); [unfold backfill_reservations; by rewrite map_id_keep by (intros x; by apply (backfilled_keeps mj_id))|].
  intros a b k (x & <- & Ix)%in_map_iff (y & <- & Iy)%in_map_iff D Kx Ky.
  fold (backfilled requests jobs x) in *. fold (backfilled requests jobs y) in *.
  unfold reserved_key in Kx, Ky. destruct (is_in _ _) in Kx; [|done]. destruct (is_in _ _) in Ky; [|done].
  destruct (backfilled_reserved _ _ _ _ (F x Ix) Kx) as (h & H & Ex). destruct (backfilled_reserved _ _ _ _ (F y Iy) Ky) as (h' & H' & Ey).
  rewrite !(backfilled_keeps mj_id) in D by done. congruence.
Qed.

(** A job as the upgrade leaves it, but for its reservation. *)
Definition renewed (jobs : list JobRow) (j : JobRow) : JobRow :=
  if duplicate_name jobs j
  then j <| mj_reserved := None |> <| mj_status := "FAILED" |> <| mj_finished_at := Some now |> <| mj_summary := Some DUPLICATE_NAME |>
  else j <| mj_reserved := None |>.

(** It goes through for every table of jobs, rewrites each row by itself, and
    every static address a job may still configure is reserved by a job that
    was queued no later. *)
Lemma upgrade_0007_total db :
  NoDup (List.map mj_id (db_jobs db)) ->
  exists db' jobs, upgrade_0007 now db = Ok db' /\ reserved_once _IP_RESERVING db'
    /\ db_steps db' = db_steps db /\ db_requests db' = db_requests db
    /\ db_jobs db' = List.map (fun j => backfilled (db_requests db) jobs (renewed (db_jobs db) j)) (db_jobs db)
    /\ (forall j a, In j (db_jobs db') -> static_address (db_requests db) j = Some a ->
          exists h, In h (db_jobs db') /\ reserved_key _IP_RESERVING h = Some a /\ mj_queued_at h <= mj_queued_at j).
Proof.
  intros N. unfold upgrade_0007. set (jobs0 := List.map (fun j => j <| mj_reserved := None |>) (db_jobs db)).
  assert (N0 : NoDup (List.map mj_id jobs0)) by (unfold jobs0; by rewrite map_id_keep).
  set (jobs1 := close_duplicates now jobs0). set (requests := db_requests db). set (jobs2 := backfill_reservations requests jobs1).
  assert (N1 : NoDup (List.map mj_id jobs1))
    by (unfold jobs1, close_duplicates; by rewrite update_keeps).
  assert (F1 : Forall (fun j => mj_reserved j = None) jobs1).
  { unfold jobs1, close_duplicates, update, jobs0. rewrite !List.Forall_map. apply List.Forall_forall. intros j _.
    by destruct (duplicate_name _ _). }
  assert (U1 : NoDup (omap active_name_key jobs2)).
  { unfold jobs2, backfill_reservations. eapply omap_map_nodup, (duplicates_closed jobs0 N0). intros j _. left.
    by apply (backfilled_keeps active_name_key). }
  pose proof (reservations_held requests jobs1 N1 F1) as U2. fold jobs2 in U2.
  rewrite (unique_index_ok _ _ _ U1), (unique_index_ok _ _ _ U2). cbn [res_bind]. eexists _, jobs1. split; [reflexivity|].
  cbn [db_jobs db_steps db_requests]. split_and!; [by split|done|done| |].
  - change (jobs2 = List.map (fun j => backfilled requests jobs1 (renewed (db_jobs db) j)) (db_jobs db)).
    assert (D : forall j, duplicate_name jobs0 (j <| mj_reserved := None |>) = duplicate_name (db_jobs db) j)
      by (intros j; unfold duplicate_name, jobs0; f_equal; by apply existsb_map).
    transitivity (List.map (backfilled requests jobs1) jobs1); [reflexivity|]. unfold jobs1 at 2, close_duplicates, update.
    unfold jobs0 at 2. rewrite !map_map. apply map_ext. intros j. unfold renewed. rewrite D. by destruct (duplicate_name (db_jobs db) j).
  - change (forall j a, In j jobs2 -> static_address requests j = Some a ->
              exists h, In h jobs2 /\ reserved_key _IP_RESERVING h = Some a /\ mj_queued_at h <= mj_queued_at j).
    intros j a (j1 & <- & I)%in_map_iff. fold (backfilled requests jobs1 j1).
    rewrite (backfilled_keeps (static_address requests)), (backfilled_keeps mj_queued_at) by done. intros S.
    destruct (holder_first requests jobs1 j1 a I S) as (h & H & Ih & Sh & Q). exists (backfilled requests jobs1 h).
    split_and!; [by apply in_map| |by rewrite (backfilled_keeps mj_queued_at)].
    unfold reserved_key. rewrite (backfilled_keeps mj_status) by done.
    assert (A : is_in (mj_status h) _IP_RESERVING = true).
    { unfold static_address in Sh. by destruct (bool_decide _), (is_in (mj_status h) _IP_RESERVING). }
    rewrite A. unfold backfilled. rewrite Sh, H, String.eqb_refl. done.
Qed.

(** *** What the upgrade promises, in terms of the rows alone *)

(** The job came first: by the time it was queued, and by its id among those
    that were queued at once. *)
Definition came_first (a b : JobRow) : Prop :=
  mj_queued_at a < mj_queued_at b
  \/ mj_queued_at a = mj_queued_at b /\ mj_id a <> mj_id b /\ String.leb (mj_id a) (mj_id b) = true.

(** An older active job wants the same VM name. *)
Definition displaced (jobs : list JobRow) (j : JobRow) : Prop :=
  In (mj_status j) ["QUEUED"; "RUNNING"; "INTERRUPTED"]
  /\ exists o, In o jobs /\ In (mj_status o) ["QUEUED"; "RUNNING"; "INTERRUPTED"] /\ lower (mj_vm_name o) = lower (mj_vm_name j) /\ came_first o j.

(** A JSON value as text. *)
Inductive reads : json -> string -> Prop :=
| reads_string s : reads (JStr s) s
| reads_other v : v <> JNull -> (forall s, v <> JStr s) -> reads v (json_dumps v).

(** The stored request of the job asks for the static address, and the job may
    still configure it. *)
Definition may_configure (requests : list (string * json)) (j : JobRow) (a : string) : Prop :=
  In (mj_status j) ["QUEUED"; "RUNNING"; "INTERRUPTED"; "ACTION_REQUIRED"]
  /\ exists payload network ipv4 mode address,
       assoc (mj_id j) requests = Some (JObj payload) /\ assoc "network" payload = Some (JObj network)
       /\ assoc "mode" network = Some mode /\ reads mode "STATIC"
       /\ assoc "ipv4" network = Some (JObj ipv4) /\ assoc "address" ipv4 = Some address /\ reads address a.

(** What becomes of a job. *)
Record job_renewed (db : Database) (j j' : JobRow) : Prop := {
  jr_same : mj_id j' = mj_id j /\ mj_vm_name j' = mj_vm_name j /\ mj_queued_at j' = mj_queued_at j;
  jr_closed : displaced (db_jobs db) j -> mj_status j' = "FAILED" /\ mj_finished_at j' = Some now /\ mj_summary j' = Some DUPLICATE_NAME;
  jr_kept : ~ displaced (db_jobs db) j -> mj_status j' = mj_status j /\ mj_finished_at j' = mj_finished_at j /\ mj_summary j' = mj_summary j;
  jr_own : forall a, mj_reserved j' = Some a -> may_configure (db_requests db) j' a;
}.

Lemma came_first_spec a b : queued_before a b = true <-> came_first a b.
Proof.
  unfold queued_before, came_first. rewrite orb_true_iff, !andb_true_iff, Z.ltb_lt, Z.eqb_eq, negb_true_iff, String.eqb_neq. tauto.
Qed.

Lemma duplicate_name_spec jobs j : duplicate_name jobs j = true <-> displaced jobs j.
Proof.
  unfold duplicate_name, displaced. rewrite andb_true_iff, existsb_exists, is_in_spec. fold _ACTIVE. split.
  - intros (A & o & I & [[B%is_in_spec E%String.eqb_eq]%andb_true_iff F%came_first_spec]%andb_true_iff). split; [done|]. by exists o.
  - intros (A & o & I & B%is_in_spec & E & F%came_first_spec). split; [done|]. exists o. by rewrite B, E, String.eqb_refl, F.
Qed.

Lemma text_of_spec v s : text_of v = Some s <-> exists w, v = Some w /\ reads w s.
Proof.
  split.
  - destruct v as [w|]; [|done]. intros E. exists w. split; [done|].
    destruct w; cbn in E; try done; injection E as <-; by constructor.
  - intros (w & -> & R). destruct R as [|w N M]; [done|]. destruct w; try done. by destruct (M s).
Qed.

Lemma member_of_spec k v w : member_of k v = Some w <-> exists l, v = Some (JObj l) /\ assoc k l = Some w.
Proof. split; [destruct v as [[]|]; try done; by eexists|]. by intros (l & -> & E). Qed.

Lemma static_address_spec requests j a : static_address requests j = Some a <-> may_configure requests j a.
Proof.
  unfold static_address, may_configure. fold _IP_RESERVING. rewrite <- is_in_spec. split.
  - destruct (bool_decide _) eqn:M; [|done]. apply bool_decide_eq_true in M. destruct (is_in _ _); [|done]. cbn [andb].
    intros (w & E & R)%text_of_spec. apply text_of_spec in M as (m & M & S). split; [done|].
    apply member_of_spec in M as (network & N & M). apply member_of_spec in N as (payload & P & N).
    apply member_of_spec in E as (ipv4 & I & E). apply member_of_spec in I as (network' & N' & I).
    rewrite P in N'. cbn in N'. rewrite N in N'. injection N' as <-. by exists payload, network, ipv4, m, w.
  - intros (-> & payload & network & ipv4 & m & w & P & N & M & S & I & E & R). rewrite P. cbn [member_of]. rewrite N. cbn [member_of].
    rewrite M, bool_decide_eq_true_2 by (apply text_of_spec; by exists m). cbn [andb]. rewrite I. cbn [member_of]. apply text_of_spec. by exists w.
Qed.

Lemma backfilled_own requests jobs j a : mj_reserved j = None -> mj_reserved (backfilled requests jobs j) = Some a -> static_address requests j = Some a.
Proof.
  intros N. unfold backfilled. destruct (static_address requests j) as [b|]; [|by rewrite N].
  destruct (holder_of requests jobs b) as [h|]; [|by rewrite N]. by destruct (String.eqb _ _); [intros [= <-]|rewrite N].
Qed.

Lemma renewed_after db jobs j : job_renewed db j (backfilled (db_requests db) jobs (renewed (db_jobs db) j)).
Proof.
  assert (K : forall B (g : JobRow -> B), (forall j a, g (j <| mj_reserved := a |>) = g j) ->
            g (backfilled (db_requests db) jobs (renewed (db_jobs db) j)) = g (renewed (db_jobs db) j)) by (intros; by apply backfilled_keeps).
  assert (N : mj_reserved (renewed (db_jobs db) j) = None) by (unfold renewed; by destruct (duplicate_name _ _)).
  constructor.
  - rewrite (K _ mj_id), (K _ mj_vm_name), (K _ mj_queued_at) by done. unfold renewed. by destruct (duplicate_name _ _).
  - intros D%duplicate_name_spec. rewrite (K _ mj_status), (K _ mj_finished_at), (K _ mj_summary) by done. unfold renewed. by rewrite D.
  - intros D. rewrite (K _ mj_status), (K _ mj_finished_at), (K _ mj_summary) by done. rewrite <- duplicate_name_spec in D.
    apply not_true_is_false in D. unfold renewed. by rewrite D.
  - intros a R. apply static_address_spec. rewrite (K _ (static_address (db_requests db))) by done. by apply (backfilled_own _ jobs).
Qed.

Lemma renewed_status requests jobs all j :
  mj_status (backfilled requests jobs (renewed all j)) = if duplicate_name all j then "FAILED" else mj_status j.
Proof. rewrite (backfilled_keeps mj_status) by done. unfold renewed. by destruct (duplicate_name all j). Qed.


End Upgrade7.

(** ** The path of upgrades *)

Lemma upgrade_0007_release now db : typed OLD_JOB_LABELS OLD_STEP_LABELS db ->
  exists db', upgrade_0007 now db = Ok db' /\ release_0008 db'.
Proof.
  intros [J S I O]. destruct (upgrade_0007_total now db I) as (db' & jobs & U & R & E & _ & K & _). exists db'. split; [done|].
  assert (Ki : List.map mj_id (db_jobs db') = List.map mj_id (db_jobs db)).
  { rewrite K. apply map_id_keep. intros j. by destruct (jr_same _ _ _ _ (renewed_after now db jobs j)). }
  split; [split|done].
  - rewrite K. apply List.Forall_map. eapply Forall_impl; [exact J|]. cbn beta. intros j Ij. rewrite renewed_status.
    destruct (duplicate_name (db_jobs db) j); [cbn; tauto|done].
  - by rewrite E.
  - by rewrite Ki.
  - by rewrite E, Ki.
Qed.

(** From any database whose rows have labels of release 0006 to the current
    release; migration 0008 only adds a table. *)
Lemma upgrade_path now1 now2 db : typed OLD_JOB_LABELS OLD_STEP_LABELS db ->
  exists db', (let? db1 := upgrade_0007 now1 db in upgrade_0009 now2 db1) = Ok db' /\ release_0009 db'.
Proof.
  intros T. destruct (upgrade_0007_release now1 db T) as (db1 & U & R). rewrite U. cbn [res_bind].
  destruct (upgrade_0009_total now2 db1 R) as (db2 & V & R2 & _). by exists db2.
Qed.

(** ** Paused jobs *)

Lemma upgrade_result now db db' : upgrade_0009 now db = Ok db' -> db_steps db' = db_steps (upgraded now db).
Proof.
  unfold upgrade_0009. intros U. repeat (apply res_bind_ok in U as (? & _ & U)). by injection U as <-.
Qed.

(** The waiting stage of a paused job fails, which is what a retry asks for. *)
Lemma paused_job_retryable now db db' j s :
  upgrade_0009 now db = Ok db' -> In j (db_jobs db) -> mj_status j = "ACTION_REQUIRED" ->
  In s (db_steps db) -> ms_job s = mj_id j -> ms_status s = "WAITING_FOR_PREREQUISITE" ->
  exists s', In s' (db_steps db') /\ ms_job s' = ms_job s /\ ms_key s' = rename_stage "clone_vm" "create_vm" (ms_key s) /\ ms_status s' = "FAILED".
Proof.
  intros ->%upgrade_result Ij Aj Is Os Ws.
  set (key := rename_stage "clone_vm" "create_vm" (ms_key s)). pose (g := fun s => (ms_job s, ms_key s, ms_status s)).
  assert (P : exists s3, In s3 (db_steps (close_paused now (close_removed now (rename_create_vm db)))) /\ g s3 = (ms_job s, key, "FAILED")).
  { set (removed := _REMOVED_WORKFLOW_JOBS (db_requests db)). set (s1 := s <| ms_key := key |>).
    assert (O : is_in (ms_job s) (jobs_in _IP_RESERVING (db_jobs (rename_create_vm db))) = true).
    { apply is_in_spec. rewrite Os. apply in_map_iff. exists (stage_renamed j). split; [done|]. apply filter_In.
      split; [by apply in_map|]. change (mj_status (stage_renamed j)) with (mj_status j). by rewrite Aj. }
    eexists. split; [apply in_map, in_map, in_map, Is|]. fold key. fold s1.
    change (_REMOVED_WORKFLOW_JOBS (db_requests (rename_create_vm db))) with removed.
    change (ms_status s1) with (ms_status s). change (ms_job s1) with (ms_job s). rewrite Ws, O.
    change (is_in "WAITING_FOR_PREREQUISITE" ["RUNNING"; "WAITING_FOR_PREREQUISITE"]) with true. cbn [andb].
    destruct (is_in (ms_job s) removed) eqn:R; [done|].
    change (ms_status s1) with (ms_status s). change (ms_job s1) with (ms_job s). rewrite Ws.
    rewrite (proj2 (is_in_spec (ms_job s) _)); [done|]. rewrite Os. apply in_map_iff. exists (stage_renamed j). split; [done|].
    apply filter_In. split; [|change (mj_status (stage_renamed j)) with (mj_status j); by rewrite Aj].
    apply in_map_iff. exists (stage_renamed j). split; [|by apply in_map].
    change (mj_id (stage_renamed j)) with (mj_id j). rewrite <- Os.
    change (_REMOVED_WORKFLOW_JOBS (db_requests (rename_create_vm db))) with removed. by rewrite R, andb_false_r. }
  destruct P as (s3 & I3 & G3). injection G3 as J3 K3 S3.
  assert (I4 : In s3 (db_steps (close_waiting now (close_paused now (close_removed now (rename_create_vm db)))))).
  { apply in_map_iff. exists s3. split; [|done]. rewrite S3. by destruct (find_first _ _). }
  assert (E : List.map g (db_steps (upgraded now db)) = List.map g (db_steps (close_waiting now (close_paused now (close_removed now (rename_create_vm db))))))
    by (etransitivity; [by apply rename_steps_keeps|by apply renumber_keeps]).
  apply (in_map g) in I4. rewrite <- E in I4. apply in_map_iff in I4 as (s' & G & I'). exists s'. injection G as -> -> ->. by rewrite J3, K3, S3.
Qed.

(** ** Timeouts *)

Lemma assoc_without k k' (l : list (string * json)) : assoc k (List.filter (fun e => negb (String.eqb (fst e) k')) l)
  = if String.eqb k k' then None else assoc k l.
Proof.
  induction l as [|[x v] l IH]; [by destruct (String.eqb k k')|]. cbn. destruct (String.eqb_spec x k') as [->|N]; cbn.
  - rewrite IH. destruct (String.eqb_spec k k') as [->|M]; [done|]. by destruct (String.eqb_spec k' k).
  - rewrite IH. destruct (String.eqb_spec x k) as [->|M]; [|done]. by destruct (String.eqb_spec k k').
Qed.

Lemma assoc_app_none k (l m : list (string * json)) : assoc k l = None -> assoc k (l ++ m) = assoc k m.
Proof. induction l as [|[x v] l IH]; [done|]. cbn. by destruct (String.eqb x k). Qed.

Lemma assoc_app_some k (l m : list (string * json)) v : assoc k l = Some v -> assoc k (l ++ m) = Some v.
Proof. induction l as [|[x w] l IH]; [done|]. cbn. by destruct (String.eqb x k). Qed.

(** The new member has the value of the old one, which is gone; the others
    are as they were. *)
Lemma rename_member_spec old new l v k : old <> new ->
  assoc k (rename_member old new l v) = if String.eqb k new then Some v else if String.eqb k old then None else assoc k l.
Proof.
  intros D. unfold rename_member. destruct (String.eqb_spec k new) as [->|N].
  - rewrite assoc_app_none by (by rewrite assoc_without, String.eqb_refl). cbn. by rewrite String.eqb_refl.
  - assert (E : assoc k (List.filter (fun e => negb (String.eqb (fst e) new)) (List.filter (fun e => negb (String.eqb (fst e) old)) l))
                = if String.eqb k old then None else assoc k l).
    { by rewrite !assoc_without, (proj2 (String.eqb_neq _ _) N). }
    destruct (String.eqb k old); [rewrite assoc_app_none by done; cbn; by destruct (String.eqb_spec new k)|].
    destruct (assoc k l); [by apply assoc_app_some|]. rewrite assoc_app_none by done. cbn. by destruct (String.eqb_spec new k).
Qed.

(** ** Downgrade *)

Lemma previous_of_current s : In s JOB_STATUS -> is_in s _IP_RESERVING = is_in s _ACTIVE.
Proof. intros I. rewrite reserving_split. destruct (String.eqb_spec s "ACTION_REQUIRED") as [->|]; [|done]. by cbn in I; intuition. Qed.

(** The downgrade goes through on every database of the release, and what it
    leaves can be upgraded again. *)
Lemma downgrade_0009_total db : release_0009 db -> exists db', downgrade_0009 db = Ok db' /\ release_0008 db'.
Proof.
  intros [[J S I O] [N R] _ _]. unfold downgrade_0009. rewrite List.Forall_forall in J.
  assert (R' : NoDup (omap (reserved_key _IP_RESERVING) (db_jobs db))).
  { rewrite <- (map_id (db_jobs db)). eapply omap_map_nodup, R. intros j Ij. left. unfold reserved_key.
    by rewrite (previous_of_current _ (J j Ij)). }
  rewrite (unique_index_ok _ _ _ R'). cbn [res_bind]. eexists. split; [reflexivity|].
  set (kept := List.filter _ (db_steps db)). set (steps := List.map _ kept).
  assert (Sub : forall (P : StepRow -> Prop), (forall x k, P (x <| ms_key := k |>) <-> P x) -> Forall P (db_steps db) -> Forall P steps).
  { intros P Pk F. apply List.Forall_map. eapply Forall_impl; [by apply forall_filter, F|]. intros x. by rewrite Pk. }
  assert (K : forall B (g : StepRow -> B), (forall s n, g (s <| ms_name := n |>) = g s) -> (forall s i, g (s <| ms_sequence := i |>) = g s) ->
                List.map g (rename_steps (List.map (fun e => (fst (fst e), snd e)) RENAMED_STEPS) (fun _ => false) (_renumber PREVIOUS_STAGES steps))
                = List.map g steps) by (intros B g G1 G2; etransitivity; [by apply rename_steps_keeps|by apply renumber_keeps]).
  set (jobs := List.map _ (db_jobs db)). assert (I' : List.map mj_id jobs = List.map mj_id (db_jobs db)) by by apply map_id_keep.
  split; split.
  - apply List.Forall_map, List.Forall_forall. intros j Ij. exact (job_label_old _ (J j Ij)).
  - eapply (forall_by_map ms_status (fun s => In s OLD_STEP_LABELS)); [by apply K|]. apply (Sub (fun x => In (ms_status x) OLD_STEP_LABELS)); [done|].
    eapply Forall_impl; [exact S|]. intros x Ix. apply in_app_iff. by left.
  - change (NoDup (List.map mj_id jobs)). by rewrite I'.
  - change (Forall (fun s => In (ms_job s) (List.map mj_id jobs))
      (rename_steps (List.map (fun e => (fst (fst e), snd e)) RENAMED_STEPS) (fun _ => false) (_renumber PREVIOUS_STAGES steps))).
    rewrite I'. eapply (forall_by_map ms_job (fun s => In s (List.map mj_id (db_jobs db)))); [by apply K|].
    by apply (Sub (fun x => In (ms_job x) (List.map mj_id (db_jobs db)))).
  - change (NoDup (omap active_name_key jobs)). eapply omap_map_nodup, N. intros j _. by left.
  - change (NoDup (omap (reserved_key _IP_RESERVING) jobs)). eapply omap_map_nodup, R'. intros j _. by left.
Qed.

(** ** Back to 0006 and forth *)

Lemma nodup_omap_inj {A B} (key : A -> option B) l a b k :
  NoDup (omap key l) -> In a l -> In b l -> key a = Some k -> key b = Some k -> a = b.
Proof.
  induction l as [|x l IH]; [done|]. cbn. intros N Ia Ib Ka Kb.
  assert (M : forall y, In y l -> key y = Some k -> In k (omap key l)).
  { intros y Iy Ky. apply list_elem_of_In, list_elem_of_omap. exists y. split; [by apply list_elem_of_In|done]. }
  destruct Ia as [->|Ia], Ib as [->|Ib]; [done|..].
  - rewrite Ka in N. apply NoDup_cons in N as [N _]. destruct N. by apply list_elem_of_In, (M b).
  - rewrite Kb in N. apply NoDup_cons in N as [N _]. destruct N. by apply list_elem_of_In, (M a).
  - apply IH; try done. destruct (key x); [by apply NoDup_cons in N as [_ N]|done].
Qed.

(** Where no two active jobs have one name, none is a duplicate. *)
Lemma no_duplicates jobs j : NoDup (omap active_name_key jobs) -> In j jobs -> duplicate_name jobs j = false.
Proof.
  intros N I. apply not_true_iff_false. intros D. unfold duplicate_name in D. apply andb_true_iff in D as [A D].
  apply existsb_exists in D as (o & Io & D). apply andb_true_iff in D as [D Q]. apply andb_true_iff in D as [Ao E].
  apply String.eqb_eq in E.
  assert (o = j) as ->.
  { apply (nodup_omap_inj active_name_key jobs o j (lower (mj_vm_name j)) N Io I); unfold active_name_key; [by rewrite Ao, E|by rewrite A]. }
  unfold queued_before in Q. by rewrite Z.ltb_irrefl, String.eqb_refl, andb_false_r in Q.
Qed.

(** The state of a job behind the downgrade of 0007. *)
Definition rolled_back (s : string) : string := if String.eqb s "INTERRUPTED" then "FAILED" else s.

Lemma downgraded_status db : List.map mj_status (db_jobs (downgrade_0007 db)) = List.map (fun j => rolled_back (mj_status j)) (db_jobs db).
Proof.
  cbn. unfold update. rewrite !map_map. apply map_ext. intros j. cbn [mj_status]. unfold rolled_back.
  change (mj_status (j <| mj_reserved := None |>)) with (mj_status j). by destruct (String.eqb _ _).
Qed.

Lemma downgraded_names db : NoDup (omap active_name_key (db_jobs db)) -> NoDup (omap active_name_key (db_jobs (downgrade_0007 db))).
Proof.
  intros N. cbn. unfold update. rewrite map_map. eapply omap_map_nodup, N. intros j _.
  unfold active_name_key. cbn. destruct (String.eqb (mj_status j) "INTERRUPTED"); [right|left]; reflexivity.
Qed.

(** A roll back ends the interrupted jobs, which the older release does not
    know, and no other; the upgrade that follows goes through and closes none. *)
Lemma rollback_0007 now db :
  NoDup (List.map mj_id (db_jobs db)) -> NoDup (omap active_name_key (db_jobs db)) ->
  exists db', upgrade_0007 now (downgrade_0007 db) = Ok db'
    /\ List.map mj_status (db_jobs db') = List.map (fun j => rolled_back (mj_status j)) (db_jobs db)
    /\ Forall (fun j => mj_status j <> "INTERRUPTED") (db_jobs (downgrade_0007 db)).
Proof.
  intros I N.
  assert (I' : NoDup (List.map mj_id (db_jobs (downgrade_0007 db)))).
  { cbn. rewrite (update_keeps mj_id) by done. by rewrite map_id_keep. }
  destruct (upgrade_0007_total now _ I') as (db' & jobs & U & _ & _ & _ & K & _). exists db'. split_and!; [done| |].
  - rewrite <- downgraded_status, K, map_map. apply map_ext_in. intros j Ij. rewrite renewed_status.
    by rewrite (no_duplicates _ j (downgraded_names db N) Ij).
  - apply List.Forall_forall. intros j Ij. apply (in_map mj_status) in Ij. rewrite downgraded_status in Ij.
    apply in_map_iff in Ij as (x & <- & _). unfold rolled_back. by destruct (String.eqb_spec (mj_status x) "INTERRUPTED").
Qed.

(** ** 0004 and 0002 *)

(** A job gets the datacenter its stored request asks for, one without a request none. *)
Lemma datacenter_backfilled requests ids id r :
  In id ids -> assoc id requests = Some (model_dump r) ->
  In (MkJobDatacenter id (Some (compute_datacenter_id (compute r)))) (upgrade_0004 requests ids).
Proof.
  intros I A. unfold upgrade_0004, update. rewrite map_map. apply in_map_iff. exists id. split; [|done]. cbn [jd_id jd_datacenter].
  rewrite A. by rewrite (bool_decide_eq_true_2 (is_Some _)) by by eexists.
Qed.

Lemma delete_in_spec {A} `{EqDecision A} (keys rows : list A) x : In x (delete_in keys rows) <-> In x rows /\ x ∉ keys.
Proof. unfold delete_in. rewrite filter_In, negb_true_iff, bool_decide_eq_false. done. Qed.

(** An account, a connection or a credential that an operator made his own,
    with an address or a description of his, stays. *)
Lemma own_records_kept t :
  (forall name mail, In (name, mail) (sd_users t) -> ~ In (name, mail) seeded_users -> In (name, mail) (sd_users (upgrade_0002 t)))
  /\ (forall s, In s (sd_secrets t) -> ~ In s seeded_references -> In s (sd_secrets (upgrade_0002 t)))
  /\ ~ In MOCK_VCENTER_ID (sd_vcenters (upgrade_0002 t)) /\ upgrade_0002 (upgrade_0002 t) = upgrade_0002 t.
Proof.
  assert (T : forall A (E : EqDecision A) (keys rows : list A), delete_in keys (delete_in keys rows) = delete_in keys rows).
  { intros A E keys rows. unfold delete_in. induction rows as [|x l IH]; [done|]. cbn. destruct (bool_decide (x ∈ keys)) eqn:B; cbn; [done|].
    by rewrite B, IH. }
  split_and!.
  - intros name mail I N. apply delete_in_spec. split; [done|]. by rewrite list_elem_of_In.
  - intros s I N. apply delete_in_spec. split; [done|]. by rewrite list_elem_of_In.
  - intros [_ N]%delete_in_spec. apply N. by left.
  - unfold upgrade_0002. cbn [sd_installer_paths sd_packages sd_vcenters sd_secrets sd_users sd_settings]. f_equal; apply T.
Qed.

(** ** An example *)

Definition stored (iso : json) : json := JObj [("source_type", JStr "blank"); ("guest", JObj [("iso_id", iso)])].
Definition old_job (id name status : string) (action : option string) (ip : option string) : JobRow :=
  MkJobRow id name status (Some "clone_vm") None None action 0 None ip.
Definition old_step (job key status : string) : StepRow := MkStepRow job key "" 3 status None None.

(** A database of the previous release: a queued job without installation
    media, two paused ones, a queued and a finished one. *)
Definition PREVIOUS : Database :=
  MkDatabase
    [old_job "j1" "OLD-SOURCE-QUEUED" "QUEUED" None None;
     old_job "j2" "NO-ISO-PAUSED" "ACTION_REQUIRED" (Some "Press a key in the VM console.") None;
     old_job "j3" "ISO-PAUSED" "ACTION_REQUIRED" (Some "Press a key in the VM console.") (Some "10.0.0.5");
     old_job "j4" "ISO-QUEUED" "QUEUED" None (Some "10.0.0.6");
     old_job "j5" "OLD-SOURCE-DONE" "COMPLETED" None None]
    [old_step "j1" "clone_vm" "PENDING"; old_step "j2" "clone_vm" "SUCCEEDED";
     old_step "j2" "wait_for_guest_os" "WAITING_FOR_PREREQUISITE"; old_step "j3" "clone_vm" "SUCCEEDED";
     old_step "j3" "wait_for_guest_os" "WAITING_FOR_PREREQUISITE"; old_step "j4" "clone_vm" "PENDING";
     old_step "j5" "clone_vm" "SUCCEEDED"]
    [("j1", stored JNull); ("j2", stored JNull); ("j3", stored (JStr "iso-1")); ("j4", stored (JStr "iso-1")); ("j5", stored JNull)]
    ["JOB_ACTION_REQUIRED"]
    [("default_timeouts", JObj [("value", JObj [("clone_minutes", JNum 45); ("vmware_tools_minutes", JNum 20)])])]
    OLD_JOB_LABELS OLD_STEP_LABELS.

Lemma labels_in {A} (g : A -> string) l rows : forallb (fun x => is_in (g x) l) rows = true -> Forall (fun x => In (g x) l) rows.
Proof. intros F. apply List.Forall_forall. intros x I. rewrite forallb_forall in F. by apply is_in_spec, F. Qed.

Lemma previous_release : release_0008 PREVIOUS.
Proof.
  split; split; first [apply labels_in; by vm_compute|by apply (bool_decide_unpack _); vm_compute].
Qed.

Lemma upgrade_0009_total_witness :
  exists db', upgrade_0009 100 PREVIOUS = Ok db'
    /\ List.map (fun j => (mj_id j, mj_status j)) (db_jobs db')
       = [("j1", "FAILED"); ("j2", "PARTIALLY_COMPLETED"); ("j3", "PARTIALLY_COMPLETED"); ("j4", "QUEUED"); ("j5", "COMPLETED")]
    /\ db_settings db' = [("default_timeouts", JObj [("value", JObj [("vmware_tools_minutes", JNum 20); ("create_vm_minutes", JNum 45)])])].
Proof.
  destruct (upgrade_0009_total 100 PREVIOUS previous_release) as (db' & U & _). exists db'. split; [exact U|].
  vm_compute in U. injection U as <-. by split.
Defined.

(** Two active jobs for one name, and two for one address. *)
Definition static_request (a : string) : json :=
  JObj [("network", JObj [("mode", JStr "STATIC"); ("ipv4", JObj [("address", JStr a)])])].
Definition job_0006 (id name status : string) (queued : Z) : JobRow := MkJobRow id name status None None None None queued None None.

Definition RELEASE_0006 : Database :=
  MkDatabase
    [job_0006 "j2" "WEB-01" "QUEUED" 7; job_0006 "j1" "web-01" "RUNNING" 5; job_0006 "j3" "DB-01" "QUEUED" 9; job_0006 "j4" "WEB-01" "COMPLETED" 1]
    [] [("j1", static_request "10.0.0.5"); ("j2", static_request "10.0.0.6"); ("j3", static_request "10.0.0.5"); ("j4", static_request "10.0.0.5")]
    [] [] OLD_JOB_LABELS OLD_STEP_LABELS.

