(* ===== verification/DatabaseRoles.v ===== *)
(** * The runtime database role

    [app/db/roles.py]: the statements the provisioning of the runtime role
    sends and its exit status.  What PostgreSQL makes of the statements is the
    server's; what it answers to the two queries of the command is an argument. *)

From Stdlib Require Import ZArith Lia Ascii String List Bool.
From stdpp Require Import base tactics sets list strings.
From S2P Require Import Prelude PyStr.

Local Open Scope string_scope.
Local Open Scope Z_scope.

(** ** Statements *)

Inductive Privilege := SELECT | INSERT | UPDATE | DELETE | TRUNCATE.

#[export] Instance Privilege_eq_dec : EqDecision Privilege.
Proof. solve_decision. Defined.

Inductive Verb := ALTER | CREATE.

(** [ALTER] or [CREATE ROLE ... LOGIN NOSUPERUSER NOCREATEDB NOCREATEROLE
    NOINHERIT PASSWORD ...], and the grants on the schema [public]. *)
Inductive Statement :=
| SetRole (verb : Verb) (name password : string)
| GrantConnect (database role : string)
| GrantUsage (role : string)
| RevokeAllTables (role : string)
| GrantAllTables (privileges : list Privilege) (role : string)
| GrantSequences (role : string)
| RevokeOn (privileges : list Privilege) (table_ role : string).

Definition APPEND_ONLY_TABLES : list string := ["audit_events"].
Definition READ_ONLY_TABLES : list string := ["alembic_version"].

Definition runtime_statements (exists_ : bool) (runtime_role password database : string) : list Statement :=
  [SetRole (if exists_ then ALTER else CREATE) runtime_role password; GrantConnect database runtime_role; GrantUsage runtime_role;
   RevokeAllTables runtime_role; GrantAllTables [SELECT; INSERT; UPDATE; DELETE] runtime_role; GrantSequences runtime_role]
  ++ List.map (fun t => RevokeOn [UPDATE; DELETE; TRUNCATE] t runtime_role) APPEND_ONLY_TABLES
  ++ List.map (fun t => RevokeOn [INSERT; UPDATE; DELETE; TRUNCATE] t runtime_role) READ_ONLY_TABLES.

(** ** [provision_runtime_role] *)

Record Url := MkUrl { url_username : option string; url_password : option string; url_database : option string }.

Definition or_else (o : option string) (d : string) : string := match o with None | Some "" => d | Some s => s end.

(** The role the API and the worker connect as, when it is not the owner. *)
Definition separate_role (owner runtime : Url) : option string :=
  let role := or_else (url_username runtime) "" in
  if String.eqb role "" || bool_decide (Some role = url_username owner) then None else Some role.

(** The exit status and the statements of the one transaction that is
    committed; it is also when the role turns out to own tables. *)
Definition provision_runtime_role (role_exists : string -> bool) (tables_owned : string -> Z)
    (migration_url : option Url) (runtime : Url) : Z * list Statement :=
  match migration_url with
  | None => (0, [])
  | Some owner =>
      match separate_role owner runtime with
      | None => (0, [])
      | Some role =>
          match url_password runtime with
          | None | Some "" => (1, [])
          | Some password =>
              let statements := runtime_statements (role_exists role) role password (or_else (url_database owner) "postgres") in
              (if tables_owned role =? 0 then 0 else 1, statements)
          end
      end
  end.

(** ** What the statements ask for *)

(** The privileges a role is granted on a table, statement by statement, of
    what the statements say of this role and all tables or this table. *)
Definition asks (role table_ : string) (ps : list Privilege) (st : Statement) : list Privilege :=
  match st with
  | RevokeAllTables r => if String.eqb r role then [] else ps
  | GrantAllTables qs r => if String.eqb r role then (ps ++ qs)%list else ps
  | RevokeOn qs t r => if String.eqb r role && String.eqb t table_ then List.filter (fun p => bool_decide (p ∉ qs)) ps else ps
  | _ => ps
  end.

(** On the audit trail the role ends with reading and appending, on the
    version table with reading, on the others with all four, whatever it was
    granted before. *)
Lemma statements_ask exists_ role password database table_ ps :
  fold_left (asks role table_) (runtime_statements exists_ role password database) ps
  = if String.eqb table_ "audit_events" then [SELECT; INSERT]
    else if String.eqb table_ "alembic_version" then [SELECT] else [SELECT; INSERT; UPDATE; DELETE].
Proof.
  unfold runtime_statements. cbn -[String.eqb]. rewrite !String.eqb_refl. cbn -[String.eqb]. rewrite !(String.eqb_sym _ table_).
  destruct (String.eqb_spec table_ "audit_events") as [->|]; [done|]. by destruct (String.eqb table_ "alembic_version").
Qed.

(** Statements are sent for a role of its own with a password only, and all of
    them; the status is 0 exactly when nothing was to be done or the role owns
    no table. *)
Lemma provisioning_status role_exists tables_owned migration_url runtime :
  let '(status, statements) := provision_runtime_role role_exists tables_owned migration_url runtime in
  match statements with
  | [] => status = 0 \/ status = 1 /\ or_else (url_password runtime) "" = ""
  | _ => exists owner role, migration_url = Some owner /\ separate_role owner runtime = Some role /\ Some role <> url_username owner
         /\ (status = 0 <-> tables_owned role = 0)
  end.
Proof.
  unfold provision_runtime_role. destruct migration_url as [owner|]; [|by left].
  destruct (separate_role owner runtime) as [role|] eqn:S; [|by left].
  destruct (url_password runtime) as [[|a w]|] eqn:P; [by right|..]; [|by right].
  exists owner, role. split_and!; [done|done| |destruct (Z.eqb_spec (tables_owned role) 0); done].
  unfold separate_role in S. destruct (_ || _) eqn:E; [done|]. injection S as <-. apply orb_false_iff in E as [_ E].
  by apply bool_decide_eq_false in E.
Qed.
