(* ===== verification/WorkerLoop.v ===== *)
(** * The main loop of a worker

    [JobEngine.run_forever] and [drain] of [app/workers/engine.py] with the
    tasks they start, as a transition system over the table of jobs: the loop,
    its tasks, their done callbacks, the shutdown signal and everything other
    processes do interleave at every [await].  What the processing of one job
    does is in Engine. *)

From Stdlib Require Import ZArith Lia Ascii String List Bool.
From stdpp Require Import base tactics list strings gmap relations.
From S2P Require Import Prelude PyStr StateMachine Jobs Repository Queue Service Effects Commits Pipeline World Engine SampleWorld.
From S2P Require Import Schemas RequestBody.

Local Open Scope string_scope.
Local Open Scope Z_scope.

(** ** State *)

(** Where the coroutine of [run_forever] is. *)
Inductive Phase :=
| Top                                             (* while not self._stopping.is_set() *)
| Reaping (reaped : Z)
| Selecting (reaped : Z) (exclude : list string)  (* the next stale job is on its way *)
| Claiming
| AwaitClaim (slots : Z)                          (* the claim is under way *)
| Claimed (job_ids : list string)                 (* committed, not yet spawned *)
| Waiting                                         (* for the poll interval or the signal *)
| Draining (waited : list nat) (deadline : option Z)
| Interrupting (pending : list nat)
| Ended.

(** Tasks are numbered in the order of their creation.  Two fields are not in
    the code: [lost], the jobs whose worker lost track of them because the
    database failed or a second cancellation struck, and [reclaimed], whether
    a job was ever claimed while a task of this worker was still on it. *)
Record Loop := MkLoop {
  tasks : list (string * nat);
  coroutines : list (nat * string);
  finished : list string;
  next_task : nat;
  next_reap : Z;
  stop_set : bool;
  phase : Phase;
  lost : list string;
  reclaimed : bool;
}.

#[export] Instance eta_loop : Eta Loop := fun l =>
  MkLoop (tasks l) (coroutines l) (finished l) (next_task l) (next_reap l) (stop_set l) (phase l) (lost l) (reclaimed l).

(** [JobEngine.__init__] *)
Definition idle : Loop := MkLoop [] [] [] 0 0 false Top [] false.

(** [self._tasks[job_id] = task] and [self._tasks.pop(job_id, None)] *)
Definition set_task (id : string) (k : nat) (l : list (string * nat)) : list (string * nat) :=
  if existsb (fun e => String.eqb (fst e) id) l
  then List.map (fun e => if String.eqb (fst e) id then (id, k) else e) l else (l ++ [(id, k)])%list.
Definition pop_task (id : string) (l : list (string * nat)) : list (string * nat) :=
  List.filter (fun e => negb (String.eqb (fst e) id)) l.

Definition tracked (l : Loop) : list string := List.map fst (tasks l).

(** [_spawn] *)
Definition _spawn (l : Loop) (id : string) : Loop :=
  l <| tasks := set_task id (next_task l) (tasks l) |>
    <| coroutines := (coroutines l ++ [(next_task l, id)])%list |>
    <| next_task := S (next_task l) |>
    <| reclaimed := reclaimed l || bool_decide (id ∈ tracked l) |>.

Definition spawn_all (job_ids : list string) (l : Loop) : Loop := fold_left _spawn job_ids l.

(** The coroutine of task [k] has ended; its done callback is scheduled. *)
Definition task_done (k : nat) (id : string) (l : Loop) : Loop :=
  l <| coroutines := List.filter (fun e => negb (Nat.eqb (fst e) k)) (coroutines l) |>
    <| finished := (finished l ++ [id])%list |>.

(** [_done] *)
Definition _done (id : string) (l : Loop) : Loop := l <| tasks := pop_task id (tasks l) |>.

Definition alive (l : Loop) (k : nat) : bool := existsb (fun e => Nat.eqb (fst e) k) (coroutines l).

(** The job is RUNNING under this worker. *)
Definition held (worker : string) (t : table) (id : string) : bool :=
  match row id t with Some j => claimed_by worker j | None => false end.

(** ** Steps *)

Inductive Actor := Main | Task | Callback | Signal | Others.

Definition State : Type := Loop * table.

Section Loop.

Context (reported : list Constraint -> Constraint) (fp : ProvisioningRequest -> string).
Context (worker : string) (settings : EngineSettings).

(** What the other processes and the tasks of this worker do to the table;
    only the main loop makes rows RUNNING under its own name. *)
Definition foreign_step (t t' : table) : Prop :=
  queue_step reported fp read_any t t' /\ forall id, held worker t' id = true -> held worker t id = true.

(** [timeout=self._shutdown_grace or None] *)
Definition grace_deadline (now : Z) : option Z :=
  if worker_shutdown_grace settings =? 0 then None else Some (now + worker_shutdown_grace settings).

(** [drain], up to its first [await]. *)
Definition drain (now : Z) (l : Loop) : Loop :=
  l <| phase := match tasks l with [] => Ended | _ => Draining (List.map snd (tasks l)) (grace_deadline now) end |>.

Inductive loop_step : Actor -> State -> State -> Prop :=
(* the head of the loop *)
| LLeave now l t : phase l = Top -> stop_set l = true -> loop_step Main (l, t) (drain now l, t)
| LReap now l t : phase l = Top -> stop_set l = false -> next_reap l <= now ->
    loop_step Main (l, t) (l <| next_reap := now + worker_reaper_interval settings |> <| phase := Reaping 0 |>, t)
| LNoReap now l t : phase l = Top -> stop_set l = false -> now < next_reap l -> loop_step Main (l, t) (l <| phase := Claiming |>, t)
(* reap_stale_jobs *)
| LReapNext k l t : phase l = Reaping k -> k < 20 -> loop_step Main (l, t) (l <| phase := Selecting k (tracked l) |>, t)
| LReapLimit k l t : phase l = Reaping k -> 20 <= k -> loop_step Main (l, t) (l <| phase := Claiming |>, t)
| LReaped k exclude now locked id l t t' : phase l = Selecting k exclude ->
    reap_one now (worker_heartbeat_timeout settings) exclude locked t = (Some id, t') ->
    loop_step Main (l, t) (l <| phase := Reaping (k + 1) |>, t')
| LReapedAll k exclude now locked l t t' : phase l = Selecting k exclude ->
    reap_one now (worker_heartbeat_timeout settings) exclude locked t = (None, t') ->
    loop_step Main (l, t) (l <| phase := Claiming |>, t')
| LReapFails k exclude l t : phase l = Selecting k exclude -> loop_step Main (l, t) (l <| phase := Claiming |>, t)
(* _claim_due_jobs *)
| LNoSlots l t : phase l = Claiming -> free_slots (worker_concurrency settings) (tracked l) <= 0 ->
    loop_step Main (l, t) (l <| phase := Waiting |>, t)
| LSlots l t : phase l = Claiming -> 0 < free_slots (worker_concurrency settings) (tracked l) ->
    loop_step Main (l, t) (l <| phase := AwaitClaim (free_slots (worker_concurrency settings) (tracked l)) |>, t)
| LClaim slots now locked l t : phase l = AwaitClaim slots ->
    loop_step Main (l, t) (l <| phase := Claimed (fst (claim_due_jobs slots worker now locked t)) |>,
                           snd (claim_due_jobs slots worker now locked t))
| LClaimFails slots l t : phase l = AwaitClaim slots -> loop_step Main (l, t) (l <| phase := Waiting |>, t)
| LClaimUnanswered slots now locked l t : phase l = AwaitClaim slots ->
    loop_step Main (l, t) (l <| phase := Waiting |> <| lost := (fst (claim_due_jobs slots worker now locked t) ++ lost l)%list |>,
                           snd (claim_due_jobs slots worker now locked t))
| LSpawn job_ids l t : phase l = Claimed job_ids -> loop_step Main (l, t) ((spawn_all job_ids l) <| phase := Waiting |>, t)
| LAgain l t : phase l = Waiting -> loop_step Main (l, t) (l <| phase := Top |>, t)
(* drain *)
| LDrained waited deadline l t : phase l = Draining waited deadline -> forallb (fun k => negb (alive l k)) waited = true ->
    loop_step Main (l, t) (l <| phase := Ended |>, t)
| LGraceOver waited deadline now l t : phase l = Draining waited (Some deadline) -> deadline <= now ->
    existsb (alive l) waited = true -> loop_step Main (l, t) (l <| phase := Interrupting (List.filter (alive l) waited) |>, t)
| LGathered pending l t : phase l = Interrupting pending -> forallb (fun k => negb (alive l k)) pending = true ->
    loop_step Main (l, t) (l <| phase := Ended |>, t)
(* a task ends when its job is off its hands, or another task has taken it over *)
| LTask k id l t : In (k, id) (coroutines l) ->
    held worker t id = false \/ (exists k', k' <> k /\ In (k', id) (coroutines l)) -> loop_step Task (l, t) (task_done k id l, t)
| LTaskLost k id l t : In (k, id) (coroutines l) -> loop_step Task (l, t) ((task_done k id l) <| lost := id :: lost l |>, t)
| LCallback id rest l t : finished l = id :: rest -> loop_step Callback (l, t) (_done id (l <| finished := rest |>), t)
| LStop l t : loop_step Signal (l, t) (l <| stop_set := true |>, t)
| LOthers l t t' : foreign_step t t' -> loop_step Others (l, t) (l, t').

Definition step (s s' : State) : Prop := exists a, loop_step a s s'.

(** One round of the loop that nothing interleaves with. *)
Definition round (now : Z) (locked : list string) (s : State) : State :=
  let '(l, t) := s in
  if stop_set l then (drain now l, t)
  else
    let '(l1, t1) := if next_reap l <=? now
                     then (l <| next_reap := now + worker_reaper_interval settings |>,
                           snd (reap_stale_jobs (List.repeat (now, locked) 20) (worker_heartbeat_timeout settings) (tracked l) t))
                     else (l, t) in
    let '(job_ids, t2) := engine_claim (worker_concurrency settings) (tracked l1) worker now locked t1 in
    ((spawn_all job_ids l1) <| phase := Top |>, t2).

End Loop.

(** ** The table *)

Section TableFacts.

Context (reported : list Constraint -> Constraint) (fp : ProvisioningRequest -> string) (worker : string).

Lemma held_put j t id :
  (claimed_by worker j = true -> held worker t (job_id j) = true) -> held worker (put_row j t) id = true -> held worker t id = true.
Proof.
  intros K. destruct (decide (id = job_id j)) as [->|N].
  - destruct (row (job_id j) t) as [r|] eqn:R.
    + apply row_some in R as [I E]. unfold held at 1. rewrite row_put_row; [exact K|]. unfold ids. rewrite <- E. by apply in_map.
    + unfold held. replace (row (job_id j) (put_row j t)) with (@None Job); [done|]. symmetry.
      destruct (row (job_id j) (put_row j t)) as [x|] eqn:Q; [|done]. apply row_some in Q as [Q E].
      apply find_first_none in R. rewrite List.Forall_forall in R.
      apply (in_map job_id) in Q. change (In (job_id x) (ids (put_row j t))) in Q. rewrite put_row_ids in Q.
      apply in_map_iff in Q as (y & Ey & Iy). specialize (R y Iy). rewrite Ey, E, String.eqb_refl in R. done.
  - unfold held. by rewrite row_put_row_other.
Qed.

Lemma held_updated j cur t t' id :
  row (job_id j) t = Some cur -> job_id j = job_id cur -> (claimed_by worker j = true -> claimed_by worker cur = true) ->
  update_row reported j t = Ok t' -> held worker t' id = true -> held worker t id = true.
Proof.
  intros R E K U%update_row_put. subst t'. apply held_put. unfold held. by rewrite R.
Qed.

Lemma not_running j : job_status j <> RUNNING -> claimed_by worker j = false.
Proof. unfold claimed_by. intros N. by rewrite bool_decide_eq_false_2. Qed.

Lemma held_submitted user r key src report id0 now t0 t id :
  id0 ∉ ids t ->
  held worker (snd (fst (submit_provisioning reported fp user r key src report id0 now t0 t))) id = true -> held worker t id = true.
Proof.
  intros N. destruct (submit_table reported fp user r key src report id0 now t0 t _ eq_refl) as [->|[_ ->]]; [done|].
  unfold held. destruct (row id t) as [j|] eqn:R; [by rewrite (row_app _ _ _ _ R)|].
  destruct (row id (t ++ _)%list) as [j|] eqn:Q; [|done]. apply row_some in Q as [Q E].
  apply in_app_iff in Q as [Q|[<-|[]]].
  - apply find_first_none in R. rewrite List.Forall_forall in R. specialize (R j Q). by rewrite E, String.eqb_refl in R.
  - rewrite not_running; [done|]. discriminate.
Qed.

Lemma held_reaped now timeout exclude locked t reaped t' id :
  reap_one now timeout exclude locked t = (reaped, t') -> held worker t' id = true -> held worker t id = true.
Proof.
  unfold reap_one. destruct (claim_stale_running_jobs _ _ _ _ t) as [|j l]; intros [= <- <-]; [done|]. apply held_put.
  rewrite not_running; [done|]. discriminate.
Qed.

Lemma held_beat id0 w now t id : held worker (snd (heartbeat id0 w now t)) id = true -> held worker t id = true.
Proof.
  unfold heartbeat. destruct (row id0 t) as [j|] eqn:R; [|done]. destruct (_ && _); [|by destruct (_ && _)].
  cbn [snd]. apply held_put. unfold held. pose proof R as [_ E]%row_some. cbn. rewrite E, R. done.
Qed.

Lemma held_claimed limit w now locked t id :
  held worker (snd (claim_due_jobs limit w now locked t)) id = true ->
  held worker t id = true \/ (w = worker /\ id ∈ fst (claim_due_jobs limit w now locked t)).
Proof.
  unfold claim_due_jobs. destruct (limit <=? 0); [by left|]. cbn zeta. simpl fst. simpl snd. set (cl := List.map job_id _).
  unfold held. rewrite row_map by (intros j; by case_bool_decide).
  destruct (row id t) as [j|] eqn:R; [|done]. apply row_some in R as [_ E]. simpl. case_bool_decide as D; [|by left].
  unfold claimed_by, claim_row, owned_by. cbn. intros W%String.eqb_eq. right. by rewrite <- E.
Qed.

Notation foreign_step := (foreign_step reported fp worker).

Lemma foreign_reap now timeout exclude locked t : foreign_step t (snd (reap_one now timeout exclude locked t)).
Proof. split; [constructor|]. intros i. eapply held_reaped, surjective_pairing. Qed.

Lemma foreign_retry user ok key now j t0 t : foreign_step t (snd (fst (retry_stages reported user ok key now j t0 t))).
Proof.
  split; [by constructor|]. intros i.
  destruct (retry_table reported user ok key now j t0 t) as [->|(reset & prog & cur & _ & R & U)]; [done|].
  pose proof R as [_ E]%row_some. rewrite <- E in R.
  eapply (held_updated (retry_write now reset prog cur) cur); [exact R|done| |exact U]. rewrite not_running; [done|discriminate].
Qed.

Lemma foreign_cancel user now j t : foreign_step t (snd (fst (cancel_job reported user now j t))).
Proof.
  split; [by constructor|]. intros i.
  destruct (cancel_table reported user now j t) as [->|(p & cur & P & R & U)]; [done|].
  pose proof R as [_ E]%row_some. rewrite <- E in R.
  eapply (held_updated (cancel_write now p cur) cur); [destruct p; exact R|by destruct p| |exact U].
  destruct p; cbn; try done; rewrite not_running; done.
Qed.

Lemma foreign_write j j' t : row (job_id j) t = Some j -> worker_write j j' -> foreign_step t (put_row j' t).
Proof.
  intros R W. split; [by apply (QWrite _ _ _ j)|]. destruct W as (W & (Ej & _) & Wo). intros i. apply held_put. unfold held. rewrite Ej, R.
  unfold claimed_by, owned_by. intros [E O]%andb_true_iff. apply bool_decide_eq_true_1 in E. rewrite E in W.
  rewrite (Wo E) in O. rewrite O, andb_true_r. apply bool_decide_eq_true_2. by destruct (job_status j).
Qed.

(** Every step of the queue is one of others, or a claim of this worker. *)
Lemma foreign_or_claim t t' :
  queue_step reported fp read_any t t' ->
  foreign_step t t' \/ exists limit now locked, t' = snd (claim_due_jobs limit worker now locked t).
Proof.
  intros S. pose proof S as S'.
  destruct S' as [user r key src report id now t0 t N|limit w now locked t|id w now t|now timeout exclude locked t
                 |user ok key now j t0 t _|user now j t _|j j' t R W].
  - left. split; [done|]. intros i. by apply held_submitted.
  - destruct (decide (w = worker)) as [->|N]; [right; eauto|left]. split; [done|].
    intros i [K|[E _]]%held_claimed; done.
  - left. split; [done|]. intros i. apply held_beat.
  - left. apply foreign_reap.
  - left. apply foreign_retry.
  - left. apply foreign_cancel.
  - left. by apply (foreign_write j).
Qed.

Lemma claimed_length limit w now locked t : 0 <= limit -> Z.of_nat (List.length (fst (claim_due_jobs limit w now locked t))) <= limit.
Proof.
  intros L. unfold claim_due_jobs. destruct (limit <=? 0); [done|]. cbn [fst]. rewrite length_map.
  pose proof (select_length (due now) limit locked t). lia.
Qed.

End TableFacts.

(** ** Bookkeeping *)

Lemma set_task_length id k l : (List.length (set_task id k l) <= S (List.length l))%nat.
Proof. unfold set_task. destruct (existsb _ l); [rewrite length_map|rewrite length_app; cbn]; lia. Qed.

Lemma set_task_new id k l : id ∉ List.map fst l -> set_task id k l = (l ++ [(id, k)])%list.
Proof.
  intros N. unfold set_task. destruct (existsb _ l) eqn:E; [|done]. apply existsb_exists in E as (x & I & E).
  apply String.eqb_eq in E. destruct N. rewrite <- E. by apply list_elem_of_In, in_map.
Qed.

Lemma pop_task_length id l : (List.length (pop_task id l) <= List.length l)%nat.
Proof. apply filter_length_le. Qed.

Lemma alive_spec l k : alive l k = true <-> exists id, In (k, id) (coroutines l).
Proof.
  unfold alive. rewrite existsb_exists. split.
  - intros ([k' id] & I & E%Nat.eqb_eq). cbn in E. subst. by exists id.
  - intros (id & I). exists (k, id). split; [done|]. apply Nat.eqb_refl.
Qed.

Lemma none_alive l ks : forallb (fun k => negb (alive l k)) ks = true -> (forall k id, In (k, id) (coroutines l) -> In k ks) -> coroutines l = [].
Proof.
  intros F W. destruct (coroutines l) as [|[k id] rest] eqn:E; [done|]. exfalso.
  assert (I : In (k, id) (coroutines l)) by (rewrite E; by left). rewrite <- E in W. rewrite forallb_forall in F.
  specialize (F k (W k id I)). apply negb_true_iff in F. assert (A : alive l k = true) by (apply alive_spec; eauto). congruence.
Qed.

(** What the worker holds is accounted for; [coming] are the jobs claimed and
    not yet started. *)
Record accounted (worker : string) (coming : list string) (l : Loop) (t : table) : Prop := {
  ac_keys : NoDup (tracked l);
  ac_numbers : NoDup (List.map fst (coroutines l));
  ac_below : Forall (fun e => fst e < next_task l)%nat (coroutines l);
  ac_running k id : In (k, id) (coroutines l) -> In (id, k) (tasks l);
  ac_finished id : id ∈ finished l -> forall k, ~ In (k, id) (coroutines l);
  ac_once : NoDup (finished l);
  ac_known id : id ∈ finished l -> id ∈ tracked l;
  ac_held id : held worker t id = true -> (exists k, In (k, id) (coroutines l)) \/ id ∈ coming \/ id ∈ lost l;
}.

Section Bookkeeping.

Context (worker : string).

Notation accounted := (accounted worker).

(** One task per job. *)
Lemma one_task coming l t k k' id : accounted coming l t -> In (k, id) (coroutines l) -> In (k', id) (coroutines l) -> k = k'.
Proof.
  intros A I I'. apply (ac_running _ _ _ _ A) in I, I'.
  pose proof (nodup_map_inj fst _ _ _ (ac_keys _ _ _ _ A) I I' eq_refl) as E. by injection E.
Qed.

Lemma accounted_jobs coming l t : accounted coming l t -> NoDup (List.map snd (coroutines l)).
Proof.
  intros A. pose proof (one_task coming l t) as O. pose proof (ac_numbers _ _ _ _ A) as N.
  assert (O' : forall k k' id, In (k, id) (coroutines l) -> In (k', id) (coroutines l) -> k = k') by (intros; by eapply O).
  clear O A. induction (coroutines l) as [|[k id] c IH]; [constructor|]. cbn in *. apply NoDup_cons in N as [Nk N]. constructor.
  - intros ([k' id'] & E & I)%list_elem_of_In%in_map_iff. cbn in E. subst id'. apply Nk. rewrite (O' k k' id); [|by left|by right].
    apply list_elem_of_In. by apply (in_map fst) in I.
  - apply IH; [done|]. intros; eapply O'; by right.
Qed.

Lemma accounted_count coming l t : accounted coming l t -> (List.length (coroutines l) <= List.length (tasks l))%nat.
Proof.
  intros A. rewrite <- (length_map (fun e => (snd e, fst e)) (coroutines l)). apply NoDup_incl_length.
  - apply NoDup_ListNoDup. pose proof (accounted_jobs _ _ _ A) as N. clear A.
    apply (NoDup_fmap_1 fst). change (fst <$> List.map (fun e : nat * string => (snd e, fst e)) (coroutines l)) with
      (List.map fst (List.map (fun e : nat * string => (snd e, fst e)) (coroutines l))). by rewrite map_map.
  - intros [id k] ([k' id'] & E & I)%in_map_iff. cbn in E. injection E as <- <-. by apply (ac_running _ _ _ _ A).
Qed.

(** A change of the table that takes nothing over. *)
Lemma accounted_table coming l t t' : (forall id, held worker t' id = true -> held worker t id = true) -> accounted coming l t -> accounted coming l t'.
Proof. intros F []. split; try done. intros id K. auto. Qed.

Lemma accounted_spawn id rest l t : id ∉ tracked l -> accounted (id :: rest) l t -> accounted rest (_spawn l id) t.
Proof.
  intros N []. assert (T : tasks (_spawn l id) = (tasks l ++ [(id, next_task l)])%list) by (cbn; by apply set_task_new).
  assert (Kf : forall i, In i (coroutines l) -> fst i <> next_task l).
  { intros i I. rewrite List.Forall_forall in ac_below0. specialize (ac_below0 i I). lia. }
  split; unfold tracked; rewrite ?T.
  - rewrite map_app. by apply nodup_snoc.
  - cbn. rewrite map_app. apply nodup_snoc; [done|]. intros (i & E & I)%list_elem_of_In%in_map_iff. by apply (Kf i I).
  - cbn. apply List.Forall_app. split; [|by repeat constructor].
    eapply List.Forall_impl; [|exact ac_below0]. cbn. lia.
  - intros k i. cbn. rewrite !in_app_iff. intros [I|[[= <- <-]|[]]]; [left; by apply ac_running0|right; by left].
  - intros i F k. cbn. rewrite in_app_iff. intros [I|[[= <- <-]|[]]]; [by apply (ac_finished0 i F k)|]. by apply N, ac_known0.
  - done.
  - intros i F. rewrite map_app. apply elem_of_app. left. by apply ac_known0.
  - intros i K. cbn. destruct (ac_held0 i K) as [[k I]|[I|I]]; [left; exists k; apply in_app_iff; by left| |by right; right].
    apply elem_of_cons in I as [->|I]; [|by right; left]. left. exists (next_task l). apply in_app_iff. right. by left.
Qed.

Lemma reclaimed_mono job_ids l : reclaimed (spawn_all job_ids l) = false -> reclaimed l = false.
Proof.
  revert l. induction job_ids as [|id rest IH]; intros l; [done|]. intros E. apply IH in E. cbn in E. by apply orb_false_iff in E as [E _].
Qed.

Lemma accounted_spawn_all job_ids l t :
  reclaimed (spawn_all job_ids l) = false -> accounted job_ids l t -> accounted [] (spawn_all job_ids l) t.
Proof.
  revert l. induction job_ids as [|id rest IH]; intros l R A; [done|]. cbn in *. apply IH; [done|].
  apply accounted_spawn; [|done]. pose proof (reclaimed_mono rest _ R) as E. cbn in E.
  apply orb_false_iff in E as [_ E]. by apply bool_decide_eq_false_1 in E.
Qed.

Lemma done_coroutine k id k' i l : In (k', i) (coroutines (task_done k id l)) <-> In (k', i) (coroutines l) /\ k' <> k.
Proof. cbn. rewrite filter_In. cbn. rewrite negb_true_iff, Nat.eqb_neq. done. Qed.

Lemma accounted_done coming k id l t : In (k, id) (coroutines l) -> accounted coming l t ->
  (held worker t id = false \/ (exists k', k' <> k /\ In (k', id) (coroutines l)) -> accounted coming (task_done k id l) t)
  /\ accounted coming ((task_done k id l) <| lost := id :: lost l |>) t.
Proof.
  intros I A. assert (O : forall k', In (k', id) (coroutines l) -> k' = k) by (intros k' J; by apply (one_task _ _ _ _ _ _ A J I)).
  pose proof A as [].
  assert (B : forall lost', (forall i, held worker t i = true -> (exists k', In (k', i) (coroutines (task_done k id l))) \/ i ∈ coming \/ i ∈ lost') ->
                            accounted coming ((task_done k id l) <| lost := lost' |>) t).
  { intros lost' Held. split; cbn [tasks coroutines finished next_task lost task_done] in *; [exact ac_keys0|by apply nodup_map_filter|by apply forall_filter| | | |..].
    - intros k' i J. apply (done_coroutine k id) in J as [J _]. by apply ac_running0.
    - intros i F k' J. apply (done_coroutine k id) in J as [J Ne]. apply elem_of_app in F as [F|F%list_elem_of_singleton].
      + by apply (ac_finished0 i F k').
      + subst i. by apply Ne, O.
    - cbn. apply nodup_snoc; [done|]. intros F. by apply (ac_finished0 id F k).
    - intros i F. cbn in F. apply elem_of_app in F as [F|F%list_elem_of_singleton]; [by apply ac_known0|]. subst i.
      apply list_elem_of_In, in_map_iff. exists (id, k). split; [done|]. by apply ac_running0.
    - exact Held. }
  assert (Rest : forall i, held worker t i = true -> i <> id -> (exists k', In (k', i) (coroutines (task_done k id l))) \/ i ∈ coming \/ i ∈ lost l).
  { intros i K Ne. destruct (ac_held0 i K) as [[k' J]|J]; [|by right]. left. exists k'. apply done_coroutine. split; [done|].
    intros ->. apply Ne. pose proof (ac_running0 _ _ I) as _. pose proof (nodup_map_inj fst _ _ _ ac_numbers0 J I eq_refl) as E. by injection E. }
  split.
  - intros G. replace (task_done k id l) with ((task_done k id l) <| lost := lost l |>) by done. apply B. intros i K.
    destruct (decide (i = id)) as [->|Ne]; [|by apply Rest]. destruct G as [G|(k' & Ne & J)]; [congruence|].
    left. exists k'. by apply done_coroutine.
  - apply B. intros i K. destruct (decide (i = id)) as [->|Ne]; [right; right; by left|].
    destruct (Rest i K Ne) as [J|[J|J]]; [by left|by right; left|right; right; by right].
Qed.

Lemma accounted_callback coming id rest l t : finished l = id :: rest -> accounted coming l t ->
  accounted coming (_done id (l <| finished := rest |>)) t.
Proof.
  intros F []. rewrite F in *. apply NoDup_cons in ac_once0 as [N ac_once0].
  assert (P : forall i k, In (i, k) (tasks l) -> i <> id -> In (i, k) (pop_task id (tasks l))).
  { intros i k I Ne. apply filter_In. split; [done|]. cbn. by apply negb_true_iff, String.eqb_neq. }
  split; try done.
  - by apply nodup_map_filter.
  - intros k i I. apply P; [by apply ac_running0|]. intros ->. by apply (ac_finished0 id ltac:(by left) k).
  - intros i J. apply ac_finished0. by right.
  - intros i J. pose proof (ac_known0 i ltac:(by right)) as ([i' k] & E & I)%list_elem_of_In%in_map_iff. cbn in E. subst i'.
    apply list_elem_of_In, in_map_iff. exists (i, k). split; [done|]. apply P; [done|]. by intros ->.
Qed.

End Bookkeeping.

(** ** The invariant of the loop *)

Section Guarantees.

Context (reported : list Constraint -> Constraint) (fp : ProvisioningRequest -> string).
Context (worker : string) (settings : EngineSettings).

Notation limit := (worker_concurrency settings).
Notation loop_step := (loop_step reported fp worker settings).

Definition coming (p : Phase) : list string := match p with Claimed job_ids => job_ids | _ => [] end.

(** The slots the loop has taken or is about to take. *)
Definition reserved_slots (p : Phase) : Z :=
  match p with AwaitClaim slots => slots | Claimed job_ids => Z.of_nat (List.length job_ids) | _ => 0 end.

Definition slots_ok (l : Loop) : Prop :=
  0 <= reserved_slots (phase l) /\ Z.of_nat (List.length (tasks l)) + reserved_slots (phase l) <= limit.

(** Whom the shutdown waits for. *)
Definition waits_for_all (l : Loop) : Prop :=
  match phase l with
  | Draining ks _ | Interrupting ks => forall k id, In (k, id) (coroutines l) -> In k ks
  | Ended => coroutines l = []
  | _ => True
  end.

(** Only a grace period of 0 leaves the shutdown without a deadline. *)
Definition deadline_ok (l : Loop) : Prop :=
  match phase l with Draining _ None => worker_shutdown_grace settings = 0 | _ => True end.

Record loop_ok (s : State) : Prop := {
  ok_slots : slots_ok (fst s);
  ok_deadline : deadline_ok (fst s);
  ok_accounted : reclaimed (fst s) = false -> accounted worker (coming (phase (fst s))) (fst s) (snd s);
  ok_waits : reclaimed (fst s) = false -> waits_for_all (fst s);
}.

Lemma spawn_all_slots job_ids l :
  (List.length (tasks (spawn_all job_ids l)) <= List.length (tasks l) + List.length job_ids)%nat.
Proof.
  revert l. induction job_ids as [|id rest IH]; intros l; cbn; [lia|]. specialize (IH (_spawn l id)).
  pose proof (set_task_length id (next_task l) (tasks l)). cbn in IH. unfold spawn_all in IH. lia.
Qed.

(** A step of the loop that changes no table and no task. *)
Lemma accounted_phase p l t c next :
  accounted worker c l t -> accounted worker c (l <| next_reap := next |> <| phase := p |>) t.
Proof. intros []. by split. Qed.

Lemma accounted_here p l t c : accounted worker c l t -> accounted worker c (l <| phase := p |>) t.
Proof. intros []. by split. Qed.

Lemma accounted_claim slots now locked l t :
  accounted worker [] l t ->
  accounted worker (fst (claim_due_jobs slots worker now locked t)) l (snd (claim_due_jobs slots worker now locked t)).
Proof.
  intros []. split; try done. intros id [K|[_ K]]%held_claimed; [|by right; left].
  destruct (ac_held0 id K) as [I|[I|I]]; [by left|by apply not_elem_of_nil in I|by right; right].
Qed.

Lemma accounted_unanswered job_ids l t : accounted worker job_ids l t -> accounted worker [] (l <| lost := (job_ids ++ lost l)%list |>) t.
Proof.
  intros []. split; try done. intros id K. destruct (ac_held0 id K) as [I|[I|I]]; [by left|right; right..]; apply elem_of_app; tauto.
Qed.

Lemma step_slots a s s' : loop_step a s s' -> 0 <= limit -> slots_ok (fst s) -> slots_ok (fst s').
Proof.
  intros S C [P B].
  destruct S; cbn [fst] in *; unfold slots_ok; rewrite ?H in *; cbn in *; try (split; lia).
  - unfold drain. destruct (tasks l); cbn in *; split; lia.
  - unfold free_slots, tracked in *. rewrite length_map in *. lia.
  - pose proof (claimed_length slots worker now locked t). lia.
  - pose proof (spawn_all_slots job_ids l). unfold spawn_all in *. lia.
  - pose proof (pop_task_length id (tasks l)); unfold pop_task in *. lia.
Qed.

Lemma step_reclaimed a s s' : loop_step a s s' -> reclaimed (fst s') = false -> reclaimed (fst s) = false.
Proof.
  intros S. destruct S; cbn; try done; try (unfold drain; by destruct (tasks l)).
  intros R. by apply reclaimed_mono in R.
Qed.

Lemma step_accounted a s s' : loop_step a s s' -> reclaimed (fst s') = false ->
  accounted worker (coming (phase (fst s))) (fst s) (snd s) -> accounted worker (coming (phase (fst s'))) (fst s') (snd s').
Proof.
  intros S R A. destruct S; cbn [fst snd] in *; rewrite ?H in A; cbn [coming] in A;
    try (cbn [phase]; first [by apply accounted_here | by apply accounted_phase]).
  - unfold drain. destruct (tasks l) eqn:T; by apply accounted_here.
  - apply accounted_here. eapply accounted_table; [|exact A]. intros i. by eapply held_reaped.
  - apply accounted_here. eapply accounted_table; [|exact A]. intros i. by eapply held_reaped.
  - apply accounted_here. by apply accounted_claim.
  - cbn [phase coming]. apply (accounted_claim slots now locked), accounted_unanswered in A. by apply (accounted_here Waiting) in A.
  - apply accounted_here. by apply accounted_spawn_all.
  - by apply accounted_done.
  - by apply (accounted_done worker _ k id).
  - by apply accounted_callback.
  - destruct A. by split.
  - destruct H as [_ F]. by eapply accounted_table.
Qed.

Lemma step_waits a s s' : loop_step a s s' -> accounted worker (coming (phase (fst s))) (fst s) (snd s) ->
  waits_for_all (fst s) -> waits_for_all (fst s').
Proof.
  intros S A W. unfold waits_for_all in *. destruct S; cbn [fst snd] in *; rewrite ?H in *; cbn; try done.
  - unfold drain. destruct (tasks l) as [|e r] eqn:T; cbn.
    + destruct (coroutines l) as [|[k id] rest] eqn:E; [done|]. exfalso. pose proof (ac_running _ _ _ _ A k id) as I. rewrite T, E in I. by destruct I; left.
    + intros k id I. apply (ac_running _ _ _ _ A) in I. rewrite T in I. by apply (in_map snd) in I.
  - by eapply none_alive.
  - intros k id I. apply filter_In. split; [by eapply W|]. apply alive_spec. by exists id.
  - by eapply none_alive.
  - destruct (phase l); try done; [intros k' i [I _]%filter_In; by eapply W..|]. cbn. by rewrite W.
  - destruct (phase l); try done; [intros k' i [I _]%filter_In; by eapply W..|]. cbn. by rewrite W.
Qed.

Lemma spawn_all_phase job_ids p l : spawn_all job_ids (l <| phase := p |>) = (spawn_all job_ids l) <| phase := p |>.
Proof. revert l. induction job_ids as [|id rest IH]; intros l; [done|]. apply (IH (_spawn l id)). Qed.

Lemma step_deadline a s s' : loop_step a s s' -> deadline_ok (fst s) -> deadline_ok (fst s').
Proof.
  intros S D. unfold deadline_ok in *. destruct S; cbn [fst] in *; rewrite ?H in D; try exact I; try exact D.
  unfold drain, grace_deadline. cbn. destruct (tasks l); [done|]. by destruct (Z.eqb_spec (worker_shutdown_grace settings) 0).
Qed.

Lemma loop_step_ok a s s' : 0 <= limit -> loop_step a s s' -> loop_ok s -> loop_ok s'.
Proof.
  intros C S [O D A W]. split; [by eapply step_slots|by eapply step_deadline| |]; intros R; pose proof (step_reclaimed _ _ _ S R) as R0.
  - eapply step_accounted; eauto.
  - eapply step_waits; eauto.
Qed.

Lemma idle_ok t : 0 <= limit -> (forall id, held worker t id = false) -> loop_ok (idle, t).
Proof.
  intros C N. split; [by split|done| |done]. intros _. split; cbn; try (by constructor); try done; try (by intros id I%not_elem_of_nil).
  intros id K. rewrite N in K. done.
Qed.

Lemma loop_reachable_ok t0 s : 0 <= limit -> (forall id, held worker t0 id = false) -> rtc (step reported fp worker settings) (idle, t0) s -> loop_ok s.
Proof.
  intros C N R. pose proof (idle_ok t0 C N) as O. revert O. induction R as [|x y z [a S] _ IH]; [done|].
  intros O. apply IH. by eapply loop_step_ok.
Qed.

End Guarantees.

(** ** The way to the end *)

Section Shutdown.

Context (reported : list Constraint -> Constraint) (fp : ProvisioningRequest -> string).
Context (worker : string) (settings : EngineSettings).

Notation limit := (worker_concurrency settings).
Notation loop_step := (loop_step reported fp worker settings).

(** How many steps are left at most once the stop signal is set. *)
Definition phase_steps (p : Phase) : Z :=
  match p with
  | Ended => 0
  | Interrupting _ => 1
  | Draining _ _ => 2
  | Top => 3
  | Waiting => 4
  | Claimed job_ids => 5 + 2 * Z.of_nat (List.length job_ids)
  | AwaitClaim slots => 6 + 2 * slots
  | Claiming => 7 + 2 * limit
  | Selecting k _ => 7 + 2 * limit + 2 * Z.max 1 (20 - k)
  | Reaping k => 8 + 2 * limit + 2 * Z.max 0 (20 - k)
  end.

Definition steps_left (l : Loop) : Z :=
  phase_steps (phase l) + 2 * Z.of_nat (List.length (coroutines l)) + Z.of_nat (List.length (finished l)).

Definition own (a : Actor) : bool := match a with Main | Task | Callback => true | Signal | Others => false end.

Lemma spawn_all_coroutines job_ids l :
  List.length (coroutines (spawn_all job_ids l)) = (List.length (coroutines l) + List.length job_ids)%nat
  /\ finished (spawn_all job_ids l) = finished l /\ stop_set (spawn_all job_ids l) = stop_set l.
Proof.
  revert l. induction job_ids as [|id rest IH]; intros l; [split; [cbn; lia|done]|].
  destruct (IH (_spawn l id)) as (E & F & T). cbn [spawn_all fold_left] in *. unfold spawn_all in *. rewrite E, F, T. cbn.
  rewrite length_app. cbn. split; [lia|done].
Qed.

Lemma done_fewer k id (l : list (nat * string)) : In (k, id) l ->
  (List.length (List.filter (fun e => negb (Nat.eqb (fst e) k)) l) < List.length l)%nat.
Proof.
  induction l as [|[k' i] l IH]; [done|]. cbn. intros [[= -> ->]|I].
  - rewrite Nat.eqb_refl. cbn. pose proof (filter_length_le (fun e : nat * string => negb (Nat.eqb (fst e) k)) l). lia.
  - specialize (IH I). destruct (negb _); cbn; lia.
Qed.

Lemma stopped_step a l t s' :
  0 <= limit -> slots_ok settings l -> stop_set l = true -> loop_step a (l, t) s' ->
  stop_set (fst s') = true /\ (if own a then steps_left (fst s') < steps_left l else steps_left (fst s') = steps_left l).
Proof.
  intros C [P B] T S. inversion S; subst; clear S; cbn [fst own]; unfold steps_left; try congruence;
    repeat match goal with H : phase l = _ |- _ => rewrite H in *; clear H end; cbn [phase_steps reserved_slots] in *;
    try (split; [done|]; cbn; lia).
  - split; [unfold drain; by destruct (tasks l)|]. unfold drain. destruct (tasks l); cbn; lia.
  - split; [done|]. cbn. unfold free_slots in *. lia.
  - split; [done|]. cbn. pose proof (claimed_length slots worker now locked t). cbn in *. lia.
  - destruct (spawn_all_coroutines job_ids l) as (E & F & G). split; [by cbn; rewrite G|]. cbn. rewrite E, F. lia.
  - split; [done|]. cbn. pose proof (done_fewer _ _ _ ltac:(eassumption)). rewrite length_app. cbn. lia.
  - split; [done|]. cbn. pose proof (done_fewer _ _ _ ltac:(eassumption)). rewrite length_app. cbn. lia.
  - split; [done|]. cbn. match goal with H : finished l = _ |- _ => rewrite H end. cbn. lia.
Qed.

(** The loop only ever waits for a task it has cancelled, or, when no grace
    period is set, for one that runs. *)
Definition awaits_task (l : Loop) : Prop :=
  exists k id, In (k, id) (coroutines l) /\ match phase l with
                                            | Interrupting ks => In k ks
                                            | Draining ks None => worker_shutdown_grace settings = 0 /\ In k ks
                                            | _ => False
                                            end.

Lemma some_alive l ks : forallb (fun k => negb (alive l k)) ks = false -> exists k id, In (k, id) (coroutines l) /\ In k ks.
Proof.
  intros F. apply not_true_iff_false in F.
  destruct (existsb (alive l) ks) eqn:E.
  - apply existsb_exists in E as (k & I & A). apply alive_spec in A as [id J]. by exists k, id.
  - destruct F. apply forallb_forall. intros k I. apply negb_true_iff, not_true_iff_false. intros A.
    apply not_true_iff_false in E. apply E, existsb_exists. by exists k.
Qed.

Lemma main_moves l t : deadline_ok settings l -> phase l = Ended \/ (exists s', loop_step Main (l, t) s') \/ awaits_task l.
Proof.
  unfold awaits_task, deadline_ok. intros D. destruct (phase l) as [|k|k exclude| |slots|job_ids| |ks deadline|ks|] eqn:P; [right..|by left].
  - destruct (stop_set l) eqn:T; left; eexists; [by apply (LLeave _ _ _ _ 0)|by apply (LReap _ _ _ _ (next_reap l))].
  - destruct (decide (k < 20)); left; eexists; [by eapply LReapNext|eapply LReapLimit; [done|lia]].
  - left. eexists. by eapply LReapFails.
  - destruct (decide (0 < free_slots limit (tracked l))); left; eexists; [by eapply LSlots|eapply LNoSlots; [done|lia]].
  - left. eexists. by eapply LClaimFails.
  - left. eexists. by eapply LSpawn.
  - left. eexists. by eapply LAgain.
  - destruct (forallb (fun k => negb (alive l k)) ks) eqn:F; [left; eexists; by eapply LDrained|].
    apply some_alive in F as (k & id & I & J). destruct deadline as [d|]; [left|right; by exists k, id].
    eexists. eapply (LGraceOver _ _ _ _ ks d d); [done|done|]. apply existsb_exists. exists k. split; [done|]. apply alive_spec. by exists id.
  - destruct (forallb (fun k => negb (alive l k)) ks) eqn:F; [left; eexists; by eapply LGathered|right].
    apply some_alive in F as (k & id & I & J). by exists k, id.
Qed.
End Shutdown.

(** ** Rounds *)

Section Rounds.

Context (reported : list Constraint -> Constraint) (fp : ProvisioningRequest -> string).
Context (worker : string) (settings : EngineSettings).

Notation step := (step reported fp worker settings).

Lemma one a s s' : loop_step reported fp worker settings a s s' -> rtc step s s'.
Proof. intros S. apply rtc_once. by exists a. Qed.

Lemma reap_rounds n : forall k l t now locked, k + Z.of_nat n = 20 ->
  rtc step (l <| phase := Reaping k |>, t)
    (l <| phase := Claiming |>, snd (reap_stale_jobs (List.repeat (now, locked) n) (worker_heartbeat_timeout settings) (tracked l) t)).
Proof.
  induction n as [|n IH]; intros k l t now locked K.
  - apply (one Main). replace (l <| phase := Claiming |>) with (l <| phase := Reaping k |> <| phase := Claiming |>) by done.
    eapply LReapLimit; [done|lia].
  - etransitivity; [apply (one Main); eapply (LReapNext _ _ _ _ k (l <| phase := Reaping k |>)); [done|lia]|].
    cbn [List.repeat reap_stale_jobs]. destruct (reap_one now _ (tracked l) locked t) as [[id|] t1] eqn:R.
    + etransitivity; [apply (one Main); by eapply (LReaped _ _ _ _ k (tracked l) now locked id)|].
      specialize (IH (k + 1) l t1 now locked ltac:(lia)). by destruct (reap_stale_jobs _ _ (tracked l) t1).
    + assert (E : t1 = t) by (unfold reap_one in R; destruct (claim_stale_running_jobs _ _ _ _ t); by injection R).
      subst t1. apply (one Main).
      change (loop_step reported fp worker settings Main (l <| phase := Selecting k (tracked l) |>, t)
                (l <| phase := Selecting k (tracked l) |> <| phase := Claiming |>, t)). by eapply LReapedAll.
Qed.

Lemma claim_rounds l t now locked :
  let '(job_ids, t') := engine_claim (worker_concurrency settings) (tracked l) worker now locked t in
  rtc step (l <| phase := Claiming |>, t) ((spawn_all job_ids l) <| phase := Top |>, t').
Proof.
  unfold engine_claim. destruct (Z.leb_spec (free_slots (worker_concurrency settings) (tracked l)) 0) as [S|S].
  - transitivity (l <| phase := Waiting |>, t); apply (one Main); [exact (LNoSlots _ _ _ _ (l <| phase := Claiming |>) t eq_refl S)|].
    exact (LAgain _ _ _ _ (l <| phase := Waiting |>) t eq_refl).
  - set (slots := free_slots (worker_concurrency settings) (tracked l)) in *.
    pose proof (LClaim reported fp worker settings slots now locked (l <| phase := AwaitClaim slots |>) t eq_refl) as Cl.
    destruct (claim_due_jobs slots worker now locked t) as [job_ids t'].
    transitivity (l <| phase := AwaitClaim slots |>, t); [apply (one Main); exact (LSlots _ _ _ _ (l <| phase := Claiming |>) t eq_refl S)|].
    transitivity (l <| phase := Claimed job_ids |>, t'); [apply (one Main); exact Cl|].
    transitivity ((spawn_all job_ids l) <| phase := Waiting |>, t'); apply (one Main).
    + pose proof (LSpawn reported fp worker settings job_ids (l <| phase := Claimed job_ids |>) t' eq_refl) as Sp.
      by rewrite spawn_all_phase in Sp.
    + exact (LAgain _ _ _ _ ((spawn_all job_ids l) <| phase := Waiting |>) t' eq_refl).
Qed.

Lemma round_steps now locked l t : phase l = Top -> rtc step (l, t) (round worker settings now locked (l, t)).
Proof.
  intros P. unfold round. destruct (stop_set l) eqn:T; [apply (one Main); by apply LLeave|].
  destruct (Z.leb_spec (next_reap l) now) as [D|D].
  - set (l1 := l <| next_reap := now + worker_reaper_interval settings |>).
    set (t1 := snd (reap_stale_jobs (List.repeat (now, locked) 20) (worker_heartbeat_timeout settings) (tracked l) t)).
    pose proof (claim_rounds l1 t1 now locked) as R. destruct (engine_claim _ _ worker now locked t1) as [job_ids t2].
    etransitivity; [apply (one Main); by apply (LReap _ _ _ _ now)|].
    etransitivity; [by apply (reap_rounds 20 0 l1 t now locked)|exact R].
  - pose proof (claim_rounds l t now locked) as R. destruct (engine_claim _ _ worker now locked t) as [job_ids t2].
    etransitivity; [apply (one Main); by eapply LNoReap|exact R].
Qed.

End Rounds.

(** ** A task is a processing of its job *)

Section Processing.

Context {X : Type} `{World X} `{EngineTables X} {conversions : Pydantic}.
Context (reported : list Constraint -> Constraint) (fp : ProvisioningRequest -> string) (worker : string).

Lemma linked_foreign rows : forall j t,
  linked worker_write j rows -> row (job_id j) t = Some j -> rtc (foreign_step reported fp worker) t (put_rows rows t).
Proof.
  induction rows as [|x rows IH]; intros j t L R; [constructor|]. destruct L as [Hx L].
  assert (E : job_id x = job_id j) by (destruct Hx as (_ & K & _); apply K).
  eapply rtc_l; [by apply (foreign_write _ _ _ j x)|]. apply (IH x); [done|]. apply row_put_row. rewrite E.
  apply row_some in R as [R _]. unfold ids. by apply in_map.
Qed.

(** (JobEngine._process_job as a task of the loop): what the processing of a
    job commits are steps the loop tolerates of others, and it ends as
    [LTask] asks: the job is not held any more, unless it was taken over, a
    second cancellation struck or the database failed. *)
Lemma processing_is_task stopping second (r : Run X) t :
  starts r -> row (job_id (job (stored r))) t = Some (job (stored r)) ->
  let '(o, r') := _process_job worker stopping second r in
  rtc (foreign_step reported fp worker) t (put_rows (commits r') t)
  /\ (match o with
      | Return _ => stopping = true \/ undisturbed r
      | Raise (Cancelled _) => second = None
      | Raise _ => False
      end -> held worker (put_rows (commits r') t) (job_id (job (stored r))) = false).
Proof.
  intros S R. pose proof (wp_process_job _ worker stopping second r (starts_safe r S)) as W. unfold wp in W.
  destruct (_process_job worker stopping second r) as [o r']. cbn [fst snd] in W. destruct W as [(s & _ & A) P].
  pose proof (put_rows_last (commits r') _ t (at_linked _ _ _ A) R) as E.
  split; [eapply linked_foreign; [apply A|done]|]. intros G. unfold held. rewrite E, <- (at_stored _ _ _ A).
  change (claimed_by worker (job (stored r'))) with (still_claimed worker r'). destruct o as [u|[| | |k]]; try done; by apply P.
Qed.

End Processing.

(** ** What the loop guarantees *)

(** C7 (JobEngine.run_forever, _spawn, drain): a worker holds what it runs.
    However the rounds of its loop, the ends of its tasks, their callbacks,
    requests, other workers and reapers, failures of the database and the
    shutdown interleave, the worker never tracks more tasks than it has slots;
    and unless a job is claimed while an older task of the worker is still on
    it, no more coroutines run than there are slots, no two for one job, every
    job that is RUNNING under the worker and was not lost is being run or
    about to be spawned, and when [run_forever] has returned nothing runs and
    nothing is left RUNNING under the worker. *)
Theorem worker_holds_what_it_runs reported fp worker configured t0 l t :
  let settings := engine_settings configured in
  (forall id, held worker t0 id = false) -> rtc (step reported fp worker settings) (idle, t0) (l, t) ->
  Z.of_nat (List.length (tasks l)) <= worker_concurrency settings
  /\ (reclaimed l = false ->
      Z.of_nat (List.length (coroutines l)) <= worker_concurrency settings
      /\ NoDup (List.map snd (coroutines l))
      /\ (forall id, held worker t id = true -> id ∉ lost l ->
            (exists k, In (k, id) (coroutines l)) \/ (exists job_ids, phase l = Claimed job_ids /\ id ∈ job_ids))
      /\ (phase l = Ended -> coroutines l = [] /\ forall id, held worker t id = true -> id ∈ lost l)).
Proof.
  cbn zeta. intros N R. assert (C : 0 <= worker_concurrency (engine_settings configured)) by (cbn; lia).
  destruct (loop_reachable_ok _ _ _ _ t0 (l, t) C N R) as [[P B] _ A W]. cbn [fst snd] in *.
  split; [lia|]. intros Fresh. specialize (A Fresh). specialize (W Fresh). pose proof (accounted_count _ _ _ _ A). split_and!.
  - lia.
  - by eapply accounted_jobs.
  - intros id K L. destruct (ac_held _ _ _ _ A id K) as [I|[I|I]]; [by left|right|done].
    destruct (phase l); try by apply not_elem_of_nil in I. by exists job_ids.
  - intros E. unfold waits_for_all in W. rewrite E in W. split; [done|]. intros id K.
    destruct (ac_held _ _ _ _ A id K) as [[k I]|[I|I]]; [by rewrite W in I|by rewrite E in I; apply not_elem_of_nil in I|done].
Qed.

(** C8 (JobEngine.stop, run_forever, drain): a worker that is told to stop ends.
    From the signal on, in every state the loop can reach, each step of the
    loop, of a task's end or of a callback brings it closer to its end by a
    measure that nothing else raises; until it has ended, the loop can move,
    unless it waits for a task that it has cancelled, or, when the grace period
    is configured as 0, for one it has not. *)
Theorem stopped_worker_ends reported fp worker configured t0 l t :
  let settings := engine_settings configured in
  (forall id, held worker t0 id = false) -> rtc (step reported fp worker settings) (idle, t0) (l, t) -> stop_set l = true ->
  0 <= steps_left settings l
  /\ (forall a s', loop_step reported fp worker settings a (l, t) s' ->
        stop_set (fst s') = true
        /\ (if own a then steps_left settings (fst s') < steps_left settings l else steps_left settings (fst s') = steps_left settings l))
  /\ (phase l = Ended \/ (exists s', loop_step reported fp worker settings Main (l, t) s') \/ awaits_task settings l).
Proof.
  cbn zeta. intros N R T. assert (C : 0 <= worker_concurrency (engine_settings configured)) by (cbn; lia).
  destruct (loop_reachable_ok _ _ _ _ t0 (l, t) C N R) as [O D _ _]. cbn [fst] in O, D. split_and!.
  - destruct O as [P _]. unfold steps_left. destruct (phase l); cbn [phase_steps reserved_slots] in *; lia.
  - intros a s' S. by eapply stopped_step.
  - by apply main_moves.
Qed.

(** ** Examples *)

Definition TWO_SLOTS : EngineSettings := MkEngineSettings 2 15000000 120000000 30000000 60000000 2000000.

Definition PAIR : table := [queued_job "a" "web" 10; queued_job "b" "db" 20].

Notation sample_round := (round "w" (engine_settings TWO_SLOTS)).

(** Both jobs are claimed and started. *)
Definition busy_loop : Loop := MkLoop [("a", 0%nat); ("b", 1%nat)] [(0%nat, "a"); (1%nat, "b")] [] 2 30000100 false Top [] false.
Definition busy_table : table := List.map (claim_row 100 "w") PAIR.

Lemma busy_is : round "w" (engine_settings TWO_SLOTS) 100 [] (idle, PAIR) = (busy_loop, busy_table).
Proof. vm_compute. reflexivity. Qed.

Lemma pair_free id : held "w" PAIR id = false.
Proof. unfold held. destruct (row id PAIR) as [j|] eqn:R; [|done]. by apply row_some in R as [[<-|[<-|[]]] _]. Qed.

Lemma busy_reached : rtc (step first_error (fun _ => "sha") "w" (engine_settings TWO_SLOTS)) (idle, PAIR) (busy_loop, busy_table).
Proof.
  pose proof (round_steps first_error (fun _ => "sha") "w" (engine_settings TWO_SLOTS) 100 [] idle PAIR eq_refl) as R.
  by rewrite busy_is in R.
Qed.

Lemma worker_holds_what_it_runs_witness :
  Z.of_nat (List.length (coroutines busy_loop)) <= 2 /\ NoDup (List.map snd (coroutines busy_loop)).
Proof.
  pose proof (worker_holds_what_it_runs first_error (fun _ => "sha") "w" TWO_SLOTS PAIR busy_loop busy_table pair_free busy_reached) as [_ W].
  destruct (W eq_refl) as (B & N & _). split; [exact B|exact N].
Defined.

(** The signal arrives while both run; the next round starts to drain. *)
Definition stopping_loop : Loop := drain (engine_settings TWO_SLOTS) 200 (busy_loop <| stop_set := true |>).

Lemma stopping_reached : rtc (step first_error (fun _ => "sha") "w" (engine_settings TWO_SLOTS)) (idle, PAIR) (stopping_loop, busy_table).
Proof.
  etransitivity; [exact busy_reached|]. etransitivity; [apply (one _ _ _ _ Signal), LStop|].
  apply (one _ _ _ _ Main). by apply LLeave.
Qed.

Lemma stopped_worker_ends_witness :
  phase stopping_loop = Draining [0%nat; 1%nat] (Some 60000200) /\ 0 <= steps_left (engine_settings TWO_SLOTS) stopping_loop
  /\ (exists s', loop_step first_error (fun _ => "sha") "w" (engine_settings TWO_SLOTS) Main (stopping_loop, busy_table) s').
Proof.
  pose proof (stopped_worker_ends first_error (fun _ => "sha") "w" TWO_SLOTS PAIR stopping_loop busy_table pair_free stopping_reached eq_refl)
    as (B & _ & [E|[S|(k & id & _ & F)]]).
  - discriminate E.
  - split; [reflexivity|]. split; [exact B|exact S].
  - destruct F.
Defined.

(** ** A job that is claimed again *)

(** Worker [w] runs job [a] and misses its heartbeats; another worker reaps the
    job, its user retries it, and [w] claims it before the next heartbeat. *)
Definition SINGLE : table := [queued_job "a" "web" 10].
Definition running_step : Step := MkStep "validate_request" "Validate request" 0 STEP_RUNNING 1 true None None None None None ∅.

Definition first_claim : Job := claim_row 100 "w" (queued_job "a" "web" 10).
Definition in_first_stage : Job := first_claim <| steps := [running_step] |>.
Definition reaped_job : Job := Eval vm_compute in default first_claim (row "a" (snd (reap_one 200000100 120000000 [] [] [in_first_stage]))).
Definition requeued_job : Job := Eval vm_compute in
  default first_claim (row "a" (snd (fst (retry_stages first_error None true None 200000200 reaped_job [reaped_job] [reaped_job])))).
Definition second_claim : Job := Eval vm_compute in claim_row 200000300 "w" requeued_job.

Definition first_loop : Loop := MkLoop [("a", 0%nat)] [(0%nat, "a")] [] 1 30000100 false Top [] false.
Definition second_loop : Loop := MkLoop [("a", 1%nat)] [(0%nat, "a"); (1%nat, "a")] [] 2 230000300 false Top [] true.

Notation sample_step := (step first_error (fun _ => "sha") "w" (engine_settings TWO_SLOTS)).

Lemma second_reached : rtc sample_step (idle, SINGLE) (second_loop, [second_claim]).
Proof.
  transitivity (first_loop, [first_claim]).
  { pose proof (round_steps first_error (fun _ => "sha") "w" (engine_settings TWO_SLOTS) 100 [] idle SINGLE eq_refl) as R.
    replace (round _ _ _ _ _) with (first_loop, [first_claim]) in R by (vm_compute; reflexivity). exact R. }
  transitivity (first_loop, [in_first_stage]).
  { apply (one _ _ _ _ Others), LOthers.
    apply (foreign_write first_error (fun _ => "sha") "w" first_claim in_first_stage [first_claim]); [vm_compute; reflexivity|].
    split; [reflexivity|]. split; [|done]. by repeat split. }
  transitivity (first_loop, [reaped_job]).
  { apply (one _ _ _ _ Others), LOthers. pose proof (foreign_reap first_error (fun _ => "sha") "w" 200000100 120000000 [] [] [in_first_stage]) as F.
    replace (snd _) with [reaped_job] in F by (vm_compute; reflexivity). exact F. }
  transitivity (first_loop, [requeued_job]).
  { apply (one _ _ _ _ Others), LOthers.
    pose proof (foreign_retry first_error (fun _ => "sha") "w" None true None 200000200 reaped_job [reaped_job] [reaped_job]) as F.
    replace (snd (fst _)) with [requeued_job] in F by (vm_compute; reflexivity). exact F. }
  pose proof (round_steps first_error (fun _ => "sha") "w" (engine_settings TWO_SLOTS) 200000300 [] first_loop [requeued_job] eq_refl) as R.
  replace (round _ _ _ _ _) with (second_loop, [second_claim]) in R by (vm_compute; reflexivity). exact R.
Qed.

(** Both coroutines run the job, each beating for the other (the row belongs to
    this worker).  When the older one ends, its callback takes the younger out
    of the books, and a shutdown then ends without interrupting it. *)
Lemma reclaimed_job_escapes :
  rtc sample_step (idle, SINGLE) (second_loop, [second_claim])
  /\ fst (heartbeat "a" "w" 200000400 [second_claim]) = Some false
  /\ exists l, rtc sample_step (second_loop, [second_claim]) (l, [second_claim])
       /\ phase l = Ended /\ coroutines l = [(1%nat, "a")] /\ tasks l = [] /\ held "w" [second_claim] "a" = true.
Proof.
  split; [exact second_reached|]. split; [vm_compute; reflexivity|].
  eexists. split; [|split_and!].
  - etransitivity; [apply (one _ _ _ _ Task), (LTask _ _ _ _ 0 "a" second_loop); [by left|right; exists 1%nat; split; [done|by right; left]]|].
    etransitivity; [apply (one _ _ _ _ Callback); by apply (LCallback _ _ _ _ "a" [])|].
    etransitivity; [apply (one _ _ _ _ Signal), LStop|]. apply (one _ _ _ _ Main). by apply (LLeave _ _ _ _ 200000500).
  - reflexivity.
  - reflexivity.
  - reflexivity.
  - vm_compute. reflexivity.
Qed.

(** ** A grace period of 0 *)

(** [timeout=self._shutdown_grace or None]: 0 is no limit.  Only the ends of the
    tasks themselves let such a worker end. *)
Lemma no_grace_waits reported fp worker settings l t s' ks :
  worker_shutdown_grace settings = 0 -> phase l = Draining ks (grace_deadline settings 0) -> existsb (alive l) ks = true ->
  ~ loop_step reported fp worker settings Main (l, t) s'.
Proof.
  unfold grace_deadline. intros -> P A S. cbn in P. inversion S as [| | | | | | | | | | | | | | |ks' d ? ? D F| | | | | | |]; subst; try congruence.
  rewrite P in D. injection D as -> _. rewrite forallb_forall in F. apply existsb_exists in A as (k & I & A).
  specialize (F k I). by rewrite A in F.
Qed.

(** ** Interrupted before its first stage *)

Lemma nothing_to_reset now why j :
  Forall (fun s => eligible_for_retry INTERRUPTED s = false) (steps j) -> fst (reset_for_retry 0 None (interrupt_row now why j)) = [].
Proof.
  intros F. unfold reset_for_retry.
  assert (E : List.filter (should_reset (interrupt_row now why j) None) (steps (interrupt_row now why j)) = []).
  { change (steps (interrupt_row now why j)) with (List.map (interrupt_step now why) (steps j)).
    induction F as [|s l E F IH]; [done|]. cbn [List.map List.filter]. rewrite IH. unfold should_reset, interrupt_step.
    change (job_status (interrupt_row now why j)) with INTERRUPTED.
    unfold eligible_for_retry in *. destruct (step_status s) eqn:St; cbn; rewrite ?St; done. }
  rewrite E. reflexivity.
Qed.

(** A job that is interrupted while no stage runs, as just after the claim, and
    has no failed one, cannot be retried, only cancelled. *)
Lemma interrupted_between_stages now why j t :
  Forall (fun s => eligible_for_retry INTERRUPTED s = false) (steps j) -> has_active_job_for_vm (vm_name j) (Some (job_id j)) t = false ->
  retry_plan true None (interrupt_row now why j) t = Err (validation_error "No failed stages were found to retry." [])
  /\ is_ok (cancel_plan (interrupt_row now why j)) = true.
Proof.
  intros F A. apply (nothing_to_reset now why) in F.
  assert (V : vm_name (interrupt_row now why j) = vm_name j) by reflexivity.
  assert (I : job_id (interrupt_row now why j) = job_id j) by reflexivity.
  assert (S : job_status (interrupt_row now why j) = INTERRUPTED) by reflexivity.
  generalize dependent (interrupt_row now why j). intros j' F V I S. split.
  - unfold retry_plan. rewrite S, V, I. cbn [retryable_status negb res_bind]. rewrite A.
    destruct (reset_for_retry 0 None j') as [reset j2]. cbn in F. by rewrite F.
  - unfold cancel_plan. rewrite S. cbn. by destruct (may_hold_unattended_media _).
Qed.
